(* ===== verification/_CoqProject ===== *)
-Q . S2P
Prelude.v
Text.v
Regex.v
Datetime.v
Sha256.v
Errors.v
Net.v
Url.v
UrlValidation.v
UrlTheorems.v
ProviderIdentity.v
IdentityTheorems.v
Tokens.v
Floats.v
Json.v
ByteProgress.v
Probe.v
Policy.v
Media.v
MuxPairing.v
Normalize.v
Selection.v
SelectionTheorems.v
States.v
Schema.v
Database.v
Lifecycle.v
Jobs.v
Premium.v
Quota.v
Intervals.v
Delivery.v
Snapshot.v
FormatCodec.v
MetadataCodec.v
Grants.v
GrantService.v
Promote.v
Authorize.v
PromoteTheorems.v
AuthorizeTheorems.v
Capabilities.v
Utf8.v
Filename.v
FilenameTheorems.v
Downloads.v
DownloadService.v
Reconcile.v
DownloadLifecycle.v
DownloadTheorems.v
DownloadServiceTheorems.v
RangeParse.v
Money.v
Payments.v
Http.v
Identity.v
ClientTheorems.v
Qsl.v
PaymentApi.v
PaymentApiTheorems.v
Resolution.v
ResolutionTheorems.v
Inspection.v
JobService.v
Worker.v
Tools.v
YtdlpParse.v
Executor.v
YtdlpTheorems.v
InspectionTheorems.v
JobServiceTheorems.v
WorkerTheorems.v
ExecutorTheorems.v
