(* ===== verification/Prelude.v ===== *)
(** * FetchNow: a verification library of the backend

    FetchNow is a service that inspects media URLs and downloads them for
    anonymous clients. A FastAPI process accepts requests, workers inspect and
    download, a delivery process streams finished artifacts, and all of them
    coordinate through one PostgreSQL database: leases with fence tokens, a
    Free-tier quota, a ledger of delivered bytes, payment orders and Premium
    entitlements. The code modelled here is under [backend/src/fetchnow/]; the
    paths below are relative to that directory. A definition that models code
    names it: [Source: path:first-last [symbol]].

    ** Parts, files and source

    What every component uses:
    - [Prelude]: the vocabulary; the effect monad [M S] (state, exceptions), its
      predicates [preserves], [returns] and [wp] with their rules; record update
      [r <| f := v |>]; SQL comparisons with NULL.
    - [Text], [Regex], [Datetime], [Sha256], [Floats], [Json], [Utf8]: what the
      code takes from Python - string methods and numerals, [re], [datetime],
      SHA-256 and HMAC (with published vectors), binary64 and its [repr], JSON
      documents and [json.dumps], UTF-8.
    - [Errors]: the typed errors of the packages as the sum [exn], with codes and
      HTTP statuses ([jobs/errors.py], [downloads/errors.py], [quota/errors.py],
      [payments/errors.py], ...).
    - [Policy]: settings and the effective policy ([quota/policy.py],
      [premium/policy.py]).

    URLs:
    - [Net]: the destination policy over [ipaddress], and name resolution
      ([url/destination.py], [url/dns.py]).
    - [Url], [UrlValidation], [UrlTheorems]: parsing over [urllib.parse], the
      provider registry, the pipeline ([url/parse.py], [url/providers.py],
      [url/validate.py]).
    - [ProviderIdentity], [IdentityTheorems]: the identity grammar
      ([url/provider_identity.py]).
    - [Resolution], [ResolutionTheorems]: wrapper resolution ([resolution/]).

    Inspection:
    - [Media], [MuxPairing], [Normalize]: drafts, public metadata, pairing
      ([media_inspection/models.py], [size_estimate.py], [mux_pairing.py],
      [normalize.py]).
    - [YtdlpParse], [YtdlpTheorems]: the document of the extractor and the adapter
      ([media_inspection/ytdlp_parse.py], [ytdlp_adapter.py]).
    - [Inspection], [InspectionTheorems]: identities, the registry, the service
      ([media_inspection/service.py]), and the rebuilt target
      ([jobs/target_rebuild.py]).
    - [MetadataCodec]: the metadata stored with a job ([jobs/metadata_codec.py]).
    - [JobService], [JobServiceTheorems]: the service behind the inspection
      endpoints ([jobs/service.py]).
    - [Worker], [WorkerTheorems]: one claimed inspection and the hygiene steps
      ([jobs/worker_loop.py]).

    The database:
    - [States]: the public state machines ([*/states.py], [downloads/progress.py]).
    - [Schema]: one record per table with the columns of its SQLAlchemy model,
      and the CHECK constraints as boolean functions ([*/models.py]).
    - [Database]: the database as a [World] of finite maps; selects, updates,
      inserts, deletes and savepoints as computations that check the
      constraints; the clock and the UUID supply.
    - [Lifecycle]: the interface between a repository and its specification. An
      instance of [Lifecycle] gives, for one table, what a row shows, the steps
      it may take, the invariant of a row and the columns that never change;
      [Operations] the calls that can happen. Its lemmas give reachability, the
      invariant of the table and refinement for any interleaving of the calls.
    - [Jobs]: inspection jobs ([jobs/repository.py]).
    - [Downloads], [DownloadLifecycle], [DownloadTheorems]: download jobs
      ([downloads/repository.py]) with the quota entry, ledger rows and grants
      each transition touches; their specification and theorems.
    - [Premium], [Quota], [Reconcile]: entitlements ([premium/]), the quota with
      its admission, and its reconciler ([quota/]).
    - [Intervals], [Delivery]: the ledger of delivered bytes
      ([quota/delivery.py]).
    - [Tokens], [Grants], [GrantService]: opaque credentials and cookies
      ([jobs/credentials.py], [quota/tokens.py],
      [downloads/browser_grant_tokens.py], [delivery/cookie_parse.py]), and
      browser grants ([downloads/grant_repository.py], [grant_service.py]).

    Downloads:
    - [Capabilities]: what is known of a provider ([capabilities/]).
    - [Selection], [SelectionTheorems]: the binding of an option id to a token
      ([downloads/selection.py], [format_token.py]).
    - [Filename], [FilenameTheorems]: suggested names ([downloads/filename.py]).
    - [Snapshot], [FormatCodec]: the format and the policy recorded with a job
      ([downloads/snapshot_codec.py], [premium_coherence.py]).
    - [DownloadService], [DownloadServiceTheorems]: the service behind the
      download endpoints ([downloads/service.py]).
    - [Promote], [PromoteTheorems]: promotion to Premium ([downloads/promote.py]).
    - [Tools], [Probe], [ByteProgress]: trusted executables, argument lists,
      checks of the files of a workspace, the verification by ffprobe, the
      percentage ([downloads/*_argv.py], [tool_executable.py],
      [ffprobe_parse.py], [byte_progress.py]).
    - [Executor], [ExecutorTheorems]: one download attempt
      ([downloads/executor.py]).
    - [Authorize], [AuthorizeTheorems], [RangeParse]: who may read an artifact
      ([delivery/service.py]), and which bytes ([delivery/range_parse.py]).

    Clients and payments:
    - [Http]: responses, the error envelope and the handler of uncaught
      exceptions ([core/errors.py]).
    - [Identity], [ClientTheorems]: anonymous identities ([quota/service.py]) and
      the endpoints that need nothing else ([api/v1/quota.py],
      [api/v1/premium.py]).
    - [Money], [Payments]: the sums of the gateway over Python's decimals, the
      catalog, receipts, signatures, orders and their specification ([payments/]).
    - [Qsl], [PaymentApi], [PaymentApiTheorems]: [parse_qsl] and the payment
      endpoints ([api/v1/payments.py]).

    The services call the repositories as the code does, in one computation per
    transaction. A client's theorems use the lemmas of what it calls; the
    repositories of jobs, downloads and orders go through [Lifecycle].

    ** What the theorems show

    - Life cycles (Jobs, DownloadTheorems, Payments): in every database reached
      by any interleaving of the operations, the CHECK and UNIQUE constraints
      and the invariants of the rows hold, rows never disappear, identity
      columns never change, and what a row shows moves along its specification.
      Leases end at most once, and a stale worker is locked out.
    - Work is not lost: [claim_next] takes the oldest claimable jobs, expiry and
      reclaiming are complete, the artifacts of expired jobs are all handed out
      for deletion.
    - Quota: admission stays within the limit; a reservation is settled with the
      publication in the compatibility mode and left for the delivery otherwise,
      where it is consumed exactly when every byte was observed; it is given back
      with a failure or a cancel.
    - Services: who may create, read, cancel, promote and open a download or an
      inspection, what each of them leaves in the database, and that a retry
      changes nothing.
    - Worker and executor: a claimed job is rewritten once, under its lease; an
      attempt follows one protocol of effects whatever its surroundings answer,
      and does nothing to the database once its lease is over.
    - URLs: what an accepted or resolved URL is made of, where it may lead, that
      resolution ends, and when the canonical URL of an identity names it again.
    - Selection: a resolved option is the offered stream or pair, and every
      offered option resolves.
    - Codecs and parsers: intervals, stored metadata, snapshots, the Range header,
      credentials, file names, forms, sums, probe documents, extractor documents.
    - Payments: an accepted callback pays its order and entitles its client
      exactly once; a client's cookie finds that client and no other.
    - A few theorems and examples state where the code departs from what it
      means to do, such as [paying_client_blocks_hygiene],
      [admitted_responses_can_exceed_fragment_bound],
      [retrying_stage_violates_check], [callback_sum_rounds_long_fractions],
      [superscript_range_crashes], [joined_title_is_refused],
      [blank_url_is_an_internal_error], [embed_identity_is_lost] and
      [paid_order_is_an_internal_error].

    ** Reading of the code

    - A repository call is atomic. The code takes row locks before it decides,
      so calls of different transactions are interleaved, not their statements.
      [FOR UPDATE SKIP LOCKED] takes the set of rows that another transaction
      holds as an argument of the call, and the theorems quantify over it.
      [begin_nested] is a savepoint: an exception restores the tables.
    - A statement that reads [clock_timestamp()] takes the next element of an
      arbitrary supply; theorems that need time to advance say so. Instants are
      microseconds. A caller's [now] is an argument.
    - UUIDs are numbers; [uuid4()] takes the next element of an arbitrary
      supply, so uniqueness is never assumed: a collision is an [IntegrityError].
    - ORDER BY sorts by the keys given; a select without one enumerates the
      finite map of the table.
    - Integers are unbounded, as in Python. The ranges of the INTEGER and BIGINT
      columns and the widths of VARCHAR columns are not modelled; constraints the
      schema states as CHECKs are.
    - A [string] or [list ascii] holds Latin-1 code points. File names, titles
      and form texts, which may hold any character, are lists of code points
      ([list N]); what the payment service gets of a form is its UTF-8 bytes.
    - JSON objects are lists of members in order of insertion; equality ignores
      the order, as Python's does.
    - [datetime.fromisoformat] follows the pure-Python reference; a [timedelta]
      of float seconds is defined for finite floats.
    - Awaits at which a task can be cancelled, and the interleaving of a wait
      with other tasks, are arguments: the outcome of the worker's waits, and the
      list of answers and events the executor's surroundings give.
    - Logging, metrics and audit lines have no effect on the state and are left
      out. An object whose field has a type other than the declared one is told
      apart where metadata is decoded ([UnexpectedError]) and not followed.

    ** Parameters

    Code that is not in the repository, as an argument of the definitions:
    - [Idna]: the IDNA encoding of hosts that are not ASCII; the resolver of host
      names ([getaddrinfo]).
    - [UnicodeData], with its documented laws [UnicodeLaws]: NFC and the general
      categories.
    - [json_loads], for the documents of ffprobe and yt-dlp.
    - The wrapper resolvers and the extractors: records of functions.
    - The operating system: attributes of paths, entries of directories, exit and
      output of a tool ([Surroundings] of the executor, [ExtractAnswers] of the
      extractor), random bytes of tokens, class names of foreign exceptions.

    ** Fuel

    - [Text.digits] runs [digits_fuel] with one unit more than the binary
      logarithm, an upper bound of the number of decimal digits
      ([digits_fuel_spec]); [Text.replace_all], the decoders of [Utf8] and
      [Sha256.blocks] take the length of their input, of which each turn consumes
      something.
    - [Json.shortest] tries precisions up to 17 digits, which always identify a
      binary64 number.
    - [Resolution.chain_loop] runs [S max_depth] turns; [resolution_terminates]
      shows that more fuel changes nothing.

    Every other recursion is structural.

    ** Not modelled

    - The remaining HTTP layers ([api/main.py], the job and download routes,
      [delivery/main.py], [delivery/routes.py], [core/middleware.py]): routing,
      status mapping and headers around services that are modelled.
    - Loading of settings, logging, and database sessions ([core/config.py],
      [core/logging.py], [db/]).
    - The file-system and process calls themselves ([downloads/artifacts.py] and
      [media_inspection/process.py] beyond their checks,
      [downloads/process_download.py], [delivery/reader.py], [delivery/stream.py]):
      their answers are arguments.
    - The network client and the scraping of preview pages ([network/client.py],
      [resolution/yandex_preview.py]).
    - The polling loop, signals and shutdown of the worker ([worker.py]).
    - Scripts, migrations and the web client. *)

From stdpp Require Export base tactics numbers list gmap strings option sorting fin_maps.
From Stdlib Require Export ZArith Lia Ascii.

#[export] Set Warnings "-clear-no-such-hyp,-comment-terminator-in-string".

Declare Scope fn_scope.
Delimit Scope fn_scope with fn.
#[global] Open Scope Z_scope.
#[global] Open Scope fn_scope.

Create HintDb fetchnow discriminated.

(** ** Basic vocabulary *)

(** A UUID is compared and stored by value: a 128-bit number. *)
Abbreviation uid := N (only parsing).

(** Wall-clock instants and durations, in microseconds. *)
Abbreviation time := Z (only parsing).

Definition seconds (n : Z) : time := n * 1000000.

(** Raw byte strings (digests). *)
Abbreviation bytes := (list Byte.byte) (only parsing).

#[export] Instance byte_eq_dec : EqDecision Byte.byte := Byte.byte_eq_dec.

(** Python's [x is not None] and [x is None]. *)
Definition is_some {A} (o : option A) : bool := match o with Some _ => true | None => false end.
Definition is_none {A} (o : option A) : bool := negb (is_some o).

Lemma is_some_true {A} (o : option A) : is_some o = true <-> exists a, o = Some a.
Proof. destruct o; split; [eauto|done|done|intros [? ?]; done]. Qed.

Lemma is_none_true {A} (o : option A) : is_none o = true <-> o = None.
Proof. destruct o; cbn; split; done. Qed.

(** Equality test of two optional values against a present one, as SQL's
    [col = v]: a NULL column never matches. *)
Definition sql_eq {A} `{EqDecision A} (o : option A) (v : A) : bool :=
  match o with Some x => bool_decide (x = v) | None => false end.

(** SQL's [col > v] and [col <= v] on a nullable instant. *)
Definition sql_gt (o : option time) (v : time) : bool :=
  match o with Some x => v <? x | None => false end.
Definition sql_le (o : option time) (v : time) : bool :=
  match o with Some x => x <=? v | None => false end.

(** [len(s)] of a string, and [c in s] for a one-character [c]. *)
Definition strlen (s : string) : Z := Z.of_nat (String.length s).
Fixpoint str_mem (c : Ascii.ascii) (s : string) : bool :=
  match s with
  | EmptyString => false
  | String a s' => Ascii.eqb a c || str_mem c s'
  end.
Arguments str_mem c%_char_scope s%_string_scope.

(** ** Lists filtered by a boolean test *)

Lemma lfilter_perm {A} (p : A -> bool) l l' :
  l ≡ₚ l' -> List.filter p l ≡ₚ List.filter p l'.
Proof.
  induction 1; cbn; repeat case_match; try done; [by constructor|by constructor|by etrans].
Qed.

Lemma lfilter_lfilter {A} (p q : A -> bool) l :
  List.filter p (List.filter q l) = List.filter (fun x => q x && p x) l.
Proof. induction l as [|x l IH]; cbn; [done|]. destruct (q x); cbn; [destruct (p x)|]; by rewrite ?IH. Qed.

Lemma lfilter_all {A} (p : A -> bool) l : (forall x, x ∈ l -> p x = true) -> List.filter p l = l.
Proof.
  induction l as [|x l IH]; cbn; [done|]. intros Hp. rewrite Hp by left. f_equal.
  apply IH. intros y Hy. apply Hp. by right.
Qed.

Lemma lfilter_none {A} (p : A -> bool) l : (forall x, x ∈ l -> p x = false) -> List.filter p l = [].
Proof.
  induction l as [|x l IH]; cbn; [done|]. intros Hp. rewrite Hp by left.
  apply IH. intros y Hy. apply Hp. by right.
Qed.

Lemma lfilter_length_le {A} (p : A -> bool) l : (length (List.filter p l) <= length l)%nat.
Proof. induction l as [|x l IH]; cbn; [done|]. destruct (p x); cbn; lia. Qed.

(** ** Functional record update

    [r <| f := v |>] is the record [r] with field [f] replaced by [v], as an
    ORM attribute assignment or a [values(f=v)] clause writes it. A record
    becomes updatable by an [Eta] instance that rebuilds it field by field. *)
Class Eta (R : Type) := eta : R -> R.
Class Setter {R T} (proj : R -> T) := set_field : (T -> T) -> R -> R.
Arguments set_field {R T} proj {_} f r /.

Ltac find_setter :=
  match goal with
  | |- @Setter ?R ?T ?proj =>
      let e := eval cbv delta [eta] in (@eta R _) in
      let e := eval cbv beta in e in
      match e with
      | ?c => let e' := eval unfold c in c in
              match eval pattern proj in e' with
              | ?g _ => exact (fun f => g (fun r => f (proj r)))
              end
      end
  end.
#[export] Hint Extern 1 (Setter _) => find_setter : typeclass_instances.

Notation "r '<|' f ':=' v '|>'" := (set_field f (fun _ => v) r)
  (at level 1, left associativity, f at level 0, v at level 200) : fn_scope.

(** ** Error-and-state monad

    A computation takes a state and returns either a raised error or a value,
    together with the state it leaves: a raised error keeps the writes made
    before it, and only a savepoint takes them back. *)
Section Monad.
Context {S E : Type}.

Definition M (A : Type) : Type := S -> (E + A) * S.

Definition ret {A} (a : A) : M A := fun s => (inr a, s).
Definition raise {A} (e : E) : M A := fun s => (inl e, s).
Definition bind {A B} (m : M A) (k : A -> M B) : M B := fun s =>
  match m s with
  | (inr a, s') => k a s'
  | (inl e, s') => (inl e, s')
  end.
Definition gets {A} (f : S -> A) : M A := fun s => (inr (f s), s).
Definition modify (f : S -> S) : M unit := fun s => (inr tt, f s).

(** [if c: raise e] *)
Definition raise_when (c : bool) (e : E) : M unit := if c then raise e else ret tt.

(** A fallible pure computation used inside an effectful one. *)
Definition lift {A} (r : E + A) : M A := fun s => (r, s).

(** [for x in l: acc = f(acc, x)] *)
Fixpoint fold_m {A B} (f : B -> A -> M B) (acc : B) (l : list A) : M B :=
  match l with
  | [] => ret acc
  | x :: l' => bind (f acc x) (fun acc' => fold_m f acc' l')
  end.

(** [[f(x) for x in l]] *)
Fixpoint map_m {A B} (f : A -> M B) (l : list A) : M (list B) :=
  match l with
  | [] => ret []
  | x :: l' => bind (f x) (fun y => bind (map_m f l') (fun ys => ret (y :: ys)))
  end.

Definition for_each {A} (f : A -> M unit) (l : list A) : M unit :=
  fold_m (fun _ x => f x) tt l.

(** [try: m except p: h] where [p] recognises the handled errors. *)
Definition try_catch {A} (m : M A) (h : E -> option (M A)) : M A := fun s =>
  match m s with
  | (inl e, s') => match h e with Some k => k s' | None => (inl e, s') end
  | (inr a, s') => (inr a, s')
  end.

(** *** Invariants: [m] keeps [I] whether it returns or raises. *)
Definition preserves {A} (I : S -> Prop) (m : M A) : Prop :=
  forall s, I s -> I (m s).2.

(** *** Total correctness: from [P], [m] returns a value and ends in [Q]. *)
Definition returns {A} (P : S -> Prop) (m : M A) (Q : A -> S -> Prop) : Prop :=
  forall s, P s -> exists a s', m s = (inr a, s') /\ Q a s'.

Lemma bind_ret {A B} (a : A) (k : A -> M B) s : bind (ret a) k s = k a s.
Proof. done. Qed.

Lemma bind_run {A B} (m : M A) (k : A -> M B) s a s' : m s = (inr a, s') -> bind m k s = k a s'.
Proof. unfold bind. by intros ->. Qed.

Lemma pair_run {A} (m : M A) s a : (m s).1 = inr a -> m s = (inr a, (m s).2).
Proof. intros <-. apply surjective_pairing. Defined.

Lemma bind_assoc {A B C} (m : M A) (k : A -> M B) (h : B -> M C) s :
  bind (bind m k) h s = bind m (fun a => bind (k a) h) s.
Proof. unfold bind. by destruct (m s) as [[e|a] s']. Qed.

Lemma bind_inr {A B} (m : M A) (k : A -> M B) s b s' :
  bind m k s = (inr b, s') <-> exists a s1, m s = (inr a, s1) /\ k a s1 = (inr b, s').
Proof.
  unfold bind. destruct (m s) as [[e|a] s1]; split.
  - done.
  - intros (? & ? & ? & ?); done.
  - eauto.
  - intros (? & ? & ? & ?); by simplify_eq.
Qed.

Lemma bind_inl {A B} (m : M A) (k : A -> M B) s e s' :
  bind m k s = (inl e, s') <->
  m s = (inl e, s') \/ exists a s1, m s = (inr a, s1) /\ k a s1 = (inl e, s').
Proof.
  unfold bind. destruct (m s) as [[e'|a] s1]; split.
  - intros; simplify_eq; eauto.
  - intros [?|(? & ? & ? & ?)]; by simplify_eq.
  - eauto.
  - intros [?|(? & ? & ? & ?)]; by simplify_eq.
Qed.

Lemma preserves_ret {A} I (a : A) : preserves I (ret a).
Proof. by intros s ?. Qed.
Lemma preserves_raise {A} I e : preserves (A := A) I (raise e).
Proof. by intros s ?. Qed.
Lemma preserves_lift {A} I (r : E + A) : preserves I (lift r).
Proof. by intros s ?. Qed.
Lemma preserves_gets {A} I (f : S -> A) : preserves I (gets f).
Proof. by intros s ?. Qed.
Lemma preserves_raise_when I c e : preserves I (raise_when c e).
Proof. by destruct c; intros s ?. Qed.

Lemma preserves_bind {A B} I (m : M A) (k : A -> M B) :
  preserves I m -> (forall a, preserves I (k a)) -> preserves I (bind m k).
Proof.
  intros Hm Hk s Hs. unfold bind. specialize (Hm s Hs).
  destruct (m s) as [[e|a] s']; [done|]. by apply Hk.
Qed.

(** The continuation only has to keep the invariant at values [m] can return. *)
Lemma preserves_bind_val {A B} I (m : M A) (k : A -> M B) (V : A -> Prop) :
  preserves I m ->
  (forall s a s', I s -> m s = (inr a, s') -> V a) ->
  (forall a, V a -> preserves I (k a)) -> preserves I (bind m k).
Proof.
  intros Hm HV Hk s Hs. unfold bind. pose proof (Hm s Hs) as Hs'.
  destruct (m s) as [[e|a] s'] eqn:Em; [done|].
  apply Hk; [eapply (HV s); eauto | exact Hs'].
Qed.

Lemma preserves_fold_m {A B} I (f : B -> A -> M B) l acc :
  (forall b a, preserves I (f b a)) -> preserves I (fold_m f acc l).
Proof.
  intros Hf. revert acc. induction l as [|x l IH]; intros acc; cbn.
  - apply preserves_ret.
  - apply preserves_bind; [apply Hf | intros b; apply IH].
Qed.

Lemma preserves_map_m {A B} I (f : A -> M B) l :
  (forall a, preserves I (f a)) -> preserves I (map_m f l).
Proof.
  intros Hf. induction l as [|x l IH]; cbn.
  - apply preserves_ret.
  - apply preserves_bind; [apply Hf|intros y]. apply preserves_bind; [apply IH|intros ys].
    apply preserves_ret.
Qed.

Lemma preserves_for_each {A} I (f : A -> M unit) l :
  (forall a, preserves I (f a)) -> preserves I (for_each f l).
Proof. intros Hf. apply preserves_fold_m. intros _ a. apply Hf. Qed.

Lemma preserves_try_catch {A} I (m : M A) h :
  preserves I m -> (forall e k, h e = Some k -> preserves I k) ->
  preserves I (try_catch m h).
Proof.
  intros Hm Hh s Hs. unfold try_catch. specialize (Hm s Hs).
  destruct (m s) as [[e|a] s']; [|done].
  destruct (h e) as [k|] eqn:Eh; [|done]. by eapply Hh.
Qed.

Lemma returns_bind {A B} P (m : M A) Q (k : A -> M B) R :
  returns P m Q -> (forall a, returns (Q a) (k a) R) -> returns P (bind m k) R.
Proof.
  intros Hm Hk s Hs. destruct (Hm s Hs) as (a & s1 & E1 & HQ).
  destruct (Hk a s1 HQ) as (b & s2 & E2 & HR).
  exists b, s2. split; [|done]. apply bind_inr. eauto.
Qed.

(** *** Weakest preconditions: from [s], [m] either returns [a] in a state of
    [Q a] or raises [e] in a state of [X e]. *)
Definition wp {A} (m : M A) (Q : A -> S -> Prop) (X : E -> S -> Prop) (s : S) : Prop :=
  match m s with
  | (inr a, s') => Q a s'
  | (inl e, s') => X e s'
  end.

Lemma wp_mono {A} (m : M A) Q Q' X X' s :
  wp m Q X s -> (forall a s', Q a s' -> Q' a s') -> (forall e s', X e s' -> X' e s') ->
  wp m Q' X' s.
Proof. unfold wp. destruct (m s) as [[e|a] s']; auto. Qed.

Lemma wp_ret {A} (a : A) Q X s : Q a s -> wp (ret a) Q X s.
Proof. done. Qed.
Lemma wp_raise {A} e (Q : A -> S -> Prop) X s : X e s -> wp (raise e) Q X s.
Proof. done. Qed.
Lemma wp_gets {A} (f : S -> A) Q X s : Q (f s) s -> wp (gets f) Q X s.
Proof. done. Qed.
Lemma wp_bind {A B} (m : M A) (k : A -> M B) Q X s :
  wp m (fun a => wp (k a) Q X) X s -> wp (bind m k) Q X s.
Proof. unfold wp, bind. by destruct (m s) as [[e|a] s']. Qed.
Lemma wp_raise_when c e Q X s :
  (c = true -> X e s) -> (c = false -> Q tt s) -> wp (raise_when c e) Q X s.
Proof. destruct c; cbv; auto. Qed.
Lemma wp_lift {A} (r : E + A) Q X s :
  (forall e, r = inl e -> X e s) -> (forall a, r = inr a -> Q a s) -> wp (lift r) Q X s.
Proof. destruct r; cbv; auto. Qed.
Lemma wp_try_catch {A} (m : M A) h Q X s :
  wp m Q (fun e s' => match h e with Some k => wp k Q X s' | None => X e s' end) s ->
  wp (try_catch m h) Q X s.
Proof.
  unfold wp, try_catch. destruct (m s) as [[e|a] s']; [|done]. by destruct (h e).
Qed.

Lemma preserves_wp {A} I (m : M A) :
  (forall s, I s -> wp m (fun _ => I) (fun _ => I) s) -> preserves I m.
Proof. intros Hw s Hs. specialize (Hw s Hs). unfold wp in Hw. by destruct (m s) as [[e|a] s']. Qed.

Lemma wp_preserves {A} I (m : M A) s :
  preserves I m -> I s -> wp m (fun _ => I) (fun _ => I) s.
Proof. intros Hm Hs. specialize (Hm s Hs). unfold wp. by destruct (m s) as [[e|a] s']. Qed.

(** A loop keeps an invariant indexed by the elements left. *)
Lemma wp_map_m {A B} (J : list A -> S -> Prop) (f : A -> M B) (X : E -> S -> Prop) :
  (forall x l s, J (x :: l) s -> wp (f x) (fun _ => J l) X s) ->
  forall l s, J l s -> wp (map_m f l) (fun _ => J []) X s.
Proof.
  intros Hf l. induction l as [|x l IH]; intros s HJ; [done|].
  cbn [map_m]. apply wp_bind. eapply wp_mono; [by apply Hf| |done].
  intros y s' HJ'. apply wp_bind. eapply wp_mono; [by apply IH| |done].
  intros ys s'' HJ''. by apply wp_ret.
Qed.

(** A loop with an accumulator keeps an invariant of both. *)
Lemma wp_fold_m {A B} (J : B -> S -> Prop) (f : B -> A -> M B) (X : E -> S -> Prop) :
  (forall b x s, J b s -> wp (f b x) J X s) ->
  forall l b s, J b s -> wp (fold_m f b l) J X s.
Proof.
  intros Hf l. induction l as [|x l IH]; intros b s HJ; [done|].
  cbn [fold_m]. apply wp_bind. eapply wp_mono; [by apply Hf| |done]. intros b' s'. apply IH.
Qed.

Lemma wp_for_each {A} (J : list A -> S -> Prop) (f : A -> M unit) (X : E -> S -> Prop) :
  (forall x l s, J (x :: l) s -> wp (f x) (fun _ => J l) X s) ->
  forall l s, J l s -> wp (for_each f l) (fun _ => J []) X s.
Proof.
  intros Hf l. unfold for_each. induction l as [|x l IH]; intros s HJ; [done|].
  cbn [fold_m]. apply wp_bind. eapply wp_mono; [by apply Hf| |done].
  intros [] s' HJ'. by apply IH.
Qed.
End Monad.

Arguments M : clear implicits.

#[global] Hint Resolve preserves_ret preserves_raise preserves_lift preserves_gets
  preserves_raise_when : fetchnow.

Notation "'let*' x ':=' m 'in' k" := (bind m (fun x => k))
  (at level 10, x pattern, m at level 200, k at level 200) : fn_scope.
Notation "m ';;;' k" := (bind m (fun _ => k))
  (at level 199, k at level 200, right associativity) : fn_scope.

(** ** Errors without state *)

Section Result.
Context {E : Type}.

Definition err_bind {A B} (r : E + A) (k : A -> E + B) : E + B :=
  match r with inl e => inl e | inr a => k a end.

(** [if c: raise e] *)
Definition raise_if (c : bool) (e : E) : E + unit := if c then inl e else inr tt.

(** An optional value that must be there. *)
Definition need {A} (o : option A) (e : E) : E + A :=
  match o with Some a => inr a | None => inl e end.

(** [[f(x) for x in l]] *)
Fixpoint err_map {A B} (f : A -> E + B) (l : list A) : E + list B :=
  match l with
  | [] => inr []
  | x :: l => err_bind (f x) (fun y => err_bind (err_map f l) (fun ys => inr (y :: ys)))
  end.

Lemma err_bind_inr {A B} (r : E + A) (k : A -> E + B) b :
  err_bind r k = inr b <-> exists a, r = inr a /\ k a = inr b.
Proof. split; [destruct r; [done|eauto]|by intros (a & -> & Ek)]. Qed.

Lemma err_bind_inl {A B} (r : E + A) (k : A -> E + B) e :
  err_bind r k = inl e <-> r = inl e \/ exists a, r = inr a /\ k a = inl e.
Proof. split; [destruct r; cbn; intros; [left; congruence|right; eauto]|by intros [->|(a & -> & Ek)]]. Qed.

Lemma raise_if_inr c e u : raise_if c e = inr u <-> c = false.
Proof. by destruct c, u. Qed.

Lemma raise_if_inl c e e' : raise_if c e = inl e' <-> c = true /\ e = e'.
Proof. split; [destruct c; [by intros [= ->]|done]|by intros [-> ->]]. Qed.

Lemma need_inr {A} (o : option A) e a : need o e = inr a <-> o = Some a.
Proof. split; [destruct o; [by intros [= ->]|done]|by intros ->]. Qed.

(** What a computation returns and what it raises. *)
Definition outcome {A} (r : E + A) (Q : A -> Prop) (X : E -> Prop) : Prop :=
  match r with inl e => X e | inr a => Q a end.

Lemma outcome_mono {A} (r : E + A) (Q Q' : A -> Prop) (X X' : E -> Prop) :
  (forall a, Q a -> Q' a) -> (forall e, X e -> X' e) -> outcome r Q X -> outcome r Q' X'.
Proof. intros HQ HX. destruct r; cbn; auto. Qed.

Lemma outcome_bind {A B} (r : E + A) (k : A -> E + B) Q X :
  outcome r (fun a => outcome (k a) Q X) X -> outcome (err_bind r k) Q X.
Proof. by destruct r. Qed.

Lemma outcome_raise_if c e (Q : unit -> Prop) X :
  (c = true -> X e) -> (c = false -> Q tt) -> outcome (raise_if c e) Q X.
Proof. destruct c; cbn; auto. Qed.

Lemma outcome_need {A} (o : option A) e (Q : A -> Prop) X :
  (o = None -> X e) -> (forall a, o = Some a -> Q a) -> outcome (need o e) Q X.
Proof. destruct o; cbn; auto. Qed.

Lemma outcome_err_map {A B} (f : A -> E + B) l (Q : B -> Prop) X :
  (forall x, outcome (f x) Q X) -> outcome (err_map f l) (Forall Q) X.
Proof.
  intros Hf. induction l as [|x l IH]; cbn; [by constructor|]. apply outcome_bind.
  eapply outcome_mono; [..|apply Hf]; [|done]. cbn. intros y Hy. apply outcome_bind.
  eapply outcome_mono; [..|exact IH]; [|done]. intros ys Hys. by constructor.
Qed.
End Result.

Notation "'let?' x ':=' m 'in' k" := (err_bind m (fun x => k))
  (at level 10, x pattern, m at level 200, k at level 200) : fn_scope.
Notation "m ';;?' k" := (err_bind m (fun _ => k))
  (at level 199, k at level 200, right associativity) : fn_scope.

(** Takes a successful pure computation apart: [H : let? x := r in k = inr _]. *)
Ltac ok_step H :=
  first
    [ let a := fresh "v" in apply err_bind_inr in H; destruct H as (a & ?H & H)
    | apply raise_if_inr in H
    | apply need_inr in H ].

(** Splits an [outcome] goal along the structure of the computation. *)
Ltac outcome_step :=
  lazymatch goal with
  | |- outcome (err_bind _ _) _ _ => apply outcome_bind
  | |- outcome (raise_if _ _) _ _ => apply outcome_raise_if; intros ?
  | |- outcome (need _ _) _ _ => apply outcome_need; intros
  | |- outcome (if ?c then _ else _) _ _ => destruct c eqn:?
  | |- outcome (match ?x with _ => _ end) _ _ => destruct x eqn:?
  | |- outcome (inr _) _ _ => cbn [outcome]
  | |- outcome (inl _) _ _ => cbn [outcome]
  end.

(** Splits a [preserves] goal along the structure of the computation. *)
Ltac preserves_step :=
  first
    [ progress eauto with fetchnow nocore
    | apply preserves_bind; [|intros ?]
    | apply preserves_fold_m; intros ? ?
    | apply preserves_for_each; intros ?
    | apply preserves_map_m; intros ?
    | match goal with
      | |- preserves _ (match ?x with _ => _ end) => destruct x eqn:?
      | |- preserves _ (if ?x then _ else _) => destruct x eqn:?
      | |- preserves _ (let '(_, _) := ?x in _) => destruct x eqn:?
      end ].
Ltac solve_preserves := repeat preserves_step.

(** Symbolic execution of one bind in a hypothesis [m s = (inr _, _)]. *)
Ltac step_in H :=
  let a := fresh "v" in let s := fresh "s" in
  apply bind_inr in H; destruct H as (a & s & ?H & H).

(** Symbolic execution of a [wp] goal along the structure of the computation. *)
Ltac wp_step :=
  lazymatch goal with
  | |- wp (bind _ _) _ _ _ => apply wp_bind
  | |- wp (ret _) _ _ _ => apply wp_ret
  | |- wp (raise _) _ _ _ => apply wp_raise
  | |- wp (gets _) _ _ _ => apply wp_gets
  | |- wp (raise_when _ _) _ _ _ => apply wp_raise_when; intros ?
  | |- wp (lift _) _ _ _ => apply wp_lift; intros ? ?
  | |- wp (try_catch _ _) _ _ _ => apply wp_try_catch
  | |- wp (if ?c then _ else _) _ _ _ => destruct c eqn:?
  | |- wp (match ?x with _ => _ end) _ _ _ => destruct x eqn:?
  end.

(** Boolean tests to propositions. *)
Ltac propify :=
  repeat match goal with
  | H : (_ && _)%bool = true |- _ => apply andb_true_iff in H; destruct H
  | H : (_ || _)%bool = false |- _ => apply orb_false_iff in H; destruct H
  | H : negb _ = true |- _ => apply negb_true_iff in H
  | H : negb _ = false |- _ => apply negb_false_iff in H
  | H : bool_decide _ = true |- _ => apply bool_decide_eq_true in H
  | H : bool_decide _ = false |- _ => apply bool_decide_eq_false in H
  | H : (_ <? _) = true |- _ => apply Z.ltb_lt in H
  | H : (_ <? _) = false |- _ => apply Z.ltb_ge in H
  | H : (_ <=? _) = true |- _ => apply Z.leb_le in H
  | H : (_ <=? _) = false |- _ => apply Z.leb_gt in H
  | H : (_ =? _) = true |- _ => apply Z.eqb_eq in H
  | H : (_ =? _) = false |- _ => apply Z.eqb_neq in H
  end.

(** Resolves the tests of optional columns. *)
Ltac destruct_opts :=
  repeat match goal with
  | H : is_none ?x = true |- _ => destruct x; [discriminate H|clear H]
  | H : is_some ?x = true |- _ => destruct x; [clear H|discriminate H]
  | H : sql_eq ?x _ = true |- _ => destruct x; [cbn in H|discriminate H]
  | H : sql_gt ?x _ = true |- _ => destruct x; [cbn in H|discriminate H]
  | H : sql_le ?x _ = true |- _ => destruct x; [cbn in H|discriminate H]
  end.

(** Closes a conjunction of boolean tests from their parts. *)
Ltac solve_bools :=
  repeat (apply andb_true_intro; split);
  try reflexivity; try assumption;
  try (apply bool_decide_eq_true_2; assumption);
  try (first [apply Z.leb_le | apply Z.ltb_lt | apply Z.eqb_eq]; lia).
