(* ===== verification/Text.v ===== *)
(** Text as Python's string methods see it: character classes, trimming,
    splitting, replacement, numerals.

    A string holds one character per code point below 256; the code handles
    header values (Latin-1) and encoded text with them. *)

From S2P Require Export Prelude.

Local Open Scope string_scope.
Local Open Scope list_scope.
Local Open Scope Z_scope.

(** ** Characters *)

Definition in_range (lo hi : Z) (c : Ascii.ascii) : bool :=
  let n := Z.of_N (Ascii.N_of_ascii c) in (lo <=? n) && (n <=? hi).
Definition is_alnum (c : Ascii.ascii) : bool := in_range 48 57 c || in_range 65 90 c || in_range 97 122 c.
Definition is_hex (c : Ascii.ascii) : bool := in_range 48 57 c || in_range 65 70 c || in_range 97 102 c.
Definition is_one_of (s : string) (c : Ascii.ascii) : bool := str_mem c s.
Definition all_chars (p : Ascii.ascii -> bool) (s : string) : bool :=
  forallb p (String.list_ascii_of_string s).

(** [str.lower] *)
Definition lower_char (c : Ascii.ascii) : Ascii.ascii :=
  if in_range 65 90 c || (in_range 192 222 c && negb (Ascii.eqb c "215"%char)) then Ascii.ascii_of_N (Ascii.N_of_ascii c + 32) else c.
Definition lower (s : string) : string :=
  String.string_of_list_ascii (lower_char <$> String.list_ascii_of_string s).


(** ** Trimming and replacing *)

Definition char_in (c : ascii) (l : list ascii) : bool := existsb (Ascii.eqb c) l.

(** [s.replace(pat, by)]: every occurrence, left to right, without overlap. *)
Fixpoint replace_all_aux (fuel : nat) (pat by_ s : string) : string :=
  match fuel, s with
  | S n, String c s' =>
      if String.prefix pat s
      then by_ ++ replace_all_aux n pat by_
             (String.substring (String.length pat) (String.length s - String.length pat) s)
      else String c (replace_all_aux n pat by_ s')
  | _, _ => s
  end.
Definition replace_all (pat by_ s : string) : string :=
  replace_all_aux (String.length s) pat by_ s.

Definition chars (s : string) : list ascii := String.list_ascii_of_string s.
Definition of_chars (l : list ascii) : string := String.string_of_list_ascii l.

(** [l.strip(set)] *)
Fixpoint lstrip (set : ascii -> bool) (l : list ascii) : list ascii :=
  match l with
  | c :: l' => if set c then lstrip set l' else l
  | [] => []
  end.
Definition strip (set : ascii -> bool) (l : list ascii) : list ascii :=
  reverse (lstrip set (reverse (lstrip set l))).

Definition is_nil {A} (l : list A) : bool := match l with [] => true | _ => false end.

(** [str.isspace] on Latin-1. *)
Definition is_space (c : ascii) : bool :=
  let n := N_of_ascii c in
  ((9 <=? n) && (n <=? 13) || (28 <=? n) && (n <=? 32) || (n =? 133) || (n =? 160))%N.

(** [s.split(c, 1)]: what is before the first [c], and what is after it if there
    is one. *)
Fixpoint split_once (sep : ascii) (l : list ascii) : list ascii * option (list ascii) :=
  match l with
  | [] => ([], None)
  | c :: l =>
      if Ascii.eqb c sep then ([], Some l)
      else let '(before, after) := split_once sep l in (c :: before, after)
  end.

(** [s.split(c)] *)
Fixpoint split_on (sep : ascii) (l : list ascii) : list (list ascii) :=
  match l with
  | [] => [[]]
  | c :: l =>
      if Ascii.eqb c sep then [] :: split_on sep l
      else match split_on sep l with
           | part :: parts => (c :: part) :: parts
           | [] => [[c]]
           end
  end.

(** [s.startswith(prefix)] and [s[len(prefix):]]. *)
Fixpoint strip_prefix (prefix l : list ascii) : option (list ascii) :=
  match prefix, l with
  | [], _ => Some l
  | p :: prefix, c :: l => if Ascii.eqb p c then strip_prefix prefix l else None
  | _ :: _, [] => None
  end.

Lemma split_once_app sep l rest :
  (forall c, c ∈ l -> Ascii.eqb c sep = false) ->
  split_once sep (l ++ sep :: rest) = (l, Some rest).
Proof.
  induction l as [|c l IH]; intros Hl; cbn.
  - by rewrite Ascii.eqb_refl.
  - rewrite Hl by set_solver. rewrite IH by set_solver. done.
Qed.

Lemma split_once_none sep l :
  (forall c, c ∈ l -> Ascii.eqb c sep = false) -> split_once sep l = (l, None).
Proof.
  induction l as [|c l IH]; intros Hl; cbn; [done|].
  rewrite Hl by set_solver. rewrite IH by set_solver. done.
Qed.

Lemma split_once_inv sep l before after :
  split_once sep l = (before, after) ->
  l = before ++ match after with Some rest => sep :: rest | None => [] end.
Proof.
  revert before. induction l as [|c l IH]; intros before E; cbn in E; [by injection E as <- <-|].
  destruct (Ascii.eqb_spec c sep) as [->|].
  - by injection E as <- <-.
  - destruct (split_once sep l) as [b a]. injection E as <- <-. cbn. f_equal. by apply IH.
Qed.

Definition hex_digit (c : ascii) : option Z :=
  let n := Z.of_N (N_of_ascii c) in
  if (48 <=? n) && (n <=? 57) then Some (n - 48)
  else if (97 <=? n) && (n <=? 102) then Some (n - 87)
  else if (65 <=? n) && (n <=? 70) then Some (n - 55)
  else None.

(** The digits of an integer literal: single underscores between digits. *)
Fixpoint hex_digits (acc : Z) (last_underscore : bool) (l : list ascii) : option Z :=
  match l with
  | [] => if last_underscore then None else Some acc
  | c :: l' =>
      if Ascii.eqb c "_"%char then if last_underscore then None else hex_digits acc true l'
      else match hex_digit c with
           | Some d => hex_digits (acc * 16 + d) false l'
           | None => None
           end
  end.

(** [int(s, 16)] for a string without a minus sign. *)
Definition int_base16 (l : list ascii) : option Z :=
  let l := strip is_space l in
  let l := match l with c :: l' => if Ascii.eqb c "+"%char then l' else l | [] => l end in
  match l with
  | a :: b :: l' =>
      if Ascii.eqb a "0"%char && (Ascii.eqb b "x"%char || Ascii.eqb b "X"%char)
      then
        match l' with
        | c :: l'' =>
            let l' := if Ascii.eqb c "_"%char then l'' else l' in
            match l' with [] => None | _ => hex_digits 0 true l' end
        | [] => None
        end
      else hex_digits 0 true l
  | [] => None
  | _ => hex_digits 0 true l
  end.

(** ** Decimal numerals *)

Definition is_digit (c : Ascii.ascii) : bool :=
  let n := Z.of_N (Ascii.N_of_ascii c) in (48 <=? n) && (n <=? 57).
Definition digit_value (c : Ascii.ascii) : Z := Z.of_N (Ascii.N_of_ascii c) - 48.
Definition digit_char (d : Z) : Ascii.ascii := Ascii.ascii_of_N (Z.to_N (48 + d)).

(** The digits of [n], most significant first. One unit of fuel per digit. *)
Fixpoint digits_fuel (fuel : nat) (n : Z) : list Z :=
  match fuel with
  | O => []
  | S fuel => if n <? 10 then [n] else digits_fuel fuel (n / 10) ++ [n mod 10]
  end.
Definition digits (n : Z) : list Z := digits_fuel (S (Z.to_nat (Z.log2 n))) n.

(** [int("...")] of a digit string. *)
Definition read_digits (l : list Z) : Z := fold_left (fun acc d => 10 * acc + d) l 0.

(** [str(n)] for [n >= 0]. *)
Definition str_of_Z (n : Z) : string := String.string_of_list_ascii (digit_char <$> digits n).

(** [str(n)] *)
Definition py_str (n : Z) : string := String.append (if n <? 0 then "-" else "") (str_of_Z (Z.abs n)).

Lemma digit_char_ok d : 0 <= d < 10 -> is_digit (digit_char d) = true /\ digit_value (digit_char d) = d.
Proof.
  intros Hd. unfold is_digit, digit_value, digit_char.
  rewrite Ascii.N_ascii_embedding by lia. rewrite Z2N.id by lia. split; [solve_bools|lia].
Qed.

Lemma read_digits_app l l' : read_digits (l ++ l') =
  read_digits l * 10 ^ Z.of_nat (length l') + read_digits l'.
Proof.
  unfold read_digits. rewrite fold_left_app. generalize (fold_left (fun acc d => 10 * acc + d) l 0).
  induction l' as [|d l' IH] using rev_ind; intros acc; cbn [fold_left length].
  - rewrite Z.pow_0_r. lia.
  - rewrite !fold_left_app, length_app. cbn [fold_left length]. rewrite IH.
    replace (Z.of_nat (length l' + 1)) with (Z.succ (Z.of_nat (length l'))) by lia.
    rewrite Z.pow_succ_r by lia. lia.
Qed.

Lemma digits_fuel_spec fuel n :
  0 <= n -> n < 2 ^ Z.of_nat fuel ->
  read_digits (digits_fuel fuel n) = n /\ Forall (fun d => 0 <= d < 10) (digits_fuel fuel n).
Proof.
  revert n. induction fuel as [|fuel IH]; intros n H0 Hn.
  { cbn in Hn. assert (n = 0) by lia. subst. by split. }
  cbn [digits_fuel]. destruct (Z.ltb_spec n 10).
  - split; [unfold read_digits; cbn; lia|]. apply Forall_singleton. lia.
  - rewrite Nat2Z.inj_succ, Z.pow_succ_r in Hn by lia.
    pose proof (Z.div_mod n 10 ltac:(lia)) as Hdm. pose proof (Z.mod_pos_bound n 10 ltac:(lia)).
    assert (Hq : n / 10 < 2 ^ Z.of_nat fuel) by (apply Z.div_lt_upper_bound; lia).
    destruct (IH (n / 10)) as [E HF]; [by apply Z.div_pos|done|]. split.
    + rewrite read_digits_app, E. cbn [length Z.of_nat]. unfold read_digits at 1. cbn. lia.
    + apply Forall_app. split; [done|]. apply Forall_singleton. lia.
Qed.

Lemma digits_spec n :
  0 <= n -> read_digits (digits n) = n /\ Forall (fun d => 0 <= d < 10) (digits n).
Proof.
  intros Hn. apply digits_fuel_spec; [done|]. rewrite Nat2Z.inj_succ, Z2Nat.id by apply Z.log2_nonneg.
  destruct (Z.eq_dec n 0) as [->|]; [done|]. apply Z.log2_spec. lia.
Qed.

(** No leading zero. *)
Lemma digits_fuel_head fuel n :
  0 < n -> n < 2 ^ Z.of_nat fuel ->
  exists d l, digits_fuel fuel n = d :: l /\ 1 <= d < 10 .
Proof.
  revert n. induction fuel as [|fuel IH]; intros n H0 Hn; [cbn in Hn; lia|].
  cbn [digits_fuel]. destruct (Z.ltb_spec n 10); [exists n, []; split; [done|lia]|].
  rewrite Nat2Z.inj_succ, Z.pow_succ_r in Hn by lia.
  destruct (IH (n / 10)) as (d & l & E & Hd).
  - apply Z.div_str_pos. lia.
  - apply Z.div_lt_upper_bound; lia.
  - exists d, (l ++ [n mod 10]). by rewrite E.
Qed.

Lemma digits_head n : 0 < n -> exists d l, digits n = d :: l /\ 1 <= d < 10.
Proof.
  intros Hn. apply digits_fuel_head; [done|].
  rewrite Nat2Z.inj_succ, Z2Nat.id by apply Z.log2_nonneg. by apply Z.log2_spec.
Qed.

Lemma digits_fuel_length fuel n k :
  0 <= n < 10 ^ Z.of_nat (S k) -> (length (digits_fuel fuel n) <= S k)%nat.
Proof.
  revert n k. induction fuel as [|fuel IH]; intros n k Hn; cbn [digits_fuel]; [cbn; lia|].
  destruct (Z.ltb_spec n 10); [cbn; lia|]. destruct k as [|k].
  { change (10 ^ Z.of_nat 1) with 10 in Hn. lia. }
  rewrite Nat2Z.inj_succ, Z.pow_succ_r in Hn by lia. rewrite length_app. cbn [length].
  assert (length (digits_fuel fuel (n / 10)) <= S k)%nat; [|lia].
  apply IH. split; [apply Z.div_pos; lia|]. apply Z.div_lt_upper_bound; lia.
Qed.

Lemma digits_length n k : 0 <= n < 10 ^ Z.of_nat (S k) -> (length (digits n) <= S k)%nat.
Proof. apply digits_fuel_length. Qed.

(** ** Hexadecimal text *)

Definition hex_char (n : Z) : ascii := ascii_of_N (Z.to_N (if n <? 10 then 48 + n else 87 + n)).

(** [n] with [width] digits. *)
Fixpoint hex_fixed (width : nat) (n : Z) : list ascii :=
  match width with
  | O => []
  | S width => hex_fixed width (n / 16) ++ [hex_char (n mod 16)]
  end.

(** [str(uuid)] *)
Definition uuid_text (id : uid) : string :=
  let h := hex_fixed 32 (Z.of_N id) in
  of_chars (take 8 h ++ "-"%char :: take 4 (drop 8 h) ++ "-"%char :: take 4 (drop 12 h) ++
            "-"%char :: take 4 (drop 16 h) ++ "-"%char :: drop 20 h).

(** *** Numerals as characters *)

Lemma list_ascii_app a b : String.list_ascii_of_string (a ++ b)%string =
  String.list_ascii_of_string a ++ String.list_ascii_of_string b.
Proof. induction a as [|c a IH]; [done|]. exact (f_equal (cons c) IH). Qed.

Definition digit (d : Z) : Prop := 0 <= d < 10.

Lemma digits_are_digits ds : Forall digit ds -> forallb is_digit (digit_char <$> ds) = true.
Proof.
  induction 1 as [|d ds Hd _ IH]; [done|]. cbn. rewrite IH.
  by rewrite (proj1 (digit_char_ok d Hd)).
Qed.

Lemma digit_values ds : Forall digit ds -> digit_value <$> (digit_char <$> ds) = ds.
Proof.
  induction 1 as [|d ds Hd _ IH]; [done|]. rewrite !fmap_cons, IH.
  by rewrite (proj2 (digit_char_ok d Hd)).
Qed.

Lemma length_list_ascii (s : string) : length (String.list_ascii_of_string s) = String.length s.
Proof. induction s; cbn; auto. Qed.

Lemma lstrip_id set l : forallb (fun c => negb (set c)) l = true -> lstrip set l = l.
Proof. destruct l as [|c m]; [done|]. cbn. by destruct (set c). Qed.

Lemma strip_id set l : forallb (fun c => negb (set c)) l = true -> strip set l = l.
Proof.
  intros E. unfold strip. rewrite (lstrip_id _ _ E), lstrip_id; [apply reverse_involutive|].
  rewrite forallb_forall in *. intros c Hc. apply E.
  by apply list_elem_of_In, elem_of_reverse, list_elem_of_In.
Qed.

Lemma strip_prefix_app p l : strip_prefix p (p ++ l) = Some l.
Proof. induction p as [|c p IH]; cbn; [done|]. by rewrite Ascii.eqb_refl. Qed.

(** [str(n)], as characters. *)
Definition numeral (n : Z) : list ascii := digit_char <$> digits n.

Lemma numeral_digits n : 0 <= n -> forallb is_digit (numeral n) = true.
Proof. intros Hn. apply digits_are_digits. by apply digits_spec. Qed.

Lemma numeral_value n : 0 <= n -> read_digits (digit_value <$> numeral n) = n.
Proof. intros Hn. destruct (digits_spec n Hn). unfold numeral. by rewrite digit_values. Qed.

Lemma numeral_cons n : 0 <= n -> exists c l, numeral n = c :: l.
Proof.
  intros Hn. destruct (decide (n = 0)) as [->|]; [by exists "0"%char, []|].
  destruct (digits_head n) as (d & l & E & _); [lia|]. unfold numeral. rewrite E. by eexists _, _.
Qed.

(** No superfluous zero in front. *)
Lemma numeral_no_zero n : 0 <= n -> (1 < length (numeral n))%nat -> strip_prefix ["0"%char] (numeral n) = None.
Proof.
  intros Hn Hl. destruct (decide (n = 0)) as [->|]; [cbn in Hl; lia|].
  destruct (digits_head n) as (d & l & E & Hd); [lia|]. unfold numeral. rewrite E, fmap_cons. unfold strip_prefix.
  destruct (Ascii.eqb "0" (digit_char d)) eqn:Eb; [|done]. apply Ascii.eqb_eq in Eb as Ec.
  destruct (digit_char_ok d) as [_ Hv]; [lia|]. rewrite <- Ec in Hv.
  unfold digit_value in Hv. cbn in Hv. lia.
Qed.

(** A character that is no digit does not occur in a numeral. *)
Lemma digit_other c d : is_digit c = true -> is_digit d = false -> Ascii.eqb c d = false.
Proof. intros Hc Hd. apply Ascii.eqb_neq. intros ->. congruence. Qed.

Lemma read_digits_nonneg l : Forall (fun d => 0 <= d) l -> 0 <= read_digits l.
Proof.
  induction l as [|d l IH] using rev_ind; intros Hl; [done|]. rewrite read_digits_app.
  apply Forall_app in Hl as [Hl Hd]. rewrite Forall_singleton in Hd. specialize (IH Hl).
  change (read_digits [d]) with (10 * 0 + d). change (10 ^ Z.of_nat (length [d])) with 10. lia.
Qed.

Lemma read_text_nonneg l : forallb is_digit l = true -> 0 <= read_digits (digit_value <$> l).
Proof.
  intros Hl. apply read_digits_nonneg, Forall_fmap, Forall_forall. intros d Hd. cbn.
  rewrite forallb_forall in Hl. specialize (Hl d (proj1 (list_elem_of_In _ _) Hd)).
  unfold is_digit in Hl. unfold digit_value. lia.
Qed.

Lemma forallb_false_exists {A} (p : A -> bool) l :
  forallb p l = false -> exists x, x ∈ l /\ p x = false.
Proof.
  induction l as [|x l IH]; [done|]. cbn. destruct (p x) eqn:E; intros Hl; [|by exists x; split; [left|]].
  destruct (IH Hl) as (y & Hy & Ey). exists y. split; [by right|done].
Qed.

Lemma lstrip_subset set l c : c ∈ lstrip set l -> c ∈ l.
Proof. induction l as [|d l IH]; cbn; [done|]. destruct (set d); set_solver. Qed.

Lemma strip_subset set l c : c ∈ strip set l -> c ∈ l.
Proof.
  unfold strip. intros Hc%elem_of_reverse%lstrip_subset%elem_of_reverse%lstrip_subset. exact Hc.
Qed.

Lemma strip_prefix_inv p l rest : strip_prefix p l = Some rest -> l = p ++ rest.
Proof.
  revert l. induction p as [|d p IH]; intros [|c l] E; cbn in E; simplify_eq; try done.
  destruct (Ascii.eqb_spec d c) as [->|]; [|done]. cbn. f_equal. by apply IH.
Qed.

(** *** Replacement *)

Lemma of_chars_app a b : of_chars (a ++ b) = (of_chars a ++ of_chars b)%string.
Proof. induction a as [|c a IH]; [done|]. exact (f_equal (String c) IH). Qed.

Lemma chars_of_chars l : chars (of_chars l) = l.
Proof. apply String.list_ascii_of_string_of_list_ascii. Qed.
Lemma of_chars_chars s : of_chars (chars s) = s.
Proof. apply String.string_of_list_ascii_of_string. Qed.

(** Nothing is replaced where the first character of the pattern does not occur. *)
Lemma replace_aux_skip fuel p ps by_ body s :
  (length body <= fuel)%nat -> forallb (fun c => negb (Ascii.eqb c p)) body = true ->
  replace_all_aux fuel (String p ps) by_ (of_chars body ++ s) =
  (of_chars body ++ replace_all_aux (fuel - length body) (String p ps) by_ s)%string.
Proof.
  revert fuel. induction body as [|c body IH]; intros fuel Hf Hb; cbn [length] in *.
  { by rewrite Nat.sub_0_r. }
  destruct fuel as [|fuel]; [lia|]. cbn in Hb. apply andb_prop in Hb as [Hc Hb].
  apply negb_true_iff in Hc.
  assert (Hp : String.prefix (String p ps) (String c (of_chars body ++ s)) = false).
  { cbn. destruct (ascii_dec p c) as [->|]; [by rewrite Ascii.eqb_refl in Hc|done]. }
  change (replace_all_aux (S fuel) (String p ps) by_ (String c (of_chars body ++ s)) =
    String c (of_chars body ++ replace_all_aux (fuel - length body) (String p ps) by_ s))%string.
  cbn [replace_all_aux]. rewrite Hp. f_equal. apply IH; [lia|done].
Qed.

Lemma replace_all_none p ps by_ body :
  forallb (fun c => negb (Ascii.eqb c p)) body = true ->
  replace_all (String p ps) by_ (of_chars body) = of_chars body.
Proof.
  intros Hb. unfold replace_all. rewrite <- length_list_ascii, chars_of_chars.
  pose proof (replace_aux_skip (length body) p ps by_ body "" ltac:(lia) Hb) as E.
  rewrite Nat.sub_diag in E. cbn [replace_all_aux] in E.
  assert (Hn : forall s, (s ++ "")%string = s) by (intros s; induction s as [|c s IH]; [done|exact (f_equal (String c) IH)]).
  by rewrite !Hn in E.
Qed.

Lemma replace_all_end p ps by_ body :
  forallb (fun c => negb (Ascii.eqb c p)) body = true ->
  replace_all (String p ps) by_ (of_chars body ++ String p ps) =
  (of_chars body ++ replace_all (String p ps) by_ (String p ps))%string.
Proof.
  intros Hb. unfold replace_all. rewrite replace_aux_skip; [|rewrite <- length_list_ascii, list_ascii_app, length_app, chars_of_chars; lia|done].
  do 2 f_equal. rewrite <- !length_list_ascii, list_ascii_app, length_app, chars_of_chars. lia.
Qed.

(** *** UUIDs *)

Definition hex_text (c : ascii) : bool := is_some (hex_digit c) && negb (Ascii.eqb c "_").

Lemma hex_char_ok d : 0 <= d < 16 -> hex_text (hex_char d) = true /\ hex_digit (hex_char d) = Some d.
Proof.
  intros Hd. assert (H : forallb (fun k => hex_text (hex_char (Z.of_nat k)) && bool_decide (hex_digit (hex_char (Z.of_nat k)) = Some (Z.of_nat k))) (seq 0 16) = true)
    by (vm_compute; reflexivity).
  rewrite forallb_forall in H. specialize (H (Z.to_nat d)). rewrite List.in_seq in H. specialize (H ltac:(lia)).
  rewrite Z2Nat.id in H by lia. by apply andb_prop in H as [? ?%bool_decide_eq_true].
Qed.

Lemma hex_fixed_text w n : forallb hex_text (hex_fixed w n) = true.
Proof.
  revert n. induction w as [|w IH]; intros n; cbn; [done|]. rewrite forallb_app, IH. cbn.
  by rewrite (proj1 (hex_char_ok (n mod 16) (Z.mod_pos_bound n 16 ltac:(lia)))).
Qed.

Lemma hex_fixed_length w n : length (hex_fixed w n) = w.
Proof. revert n. induction w as [|w IH]; intros n; cbn; [done|]. rewrite length_app, IH. cbn. lia. Qed.

Definition hex_value (acc : Z) (l : list ascii) : Z := fold_left (fun a c => a * 16 + default 0 (hex_digit c)) l acc.

Lemma hex_fixed_value w n acc : 0 <= n < 16 ^ Z.of_nat w ->
  hex_value acc (hex_fixed w n) = acc * 16 ^ Z.of_nat w + n.
Proof.
  unfold hex_value. revert n. induction w as [|w IH]; intros n Hn; cbn [hex_fixed fold_left].
  { cbn in *. lia. }
  rewrite Nat2Z.inj_succ, Z.pow_succ_r in * by lia. rewrite fold_left_app, IH.
  2: { split; [apply Z.div_pos; lia|apply Z.div_lt_upper_bound; lia]. }
  cbn [fold_left]. rewrite (proj2 (hex_char_ok (n mod 16) (Z.mod_pos_bound n 16 ltac:(lia)))).
  cbn [default]. pose proof (Z.div_mod n 16 ltac:(lia)). unfold id. nia.
Qed.

Lemma hex_digits_value acc b l : forallb hex_text l = true -> (b = false \/ l <> []) ->
  hex_digits acc b l = Some (hex_value acc l).
Proof.
  revert acc b. induction l as [|c l IH]; intros acc b Hl Hb; cbn.
  { by destruct Hb as [->|]. }
  cbn in Hl. apply andb_prop in Hl as [[Hc Hu%negb_true_iff]%andb_prop Hl]. rewrite Hu.
  destruct (hex_digit c) as [d|] eqn:Ed; [|done]. rewrite IH by (done || by left). done.
Qed.

Lemma hex_text_not p : hex_text p = false -> forall l, forallb hex_text l = true -> forallb (fun c => negb (Ascii.eqb c p)) l = true.
Proof.
  intros Hp l Hl. rewrite forallb_forall in *. intros c Hc. specialize (Hl c Hc).
  destruct (Ascii.eqb_spec c p) as [->|]; [congruence|done].
Qed.
