(* ===== verification/Regex.v ===== *)
(** Regular expressions as [re] matches them: alternatives in order, greedy
    repetition, backtracking, numbered groups.

    [match_re] is the matcher, in continuation-passing style; [run] is what a
    match is. The matcher finds a match exactly when there is one
    ([fullmatch_spec], [fullmatch_complete]). *)

From S2P Require Export Text.

Local Open Scope list_scope.
Local Open Scope Z_scope.

(** [Many lo hi p] is [[...]{lo,hi}] for a class of characters; [None] is no
    upper bound. *)
Inductive regex :=
| Eps
| Char (p : ascii -> bool)
| Cat (r s : regex)
| Alt (r s : regex)
| Many (lo : nat) (hi : option nat) (p : ascii -> bool)
| Group (n : nat) (r : regex).

(** The groups matched, the latest first. *)
Abbreviation captures := (list (nat * list ascii)) (only parsing).

(** [match.group(n)] *)
Definition group (n : nat) (c : captures) : option (list ascii) :=
  snd <$> find (fun g => Nat.eqb g.1 n) c.

(** [(?:r)?] *)
Definition Opt (r : regex) : regex := Alt r Eps.

(** A literal text. *)
Fixpoint literal (l : list ascii) : regex :=
  match l with
  | [] => Eps
  | c :: l => Cat (Char (Ascii.eqb c)) (literal l)
  end.
Definition Lit (s : string) : regex := literal (chars s).

Section Matcher.
Context {A : Type}.

Fixpoint many (lo : nat) (hi : option nat) (p : ascii -> bool) (l : list ascii)
    (k : list ascii -> option A) : option A :=
  let stop := match lo with O => k l | S _ => None end in
  match l with
  | c :: l' =>
      if p c && match hi with Some O => false | _ => true end then
        match many (pred lo) (pred <$> hi) p l' k with
        | Some a => Some a
        | None => stop
        end
      else stop
  | [] => stop
  end.

Fixpoint match_re (r : regex) (l : list ascii) (c : captures)
    (k : list ascii -> captures -> option A) : option A :=
  match r with
  | Eps => k l c
  | Char p => match l with x :: l' => if p x then k l' c else None | [] => None end
  | Cat r s => match_re r l c (fun l' c' => match_re s l' c' k)
  | Alt r s =>
      match match_re r l c k with
      | Some a => Some a
      | None => match_re s l c k
      end
  | Many lo hi p => many lo hi p l (fun l' => k l' c)
  | Group n r =>
      match_re r l c (fun l' c' => k l' ((n, take (length l - length l') l) :: c'))
  end.
End Matcher.

(** [pattern.fullmatch(s)] *)
Definition fullmatch (r : regex) (l : list ascii) : option captures :=
  match_re r l [] (fun rest c => match rest with [] => Some c | _ => None end).

(** [re.match("^...$", s)]: the dollar also matches before a final newline. *)
Definition match_dollar (r : regex) (l : list ascii) : option captures :=
  match_re r l [] (fun rest c =>
    match rest with
    | [] => Some c
    | [x] => if Ascii.eqb x "010"%char then Some c else None
    | _ => None
    end).

(** ** What a match is *)

Definition bounded (lo : nat) (hi : option nat) (n : nat) : Prop :=
  (lo <= n)%nat /\ match hi with Some h => (n <= h)%nat | None => True end.

(** [s] is matched by [r], and the captures grow from [c] to [c']. *)
Fixpoint run (r : regex) (s : list ascii) (c c' : captures) : Prop :=
  match r with
  | Eps => s = [] /\ c' = c
  | Char p => exists x, s = [x] /\ p x = true /\ c' = c
  | Cat a b => exists s1 s2 c1, s = s1 ++ s2 /\ run a s1 c c1 /\ run b s2 c1 c'
  | Alt a b => run a s c c' \/ run b s c c'
  | Many lo hi p => forallb p s = true /\ bounded lo hi (length s) /\ c' = c
  | Group n a => exists c1, run a s c c1 /\ c' = (n, s) :: c1
  end.

Lemma many_sound {A} lo hi p l (k : list ascii -> option A) a :
  many lo hi p l k = Some a ->
  exists s rest, l = s ++ rest /\ forallb p s = true /\ bounded lo hi (length s) /\ k rest = Some a.
Proof.
  revert lo hi. induction l as [|x l IH]; intros lo hi E; cbn in E.
  { destruct lo; [|done]. exists [], []. split_and!; [done..| |done]. split; [cbn; lia|destruct hi; cbn; [lia|done]]. }
  assert (Hstop : match lo with O => k (x :: l) | S _ => None end = Some a ->
    exists s rest, x :: l = s ++ rest /\ forallb p s = true /\ bounded lo hi (length s) /\ k rest = Some a).
  { destruct lo; [|done]. intros Hk. exists [], (x :: l). split_and!; [done..| |done].
    split; [cbn; lia|]. destruct hi; cbn; [lia|done]. }
  destruct (p x) eqn:Ep; cbn [andb] in E; [|by apply Hstop].
  destruct hi as [[|h]|]; [by apply Hstop| |].
  - destruct (many (pred lo) _ p l k) as [b|] eqn:Em; [|by apply Hstop]. injection E as ->.
    apply IH in Em as (s & rest & -> & Hp & [Hlo Hhi] & Hk). exists (x :: s), rest.
    split_and!; [done|cbn; by rewrite Ep| |done]. split; cbn in *; lia.
  - destruct (many (pred lo) _ p l k) as [b|] eqn:Em; [|by apply Hstop]. injection E as ->.
    apply IH in Em as (s & rest & -> & Hp & [Hlo Hhi] & Hk). exists (x :: s), rest.
    split_and!; [done|cbn; by rewrite Ep| |done]. split; cbn in *; [lia|done].
Qed.

Lemma many_complete {A} lo hi p s rest (k : list ascii -> option A) :
  forallb p s = true -> bounded lo hi (length s) -> k rest <> None ->
  many lo hi p (s ++ rest) k <> None.
Proof.
  revert lo hi. induction s as [|x s IH]; intros lo hi Hp [Hlo Hhi] Hk.
  { cbn in Hlo. assert (lo = O) as -> by lia. cbn [app]. destruct rest as [|y rest]; [done|].
    cbn [many]. destruct (_ && _); [|done]. by destruct (many _ _ _ _ _). }
  cbn in Hp. apply andb_prop in Hp as [Hx Hp]. cbn [app many]. rewrite Hx. cbn [andb].
  destruct hi as [[|h]|]; cbn in Hlo, Hhi; [lia| |].
  - pose proof (IH (pred lo) (Some h) Hp) as H. cbn [fmap option_fmap option_map pred].
    destruct (many (pred lo) _ _ _ _); [done|]. destruct H; [split; cbn; lia|done|done].
  - pose proof (IH (pred lo) None Hp) as H. cbn [fmap option_fmap option_map].
    destruct (many (pred lo) _ _ _ _); [done|]. destruct H; [split; cbn; [lia|done]|done|done].
Qed.

Lemma match_re_sound {A} r l c (k : list ascii -> captures -> option A) a :
  match_re r l c k = Some a ->
  exists s rest c', l = s ++ rest /\ run r s c c' /\ k rest c' = Some a.
Proof.
  revert l c k. induction r as [|p|r IHr s IHs|r IHr s IHs|lo hi p|n r IHr]; intros l c k E; cbn in E.
  - exists [], l, c. done.
  - destruct l as [|x l]; [done|]. destruct (p x) eqn:Ep; [|done].
    exists [x], l, c. split_and!; [done| |done]. cbn. eauto.
  - apply IHr in E as (s1 & l1 & c1 & -> & H1 & E). apply IHs in E as (s2 & l2 & c2 & -> & H2 & E).
    exists (s1 ++ s2), l2, c2. rewrite app_assoc. split_and!; [done| |done]. cbn. eauto 10.
  - destruct (match_re r l c k) as [b|] eqn:Er.
    + injection E as ->. apply IHr in Er as (s1 & l1 & c1 & -> & H1 & E).
      exists s1, l1, c1. split_and!; [done|by left|done].
    + apply IHs in E as (s1 & l1 & c1 & -> & H1 & E).
      exists s1, l1, c1. split_and!; [done|by right|done].
  - apply many_sound in E as (s & rest & -> & Hp & Hb & Hk). exists s, rest, c. by split_and!.
  - apply IHr in E as (s1 & l1 & c1 & -> & H1 & E). exists s1, l1, ((n, s1) :: c1).
    split_and!; [done|cbn; eauto|]. rewrite <- E. f_equal.
    rewrite length_app. replace (length s1 + length l1 - length l1)%nat with (length s1) by lia.
    by rewrite take_app_length.
Qed.

Lemma match_re_complete {A} r s rest c c' (k : list ascii -> captures -> option A) :
  run r s c c' -> k rest c' <> None -> match_re r (s ++ rest) c k <> None.
Proof.
  revert s rest c c' k. induction r as [|p|r IHr t IHt|r IHr t IHt|lo hi p|n r IHr];
    intros s rest c c' k Hr Hk; cbn in Hr.
  - by destruct Hr as [-> ->].
  - destruct Hr as (x & -> & Hx & ->). cbn. by rewrite Hx.
  - destruct Hr as (s1 & s2 & c1 & -> & H1 & H2). cbn. rewrite <- app_assoc.
    eapply IHr; [exact H1|]. by eapply IHt.
  - cbn. destruct Hr as [Hr|Hr].
    + pose proof (IHr _ rest _ _ k Hr Hk). by destruct (match_re r _ _ _).
    + destruct (match_re r _ _ _); [done|]. by eapply IHt.
  - destruct Hr as (Hp & Hb & ->). cbn. by apply many_complete.
  - destruct Hr as (c1 & Hr & ->). cbn. eapply IHr; [exact Hr|].
    rewrite length_app. replace (length s + length rest - length rest)%nat with (length s) by lia.
    by rewrite take_app_length.
Qed.

(** A full match is a way to match the whole text, with its captures. *)
Lemma fullmatch_spec r l c : fullmatch r l = Some c -> run r l [] c.
Proof.
  intros E. apply match_re_sound in E as (s & [|] & c' & -> & Hr & E); [|done].
  injection E as ->. by rewrite app_nil_r.
Qed.

(** And if there is a way, one is found. *)
Lemma fullmatch_complete r l c : run r l [] c -> exists c', fullmatch r l = Some c'.
Proof.
  intros Hr. assert (H : fullmatch r l <> None).
  { unfold fullmatch. rewrite <- (app_nil_r l). by eapply match_re_complete. }
  destruct (fullmatch r l); [eauto|done].
Qed.

Lemma fullmatch_iff r l : is_Some (fullmatch r l) <-> exists c, run r l [] c.
Proof.
  split; [intros [c E]; exists c; by apply fullmatch_spec|].
  intros [c Hr]. apply fullmatch_complete in Hr as [c' E]. by exists c'.
Qed.

(** Literals. *)
Lemma run_literal l s c c' : run (literal l) s c c' <-> s = l /\ c' = c.
Proof.
  revert s. induction l as [|x l IH]; intros s; cbn; [done|]. split.
  - intros (s1 & s2 & c1 & -> & (y & -> & Hy & ->) & Hr). apply IH in Hr as [-> ->].
    apply Ascii.eqb_eq in Hy as ->. done.
  - intros [-> ->]. exists [x], l, c. split; [done|]. split; [|by apply IH].
    exists x. by rewrite Ascii.eqb_refl.
Qed.

Lemma run_lit t s c c' : run (Lit t) s c c' <-> s = chars t /\ c' = c.
Proof. apply run_literal. Qed.
