(* ===== verification/Datetime.v ===== *)
(** Python's [datetime] as the service uses it: the proleptic Gregorian calendar,
    [astimezone(UTC).isoformat()] and [datetime.fromisoformat].

    Instants are microseconds since 1970-01-01T00:00:00Z. *)

From S2P Require Export Text.

Local Open Scope string_scope.
Local Open Scope list_scope.
Local Open Scope Z_scope.

(** ** The calendar *)

Definition is_leap (year : Z) : bool :=
  (year mod 4 =? 0) && (negb (year mod 100 =? 0) || (year mod 400 =? 0)).

(** Number of days before January 1st of the year; January 1st of year 1 is day 1. *)
Definition days_before_year (year : Z) : Z :=
  let y := year - 1 in y * 365 + y / 4 - y / 100 + y / 400.

Definition days_in_month (leap : bool) (month : Z) : Z :=
  if month =? 2 then (if leap then 29 else 28)
  else if (month =? 4) || (month =? 6) || (month =? 9) || (month =? 11) then 30 else 31.

Definition days_before_month (leap : bool) (month : Z) : Z :=
  nth (Z.to_nat month) [0; 0; 31; 59; 90; 120; 151; 181; 212; 243; 273; 304; 334] 365 +
  (if (2 <? month) && leap then 1 else 0).

Definition ymd2ord (year month day : Z) : Z :=
  days_before_year year + days_before_month (is_leap year) month + day.

Definition valid_date (year month day : Z) : bool :=
  (1 <=? year) && (year <=? 9999) && (1 <=? month) && (month <=? 12) &&
  (1 <=? day) && (day <=? days_in_month (is_leap year) month).

(** Month and day of the [n]-th day of a year, counted from 0. *)
Definition month_day (leap : bool) (n : Z) : Z * Z :=
  let month := Z.shiftr (n + 50) 5 in
  let preceding := days_before_month leap month in
  if n <? preceding
  then (month - 1, n - (preceding - days_in_month leap (month - 1)) + 1)
  else (month, n - preceding + 1).

Definition ord2ymd (ordinal : Z) : Z * Z * Z :=
  let n := ordinal - 1 in
  let n400 := n / 146097 in let n := n mod 146097 in
  let n100 := n / 36524 in let n := n mod 36524 in
  let n4 := n / 1461 in let n := n mod 1461 in
  let n1 := n / 365 in let n := n mod 365 in
  let year := n400 * 400 + 1 + n100 * 100 + n4 * 4 + n1 in
  if (n1 =? 4) || (n100 =? 4) then (year - 1, 12, 31)
  else
    let leap := (n1 =? 3) && (negb (n4 =? 24) || (n100 =? 3)) in
    let '(month, day) := month_day leap n in (year, month, day).

(** *** Ordinals and dates correspond *)

Definition month_day_ok (leap : bool) (n : Z) : bool :=
  let '(m, d) := month_day leap n in
  (1 <=? m) && (m <=? 12) && (1 <=? d) && (d <=? days_in_month leap m) &&
  (days_before_month leap m + d =? n + 1).

Lemma month_day_spec leap n : 0 <= n < 365 -> month_day_ok leap n = true.
Proof.
  intros Hn. assert (H : forallb (fun k => month_day_ok true (Z.of_nat k) && month_day_ok false (Z.of_nat k)) (seq 0 365) = true)
    by (vm_compute; reflexivity).
  rewrite forallb_forall in H. specialize (H (Z.to_nat n)). rewrite List.in_seq in H. specialize (H ltac:(lia)).
  rewrite Z2Nat.id in H by lia. apply andb_prop in H as [Ht Hf]. by destruct leap.
Qed.

(** The quotients of a day number in the 400-year cycle. *)
Lemma cycle_split n : exists a b c e k,
  n = 146097 * a + 36524 * b + 1461 * c + 365 * e + k /\
  n / 146097 = a /\ n mod 146097 / 36524 = b /\ n mod 146097 mod 36524 / 1461 = c /\
  n mod 146097 mod 36524 mod 1461 / 365 = e /\ n mod 146097 mod 36524 mod 1461 mod 365 = k /\
  0 <= b <= 4 /\ 0 <= c <= 24 /\ 0 <= e <= 4 /\ 0 <= k < 365 /\
  (b = 4 -> c = 0 /\ e = 0 /\ k = 0) /\ (e = 4 -> k = 0) /\ (c = 24 -> e < 4).
Proof.
  exists (n / 146097), (n mod 146097 / 36524), (n mod 146097 mod 36524 / 1461),
    (n mod 146097 mod 36524 mod 1461 / 365), (n mod 146097 mod 36524 mod 1461 mod 365).
  split_and!; try reflexivity; Z.to_euclidean_division_equations; lia.
Qed.

Lemma days_before_cycle a b c e : 0 <= b <= 3 -> 0 <= c <= 24 -> 0 <= e <= 3 ->
  days_before_year (a * 400 + 1 + b * 100 + c * 4 + e) = 146097 * a + 36524 * b + 1461 * c + 365 * e.
Proof. intros Hb Hc He. unfold days_before_year. Z.to_euclidean_division_equations. lia. Qed.

Lemma leap_cycle a b c e : 0 <= b <= 3 -> 0 <= c <= 24 -> 0 <= e <= 3 ->
  is_leap (a * 400 + 1 + b * 100 + c * 4 + e) = (e =? 3) && (negb (c =? 24) || (b =? 3)).
Proof.
  intros Hb Hc He. unfold is_leap.
  replace (a * 400 + 1 + b * 100 + c * 4 + e) with (1 + e + (a * 100 + b * 25 + c) * 4) at 1 by lia.
  replace (a * 400 + 1 + b * 100 + c * 4 + e) with (1 + c * 4 + e + (a * 4 + b) * 100) at 1 by lia.
  replace (a * 400 + 1 + b * 100 + c * 4 + e) with (1 + b * 100 + c * 4 + e + a * 400) by lia.
  rewrite !Z.mod_add by lia.
  assert (H4 : ((1 + e) mod 4 =? 0) = (e =? 3)) by (apply eq_true_iff_eq; rewrite !Z.eqb_eq; Z.to_euclidean_division_equations; lia).
  assert (H100 : ((1 + c * 4 + e) mod 100 =? 0) = (c =? 24) && (e =? 3))
    by (apply eq_true_iff_eq; rewrite andb_true_iff, !Z.eqb_eq; Z.to_euclidean_division_equations; lia).
  assert (H400 : ((1 + b * 100 + c * 4 + e) mod 400 =? 0) = (b =? 3) && ((c =? 24) && (e =? 3)))
    by (apply eq_true_iff_eq; rewrite !andb_true_iff, !Z.eqb_eq; destruct (Z.eq_dec (1 + b * 100 + c * 4 + e) 400) as [E|]; [rewrite E, Z.mod_same by lia; lia|rewrite Z.mod_small by lia; lia]).
  rewrite H4, H100, H400. by destruct (e =? 3), (c =? 24), (b =? 3).
Qed.

Lemma ord2ymd_spec n : 1 <= n <= 3652059 ->
  let '(y, m, d) := ord2ymd n in valid_date y m d = true /\ ymd2ord y m d = n.
Proof.
  intros Hn. unfold ord2ymd. destruct (cycle_split (n - 1)) as (a & b & c & e & k & En & -> & -> & -> & -> & -> & Hb & Hc & He & Hk & Hb4 & He4 & Hc24).
  destruct ((e =? 4) || (b =? 4)) eqn:El.
  - rewrite orb_true_iff, !Z.eqb_eq in El.
    assert (exists b' c', a * 400 + 1 + b * 100 + c * 4 + e - 1 = a * 400 + 1 + b' * 100 + c' * 4 + 3 /\
      0 <= b' <= 3 /\ 0 <= c' <= 24 /\ (c' = 24 -> b' = 3) /\
      n = 146097 * a + 36524 * b' + 1461 * c' + 1461) as (b' & c' & -> & Hb' & Hc' & Hbc & Ed).
    { destruct (Z.eq_dec b 4) as [E4|].
      - destruct (Hb4 E4) as (-> & -> & ->). exists 3, 24. split_and!; lia.
      - assert (E : e = 4) by lia. rewrite (He4 E) in *. exists b, c. split_and!; lia. }
    assert (Hl : is_leap (a * 400 + 1 + b' * 100 + c' * 4 + 3) = true).
    { rewrite leap_cycle by lia. cbn. destruct (Z.eqb_spec c' 24); [|done]. rewrite Hbc by done. done. }
    unfold valid_date, ymd2ord. rewrite Hl, days_before_cycle by lia. change (days_before_month true 12) with 335. change (days_in_month true 12) with 31. split; [|lia].
    rewrite !andb_true_iff, !Z.leb_le. lia.
  - rewrite orb_false_iff, !Z.eqb_neq in El. rewrite <- (leap_cycle a) by lia.
    pose proof (month_day_spec (is_leap (a * 400 + 1 + b * 100 + c * 4 + e)) k Hk) as Hmd.
    unfold month_day_ok in Hmd. destruct (month_day _ _) as [m d].
    rewrite !andb_true_iff, !Z.leb_le, Z.eqb_eq in Hmd. unfold valid_date, ymd2ord.
    rewrite days_before_cycle by lia. rewrite !andb_true_iff, !Z.leb_le. lia.
Qed.

(** ** [isoformat] of an instant in UTC *)

(** [f"{n:0{width}d}"] of a number with at most [width] digits. *)
Fixpoint fixed_digits (width : nat) (n : Z) : list ascii :=
  match width with
  | O => []
  | S width => fixed_digits width (n / 10) ++ [digit_char (n mod 10)]
  end.

Definition EPOCH_ORDINAL : Z := 719163.
Definition DAY : Z := 86400000000.

(** The years 1 to 9999. *)
Definition in_calendar (t : time) : bool := (1 <=? EPOCH_ORDINAL + t / DAY) && (EPOCH_ORDINAL + t / DAY <=? 3652059).

(** [t.astimezone(UTC).isoformat()] *)
Definition isoformat_utc (t : time) : list ascii :=
  let '(year, month, day) := ord2ymd (EPOCH_ORDINAL + t / DAY) in
  let us := t mod DAY in
  let s := us / 1000000 in
  fixed_digits 4 year ++ "-"%char :: fixed_digits 2 month ++ "-"%char :: fixed_digits 2 day ++ "T"%char ::
  fixed_digits 2 (s / 3600) ++ ":"%char :: fixed_digits 2 (s / 60 mod 60) ++ ":"%char :: fixed_digits 2 (s mod 60) ++
  (if us mod 1000000 =? 0 then [] else "."%char :: fixed_digits 6 (us mod 1000000)) ++ chars "+00:00".

(** ** [fromisoformat] *)

(** [parse_digits]: exactly [n] digits. *)
Fixpoint take_digits (n : nat) (acc : Z) (l : list ascii) : option (Z * list ascii) :=
  match n, l with
  | O, _ => Some (acc, l)
  | S n, c :: l => if is_digit c then take_digits n (10 * acc + digit_value c) l else None
  | S _, [] => None
  end.

Definition next_is (c : ascii) (l : list ascii) : bool := match l with d :: _ => Ascii.eqb d c | [] => false end.

Definition is_at (p : ascii -> bool) (n : nat) (l : list ascii) : bool :=
  match nth_error l n with Some c => p c | None => false end.

Fixpoint leading_digits (l : list ascii) : nat :=
  match l with c :: l => if is_digit c then S (leading_digits l) else O | [] => O end.

(** [_find_isoformat_datetime_separator], for at least 7 characters: the length
    of the date. *)
Definition date_length (l : list ascii) : option nat :=
  let dash := Ascii.eqb "-" in let week := Ascii.eqb "W" in
  if Nat.eqb (length l) 7 then Some 7%nat
  else if is_at dash 4 l then
    if is_at week 5 l then
      if is_at dash 8 l then
        if Nat.eqb (length l) 9 then None
        else if is_at is_digit 10 l then Some 8%nat else Some 10%nat
      else Some 8%nat
    else Some 10%nat
  else if is_at week 4 l then
    let idx := (7 + leading_digits (drop 7 l))%nat in
    if Nat.ltb idx 9 then Some idx else if Nat.even idx then Some 7%nat else Some 8%nat
  else Some 8%nat.

(** The ordinal of the Monday of week 1. *)
Definition isoweek1monday (year : Z) : Z :=
  let firstday := ymd2ord year 1 1 in
  let firstweekday := (firstday + 6) mod 7 in
  let week1monday := firstday - firstweekday in
  if 3 <? firstweekday then week1monday + 7 else week1monday.

Definition isoweek_to_gregorian (year week day : Z) : option (Z * Z * Z) :=
  let long := let first := ymd2ord year 1 1 mod 7 in (first =? 4) || ((first =? 3) && is_leap year) in
  if negb ((1 <=? year) && (year <=? 9999)) then None
  else if negb ((0 <? week) && (week <? 53)) && negb ((week =? 53) && long) then None
  else if negb ((0 <? day) && (day <? 8)) then None
  else Some (ord2ymd (isoweek1monday year + (week - 1) * 7 + (day - 1))).

Definition opt_bind {A B} (m : option A) (k : A -> option B) : option B :=
  match m with Some a => k a | None => None end.
Local Notation "'let!' x ':=' m 'in' k" := (opt_bind m (fun x => k))
  (at level 10, x pattern, m at level 100, k at level 200).

(** [_parse_isoformat_date] *)
Definition parse_isoformat_date (l : list ascii) : option (Z * Z * Z) :=
  let! (year, l) := take_digits 4 0 l in
  let sep := next_is "-" l in
  let l := if sep then tail l else l in
  if next_is "W" l then
    let! (week, l) := take_digits 2 0 (tail l) in
    match l with
    | [] => isoweek_to_gregorian year week 1
    | _ :: _ =>
        if negb (Bool.eqb (next_is "-" l) sep) then None else
        let! (day, l) := take_digits 1 0 (if sep then tail l else l) in
        if is_nil l then isoweek_to_gregorian year week day else None
    end
  else
    let! (month, l) := take_digits 2 0 l in
    if negb (Bool.eqb (next_is "-" l) sep) then None else
    let! (day, l) := take_digits 2 0 (if sep then tail l else l) in
    if is_nil l then Some (year, month, day) else None.

(** [_parse_hh_mm_ss_ff]: hour, minute, second and microsecond. *)
Definition parse_fraction (l : list ascii) : option Z :=
  match l with
  | [] => Some 0
  | c :: l =>
      if negb (Ascii.eqb c "." || Ascii.eqb c ",") then None else
      if is_nil l || negb (forallb is_digit l) then None else
      let to_parse := Nat.min 6 (length l) in
      let! (n, _) := take_digits to_parse 0 l in
      Some (n * 10 ^ Z.of_nat (6 - to_parse))
  end.

Fixpoint parse_components (n : nat) (has_sep : bool) (l : list ascii) : option (list Z * list ascii) :=
  let! (v, rest) := take_digits 2 0 l in
  match n, rest with
  | O, _ | _, [] => Some ([v], rest)
  | S n, c :: rest' =>
      if has_sep then
        if Ascii.eqb c ":" then let! (vs, l) := parse_components n true rest' in Some (v :: vs, l)
        else None
      else let! (vs, l) := parse_components n false rest in Some (v :: vs, l)
  end.

Definition parse_hh_mm_ss_ff (l : list ascii) : option (Z * Z * Z * Z) :=
  let! (hour, rest) := take_digits 2 0 l in
  match rest with
  | [] => Some (hour, 0, 0, 0)
  | c :: rest' =>
      let sep := Ascii.eqb c ":" in
      let! (vs, l) := parse_components 1 sep (if sep then rest' else rest) in
      let! us := parse_fraction l in
      Some (hour, nth 0 vs 0, nth 1 vs 0, us)
  end.

(** The time zone that follows the first sign. *)
Fixpoint split_at (c : ascii) (l : list ascii) : option (list ascii * list ascii) :=
  match l with
  | [] => None
  | d :: l => if Ascii.eqb d c then Some ([], l) else let! (a, b) := split_at c l in Some (d :: a, b)
  end.

Definition zone_split (l : list ascii) : list ascii * option (Z * list ascii) :=
  match split_at "-" l with
  | Some (a, b) => (a, Some (-1, b))
  | None => match split_at "+" l with
            | Some (a, b) => (a, Some (1, b))
            | None => match split_at "Z" l with
                      | Some (a, b) => (a, Some (0, b))
                      | None => (l, None)
                      end
            end
  end.

Definition micros (h m s us : Z) : Z := ((h * 60 + m) * 60 + s) * 1000000 + us.

(** The offset from UTC, if there is one. A [timezone] is less than a day off. *)
Definition parse_zone (z : option (Z * list ascii)) : option (option Z) :=
  match z with
  | None => Some None
  | Some (sign, l) =>
      if (sign =? 0) && is_nil l then Some (Some 0)
      else if Nat.eqb (length l) 0 || Nat.eqb (length l) 1 || Nat.eqb (length l) 3 then None
      else
        let! (h, m, s, us) := parse_hh_mm_ss_ff l in
        let off := micros h m s us in
        if off =? 0 then Some (Some 0)
        else if (59 <? m) || (59 <? s) || (DAY <=? off) then None
        else Some (Some (if sign =? -1 then - off else off))
  end.

(** [datetime.fromisoformat(s)]: the microseconds since the epoch and whether
    there is a time zone; [None] is the [ValueError]. The hour 24 is the midnight
    that ends the day. *)
Definition fromisoformat_chars (l : list ascii) : option (time * bool) :=
  if Nat.ltb (length l) 7 then None else
  let! n := date_length l in
  let! (year, month, day) := parse_isoformat_date (take n l) in
  let tstr := drop (S n) l in
  let! (h, m, s, us, zone) :=
    if is_nil tstr then Some (0, 0, 0, 0, None)
    else if Nat.ltb (length tstr) 2 then None
    else
      let '(clock_part, z) := zone_split tstr in
      let! (h, m, s, us) := parse_hh_mm_ss_ff clock_part in
      let! zone := parse_zone z in
      Some (h, m, s, us, zone) in
  if negb (valid_date year month day) then None else
  let midnight := (h =? 24) && (m =? 0) && (s =? 0) && (us =? 0) in
  if negb midnight && ((23 <? h) || (59 <? m) || (59 <? s)) then None else
  let local := (ymd2ord year month day - EPOCH_ORDINAL) * DAY + micros h m s us in
  if negb (in_calendar local) then None else
  Some (match zone with Some off => local - off | None => local end, is_some zone).

Definition fromisoformat (s : string) : option (time * bool) := fromisoformat_chars (chars s).

(** ** [fromisoformat] reads what [isoformat] writes *)

Lemma fixed_digits_length w n : length (fixed_digits w n) = w.
Proof. revert n. induction w as [|w IH]; intros n; cbn; [done|]. rewrite length_app, IH. cbn. lia. Qed.

Lemma fixed_digits_digits w n : forallb is_digit (fixed_digits w n) = true.
Proof.
  revert n. induction w as [|w IH]; intros n; cbn; [done|]. rewrite forallb_app, IH. cbn.
  by rewrite (proj1 (digit_char_ok (n mod 10) (Z.mod_pos_bound n 10 ltac:(lia)))).
Qed.

Lemma take_digits_snoc w acc l :
  take_digits (w + 1) acc l =
  match take_digits w acc l with
  | Some (v, d :: rest) => if is_digit d then Some (10 * v + digit_value d, rest) else None
  | _ => None
  end.
Proof.
  revert acc l. induction w as [|w IH]; intros acc [|d l]; cbn; [done|by destruct (is_digit d)|done|].
  destruct (is_digit d); [apply IH|done].
Qed.

Lemma take_fixed_acc w acc n rest : 0 <= n < 10 ^ Z.of_nat w ->
  take_digits w acc (fixed_digits w n ++ rest) = Some (acc * 10 ^ Z.of_nat w + n, rest).
Proof.
  revert n rest. induction w as [|w IH]; intros n rest Hn.
  { cbn in *. do 2 f_equal. lia. }
  cbn [fixed_digits]. replace (S w) with (w + 1)%nat by lia. rewrite <- app_assoc. cbn [app].
  rewrite take_digits_snoc. rewrite Nat2Z.inj_succ, Z.pow_succ_r in Hn by lia.
  rewrite IH by (split; [apply Z.div_pos; lia|apply Z.div_lt_upper_bound; lia]).
  destruct (digit_char_ok (n mod 10) (Z.mod_pos_bound n 10 ltac:(lia))) as [-> ->].
  replace (Z.of_nat (w + 1)) with (Z.succ (Z.of_nat w)) by lia. rewrite Z.pow_succ_r by lia.
  pose proof (Z.div_mod n 10 ltac:(lia)). do 2 f_equal. nia.
Qed.

Lemma take_fixed w n rest : 0 <= n < 10 ^ Z.of_nat w ->
  take_digits w 0 (fixed_digits w n ++ rest) = Some (n, rest).
Proof. intros Hn. rewrite take_fixed_acc by done. by rewrite Z.mul_0_l. Qed.

Lemma next_is_digits c l rest : forallb is_digit l = true -> is_digit c = false -> l <> [] ->
  next_is c (l ++ rest) = false.
Proof. destruct l as [|d l]; [done|]. cbn. intros [Hd _]%andb_prop Hc _. by apply digit_other. Qed.

Lemma split_at_none c l : forallb (fun d => negb (Ascii.eqb d c)) l = true -> split_at c l = None.
Proof.
  induction l as [|d l IH]; [done|]. cbn. intros [Hd Hl]%andb_prop. apply negb_true_iff in Hd.
  by rewrite Hd, IH.
Qed.

Lemma split_at_app c l rest : forallb (fun d => negb (Ascii.eqb d c)) l = true ->
  split_at c (l ++ c :: rest) = Some (l, rest).
Proof.
  induction l as [|d l IH]; cbn.
  - by rewrite Ascii.eqb_refl.
  - intros [Hd Hl]%andb_prop. apply negb_true_iff in Hd. by rewrite Hd, IH.
Qed.

(** The clock part of an [isoformat]. *)
Definition clock_chars (h m s us : Z) : list ascii :=
  fixed_digits 2 h ++ ":"%char :: fixed_digits 2 m ++ ":"%char :: fixed_digits 2 s ++
  (if us =? 0 then [] else "."%char :: fixed_digits 6 us).

Lemma fixed_other c w n : is_digit c = false -> forallb (fun d => negb (Ascii.eqb d c)) (fixed_digits w n) = true.
Proof.
  intros Hc. pose proof (fixed_digits_digits w n) as Hd. rewrite forallb_forall in *. intros d Hin.
  by rewrite (digit_other d c) by auto.
Qed.

Lemma clock_other c h m s us : is_digit c = false -> Ascii.eqb ":" c = false -> Ascii.eqb "." c = false ->
  forallb (fun d => negb (Ascii.eqb d c)) (clock_chars h m s us) = true.
Proof.
  intros Hc Hcol Hdot. pose proof (fun w n => fixed_other c w n Hc) as Hf.
  unfold clock_chars. do 2 (rewrite forallb_app, Hf; cbn [forallb andb]; rewrite Hcol; cbn [negb andb]).
  rewrite forallb_app, Hf. cbn [andb].
  destruct (us =? 0); cbn [forallb andb negb]; [done|]. by rewrite Hdot, Hf.
Qed.

Lemma parse_clock h m s us : 0 <= h < 100 -> 0 <= m < 100 -> 0 <= s < 100 -> 0 <= us < 1000000 ->
  parse_hh_mm_ss_ff (clock_chars h m s us) = Some (h, m, s, us).
Proof.
  intros Hh Hm Hs Hus. unfold parse_hh_mm_ss_ff, clock_chars. rewrite take_fixed by (cbn; lia).
  cbn [opt_bind parse_components]. rewrite Ascii.eqb_refl. rewrite take_fixed by (cbn; lia). cbn [opt_bind].
  rewrite Ascii.eqb_refl. rewrite take_fixed by (cbn; lia). cbn [opt_bind].
  destruct (Z.eqb_spec us 0) as [->|].
  - done.
  - cbn [opt_bind nth]. unfold parse_fraction.
    change (negb (Ascii.eqb "." "." || Ascii.eqb "." ",")) with false. cbv iota.
    rewrite fixed_digits_digits, fixed_digits_length. destruct (fixed_digits 6 us) as [|c l] eqn:Ef.
    { apply (f_equal length) in Ef. by rewrite fixed_digits_length in Ef. }
    rewrite <- Ef. cbn [is_nil negb orb]. rewrite <- (app_nil_r (fixed_digits 6 us)).
    change (Nat.min 6 6) with 6%nat. rewrite take_fixed by (cbn; lia). cbn [opt_bind].
    cbn [nth]. change (6 - 6)%nat with 0%nat. by rewrite Z.mul_1_r.
Qed.

(** The date part. *)
Definition date_chars (y m d : Z) : list ascii :=
  fixed_digits 4 y ++ "-"%char :: fixed_digits 2 m ++ "-"%char :: fixed_digits 2 d.

Lemma date_chars_length y m d : length (date_chars y m d) = 10%nat.
Proof. unfold date_chars. rewrite !length_app. cbn [length]. rewrite length_app. cbn [length]. by rewrite !fixed_digits_length. Qed.

Lemma parse_date y m d : 0 <= y < 10000 -> 0 <= m < 100 -> 0 <= d < 100 ->
  parse_isoformat_date (date_chars y m d) = Some (y, m, d).
Proof.
  intros Hy Hm Hd. unfold parse_isoformat_date, date_chars. rewrite take_fixed by (cbn; lia). cbn [opt_bind next_is tail].
  rewrite Ascii.eqb_refl, next_is_digits; [|apply fixed_digits_digits|done|by destruct (fixed_digits 2 m) eqn:E; [apply (f_equal length) in E; rewrite fixed_digits_length in E|]].
  rewrite take_fixed by (cbn; lia). cbn [opt_bind next_is tail]. rewrite Ascii.eqb_refl. cbn [Bool.eqb negb].
  rewrite <- (app_nil_r (fixed_digits 2 d)), take_fixed by (cbn; lia). done.
Qed.

Lemma date_other c y m d : is_digit c = false -> Ascii.eqb "-" c = false ->
  forallb (fun x => negb (Ascii.eqb x c)) (date_chars y m d) = true.
Proof.
  intros Hc Hd. unfold date_chars. rewrite forallb_app, fixed_other by done. cbn [forallb andb]. rewrite Hd. cbn [negb andb].
  rewrite forallb_app, fixed_other by done. cbn [forallb andb]. rewrite Hd. by apply fixed_other.
Qed.

Lemma date_length_dashed y m d rest : date_length (date_chars y m d ++ "T"%char :: rest) = Some 10%nat.
Proof.
  unfold date_length. rewrite length_app, date_chars_length. cbn [length].
  replace (Nat.eqb (10 + S (length rest)) 7) with false by (symmetry; apply Nat.eqb_neq; lia).
  pose proof (fixed_digits_length 4 y) as Hl. pose proof (fixed_digits_length 2 m) as Hm.
  pose proof (fixed_digits_digits 2 m) as Hd. unfold date_chars.
  destruct (fixed_digits 4 y) as [|? [|? [|? [|? []]]]]; try done. destruct (fixed_digits 2 m) as [|c [|? []]]; try done.
  cbn [forallb] in Hd. apply andb_prop in Hd as [Hd _]. cbn [app is_at nth_error].
  rewrite Ascii.eqb_refl. by destruct (Ascii.eqb_spec "W" c) as [<-|].
Qed.

Lemma drop_past {A} n (l : list A) c rest : length l = n -> drop (S n) (l ++ c :: rest) = rest.
Proof. intros <-. induction l as [|x l IH]; [done|exact IH]. Qed.

Lemma isoformat_split t : exists y mo d h m s us,
  isoformat_utc t = date_chars y mo d ++ "T"%char :: clock_chars h m s us ++ chars "+00:00" /\
  ord2ymd (EPOCH_ORDINAL + t / DAY) = (y, mo, d) /\ micros h m s us = t mod DAY /\
  0 <= h < 24 /\ 0 <= m < 60 /\ 0 <= s < 60 /\ 0 <= us < 1000000.
Proof.
  unfold isoformat_utc. destruct (ord2ymd _) as [[y mo] d]. set (u := t mod DAY).
  assert (Hu : 0 <= u < DAY) by (apply Z.mod_pos_bound; done). unfold DAY in Hu.
  exists y, mo, d, (u / 1000000 / 3600), (u / 1000000 / 60 mod 60), (u / 1000000 mod 60), (u mod 1000000).
  split_and!; [| |unfold micros| | | | | | | |]; try (Z.to_euclidean_division_equations; lia); [|done].
  unfold date_chars, clock_chars. rewrite <- !app_assoc. cbn [app]. rewrite <- !app_assoc. cbn [app].
  by rewrite <- !app_assoc.
Qed.

Lemma isoformat_roundtrip t : in_calendar t = true -> fromisoformat_chars (isoformat_utc t) = Some (t, true).
Proof.
  intros Hc. assert (Hc' := Hc). unfold in_calendar in Hc'. rewrite andb_true_iff, !Z.leb_le in Hc'.
  destruct (isoformat_split t) as (y & mo & d & h & m & s & us & -> & Eo & Eu & Hh & Hm & Hs & Hus).
  pose proof (ord2ymd_spec _ Hc') as Ho. rewrite Eo in Ho. destruct Ho as [Hv Hord]. assert (Hv' := Hv).
  unfold valid_date in Hv'. rewrite !andb_true_iff, !Z.leb_le in Hv'.
  assert (Hd31 : days_in_month (is_leap y) mo <= 31) by (unfold days_in_month; repeat case_match; lia).
  unfold fromisoformat_chars. rewrite date_length_dashed.
  rewrite length_app, date_chars_length. cbn [length opt_bind].
  replace (Nat.ltb (10 + _) 7) with false by (symmetry; apply Nat.ltb_ge; lia).
  rewrite take_app_length' by by rewrite date_chars_length. rewrite parse_date by lia. cbn [opt_bind].
  replace (drop 11 _) with (clock_chars h m s us ++ chars "+00:00").
  2: { symmetry. apply drop_past. by rewrite date_chars_length. }
  assert (Hlen : (8 <= length (clock_chars h m s us ++ chars "+00:00"))%nat).
  { unfold clock_chars. rewrite !length_app. cbn [length]. rewrite length_app. cbn [length]. rewrite length_app, !fixed_digits_length. lia. }
  destruct (is_nil _) eqn:En; [by destruct (clock_chars h m s us ++ _) in En, Hlen; cbn in Hlen; [lia|]|].
  replace (Nat.ltb (length _) 2) with false by (symmetry; apply Nat.ltb_ge; lia).
  unfold zone_split. rewrite split_at_none.
  2: { rewrite forallb_app, clock_other by done. done. }
  change (chars "+00:00") with ("+"%char :: chars "00:00"). rewrite split_at_app by by apply clock_other.
  rewrite parse_clock by lia. change (parse_zone (Some (1, chars "00:00"))) with (Some (Some 0)). cbn [opt_bind].
  rewrite Hv. cbn [negb]. replace (_ && ((23 <? h) || _ || _)) with false.
  2: { symmetry. apply andb_false_iff. right. rewrite !orb_false_iff, !Z.ltb_ge. lia. }
  rewrite Hord, Eu. replace ((EPOCH_ORDINAL + t / DAY - EPOCH_ORDINAL) * DAY + t mod DAY) with t.
  2: { pose proof (Z.div_mod t DAY ltac:(done)). lia. }
  rewrite Hc. cbn [negb is_some]. by rewrite Z.sub_0_r.
Qed.
