(* ===== verification/Sha256.v ===== *)
(** SHA-256 and HMAC-SHA-256 (FIPS 180-4, RFC 2104), which the code uses through
    [hashlib] and [hmac]: credential hashes, request fingerprints, payment
    signatures. Words are integers below [2 ^ 32]. *)

From S2P Require Export Text.

Local Open Scope list_scope.
Local Open Scope Z_scope.

Definition byte_of_Z (n : Z) : Byte.byte := default Byte.x00 (Byte.of_N (Z.to_N n)).
Definition Z_of_byte (b : Byte.byte) : Z := Z.of_N (Byte.to_N b).

(** ** Words of 32 bits *)

Definition word (n : Z) : Z := Z.land n 4294967295.
Definition add32 (a b : Z) : Z := word (a + b).
Definition rotr (n a : Z) : Z := Z.lor (Z.shiftr a n) (word (Z.shiftl a (32 - n))).
Definition xor3 (a b c : Z) : Z := Z.lxor a (Z.lxor b c).

Definition Sigma0 (a : Z) : Z := xor3 (rotr 2 a) (rotr 13 a) (rotr 22 a).
Definition Sigma1 (a : Z) : Z := xor3 (rotr 6 a) (rotr 11 a) (rotr 25 a).
Definition sigma0 (a : Z) : Z := xor3 (rotr 7 a) (rotr 18 a) (Z.shiftr a 3).
Definition sigma1 (a : Z) : Z := xor3 (rotr 17 a) (rotr 19 a) (Z.shiftr a 10).
Definition Ch (a b c : Z) : Z := Z.lxor (Z.land a b) (Z.land (Z.lxor a 4294967295) c).
Definition Maj (a b c : Z) : Z := xor3 (Z.land a b) (Z.land a c) (Z.land b c).

Definition round_constants : list Z :=
  [1116352408; 1899447441; 3049323471; 3921009573; 961987163; 1508970993;
   2453635748; 2870763221; 3624381080; 310598401; 607225278; 1426881987;
   1925078388; 2162078206; 2614888103; 3248222580; 3835390401; 4022224774;
   264347078; 604807628; 770255983; 1249150122; 1555081692; 1996064986;
   2554220882; 2821834349; 2952996808; 3210313671; 3336571891; 3584528711;
   113926993; 338241895; 666307205; 773529912; 1294757372; 1396182291;
   1695183700; 1986661051; 2177026350; 2456956037; 2730485921; 2820302411;
   3259730800; 3345764771; 3516065817; 3600352804; 4094571909; 275423344;
   430227734; 506948616; 659060556; 883997877; 958139571; 1322822218;
   1537002063; 1747873779; 1955562222; 2024104815; 2227730452; 2361852424;
   2428436474; 2756734187; 3204031479; 3329325298].

(** The chaining value: eight words. *)
Record Chain := {
  ca : Z; cb : Z; cc : Z; cd : Z; ce : Z; cf : Z; cg : Z; ch : Z
}.

Definition chain_words (c : Chain) : list Z := [ca c; cb c; cc c; cd c; ce c; cf c; cg c; ch c].

Definition initial_chain : Chain :=
  match [1779033703; 3144134277; 1013904242; 2773480762; 1359893119; 2600822924;
   528734635; 1541459225] with
  | [a; b; c; d; e; f; g; h] =>
      {| ca := a; cb := b; cc := c; cd := d; ce := e; cf := f; cg := g; ch := h |}
  | _ => {| ca := 0; cb := 0; cc := 0; cd := 0; ce := 0; cf := 0; cg := 0; ch := 0 |}
  end.

(** ** One block *)

(** One round with the message word [w] and the constant [k]. *)
Definition round (s : Chain) (wk : Z * Z) : Chain :=
  let t1 := word (ch s + Sigma1 (ce s) + Ch (ce s) (cf s) (cg s) + wk.2 + wk.1) in
  let t2 := add32 (Sigma0 (ca s)) (Maj (ca s) (cb s) (cc s)) in
  {| ca := add32 t1 t2; cb := ca s; cc := cb s; cd := cc s;
     ce := add32 (cd s) t1; cf := ce s; cg := cf s; ch := cg s |}.

(** The message schedule, from the last word back: [n] more words. *)
Fixpoint extend (n : nat) (rev_ws : list Z) : list Z :=
  match n with
  | O => rev_ws
  | S n =>
      let at_ k := nth k rev_ws 0 in
      extend n (word (sigma1 (at_ 1%nat) + at_ 6%nat + sigma0 (at_ 14%nat) + at_ 15%nat) :: rev_ws)
  end.

Definition schedule (block : list Z) : list Z := rev (extend 48 (rev block)).

Definition compress (s : Chain) (block : list Z) : Chain :=
  let r := fold_left round (combine (schedule block) round_constants) s in
  {| ca := add32 (ca s) (ca r); cb := add32 (cb s) (cb r); cc := add32 (cc s) (cc r);
     cd := add32 (cd s) (cd r); ce := add32 (ce s) (ce r); cf := add32 (cf s) (cf r);
     cg := add32 (cg s) (cg r); ch := add32 (ch s) (ch r) |}.

(** ** Messages *)

(** The four bytes of a word, most significant first. *)
Definition word_bytes (w : Z) : list Z :=
  [Z.shiftr w 24; Z.land (Z.shiftr w 16) 255; Z.land (Z.shiftr w 8) 255; Z.land w 255].

(** A message and its padding as a list of words. *)
Fixpoint words (l : list Z) : list Z :=
  match l with
  | a :: b :: c :: d :: l =>
      Z.shiftl a 24 + Z.shiftl b 16 + Z.shiftl c 8 + d :: words l
  | _ => []
  end.

Definition padded (l : list Z) : list Z :=
  let n := Z.of_nat (length l) in
  l ++ 128 :: repeat 0 (Z.to_nat ((55 - n) mod 64)) ++
  word_bytes (Z.shiftr (8 * n) 32) ++ word_bytes (word (8 * n)).

(** The blocks of sixteen words; one unit of fuel per block. *)
Fixpoint blocks (fuel : nat) (ws : list Z) : list (list Z) :=
  match fuel, ws with
  | S fuel, _ :: _ => take 16 ws :: blocks fuel (drop 16 ws)
  | _, _ => []
  end.

(** [hashlib.sha256(message).digest()] *)
Definition sha256 (message : bytes) : bytes :=
  let ws := words (padded (Z_of_byte <$> message)) in
  byte_of_Z <$> (chain_words (fold_left compress (blocks (length ws) ws) initial_chain) ≫= word_bytes).

(** [hmac.new(key, message, hashlib.sha256).digest()] *)
Definition hmac_sha256 (key message : bytes) : bytes :=
  let key := if (64 <? Z.of_nat (length key)) then sha256 key else key in
  let key := key ++ repeat Byte.x00 (64 - length key) in
  let pad k := (fun b => byte_of_Z (Z.lxor (Z_of_byte b) k)) <$> key in
  sha256 (pad 92 ++ sha256 (pad 54 ++ message)).

(** [text.encode()]: a character stands for one byte of the encoded text. *)
Definition utf8 (s : string) : bytes := String.list_byte_of_string s.

(** [digest.hex()] *)
Definition to_hex (l : bytes) : string :=
  of_chars (l ≫= (fun b => [hex_char (Z_of_byte b / 16); hex_char (Z_of_byte b mod 16)])).

Definition sha256_digest (text : string) : bytes := sha256 (utf8 text).
Definition sha256_hex (text : string) : string := to_hex (sha256_digest text).

(** The digest has 32 bytes, as the code asserts. *)
Lemma length_sha256 message : length (sha256 message) = 32%nat.
Proof. unfold sha256. by rewrite length_fmap. Qed.

Lemma length_hmac_sha256 key message : length (hmac_sha256 key message) = 32%nat.
Proof. apply length_sha256. Qed.

(** Published test vectors. *)
Example sha256_abc :
  sha256_hex "abc" = "ba7816bf8f01cfea414140de5dae2223b00361a396177a9cb410ff61f20015ad"%string.
Proof. vm_compute. reflexivity. Qed.

Example sha256_two_blocks :
  sha256_hex "abcdbcdecdefdefgefghfghighijhijkijkljklmklmnlmnomnopnopq" =
  "248d6a61d20638b8e5c026930c3e6039a33ce45964ff2167f6ecedd419db06c1"%string.
Proof. vm_compute. reflexivity. Qed.

Example hmac_jefe :
  to_hex (hmac_sha256 (utf8 "Jefe") (utf8 "what do ya want for nothing?")) =
  "5bdcc146bf60754e6a042426089575c75a003f089d2739839dec58b964ec3843"%string.
Proof. vm_compute. reflexivity. Qed.

#[global] Opaque sha256.

