(* ===== verification/Errors.v ===== *)
(** Error values: the typed errors of the domain packages, as one sum.

    A Python exception that carries a code and an internal reason is a
    constructor with both; the public message and HTTP status are functions of
    the code, as in the code's catalogs. *)

From S2P Require Export Text.

Local Open Scope string_scope.
Local Open Scope Z_scope.

(** Source: backend/src/fetchnow/jobs/errors.py:14-25 [JobErrorCode] *)
Inductive JobErrorCode :=
| JOB_NOT_FOUND
| JOB_EXPIRED
| CAPACITY_UNAVAILABLE
| IDEMPOTENCY_CONFLICT
| INVALID_ACCESS_TOKEN
| MEDIA_INSPECTION_FAILED
| DURATION_TOO_LONG
| FILE_TOO_LARGE
| JOB_INTERNAL_ERROR.

(** Source: backend/src/fetchnow/jobs/errors.py:43-53 [_HTTP_STATUS] *)
Definition job_http_status (code : JobErrorCode) : Z :=
  match code with
  | JOB_NOT_FOUND => 404
  | JOB_EXPIRED => 410
  | CAPACITY_UNAVAILABLE => 503
  | IDEMPOTENCY_CONFLICT => 409
  | INVALID_ACCESS_TOKEN => 400
  | MEDIA_INSPECTION_FAILED => 422
  | DURATION_TOO_LONG => 422
  | FILE_TOO_LARGE => 413
  | JOB_INTERNAL_ERROR => 500
  end.

(** Source: backend/src/fetchnow/jobs/errors.py:14-25 [JobErrorCode]
    The string value of a job error code, as stored in [public_error_code]. *)
Definition job_code_value (code : JobErrorCode) : string :=
  match code with
  | JOB_NOT_FOUND => "JOB_NOT_FOUND"
  | JOB_EXPIRED => "JOB_EXPIRED"
  | CAPACITY_UNAVAILABLE => "CAPACITY_UNAVAILABLE"
  | IDEMPOTENCY_CONFLICT => "IDEMPOTENCY_CONFLICT"
  | INVALID_ACCESS_TOKEN => "INVALID_ACCESS_TOKEN"
  | MEDIA_INSPECTION_FAILED => "MEDIA_INSPECTION_FAILED"
  | DURATION_TOO_LONG => "DURATION_TOO_LONG"
  | FILE_TOO_LARGE => "FILE_TOO_LARGE"
  | JOB_INTERNAL_ERROR => "INTERNAL_ERROR"
  end.

(** Source: backend/src/fetchnow/downloads/errors.py:14-40 [DownloadErrorCode] *)
Inductive DownloadErrorCode :=
| DOWNLOADS_DISABLED
| DOWNLOAD_JOB_NOT_FOUND
| PARENT_JOB_NOT_READY
| FORMAT_NOT_FOUND
| FORMAT_NOT_ELIGIBLE
| FORMAT_UNAVAILABLE
| MEDIA_CAPABILITY_REQUIRES_PREMIUM
| MEDIA_CAPABILITY_UNAVAILABLE
| PROVIDER_CAPABILITY_DISABLED
| DOWNLOAD_TIMEOUT
| DOWNLOAD_TOO_LARGE
| DOWNLOAD_TOOL_FAILED
| DOWNLOAD_INVALID_OUTPUT
| DOWNLOAD_STORAGE_UNAVAILABLE
| DOWNLOAD_EXPIRED
| DELIVERY_DISABLED
| DOWNLOAD_NOT_READY
| MUXING_UNAVAILABLE
| MUXING_FAILED
| MUXING_TIMEOUT
| MUXED_OUTPUT_INVALID
| DELIVERY_IN_PROGRESS
| QUOTA_STATE_INCOHERENT
| DOWNLOAD_INTERNAL_ERROR.

(** Source: backend/src/fetchnow/downloads/errors.py:90-115 [_HTTP_STATUS] *)
Definition download_http_status (code : DownloadErrorCode) : Z :=
  match code with
  | DOWNLOADS_DISABLED => 503
  | DOWNLOAD_JOB_NOT_FOUND => 404
  | PARENT_JOB_NOT_READY => 409
  | FORMAT_NOT_FOUND => 404
  | FORMAT_NOT_ELIGIBLE => 422
  | FORMAT_UNAVAILABLE => 422
  | MEDIA_CAPABILITY_REQUIRES_PREMIUM => 403
  | MEDIA_CAPABILITY_UNAVAILABLE => 422
  | PROVIDER_CAPABILITY_DISABLED => 422
  | DOWNLOAD_TIMEOUT => 504
  | DOWNLOAD_TOO_LARGE => 413
  | DOWNLOAD_TOOL_FAILED => 422
  | DOWNLOAD_INVALID_OUTPUT => 422
  | DOWNLOAD_STORAGE_UNAVAILABLE => 503
  | DOWNLOAD_EXPIRED => 410
  | DELIVERY_DISABLED => 503
  | DOWNLOAD_NOT_READY => 409
  | MUXING_UNAVAILABLE => 422
  | MUXING_FAILED => 422
  | MUXING_TIMEOUT => 504
  | MUXED_OUTPUT_INVALID => 422
  | DELIVERY_IN_PROGRESS => 409
  | QUOTA_STATE_INCOHERENT => 409
  | DOWNLOAD_INTERNAL_ERROR => 500
  end.

(** Source: backend/src/fetchnow/downloads/errors.py:14-40 [DownloadErrorCode]
    The string value of a download error code, as stored in
    [public_error_code]. *)
Definition download_code_value (code : DownloadErrorCode) : string :=
  match code with
  | DOWNLOADS_DISABLED => "DOWNLOADS_DISABLED"
  | DOWNLOAD_JOB_NOT_FOUND => "DOWNLOAD_JOB_NOT_FOUND"
  | PARENT_JOB_NOT_READY => "PARENT_JOB_NOT_READY"
  | FORMAT_NOT_FOUND => "FORMAT_NOT_FOUND"
  | FORMAT_NOT_ELIGIBLE => "FORMAT_NOT_ELIGIBLE"
  | FORMAT_UNAVAILABLE => "FORMAT_UNAVAILABLE"
  | MEDIA_CAPABILITY_REQUIRES_PREMIUM => "MEDIA_CAPABILITY_REQUIRES_PREMIUM"
  | MEDIA_CAPABILITY_UNAVAILABLE => "MEDIA_CAPABILITY_UNAVAILABLE"
  | PROVIDER_CAPABILITY_DISABLED => "PROVIDER_CAPABILITY_DISABLED"
  | DOWNLOAD_TIMEOUT => "DOWNLOAD_TIMEOUT"
  | DOWNLOAD_TOO_LARGE => "DOWNLOAD_TOO_LARGE"
  | DOWNLOAD_TOOL_FAILED => "DOWNLOAD_TOOL_FAILED"
  | DOWNLOAD_INVALID_OUTPUT => "DOWNLOAD_INVALID_OUTPUT"
  | DOWNLOAD_STORAGE_UNAVAILABLE => "DOWNLOAD_STORAGE_UNAVAILABLE"
  | DOWNLOAD_EXPIRED => "DOWNLOAD_EXPIRED"
  | DELIVERY_DISABLED => "DELIVERY_DISABLED"
  | DOWNLOAD_NOT_READY => "DOWNLOAD_NOT_READY"
  | MUXING_UNAVAILABLE => "MUXING_UNAVAILABLE"
  | MUXING_FAILED => "MUXING_FAILED"
  | MUXING_TIMEOUT => "MUXING_TIMEOUT"
  | MUXED_OUTPUT_INVALID => "MUXED_OUTPUT_INVALID"
  | DELIVERY_IN_PROGRESS => "DELIVERY_IN_PROGRESS"
  | QUOTA_STATE_INCOHERENT => "QUOTA_STATE_INCOHERENT"
  | DOWNLOAD_INTERNAL_ERROR => "INTERNAL_ERROR"
  end.

(** Source: backend/src/fetchnow/quota/errors.py:9-18 [QuotaStatus] *)
Record QuotaStatus := {
  qs_tier : string;
  qs_download_limit : option Z;
  qs_downloads_used : option Z;
  qs_downloads_reserved : option Z;
  qs_downloads_remaining : option Z;
  qs_reset_at : option time;
  qs_window_seconds : option Z;
  qs_premium_expires_at : option time
}.

(** Source: backend/src/fetchnow/payments/errors.py:6-39 [PaymentError] *)
Inductive PaymentErrorKind :=
| PaymentsDisabledError
| PaymentIdentityRequiredError
| UnknownProductError
| InvalidIdempotencyKeyError
| IdempotencyConflictError
| PaymentOrderNotFoundError
| InvalidCallbackError
| PaymentInvariantError.

(** Source: backend/src/fetchnow/url/errors.py:40-52 [HTTP_STATUS_BY_CODE]
    The codes of [URLValidationError], the keys of the catalogs. *)
Inductive URLErrorCode :=
| INVALID_URL
| UNSUPPORTED_SCHEME
| UNSUPPORTED_PROVIDER
| BLOCKED_DESTINATION
| REDIRECT_LIMIT_EXCEEDED
| INVALID_REDIRECT
| UNSUPPORTED_CONTENT_TYPE
| RESPONSE_TOO_LARGE
| SOURCE_UNAVAILABLE
| SOURCE_TIMEOUT
| URL_INTERNAL_ERROR.

(** Source: backend/src/fetchnow/url/errors.py:40-52 [HTTP_STATUS_BY_CODE] *)
Definition url_http_status (code : URLErrorCode) : Z :=
  match code with
  | INVALID_URL => 400
  | UNSUPPORTED_SCHEME => 400
  | UNSUPPORTED_PROVIDER => 422
  | BLOCKED_DESTINATION => 422
  | REDIRECT_LIMIT_EXCEEDED => 422
  | INVALID_REDIRECT => 422
  | UNSUPPORTED_CONTENT_TYPE => 422
  | RESPONSE_TOO_LARGE => 413
  | SOURCE_UNAVAILABLE => 502
  | SOURCE_TIMEOUT => 504
  | URL_INTERNAL_ERROR => 500
  end.

(** Source: backend/src/fetchnow/url/errors.py:40-52 [HTTP_STATUS_BY_CODE]
    The string a URL error code is. *)
Definition url_code_value (code : URLErrorCode) : string :=
  match code with
  | INVALID_URL => "INVALID_URL"
  | UNSUPPORTED_SCHEME => "UNSUPPORTED_SCHEME"
  | UNSUPPORTED_PROVIDER => "UNSUPPORTED_PROVIDER"
  | BLOCKED_DESTINATION => "BLOCKED_DESTINATION"
  | REDIRECT_LIMIT_EXCEEDED => "REDIRECT_LIMIT_EXCEEDED"
  | INVALID_REDIRECT => "INVALID_REDIRECT"
  | UNSUPPORTED_CONTENT_TYPE => "UNSUPPORTED_CONTENT_TYPE"
  | RESPONSE_TOO_LARGE => "RESPONSE_TOO_LARGE"
  | SOURCE_UNAVAILABLE => "SOURCE_UNAVAILABLE"
  | SOURCE_TIMEOUT => "SOURCE_TIMEOUT"
  | URL_INTERNAL_ERROR => "INTERNAL_ERROR"
  end.

(** Source: backend/src/fetchnow/media_inspection/errors.py:14-30 [InspectionErrorKind] *)
Inductive InspectionErrorKind :=
| INSPECTION_UNSUPPORTED_PROVIDER
| INSPECTION_TOOL_UNAVAILABLE
| INSPECTION_TIMEOUT
| INSPECTION_OUTPUT_LIMIT_EXCEEDED
| INSPECTION_INVALID_OUTPUT
| INSPECTION_PROVIDER_MISMATCH
| INSPECTION_MEDIA_UNAVAILABLE
| INSPECTION_POLICY_REJECTED
| INSPECTION_CANCELLED
| INTERNAL_INSPECTION_ERROR.

(** Source: backend/src/fetchnow/resolution/errors.py:14-28 [ResolutionErrorKind] *)
Inductive ResolutionErrorKind :=
| WRAPPER_UNSUPPORTED
| WRAPPER_UNRESOLVED
| RESOLVED_PROVIDER_UNSUPPORTED
| RESOLUTION_LOOP
| RESOLUTION_LIMIT_EXCEEDED
| UNSAFE_RESOLUTION_TARGET
| RESOLUTION_INTERNAL_ERROR.

(** The exceptions the modelled code raises. [JobError] and [DownloadError]
    carry the code, the internal reason and the HTTP status; [IntegrityError]
    is the database driver's constraint violation, [StaleDataError] the ORM's
    write to a row that is gone, [AssertionError], [KeyError], [TypeError] and
    [ValueError] Python's, [WrapperRegistryError] a [ValueError] of its own
    class;
    [UnexpectedError] is any other exception of code outside the model. *)
Inductive exn :=
| JobError (code : JobErrorCode) (internal_reason : string) (http_status : Z)
| DownloadError (code : DownloadErrorCode) (internal_reason : string) (http_status : Z)
| QuotaInvariantError (message : string)
| AnonymousIdentityRequiredError
| FreeQuotaExceededError (status : QuotaStatus)
| PaymentError (kind : PaymentErrorKind)
| PremiumEntitlementInvariantError
| URLValidationError (code : URLErrorCode) (internal_reason : option string)
| ProviderIdentityError (reason : string)
| InspectionError (kind : InspectionErrorKind) (internal_reason : string)
| ResolutionError (kind : ResolutionErrorKind) (internal_reason : string)
| IntegrityError
| StaleDataError
| AssertionError
| KeyError
| TypeError
| WrapperRegistryError
| ValueError (message : string)
| UnexpectedError.

(** Source: backend/src/fetchnow/jobs/errors.py:99-112 [raise_job_error] *)
Definition job_error (code : JobErrorCode) (internal_reason : string) : exn :=
  JobError code internal_reason (job_http_status code).

(** Source: backend/src/fetchnow/downloads/errors.py:161-174 [raise_download_error] *)
Definition download_error (code : DownloadErrorCode) (internal_reason : string) : exn :=
  DownloadError code internal_reason (download_http_status code).

Definition unavailable (reason : string) : exn := download_error FORMAT_UNAVAILABLE reason.

(** Source: backend/src/fetchnow/url/errors.py:55-66 [raise_validation_error] *)
Definition raise_validation_error (code : URLErrorCode) : exn := URLValidationError code None.

(** The same with an explicit [http_status] argument. *)
Definition download_error_http (code : DownloadErrorCode) (internal_reason : string)
    (http_status : Z) : exn :=
  DownloadError code internal_reason http_status.
