(* ===== verification/Net.v ===== *)
(** Addresses the validator may contact (url/destination.py), and how a host
    name resolves to them (url/dns.py).

    The first part is the standard library's [ipaddress], as the code uses it
    (Python 3.14, the version the image pins): parsing of both families and the
    registry tables behind [is_private], [is_reserved] and the like. *)

From S2P Require Export Regex Errors.

Local Open Scope string_scope.
Local Open Scope list_scope.
Local Open Scope Z_scope.

(** Text in this package is a list of characters. *)
Abbreviation text := (list ascii) (only parsing).

(** ** Addresses *)

(** [IPv4Address] and [IPv6Address]: the integer and the zone. *)
Inductive address :=
| V4 (ip : Z)
| V6 (ip : Z) (scope_id : option text).

#[global] Instance address_eq_dec : EqDecision address.
Proof. solve_decision. Defined.

Definition has (c : ascii) (l : text) : bool := char_in c l.

Definition dots (a b c d : Z) : Z := ((a * 256 + b) * 256 + c) * 256 + d.

(** [_parse_octet]: one to three digits, at most 255, no leading zero. *)
Definition parse_octet (l : text) : option Z :=
  let n := read_digits (digit_value <$> l) in
  match l with
  | [] => None
  | c :: rest =>
      if negb (forallb is_digit l) || (3 <? length l)%nat ||
         (Ascii.eqb c "0"%char && negb (Nat.eqb (length rest) 0)) || (255 <? n)
      then None else Some n
  end.

Definition parse_v4 (l : text) : option Z :=
  match mapM parse_octet (split_on "."%char l) with
  | Some [a; b; c; d] => Some (dots a b c d)
  | _ => None
  end.

Definition base16 (acc : Z) (l : text) : Z :=
  fold_left (fun acc c => acc * 16 + default 0 (hex_digit c)) l acc.

Definition parse_hextet (l : text) : option Z :=
  if forallb is_hex l && (length l <=? 4)%nat && negb (Nat.eqb (length l) 0)
  then Some (base16 0 l) else None.

Definition join_hextets (acc : Z) (parts : list text) : option Z :=
  (fun hs => fold_left (fun acc h => acc * 65536 + h) hs acc) <$> mapM parse_hextet parts.

(** The empty parts that are not at an end: where [::] is. *)
Definition gaps (parts : list text) : list nat :=
  filter (fun i => parts !! i = Some []) (seq 1 (length parts - 2)).

(** A dotted suffix stands for two hextets. *)
Definition expand_suffix (parts : list text) : option (list text) :=
  match reverse parts with
  | suffix :: front =>
      if has "."%char suffix then
        n ← parse_v4 suffix;
        Some (reverse front ++ [hex_fixed 4 (n / 65536); hex_fixed 4 (n mod 65536)])
      else Some parts
  | [] => Some parts
  end.

Definition parse_v6_int (l : text) : option Z :=
  let parts := split_on ":"%char l in
  if (length parts <? 3)%nat then None else
  parts ← expand_suffix parts;
  let n := length parts in
  let first_empty := is_nil (default [] (head parts)) in
  let last_empty := is_nil (default [] (last parts)) in
  if (9 <? n)%nat then None else
  match gaps parts with
  | [] =>
      if negb (Nat.eqb n 8) || first_empty || last_empty then None
      else join_hextets 0 parts
  | [k] =>
      let hi := if first_empty then (k - 1)%nat else k in
      let lo := if last_empty then (n - k - 2)%nat else (n - k - 1)%nat in
      if (first_empty && negb (Nat.eqb hi 0)) || (last_empty && negb (Nat.eqb lo 0)) ||
         (8 <=? hi + lo)%nat
      then None
      else
        upper ← join_hextets 0 (take hi parts);
        join_hextets (upper * 65536 ^ Z.of_nat (8 - (hi + lo))) (drop (n - lo) parts)
  | _ => None
  end.

Definition parse_v6 (l : text) : option address :=
  let '(addr, zone) := split_once "%"%char l in
  match zone with
  | Some z => if is_nil z || has "%"%char z then None else (fun n => V6 n zone) <$> parse_v6_int addr
  | None => (fun n => V6 n None) <$> parse_v6_int addr
  end.

(** [ipaddress.ip_address(s)]; [None] is its [ValueError]. *)
Definition ip_address (l : text) : option address :=
  if has "/"%char l then None else
  match parse_v4 l with
  | Some n => Some (V4 n)
  | None => parse_v6 l
  end.

(** ** The registries *)

(** [net / prefix]; addresses have [width] bits. *)
Definition in_network (width : Z) (ip : Z) (net : Z * Z) : bool :=
  Z.shiftr ip (width - net.2) =? Z.shiftr net.1 (width - net.2).
Definition in_any (width : Z) (ip : Z) (nets : list (Z * Z)) : bool :=
  existsb (in_network width ip) nets.

Definition v4_private : list (Z * Z) :=
  [(dots 0 0 0 0, 8); (dots 10 0 0 0, 8); (dots 127 0 0 0, 8); (dots 169 254 0 0, 16);
   (dots 172 16 0 0, 12); (dots 192 0 0 0, 24); (dots 192 0 0 170, 31); (dots 192 0 2 0, 24);
   (dots 192 168 0 0, 16); (dots 198 18 0 0, 15); (dots 198 51 100 0, 24);
   (dots 203 0 113 0, 24); (dots 240 0 0 0, 4); (dots 255 255 255 255, 32)].
Definition v4_private_exceptions : list (Z * Z) :=
  [(dots 192 0 0 9, 32); (dots 192 0 0 10, 32)].

(** The first two hextets, with what follows them zero. *)
Definition hextets (a b : Z) : Z := (a * 65536 + b) * 2 ^ 96.
Definition v6_private : list (Z * Z) :=
  [(1, 128); (0, 128); (0xffff * 2 ^ 32, 96); (hextets 0x64 0xff9b + 2 ^ 80, 48);
   (hextets 0x100 0, 64); (hextets 0x2001 0, 23); (hextets 0x2001 0xdb8, 32);
   (hextets 0x2002 0, 16); (hextets 0x3fff 0, 20); (hextets 0xfc00 0, 7); (hextets 0xfe80 0, 10)].
Definition v6_private_exceptions : list (Z * Z) :=
  [(hextets 0x2001 1 + 1, 128); (hextets 0x2001 1 + 2, 128); (hextets 0x2001 3, 32);
   (hextets 0x2001 4 + 0x112 * 2 ^ 80, 48); (hextets 0x2001 0x20, 28); (hextets 0x2001 0x30, 28)].
Definition v6_reserved : list (Z * Z) :=
  [(0, 8); (hextets 0x100 0, 8); (hextets 0x200 0, 7); (hextets 0x400 0, 6); (hextets 0x800 0, 5);
   (hextets 0x1000 0, 4); (hextets 0x4000 0, 3); (hextets 0x6000 0, 3); (hextets 0x8000 0, 3);
   (hextets 0xA000 0, 3); (hextets 0xC000 0, 3); (hextets 0xE000 0, 4); (hextets 0xF000 0, 5);
   (hextets 0xF800 0, 6); (hextets 0xFE00 0, 9)].

Definition ipv4_mapped (n : Z) : option Z :=
  if Z.shiftr n 32 =? 0xFFFF then Some (Z.land n 0xFFFFFFFF) else None.

(** The properties of an address that is not a mapped one. *)
Definition is_unspecified (a : address) : bool :=
  match a with V4 n => n =? 0 | V6 n _ => n =? 0 end.
Definition is_loopback (a : address) : bool :=
  match a with V4 n => in_network 32 n (dots 127 0 0 0, 8) | V6 n _ => n =? 1 end.
Definition is_private (a : address) : bool :=
  match a with
  | V4 n => in_any 32 n v4_private && negb (in_any 32 n v4_private_exceptions)
  | V6 n _ => in_any 128 n v6_private && negb (in_any 128 n v6_private_exceptions)
  end.
Definition is_link_local (a : address) : bool :=
  match a with
  | V4 n => in_network 32 n (dots 169 254 0 0, 16)
  | V6 n _ => in_network 128 n (hextets 0xfe80 0, 10)
  end.
Definition is_multicast (a : address) : bool :=
  match a with
  | V4 n => in_network 32 n (dots 224 0 0 0, 4)
  | V6 n _ => in_network 128 n (hextets 0xff00 0, 8)
  end.
Definition is_reserved (a : address) : bool :=
  match a with
  | V4 n => in_network 32 n (dots 240 0 0 0, 4)
  | V6 n _ => in_any 128 n v6_reserved
  end.
Definition is_global (a : address) : bool :=
  match a with
  | V4 n => negb (in_network 32 n (dots 100 64 0 0, 10)) && negb (is_private a)
  | V6 _ _ => negb (is_private a)
  end.

(** ** Destinations (url/destination.py) *)

(** [s.rstrip(".")] *)
Definition rstrip_dots (l : text) : text := reverse (lstrip (Ascii.eqb "."%char) (reverse l)).

Definition lower_text (l : text) : text := lower_char <$> l.

(** Source: backend/src/fetchnow/url/destination.py:10-17 [RESERVED_HOSTNAMES] *)
Definition RESERVED_HOSTNAMES : list text :=
  chars <$> ["localhost"; "localhost.localdomain"; "ip6-localhost"; "ip6-loopback"].

(** Source: backend/src/fetchnow/url/destination.py:24-26 [is_reserved_hostname] *)
Definition is_reserved_hostname (hostname : text) : bool :=
  bool_decide (lower_text (rstrip_dots hostname) ∈ RESERVED_HOSTNAMES).

(** Source: backend/src/fetchnow/url/destination.py:19-19 [_HEX_IPV4_RE] *)
Definition _HEX_IPV4_RE : regex := Cat (Lit "0x") (Many 1 None is_hex).

(** Source: backend/src/fetchnow/url/destination.py:20-20 [_DECIMAL_IPV4_RE] *)
Definition _DECIMAL_IPV4_RE : regex := Many 1 (Some 10%nat) is_digit.

(** Source: backend/src/fetchnow/url/destination.py:21-21 [_DOTTED_IPV4_RE]
    The one to three repetitions are written out. *)
Definition _DOTTED_IPV4_RE : regex :=
  let part := Many 1 (Some 4%nat) is_digit in
  let dotted r := Cat part (Cat (Char (Ascii.eqb "."%char)) r) in
  Alt (dotted (dotted (dotted part))) (Alt (dotted (dotted part)) (dotted part)).

(** [re.match(...)] as a condition. *)
Definition matches (r : regex) (l : text) : bool :=
  match match_dollar r l with Some _ => true | None => false end.

(** Source: backend/src/fetchnow/url/destination.py:49-58 [looks_like_nonstandard_ipv4]
    One part of a dotted host; [int] drops the final newline a match allows. *)
Definition nonstandard_part (part : text) : bool :=
  (negb (bool_decide (part = ["0"%char])) && negb (bool_decide (strip_prefix ["0"%char] part = None))) ||
  (255 <? read_digits (digit_value <$> strip is_space part)).

(** Source: backend/src/fetchnow/url/destination.py:29-59 [looks_like_nonstandard_ipv4] *)
Definition looks_like_nonstandard_ipv4 (hostname : text) : bool :=
  let host := lower_text (rstrip_dots hostname) in
  if matches _HEX_IPV4_RE host then true
  else if matches _DECIMAL_IPV4_RE host then true
  else if negb (matches _DOTTED_IPV4_RE host) then false
  else
    let parts := split_on "."%char host in
    if negb (Nat.eqb (length parts) 4) then true else existsb nonstandard_part parts.

(** Source: backend/src/fetchnow/url/destination.py:62-72 [parse_ip_literal] *)
Definition parse_ip_literal (hostname : text) : option address :=
  let host := rstrip_dots hostname in
  let host :=
    match host with
    | c :: rest =>
        if Ascii.eqb c "["%char && bool_decide (last host = Some "]"%char)
        then take (length rest - 1) rest else host
    | [] => host
    end in
  if looks_like_nonstandard_ipv4 host then None else ip_address host.

(** Source: backend/src/fetchnow/url/destination.py:86-100 [is_blocked_destination]
    The policy for an address that is not a mapped one. *)
Definition blocked_unmapped (a : address) : bool :=
  bool_decide (a = V4 (dots 169 254 169 254)) ||
  (is_unspecified a || is_loopback a || is_private a || is_link_local a || is_multicast a ||
   is_reserved a) ||
  negb (is_global a).

(** Source: backend/src/fetchnow/url/destination.py:75-100 [is_blocked_destination]
    The recursion goes one step down: a mapped address is an IPv4 address. *)
Definition is_blocked_destination (a : address) : bool :=
  match a with
  | V6 n _ =>
      match ipv4_mapped n with
      | Some m => blocked_unmapped (V4 m)
      | None => blocked_unmapped a
      end
  | V4 _ => blocked_unmapped a
  end.

(** Source: backend/src/fetchnow/url/destination.py:103-111 [assert_addresses_allowed] *)
Definition assert_addresses_allowed (addresses : list address) : exn + unit :=
  if is_nil addresses || existsb is_blocked_destination addresses
  then inl (raise_validation_error BLOCKED_DESTINATION) else inr tt.

(** *** What the policy lets through *)

Definition valid_address (a : address) : Prop :=
  match a with V4 n => 0 <= n < 2 ^ 32 | V6 n _ => 0 <= n < 2 ^ 128 end.

Definition between (lo n hi : Z) : Prop := lo <= n <= hi.

(** The public IPv4 addresses, as ranges. *)
Definition public_v4 (n : Z) : Prop :=
  between (dots 1 0 0 0) n (dots 9 255 255 255) \/
  between (dots 11 0 0 0) n (dots 100 63 255 255) \/
  between (dots 100 128 0 0) n (dots 126 255 255 255) \/
  between (dots 128 0 0 0) n (dots 169 253 255 255) \/
  between (dots 169 255 0 0) n (dots 172 15 255 255) \/
  between (dots 172 32 0 0) n (dots 191 255 255 255) \/
  between (dots 192 0 0 9) n (dots 192 0 0 10) \/
  between (dots 192 0 1 0) n (dots 192 0 1 255) \/
  between (dots 192 0 3 0) n (dots 192 167 255 255) \/
  between (dots 192 169 0 0) n (dots 198 17 255 255) \/
  between (dots 198 20 0 0) n (dots 198 51 99 255) \/
  between (dots 198 51 101 0) n (dots 203 0 112 255) \/
  between (dots 203 0 114 0) n (dots 223 255 255 255).

(** The IPv6 addresses from network [lo] to the end of network [hi], each given
    by its first two hextets. *)
Definition hextet_range (a b : Z) (n : Z) (c d : Z) : Prop :=
  hextets a b <= n < hextets c (d + 1).

(** The IPv6 addresses let through: global unicast without the special blocks,
    and the deprecated site-local block. *)
Definition contactable_v6 (n : Z) : Prop :=
  hextet_range 0x2000 0 n 0x2000 0xffff \/
  between (hextets 0x2001 1 + 1) n (hextets 0x2001 1 + 2) \/
  hextet_range 0x2001 3 n 0x2001 3 \/
  hextets 0x2001 4 + 0x112 * 2 ^ 80 <= n < hextets 0x2001 4 + 0x113 * 2 ^ 80 \/
  hextet_range 0x2001 0x20 n 0x2001 0x3f \/
  hextet_range 0x2001 0x200 n 0x2001 0xdb7 \/
  hextet_range 0x2001 0xdb9 n 0x2001 0xffff \/
  hextet_range 0x2003 0 n 0x3ffe 0xffff \/
  hextet_range 0x3fff 0x1000 n 0x3fff 0xffff \/
  hextet_range 0xfec0 0 n 0xfeff 0xffff.

Definition mapped_range (n : Z) : Prop := 0xffff * 2 ^ 32 <= n < 0x10000 * 2 ^ 32.

Definition contactable (a : address) : Prop :=
  match a with
  | V4 n => public_v4 n
  | V6 n _ => (mapped_range n /\ public_v4 (n - 0xffff * 2 ^ 32)) \/ contactable_v6 n
  end.

Lemma in_network_range width ip base prefix :
  0 <= prefix <= width -> (base mod 2 ^ (width - prefix) =? 0) = true ->
  in_network width ip (base, prefix) = (base <=? ip) && (ip <? base + 2 ^ (width - prefix)).
Proof.
  intros Hp Hb%Z.eqb_eq. unfold in_network. cbn [fst snd].
  rewrite !Z.shiftr_div_pow2 by lia. set (m := 2 ^ (width - prefix)) in *.
  assert (Hm : 0 < m) by (apply Z.pow_pos_nonneg; lia).
  pose proof (Z.div_mod base m ltac:(lia)). pose proof (Z.div_mod ip m ltac:(lia)).
  pose proof (Z.mod_pos_bound ip m Hm).
  destruct (Z.eqb_spec (ip / m) (base / m)) as [E|E], (Z.leb_spec base ip),
    (Z.ltb_spec ip (base + m)); cbn; try done; try (rewrite E in *; lia).
  destruct E. nia.
Qed.

Lemma in_any_cons width ip net nets :
  in_any width ip (net :: nets) = in_network width ip net || in_any width ip nets.
Proof. done. Qed.

(** Membership in every network of a table, as comparisons. *)
Ltac networks :=
  unfold is_global, is_unspecified, is_loopback, is_private, is_link_local, is_multicast, is_reserved,
    v4_private, v4_private_exceptions, v6_private, v6_private_exceptions, v6_reserved in *;
  rewrite ?in_any_cons, ?in_network_range by first [lia | reflexivity];
  cbn [in_any existsb].

(** Every constant address is its number. *)
Ltac numbers :=
  unfold hextet_range, between, mapped_range in *;
  repeat match goal with
    | |- context [?a + 2 ^ ?b] => let c := eval vm_compute in (a + 2 ^ b) in change (a + 2 ^ b) with c
    | |- context [dots ?a ?b ?c ?d] =>
        let v := eval vm_compute in (dots a b c d) in change (dots a b c d) with v
    | |- context [hextets ?a ?b] =>
        let v := eval vm_compute in (hextets a b) in change (hextets a b) with v
    end.

Lemma v4_policy n : 0 <= n < 2 ^ 32 -> blocked_unmapped (V4 n) = false <-> public_v4 n.
Proof.
  intros Hn. unfold blocked_unmapped.
  assert (Hmeta : bool_decide (V4 n = V4 (dots 169 254 169 254)) = (n =? dots 169 254 169 254)).
  { destruct (Z.eqb_spec n (dots 169 254 169 254)) as [->|]; case_bool_decide; congruence. }
  rewrite Hmeta. networks. unfold public_v4. numbers. lia.
Qed.

Lemma v6_policy n zone :
  0 <= n < 2 ^ 128 -> ipv4_mapped n = None -> blocked_unmapped (V6 n zone) = false <-> contactable_v6 n.
Proof.
  intros Hn Hm. unfold blocked_unmapped. rewrite bool_decide_eq_false_2 by done.
  assert (Hm' : ~ mapped_range n).
  { unfold ipv4_mapped in Hm. rewrite Z.shiftr_div_pow2 in Hm by lia.
    destruct (Z.eqb_spec (n / 2 ^ 32) 0xffff) as [|Hd]; [done|]. unfold mapped_range. intros Hr.
    apply Hd. symmetry. apply Z.div_unique with (n - 0xffff * 2 ^ 32); lia. }
  networks. unfold contactable_v6. revert Hm'. numbers. lia.
Qed.

Lemma mapped_spec n m : 0 <= n -> ipv4_mapped n = Some m -> mapped_range n /\ m = n - 0xffff * 2 ^ 32.
Proof.
  intros Hn. unfold ipv4_mapped, mapped_range. rewrite Z.shiftr_div_pow2 by lia.
  destruct (Z.eqb_spec (n / 2 ^ 32) 0xffff) as [Hd|]; [|done]. intros [= <-].
  change 0xFFFFFFFF with (Z.ones 32). rewrite Z.land_ones by lia.
  pose proof (Z.div_mod n (2 ^ 32) ltac:(lia)). pose proof (Z.mod_pos_bound n (2 ^ 32) ltac:(lia)). lia.
Qed.

Lemma blocked_iff a :
  valid_address a -> is_blocked_destination a = false <-> contactable a.
Proof.
  intros Ha. destruct a as [n|n zone]; cbn [valid_address is_blocked_destination contactable] in *.
  { by apply v4_policy. }
  destruct (ipv4_mapped n) as [m|] eqn:Em.
  - apply mapped_spec in Em as [Hr ->]; [|lia]. rewrite v4_policy by (unfold mapped_range in Hr; lia).
    split; [by left|]. intros [[_ Hp]|Hc]; [done|]. exfalso. revert Hr Hc. unfold contactable_v6. numbers. lia.
  - rewrite v6_policy by done. split; [by right|]. intros [[Hr _]|]; [|done]. exfalso.
    unfold ipv4_mapped, mapped_range in *. rewrite Z.shiftr_div_pow2 in Em by lia.
    destruct (Z.eqb_spec (n / 2 ^ 32) 0xffff) as [|Hd]; [done|]. destruct Hd. symmetry.
    apply Z.div_unique with (n - 0xffff * 2 ^ 32); lia.
Qed.

(** The destination policy, exactly: an address is let through if and only
    if it is in one of the listed public IPv4 ranges, or maps such an address,
    or is in one of the listed IPv6 ranges. No loopback, private, link-local,
    metadata, multicast or reserved address passes; the deprecated site-local
    block [fec0::/10] does. *)
Theorem destination_policy_exact a :
  valid_address a -> is_blocked_destination a = false <-> contactable a.
Proof. apply blocked_iff. Qed.

Lemma destination_policy_exact_witness :
  valid_address (V4 (dots 8 8 8 8)) /\ is_blocked_destination (V4 (dots 8 8 8 8)) = false.
Proof.
  assert (H : valid_address (V4 (dots 8 8 8 8))) by by vm_compute. split; [exact H|].
  apply (destination_policy_exact _ H). left. unfold between, dots. lia.
Defined.

(** ** Resolution (url/dns.py) *)

(** What [getaddrinfo] did: the address text of each record ([None] for an
    empty [sockaddr]), or the exception it ended in. *)
Inductive lookup_outcome :=
| Infos (sockaddrs : list (option text))
| LookupTimeout
| LookupOSError
| LookupFailed.

(** Source: backend/src/fetchnow/url/dns.py:75-88 [resolve]
    One record. Two addresses print alike when they are the same. *)
Definition add_info (addresses : list address) (sockaddr : option text) : list address :=
  match sockaddr with
  | None => addresses
  | Some raw =>
      match ip_address raw with
      | None => addresses
      | Some addr => if bool_decide (addr ∈ addresses) then addresses else addresses ++ [addr]
      end
  end.

(** Source: backend/src/fetchnow/url/dns.py:51-92 [resolve] *)
Definition system_resolve (looked_up : lookup_outcome) : exn + list address :=
  match looked_up with
  | LookupTimeout => inl (raise_validation_error SOURCE_TIMEOUT)
  | LookupOSError => inl (raise_validation_error BLOCKED_DESTINATION)
  | LookupFailed => inl (raise_validation_error URL_INTERNAL_ERROR)
  | Infos infos =>
      match fold_left add_info infos [] with
      | [] => inl (raise_validation_error BLOCKED_DESTINATION)
      | addresses => inr addresses
      end
  end.

Lemma parse_octet_range l n : parse_octet l = Some n -> 0 <= n <= 255.
Proof.
  unfold parse_octet. destruct l as [|c rest]; [done|].
  destruct (forallb is_digit (c :: rest)) eqn:Ed; [|done]. cbn [negb orb].
  destruct (_ || (_ && _) || (255 <? _)) eqn:E; [done|]. intros [= <-].
  apply orb_false_elim in E as [_ E%Z.ltb_ge]. split; [|done]. apply (read_text_nonneg (c :: rest)), Ed.
Qed.

Lemma parse_v4_range l n : parse_v4 l = Some n -> 0 <= n < 2 ^ 32.
Proof.
  unfold parse_v4. destruct (mapM parse_octet _) as [os|] eqn:E; [|done].
  apply mapM_Some in E. destruct os as [|a [|b [|c [|d [|]]]]]; try done. intros [= <-].
  repeat match goal with H : Forall2 _ _ (_ :: _) |- _ => apply Forall2_cons_inv_r in H as (? & ? & ?%parse_octet_range & H & _) end.
  unfold dots. lia.
Qed.

Lemma hex_digit_range c d : hex_digit c = Some d -> 0 <= d <= 15.
Proof.
  unfold hex_digit. generalize (Z.of_N (N_of_ascii c)) as n. intros n.
  destruct (_ && _) eqn:E1; [intros [= <-]; lia|].
  destruct (_ && _) eqn:E2 in |- *; [intros [= <-]; lia|].
  destruct (_ && _) eqn:E3 in |- *; [intros [= <-]; lia|done].
Qed.

Lemma base16_bound l acc : 0 <= acc -> 0 <= base16 acc l < (acc + 1) * 16 ^ Z.of_nat (length l).
Proof.
  revert acc. induction l as [|c l IH]; intros acc Ha; cbn [base16 fold_left length]; [rewrite Z.pow_0_r; lia|].
  set (d := default 0 (hex_digit c)).
  assert (0 <= d <= 15) by (unfold d; destruct (hex_digit c) eqn:E; cbn; [by apply hex_digit_range in E|lia]).
  specialize (IH (acc * 16 + d) ltac:(lia)). unfold base16 in IH.
  rewrite Nat2Z.inj_succ, Z.pow_succ_r by lia.
  assert (0 < 16 ^ Z.of_nat (length l)) by (apply Z.pow_pos_nonneg; lia). nia.
Qed.

Lemma parse_hextet_range l n : parse_hextet l = Some n -> 0 <= n < 65536.
Proof.
  unfold parse_hextet. destruct (_ && _) eqn:E; [|done]. intros [= <-].
  apply andb_prop in E as [[_ E%Nat.leb_le]%andb_prop _].
  pose proof (base16_bound l 0 ltac:(lia)) as Hb. split; [lia|].
  eapply Z.lt_le_trans; [apply Hb|]. change 65536 with (16 ^ 4). rewrite Z.mul_1_l.
  apply Z.pow_le_mono_r; lia.
Qed.

Lemma join_hextets_bound parts acc n :
  0 <= acc -> join_hextets acc parts = Some n ->
  0 <= n < (acc + 1) * 65536 ^ Z.of_nat (length parts).
Proof.
  unfold join_hextets. destruct (mapM parse_hextet parts) as [hs|] eqn:E; [|done].
  intros Ha [= <-]. apply mapM_Some in E. revert acc Ha.
  induction E as [|p h parts hs Hh%parse_hextet_range _ IH]; intros acc Ha; cbn [fold_left length].
  { rewrite Z.pow_0_r. lia. }
  specialize (IH (acc * 65536 + h) ltac:(lia)). rewrite Nat2Z.inj_succ, Z.pow_succ_r by lia.
  assert (0 < 65536 ^ Z.of_nat (length parts)) by (apply Z.pow_pos_nonneg; lia). nia.
Qed.

(** What the parser returns is an address. *)
Lemma parse_v6_range l n : parse_v6_int l = Some n -> 0 <= n < 2 ^ 128.
Proof.
  unfold parse_v6_int. destruct (_ <? 3)%nat; [done|].
  destruct (expand_suffix _) as [parts|]; [|done]. cbn [mbind option_bind]. cbv zeta.
  destruct (9 <? length parts)%nat; [done|].
  set (fe := is_nil (default [] (head parts))). set (le := is_nil (default [] (last parts))).
  change (2 ^ 128) with (65536 ^ 8).
  destruct (gaps parts) as [|k [|]] eqn:Eg; [| |done].
  - destruct (_ || _ || _) eqn:E; [done|]. intros Hj%join_hextets_bound; [|lia].
    repeat apply orb_false_elim in E as [E _]. apply negb_false_iff, Nat.eqb_eq in E. rewrite E in Hj. lia.
  - set (hi := if fe then _ else _). set (lo := if le then _ else _).
    destruct (_ || _ || _) eqn:E; [done|]. apply orb_false_elim in E as [_ E%Nat.leb_gt].
    destruct (join_hextets 0 _) as [upper|] eqn:Eu; [|done]. cbn [mbind option_bind].
    apply join_hextets_bound in Eu; [|lia]. rewrite length_take in Eu.
    assert (Hp : forall k, 0 < 65536 ^ Z.of_nat k) by (intros; apply Z.pow_pos_nonneg; lia).
    assert (Hup : upper + 1 <= 65536 ^ Z.of_nat hi).
    { apply Z.le_succ_l. eapply Z.lt_le_trans; [apply Eu|]. rewrite Z.mul_1_l. apply Z.pow_le_mono_r; lia. }
    assert (Hlo : 65536 ^ Z.of_nat (length parts - (length parts - lo)) <= 65536 ^ Z.of_nat lo)
      by (apply Z.pow_le_mono_r; lia).
    replace (65536 ^ 8) with (65536 ^ Z.of_nat hi * 65536 ^ Z.of_nat (8 - (hi + lo)) * 65536 ^ Z.of_nat lo).
    2: { rewrite <- !Z.pow_add_r by lia. f_equal. lia. }
    pose proof (Hp (8 - (hi + lo))%nat) as Hs. pose proof (Hp hi). pose proof (Hp lo).
    rewrite <- (length_drop) in Hlo.
    revert Hup Hlo Hs Eu. generalize (65536 ^ Z.of_nat (8 - (hi + lo))) (65536 ^ Z.of_nat hi) (65536 ^ Z.of_nat lo).
    intros s h l' Hup Hlo Hs Eu Hj%join_hextets_bound; [|apply Z.mul_nonneg_nonneg; lia].
    split; [lia|]. eapply Z.lt_le_trans; [apply Hj|]. apply Z.mul_le_mono_nonneg; [|nia|lia|exact Hlo].
    assert (0 <= upper * s) by (apply Z.mul_nonneg_nonneg; lia). lia.
Qed.

Lemma ip_address_valid l a : ip_address l = Some a -> valid_address a.
Proof.
  unfold ip_address. destruct (has _ l); [done|]. destruct (parse_v4 l) as [n|] eqn:E4.
  { intros [= <-]. by apply parse_v4_range in E4. }
  unfold parse_v6. destruct (split_once _ l) as [addr [zone|]].
  - destruct (_ || _); [done|]. destruct (parse_v6_int addr) as [n|] eqn:E; [|done].
    intros [= <-]. by apply parse_v6_range in E.
  - destruct (parse_v6_int addr) as [n|] eqn:E; [|done]. intros [= <-]. by apply parse_v6_range in E.
Qed.

(** The addresses a record list names. *)
Definition named (infos : list (option text)) (a : address) : Prop :=
  exists raw, Some raw ∈ infos /\ ip_address raw = Some a.

Lemma add_infos infos acc :
  NoDup acc ->
  NoDup (fold_left add_info infos acc) /\
  forall a, a ∈ fold_left add_info infos acc <-> a ∈ acc \/ named infos a.
Proof.
  revert acc. induction infos as [|info infos IH]; intros acc Hacc; cbn [fold_left].
  { split; [done|]. intros a. split; [by left|]. intros [|(raw & Hr & _)]; [done|]. by apply not_elem_of_nil in Hr. }
  assert (Hadd : NoDup (add_info acc info) /\
    forall a, a ∈ add_info acc info <-> a ∈ acc \/ (exists raw, info = Some raw /\ ip_address raw = Some a)).
  { clear IH. unfold add_info. destruct info as [raw|]; [|split; [done|]; naive_solver].
    destruct (ip_address raw) as [addr|] eqn:E; [|split; [done|]; naive_solver].
    case_bool_decide as Hin; [split; [done|]; naive_solver|]. split.
    - apply NoDup_app. split; [done|]. split; [set_solver|apply NoDup_singleton].
    - intros a. rewrite elem_of_app, list_elem_of_singleton. naive_solver. }
  destruct Hadd as [Hnd Hel]. destruct (IH _ Hnd) as [HN HE]. split; [done|]. intros a.
  rewrite HE, Hel. unfold named. setoid_rewrite elem_of_cons. naive_solver.
Qed.

(** The resolver returns the valid addresses of the records, each once, and
    never an empty list. *)
Lemma system_resolve_spec looked_up addresses :
  system_resolve looked_up = inr addresses ->
  exists infos, looked_up = Infos infos /\ addresses <> [] /\ NoDup addresses /\
    Forall valid_address addresses /\ forall a, a ∈ addresses <-> named infos a.
Proof.
  destruct looked_up as [infos| | |]; [|done..]. cbn. intros E.
  destruct (add_infos infos [] (NoDup_nil_2)) as [HN HE].
  destruct (fold_left add_info infos []) as [|a l] eqn:El; [done|]. injection E as <-.
  exists infos. split_and!; [done|done|done| |].
  - apply Forall_forall. intros b Hb. apply HE in Hb as [Hb|(raw & _ & Hr)]; [by apply not_elem_of_nil in Hb|].
    by eapply ip_address_valid.
  - intros b. rewrite HE. split; [intros [Hb|]; [by apply not_elem_of_nil in Hb|done]|by right].
Qed.
