(* ===== verification/Url.v ===== *)
(** URL parsing without the network (url/parse.py).

    The first part is the standard library's [urllib.parse] (Python 3.14), as
    the code uses it. A URL is Latin-1 text; the NFKC check of [urlsplit] never
    fails on it. The IDNA encoding of a host that is not ASCII is table-driven
    and a parameter ([Idna]); the encoder's path for ASCII hosts is written out. *)

From S2P Require Export Net.

Local Open Scope string_scope.
Local Open Scope list_scope.
Local Open Scope Z_scope.

(** ** urllib.parse *)

Record ParseResult := {
  pr_scheme : text;
  pr_netloc : text;
  pr_path : text;
  pr_params : text;
  pr_query : text;
  pr_fragment : text
}.

Definition c0_or_space (c : ascii) : bool := in_range 0 32 c.
Definition is_newline_or_tab (c : ascii) : bool := in_range 9 10 c || in_range 13 13 c.
Definition is_alpha (c : ascii) : bool := in_range 65 90 c || in_range 97 122 c.
Definition scheme_char (c : ascii) : bool := is_alnum c || is_one_of "+-." c.
Definition is_ascii (c : ascii) : bool := in_range 0 127 c.

(** [l.partition(sep)] without the separator: what is before it and after it,
    and whether it is there. *)
Definition after (sep : ascii) (l : text) : text := default [] (split_once sep l).2.
Definition before (sep : ascii) (l : text) : text := (split_once sep l).1.

(** [l.rpartition(sep)[2]] *)
Definition after_last (sep : ascii) (l : text) : text := reverse (before sep (reverse l)).

(** The longest prefix without a character of [stop], and the rest. *)
Fixpoint break (stop : ascii -> bool) (l : text) : text * text :=
  match l with
  | c :: l' => if stop c then ([], l) else let '(a, b) := break stop l' in (c :: a, b)
  | [] => ([], [])
  end.

(** The scheme, and the rest. *)
Definition split_scheme (url : text) : text * text :=
  match split_once ":"%char url with
  | (c :: s, Some rest) =>
      if is_alpha c && forallb scheme_char (c :: s) then (lower_text (c :: s), rest) else ([], url)
  | _ => ([], url)
  end.

(** [_check_bracketed_host]: an IPv6 address or an address of a future version. *)
Definition ipvfuture : regex :=
  Cat (Lit "v") (Cat (Many 1 None is_hex) (Cat (Lit ".") (Many 1 None (fun c => negb (in_range 10 10 c))))).
Definition bracketed_host_ok (hostname : text) : bool :=
  match hostname with
  | "v"%char :: _ => is_some (fullmatch ipvfuture hostname)
  | _ => match ip_address hostname with Some (V6 _ _) => true | _ => false end
  end.

(** [_check_bracketed_netloc] *)
Definition bracketed_netloc_ok (netloc : text) : bool :=
  let hostname_and_port := after_last "@"%char netloc in
  match split_once "["%char hostname_and_port with
  | (before_bracket, Some bracketed) =>
      let port := after "]"%char bracketed in
      is_nil before_bracket &&
      match port with [] => true | c :: _ => Ascii.eqb c ":"%char end &&
      bracketed_host_ok (before "]"%char bracketed)
  | (_, None) => bracketed_host_ok (before ":"%char hostname_and_port)
  end.

Definition netloc_ok (netloc : text) : bool :=
  Bool.eqb (has "["%char netloc) (has "]"%char netloc) &&
  (negb (has "["%char netloc) || bracketed_netloc_ok netloc).

Definition uses_params : list text :=
  chars <$> [""; "ftp"; "hdl"; "prospero"; "http"; "imap"; "https"; "shttp"; "rtsp"; "rtspu";
             "sip"; "sips"; "mms"; "sftp"; "tel"].
Definition uses_netloc : list text :=
  chars <$> [""; "ftp"; "http"; "gopher"; "nntp"; "telnet"; "imap"; "wais"; "file"; "mms"; "https";
             "shttp"; "snews"; "prospero"; "rtsp"; "rtspu"; "rsync"; "svn"; "svn+ssh"; "sftp"; "nfs";
             "git"; "git+ssh"; "ws"; "wss"; "itms-services"].

(** [_splitparams]: the parameters follow the first semicolon of the last
    segment. *)
Definition split_params (url : text) : text * text :=
  match split_once "/"%char (reverse url) with
  | (rlast, Some rfront) =>
      let '(path, params) := split_once ";"%char (reverse rlast) in
      (reverse rfront ++ "/"%char :: path, default [] params)
  | (_, None) => (before ";"%char url, after ";"%char url)
  end.

(** [urlparse(url)]; malformed brackets raise. *)
Definition urlparse (url : text) : exn + ParseResult :=
  let url := List.filter (fun c => negb (is_newline_or_tab c)) (lstrip c0_or_space url) in
  let '(scheme, url) := split_scheme url in
  let '(netloc, url) :=
    match strip_prefix (chars "//") url with
    | Some rest => break (is_one_of "/?#") rest
    | None => ([], url)
    end in
  if negb (netloc_ok netloc) then inl (ValueError "Invalid IPv6 URL") else
  let fragment := after "#"%char url in
  let url := before "#"%char url in
  let query := after "?"%char url in
  let path := before "?"%char url in
  let '(path, params) := if bool_decide (scheme ∈ uses_params) then split_params path else (path, []) in
  inr {| pr_scheme := scheme; pr_netloc := netloc; pr_path := path; pr_params := params;
         pr_query := query; pr_fragment := fragment |}.

(** [parsed.username is not None or parsed.password is not None] *)
Definition has_userinfo (p : ParseResult) : bool := has "@"%char (pr_netloc p).

(** [_hostinfo]: the host and the text of the port. *)
Definition hostinfo (p : ParseResult) : text * text :=
  let info := after_last "@"%char (pr_netloc p) in
  match split_once "["%char info with
  | (_, Some bracketed) => (before "]"%char bracketed, after ":"%char (after "]"%char bracketed))
  | (_, None) => (before ":"%char info, after ":"%char info)
  end.

(** [parsed.hostname]: lower case, except the zone. *)
Definition pr_hostname (p : ParseResult) : option text :=
  match (hostinfo p).1 with
  | [] => None
  | host =>
      Some match split_once "%"%char host with
           | (name, Some zone) => lower_text name ++ "%"%char :: zone
           | (name, None) => lower_text name
           end
  end.

(** [parsed.port] *)
Definition pr_port (p : ParseResult) : exn + option Z :=
  match (hostinfo p).2 with
  | [] => inr None
  | port =>
      if negb (forallb is_digit port) then inl (ValueError "Port could not be cast to integer value") else
      let n := read_digits (digit_value <$> port) in
      if n <=? 65535 then inr (Some n) else inl (ValueError "Port out of range 0-65535")
  end.

Definition starts_with (p l : text) : bool := is_some (strip_prefix p l).

(** [urlunsplit] *)
Definition urlunsplit (scheme netloc url query fragment : text) : text :=
  let url :=
    if negb (is_nil netloc) then
      let url := if negb (is_nil url) && negb (starts_with ["/"%char] url) then "/"%char :: url else url in
      chars "//" ++ netloc ++ url
    else if starts_with (chars "//") url then chars "//" ++ url
    else if negb (is_nil scheme) && bool_decide (scheme ∈ uses_netloc) &&
            (is_nil url || starts_with ["/"%char] url) then chars "//" ++ url
    else url in
  let url := if negb (is_nil scheme) then scheme ++ ":"%char :: url else url in
  let url := if negb (is_nil query) then url ++ "?"%char :: query else url in
  if negb (is_nil fragment) then url ++ "#"%char :: fragment else url.

Definition urlunparse (p : ParseResult) : text :=
  let url := if negb (is_nil (pr_params p)) then pr_path p ++ ";"%char :: pr_params p else pr_path p in
  urlunsplit (pr_scheme p) (pr_netloc p) url (pr_query p) (pr_fragment p).

(** [quote(s, safe)] of Latin-1 text: other characters as the bytes of their
    UTF-8 encoding. *)
Definition hex_upper (n : Z) : ascii := ascii_of_N (Z.to_N (if n <? 10 then 48 + n else 55 + n)).
Definition percent (n : Z) : text := ["%"%char; hex_upper (n / 16); hex_upper (n mod 16)].
Definition quote_char (safe : string) (c : ascii) : text :=
  let n := Z.of_N (N_of_ascii c) in
  if is_alnum c || is_one_of "_.-~" c || is_one_of safe c then [c]
  else if n <? 128 then percent n else percent (192 + n / 64) ++ percent (128 + n mod 64).
Definition quote (safe : string) (l : text) : text := l ≫= quote_char safe.

(** ** Host names as IDNA encodes them *)

(** The encoding of a host with a character that is not ASCII, or [None] for a
    [UnicodeError]. An encoded host ends in a dot only where the host does: no
    other Latin-1 character separates labels. *)
Class Idna := {
  idna_nonascii : text -> option text;
  idna_undotted : forall host encoded,
    rstrip_dots host = host -> idna_nonascii host = Some encoded -> rstrip_dots encoded = encoded
}.

Definition label_ok (l : text) : bool := (length l <? 64)%nat.

(** Only the last label of an ASCII host may be empty. *)
Definition ascii_labels_ok (host : text) : bool :=
  let labels := split_on "."%char host in
  forallb (fun l => negb (is_nil l)) (removelast labels) && forallb label_ok labels.

(** [host.encode("idna").decode("ascii")]: an ASCII host is kept and its labels
    are checked. *)
Definition idna_encode `{Idna} (host : text) : option text :=
  if negb (forallb is_ascii host) then idna_nonascii host
  else if ascii_labels_ok host then Some host else None.

(** ** Settings of the URL package *)

(** Source: backend/src/fetchnow/core/config.py:85-103 [Settings] *)
Record UrlSettings := {
  url_allowed_schemes : list text;
  url_allowed_ports : list Z;
  url_max_length : Z;
  provider_vk_enabled : bool;
  provider_rutube_enabled : bool;
  provider_ok_enabled : bool;
  provider_dzen_enabled : bool
}.

(** Source: backend/src/fetchnow/core/config.py:588-595 [_validate_url_policy] *)
Definition url_policy_ok (settings : UrlSettings) : bool :=
  negb (is_nil (url_allowed_schemes settings)) && negb (is_nil (url_allowed_ports settings)) &&
  forallb (fun scheme => bool_decide (scheme ∈ [chars "http"; chars "https"])) (url_allowed_schemes settings).

(** ** parse.py *)

(** Source: backend/src/fetchnow/url/parse.py:11-21 [ParsedURL] *)
Record ParsedURL := {
  pu_original_scheme : text;
  pu_scheme : text;
  pu_hostname : text;
  pu_port : option Z;
  pu_path : text;
  pu_query : text;
  pu_canonical_without_query : text
}.

Definition invalid_url {A} : exn + A := inl (raise_validation_error INVALID_URL).

(** [a in s] for strings. *)
Fixpoint contains (pat l : text) : bool :=
  starts_with pat l || match l with [] => false | _ :: l' => contains pat l' end.

(** Source: backend/src/fetchnow/url/parse.py:24-38 [_idna_hostname] *)
Definition _idna_hostname `{Idna} (raw_host : text) : exn + text :=
  let host := rstrip_dots raw_host in
  if is_nil host then invalid_url else
  if has "%"%char host then invalid_url else
  let? encoded := need (idna_encode host) (raise_validation_error INVALID_URL) in
  let ascii_host := lower_text encoded in
  if is_nil ascii_host || contains (chars "..") ascii_host || starts_with ["."%char] ascii_host
  then invalid_url else inr ascii_host.

Definition default_port (scheme : text) : Z := if bool_decide (scheme = chars "https") then 443 else 80.

(** Source: backend/src/fetchnow/url/parse.py:41-54 [_normalize_port] *)
Definition _normalize_port (scheme : text) (port : option Z) (allowed_ports : list Z) : exn + option Z :=
  match port with
  | None => if bool_decide (default_port scheme ∈ allowed_ports) then inr None else invalid_url
  | Some port =>
      if negb (bool_decide (port ∈ allowed_ports)) then invalid_url
      else if port =? default_port scheme then inr None
      else inr (Some port)
  end.

Definition netloc_text (hostname : text) (port : option Z) : text :=
  match port with
  | None => hostname
  | Some port => hostname ++ ":"%char :: numeral port
  end.

(** Source: backend/src/fetchnow/url/parse.py:57-75 [_build_canonical] *)
Definition _build_canonical (scheme hostname : text) (port : option Z) (path : text) : text :=
  urlunparse {| pr_scheme := scheme; pr_netloc := netloc_text hostname port;
                pr_path := if is_nil path then ["/"%char] else path;
                pr_params := []; pr_query := []; pr_fragment := [] |}.

(** Source: backend/src/fetchnow/url/parse.py:161-162 [_is_probably_ipv6] *)
Definition _is_probably_ipv6 (hostname : text) : bool := has ":"%char hostname.

(** Source: backend/src/fetchnow/url/parse.py:165-169 [_canonical_host_for_url] *)
Definition _canonical_host_for_url (hostname : text) : text :=
  if _is_probably_ipv6 hostname then "["%char :: hostname ++ ["]"%char]
  else quote ".-_" hostname.

Definition is_control (c : ascii) : bool := in_range 0 31 c.

(** Source: backend/src/fetchnow/url/parse.py:78-158 [parse_and_normalize]
    The check of a colon in a host that is no IPv6 address can not fail: both
    sides of it are the same condition. *)
Definition parse_and_normalize `{Idna} (raw : text) (allowed_schemes : list text)
    (allowed_ports : list Z) (max_length : Z) : exn + ParsedURL :=
  let candidate := strip is_space raw in
  if is_nil candidate then invalid_url else
  if max_length <? Z.of_nat (length candidate) then invalid_url else
  if starts_with (chars "//") candidate then inl (raise_validation_error UNSUPPORTED_SCHEME) else
  let? parsed := urlparse candidate in
  if is_nil (pr_scheme parsed) || is_nil (pr_netloc parsed) then
    if negb (is_nil (pr_scheme parsed)) && negb (bool_decide (lower_text (pr_scheme parsed) ∈ allowed_schemes))
    then inl (raise_validation_error UNSUPPORTED_SCHEME)
    else invalid_url
  else
  let scheme := lower_text (pr_scheme parsed) in
  if negb (bool_decide (scheme ∈ allowed_schemes)) then inl (raise_validation_error UNSUPPORTED_SCHEME) else
  if has_userinfo parsed then invalid_url else
  let? host := need (pr_hostname parsed) (raise_validation_error INVALID_URL) in
  if has ":"%char host && negb (_is_probably_ipv6 host) then invalid_url else
  let? normalized_host := if _is_probably_ipv6 host then inr (lower_text host) else _idna_hostname host in
  let? port := match pr_port parsed with inr port => inr port | inl _ => invalid_url end in
  let? normalized_port := _normalize_port scheme port allowed_ports in
  let path := if is_nil (pr_path parsed) then ["/"%char] else pr_path parsed in
  let query := pr_query parsed in
  if existsb is_control path || existsb is_control query then invalid_url else
  inr {| pu_original_scheme := lower_text (pr_scheme parsed);
         pu_scheme := scheme;
         pu_hostname := normalized_host;
         pu_port := normalized_port;
         pu_path := path;
         pu_query := query;
         pu_canonical_without_query :=
           _build_canonical scheme (_canonical_host_for_url normalized_host) normalized_port path |}.
