(* ===== verification/UrlValidation.v ===== *)
(** The provider registry (url/providers.py) and the validation pipeline
    (url/validate.py). *)

From S2P Require Export Url.

Local Open Scope string_scope.
Local Open Scope list_scope.
Local Open Scope Z_scope.

(** ** Results *)

(** Source: backend/src/fetchnow/url/models.py:9-15 [ProviderID] *)
Inductive ProviderID := VK | RUTUBE | OK | DZEN.

(** Source: backend/src/fetchnow/url/models.py:12-15 [ProviderID] *)
Definition provider_value (p : ProviderID) : string :=
  match p with VK => "vk" | RUTUBE => "rutube" | OK => "ok" | DZEN => "dzen" end.

(** Source: backend/src/fetchnow/url/models.py:18-29 [NormalizedMediaURL] *)
Record NormalizedMediaURL := {
  nu_original_scheme : text;
  nu_scheme : text;
  nu_hostname : text;
  nu_port : option Z;
  nu_path : text;
  nu_query : text;
  nu_provider_id : string;
  nu_canonical : text
}.

(** Source: backend/src/fetchnow/url/models.py:32-39 [URLValidationResult] *)
Record URLValidationResult := {
  vr_provider_id : string;
  vr_provider_display_name : string;
  vr_url : NormalizedMediaURL;
  vr_head_fallback_statuses : list Z
}.

(** ** Registry *)

(** Source: backend/src/fetchnow/url/providers.py:13-23 [ProviderDescriptor] *)
Record ProviderDescriptor := {
  pd_id : string;
  pd_display_name : string;
  pd_exact_hostnames : list text;
  pd_enabled : bool;
  pd_head_fallback_statuses : list Z
}.

(** Source: backend/src/fetchnow/url/providers.py:26-35 [_VK_HEAD_FALLBACK] *)
Definition _VK_HEAD_FALLBACK : list Z := [418; 405; 501].
Definition _RUTUBE_HEAD_FALLBACK : list Z := [405; 501].
Definition _OK_HEAD_FALLBACK : list Z := [405; 501].
Definition _DZEN_HEAD_FALLBACK : list Z := [405; 501].

(** Source: backend/src/fetchnow/url/providers.py:46-58 [build_default_providers] *)
Definition vk_hostnames : list text :=
  chars <$> ["vk.com"; "www.vk.com"; "m.vk.com"; "vk.ru"; "www.vk.ru"; "m.vk.ru";
             "vkvideo.ru"; "www.vkvideo.ru"; "m.vkvideo.ru"].

(** Source: backend/src/fetchnow/url/providers.py:65-65 [build_default_providers] *)
Definition rutube_hostnames : list text := chars <$> ["rutube.ru"; "www.rutube.ru"].

(** Source: backend/src/fetchnow/url/providers.py:74-85 [build_default_providers] *)
Definition ok_hostnames : list text :=
  chars <$> ["ok.ru"; "www.ok.ru"; "m.ok.ru"; "mobile.ok.ru"; "odnoklassniki.ru";
             "www.odnoklassniki.ru"; "m.odnoklassniki.ru"; "mobile.odnoklassniki.ru"].

(** Source: backend/src/fetchnow/url/providers.py:94-101 [build_default_providers] *)
Definition dzen_hostnames : list text :=
  chars <$> ["dzen.ru"; "www.dzen.ru"; "zen.yandex.ru"; "www.zen.yandex.ru"].

(** Source: backend/src/fetchnow/url/providers.py:38-105 [build_default_providers] *)
Definition build_default_providers (settings : UrlSettings) : list ProviderDescriptor :=
  [{| pd_id := provider_value VK; pd_display_name := "VK"; pd_exact_hostnames := vk_hostnames;
      pd_enabled := provider_vk_enabled settings; pd_head_fallback_statuses := _VK_HEAD_FALLBACK |};
   {| pd_id := provider_value RUTUBE; pd_display_name := "Rutube"; pd_exact_hostnames := rutube_hostnames;
      pd_enabled := provider_rutube_enabled settings; pd_head_fallback_statuses := _RUTUBE_HEAD_FALLBACK |};
   {| pd_id := provider_value OK; pd_display_name := "OK"; pd_exact_hostnames := ok_hostnames;
      pd_enabled := provider_ok_enabled settings; pd_head_fallback_statuses := _OK_HEAD_FALLBACK |};
   {| pd_id := provider_value DZEN; pd_display_name := "Dzen"; pd_exact_hostnames := dzen_hostnames;
      pd_enabled := provider_dzen_enabled settings; pd_head_fallback_statuses := _DZEN_HEAD_FALLBACK |}].

(** Source: backend/src/fetchnow/url/providers.py:108-122 [ProviderRegistry] *)
Record ProviderRegistry := { providers : list ProviderDescriptor }.

(** Source: backend/src/fetchnow/url/providers.py:114-116 [from_settings] *)
Definition from_settings (settings : UrlSettings) : ProviderRegistry :=
  {| providers := build_default_providers settings |}.

(** Source: backend/src/fetchnow/url/providers.py:124-126 [with_extra_provider] *)
Definition with_extra_provider (registry : ProviderRegistry) (descriptor : ProviderDescriptor) : ProviderRegistry :=
  {| providers := providers registry ++ [descriptor] |}.

(** Source: backend/src/fetchnow/url/providers.py:128-144 [with_extra_exact_hosts] *)
Definition with_extra_exact_hosts (registry : ProviderRegistry) (provider_id display_name : string)
    (hostnames : list text) (enabled : bool) : ProviderRegistry :=
  with_extra_provider registry
    {| pd_id := provider_id; pd_display_name := display_name;
       pd_exact_hostnames := (fun h => rstrip_dots (lower_text h)) <$> hostnames;
       pd_enabled := enabled; pd_head_fallback_statuses := [] |}.

Definition owns (host : text) (provider : ProviderDescriptor) : bool :=
  bool_decide (host ∈ pd_exact_hostnames provider).

(** Source: backend/src/fetchnow/url/providers.py:146-154 [find] *)
Definition find_provider (registry : ProviderRegistry) (hostname : text) : option ProviderDescriptor :=
  match List.find (owns (rstrip_dots (lower_text hostname))) (providers registry) with
  | Some provider => if pd_enabled provider then Some provider else None
  | None => None
  end.

(** Source: backend/src/fetchnow/url/providers.py:156-161 [resolve] *)
Definition resolve_provider (registry : ProviderRegistry) (hostname : text) : exn + ProviderDescriptor :=
  need (find_provider registry hostname) (raise_validation_error UNSUPPORTED_PROVIDER).

(** ** Pipeline *)

Section Validator.
Context `{Idna} (settings : UrlSettings) (registry : ProviderRegistry).

(** The injected resolver. *)
Context (resolver : text -> exn + list address).

(** Source: backend/src/fetchnow/url/validate.py:97-138 [_validate_inner] *)
Definition _validate_inner (raw_url : text) : exn + URLValidationResult :=
  let? parsed := parse_and_normalize raw_url (url_allowed_schemes settings) (url_allowed_ports settings)
                   (url_max_length settings) in
  if is_reserved_hostname (pu_hostname parsed) then inl (raise_validation_error BLOCKED_DESTINATION) else
  if looks_like_nonstandard_ipv4 (pu_hostname parsed) then inl (raise_validation_error BLOCKED_DESTINATION) else
  match parse_ip_literal (pu_hostname parsed) with
  | Some literal =>
      assert_addresses_allowed [literal] ;;? inl (raise_validation_error UNSUPPORTED_PROVIDER)
  | None =>
      let? provider := resolve_provider registry (pu_hostname parsed) in
      let? addresses := resolver (pu_hostname parsed) in
      assert_addresses_allowed addresses ;;?
      inr {| vr_provider_id := pd_id provider;
             vr_provider_display_name := pd_display_name provider;
             vr_url := {| nu_original_scheme := pu_original_scheme parsed;
                          nu_scheme := pu_scheme parsed;
                          nu_hostname := pu_hostname parsed;
                          nu_port := pu_port parsed;
                          nu_path := pu_path parsed;
                          nu_query := pu_query parsed;
                          nu_provider_id := pd_id provider;
                          nu_canonical := pu_canonical_without_query parsed |};
             vr_head_fallback_statuses := pd_head_fallback_statuses provider |}
  end.

(** Source: backend/src/fetchnow/url/validate.py:40-75 [validate]
    Logging aside: an error of another kind is reported as internal. *)
Definition validate (raw_url : text) : exn + URLValidationResult :=
  match _validate_inner raw_url with
  | inr result => inr result
  | inl (URLValidationError code reason) => inl (URLValidationError code reason)
  | inl _ => inl (raise_validation_error URL_INTERNAL_ERROR)
  end.
End Validator.
