(* ===== verification/UrlTheorems.v ===== *)
(** What the URL validator guarantees.

    An accepted URL names an enabled provider's host and resolves to public
    addresses only ([accepted_urls_are_safe]); its canonical form is accepted
    again, as the same URL without its query ([canonical_url_revalidates]). *)

From S2P Require Export UrlValidation.

Local Open Scope string_scope.
Local Open Scope list_scope.
Local Open Scope Z_scope.

(** ** Splitting *)

(** [l] has no character of [stop]. *)
Definition free (stop : ascii -> bool) (l : text) : bool := forallb (fun c => negb (stop c)) l.

Lemma free_app stop a b : free stop (a ++ b) = free stop a && free stop b.
Proof. apply forallb_app. Qed.

Lemma free_eqb sep l : free (Ascii.eqb sep) l = true <-> forall c, c ∈ l -> Ascii.eqb c sep = false.
Proof.
  unfold free. rewrite forallb_forall. setoid_rewrite <- list_elem_of_In.
  split; intros Hl c Hc; specialize (Hl c Hc); rewrite Ascii.eqb_sym; by destruct (Ascii.eqb _ _).
Qed.

Lemma split_free sep l : free (Ascii.eqb sep) l = true -> split_once sep l = (l, None).
Proof. intros Hl. apply split_once_none. by apply free_eqb. Qed.

Lemma split_free_app sep l rest :
  free (Ascii.eqb sep) l = true -> split_once sep (l ++ sep :: rest) = (l, Some rest).
Proof. intros Hl. apply split_once_app. by apply free_eqb. Qed.

Lemma before_free sep l : free (Ascii.eqb sep) l = true -> before sep l = l.
Proof. intros Hl. unfold before. by rewrite split_free. Qed.
Lemma after_free sep l : free (Ascii.eqb sep) l = true -> after sep l = [].
Proof. intros Hl. unfold after. by rewrite split_free. Qed.

Lemma split_once_free sep l b a : split_once sep l = (b, a) -> free (Ascii.eqb sep) b = true.
Proof.
  revert b. induction l as [|c l IH]; intros b E; cbn in E; [by injection E as <- <-|].
  destruct (Ascii.eqb c sep) eqn:Ec; [by injection E as <- <-|].
  destruct (split_once sep l) as [b' a']. injection E as <- <-. cbn.
  rewrite Ascii.eqb_sym, Ec. by apply IH.
Qed.

Lemma before_is_free sep l : free (Ascii.eqb sep) (before sep l) = true.
Proof. unfold before. destruct (split_once sep l) eqn:E. by eapply split_once_free. Qed.

Lemma before_prefix sep l : exists t, l = before sep l ++ t.
Proof. unfold before. destruct (split_once sep l) as [b a] eqn:E. apply split_once_inv in E. by eexists. Qed.

Lemma free_prefix stop a b : free stop (a ++ b) = true -> free stop a = true.
Proof. rewrite free_app. by intros [? _]%andb_prop. Qed.

Lemma before_free_other stop sep l : free stop l = true -> free stop (before sep l) = true.
Proof. destruct (before_prefix sep l) as [t Ht]. rewrite Ht at 1. apply free_prefix. Qed.

Lemma has_free c l : has c l = negb (free (Ascii.eqb c) l).
Proof. unfold has, char_in, free. induction l as [|d l IH]; [done|]. cbn. rewrite IH. by destruct (Ascii.eqb c d). Qed.

Lemma free_reverse stop l : free stop (reverse l) = free stop l.
Proof.
  unfold free. apply eq_true_iff_eq. rewrite !forallb_forall. setoid_rewrite <- list_elem_of_In.
  by setoid_rewrite elem_of_reverse.
Qed.

Lemma after_last_free sep l : free (Ascii.eqb sep) l = true -> after_last sep l = l.
Proof. intros Hl. unfold after_last. rewrite before_free by by rewrite free_reverse. apply reverse_involutive. Qed.

Lemma break_app stop l c rest :
  free stop l = true -> stop c = true -> break stop (l ++ c :: rest) = (l, c :: rest).
Proof.
  intros Hl Hc. induction l as [|d l IH]; cbn in *; [by rewrite Hc|].
  apply andb_prop in Hl as [Hd Hl]. apply negb_true_iff in Hd. by rewrite Hd, IH.
Qed.

Lemma break_inv stop l a b :
  break stop l = (a, b) -> l = a ++ b /\ free stop a = true /\ match b with c :: _ => stop c = true | [] => True end.
Proof.
  revert a. induction l as [|c l IH]; intros a E; cbn in E; [by injection E as <- <-|].
  destruct (stop c) eqn:Ec; [by injection E as <- <-|]. destruct (break stop l) as [a' b'].
  injection E as <- <-. destruct (IH a' eq_refl) as (-> & Hf & Hb). split_and!; [done| |done]. cbn. by rewrite Ec.
Qed.

(** A class that has no character of another. *)
Lemma free_class (p stop : ascii -> bool) l :
  (forall c, p c = true -> stop c = false) -> forallb p l = true -> free stop l = true.
Proof.
  intros Hp Hl. unfold free. rewrite forallb_forall in *. intros c Hc. by rewrite (Hp c (Hl c Hc)).
Qed.

(** The 256 characters, one by one. *)
Ltac all_chars := let c := fresh "c" in intros c; destruct c as [[] [] [] [] [] [] [] []]; (done || (intros; discriminate)).

(** ** The characters of host names and ports *)

Definition host_char (c : ascii) : bool := is_alnum c || is_one_of "-." c.
Definition netloc_char (c : ascii) : bool := host_char c || Ascii.eqb c ":"%char.

Lemma digit_is_netloc c : is_digit c = true -> netloc_char c = true.
Proof. revert c. all_chars. Qed.

Lemma forallb_mono {A} (p q : A -> bool) l : (forall x, p x = true -> q x = true) -> forallb p l = true -> forallb q l = true.
Proof. intros Hp Hl. rewrite forallb_forall in *. auto. Qed.

Definition port_ok (port : option Z) : Prop := match port with Some p => 0 <= p <= 65535 | None => True end.

Lemma netloc_text_chars hostname port :
  forallb host_char hostname = true -> port_ok port -> forallb netloc_char (netloc_text hostname port) = true.
Proof.
  intros Hh Hp. assert (Hh' : forallb netloc_char hostname = true).
  { revert Hh. apply forallb_mono. unfold netloc_char. by intros c ->. }
  destruct port as [p|]; cbn; [|done]. rewrite forallb_app, Hh'. cbn.
  eapply forallb_mono; [apply digit_is_netloc|]. apply numeral_digits. cbn in Hp. lia.
Qed.

(** ** A URL put together from its parts parses into them *)

Definition url_of (scheme hostname : text) (port : option Z) (path : text) : text :=
  scheme ++ chars "://" ++ netloc_text hostname port ++ path.

Definition web_scheme (scheme : text) : Prop := scheme = chars "http" \/ scheme = chars "https".

(** A path as [urlparse] returns it after an authority. *)
Record path_shape (path : text) : Prop := {
  path_rooted : exists rest, path = "/"%char :: rest;
  path_no_query : free (is_one_of "?#") path = true;
  path_no_newline : free is_newline_or_tab path = true;
  path_no_params : split_params path = (path, [])
}.

Lemma free_one stop c l : stop c = true -> free stop l = true -> free (Ascii.eqb c) l = true.
Proof.
  intros Hc. unfold free. intros Hl. rewrite forallb_forall in *. intros d Hd.
  destruct (Ascii.eqb_spec c d) as [->|]; [|done]. specialize (Hl d Hd). by rewrite Hc in Hl.
Qed.

Lemma filter_free stop l : free stop l = true -> List.filter (fun c => negb (stop c)) l = l.
Proof.
  intros Hl. apply lfilter_all. intros c Hc. unfold free in Hl. rewrite forallb_forall in Hl.
  by apply Hl, list_elem_of_In.
Qed.

Lemma url_of_free stop scheme hostname port path :
  free stop scheme = true -> free stop (chars "://") = true -> free stop (netloc_text hostname port) = true ->
  free stop path = true -> free stop (url_of scheme hostname port path) = true.
Proof. intros H1 H2 H3 H4. unfold url_of. by rewrite !free_app, H1, H2, H3, H4. Qed.

Lemma netloc_free stop hostname port :
  (forall c, netloc_char c = true -> stop c = false) ->
  forallb host_char hostname = true -> port_ok port -> free stop (netloc_text hostname port) = true.
Proof. intros Hs Hh Hp. eapply free_class; [exact Hs|]. by apply netloc_text_chars. Qed.

Definition built (scheme hostname : text) (port : option Z) (path : text) : ParseResult :=
  {| pr_scheme := scheme; pr_netloc := netloc_text hostname port; pr_path := path;
     pr_params := []; pr_query := []; pr_fragment := [] |}.

Lemma netloc_plain_ok hostname port :
  forallb host_char hostname = true -> port_ok port -> netloc_ok (netloc_text hostname port) = true.
Proof.
  intros Hh Hp. unfold netloc_ok. rewrite !has_free.
  by rewrite !(netloc_free _ hostname port) by (done || all_chars).
Qed.

Lemma split_scheme_built scheme rest :
  web_scheme scheme -> split_scheme (scheme ++ ":"%char :: rest) = (scheme, rest).
Proof. intros [-> | ->]; unfold split_scheme; rewrite split_free_app by done; reflexivity. Qed.

Lemma urlparse_built scheme hostname port path :
  web_scheme scheme -> forallb host_char hostname = true -> port_ok port -> path_shape path ->
  urlparse (url_of scheme hostname port path) = inr (built scheme hostname port path).
Proof.
  intros Hs Hh Hp [[rest Hroot] Hq Hn Hpar]. unfold urlparse.
  assert (Hl : lstrip c0_or_space (url_of scheme hostname port path) = url_of scheme hostname port path)
    by by destruct Hs as [-> | ->].
  rewrite Hl, filter_free.
  2: { apply url_of_free; [by destruct Hs as [-> | ->]|done| |done]. apply netloc_free; [all_chars|done..]. }
  unfold url_of. change (chars "://") with (":"%char :: chars "//"). cbn [app].
  rewrite split_scheme_built by done. rewrite strip_prefix_app. rewrite Hroot, break_app by
    (done || (apply netloc_free; [all_chars|done..])).
  rewrite netloc_plain_ok by done. cbn [negb]. rewrite <- Hroot.
  rewrite (before_free "#"%char), (after_free "#"%char) by by eapply (free_one (is_one_of "?#")).
  rewrite (before_free "?"%char), (after_free "?"%char) by by eapply (free_one (is_one_of "?#")).
  assert (Hu : bool_decide (scheme ∈ uses_params) = true) by by destruct Hs as [-> | ->].
  by rewrite Hu, Hpar.
Qed.

Lemma built_canonical scheme hostname port path :
  web_scheme scheme -> hostname <> [] -> (exists rest, path = "/"%char :: rest) ->
  _build_canonical scheme hostname port path = url_of scheme hostname port path.
Proof.
  intros Hs Hh [rest ->]. unfold _build_canonical, urlunparse, urlunsplit, url_of. cbn -[app netloc_text].
  assert (Hn : is_nil (netloc_text hostname port) = false).
  { destruct hostname; [done|]. by destruct port. }
  rewrite Hn. destruct Hs as [-> | ->]; reflexivity.
Qed.

Lemma lower_text_id l : free (fun c => negb (Ascii.eqb (lower_char c) c)) l = true -> lower_text l = l.
Proof.
  unfold free, lower_text. induction l as [|c l IH]; [done|]. cbn. rewrite negb_involutive.
  intros [Hc Hl]%andb_prop. apply Ascii.eqb_eq in Hc. by rewrite Hc, IH.
Qed.

(** *** Its host and port *)

Lemma hostinfo_built scheme hostname port path :
  forallb host_char hostname = true -> port_ok port ->
  hostinfo (built scheme hostname port path) =
    (hostname, match port with Some p => numeral p | None => [] end).
Proof.
  intros Hh Hp. unfold hostinfo. cbn [pr_netloc built].
  rewrite after_last_free by (apply netloc_free; [all_chars|done..]).
  rewrite split_free by (apply netloc_free; [all_chars|done..]).
  assert (Hc : free (Ascii.eqb ":"%char) hostname = true) by (eapply free_class; [|exact Hh]; all_chars).
  destruct port as [p|]; cbn [netloc_text]; unfold before, after.
  - by rewrite split_free_app.
  - by rewrite split_free.
Qed.

Lemma pr_port_built scheme hostname port path :
  forallb host_char hostname = true -> port_ok port ->
  pr_port (built scheme hostname port path) = inr port.
Proof.
  intros Hh Hp. unfold pr_port. rewrite hostinfo_built by done. cbn [snd].
  destruct port as [p|]; [|done]. cbn in Hp. destruct (numeral_cons p) as (c & l & El); [lia|].
  rewrite El, <- El. rewrite numeral_digits by lia. cbn [negb]. rewrite numeral_value by lia.
  destruct (Z.leb_spec p 65535); [done|lia].
Qed.

(** A host the registry lists: lower case, and no final dot. *)
Record plain_host (hostname : text) : Prop := {
  plain_chars : forallb host_char hostname = true;
  plain_lower : lower_text hostname = hostname;
  plain_undotted : rstrip_dots hostname = hostname;
  plain_nonempty : hostname <> [];
  plain_labels : ascii_labels_ok hostname = true;
  plain_dots : contains (chars "..") hostname || starts_with ["."%char] hostname = false
}.

Lemma pr_hostname_built scheme hostname port path :
  plain_host hostname -> port_ok port -> pr_hostname (built scheme hostname port path) = Some hostname.
Proof.
  intros [Hh Hlow _ Hne _ _] Hp. unfold pr_hostname. rewrite hostinfo_built by done. cbn [fst].
  destruct hostname as [|c l]; [done|]. rewrite split_free by (eapply free_class; [|exact Hh]; all_chars).
  by rewrite Hlow.
Qed.

Definition plain_hostb (hostname : text) : bool :=
  forallb host_char hostname && bool_decide (lower_text hostname = hostname) &&
  bool_decide (rstrip_dots hostname = hostname) && negb (is_nil hostname) && ascii_labels_ok hostname &&
  negb (contains (chars "..") hostname || starts_with ["."%char] hostname).

Lemma plain_hostb_ok hostname : plain_hostb hostname = true -> plain_host hostname.
Proof.
  unfold plain_hostb. rewrite !andb_true_iff, !bool_decide_eq_true, negb_true_iff.
  intros [[[[[? ?] ?] ?] ?] ?]. split; try done; [by destruct hostname|by apply negb_true_iff].
Qed.

Definition default_hostnames : list text :=
  vk_hostnames ++ rutube_hostnames ++ ok_hostnames ++ dzen_hostnames.

Lemma default_hostnames_plain hostname : hostname ∈ default_hostnames -> plain_host hostname.
Proof.
  intros Hh%list_elem_of_In. apply plain_hostb_ok.
  assert (Hall : forallb plain_hostb default_hostnames = true) by by vm_compute.
  rewrite forallb_forall in Hall. by apply Hall.
Qed.

(** *** It is accepted as it is *)

Lemma quote_host hostname : forallb host_char hostname = true -> quote ".-_" hostname = hostname.
Proof.
  intros Hh. assert (Hq : forall c, host_char c = true -> quote_char ".-_" c = [c]) by all_chars.
  unfold quote. induction hostname as [|c l IH]; [done|]. cbn in Hh. apply andb_prop in Hh as [Hc Hl].
  cbn. rewrite (Hq c Hc). cbn. f_equal. by apply IH.
Qed.

Lemma idna_plain `{Idna} hostname : plain_host hostname -> _idna_hostname hostname = inr hostname.
Proof.
  intros [Hh Hlow Hdot Hne Hlab Hdd]. unfold _idna_hostname. rewrite Hdot.
  destruct hostname as [|c l]; [done|]. cbn [is_nil]. set (h := c :: l) in *.
  rewrite has_free, (free_class host_char) by (done || all_chars). cbn [negb].
  unfold idna_encode. rewrite (forallb_mono host_char is_ascii) by (done || all_chars). cbn [negb].
  rewrite Hlab. cbn [need err_bind]. rewrite Hlow, <- orb_assoc, Hdd. done.
Qed.

Lemma strip_ends (set : ascii -> bool) c m d l :
  l = c :: m -> last l = Some d -> set c = false -> set d = false -> strip set l = l.
Proof.
  intros Hl Hd Hc Hset. unfold strip.
  assert (E : lstrip set l = l) by (subst l; cbn; by rewrite Hc). rewrite E.
  apply last_Some in Hd as [l' ->]. rewrite reverse_snoc. cbn [lstrip]. rewrite Hset.
  by rewrite reverse_cons, reverse_involutive.
Qed.

(** A port as [_normalize_port] leaves it. *)
Definition normal_port (allowed_ports : list Z) (scheme : text) (port : option Z) : Prop :=
  match port with
  | None => default_port scheme ∈ allowed_ports
  | Some p => p ∈ allowed_ports /\ p <> default_port scheme /\ 0 <= p <= 65535
  end.

Lemma normal_port_ok allowed_ports scheme port : normal_port allowed_ports scheme port -> port_ok port.
Proof. destruct port; cbn; tauto. Qed.

Lemma normal_port_id allowed_ports scheme port :
  normal_port allowed_ports scheme port -> _normalize_port scheme port allowed_ports = inr port.
Proof.
  destruct port as [p|]; cbn.
  - intros (Hin & Hne & _). rewrite bool_decide_eq_true_2 by done. cbn.
    by destruct (Z.eqb_spec p (default_port scheme)).
  - intros Hin. by rewrite bool_decide_eq_true_2.
Qed.

(** The last character of a path is no space. *)
Definition ends_well (path : text) : Prop := forall c, last path = Some c -> is_space c = false.

Lemma strip_built scheme hostname port path :
  web_scheme scheme -> path_shape path -> ends_well path ->
  strip is_space (url_of scheme hostname port path) = url_of scheme hostname port path.
Proof.
  intros Hs Hpath Hend. destruct (path_rooted _ Hpath) as [rest Hroot].
  assert (Hlast : exists d, last path = Some d) by (rewrite Hroot; apply last_is_Some; done).
  destruct Hlast as [d Hd].
  assert (Hhead : exists m, url_of scheme hostname port path = "h"%char :: m)
    by (destruct Hs as [-> | ->]; eexists; reflexivity).
  destruct Hhead as [m Hm]. apply (strip_ends _ _ _ d _ Hm); [|done|by apply Hend].
  unfold url_of. rewrite !last_app, Hd. done.
Qed.

Lemma parse_built `{Idna} scheme hostname port path allowed_schemes allowed_ports max_length :
  web_scheme scheme -> scheme ∈ allowed_schemes -> plain_host hostname ->
  normal_port allowed_ports scheme port -> path_shape path -> ends_well path ->
  existsb is_control path = false ->
  Z.of_nat (length (url_of scheme hostname port path)) <= max_length ->
  parse_and_normalize (url_of scheme hostname port path) allowed_schemes allowed_ports max_length =
  inr {| pu_original_scheme := scheme; pu_scheme := scheme; pu_hostname := hostname; pu_port := port;
         pu_path := path; pu_query := [];
         pu_canonical_without_query := url_of scheme hostname port path |}.
Proof.
  intros Hs Hin Hh Hp Hpath Hend Hctl Hlen. pose proof (normal_port_ok _ _ _ Hp) as Hpok.
  pose proof (plain_chars _ Hh) as Hchars. unfold parse_and_normalize.
  rewrite strip_built by done. set (u := url_of scheme hostname port path) in *.
  assert (Hu : is_nil u = false /\ starts_with (chars "//") u = false)
    by (unfold u; destruct Hs as [-> | ->]; split; reflexivity).
  destruct Hu as [-> ->]. destruct (Z.ltb_spec max_length (Z.of_nat (length u))); [lia|].
  unfold u. rewrite urlparse_built by done. cbn [err_bind].
  assert (Hsc : is_nil scheme = false /\ lower_text scheme = scheme) by (destruct Hs as [-> | ->]; split; reflexivity).
  destruct Hsc as [Hsc Hlow].
  assert (Hn : is_nil (netloc_text hostname port) = false).
  { pose proof (plain_nonempty _ Hh). destruct hostname; [done|]. by destruct port. }
  cbn [pr_scheme pr_netloc pr_path pr_query built]. rewrite Hsc, Hn, Hlow. cbn [orb].
  rewrite bool_decide_eq_true_2 by done. cbn [negb].
  assert (Hui : has_userinfo (built scheme hostname port path) = false).
  { unfold has_userinfo. cbn [pr_netloc built]. rewrite has_free, netloc_free by (done || all_chars). done. }
  change {| pr_scheme := scheme; pr_netloc := netloc_text hostname port; pr_path := path;
            pr_params := []; pr_query := []; pr_fragment := [] |} with (built scheme hostname port path).
  rewrite Hui, pr_hostname_built by done. cbn [need err_bind].
  assert (Hc : has ":"%char hostname = false) by (rewrite has_free, (free_class host_char) by (done || all_chars); done).
  unfold _is_probably_ipv6. rewrite Hc. cbn [andb]. rewrite idna_plain by done. cbn [err_bind].
  rewrite pr_port_built by done. cbn [err_bind]. rewrite normal_port_id by done. cbn [err_bind].
  destruct (path_rooted _ Hpath) as [rest Hroot].
  assert (Hne : is_nil path = false) by by rewrite Hroot. rewrite Hne, Hctl. cbn [orb existsb].
  unfold _canonical_host_for_url, _is_probably_ipv6. rewrite Hc, quote_host by done.
  rewrite built_canonical by (done || apply plain_nonempty, Hh || by exists rest). done.
Qed.

(** ** The parts [urlparse] returns *)

Lemma split_params_prefix l : exists t, l = (split_params l).1 ++ t.
Proof.
  unfold split_params. destruct (split_once "/"%char (reverse l)) as [rlast [rfront|]] eqn:E.
  - apply split_once_inv in E. apply (f_equal reverse) in E. rewrite reverse_involutive in E.
    rewrite reverse_app, reverse_cons, <- app_assoc in E. cbn [app] in E.
    destruct (split_once ";"%char (reverse rlast)) as [path params] eqn:Es. apply split_once_inv in Es.
    exists (match params with Some rest => ";"%char :: rest | None => [] end). cbn [fst].
    rewrite E, Es. by rewrite <- app_assoc.
  - apply before_prefix.
Qed.

Lemma split_params_id l : split_params (split_params l).1 = ((split_params l).1, []).
Proof.
  unfold split_params at 2 3. destruct (split_once "/"%char (reverse l)) as [rlast [rfront|]] eqn:E; cbn [fst].
  - assert (Hf : free (Ascii.eqb "/"%char) (reverse rlast) = true).
    { rewrite free_reverse. by eapply split_once_free. }
    destruct (split_once ";"%char (reverse rlast)) as [path params] eqn:Es. cbn [fst].
    pose proof (split_once_free _ _ _ _ Es) as Hp. pose proof (split_once_inv _ _ _ _ Es) as Er.
    rewrite Er in Hf. apply free_prefix in Hf. unfold split_params.
    rewrite reverse_app, reverse_cons, <- app_assoc. cbn [app].
    rewrite split_free_app by by rewrite free_reverse. rewrite !reverse_involutive.
    by rewrite split_free.
  - assert (Hl : free (Ascii.eqb "/"%char) l = true).
    { rewrite <- free_reverse. pose proof (split_once_inv _ _ _ _ E) as Ei. rewrite app_nil_r in Ei.
      rewrite Ei. by eapply split_once_free. }
    unfold split_params. rewrite split_free by (rewrite free_reverse; by apply before_free_other).
    rewrite before_free, after_free by apply before_is_free. done.
Qed.

Lemma prefix_rooted (a t : text) c rest : c :: rest = a ++ t -> a = [] \/ exists rest', a = c :: rest'.
Proof. destruct a as [|d a]; [by left|]. cbn. intros [= <- _]. right. by eexists. Qed.

Lemma free_filter stop l : free stop (List.filter (fun c => negb (stop c)) l) = true.
Proof.
  unfold free. rewrite forallb_forall. intros c Hc. by apply filter_In in Hc as [_ Hc].
Qed.

Lemma free_suffix stop a b : free stop (a ++ b) = true -> free stop b = true.
Proof. rewrite free_app. by intros [_ ?]%andb_prop. Qed.

Lemma split_scheme_spec url scheme rest :
  split_scheme url = (scheme, rest) ->
  (exists p, url = p ++ rest) /\ exists s, scheme = lower_text s.
Proof.
  assert (Hno : forall A : text, (A, url) = (scheme, rest) -> A = [] ->
    (exists p, url = p ++ rest) /\ exists s, scheme = lower_text s).
  { intros A [= <- <-] ->. split; [by exists []|]. exists []. done. }
  unfold split_scheme. destruct (split_once ":"%char url) as [[|c s] [tail|]] eqn:E;
    try (intros Hn; by eapply Hno).
  destruct (_ && _); [|intros Hn; by eapply Hno]. intros [= <- <-]. split; [|by exists (c :: s)].
  apply split_once_inv in E. exists ((c :: s) ++ [":"%char]). by rewrite <- app_assoc.
Qed.

(** The path after an authority is empty or rooted, and it has no query,
    fragment, parameters, tab or line break. *)
Lemma urlparse_path url p :
  urlparse url = inr p -> pr_netloc p <> [] -> pr_scheme p ∈ uses_params ->
  pr_path p = [] \/ path_shape (pr_path p).
Proof.
  unfold urlparse. set (cleaned := List.filter _ _).
  assert (Hclean : free is_newline_or_tab cleaned = true) by apply free_filter. generalize dependent cleaned.
  intros cleaned Hclean. destruct (split_scheme cleaned) as [scheme url1] eqn:Esc.
  apply split_scheme_spec in Esc as [[pre Hpre] _]. rewrite Hpre in Hclean. apply free_suffix in Hclean.
  destruct (strip_prefix (chars "//") url1) as [rest|] eqn:Esl.
  2: { destruct (netloc_ok []); [|done]. cbn [negb]. destruct (bool_decide _); [destruct (split_params _)|];
       by intros [= <-]. }
  apply strip_prefix_inv in Esl as ->. apply free_suffix in Hclean.
  destruct (break _ rest) as [netloc tail] eqn:Eb. apply break_inv in Eb as (-> & _ & Htail).
  apply free_suffix in Hclean. destruct (netloc_ok netloc); [|done]. cbn [negb].
  set (path := before "?"%char (before "#"%char tail)). destruct (bool_decide _) eqn:Eu.
  2: { intros [= <-] _ Hu. by apply bool_decide_eq_false in Eu. }
  pose proof (split_params_prefix path) as [t Ht]. pose proof (split_params_id path) as Hid.
  destruct (split_params path) as [path' params] eqn:Ep. cbn [fst] in *. intros [= <-] _ _. cbn [pr_path].
  assert (Hpath : exists t', tail = path ++ t').
  { destruct (before_prefix "?"%char (before "#"%char tail)) as [t1 H1].
    destruct (before_prefix "#"%char tail) as [t2 H2]. exists (t1 ++ t2).
    rewrite app_assoc. unfold path. by rewrite <- H1. }
  destruct Hpath as [t' Ht'].
  assert (Hq : free (is_one_of "?#") path' = true).
  { assert (Hq : free (Ascii.eqb "?"%char) path = true) by apply before_is_free.
    assert (Hf : free (Ascii.eqb "#"%char) path = true) by (apply before_free_other, before_is_free).
    rewrite Ht in Hq, Hf. apply free_prefix in Hq, Hf. revert Hq Hf. clear. unfold free.
    rewrite !forallb_forall. intros Hq Hf c Hc. specialize (Hq c Hc). specialize (Hf c Hc).
    clear Hc. revert c Hq Hf. all_chars. }
  assert (Hn : free is_newline_or_tab path' = true).
  { rewrite Ht', Ht in Hclean. by apply free_prefix, free_prefix in Hclean. }
  destruct tail as [|c tail']; [left|].
  { destruct path as [|]; [|done]. by destruct path'. }
  rewrite Ht, <- app_assoc in Ht'. apply prefix_rooted in Ht' as [->|[rest' ->]]; [by left|]. right.
  assert (c = "/"%char) as ->.
  { revert Htail Hq. clear. intros Hc Hq. cbn in Hq. apply andb_prop in Hq as [Hq _].
    revert c Hc Hq. all_chars. }
  split; try done. by eexists.
Qed.

Lemma lower_text_idem l : lower_text (lower_text l) = lower_text l.
Proof.
  unfold lower_text. rewrite <- list_fmap_compose. apply list_fmap_ext. intros _ c _.
  revert c. all_chars.
Qed.

Lemma urlparse_scheme url p : urlparse url = inr p -> lower_text (pr_scheme p) = pr_scheme p.
Proof.
  unfold urlparse. destruct (split_scheme _) as [scheme url1] eqn:Esc.
  apply split_scheme_spec in Esc as [_ [s ->]].
  destruct (match strip_prefix _ url1 with Some _ => _ | None => _ end) as [netloc tail].
  destruct (negb _); [done|]. destruct (bool_decide _); [destruct (split_params _)|];
    intros [= <-]; apply lower_text_idem.
Qed.

Lemma pr_port_range p n : pr_port p = inr (Some n) -> 0 <= n <= 65535.
Proof.
  unfold pr_port. destruct (hostinfo p).2 as [|c l] eqn:E; [done|]. rewrite <- E.
  destruct (forallb is_digit _) eqn:Ed; [|done]. cbn [negb].
  destruct (Z.leb_spec (read_digits (digit_value <$> (hostinfo p).2)) 65535); [|done].
  intros [= <-]. split; [by apply read_text_nonneg|done].
Qed.

Lemma normalize_port_spec scheme port allowed_ports port' :
  _normalize_port scheme port allowed_ports = inr port' -> port_ok port -> normal_port allowed_ports scheme port'.
Proof.
  unfold _normalize_port. destruct port as [n|].
  - destruct (bool_decide (n ∈ allowed_ports)) eqn:Ea; [|done]. apply bool_decide_eq_true in Ea.
    cbn [negb]. destruct (Z.eqb_spec n (default_port scheme)) as [E|]; intros [= <-] Hn; cbn.
    + by rewrite <- E.
    + done.
  - destruct (bool_decide _) eqn:Ea; [|done]. apply bool_decide_eq_true in Ea. by intros [= <-].
Qed.

Lemma root_path_shape : path_shape ["/"%char].
Proof. split; [by exists []|done..]. Qed.

(** What [parse_and_normalize] accepts. *)
Record parsed_ok (allowed_schemes : list text) (allowed_ports : list Z) (u : ParsedURL) : Prop := {
  ok_scheme : pu_scheme u ∈ allowed_schemes;
  ok_web : web_scheme (pu_scheme u);
  ok_original : pu_original_scheme u = pu_scheme u;
  ok_port : normal_port allowed_ports (pu_scheme u) (pu_port u);
  ok_path : path_shape (pu_path u);
  ok_control : existsb is_control (pu_path u) = false;
  ok_canonical : pu_canonical_without_query u =
    _build_canonical (pu_scheme u) (_canonical_host_for_url (pu_hostname u)) (pu_port u) (pu_path u)
}.

Lemma parse_and_normalize_ok `{Idna} raw allowed_schemes allowed_ports max_length u :
  (forall s, s ∈ allowed_schemes -> web_scheme s) ->
  parse_and_normalize raw allowed_schemes allowed_ports max_length = inr u ->
  parsed_ok allowed_schemes allowed_ports u.
Proof.
  intros Hweb. unfold parse_and_normalize. destruct (is_nil (strip is_space raw)); [done|].
  destruct (max_length <? _); [done|]. destruct (starts_with _ _); [done|].
  intros Hp. ok_step Hp. rename v into parsed, Hp0 into Eparse.
  destruct (is_nil (pr_scheme parsed) || is_nil (pr_netloc parsed)) eqn:En; [by destruct (_ && _) in Hp|].
  apply orb_false_elim in En as [_ En].
  destruct (bool_decide (lower_text (pr_scheme parsed) ∈ allowed_schemes)) eqn:Es; [|done]. cbn [negb] in Hp.
  apply bool_decide_eq_true in Es. destruct (has_userinfo parsed); [done|]. ok_step Hp.
  destruct (_ && _) in Hp; [done|]. ok_step Hp. rename v0 into normalized_host. ok_step Hp. rename v0 into port.
  ok_step Hp. rename v0 into normalized_port.
  destruct (existsb is_control _ || _) eqn:Ec; [done|]. apply orb_false_elim in Ec as [Ec _].
  rewrite (urlparse_scheme _ _ Eparse) in *. injection Hp as <-.
  assert (Hw : web_scheme (pr_scheme parsed)) by by apply Hweb.
  assert (Hup : pr_scheme parsed ∈ uses_params).
  { apply (bool_decide_eq_true (pr_scheme parsed ∈ uses_params)). by destruct Hw as [-> | ->]. }
  split; cbn; try done.
  - eapply normalize_port_spec; [done|]. destruct (pr_port parsed) as [|[n|]] eqn:Epp; [done| |by simplify_eq].
    simplify_eq. cbn. by eapply pr_port_range.
  - destruct (urlparse_path _ _ Eparse) as [Hnil|Hshape]; [by destruct (pr_netloc parsed)|done| |].
    + rewrite Hnil. apply root_path_shape.
    + destruct (path_rooted _ Hshape) as [rest Hr]. rewrite Hr. cbn [is_nil]. by rewrite <- Hr.
Qed.

(** ** The host of an accepted URL *)

Lemma lstrip_split set l : exists s, l = s ++ lstrip set l /\ forallb set s = true.
Proof.
  induction l as [|c l [s [E Hs]]]; [by exists []|]. cbn. destruct (set c) eqn:Ec; [|by exists []].
  exists (c :: s). cbn. by rewrite Ec, <- E.
Qed.

Lemma rstrip_dots_split l : exists s, l = rstrip_dots l ++ s /\ forallb (Ascii.eqb "."%char) s = true.
Proof.
  unfold rstrip_dots. destruct (lstrip_split (Ascii.eqb "."%char) (reverse l)) as [s [E Hs]].
  exists (reverse s). split.
  - rewrite <- reverse_app, <- E. by rewrite reverse_involutive.
  - rewrite forallb_forall in *. intros c Hc. apply Hs. by apply list_elem_of_In, elem_of_reverse, list_elem_of_In.
Qed.

Lemma rstrip_dots_lower l : rstrip_dots (lower_text l) = lower_text (rstrip_dots l).
Proof.
  assert (Hc : forall c, Ascii.eqb "."%char (lower_char c) = Ascii.eqb "."%char c) by all_chars.
  assert (Hl : forall l, lstrip (Ascii.eqb "."%char) (lower_text l) = lower_text (lstrip (Ascii.eqb "."%char) l)).
  { intros l'. induction l' as [|c l' IH]; [done|].
    change (lower_text (c :: l')) with (lower_char c :: lower_text l'). cbn [lstrip].
    rewrite Hc. by destruct (Ascii.eqb "."%char c). }
  unfold rstrip_dots. unfold lower_text in *. by rewrite <- !fmap_reverse, Hl, fmap_reverse.
Qed.

Lemma lstrip_idem set l : lstrip set (lstrip set l) = lstrip set l.
Proof. induction l as [|c l IH]; [done|]. cbn. destruct (set c) eqn:E; [done|]. cbn. by rewrite E. Qed.

Lemma rstrip_dots_idem l : rstrip_dots (rstrip_dots l) = rstrip_dots l.
Proof. unfold rstrip_dots. by rewrite reverse_involutive, lstrip_idem. Qed.

(** A host is lower case; unless it is an IPv6 address, it does not end in a dot. *)
Lemma idna_hostname_spec `{Idna} host h :
  _idna_hostname host = inr h -> lower_text h = h /\ rstrip_dots h = h.
Proof.
  unfold _idna_hostname. destruct (is_nil _); [done|]. destruct (has _ _); [done|]. intros E. ok_step E.
  rename v into encoded, E0 into Ee. destruct (_ || _ || _); [done|]. injection E as <-. ok_step Ee.
  split; [apply lower_text_idem|]. rewrite rstrip_dots_lower. f_equal.
  unfold idna_encode in Ee. destruct (forallb is_ascii _); cbn [negb] in Ee.
  - destruct (ascii_labels_ok _); [|done]. simplify_eq. apply rstrip_dots_idem.
  - eapply idna_undotted; [|exact Ee]. apply rstrip_dots_idem.
Qed.

Lemma parsed_host `{Idna} raw allowed_schemes allowed_ports max_length u :
  parse_and_normalize raw allowed_schemes allowed_ports max_length = inr u ->
  lower_text (pu_hostname u) = pu_hostname u /\
  (rstrip_dots (pu_hostname u) = pu_hostname u \/ has ":"%char (pu_hostname u) = true).
Proof.
  unfold parse_and_normalize. destruct (is_nil _); [done|]. destruct (_ <? _); [done|].
  destruct (starts_with _ _); [done|]. intros Hp. ok_step Hp. clear Hp0.
  destruct (is_nil (pr_scheme v) || is_nil (pr_netloc v)); [by destruct (_ && _) in Hp|].
  destruct (negb _) in Hp; [done|]. destruct (has_userinfo v); [done|]. ok_step Hp.
  destruct (_ && _) in Hp; [done|]. ok_step Hp. ok_step Hp. clear Hp2. ok_step Hp. clear Hp2.
  destruct (_ || _) in Hp; [done|]. injection Hp as <-. cbn.
  unfold _is_probably_ipv6 in Hp1. destruct (has ":"%char v0) eqn:Ehas.
  - injection Hp1 as <-. split; [apply lower_text_idem|right]. revert Ehas. unfold has, char_in, lower_text.
    rewrite !existsb_exists. intros (c & Hc & <-%Ascii.eqb_eq). exists ":"%char. split; [|done].
    apply list_elem_of_In, list_elem_of_fmap. exists ":"%char. by rewrite list_elem_of_In.
  - apply idna_hostname_spec in Hp1 as [? ?]. by split; [|left].
Qed.

(** ** The pipeline *)

Definition registry_plain (registry : ProviderRegistry) : Prop :=
  forall provider hostname,
    provider ∈ providers registry -> hostname ∈ pd_exact_hostnames provider -> plain_host hostname.

Lemma default_registry_plain settings : registry_plain (from_settings settings).
Proof.
  intros provider hostname Hp Hh. apply default_hostnames_plain. unfold default_hostnames.
  unfold from_settings, build_default_providers in Hp. cbn [providers] in Hp.
  rewrite !elem_of_cons, elem_of_nil in Hp.
  rewrite !elem_of_app. destruct Hp as [-> |[-> |[-> |[-> |[]]]]]; cbn [pd_exact_hostnames] in Hh; tauto.
Qed.

Lemma find_provider_spec registry hostname provider :
  find_provider registry hostname = Some provider ->
  provider ∈ providers registry /\ pd_enabled provider = true /\
  rstrip_dots (lower_text hostname) ∈ pd_exact_hostnames provider.
Proof.
  unfold find_provider. destruct (List.find _ _) as [p|] eqn:E; [|done].
  apply find_some in E as [Hin Howns]. destruct (pd_enabled p) eqn:Een; [|done]. intros [= <-].
  split_and!; [by apply list_elem_of_In|done|]. unfold owns in Howns. by apply bool_decide_eq_true in Howns.
Qed.

Section Pipeline.
Context `{Idna} (settings : UrlSettings) (registry : ProviderRegistry).
Context (resolver : text -> exn + list address).
Context (Hpolicy : url_policy_ok settings = true) (Hplain : registry_plain registry).

Lemma policy_web scheme : scheme ∈ url_allowed_schemes settings -> web_scheme scheme.
Proof.
  unfold url_policy_ok in Hpolicy. apply andb_prop in Hpolicy as [_ Hs]. rewrite forallb_forall in Hs.
  intros Hin%list_elem_of_In%Hs%bool_decide_eq_true. rewrite !elem_of_cons, elem_of_nil in Hin.
  destruct Hin as [->|[->|[]]]; [by left|by right].
Qed.

(** What the pipeline checked before it accepted. *)
Record accepted (u : ParsedURL) (provider : ProviderDescriptor) (addresses : list address) : Prop := {
  acc_parsed : parsed_ok (url_allowed_schemes settings) (url_allowed_ports settings) u;
  acc_reserved : is_reserved_hostname (pu_hostname u) = false;
  acc_standard : looks_like_nonstandard_ipv4 (pu_hostname u) = false;
  acc_name : parse_ip_literal (pu_hostname u) = None;
  acc_found : find_provider registry (pu_hostname u) = Some provider;
  acc_resolved : resolver (pu_hostname u) = inr addresses;
  acc_allowed : assert_addresses_allowed addresses = inr tt;
  acc_plain : plain_host (pu_hostname u);
  acc_listed : pu_hostname u ∈ pd_exact_hostnames provider
}.

Definition result_of (u : ParsedURL) (provider : ProviderDescriptor) : URLValidationResult :=
  {| vr_provider_id := pd_id provider;
     vr_provider_display_name := pd_display_name provider;
     vr_url := {| nu_original_scheme := pu_original_scheme u;
                  nu_scheme := pu_scheme u;
                  nu_hostname := pu_hostname u;
                  nu_port := pu_port u;
                  nu_path := pu_path u;
                  nu_query := pu_query u;
                  nu_provider_id := pd_id provider;
                  nu_canonical := pu_canonical_without_query u |};
     vr_head_fallback_statuses := pd_head_fallback_statuses provider |}.

Lemma listed_host raw allowed_schemes allowed_ports max_length u provider :
  parse_and_normalize raw allowed_schemes allowed_ports max_length = inr u ->
  find_provider registry (pu_hostname u) = Some provider ->
  plain_host (pu_hostname u) /\ pu_hostname u ∈ pd_exact_hostnames provider.
Proof.
  intros Hp Hf. apply parsed_host in Hp as [Hlow Hdot].
  apply find_provider_spec in Hf as (Hin & _ & Hl). rewrite Hlow in Hl.
  pose proof (Hplain _ _ Hin Hl) as Hpl. destruct Hdot as [Hdot|Hcolon]; [by rewrite Hdot in *|].
  exfalso. destruct (rstrip_dots_split (pu_hostname u)) as [s [E Hs]].
  rewrite has_free in Hcolon. apply negb_true_iff in Hcolon. rewrite E, free_app in Hcolon.
  rewrite (free_class host_char) in Hcolon by (apply Hpl || all_chars).
  rewrite (free_class (Ascii.eqb "."%char)) in Hcolon by (exact Hs || all_chars). done.
Qed.

Lemma validate_accepted raw res :
  validate settings registry resolver raw = inr res ->
  exists u provider addresses,
    parse_and_normalize raw (url_allowed_schemes settings) (url_allowed_ports settings)
      (url_max_length settings) = inr u /\
    accepted u provider addresses /\ res = result_of u provider.
Proof.
  unfold validate. destruct (_validate_inner _ _ _ raw) as [e|r] eqn:E; [by destruct e|]. intros [= <-].
  unfold _validate_inner in E. ok_step E. rename v into u, E0 into Eparse.
  destruct (is_reserved_hostname _) eqn:Er; [done|]. destruct (looks_like_nonstandard_ipv4 _) eqn:El; [done|].
  destruct (parse_ip_literal _) eqn:Ei; [by ok_step E|]. do 3 ok_step E.
  destruct v1. rename v into provider, v0 into addresses. injection E as <-.
  unfold resolve_provider in E0. apply need_inr in E0. exists u, provider, addresses. split; [done|].
  destruct (listed_host _ _ _ _ _ _ Eparse E0). split; [|done]. split; try done.
  eapply parse_and_normalize_ok; [apply policy_web|exact Eparse].
Qed.

Lemma accepted_canonical u provider addresses :
  accepted u provider addresses ->
  pu_canonical_without_query u = url_of (pu_scheme u) (pu_hostname u) (pu_port u) (pu_path u).
Proof.
  intros Ha. pose proof (acc_parsed _ _ _ Ha) as Hok. pose proof (acc_plain _ _ _ Ha) as Hpl.
  rewrite (ok_canonical _ _ _ Hok). unfold _canonical_host_for_url, _is_probably_ipv6.
  rewrite has_free, (free_class host_char) by (apply Hpl || all_chars). cbn [negb].
  rewrite quote_host by apply Hpl. apply built_canonical; [by apply Hok|by apply Hpl|].
  by apply (path_rooted _ (ok_path _ _ _ Hok)).
Qed.

(** The deprecated site-local block [fec0::/10]: not public, but let through. *)
Definition site_local (a : address) : Prop :=
  match a with V4 _ => False | V6 n _ => hextet_range 0xfec0 0 n 0xfeff 0xffff end.

(** The global unicast addresses without the special blocks. *)
Definition publicly_contactable (a : address) : Prop := contactable a /\ ~ site_local a.

Lemma contactable_split a : contactable a <-> publicly_contactable a \/ site_local a.
Proof.
  unfold publicly_contactable. destruct a as [n|n zone]; cbn [site_local contactable]; [tauto|].
  split; [|intros [[Hc _]|Hc]; [exact Hc|right; unfold contactable_v6; tauto]].
  intros Hc. destruct (decide (hextets 0xfec0 0 <= n < hextets 0xfeff (0xffff + 1))) as [Hs|Hs]; [by right|].
  left. split; [exact Hc|exact Hs].
Qed.

Lemma allowed_contactable addresses :
  assert_addresses_allowed addresses = inr tt -> Forall valid_address addresses ->
  addresses <> [] /\ forall a, a ∈ addresses -> contactable a.
Proof.
  unfold assert_addresses_allowed. destruct (_ || _) eqn:E; [done|]. intros _ Hv.
  apply orb_false_elim in E as [En Eb]. split; [by destruct addresses|]. intros a Ha.
  apply blocked_iff; [by eapply Forall_forall|].
  destruct (is_blocked_destination a) eqn:Ea; [|done]. rewrite <- Eb. symmetry.
  apply existsb_exists. exists a. by rewrite <- list_elem_of_In.
Qed.
End Pipeline.

(** C16: No server-side request forgery through an accepted URL. Whatever text
    is submitted, if the validator accepts it then its host is one an enabled
    provider lists, its scheme and port are allowed, the resolver was asked for
    exactly that host and every address it gave is publicly contactable - in none
    of the loopback, private, link-local, metadata, multicast and reserved ranges -
    or in the deprecated site-local block [fec0::/10], which the policy lets
    through against its docstring; and the canonical URL is made of that scheme,
    host, port and a rooted path: it has no credentials, query, fragment or
    parameters. *)
Theorem accepted_urls_are_safe `{Idna} settings registry resolver raw res :
  url_policy_ok settings = true -> registry_plain registry ->
  (forall hostname addresses, resolver hostname = inr addresses -> Forall valid_address addresses) ->
  validate settings registry resolver raw = inr res ->
  let u := vr_url res in
  (exists provider,
    provider ∈ providers registry /\ pd_enabled provider = true /\
    nu_hostname u ∈ pd_exact_hostnames provider /\
    vr_provider_id res = pd_id provider /\ nu_provider_id u = pd_id provider) /\
  nu_scheme u ∈ url_allowed_schemes settings /\
  normal_port (url_allowed_ports settings) (nu_scheme u) (nu_port u) /\
  (exists addresses,
    resolver (nu_hostname u) = inr addresses /\ addresses <> [] /\
    forall a, a ∈ addresses -> publicly_contactable a \/ site_local a) /\
  nu_canonical u = url_of (nu_scheme u) (nu_hostname u) (nu_port u) (nu_path u) /\
  path_shape (nu_path u).
Proof.
  intros Hpolicy Hplain Hres Hv. cbv zeta.
  destruct (validate_accepted settings registry resolver Hpolicy Hplain raw res Hv)
    as (u & provider & addresses & _ & Ha & ->).
  destruct (acc_parsed _ _ _ _ _ _ Ha) as [Hs _ _ Hp Hpath _ _].
  destruct (find_provider_spec _ _ _ (acc_found _ _ _ _ _ _ Ha)) as (Hin & Hen & _).
  split; [exists provider; split_and!; try done; apply Ha|]. split_and!; try done.
  - exists addresses. split; [apply Ha|].
    destruct (allowed_contactable addresses) as [Hne Hall]; [apply Ha|eapply Hres, Ha|].
    split; [exact Hne|]. intros a Hel. by apply contactable_split, Hall.
  - by eapply accepted_canonical.
Qed.

(** The result with its query left out. *)
Definition without_query (res : URLValidationResult) : URLValidationResult :=
  let u := vr_url res in
  {| vr_provider_id := vr_provider_id res;
     vr_provider_display_name := vr_provider_display_name res;
     vr_url := {| nu_original_scheme := nu_original_scheme u; nu_scheme := nu_scheme u;
                  nu_hostname := nu_hostname u; nu_port := nu_port u; nu_path := nu_path u;
                  nu_query := []; nu_provider_id := nu_provider_id u; nu_canonical := nu_canonical u |};
     vr_head_fallback_statuses := vr_head_fallback_statuses res |}.

(** The canonical URL of an accepted URL is accepted again, with the same
    result but for the query, which it does not have: validation is idempotent.
    The path must not end in white space (which the validator trims from a URL)
    and the canonical URL must not exceed the length limit (an empty path
    becomes a slash). *)
Theorem canonical_url_revalidates `{Idna} settings registry resolver raw res :
  url_policy_ok settings = true -> registry_plain registry ->
  validate settings registry resolver raw = inr res ->
  ends_well (nu_path (vr_url res)) ->
  Z.of_nat (length (nu_canonical (vr_url res))) <= url_max_length settings ->
  validate settings registry resolver (nu_canonical (vr_url res)) = inr (without_query res).
Proof.
  intros Hpolicy Hplain Hv Hend Hlen.
  destruct (validate_accepted settings registry resolver Hpolicy Hplain raw res Hv)
    as (u & provider & addresses & _ & Ha & ->).
  pose proof (accepted_canonical _ _ _ _ _ _ Ha) as Hc. cbn in Hend, Hlen |- *. rewrite Hc in Hlen |- *.
  destruct Ha as [[Hs Hw Ho Hp Hpath Hctl _] Hr Hst Hname Hf Hres Hall Hpl Hin].
  unfold validate, _validate_inner. rewrite parse_built by done. cbn [err_bind pu_hostname].
  rewrite Hr, Hst, Hname. unfold resolve_provider. rewrite Hf. cbn [need err_bind]. rewrite Hres.
  cbn [err_bind]. rewrite Hall. cbn [err_bind]. do 2 f_equal. unfold without_query, result_of. cbn.
  by rewrite Hc, Ho.
Qed.

(** ** Witnesses *)

Module UrlExamples.

(** Every host that is not ASCII is refused. *)
#[local] Instance no_idna : Idna.
Proof. refine {| idna_nonascii := fun _ => None |}. done. Defined.

Definition settings : UrlSettings :=
  {| url_allowed_schemes := [chars "http"; chars "https"]; url_allowed_ports := [80; 443];
     url_max_length := 4096; provider_vk_enabled := true; provider_rutube_enabled := true;
     provider_ok_enabled := true; provider_dzen_enabled := false |}.

Definition resolver (hostname : text) : exn + list address :=
  system_resolve (Infos [Some (chars "87.240.132.72"); None; Some (chars "2a00:bdc0::1"); Some (chars "87.240.132.72")]).

Definition run (url : string) : exn + URLValidationResult :=
  validate settings (from_settings settings) resolver (chars url).

Definition code_of (url : string) : option URLErrorCode :=
  match run url with inl (URLValidationError code _) => Some code | _ => None end.

Example refused :
  code_of <$> ["https://user@vk.com/video1_2"; "https://vk.com:8443/video1_2"; "https://127.0.0.1/";
               "https://8.8.8.8/"; "https://2130706433/"; "https://localhost/"; "https://vk.com.evil.org/";
               "https://dzen.ru/"; "ftp://vk.com/"; "//vk.com/"; "javascript:alert(1)"; "  "; "https:///video"] =
  Some <$> [INVALID_URL; INVALID_URL; BLOCKED_DESTINATION; UNSUPPORTED_PROVIDER; BLOCKED_DESTINATION;
            BLOCKED_DESTINATION; UNSUPPORTED_PROVIDER; UNSUPPORTED_PROVIDER; UNSUPPORTED_SCHEME;
            UNSUPPORTED_SCHEME; UNSUPPORTED_SCHEME; INVALID_URL; INVALID_URL].
Proof. by vm_compute. Qed.

(** The parser's [ValueError] for malformed brackets reaches the client as an
    internal error. *)
Example malformed_brackets_are_internal_errors :
  code_of <$> ["https://[x/"; "https://vk.com]/"; "https://[::1]a/"; "https://[1.2.3.4]/"] =
  Some <$> [URL_INTERNAL_ERROR; URL_INTERNAL_ERROR; URL_INTERNAL_ERROR; URL_INTERNAL_ERROR].
Proof. by vm_compute. Qed.

Lemma resolver_valid hostname addresses : resolver hostname = inr addresses -> Forall valid_address addresses.
Proof. unfold resolver. intros Hr. apply system_resolve_spec in Hr as (? & _ & _ & _ & Hv & _). exact Hv. Qed.

Definition submitted : text := chars " https://M.VK.com:443/video-1_2;x?list=3#t ".

Definition submitted_result : URLValidationResult :=
  match validate settings (from_settings settings) resolver submitted with
  | inr res => res
  | inl _ => result_of {| pu_original_scheme := []; pu_scheme := []; pu_hostname := []; pu_port := None;
                          pu_path := []; pu_query := []; pu_canonical_without_query := [] |}
                       {| pd_id := ""; pd_display_name := ""; pd_exact_hostnames := []; pd_enabled := false;
                          pd_head_fallback_statuses := [] |}
  end.

Lemma submitted_accepted :
  validate settings (from_settings settings) resolver submitted = inr submitted_result.
Proof. by vm_compute. Qed.

Lemma accepted_urls_are_safe_witness :
  nu_canonical (vr_url submitted_result) = chars "https://m.vk.com/video-1_2" /\
  path_shape (nu_path (vr_url submitted_result)).
Proof.
  split; [by vm_compute|].
  apply (accepted_urls_are_safe settings (from_settings settings) resolver submitted submitted_result
    ltac:(by vm_compute) (default_registry_plain settings) resolver_valid submitted_accepted).
Defined.

Lemma canonical_url_revalidates_witness :
  validate settings (from_settings settings) resolver (nu_canonical (vr_url submitted_result)) =
  inr (without_query submitted_result).
Proof.
  apply (canonical_url_revalidates settings (from_settings settings) resolver submitted submitted_result
    ltac:(by vm_compute) (default_registry_plain settings) submitted_accepted).
  - intros c Hc. assert (Hlast : last (nu_path (vr_url submitted_result)) = Some "2"%char) by by vm_compute.
    rewrite Hlast in Hc. by injection Hc as <-.
  - apply Z.leb_le. by vm_compute.
Defined.
End UrlExamples.
