(* ===== verification/ProviderIdentity.v ===== *)
(** The grammar of stable media identities (url/provider_identity.py): which
    paths of which hosts name a video, and the canonical URL of one. *)

From S2P Require Export UrlTheorems.

Local Open Scope string_scope.
Local Open Scope list_scope.
Local Open Scope Z_scope.

(** ** Patterns *)

Definition lower_alnum (c : ascii) : bool := in_range 97 122 c || in_range 48 57 c.
Definition safe_char (c : ascii) : bool := lower_alnum c || is_one_of ".-" c.
Definition slug_char (c : ascii) : bool := is_alnum c || is_one_of "_-" c.
(** A class, or a literal, under [re.IGNORECASE]. *)
Definition any_case (p : ascii -> bool) (c : ascii) : bool := p (lower_char c).
Fixpoint literal_any_case (l : text) : regex :=
  match l with
  | [] => Eps
  | c :: l => Cat (Char (any_case (Ascii.eqb c))) (literal_any_case l)
  end.
Definition LitI (s : string) : regex := literal_any_case (chars s).
Definition dzen_char (c : ascii) : bool := lower_alnum c || is_one_of "-" c.

(** Source: backend/src/fetchnow/url/provider_identity.py:20-20 [_VK_STABLE_PATH] *)
Definition _VK_STABLE_PATH : regex :=
  Cat (Lit "/") (Cat (Alt (Lit "video") (Lit "clip"))
    (Cat (Group 1 (Cat (Opt (Lit "-")) (Many 1 None is_digit)))
      (Cat (Lit "_") (Cat (Group 2 (Many 1 None is_digit)) (Opt (Lit "/")))))).

(** Source: backend/src/fetchnow/url/provider_identity.py:25-27 [_RUTUBE_STABLE_PATH] *)
Definition _RUTUBE_STABLE_PATH : regex :=
  Cat (Lit "/") (Cat (Alt (Lit "video") (Lit "shorts"))
    (Cat (Lit "/") (Cat (Group 1 (Many 1 (Some 64%nat) slug_char)) (Opt (Lit "/"))))).

(** Source: backend/src/fetchnow/url/provider_identity.py:31-33 [_OK_STABLE_PATH] *)
Definition _OK_STABLE_PATH : regex :=
  Cat (Lit "/") (Cat (Alt (Cat (Lit "video") (Opt (Lit "embed"))) (Lit "web-api/video/moviePlayer"))
    (Cat (Lit "/") (Cat (Group 1 (Many 1 (Some 32%nat) (fun c => is_digit c || is_one_of "-" c))) (Opt (Lit "/"))))).

Definition not_slash (c : ascii) : bool := negb (Ascii.eqb c "/"%char).

(** Source: backend/src/fetchnow/url/provider_identity.py:39-39 [_DZEN_STABLE_PATH] *)
Definition _DZEN_WATCH : regex :=
  Cat (Opt (LitI "video/")) (Cat (Alt (LitI "watch") (LitI "shorts"))
    (Cat (Lit "/") (Group 1 (Many 1 (Some 64%nat) (any_case dzen_char))))).

(** Source: backend/src/fetchnow/url/provider_identity.py:41-41 [_DZEN_STABLE_PATH] *)
Definition _DZEN_MEDIA : regex :=
  Cat (Opt (LitI "video/")) (Cat (LitI "media/")
    (Cat (Opt (Cat (Alt (Cat (LitI "id/") (Cat (Many 1 None not_slash) (Lit "/")))
                        (Cat (Many 1 None not_slash) (Lit "/")))
                   (Cat (Many 1 None (any_case dzen_char)) (Lit "-"))))
         (Group 2 (Many 1 (Some 64%nat) (any_case dzen_char))))).

(** Source: backend/src/fetchnow/url/provider_identity.py:37-44 [_DZEN_STABLE_PATH] *)
Definition _DZEN_STABLE_PATH : regex :=
  Cat (Lit "/") (Cat (Alt _DZEN_WATCH _DZEN_MEDIA) (Opt (Lit "/"))).

(** Source: backend/src/fetchnow/url/provider_identity.py:45-50 [_DZEN_HOST_CANONICAL] *)
Definition _DZEN_HOST_CANONICAL (host : text) : text :=
  if bool_decide (host = chars "www.dzen.ru") then chars "dzen.ru"
  else if bool_decide (host = chars "www.zen.yandex.ru") then chars "zen.yandex.ru"
  else host.

(** Source: backend/src/fetchnow/url/provider_identity.py:51-51 [_SAFE_HOST] *)
Definition _SAFE_HOST : regex :=
  Cat (Char lower_alnum)
    (Opt (Group 1 (Cat (Many 0 (Some 251%nat) safe_char) (Char lower_alnum)))).

(** Source: backend/src/fetchnow/url/provider_identity.py:52-60 [_FORBIDDEN_PATH_MARKERS] *)
Definition _FORBIDDEN_PATH_MARKERS : list text :=
  chars <$> ["/video_ext.php"; "/video_ext"; "/embed"; ".m3u8"; ".mpd"; ".mp4"; ".webm"].

(** ** Identities *)

(** Source: backend/src/fetchnow/url/provider_identity.py:71-78 [StableProviderIdentity] *)
Record StableProviderIdentity := {
  pi_provider_id : string;
  pi_media_id : text;
  pi_hostname : text;
  pi_canonical_path : text
}.

Definition identity_error {A} (reason : string) : exn + A := inl (ProviderIdentityError reason).

(** Source: backend/src/fetchnow/url/provider_identity.py:89-95 [normalize_hostname] *)
Definition normalize_hostname (hostname : text) : exn + text :=
  let host := rstrip_dots (lower_text (strip is_space hostname)) in
  if is_nil host || negb (is_some (fullmatch _SAFE_HOST host)) then identity_error "UNSAFE_HOSTNAME" else
  if has "/"%char host || has "\"%char host || contains (chars "..") host || has ":"%char host || has "%"%char host
  then identity_error "UNSAFE_HOSTNAME" else
  inr host.

(** Source: backend/src/fetchnow/url/provider_identity.py:98-102 [strip_query_fragment] *)
Definition strip_query_fragment (url : text) : exn + text :=
  let? parsed := urlparse url in
  inr (urlunparse {| pr_scheme := pr_scheme parsed; pr_netloc := pr_netloc parsed;
                     pr_path := if is_nil (pr_path parsed) then ["/"%char] else pr_path parsed;
                     pr_params := []; pr_query := []; pr_fragment := [] |}).

(** Source: backend/src/fetchnow/url/provider_identity.py:117-119 [parse_stable_provider_identity] *)
Definition forbidden_path (path : text) : bool :=
  existsb (fun marker => contains marker (lower_text path)) _FORBIDDEN_PATH_MARKERS.

(** The group of a match, as text. *)
Definition group_text (n : nat) (c : list (nat * text)) : text := default [] (group n c).

(** Source: backend/src/fetchnow/url/provider_identity.py:120-149 [parse_stable_provider_identity]
    The provider's grammar: media id, canonical path and canonical host. *)
Definition match_path (provider_id : string) (host raw_path : text) : exn + (text * text * text) :=
  if String.eqb provider_id (provider_value VK) then
    let? m := need (fullmatch _VK_STABLE_PATH raw_path) (ProviderIdentityError "VK_PATH_INVALID") in
    let media_id := group_text 1 m ++ "_"%char :: group_text 2 m in
    inr (media_id, chars "/video" ++ media_id, host)
  else if String.eqb provider_id (provider_value RUTUBE) then
    let? m := need (fullmatch _RUTUBE_STABLE_PATH raw_path) (ProviderIdentityError "RUTUBE_PATH_INVALID") in
    let media_id := group_text 1 m in
    inr (media_id, chars "/video/" ++ media_id ++ ["/"%char], host)
  else if String.eqb provider_id (provider_value OK) then
    let? m := need (fullmatch _OK_STABLE_PATH raw_path) (ProviderIdentityError "OK_PATH_INVALID") in
    let media_id := group_text 1 m in
    inr (media_id, chars "/video/" ++ media_id, host)
  else if String.eqb provider_id (provider_value DZEN) then
    let? m := need (fullmatch _DZEN_STABLE_PATH raw_path) (ProviderIdentityError "DZEN_PATH_INVALID") in
    let media_id := lower_text (if is_nil (group_text 1 m) then group_text 2 m else group_text 1 m) in
    if is_nil media_id then identity_error "DZEN_PATH_INVALID" else
    inr (media_id, chars "/video/watch/" ++ media_id, _DZEN_HOST_CANONICAL host)
  else identity_error "IDENTITY_PROVIDER_UNSUPPORTED".

(** Source: backend/src/fetchnow/url/provider_identity.py:105-155 [parse_stable_provider_identity] *)
Definition parse_stable_provider_identity (provider_id : string) (hostname path : text)
    (allowed_hostnames : list text) : exn + StableProviderIdentity :=
  let? host := normalize_hostname hostname in
  if negb (bool_decide (host ∈ allowed_hostnames)) then identity_error "HOST_NOT_OWNED" else
  let raw_path := if is_nil path then ["/"%char] else path in
  if forbidden_path raw_path then identity_error "FORBIDDEN_MEDIA_PATH" else
  let? (media_id, canonical_path, host) := match_path provider_id host raw_path in
  inr {| pi_provider_id := provider_id; pi_media_id := media_id; pi_hostname := host;
         pi_canonical_path := canonical_path |}.

(** Source: backend/src/fetchnow/url/provider_identity.py:168-191 [build_public_canonical_url] *)
Definition build_public_canonical_url (scheme hostname : text) (port : option Z) (canonical_path : text) : exn + text :=
  let? host := normalize_hostname hostname in
  let path := if starts_with ["/"%char] canonical_path then canonical_path else "/"%char :: canonical_path in
  let normalized_scheme := lower_text (strip is_space scheme) in
  if negb (bool_decide (normalized_scheme ∈ [chars "http"; chars "https"])) then identity_error "IDENTITY_URL_SCHEME" else
  inr (urlunparse {| pr_scheme := normalized_scheme; pr_netloc := netloc_text host port; pr_path := path;
                     pr_params := []; pr_query := []; pr_fragment := [] |}).

(** Source: backend/src/fetchnow/url/provider_identity.py:158-165 [build_canonical_provider_url] *)
Definition build_canonical_provider_url (hostname canonical_path : text) : exn + text :=
  build_public_canonical_url (chars "https") hostname None canonical_path.

(** Source: backend/src/fetchnow/url/provider_identity.py:194-223 [parse_stable_identity_from_url] *)
Definition parse_stable_identity_from_url (raw_url : text) (provider_id : string)
    (allowed_hostnames : list text) : exn + StableProviderIdentity :=
  match urlparse raw_url with
  | inl _ => identity_error "IDENTITY_URL_PARSE"
  | inr parsed =>
      if has_userinfo parsed then identity_error "IDENTITY_URL_CREDENTIALS" else
      if negb (bool_decide (lower_text (pr_scheme parsed) ∈ [chars "http"; chars "https"]))
      then identity_error "IDENTITY_URL_SCHEME" else
      match pr_port parsed with
      | inl _ => identity_error "IDENTITY_URL_PORT_INVALID"
      | inr port =>
          if match port with Some p => negb (bool_decide (p ∈ [80; 443])) | None => false end
          then identity_error "IDENTITY_URL_PORT_UNTRUSTED" else
          match pr_hostname parsed with
          | None => identity_error "IDENTITY_URL_HOST"
          | Some hostname =>
              parse_stable_provider_identity provider_id hostname
                (if is_nil (pr_path parsed) then ["/"%char] else pr_path parsed) allowed_hostnames
          end
      end
  end.
