(* ===== verification/IdentityTheorems.v ===== *)
(** The canonical URL of an identity names that identity
    ([canonical_identity_roundtrip]). *)

From S2P Require Export ProviderIdentity.

Local Open Scope string_scope.
Local Open Scope list_scope.
Local Open Scope Z_scope.

(** ** Searching for markers *)

Lemma starts_with_spec p l : starts_with p l = true <-> exists t, l = p ++ t.
Proof.
  unfold starts_with. split.
  - intros [t Ht]%is_some_true. exists t. by apply strip_prefix_inv.
  - intros [t ->]. by rewrite strip_prefix_app.
Qed.

Lemma contains_free p m l : free (Ascii.eqb p) l = true -> contains (p :: m) l = false.
Proof.
  induction l as [|c l IH]; [done|]. cbn. unfold starts_with. cbn [strip_prefix].
  intros [Hc Hl]%andb_prop. apply negb_true_iff in Hc. by rewrite Hc, IH.
Qed.

(** Where the first character of the pattern does not occur, there is nothing to
    look for. *)
Lemma contains_skip p m a l :
  free (Ascii.eqb p) a = true -> contains (p :: m) (a ++ l) = contains (p :: m) l.
Proof.
  induction a as [|c a IH]; [done|]. cbn. unfold starts_with. cbn [strip_prefix].
  intros [Hc Ha]%andb_prop. apply negb_true_iff in Hc. by rewrite Hc, IH.
Qed.

Lemma contains_here p m l : contains (p :: m) (p :: l) = starts_with m l || contains (p :: m) l.
Proof. cbn [contains]. unfold starts_with. cbn [strip_prefix]. by rewrite Ascii.eqb_refl. Qed.

Lemma starts_with_app p a b : starts_with p a = true -> starts_with p (a ++ b) = true.
Proof. rewrite !starts_with_spec. intros [t ->]. exists (t ++ b). by rewrite app_assoc. Qed.

(** A pattern without [sep] ends before it. *)
Lemma starts_with_before p sep a b :
  free (Ascii.eqb sep) p = true -> starts_with p (a ++ sep :: b) = starts_with p a.
Proof.
  revert a. induction p as [|c p IH]; intros a Hp; [done|]. cbn in Hp. apply andb_prop in Hp as [Hc Hp].
  apply negb_true_iff in Hc. unfold starts_with in *. destruct a as [|d a]; cbn [app strip_prefix].
  - by rewrite Ascii.eqb_sym, Hc.
  - destruct (Ascii.eqb c d); [by apply IH|done].
Qed.

Lemma starts_with_other c p l d : Ascii.eqb c d = false -> starts_with (c :: p) (d :: l) = false.
Proof. unfold starts_with. cbn [strip_prefix]. by intros ->. Qed.

Lemma starts_with_common a p l : starts_with (a ++ p) (a ++ l) = starts_with p l.
Proof.
  induction a as [|c a IH]; [done|]. unfold starts_with in *. cbn [app strip_prefix]. by rewrite Ascii.eqb_refl.
Qed.

(** A pattern with a character that [l] does not have. *)
Lemma starts_with_foreign p l c : has c p = true -> free (Ascii.eqb c) l = true -> starts_with p l = false.
Proof.
  intros Hp Hl. destruct (starts_with p l) eqn:E; [|done]. apply starts_with_spec in E as [t ->].
  apply free_prefix in Hl. by rewrite has_free, Hl in Hp.
Qed.

Lemma lower_app a b : lower_text (a ++ b) = lower_text a ++ lower_text b.
Proof. apply fmap_app. Qed.

Lemma lower_free (stop : ascii -> bool) l :
  (forall c, stop (lower_char c) = stop c) -> free stop (lower_text l) = free stop l.
Proof.
  intros Hs. unfold free, lower_text. induction l as [|c l IH]; [done|]. cbn. by rewrite Hs, IH.
Qed.

(** The markers that begin with a slash, without it. *)
Definition slash_markers : list text := chars <$> ["video_ext.php"; "video_ext"; "embed"].

Lemma forbidden_dotless path :
  free (Ascii.eqb "."%char) path = true ->
  forbidden_path path = existsb (fun m => contains ("/"%char :: m) (lower_text path)) slash_markers.
Proof.
  intros Hp. unfold forbidden_path, _FORBIDDEN_PATH_MARKERS, slash_markers.
  assert (Hl : free (Ascii.eqb "."%char) (lower_text path) = true) by (rewrite lower_free; [done|all_chars]).
  cbn [fmap list_fmap existsb chars String.list_ascii_of_string].
  rewrite !(contains_free "."%char) by done. rewrite !orb_false_r. done.
Qed.

(** *** The markers of a path with one segment, and of [/front/id] with what
    follows it *)

Definition clear (segment : text) : bool := negb (existsb (fun m => starts_with m segment) slash_markers).

Lemma slash_markers_ok m : m ∈ slash_markers -> free (Ascii.eqb "/"%char) m = true /\ starts_with m [] = false.
Proof.
  intros Hm%list_elem_of_In. assert (Hall : forallb (fun m => free (Ascii.eqb "/"%char) m && negb (starts_with m []))
    slash_markers = true) by done.
  rewrite forallb_forall in Hall. by apply Hall, andb_prop in Hm as [? ?%negb_true_iff].
Qed.

Lemma existsb_false_iff {A} (p : A -> bool) l : existsb p l = false <-> forall x, x ∈ l -> p x = false.
Proof.
  split; intros Hl.
  - intros x Hx. destruct (p x) eqn:E; [|done]. rewrite <- Hl. symmetry. apply existsb_exists. exists x.
    by rewrite <- list_elem_of_In.
  - destruct (existsb p l) eqn:E; [|done]. apply existsb_exists in E as (x & Hx%list_elem_of_In & Ex).
    by rewrite Hl in Ex.
Qed.

Lemma clear_spec segment : clear segment = true <-> forall m, m ∈ slash_markers -> starts_with m segment = false.
Proof. unfold clear. rewrite negb_true_iff. apply existsb_false_iff. Qed.

(** The segments of a path, each after a slash. *)
Fixpoint path_of (segments : list text) : text :=
  match segments with [] => [] | s :: segments => "/"%char :: s ++ path_of segments end.

Lemma contains_path m segments :
  m ∈ slash_markers -> Forall (fun s => free (Ascii.eqb "/"%char) s = true) segments ->
  contains ("/"%char :: m) (path_of segments) = existsb (starts_with m) segments.
Proof.
  intros Hm Hs. destruct (slash_markers_ok m Hm) as [Hmf Hme].
  induction Hs as [|s segments Hsf Hs IH]; [done|]. cbn [path_of existsb].
  rewrite contains_here, contains_skip, IH by done. f_equal.
  destruct segments as [|s' segments]; [by rewrite app_nil_r|]. cbn. by apply starts_with_before.
Qed.

Lemma path_of_lower segments : lower_text (path_of segments) = path_of (lower_text <$> segments).
Proof.
  induction segments as [|s segments IH]; [done|]. cbn [path_of].
  change (lower_text ("/"%char :: s ++ path_of segments)) with ("/"%char :: lower_text (s ++ path_of segments)).
  by rewrite lower_app, IH.
Qed.

(** A path is allowed if none of its segments starts with a marker. *)
Lemma forbidden_path_of segments :
  free (Ascii.eqb "."%char) (path_of segments) = true ->
  Forall (fun s => free (Ascii.eqb "/"%char) s = true) segments ->
  forbidden_path (path_of segments) = false <-> Forall (fun s => clear (lower_text s) = true) segments.
Proof.
  intros Hd Hs. rewrite forbidden_dotless by done. rewrite path_of_lower, existsb_false_iff, Forall_forall.
  assert (Hs' : Forall (fun s => free (Ascii.eqb "/"%char) s = true) (lower_text <$> segments)).
  { apply Forall_fmap. eapply Forall_impl; [exact Hs|]. intros s. cbn. rewrite lower_free; [done|all_chars]. }
  setoid_rewrite clear_spec. split.
  - intros Hc s Hin m Hm. specialize (Hc m Hm). rewrite contains_path in Hc by done.
    rewrite existsb_false_iff in Hc. apply Hc. by apply list_elem_of_fmap_2.
  - intros Hc m Hm. rewrite contains_path by done. rewrite existsb_false_iff.
    intros s' (s & -> & Hin)%list_elem_of_fmap. by apply Hc.
Qed.

(** ** What the patterns match *)

Lemma run_opt_lit t s c c' : run (Opt (Lit t)) s c c' <-> (s = chars t \/ s = []) /\ c' = c.
Proof.
  unfold Opt. cbn [run]. rewrite run_lit. split.
  - intros [[-> ->]|[-> ->]]; auto.
  - intros [[-> | ->] ->]; auto.
Qed.

Lemma run_literal_any_case t s c c' : run (literal_any_case t) s c c' <-> lower_text s = t /\ c' = c.
Proof.
  revert s. induction t as [|x t IH]; intros s; cbn.
  { split; [by intros [-> ->]|]. intros [E ->]. by destruct s. }
  split.
  - intros (s1 & s2 & c1 & -> & (y & -> & Hy & ->) & Hr). apply IH in Hr as [<- ->].
    apply Ascii.eqb_eq in Hy as ->. done.
  - intros [E ->]. destruct s as [|y s]; [done|]. injection E as Ey Es.
    exists [y], s, c. split; [done|]. split; [|by apply IH]. exists y. split; [done|].
    unfold any_case. by rewrite Ey, Ascii.eqb_refl.
Qed.

Lemma run_many lo hi p s c c' :
  run (Many lo hi p) s c c' <-> forallb p s = true /\ bounded lo hi (length s) /\ c' = c.
Proof. done. Qed.

Lemma cut_unique sep a b a' b' :
  free (Ascii.eqb sep) a = true -> free (Ascii.eqb sep) a' = true ->
  a ++ sep :: b = a' ++ sep :: b' -> a = a' /\ b = b'.
Proof.
  intros Ha Ha' E. pose proof (split_free_app sep a b Ha) as E1. rewrite E, split_free_app in E1 by done.
  by injection E1 as -> ->.
Qed.

(** An optional final slash is not there where no slash is. *)
Lemma no_tail a t w :
  t = chars "/" \/ t = [] -> a ++ t = w -> free (Ascii.eqb "/"%char) w = true -> t = [] /\ a = w.
Proof.
  intros [-> | ->] <- Hw; [|by rewrite app_nil_r]. apply free_suffix in Hw. done.
Qed.

(** Takes the run of a concatenation apart. *)
Ltac run_parts H :=
  lazymatch type of H with
  | run (Cat _ _) _ _ _ =>
      let s := fresh "s" in let t := fresh "t" in let H1 := fresh "Hr" in
      destruct H as (s & t & ? & -> & H1 & H); run_parts H1; run_parts H
  | run (Group _ _) _ _ _ => destruct H as (? & H & ->); run_parts H
  | run (Lit _) _ _ _ => apply run_lit in H as [-> ->]
  | run (Opt (Lit _)) _ _ _ => apply run_opt_lit in H as [H ->]
  | run (Many _ _ _) _ _ _ => destruct H as (H & ? & ->)
  | _ => idtac
  end.

Definition vk_owner (o : text) : Prop :=
  exists sign ds, o = sign ++ ds /\ (sign = chars "-" \/ sign = []) /\ forallb is_digit ds = true /\ ds <> [].

Lemma bounded_nonempty hi (s : text) : bounded 1 hi (length s) -> s <> [].
Proof. intros [Hlo _] ->. cbn in Hlo. lia. Qed.

Lemma nonempty_bounded (s : text) : s <> [] -> bounded 1 None (length s).
Proof. intros Hs. split; [|done]. destruct s; [done|]. cbn. lia. Qed.

Lemma vk_run s c :
  run _VK_STABLE_PATH s [] c ->
  exists kind owner video tail,
    s = chars "/" ++ kind ++ owner ++ chars "_" ++ video ++ tail /\
    (kind = chars "video" \/ kind = chars "clip") /\ vk_owner owner /\
    forallb is_digit video = true /\ video <> [] /\ (tail = chars "/" \/ tail = []) /\
    c = [(2%nat, video); (1%nat, owner)].
Proof.
  intros Hr. unfold _VK_STABLE_PATH in Hr. run_parts Hr.
  assert (Hk : (s = chars "video" \/ s = chars "clip") /\ x = []).
  { destruct Hr0 as [Hk|Hk]; apply run_lit in Hk as [-> ->]; auto. }
  destruct Hk as [Hk ->]. exists s, (s1 ++ t0), s0, t. split_and!; try done.
  - eexists _, _. split; [done|]. split_and!; [done|done|]. by eapply bounded_nonempty.
  - by eapply bounded_nonempty.
Qed.

Lemma rutube_run s c :
  run _RUTUBE_STABLE_PATH s [] c ->
  exists kind media tail,
    s = chars "/" ++ kind ++ chars "/" ++ media ++ tail /\
    (kind = chars "video" \/ kind = chars "shorts") /\
    forallb slug_char media = true /\ bounded 1 (Some 64%nat) (length media) /\
    (tail = chars "/" \/ tail = []) /\ c = [(1%nat, media)].
Proof.
  intros Hr. unfold _RUTUBE_STABLE_PATH in Hr. run_parts Hr.
  assert (Hk : (s = chars "video" \/ s = chars "shorts") /\ x = []).
  { destruct Hr0 as [Hk|Hk]; apply run_lit in Hk as [-> ->]; auto. }
  destruct Hk as [Hk ->]. by exists s, s0, t0.
Qed.

Definition ok_char (c : ascii) : bool := is_digit c || is_one_of "-" c.

Lemma ok_run s c :
  run _OK_STABLE_PATH s [] c ->
  exists kind media tail,
    s = chars "/" ++ kind ++ chars "/" ++ media ++ tail /\
    (kind = chars "video" \/ kind = chars "videoembed" \/ kind = chars "web-api/video/moviePlayer") /\
    forallb ok_char media = true /\ bounded 1 (Some 32%nat) (length media) /\
    (tail = chars "/" \/ tail = []) /\ c = [(1%nat, media)].
Proof.
  intros Hr. unfold _OK_STABLE_PATH in Hr. run_parts Hr.
  assert (Hk : (s = chars "video" \/ s = chars "videoembed" \/ s = chars "web-api/video/moviePlayer") /\ x = []).
  { destruct Hr0 as [Hk|Hk]; run_parts Hk; [|by auto]. destruct Hk as [-> | ->]; auto. }
  destruct Hk as [Hk ->]. by exists s, s0, t0.
Qed.

(** The two forms of a Dzen path, after the first slash. *)
Definition dzen_media (media : text) : Prop :=
  forallb (any_case dzen_char) media = true /\ bounded 1 (Some 64%nat) (length media).
Definition dzen_prefix (pre : text) : Prop := lower_text pre = chars "video/" \/ pre = [].

Lemma run_opt_LitI t s c c' : run (Opt (LitI t)) s c c' <-> (lower_text s = chars t \/ s = []) /\ c' = c.
Proof.
  unfold Opt. cbn [run]. unfold LitI. rewrite run_literal_any_case. split.
  - intros [[-> ->]|[-> ->]]; auto.
  - intros [[Hs | ->] ->]; auto.
Qed.

Lemma dzen_watch_run s c :
  run _DZEN_WATCH s [] c ->
  exists pre kind media,
    s = pre ++ kind ++ chars "/" ++ media /\ dzen_prefix pre /\
    (lower_text kind = chars "watch" \/ lower_text kind = chars "shorts") /\
    dzen_media media /\ c = [(1%nat, media)].
Proof.
  intros Hr. unfold _DZEN_WATCH in Hr. destruct Hr as (pre & t & c1 & -> & Hpre & Hr).
  apply run_opt_LitI in Hpre as [Hpre ->]. destruct Hr as (kind & t' & c1 & -> & Hk & Hr). run_parts Hr.
  assert (Hk' : (lower_text kind = chars "watch" \/ lower_text kind = chars "shorts") /\ c1 = []).
  { destruct Hk as [Hk|Hk]; apply run_literal_any_case in Hk as [Hk ->]; auto. }
  destruct Hk' as [Hk' ->]. by eexists pre, kind, _.
Qed.

Lemma dzen_media_run s c :
  run _DZEN_MEDIA s [] c ->
  exists pre mid front media,
    s = pre ++ mid ++ front ++ media /\ dzen_prefix pre /\ lower_text mid = chars "media/" /\
    dzen_media media /\ c = [(2%nat, media)].
Proof.
  intros Hr. unfold _DZEN_MEDIA in Hr. destruct Hr as (pre & t & c1 & -> & Hpre & Hr).
  apply run_opt_LitI in Hpre as [Hpre ->]. destruct Hr as (mid & t' & c1 & -> & Hm & Hr).
  apply run_literal_any_case in Hm as [Hm ->]. destruct Hr as (front & t & c1 & -> & Hf & Hr). run_parts Hr.
  assert (c1 = []) as ->.
  { destruct Hf as [Hf|[_ Hf]]; [|done]. destruct Hf as (a & b & c2 & -> & Ha & Hb).
    assert (c2 = []) as ->; [|by run_parts Hb].
    destruct Ha as [Ha|Ha]; [|by run_parts Ha]. destruct Ha as (u & v & c3 & -> & Hu & Hv).
    apply run_literal_any_case in Hu as [_ ->]. by run_parts Hv. }
  by eexists pre, mid, front, _.
Qed.

(** ** The canonical path matches, with the same groups *)

Lemma run_cat r t s1 s2 c c1 c2 : run r s1 c c1 -> run t s2 c1 c2 -> run (Cat r t) (s1 ++ s2) c c2.
Proof. intros H1 H2. by exists s1, s2, c1. Qed.
Lemma run_group n r s c c1 : run r s c c1 -> run (Group n r) s c ((n, s) :: c1).
Proof. intros Hr. by exists c1. Qed.
Lemma run_lit_self t c : run (Lit t) (chars t) c c.
Proof. by apply run_lit. Qed.
Lemma run_opt_none t c : run (Opt (Lit t)) [] c c.
Proof. apply run_opt_lit. auto. Qed.
Lemma run_end r t s c c1 : run r s c c1 -> run (Cat r (Opt (Lit t))) s c c1.
Proof. intros Hr. rewrite <- (app_nil_r s). eapply run_cat; [exact Hr|apply run_opt_none]. Qed.

(** A pattern that matches a text with one possible list of groups finds it. *)
Lemma fullmatch_unique r l c :
  run r l [] c -> (forall c', run r l [] c' -> c' = c) -> fullmatch r l = Some c.
Proof.
  intros Hr Hu. apply fullmatch_complete in Hr as [c' E]. rewrite E. f_equal. apply Hu. by apply fullmatch_spec.
Qed.

Lemma cons_tail (a : ascii) l l' : a :: l = a :: l' -> l = l'.
Proof. by intros [= ->]. Qed.

Lemma digits_no_slash v : forallb is_digit v = true -> free (Ascii.eqb "/"%char) v = true.
Proof. apply free_class. all_chars. Qed.

Lemma owner_chars o : vk_owner o -> forallb ok_char o = true.
Proof.
  intros (sign & ds & -> & Hs & Hd & _). rewrite forallb_app.
  rewrite (forallb_mono is_digit ok_char ds) by (done || all_chars). by destruct Hs as [-> | ->].
Qed.

Lemma vk_rematch o v :
  vk_owner o -> forallb is_digit v = true -> v <> [] ->
  fullmatch _VK_STABLE_PATH (chars "/video" ++ o ++ "_"%char :: v) = Some [(2%nat, v); (1%nat, o)].
Proof.
  intros Ho Hv Hne. apply fullmatch_unique.
  - destruct Ho as (sign & ds & Eo & Hs & Hd & Hdne).
    change (chars "/video" ++ o ++ "_"%char :: v) with (chars "/" ++ chars "video" ++ o ++ chars "_" ++ v).
    unfold _VK_STABLE_PATH. eapply run_cat; [apply run_lit_self|]. eapply run_cat; [left; apply run_lit_self|].
    eapply run_cat.
    { apply run_group. rewrite Eo. eapply run_cat; [by apply run_opt_lit|].
      apply run_many. split_and!; [done|by apply nonempty_bounded|done]. }
    eapply run_cat; [apply run_lit_self|]. apply run_end, run_group, run_many.
    split_and!; [done|by apply nonempty_bounded|done].
  - intros c' Hr. apply vk_run in Hr as (kind & o' & v' & tail & E & Hk & Ho' & Hv' & _ & Ht & ->).
    change (chars "/" ++ kind ++ o' ++ chars "_" ++ v' ++ tail) with ("/"%char :: kind ++ o' ++ "_"%char :: v' ++ tail) in E.
    change (chars "/video" ++ o ++ "_"%char :: v) with ("/"%char :: chars "video" ++ o ++ "_"%char :: v) in E.
    apply cons_tail in E. destruct Hk as [-> | ->]; [|done]. apply app_inv_head in E.
    apply cut_unique in E as [-> E]; [|(eapply free_class; [|by apply owner_chars]; all_chars)..].
    symmetry in E. apply no_tail in E as [-> ->]; [done|done|by apply digits_no_slash].
Qed.

(** [/kind/media] and an optional slash, where neither has a slash. *)
Lemma rematch_media kind media kind' media' tail tail' :
  free (Ascii.eqb "/"%char) kind = true -> free (Ascii.eqb "/"%char) media = true ->
  free (Ascii.eqb "/"%char) kind' = true -> free (Ascii.eqb "/"%char) media' = true ->
  (tail = chars "/" \/ tail = []) -> (tail' = chars "/" \/ tail' = []) ->
  kind' ++ "/"%char :: media' ++ tail' = kind ++ "/"%char :: media ++ tail -> kind' = kind /\ media' = media.
Proof.
  intros Hk Hm Hk' Hm' Ht Ht' E. apply cut_unique in E as [-> E]; [|done..]. split; [done|].
  destruct Ht as [-> | ->], Ht' as [-> | ->].
  - by apply app_inv_tail in E.
  - rewrite app_nil_r in E. subst media'. by apply free_suffix in Hm'.
  - rewrite app_nil_r in E. subst media. by apply free_suffix in Hm.
  - by rewrite !app_nil_r in E.
Qed.

Lemma slug_no_slash m : forallb slug_char m = true -> free (Ascii.eqb "/"%char) m = true.
Proof. apply free_class. all_chars. Qed.

Lemma rutube_rematch m :
  forallb slug_char m = true -> bounded 1 (Some 64%nat) (length m) ->
  fullmatch _RUTUBE_STABLE_PATH (chars "/video/" ++ m ++ ["/"%char]) = Some [(1%nat, m)].
Proof.
  intros Hm Hb. apply fullmatch_unique.
  - change (chars "/video/" ++ m ++ ["/"%char]) with (chars "/" ++ chars "video" ++ chars "/" ++ m ++ chars "/").
    unfold _RUTUBE_STABLE_PATH. eapply run_cat; [apply run_lit_self|]. eapply run_cat; [left; apply run_lit_self|].
    eapply run_cat; [apply run_lit_self|]. eapply run_cat; [by apply run_group, run_many|].
    apply run_opt_lit. auto.
  - intros c' Hr. apply rutube_run in Hr as (kind & m' & tail & E & Hk & Hm' & _ & Ht & ->).
    change (chars "/" ++ kind ++ chars "/" ++ m' ++ tail) with ("/"%char :: kind ++ "/"%char :: m' ++ tail) in E.
    change (chars "/video/" ++ m ++ ["/"%char]) with ("/"%char :: chars "video" ++ "/"%char :: m ++ chars "/") in E.
    apply cons_tail in E. symmetry in E. apply rematch_media in E as [_ ->]; try done; try by apply slug_no_slash.
    + by destruct Hk as [-> | ->].
    + by left.
Qed.

Lemma ok_rematch m :
  forallb ok_char m = true -> bounded 1 (Some 32%nat) (length m) ->
  fullmatch _OK_STABLE_PATH (chars "/video/" ++ m) = Some [(1%nat, m)].
Proof.
  intros Hm Hb. assert (Hmf : free (Ascii.eqb "/"%char) m = true) by (eapply free_class; [|exact Hm]; all_chars).
  apply fullmatch_unique.
  - change (chars "/video/" ++ m) with (chars "/" ++ chars "video" ++ chars "/" ++ m).
    unfold _OK_STABLE_PATH. eapply run_cat; [apply run_lit_self|].
    eapply run_cat; [left; apply run_end, run_lit_self|]. eapply run_cat; [apply run_lit_self|].
    apply run_end. by apply run_group, run_many.
  - intros c' Hr. apply ok_run in Hr as (kind & m' & tail & E & Hk & Hm' & _ & Ht & ->).
    change (chars "/" ++ kind ++ chars "/" ++ m' ++ tail) with ("/"%char :: kind ++ "/"%char :: m' ++ tail) in E.
    change (chars "/video/" ++ m) with ("/"%char :: chars "video" ++ "/"%char :: m) in E.
    apply cons_tail in E. destruct Hk as [-> | [-> | ->]]; [|done..]. apply app_inv_head in E.
    apply cons_tail in E. symmetry in E. apply no_tail in E as [_ ->]; done.
Qed.

Lemma lower_length l : length (lower_text l) = length l.
Proof. apply length_fmap. Qed.

(** A word in any case at the start of a text is the text's own start. *)
Lemma word_in_front w word (a b : text) :
  lower_text w = word -> w ++ a = word ++ b -> w = word /\ a = b.
Proof. intros Hw. apply app_inj_1. by rewrite <- (lower_length w), Hw. Qed.

Lemma word_elsewhere w c word (a : text) d b :
  lower_text w = c :: word -> Ascii.eqb (lower_char d) c = false -> w ++ a = d :: b -> False.
Proof.
  destruct w as [|x w]; [done|]. intros [= Hx _] Hd [= -> _]. by rewrite Hx, Ascii.eqb_refl in Hd.
Qed.

Lemma dzen_path_run s c :
  run _DZEN_STABLE_PATH s [] c ->
  exists body tail, s = "/"%char :: body ++ tail /\ (run _DZEN_WATCH body [] c \/ run _DZEN_MEDIA body [] c) /\
    (tail = chars "/" \/ tail = []).
Proof.
  intros Hr. destruct Hr as (s1 & t & c1 & -> & Hl & Hr). apply run_lit in Hl as [-> ->].
  destruct Hr as (body & tail & c2 & -> & Hb & Ht). apply run_opt_lit in Ht as [Ht ->].
  by exists body, tail.
Qed.

Lemma dzen_no_slash m : forallb (any_case dzen_char) m = true -> free (Ascii.eqb "/"%char) m = true.
Proof. apply free_class. all_chars. Qed.

Lemma dzen_rematch m :
  dzen_media m -> fullmatch _DZEN_STABLE_PATH (chars "/video/watch/" ++ m) = Some [(1%nat, m)].
Proof.
  intros [Hm Hb]. apply fullmatch_unique.
  - change (chars "/video/watch/" ++ m) with (chars "/" ++ chars "video/" ++ chars "watch" ++ chars "/" ++ m).
    unfold _DZEN_STABLE_PATH. eapply run_cat; [apply run_lit_self|]. apply run_end. left.
    unfold _DZEN_WATCH. eapply run_cat; [by apply run_opt_LitI; auto|].
    eapply run_cat; [by left; apply run_literal_any_case|].
    eapply run_cat; [apply run_lit_self|]. by apply run_group, run_many.
  - intros c' Hr. apply dzen_path_run in Hr as (body & tail & E & Hr & Ht).
    change (chars "/video/watch/" ++ m) with ("/"%char :: chars "video/" ++ chars "watch" ++ "/"%char :: m) in E.
    apply cons_tail in E. symmetry in E. destruct Hr as [Hr|Hr].
    + apply dzen_watch_run in Hr as (pre & kind & m' & -> & Hpre & Hk & _ & ->).
      rewrite <- !app_assoc in E. destruct Hpre as [Hpre | ->].
      * eapply word_in_front in E as [-> E]; [|exact Hpre]. destruct Hk as [Hk|Hk].
        -- eapply word_in_front in E as [-> E]; [|exact Hk]. apply cons_tail in E.
           apply no_tail in E as [-> ->]; [done|done|by apply dzen_no_slash].
        -- exfalso. by refine (word_elsewhere _ _ _ _ _ _ Hk _ E).
      * exfalso. destruct Hk as [Hk|Hk]; by refine (word_elsewhere _ _ _ _ _ _ Hk _ E).
    + apply dzen_media_run in Hr as (pre & mid & front & m' & -> & Hpre & Hmid & _).
      exfalso. rewrite <- !app_assoc in E. destruct Hpre as [Hpre | ->].
      * eapply word_in_front in E as [-> E]; [|exact Hpre].
        by refine (word_elsewhere _ _ _ _ _ _ Hmid _ E).
      * by refine (word_elsewhere _ _ _ _ _ _ Hmid _ E).
Qed.

(** ** Canonical paths *)

Definition canon_char (c : ascii) : bool := slug_char c || Ascii.eqb "/"%char c.

(** A rooted path of slugs is a path [urlparse] returns as it is. *)
Lemma canon_path_shape path :
  (exists rest, path = "/"%char :: rest) -> forallb canon_char path = true -> path_shape path.
Proof.
  intros Hr Hc. split; [done|eapply free_class; [|exact Hc]; all_chars..|].
  assert (Hs : free (Ascii.eqb ";"%char) path = true) by (eapply free_class; [|exact Hc]; all_chars).
  pose proof (split_params_prefix path) as [t Ht]. unfold split_params in *.
  destruct (split_once "/"%char (reverse path)) as [rlast [rfront|]] eqn:E.
  - assert (Hl : free (Ascii.eqb ";"%char) (reverse rlast) = true).
    { rewrite free_reverse. apply split_once_inv in E. rewrite <- free_reverse, E in Hs.
      by apply free_prefix in Hs. }
    rewrite split_free by done. cbn [default from_option]. f_equal. apply split_once_inv in E.
    apply (f_equal reverse) in E. rewrite reverse_involutive in E. rewrite E.
    by rewrite reverse_app, reverse_cons, <- app_assoc.
  - by rewrite before_free, after_free.
Qed.

(** What a canonical path is good for. *)
Record canonical (provider_id : string) (media canon host : text) : Prop := {
  can_match : match_path provider_id host canon = inr (media, canon, host);
  can_rooted : exists rest, canon = "/"%char :: rest;
  can_chars : forallb canon_char canon = true;
  can_clear : forbidden_path canon = false
}.

Lemma canon_dotless path : forallb canon_char path = true -> free (Ascii.eqb "."%char) path = true.
Proof. apply free_class. all_chars. Qed.

Lemma clear_head s c l :
  s = c :: l -> Ascii.eqb "v"%char c = false -> Ascii.eqb "e"%char c = false -> clear s = true.
Proof.
  intros -> Hv He. unfold clear, slash_markers. cbn [fmap list_fmap existsb chars String.list_ascii_of_string].
  by rewrite !starts_with_other.
Qed.

Lemma lower_cons c l : lower_text (c :: l) = lower_char c :: lower_text l.
Proof. done. Qed.

Lemma ok_head_clear m : forallb ok_char m = true -> m <> [] -> clear (lower_text m) = true.
Proof.
  destruct m as [|c m]; [done|]. intros [Hc _]%andb_prop _. rewrite lower_cons.
  assert (H : forall c, ok_char c = true -> Ascii.eqb "v"%char (lower_char c) = false /\ Ascii.eqb "e"%char (lower_char c) = false).
  { intros d. destruct d as [[] [] [] [] [] [] [] []]; done. }
  destruct (H c Hc). by eapply clear_head.
Qed.

Lemma vk_canonical host path m :
  fullmatch _VK_STABLE_PATH path = Some m ->
  let media := group_text 1 m ++ "_"%char :: group_text 2 m in
  canonical (provider_value VK) media (chars "/video" ++ media) host.
Proof.
  intros Hm. apply fullmatch_spec, vk_run in Hm as (kind & o & v & tail & _ & _ & Ho & Hv & Hne & _ & ->).
  cbn zeta. change (group_text 1 _) with o. change (group_text 2 _) with v.
  assert (Hs : forallb slug_char (chars "video" ++ o ++ "_"%char :: v) = true).
  { rewrite !forallb_app. cbn [forallb]. rewrite (forallb_mono ok_char slug_char o) by (by apply owner_chars || all_chars).
    by rewrite (forallb_mono is_digit slug_char v) by (done || all_chars). }
  assert (Hc : forallb canon_char (chars "/video" ++ o ++ "_"%char :: v) = true)
    by (apply (forallb_mono slug_char canon_char) in Hs; [exact Hs|all_chars]).
  split; [|by eexists|done|].
  - unfold match_path. rewrite String.eqb_refl, vk_rematch by done. done.
  - assert (E : chars "/video" ++ o ++ "_"%char :: v = path_of [chars "video" ++ o ++ "_"%char :: v])
      by (cbn; by rewrite app_nil_r).
    rewrite E. apply slug_no_slash in Hs.
    apply forbidden_path_of; [rewrite <- E; by apply canon_dotless|by apply Forall_singleton|].
    apply Forall_singleton. apply clear_spec. intros mk Hmk. rewrite lower_app.
    assert (Hhead : exists c l, o = c :: l /\ Ascii.eqb "_"%char (lower_char c) = false).
    { destruct Ho as (sign & ds & -> & Hsign & Hd & Hdne). destruct Hsign as [-> | ->]; [by eexists _, _|].
      destruct ds as [|c ds]; [done|]. exists c, ds. split; [done|]. cbn in Hd. apply andb_prop in Hd as [Hd _].
      clear -Hd. revert c Hd. all_chars. }
    destruct Hhead as (c & l & -> & Hcc). unfold slash_markers in Hmk. cbn [fmap list_fmap] in Hmk.
    rewrite !elem_of_cons, elem_of_nil in Hmk. cbn [app]. rewrite lower_cons.
    change (lower_text (chars "video")) with (chars "video").
    destruct Hmk as [-> |[-> |[-> |[]]]].
    + change (chars "video_ext.php") with (chars "video" ++ chars "_ext.php").
      rewrite starts_with_common. by apply starts_with_other.
    + change (chars "video_ext") with (chars "video" ++ chars "_ext").
      rewrite starts_with_common. by apply starts_with_other.
    + done.
Qed.

Lemma rutube_canonical host path m :
  fullmatch _RUTUBE_STABLE_PATH path = Some m -> forbidden_path path = false ->
  let media := group_text 1 m in
  canonical (provider_value RUTUBE) media (chars "/video/" ++ media ++ ["/"%char]) host.
Proof.
  intros Hm Hf. apply fullmatch_spec, rutube_run in Hm as (kind & media & tail & -> & Hk & Hm & Hb & Ht & ->).
  cbn zeta. change (group_text 1 _) with media.
  assert (Hc : forallb canon_char (chars "/video/" ++ media ++ ["/"%char]) = true).
  { rewrite !forallb_app, (forallb_mono slug_char canon_char media) by (done || all_chars). done. }
  pose proof (slug_no_slash _ Hm) as Hms.
  split; [|by eexists|done|].
  - unfold match_path. rewrite String.eqb_refl, rutube_rematch by done. done.
  - change (chars "/video/" ++ media ++ ["/"%char]) with (path_of [chars "video"; media; []]) in *.
    assert (Hclear : clear (lower_text media) = true).
    { assert (Hseg : exists segs, chars "/" ++ kind ++ chars "/" ++ media ++ tail = path_of (kind :: media :: segs) /\
        Forall (fun s => free (Ascii.eqb "/"%char) s = true) segs /\ (segs = [] \/ segs = [[]])).
      { destruct Ht as [-> | ->]; [exists [[]]|exists []]; cbn; rewrite ?app_nil_r; auto. }
      destruct Hseg as (segs & Hpath & Hsegs & Hsegs'). rewrite Hpath in Hf.
      apply forbidden_path_of in Hf.
      - apply Forall_cons in Hf as [_ Hf]. by apply Forall_cons in Hf as [Hf _].
      - rewrite <- Hpath. apply canon_dotless. rewrite !forallb_app.
        rewrite (forallb_mono slug_char canon_char media) by (done || all_chars).
        by destruct Hk as [-> | ->], Ht as [-> | ->].
      - apply Forall_cons. split; [by destruct Hk as [-> | ->]|]. by apply Forall_cons. }
    apply forbidden_path_of; [by apply canon_dotless|by repeat (apply Forall_cons; split)|].
    by repeat (apply Forall_cons; split).
Qed.

Lemma ok_canonical_path host path m :
  fullmatch _OK_STABLE_PATH path = Some m ->
  let media := group_text 1 m in
  canonical (provider_value OK) media (chars "/video/" ++ media) host.
Proof.
  intros Hm. apply fullmatch_spec, ok_run in Hm as (kind & media & tail & _ & _ & Hm & Hb & _ & ->).
  cbn zeta. change (group_text 1 _) with media.
  assert (Hc : forallb canon_char (chars "/video/" ++ media) = true).
  { rewrite forallb_app, (forallb_mono ok_char canon_char media) by (done || all_chars). done. }
  assert (Hms : free (Ascii.eqb "/"%char) media = true) by (eapply free_class; [|exact Hm]; all_chars).
  split; [|by eexists|done|].
  - unfold match_path. rewrite String.eqb_refl, ok_rematch by done. done.
  - assert (E : chars "/video/" ++ media = path_of [chars "video"; media]) by (cbn; by rewrite app_nil_r).
    rewrite E in *. apply forbidden_path_of; [by apply canon_dotless|by repeat (apply Forall_cons; split)|].
    repeat (apply Forall_cons; split); [done| |done]. apply ok_head_clear; [done|].
    by eapply bounded_nonempty.
Qed.

Lemma match_path_dzen host raw_path :
  match_path (provider_value DZEN) host raw_path =
    let? m := need (fullmatch _DZEN_STABLE_PATH raw_path) (ProviderIdentityError "DZEN_PATH_INVALID") in
    let media_id := lower_text (if is_nil (group_text 1 m) then group_text 2 m else group_text 1 m) in
    if is_nil media_id then identity_error "DZEN_PATH_INVALID" else
    inr (media_id, chars "/video/watch/" ++ media_id, _DZEN_HOST_CANONICAL host).
Proof. done. Qed.

(** The id of a Dzen path, in lower case: what both halves of the grammar give. *)
Record dzen_id (media : text) : Prop := {
  dz_chars : forallb dzen_char media = true;
  dz_lower : lower_text media = media;
  dz_media : dzen_media media;
  dz_nonempty : is_nil media = false
}.

Lemma dzen_path_id path m :
  fullmatch _DZEN_STABLE_PATH path = Some m ->
  dzen_id (lower_text (if is_nil (group_text 1 m) then group_text 2 m else group_text 1 m)).
Proof.
  intros Hm. apply fullmatch_spec, dzen_path_run in Hm as (body & tail & _ & Hr & _).
  assert (Hg : exists media, (if is_nil (group_text 1 m) then group_text 2 m else group_text 1 m) = media /\
    dzen_media media).
  { destruct Hr as [Hr|Hr].
    - apply dzen_watch_run in Hr as (_ & _ & media & _ & _ & _ & Hm & ->). exists media. split; [|done].
      change (group_text 1 _) with media. destruct Hm as [_ Hb%bounded_nonempty]. by destruct media.
    - apply dzen_media_run in Hr as (_ & _ & _ & media & _ & _ & _ & Hm & ->). by exists media. }
  destruct Hg as (media0 & -> & Hm0 & Hb). set (media := lower_text media0).
  assert (Hm1 : forallb dzen_char media = true).
  { clear -Hm0. unfold media, lower_text. induction media0 as [|c l IH]; [done|]. cbn in *.
    apply andb_prop in Hm0 as [Hc Hl]. unfold any_case in Hc. rewrite Hc. by apply IH. }
  assert (Hm2 : dzen_media media).
  { split; [|unfold media; by rewrite lower_length]. eapply forallb_mono; [|exact Hm1]. all_chars. }
  split; [done|by apply lower_text_idem|done|]. destruct Hm2 as [_ Hb'%bounded_nonempty]. by destruct media.
Qed.

Lemma dzen_path_chars media : dzen_id media -> forallb canon_char (chars "/video/watch/" ++ media) = true.
Proof.
  intros Hd. rewrite forallb_app, (forallb_mono dzen_char canon_char media) by (apply Hd || all_chars). done.
Qed.

Lemma dzen_canonical_path host media :
  dzen_id media -> starts_with (chars "embed") media = false ->
  canonical (provider_value DZEN) media (chars "/video/watch/" ++ media) (_DZEN_HOST_CANONICAL host).
Proof.
  intros Hd Hembed. pose proof (dzen_path_chars _ Hd) as Hc. destruct Hd as [Hm1 Hml Hm2 Hne].
  assert (Hms : free (Ascii.eqb "/"%char) media = true) by by apply dzen_no_slash, Hm2.
  split; [|by eexists|done|].
  - rewrite match_path_dzen, dzen_rematch by done. cbn [need err_bind].
    change (group_text 1 [(1%nat, media)]) with media. rewrite Hne, Hml, Hne. do 2 f_equal.
    unfold _DZEN_HOST_CANONICAL. by repeat case_bool_decide; subst.
  - assert (E : chars "/video/watch/" ++ media = path_of [chars "video"; chars "watch"; media])
      by (cbn; by rewrite app_nil_r).
    rewrite E in *. apply forbidden_path_of; [by apply canon_dotless|by repeat (apply Forall_cons; split)|].
    repeat (apply Forall_cons; split); [done|done| |done].
    rewrite Hml. unfold clear, slash_markers. cbn [fmap list_fmap existsb]. rewrite Hembed.
    assert (Hu : free (Ascii.eqb "_"%char) media = true) by (eapply free_class; [|exact Hm1]; all_chars).
    by rewrite !(starts_with_foreign _ media "_"%char).
Qed.

(** An id that begins with [embed] makes a path that the grammar forbids. *)
Lemma contains_later p a l : contains p l = true -> contains p (a ++ l) = true.
Proof. intros Hl. induction a as [|c a IH]; [done|]. cbn [app contains]. by rewrite IH, orb_true_r. Qed.

Lemma contains_start p l : contains p (p ++ l) = true.
Proof.
  assert (Hs : starts_with p (p ++ l) = true) by (apply starts_with_spec; by exists l).
  destruct (p ++ l); cbn [contains]; by rewrite Hs.
Qed.

Lemma dzen_embed_forbidden media :
  dzen_id media -> starts_with (chars "embed") media = true -> forbidden_path (chars "/video/watch/" ++ media) = true.
Proof.
  intros Hd [rest ->]%starts_with_spec. unfold forbidden_path. apply existsb_exists.
  exists (chars "/embed"). split; [cbn; tauto|].
  assert (E : lower_text (chars "/video/watch/" ++ chars "embed" ++ rest) =
    chars "/video/watch" ++ chars "/embed" ++ lower_text rest) by (unfold lower_text; by rewrite !fmap_app).
  rewrite E. apply contains_later. apply (contains_start (chars "/embed")).
Qed.

Lemma match_path_canonical provider_id host path media canon host' :
  match_path provider_id host path = inr (media, canon, host') -> forbidden_path path = false ->
  (provider_id = provider_value DZEN -> starts_with (chars "embed") media = false) ->
  canonical provider_id media canon host' /\ (host' = host \/ host' = _DZEN_HOST_CANONICAL host).
Proof.
  unfold match_path. intros E Hf Hd.
  destruct (String.eqb_spec provider_id (provider_value VK)) as [->|_].
  { ok_step E. injection E as <- <- <-. ok_step E0. split; [by eapply vk_canonical|by left]. }
  destruct (String.eqb_spec provider_id (provider_value RUTUBE)) as [->|_].
  { ok_step E. injection E as <- <- <-. ok_step E0. split; [by eapply rutube_canonical|by left]. }
  destruct (String.eqb_spec provider_id (provider_value OK)) as [->|_].
  { ok_step E. injection E as <- <- <-. ok_step E0. split; [by eapply ok_canonical_path|by left]. }
  destruct (String.eqb_spec provider_id (provider_value DZEN)) as [->|_]; [|done].
  ok_step E. ok_step E0. destruct (is_nil (lower_text _)); [done|]. injection E as <- <- <-.
  split; [|by right]. apply dzen_canonical_path; [by eapply dzen_path_id|by apply Hd].
Qed.

(** The one other case: a Dzen id that begins with [embed]. *)
Lemma match_path_embed host path media canon host' :
  match_path (provider_value DZEN) host path = inr (media, canon, host') ->
  starts_with (chars "embed") media = true ->
  (exists rest, canon = "/"%char :: rest) /\ forallb canon_char canon = true /\ forbidden_path canon = true /\
  host' = _DZEN_HOST_CANONICAL host.
Proof.
  rewrite match_path_dzen. intros E Hs. ok_step E. cbv zeta in E. destruct (is_nil _); [done|].
  injection E as <- <- <-. apply need_inr in E0. pose proof (dzen_path_id _ _ E0) as Hd. set (media := lower_text _) in *.
  split_and!; [by exists (chars "video/watch/" ++ media)|by apply dzen_path_chars|by apply dzen_embed_forbidden|done].
Qed.

(** Only Dzen has a host of its own for an identity. *)
Lemma match_path_host provider_id host path media canon host' :
  match_path provider_id host path = inr (media, canon, host') ->
  host' = host \/ (provider_id = provider_value DZEN /\ host' = _DZEN_HOST_CANONICAL host).
Proof.
  unfold match_path. intros E.
  destruct (String.eqb_spec provider_id (provider_value VK)) as [->|_]; [ok_step E; left; congruence|].
  destruct (String.eqb_spec provider_id (provider_value RUTUBE)) as [->|_]; [ok_step E; left; congruence|].
  destruct (String.eqb_spec provider_id (provider_value OK)) as [->|_]; [ok_step E; left; congruence|].
  destruct (String.eqb_spec provider_id (provider_value DZEN)) as [->|_]; [|done].
  ok_step E. destruct (is_nil (lower_text _)); [done|]. right. split; congruence.
Qed.

(** ** Host names *)

Record safe_host (host : text) : Prop := {
  safe_chars : forallb host_char host = true;
  safe_lower : lower_text host = host;
  safe_nonempty : host <> [];
  safe_normal : normalize_hostname host = inr host
}.

Lemma safe_match host :
  fullmatch _SAFE_HOST host <> None ->
  forallb safe_char host = true /\
  exists l c, host = l ++ [c] /\ lower_alnum c = true.
Proof.
  destruct (fullmatch _SAFE_HOST host) as [m|] eqn:E; [|done]. intros _. apply fullmatch_spec in E.
  destruct E as (s & t & c1 & -> & (c & -> & Hc & ->) & [Hr|[-> ->]]).
  - destruct Hr as (c2 & (u & v & c3 & -> & (Hu & _ & ->) & (d & -> & Hd & ->)) & ->). split.
    + change (safe_char c && forallb safe_char (u ++ [d]) = true). rewrite forallb_app, Hu.
      cbn [forallb]. unfold safe_char. by rewrite Hc, Hd.
    + exists (c :: u), d. by split.
  - split; [cbn; unfold safe_char; by rewrite Hc|]. by exists [], c.
Qed.

Lemma normalize_hostname_safe hostname host : normalize_hostname hostname = inr host -> safe_host host.
Proof.
  intros E. assert (E' := E). unfold normalize_hostname in E.
  destruct (_ || negb (is_some _)) eqn:E1; [done|]. destruct (_ || has "%"%char _) eqn:E2; [done|].
  injection E as Eh. rewrite Eh in E1, E2. apply orb_false_elim in E1 as [Hn Hm].
  destruct (fullmatch _SAFE_HOST host) eqn:Em; [|done].
  destruct (safe_match host) as [Hc (front & d & Hl & Hd)]; [by rewrite Em|].
  assert (Hlow : lower_text host = host).
  { apply lower_text_id. eapply free_class; [|exact Hc]. clear. all_chars. }
  assert (Hstrip : strip is_space host = host) 
    by (apply strip_id; eapply (free_class safe_char is_space); [|exact Hc]; clear; all_chars).
  assert (Hdots : rstrip_dots host = host).
  { unfold rstrip_dots. rewrite Hl, reverse_snoc. cbn [lstrip].
    assert (Hdd : Ascii.eqb "."%char d = false) by (clear -Hd; revert d Hd; all_chars).
    by rewrite Hdd, reverse_cons, reverse_involutive. }
  split; [|done|by destruct host|].
  - eapply forallb_mono; [|exact Hc]. all_chars.
  - unfold normalize_hostname. rewrite Hstrip, Hlow, Hdots, Hn, Em, E2. done.
Qed.

Lemma dzen_host_safe host : safe_host host -> safe_host (_DZEN_HOST_CANONICAL host).
Proof.
  intros Hh. unfold _DZEN_HOST_CANONICAL. repeat case_bool_decide; [| |done].
  - apply (normalize_hostname_safe (chars "dzen.ru")). by vm_compute.
  - apply (normalize_hostname_safe (chars "zen.yandex.ru")). by vm_compute.
Qed.

(** ** The round trip *)

Lemma rooted_url canon host :
  (exists rest, canon = "/"%char :: rest) -> safe_host host ->
  build_canonical_provider_url host canon = inr (url_of (chars "https") host None canon).
Proof.
  intros [rest Hr] Hh. unfold build_canonical_provider_url, build_public_canonical_url.
  rewrite (safe_normal _ Hh). cbn [err_bind].
  assert (Hs : starts_with ["/"%char] canon = true) by (apply starts_with_spec; by exists rest). rewrite Hs.
  change (lower_text (strip is_space (chars "https"))) with (chars "https").
  rewrite bool_decide_eq_true_2 by set_solver. cbn [negb]. f_equal.
  rewrite <- built_canonical; [|by right|by apply Hh|by exists rest].
  unfold _build_canonical. by rewrite Hr.
Qed.

Lemma canonical_url provider_id media canon host :
  canonical provider_id media canon host -> safe_host host ->
  build_canonical_provider_url host canon = inr (url_of (chars "https") host None canon).
Proof. intros Hc. apply rooted_url, Hc. Qed.

(** Such a URL is parsed as its host and its path. *)
Lemma url_reparse provider_id canon host allowed_hostnames :
  (exists rest, canon = "/"%char :: rest) -> forallb canon_char canon = true -> safe_host host ->
  parse_stable_identity_from_url (url_of (chars "https") host None canon) provider_id allowed_hostnames =
  parse_stable_provider_identity provider_id host canon allowed_hostnames.
Proof.
  intros Hr Hc Hh. unfold parse_stable_identity_from_url. pose proof (canon_path_shape _ Hr Hc) as Hshape.
  rewrite urlparse_built by (done || by right || apply Hh). unfold has_userinfo. cbn [pr_netloc built].
  rewrite has_free, netloc_free by (done || apply Hh || all_chars). cbn [negb pr_scheme built].
  change (lower_text (chars "https")) with (chars "https"). rewrite bool_decide_eq_true_2 by set_solver. cbn [negb].
  rewrite pr_port_built by (done || apply Hh).
  assert (Hhost : pr_hostname (built (chars "https") host None canon) = Some host).
  { unfold pr_hostname. rewrite hostinfo_built by (done || apply Hh). cbn [fst].
    pose proof (safe_nonempty _ Hh). destruct host as [|c l]; [done|].
    rewrite split_free by (eapply free_class; [|apply Hh]; all_chars). by rewrite (safe_lower _ Hh). }
  rewrite Hhost. cbn [pr_path built]. destruct Hr as [rest ->]. done.
Qed.

(** What a rooted path parses as, on a safe host. *)
Lemma rooted_parse provider_id canon host allowed_hostnames :
  (exists rest, canon = "/"%char :: rest) -> safe_host host ->
  parse_stable_provider_identity provider_id host canon allowed_hostnames =
    if negb (bool_decide (host ∈ allowed_hostnames)) then identity_error "HOST_NOT_OWNED"
    else if forbidden_path canon then identity_error "FORBIDDEN_MEDIA_PATH"
    else let? (media_id, canonical_path, host) := match_path provider_id host canon in
         inr {| pi_provider_id := provider_id; pi_media_id := media_id; pi_hostname := host;
                pi_canonical_path := canonical_path |}.
Proof.
  intros [rest ->] Hh. unfold parse_stable_provider_identity. by rewrite (safe_normal _ Hh).
Qed.


(** ** Witnesses *)

Module IdentityExamples.

Definition submitted_identity : StableProviderIdentity :=
  {| pi_provider_id := "ok"; pi_media_id := chars "1234-5"; pi_hostname := chars "m.ok.ru";
     pi_canonical_path := chars "/video/1234-5" |}.

Lemma submitted_parsed :
  parse_stable_provider_identity "ok" (chars " M.OK.ru. ") (chars "/videoembed/1234-5/") ok_hostnames =
  inr submitted_identity.
Proof. by vm_compute. Qed.


(** A Dzen page whose id begins with [embed] is accepted, and the canonical URL
    made of it is refused. *)
Example embed_identity_is_lost :
  parse_stable_provider_identity "dzen" (chars "dzen.ru") (chars "/media/author/title-embed") dzen_hostnames =
    inr {| pi_provider_id := "dzen"; pi_media_id := chars "embed"; pi_hostname := chars "dzen.ru";
           pi_canonical_path := chars "/video/watch/embed" |} /\
  parse_stable_provider_identity "dzen" (chars "dzen.ru") (chars "/video/watch/embed") dzen_hostnames =
    identity_error "FORBIDDEN_MEDIA_PATH".
Proof. by vm_compute. Qed.
End IdentityExamples.
