(* ===== verification/Tokens.v ===== *)
(** Opaque credentials: job access tokens ([jobs/credentials.py]), anonymous
    clients ([quota/tokens.py]) and browser grants
    ([downloads/browser_grant_tokens.py]), and the cookies that carry them
    ([delivery/cookie_parse.py]).

    The three kinds are 32 random bytes in unpadded base64url. The decoder is
    [base64.urlsafe_b64decode] on the texts the callers let through: the 64
    letters of the alphabet, with padding at the end. *)

From S2P Require Export Sha256 Errors.

Local Open Scope string_scope.
Local Open Scope list_scope.
Local Open Scope Z_scope.

(** ** Base64 with the URL-safe alphabet *)

Definition b64_char (n : Z) : ascii :=
  ascii_of_N (Z.to_N (
    if n <? 26 then 65 + n else if n <? 52 then 71 + n else if n <? 62 then n - 4
    else if n =? 62 then 45 else 95)).

Definition b64_index (c : ascii) : option Z :=
  let n := Z.of_N (N_of_ascii c) in
  if (65 <=? n) && (n <=? 90) then Some (n - 65)
  else if (97 <=? n) && (n <=? 122) then Some (n - 71)
  else if (48 <=? n) && (n <=? 57) then Some (n + 4)
  else if n =? 45 then Some 62
  else if n =? 95 then Some 63
  else None.

Definition padding : ascii := "="%char.

(** [base64.urlsafe_b64encode] *)
Fixpoint b64_encode (l : list Z) : list ascii :=
  match l with
  | a :: b :: c :: l =>
      b64_char (a / 4) :: b64_char (a mod 4 * 16 + b / 16) :: b64_char (b mod 16 * 4 + c / 64) ::
      b64_char (c mod 64) :: b64_encode l
  | [a; b] => [b64_char (a / 4); b64_char (a mod 4 * 16 + b / 16); b64_char (b mod 16 * 4); padding]
  | [a] => [b64_char (a / 4); b64_char (a mod 4 * 16); padding; padding]
  | [] => []
  end.

(** [base64.urlsafe_b64decode]; the bits a last letter has to spare are ignored.
    [None] is [binascii.Error]. *)
Fixpoint b64_decode (l : list ascii) : option (list Z) :=
  match l with
  | [] => Some []
  | a :: b :: c :: d :: l =>
      x ← b64_index a; y ← b64_index b;
      if Ascii.eqb d padding && bool_decide (l = []) then
        if Ascii.eqb c padding then Some [x * 4 + y / 16]
        else z ← b64_index c; Some [x * 4 + y / 16; y mod 16 * 16 + z / 4]
      else
        z ← b64_index c; u ← b64_index d; rest ← b64_decode l;
        Some (x * 4 + y / 16 :: y mod 16 * 16 + z / 4 :: z mod 4 * 64 + u :: rest)
  | _ => None
  end.

Definition urlsafe_b64encode (raw : bytes) : list ascii := b64_encode (Z_of_byte <$> raw).
Definition urlsafe_b64decode (l : list ascii) : option bytes :=
  map byte_of_Z <$> b64_decode l.

(** [s.rstrip("=")] *)
Definition rstrip_padding (l : list ascii) : list ascii :=
  reverse (lstrip (Ascii.eqb padding) (reverse l)).

(** ** Tokens *)

Definition TOKEN_BYTES : nat := 32.

(** Source: backend/src/fetchnow/jobs/credentials.py:23-26 [generate_access_token]
    The token of the random bytes [raw]. [generate_grant_token] and
    [generate_anonymous_token] are the same function. *)
Definition generate_token (raw : bytes) : string := of_chars (rstrip_padding (urlsafe_b64encode raw)).

(** Source: backend/src/fetchnow/jobs/credentials.py:15-15 [_ACCESS_TOKEN_RE] *)
Definition token_shape (token : string) : bool :=
  (strlen token =? 43) && all_chars (fun c => is_alnum c || is_one_of "_-" c) token.

(** Why a text is no token. *)
Inductive token_failure :=
| SHAPE
| DECODE
| LENGTH
| NONCANONICAL.

Definition failure_name (f : token_failure) : string :=
  match f with
  | SHAPE => "SHAPE" | DECODE => "DECODE" | LENGTH => "LENGTH" | NONCANONICAL => "NONCANONICAL"
  end.

(** Source: backend/src/fetchnow/jobs/credentials.py:35-59 [parse_access_token]
    The common body of the three parsers. *)
Definition parse_token (token : string) : token_failure + bytes :=
  if negb (token_shape token) then inl SHAPE
  else
    match urlsafe_b64decode (chars token ++ [padding]) with
    | None => inl DECODE
    | Some raw =>
        if negb (Nat.eqb (length raw) TOKEN_BYTES) then inl LENGTH
        else if negb (bool_decide (generate_token raw = token)) then inl NONCANONICAL
        else inr raw
    end.

(** ** Job access tokens *)

(** Source: backend/src/fetchnow/jobs/credentials.py:29-59 [parse_access_token] *)
Definition parse_access_token (token : string) : exn + bytes :=
  match parse_token token with
  | inl f => inl (job_error INVALID_ACCESS_TOKEN ("TOKEN_" ++ failure_name f)%string)
  | inr raw => inr raw
  end.

(** A domain prefix: the text and its final NUL. *)
Definition domain (name : string) : bytes := utf8 name ++ [Byte.x00].

(** Source: backend/src/fetchnow/jobs/credentials.py:62-71 [hash_access_token] *)
Definition hash_access_token (token : string) : exn + bytes :=
  match parse_access_token token with
  | inl e => inl e
  | inr raw =>
      let digest := sha256 (domain "fetchnow:v1:media-job:access" ++ raw) in
      if negb (Nat.eqb (length digest) 32) then inl (job_error JOB_INTERNAL_ERROR "HASH_LENGTH")
      else inr digest
  end.

(** Source: backend/src/fetchnow/jobs/credentials.py:74-97 [hash_request_fingerprint] *)
Definition hash_request_fingerprint (access_token normalized_request : string) : exn + bytes :=
  if bool_decide (normalized_request = "") then inl (job_error JOB_INTERNAL_ERROR "FINGERPRINT_TYPE")
  else
    match parse_access_token access_token with
    | inl e => inl e
    | inr raw =>
        let digest :=
          hmac_sha256 raw (domain "fetchnow:v1:media-job:fingerprint" ++ utf8 normalized_request) in
        if negb (Nat.eqb (length digest) 32) then inl (job_error JOB_INTERNAL_ERROR "HASH_LENGTH")
        else inr digest
    end.

(** ** Browser grants *)

(** Source: backend/src/fetchnow/downloads/browser_grant_tokens.py:34-63 [parse_grant_token] *)
Definition parse_grant_token (token : string) : exn + bytes :=
  match parse_token token with
  | inl f => inl (download_error DOWNLOAD_JOB_NOT_FOUND ("GRANT_TOKEN_" ++ failure_name f)%string)
  | inr raw => inr raw
  end.

(** Source: backend/src/fetchnow/downloads/browser_grant_tokens.py:66-75 [hash_grant_token] *)
Definition hash_grant_token (token : string) : exn + bytes :=
  match parse_grant_token token with
  | inl e => inl e
  | inr raw =>
      let digest := sha256 (domain "fetchnow:v1:browser-delivery-grant" ++ raw) in
      if negb (Nat.eqb (length digest) 32)
      then inl (download_error DOWNLOAD_INTERNAL_ERROR "GRANT_HASH_LENGTH")
      else inr digest
  end.

(** Source: backend/src/fetchnow/downloads/browser_grant_tokens.py:78-86 [grant_hashes_match] *)
Definition grant_hashes_match (left right : bytes) : bool :=
  if negb (Nat.eqb (length left) 32) || negb (Nat.eqb (length right) 32) then false
  else bool_decide (left = right).

(** ** Anonymous clients *)

(** Source: backend/src/fetchnow/quota/tokens.py:25-35 [parse_anonymous_token] *)
Definition parse_anonymous_token (token : string) : option bytes :=
  match parse_token token with
  | inl _ => None
  | inr raw => Some raw
  end.

(** Source: backend/src/fetchnow/quota/tokens.py:38-42 [hash_anonymous_token] *)
Definition hash_anonymous_token (token : string) : option bytes :=
  raw ← parse_anonymous_token token;
  Some (sha256 (domain "fetchnow:v1:anonymous-client" ++ raw)).

(** ** Cookies *)

Definition MAX_COOKIE_HEADER_BYTES : Z := 4096.
Definition MAX_GRANT_TOKEN_CHARS : Z := 43.

Definition has_control (l : list ascii) : bool :=
  char_in "013"%char l || char_in "010"%char l || char_in "000"%char l.

(** [part.strip()], split at the first equals sign into a trimmed name and
    value; a part without one carries no value. *)
Definition cookie_pair (part : list ascii) : option (string * string) :=
  match split_once "="%char (strip is_space part) with
  | (name, Some value) => Some (of_chars (strip is_space name), of_chars (strip is_space value))
  | (_, None) => None
  end.

Definition GRANT_COOKIE_NAME : string := "__Secure-fetchnow_delivery".
Definition ANONYMOUS_COOKIE_NAME : string := "__Host-fetchnow_client".

(** [value.startswith('"') or value.endswith('"')] *)
Definition quoted (value : string) : bool :=
  let l := chars value in
  is_some (strip_prefix ["034"%char] l) || is_some (strip_prefix ["034"%char] (reverse l)).

(** Source: backend/src/fetchnow/delivery/cookie_parse.py:53-77 [_extract]
    The loop over the parts, with the value found so far; [inl] is the reason of
    the [CookieParseError]. *)
Fixpoint scan_grant_cookie (found : option string) (parts : list (list ascii)) : string + string :=
  match parts with
  | [] => match found with None => inl "COOKIE_MISSING" | Some value => inr value end
  | part :: parts =>
      match cookie_pair part with
      | None => scan_grant_cookie found parts
      | Some (name, value) =>
          if negb (bool_decide (name = GRANT_COOKIE_NAME)) then scan_grant_cookie found parts
          else if is_some found then inl "COOKIE_DUPLICATE"
          else if bool_decide (value = "") || (MAX_GRANT_TOKEN_CHARS <? strlen value)
          then inl "COOKIE_VALUE_LENGTH"
          else if quoted value then inl "COOKIE_VALUE_QUOTED"
          else scan_grant_cookie (Some value) parts
      end
  end.

(** Source: backend/src/fetchnow/delivery/cookie_parse.py:42-77 [_extract] *)
Definition extract (cookie_header : option string) : string + string :=
  match cookie_header with
  | None => inl "COOKIE_MISSING"
  | Some cookie_header =>
      if MAX_COOKIE_HEADER_BYTES <? strlen cookie_header then inl "COOKIE_HEADER_TOO_LONG"
      else if has_control (chars cookie_header) then inl "COOKIE_HEADER_CONTROL"
      else scan_grant_cookie None (split_on ";"%char (chars cookie_header))
  end.

(** Source: backend/src/fetchnow/delivery/cookie_parse.py:28-39 [extract_delivery_grant_token] *)
Definition extract_delivery_grant_token (cookie_header : option string) : exn + string :=
  match extract cookie_header with
  | inl reason => inl (download_error DOWNLOAD_JOB_NOT_FOUND reason)
  | inr value => inr value
  end.

(** Source: backend/src/fetchnow/quota/tokens.py:54-67 [extract_anonymous_cookie]
    The loop over the parts; [None] is the early return. *)
Fixpoint scan_anonymous_cookie (found : option string) (parts : list (list ascii))
  : option (option string) :=
  match parts with
  | [] => Some found
  | part :: parts =>
      match cookie_pair part with
      | None => scan_anonymous_cookie found parts
      | Some (name, value) =>
          if negb (bool_decide (name = ANONYMOUS_COOKIE_NAME)) then scan_anonymous_cookie found parts
          else if is_some found then None
          else scan_anonymous_cookie (Some value) parts
      end
  end.

(** Source: backend/src/fetchnow/quota/tokens.py:45-67 [extract_anonymous_cookie] *)
Definition extract_anonymous_cookie (cookie_header : option string) : option string :=
  header ← cookie_header;
  if (MAX_COOKIE_HEADER_BYTES <? strlen header) || has_control (chars header) then None
  else
    found ← scan_anonymous_cookie None (split_on ";"%char (chars header));
    token ← found;
    if is_some (parse_anonymous_token token) then Some token else None.

(** ** Facts *)

Lemma byte_Z b : byte_of_Z (Z_of_byte b) = b.
Proof. unfold byte_of_Z, Z_of_byte. by rewrite N2Z.id, Byte.of_to_N. Qed.

Lemma Z_of_byte_bound b : 0 <= Z_of_byte b < 256.
Proof. unfold Z_of_byte. pose proof (Byte.to_N_bounded b). lia. Qed.

Definition token_char (c : ascii) : bool := is_alnum c || is_one_of "_-" c.

Definition b64_char_ok (n : Z) : bool :=
  bool_decide (b64_index (b64_char n) = Some n) && token_char (b64_char n) &&
  negb (Ascii.eqb (b64_char n) padding).

Lemma b64_char_all : forallb b64_char_ok (Z.of_nat <$> seq 0 64) = true.
Proof. vm_compute. reflexivity. Qed.

Lemma b64_char_spec n :
  0 <= n < 64 ->
  b64_index (b64_char n) = Some n /\ token_char (b64_char n) = true /\
  Ascii.eqb (b64_char n) padding = false.
Proof.
  intros Hn. pose proof b64_char_all as Ha. rewrite forallb_forall in Ha.
  assert (Hin : In n (Z.of_nat <$> seq 0 64)).
  { apply in_map_iff. exists (Z.to_nat n). split; [lia|]. apply in_seq. lia. }
  specialize (Ha n Hin). unfold b64_char_ok in Ha. apply andb_prop in Ha as [[Ha ->]%andb_prop E].
  apply bool_decide_eq_true in Ha. by destruct (Ascii.eqb (b64_char n) padding).
Qed.

(** Eight bits and six bits. *)
Lemma b64_bits a b c :
  0 <= a < 256 -> 0 <= b < 256 -> 0 <= c < 256 ->
  (0 <= a / 4 < 64 /\ 0 <= a mod 4 * 16 + b / 16 < 64 /\ 0 <= b mod 16 * 4 + c / 64 < 64 /\
   0 <= c mod 64 < 64 /\ 0 <= b mod 16 * 4 < 64) /\
  a / 4 * 4 + (a mod 4 * 16 + b / 16) / 16 = a /\
  (a mod 4 * 16 + b / 16) mod 16 * 16 + (b mod 16 * 4 + c / 64) / 4 = b /\
  (a mod 4 * 16 + b / 16) mod 16 * 16 + b mod 16 * 4 / 4 = b /\
  (b mod 16 * 4 + c / 64) mod 4 * 64 + c mod 64 = c.
Proof. intros Ha Hb Hc. Z.to_euclidean_division_equations. lia. Qed.

(** The encoding of [3 n + 2] bytes: letters and one padding character. *)
Lemma b64_encode_spec n l :
  length l = (3 * n + 2)%nat -> Forall (fun x => 0 <= x < 256) l ->
  exists pre, b64_encode l = pre ++ [padding] /\ length pre = (4 * n + 3)%nat /\
              forallb token_char pre = true /\ b64_decode (b64_encode l) = Some l.
Proof.
  revert l. induction n as [|n IH]; intros l Hl HF.
  - destruct l as [|a [|b [|]]]; try discriminate Hl. rewrite !Forall_cons in HF.
    destruct HF as (Ha & Hb & _). destruct (b64_bits a b 0) as ((B1 & B2 & _ & _ & B5) & E1 & _ & E2 & _);
      [done..|].
    destruct (b64_char_spec _ B1) as (I1 & T1 & _), (b64_char_spec _ B2) as (I2 & T2 & _),
      (b64_char_spec _ B5) as (I5 & T5 & P5).
    cbn [b64_encode]. eexists [_; _; _]. split; [done|]. split; [done|].
    split; [cbn [forallb]; by rewrite T1, T2, T5|].
    cbn [b64_decode mbind option_bind]. rewrite I1, I2. cbn [mbind option_bind].
    rewrite Ascii.eqb_refl, P5, I5. cbn. by rewrite E1, E2.
  - destruct l as [|a [|b [|c l]]]; cbn in Hl; try lia. rewrite !Forall_cons in HF.
    destruct HF as (Ha & Hb & Hc & HF).
    destruct (b64_bits a b c) as ((B1 & B2 & B3 & B4 & _) & E1 & E2 & _ & E3); [done..|].
    destruct (IH l) as (pre & E & Hp & Ht & Hd); [lia|done|].
    destruct (b64_char_spec _ B1) as (I1 & T1 & _), (b64_char_spec _ B2) as (I2 & T2 & _),
      (b64_char_spec _ B3) as (I3 & T3 & _), (b64_char_spec _ B4) as (I4 & T4 & P4).
    cbn [b64_encode]. rewrite E. eexists (_ :: _ :: _ :: _ :: pre). split; [done|].
    split; [cbn [length]; lia|]. split; [cbn [forallb]; by rewrite T1, T2, T3, T4|].
    rewrite <- E. cbn [b64_decode]. rewrite I1, I2. cbn [mbind option_bind].
    rewrite P4, I3, I4. cbn [andb mbind option_bind]. rewrite Hd. cbn [mbind option_bind].
    by rewrite E1, E2, E3.
Qed.

Lemma generate_token_spec raw :
  length raw = 32%nat ->
  token_shape (generate_token raw) = true /\
  urlsafe_b64decode (chars (generate_token raw) ++ [padding]) = Some raw.
Proof.
  intros Hl. destruct (b64_encode_spec 10 (Z_of_byte <$> raw)) as (pre & E & Hp & Ht & Hd).
  { by rewrite length_fmap. }
  { rewrite Forall_fmap, Forall_forall. intros b _. apply Z_of_byte_bound. }
  assert (Eg : chars (generate_token raw) = pre).
  { unfold generate_token, chars, of_chars. rewrite String.list_ascii_of_string_of_list_ascii.
    unfold rstrip_padding, urlsafe_b64encode. rewrite E, reverse_snoc. cbn [lstrip].
    rewrite Ascii.eqb_refl. rewrite lstrip_id; [apply reverse_involutive|].
    rewrite forallb_forall in *. intros c Hc. rewrite <- list_elem_of_In, elem_of_reverse, list_elem_of_In in Hc.
    specialize (Ht c Hc). destruct (Ascii.eqb_spec padding c) as [<-|]; done. }
  split.
  - unfold token_shape, all_chars. fold (chars (generate_token raw)). rewrite Eg.
    fold token_char. rewrite Ht. unfold strlen. rewrite <- length_list_ascii.
    fold (chars (generate_token raw)). rewrite Eg, Hp. done.
  - rewrite Eg, <- E. unfold urlsafe_b64decode. rewrite Hd. cbn [fmap option_fmap option_map].
    f_equal. clear. induction raw as [|b raw IH]; [done|]. cbn. by rewrite byte_Z, IH.
Qed.

Lemma parse_token_spec token raw :
  parse_token token = inr raw <-> length raw = 32%nat /\ token = generate_token raw.
Proof.
  unfold parse_token. split.
  - destruct (token_shape token); cbn [negb]; [|done].
    destruct (urlsafe_b64decode _) as [r|]; [|done].
    destruct (Nat.eqb_spec (length r) TOKEN_BYTES) as [Hr|]; cbn [negb]; [|done].
    case_bool_decide as Hg; cbn [negb]; [|done]. intros [= ->]. by rewrite Hg.
  - intros [Hl ->]. destruct (generate_token_spec raw Hl) as [-> ->]. cbn [negb].
    rewrite Hl, Nat.eqb_refl. by rewrite bool_decide_eq_true_2.
Qed.

(** A credential has one spelling. Each of the three token parsers - of job
    access tokens, browser grants and anonymous clients - accepts a text as the
    32 bytes [raw] exactly when it is the token generated from these bytes:
    every generated token is read back as its bytes, and no other text, such as
    one with other spare bits, is accepted in its place. *)
Theorem tokens_are_canonical token raw :
  (parse_access_token token = inr raw <-> length raw = 32%nat /\ token = generate_token raw) /\
  (parse_grant_token token = inr raw <-> length raw = 32%nat /\ token = generate_token raw) /\
  (parse_anonymous_token token = Some raw <-> length raw = 32%nat /\ token = generate_token raw).
Proof.
  rewrite <- parse_token_spec. unfold parse_access_token, parse_grant_token, parse_anonymous_token.
  destruct (parse_token token); split_and!; split; congruence.
Qed.

(** The values a header gives for a cookie name. *)
Definition cookie_values (name header : string) : list string :=
  omap (fun part =>
    '(n, value) ← cookie_pair part; if bool_decide (n = name) then Some value else None)
    (split_on ";"%char (chars header)).

Definition grant_value_ok (value : string) : bool :=
  negb (bool_decide (value = "")) && (strlen value <=? MAX_GRANT_TOKEN_CHARS) && negb (quoted value).

Lemma scan_grant_cookie_spec parts found value :
  scan_grant_cookie found parts = inr value <->
  let given := omap (fun part =>
    '(n, v) ← cookie_pair part; if bool_decide (n = GRANT_COOKIE_NAME) then Some v else None) parts in
  forallb grant_value_ok given = true /\ option_list found ++ given = [value].
Proof.
  revert found. induction parts as [|part parts IH]; intros found; cbn.
  - destruct found as [u|]; cbn; split.
    + by intros [= ->].
    + by intros [_ [= ->]].
    + done.
    + by intros [_ ?].
  - destruct (cookie_pair part) as [[n v]|]; cbn; [|apply IH].
    case_bool_decide; cbn; [|apply IH].
    destruct found as [u|]; cbn.
    { split; [done|]. intros [_ E]. by destruct (omap _ parts). }
    unfold grant_value_ok at 1. rewrite Z.leb_antisym.
    case_bool_decide; cbn; [by split; [|intros [[=] _]]|].
    destruct (MAX_GRANT_TOKEN_CHARS <? strlen v); cbn; [by split; [|intros [[=] _]]|].
    destruct (quoted v); cbn; [by split; [|intros [[=] _]]|]. rewrite IH. done.
Qed.

Lemma scan_anonymous_cookie_spec parts found value :
  scan_anonymous_cookie found parts = Some (Some value) <->
  option_list found ++ omap (fun part =>
    '(n, v) ← cookie_pair part; if bool_decide (n = ANONYMOUS_COOKIE_NAME) then Some v else None)
    parts = [value].
Proof.
  revert found. induction parts as [|part parts IH]; intros found; cbn.
  - destruct found; cbn; naive_solver.
  - destruct (cookie_pair part) as [[n v]|]; cbn; [|apply IH].
    case_bool_decide; cbn; [|apply IH]. destruct found as [u|]; cbn; [|apply IH].
    split; [done|]. intros E. by destruct (omap _ parts).
Qed.

Definition header_ok (header : string) : bool :=
  (strlen header <=? MAX_COOKIE_HEADER_BYTES) && negb (has_control (chars header)).

(** A cookie never leaves a choice between credentials. A grant token is
    taken from a Cookie header exactly when the header is within bounds and gives
    the grant cookie one single value, which is not empty, not too long and not
    quoted; the identity of a client exactly when it gives the client cookie one
    single value that is a canonical token. Other cookies do not matter. *)
Theorem cookies_are_unambiguous header value :
  (extract_delivery_grant_token (Some header) = inr value <->
   header_ok header = true /\ cookie_values GRANT_COOKIE_NAME header = [value] /\
   grant_value_ok value = true) /\
  (extract_anonymous_cookie (Some header) = Some value <->
   header_ok header = true /\ cookie_values ANONYMOUS_COOKIE_NAME header = [value] /\
   exists raw, length raw = 32%nat /\ value = generate_token raw).
Proof.
  unfold header_ok. rewrite Z.leb_antisym. split.
  - unfold extract_delivery_grant_token, extract.
    destruct (MAX_COOKIE_HEADER_BYTES <? strlen header); cbn [negb andb]; [by split; [|intros [[=] _]]|].
    destruct (has_control _); cbn [negb]; [by split; [|intros [[=] _]]|].
    pose proof (scan_grant_cookie_spec (split_on ";"%char (chars header)) None value) as Hs.
    cbn in Hs. fold (cookie_values GRANT_COOKIE_NAME header) in Hs.
    transitivity (scan_grant_cookie None (split_on ";"%char (chars header)) = inr value).
    { destruct (scan_grant_cookie _ _); split; congruence. }
    rewrite Hs. split.
    + intros [Hv Hg]. rewrite Hg in Hv |- *. cbn in Hv. rewrite andb_true_r in Hv. done.
    + intros (_ & Hg & Hv). rewrite Hg. cbn. by rewrite Hv.
  - unfold extract_anonymous_cookie. cbn [mbind option_bind].
    destruct (MAX_COOKIE_HEADER_BYTES <? strlen header); cbn [negb andb orb]; [by split; [|intros [[=] _]]|].
    destruct (has_control _); cbn [negb]; [by split; [|intros [[=] _]]|].
    pose proof (scan_anonymous_cookie_spec (split_on ";"%char (chars header)) None) as Hs.
    cbn in Hs. fold (cookie_values ANONYMOUS_COOKIE_NAME header) in Hs.
    assert (Hp : forall t, is_some (parse_anonymous_token t) = true <->
        exists raw, length raw = 32%nat /\ t = generate_token raw).
    { intros t. setoid_rewrite <- parse_token_spec. unfold parse_anonymous_token.
      destruct (parse_token t) as [|raw]; cbn; split; try done; [by intros []|eauto]. }
    rewrite <- Hp, <- Hs. clear Hp Hs.
    destruct (scan_anonymous_cookie None _) as [[t|]|]; cbn.
    + destruct (is_some (parse_anonymous_token t)) eqn:Et.
      * split; [by intros [= <-]|by intros (_ & [= ->] & _)].
      * split; [done|intros (_ & [= ->] & E); congruence].
    + by split; [|intros (_ & [=] & _)].
    + by split; [|intros (_ & [=] & _)].
Qed.
