(* ===== verification/Floats.v ===== *)
(** Python's floats (IEEE binary64), from the Standard Library's specification of
    floating-point arithmetic, and a stable sort on tuple keys. *)

From Stdlib Require Export Floats.SpecFloat.
From S2P Require Export Errors.

Local Open Scope list_scope.
Local Open Scope Z_scope.

(** ** binary64 *)

Abbreviation float := spec_float (only parsing).
Definition prec : Z := 53.
Definition emax : Z := 1024.

Definition fl_mul (x y : float) : float := SFmul prec emax x y.
Definition fl_div (x y : float) : float := SFdiv prec emax x y.

(** [float(n)] rounds to the nearest; beyond the range Python raises
    [OverflowError]. *)
Definition fl_of_Z (n : Z) : float := binary_normalize prec emax n 0 false.

(** [math.isfinite(x)] *)
Definition fl_finite (x : float) : bool :=
  match x with S754_zero _ | S754_finite _ _ _ => true | _ => false end.

Definition float_of_int (n : Z) : exn + float :=
  if fl_finite (fl_of_Z n) then inr (fl_of_Z n) else inl UnexpectedError.

(** The nearest float of a decimal number, as [json.loads] reads one. *)
Definition fl_of_decimal (mantissa : Z) (digits : N) : float :=
  match mantissa with
  | Z0 => S754_zero false
  | Zpos m => fl_div (S754_finite false m 0) (S754_finite false (Z.to_pos (10 ^ Z.of_N digits)) 0)
  | Zneg m => fl_div (S754_finite true m 0) (S754_finite false (Z.to_pos (10 ^ Z.of_N digits)) 0)
  end.

Definition fl_eqb : float -> float -> bool := SFeqb.
Definition fl_ltb : float -> float -> bool := SFltb.
Definition fl_leb : float -> float -> bool := SFleb.

(** [a - b] *)
Definition fl_sub (a b : float) : float := SFsub prec emax a b.

(** [max(a, b)] and [min(a, b)] of two floats: the first unless the second beats it. *)
Definition fl_max (a b : float) : float := if fl_ltb a b then b else a.
Definition fl_min (a b : float) : float := if fl_ltb b a then b else a.

Definition signed (s : bool) (n : Z) : Z := if s then - n else n.

(** [int(x)] of a finite float: towards zero. *)
Definition fl_trunc (x : float) : Z :=
  match x with
  | S754_finite s m e => signed s (if 0 <=? e then Zpos m * 2 ^ e else Zpos m / 2 ^ (- e))
  | _ => 0
  end.

(** [round(x)] of a finite float: to the nearest integer, ties to even. *)
Definition fl_round (x : float) : Z :=
  match x with
  | S754_finite s m e =>
      signed s
        (if 0 <=? e then Zpos m * 2 ^ e
         else
           let q := Zpos m / 2 ^ (- e) in
           let r := Zpos m mod 2 ^ (- e) in
           match 2 * r ?= 2 ^ (- e) with
           | Lt => q
           | Gt => q + 1
           | Eq => if Z.even q then q else q + 1
           end)
  | _ => 0
  end.

(** [x == n] for an integer [n]: by value. *)
Definition fl_is_int (x : float) (n : Z) : bool :=
  match x with
  | S754_zero _ => n =? 0
  | S754_finite s m e => if 0 <=? e then signed s (Zpos m * 2 ^ e) =? n else signed s (Zpos m) =? n * 2 ^ (- e)
  | _ => false
  end.

Definition fl_int (n : Z) : float := fl_of_Z n.

Lemma fl_eqb_refl x : fl_finite x = true -> fl_eqb x x = true.
Proof.
  unfold fl_eqb, SFeqb. destruct x as [[]|s| |s m e]; try done. intros _. cbn.
  rewrite Z.compare_refl, Pos.compare_cont_refl. by destruct s.
Qed.

Example tenth : fl_of_decimal 1 1 = S754_finite false 7205759403792794 (-56).
Proof. by vm_compute. Qed.
Example third : fl_div (fl_of_Z 1) (fl_of_Z 3) = S754_finite false 6004799503160661 (-54).
Proof. by vm_compute. Qed.

(** ** Sorting by tuples *)

(** A component of a sort key. *)
Inductive atom := KInt (n : Z) | KStr (s : string).

Definition atom_compare (a b : atom) : comparison :=
  match a, b with
  | KInt m, KInt n => m ?= n
  | KStr s, KStr t => String.compare s t
  | KInt _, KStr _ => Lt
  | KStr _, KInt _ => Gt
  end.

(** [a < b] for tuples. *)
Fixpoint key_ltb (a b : list atom) : bool :=
  match a, b with
  | [], [] => false
  | [], _ :: _ => true
  | _ :: _, [] => false
  | x :: a, y :: b =>
      match atom_compare x y with
      | Lt => true
      | Gt => false
      | Eq => key_ltb a b
      end
  end.

Section Sort.
Context {A : Type} (key : A -> list atom).

Fixpoint insert_sorted (x : A) (l : list A) : list A :=
  match l with
  | [] => [x]
  | y :: l' => if key_ltb (key x) (key y) then x :: l else y :: insert_sorted x l'
  end.

(** [sorted(l, key=key)]: elements with equal keys keep their order. *)
Definition sort_by (l : list A) : list A := fold_left (fun acc x => insert_sorted x acc) l [].

Lemma insert_sorted_perm x l : insert_sorted x l ≡ₚ x :: l.
Proof.
  induction l as [|y l IH]; [done|]. cbn. destruct (key_ltb _ _); [done|]. rewrite IH. apply Permutation_swap.
Qed.

Lemma sort_by_perm l : sort_by l ≡ₚ l.
Proof.
  unfold sort_by. assert (H : forall acc, fold_left (fun acc x => insert_sorted x acc) l acc ≡ₚ acc ++ l).
  { induction l as [|x l IH]; intros acc; cbn; [by rewrite app_nil_r|].
    rewrite IH, insert_sorted_perm. apply Permutation_middle. }
  apply H.
Qed.

Lemma elem_of_sort_by x l : x ∈ sort_by l <-> x ∈ l.
Proof. by rewrite sort_by_perm. Qed.
End Sort.
