(* ===== verification/Json.v ===== *)
(** JSON documents as Python holds them, their equality and [json.dumps]. *)

From S2P Require Export Floats.

Local Open Scope string_scope.
Local Open Scope list_scope.
Local Open Scope Z_scope.

(** ** Documents

    What a JSONB column reads back as: dictionaries with string keys, lists and
    scalars. *)
#[warnings="-register-all"]
Inductive Json :=
| JNull
| JBool (b : bool)
| JInt (z : Z)
| JFloat (x : float)
| JStr (s : string)
| JArr (l : list Json)
| JObj (members : list (string * Json)).

(** [dict.get(key)] on a decoded object. *)
Definition json_get (key : string) (members : list (string * Json)) : option Json :=
  snd <$> find (fun kv => bool_decide (kv.1 = key)) members.

Definition int_of_bool (b : bool) : Z := if b then 1 else 0.

(** Python equality of decoded documents: numbers compare by value, objects are
    equal when they have the same keys with equal values, in any order. *)
Fixpoint json_eqb (a b : Json) {struct a} : bool :=
  match a, b with
  | JNull, JNull => true
  | JBool x, JBool y => Bool.eqb x y
  | JInt x, JInt y => x =? y
  | JFloat x, JFloat y => fl_eqb x y
  | JInt x, JFloat y => fl_is_int y x
  | JFloat x, JInt y => fl_is_int x y
  | JBool x, JInt y => int_of_bool x =? y
  | JInt x, JBool y => x =? int_of_bool y
  | JBool x, JFloat y => fl_is_int y (int_of_bool x)
  | JFloat x, JBool y => fl_is_int x (int_of_bool y)
  | JStr x, JStr y => bool_decide (x = y)
  | JArr l, JArr m =>
      (fix go (l m : list Json) : bool :=
         match l, m with
         | [], [] => true
         | x :: l', y :: m' => json_eqb x y && go l' m'
         | _, _ => false
         end) l m
  | JObj l, JObj m =>
      Nat.eqb (length l) (length m) &&
      (fix go (l : list (string * Json)) : bool :=
         match l with
         | [] => true
         | (k, x) :: l' =>
             match json_get k m with
             | Some y => json_eqb x y
             | None => false
             end && go l'
         end) l
  | _, _ => false
  end.

(** ** [repr] of a float: the shortest numeral that reads back as it *)

(** The nearest float of [d * 10 ^ p]. *)
Definition fl_of_scientific (d p : Z) : float :=
  if 0 <=? p then fl_of_Z (d * 10 ^ p) else fl_of_decimal d (Z.to_N (- p)).

(** [n / d] to the nearest integer, ties to even. *)
Definition div_round (n d : Z) : Z :=
  let q := n / d in
  match 2 * (n mod d) ?= d with
  | Lt => q
  | Gt => q + 1
  | Eq => if Z.even q then q else q + 1
  end.

Section Repr.
Context (m : positive) (e : Z).

Let x : float := S754_finite false m e.

(** [m * 2 ^ e * 10 ^ p] as a fraction. *)
Definition scaled_num (p : Z) : Z := Zpos m * 2 ^ Z.max 0 e * 10 ^ Z.max 0 p.
Definition scaled_den (p : Z) : Z := 2 ^ Z.max 0 (- e) * 10 ^ Z.max 0 (- p).

(** The position of the decimal point: [0.d1d2... * 10 ^ decpt]. *)
Definition decimal_point : Z :=
  let guess := (Z.log2 (Zpos m) + e) * 30103 / 100000 in
  let below p := scaled_num (- p) <? scaled_den (- p) in
  if below guess then guess else if below (guess + 1) then guess + 1 else guess + 2.

(** The first number of digits from [n] on, up to 17, that suffices. *)
Fixpoint shortest (fuel : nat) (n : Z) : Z * Z :=
  let p := decimal_point - n in
  let d := div_round (scaled_num (- p)) (scaled_den (- p)) in
  match fuel with
  | O => (d, p)
  | S fuel =>
      if fl_eqb (fl_of_scientific d p) x then (d, p)
      else if fl_eqb (fl_of_scientific (d + 1) p) x then (d + 1, p)
      else shortest fuel (n + 1)
  end.
End Repr.

Definition zeros (n : Z) : list ascii := repeat "0"%char (Z.to_nat n).

Definition repr_digits (ds : list ascii) (decpt : Z) : list ascii :=
  let n := Z.of_nat (length ds) in
  if (-4 <? decpt) && (decpt <=? 16) then
    if decpt <=? 0 then chars "0." ++ zeros (- decpt) ++ ds
    else if n <=? decpt then ds ++ zeros (decpt - n) ++ chars ".0"
    else take (Z.to_nat decpt) ds ++ "."%char :: drop (Z.to_nat decpt) ds
  else
    let exp := decpt - 1 in
    take 1 ds ++ (if n =? 1 then [] else "."%char :: drop 1 ds) ++
    (if exp <? 0 then chars "e-" else chars "e+") ++
    (if Z.abs exp <? 10 then ["0"%char] else []) ++ numeral (Z.abs exp).

(** [float.__repr__] *)
Definition repr_float (x : float) : list ascii :=
  match x with
  | S754_nan => chars "nan"
  | S754_infinity s => if s then chars "-inf" else chars "inf"
  | S754_zero s => if s then chars "-0.0" else chars "0.0"
  | S754_finite s m e =>
      let '(d, p) := shortest m e 16 1 in
      let ds := numeral d in
      (if s then ["-"%char] else []) ++
      repr_digits (reverse (lstrip (Ascii.eqb "0") (reverse ds))) (p + Z.of_nat (length ds))
  end.

(** ** [json.dumps(payload, ensure_ascii=False, separators=(",", ":"))] *)

Definition escape_char (c : ascii) : list ascii :=
  if Ascii.eqb c "034" then ["\"%char; "034"%char]
  else if Ascii.eqb c "\" then ["\"%char; "\"%char]
  else if Ascii.eqb c "010" then chars "\n"
  else if Ascii.eqb c "013" then chars "\r"
  else if Ascii.eqb c "009" then chars "\t"
  else if Ascii.eqb c "012" then chars "\f"
  else if Ascii.eqb c "008" then chars "\b"
  else if in_range 0 31 c then chars "\u" ++ hex_fixed 4 (Z.of_N (N_of_ascii c))
  else [c].

Definition dump_string (s : string) : list ascii :=
  "034"%char :: (chars s ≫= escape_char) ++ ["034"%char].

Definition dump_float (x : float) : list ascii :=
  match x with
  | S754_nan => chars "NaN"
  | S754_infinity s => if s then chars "-Infinity" else chars "Infinity"
  | _ => repr_float x
  end.

(** [sep.join(parts)] *)
Fixpoint join_with (sep : ascii) (parts : list (list ascii)) : list ascii :=
  match parts with
  | [] => []
  | [p] => p
  | p :: parts => p ++ sep :: join_with sep parts
  end.

Fixpoint json_dumps (j : Json) : list ascii :=
  match j with
  | JNull => chars "null"
  | JBool b => chars (if b then "true" else "false")
  | JInt n => chars (py_str n)
  | JFloat x => dump_float x
  | JStr s => dump_string s
  | JArr l => "["%char :: join_with "," (json_dumps <$> l) ++ ["]"%char]
  | JObj l => "{"%char :: join_with "," ((fun kv => dump_string kv.1 ++ ":"%char :: json_dumps kv.2) <$> l) ++ ["}"%char]
  end.

(** Source: backend/src/fetchnow/downloads/snapshot_codec.py:113-116 [_json_byte_size]
    The length in UTF-8. *)
Definition json_byte_size (payload : Json) : Z :=
  fold_left (fun n c => n + (if in_range 0 127 c then 1 else 2)) (json_dumps payload) 0.

Example dumps_example :
  of_chars ((fun c => if Ascii.eqb c "034" then "'"%char else c) <$>
    json_dumps (JObj [("a", JFloat (fl_of_decimal 2997 2)); ("b", JArr [JInt (-1); JNull; JBool true; JStr "x"])])) =
  "{'a':29.97,'b':[-1,null,true,'x']}".
Proof. by vm_compute. Qed.
