(* ===== verification/ByteProgress.v ===== *)
(** The download percentage (downloads/byte_progress.py): what is computed from
    the observed bytes, and the gate that decides which values are written.

    The clock of a gate is the stream of its readings. [persist] is an effectful
    callback; [ingest] never raises here but returns the exception of [persist],
    with the gate as the exception leaves it. *)

From S2P Require Export Floats.

Local Open Scope list_scope.
Local Open Scope Z_scope.

(** Source: backend/src/fetchnow/downloads/byte_progress.py:17-18 [PROGRESS_PERCENT_MIN] *)
Definition PROGRESS_PERCENT_MIN : Z := 0.
Definition PROGRESS_PERCENT_MAX : Z := 99.
(** Source: backend/src/fetchnow/downloads/byte_progress.py:19-21 [PROGRESS_WRITE_INTERVAL_SECONDS] *)
Definition PROGRESS_WRITE_INTERVAL_SECONDS : float := fl_of_decimal 5 1.
Definition PROGRESS_BACKOFF_INITIAL_SECONDS : float := fl_of_decimal 5 1.
Definition PROGRESS_BACKOFF_MAX_SECONDS : float := fl_int 8.

(** Source: backend/src/fetchnow/downloads/byte_progress.py:24-44 [progress_percent] *)
Definition progress_percent (observed_bytes : Z) (expected_bytes previous : option Z) : option Z :=
  match expected_bytes with
  | None => None
  | Some expected =>
      if expected <=? 0 then None
      else
        let observed := Z.max 0 observed_bytes in
        let raw := (observed * 100) / expected in
        let bounded := Z.min PROGRESS_PERCENT_MAX (Z.max PROGRESS_PERCENT_MIN raw) in
        match previous with
        | None => Some bounded
        | Some previous => Some (Z.max previous bounded)
        end
  end.

(** Source: backend/src/fetchnow/downloads/byte_progress.py:47-66 [should_persist_percent] *)
Definition should_persist_percent (candidate stored : option Z) (elapsed_seconds min_interval_seconds : float) : bool :=
  match candidate, stored with
  | None, _ => false
  | Some candidate, Some stored =>
      if candidate <=? stored then false else fl_leb min_interval_seconds elapsed_seconds
  | Some _, None => true
  end.

Module ProgressPersistGate.

(** Source: backend/src/fetchnow/downloads/byte_progress.py:79-98 [ProgressPersistGate.__init__] *)
Record t := {
  _clock : nat -> float;
  readings : nat;
  _min_interval : float;
  _backoff_initial : float;
  _backoff_max : float;
  _backoff : float;
  max_observed_percent : option Z;
  last_persisted_percent : option Z;
  last_persist_attempt_at : option float;
  last_successful_write_at : option float;
  ownership_lost : bool;
  observed_sample_count : nat;
  persisted_update_count : nat
}.

#[export] Instance t_eta : Eta t := fun g =>
  {| _clock := _clock g; readings := readings g; _min_interval := _min_interval g;
     _backoff_initial := _backoff_initial g; _backoff_max := _backoff_max g; _backoff := _backoff g;
     max_observed_percent := max_observed_percent g; last_persisted_percent := last_persisted_percent g;
     last_persist_attempt_at := last_persist_attempt_at g; last_successful_write_at := last_successful_write_at g;
     ownership_lost := ownership_lost g; observed_sample_count := observed_sample_count g;
     persisted_update_count := persisted_update_count g |}.

(** Source: backend/src/fetchnow/downloads/byte_progress.py:79-98 [ProgressPersistGate.__init__]
    With the default intervals. *)
Definition new (clock : nat -> float) : t := {|
  _clock := clock; readings := 0;
  _min_interval := PROGRESS_WRITE_INTERVAL_SECONDS;
  _backoff_initial := PROGRESS_BACKOFF_INITIAL_SECONDS;
  _backoff_max := PROGRESS_BACKOFF_MAX_SECONDS;
  _backoff := PROGRESS_BACKOFF_INITIAL_SECONDS;
  max_observed_percent := None; last_persisted_percent := None;
  last_persist_attempt_at := None; last_successful_write_at := None;
  ownership_lost := false; observed_sample_count := 0; persisted_update_count := 0
|}.

(** [self._clock()] *)
Definition now (g : t) : float * t := (_clock g (readings g), g <| readings := S (readings g) |>).

(** Source: backend/src/fetchnow/downloads/byte_progress.py:112-118 [mark_persisted] *)
Definition mark_persisted (percent : Z) (g : t) : t :=
  let '(at_, g) := now g in
  g <| last_persisted_percent := Some percent |>
    <| last_successful_write_at := Some at_ |>
    <| last_persist_attempt_at := Some at_ |>
    <| _backoff := _backoff_initial g |>
    <| persisted_update_count := S (persisted_update_count g) |>.

(** Source: backend/src/fetchnow/downloads/byte_progress.py:120-123 [mark_attempt_failed] *)
Definition mark_attempt_failed (g : t) : t :=
  let '(at_, g) := now g in
  let doubled := fl_mul (fl_max (_backoff g) (_backoff_initial g)) (fl_int 2) in
  g <| last_persist_attempt_at := Some at_ |>
    <| _backoff := fl_min doubled (_backoff_max g) |>.

(** Source: backend/src/fetchnow/downloads/byte_progress.py:125-126 [mark_ownership_lost] *)
Definition mark_ownership_lost (g : t) : t := g <| ownership_lost := true |>.

(** Source: backend/src/fetchnow/downloads/byte_progress.py:202-205 [_throttle_elapsed] *)
Definition _throttle_elapsed (g : t) : float * t :=
  match last_successful_write_at g with
  | None => (_min_interval g, g)
  | Some last => let '(at_, g) := now g in (fl_sub at_ last, g)
  end.

(** Source: backend/src/fetchnow/downloads/byte_progress.py:207-215 [_in_backoff] *)
Definition _in_backoff (g : t) : bool * t :=
  match last_persist_attempt_at g with
  | None => (false, g)
  | Some attempt =>
      if match last_successful_write_at g with Some last => fl_leb attempt last | None => false end
      then (false, g)
      else let '(at_, g) := now g in (fl_ltb (fl_sub at_ attempt) (_backoff g), g)
  end.

(** Source: backend/src/fetchnow/downloads/byte_progress.py:190-200 [_should_attempt_persist] *)
Definition _should_attempt_persist (g : t) : bool * t :=
  if ownership_lost g then (false, g)
  else
    let '(elapsed, g) := _throttle_elapsed g in
    if negb (should_persist_percent (max_observed_percent g) (last_persisted_percent g) elapsed (_min_interval g))
    then (false, g)
    else let '(backing_off, g) := _in_backoff g in (negb backing_off, g).

(** Source: backend/src/fetchnow/downloads/byte_progress.py:100-110 [note_observed] *)
Definition note_observed (candidate : option Z) (g : t) : option Z * t :=
  match ownership_lost g, candidate with
  | false, Some candidate =>
      let g := g <| max_observed_percent :=
                   Some (match max_observed_percent g with None => candidate | Some m => Z.max m candidate end) |> in
      let '(attempt, g) := _should_attempt_persist g in
      (if attempt then max_observed_percent g else None, g)
  | _, _ => (None, g)
  end.

(** Source: backend/src/fetchnow/downloads/byte_progress.py:154-179 [ingest]
    The value to write, if any. *)
Definition to_write (observed_bytes : Z) (expected_bytes : option Z) (force : bool) (g : t) : option Z * t :=
  if ownership_lost g then (None, g)
  else
    let g := g <| observed_sample_count := S (observed_sample_count g) |> in
    let candidate := progress_percent observed_bytes expected_bytes (max_observed_percent g) in
    if force then
      match candidate with
      | None => (None, g)
      | Some candidate =>
          let value := match max_observed_percent g with None => candidate | Some m => Z.max m candidate end in
          let g := g <| max_observed_percent := Some value |> in
          match last_persisted_percent g with
          | Some last => if value <=? last then (None, g) else (Some value, g)
          | None => (Some value, g)
          end
      end
    else note_observed candidate g.

Section Ingest.
Context {S E : Type} (is_exception : E -> bool) (persist : Z -> M S E bool).

(** Source: backend/src/fetchnow/downloads/byte_progress.py:137-188 [ingest]
    [is_exception]: what [except Exception] catches. *)
Definition ingest (observed_bytes : Z) (expected_bytes : option Z) (force : bool) (g : t) : M S E (t * (E + unit)) :=
  let '(value, g) := to_write observed_bytes expected_bytes force g in
  match value with
  | None => ret (g, inr tt)
  | Some value => fun s =>
      match persist value s with
      | (inr true, s) => (inr (mark_persisted value g, inr tt), s)
      | (inr false, s) => (inr (mark_ownership_lost g, inr tt), s)
      | (inl e, s) => (inr (if is_exception e then mark_attempt_failed g else g, inl e), s)
      end
  end.

(** The samples of one stage: observed bytes, and whether the sample is forced. *)
Fixpoint ingest_all (expected_bytes : option Z) (samples : list (Z * bool)) (g : t) : M S E t :=
  match samples with
  | [] => ret g
  | (observed_bytes, force) :: samples =>
      let* (g, _) := ingest observed_bytes expected_bytes force g in
      ingest_all expected_bytes samples g
  end.
End Ingest.
End ProgressPersistGate.

(** ** What is written *)

Lemma percent_range observed expected previous p :
  progress_percent observed expected previous = Some p ->
  (forall m, previous = Some m -> 0 <= m <= 99) ->
  0 <= p <= 99 /\ (forall m, previous = Some m -> m <= p).
Proof.
  unfold progress_percent, PROGRESS_PERCENT_MIN, PROGRESS_PERCENT_MAX.
  destruct expected as [e|]; [|done]. destruct (e <=? 0) eqn:He; [done|].
  destruct previous as [m|]; intros [= <-] Hm; [|split; [lia|done]].
  specialize (Hm m eq_refl). split; [lia|]. intros ? [= <-]. lia.
Qed.

(** The percentage is the floor of the share of the expected bytes, up to 99. *)
Lemma percent_floor observed expected : 0 <= observed -> 0 < expected ->
  exists p, progress_percent observed (Some expected) None = Some p /\
    p = Z.min 99 (observed * 100 / expected) /\
    (p < 99 -> p * expected <= observed * 100 < (p + 1) * expected).
Proof.
  intros Ho He. unfold progress_percent, PROGRESS_PERCENT_MIN, PROGRESS_PERCENT_MAX.
  rewrite (proj2 (Z.leb_gt _ _) He), (Z.max_r 0 observed) by done. eexists. split; [done|].
  pose proof (Z.div_pos (observed * 100) expected ltac:(lia) He).
  pose proof (Z.mul_div_le (observed * 100) expected He).
  pose proof (Z.mul_succ_div_gt (observed * 100) expected He). split; [lia|]. intros Hp.
  rewrite Z.max_r in * by lia. rewrite Z.min_r in * by lia. lia.
Qed.

Lemma increasing_length lo hi (l : list Z) :
  StronglySorted Z.lt l -> Forall (fun p => lo <= p <= hi) l -> lo <= hi + 1 -> Z.of_nat (length l) <= hi - lo + 1.
Proof.
  revert lo. induction l as [|p l IH]; intros lo Hs Hl Hb; cbn [length]; [lia|].
  inversion_clear Hs as [|? ? Hs' Hp]. inversion_clear Hl as [|? ? Hpl Hl'].
  assert (Z.of_nat (length l) <= hi - (p + 1) + 1); [|lia].
  apply IH; [done| |lia]. rewrite Forall_forall in *. intros x Hx. specialize (Hp x Hx). specialize (Hl' x Hx). lia.
Qed.

Module ProgressGateTheorems.
Import ProgressPersistGate.

Section Gate.
Context {E : Type} (is_exception : E -> bool) (answers : nat -> E + bool).

(** A database that answers the writes in order; its state is the list of what
    was asked for. *)
Definition recorded (percent : Z) : M (list Z) E bool := fun calls => (answers (length calls), calls ++ [percent]).

(** The writes that were confirmed. *)
Definition confirmed (calls : list Z) : list Z :=
  omap (fun ip => match answers ip.1 with inr true => Some ip.2 | _ => None end) (imap pair calls).

(** What holds of the calls when [last] is the last confirmed percentage. *)
Record calls_inv (last : option Z) (lost : bool) (calls : list Z) : Prop := {
  ci_calls : Forall (fun p => 0 <= p <= 99) calls;
  ci_sorted : StronglySorted Z.lt (confirmed calls);
  ci_last : match last with
            | None => confirmed calls = []
            | Some m => Forall (fun p => p <= m) (confirmed calls)
            end;
  ci_beyond : forall i p q, calls !! i = Some q -> p ∈ confirmed (take i calls) -> p < q;
  ci_owned : lost = false -> forall i, (i < length calls)%nat -> answers i <> inr false;
  ci_lost : forall i, (S i < length calls)%nat -> answers i <> inr false
}.

Definition gate_inv (g : t) (calls : list Z) : Prop :=
  (forall m, max_observed_percent g = Some m -> 0 <= m <= 99) /\
  calls_inv (last_persisted_percent g) (ownership_lost g) calls.

Lemma confirmed_snoc calls p : confirmed (calls ++ [p]) =
  confirmed calls ++ match answers (length calls) with inr true => [p] | _ => [] end.
Proof.
  unfold confirmed. rewrite imap_app, omap_app. f_equal. cbn.
  rewrite Nat.add_0_r. by destruct (answers (length calls)) as [|[]].
Qed.

Lemma should_attempt_keeps g b g' : _should_attempt_persist g = (b, g') ->
  max_observed_percent g' = max_observed_percent g /\ last_persisted_percent g' = last_persisted_percent g /\
  ownership_lost g' = ownership_lost g /\
  (b = true -> forall v m, max_observed_percent g = Some v -> last_persisted_percent g = Some m -> m < v).
Proof.
  unfold _should_attempt_persist, _throttle_elapsed, _in_backoff, now, should_persist_percent.
  destruct (ownership_lost g) eqn:Eo; [by intros [= <- <-]|].
  destruct g as [ck rd mi bi bm bo mo lp la ls ol oc pc]; cbn in *.
  destruct mo as [v|], lp as [m|], ls as [t1|], la as [t2|]; cbn; try destruct (Z.leb_spec v m); cbn;
    repeat match goal with |- context [if ?c then _ else _] => destruct c; cbn end;
    intros [= <- <-]; split_and!; try done; intros; by simplify_eq.
Qed.

(** What is to be written is new, in range and the most that was observed. *)
Lemma to_write_spec observed expected force g v g' :
  (forall m, max_observed_percent g = Some m -> 0 <= m <= 99) ->
  to_write observed expected force g = (v, g') ->
  (forall m, max_observed_percent g' = Some m -> 0 <= m <= 99) /\
  last_persisted_percent g' = last_persisted_percent g /\ ownership_lost g' = ownership_lost g /\
  (forall p, v = Some p -> ownership_lost g = false /\ 0 <= p <= 99 /\
     forall m, last_persisted_percent g = Some m -> m < p).
Proof.
  intros Hm. unfold to_write, note_observed.
  destruct (ownership_lost g) eqn:Eo; [intros [= <- <-]; by split_and!|].
  cbn [set_field ownership_lost max_observed_percent]. rewrite ?Eo.
  destruct (progress_percent _ _ _) as [c|] eqn:Ec.
  2: { destruct force; intros [= <- <-]; cbn; by split_and!. }
  apply percent_range in Ec as [Hc Hmc]; [|exact Hm].
  set (x := match max_observed_percent g with None => c | Some m => Z.max m c end).
  assert (Hx : 0 <= x <= 99) by (unfold x; destruct (max_observed_percent g) as [m|] eqn:Em; [specialize (Hm m eq_refl)|]; lia).
  destruct force.
  - cbn. fold x. clearbody x. destruct (last_persisted_percent g) as [m|] eqn:El;
      [destruct (x <=? m) eqn:Ex|]; intros [= <- <-]; cbn; rewrite ?El; split_and!; try done;
      intros; simplify_eq; try done; split_and!; try done; try lia; intros; simplify_eq; lia.
  - destruct (_should_attempt_persist _) as [b g1] eqn:Ea.
    apply should_attempt_keeps in Ea as (E1 & E2 & E3 & E4). cbn in E1, E2, E3, E4. fold x in E1, E4.
    intros [= <- <-]. rewrite E1, E2, E3. split_and!; [intros ? [= <-]; lia|done|done|].
    intros p Hp. destruct b; [|done]. injection Hp as <-. split_and!; [done|lia|lia|]. intros m. by apply E4.
Qed.

Lemma gate_inv_new clock : gate_inv (new clock) [].
Proof. split; [done|]. split; try done; cbn; try (intros; lia); constructor. Qed.

(** One more percentage above the last confirmed one, while the lease is owned. *)
Lemma asked_inv last calls v : calls_inv last false calls -> 0 <= v <= 99 -> (forall m, last = Some m -> m < v) ->
  match answers (length calls) with
  | inl _ => calls_inv last false (calls ++ [v])
  | inr true => calls_inv (Some v) false (calls ++ [v])
  | inr false => calls_inv last true (calls ++ [v])
  end.
Proof.
  intros [Hc Hs Hl Hb Hw Hf] Hr Hnew.
  assert (Hlast : Forall (fun p => p < v) (confirmed calls)).
  { destruct last as [m|]; [|by rewrite Hl].
    eapply Forall_impl; [exact Hl|]. cbn. intros p Hp. specialize (Hnew m eq_refl). lia. }
  assert (Hcalls : Forall (fun p => 0 <= p <= 99) (calls ++ [v])) by (by apply Forall_app_2; [|constructor]).
  assert (Hbeyond : forall i p q, (calls ++ [v]) !! i = Some q -> p ∈ confirmed (take i (calls ++ [v])) -> p < q).
  { intros i p q Hq Hp. destruct (decide (i < length calls)%nat) as [Hi|Hi].
    - rewrite lookup_app_l in Hq by done. rewrite take_app_le in Hp by lia. eauto.
    - apply lookup_app_Some in Hq as [Hq|[Hi' Hq]]; [by apply lookup_lt_Some in Hq|].
      apply list_lookup_singleton_Some in Hq as [Hq <-]. assert (i = length calls) as -> by lia.
      rewrite take_app_length in Hp. rewrite Forall_forall in Hlast. by apply Hlast. }
  assert (Hfalse : forall i, (S i < length (calls ++ [v]))%nat -> answers i <> inr false).
  { intros i Hi. rewrite length_app in Hi. cbn in Hi. apply Hw; [done|lia]. }
  assert (Howned : answers (length calls) <> inr false ->
    false = false -> forall i, (i < length (calls ++ [v]))%nat -> answers i <> inr false).
  { intros Ha _ i Hi. rewrite length_app in Hi. cbn in Hi. destruct (decide (i = length calls)) as [->|]; [done|].
    apply Hw; [done|lia]. }
  destruct (answers (length calls)) as [e|[]] eqn:Ea; split; rewrite ?confirmed_snoc, ?Ea, ?app_nil_r; try done.
  - apply Howned; discriminate.
  - apply StronglySorted_app_2; [|done|repeat constructor]. intros p q Hp Hq%list_elem_of_singleton.
    subst q. rewrite Forall_forall in Hlast. by apply Hlast.
  - apply Forall_app_2; [|by constructor]. eapply Forall_impl; [exact Hlast|]. cbn. lia.
  - apply Howned; discriminate.
Qed.

(** One sample keeps the invariant and never raises. *)
Lemma ingest_inv observed expected force g calls : gate_inv g calls ->
  exists g' r calls', ingest is_exception recorded observed expected force g calls = (inr (g', r), calls') /\
    gate_inv g' calls'.
Proof.
  intros [Ho Hc]. unfold ingest.
  destruct (to_write observed expected force g) as [v g1] eqn:Et.
  apply to_write_spec in Et as (Ho1 & El & Eo & Hv); [|done].
  destruct v as [v|].
  2: { eexists _, _, _. split; [done|]. split; [done|]. by rewrite El, Eo. }
  destruct (Hv v eq_refl) as (Hown & Hr & Hnew). rewrite Hown in Hc.
  pose proof (asked_inv _ _ v Hc Hr Hnew) as Ha. rewrite Hown in Eo. unfold recorded.
  destruct (answers (length calls)) as [e|[]]; eexists _, _, _; (split; [done|]); (split; [try destruct (is_exception e); exact Ho1|]);
    try destruct (is_exception e); cbn; rewrite ?El, ?Eo; exact Ha.
Qed.

Lemma ingest_all_inv expected samples g calls : gate_inv g calls ->
  exists g' calls', ingest_all is_exception recorded expected samples g calls = (inr g', calls') /\ gate_inv g' calls'.
Proof.
  revert g calls. induction samples as [|[o f] samples IH]; intros g calls Hi; [by exists g, calls|].
  destruct (ingest_inv o expected f g calls Hi) as (g1 & r & calls1 & E1 & Hi1). cbn [ingest_all].
  rewrite (bind_run _ _ _ _ _ E1). by apply IH.
Qed.

(** C34: The percentage of a stage: whatever sizes are observed, in whatever order,
    whatever the clock reads and whatever the database answers, the gate asks only
    for percentages between 0 and 99, each above every one that is confirmed; so
    the confirmed ones strictly increase and there are at most 100 of them; and
    after the first refusal (the lease is lost) nothing is asked for any more. *)
Theorem gate_writes_increase clock expected samples :
  exists g calls, ingest_all is_exception recorded expected samples (new clock) [] = (inr g, calls) /\
    Forall (fun p => 0 <= p <= 99) calls /\
    (forall i p q, calls !! i = Some q -> p ∈ confirmed (take i calls) -> p < q) /\
    StronglySorted Z.lt (confirmed calls) /\ (length (confirmed calls) <= 100)%nat /\
    (forall i, (i < length calls)%nat -> answers i = inr false -> S i = length calls).
Proof.
  destruct (ingest_all_inv expected samples (new clock) [] (gate_inv_new clock)) as (g & calls & Ei & Hi).
  exists g, calls. destruct Hi as [_ [Hc Hs _ Hb _ Hf]]. split_and!; try done.
  - assert (Hl : Z.of_nat (length (confirmed calls)) <= 99 - 0 + 1); [|lia]. apply increasing_length; [done| |lia].
    rewrite Forall_forall in *. intros p Hp. unfold confirmed in Hp.
    apply list_elem_of_omap in Hp as ([i q] & Hq & E1). apply elem_of_lookup_imap in Hq as (j & x & E2 & Ex).
    injection E2 as -> ->. cbn in E1. destruct (answers j) as [|[]]; try done. injection E1 as <-.
    eapply Hc, list_elem_of_lookup_2, Ex.
  - intros i Hi Ha. destruct (decide (S i = length calls)); [done|]. exfalso. apply (Hf i); [lia|done].
Qed.

(** A write that is not forced keeps its distance from the last confirmed one. *)
Lemma unforced_write_waits observed expected g v g' last m :
  to_write observed expected false g = (Some v, g') ->
  last_persisted_percent g = Some m -> last_successful_write_at g = Some last ->
  fl_leb (_min_interval g) (fl_sub (_clock g (readings g)) last) = true.
Proof.
  unfold to_write, note_observed, _should_attempt_persist, _throttle_elapsed, _in_backoff, now, should_persist_percent.
  destruct g as [ck rd mi bi bm bo mo lp la ls ol oc pc]. cbn. intros Hw -> ->. revert Hw.
  destruct ol; [done|]. cbn. destruct (progress_percent _ _ _); [|done]. cbn.
  destruct (_ <=? m); cbn; [done|]. by destruct (fl_leb mi _).
Qed.
End Gate.
End ProgressGateTheorems.
