(* ===== verification/Probe.v ===== *)
(** The verification of a muxed file by what [ffprobe] says of it
    (downloads/ffprobe_parse.py), and the conversions of Python it uses: [str()] of
    a decoded value, [float()] and [int()] of a text.

    [json.loads] of the raw bytes is a parameter. *)

From S2P Require Export Json.

Local Open Scope string_scope.
Local Open Scope list_scope.
Local Open Scope Z_scope.

(** ** [str()] of a decoded value *)

(** The characters [repr] of a Latin-1 string writes for one character. *)
Definition repr_char (quote c : ascii) : list ascii :=
  if Ascii.eqb c quote || Ascii.eqb c "\" then ["\"%char; c]
  else if Ascii.eqb c "010" then chars "\n"
  else if Ascii.eqb c "013" then chars "\r"
  else if Ascii.eqb c "009" then chars "\t"
  else if in_range 0 31 c || in_range 127 160 c || in_range 173 173 c
  then chars "\x" ++ hex_fixed 2 (Z.of_N (N_of_ascii c))
  else [c].

Definition repr_string (s : string) : list ascii :=
  let quote := if char_in "'" (chars s) && negb (char_in "034" (chars s)) then "034"%char else "'"%char in
  quote :: (chars s ≫= repr_char quote) ++ [quote].

(** [", ".join(parts)] *)
Fixpoint join_comma (parts : list (list ascii)) : list ascii :=
  match parts with
  | [] => []
  | [p] => p
  | p :: parts => p ++ chars ", " ++ join_comma parts
  end.

Fixpoint json_repr (j : Json) : list ascii :=
  match j with
  | JNull => chars "None"
  | JBool b => chars (if b then "True" else "False")
  | JInt n => chars (py_str n)
  | JFloat x => repr_float x
  | JStr s => repr_string s
  | JArr l => "["%char :: join_comma (json_repr <$> l) ++ ["]"%char]
  | JObj l => "{"%char :: join_comma ((fun kv => repr_string kv.1 ++ chars ": " ++ json_repr kv.2) <$> l) ++ ["}"%char]
  end.

(** [bool(value)] *)
Definition truthy (j : Json) : bool :=
  match j with
  | JNull => false
  | JBool b => b
  | JInt n => negb (n =? 0)
  | JFloat x => match x with S754_zero _ => false | _ => true end
  | JStr s => negb (String.eqb s "")
  | JArr l => negb (is_nil l)
  | JObj l => negb (is_nil l)
  end.

(** [str(mapping.get(key) or "").lower()] *)
Definition lower_field (key : string) (members : list (string * Json)) : list ascii :=
  match json_get key members with
  | Some (JStr s) => lower_char <$> chars s
  | Some j => if truthy j then lower_char <$> json_repr j else []
  | None => []
  end.

(** ** [int()] and [float()] of a text *)

(** Digits with single underscores between them: their value, their number, and
    what follows. *)
Fixpoint digit_run (acc : Z) (n : nat) (l : list ascii) : option (Z * nat * list ascii) :=
  match l with
  | c :: l' =>
      if is_digit c then digit_run (acc * 10 + digit_value c) (S n) l'
      else if Ascii.eqb c "_" then
        match n, l' with
        | S _, d :: l'' => if is_digit d then digit_run (acc * 10 + digit_value d) (S n) l'' else None
        | _, _ => None
        end
      else Some (acc, n, l)
  | [] => Some (acc, n, [])
  end.

Definition split_sign (l : list ascii) : bool * list ascii :=
  match l with
  | "-"%char :: l => (true, l)
  | "+"%char :: l => (false, l)
  | _ => (false, l)
  end.

(** [int(s)] *)
Definition int_of_text (s : string) : option Z :=
  let '(neg, l) := split_sign (strip is_space (chars s)) in
  match digit_run 0 0 l with
  | Some (n, S _, []) => Some (signed neg n)
  | _ => None
  end.

(** The exponent part of a number, if there is one. *)
Definition exponent (l : list ascii) : option Z :=
  match l with
  | [] => Some 0
  | c :: l =>
      if Ascii.eqb (lower_char c) "e" then
        let '(neg, l) := split_sign l in
        match digit_run 0 0 l with
        | Some (n, S _, []) => Some (signed neg n)
        | _ => None
        end
      else None
  end.

Definition fl_opp_if (neg : bool) (x : float) : float := if neg then SFopp x else x.

(** [float(s)] *)
Definition float_of_text (s : string) : option float :=
  let '(neg, l) := split_sign (strip is_space (chars s)) in
  let word := of_chars (lower_char <$> l) in
  if String.eqb word "inf" || String.eqb word "infinity" then Some (S754_infinity neg)
  else if String.eqb word "nan" then Some S754_nan
  else
    match digit_run 0 0 l with
    | Some (whole, n, "."%char :: l) =>
        match digit_run 0 0 l with
        | Some (fraction, k, l) =>
            match (n + k)%nat, exponent l with
            | S _, Some e =>
                Some (fl_opp_if neg (fl_of_scientific (whole * 10 ^ Z.of_nat k + fraction) (e - Z.of_nat k)))
            | _, _ => None
            end
        | None => None
        end
    | Some (whole, S _, l) =>
        match exponent l with
        | Some e => Some (fl_opp_if neg (fl_of_scientific whole e))
        | None => None
        end
    | _ => None
    end.

Example float_texts :
  float_of_text " 12.340000 " = Some (fl_of_decimal 1234 2) /\ float_of_text "1e3" = Some (fl_of_Z 1000) /\
  float_of_text "-1_0.5" = Some (SFopp (fl_of_decimal 105 1)) /\ float_of_text "." = None /\
  float_of_text "N/A" = None /\ float_of_text "Inf" = Some (S754_infinity false) /\ int_of_text "+1_000" = Some 1000.
Proof. by vm_compute. Qed.

(** ** ffprobe_parse.py *)

Definition invalid_output {A} (reason : string) : exn + A := inl (download_error MUXED_OUTPUT_INVALID reason).

(** Source: backend/src/fetchnow/downloads/ffprobe_parse.py:12-18 [_MAX_JSON_DEPTH] *)
Definition _MAX_JSON_DEPTH : Z := 8.
Definition _MAX_JSON_NODES : Z := 512.
Definition _MAX_MAPPING_KEYS : nat := 64.
Definition _MAX_LIST_LEN : nat := 32.
Definition _MAX_STRING_LEN : nat := 256.
Definition _MAX_STREAMS : nat := 8.
Definition _MAX_JSON_BYTES : Z := 262144.

(** Source: backend/src/fetchnow/downloads/ffprobe_parse.py:20-23 [_CONTAINER_HINTS] *)
Definition _CONTAINER_HINTS (container : string) : list string :=
  if String.eqb container "mp4" then ["mp4"; "mov,mp4,m4a,3gp,3g2,mj2"; "isom"; "iso5"]
  else if String.eqb container "webm" then ["webm"; "matroska,webm"] else [].

(** Source: backend/src/fetchnow/downloads/ffprobe_parse.py:24-33 [_CONTAINER_CODECS] *)
Definition _CONTAINER_CODECS (container : string) : list string * list string :=
  if String.eqb container "mp4" then (["h264"; "avc"; "avc1"], ["aac"; "mp4a"])
  else if String.eqb container "webm" then (["vp8"; "vp9"; "vp09"; "av1"; "av01"], ["opus"; "vorbis"])
  else ([], []).

(** Source: backend/src/fetchnow/downloads/ffprobe_parse.py:36-45 [MuxProbeResult] *)
Record MuxProbeResult := {
  pr_duration_seconds : float;
  pr_video_streams : nat;
  pr_audio_streams : nat;
  pr_other_streams : nat;
  pr_format_name : string;
  pr_size_bytes : Z
}.

(** [for nested in values: walk(nested, ...)]: [f] is the walk of one value. *)
Section Each.
Context {A : Type} (f : A -> Z -> exn + Z).

Fixpoint each (l : list A) (nodes : Z) : exn + Z :=
  match l with
  | [] => inr nodes
  | x :: l => let? nodes := f x nodes in each l nodes
  end.
End Each.

(** Source: backend/src/fetchnow/downloads/ffprobe_parse.py:48-107 [_walk_limits]
    [nodes]: the values seen so far. *)
Fixpoint walk (value : Json) (depth nodes : Z) : exn + Z :=
  let nodes := nodes + 1 in
  if _MAX_JSON_NODES <? nodes then invalid_output "JSON_NODE_LIMIT"
  else if _MAX_JSON_DEPTH <? depth then invalid_output "JSON_DEPTH_LIMIT"
  else
    match value with
    | JStr s => if (_MAX_STRING_LEN <? String.length s)%nat then invalid_output "JSON_STRING_LIMIT" else inr nodes
    | JObj members =>
        if (_MAX_MAPPING_KEYS <? length members)%nat then invalid_output "JSON_KEY_LIMIT"
        else each (fun kv => walk kv.2 (depth + 1)) members nodes
    | JArr l =>
        if (_MAX_LIST_LEN <? length l)%nat then invalid_output "JSON_LIST_LIMIT"
        else each (fun nested => walk nested (depth + 1)) l nodes
    | JFloat x => if fl_finite x then inr nodes else invalid_output "JSON_NONFINITE"
    | JBool _ | JInt _ | JNull => inr nodes
    end.

(** Source: backend/src/fetchnow/downloads/ffprobe_parse.py:159-193 [parse_ffprobe_json]
    The numbers of video, audio and other streams. *)
Fixpoint count_streams (allowed_video allowed_audio : list string) (streams : list Json) (counts : nat * nat * nat)
    : exn + nat * nat * nat :=
  match streams with
  | [] => inr counts
  | JObj stream :: streams =>
      let '(video, audio, other) := counts in
      let codec_type := of_chars (lower_field "codec_type" stream) in
      let codec_name := of_chars (lower_field "codec_name" stream) in
      if String.eqb codec_type "video" then
        if negb (bool_decide (codec_name ∈ allowed_video)) then invalid_output "PROBE_VIDEO_CODEC"
        else count_streams allowed_video allowed_audio streams (S video, audio, other)
      else if String.eqb codec_type "audio" then
        if negb (bool_decide (codec_name ∈ allowed_audio)) then invalid_output "PROBE_AUDIO_CODEC"
        else count_streams allowed_video allowed_audio streams (video, S audio, other)
      else count_streams allowed_video allowed_audio streams (video, audio, S other)
  | _ :: _ => invalid_output "PROBE_STREAM_TYPE"
  end.

(** Source: backend/src/fetchnow/downloads/ffprobe_parse.py:199-201 [parse_ffprobe_json]
    The parts of the format name. *)
Definition format_names (format_name : list ascii) : list string :=
  List.filter (fun s => negb (String.eqb s "")) ((fun part => of_chars (strip is_space part)) <$> split_on "," format_name).

(** Source: backend/src/fetchnow/downloads/ffprobe_parse.py:207-211 [parse_ffprobe_json]
    A duration that is no number is not finite. *)
Definition duration_of (raw : option Json) : exn + float :=
  match raw with
  | Some (JInt n) => float_of_int n
  | Some (JBool b) => float_of_int (int_of_bool b)
  | Some (JFloat x) => inr x
  | Some (JStr s) => inr (default S754_nan (float_of_text s))
  | _ => inr S754_nan
  end.

(** Source: backend/src/fetchnow/downloads/ffprobe_parse.py:229-239 [parse_ffprobe_json]
    The size that is reported, [None] when it is no number. *)
Definition reported_size (raw : Json) : exn + option Z :=
  match raw with
  | JInt n => inr (Some n)
  | JBool b => inr (Some (int_of_bool b))
  | JFloat x =>
      match x with
      | S754_nan => inr None
      | S754_infinity _ => inl UnexpectedError
      | _ => inr (Some (fl_trunc x))
      end
  | JStr s => inr (int_of_text s)
  | _ => inr None
  end.

(** [abs(x)] *)
Definition fl_abs (x : float) : float := SFabs x.

(** Source: backend/src/fetchnow/downloads/ffprobe_parse.py:212-223 [parse_ffprobe_json] *)
Definition check_duration (duration : float) (expected_duration_seconds : option float)
    (duration_tolerance_seconds : float) : exn + unit :=
  if negb (fl_finite duration) || fl_ltb duration (fl_int 0) then invalid_output "PROBE_DURATION"
  else
    match expected_duration_seconds with
    | Some expected =>
        raise_if (fl_ltb duration_tolerance_seconds (fl_abs (fl_sub duration expected)))
          (download_error MUXED_OUTPUT_INVALID "PROBE_DURATION_MISMATCH")
    | None => inr tt
    end.

(** Source: backend/src/fetchnow/downloads/ffprobe_parse.py:224-249 [parse_ffprobe_json] *)
Definition check_size (fmt : list (string * Json)) (expected_size_bytes max_bytes : Z) : exn + Z :=
  raise_if ((expected_size_bytes <=? 0) || (max_bytes <? expected_size_bytes))
    (download_error MUXED_OUTPUT_INVALID "PROBE_SIZE") ;;?
  let? reported :=
    match json_get "size" fmt with
    | None | Some JNull => inr expected_size_bytes
    | Some raw =>
        let? reported := reported_size raw in
        match reported with
        | None => invalid_output "PROBE_SIZE"
        | Some reported =>
            if reported =? expected_size_bytes then inr reported else invalid_output "PROBE_SIZE_MISMATCH"
        end
    end in
  raise_if ((reported <=? 0) || (max_bytes <? reported)) (download_error MUXED_OUTPUT_INVALID "PROBE_SIZE") ;;?
  inr reported.

(** Source: backend/src/fetchnow/downloads/ffprobe_parse.py:141-257 [parse_ffprobe_json]
    The decoded document. *)
Definition check_payload (payload : Json) (expected_container : string) (expected_size_bytes : Z)
    (expected_duration_seconds : option float) (duration_tolerance_seconds : float) (max_bytes : Z)
    : exn + MuxProbeResult :=
  let? _ := walk payload 0 0 in
  match payload with
  | JObj members =>
      match json_get "streams" members, json_get "format" members with
      | Some (JArr streams), Some (JObj fmt) =>
          raise_if (_MAX_STREAMS <? length streams)%nat (download_error MUXED_OUTPUT_INVALID "PROBE_STREAM_LIMIT") ;;?
          let '(allowed_video, allowed_audio) := _CONTAINER_CODECS expected_container in
          raise_if (is_nil allowed_video || is_nil allowed_audio) (download_error MUXED_OUTPUT_INVALID "PROBE_CONTAINER") ;;?
          let? (video, audio, other) := count_streams allowed_video allowed_audio streams (0, 0, 0)%nat in
          raise_if (negb (Nat.eqb video 1) || negb (Nat.eqb audio 1) || negb (Nat.eqb other 0))
            (download_error MUXED_OUTPUT_INVALID "PROBE_STREAMS") ;;?
          let format_name := lower_field "format_name" fmt in
          let allowed := _CONTAINER_HINTS expected_container in
          raise_if (is_nil allowed || negb (existsb (fun name => bool_decide (name ∈ allowed)) (format_names format_name)))
            (download_error MUXED_OUTPUT_INVALID "PROBE_CONTAINER") ;;?
          let? duration := duration_of (json_get "duration" fmt) in
          check_duration duration expected_duration_seconds duration_tolerance_seconds ;;?
          let? reported := check_size fmt expected_size_bytes max_bytes in
          inr {| pr_duration_seconds := duration; pr_video_streams := video; pr_audio_streams := audio;
                 pr_other_streams := other; pr_format_name := of_chars format_name; pr_size_bytes := reported |}
      | _, _ => invalid_output "PROBE_SHAPE"
      end
  | _ => invalid_output "PROBE_ROOT"
  end.

(** Source: backend/src/fetchnow/downloads/ffprobe_parse.py:110-257 [parse_ffprobe_json]
    [json_loads]: the document in UTF-8 bytes, [None] when decoding raises. *)
Definition parse_ffprobe_json (json_loads : bytes -> option Json) (raw : bytes) (expected_container : string)
    (expected_size_bytes : Z) (expected_duration_seconds : option float) (duration_tolerance_seconds : float)
    (max_bytes max_json_bytes : Z) : exn + MuxProbeResult :=
  if is_nil raw then invalid_output "PROBE_EMPTY" else
  let json_limit := Z.min _MAX_JSON_BYTES max_json_bytes in
  if (json_limit <? 1) || (json_limit <? Z.of_nat (length raw)) then invalid_output "PROBE_TOO_LARGE" else
  match json_loads raw with
  | None => invalid_output "PROBE_JSON"
  | Some payload =>
      check_payload payload expected_container expected_size_bytes expected_duration_seconds
        duration_tolerance_seconds max_bytes
  end.

(** ** What is accepted *)
Module ProbeTheorems.

Section Induction.
Context (P : Json -> Prop).
Context (P_null : P JNull) (P_bool : forall b, P (JBool b)) (P_int : forall n, P (JInt n)) (P_float : forall x, P (JFloat x))
  (P_str : forall s, P (JStr s)) (P_arr : forall l, Forall P l -> P (JArr l))
  (P_obj : forall l, Forall (fun kv => P kv.2) l -> P (JObj l)).

Fixpoint json_nested (j : Json) : P j :=
  match j with
  | JNull => P_null
  | JBool b => P_bool b
  | JInt n => P_int n
  | JFloat x => P_float x
  | JStr s => P_str s
  | JArr l => P_arr l ((fix go l := match l return Forall P l with
                                    | [] => List.Forall_nil _
                                    | j :: l => List.Forall_cons _ _ _ (json_nested j) (go l)
                                    end) l)
  | JObj l => P_obj l ((fix go l := match l return Forall (fun kv => P kv.2) l with
                                    | [] => List.Forall_nil _
                                    | kv :: l => List.Forall_cons _ _ _ (json_nested kv.2) (go l)
                                    end) l)
  end.
End Induction.

Definition total (l : list Z) : Z := foldr Z.add 0 l.

(** The values of a document, itself included. *)
Fixpoint nodes_of (j : Json) : Z :=
  match j with
  | JArr l => 1 + total (nodes_of <$> l)
  | JObj l => 1 + total ((fun kv => nodes_of kv.2) <$> l)
  | _ => 1
  end.

(** Every value is at most eight levels deep and of a bounded size. *)
Fixpoint bounded_below (depth : Z) (j : Json) : bool :=
  (depth <=? _MAX_JSON_DEPTH) &&
  match j with
  | JStr s => (String.length s <=? _MAX_STRING_LEN)%nat
  | JFloat x => fl_finite x
  | JArr l => (length l <=? _MAX_LIST_LEN)%nat && forallb (bounded_below (depth + 1)) l
  | JObj l => (length l <=? _MAX_MAPPING_KEYS)%nat && forallb (fun kv => bounded_below (depth + 1) kv.2) l
  | JNull | JBool _ | JInt _ => true
  end.

Lemma total_nonneg l : Forall (fun n => 1 <= n) l -> 0 <= total l.
Proof. unfold total. induction 1; cbn [foldr]; lia. Qed.

Lemma nodes_positive j : 1 <= nodes_of j.
Proof.
  induction j as [| | | | |l IH|l IH] using json_nested; cbn [nodes_of]; try lia.
  - pose proof (total_nonneg (nodes_of <$> l)) as Ht. rewrite Forall_fmap in Ht. specialize (Ht IH). lia.
  - pose proof (total_nonneg ((fun kv => nodes_of kv.2) <$> l)) as Ht. rewrite Forall_fmap in Ht. specialize (Ht IH). lia.
Qed.

(** A walk succeeds on the values that are in bounds and counts them. *)
Definition counts {A} (f : A -> Z -> exn + Z) (ok : A -> bool) (size : A -> Z) (x : A) : Prop :=
  forall nodes n, nodes <= _MAX_JSON_NODES ->
    (f x nodes = inr n <-> ok x = true /\ n = nodes + size x /\ n <= _MAX_JSON_NODES).

Lemma each_counts {A} (f : A -> Z -> exn + Z) ok size l :
  Forall (counts f ok size) l -> Forall (fun x => 1 <= size x) l ->
  counts (each f) (forallb ok) (fun l => total (size <$> l)) l.
Proof.
  induction 1 as [|x l Hx _ IH]; intros Hs nodes n Hn.
  { cbn. rewrite Z.add_0_r. split; [intros [= ->]; done|by intros (_ & -> & _)]. }
  inversion_clear Hs as [|? ? Hsx Hsl]. specialize (IH Hsl). cbn [each forallb]. rewrite andb_true_iff.
  change (total (size <$> x :: l)) with (size x + total (size <$> l)).
  pose proof (total_nonneg (size <$> l)) as Ht. rewrite Forall_fmap in Ht. specialize (Ht Hsl). split.
  - intros (m & Hm & Hr)%err_bind_inr. apply Hx in Hm as (Hok & -> & Hm); [|done].
    apply IH in Hr as (Hokl & -> & Hr); [|done]. split_and!; [done|done|lia|done].
  - intros ([Hok Hokl] & -> & Hm). apply err_bind_inr. exists (nodes + size x). split.
    + apply Hx; [done|]. split_and!; [done|done|lia].
    + apply IH; [lia|]. split_and!; [done|lia|done].
Qed.

Lemma walk_counts depth j : counts (fun j => walk j depth) (bounded_below depth) nodes_of j.
Proof.
  revert depth. induction j as [|b|z|x|s|l IH|l IH] using json_nested; intros depth nodes n Hn;
    match goal with |- walk ?j _ _ = _ <-> _ => pose proof (nodes_positive j) as Hp end;
    cbn [walk bounded_below nodes_of] in *;
    (destruct (Z.ltb_spec _MAX_JSON_NODES (nodes + 1)) as [Hm|Hm]; [split; [done|intros (_ & -> & ?); lia]|]);
    (destruct (Z.ltb_spec _MAX_JSON_DEPTH depth) as [Hd|Hd];
      [rewrite (proj2 (Z.leb_gt _ _) Hd); by split; [|intros []]|rewrite (proj2 (Z.leb_le _ _) Hd)]); cbn [andb].
  - split; [intros [= <-]; done|by intros (_ & -> & _)].
  - split; [intros [= <-]; done|by intros (_ & -> & _)].
  - split; [intros [= <-]; done|by intros (_ & -> & _)].
  - destruct (fl_finite x); split; try done; [intros [= <-]; done|by intros (_ & -> & _)|by intros (? & _)].
  - rewrite Nat.leb_antisym. destruct (_ <? _)%nat; cbn [negb]; split; try done;
      [by intros (? & _)|intros [= <-]; done|by intros (_ & -> & _)].
  - rewrite Nat.leb_antisym. destruct (_ <? _)%nat; cbn [negb andb]; [by split; [|intros []]|].
    rewrite Z.add_assoc. apply (each_counts _ (bounded_below (depth + 1)) nodes_of); [| |done].
    + eapply Forall_impl; [exact IH|]. intros j Hj. apply Hj.
    + apply Forall_true. intros j. apply nodes_positive.
  - rewrite Nat.leb_antisym. destruct (_ <? _)%nat; cbn [negb andb]; [by split; [|intros []]|].
    rewrite Z.add_assoc. apply (each_counts _ (fun kv => bounded_below (depth + 1) kv.2) (fun kv => nodes_of kv.2)); [| |done].
    + eapply Forall_impl; [exact IH|]. intros [k j] Hj. apply Hj.
    + apply Forall_true. intros kv. apply nodes_positive.
Qed.

(** A stream of one kind, with one of the codecs. *)
Definition is_stream (kind : string) (codecs : list string) (j : Json) : Prop :=
  exists members, j = JObj members /\ of_chars (lower_field "codec_type" members) = kind /\
    of_chars (lower_field "codec_name" members) ∈ codecs.

Lemma count_streams_spec video audio l v a o v' a' o' :
  count_streams video audio l (v, a, o) = inr (v', a', o') ->
  exists vs auds others, l ≡ₚ vs ++ auds ++ others /\ Forall (is_stream "video" video) vs /\
    Forall (is_stream "audio" audio) auds /\
    v' = (v + length vs)%nat /\ a' = (a + length auds)%nat /\ o' = (o + length others)%nat.
Proof.
  revert v a o. induction l as [|j l IH]; intros v a o; cbn [count_streams].
  { intros [= <- <- <-]. exists [], [], []. cbn. rewrite !Nat.add_0_r. by repeat split. }
  destruct j as [| | | | | |stream]; try done.
  destruct (String.eqb_spec (of_chars (lower_field "codec_type" stream)) "video") as [Hv|Hv].
  { destruct (bool_decide _) eqn:Hc; [|done]. apply bool_decide_eq_true in Hc. cbn [negb]. intros E.
    apply IH in E as (vs & auds & others & Hp & Hvs & Ha & -> & -> & ->).
    exists (JObj stream :: vs), auds, others. cbn. split_and!; try done; [by rewrite Hp| |lia..].
    constructor; [by exists stream|done]. }
  destruct (String.eqb_spec (of_chars (lower_field "codec_type" stream)) "audio") as [Ha|Ha].
  { destruct (bool_decide _) eqn:Hc; [|done]. apply bool_decide_eq_true in Hc. cbn [negb]. intros E.
    apply IH in E as (vs & auds & others & Hp & Hvs & Hauds & -> & -> & ->).
    exists vs, (JObj stream :: auds), others. cbn. split_and!; try done; [by rewrite Hp, <- Permutation_middle| |lia..].
    constructor; [by exists stream|done]. }
  intros E. apply IH in E as (vs & auds & others & Hp & Hvs & Hauds & -> & -> & ->).
  exists vs, auds, (JObj stream :: others). cbn. split_and!; try done; [|lia..].
  by rewrite Hp, (assoc_L (++) vs auds (_ :: others)), <- Permutation_middle, (assoc_L (++)).
Qed.

(** One video stream, one audio stream, and nothing else. *)
Lemma two_streams video audio l :
  count_streams video audio l (0, 0, 0)%nat = inr (1, 1, 0)%nat <->
  exists v a, l ≡ₚ [v; a] /\ is_stream "video" video v /\ is_stream "audio" audio a.
Proof.
  split.
  - intros E. apply count_streams_spec in E as (vs & auds & others & Hp & Hv & Ha & Ev & Ea & Eo).
    destruct vs as [|v [|]]; try done. destruct auds as [|a [|]]; try done. destruct others; [|done].
    exists v, a. split; [done|]. split; by apply Forall_singleton.
  - intros (v & a & Hp & (mv & -> & Ev & Hv) & (ma & -> & Ea & Ha)).
    assert (Hl : l = [JObj mv; JObj ma] \/ l = [JObj ma; JObj mv]).
    { apply Permutation_length_2_inv. by symmetry. }
    destruct Hl as [-> | ->]; cbn; rewrite ?Ev, ?Ea; cbn; rewrite ?(bool_decide_eq_true_2 _ Hv), ?(bool_decide_eq_true_2 _ Ha); cbn;
      rewrite ?Ev, ?Ea; cbn; by rewrite ?(bool_decide_eq_true_2 _ Hv), ?(bool_decide_eq_true_2 _ Ha).
Qed.

(** A size that is given has to be the size of the file. *)
Definition size_agrees (fmt : list (string * Json)) (size : Z) : Prop :=
  match json_get "size" fmt with
  | None | Some JNull => True
  | Some raw => reported_size raw = inr (Some size)
  end.

Lemma check_size_ok fmt size max_bytes n :
  check_size fmt size max_bytes = inr n <-> 0 < size <= max_bytes /\ size_agrees fmt size /\ n = size.
Proof.
  unfold check_size, size_agrees.
  destruct ((size <=? 0) || (max_bytes <? size)) eqn:Hs; cbn [raise_if err_bind].
  { split; [done|]. intros ([? ?] & _). apply orb_prop in Hs as [Hs|Hs]; propify; lia. }
  apply orb_false_iff in Hs as [Hs0 Hs1]. propify.
  assert (Hsecond : forall r, (r =? size) = true -> (r <=? 0) || (max_bytes <? r) = false).
  { intros r Hr. apply Z.eqb_eq in Hr as ->. apply orb_false_iff. split; [by apply Z.leb_gt|by apply Z.ltb_ge]. }
  assert (Hnone : forall raw, json_get "size" fmt = Some raw -> raw <> JNull ->
    (let? reported := (let? reported := reported_size raw in
        match reported with
        | None => invalid_output "PROBE_SIZE"
        | Some reported => if reported =? size then inr reported else invalid_output "PROBE_SIZE_MISMATCH"
        end) in
     raise_if ((reported <=? 0) || (max_bytes <? reported)) (download_error MUXED_OUTPUT_INVALID "PROBE_SIZE") ;;? inr reported) = inr n <->
    0 < size <= max_bytes /\ reported_size raw = inr (Some size) /\ n = size).
  { intros raw _ _. destruct (reported_size raw) as [e|[r|]]; cbn [err_bind]; [by split; [|intros (_ & ? & _)]| |by split; [|intros (_ & ? & _)]].
    destruct (r =? size) eqn:Hr; cbn [err_bind].
    - rewrite (Hsecond r Hr). cbn. apply Z.eqb_eq in Hr as ->. split; [intros [= <-]; split_and!; done || lia|by intros (_ & _ & ->)].
    - apply Z.eqb_neq in Hr. split; [done|]. intros (_ & [= ->] & _). done. }
  assert (Habsent : (raise_if ((size <=? 0) || (max_bytes <? size)) (download_error MUXED_OUTPUT_INVALID "PROBE_SIZE") ;;? inr size) = inr n <->
    0 < size <= max_bytes /\ True /\ n = size).
  { rewrite (Hsecond size (Z.eqb_refl size)). cbn. split; [intros [= <-]; split_and!; done || lia|by intros (_ & _ & ->)]. }
  destruct (json_get "size" fmt) as [raw|]; [|exact Habsent].
  destruct raw; first [exact Habsent|by apply Hnone].
Qed.

(** The duration is finite, not negative, and near the expected one. *)
Definition duration_agrees (duration : float) (expected : option float) (tolerance : float) : Prop :=
  fl_finite duration = true /\ fl_ltb duration (fl_int 0) = false /\
  forall e, expected = Some e -> fl_ltb tolerance (fl_abs (fl_sub duration e)) = false.

Lemma check_duration_ok duration expected tolerance u :
  check_duration duration expected tolerance = inr u <-> duration_agrees duration expected tolerance.
Proof.
  unfold check_duration, duration_agrees. destruct u.
  destruct (fl_finite duration); cbn [negb orb]; [|by split; [|intros [? _]]].
  destruct (fl_ltb duration (fl_int 0)); [by split; [|intros (_ & ? & _)]|].
  destruct expected as [e|]; [|by split]. rewrite raise_if_inr. split; [intros Ht; split_and!; try done; by intros ? [= <-]|].
  intros (_ & _ & He). by apply He.
Qed.

Lemma format_check (allowed names : list string) :
  is_nil allowed || negb (existsb (fun name => bool_decide (name ∈ allowed)) names) = false <->
  exists name, name ∈ names /\ name ∈ allowed.
Proof.
  rewrite orb_false_iff, negb_false_iff, existsb_exists. split.
  - intros (_ & name & Hn & Ha). apply bool_decide_eq_true in Ha. exists name. split; [by apply list_elem_of_In|done].
  - intros (name & Hn & Ha). split; [by destruct allowed; [apply elem_of_nil in Ha|]|].
    exists name. split; [by apply list_elem_of_In|]. by apply bool_decide_eq_true_2.
Qed.

Lemma streams_check video audio streams :
  ((_MAX_STREAMS <? length streams)%nat = false /\ is_nil video || is_nil audio = false /\
   exists v a o, count_streams video audio streams (0, 0, 0)%nat = inr (v, a, o) /\
     negb (Nat.eqb v 1) || negb (Nat.eqb a 1) || negb (Nat.eqb o 0) = false) <->
  exists v a, streams ≡ₚ [v; a] /\ is_stream "video" video v /\ is_stream "audio" audio a.
Proof.
  rewrite <- two_streams. split.
  - intros (_ & _ & v & a & o & E & Hn). propify. by repeat match goal with H : (_ =? _)%nat = true |- _ => apply Nat.eqb_eq in H; subst end.
  - intros E. pose proof E as Et. apply two_streams in Et as (v & a & Hp & (mv & _ & _ & Hv) & (ma & _ & _ & Ha)).
    split_and!; [by rewrite Hp| |by exists 1%nat, 1%nat, 0%nat].
    destruct video; [by apply elem_of_nil in Hv|]. destruct audio; [by apply elem_of_nil in Ha|done].
Qed.

(** C15: What the verification of a muxed file accepts is exactly this: at most
    [max_json_bytes] bytes (and 262144) that decode to an object within the limits
    of depth and size; whose streams are one video stream with a codec of the
    container, one audio stream with a codec of the container and nothing else;
    whose format names the container; whose duration is finite, not negative and,
    when a duration was expected, not further from it than the tolerance; and whose
    size, when it is given, is the size of the file, which is positive and at most
    [max_bytes]. The result says these figures. *)
Theorem probe_accepts_exactly json_loads raw container size expected tolerance max_bytes max_json_bytes result :
  parse_ffprobe_json json_loads raw container size expected tolerance max_bytes max_json_bytes = inr result <->
  exists members streams fmt,
    0 < Z.of_nat (length raw) <= Z.min _MAX_JSON_BYTES max_json_bytes /\
    json_loads raw = Some (JObj members) /\
    bounded_below 0 (JObj members) = true /\ nodes_of (JObj members) <= _MAX_JSON_NODES /\
    json_get "streams" members = Some (JArr streams) /\ json_get "format" members = Some (JObj fmt) /\
    (exists v a, streams ≡ₚ [v; a] /\ is_stream "video" (_CONTAINER_CODECS container).1 v /\
       is_stream "audio" (_CONTAINER_CODECS container).2 a) /\
    (exists name, name ∈ format_names (lower_field "format_name" fmt) /\ name ∈ _CONTAINER_HINTS container) /\
    duration_of (json_get "duration" fmt) = inr (pr_duration_seconds result) /\
    duration_agrees (pr_duration_seconds result) expected tolerance /\
    0 < size <= max_bytes /\ size_agrees fmt size /\
    result = {| pr_duration_seconds := pr_duration_seconds result; pr_video_streams := 1; pr_audio_streams := 1;
                pr_other_streams := 0; pr_format_name := of_chars (lower_field "format_name" fmt); pr_size_bytes := size |}.
Proof.
  unfold parse_ffprobe_json. split.
  - destruct raw as [|b raw']; [done|]. cbn [is_nil]. set (raw := b :: raw') in *.
    destruct ((_ <? 1) || _) eqn:Hl; [done|]. apply orb_false_iff in Hl as [_ Hl].
    destruct (json_loads raw) as [payload|] eqn:Ej; [|done]. unfold check_payload. intros E. ok_step E.
    apply (walk_counts 0 payload 0) in E0 as (Hb & -> & Hnodes); [|done].
    destruct payload as [| | | | | |members]; try done.
    destruct (json_get "streams" members) as [[| | | | |streams|]|] eqn:Es; try done.
    destruct (json_get "format" members) as [[| | | | | |fmt]|] eqn:Ef; try done.
    destruct (_CONTAINER_CODECS container) as [video audio] eqn:Ec.
    ok_step E. ok_step E. ok_step E. destruct v1 as [[nv na] no]. ok_step E. ok_step E. ok_step E. ok_step E. ok_step E.
    injection E as <-. cbn [pr_duration_seconds].
    repeat match goal with H : raise_if _ _ = inr _ |- _ => apply raise_if_inr in H end.
    apply check_duration_ok in E6. apply check_size_ok in E7 as (Hsize & Hagree & ->). apply format_check in E4.
    assert (Hst : exists v a, streams ≡ₚ [v; a] /\ is_stream "video" video v /\ is_stream "audio" audio a).
    { apply streams_check. split_and!; [done|done|]. by exists nv, na, no. }
    assert (Hcounts : nv = 1%nat /\ na = 1%nat /\ no = 0%nat).
    { propify. by repeat match goal with H : (_ =? _)%nat = true |- _ => apply Nat.eqb_eq in H; subst end. }
    destruct Hcounts as (-> & -> & ->).
    exists members, streams, fmt. split_and!; try done; cbn [length] in *; lia.
  - intros (members & streams & fmt & [Hl0 Hl] & Ej & Hb & Hnodes & Es & Ef & Hst & Hname & Hd & Hda & Hsize & Hagree & Hr).
    destruct raw as [|b raw']; [cbn in Hl0; lia|]. cbn [is_nil]. set (raw := b :: raw') in *.
    rewrite (proj2 (Z.ltb_ge _ 1)) by lia. rewrite (proj2 (Z.ltb_ge _ (Z.of_nat (length raw)))) by lia. cbn [orb].
    rewrite Ej. unfold check_payload.
    rewrite (proj2 (walk_counts 0 (JObj members) 0 _ ltac:(done)) (conj Hb (conj eq_refl Hnodes))). cbn [err_bind].
    rewrite Es, Ef. destruct (_CONTAINER_CODECS container) as [video audio]. cbn [fst snd] in Hst.
    apply streams_check in Hst as (H1 & H2 & nv & na & no & E & H3). apply format_check in Hname.
    rewrite H1, H2. cbn [raise_if err_bind]. rewrite E. cbn [err_bind]. rewrite H3. cbn [raise_if err_bind].
    rewrite Hname. cbn [raise_if err_bind]. rewrite Hd. cbn [err_bind].
    rewrite (proj2 (check_duration_ok _ _ _ tt) Hda). cbn [err_bind].
    rewrite (proj2 (check_size_ok fmt size max_bytes size) (conj Hsize (conj Hagree eq_refl))). cbn [err_bind].
    propify. repeat match goal with H : (_ =? _)%nat = true |- _ => apply Nat.eqb_eq in H; subst end. by rewrite Hr.
Qed.
End ProbeTheorems.
