(* ===== verification/Policy.v ===== *)
(** The settings the modelled code reads and the effective download policy ([quota/policy.py], [premium/policy.py]). *)

From S2P Require Export Json.

Local Open Scope string_scope.
Local Open Scope Z_scope.

(** ** Settings ([core/config.py]) read by the modelled services *)
Record Settings := {
  free_download_limit : Z;
  free_download_window_seconds : Z;
  free_delivery_rate_limit_enabled : bool;
  free_delivery_rate_bytes_per_second : Z;
  anonymous_client_ttl_seconds : Z;
  free_download_quota_retention_seconds : Z;
  free_download_quota_ready_compatibility_mode : bool;
  media_downloads_enabled : bool;
  media_browser_delivery_enabled : bool;
  media_browser_grant_ttl_seconds : Z;
  media_browser_grant_max_active : Z;
  robokassa_mode : string;
  premium_test_checkout_visible : bool;
  robokassa_test_amount_minor : Z;
  robokassa_order_ttl_seconds : Z;
  robokassa_merchant_login : string;
  robokassa_test_password1 : string;
  robokassa_test_password2 : string;
  robokassa_receipt_tax : string;
  robokassa_receipt_payment_method : string;
  free_download_quota_enabled : bool;
  media_delivery_enabled : bool;
  media_download_artifact_ttl_seconds : Z;
  media_download_max_attempts : Z;
  media_jobs_enabled : bool;
  media_job_absolute_ttl_seconds : Z;
  media_job_max_attempts : Z;
  media_job_result_max_bytes : Z
}.

(** Source: backend/src/fetchnow/premium/policy.py:16-20 [PremiumCapability] *)
Record PremiumCapability := {
  is_premium : bool;
  premium_expires_at : option time;
  capability_product_code : option string
}.

(** Source: backend/src/fetchnow/quota/policy.py:12-36 [EffectiveDownloadPolicy] *)
Record EffectiveDownloadPolicy := {
  tier : string;
  download_limit : option Z;
  quota_window_seconds : option Z;
  delivery_rate_bytes_per_second : option Z;
  policy_premium_expires_at : option time;
  allow_combined : bool;
  allow_audio_only : bool;
  allow_video_only : bool
}.

(** Source: backend/src/fetchnow/quota/policy.py:39-70 [effective_download_policy] *)
Definition effective_download_policy (settings : Settings)
    (capability : option PremiumCapability) : exn + EffectiveDownloadPolicy :=
  let free := {|
    tier := "free";
    download_limit := Some (free_download_limit settings);
    quota_window_seconds := Some (free_download_window_seconds settings);
    delivery_rate_bytes_per_second :=
      if free_delivery_rate_limit_enabled settings
      then Some (free_delivery_rate_bytes_per_second settings) else None;
    policy_premium_expires_at := None;
    allow_combined := true;
    allow_audio_only := false;
    allow_video_only := false
  |} in
  match capability with
  | Some c =>
      if is_premium c then
        match premium_expires_at c with
        | None => inl (ValueError "active Premium capability requires an expiry")
        | Some expiry => inr {|
            tier := "premium";
            download_limit := None;
            quota_window_seconds := None;
            delivery_rate_bytes_per_second := None;
            policy_premium_expires_at := Some expiry;
            allow_combined := true;
            allow_audio_only := true;
            allow_video_only := true
          |}
        end
      else inr free
  | None => inr free
  end.
