(* ===== verification/Media.v ===== *)
(** The data of media inspection (media_inspection/models.py) and the size
    estimates of its formats (media_inspection/size_estimate.py). *)

From S2P Require Export Regex Floats.

Local Open Scope string_scope.
Local Open Scope list_scope.
Local Open Scope Z_scope.

(** ** Models *)

(** Source: backend/src/fetchnow/media_inspection/models.py:15-20 [FormatCategory] *)
Inductive FormatCategory := PROGRESSIVE | CAT_VIDEO_ONLY | CAT_AUDIO_ONLY.

(** Source: backend/src/fetchnow/media_inspection/models.py:23-28 [MediaKind] *)
Inductive MediaKind := NORMAL_VIDEO | VIDEO_ONLY | AUDIO_ONLY.

(** Source: backend/src/fetchnow/media_inspection/models.py:31-45 [CodecFamily] *)
Inductive CodecFamily := AVC | HEVC | VP8 | VP9 | AV1 | AAC | OPUS | MP3 | VORBIS | FLAC | UNKNOWN | NONE.

#[global] Instance FormatCategory_eq_dec : EqDecision FormatCategory.
Proof. solve_decision. Defined.
#[global] Instance MediaKind_eq_dec : EqDecision MediaKind.
Proof. solve_decision. Defined.
#[global] Instance CodecFamily_eq_dec : EqDecision CodecFamily.
Proof. solve_decision. Defined.

(** Source: backend/src/fetchnow/media_inspection/models.py:18-20 [FormatCategory] *)
Definition category_value (c : FormatCategory) : string :=
  match c with PROGRESSIVE => "progressive" | CAT_VIDEO_ONLY => "video_only" | CAT_AUDIO_ONLY => "audio_only" end.

(** Source: backend/src/fetchnow/media_inspection/models.py:26-28 [MediaKind] *)
Definition kind_value (k : MediaKind) : string :=
  match k with NORMAL_VIDEO => "normal_video" | VIDEO_ONLY => "video_only" | AUDIO_ONLY => "audio_only" end.

(** Source: backend/src/fetchnow/media_inspection/models.py:34-45 [CodecFamily] *)
Definition codec_value (c : CodecFamily) : string :=
  match c with
  | AVC => "avc" | HEVC => "hevc" | VP8 => "vp8" | VP9 => "vp9" | AV1 => "av1" | AAC => "aac"
  | OPUS => "opus" | MP3 => "mp3" | VORBIS => "vorbis" | FLAC => "flac" | UNKNOWN => "unknown" | NONE => "none"
  end.

Definition all_categories : list FormatCategory := [PROGRESSIVE; CAT_VIDEO_ONLY; CAT_AUDIO_ONLY].
Definition all_kinds : list MediaKind := [NORMAL_VIDEO; VIDEO_ONLY; AUDIO_ONLY].
Definition all_codecs : list CodecFamily :=
  [AVC; HEVC; VP8; VP9; AV1; AAC; OPUS; MP3; VORBIS; FLAC; UNKNOWN; NONE].

(** [FormatCategory(value)] and its like: [None] is the [ValueError]. *)
Definition category_of (s : string) : option FormatCategory :=
  List.find (fun c => String.eqb (category_value c) s) all_categories.
Definition kind_of (s : string) : option MediaKind :=
  List.find (fun k => String.eqb (kind_value k) s) all_kinds.
Definition codec_of (s : string) : option CodecFamily :=
  List.find (fun c => String.eqb (codec_value c) s) all_codecs.

Lemma category_of_value c : category_of (category_value c) = Some c.
Proof. by destruct c. Qed.
Lemma kind_of_value k : kind_of (kind_value k) = Some k.
Proof. by destruct k. Qed.
Lemma codec_of_value c : codec_of (codec_value c) = Some c.
Proof. by destruct c. Qed.

(** Source: backend/src/fetchnow/media_inspection/models.py:10-10 [_SAFE_TOKEN] *)
Definition _SAFE_TOKEN : regex :=
  Cat (Char (in_range 97 122))
    (Many 0 (Some 63%nat) (fun c => in_range 97 122 c || in_range 48 57 c || is_one_of "_" c)).

(** Source: backend/src/fetchnow/media_inspection/models.py:11-11 [_SAFE_MEDIA_ID] *)
Definition _SAFE_MEDIA_ID : regex := Many 1 (Some 128%nat) (fun c => is_alnum c || is_one_of "._:-" c).

(** Source: backend/src/fetchnow/media_inspection/models.py:48-51 [require_safe_token] *)
Definition require_safe_token (value : string) : exn + unit :=
  raise_if (negb (is_some (fullmatch _SAFE_TOKEN (chars value)))) (ValueError "unsafe token").

(** Source: backend/src/fetchnow/media_inspection/models.py:54-74 [require_finite_non_negative]
    For an integer field, with the comparison of its float against the maximum;
    an integer beyond the range of floats raises [OverflowError] there. *)
Definition require_int (value : option Z) (maximum : option float) : exn + unit :=
  match value with
  | None => inr tt
  | Some n =>
      if n <? 0 then inl (ValueError "invalid value") else
      match maximum with
      | None => inr tt
      | Some m => let? f := float_of_int n in raise_if (fl_ltb m f) (ValueError "exceeds policy maximum")
      end
  end.

(** Source: backend/src/fetchnow/media_inspection/models.py:54-74 [require_finite_non_negative]
    The same for a float field. *)
Definition require_float (value : option float) (maximum : option float) : exn + unit :=
  match value with
  | None => inr tt
  | Some x =>
      if negb (fl_finite x) || fl_ltb x (fl_int 0) then inl (ValueError "invalid value") else
      match maximum with
      | None => inr tt
      | Some m => raise_if (fl_ltb m x) (ValueError "exceeds policy maximum")
      end
  end.

(** Source: backend/src/fetchnow/media_inspection/models.py:92-111 [MediaFormat] *)
Record MediaFormat := {
  format_option_id : string;
  mf_container : string;
  mf_width : option Z;
  mf_height : option Z;
  mf_fps : option float;
  mf_has_video : bool;
  mf_has_audio : bool;
  mf_category : FormatCategory;
  mf_video_codec : CodecFamily;
  mf_audio_codec : CodecFamily;
  mf_approx_bytes : option Z;
  quality_label : string;
  free_tier_eligible : bool;
  mf_media_kind : MediaKind;
  requires_premium : bool;
  mf_bitrate_kbps : option Z
}.

Definition kind_category (k : MediaKind) : FormatCategory :=
  match k with NORMAL_VIDEO => PROGRESSIVE | VIDEO_ONLY => CAT_VIDEO_ONLY | AUDIO_ONLY => CAT_AUDIO_ONLY end.

Definition kind_streams (k : MediaKind) (has_video has_audio : bool) : bool :=
  match k with
  | NORMAL_VIDEO => has_video && has_audio
  | VIDEO_ONLY => has_video && negb has_audio
  | AUDIO_ONLY => has_audio && negb has_video
  end.

(** Source: backend/src/fetchnow/media_inspection/models.py:113-148 [__post_init__]
    The constructor of [MediaFormat]. *)
Definition new_media_format (f : MediaFormat) : exn + MediaFormat :=
  require_safe_token (format_option_id f) ;;?
  require_safe_token (mf_container f) ;;?
  require_safe_token (quality_label f) ;;?
  require_int (mf_width f) None ;;?
  require_int (mf_height f) None ;;?
  require_float (mf_fps f) (Some (fl_int 240)) ;;?
  require_int (mf_approx_bytes f) None ;;?
  require_int (mf_bitrate_kbps f) (Some (fl_int 100000)) ;;?
  raise_if (negb (kind_streams (mf_media_kind f) (mf_has_video f) (mf_has_audio f)))
    (ValueError "kind requires other streams") ;;?
  raise_if (negb (bool_decide (mf_category f = kind_category (mf_media_kind f))))
    (ValueError "format category must match media kind") ;;?
  raise_if (negb (Bool.eqb (requires_premium f) (negb (bool_decide (mf_media_kind f = NORMAL_VIDEO)))))
    (ValueError "Premium requirement must match media kind") ;;?
  raise_if (mf_has_video f && is_none (mf_width f) && is_none (mf_height f))
    (ValueError "video format requires dimensions or explicit null policy") ;;?
  raise_if (negb (mf_has_video f) && negb (mf_has_audio f))
    (ValueError "format must include audio or video") ;;?
  inr f.

(** Equality of formats as Python compares them: the frame rates as floats. *)
Definition opt_fl_eqb (a b : option float) : bool :=
  match a, b with
  | Some x, Some y => fl_eqb x y
  | None, None => true
  | _, _ => false
  end.

Definition media_format_eqb (a b : MediaFormat) : bool :=
  bool_decide (format_option_id a = format_option_id b) && bool_decide (mf_container a = mf_container b) &&
  bool_decide (mf_width a = mf_width b) && bool_decide (mf_height a = mf_height b) &&
  opt_fl_eqb (mf_fps a) (mf_fps b) &&
  Bool.eqb (mf_has_video a) (mf_has_video b) && Bool.eqb (mf_has_audio a) (mf_has_audio b) &&
  bool_decide (mf_category a = mf_category b) && bool_decide (mf_video_codec a = mf_video_codec b) &&
  bool_decide (mf_audio_codec a = mf_audio_codec b) && bool_decide (mf_approx_bytes a = mf_approx_bytes b) &&
  bool_decide (quality_label a = quality_label b) &&
  Bool.eqb (free_tier_eligible a) (free_tier_eligible b) &&
  bool_decide (mf_media_kind a = mf_media_kind b) &&
  Bool.eqb (requires_premium a) (requires_premium b) && bool_decide (mf_bitrate_kbps a = mf_bitrate_kbps b).

(** Source: backend/src/fetchnow/media_inspection/models.py:12-12 [_CONTROL_CHARS] *)
Definition control_char (c : ascii) : bool :=
  in_range 0 8 c || in_range 11 12 c || in_range 14 31 c || in_range 127 127 c.

(** [re.sub(r"[ \n\r]+", " ", s)] *)
Fixpoint squeeze (in_run : bool) (l : list ascii) : list ascii :=
  match l with
  | [] => []
  | c :: l =>
      if in_range 32 32 c || in_range 10 10 c || in_range 13 13 c
      then if in_run then squeeze true l else " "%char :: squeeze true l
      else c :: squeeze false l
  end.

(** [s.rstrip()] *)
Definition rstrip (l : list ascii) : list ascii := reverse (lstrip is_space (reverse l)).

(** Source: backend/src/fetchnow/media_inspection/models.py:77-89 [sanitize_title] *)
Definition sanitize_title (raw : option string) (max_length : Z) : option string :=
  match raw with
  | None => None
  | Some raw =>
      let cleaned := List.filter (fun c => negb (control_char c)) (chars raw) in
      let cleaned := (fun c => if Ascii.eqb c "009"%char then " "%char else c) <$> cleaned in
      let cleaned := strip is_space (squeeze false (strip is_space cleaned)) in
      match cleaned with
      | [] => None
      | _ :: _ =>
          let cleaned := if max_length <? Z.of_nat (length cleaned)
                         then rstrip (take (Z.to_nat max_length) cleaned) else cleaned in
          match cleaned with [] => None | _ :: _ => Some (of_chars cleaned) end
      end
  end.

(** Source: backend/src/fetchnow/media_inspection/models.py:163-175 [MediaMetadata] *)
Record MediaMetadata := {
  mm_provider_id : string;
  mm_canonical_provider_url : string;
  mm_media_id : string;
  mm_title : option string;
  mm_duration_seconds : option Z;
  mm_formats : list MediaFormat;
  extraction_tool : string;
  extraction_tool_version : option string;
  muxing_required : bool
}.

(** [a in s] *)
Fixpoint str_contains (pat l : list ascii) : bool :=
  is_some (strip_prefix pat l) || match l with [] => false | _ :: l' => str_contains pat l' end.

(** Source: backend/src/fetchnow/media_inspection/models.py:177-205 [__post_init__] *)
Definition new_media_metadata (m : MediaMetadata) : exn + MediaMetadata :=
  require_safe_token (mm_provider_id m) ;;?
  require_safe_token (extraction_tool m) ;;?
  let url := chars (mm_canonical_provider_url m) in
  raise_if (str_contains ["?"%char] url || str_contains ["#"%char] url || negb (str_contains (chars "://") url))
    (ValueError "canonical_provider_url must be scheme URL without query/fragment") ;;?
  raise_if (negb (is_some (fullmatch _SAFE_MEDIA_ID (chars (mm_media_id m))))) (ValueError "unsafe media_id") ;;?
  raise_if (match extraction_tool_version m with
            | Some v => (64 <? strlen v) ||
                negb (is_some (fullmatch (Many 1 None (fun c => is_alnum c || is_one_of "._+-" c)) (chars v)))
            | None => false
            end) (ValueError "unsafe extraction_tool_version") ;;?
  require_int (mm_duration_seconds m) None ;;?
  inr m.

(** Source: backend/src/fetchnow/media_inspection/models.py:221-244 [InternalFormatCandidate]
    The frame rate of a candidate is finite. *)
Record InternalFormatCandidate := {
  fc_container : string;
  fc_width : option Z;
  fc_height : option Z;
  fc_fps : option float;
  fc_has_video : bool;
  fc_has_audio : bool;
  fc_video_codec : CodecFamily;
  fc_audio_codec : CodecFamily;
  fc_approx_bytes : option Z;
  provider_format_token : option string;
  fc_protocol : option string;
  has_drm : bool;
  fc_bitrate_kbps : option Z
}.

(** Source: backend/src/fetchnow/media_inspection/models.py:257-269 [ExtractedMediaDraft] *)
Record ExtractedMediaDraft := {
  ed_provider_id : string;
  ed_canonical_provider_url : string;
  ed_media_id : string;
  ed_title : option string;
  ed_duration_seconds : option Z;
  candidates : list InternalFormatCandidate;
  extractor_key : string;
  tool_version : option string
}.

(** ** Size estimates (size_estimate.py) *)

(** A number of a decoded document, as the estimates look at it. *)
Inductive number := NotANumber | PyInt (n : Z) | PyFloat (x : float).

(** Source: backend/src/fetchnow/media_inspection/size_estimate.py:16-18 [MAX_BITRATE_KBPS] *)
Definition MAX_BITRATE_KBPS : float := fl_int 100000.
Definition KBPS_TO_BYTES_PER_SEC : float := fl_int 125.
Definition MAX_INT64 : Z := 2 ^ 63 - 1.

(** Source: backend/src/fetchnow/media_inspection/size_estimate.py:21-31 [finite_positive_number] *)
Definition finite_positive_number (value : number) : exn + option float :=
  match value with
  | NotANumber => inr None
  | PyInt n => if 0 <? n then let? x := float_of_int n in inr (Some x) else inr None
  | PyFloat x => if negb (fl_finite x) || fl_leb x (fl_int 0) then inr None else inr (Some x)
  end.

(** Source: backend/src/fetchnow/media_inspection/size_estimate.py:34-38 [bounded_bitrate_kbps] *)
Definition bounded_bitrate_kbps (value : number) : exn + option float :=
  let? rate := finite_positive_number value in
  inr match rate with
      | Some r => if fl_ltb MAX_BITRATE_KBPS r then None else Some r
      | None => None
      end.

(** Source: backend/src/fetchnow/media_inspection/size_estimate.py:41-48 [bytes_from_reported_size] *)
Definition bytes_from_reported_size (value : number) : exn + option Z :=
  let? size := finite_positive_number value in
  inr match size with
      | Some x =>
          let as_int := fl_trunc x in
          if (as_int <? 1) || (MAX_INT64 <? as_int) then None else Some as_int
      | None => None
      end.

(** Source: backend/src/fetchnow/media_inspection/size_estimate.py:51-74 [bytes_from_bitrate] *)
Definition bytes_from_bitrate (duration_seconds : option Z) (bitrate_kbps : float) : exn + option Z :=
  match duration_seconds with
  | None => inr None
  | Some duration =>
      if duration <=? 0 then inr None else
      if negb (fl_finite bitrate_kbps) || fl_leb bitrate_kbps (fl_int 0) then inr None else
      if fl_ltb MAX_BITRATE_KBPS bitrate_kbps then inr None else
      let? d := float_of_int duration in
      let max_rate := fl_div (fl_int MAX_INT64) (fl_mul KBPS_TO_BYTES_PER_SEC d) in
      if fl_ltb max_rate bitrate_kbps then inr None else
      let estimated := fl_mul (fl_mul d bitrate_kbps) KBPS_TO_BYTES_PER_SEC in
      if negb (fl_finite estimated) || fl_ltb estimated (fl_int 1) then inr None else
      let as_int := fl_trunc estimated in
      if (as_int <? 1) || (MAX_INT64 <? as_int) then inr None else inr (Some as_int)
  end.

(** [a or b] for optional rates: a rate is positive, so present is true. *)
Definition or_else {A} (a : exn + option A) (b : exn + option A) : exn + option A :=
  let? x := a in match x with Some v => inr (Some v) | None => b end.

(** Source: backend/src/fetchnow/media_inspection/size_estimate.py:77-92 [bitrate_for_stream] *)
Definition bitrate_for_stream (has_video has_audio : bool) (tbr vbr abr : number) : exn + option float :=
  if has_video && has_audio then bounded_bitrate_kbps tbr
  else if has_video && negb has_audio then or_else (bounded_bitrate_kbps vbr) (bounded_bitrate_kbps tbr)
  else if has_audio && negb has_video then or_else (bounded_bitrate_kbps abr) (bounded_bitrate_kbps tbr)
  else inr None.

(** Source: backend/src/fetchnow/media_inspection/size_estimate.py:95-122 [estimate_format_bytes] *)
Definition estimate_format_bytes (filesize filesize_approx tbr vbr abr : number)
    (has_video has_audio : bool) (duration_seconds : option Z) : exn + option Z :=
  or_else (bytes_from_reported_size filesize)
    (or_else (bytes_from_reported_size filesize_approx)
      (let? rate := bitrate_for_stream has_video has_audio tbr vbr abr in
       match rate with
       | None => inr None
       | Some rate => bytes_from_bitrate duration_seconds rate
       end)).

(** Source: backend/src/fetchnow/media_inspection/size_estimate.py:125-140 [sum_approx_bytes] *)
Definition sum_approx_bytes (left right : option Z) : option Z :=
  match left, right with
  | Some l, Some r =>
      if (l <? 1) || (r <? 1) then None else
      if MAX_INT64 - r <? l then None else
      let total := l + r in
      if (total <? 1) || (MAX_INT64 <? total) then None else Some total
  | _, _ => None
  end.

(** The constructor keeps what it accepts. *)
Lemma new_media_format_inv f g : new_media_format f = inr g -> g = f.
Proof. unfold new_media_format. intros Hf. do 13 ok_step Hf. by injection Hf. Qed.
