(* ===== verification/MuxPairing.v ===== *)
(** Pairing of video-only and audio-only streams (media_inspection/mux_pairing.py). *)

From S2P Require Export Media Sha256.

Local Open Scope string_scope.
Local Open Scope list_scope.
Local Open Scope Z_scope.

(** ** Settings of media inspection *)

(** Source: backend/src/fetchnow/core/config.py:184-238 [Settings] *)
Record MediaSettings := {
  media_inspection_max_formats : Z;
  media_inspection_max_title_length : Z;
  media_inspection_max_height : Z;
  media_inspection_max_width : Z;
  max_source_duration_seconds : Z;
  max_source_file_bytes : Z;
  media_muxing_enabled : bool;
  media_muxing_max_video_candidates : Z;
  media_muxing_max_audio_candidates : Z;
  media_muxing_max_derived_options : Z
}.

(** ** Option ids *)

(** [str(n if n is not None else "")] *)
Definition opt_str (n : option Z) : string := match n with Some n => py_str n | None => "" end.

(** [0 if fps is None else int(round(float(fps) * 1000))] *)
Definition fps_milli (fps : option float) : Z :=
  match fps with None => 0 | Some x => fl_round (fl_mul x (fl_int 1000)) end.

Definition nul : string := String "000" EmptyString.

(** ["|".join(parts)] *)
Definition join_bar (parts : list string) : string := String.concat "|" parts.

Definition hex_prefix (n : nat) (s : string) : string := String.substring 0 n s.

(** Source: backend/src/fetchnow/media_inspection/mux_pairing.py:35-38 [_token_digest] *)
Definition _token_digest (token : option string) : string :=
  hex_prefix 12 (sha256_hex ("fetchnow-fmt-token-v1" ++ nul ++ default "" token)%string).

(** Source: backend/src/fetchnow/media_inspection/mux_pairing.py:41-47 [_quality_label_for] *)
Definition _quality_label_for (height : option Z) : string :=
  match height with
  | None => "unknown"
  | Some h =>
      match List.find (fun label => label <=? h) [2160; 1440; 1080; 720; 480; 360; 240; 144] with
      | Some label => ("p" ++ py_str label)%string
      | None => "low"
      end
  end.

(** Source: backend/src/fetchnow/media_inspection/mux_pairing.py:50-57 [DerivedMuxOption] *)
Record DerivedMuxOption := {
  mux_public : MediaFormat;
  mux_video : InternalFormatCandidate;
  mux_audio : InternalFormatCandidate;
  mux_output_container : string
}.

(** Source: backend/src/fetchnow/media_inspection/mux_pairing.py:68-98 [mux_option_id_for] *)
Definition mux_option_id_for (video audio : InternalFormatCandidate) (output_container quality_label : string) : string :=
  let material := join_bar
    ["muxed"; quality_label; output_container;
     codec_value (fc_video_codec video); codec_value (fc_audio_codec audio);
     opt_str (fc_width video); opt_str (fc_height video); py_str (fps_milli (fc_fps video));
     opt_str (fc_approx_bytes video); opt_str (fc_approx_bytes audio);
     _token_digest (provider_format_token video); _token_digest (provider_format_token audio)] in
  ("fmt_" ++ hex_prefix 28 (sha256_hex ("fetchnow-fmt-mux-option-v1" ++ nul ++ material)))%string.

(** ** Pairs *)

Definition one_of (s : string) (l : list string) : bool := bool_decide (s ∈ l).
Definition codec_in (c : CodecFamily) (l : list CodecFamily) : bool := bool_decide (c ∈ l).

(** Source: backend/src/fetchnow/media_inspection/mux_pairing.py:28-32 [_MP4_VIDEO] *)
Definition _MP4_VIDEO : list CodecFamily := [AVC].
Definition _MP4_AUDIO : list CodecFamily := [AAC].
Definition _WEBM_VIDEO : list CodecFamily := [VP8; VP9; AV1].
Definition _WEBM_AUDIO : list CodecFamily := [OPUS; VORBIS].
Definition _HTTP_PROTOCOLS : list string := ["http"; "https"].

(** Source: backend/src/fetchnow/media_inspection/mux_pairing.py:101-123 [output_policy_for] *)
Definition output_policy_for (video audio : InternalFormatCandidate) : option string :=
  if one_of (fc_container video) ["mp4"] && one_of (fc_container audio) ["m4a"; "mp4"] &&
     codec_in (fc_video_codec video) _MP4_VIDEO && codec_in (fc_audio_codec audio) _MP4_AUDIO
  then Some "mp4"
  else if one_of (fc_container video) ["webm"] && one_of (fc_container audio) ["webm"; "ogg"; "opus"] &&
     codec_in (fc_video_codec video) _WEBM_VIDEO && codec_in (fc_audio_codec audio) _WEBM_AUDIO
  then Some "webm"
  else None.

(** [not token] *)
Definition no_token (c : InternalFormatCandidate) : bool :=
  match provider_format_token c with None => true | Some t => bool_decide (t = "") end.

Definition transport_ok (c : InternalFormatCandidate) : bool :=
  match fc_protocol c with None => true | Some p => one_of p _HTTP_PROTOCOLS end.

(** Source: backend/src/fetchnow/media_inspection/mux_pairing.py:126-143 [_usable_video] *)
Definition _usable_video (c : InternalFormatCandidate) : bool :=
  if negb (fc_has_video c) || fc_has_audio c then false else
  if has_drm c then false else
  if negb (transport_ok c) then false else
  if codec_in (fc_video_codec c) [NONE; UNKNOWN] then false else
  if no_token c then false else
  if is_none (fc_height c) then false else
  if one_of (fc_container c) ["mp4"] then codec_in (fc_video_codec c) _MP4_VIDEO else
  if one_of (fc_container c) ["webm"] then codec_in (fc_video_codec c) _WEBM_VIDEO else
  false.

(** Source: backend/src/fetchnow/media_inspection/mux_pairing.py:146-161 [_usable_audio] *)
Definition _usable_audio (c : InternalFormatCandidate) : bool :=
  if negb (fc_has_audio c) || fc_has_video c then false else
  if has_drm c then false else
  if negb (transport_ok c) then false else
  if codec_in (fc_audio_codec c) [NONE; UNKNOWN] then false else
  if no_token c then false else
  if one_of (fc_container c) ["m4a"; "mp4"] then codec_in (fc_audio_codec c) _MP4_AUDIO else
  if one_of (fc_container c) ["webm"; "ogg"; "opus"] then codec_in (fc_audio_codec c) _WEBM_AUDIO else
  false.

(** [n or 0] *)
Definition or_zero (n : option Z) : Z := default 0 n.

(** Source: backend/src/fetchnow/media_inspection/mux_pairing.py:164-169 [_video_sort_key] *)
Definition _video_sort_key (c : InternalFormatCandidate) : list atom :=
  [KInt (- or_zero (fc_height c)); KInt (- or_zero (fc_width c)); KStr (_token_digest (provider_format_token c))].

(** Source: backend/src/fetchnow/media_inspection/mux_pairing.py:172-178 [_audio_sort_key] *)
Definition _audio_sort_key (c : InternalFormatCandidate) : list atom :=
  [KInt (default (10 ^ 18) (fc_approx_bytes c)); KStr (_token_digest (provider_format_token c)); KStr (fc_container c)].

(** Source: backend/src/fetchnow/media_inspection/mux_pairing.py:181-188 [_binding_equivalent] *)
Definition mux_binding_equivalent (left right : DerivedMuxOption) : bool :=
  bool_decide (mux_output_container left = mux_output_container right) &&
  bool_decide (provider_format_token (mux_video left) = provider_format_token (mux_video right)) &&
  bool_decide (provider_format_token (mux_audio left) = provider_format_token (mux_audio right)) &&
  media_format_eqb (mux_public left) (mux_public right).

(** [l[:n]] *)
Definition first_n {A} (n : Z) (l : list A) : list A := take (Z.to_nat n) l.

(** Source: backend/src/fetchnow/media_inspection/mux_pairing.py:210-218 [derive_mux_options]
    The first compatible audio stream and the container of the pair. *)
Fixpoint choose_audio (video : InternalFormatCandidate) (audios : list InternalFormatCandidate)
  : option (InternalFormatCandidate * string) :=
  match audios with
  | [] => None
  | audio :: audios =>
      match output_policy_for video audio with
      | Some policy => Some (audio, policy)
      | None => choose_audio video audios
      end
  end.

Section Derive.
Context (settings : MediaSettings).

(** Source: backend/src/fetchnow/media_inspection/mux_pairing.py:209-252 [derive_mux_options]
    The option of one video stream, if it has one. *)
Definition pair_video (audios : list InternalFormatCandidate) (video : InternalFormatCandidate)
  : exn + option DerivedMuxOption :=
  match choose_audio video audios with
  | None => inr None
  | Some (chosen, output) =>
      let label := _quality_label_for (fc_height video) in
      let option_id := mux_option_id_for video chosen output label in
      let approx := sum_approx_bytes (fc_approx_bytes video) (fc_approx_bytes chosen) in
      if match approx with Some n => max_source_file_bytes settings <? n | None => false end then inr None else
      let? public := new_media_format {|
        format_option_id := option_id; mf_container := output;
        mf_width := fc_width video; mf_height := fc_height video; mf_fps := fc_fps video;
        mf_has_video := true; mf_has_audio := true; mf_category := PROGRESSIVE;
        mf_video_codec := fc_video_codec video; mf_audio_codec := fc_audio_codec chosen;
        mf_approx_bytes := approx; quality_label := label; free_tier_eligible := true;
        mf_media_kind := NORMAL_VIDEO; requires_premium := false; mf_bitrate_kbps := None |} in
      inr (Some {| mux_public := public; mux_video := video; mux_audio := chosen; mux_output_container := output |})
  end.

Definition mux_id (item : DerivedMuxOption) : string := format_option_id (mux_public item).

(** Source: backend/src/fetchnow/media_inspection/mux_pairing.py:255-267 [derive_mux_options]
    Equivalent bindings collapse, others under one id are an error. *)
Fixpoint unique_options (seen items : list DerivedMuxOption) : exn + list DerivedMuxOption :=
  match items with
  | [] => inr []
  | item :: items =>
      match List.find (fun e => String.eqb (mux_id e) (mux_id item)) seen with
      | None => let? rest := unique_options (seen ++ [item]) items in inr (item :: rest)
      | Some existing =>
          if mux_binding_equivalent existing item then unique_options seen items
          else inl (InspectionError INSPECTION_POLICY_REJECTED "MUX_OPTION_AMBIGUOUS")
      end
  end.

(** Source: backend/src/fetchnow/media_inspection/mux_pairing.py:191-274 [derive_mux_options] *)
Definition derive_mux_options (candidates : list InternalFormatCandidate) : exn + list DerivedMuxOption :=
  if negb (media_muxing_enabled settings) then inr [] else
  let videos := sort_by _video_sort_key (List.filter _usable_video candidates) in
  let audios := sort_by _audio_sort_key (List.filter _usable_audio candidates) in
  let videos := first_n (media_muxing_max_video_candidates settings) videos in
  let audios := first_n (media_muxing_max_audio_candidates settings) audios in
  if is_nil videos || is_nil audios then inr [] else
  let? prepared := err_map (pair_video audios) videos in
  let prepared := sort_by (fun item => [KStr (mux_id item)]) (omap id prepared) in
  let? unique := unique_options [] prepared in
  let unique := sort_by (fun item => [KInt (- or_zero (fc_height (mux_video item))); KStr (mux_id item)]) unique in
  inr (first_n (media_muxing_max_derived_options settings) unique).
End Derive.
