(* ===== verification/Normalize.v ===== *)
(** The bounded public metadata of an extractor draft (media_inspection/normalize.py). *)

From S2P Require Export MuxPairing.

Local Open Scope string_scope.
Local Open Scope list_scope.
Local Open Scope Z_scope.

(** Source: backend/src/fetchnow/media_inspection/normalize.py:29-29 [_CONTAINER_RE] *)
Definition container_ok (container : string) : bool :=
  is_some (fullmatch (Many 1 (Some 8%nat) (fun c => in_range 97 122 c || is_digit c)) (chars container)).

(** Source: backend/src/fetchnow/media_inspection/normalize.py:31-45 [_VIDEO_CODEC_MAP] *)
Definition _VIDEO_CODEC_MAP : list (string * CodecFamily) :=
  [("none", NONE); ("avc", AVC); ("avc1", AVC); ("h264", AVC); ("h.264", AVC); ("hevc", HEVC);
   ("h265", HEVC); ("h.265", HEVC); ("vp8", VP8); ("vp9", VP9); ("vp09", VP9); ("av01", AV1); ("av1", AV1)].

(** Source: backend/src/fetchnow/media_inspection/normalize.py:47-55 [_AUDIO_CODEC_MAP] *)
Definition _AUDIO_CODEC_MAP : list (string * CodecFamily) :=
  [("none", NONE); ("aac", AAC); ("mp4a", AAC); ("mp3", MP3); ("opus", OPUS); ("vorbis", VORBIS); ("flac", FLAC)].

(** Source: backend/src/fetchnow/media_inspection/normalize.py:58-74 [normalize_codec]
    [table] is the map of the kind asked for. *)
Definition normalize_codec (raw : option string) (table : list (string * CodecFamily)) : CodecFamily :=
  match raw with
  | None => NONE
  | Some raw =>
      let token := of_chars (lower_char <$> strip is_space (chars raw)) in
      if bool_decide (token = "") || bool_decide (token = "none") then NONE else
      match List.find (fun row => String.eqb row.1 token) table with
      | Some row => row.2
      | None =>
          match List.find (fun row => is_some (strip_prefix (chars (row.1 ++ ".")%string) (chars token))) table with
          | Some row => row.2
          | None => UNKNOWN
          end
      end
  end.

(** Source: backend/src/fetchnow/media_inspection/normalize.py:77-85 [quality_label_for] *)
Definition quality_label_for (height : option Z) (has_video : bool) : string :=
  if negb has_video then "audio" else _quality_label_for height.

(** Source: backend/src/fetchnow/media_inspection/normalize.py:88-93 [_category_for] *)
Definition _category_for (has_video has_audio : bool) : FormatCategory :=
  if has_video && has_audio then PROGRESSIVE else if has_video then CAT_VIDEO_ONLY else CAT_AUDIO_ONLY.

(** Source: backend/src/fetchnow/media_inspection/normalize.py:96-101 [_media_kind_for] *)
Definition _media_kind_for (has_video has_audio : bool) : MediaKind :=
  if has_video && has_audio then NORMAL_VIDEO else if has_video then VIDEO_ONLY else AUDIO_ONLY.

(** Source: backend/src/fetchnow/media_inspection/normalize.py:104-119 [_standalone_candidate_supported] *)
Definition _standalone_candidate_supported (c : InternalFormatCandidate) : bool :=
  if has_drm c || no_token c then false
  else if fc_has_video c && negb (fc_has_audio c) then
    one_of (fc_container c) ["mp4"; "webm"; "mkv"] && negb (codec_in (fc_video_codec c) [NONE; UNKNOWN])
  else if fc_has_audio c && negb (fc_has_video c) then
    one_of (fc_container c) ["m4a"; "mp4"; "webm"; "mkv"; "ogg"; "opus"; "aac"; "mp3"] &&
    negb (codec_in (fc_audio_codec c) [NONE; UNKNOWN])
  else true.

(** Source: backend/src/fetchnow/media_inspection/normalize.py:129-150 [format_option_id_for] *)
Definition format_option_id_for (c : InternalFormatCandidate) (label : string) : string :=
  let category := category_value (_category_for (fc_has_video c) (fc_has_audio c)) in
  let material := join_bar
    [label; fc_container c; codec_value (fc_video_codec c); codec_value (fc_audio_codec c); category;
     opt_str (fc_width c); opt_str (fc_height c); py_str (fps_milli (fc_fps c));
     opt_str (fc_approx_bytes c); _token_digest (provider_format_token c)] in
  ("fmt_" ++ hex_prefix 28 (sha256_hex ("fetchnow-fmt-option-v1" ++ nul ++ material)))%string.

(** The id a candidate's option has. *)
Definition option_id_of (c : InternalFormatCandidate) : string :=
  format_option_id_for c (quality_label_for (fc_height c) (fc_has_video c)).

(** Source: backend/src/fetchnow/media_inspection/normalize.py:153-165 [_candidate_sort_key] *)
Definition _candidate_sort_key (c : InternalFormatCandidate) (option_id : string) : list atom :=
  [KInt (if fc_has_video c && fc_has_audio c then 0 else 1);
   KInt (- or_zero (fc_height c)); KInt (- or_zero (fc_approx_bytes c)); KInt (- or_zero (fc_width c));
   KInt (- fps_milli (fc_fps c)); KStr option_id].

Definition exceeds (limit : Z) (n : option Z) : bool := match n with Some n => limit <? n | None => false end.

Section Project.
Context (settings : MediaSettings).

(** Source: backend/src/fetchnow/media_inspection/normalize.py:193-206 [project_metadata]
    The bounds a candidate must keep. *)
Definition in_bounds (c : InternalFormatCandidate) : bool :=
  negb (negb (fc_has_video c) && negb (fc_has_audio c)) &&
  container_ok (fc_container c) &&
  negb (exceeds (media_inspection_max_height settings) (fc_height c)) &&
  negb (exceeds (media_inspection_max_width settings) (fc_width c)) &&
  negb (exceeds (max_source_file_bytes settings) (fc_approx_bytes c)).

(** Source: backend/src/fetchnow/media_inspection/normalize.py:211-216 [project_metadata] *)
Definition offered (c : InternalFormatCandidate) : bool :=
  in_bounds c &&
  negb (negb (bool_decide (_media_kind_for (fc_has_video c) (fc_has_audio c) = NORMAL_VIDEO)) &&
        negb (_standalone_candidate_supported c)).

(** Source: backend/src/fetchnow/media_inspection/normalize.py:207-235 [project_metadata]
    The public option of one candidate, before the constructor's checks. *)
Definition public_format (c : InternalFormatCandidate) : MediaFormat :=
  let label := quality_label_for (fc_height c) (fc_has_video c) in
  let category := _category_for (fc_has_video c) (fc_has_audio c) in
  let media_kind := _media_kind_for (fc_has_video c) (fc_has_audio c) in
  {| format_option_id := format_option_id_for c label; mf_container := fc_container c;
     mf_width := fc_width c; mf_height := fc_height c; mf_fps := fc_fps c;
     mf_has_video := fc_has_video c; mf_has_audio := fc_has_audio c; mf_category := category;
     mf_video_codec := fc_video_codec c; mf_audio_codec := fc_audio_codec c;
     mf_approx_bytes := fc_approx_bytes c; quality_label := label;
     free_tier_eligible := bool_decide (category = PROGRESSIVE) && is_some (fc_height c);
     mf_media_kind := media_kind; requires_premium := negb (bool_decide (media_kind = NORMAL_VIDEO));
     mf_bitrate_kbps := fc_bitrate_kbps c |}.

Definition keyed : Type := list atom * MediaFormat.

(** Source: backend/src/fetchnow/media_inspection/normalize.py:193-236 [project_metadata] *)
Definition prepare (c : InternalFormatCandidate) : exn + keyed :=
  let? fmt := new_media_format (public_format c) in
  inr (_candidate_sort_key c (format_option_id fmt), fmt).

Definition find_format (id : string) (l : list MediaFormat) : option MediaFormat :=
  List.find (fun f => String.eqb (format_option_id f) id) l.

(** Source: backend/src/fetchnow/media_inspection/normalize.py:246-259 [project_metadata]
    Equal formats collapse; different ones under one id are an error. *)
Fixpoint collapse (seen : list MediaFormat) (l : list MediaFormat) : exn + list MediaFormat :=
  match l with
  | [] => inr seen
  | fmt :: l =>
      match find_format (format_option_id fmt) seen with
      | None => collapse (seen ++ [fmt]) l
      | Some existing =>
          if media_format_eqb existing fmt then collapse seen l
          else inl (InspectionError INSPECTION_POLICY_REJECTED "OPTION_AMBIGUOUS")
      end
  end.

(** Source: backend/src/fetchnow/media_inspection/normalize.py:269-277 [project_metadata] *)
Definition direct_free_heights (projected : list MediaFormat) : list Z :=
  omap mf_height (List.filter (fun f =>
    bool_decide (mf_category f = PROGRESSIVE) && free_tier_eligible f && mf_has_video f && mf_has_audio f)
    projected).

(** Source: backend/src/fetchnow/media_inspection/normalize.py:279-291 [project_metadata]
    [by_option] still has the direct options that were cut off. *)
Fixpoint add_derived (heights : list Z) (by_option projected : list MediaFormat) (derived : list DerivedMuxOption)
  : exn + list MediaFormat :=
  match derived with
  | [] => inr projected
  | item :: derived =>
      let public := mux_public item in
      if match mf_height public with Some h => bool_decide (h ∈ heights) | None => false end
      then add_derived heights by_option projected derived
      else
        match find_format (format_option_id public) by_option with
        | None => add_derived heights (by_option ++ [public]) (projected ++ [public]) derived
        | Some existing =>
            if media_format_eqb existing public then add_derived heights by_option projected derived
            else inl (InspectionError INSPECTION_POLICY_REJECTED "OPTION_AMBIGUOUS")
        end
  end.

(** Source: backend/src/fetchnow/media_inspection/normalize.py:292-299 [project_metadata] *)
Definition display_key (fmt : MediaFormat) : list atom :=
  [KInt (if bool_decide (mf_media_kind fmt = NORMAL_VIDEO) then 0 else 1);
   KInt (- or_zero (mf_height fmt)); KInt (- or_zero (mf_bitrate_kbps fmt)); KStr (format_option_id fmt)].

(** Source: backend/src/fetchnow/media_inspection/normalize.py:188-301 [project_metadata]
    The formats offered. *)
Definition project_formats (cs : list InternalFormatCandidate) : exn + list MediaFormat :=
  let? prepared := err_map prepare (List.filter offered cs) in
  if is_nil prepared then inl (InspectionError INSPECTION_POLICY_REJECTED "NO_USABLE_FORMATS") else
  let prepared := sort_by fst prepared in
  let? by_option := collapse [] prepared.*2 in
  let projected := first_n (media_inspection_max_formats settings) by_option in
  if media_muxing_enabled settings then
    let? derived := derive_mux_options settings cs in
    let? projected := add_derived (direct_free_heights projected) by_option projected derived in
    inr (first_n (media_inspection_max_formats settings) (sort_by display_key projected))
  else inr projected.

(** Source: backend/src/fetchnow/media_inspection/normalize.py:168-324 [project_metadata] *)
Definition project_metadata (draft : ExtractedMediaDraft)
    (trusted_canonical_url trusted_media_id trusted_provider_id : string) : exn + MediaMetadata :=
  let title := sanitize_title (ed_title draft) (media_inspection_max_title_length settings) in
  require_int (ed_duration_seconds draft) (Some (fl_int (max_source_duration_seconds settings))) ;;?
  let? public := project_formats (candidates draft) in
  let has_executable := existsb (fun f =>
    bool_decide (mf_category f = PROGRESSIVE) && free_tier_eligible f && mf_has_video f && mf_has_audio f) public in
  new_media_metadata {|
    mm_provider_id := trusted_provider_id; mm_canonical_provider_url := trusted_canonical_url;
    mm_media_id := trusted_media_id; mm_title := title; mm_duration_seconds := ed_duration_seconds draft;
    mm_formats := public; extraction_tool := "ytdlp"; extraction_tool_version := tool_version draft;
    muxing_required := negb has_executable |}.
End Project.
