(* ===== verification/Selection.v ===== *)
(** The binding of an option id to the provider's format token, at download time
    (downloads/selection.py, downloads/format_token.py). *)

From S2P Require Export Normalize.

Local Open Scope string_scope.
Local Open Scope list_scope.
Local Open Scope Z_scope.

(** ** Format tokens (format_token.py) *)

(** Source: backend/src/fetchnow/downloads/format_token.py:7-7 [_TOKEN_RE] *)
Definition _TOKEN_RE : regex := Many 1 (Some 64%nat) (fun c => is_alnum c || is_one_of "._:-" c).

(** Source: backend/src/fetchnow/downloads/format_token.py:9-18 [_RESERVED] *)
Definition _RESERVED : list string := ["best"; "worst"; "bestvideo"; "bestaudio"; "worstvideo"; "worstaudio"].

(** Source: backend/src/fetchnow/downloads/format_token.py:20-20 [_FORBIDDEN_CHARS] *)
Definition forbidden_char (c : ascii) : bool := is_one_of "+/,[]()|{} " c || in_range 9 13 c.

(** Source: backend/src/fetchnow/downloads/format_token.py:23-40 [validate_provider_format_token] *)
Definition validate_provider_format_token (token : string) : exn + string :=
  let l := chars token in
  if is_nil l then inl (ValueError "provider format token invalid") else
  if is_some (strip_prefix ["-"%char] l) then inl (ValueError "provider format token invalid") else
  if existsb (fun c => in_range 0 31 c || in_range 127 127 c) l then inl (ValueError "provider format token invalid") else
  if existsb forbidden_char l then inl (ValueError "provider format token invalid") else
  if negb (is_some (fullmatch _TOKEN_RE l)) then inl (ValueError "provider format token invalid") else
  if one_of (lower token) _RESERVED then inl (ValueError "provider format token reserved") else
  inr token.

(** ** Selections *)

(** Source: backend/src/fetchnow/downloads/selection.py:31-52 [ResolvedDownloadSelection] *)
Record DirectDownloadSelection := {
  ds_format_option_id : string;
  ds_container : string;
  ds_width : option Z;
  ds_height : option Z;
  ds_fps : option float;
  ds_has_video : bool;
  ds_has_audio : bool;
  ds_category : FormatCategory;
  ds_quality_label : string;
  ds_free_tier_eligible : bool;
  ds_approx_bytes : option Z;
  ds_provider_format_token : string;
  ds_media_kind : MediaKind;
  ds_bitrate_kbps : option Z
}.

(** Source: backend/src/fetchnow/downloads/selection.py:70-89 [MuxedDownloadSelection] *)
Record MuxedDownloadSelection := {
  ms_format_option_id : string;
  ms_container : string;
  ms_width : option Z;
  ms_height : option Z;
  ms_fps : option float;
  ms_has_video : bool;
  ms_has_audio : bool;
  ms_category : FormatCategory;
  ms_quality_label : string;
  ms_free_tier_eligible : bool;
  ms_approx_bytes : option Z;
  ms_video_approx_bytes : option Z;
  ms_audio_approx_bytes : option Z;
  ms_expected_duration_seconds : option float;
  ms_video_format_token : string;
  ms_audio_format_token : string
}.

(** Source: backend/src/fetchnow/downloads/selection.py:107-107 [DownloadSelection] *)
Inductive DownloadSelection :=
| Direct (s : DirectDownloadSelection)
| Muxed (s : MuxedDownloadSelection).

(** Source: backend/src/fetchnow/downloads/selection.py:123-125 [_free_tier_eligible] *)
Definition _free_tier_eligible (c : InternalFormatCandidate) : bool :=
  bool_decide (_category_for (fc_has_video c) (fc_has_audio c) = PROGRESSIVE) && is_some (fc_height c).

(** Source: backend/src/fetchnow/downloads/selection.py:128-165 [_props_match] *)
Definition _props_match (c : InternalFormatCandidate) (p : MediaFormat) : bool :=
  let label := quality_label_for (fc_height c) (fc_has_video c) in
  let category := _category_for (fc_has_video c) (fc_has_audio c) in
  let media_kind := match category with
                    | PROGRESSIVE => NORMAL_VIDEO | CAT_VIDEO_ONLY => VIDEO_ONLY | CAT_AUDIO_ONLY => AUDIO_ONLY
                    end in
  bool_decide (fc_container c = mf_container p) && bool_decide (fc_width c = mf_width p) &&
  bool_decide (fc_height c = mf_height p) && opt_fl_eqb (fc_fps c) (mf_fps p) &&
  Bool.eqb (fc_has_video c) (mf_has_video p) && Bool.eqb (fc_has_audio c) (mf_has_audio p) &&
  bool_decide (category = mf_category p) && bool_decide (fc_video_codec c = mf_video_codec p) &&
  bool_decide (fc_audio_codec c = mf_audio_codec p) && bool_decide (fc_approx_bytes c = mf_approx_bytes p) &&
  bool_decide (label = quality_label p) && bool_decide (media_kind = mf_media_kind p) &&
  Bool.eqb (requires_premium p) (negb (bool_decide (media_kind = NORMAL_VIDEO))) &&
  bool_decide (fc_bitrate_kbps c = mf_bitrate_kbps p) &&
  Bool.eqb (_free_tier_eligible c) (free_tier_eligible p).

(** Source: backend/src/fetchnow/downloads/selection.py:168-192 [_binding_equivalent] *)
Definition _binding_equivalent (left right : InternalFormatCandidate) : bool :=
  bool_decide (provider_format_token left = provider_format_token right) &&
  bool_decide (fc_container left = fc_container right) && bool_decide (fc_width left = fc_width right) &&
  bool_decide (fc_height left = fc_height right) && opt_fl_eqb (fc_fps left) (fc_fps right) &&
  Bool.eqb (fc_has_video left) (fc_has_video right) && Bool.eqb (fc_has_audio left) (fc_has_audio right) &&
  bool_decide (fc_video_codec left = fc_video_codec right) &&
  bool_decide (fc_audio_codec left = fc_audio_codec right) &&
  bool_decide (fc_bitrate_kbps left = fc_bitrate_kbps right) &&
  bool_decide (fc_approx_bytes left = fc_approx_bytes right).

(** [n or -1] *)
Definition or_minus_one (n : option Z) : Z :=
  match n with Some n => if n =? 0 then -1 else n | None => -1 end.

(** Source: backend/src/fetchnow/downloads/selection.py:195-208 [_candidate_sort_key] *)
Definition selection_sort_key (item : string * InternalFormatCandidate) : list atom :=
  let '(option_id, c) := item in
  [KStr option_id; KStr (fc_container c); KStr (default "" (provider_format_token c));
   KInt (or_minus_one (fc_height c)); KInt (or_minus_one (fc_width c)); KInt (or_minus_one (fc_bitrate_kbps c));
   KStr (opt_str (fc_approx_bytes c))].

(** Source: backend/src/fetchnow/downloads/selection.py:284-296 [_validate_token] *)
Definition _validate_token (raw_token : option string) : exn + string :=
  match raw_token with
  | None => inl (unavailable "TOKEN_MISSING")
  | Some token =>
      if is_nil (strip is_space (chars token)) then inl (unavailable "TOKEN_MISSING") else
      match validate_provider_format_token token with
      | inr token => inr token
      | inl (ValueError _) => inl (unavailable "TOKEN_INVALID")
      | inl e => inl e
      end
  end.

(** Source: backend/src/fetchnow/downloads/selection.py:299-351 [_resolve_direct] *)
Definition _resolve_direct (matched : InternalFormatCandidate) (persisted : MediaFormat)
    (requested_option_id : string) : exn + DirectDownloadSelection :=
  let? token := _validate_token (provider_format_token matched) in
  if negb (_props_match matched persisted) then inl (unavailable "PROPS_MISMATCH") else
  let media_kind := mf_media_kind persisted in
  if negb (kind_streams media_kind (fc_has_video matched) (fc_has_audio matched))
  then inl (unavailable "MEDIA_KIND_MISMATCH") else
  inr {| ds_format_option_id := requested_option_id; ds_container := fc_container matched;
         ds_width := fc_width matched; ds_height := fc_height matched; ds_fps := fc_fps matched;
         ds_has_video := fc_has_video matched; ds_has_audio := fc_has_audio matched;
         ds_category := _category_for (fc_has_video matched) (fc_has_audio matched);
         ds_quality_label := quality_label_for (fc_height matched) (fc_has_video matched);
         ds_free_tier_eligible := free_tier_eligible persisted;
         ds_approx_bytes := fc_approx_bytes matched; ds_provider_format_token := token;
         ds_media_kind := media_kind; ds_bitrate_kbps := fc_bitrate_kbps matched |}.

Section Resolve.
Context (settings : MediaSettings).

(** Source: backend/src/fetchnow/downloads/selection.py:354-402 [_resolve_muxed]
    The dictionary keeps the last option of an id. *)
Definition _resolve_muxed (cs : list InternalFormatCandidate) (requested_option_id : string)
    (persisted : MediaFormat) (duration_seconds : option Z) : exn + option MuxedDownloadSelection :=
  if negb (media_muxing_enabled settings) then inr None else
  if negb (bool_decide (mf_category persisted = PROGRESSIVE)) then inr None else
  if negb (mf_has_video persisted && mf_has_audio persisted && free_tier_eligible persisted) then inr None else
  let? derived := derive_mux_options settings cs in
  match List.find (fun item => String.eqb (mux_id item) requested_option_id) (reverse derived) with
  | None => inr None
  | Some matched =>
      if negb (media_format_eqb (mux_public matched) persisted) then inl (unavailable "PROPS_MISMATCH") else
      let? video_token := _validate_token (provider_format_token (mux_video matched)) in
      let? audio_token := _validate_token (provider_format_token (mux_audio matched)) in
      inr (Some {| ms_format_option_id := requested_option_id; ms_container := mux_output_container matched;
                   ms_width := mf_width (mux_public matched); ms_height := mf_height (mux_public matched);
                   ms_fps := mf_fps (mux_public matched); ms_has_video := true; ms_has_audio := true;
                   ms_category := PROGRESSIVE; ms_quality_label := quality_label (mux_public matched);
                   ms_free_tier_eligible := true; ms_approx_bytes := mf_approx_bytes (mux_public matched);
                   ms_video_approx_bytes := fc_approx_bytes (mux_video matched);
                   ms_audio_approx_bytes := fc_approx_bytes (mux_audio matched);
                   ms_expected_duration_seconds := fl_of_Z <$> duration_seconds;
                   ms_video_format_token := video_token; ms_audio_format_token := audio_token |})
  end.

(** Source: backend/src/fetchnow/downloads/selection.py:252-263 [resolve_selection_from_draft] *)
Fixpoint bind_options (by_option : list (string * InternalFormatCandidate))
    (prepared : list (string * InternalFormatCandidate)) : exn + list (string * InternalFormatCandidate) :=
  match prepared with
  | [] => inr by_option
  | (option_id, c) :: prepared =>
      match List.find (fun e => String.eqb e.1 option_id) by_option with
      | None => bind_options (by_option ++ [(option_id, c)]) prepared
      | Some existing =>
          if _binding_equivalent existing.2 c then bind_options by_option prepared
          else inl (unavailable "OPTION_AMBIGUOUS")
      end
  end.

(** Source: backend/src/fetchnow/downloads/selection.py:211-281 [resolve_selection_from_draft] *)
Definition resolve_selection_from_draft (draft : ExtractedMediaDraft) (requested_option_id : string)
    (persisted : MediaFormat) : exn + DownloadSelection :=
  if negb (bool_decide (requested_option_id = format_option_id persisted)) then inl (unavailable "OPTION_ID_MISMATCH") else
  let bounded := List.filter (in_bounds settings) (candidates draft) in
  let prepared := sort_by selection_sort_key ((fun c => (option_id_of c, c)) <$> bounded) in
  let? by_option := bind_options [] prepared in
  match List.find (fun e => String.eqb e.1 requested_option_id) by_option with
  | Some (_, matched) =>
      let? s := _resolve_direct matched persisted requested_option_id in inr (Direct s)
  | None =>
      let? muxed := _resolve_muxed bounded requested_option_id persisted (ed_duration_seconds draft) in
      match muxed with
      | Some s => inr (Muxed s)
      | None => inl (unavailable "OPTION_MISSING")
      end
  end.
End Resolve.
