(* ===== verification/SelectionTheorems.v ===== *)
(** Option ids are bound exactly.

    What [resolve_selection_from_draft] returns is the stream the id was made
    from ([selection_is_exact]), and every option that [project_metadata] offers
    for a draft resolves against that draft ([offered_options_resolve]). *)

From S2P Require Export Selection.

Local Open Scope string_scope.
Local Open Scope list_scope.
Local Open Scope Z_scope.

(** ** Lists *)

Lemma find_Some_elem {A} (p : A -> bool) l x : List.find p l = Some x -> x ∈ l /\ p x = true.
Proof. intros [Hin Hp]%find_some. split; [by apply list_elem_of_In|done]. Qed.

Lemma find_None_elem {A} (p : A -> bool) l x : List.find p l = None -> x ∈ l -> p x = false.
Proof. intros Hf Hx. eapply find_none; [exact Hf|by apply list_elem_of_In]. Qed.

Lemma lfilter_elem {A} (p : A -> bool) l x : x ∈ List.filter p l <-> x ∈ l /\ p x = true.
Proof. rewrite !list_elem_of_In. apply filter_In. Qed.

Lemma err_map_source {E A B} (f : A -> E + B) l ys y :
  err_map f l = inr ys -> y ∈ ys -> exists x, x ∈ l /\ f x = inr y.
Proof.
  revert ys. induction l as [|x l IH]; intros ys Hm Hy; cbn in Hm.
  { injection Hm as <-. by apply not_elem_of_nil in Hy. }
  ok_step Hm. ok_step Hm. injection Hm as <-. apply elem_of_cons in Hy as [-> |Hy].
  - exists x. split; [by left|done].
  - destruct (IH _ Hm1 Hy) as (x' & Hx' & Hf). exists x'. split; [by right|done].
Qed.

Lemma first_n_elem {A} n (l : list A) x : x ∈ first_n n l -> x ∈ l.
Proof. apply subseteq_take. Qed.

(** ** Constructed formats *)

Lemma new_media_format_fps f g : new_media_format f = inr g -> opt_fl_eqb (mf_fps f) (mf_fps f) = true.
Proof.
  unfold new_media_format. intros Hf. do 5 ok_step Hf. ok_step Hf. unfold require_float in Hf5.
  destruct (mf_fps f) as [x|]; [|done]. cbn. apply fl_eqb_refl. by destruct (fl_finite x).
Qed.

Lemma media_format_eqb_refl f : opt_fl_eqb (mf_fps f) (mf_fps f) = true -> media_format_eqb f f = true.
Proof.
  intros Hf. unfold media_format_eqb. rewrite Hf, !eqb_reflx.
  repeat (rewrite bool_decide_eq_true_2 by done). done.
Qed.

(** ** Derived options *)

Section Derived.
Context (settings : MediaSettings).

Definition mux_format (video audio : InternalFormatCandidate) (output : string) : MediaFormat :=
  let label := _quality_label_for (fc_height video) in
  {| format_option_id := mux_option_id_for video audio output label; mf_container := output;
     mf_width := fc_width video; mf_height := fc_height video; mf_fps := fc_fps video;
     mf_has_video := true; mf_has_audio := true; mf_category := PROGRESSIVE;
     mf_video_codec := fc_video_codec video; mf_audio_codec := fc_audio_codec audio;
     mf_approx_bytes := sum_approx_bytes (fc_approx_bytes video) (fc_approx_bytes audio);
     quality_label := label; free_tier_eligible := true;
     mf_media_kind := NORMAL_VIDEO; requires_premium := false; mf_bitrate_kbps := None |}.

(** A derived option is a compatible pair of usable streams of the list. *)
Record derived_from (cs : list InternalFormatCandidate) (item : DerivedMuxOption) : Prop := {
  df_video : mux_video item ∈ cs;
  df_audio : mux_audio item ∈ cs;
  df_usable_video : _usable_video (mux_video item) = true;
  df_usable_audio : _usable_audio (mux_audio item) = true;
  df_policy : output_policy_for (mux_video item) (mux_audio item) = Some (mux_output_container item);
  df_public : mux_public item = mux_format (mux_video item) (mux_audio item) (mux_output_container item);
  df_fps : opt_fl_eqb (mf_fps (mux_public item)) (mf_fps (mux_public item)) = true;
  df_valid : new_media_format (mux_public item) = inr (mux_public item);
  df_size : exceeds (max_source_file_bytes settings) (mf_approx_bytes (mux_public item)) = false
}.

Lemma choose_audio_spec video audios audio output :
  choose_audio video audios = Some (audio, output) ->
  audio ∈ audios /\ output_policy_for video audio = Some output.
Proof.
  induction audios as [|a audios IH]; [done|]. cbn. destruct (output_policy_for video a) eqn:E.
  - intros [= <- <-]. split; [by left|done].
  - intros Hc. destruct (IH Hc). split; [by right|done].
Qed.

Lemma pair_video_spec cs audios video item :
  (forall a, a ∈ audios -> a ∈ cs /\ _usable_audio a = true) -> video ∈ cs -> _usable_video video = true ->
  pair_video settings audios video = inr (Some item) -> derived_from cs item.
Proof.
  intros Ha Hv Huv. unfold pair_video. destruct (choose_audio video audios) as [[audio output]|] eqn:Ec; [|done].
  apply choose_audio_spec in Ec as [Hin Hpol]. destruct (Ha _ Hin) as [Hain Hua].
  destruct (match sum_approx_bytes _ _ with Some _ => _ | None => _ end) eqn:Esize; [done|].
  intros Hp. ok_step Hp. injection Hp as <-. pose proof (new_media_format_fps _ _ Hp0) as Hfps.
  pose proof (new_media_format_inv _ _ Hp0) as ->. by split.
Qed.

Lemma unique_options_spec seen items l :
  NoDup (mux_id <$> seen) -> unique_options seen items = inr l ->
  (forall item, item ∈ l -> item ∈ items) /\ NoDup (mux_id <$> (seen ++ l)).
Proof.
  revert seen l. induction items as [|item items IH]; intros seen l Hnd Hu; cbn in Hu.
  { injection Hu as <-. rewrite app_nil_r. split; [done|done]. }
  destruct (List.find _ seen) as [existing|] eqn:Ef.
  - destruct (mux_binding_equivalent existing item); [|done]. destruct (IH _ _ Hnd Hu) as [Hin Hd].
    split; [|done]. intros x Hx. right. by apply Hin.
  - ok_step Hu. injection Hu as <-. assert (Hnd' : NoDup (mux_id <$> seen ++ [item])).
    { rewrite fmap_app. apply NoDup_app. split; [done|]. split; [|apply NoDup_singleton].
      intros i (e & -> & He)%list_elem_of_fmap. cbn. rewrite list_elem_of_singleton. intros Hi.
      pose proof (find_None_elem _ _ _ Ef He) as Hn. apply String.eqb_neq in Hn. done. }
    destruct (IH _ _ Hnd' Hu0) as [Hin Hd]. split.
    + intros x Hx. apply elem_of_cons in Hx as [-> |Hx]; [by left|right; by apply Hin].
    + by rewrite <- app_assoc in Hd.
Qed.

Lemma derive_spec cs derived :
  derive_mux_options settings cs = inr derived ->
  (forall item, item ∈ derived -> derived_from cs item /\ media_muxing_enabled settings = true) /\
  NoDup (mux_id <$> derived).
Proof.
  unfold derive_mux_options. destruct (media_muxing_enabled settings); cbn [negb].
  2: { intros [= <-]. split; [|apply NoDup_nil_2]. intros item Hi. by apply not_elem_of_nil in Hi. }
  destruct (is_nil _ || is_nil _).
  { intros [= <-]. split; [|apply NoDup_nil_2]. intros item Hi. by apply not_elem_of_nil in Hi. }
  intros Hd. ok_step Hd. ok_step Hd. injection Hd as <-.
  destruct (unique_options_spec [] _ _ ltac:(apply NoDup_nil_2) Hd1) as [Hin Hnd]. split.
  - intros item Hi. split; [|done]. apply first_n_elem, elem_of_sort_by, Hin in Hi.
    rewrite elem_of_sort_by, list_elem_of_omap in Hi. destruct Hi as (o & Ho & Eo). cbn in Eo. subst o.
    destruct (err_map_source _ _ _ _ Hd0 Ho) as (video & Hv & Hp).
    apply first_n_elem in Hv. rewrite elem_of_sort_by, lfilter_elem in Hv. destruct Hv as [Hv Huv].
    eapply pair_video_spec; [|exact Hv|exact Huv|exact Hp].
    intros a Ha. apply first_n_elem in Ha. by rewrite elem_of_sort_by, lfilter_elem in Ha.
  - unfold first_n. rewrite fmap_take. eapply sublist_NoDup; [|apply sublist_take].
    rewrite sort_by_perm. exact Hnd.
Qed.

(** Only usable streams matter. *)
Lemma derive_filter (p : InternalFormatCandidate -> bool) cs :
  (forall c, c ∈ cs -> _usable_video c || _usable_audio c = true -> p c = true) ->
  derive_mux_options settings (List.filter p cs) = derive_mux_options settings cs.
Proof.
  intros Hp. unfold derive_mux_options.
  assert (Hf : forall q, (forall c, q c = true -> _usable_video c || _usable_audio c = true) ->
    List.filter q (List.filter p cs) = List.filter q cs).
  { intros q Hq. clear -Hp Hq. induction cs as [|c cs IH]; [done|]. cbn.
    assert (Hp' : forall c0, c0 ∈ cs -> _usable_video c0 || _usable_audio c0 = true -> p c0 = true)
      by (intros; apply Hp; [by right|done]).
    specialize (IH Hp'). destruct (q c) eqn:Eq.
    - rewrite (Hp c) by (by left || by apply Hq). cbn. by rewrite Eq, IH.
    - destruct (p c); cbn; rewrite ?Eq; exact IH. }
  rewrite !Hf; [done|intros c ->; by rewrite orb_true_r|by intros c ->].
Qed.
End Derived.

(** ** Direct options *)

Lemma bind_options_spec by_option prepared bound :
  bind_options by_option prepared = inr bound ->
  forall id c, (id, c) ∈ bound -> (id, c) ∈ by_option \/ (id, c) ∈ prepared.
Proof.
  revert by_option. induction prepared as [|[id c] prepared IH]; intros by_option Hb i x Hx; cbn in Hb.
  { injection Hb as ->. by left. }
  destruct (List.find _ by_option) as [existing|].
  - destruct (_binding_equivalent existing.2 c); [|done].
    destruct (IH _ Hb _ _ Hx); [by left|right; by right].
  - destruct (IH _ Hb _ _ Hx) as [Hin|]; [|right; by right].
    apply elem_of_app in Hin as [|Hin]; [by left|]. apply list_elem_of_singleton in Hin as ->. right. by left.
Qed.

Lemma bind_options_total by_option prepared :
  (forall e i, e ∈ by_option ++ prepared -> i ∈ by_option ++ prepared -> e.1 = i.1 -> _binding_equivalent e.2 i.2 = true) ->
  exists bound, bind_options by_option prepared = inr bound /\
    forall id, id ∈ (by_option ++ prepared).*1 -> id ∈ bound.*1.
Proof.
  revert by_option. induction prepared as [|[id c] prepared IH]; intros by_option Heq; cbn.
  { exists by_option. rewrite app_nil_r. done. }
  destruct (List.find _ by_option) as [existing|] eqn:Ef.
  - apply find_Some_elem in Ef as [Hin Hid%String.eqb_eq]. assert (Hb : _binding_equivalent existing.2 c = true) by (apply (Heq existing (id, c)); [set_solver..|done]).
    rewrite Hb. clear Hb.
    destruct (IH by_option) as (bound & Hb & Hids); [intros; apply Heq; set_solver|].
    exists bound. split; [done|]. intros i Hi. apply Hids. rewrite fmap_app, elem_of_app in *. destruct Hi as [|Hi]; [by left|].
    cbn in Hi. apply elem_of_cons in Hi as [-> |]; [|by right]. left. rewrite <- Hid. by apply list_elem_of_fmap_2.
  - destruct (IH (by_option ++ [(id, c)])) as (bound & Hb & Hids).
    { intros e i. rewrite <- app_assoc. apply Heq. }
    exists bound. split; [done|]. intros i Hi. apply Hids. by rewrite <- app_assoc.
Qed.

Lemma find_key {A} (l : list (string * A)) k : k ∈ l.*1 -> exists x, List.find (fun e => String.eqb e.1 k) l = Some (k, x).
Proof.
  intros Hk. destruct (List.find _ l) as [[k' x]|] eqn:E.
  - apply find_Some_elem in E as [_ E%String.eqb_eq]. cbn in E. subst k'. by exists x.
  - exfalso. apply list_elem_of_fmap in Hk as ([k' x] & -> & Hin).
    pose proof (find_None_elem _ _ _ E Hin) as Hn. cbn in Hn. by rewrite String.eqb_refl in Hn.
Qed.

Lemma validate_token_spec raw token : _validate_token raw = inr token -> raw = Some token.
Proof.
  unfold _validate_token. destruct raw as [t|]; [|done]. destruct (is_nil _); [done|].
  destruct (validate_provider_format_token t) as [e|t'] eqn:E; [by destruct e|]. intros [= ->]. f_equal.
  unfold validate_provider_format_token in E. repeat (destruct (is_nil _) || destruct (is_some _) || destruct (existsb _ _) || destruct (one_of _ _) || cbn [negb] in E); try done.
  by injection E.
Qed.

(** ** What a selection is bound to *)

(** The stream, or the pair of streams, that the option id was made from. *)
Definition bound_to (settings : MediaSettings) (draft : ExtractedMediaDraft) (fmt : MediaFormat)
    (selection : DownloadSelection) : Prop :=
  match selection with
  | Direct s =>
      exists c, c ∈ candidates draft /\ in_bounds settings c = true /\
        option_id_of c = format_option_id fmt /\ provider_format_token c = Some (ds_provider_format_token s) /\
        _props_match c fmt = true /\
        ds_format_option_id s = format_option_id fmt /\ ds_container s = mf_container fmt /\
        ds_height s = mf_height fmt /\ ds_media_kind s = mf_media_kind fmt
  | Muxed s =>
      exists v a, v ∈ candidates draft /\ a ∈ candidates draft /\
        in_bounds settings v = true /\ in_bounds settings a = true /\
        _usable_video v = true /\ _usable_audio a = true /\
        output_policy_for v a = Some (ms_container s) /\
        mux_option_id_for v a (ms_container s) (quality_label fmt) = format_option_id fmt /\
        provider_format_token v = Some (ms_video_format_token s) /\
        provider_format_token a = Some (ms_audio_format_token s) /\
        ms_format_option_id s = format_option_id fmt /\ ms_height s = mf_height fmt /\
        media_format_eqb (mux_format v a (ms_container s)) fmt = true
  end.

Lemma resolve_direct_bound settings draft c fmt s :
  c ∈ candidates draft -> in_bounds settings c = true -> option_id_of c = format_option_id fmt ->
  _resolve_direct c fmt (format_option_id fmt) = inr s -> bound_to settings draft fmt (Direct s).
Proof.
  intros Hc Hb Hid. unfold _resolve_direct. intros Hr. ok_step Hr. apply validate_token_spec in Hr0.
  destruct (_props_match c fmt) eqn:Ep; [|done]. cbn [negb] in Hr. destruct (kind_streams _ _ _); [|done].
  injection Hr as <-. exists c. cbn. unfold _props_match in Ep. assert (Ep' := Ep).
  rewrite !andb_true_iff, !bool_decide_eq_true in Ep'. decompose [and] Ep'. by split_and!.
Qed.

Lemma quality_label_eq a b : media_format_eqb a b = true ->
  quality_label a = quality_label b /\ format_option_id a = format_option_id b /\ mf_height a = mf_height b.
Proof.
  unfold media_format_eqb. rewrite !andb_true_iff, !bool_decide_eq_true. intros He. decompose [and] He. done.
Qed.

Lemma resolve_muxed_bound settings draft fmt s duration :
  _resolve_muxed settings (List.filter (in_bounds settings) (candidates draft)) (format_option_id fmt) fmt duration =
    inr (Some s) ->
  bound_to settings draft fmt (Muxed s).
Proof.
  unfold _resolve_muxed. destruct (negb _); [done|]. destruct (negb _) in |- *; [done|].
  destruct (negb _) in |- *; [done|]. intros Hr. ok_step Hr.
  destruct (List.find _ _) as [item|] eqn:Ef; [|done]. apply find_Some_elem in Ef as [Hin _].
  rewrite elem_of_reverse in Hin. apply derive_spec in Hr0 as [Hd _]. destruct (Hd _ Hin) as [Hfrom _].
  destruct (media_format_eqb (mux_public item) fmt) eqn:Eeq; [|done]. cbn [negb] in Hr.
  ok_step Hr. ok_step Hr. injection Hr as <-. apply validate_token_spec in Hr0, Hr1.
  destruct Hfrom as [Hv Ha Huv Hua Hpol Hpub _ _]. rewrite lfilter_elem in Hv, Ha. destruct Hv, Ha.
  destruct (quality_label_eq _ _ Eeq) as (Hq & Hi & Hh). rewrite Hpub in Hq, Hi, Eeq.
  exists (mux_video item), (mux_audio item). cbn in *. by rewrite <- Hq.
Qed.

(** C21: No closest, best or first-wins fallback: a selection returned for an
    option is the one stream (or the one compatible pair of streams) of the
    current draft, within the bounds, whose id, container, dimensions, codecs,
    rates and kind are the persisted ones, with exactly its provider token. *)
Theorem selection_is_exact settings draft requested_option_id persisted selection :
  resolve_selection_from_draft settings draft requested_option_id persisted = inr selection ->
  requested_option_id = format_option_id persisted /\ bound_to settings draft persisted selection.
Proof.
  unfold resolve_selection_from_draft. case_bool_decide as Hid; [|done]. cbn [negb]. subst requested_option_id.
  intros Hr. split; [done|]. ok_step Hr. rename v into by_option.
  destruct (List.find _ by_option) as [[id c]|] eqn:Ef.
  - ok_step Hr. injection Hr as <-. apply find_Some_elem in Ef as [Hin Hid%String.eqb_eq]. cbn in Hid. subst id.
    destruct (bind_options_spec _ _ _ Hr0 _ _ Hin) as [Hn|Hp]; [by apply not_elem_of_nil in Hn|].
    rewrite elem_of_sort_by, list_elem_of_fmap in Hp. destruct Hp as (c' & [= Hopt <-] & Hc).
    rewrite lfilter_elem in Hc. destruct Hc. by eapply resolve_direct_bound.
  - ok_step Hr. destruct v as [s|]; [|done]. injection Hr as <-. by eapply resolve_muxed_bound.
Qed.

(** ** Every option offered resolves *)

Lemma collapse_elem seen l r fmt : collapse seen l = inr r -> fmt ∈ r -> fmt ∈ seen \/ fmt ∈ l.
Proof.
  revert seen. induction l as [|f l IH]; intros seen Hc Hin; cbn in Hc.
  { injection Hc as ->. by left. }
  destruct (find_format _ seen) as [existing|].
  - destruct (media_format_eqb existing f); [|done]. destruct (IH _ Hc Hin); [by left|right; by right].
  - destruct (IH _ Hc Hin) as [Ha|]; [|right; by right]. apply elem_of_app in Ha as [|Ha]; [by left|].
    apply list_elem_of_singleton in Ha as ->. right. by left.
Qed.

Lemma add_derived_elem heights by_option projected derived r fmt :
  add_derived heights by_option projected derived = inr r -> fmt ∈ r ->
  fmt ∈ projected \/ exists item, item ∈ derived /\ fmt = mux_public item.
Proof.
  revert by_option projected. induction derived as [|item derived IH]; intros by_option projected Ha Hin; cbn in Ha.
  { injection Ha as ->. by left. }
  assert (Hskip : (fmt ∈ projected \/ exists i, i ∈ derived /\ fmt = mux_public i) ->
    fmt ∈ projected \/ exists i, i ∈ item :: derived /\ fmt = mux_public i).
  { intros [|(i & Hi & ->)]; [by left|]. right. exists i. split; [by right|done]. }
  destruct (match mf_height _ with Some _ => _ | None => _ end); [by eapply Hskip, IH|].
  destruct (find_format _ by_option) as [existing|].
  - destruct (media_format_eqb existing _); [|done]. by eapply Hskip, IH.
  - destruct (IH _ _ Ha Hin) as [Hp|Hd]; [|by apply Hskip; right].
    apply elem_of_app in Hp as [|Hp]; [by left|]. apply list_elem_of_singleton in Hp as ->.
    right. exists item. split; [by left|done].
Qed.

(** Where an offered option comes from. *)
Definition source_of (settings : MediaSettings) (cs : list InternalFormatCandidate) (fmt : MediaFormat) : Prop :=
  (exists c, c ∈ cs /\ offered settings c = true /\ fmt = public_format c /\ new_media_format fmt = inr fmt) \/
  (media_muxing_enabled settings = true /\
   exists derived item, derive_mux_options settings cs = inr derived /\ item ∈ derived /\ fmt = mux_public item).

Lemma project_formats_source settings cs formats fmt :
  project_formats settings cs = inr formats -> fmt ∈ formats -> source_of settings cs fmt.
Proof.
  unfold project_formats. intros Hp Hin. ok_step Hp. rename v into prepared.
  destruct (is_nil prepared); [done|]. ok_step Hp. rename v into by_option.
  assert (Hdirect : forall f, f ∈ by_option -> source_of settings cs f).
  { intros f Hf. destruct (collapse_elem _ _ _ _ Hp1 Hf) as [Hn|Hl]; [by apply not_elem_of_nil in Hn|].
    apply list_elem_of_fmap in Hl as ([k f'] & -> & Hk). apply elem_of_sort_by in Hk.
    destruct (err_map_source _ _ _ _ Hp0 Hk) as (c & Hc & Hprep). rewrite lfilter_elem in Hc. destruct Hc as [Hc Ho].
    unfold prepare in Hprep. ok_step Hprep. injection Hprep as _ <-. pose proof (new_media_format_inv _ _ Hprep0) as ->.
    left. by exists c. }
  destruct (media_muxing_enabled settings) eqn:Em.
  - ok_step Hp. ok_step Hp. injection Hp as <-. apply first_n_elem, elem_of_sort_by in Hin.
    destruct (add_derived_elem _ _ _ _ _ _ Hp3 Hin) as [Hf|(item & Hi & ->)].
    + apply first_n_elem in Hf. by apply Hdirect.
    + right. split; [done|]. by exists v, item.
  - injection Hp as <-. apply first_n_elem in Hin. by apply Hdirect.
Qed.

(** An unambiguous draft: streams under one option id are the same stream, and
    no derived id is a direct one. *)
Record unambiguous (settings : MediaSettings) (draft : ExtractedMediaDraft) : Prop := {
  un_direct : forall c c', c ∈ candidates draft -> c' ∈ candidates draft ->
    option_id_of c = option_id_of c' -> _binding_equivalent c c' = true;
  un_mux : forall c derived item, c ∈ candidates draft ->
    derive_mux_options settings (candidates draft) = inr derived -> item ∈ derived -> option_id_of c <> mux_id item
}.

(** Streams with a token the download tool accepts; the extractor keeps no
    usable stream beyond the bounds. *)
Record downloadable (settings : MediaSettings) (draft : ExtractedMediaDraft) : Prop := {
  dl_tokens : forall c, c ∈ candidates draft -> exists token, _validate_token (provider_format_token c) = inr token;
  dl_bounds : forall c, c ∈ candidates draft -> _usable_video c || _usable_audio c = true -> in_bounds settings c = true
}.

Lemma equivalent_props c c' : _binding_equivalent c c' = true -> _props_match c (public_format c') = true.
Proof.
  unfold _binding_equivalent. rewrite !andb_true_iff, !bool_decide_eq_true, !eqb_true_iff.
  intros He. decompose [and] He. clear He. unfold _props_match, public_format, _free_tier_eligible, _media_kind_for, _category_for.
  cbn [mf_container mf_width mf_height mf_fps mf_has_video mf_has_audio mf_category mf_video_codec mf_audio_codec
       mf_approx_bytes quality_label mf_media_kind requires_premium mf_bitrate_kbps free_tier_eligible].
  repeat match goal with H : ?a = ?b |- context [?a] => rewrite H end.
  rewrite !eqb_reflx. destruct (fc_has_video c'), (fc_has_audio c'); cbn;
    rewrite ?eqb_reflx; by repeat (rewrite bool_decide_eq_true_2 by done).
Qed.

Lemma public_kind_streams c c' : _binding_equivalent c c' = true ->
  negb (fc_has_video c') && negb (fc_has_audio c') = false ->
  kind_streams (mf_media_kind (public_format c')) (fc_has_video c) (fc_has_audio c) = true.
Proof.
  unfold _binding_equivalent. rewrite !andb_true_iff, !eqb_true_iff. intros He Hs. decompose [and] He.
  cbn. unfold _media_kind_for. repeat match goal with H : ?a = ?b |- context [?a] => rewrite H end.
  by destruct (fc_has_video c'), (fc_has_audio c').
Qed.

Section Offered.
Context (settings : MediaSettings) (draft : ExtractedMediaDraft).
Context (Hun : unambiguous settings draft) (Hdl : downloadable settings draft).

Let bounded : list InternalFormatCandidate := List.filter (in_bounds settings) (candidates draft).
Let prepared : list (string * InternalFormatCandidate) :=
  sort_by selection_sort_key ((fun c => (option_id_of c, c)) <$> bounded).

Lemma prepared_elem e : e ∈ prepared <-> e.1 = option_id_of e.2 /\ e.2 ∈ bounded.
Proof. destruct e as [i c]. unfold prepared. rewrite elem_of_sort_by, list_elem_of_fmap. naive_solver. Qed.

Lemma bounded_candidate c : c ∈ bounded -> c ∈ candidates draft.
Proof. unfold bounded. rewrite lfilter_elem. tauto. Qed.

Lemma options_bound : exists bound, bind_options [] prepared = inr bound /\
  (forall id, id ∈ prepared.*1 -> id ∈ bound.*1) /\
  (forall i c, (i, c) ∈ bound -> i = option_id_of c /\ c ∈ candidates draft).
Proof.
  destruct (bind_options_total [] prepared) as (bound & Hb & Hids).
  { intros e i He Hi E. apply prepared_elem in He as [He1 He], Hi as [Hi1 Hi].
    eapply un_direct; [exact Hun|by apply bounded_candidate..|congruence]. }
  exists bound. split_and!; [done|exact Hids|].
  intros i c Hc. destruct (bind_options_spec _ _ _ Hb _ _ Hc) as [Hn|Hc']; [by apply not_elem_of_nil in Hn|].
  apply prepared_elem in Hc' as [Hid Hin]. cbn in Hid, Hin. split; [done|by apply bounded_candidate].
Qed.

Lemma offered_direct c : c ∈ candidates draft -> offered settings c = true ->
  exists selection, resolve_selection_from_draft settings draft (option_id_of c) (public_format c) = inr selection.
Proof.
  intros Hc Ho. unfold resolve_selection_from_draft. rewrite bool_decide_eq_true_2 by done. cbn [negb].
  destruct options_bound as (bound & Hb & Hids & Hbound). unfold prepared, bounded in Hb. rewrite Hb. cbn [err_bind].
  assert (Hcb : in_bounds settings c = true) by (unfold offered in Ho; by apply andb_prop in Ho as [? _]).
  assert (Hk : option_id_of c ∈ prepared.*1).
  { apply (list_elem_of_fmap_2' fst _ (option_id_of c, c)); [|done]. apply prepared_elem. split; [done|].
    unfold bounded. by rewrite lfilter_elem. }
  destruct (find_key bound _ (Hids _ Hk)) as [m Hm]. rewrite Hm.
  apply find_Some_elem in Hm as [Hm _]. destruct (Hbound _ _ Hm) as [Hid Hmc].
  assert (Heq : _binding_equivalent m c = true) by (by apply (un_direct _ _ Hun)).
  destruct (dl_tokens _ _ Hdl _ Hmc) as [token Ht]. unfold _resolve_direct. rewrite Ht. cbn [err_bind].
  rewrite equivalent_props by done. cbn [negb]. rewrite public_kind_streams; [by eexists|done|].
  unfold in_bounds in Hcb. rewrite !andb_true_iff, !negb_true_iff in Hcb. tauto.
Qed.

Lemma find_derived derived item : NoDup (mux_id <$> derived) -> item ∈ derived ->
  List.find (fun i => String.eqb (mux_id i) (mux_id item)) (reverse derived) = Some item.
Proof.
  intros Hnd Hi. destruct (List.find _ _) as [item'|] eqn:Ef.
  - apply find_Some_elem in Ef as [Hi' Hid%String.eqb_eq]. rewrite elem_of_reverse in Hi'. f_equal.
    apply list_elem_of_lookup in Hi' as [k Hk]. apply list_elem_of_lookup in Hi as [k' Hk'].
    assert (k = k') as <-; [|congruence].
    eapply NoDup_lookup; [exact Hnd|by rewrite list_lookup_fmap, Hk|rewrite list_lookup_fmap, Hk'; cbn; by rewrite Hid].
  - exfalso. assert (Hir : item ∈ reverse derived) by by rewrite elem_of_reverse.
    pose proof (find_None_elem _ _ _ Ef Hir) as Hn. cbn in Hn. by rewrite String.eqb_refl in Hn.
Qed.

Lemma offered_muxed derived item : media_muxing_enabled settings = true ->
  derive_mux_options settings (candidates draft) = inr derived -> item ∈ derived ->
  exists selection, resolve_selection_from_draft settings draft (mux_id item) (mux_public item) = inr selection.
Proof.
  intros Hen Hd Hi. destruct (derive_spec _ _ _ Hd) as [Hfrom Hnd]. destruct (Hfrom _ Hi) as [Hdf _].
  unfold resolve_selection_from_draft. rewrite bool_decide_eq_true_2 by done. cbn [negb].
  destruct options_bound as (bound & Hb & _ & Hbound). unfold prepared, bounded in Hb. rewrite Hb. cbn [err_bind].
  destruct (List.find _ bound) as [[i c]|] eqn:Ef.
  { exfalso. apply find_Some_elem in Ef as [Hc Hid%String.eqb_eq]. cbn in Hid.
    apply Hbound in Hc as [-> Hc]. by eapply (un_mux _ _ Hun c derived item). }
  assert (Hpub : mf_category (mux_public item) = PROGRESSIVE /\ mf_has_video (mux_public item) = true /\
    mf_has_audio (mux_public item) = true /\ free_tier_eligible (mux_public item) = true) by by rewrite (df_public _ _ _ Hdf).
  destruct Hpub as (Hcat & Hhv & Hha & Hfree).
  unfold _resolve_muxed. rewrite Hen, Hcat, Hhv, Hha, Hfree, bool_decide_eq_true_2 by done. cbn [negb andb].
  rewrite derive_filter by apply Hdl. rewrite Hd. cbn [err_bind].
  rewrite find_derived by done. rewrite media_format_eqb_refl by apply Hdf. cbn [negb].
  destruct (dl_tokens _ _ Hdl _ (df_video _ _ _ Hdf)) as [tv Htv].
  destruct (dl_tokens _ _ Hdl _ (df_audio _ _ _ Hdf)) as [ta Hta]. rewrite Htv, Hta. by eexists.
Qed.
End Offered.

Lemma new_media_metadata_inv m m' : new_media_metadata m = inr m' -> m' = m.
Proof. unfold new_media_metadata. intros E. do 6 ok_step E. by injection E. Qed.

(** The metadata projected are valid, and name what they were projected for. *)
Lemma project_metadata_valid settings draft url media_id provider_id m :
  project_metadata settings draft url media_id provider_id = inr m ->
  new_media_metadata m = inr m /\ Forall (fun fmt => new_media_format fmt = inr fmt) (mm_formats m) /\
  mm_provider_id m = provider_id /\ mm_canonical_provider_url m = url /\ mm_media_id m = media_id /\
  mm_duration_seconds m = ed_duration_seconds draft.
Proof.
  unfold project_metadata. intros E. ok_step E. ok_step E. pose proof (new_media_metadata_inv _ _ E) as ->.
  split; [exact E|]. split; [|done]. cbn [mm_formats]. apply Forall_forall. intros fmt Hin.
  destruct (project_formats_source _ _ _ _ E1 Hin) as [(c & _ & _ & _ & Hv)|(_ & derived & item & Hd & Hi & ->)]; [done|].
  destruct (derive_spec _ _ _ Hd) as [Hdf _]. destruct (Hdf item Hi) as [Hdi _]. by apply (df_valid _ _ _ Hdi).
Qed.

(** C22: Every option offered can be downloaded. If a draft is unambiguous and its
    streams have usable tokens, then each format in the metadata projected from
    it, direct or derived by muxing, resolves against that draft to a selection:
    with [selection_is_exact], to the very stream it was made from. *)
Theorem offered_options_resolve settings draft url media_id provider_id metadata fmt :
  project_metadata settings draft url media_id provider_id = inr metadata -> fmt ∈ mm_formats metadata ->
  unambiguous settings draft -> downloadable settings draft ->
  exists selection, resolve_selection_from_draft settings draft (format_option_id fmt) fmt = inr selection.
Proof.
  unfold project_metadata. intros Hp Hin Hun Hdl. ok_step Hp. ok_step Hp. rename v0 into formats.
  assert (Hformats : mm_formats metadata = formats).
  { unfold new_media_metadata in Hp. do 6 ok_step Hp. by injection Hp as <-. }
  rewrite Hformats in Hin. destruct (project_formats_source _ _ _ _ Hp1 Hin)
    as [(c & Hc & Ho & -> & _)|(Hen & derived & item & Hd & Hi & ->)].
  - by apply offered_direct.
  - by eapply offered_muxed.
Qed.

(** ** A concrete draft *)

Module SelectionExamples.

Definition demo_settings : MediaSettings := {|
  media_inspection_max_formats := 32; media_inspection_max_title_length := 200;
  media_inspection_max_height := 1080; media_inspection_max_width := 1920;
  max_source_duration_seconds := 7200; max_source_file_bytes := 10 ^ 9;
  media_muxing_enabled := true; media_muxing_max_video_candidates := 4;
  media_muxing_max_audio_candidates := 4; media_muxing_max_derived_options := 4 |}.

Definition stream (container : string) (width height : option Z) (video audio : CodecFamily) (bytes : Z) (token : string)
  : InternalFormatCandidate := {|
  fc_container := container; fc_width := width; fc_height := height; fc_fps := None;
  fc_has_video := negb (bool_decide (video = NONE)); fc_has_audio := negb (bool_decide (audio = NONE));
  fc_video_codec := video; fc_audio_codec := audio; fc_approx_bytes := Some bytes;
  provider_format_token := Some token; fc_protocol := Some "https"; has_drm := false; fc_bitrate_kbps := None |}.

(** A small film with sound, a large silent one, and its sound. *)
Definition demo_draft : ExtractedMediaDraft := {|
  ed_provider_id := "vk"; ed_canonical_provider_url := "https://vk.com/video-1_2"; ed_media_id := "-1_2";
  ed_title := Some "Film"; ed_duration_seconds := Some 60;
  candidates := [stream "mp4" (Some 640) (Some 360) AVC AAC 9000000 "url360";
                 stream "mp4" (Some 1920) (Some 1080) AVC NONE 50000000 "v1080";
                 stream "m4a" None None NONE AAC 1000000 "a1"];
  extractor_key := "VK"; tool_version := Some "2025.1.1" |}.

Definition project (draft : ExtractedMediaDraft) : exn + MediaMetadata :=
  project_metadata demo_settings draft "https://vk.com/video-1_2" "-1_2" "vk".

Definition demo_metadata : MediaMetadata :=
  Eval vm_compute in match project demo_draft with
                     | inr m => m
                     | inl _ => {| mm_provider_id := ""; mm_canonical_provider_url := ""; mm_media_id := "";
                                   mm_title := None; mm_duration_seconds := None; mm_formats := [];
                                   extraction_tool := ""; extraction_tool_version := None; muxing_required := false |}
                     end.

Lemma demo_projects : project demo_draft = inr demo_metadata.
Proof. by vm_compute. Qed.

(** The heights and containers offered, the derived option first. *)
Example demo_offer : (fun f => (mf_container f, mf_height f, quality_label f)) <$> mm_formats demo_metadata =
  [("mp4", Some 1080, "p1080"); ("mp4", Some 360, "p360"); ("mp4", Some 1080, "p1080"); ("m4a", None, "audio")].
Proof. by vm_compute. Qed.

(** The two conditions, decided on a draft. *)
Definition unambiguous_b (settings : MediaSettings) (draft : ExtractedMediaDraft) : bool :=
  let ids := (fun c => (option_id_of c, c)) <$> candidates draft in
  forallb (fun e => forallb (fun e' => negb (String.eqb e.1 e'.1) || _binding_equivalent e.2 e'.2) ids) ids &&
  match derive_mux_options settings (candidates draft) with
  | inl _ => true
  | inr derived => forallb (fun e => forallb (fun item => negb (String.eqb e.1 (mux_id item))) derived) ids
  end.

Lemma forallb_elem {A} (p : A -> bool) l x : forallb p l = true -> x ∈ l -> p x = true.
Proof. rewrite forallb_forall. intros Hp Hx. by apply Hp, list_elem_of_In. Qed.

Lemma unambiguous_sound settings draft : unambiguous_b settings draft = true -> unambiguous settings draft.
Proof.
  unfold unambiguous_b. intros [Hd Hm]%andb_prop.
  assert (Hids : forall c, c ∈ candidates draft -> (option_id_of c, c) ∈ (fun c => (option_id_of c, c)) <$> candidates draft)
    by (intros c Hc; by apply (list_elem_of_fmap_2 (fun c => (option_id_of c, c)))).
  split.
  - intros c c' Hc%Hids Hc'%Hids Hid. pose proof (forallb_elem _ _ _ (forallb_elem _ _ _ Hd Hc) Hc') as Hb.
    cbn in Hb. by rewrite Hid, String.eqb_refl in Hb.
  - intros c derived item Hc%Hids Ed Hi. rewrite Ed in Hm.
    pose proof (forallb_elem _ _ _ (forallb_elem _ _ _ Hm Hc) Hi) as Hb. cbn in Hb.
    by apply negb_true_iff, String.eqb_neq in Hb.
Qed.

Definition downloadable_b (settings : MediaSettings) (draft : ExtractedMediaDraft) : bool :=
  forallb (fun c => match _validate_token (provider_format_token c) with inr _ => true | inl _ => false end &&
                    (negb (_usable_video c || _usable_audio c) || in_bounds settings c)) (candidates draft).

Lemma downloadable_sound settings draft : downloadable_b settings draft = true -> downloadable settings draft.
Proof.
  intros Hb. split; intros c Hc; pose proof (forallb_elem _ _ _ Hb Hc) as [Ht Hu]%andb_prop.
  - destruct (_validate_token _) as [|token]; [done|by exists token].
  - intros E. by rewrite E in Hu.
Qed.

Definition muxed_format : MediaFormat :=
  Eval vm_compute in match mm_formats demo_metadata with f :: _ => f | [] => public_format (stream "" None None NONE NONE 0 "") end.

Lemma demo_conditions : unambiguous demo_settings demo_draft /\ downloadable demo_settings demo_draft.
Proof. split; [apply unambiguous_sound|apply downloadable_sound]; by vm_compute. Qed.

(** The derived option of the film resolves. *)
Lemma offered_options_resolve_witness :
  mf_height muxed_format = Some 1080 /\
  exists selection, resolve_selection_from_draft demo_settings demo_draft (format_option_id muxed_format) muxed_format = inr selection.
Proof.
  split; [reflexivity|].
  apply (offered_options_resolve demo_settings demo_draft "https://vk.com/video-1_2" "-1_2" "vk" demo_metadata muxed_format).
  - exact demo_projects.
  - apply elem_of_cons. by left.
  - exact (proj1 demo_conditions).
  - exact (proj2 demo_conditions).
Defined.

Definition muxed_selection : option DownloadSelection :=
  Eval vm_compute in match resolve_selection_from_draft demo_settings demo_draft (format_option_id muxed_format) muxed_format with
                     | inr s => Some s | inl _ => None end.

(** It is bound to the two streams it was derived from. *)
Lemma selection_is_exact_witness :
  exists s, muxed_selection = Some s /\ bound_to demo_settings demo_draft muxed_format s.
Proof.
  eexists. split; [reflexivity|].
  eapply (proj2 (selection_is_exact demo_settings demo_draft (format_option_id muxed_format) muxed_format _ _)).
Unshelve. vm_compute. reflexivity.
Defined.

(** A stream whose size changed since the inspection is not taken for the option. *)
Example changed_stream_is_refused :
  resolve_selection_from_draft demo_settings
    {| ed_provider_id := "vk"; ed_canonical_provider_url := "https://vk.com/video-1_2"; ed_media_id := "-1_2";
       ed_title := None; ed_duration_seconds := Some 60;
       candidates := [stream "mp4" (Some 640) (Some 360) AVC AAC 9000001 "url360"];
       extractor_key := "VK"; tool_version := None |}
    (option_id_of (stream "mp4" (Some 640) (Some 360) AVC AAC 9000000 "url360"))
    (public_format (stream "mp4" (Some 640) (Some 360) AVC AAC 9000000 "url360"))
  = inl (unavailable "OPTION_MISSING").
Proof. by vm_compute. Qed.
End SelectionExamples.
