(* ===== verification/States.v ===== *)
(** The public state machines: [jobs/states.py], [downloads/states.py],
    [downloads/progress.py] and [payments/states.py].

    A [StrEnum] member is its string value, so a guard that accepts a member or
    a string is a function of the string, and parsing the value of a member
    gives the member back. *)

From S2P Require Export Policy.

Local Open Scope string_scope.
Local Open Scope Z_scope.

(** ** Media-inspection jobs *)
Module JobStates.

(** Source: backend/src/fetchnow/jobs/states.py:10-17 [MediaJobState] *)
Inductive MediaJobState := QUEUED | INSPECTING | INSPECTED | FAILED | EXPIRED.

#[global] Instance MediaJobState_eq_dec : EqDecision MediaJobState.
Proof. solve_decision. Defined.

(** Source: backend/src/fetchnow/jobs/states.py:10-17 [MediaJobState] *)
Definition value (s : MediaJobState) : string :=
  match s with
  | QUEUED => "queued"
  | INSPECTING => "inspecting"
  | INSPECTED => "inspected"
  | FAILED => "failed"
  | EXPIRED => "expired"
  end.

(** Source: backend/src/fetchnow/jobs/states.py:10-17 [MediaJobState] *)
Definition members : list MediaJobState := [QUEUED; INSPECTING; INSPECTED; FAILED; EXPIRED].

(** Source: backend/src/fetchnow/jobs/states.py:10-17 [MediaJobState]
    [MediaJobState(raw)]: [None] is the [ValueError]. *)
Definition parse (raw : string) : option MediaJobState :=
  find (fun s => bool_decide (value s = raw)) members.

(** Source: backend/src/fetchnow/jobs/states.py:21-39 [_ALLOWED_TRANSITIONS] *)
Definition allowed_transitions (s : MediaJobState) : list MediaJobState :=
  match s with
  | QUEUED => [INSPECTING; EXPIRED]
  | INSPECTING => [QUEUED; INSPECTED; FAILED; EXPIRED]
  | INSPECTED => [EXPIRED]
  | FAILED => [EXPIRED]
  | EXPIRED => []
  end.

(** Source: backend/src/fetchnow/jobs/states.py:42-68 [assert_transition] *)
Definition assert_transition (from_state to_state : string) : exn + unit :=
  match parse from_state, parse to_state with
  | Some src, Some dst =>
      if bool_decide (dst ∈ allowed_transitions src) then inr tt
      else inl (job_error JOB_INTERNAL_ERROR "ILLEGAL_STATE_TRANSITION")
  | _, _ => inl (job_error JOB_INTERNAL_ERROR "UNKNOWN_JOB_STATE")
  end.

(** Source: backend/src/fetchnow/jobs/states.py:71-81 [is_terminal] *)
Definition is_terminal (state : string) : bool :=
  match parse state with
  | None => true
  | Some v => bool_decide (v ∈ [INSPECTED; FAILED; EXPIRED])
  end.

Lemma job_parse_value s : parse (value s) = Some s.
Proof. by destruct s. Qed.

Lemma job_assert_transition_spec a b :
  assert_transition (value a) (value b) =
  if bool_decide (b ∈ allowed_transitions a) then inr tt
  else inl (job_error JOB_INTERNAL_ERROR "ILLEGAL_STATE_TRANSITION").
Proof. unfold assert_transition. by rewrite !job_parse_value. Qed.

End JobStates.

(** ** Media-download jobs *)
Module DownloadStates.

(** Source: backend/src/fetchnow/downloads/states.py:10-24 [MediaDownloadJobState] *)
Inductive MediaDownloadJobState := QUEUED | DOWNLOADING | READY | FAILED | CANCELLED | EXPIRED.

#[global] Instance MediaDownloadJobState_eq_dec : EqDecision MediaDownloadJobState.
Proof. solve_decision. Defined.

(** Source: backend/src/fetchnow/downloads/states.py:10-24 [MediaDownloadJobState] *)
Definition value (s : MediaDownloadJobState) : string :=
  match s with
  | QUEUED => "queued"
  | DOWNLOADING => "downloading"
  | READY => "ready"
  | FAILED => "failed"
  | CANCELLED => "cancelled"
  | EXPIRED => "expired"
  end.

(** Source: backend/src/fetchnow/downloads/states.py:10-24 [MediaDownloadJobState] *)
Definition members : list MediaDownloadJobState :=
  [QUEUED; DOWNLOADING; READY; FAILED; CANCELLED; EXPIRED].

(** Source: backend/src/fetchnow/downloads/states.py:10-24 [MediaDownloadJobState] *)
Definition parse (raw : string) : option MediaDownloadJobState :=
  find (fun s => bool_decide (value s = raw)) members.

(** Source: backend/src/fetchnow/downloads/states.py:29-37 [PR9_STORED_PUBLIC_STATES] *)
Definition PR9_STORED_PUBLIC_STATES : list MediaDownloadJobState :=
  [QUEUED; DOWNLOADING; READY; FAILED; EXPIRED].

(** Source: backend/src/fetchnow/downloads/states.py:65-86 [_ALLOWED_TRANSITIONS] *)
Definition allowed_transitions (s : MediaDownloadJobState) : list MediaDownloadJobState :=
  match s with
  | QUEUED => [DOWNLOADING; CANCELLED; EXPIRED]
  | DOWNLOADING => [QUEUED; READY; FAILED; CANCELLED; EXPIRED]
  | READY => [EXPIRED]
  | FAILED => [EXPIRED]
  | CANCELLED => [EXPIRED]
  | EXPIRED => []
  end.

(** Source: backend/src/fetchnow/downloads/states.py:89-115 [assert_transition] *)
Definition assert_transition (from_state to_state : string) : exn + unit :=
  match parse from_state, parse to_state with
  | Some src, Some dst =>
      if bool_decide (dst ∈ allowed_transitions src) then inr tt
      else inl (download_error DOWNLOAD_INTERNAL_ERROR "ILLEGAL_STATE_TRANSITION")
  | _, _ => inl (download_error DOWNLOAD_INTERNAL_ERROR "UNKNOWN_DOWNLOAD_STATE")
  end.

(** Source: backend/src/fetchnow/downloads/states.py:118-133 [is_terminal] *)
Definition is_terminal (state : string) : bool :=
  match parse state with
  | None => true
  | Some v => bool_decide (v ∈ [READY; FAILED; CANCELLED; EXPIRED])
  end.

Lemma download_parse_value s : parse (value s) = Some s.
Proof. by destruct s. Qed.

Lemma download_assert_transition_spec a b :
  assert_transition (value a) (value b) =
  if bool_decide (b ∈ allowed_transitions a) then inr tt
  else inl (download_error DOWNLOAD_INTERNAL_ERROR "ILLEGAL_STATE_TRANSITION").
Proof. unfold assert_transition. by rewrite !download_parse_value. Qed.

End DownloadStates.

(** ** Download progress stages *)
Module Progress.

(** Source: backend/src/fetchnow/downloads/progress.py:11-25 [DownloadProgressStage] *)
Inductive DownloadProgressStage :=
| QUEUED | INSPECTING | DOWNLOADING_VIDEO | DOWNLOADING_AUDIO | MUXING | VERIFYING
| PUBLISHING | RETRYING | READY | FAILED | CANCELLED | EXPIRED.

#[global] Instance DownloadProgressStage_eq_dec : EqDecision DownloadProgressStage.
Proof. solve_decision. Defined.

(** Source: backend/src/fetchnow/downloads/progress.py:11-25 [DownloadProgressStage] *)
Definition value (s : DownloadProgressStage) : string :=
  match s with
  | QUEUED => "queued"
  | INSPECTING => "inspecting"
  | DOWNLOADING_VIDEO => "downloading_video"
  | DOWNLOADING_AUDIO => "downloading_audio"
  | MUXING => "muxing"
  | VERIFYING => "verifying"
  | PUBLISHING => "publishing"
  | RETRYING => "retrying"
  | READY => "ready"
  | FAILED => "failed"
  | CANCELLED => "cancelled"
  | EXPIRED => "expired"
  end.

(** Source: backend/src/fetchnow/downloads/progress.py:11-25 [DownloadProgressStage] *)
Definition members : list DownloadProgressStage :=
  [QUEUED; INSPECTING; DOWNLOADING_VIDEO; DOWNLOADING_AUDIO; MUXING; VERIFYING;
   PUBLISHING; RETRYING; READY; FAILED; CANCELLED; EXPIRED].

(** Source: backend/src/fetchnow/downloads/progress.py:11-25 [DownloadProgressStage] *)
Definition parse (raw : string) : option DownloadProgressStage :=
  find (fun s => bool_decide (value s = raw)) members.

(** Source: backend/src/fetchnow/downloads/progress.py:28-35 [TERMINAL_PROGRESS] *)
Definition TERMINAL_PROGRESS : list DownloadProgressStage :=
  [READY; FAILED; CANCELLED; EXPIRED].

(** Source: backend/src/fetchnow/downloads/progress.py:37-48 [ACTIVE_PROGRESS] *)
Definition ACTIVE_PROGRESS : list DownloadProgressStage :=
  [QUEUED; INSPECTING; DOWNLOADING_VIDEO; DOWNLOADING_AUDIO; MUXING; VERIFYING;
   PUBLISHING; RETRYING].

(** Source: backend/src/fetchnow/downloads/progress.py:50-132 [_ALLOWED] *)
Definition allowed (s : DownloadProgressStage) : list DownloadProgressStage :=
  match s with
  | QUEUED => [INSPECTING; DOWNLOADING_VIDEO; CANCELLED; EXPIRED; FAILED]
  | INSPECTING =>
      [DOWNLOADING_VIDEO; DOWNLOADING_AUDIO; RETRYING; FAILED; CANCELLED; EXPIRED]
  | DOWNLOADING_VIDEO =>
      [DOWNLOADING_AUDIO; MUXING; VERIFYING; PUBLISHING; RETRYING; FAILED;
       CANCELLED; EXPIRED]
  | DOWNLOADING_AUDIO =>
      [MUXING; PUBLISHING; RETRYING; FAILED; CANCELLED; EXPIRED]
  | MUXING => [VERIFYING; RETRYING; FAILED; CANCELLED; EXPIRED]
  | VERIFYING => [PUBLISHING; RETRYING; FAILED; CANCELLED; EXPIRED]
  | PUBLISHING => [READY; RETRYING; FAILED; CANCELLED; EXPIRED]
  | RETRYING => [QUEUED; INSPECTING; FAILED; CANCELLED; EXPIRED]
  | READY => [EXPIRED]
  | FAILED => [EXPIRED]
  | CANCELLED => [EXPIRED]
  | EXPIRED => []
  end.

(** Source: backend/src/fetchnow/downloads/progress.py:135-144 [parse_progress_stage] *)
Definition parse_progress_stage (raw : string) : exn + DownloadProgressStage :=
  match parse raw with
  | Some s => inr s
  | None => inl (download_error DOWNLOAD_INTERNAL_ERROR "UNKNOWN_PROGRESS_STAGE")
  end.

(** Source: backend/src/fetchnow/downloads/progress.py:151-169 [assert_progress_transition] *)
Definition assert_progress_transition (from_stage to_stage : string) : exn + unit :=
  match parse_progress_stage from_stage with
  | inl e => inl e
  | inr src =>
      match parse_progress_stage to_stage with
      | inl e => inl e
      | inr dst =>
          if bool_decide (src = dst) then inr tt
          else if bool_decide (src ∈ TERMINAL_PROGRESS) && negb (bool_decide (dst ∈ allowed src))
          then inl (download_error DOWNLOAD_INTERNAL_ERROR "TERMINAL_PROGRESS_IMMUTABLE")
          else if negb (bool_decide (dst ∈ allowed src))
          then inl (download_error DOWNLOAD_INTERNAL_ERROR "ILLEGAL_PROGRESS_TRANSITION")
          else inr tt
      end
  end.

(** Source: backend/src/fetchnow/downloads/progress.py:172-191 [progress_for_public_state] *)
Definition progress_for_public_state (state : string) : DownloadProgressStage :=
  match DownloadStates.parse state with
  | None => FAILED
  | Some v =>
      match v with
      | DownloadStates.QUEUED => QUEUED
      | DownloadStates.DOWNLOADING => INSPECTING
      | DownloadStates.READY => READY
      | DownloadStates.FAILED => FAILED
      | DownloadStates.CANCELLED => CANCELLED
      | DownloadStates.EXPIRED => EXPIRED
      end
  end.

Lemma stage_parse_value s : parse (value s) = Some s.
Proof. by destruct s. Qed.

Lemma assert_progress_transition_spec a b :
  assert_progress_transition (value a) (value b) = inr tt <-> a = b \/ b ∈ allowed a.
Proof.
  unfold assert_progress_transition, parse_progress_stage. rewrite !stage_parse_value.
  case_bool_decide as E; [naive_solver|].
  destruct (bool_decide (b ∈ allowed a)) eqn:Eb; cbn.
  - apply bool_decide_eq_true in Eb. rewrite andb_false_r. tauto.
  - apply bool_decide_eq_false in Eb. rewrite andb_true_r.
    destruct (bool_decide (a ∈ TERMINAL_PROGRESS)); split; (discriminate || tauto).
Qed.

End Progress.

(** Source: backend/src/fetchnow/downloads/states.py:40-50 [is_stored_cancelled] *)
Definition is_stored_cancelled (public_state : DownloadStates.MediaDownloadJobState)
    (progress_stage : Progress.DownloadProgressStage) (cancel_requested_at : option time) : bool :=
  bool_decide (public_state = DownloadStates.EXPIRED) &&
  bool_decide (progress_stage = Progress.CANCELLED) &&
  is_some cancel_requested_at.

(** Source: backend/src/fetchnow/downloads/states.py:53-61 [project_public_state] *)
Definition project_public_state (public_state : DownloadStates.MediaDownloadJobState)
    (progress_stage : Progress.DownloadProgressStage) (cancel_requested_at : option time)
  : DownloadStates.MediaDownloadJobState :=
  if is_stored_cancelled public_state progress_stage cancel_requested_at
  then DownloadStates.CANCELLED else public_state.

(** ** Payment orders *)
Module PaymentStates.

(** Source: backend/src/fetchnow/payments/states.py:8-12 [PaymentOrderState] *)
Inductive PaymentOrderState := CREATED | PENDING | PAID | EXPIRED.

#[global] Instance PaymentOrderState_eq_dec : EqDecision PaymentOrderState.
Proof. solve_decision. Defined.

(** Source: backend/src/fetchnow/payments/states.py:15-24 [_ALLOWED] *)
Definition allowed (s : PaymentOrderState) : list PaymentOrderState :=
  match s with
  | CREATED => [PENDING; EXPIRED]
  | PENDING => [PAID; EXPIRED]
  | PAID => []
  | EXPIRED => []
  end.

(** Source: backend/src/fetchnow/payments/states.py:8-12 [PaymentOrderState] *)
Definition value (s : PaymentOrderState) : string :=
  match s with
  | CREATED => "created"
  | PENDING => "pending"
  | PAID => "paid"
  | EXPIRED => "expired"
  end.

(** Source: backend/src/fetchnow/payments/states.py:8-12 [PaymentOrderState] *)
Definition parse (raw : string) : option PaymentOrderState :=
  find (fun s => bool_decide (value s = raw)) [CREATED; PENDING; PAID; EXPIRED].

(** Source: backend/src/fetchnow/payments/states.py:27-33 [assert_payment_transition] *)
Definition assert_payment_transition (source : string) (target : PaymentOrderState)
  : exn + unit :=
  match parse source with
  | None => inl (ValueError "unknown payment order state")
  | Some current =>
      if bool_decide (target ∈ allowed current) then inr tt
      else inl (ValueError "illegal payment order state transition")
  end.

Lemma payment_parse_value s : parse (value s) = Some s.
Proof. by destruct s. Qed.

End PaymentStates.
