(* ===== verification/Schema.v ===== *)
(** The tables: one record per SQLAlchemy model with the columns the model
    declares, and each table's CHECK constraints as a boolean function of a row
    ([jobs/models.py], [downloads/models.py], [downloads/grant_models.py],
    [quota/models.py], [payments/models.py], [premium/models.py]).

    NOT NULL is the field's type, and a state column whose CHECK lists its
    values is an enumeration of them. *)

From S2P Require Export States.

Local Open Scope string_scope.
Local Open Scope Z_scope.

(** [position(c in s) = 0] for each forbidden character. *)
Definition no_char (c : Ascii.ascii) (s : string) : bool := negb (str_mem c s).
Arguments no_char c%_char_scope s%_string_scope.

(** ** [media_jobs] *)

(** Source: backend/src/fetchnow/jobs/models.py:106-155 [MediaJob]

    The columns of a media-inspection job. *)
Record MediaJob := {
  mj_id : uid;
  mj_schema_version : Z;
  mj_result_version : Z;
  mj_public_state : JobStates.MediaJobState;
  mj_provider_id : string;
  mj_canonical_provider_url : string;
  mj_media_id : string;
  mj_hostname : string;
  mj_path : string;
  mj_scheme : string;
  mj_port : option Z;
  mj_credential_hash : bytes;
  mj_request_fingerprint : bytes;
  mj_result_metadata : option Json;
  mj_public_error_code : option string;
  mj_attempt_count : Z;
  mj_max_attempts : Z;
  mj_available_at : time;
  mj_lease_owner : option string;
  mj_lease_expires_at : option time;
  mj_fence_token : Z;
  mj_created_at : time;
  mj_updated_at : time;
  mj_started_at : option time;
  mj_completed_at : option time;
  mj_expires_at : time
}.

#[export] Instance MediaJob_eta : Eta MediaJob := fun r =>
  {| mj_id := mj_id r; mj_schema_version := mj_schema_version r;
     mj_result_version := mj_result_version r; mj_public_state := mj_public_state r;
     mj_provider_id := mj_provider_id r;
     mj_canonical_provider_url := mj_canonical_provider_url r;
     mj_media_id := mj_media_id r; mj_hostname := mj_hostname r; mj_path := mj_path r;
     mj_scheme := mj_scheme r; mj_port := mj_port r;
     mj_credential_hash := mj_credential_hash r;
     mj_request_fingerprint := mj_request_fingerprint r;
     mj_result_metadata := mj_result_metadata r;
     mj_public_error_code := mj_public_error_code r;
     mj_attempt_count := mj_attempt_count r; mj_max_attempts := mj_max_attempts r;
     mj_available_at := mj_available_at r; mj_lease_owner := mj_lease_owner r;
     mj_lease_expires_at := mj_lease_expires_at r; mj_fence_token := mj_fence_token r;
     mj_created_at := mj_created_at r; mj_updated_at := mj_updated_at r;
     mj_started_at := mj_started_at r; mj_completed_at := mj_completed_at r;
     mj_expires_at := mj_expires_at r |}.

(** Source: backend/src/fetchnow/jobs/models.py:76-82 [ck_media_jobs_lease_state] *)
Definition mj_lease_state_check (r : MediaJob) : bool :=
  match mj_public_state r with
  | JobStates.INSPECTING => is_some (mj_lease_owner r) && is_some (mj_lease_expires_at r)
  | _ => is_none (mj_lease_owner r) && is_none (mj_lease_expires_at r)
  end.

(** Source: backend/src/fetchnow/jobs/models.py:83-91 [ck_media_jobs_result_state] *)
Definition mj_result_state_check (r : MediaJob) : bool :=
  match mj_public_state r with
  | JobStates.INSPECTED =>
      is_some (mj_result_metadata r) && is_none (mj_public_error_code r) &&
      is_some (mj_completed_at r)
  | JobStates.FAILED =>
      is_none (mj_result_metadata r) && is_some (mj_public_error_code r) &&
      is_some (mj_completed_at r)
  | _ => is_none (mj_result_metadata r) && is_none (mj_public_error_code r)
  end.

(** Source: backend/src/fetchnow/jobs/models.py:32-91 [MediaJob.__table_args__] *)
Definition MediaJob_check (r : MediaJob) : bool :=
  no_char "?" (mj_canonical_provider_url r) && no_char "#" (mj_canonical_provider_url r) &&
  (0 <=? mj_attempt_count r) && (1 <=? mj_max_attempts r) && (0 <=? mj_fence_token r) &&
  Nat.eqb (length (mj_credential_hash r)) 32 && Nat.eqb (length (mj_request_fingerprint r)) 32 &&
  (1 <=? mj_schema_version r) && (0 <=? mj_result_version r) &&
  (bool_decide (mj_scheme r = "https") && is_none (mj_port r)) &&
  mj_lease_state_check r && mj_result_state_check r.

(** ** [media_download_jobs] *)

(** Source: backend/src/fetchnow/downloads/models.py:171-243 [MediaDownloadJob]

    The columns of a media-download job. *)
Record MediaDownloadJob := {
  dj_id : uid;
  dj_media_job_id : uid;
  dj_schema_version : Z;
  dj_public_state : DownloadStates.MediaDownloadJobState;
  dj_format_option_id : string;
  dj_provider_id : string;
  dj_canonical_provider_url : string;
  dj_media_id : string;
  dj_hostname : string;
  dj_path : string;
  dj_scheme : string;
  dj_port : option Z;
  dj_selected_format_snapshot : Json;
  dj_attempt_count : Z;
  dj_max_attempts : Z;
  dj_available_at : time;
  dj_lease_owner : option string;
  dj_lease_expires_at : option time;
  dj_fence_token : Z;
  dj_artifact_id : option uid;
  dj_artifact_bytes : option Z;
  dj_artifact_content_type : option string;
  dj_artifact_container : option string;
  dj_public_error_code : option string;
  dj_progress_stage : Progress.DownloadProgressStage;
  dj_cancel_requested_at : option time;
  dj_suggested_filename : option (list N);
  dj_progress_percent : option Z;
  dj_created_at : time;
  dj_updated_at : time;
  dj_started_at : option time;
  dj_completed_at : option time;
  dj_expires_at : time
}.

#[export] Instance MediaDownloadJob_eta : Eta MediaDownloadJob := fun r =>
  {| dj_id := dj_id r; dj_media_job_id := dj_media_job_id r;
     dj_schema_version := dj_schema_version r; dj_public_state := dj_public_state r;
     dj_format_option_id := dj_format_option_id r; dj_provider_id := dj_provider_id r;
     dj_canonical_provider_url := dj_canonical_provider_url r;
     dj_media_id := dj_media_id r; dj_hostname := dj_hostname r; dj_path := dj_path r;
     dj_scheme := dj_scheme r; dj_port := dj_port r;
     dj_selected_format_snapshot := dj_selected_format_snapshot r;
     dj_attempt_count := dj_attempt_count r; dj_max_attempts := dj_max_attempts r;
     dj_available_at := dj_available_at r; dj_lease_owner := dj_lease_owner r;
     dj_lease_expires_at := dj_lease_expires_at r; dj_fence_token := dj_fence_token r;
     dj_artifact_id := dj_artifact_id r; dj_artifact_bytes := dj_artifact_bytes r;
     dj_artifact_content_type := dj_artifact_content_type r;
     dj_artifact_container := dj_artifact_container r;
     dj_public_error_code := dj_public_error_code r;
     dj_progress_stage := dj_progress_stage r;
     dj_cancel_requested_at := dj_cancel_requested_at r;
     dj_suggested_filename := dj_suggested_filename r;
     dj_progress_percent := dj_progress_percent r; dj_created_at := dj_created_at r;
     dj_updated_at := dj_updated_at r; dj_started_at := dj_started_at r;
     dj_completed_at := dj_completed_at r; dj_expires_at := dj_expires_at r |}.

(** The four artifact pointer columns are all NULL. *)
Definition dj_no_artifact (r : MediaDownloadJob) : bool :=
  is_none (dj_artifact_id r) && is_none (dj_artifact_bytes r) &&
  is_none (dj_artifact_container r) && is_none (dj_artifact_content_type r).

(** Source: backend/src/fetchnow/downloads/models.py:68-74 [ck_media_download_jobs_lease_state] *)
Definition dj_lease_state_check (r : MediaDownloadJob) : bool :=
  match dj_public_state r with
  | DownloadStates.DOWNLOADING => is_some (dj_lease_owner r) && is_some (dj_lease_expires_at r)
  | _ => is_none (dj_lease_owner r) && is_none (dj_lease_expires_at r)
  end.

(** Source: backend/src/fetchnow/downloads/models.py:75-95 [ck_media_download_jobs_result_state] *)
Definition dj_result_state_check (r : MediaDownloadJob) : bool :=
  match dj_public_state r with
  | DownloadStates.READY =>
      is_some (dj_artifact_id r) &&
      match dj_artifact_bytes r with Some b => 0 <? b | None => false end &&
      is_some (dj_artifact_container r) && is_some (dj_artifact_content_type r) &&
      is_none (dj_public_error_code r) && is_some (dj_completed_at r)
  | DownloadStates.FAILED =>
      dj_no_artifact r && is_some (dj_completed_at r) &&
      match dj_public_error_code r with
      | Some c => (1 <=? strlen c) && (strlen c <=? 64)
      | None => false
      end
  | DownloadStates.QUEUED | DownloadStates.DOWNLOADING | DownloadStates.EXPIRED =>
      dj_no_artifact r && is_none (dj_public_error_code r)
  | DownloadStates.CANCELLED => false
  end.

(** Source: backend/src/fetchnow/downloads/models.py:107-122 [ck_media_download_jobs_progress_state] *)
Definition dj_progress_state_check (r : MediaDownloadJob) : bool :=
  match dj_public_state r, dj_progress_stage r with
  | DownloadStates.QUEUED, (Progress.QUEUED | Progress.RETRYING) => true
  | DownloadStates.DOWNLOADING,
      (Progress.INSPECTING | Progress.DOWNLOADING_VIDEO | Progress.DOWNLOADING_AUDIO
       | Progress.MUXING | Progress.VERIFYING | Progress.PUBLISHING) => true
  | DownloadStates.READY, Progress.READY => true
  | DownloadStates.FAILED, Progress.FAILED => true
  | DownloadStates.EXPIRED, (Progress.EXPIRED | Progress.CANCELLED) => true
  | _, _ => false
  end.

(** Source: backend/src/fetchnow/downloads/models.py:123-134 [ck_media_download_jobs_cancel_requested] *)
Definition dj_cancel_requested_check (r : MediaDownloadJob) : bool :=
  match dj_cancel_requested_at r with
  | None => match dj_progress_stage r with Progress.CANCELLED => false | _ => true end
  | Some _ =>
      match dj_public_state r, dj_progress_stage r with
      | DownloadStates.DOWNLOADING, _ => true
      | DownloadStates.EXPIRED, Progress.CANCELLED => true
      | _, _ => false
      end
  end.

(** Source: backend/src/fetchnow/downloads/models.py:135-145 [ck_media_download_jobs_suggested_filename]
    A file name may hold any code point. *)
Definition dj_suggested_filename_check (r : MediaDownloadJob) : bool :=
  match dj_suggested_filename r with
  | None => true
  | Some f =>
      Nat.leb 1 (length f) && Nat.leb (length f) 255 &&
      negb (existsb (fun c => bool_decide (c ∈ [47; 92; 10; 13]%N)) f)
  end.

(** Source: backend/src/fetchnow/downloads/models.py:146-155 [ck_media_download_jobs_progress_percent] *)
Definition dj_progress_percent_check (r : MediaDownloadJob) : bool :=
  match dj_progress_percent r with
  | None => true
  | Some p =>
      (0 <=? p) && (p <=? 99) &&
      match dj_public_state r, dj_progress_stage r with
      | DownloadStates.DOWNLOADING,
          (Progress.DOWNLOADING_VIDEO | Progress.DOWNLOADING_AUDIO) => true
      | _, _ => false
      end
  end.

(** Source: backend/src/fetchnow/downloads/models.py:33-155 [MediaDownloadJob.__table_args__] *)
Definition MediaDownloadJob_check (r : MediaDownloadJob) : bool :=
  match dj_public_state r with DownloadStates.CANCELLED => false | _ => true end &&
  no_char "?" (dj_canonical_provider_url r) && no_char "#" (dj_canonical_provider_url r) &&
  (0 <=? dj_attempt_count r) && (1 <=? dj_max_attempts r) && (0 <=? dj_fence_token r) &&
  (1 <=? dj_schema_version r) &&
  (bool_decide (dj_scheme r = "https") && is_none (dj_port r)) &&
  dj_lease_state_check r && dj_result_state_check r &&
  match dj_artifact_bytes r with Some b => 0 <? b | None => true end &&
  dj_progress_state_check r && dj_cancel_requested_check r &&
  dj_suggested_filename_check r && dj_progress_percent_check r.

(** ** [anonymous_clients] *)

(** Source: backend/src/fetchnow/quota/models.py:42-51 [AnonymousClient]

    The columns of an anonymous browser identity. *)
Record AnonymousClient := {
  ac_id : uid;
  ac_token_hash : bytes;
  ac_created_at : time;
  ac_expires_at : time
}.

#[export] Instance AnonymousClient_eta : Eta AnonymousClient := fun r =>
  {| ac_id := ac_id r; ac_token_hash := ac_token_hash r; ac_created_at := ac_created_at r;
     ac_expires_at := ac_expires_at r |}.

(** Source: backend/src/fetchnow/quota/models.py:29-40 [AnonymousClient.__table_args__] *)
Definition AnonymousClient_check (r : AnonymousClient) : bool :=
  Nat.eqb (length (ac_token_hash r)) 32 && (ac_created_at r <? ac_expires_at r).

(** ** [free_download_quota_entries] *)

(** Source: backend/src/fetchnow/quota/models.py:58-62 [ck_free_download_quota_entries_state] *)
Inductive EntryState := RESERVED | CONSUMED | RELEASED | ENTRY_EXPIRED.

#[export] Instance EntryState_eq_dec : EqDecision EntryState.
Proof. solve_decision. Defined.

(** Source: backend/src/fetchnow/quota/models.py:98-123 [FreeDownloadQuotaEntry]

    The columns of a quota reservation. *)
Record FreeDownloadQuotaEntry := {
  qe_id : uid;
  qe_anonymous_client_id : uid;
  qe_download_job_id : uid;
  qe_state : EntryState;
  qe_reserved_at : time;
  qe_reservation_expires_at : time;
  qe_consumed_at : option time;
  qe_released_at : option time
}.

#[export] Instance FreeDownloadQuotaEntry_eta : Eta FreeDownloadQuotaEntry := fun r =>
  {| qe_id := qe_id r; qe_anonymous_client_id := qe_anonymous_client_id r;
     qe_download_job_id := qe_download_job_id r; qe_state := qe_state r;
     qe_reserved_at := qe_reserved_at r;
     qe_reservation_expires_at := qe_reservation_expires_at r;
     qe_consumed_at := qe_consumed_at r; qe_released_at := qe_released_at r |}.

(** Source: backend/src/fetchnow/quota/models.py:63-74 [ck_free_download_quota_entries_lifecycle] *)
Definition FreeDownloadQuotaEntry_check (r : FreeDownloadQuotaEntry) : bool :=
  (qe_reserved_at r <? qe_reservation_expires_at r) &&
  match qe_state r with
  | RESERVED => is_none (qe_consumed_at r) && is_none (qe_released_at r)
  | CONSUMED =>
      match qe_consumed_at r with Some t => qe_reserved_at r <=? t | None => false end &&
      is_none (qe_released_at r)
  | RELEASED | ENTRY_EXPIRED =>
      is_none (qe_consumed_at r) &&
      match qe_released_at r with Some t => qe_reserved_at r <=? t | None => false end
  end.

(** ** [free_download_delivery_ranges] *)

(** Source: backend/src/fetchnow/quota/models.py:131-134 [ck_free_delivery_ranges_state] *)
Inductive RangeState := ACTIVE | CLOSED.

#[export] Instance RangeState_eq_dec : EqDecision RangeState.
Proof. solve_decision. Defined.

(** Source: backend/src/fetchnow/quota/models.py:174-197 [FreeDownloadDeliveryRange]

    The columns of a delivery-ledger row. *)
Record FreeDownloadDeliveryRange := {
  dr_id : uid;
  dr_quota_entry_id : uid;
  dr_artifact_id : uid;
  dr_fence_token : Z;
  dr_artifact_bytes : Z;
  dr_request_start : Z;
  dr_request_end_exclusive : Z;
  dr_served_end_exclusive : Z;
  dr_state : RangeState;
  dr_started_at : time;
  dr_lease_expires_at : option time;
  dr_closed_at : option time
}.

#[export] Instance FreeDownloadDeliveryRange_eta : Eta FreeDownloadDeliveryRange := fun r =>
  {| dr_id := dr_id r; dr_quota_entry_id := dr_quota_entry_id r;
     dr_artifact_id := dr_artifact_id r; dr_fence_token := dr_fence_token r;
     dr_artifact_bytes := dr_artifact_bytes r; dr_request_start := dr_request_start r;
     dr_request_end_exclusive := dr_request_end_exclusive r;
     dr_served_end_exclusive := dr_served_end_exclusive r; dr_state := dr_state r;
     dr_started_at := dr_started_at r; dr_lease_expires_at := dr_lease_expires_at r;
     dr_closed_at := dr_closed_at r |}.

(** Source: backend/src/fetchnow/quota/models.py:130-159 [FreeDownloadDeliveryRange.__table_args__] *)
Definition FreeDownloadDeliveryRange_check (r : FreeDownloadDeliveryRange) : bool :=
  (0 <? dr_artifact_bytes r) && (0 <=? dr_fence_token r) &&
  ((0 <=? dr_request_start r) && (dr_request_start r <? dr_request_end_exclusive r) &&
   (dr_request_end_exclusive r <=? dr_artifact_bytes r)) &&
  ((dr_request_start r <=? dr_served_end_exclusive r) &&
   (dr_served_end_exclusive r <=? dr_request_end_exclusive r)) &&
  match dr_state r with
  | ACTIVE =>
      match dr_lease_expires_at r with Some t => dr_started_at r <? t | None => false end &&
      is_none (dr_closed_at r)
  | CLOSED =>
      is_none (dr_lease_expires_at r) &&
      match dr_closed_at r with Some t => dr_started_at r <=? t | None => false end
  end.

(** ** [media_delivery_grants] *)

(** Source: backend/src/fetchnow/downloads/grant_models.py:50-78 [MediaDeliveryGrant]

    The columns of a browser delivery grant. *)
Record MediaDeliveryGrant := {
  dg_id : uid;
  dg_download_job_id : uid;
  dg_token_hash : bytes;
  dg_artifact_id : uid;
  dg_fence_token : Z;
  dg_created_at : time;
  dg_expires_at : time;
  dg_revoked_at : option time
}.

#[export] Instance MediaDeliveryGrant_eta : Eta MediaDeliveryGrant := fun r =>
  {| dg_id := dg_id r; dg_download_job_id := dg_download_job_id r;
     dg_token_hash := dg_token_hash r; dg_artifact_id := dg_artifact_id r;
     dg_fence_token := dg_fence_token r; dg_created_at := dg_created_at r;
     dg_expires_at := dg_expires_at r; dg_revoked_at := dg_revoked_at r |}.

(** Source: backend/src/fetchnow/downloads/grant_models.py:28-48 [MediaDeliveryGrant.__table_args__] *)
Definition MediaDeliveryGrant_check (r : MediaDeliveryGrant) : bool :=
  (dg_created_at r <? dg_expires_at r) && Nat.eqb (length (dg_token_hash r)) 32 &&
  (0 <=? dg_fence_token r) &&
  match dg_revoked_at r with Some t => dg_created_at r <=? t | None => true end.

(** ** [payment_orders] *)

(** Source: backend/src/fetchnow/payments/models.py:89-137 [PaymentOrder]

    The columns of a payment order. *)
Record PaymentOrder := {
  po_id : uid;
  po_public_id : uid;
  po_anonymous_client_id : uid;
  po_provider : string;
  po_provider_invoice_id : Z;
  po_product_code : string;
  po_amount_minor : Z;
  po_currency : string;
  po_entitlement_duration_seconds : Z;
  po_status : PaymentStates.PaymentOrderState;
  po_is_test : bool;
  po_receipt_json : string;
  po_creation_idempotency_hash : bytes;
  po_created_at : time;
  po_updated_at : time;
  po_pending_at : option time;
  po_paid_at : option time;
  po_provider_callback_at : option time;
  po_expires_at : time;
  po_provider_operation_key : option string
}.

#[export] Instance PaymentOrder_eta : Eta PaymentOrder := fun r =>
  {| po_id := po_id r; po_public_id := po_public_id r;
     po_anonymous_client_id := po_anonymous_client_id r; po_provider := po_provider r;
     po_provider_invoice_id := po_provider_invoice_id r;
     po_product_code := po_product_code r; po_amount_minor := po_amount_minor r;
     po_currency := po_currency r;
     po_entitlement_duration_seconds := po_entitlement_duration_seconds r;
     po_status := po_status r; po_is_test := po_is_test r;
     po_receipt_json := po_receipt_json r;
     po_creation_idempotency_hash := po_creation_idempotency_hash r;
     po_created_at := po_created_at r; po_updated_at := po_updated_at r;
     po_pending_at := po_pending_at r; po_paid_at := po_paid_at r;
     po_provider_callback_at := po_provider_callback_at r;
     po_expires_at := po_expires_at r;
     po_provider_operation_key := po_provider_operation_key r |}.

(** Source: backend/src/fetchnow/payments/models.py:38-72 [PaymentOrder.__table_args__] *)
Definition PaymentOrder_check (r : PaymentOrder) : bool :=
  bool_decide (po_provider r = "robokassa") && (0 <? po_provider_invoice_id r) &&
  (0 <? po_amount_minor r) && bool_decide (po_currency r = "RUB") &&
  (po_entitlement_duration_seconds r =? 86400) && po_is_test r &&
  Nat.eqb (length (po_creation_idempotency_hash r)) 32 &&
  ((2 <=? strlen (po_receipt_json r)) && (strlen (po_receipt_json r) <=? 4096)) &&
  (po_created_at r <? po_expires_at r) &&
  match po_status r with
  | PaymentStates.CREATED =>
      is_none (po_pending_at r) && is_none (po_paid_at r) && is_none (po_provider_callback_at r)
  | PaymentStates.PENDING =>
      is_some (po_pending_at r) && is_none (po_paid_at r) && is_none (po_provider_callback_at r)
  | PaymentStates.PAID =>
      match po_pending_at r, po_paid_at r, po_provider_callback_at r with
      | Some p, Some d, Some c => (p <=? d) && (p <=? c)
      | _, _, _ => false
      end
  | PaymentStates.EXPIRED => is_none (po_paid_at r) && is_none (po_provider_callback_at r)
  end.

(** ** [premium_entitlements] *)

(** Source: backend/src/fetchnow/premium/models.py:41-66 [PremiumEntitlement]

    The columns of a Premium entitlement. *)
Record PremiumEntitlement := {
  pe_id : uid;
  pe_public_id : uid;
  pe_anonymous_client_id : uid;
  pe_source_payment_order_id : uid;
  pe_product_code : string;
  pe_starts_at : time;
  pe_expires_at : time;
  pe_created_at : time
}.

#[export] Instance PremiumEntitlement_eta : Eta PremiumEntitlement := fun r =>
  {| pe_id := pe_id r; pe_public_id := pe_public_id r;
     pe_anonymous_client_id := pe_anonymous_client_id r;
     pe_source_payment_order_id := pe_source_payment_order_id r;
     pe_product_code := pe_product_code r; pe_starts_at := pe_starts_at r;
     pe_expires_at := pe_expires_at r; pe_created_at := pe_created_at r |}.

(** Source: backend/src/fetchnow/premium/models.py:24-39 [PremiumEntitlement.__table_args__] *)
Definition PremiumEntitlement_check (r : PremiumEntitlement) : bool :=
  pe_starts_at r <? pe_expires_at r.
