(* ===== verification/Database.v ===== *)
(** The PostgreSQL database as the repositories use it: tables of rows, the
    statements as computations over them, savepoints, the wall clock and the
    UUID supply.

    A statement sees the rows of its tables as committed by the statements
    before it; the row locks the code takes make a repository call atomic, so
    calls are interleaved, not their statements. [FOR UPDATE SKIP LOCKED] takes
    the set of rows another transaction holds as an argument. A write is
    checked against the CHECK, UNIQUE and foreign-key constraints of its table
    and raises [IntegrityError] when one is violated. *)

From S2P Require Export Schema.

(** ** The database state *)
Record World := {
  media_jobs : gmap uid MediaJob;
  media_download_jobs : gmap uid MediaDownloadJob;
  anonymous_clients : gmap uid AnonymousClient;
  free_download_quota_entries : gmap uid FreeDownloadQuotaEntry;
  free_download_delivery_ranges : gmap uid FreeDownloadDeliveryRange;
  media_delivery_grants : gmap uid MediaDeliveryGrant;
  payment_orders : gmap uid PaymentOrder;
  premium_entitlements : gmap uid PremiumEntitlement;
  (** next value of [payment_provider_invoice_id_seq] *)
  invoice_seq : Z;
  (** the wall clock: the reading of the [n]-th statement that asks for it *)
  clock : nat -> time;
  clock_reads : nat;
  (** the values [uuid.uuid4()] returns *)
  uuids : nat -> uid;
  uuid_draws : nat
}.

#[export] Instance World_eta : Eta World := fun w =>
  {| media_jobs := media_jobs w; media_download_jobs := media_download_jobs w;
     anonymous_clients := anonymous_clients w;
     free_download_quota_entries := free_download_quota_entries w;
     free_download_delivery_ranges := free_download_delivery_ranges w;
     media_delivery_grants := media_delivery_grants w;
     payment_orders := payment_orders w; premium_entitlements := premium_entitlements w;
     invoice_seq := invoice_seq w; clock := clock w; clock_reads := clock_reads w;
     uuids := uuids w; uuid_draws := uuid_draws w |}.

(** An empty database with a clock and a UUID supply. *)
Definition empty_world (ck : nat -> time) (us : nat -> uid) : World :=
  {| media_jobs := ∅; media_download_jobs := ∅; anonymous_clients := ∅;
     free_download_quota_entries := ∅; free_download_delivery_ranges := ∅;
     media_delivery_grants := ∅; payment_orders := ∅; premium_entitlements := ∅;
     invoice_seq := 1; clock := ck; clock_reads := 0; uuids := us; uuid_draws := 0 |}.

Abbreviation DB := (M World exn).

(** What a rollback leaves: the tables of [w], the clock, the identifier supply
    and the sequence of [w']. *)
Definition rollback (w w' : World) : World :=
  w <| invoice_seq := invoice_seq w' |> <| clock_reads := clock_reads w' |>
    <| uuid_draws := uuid_draws w' |>.

(** ** Worlds that agree on the tables *)

Definition same_tables (w w' : World) : Prop :=
  media_jobs w = media_jobs w' /\ media_download_jobs w = media_download_jobs w' /\
  anonymous_clients w = anonymous_clients w' /\
  free_download_quota_entries w = free_download_quota_entries w' /\
  free_download_delivery_ranges w = free_download_delivery_ranges w' /\
  media_delivery_grants w = media_delivery_grants w' /\
  payment_orders w = payment_orders w' /\ premium_entitlements w = premium_entitlements w'.

#[export] Instance same_tables_equiv : Equivalence same_tables.
Proof.
  unfold same_tables. split.
  - intros w. tauto.
  - intros w w' E. intuition congruence.
  - intros w w' w'' E1 E2. intuition congruence.
Qed.

(** ** Tables *)
Class Table (R : Type) := {
  table : World -> gmap uid R;
  with_table : gmap uid R -> World -> World;
  row_id : R -> uid;
  (** CHECK constraints *)
  row_check : R -> bool;
  (** a UNIQUE constraint holds against the stored row *)
  row_conflict : R -> R -> bool;
  (** the rows the foreign keys of a row reference exist *)
  row_parents : R -> World -> bool;
  (** some row references the row with ON DELETE RESTRICT *)
  row_restricted : uid -> World -> bool;
  (** the deletion of the rows that reference it with ON DELETE CASCADE *)
  row_cascade : uid -> World -> World
}.

(** The laws of a table's two accessors, and that only the tables matter. *)
Class TableLaws (R : Type) `{Table R} := {
  table_with t w : table (with_table t w) = t;
  with_table_table w : with_table (table w) w = w;
  with_table_with t t' w : with_table t (with_table t' w) = with_table t w;
  table_same w w' : same_tables w w' -> table w = table w';
  table_empty ck us : table (empty_world ck us) = ∅
}.

Section Statements.
Context {R : Type} `{Table R}.

(** The rows of a table. A statement without ORDER BY returns them in an order
    of the database's choosing. *)
Definition rows (w : World) : list R := (map_to_list (table w)).*2.

Definition exists_row (p : R -> bool) (w : World) : bool := existsb p (rows w).

(** [SELECT ... WHERE p] *)
Definition select (p : R -> bool) : DB (list R) := gets (fun w => List.filter p (rows w)).

(** [session.scalar(select(...).where(p))]: the first row, if any. *)
Definition select_first (p : R -> bool) : DB (option R) :=
  gets (fun w => head (List.filter p (rows w))).

(** [SELECT count( * ) WHERE p] *)
Definition select_count (p : R -> bool) : DB Z :=
  gets (fun w => Z.of_nat (length (List.filter p (rows w)))).

(** [SELECT ... WHERE id = :id AND p], with or without FOR UPDATE. *)
Definition select_by_id (id : uid) (p : R -> bool) : DB (option R) :=
  gets (fun w => r ← table w !! id; if p r then Some r else None).

(** [ORDER BY key, id] *)
Definition row_le (key : R -> Z) : relation R := fun a b =>
  key a < key b \/ (key a = key b /\ (row_id a <= row_id b)%N).

#[global] Instance row_le_dec key : RelDecision (row_le key).
Proof. intros a b. unfold row_le. apply _. Defined.

Definition order_by (key : R -> Z) (l : list R) : list R := merge_sort (row_le key) l.

(** [UPDATE ... SET f WHERE id = :id AND p]; [true] when the row count is 1. *)
Definition update_by_id (id : uid) (p : R -> bool) (f : R -> R) : DB bool := fun w =>
  match table w !! id with
  | Some r =>
      if p r then
        if row_check (f r) then (inr true, with_table (<[id := f r]> (table w)) w)
        else (inl IntegrityError, w)
      else (inr false, w)
  | None => (inr false, w)
  end.

(** [UPDATE ... SET f WHERE p]; the row count. *)
Definition update_where (p : R -> bool) (f : R -> R) : DB nat := fun w =>
  let hit := List.filter p (rows w) in
  if forallb (fun r => row_check (f r)) hit
  then (inr (length hit), with_table ((fun r => if p r then f r else r) <$> table w) w)
  else (inl IntegrityError, w).

(** Attribute assignments on a loaded row, flushed: the row as it is written. *)
Definition update_row (id : uid) (f : R -> R) : DB R := fun w =>
  match table w !! id with
  | Some r =>
      if row_check (f r) then (inr (f r), with_table (<[id := f r]> (table w)) w)
      else (inl IntegrityError, w)
  | None => (inl StaleDataError, w)
  end.

(** [session.add(row); flush()] *)
Definition insert_ok (r : R) (w : World) : bool :=
  row_check r && is_none (table w !! row_id r) && negb (exists_row (row_conflict r) w) &&
  row_parents r w.

Definition insert_row (r : R) : DB unit := fun w =>
  if insert_ok r w then (inr tt, with_table (<[row_id r := r]> (table w)) w)
  else (inl IntegrityError, w).

(** [session.delete(row); flush()] *)
Definition delete_row (id : uid) : DB unit := fun w =>
  if row_restricted id w then (inl IntegrityError, w)
  else let w' := row_cascade id w in (inr tt, with_table (delete id (table w')) w').

(** [DELETE ... WHERE id IN ids]; the row count. *)
Definition delete_ids (ids : list uid) : DB nat :=
  fold_m (fun n id =>
    let* present := gets (fun w => is_some (table w !! id)) in
    if present then delete_row id ;;; ret (S n) else ret n) 0%nat ids.

End Statements.

(** ** Clock, identifiers, savepoints *)

(** [SELECT clock_timestamp()]: one reading per statement. *)
Definition clock_timestamp : DB time := fun w =>
  (inr (clock w (clock_reads w)), w <| clock_reads := S (clock_reads w) |>).

(** [uuid.uuid4()] *)
Definition uuid4 : DB uid := fun w =>
  (inr (uuids w (uuid_draws w)), w <| uuid_draws := S (uuid_draws w) |>).

(** [nextval('payment_provider_invoice_id_seq')] *)
Definition next_invoice_id : DB Z := fun w =>
  (inr (invoice_seq w), w <| invoice_seq := invoice_seq w + 1 |>).

(** [async with session.begin_nested(): m], and a request's transaction. *)
Definition begin_nested {A} (m : DB A) : DB A := fun w =>
  match m w with
  | (inl e, w') => (inl e, rollback w w')
  | r => r
  end.

(** ** The eight tables and their constraints *)

Definition fk_ok {R} (t : gmap uid R) (id : uid) : bool := is_some (t !! id).

#[export] Instance MediaJob_table : Table MediaJob := {
  table := media_jobs;
  with_table t w := w <| media_jobs := t |>;
  row_id := mj_id;
  row_check := MediaJob_check;
  row_conflict a b := bool_decide (mj_credential_hash a = mj_credential_hash b);
  row_parents _ _ := true;
  row_restricted id w :=
    existsb (fun d => bool_decide (dj_media_job_id d = id)) (map_to_list (media_download_jobs w)).*2;
  row_cascade _ w := w
}.

#[export] Instance FreeDownloadDeliveryRange_table : Table FreeDownloadDeliveryRange := {
  table := free_download_delivery_ranges;
  with_table t w := w <| free_download_delivery_ranges := t |>;
  row_id := dr_id;
  row_check := FreeDownloadDeliveryRange_check;
  row_conflict _ _ := false;
  row_parents r w := fk_ok (free_download_quota_entries w) (dr_quota_entry_id r);
  row_restricted _ _ := false;
  row_cascade _ w := w
}.

#[export] Instance FreeDownloadQuotaEntry_table : Table FreeDownloadQuotaEntry := {
  table := free_download_quota_entries;
  with_table t w := w <| free_download_quota_entries := t |>;
  row_id := qe_id;
  row_check := FreeDownloadQuotaEntry_check;
  row_conflict a b := bool_decide (qe_download_job_id a = qe_download_job_id b);
  row_parents r w :=
    fk_ok (anonymous_clients w) (qe_anonymous_client_id r) &&
    fk_ok (media_download_jobs w) (qe_download_job_id r);
  row_restricted _ _ := false;
  row_cascade id w :=
    w <| free_download_delivery_ranges :=
           filter (fun kv => dr_quota_entry_id kv.2 <> id) (free_download_delivery_ranges w) |>
}.

#[export] Instance MediaDeliveryGrant_table : Table MediaDeliveryGrant := {
  table := media_delivery_grants;
  with_table t w := w <| media_delivery_grants := t |>;
  row_id := dg_id;
  row_check := MediaDeliveryGrant_check;
  row_conflict a b := bool_decide (dg_token_hash a = dg_token_hash b);
  row_parents r w := fk_ok (media_download_jobs w) (dg_download_job_id r);
  row_restricted _ _ := false;
  row_cascade _ w := w
}.

(** The entries of a download job, and its grants, go with it; the ledger rows
    go with their entry. *)
#[export] Instance MediaDownloadJob_table : Table MediaDownloadJob := {
  table := media_download_jobs;
  with_table t w := w <| media_download_jobs := t |>;
  row_id := dj_id;
  row_check := MediaDownloadJob_check;
  row_conflict a b :=
    bool_decide (dj_media_job_id a = dj_media_job_id b) &&
    bool_decide (dj_format_option_id a = dj_format_option_id b);
  row_parents r w := fk_ok (media_jobs w) (dj_media_job_id r);
  row_restricted _ _ := false;
  row_cascade id w :=
    let gone (e : uid) :=
      match free_download_quota_entries w !! e with
      | Some q => bool_decide (qe_download_job_id q = id)
      | None => false
      end in
    w <| free_download_delivery_ranges :=
           filter (fun kv => gone (dr_quota_entry_id kv.2) = false) (free_download_delivery_ranges w) |>
      <| free_download_quota_entries :=
           filter (fun kv => qe_download_job_id kv.2 <> id) (free_download_quota_entries w) |>
      <| media_delivery_grants :=
           filter (fun kv => dg_download_job_id kv.2 <> id) (media_delivery_grants w) |>
}.

#[export] Instance AnonymousClient_table : Table AnonymousClient := {
  table := anonymous_clients;
  with_table t w := w <| anonymous_clients := t |>;
  row_id := ac_id;
  row_check := AnonymousClient_check;
  row_conflict a b := bool_decide (ac_token_hash a = ac_token_hash b);
  row_parents _ _ := true;
  row_restricted id w :=
    existsb (fun e => bool_decide (qe_anonymous_client_id e = id))
      (map_to_list (free_download_quota_entries w)).*2 ||
    existsb (fun o => bool_decide (po_anonymous_client_id o = id))
      (map_to_list (payment_orders w)).*2 ||
    existsb (fun e => bool_decide (pe_anonymous_client_id e = id))
      (map_to_list (premium_entitlements w)).*2;
  row_cascade _ w := w
}.

#[export] Instance PaymentOrder_table : Table PaymentOrder := {
  table := payment_orders;
  with_table t w := w <| payment_orders := t |>;
  row_id := po_id;
  row_check := PaymentOrder_check;
  row_conflict a b :=
    bool_decide (po_public_id a = po_public_id b) ||
    bool_decide (po_provider_invoice_id a = po_provider_invoice_id b) ||
    (bool_decide (po_anonymous_client_id a = po_anonymous_client_id b) &&
     bool_decide (po_creation_idempotency_hash a = po_creation_idempotency_hash b));
  row_parents r w := fk_ok (anonymous_clients w) (po_anonymous_client_id r);
  row_restricted id w :=
    existsb (fun e => bool_decide (pe_source_payment_order_id e = id))
      (map_to_list (premium_entitlements w)).*2;
  row_cascade _ w := w
}.

#[export] Instance PremiumEntitlement_table : Table PremiumEntitlement := {
  table := premium_entitlements;
  with_table t w := w <| premium_entitlements := t |>;
  row_id := pe_id;
  row_check := PremiumEntitlement_check;
  row_conflict a b :=
    bool_decide (pe_public_id a = pe_public_id b) ||
    bool_decide (pe_source_payment_order_id a = pe_source_payment_order_id b);
  row_parents r w :=
    fk_ok (anonymous_clients w) (pe_anonymous_client_id r) &&
    fk_ok (payment_orders w) (pe_source_payment_order_id r);
  row_restricted _ _ := false;
  row_cascade _ w := w
}.

Ltac solve_table_laws :=
  split; intros; [..|unfold same_tables in *; cbn; tauto|]; destruct_all_worlds; reflexivity
with destruct_all_worlds := repeat match goal with w : World |- _ => destruct w end.

#[export] Instance MediaJob_laws : TableLaws MediaJob.
Proof. solve_table_laws. Qed.
#[export] Instance MediaDownloadJob_laws : TableLaws MediaDownloadJob.
Proof. solve_table_laws. Qed.
#[export] Instance AnonymousClient_laws : TableLaws AnonymousClient.
Proof. solve_table_laws. Qed.
#[export] Instance FreeDownloadQuotaEntry_laws : TableLaws FreeDownloadQuotaEntry.
Proof. solve_table_laws. Qed.
#[export] Instance FreeDownloadDeliveryRange_laws : TableLaws FreeDownloadDeliveryRange.
Proof. solve_table_laws. Qed.
#[export] Instance MediaDeliveryGrant_laws : TableLaws MediaDeliveryGrant.
Proof. solve_table_laws. Qed.
#[export] Instance PaymentOrder_laws : TableLaws PaymentOrder.
Proof. solve_table_laws. Qed.
#[export] Instance PremiumEntitlement_laws : TableLaws PremiumEntitlement.
Proof. solve_table_laws. Qed.

(** A predicate that looks at the tables only. *)
Definition tables_only (I : World -> Prop) : Prop :=
  forall w w', same_tables w w' -> I w -> I w'.

Lemma same_tables_rollback w w' : same_tables w (rollback w w').
Proof. repeat split. Qed.

Section Preservation.
Context (I : World -> Prop) (HI : tables_only I).

Lemma preserves_clock_timestamp : preserves I clock_timestamp.
Proof. intros w Hw. by apply (HI w). Qed.

Lemma preserves_uuid4 : preserves I uuid4.
Proof. intros w Hw. by apply (HI w). Qed.

Lemma preserves_next_invoice_id : preserves I next_invoice_id.
Proof. intros w Hw. by apply (HI w). Qed.

Lemma preserves_begin_nested {A} (m : DB A) : preserves I m -> preserves I (begin_nested m).
Proof.
  intros Hm w Hw. unfold begin_nested. specialize (Hm w Hw).
  destruct (m w) as [[e|a] w']; cbn in *; [|done].
  eapply HI; [apply same_tables_rollback|done].
Qed.

Context {R : Type} `{TableLaws R}.

Lemma preserves_update_by_id id (p : R -> bool) f :
  (forall w r, I w -> table w !! id = Some r -> p r = true -> row_check (f r) = true ->
    I (with_table (<[id := f r]> (table w)) w)) ->
  preserves I (update_by_id id p f).
Proof.
  intros Hf w Hw. unfold update_by_id.
  destruct (table w !! id) as [r|] eqn:Er; [|done].
  destruct (p r) eqn:Ep; [|done]. destruct (row_check (f r)) eqn:Ec; cbn; auto.
Qed.

Lemma preserves_update_row id (f : R -> R) :
  (forall w r, I w -> table w !! id = Some r -> row_check (f r) = true ->
    I (with_table (<[id := f r]> (table w)) w)) ->
  preserves I (update_row id f).
Proof.
  intros Hf w Hw. unfold update_row.
  destruct (table w !! id) as [r|] eqn:Er; [|done].
  destruct (row_check (f r)) eqn:Ec; cbn; auto.
Qed.

Lemma preserves_update_where (p : R -> bool) f :
  (forall w, I w -> (forall id r, table w !! id = Some r -> p r = true -> row_check (f r) = true) ->
    I (with_table ((fun r => if p r then f r else r) <$> table w) w)) ->
  preserves I (update_where p f).
Proof.
  intros Hf w Hw. unfold update_where.
  destruct (forallb _ _) eqn:Ea; [|done]. apply Hf; [done|].
  intros id r Er Ep. rewrite forallb_forall in Ea. apply Ea, filter_In. split; [|done].
  apply list_elem_of_In, list_elem_of_fmap. exists (id, r). split; [done|].
  by apply elem_of_map_to_list.
Qed.

Lemma preserves_insert_row (r : R) :
  (forall w, I w -> insert_ok r w = true -> I (with_table (<[row_id r := r]> (table w)) w)) ->
  preserves I (insert_row r).
Proof.
  intros Hf w Hw. unfold insert_row. destruct (insert_ok r w) eqn:E; cbn; auto.
Qed.

Lemma preserves_delete_row (id : uid) :
  (forall w, I w -> row_restricted (R := R) id w = false ->
    I (with_table (delete id (table (R := R) (row_cascade (R := R) id w))) (row_cascade (R := R) id w))) ->
  preserves I (delete_row (R := R) id).
Proof.
  intros Hf w Hw. unfold delete_row. destruct (row_restricted id w) eqn:E; cbn; auto.
Qed.

Lemma preserves_delete_ids ids :
  (forall id, preserves I (delete_row (R := R) id)) -> preserves I (delete_ids (R := R) ids).
Proof.
  intros Hd. apply preserves_fold_m. intros n id. apply preserves_bind; [apply preserves_gets|].
  intros [|]; [|apply preserves_ret]. apply preserves_bind; [apply Hd|intros _; apply preserves_ret].
Qed.
End Preservation.

#[export] Hint Resolve preserves_clock_timestamp preserves_uuid4 preserves_next_invoice_id
  preserves_begin_nested : fetchnow.

(** ** What the statements return *)
Section Results.
Context {R : Type} `{TableLaws R}.

Lemma elem_of_rows w (r : R) : r ∈ rows w <-> exists id, table w !! id = Some r.
Proof.
  unfold rows. rewrite list_elem_of_fmap. split.
  - intros ([id r'] & -> & Hin). exists id. by apply elem_of_map_to_list.
  - intros [id Hr]. exists (id, r). split; [done|]. by apply elem_of_map_to_list.
Qed.

Lemma elem_of_filter_rows p w (r : R) :
  r ∈ List.filter p (rows w) <-> (exists id, table w !! id = Some r) /\ p r = true.
Proof. by rewrite list_elem_of_In, filter_In, <- list_elem_of_In, elem_of_rows. Qed.

Lemma exists_row_true p w : exists_row (R := R) p w = true <-> exists id r, table w !! id = Some r /\ p r = true.
Proof.
  unfold exists_row. rewrite existsb_exists. setoid_rewrite <- list_elem_of_In.
  setoid_rewrite elem_of_rows. split.
  - intros (r & [id Hr] & Hp). eauto.
  - intros (id & r & Hr & Hp). eauto.
Qed.

Lemma exists_row_false p w : exists_row (R := R) p w = false <-> forall id r, table w !! id = Some r -> p r = false.
Proof.
  rewrite <- not_true_iff_false, exists_row_true. split.
  - intros Hn id r Hr. apply not_true_iff_false. intros Hp. apply Hn. eauto.
  - intros Hf (id & r & Hr & Hp). rewrite (Hf _ _ Hr) in Hp. done.
Qed.

Lemma select_first_some p w (r : R) w' :
  select_first p w = (inr (Some r), w') -> w' = w /\ (exists id, table w !! id = Some r) /\ p r = true.
Proof.
  unfold select_first, gets. intros E. injection E as Eh <-. split; [done|].
  apply elem_of_filter_rows. destruct (List.filter p (rows w)); simplify_eq/=. left.
Qed.

Lemma select_first_none p w :
  select_first (R := R) p w = (inr None, w) <-> forall id r, table w !! id = Some r -> p r = false.
Proof.
  unfold select_first, gets. split.
  - intros E id r Hr. injection E as Eh. apply not_true_iff_false. intros Hp.
    assert (Hin : r ∈ List.filter p (rows w)) by (apply elem_of_filter_rows; eauto).
    destruct (List.filter p (rows w)); [by apply not_elem_of_nil in Hin | done].
  - intros Hf. destruct (List.filter p (rows w)) as [|r l] eqn:El; [done|].
    assert (Hin : r ∈ List.filter p (rows w)) by (rewrite El; left).
    apply elem_of_filter_rows in Hin as [[id Hr] Hp]. by rewrite (Hf _ _ Hr) in Hp.
Qed.

(** When [p] determines the row, [select_first] finds it. *)
Lemma select_first_unique p w id (r : R) :
  table w !! id = Some r -> p r = true ->
  (forall id' r', table w !! id' = Some r' -> p r' = true -> r' = r) ->
  select_first p w = (inr (Some r), w).
Proof.
  intros Hr Hp Hu. unfold select_first, gets. do 2 f_equal.
  assert (Hin : r ∈ List.filter p (rows w)) by (apply elem_of_filter_rows; eauto).
  destruct (List.filter p (rows w)) as [|r' l] eqn:El; [by apply not_elem_of_nil in Hin|].
  assert (Hin' : r' ∈ List.filter p (rows w)) by (rewrite El; left).
  apply elem_of_filter_rows in Hin' as [[id' Hr'] Hp']. cbn. f_equal. eauto.
Qed.

Lemma order_by_perm key (l : list R) : order_by key l ≡ₚ l.
Proof. apply merge_sort_Permutation. Qed.

Lemma elem_of_order_by key (r : R) l : r ∈ order_by key l <-> r ∈ l.
Proof. by rewrite order_by_perm. Qed.

Lemma row_le_total key (a b : R) : row_le key a b \/ row_le key b a.
Proof. unfold row_le. destruct (Z.lt_trichotomy (key a) (key b)) as [?|[?|?]]; lia. Qed.

#[local] Instance row_le_Total key : Total (row_le (R := R) key).
Proof. intros a b. apply row_le_total. Qed.

#[local] Instance row_le_Trans key : Transitive (row_le (R := R) key).
Proof. intros a b c. unfold row_le. lia. Qed.

Lemma order_by_sorted key (l : list R) : StronglySorted (row_le key) (order_by key l).
Proof. apply (StronglySorted_merge_sort (row_le key)). Qed.

(** [ORDER BY key LIMIT n]: a row left out is not before any row returned, and
    then the limit is used up. *)
Lemma order_by_limit key n (l : list R) r :
  r ∈ l -> r ∉ take n (order_by key l) ->
  length (take n (order_by key l)) = n /\
  forall r', r' ∈ take n (order_by key l) -> row_le key r' r.
Proof.
  intros Hr Hn. apply (elem_of_order_by key) in Hr.
  pose proof (order_by_sorted key l) as Hs.
  rewrite <- (take_drop n (order_by key l)) in Hr, Hs.
  apply elem_of_app in Hr as [Hr|Hr]; [done|]. split.
  - rewrite length_take. destruct (decide (n <= length (order_by key l))%nat); [lia|].
    rewrite drop_ge in Hr by lia. by apply not_elem_of_nil in Hr.
  - intros r' Hr'. apply StronglySorted_app in Hs as (Hs & _ & _). by apply Hs.
Qed.

Lemma order_by_limit_sorted key n (l : list R) :
  StronglySorted (row_le key) (take n (order_by key l)).
Proof.
  pose proof (order_by_sorted key l) as Hs. rewrite <- (take_drop n (order_by key l)) in Hs.
  by apply StronglySorted_app in Hs as (_ & ? & _).
Qed.

Lemma NoDup_ids_limit key n (l : list R) :
  NoDup (row_id <$> l) -> NoDup (row_id <$> take n (order_by key l)).
Proof.
  rewrite <- (order_by_perm key l) at 1. rewrite <- (take_drop n (order_by key l)) at 1.
  rewrite fmap_app, NoDup_app. tauto.
Qed.

Lemma elem_of_limit key n (r : R) l : r ∈ take n (order_by key l) -> r ∈ l.
Proof.
  intros Hr. apply (elem_of_order_by key). rewrite <- (take_drop n (order_by key l)).
  apply elem_of_app. by left.
Qed.

Lemma lookup_with_table t id w : table (with_table (R := R) t w) !! id = t !! id.
Proof. by rewrite table_with. Qed.

(** A new row counts once. *)
Lemma count_insert (p : R -> bool) id r w :
  table w !! id = None ->
  length (List.filter p (rows (with_table (<[id := r]> (table w)) w))) =
  ((if p r then 1 else 0) + length (List.filter p (rows w)))%nat.
Proof.
  intros Hid. unfold rows. rewrite table_with.
  assert (Hp : (map_to_list (<[id := r]> (table w))).*2 ≡ₚ r :: (map_to_list (table w)).*2).
  { by rewrite map_to_list_insert. }
  rewrite (Permutation_length (lfilter_perm p _ _ Hp)). cbn. by destruct (p r).
Qed.

(** Every row is stored under its own id. *)
Definition keyed (w : World) : Prop := forall id (r : R), table w !! id = Some r -> row_id r = id.

Lemma NoDup_row_ids w : keyed w -> NoDup (row_id <$> rows (R := R) w).
Proof.
  intros Hk. unfold rows.
  assert (E : row_id <$> (map_to_list (table (R := R) w)).*2 = (map_to_list (table (R := R) w)).*1).
  { rewrite <- list_fmap_compose. apply list_fmap_ext. intros i [id r] Hi. cbn. apply Hk.
    apply elem_of_map_to_list. by apply list_elem_of_lookup_2 in Hi. }
  rewrite E. apply NoDup_fst_map_to_list.
Qed.

Lemma NoDup_filter_ids (p : R -> bool) l :
  NoDup (row_id <$> l) -> NoDup (row_id <$> List.filter p l).
Proof.
  induction l as [|r l IH]; cbn; [done|]. rewrite NoDup_cons. intros [Hni Hnd].
  destruct (p r); cbn; [|auto]. apply NoDup_cons. split; [|auto].
  intros Hin. apply Hni. apply list_elem_of_fmap in Hin as (r' & E & Hin).
  apply list_elem_of_In, filter_In in Hin as [Hin _].
  apply list_elem_of_fmap. exists r'. split; [done|]. by apply list_elem_of_In.
Qed.

(** The rows a statement selected are stored under their ids, once each. *)
Lemma selected_rows w (p : R -> bool) l :
  keyed w -> List.filter p (rows w) = l ->
  NoDup (row_id <$> l) /\ forall r, r ∈ l -> table w !! row_id r = Some r /\ p r = true.
Proof.
  intros Hk <-. split.
  - apply NoDup_filter_ids, NoDup_row_ids, Hk.
  - intros r Hr. apply elem_of_filter_rows in Hr as [[id Hid] Hp]. split; [|done].
    by rewrite (Hk _ _ Hid).
Qed.

(** A loop whose body works on the row it is at, for selected rows. *)
Lemma wp_map_rows {B} (I : World -> Prop) (P : R -> Prop) (body : R -> DB B) X :
  (forall w r, I w -> table w !! row_id r = Some r -> P r ->
    wp (body r) (fun _ w' => I w' /\ forall id, id <> row_id r -> table w' !! id = table w !! id) X w) ->
  forall l w, I w -> NoDup (row_id <$> l) ->
    (forall r, r ∈ l -> table w !! row_id r = Some r /\ P r) ->
    wp (map_m body l) (fun _ => I) X w.
Proof.
  intros Hb l w HI Hnd Hl.
  set (J := fun (l : list R) w => I w /\ NoDup (row_id <$> l) /\
              forall r, r ∈ l -> table w !! row_id r = Some r /\ P r).
  apply (wp_mono _ (fun _ => J []) _ X); [|by intros _ w' [? _]|done].
  apply wp_map_m; [|done]. clear l w HI Hnd Hl.
  intros r l w (HI & Hnd & Hl). cbn in Hnd. apply NoDup_cons in Hnd as [Hni Hnd].
  destruct (Hl r) as [Hr HP]; [left|].
  eapply wp_mono; [apply (Hb w r HI Hr HP)| |done].
  intros _ w' [HI' Hf]. split; [done|]. split; [done|].
  intros r' Hr'. destruct (Hl r') as [Hs HP']; [by right|]. split; [|done].
  rewrite Hf; [done|]. intros E. apply Hni. rewrite <- E. apply list_elem_of_fmap. eauto.
Qed.

Lemma update_by_id_true id (p : R -> bool) f w w' :
  update_by_id id p f w = (inr true, w') ->
  exists r, table w !! id = Some r /\ p r = true /\ w' = with_table (<[id := f r]> (table w)) w.
Proof.
  unfold update_by_id. destruct (table w !! id) as [r|]; [|done].
  destruct (p r) eqn:Ep; [|done]. destruct (row_check (f r)); [|done].
  intros E. injection E as <-. eauto.
Qed.

Lemma update_row_run id (f : R -> R) w r :
  table w !! id = Some r -> row_check (f r) = true ->
  update_row id f w = (inr (f r), with_table (<[id := f r]> (table w)) w).
Proof. intros Er Ec. unfold update_row. by rewrite Er, Ec. Qed.

(** The exact effect of a loop that rewrites each selected row by [f]. *)
Lemma run_map_update (guard : R -> exn + unit) (f : R -> R) l w :
  NoDup (row_id <$> l) ->
  (forall r, r ∈ l -> table w !! row_id r = Some r /\ guard r = inr tt /\ row_check (f r) = true) ->
  exists t, map_m (fun r => lift (guard r) ;;; update_row (row_id r) f) l w
            = (inr (f <$> l), with_table t w) /\
    (forall r, r ∈ l -> t !! row_id r = Some (f r)) /\
    (forall id, id ∉ row_id <$> l -> t !! id = table w !! id).
Proof.
  revert w. induction l as [|r l IH]; intros w Hnd Hl.
  - exists (table w). split_and!; [|intros r Hr; by apply not_elem_of_nil in Hr|done].
    cbn. unfold ret. by rewrite with_table_table.
  - cbn in Hnd. apply NoDup_cons in Hnd as [Hni Hnd].
    destruct (Hl r) as (Hr & Hg & Hc); [left|].
    assert (Hne : forall r', r' ∈ l -> row_id r' <> row_id r).
    { intros r' Hr' E. apply Hni. rewrite <- E. apply list_elem_of_fmap. eauto. }
    destruct (IH (with_table (<[row_id r := f r]> (table w)) w)) as (t & E & Ht & Ho); [done|..].
    + intros r' Hr'. destruct (Hl r') as (? & ? & ?); [by right|].
      rewrite table_with, lookup_insert_ne by (by intros ?; eapply Hne). done.
    + exists t. split_and!.
      * cbn [map_m]. erewrite bind_run; [|erewrite bind_run; [|unfold lift; by rewrite Hg]].
        2: by apply update_row_run.
        erewrite bind_run; [|exact E]. cbn. by rewrite with_table_with.
      * intros r' Hr'. apply elem_of_cons in Hr' as [->|Hr']; [|by apply Ht].
        rewrite Ho by done. by rewrite table_with, lookup_insert_eq.
      * intros id Hid. cbn in Hid. apply not_elem_of_cons in Hid as [Hne' Hid].
        rewrite Ho by done. by rewrite table_with, lookup_insert_ne.
Qed.

(** What a loop that rewrites the rows it was given did, when it succeeded. *)
Lemma map_update_inv (f : R -> R) l w x w' :
  NoDup (row_id <$> l) -> (forall r, r ∈ l -> table w !! row_id r = Some r) ->
  map_m (fun r => update_row (row_id r) f) l w = (inr x, w') ->
  exists t, w' = with_table t w /\
    (forall r, r ∈ l -> t !! row_id r = Some (f r)) /\
    (forall id, id ∉ row_id <$> l -> t !! id = table w !! id).
Proof.
  revert w x. induction l as [|r l IH]; intros w x Hnd Hl E; cbn in E.
  - injection E as _ <-. exists (table w). rewrite with_table_table.
    split_and!; [done|intros r Hr; by apply not_elem_of_nil in Hr|done].
  - cbn in Hnd. apply NoDup_cons in Hnd as [Hni Hnd].
    assert (Hne : forall r', r' ∈ l -> row_id r' <> row_id r).
    { intros r' Hr' Ei. apply Hni. rewrite <- Ei. apply list_elem_of_fmap. eauto. }
    apply bind_inr in E as (y & w1 & E1 & E). apply bind_inr in E as (ys & w2 & E2 & E).
    injection E as _ <-. unfold update_row in E1. rewrite (Hl r) in E1 by left.
    destruct (row_check (f r)); [|done]. injection E1 as <- <-.
    apply IH in E2 as (t & -> & Ht & Ho); [|done|].
    2: { intros r' Hr'. rewrite table_with, lookup_insert_ne by (by intros ?; eapply Hne).
         apply Hl. by right. }
    exists t. split_and!; [by rewrite with_table_with| |].
    + intros r' [->|Hr']%elem_of_cons; [|by apply Ht].
      rewrite Ho by done. by rewrite table_with, lookup_insert_eq.
    + intros id [Hne' Hid]%not_elem_of_cons. rewrite Ho by done.
      by rewrite table_with, lookup_insert_ne.
Qed.

Lemma wp_select (p : R -> bool) Q X w :
  Q (List.filter p (rows w)) w -> wp (select p) Q X w.
Proof. done. Qed.

Lemma wp_update_by_id id (p : R -> bool) f Q X w :
  (forall r, table w !! id = Some r -> p r = true -> row_check (f r) = true ->
     Q true (with_table (<[id := f r]> (table w)) w)) ->
  (forall r, table w !! id = Some r -> p r = true -> row_check (f r) = false -> X IntegrityError w) ->
  (forall r, table w !! id = Some r -> p r = false -> Q false w) ->
  (table w !! id = None -> Q false w) ->
  wp (update_by_id id p f) Q X w.
Proof.
  intros H1 H2 H3 H4. unfold wp, update_by_id. destruct (table w !! id) as [r|] eqn:Er; [|auto].
  destruct (p r) eqn:Ep; [|eauto]. destruct (row_check (f r)) eqn:Ec; eauto.
Qed.

Lemma wp_update_row id (f : R -> R) Q X w r :
  table w !! id = Some r -> row_check (f r) = true ->
  Q (f r) (with_table (<[id := f r]> (table w)) w) ->
  wp (update_row id f) Q X w.
Proof. intros Er Ec HQ. unfold wp, update_row. by rewrite Er, Ec. Qed.

Lemma wp_select_by_id id (p : R -> bool) Q X w :
  (forall r, table w !! id = Some r -> p r = true -> Q (Some r) w) ->
  ((forall r, table w !! id = Some r -> p r = false) -> Q None w) ->
  wp (select_by_id id p) Q X w.
Proof.
  intros H1 H2. unfold wp, select_by_id, gets.
  destruct (table w !! id) as [r|] eqn:Er; cbn.
  - destruct (p r) eqn:Ep; [auto|]. apply H2. intros r' E. by simplify_eq.
  - apply H2. done.
Qed.
End Results.

Lemma wp_clock_timestamp Q X w :
  Q (clock w (clock_reads w)) (w <| clock_reads := S (clock_reads w) |>) ->
  wp clock_timestamp Q X w.
Proof. done. Qed.

Lemma wp_uuid4 Q X w :
  Q (uuids w (uuid_draws w)) (w <| uuid_draws := S (uuid_draws w) |>) -> wp uuid4 Q X w.
Proof. done. Qed.

(** A savepoint around a computation that keeps [I] either way. *)
Lemma wp_begin_nested {A} (m : DB A) Q X w :
  wp m Q (fun e w' => X e (rollback w w')) w -> wp (begin_nested m) Q X w.
Proof. unfold wp, begin_nested. by destruct (m w) as [[e|a] w']. Qed.
