(* ===== verification/Lifecycle.v ===== *)
(** Tables whose rows live a life cycle: what a row shows ([observed]) follows a
    step relation, an invariant of single rows holds of every row, and the
    identity columns never change. A repository states its life cycle as an
    instance of [Lifecycle]; the lemmas here carry the invariant of the table
    through the statements of its operations. *)

From S2P Require Export Database.

(** The abstract specification of the rows of a table. *)
Class Lifecycle (R : Type) := {
  observation : Type;
  observed : R -> observation;
  lc_step : relation observation;
  lc_initial : observation -> Prop;
  (** what the operations keep of every row *)
  row_inv : R -> Prop;
  (** the columns no operation changes *)
  identity_columns : Type;
  identity : R -> identity_columns
}.

(** The row invariant includes the CHECK constraints, and the identity columns
    include the id and the unique keys. *)
Class LifecycleLaws (R : Type) `{Table R, Lifecycle R} := {
  lc_check r : row_inv r -> row_check r = true;
  lc_row_id r r' : identity r = identity r' -> row_id r = row_id r';
  lc_conflict_sym r r' : row_conflict r r' = row_conflict r' r;
  lc_conflict r r' x : identity r = identity r' -> row_conflict r x = row_conflict r' x
}.

Section Invariant.
Context {R : Type} `{HT : Table R} `{!TableLaws R} `{HL : Lifecycle R} `{!LifecycleLaws R}.

(** A row update of the life cycle. *)
Definition good_update (r r' : R) : Prop :=
  row_inv r' /\ (observed r = observed r' \/ lc_step (observed r) (observed r')) /\
  identity r = identity r'.

Lemma good_update_check r r' : good_update r r' -> row_check r' = true.
Proof. intros [? _]. by apply lc_check. Qed.

(** The table invariant, relative to the table [t0] an execution started from. *)
Record inv (t0 : gmap uid R) (w : World) : Prop := {
  inv_keyed : keyed (R := R) w;
  inv_rows : forall id (r : R), table w !! id = Some r -> row_inv r;
  inv_unique : forall id id' (r r' : R), table w !! id = Some r -> table w !! id' = Some r' ->
    row_conflict r r' = true -> id = id';
  inv_evolves : forall id (r0 : R), t0 !! id = Some r0 -> exists r, table w !! id = Some r /\
    rtc lc_step (observed r0) (observed r) /\ identity r0 = identity r;
  inv_new : forall id (r : R), table w !! id = Some r -> t0 !! id = None ->
    exists a, lc_initial a /\ rtc lc_step a (observed r)
}.

Context (t0 : gmap uid R).

(** The invariant looks at its own table only. *)
Lemma inv_table w w' : table (R := R) w' = table w -> inv t0 w -> inv t0 w'.
Proof. intros E [? ? ? ? ?]. unfold keyed in *. split; unfold keyed; rewrite ?E; auto. Qed.

Lemma inv_update w id r r' :
  inv t0 w -> table w !! id = Some r -> good_update r r' ->
  inv t0 (with_table (<[id := r']> (table w)) w).
Proof.
  intros [Hk Hr Hu He Hn] Er (Hri & Hab & Hid). unfold keyed in *.
  assert (Hrtc : rtc lc_step (observed r) (observed r')).
  { destruct Hab as [->|Hab]; [apply rtc_refl|by apply rtc_once]. }
  pose proof (fun x => lc_conflict _ _ x Hid) as Hc.
  split; unfold keyed; rewrite table_with.
  - intros i x. rewrite lookup_insert_Some. intros [[<- <-]|[_ Hx]]; [|eauto].
    rewrite <- (Hk _ _ Er). symmetry. by apply lc_row_id.
  - intros i x. rewrite lookup_insert_Some. intros [[<- <-]|[_ Hx]]; eauto.
  - intros i i' x x'. rewrite !lookup_insert_Some.
    intros [[<- <-]|[? Hx]] [[<- <-]|[? Hx']] E; [done| | |eauto].
    + eapply Hu; [exact Er|exact Hx'|]. by rewrite Hc.
    + eapply Hu; [exact Hx|exact Er|]. by rewrite lc_conflict_sym, Hc, lc_conflict_sym.
  - intros i r0 H0. destruct (decide (i = id)) as [->|Hne].
    + exists r'. rewrite lookup_insert_eq. split; [done|].
      destruct (He _ _ H0) as (x & Ex & Hs & Hi). rewrite Er in Ex. injection Ex as <-.
      split; [by etrans|by rewrite Hi].
    + rewrite lookup_insert_ne by done. eauto.
  - intros i x. rewrite lookup_insert_Some. intros [[<- <-]|[_ Hx]] H0; [|eauto].
    destruct (Hn _ _ Er H0) as (a & Ha & Hs). exists a. split; [done|]. by etrans.
Qed.

Lemma inv_insert w r :
  inv t0 w -> row_inv r -> lc_initial (observed r) -> insert_ok r w = true ->
  inv t0 (with_table (<[row_id r := r]> (table w)) w).
Proof.
  intros [Hk Hr Hu He Hn] Hri Hab Hok. unfold insert_ok in Hok. propify.
  assert (Hfree : table w !! row_id r = None) by by apply is_none_true.
  assert (Hc : forall id x, table w !! id = Some x -> row_conflict r x <> true).
  { intros id x Hx. match goal with He' : exists_row _ _ = false |- _ =>
      rewrite exists_row_false in He'; by rewrite (He' _ _ Hx) end. }
  unfold keyed in *. split; unfold keyed; rewrite table_with.
  - intros i x. rewrite lookup_insert_Some. intros [[<- <-]|[_ Hx]]; eauto.
  - intros i x. rewrite lookup_insert_Some. intros [[<- <-]|[_ Hx]]; eauto.
  - intros i i' x x'. rewrite !lookup_insert_Some.
    intros [[<- <-]|[? Hx]] [[<- <-]|[? Hx']] E; [done| | |eauto].
    + by destruct (Hc _ _ Hx').
    + rewrite lc_conflict_sym in E. by destruct (Hc _ _ Hx).
  - intros i r0 Hold. destruct (He _ _ Hold) as (x & Ex & ?). exists x. split; [|done].
    rewrite lookup_insert_ne; [done|]. intros <-. congruence.
  - intros i x. rewrite lookup_insert_Some. intros [[<- <-]|[_ Hx]] Hold; [|eauto].
    exists (observed r). split; [done|apply rtc_refl].
Qed.

(** *** The statements of an operation keep the invariant *)

Lemma inv_tables_only : tables_only (inv t0).
Proof. intros w w' E. apply inv_table. symmetry. by apply table_same. Qed.

Lemma inv_clock w n : inv t0 w -> inv t0 (w <| clock_reads := n |>).
Proof. by apply inv_tables_only. Qed.

(** Guarded updates by id: they cannot violate a CHECK constraint. *)
Lemma wp_good_update id p (f : R -> R) Q X w :
  inv t0 w ->
  (forall r, table w !! id = Some r -> row_inv r -> p r = true -> good_update r (f r)) ->
  (forall b w', inv t0 w' ->
     (b = true -> exists r, table w !! id = Some r /\ p r = true /\
        w' = with_table (<[id := f r]> (table w)) w) ->
     (b = false -> w' = w) -> Q b w') ->
  wp (update_by_id id p f) Q X w.
Proof.
  intros Hi Hg HQ. apply wp_update_by_id; [|intros r Hr Hp Hc|intros r Hr Hp|intros Hr].
  - intros r Hr Hp _. apply HQ; [|eauto|done]. eapply inv_update; eauto.
    apply Hg; [done| |done]. by eapply inv_rows.
  - rewrite (good_update_check r) in Hc; [done|]. apply Hg; [done|by eapply inv_rows|done].
  - by apply HQ.
  - by apply HQ.
Qed.

Lemma wp_good_update_row id (f : R -> R) Q X w r :
  inv t0 w -> table w !! id = Some r -> good_update r (f r) ->
  (inv t0 (with_table (<[id := f r]> (table w)) w) ->
   Q (f r) (with_table (<[id := f r]> (table w)) w)) ->
  wp (update_row id f) Q X w.
Proof.
  intros Hi Er Hg HQ. eapply wp_update_row; [exact Er|by eapply good_update_check|].
  apply HQ. by eapply inv_update.
Qed.

(** The same when the written values may break a CHECK constraint. *)
Lemma wp_checked_update id p (f : R -> R) Q X w :
  inv t0 w ->
  (forall r, table w !! id = Some r -> row_inv r -> p r = true -> row_check (f r) = true ->
     good_update r (f r)) ->
  (forall b w', inv t0 w' -> Q b w') -> X IntegrityError w ->
  wp (update_by_id id p f) Q X w.
Proof.
  intros Hi Hg HQ HX. apply wp_update_by_id; try by auto.
  intros r Hr Hp Hc. apply HQ. eapply inv_update; [done..|].
  apply Hg; [done| |done|done]. by eapply inv_rows.
Qed.

Lemma wp_checked_update_row id (f : R -> R) Q X w :
  inv t0 w ->
  (forall r, table w !! id = Some r -> row_inv r -> row_check (f r) = true -> good_update r (f r)) ->
  (forall r w', inv t0 w' -> Q r w') -> X IntegrityError w -> X StaleDataError w ->
  wp (update_row id f) Q X w.
Proof.
  intros Hi Hg HQ HX HX'. unfold wp, update_row. destruct (table w !! id) as [r|] eqn:Er; [|done].
  destruct (row_check (f r)) eqn:Ec; [|done]. apply HQ. eapply inv_update; [done..|].
  apply Hg; [done| |done]. by eapply inv_rows.
Qed.

Lemma wp_good_insert (r : R) Q X w :
  inv t0 w -> (row_check r = true -> row_inv r) -> lc_initial (observed r) ->
  (inv t0 (with_table (<[row_id r := r]> (table w)) w) -> insert_ok r w = true ->
   Q tt (with_table (<[row_id r := r]> (table w)) w)) ->
  (insert_ok r w = false -> X IntegrityError w) ->
  wp (insert_row r) Q X w.
Proof.
  intros Hi Hri Hin HQ HX. unfold wp, insert_row. destruct (insert_ok r w) eqn:E; [|auto].
  apply HQ; [|done]. apply inv_insert; try done. apply Hri. unfold insert_ok in E. by propify.
Qed.

(** One statement that rewrites every row that meets its condition. *)
Lemma inv_update_where w (p : R -> bool) (f : R -> R) :
  inv t0 w ->
  (forall id r, table w !! id = Some r -> p r = true -> good_update r (f r)) ->
  inv t0 (with_table ((fun r => if p r then f r else r) <$> table w) w).
Proof.
  intros [Hk Hr Hu He Hn] Hg. set (g := fun r => if p r then f r else r).
  assert (Hg' : forall id r, table w !! id = Some r -> good_update r (g r)).
  { intros id r Er. unfold g. destruct (p r) eqn:Ep; [eauto|]. split_and!; eauto. }
  assert (Hl : forall id x, (g <$> table w) !! id = Some x -> exists r, table w !! id = Some r /\ x = g r).
  { intros id x. rewrite lookup_fmap. destruct (table w !! id) as [r|]; [|done].
    intros [= <-]. eauto. }
  assert (Hrtc : forall r, good_update r (g r) -> rtc lc_step (observed r) (observed (g r))).
  { intros r (_ & [->|Hs] & _); [apply rtc_refl|by apply rtc_once]. }
  unfold keyed in *. split; unfold keyed; rewrite table_with.
  - intros id x (r & Er & ->)%Hl. rewrite <- (Hk _ _ Er). symmetry. apply lc_row_id, (Hg' id r Er).
  - intros id x (r & Er & ->)%Hl. apply (Hg' id r Er).
  - intros id id' x x' (r & Er & ->)%Hl (r' & Er' & ->)%Hl Hc.
    destruct (Hg' id r Er) as (_ & _ & Hid), (Hg' id' r' Er') as (_ & _ & Hid').
    apply (Hu _ _ _ _ Er Er'). by rewrite (lc_conflict _ _ _ Hid), lc_conflict_sym,
      (lc_conflict _ _ _ Hid'), lc_conflict_sym.
  - intros id r0 H0. destruct (He _ _ H0) as (x & Ex & Hs & Hi). exists (g x).
    rewrite lookup_fmap, Ex. split; [done|]. destruct (Hg' id x Ex) as (? & ? & Hid).
    split; [|by rewrite Hi]. etrans; [exact Hs|]. by apply Hrtc, (Hg' id x).
  - intros id x (r & Er & ->)%Hl H0. destruct (Hn _ _ Er H0) as (a & Ha & Hs). exists a.
    split; [done|]. etrans; [exact Hs|]. by apply Hrtc, (Hg' id r).
Qed.

Lemma wp_good_update_where (p : R -> bool) (f : R -> R) Q X w :
  inv t0 w ->
  (forall id r, table w !! id = Some r -> row_inv r -> p r = true -> good_update r (f r)) ->
  (forall n w', inv t0 w' -> w' = with_table ((fun r => if p r then f r else r) <$> table w) w ->
     Q n w') ->
  wp (update_where p f) Q X w.
Proof.
  intros Hi Hg HQ. unfold wp, update_where.
  rewrite (proj2 (forallb_forall _ _)).
  - apply HQ; [|done]. apply inv_update_where; [done|]. intros id r Er Ep.
    apply (Hg id); [done|by eapply inv_rows|done].
  - intros r Hr. apply list_elem_of_In, elem_of_filter_rows in Hr as [[id Er] Ep].
    eapply good_update_check, Hg; [done|by eapply inv_rows|done].
Qed.

(** A loop that asserts a legal transition and rewrites each selected row. *)
Lemma wp_good_rows (P : R -> Prop) (guard : R -> exn + unit) (f : R -> R) X l w :
  inv t0 w ->
  (forall r, P r -> guard r = inr tt) ->
  (forall r, row_inv r -> P r -> good_update r (f r)) ->
  NoDup (row_id <$> l) ->
  (forall r, r ∈ l -> table w !! row_id r = Some r /\ P r) ->
  wp (map_m (fun r => lift (guard r) ;;; update_row (row_id r) f) l) (fun _ => inv t0) X w.
Proof.
  intros Hi Hguard Hg Hnd Hl.
  apply (wp_map_rows (R := R) (inv t0) P); [|done|done|done].
  clear w l Hi Hnd Hl. intros w r Hi Hr HP. wp_step. rewrite (Hguard _ HP).
  wp_step; [done|].
  assert (Hgr : good_update r (f r)) by (apply Hg; [by eapply inv_rows|done]).
  eapply wp_good_update_row; [done|done|done|]. intros Hi'. split; [done|].
  intros id Hne. rewrite table_with. by rewrite lookup_insert_ne.
Qed.
End Invariant.

(** From a state whose invariant holds, an execution is described relative to it. *)
Lemma inv_rebase {R} `{Table R, !TableLaws R, Lifecycle R, !LifecycleLaws R} t0 w :
  inv (R := R) t0 w -> inv (table w) w.
Proof.
  intros [? ? ? ? ?]. split; auto.
  - intros id r Hid. exists r. split_and!; [done|apply rtc_refl|done].
  - intros id r H1 H2. congruence.
Qed.

(** ** Computations that leave a table alone *)

Definition untouched (R : Type) `{Table R} {A} (m : DB A) : Prop :=
  forall t, preserves (fun w => table (R := R) w = t) m.

Lemma tables_only_table {R} `{TableLaws R} t : tables_only (fun w => table (R := R) w = t).
Proof. intros w w' E <-. symmetry. by apply table_same. Qed.

Lemma preserves_select {I R} `{Table R} p : preserves I (select (R := R) p).
Proof. by intros w Hw. Qed.
Lemma preserves_select_first {I R} `{Table R} p : preserves I (select_first (R := R) p).
Proof. by intros w Hw. Qed.
Lemma preserves_select_by_id {I R} `{Table R} id p : preserves I (select_by_id (R := R) id p).
Proof. by intros w Hw. Qed.

#[export] Hint Extern 1 (tables_only (fun w => table w = _)) => apply tables_only_table : fetchnow.
#[export] Hint Resolve preserves_select preserves_select_first
  preserves_select_by_id : fetchnow.

(** Statements on another table: the written world has the same table. *)
Ltac untouched_statement :=
  first
    [ apply preserves_update_by_id | apply preserves_update_row | apply preserves_insert_row
    | apply preserves_delete_ids; intros ? | apply preserves_delete_row ];
  intros; try assumption; cbn in *; assumption.
Ltac solve_frame := repeat first
  [ progress solve_preserves | untouched_statement
  | apply preserves_begin_nested; [apply tables_only_table|] ].
Ltac solve_untouched := intros ?; solve_frame.

Lemma wp_untouched {R} `{Table R, !TableLaws R, Lifecycle R, !LifecycleLaws R} {A} t0
    (m : DB A) Q X w :
  untouched R m -> inv (R := R) t0 w ->
  (forall a w', inv (R := R) t0 w' -> table (R := R) w' = table w -> Q a w') ->
  (forall e w', inv (R := R) t0 w' -> X e w') ->
  wp m Q X w.
Proof.
  intros Hm Hi HQ HX. pose proof (Hm _ w eq_refl) as Ht. unfold wp.
  destruct (m w) as [[e|a] w'] eqn:E; cbn in Ht.
  - apply HX. by eapply inv_table.
  - apply HQ; [by eapply inv_table|done].
Qed.

(** ** Executions

    The operations of a repository as one type, each in its transaction. *)
Class Operations (R Op : Type) `{Table R, Lifecycle R} := {
  exec : Op -> DB unit;
  exec_inv t0 op w : inv (R := R) t0 w -> wp (exec op) (fun _ => inv t0) (fun _ => inv t0) w
}.

Section Executions.
Context {R Op : Type} `{HT : Table R} `{!TableLaws R} `{HL : Lifecycle R} `{!LifecycleLaws R}
  `{!Operations R Op}.
(** A step of the system: one operation in its transaction, by any process with
    any arguments, or anything that leaves the table alone. *)
Inductive step : World -> World -> Prop :=
| step_op op w : step w (begin_nested (exec op) w).2
| step_env w w' : table (R := R) w' = table w -> step w w'.

Definition reachable (w : World) : Prop :=
  exists ck us, rtc step (empty_world ck us) w.

Lemma inv_step t0 w w' : step w w' -> inv t0 w -> inv t0 w'.
Proof.
  intros [op w0|w0 w1 E] Hi; [|by apply (inv_table _ w0)].
  unfold begin_nested. pose proof (exec_inv t0 op w0 Hi) as Hw. unfold wp in Hw.
  destruct (exec op w0) as [[e|[]] w1]; cbn; [|done].
  apply (inv_table _ w0); [|done]. symmetry. apply table_same, same_tables_rollback.
Qed.

Lemma inv_steps t0 w w' : rtc step w w' -> inv t0 w -> inv t0 w'.
Proof. induction 1; eauto using inv_step. Qed.

Lemma inv_reachable w : reachable w -> inv ∅ w.
Proof.
  intros (ck & us & Hs). eapply inv_steps; [done|]. pose proof (table_empty (R := R) ck us) as E.
  split; unfold keyed; rewrite ?E; intros *; rewrite ?lookup_empty; done.
Qed.

Lemma inv_from w w' : reachable w -> rtc step w w' -> inv (table w) w'.
Proof. intros Hr Hs. eapply inv_steps; [done|]. eapply inv_rebase, inv_reachable, Hr. Qed.

(** What a step of the life cycle keeps is kept for ever. *)
Lemma observed_forever (K : observation -> Prop) w w' id (r r' : R) :
  (forall a a', lc_step a a' -> K a -> K a') ->
  reachable w -> rtc step w w' -> table w !! id = Some r -> K (observed r) ->
  table w' !! id = Some r' -> K (observed r').
Proof.
  intros HK Hr Hs Er Hk Er'. apply (inv_from w w' Hr) in Hs as [_ _ _ He _].
  destruct (He _ _ Er) as (x & Ex & Hab & _). simplify_eq. clear -HK Hab Hk.
  induction Hab; eauto.
Qed.

Lemma reachable_step w w' : reachable w -> step w w' -> reachable w'.
Proof. intros (ck & us & Hs) Hst. exists ck, us. by eapply rtc_r. Qed.

Lemma step_exec op w a w' : exec op w = (inr a, w') -> step w w'.
Proof. intros E. pose proof (step_op op w) as Hs. unfold begin_nested in Hs. by rewrite E in Hs. Qed.
End Executions.
Arguments step R Op {_ _ _}.
Arguments reachable R Op {_ _ _}.
