(* ===== verification/Jobs.v ===== *)
(** Media-inspection jobs: [jobs/repository.py] over the [media_jobs] table.

    Module [MediaJobRepository] holds the operations, [JobLifecycle] the
    abstract life cycle of a job row they refine, and the theorems. *)

From S2P Require Export Lifecycle.

Local Open Scope string_scope.
Local Open Scope Z_scope.

(** Source: backend/src/fetchnow/jobs/credentials.py:100-108 [tokens_match] *)
Definition tokens_match (left right : bytes) : bool :=
  if negb (Nat.eqb (length left) (length right)) then false else bool_decide (left = right).

Lemma tokens_match_true a b : tokens_match a b = true <-> a = b.
Proof.
  unfold tokens_match. destruct (Nat.eqb_spec (length a) (length b)); cbn.
  - apply bool_decide_eq_true.
  - split; [done|]. by intros ->.
Qed.

Module MediaJobRepository.
Import JobStates.

(** Source: backend/src/fetchnow/jobs/repository.py:27-35 [database_now] *)
Definition database_now : DB time := clock_timestamp.

(** Source: backend/src/fetchnow/jobs/repository.py:37-42 [get_by_credential_hash] *)
Definition get_by_credential_hash (credential_hash : bytes) : DB (option MediaJob) :=
  select_first (fun r => bool_decide (mj_credential_hash r = credential_hash)).

(** Source: backend/src/fetchnow/jobs/repository.py:44-60 [MediaJobRepository.enqueue_or_get]
    The keyword arguments of [enqueue_or_get]. *)
Record EnqueueArgs := {
  eq_credential_hash : bytes;
  eq_request_fingerprint : bytes;
  eq_provider_id : string;
  eq_canonical_provider_url : string;
  eq_media_id : string;
  eq_hostname : string;
  eq_path : string;
  eq_scheme : string;
  eq_port : option Z;
  eq_now : time;
  eq_ttl_seconds : Z;
  eq_max_attempts : Z
}.

(** Source: backend/src/fetchnow/jobs/repository.py:77-105 [MediaJob(...)] *)
Definition queued_job (id : uid) (q : EnqueueArgs) : MediaJob := {|
  mj_id := id;
  mj_schema_version := 1;
  mj_result_version := 0;
  mj_public_state := QUEUED;
  mj_provider_id := eq_provider_id q;
  mj_canonical_provider_url := eq_canonical_provider_url q;
  mj_media_id := eq_media_id q;
  mj_hostname := eq_hostname q;
  mj_path := eq_path q;
  mj_scheme := eq_scheme q;
  mj_port := eq_port q;
  mj_credential_hash := eq_credential_hash q;
  mj_request_fingerprint := eq_request_fingerprint q;
  mj_result_metadata := None;
  mj_public_error_code := None;
  mj_attempt_count := 0;
  mj_max_attempts := eq_max_attempts q;
  mj_available_at := eq_now q;
  mj_lease_owner := None;
  mj_lease_expires_at := None;
  mj_fence_token := 0;
  mj_created_at := eq_now q;
  mj_updated_at := eq_now q;
  mj_started_at := None;
  mj_completed_at := None;
  mj_expires_at := eq_now q + seconds (eq_ttl_seconds q)
|}.

(** Source: backend/src/fetchnow/jobs/repository.py:44-125 [enqueue_or_get] *)
Definition enqueue_or_get (q : EnqueueArgs) : DB (MediaJob * bool) :=
  raise_when (negb (Nat.eqb (length (eq_credential_hash q)) 32) ||
              negb (Nat.eqb (length (eq_request_fingerprint q)) 32))
    (job_error JOB_INTERNAL_ERROR "HASH_LENGTH") ;;;
  raise_when (str_mem "?" (eq_canonical_provider_url q) ||
              str_mem "#" (eq_canonical_provider_url q))
    (job_error JOB_INTERNAL_ERROR "CANONICAL_QUERY_OR_FRAGMENT") ;;;
  let* id := uuid4 in
  let job := queued_job id q in
  try_catch
    (begin_nested (insert_row job) ;;; ret (job, true))
    (fun e =>
       match e with
       | IntegrityError => Some (
           let* existing := get_by_credential_hash (eq_credential_hash q) in
           match existing with
           | None => raise (job_error JOB_INTERNAL_ERROR "IDEMPOTENCY_LOOKUP_MISS")
           | Some existing =>
               raise_when
                 (negb (tokens_match (mj_request_fingerprint existing) (eq_request_fingerprint q)))
                 (job_error IDEMPOTENCY_CONFLICT "FINGERPRINT_MISMATCH") ;;;
               ret (existing, false)
           end)
       | _ => None
       end).

(** Source: backend/src/fetchnow/jobs/repository.py:127-132 [get_by_id] *)
Definition get_by_id (job_id : uid) : DB (option MediaJob) :=
  select_by_id job_id (fun _ => true).

(** Source: backend/src/fetchnow/jobs/repository.py:137-142 [MediaJobRepository._claim_select]
    The WHERE clause of [_claim_select]. *)
Definition claimable (clk : time) (r : MediaJob) : bool :=
  bool_decide (mj_public_state r = QUEUED) && (mj_available_at r <=? clk) &&
  (clk <? mj_expires_at r) && (mj_attempt_count r <? mj_max_attempts r).

(** Source: backend/src/fetchnow/jobs/repository.py:134-146 [_claim_select] *)
Definition claim_select (locked : uid -> bool) (limit : Z) : DB (list MediaJob) :=
  let* clk := clock_timestamp in
  let* found := select (fun r => claimable clk r && negb (locked (mj_id r))) in
  ret (take (Z.to_nat limit) (order_by mj_created_at found)).

(** Source: backend/src/fetchnow/jobs/repository.py:169-177 [MediaJobRepository.claim_next]
    The attribute assignments of [claim_next] on one row. *)
Definition claim_row (worker_id : string) (lease_expires now : time) (job : MediaJob) : MediaJob :=
  job <| mj_public_state := INSPECTING |>
      <| mj_lease_owner := Some worker_id |>
      <| mj_lease_expires_at := Some lease_expires |>
      <| mj_fence_token := mj_fence_token job + 1 |>
      <| mj_attempt_count := mj_attempt_count job + 1 |>
      <| mj_updated_at := now |>
      <| mj_started_at := if is_none (mj_started_at job) then Some now else mj_started_at job |>.

(** Source: backend/src/fetchnow/jobs/repository.py:148-181 [claim_next] *)
Definition claim_next (locked : uid -> bool) (worker_id : string) (lease now : time) (limit : Z)
  : DB (list MediaJob) :=
  if limit <? 1 then ret []
  else
    raise_when ((strlen worker_id =? 0) || (128 <? strlen worker_id))
      (job_error JOB_INTERNAL_ERROR "INVALID_WORKER_ID") ;;;
    let* found := claim_select locked limit in
    map_m (fun job =>
      lift (assert_transition (value (mj_public_state job)) (value INSPECTING)) ;;;
      update_row (mj_id job) (claim_row worker_id (now + lease) now)) found.

(** Source: backend/src/fetchnow/jobs/repository.py:196-203 [MediaJobRepository.complete]
    The WHERE clause shared by the statements of a lease owner (besides the id). *)
Definition lease_held (owner : string) (fence : Z) (clk : time) (r : MediaJob) : bool :=
  bool_decide (mj_public_state r = INSPECTING) && sql_eq (mj_lease_owner r) owner &&
  (mj_fence_token r =? fence) && sql_gt (mj_lease_expires_at r) clk && (clk <? mj_expires_at r).

(** Source: backend/src/fetchnow/jobs/repository.py:204-213 [MediaJobRepository.complete]
    The [values(...)] of [complete]. *)
Definition complete_row (metadata_json : Json) (clk : time) (r : MediaJob) : MediaJob :=
  r <| mj_public_state := INSPECTED |>
    <| mj_result_metadata := Some metadata_json |>
    <| mj_public_error_code := None |>
    <| mj_result_version := 1 |>
    <| mj_lease_owner := None |>
    <| mj_lease_expires_at := None |>
    <| mj_completed_at := Some clk |>
    <| mj_updated_at := clk |>.

(** Source: backend/src/fetchnow/jobs/repository.py:183-215 [complete] *)
Definition complete (job_id : uid) (owner : string) (fence : Z) (metadata_json : Json) : DB bool :=
  lift (assert_transition (value INSPECTING) (value INSPECTED)) ;;;
  let* clk := clock_timestamp in
  update_by_id job_id (lease_held owner fence clk) (complete_row metadata_json clk).

(** Source: backend/src/fetchnow/jobs/repository.py:238-246 [MediaJobRepository.fail_permanent]
    The [values(...)] of [fail_permanent]. *)
Definition fail_row (public_error_code : string) (clk : time) (r : MediaJob) : MediaJob :=
  r <| mj_public_state := FAILED |>
    <| mj_public_error_code := Some public_error_code |>
    <| mj_result_metadata := None |>
    <| mj_lease_owner := None |>
    <| mj_lease_expires_at := None |>
    <| mj_completed_at := Some clk |>
    <| mj_updated_at := clk |>.

(** Source: backend/src/fetchnow/jobs/repository.py:217-248 [fail_permanent] *)
Definition fail_permanent (job_id : uid) (owner : string) (fence : Z) (public_error_code : string)
  : DB bool :=
  lift (assert_transition (value INSPECTING) (value FAILED)) ;;;
  let* clk := clock_timestamp in
  update_by_id job_id (lease_held owner fence clk) (fail_row public_error_code clk).

(** Source: backend/src/fetchnow/jobs/repository.py:296-303 [MediaJobRepository.fail_retry]
    The [values(...)] of [fail_retry]. *)
Definition retry_row (available_at clk : time) (r : MediaJob) : MediaJob :=
  r <| mj_public_state := QUEUED |>
    <| mj_public_error_code := None |>
    <| mj_available_at := available_at |>
    <| mj_lease_owner := None |>
    <| mj_lease_expires_at := None |>
    <| mj_updated_at := clk |>.

(** Source: backend/src/fetchnow/jobs/repository.py:250-305 [fail_retry] *)
Definition fail_retry (job_id : uid) (owner : string) (fence : Z) (now backoff : time)
    (public_error_code : string) : DB bool :=
  let* job := get_by_id job_id in
  match job with
  | None => ret false
  | Some job =>
      if negb (bool_decide (mj_public_state job = INSPECTING)) ||
         negb (bool_decide (mj_lease_owner job = Some owner)) ||
         negb (mj_fence_token job =? fence)
      then ret false
      else if mj_max_attempts job <=? mj_attempt_count job
      then fail_permanent job_id owner fence public_error_code
      else
        lift (assert_transition (value INSPECTING) (value QUEUED)) ;;;
        let available_at := now + Z.max 0 backoff in
        let* clk := clock_timestamp in
        update_by_id job_id (lease_held owner fence clk) (retry_row available_at clk)
  end.

(** Source: backend/src/fetchnow/jobs/repository.py:330-338 [MediaJobRepository.release_to_queued]
    The [values(...)] of [release_to_queued]. *)
Definition release_row (now clk : time) (r : MediaJob) : MediaJob :=
  r <| mj_public_state := QUEUED |>
    <| mj_attempt_count := Z.max (mj_attempt_count r - 1) 0 |>
    <| mj_available_at := now |>
    <| mj_lease_owner := None |>
    <| mj_lease_expires_at := None |>
    <| mj_updated_at := clk |>.

(** Source: backend/src/fetchnow/jobs/repository.py:307-340 [release_to_queued] *)
Definition release_to_queued (job_id : uid) (owner : string) (fence : Z) (now : time) : DB bool :=
  lift (assert_transition (value INSPECTING) (value QUEUED)) ;;;
  let* clk := clock_timestamp in
  update_by_id job_id (lease_held owner fence clk) (release_row now clk).

(** Source: backend/src/fetchnow/jobs/repository.py:362-366 [MediaJobRepository.renew_lease]
    The [values(...)] of [renew_lease]. *)
Definition renew_row (lease clk : time) (r : MediaJob) : MediaJob :=
  r <| mj_lease_expires_at := Some (clk + lease) |>
    <| mj_updated_at := clk |>.

(** Source: backend/src/fetchnow/jobs/repository.py:342-368 [renew_lease] *)
Definition renew_lease (job_id : uid) (owner : string) (fence : Z) (lease : time) : DB bool :=
  let* clk := clock_timestamp in
  update_by_id job_id (lease_held owner fence clk) (renew_row lease clk).

(** Source: backend/src/fetchnow/jobs/repository.py:375-380 [MediaJobRepository.reclaim_expired_leases]
    The WHERE clause of [reclaim_expired_leases]. *)
Definition lease_expired (clk : time) (r : MediaJob) : bool :=
  bool_decide (mj_public_state r = INSPECTING) && sql_le (mj_lease_expires_at r) clk &&
  (clk <? mj_expires_at r).

(** Source: backend/src/fetchnow/jobs/repository.py:385-396 [MediaJobRepository.reclaim_expired_leases]
    The attribute assignments of [reclaim_expired_leases] on one row. *)
Definition reclaim_row (now : time) (job : MediaJob) : MediaJob :=
  let exhausted := mj_max_attempts job <=? mj_attempt_count job in
  let target := if exhausted then FAILED else QUEUED in
  let job' :=
    job <| mj_public_state := target |>
        <| mj_lease_owner := None |>
        <| mj_lease_expires_at := None |>
        <| mj_fence_token := mj_fence_token job + 1 |>
        <| mj_available_at := now |>
        <| mj_updated_at := now |> in
  if exhausted
  then job' <| mj_public_error_code := Some (job_code_value MEDIA_INSPECTION_FAILED) |>
            <| mj_completed_at := Some now |>
  else job'.

(** Source: backend/src/fetchnow/jobs/repository.py:370-399 [reclaim_expired_leases] *)
Definition reclaim_expired_leases (locked : uid -> bool) (now : time) : DB Z :=
  let* clk := clock_timestamp in
  let* jobs := select (fun r => lease_expired clk r && negb (locked (mj_id r))) in
  map_m (fun job =>
    let target := if mj_max_attempts job <=? mj_attempt_count job then FAILED else QUEUED in
    lift (assert_transition (value INSPECTING) (value target)) ;;;
    update_row (mj_id job) (reclaim_row now)) jobs ;;;
  ret (Z.of_nat (length jobs)).

(** Source: backend/src/fetchnow/jobs/repository.py:405-415 [MediaJobRepository.expire_due_jobs]
    The WHERE clause of [expire_due_jobs]. *)
Definition due (clk : time) (r : MediaJob) : bool :=
  (mj_expires_at r <=? clk) &&
  bool_decide (mj_public_state r ∈ [QUEUED; INSPECTING; INSPECTED; FAILED]).

(** Source: backend/src/fetchnow/jobs/repository.py:420-432 [MediaJobRepository.expire_due_jobs]
    The attribute assignments of [expire_due_jobs] on one row. *)
Definition expire_row (now : time) (job : MediaJob) : MediaJob :=
  job <| mj_public_state := EXPIRED |>
      <| mj_result_metadata := None |>
      <| mj_public_error_code := None |>
      <| mj_lease_owner := None |>
      <| mj_lease_expires_at := None |>
      <| mj_updated_at := now |>
      <| mj_fence_token := mj_fence_token job + 1 |>
      <| mj_completed_at := if is_none (mj_completed_at job) then Some now else mj_completed_at job |>.

(** Source: backend/src/fetchnow/jobs/repository.py:401-435 [expire_due_jobs] *)
Definition expire_due_jobs (locked : uid -> bool) (now : time) : DB Z :=
  let* clk := clock_timestamp in
  let* jobs := select (fun r => due clk r && negb (locked (mj_id r))) in
  map_m (fun job =>
    lift (assert_transition (value (mj_public_state job)) (value EXPIRED)) ;;;
    update_row (mj_id job) (expire_row now)) jobs ;;;
  ret (Z.of_nat (length jobs)).

End MediaJobRepository.

(** ** The life cycle a job row goes through *)
Module JobLifecycle.
Import JobStates MediaJobRepository.

(** What a client or a competing worker can tell of a job. *)
Record Abs := {
  a_state : MediaJobState;
  a_fence : Z;
  a_attempts : Z;
  a_max : Z;
  a_holder : option string
}.

Definition abs (r : MediaJob) : Abs := {|
  a_state := mj_public_state r;
  a_fence := mj_fence_token r;
  a_attempts := mj_attempt_count r;
  a_max := mj_max_attempts r;
  a_holder := mj_lease_owner r
|}.

(** The specification: a lease is taken with a new fence; only the end of a
    lease leaves [INSPECTING]; a lease taken back by the system and an expiry
    move the fence on; expiry is final. *)
Inductive abs_step : Abs -> Abs -> Prop :=
| step_claim f n m o : n < m ->
    abs_step (Build_Abs QUEUED f n m None) (Build_Abs INSPECTING (f + 1) (n + 1) m (Some o))
| step_finish s f n m o : s = INSPECTED \/ s = FAILED ->
    abs_step (Build_Abs INSPECTING f n m (Some o)) (Build_Abs s f n m None)
| step_give_back f n n' m o : n' <= n -> n' < m -> n - 1 <= n' ->
    abs_step (Build_Abs INSPECTING f n m (Some o)) (Build_Abs QUEUED f n' m None)
| step_revoke f n m o : n < m ->
    abs_step (Build_Abs INSPECTING f n m (Some o)) (Build_Abs QUEUED (f + 1) n m None)
| step_revoke_exhausted f n m o : m <= n ->
    abs_step (Build_Abs INSPECTING f n m (Some o)) (Build_Abs FAILED (f + 1) n m None)
| step_expire s f n m h : s <> EXPIRED ->
    abs_step (Build_Abs s f n m h) (Build_Abs EXPIRED (f + 1) n m None).

Definition abs_initial (a : Abs) : Prop :=
  a_state a = QUEUED /\ a_fence a = 0 /\ a_attempts a = 0 /\ a_holder a = None.

(** The columns no operation ever changes. *)
Definition job_identity (r : MediaJob) :=
  (mj_id r, mj_credential_hash r, mj_request_fingerprint r, mj_canonical_provider_url r,
   mj_provider_id r, mj_media_id r, mj_hostname r, mj_path r, mj_scheme r, mj_port r, mj_max_attempts r, mj_created_at r, mj_expires_at r).

(** The row invariant: the CHECK constraints and what the operations add to
    them. A queued job always has an attempt left, so it stays claimable. *)
Record job_inv (r : MediaJob) : Prop := {
  ri_check : MediaJob_check r = true;
  ri_attempts : 0 <= mj_attempt_count r <= mj_max_attempts r;
  ri_fence : mj_attempt_count r <= mj_fence_token r;
  ri_queued : mj_public_state r = QUEUED -> mj_attempt_count r < mj_max_attempts r;
  ri_claimed : mj_public_state r = INSPECTING -> 1 <= mj_attempt_count r /\ mj_started_at r <> None;
  ri_terminal : is_terminal (value (mj_public_state r)) = true -> mj_completed_at r <> None
}.

#[export] Instance MediaJob_lifecycle : Lifecycle MediaJob := {
  observed := abs;
  lc_step := abs_step;
  lc_initial := abs_initial;
  row_inv := job_inv;
  identity := job_identity
}.

#[export] Instance MediaJob_lifecycle_laws : LifecycleLaws MediaJob.
Proof.
  split; cbn.
  - intros r Hr. apply Hr.
  - unfold job_identity. intros r r' E. congruence.
  - intros r r'. apply bool_decide_ext. split; congruence.
  - unfold job_identity. intros r r' x E. apply bool_decide_ext. split; congruence.
Qed.

(** *** Every row function of the repository is a step of the life cycle. *)

Ltac row_cases r :=
  destruct r;
  unfold MediaJob_check, mj_lease_state_check, mj_result_state_check, claim_row, complete_row,
    fail_row, retry_row, release_row, renew_row, reclaim_row, expire_row,
    lease_held, lease_expired, due in *;
  cbn in *; subst; cbn in *; propify; subst; cbn in *; propify;
  destruct_opts; propify; subst.

(** The CHECK constraints and side conditions of an updated row. *)
Ltac finish_row :=
  first
    [ discriminate
    | lia
    | intros; discriminate
    | intros; lia
    | match goal with |- context [is_none ?x] => by destruct x end
    | solve [unfold MediaJob_check, mj_lease_state_check, mj_result_state_check; cbn;
             try case_match; cbn; solve_bools]
    | match goal with Hcl : ?x = ?x -> _ /\ _ |- _ => by apply Hcl end
    | left; reflexivity
    | right; unfold abs; cbn; solve [econstructor; (lia || auto)] ].

Ltac good_row r :=
  intros [Hc Ha Hf Hq Hcl Ht]; intros; row_cases r;
  repeat split; cbn; try finish_row.

Lemma job_claim_good worker exp now r :
  job_inv r -> mj_public_state r = QUEUED -> mj_attempt_count r < mj_max_attempts r ->
  good_update r (claim_row worker exp now r).
Proof. good_row r. Qed.

Lemma complete_good owner fence clk meta r :
  job_inv r -> lease_held owner fence clk r = true ->
  good_update r (complete_row meta clk r).
Proof. good_row r. Qed.

Lemma fail_good owner fence clk code r :
  job_inv r -> lease_held owner fence clk r = true ->
  good_update r (fail_row code clk r).
Proof. good_row r. Qed.

Lemma job_retry_good owner fence clk at_ r :
  job_inv r -> lease_held owner fence clk r = true -> mj_attempt_count r < mj_max_attempts r ->
  good_update r (retry_row at_ clk r).
Proof. good_row r. Qed.

Lemma job_release_good owner fence clk now r :
  job_inv r -> lease_held owner fence clk r = true ->
  good_update r (release_row now clk r).
Proof. good_row r. Qed.

Lemma job_renew_good owner fence clk lease r :
  job_inv r -> lease_held owner fence clk r = true ->
  good_update r (renew_row lease clk r).
Proof. good_row r. Qed.

Lemma job_reclaim_good clk now r :
  job_inv r -> lease_expired clk r = true -> good_update r (reclaim_row now r).
Proof.
  intros Hi Hl. unfold reclaim_row.
  destruct (mj_max_attempts r <=? mj_attempt_count r) eqn:E; revert Hi Hl; good_row r.
Qed.

Lemma expire_good clk now r :
  job_inv r -> due clk r = true -> good_update r (expire_row now r).
Proof. good_row r. right. unfold abs; cbn. constructor. intros ->.
  rewrite !elem_of_cons, elem_of_nil in *. intuition discriminate.
Qed.

Lemma job_queued_inv id q :
  MediaJob_check (queued_job id q) = true -> job_inv (queued_job id q).
Proof.
  intros Hc. split; [done|..]; unfold MediaJob_check in Hc; cbn in *; propify; try lia; done.
Qed.

(** *** Every operation keeps the invariant, and raises no constraint violation. *)

Section Operations.
Context (t0 : gmap uid MediaJob).

(** The errors an operation may end in. *)
Definition clean (e : exn) (w : World) : Prop :=
  inv t0 w /\ exists code reason, e = job_error code reason.

Lemma wp_lease_update id p f w :
  inv t0 w ->
  (forall r, media_jobs w !! id = Some r -> job_inv r -> p r = true -> good_update r (f r)) ->
  wp (update_by_id id p f) (fun _ => inv t0) clean w.
Proof. intros Hi Hg. by apply (wp_good_update t0). Qed.

Lemma wp_complete id owner fence meta w :
  inv t0 w -> wp (complete id owner fence meta) (fun _ => inv t0) clean w.
Proof.
  intros Hi. unfold complete. wp_step. wp_step; [done|]. wp_step. apply wp_clock_timestamp.
  apply wp_lease_update; [by apply inv_clock|]. intros; by eapply complete_good.
Qed.

Lemma wp_fail_permanent id owner fence code w :
  inv t0 w -> wp (fail_permanent id owner fence code) (fun _ => inv t0) clean w.
Proof.
  intros Hi. unfold fail_permanent. wp_step. wp_step; [done|]. wp_step. apply wp_clock_timestamp.
  apply wp_lease_update; [by apply inv_clock|]. intros; by eapply fail_good.
Qed.

Lemma wp_fail_retry id owner fence now backoff code w :
  inv t0 w -> wp (fail_retry id owner fence now backoff code) (fun _ => inv t0) clean w.
Proof.
  intros Hi. unfold fail_retry. wp_step. apply wp_select_by_id; [|by intros _].
  intros r Hr _. wp_step; [done|]. wp_step; [by apply wp_fail_permanent|]. propify.
  wp_step. wp_step; [done|]. wp_step. apply wp_clock_timestamp.
  apply wp_lease_update; [by apply inv_clock|]. intros r' Hr' Hri Hl.
  assert (r' = r) as -> by (cbn in Hr, Hr'; congruence).
  by eapply job_retry_good.
Qed.

Lemma wp_release id owner fence now w :
  inv t0 w -> wp (release_to_queued id owner fence now) (fun _ => inv t0) clean w.
Proof.
  intros Hi. unfold release_to_queued. wp_step. wp_step; [done|]. wp_step.
  apply wp_clock_timestamp.
  apply wp_lease_update; [by apply inv_clock|]. intros; by eapply job_release_good.
Qed.

Lemma wp_renew id owner fence lease w :
  inv t0 w -> wp (renew_lease id owner fence lease) (fun _ => inv t0) clean w.
Proof.
  intros Hi. unfold renew_lease. wp_step. apply wp_clock_timestamp.
  apply wp_lease_update; [by apply inv_clock|]. intros; by eapply job_renew_good.
Qed.

Lemma wp_job_rows (P : MediaJob -> Prop) (guard : MediaJob -> exn + unit) f l w :
  inv t0 w ->
  (forall r, P r -> guard r = inr tt) ->
  (forall r, job_inv r -> P r -> good_update r (f r)) ->
  NoDup (mj_id <$> l) ->
  (forall r, r ∈ l -> media_jobs w !! mj_id r = Some r /\ P r) ->
  wp (map_m (fun r => lift (guard r) ;;; update_row (mj_id r) f) l) (fun _ => inv t0) clean w.
Proof. exact (wp_good_rows t0 P guard f clean l w). Qed.

Lemma wp_claim locked worker lease now limit w :
  inv t0 w -> wp (claim_next locked worker lease now limit) (fun _ => inv t0) clean w.
Proof.
  intros Hi. unfold claim_next, claim_select. wp_step; [by apply wp_ret|].
  wp_step. wp_step; [by split; eauto|]. do 2 wp_step. apply wp_clock_timestamp.
  apply inv_clock with (n := S (clock_reads w)) in Hi.
  set (w1 := w <| clock_reads := _ |>) in *. set (clk := clock w (clock_reads w)).
  wp_step. apply wp_select. wp_step.
  destruct (selected_rows (R := MediaJob) w1 (fun r => claimable clk r && negb (locked (mj_id r))) _
    (inv_keyed _ _ Hi) eq_refl) as [Hnd Hl].
  apply (wp_job_rows (fun r => claimable clk r = true)); [done|..].
  - intros r Hr. unfold claimable in Hr. propify. by match goal with E : mj_public_state r = _ |- _ => rewrite E end.
  - intros r Hri Hr. unfold claimable in Hr. propify. by apply job_claim_good.
  - exact (NoDup_ids_limit mj_created_at (Z.to_nat limit) _ Hnd).
  - intros r Hr. apply (elem_of_limit (R := MediaJob)), Hl in Hr as [? Hp]. propify. by split.
Qed.

Lemma wp_reclaim locked now w :
  inv t0 w -> wp (reclaim_expired_leases locked now) (fun _ => inv t0) clean w.
Proof.
  intros Hi. unfold reclaim_expired_leases. wp_step. apply wp_clock_timestamp.
  apply inv_clock with (n := S (clock_reads w)) in Hi.
  set (w1 := w <| clock_reads := _ |>) in *. set (clk := clock w (clock_reads w)).
  wp_step. apply wp_select. wp_step.
  destruct (selected_rows (R := MediaJob) w1 (fun r => lease_expired clk r && negb (locked (mj_id r))) _
    (inv_keyed _ _ Hi) eq_refl) as [Hnd Hl].
  apply (wp_mono _ (fun _ => inv t0) _ clean); [|by intros; apply wp_ret|done].
  apply (wp_job_rows (fun r => lease_expired clk r = true)
    (fun r => assert_transition (value INSPECTING)
       (value (if mj_max_attempts r <=? mj_attempt_count r then FAILED else QUEUED)))); try done.
  - intros r _. by destruct (_ <=? _).
  - intros r Hri Hr. by eapply job_reclaim_good.
  - intros r Hr. apply Hl in Hr as [? Hp]. propify. by split.
Qed.

Lemma wp_expire locked now w :
  inv t0 w -> wp (expire_due_jobs locked now) (fun _ => inv t0) clean w.
Proof.
  intros Hi. unfold expire_due_jobs. wp_step. apply wp_clock_timestamp.
  apply inv_clock with (n := S (clock_reads w)) in Hi.
  set (w1 := w <| clock_reads := _ |>) in *. set (clk := clock w (clock_reads w)).
  wp_step. apply wp_select. wp_step.
  destruct (selected_rows (R := MediaJob) w1 (fun r => due clk r && negb (locked (mj_id r))) _
    (inv_keyed _ _ Hi) eq_refl) as [Hnd Hl].
  apply (wp_mono _ (fun _ => inv t0) _ clean); [|by intros; apply wp_ret|done].
  apply (wp_job_rows (fun r => due clk r = true)
    (fun r => assert_transition (value (mj_public_state r)) (value EXPIRED))); try done.
  - intros r Hr. unfold due in Hr. propify. rewrite !elem_of_cons, elem_of_nil in *.
    destruct (mj_public_state r); intuition discriminate.
  - intros r Hri Hr. by eapply expire_good.
  - intros r Hr. apply Hl in Hr as [? Hp]. propify. by split.
Qed.

Lemma wp_enqueue q w :
  inv t0 w -> wp (enqueue_or_get q) (fun _ => inv t0) clean w.
Proof.
  intros Hi. unfold enqueue_or_get. wp_step. wp_step; [by split; eauto|].
  wp_step. wp_step; [by split; eauto|]. wp_step. apply wp_uuid4.
  set (w1 := w <| uuid_draws := _ |>).
  assert (Hi1 : inv t0 w1) by by apply (inv_tables_only t0 w).
  wp_step. wp_step. apply wp_begin_nested. unfold wp at 1, insert_row.
  destruct (insert_ok _ _) eqn:Hok.
  - apply wp_ret. apply inv_insert; [done| |done|done].
    apply job_queued_inv. unfold insert_ok in Hok. by propify.
  - assert (Hi2 : inv t0 (rollback w1 w1)) by by apply (inv_tables_only t0 w1).
    wp_step. unfold get_by_credential_hash, select_first. wp_step. wp_step.
    + wp_step. wp_step; [by split; eauto|]. by apply wp_ret.
    + apply wp_raise. by split; eauto.
Qed.
End Operations.

(** *** The operations as one type, and the executions of the system *)

Inductive JobOp :=
| OpEnqueue (q : EnqueueArgs)
| OpClaim (locked : uid -> bool) (worker : string) (lease now : time) (limit : Z)
| OpComplete (id : uid) (owner : string) (fence : Z) (metadata : Json)
| OpFail (id : uid) (owner : string) (fence : Z) (code : string)
| OpRetry (id : uid) (owner : string) (fence : Z) (now backoff : time) (code : string)
| OpRelease (id : uid) (owner : string) (fence : Z) (now : time)
| OpRenew (id : uid) (owner : string) (fence : Z) (lease : time)
| OpReclaim (locked : uid -> bool) (now : time)
| OpExpire (locked : uid -> bool) (now : time).

Definition exec (op : JobOp) : DB unit :=
  match op with
  | OpEnqueue q => enqueue_or_get q ;;; ret tt
  | OpClaim locked worker lease now limit => claim_next locked worker lease now limit ;;; ret tt
  | OpComplete id owner fence metadata => complete id owner fence metadata ;;; ret tt
  | OpFail id owner fence code => fail_permanent id owner fence code ;;; ret tt
  | OpRetry id owner fence now backoff code =>
      fail_retry id owner fence now backoff code ;;; ret tt
  | OpRelease id owner fence now => release_to_queued id owner fence now ;;; ret tt
  | OpRenew id owner fence lease => renew_lease id owner fence lease ;;; ret tt
  | OpReclaim locked now => reclaim_expired_leases locked now ;;; ret tt
  | OpExpire locked now => expire_due_jobs locked now ;;; ret tt
  end.

Lemma wp_exec t0 op w : inv t0 w -> wp (exec op) (fun _ => inv t0) (clean t0) w.
Proof.
  intros Hi. destruct op; cbn [exec]; wp_step;
    (eapply (wp_mono _ (fun _ => inv t0)); [|by intros; apply wp_ret|done]).
  - by apply wp_enqueue.
  - by apply wp_claim.
  - by apply wp_complete.
  - by apply wp_fail_permanent.
  - by apply wp_fail_retry.
  - by apply wp_release.
  - by apply wp_renew.
  - by apply wp_reclaim.
  - by apply wp_expire.
Qed.

#[export] Instance MediaJob_operations : Operations MediaJob JobOp.
Proof.
  refine {| Lifecycle.exec := exec |}. intros t0 op w Hi.
  eapply wp_mono; [by apply wp_exec|done|by intros e w' [? _]].
Defined.

(** The executions of the system: these operations, by any process with any
    arguments, and anything that leaves the [media_jobs] table alone. *)
Abbreviation step := (Lifecycle.step MediaJob JobOp).
Abbreviation reachable := (Lifecycle.reachable MediaJob JobOp).

(** *** Fences *)

(** The lease [fence] of the job is over: the fence has moved on, or the job is
    no longer leased under it. *)
Definition spent (a : Abs) (fence : Z) : Prop :=
  fence < a_fence a \/ (fence = a_fence a /\ a_state a <> INSPECTING).

Lemma job_spent_step a a' fence : abs_step a a' -> spent a fence -> spent a' fence.
Proof. unfold spent. destruct 1; cbn; intuition (lia || congruence). Qed.

(** The statements of a lease owner; all but [renew_lease] end the lease. *)
Inductive lease_op (id : uid) (fence : Z) : DB bool -> Prop :=
| lo_complete owner metadata : lease_op id fence (complete id owner fence metadata)
| lo_fail owner code : lease_op id fence (fail_permanent id owner fence code)
| lo_retry owner now backoff code : lease_op id fence (fail_retry id owner fence now backoff code)
| lo_release owner now : lease_op id fence (release_to_queued id owner fence now)
| lo_renew owner lease : lease_op id fence (renew_lease id owner fence lease).

Inductive lease_end (id : uid) (fence : Z) : DB bool -> Prop :=
| le_complete owner metadata : lease_end id fence (complete id owner fence metadata)
| le_fail owner code : lease_end id fence (fail_permanent id owner fence code)
| le_retry owner now backoff code : lease_end id fence (fail_retry id owner fence now backoff code)
| le_release owner now : lease_end id fence (release_to_queued id owner fence now).

Lemma lease_held_not_spent owner fence clk r :
  lease_held owner fence clk r = true -> ~ spent (abs r) fence.
Proof. unfold lease_held, spent. intros H. propify. cbn. intros [?|[? ?]]; [lia|done]. Qed.

(** A statement guarded by the lease does nothing once the lease is over. *)
Lemma spent_update id owner fence clk f w :
  (forall r, media_jobs w !! id = Some r -> spent (abs r) fence) ->
  update_by_id id (lease_held owner fence clk) f w = (inr false, w).
Proof.
  intros Hs. unfold update_by_id. cbn. destruct (media_jobs w !! id) as [r|] eqn:Er; [|done].
  destruct (lease_held owner fence clk r) eqn:El; [|done].
  destruct (lease_held_not_spent _ _ _ _ El). by apply Hs.
Qed.

Lemma spent_lease_op id fence m w :
  lease_op id fence m -> (forall r, media_jobs w !! id = Some r -> spent (abs r) fence) ->
  exists w', m w = (inr false, w') /\ same_tables w w'.
Proof.
  intros Hm Hs. set (w1 := w <| clock_reads := S (clock_reads w) |>).
  assert (Hu : forall owner clk f, update_by_id id (lease_held owner fence clk) f w1 = (inr false, w1)).
  { intros. by apply spent_update. }
  destruct Hm; unfold complete, fail_permanent, release_to_queued, renew_lease.
  1,2,4,5: exists w1; split; [apply Hu|done].
  exists w. split; [|done]. unfold fail_retry, get_by_id, select_by_id, bind, gets. cbn.
  destruct (media_jobs w !! id) as [r|] eqn:Er; cbn; [|done].
  destruct (Hs r eq_refl) as [?|[-> ?]]; cbn in *.
  - rewrite (proj2 (Z.eqb_neq _ _)) by lia. by rewrite orb_true_r.
  - by rewrite (bool_decide_eq_false_2 _ H).
Qed.

(** A successful end of a lease leaves the lease spent. *)
Lemma job_lease_end_spent id fence m w w' :
  lease_end id fence m -> m w = (inr true, w') ->
  exists r, media_jobs w' !! id = Some r /\ spent (abs r) fence.
Proof.
  assert (Hu : forall owner clk f w0,
    (forall r, mj_public_state (f r) <> INSPECTING /\ mj_fence_token (f r) = mj_fence_token r) ->
    update_by_id id (lease_held owner fence clk) f w0 = (inr true, w') ->
    exists r, media_jobs w' !! id = Some r /\ spent (abs r) fence).
  { intros owner clk f w0 Hf E. apply update_by_id_true in E as (r & Er & Hl & ->).
    exists (f r). cbn. rewrite lookup_insert_eq. split; [done|].
    unfold lease_held in Hl. propify. destruct (Hf r) as [Hs E]. right. cbn. rewrite E. by split. }
  destruct 1; unfold complete, fail_permanent, fail_retry, release_to_queued; intros E.
  - by apply Hu in E.
  - by apply Hu in E.
  - apply bind_inr in E as ([r|] & w0 & _ & E); [|done].
    destruct (_ || _); [done|]. destruct (_ <=? _); by apply Hu in E.
  - by apply Hu in E.
Qed.

Lemma job_lease_end_step id fence m w b w' : lease_end id fence m -> m w = (inr b, w') -> step w w'.
Proof.
  assert (Hx : forall op (m : DB bool), exec op = (m ;;; ret tt) -> m w = (inr b, w') -> step w w').
  { intros op m' Eop E. apply (step_exec op w tt). change (exec op w = (inr tt, w')). rewrite Eop. by erewrite bind_run. }
  destruct 1.
  - by apply (Hx (OpComplete id owner fence metadata)).
  - by apply (Hx (OpFail id owner fence code)).
  - by apply (Hx (OpRetry id owner fence now backoff code)).
  - by apply (Hx (OpRelease id owner fence now)).
Qed.

(** A spent lease stays spent. *)
Lemma spent_forever w w' id r fence :
  reachable w -> rtc step w w' -> media_jobs w !! id = Some r -> spent (abs r) fence ->
  forall r', media_jobs w' !! id = Some r' -> spent (abs r') fence.
Proof.
  intros Hr Hs Er Hsp r'.
  refine (observed_forever (HL := MediaJob_lifecycle) (fun a : Abs => spent a fence) w w' id r r'
            _ Hr Hs Er Hsp).
  intros a a' Ha. by apply job_spent_step.
Qed.

End JobLifecycle.

(** ** Theorems *)
Module JobTheorems.
Import JobStates MediaJobRepository JobLifecycle.

(** In every reachable database, under any interleaving of the operations
    of any number of clients and workers, each [media_jobs] row satisfies the
    table's CHECK constraints, is stored under its id, has used at most
    [max_attempts] attempts, has an attempt left while it is queued, has a
    start time while it is leased and a completion time once it is terminal;
    and credential hashes are unique. *)
Theorem media_jobs_invariant w :
  reachable w ->
  (forall id r, media_jobs w !! id = Some r ->
    mj_id r = id /\ MediaJob_check r = true /\
    0 <= mj_attempt_count r <= mj_max_attempts r /\
    (mj_public_state r = QUEUED -> mj_attempt_count r < mj_max_attempts r) /\
    (mj_public_state r = INSPECTING -> mj_started_at r <> None) /\
    (is_terminal (value (mj_public_state r)) = true -> mj_completed_at r <> None)) /\
  (forall id id' r r', media_jobs w !! id = Some r -> media_jobs w !! id' = Some r' ->
    mj_credential_hash r = mj_credential_hash r' -> id = id').
Proof.
  intros Hr. apply inv_reachable in Hr as [Hk Hi Hu _ _].
  split; [|intros * H1 H2 E; by apply (Hu _ _ _ _ H1 H2), bool_decide_eq_true].
  intros id r Hid. destruct (Hi _ _ Hid) as [? ? ? ? Hc ?].
  split_and!; try tauto. by apply Hk in Hid.
Qed.

(** In a reachable database no operation of the repository violates a
    constraint of the table or writes to a missing row: an operation returns or
    raises a [JobError]. *)
Theorem job_operations_are_clean w op :
  reachable w ->
  match (exec op w).1 with
  | inr _ => True
  | inl e => exists code reason, e = job_error code reason
  end.
Proof.
  intros Hr. apply inv_reachable in Hr. pose proof (wp_exec _ op w Hr) as Hw. unfold wp in Hw.
  destruct (exec op w) as [[e|[]] w']; cbn; [|done]. by destruct Hw.
Qed.

(** C39: Refinement: whatever happens to the database, a job that exists keeps
    existing, its identity columns never change, and what is observable of it
    follows the life-cycle specification [abs_step]; a job that appears starts
    queued with fence 0 and no attempts. *)
Theorem jobs_refine_lifecycle w w' :
  reachable w -> rtc step w w' ->
  (forall id r, media_jobs w !! id = Some r ->
    exists r', media_jobs w' !! id = Some r' /\ rtc abs_step (abs r) (abs r') /\
      job_identity r = job_identity r') /\
  (forall id r', media_jobs w' !! id = Some r' -> media_jobs w !! id = None ->
    exists a, abs_initial a /\ rtc abs_step a (abs r')).
Proof. intros Hr Hs. apply (inv_from w w' Hr) in Hs as [_ _ _ He Hn]. auto. Qed.

(** C7: A lease ends at most once. When a statement that ends a lease succeeded
    for a job and a fence, then after any further operations by anyone every
    statement of that lease - completing, failing, retrying, releasing or
    renewing it - returns [False] and leaves all tables as they are. *)
Theorem lease_ends_once id fence m w w1 w2 m' :
  reachable w -> lease_end id fence m -> m w = (inr true, w1) -> rtc step w1 w2 ->
  lease_op id fence m' ->
  exists w3, m' w2 = (inr false, w3) /\ same_tables w2 w3.
Proof.
  intros Hr Hm E Hs Hm'. destruct (job_lease_end_spent _ _ _ _ _ Hm E) as (r1 & Er1 & Hsp).
  apply (spent_lease_op id fence); [done|].
  eapply spent_forever; [|done|done|done].
  eapply reachable_step; [done|]. by eapply job_lease_end_step.
Qed.

(** A worker whose lease was taken back is locked out for good: once the
    job's fence token has moved past a worker's fence (its lease was reclaimed,
    or the job expired or was claimed again), every statement of that worker
    returns [False] and changes no table, whatever happens in between. *)
Theorem stale_worker_locked_out id fence r w w' m :
  reachable w -> media_jobs w !! id = Some r -> fence < mj_fence_token r ->
  rtc step w w' -> lease_op id fence m ->
  exists w'', m w' = (inr false, w'') /\ same_tables w' w''.
Proof.
  intros Hr Er Hf Hs Hm. apply (spent_lease_op id fence); [done|].
  eapply spent_forever; [done..|]. by left.
Qed.

(** [claim_next] returns at most [limit] jobs; they are exactly the oldest
    claimable rows that no other transaction holds, in order of creation, each
    leased to the worker under a new fence; any other claimable unlocked job is
    younger than all of them, and the batch is full; no other row changes. *)
Theorem claim_next_takes_oldest locked worker lease now limit w js w' :
  reachable w -> claim_next locked worker lease now limit w = (inr js, w') ->
  1 <= limit ->
  exists old, js = claim_row worker (now + lease) now <$> old /\
    Z.of_nat (length old) <= limit /\ NoDup (mj_id <$> old) /\
    StronglySorted (row_le mj_created_at) old /\
    (forall r, r ∈ old -> media_jobs w !! mj_id r = Some r /\ locked (mj_id r) = false /\
       claimable (clock w (clock_reads w)) r = true /\
       media_jobs w' !! mj_id r = Some (claim_row worker (now + lease) now r)) /\
    (forall id, id ∉ mj_id <$> old -> media_jobs w' !! id = media_jobs w !! id) /\
    (forall id r, media_jobs w !! id = Some r -> locked id = false ->
       claimable (clock w (clock_reads w)) r = true -> r ∉ old ->
       Z.of_nat (length old) = limit /\ forall r', r' ∈ old -> row_le mj_created_at r' r).
Proof.
  intros Hr E Hlim. apply inv_reachable in Hr.
  set (clk := clock w (clock_reads w)). set (w1 := w <| clock_reads := S (clock_reads w) |>).
  set (p r := claimable clk r && negb (locked (mj_id r))).
  set (old := take (Z.to_nat limit) (order_by mj_created_at (List.filter p (rows w1)))).
  unfold claim_next in E. rewrite (proj2 (Z.ltb_ge _ _)) in E by lia.
  destruct (_ || _) in E; [done|].
  change (map_m (fun job => lift (assert_transition (value (mj_public_state job)) (value INSPECTING)) ;;;
    update_row (mj_id job) (claim_row worker (now + lease) now)) old w1 = (inr js, w')) in E.
  destruct (selected_rows (R := MediaJob) w1 p _
    (inv_keyed _ _ (inv_clock _ _ (S (clock_reads w)) Hr)) eq_refl) as [Hnd Hl].
  assert (Hold : forall r, r ∈ old -> media_jobs w !! mj_id r = Some r /\
            claimable clk r = true /\ locked (mj_id r) = false).
  { intros r Hin. apply (elem_of_limit (R := MediaJob)), Hl in Hin as [? Hp]. unfold p in Hp.
    by propify. }
  assert (Hndo : NoDup (mj_id <$> old)) by exact (NoDup_ids_limit mj_created_at (Z.to_nat limit) _ Hnd).
  destruct (run_map_update
    (fun r : MediaJob => assert_transition (value (mj_public_state r)) (value INSPECTING))
    (claim_row worker (now + lease) now) old w1) as (t & E' & Ht & Ho); [exact Hndo| |].
  - intros r Hin. destruct (Hold r Hin) as (Hs & Hc & _). split; [done|].
    pose proof (inv_rows _ _ Hr _ _ Hs) as Hri. unfold claimable in Hc. propify.
    split; [by match goal with Es : mj_public_state r = _ |- _ => rewrite Es end|].
    cbn. eapply job_claim_good; eauto.
  - pose proof (eq_trans (eq_sym E) E') as Heq. injection Heq as -> ->. exists old.
    split_and!; try done.
    + unfold old. rewrite length_take. lia.
    + apply order_by_limit_sorted.
    + intros r Hin. destruct (Hold r Hin) as (? & ? & ?). split_and!; try done. by apply Ht.
    + intros id r Hid Hlk Hc Hnin.
      assert (mj_id r = id) as <- by by apply (inv_keyed _ _ Hr).
      destruct (order_by_limit mj_created_at (Z.to_nat limit) (List.filter p (rows w1)) r)
        as [Hlen Hle]; [|done|].
      { apply elem_of_filter_rows. split; [by exists (mj_id r)|]. unfold p. fold clk in Hc.
        by rewrite Hc, Hlk. }
      split; [|done]. fold old in Hlen. lia.
Qed.

(** The shape checks [enqueue_or_get] makes before it writes. *)
Definition well_formed_request (q : EnqueueArgs) : Prop :=
  length (eq_credential_hash q) = 32%nat /\ length (eq_request_fingerprint q) = 32%nat /\
  str_mem "?" (eq_canonical_provider_url q) = false /\
  str_mem "#" (eq_canonical_provider_url q) = false.

Lemma enqueue_prefix q w :
  well_formed_request q ->
  enqueue_or_get q w =
    (let job := queued_job (uuids w (uuid_draws w)) q in
     let w1 := w <| uuid_draws := S (uuid_draws w) |> in
     if insert_ok job w1
     then (inr (job, true), with_table (<[mj_id job := job]> (media_jobs w1)) w1)
     else
       match head (List.filter (fun r => bool_decide (mj_credential_hash r = eq_credential_hash q)) (rows w1)) with
       | None => (inl (job_error JOB_INTERNAL_ERROR "IDEMPOTENCY_LOOKUP_MISS"), rollback w1 w1)
       | Some r =>
           if tokens_match (mj_request_fingerprint r) (eq_request_fingerprint q)
           then (inr (r, false), rollback w1 w1)
           else (inl (job_error IDEMPOTENCY_CONFLICT "FINGERPRINT_MISMATCH"), rollback w1 w1)
       end).
Proof.
  intros (Hc & Hf & Hq & Hh). unfold enqueue_or_get. rewrite Hc, Hf, Hq, Hh. cbv zeta.
  rewrite (bind_run _ _ w tt w) by done. rewrite (bind_run _ _ w tt w) by done.
  rewrite (bind_run uuid4 _ w _ _ eq_refl).
  set (w1 := w <| uuid_draws := _ |>). set (job := queued_job _ q).
  unfold try_catch, begin_nested, insert_row, bind at 1.
  destruct (insert_ok job w1); [done|].
  unfold get_by_credential_hash, select_first, gets, bind at 1.
  change (rows (rollback w1 w1)) with (rows (R := MediaJob) w1).
  destruct (head _) as [r|]; [|done]. by destruct (tokens_match _ _).
Qed.

(** Enqueueing is idempotent per credential: when a job with the request's
    credential hash exists, a request with the same fingerprint gets that very
    job back, marked as not created, and a request with another fingerprint is
    refused as an idempotency conflict (HTTP 409); neither changes any table. *)
Theorem enqueue_idempotent q w id r :
  reachable w -> well_formed_request q ->
  media_jobs w !! id = Some r -> mj_credential_hash r = eq_credential_hash q ->
  exists w', same_tables w w' /\
    enqueue_or_get q w =
      (if decide (mj_request_fingerprint r = eq_request_fingerprint q)
       then inr (r, false)
       else inl (JobError IDEMPOTENCY_CONFLICT "FINGERPRINT_MISMATCH" 409), w').
Proof.
  intros Hr Hq Er Hcr. apply inv_reachable in Hr. rewrite enqueue_prefix by done. cbv zeta.
  set (w1 := w <| uuid_draws := _ |>). set (job := queued_job _ q). exists (rollback w1 w1).
  split; [done|].
  assert (Hno : insert_ok job w1 = false).
  { unfold insert_ok. apply andb_false_iff. left. apply andb_false_iff. right.
    apply negb_false_iff, exists_row_true. exists id, r. split; [done|]. by apply bool_decide_eq_true. }
  rewrite Hno.
  assert (Hsel : select_first (fun x => bool_decide (mj_credential_hash x = eq_credential_hash q)) w1
                 = (inr (Some r), w1)).
  { eapply select_first_unique; [exact Er|by apply bool_decide_eq_true|].
    intros id' r' Er' E'. apply bool_decide_eq_true in E'.
    assert (id' = id) as -> by (apply (inv_unique _ _ Hr _ _ _ _ Er' Er), bool_decide_eq_true; congruence).
    cbn in Er'. congruence. }
  unfold select_first, gets in Hsel. injection Hsel as ->.
  destruct (tokens_match _ _) eqn:Et.
  - apply tokens_match_true in Et. by rewrite decide_True.
  - rewrite decide_False; [done|]. intros E. apply tokens_match_true in E. congruence.
Qed.

(** A request under a new credential creates its job: queued, unclaimed,
    with no attempt used, claimable at once until its time to live is over. *)
Theorem enqueue_creates q w :
  reachable w -> well_formed_request q ->
  eq_scheme q = "https" -> eq_port q = None -> 1 <= eq_max_attempts q ->
  media_jobs w !! uuids w (uuid_draws w) = None ->
  (forall id r, media_jobs w !! id = Some r -> mj_credential_hash r <> eq_credential_hash q) ->
  exists w', enqueue_or_get q w = (inr (queued_job (uuids w (uuid_draws w)) q, true), w') /\
    media_jobs w' = <[uuids w (uuid_draws w) := queued_job (uuids w (uuid_draws w)) q]> (media_jobs w) /\
    forall clk, eq_now q <= clk < eq_now q + seconds (eq_ttl_seconds q) ->
      claimable clk (queued_job (uuids w (uuid_draws w)) q) = true.
Proof.
  intros Hr Hq Hs Hp Hm Hfree Hcred. rewrite enqueue_prefix by done. cbv zeta.
  set (w1 := w <| uuid_draws := _ |>). set (job := queued_job _ q).
  destruct Hq as (Hc & Hf & Hqm & Hh).
  assert (Hok : insert_ok job w1 = true).
  { unfold insert_ok. cbn. rewrite Hfree. cbn.
    rewrite (proj2 (exists_row_false _ _)).
    2: { intros id r Er. apply bool_decide_eq_false. intros E. by apply (Hcred id r). }
    unfold MediaJob_check, no_char, mj_lease_state_check, mj_result_state_check. cbn.
    rewrite Hqm, Hh, Hc, Hf, Hs, Hp. cbn. solve_bools. }
  rewrite Hok. eexists. split; [done|]. split; [done|].
  intros clk Hclk. unfold claimable. cbn. solve_bools.
Qed.

(** The maintenance sweeps: select by a clock reading, then rewrite each row. *)
Definition sweep (p : time -> MediaJob -> bool) (guard : MediaJob -> exn + unit)
    (f : MediaJob -> MediaJob) (locked : uid -> bool) : DB Z :=
  let* clk := clock_timestamp in
  let* jobs := select (fun r => p clk r && negb (locked (mj_id r))) in
  map_m (fun job => lift (guard job) ;;; update_row (mj_id job) f) jobs ;;;
  ret (Z.of_nat (length jobs)).

Lemma sweep_run p guard f w :
  inv ∅ w ->
  (forall clk r, row_inv r -> p clk r = true -> guard r = inr tt /\ good_update r (f r)) ->
  exists n w', sweep p guard f (fun _ => false) w = (inr n, w') /\
    n = Z.of_nat (length (List.filter (p (clock w (clock_reads w))) (rows w))) /\
    (forall id, media_jobs w' !! id =
       (fun r => if p (clock w (clock_reads w)) r then f r else r) <$> media_jobs w !! id).
Proof.
  intros Hr Hg. set (clk := clock w (clock_reads w)).
  set (w1 := w <| clock_reads := S (clock_reads w) |>).
  set (q r := p clk r && negb false).
  destruct (selected_rows (R := MediaJob) w1 q _
    (inv_keyed _ _ (inv_clock _ _ (S (clock_reads w)) Hr)) eq_refl) as [Hnd Hl].
  destruct (run_map_update guard f _ w1 Hnd) as (t & E & Ht & Ho).
  { intros r Hin. destruct (Hl r Hin) as [Hs Hp]. split; [done|]. unfold q in Hp. propify.
    destruct (Hg clk r) as [? [[? ?] _]]; [by eapply (inv_rows _ _ Hr)|done|done]. }
  assert (Hpq : List.filter q (rows w1) = List.filter (p clk) (rows w)).
  { apply filter_ext. intros r. unfold q. by rewrite andb_true_r. }
  exists (Z.of_nat (length (List.filter q (rows w1)))), (with_table t w1). split_and!.
  - unfold sweep. rewrite (bind_run clock_timestamp _ w clk w1 eq_refl).
    rewrite (bind_run (select q) _ w1 (List.filter q (rows w1)) w1 eq_refl).
    exact (bind_run _ (fun _ => ret (Z.of_nat (length (List.filter q (rows w1))))) w1 _ _ E).
  - by rewrite Hpq.
  - intros id. change (t !! id = (fun r => if p clk r then f r else r) <$> media_jobs w !! id).
    destruct (media_jobs w !! id) as [r|] eqn:Er; cbn.
    + assert (mj_id r = id) as <- by by apply (inv_keyed _ _ Hr).
      destruct (p clk r) eqn:Ed.
      * apply Ht, elem_of_filter_rows. split; [by exists (mj_id r)|]. unfold q. by rewrite Ed.
      * rewrite Ho; [done|]. intros Hin. apply list_elem_of_fmap in Hin as (r' & Eid & Hin).
        destruct (Hl r' Hin) as [Hs Hp]. cbn in Hs, Eid. rewrite <- Eid in Hs.
        assert (r' = r) as -> by congruence. unfold q in Hp. by rewrite Ed in Hp.
    + rewrite Ho; [done|]. intros Hin. apply list_elem_of_fmap in Hin as (r0 & -> & Hin).
      destruct (Hl r0 Hin) as [Hs _]. cbn in Hs, Er. congruence.
Qed.

(** Expiry is complete: after [expire_due_jobs] with no row held by another
    transaction, every job whose time to live is over is expired, with its
    result, its error and its lease cleared and its fence moved on; every other
    row is unchanged; and the count returned is the number of rows expired. *)
Theorem expire_due_jobs_complete now w :
  reachable w ->
  exists n w', expire_due_jobs (fun _ => false) now w = (inr n, w') /\
    n = Z.of_nat (length (List.filter (due (clock w (clock_reads w))) (rows w))) /\
    (forall id, media_jobs w' !! id =
       (fun r => if due (clock w (clock_reads w)) r then expire_row now r else r)
         <$> media_jobs w !! id) /\
    (forall id r', media_jobs w' !! id = Some r' -> mj_expires_at r' <= clock w (clock_reads w) ->
       mj_public_state r' = EXPIRED).
Proof.
  intros Hr. apply inv_reachable in Hr.
  destruct (sweep_run due (fun r => assert_transition (value (mj_public_state r)) (value EXPIRED))
    (expire_row now) w Hr) as (n & w' & E & Hn & Hrow).
  { intros clk r Hri Hd. split; [|by eapply expire_good]. unfold due in Hd. propify.
    rewrite !elem_of_cons, elem_of_nil in *. destruct (mj_public_state r); intuition discriminate. }
  exists n, w'. split_and!; try done. intros id r' Er' Hx. rewrite Hrow in Er'.
  destruct (media_jobs w !! id) as [r|]; [|done]. cbn in Er'. injection Er' as <-.
  destruct (due _ r) eqn:Ed; [done|]. unfold due in Ed. rewrite (proj2 (Z.leb_le _ _) Hx) in Ed.
  cbn in Ed. propify. rewrite !elem_of_cons, elem_of_nil in Ed.
  destruct (mj_public_state r); tauto.
Qed.

(** A dead worker's lease is taken back: [reclaim_expired_leases], with no
    row held by another transaction, requeues every job whose lease ran out
    while it still has attempts, and it is claimable again; it fails the
    exhausted ones for good; it moves the fence of each on, so the dead worker
    is locked out; and it changes no other row. *)
Theorem reclaim_expired_leases_complete now w :
  reachable w ->
  exists n w', reclaim_expired_leases (fun _ => false) now w = (inr n, w') /\
    (forall id, media_jobs w' !! id =
       (fun r => if lease_expired (clock w (clock_reads w)) r then reclaim_row now r else r)
         <$> media_jobs w !! id) /\
    (forall id r r', media_jobs w !! id = Some r -> media_jobs w' !! id = Some r' ->
       lease_expired (clock w (clock_reads w)) r = true ->
       mj_fence_token r' = mj_fence_token r + 1 /\
       if mj_max_attempts r <=? mj_attempt_count r
       then mj_public_state r' = FAILED /\ mj_public_error_code r' = Some "MEDIA_INSPECTION_FAILED"
       else forall clk, now <= clk < mj_expires_at r' -> claimable clk r' = true).
Proof.
  intros Hr. apply inv_reachable in Hr.
  destruct (sweep_run lease_expired (fun r => assert_transition (value INSPECTING)
      (value (if mj_max_attempts r <=? mj_attempt_count r then FAILED else QUEUED)))
    (reclaim_row now) w Hr) as (n & w' & E & Hn & Hrow).
  { intros clk r Hri Hd. split; [|by eapply job_reclaim_good]. by destruct (_ <=? _). }
  exists n, w'. split_and!; try done. intros id r r' Er Er' Hl. rewrite Hrow, Er in Er'.
  cbn in Er'. rewrite Hl in Er'. injection Er' as <-. unfold reclaim_row.
  destruct (_ <=? _) eqn:Ex; split; try done. cbn. intros clk Hclk. unfold claimable. cbn.
  solve_bools.
Qed.

End JobTheorems.

(** ** Witnesses: a database with one job, enqueued, leased and completed *)
Module JobExamples.
Import JobStates MediaJobRepository JobLifecycle JobTheorems.

Definition demo_request : EnqueueArgs := {|
  eq_credential_hash := replicate 32 Byte.x01;
  eq_request_fingerprint := replicate 32 Byte.x02;
  eq_provider_id := "youtube";
  eq_canonical_provider_url := "https://www.youtube.com/watch/abc";
  eq_media_id := "abc";
  eq_hostname := "www.youtube.com";
  eq_path := "/watch/abc";
  eq_scheme := "https";
  eq_port := None;
  eq_now := 0;
  eq_ttl_seconds := 3600;
  eq_max_attempts := 3
|}.

(** A clock that advances by one second per reading. *)
Definition demo_clock (n : nat) : time := seconds (Z.of_nat n).
Definition demo_uuids (n : nat) : uid := (7 + N.of_nat n)%N.
Definition demo0 : World := empty_world demo_clock demo_uuids.

Definition run (op : JobOp) (w : World) : World := (begin_nested (exec op) w).2.

Definition no_locks (_ : uid) : bool := false.
Definition demo1 : World := run (OpEnqueue demo_request) demo0.
Definition demo2 : World := run (OpClaim no_locks "worker-a" (seconds 60) 0 1) demo1.
Definition demo3 : World := run (OpComplete 7 "worker-a" 1 (JObj [])) demo2.
(** The worker died: its lease of two seconds is reclaimed. *)
Definition demo_dead : World := run (OpClaim no_locks "worker-a" (seconds 1) 0 1) demo1.
Definition demo_reclaimed : World := run (OpReclaim no_locks (seconds 1)) demo_dead.

Lemma reachable_demo0 : reachable demo0.
Proof. exists demo_clock, demo_uuids. apply rtc_refl. Defined.

Lemma job_step op w : step w (run op w).
Proof. exact (step_op (R := MediaJob) (Op := JobOp) op w). Defined.

Lemma reachable_run op w : reachable w -> reachable (run op w).
Proof. intros Hr. eapply reachable_step; [exact Hr|apply job_step]. Defined.

#[local] Hint Resolve reachable_demo0 reachable_run : core.

Lemma demo1_reachable : reachable demo1.
Proof. apply reachable_run, reachable_demo0. Defined.
Lemma demo2_reachable : reachable demo2.
Proof. apply reachable_run, demo1_reachable. Defined.

Definition demo_row (w : World) : MediaJob :=
  default (queued_job 0 demo_request) (media_jobs w !! 7%N).

Lemma media_jobs_invariant_witness :
  media_jobs demo2 !! 7%N = Some (demo_row demo2) /\ mj_public_state (demo_row demo2) = INSPECTING /\
  0 <= mj_attempt_count (demo_row demo2) <= mj_max_attempts (demo_row demo2).
Proof.
  assert (E : media_jobs demo2 !! 7%N = Some (demo_row demo2)) by (vm_compute; reflexivity).
  split; [exact E|]. split; [vm_compute; reflexivity|].
  apply (proj1 (media_jobs_invariant demo2 demo2_reachable) 7%N _ E).
Defined.

Lemma job_operations_are_clean_witness :
  reachable demo1 /\
  match (exec (OpClaim no_locks "" (seconds 60) 0 1) demo1).1 with
  | inr _ => True
  | inl e => exists code reason, e = job_error code reason
  end.
Proof.
  split; [exact demo1_reachable|].
  exact (job_operations_are_clean demo1 (OpClaim no_locks "" (seconds 60) 0 1) demo1_reachable).
Defined.

Lemma jobs_refine_lifecycle_witness :
  exists r', media_jobs demo3 !! 7%N = Some r' /\
    rtc abs_step (abs (demo_row demo1)) (abs r') /\ job_identity (demo_row demo1) = job_identity r'.
Proof.
  apply (proj1 (jobs_refine_lifecycle demo1 demo3 demo1_reachable
    (rtc_l _ _ _ _ (job_step _ _) (rtc_once _ _ (job_step _ _))))).
  vm_compute. reflexivity.
Defined.

Lemma lease_ends_once_witness :
  exists w3, release_to_queued 7 "worker-a" 1 0 demo3 = (inr false, w3) /\ same_tables demo3 w3.
Proof.
  apply (lease_ends_once 7 1 (complete 7 "worker-a" 1 (JObj [])) demo2
    (complete 7 "worker-a" 1 (JObj []) demo2).2 demo3).
  - exact demo2_reachable.
  - apply le_complete.
  - vm_compute. reflexivity.
  - apply rtc_once, step_env. vm_compute. reflexivity.
  - apply lo_release.
Defined.

Lemma stale_worker_locked_out_witness :
  exists w, complete 7 "worker-a" 1 (JObj []) demo_reclaimed = (inr false, w) /\
    same_tables demo_reclaimed w.
Proof.
  apply (stale_worker_locked_out 7 1 (demo_row demo_reclaimed) demo_reclaimed demo_reclaimed).
  - apply reachable_run, reachable_run, demo1_reachable.
  - vm_compute. reflexivity.
  - vm_compute. reflexivity.
  - apply rtc_refl.
  - apply lo_complete.
Defined.

Lemma claim_next_takes_oldest_witness :
  exists old, (claim_next no_locks "worker-a" (seconds 60) 0 1 demo1).1 = inr
    (claim_row "worker-a" (0 + seconds 60) 0 <$> old) /\ Z.of_nat (length old) <= 1.
Proof.
  destruct (claim_next_takes_oldest no_locks "worker-a" (seconds 60) 0 1 demo1
    [claim_row "worker-a" (0 + seconds 60) 0 (demo_row demo1)]
    (claim_next no_locks "worker-a" (seconds 60) 0 1 demo1).2 demo1_reachable)
    as (old & E & Hlen & _).
  - vm_compute. reflexivity.
  - lia.
  - exists old. split; [|exact Hlen]. rewrite <- E. vm_compute. reflexivity.
Defined.

Lemma demo_request_ok : well_formed_request demo_request.
Proof. repeat split. Defined.

Lemma enqueue_idempotent_witness :
  exists w', same_tables demo2 w' /\
    enqueue_or_get demo_request demo2 = (inr (demo_row demo2, false), w').
Proof.
  apply (enqueue_idempotent demo_request demo2 7 (demo_row demo2) demo2_reachable demo_request_ok).
  - vm_compute. reflexivity.
  - vm_compute. reflexivity.
Defined.

Lemma enqueue_creates_witness :
  claimable (seconds 10) (queued_job 7 demo_request) = true.
Proof.
  destruct (enqueue_creates demo_request demo0 reachable_demo0 demo_request_ok)
    as (w' & _ & _ & Hc).
  - reflexivity.
  - reflexivity.
  - cbn. lia.
  - reflexivity.
  - intros id r Hr. discriminate Hr.
  - apply Hc. cbn. unfold seconds. lia.
Defined.

Lemma expire_due_jobs_complete_witness :
  exists n w', expire_due_jobs no_locks 0 demo3 = (inr n, w') /\
    n = Z.of_nat (length (List.filter (due (seconds 3)) (rows demo3))).
Proof.
  destruct (expire_due_jobs_complete 0 demo3) as (n & w' & E & Hn & _).
  - apply reachable_run, demo2_reachable.
  - exists n, w'. split; [exact E|]. rewrite Hn. vm_compute. reflexivity.
Defined.

Lemma reclaim_expired_leases_complete_witness :
  exists n w', reclaim_expired_leases no_locks 0 demo_dead = (inr n, w') /\
    forall id, media_jobs w' !! id =
      (fun r => if lease_expired (seconds 1) r then reclaim_row 0 r else r) <$> media_jobs demo_dead !! id.
Proof.
  destruct (reclaim_expired_leases_complete 0 demo_dead) as (n & w' & E & Hrow & _).
  - apply reachable_run, demo1_reachable.
  - exists n, w'. split; [exact E|]. intros id. rewrite Hrow. reflexivity.
Defined.

End JobExamples.
