(* ===== verification/Premium.v ===== *)
(** Premium entitlements: [premium/policy.py], [premium/repository.py],
    [premium/service.py] and [premium/reconcile.py]. *)

From S2P Require Export Database.

Local Open Scope string_scope.
Local Open Scope Z_scope.

Module PremiumEntitlementRepository.
Import PaymentStates.

(** Source: backend/src/fetchnow/premium/policy.py:23-34 [capability_from_entitlement] *)
Definition capability_from_entitlement (entitlement : option PremiumEntitlement)
  : PremiumCapability :=
  match entitlement with
  | None => {| is_premium := false; premium_expires_at := None; capability_product_code := None |}
  | Some e => {|
      is_premium := true;
      premium_expires_at := Some (pe_expires_at e);
      capability_product_code := Some (pe_product_code e)
    |}
  end.

(** Source: backend/src/fetchnow/premium/repository.py:26-30 [database_now] *)
Definition database_now : DB time := clock_timestamp.

(** Source: backend/src/fetchnow/premium/repository.py:32-40 [get_by_source_payment_order_id] *)
Definition get_by_source_payment_order_id (payment_order_id : uid)
  : DB (option PremiumEntitlement) :=
  select_first (fun r => bool_decide (pe_source_payment_order_id r = payment_order_id)).

(** Source: backend/src/fetchnow/premium/repository.py:47-51 [PremiumEntitlementRepository.get_active_for_client]
    The entitlement window of the client is open at [now]. *)
Definition active_for (anonymous_client_id : uid) (now : time) (r : PremiumEntitlement) : bool :=
  bool_decide (pe_anonymous_client_id r = anonymous_client_id) &&
  (pe_starts_at r <=? now) && (now <? pe_expires_at r).

(** Source: backend/src/fetchnow/premium/repository.py:42-55 [get_active_for_client] *)
Definition get_active_for_client (anonymous_client_id : uid) (now : time)
  : DB (option PremiumEntitlement) :=
  let* found := select (active_for anonymous_client_id now) in
  ret (head (order_by (fun r => - pe_expires_at r) found)).

(** Source: backend/src/fetchnow/premium/repository.py:57-110 [ensure_for_paid_order] *)
Definition ensure_for_paid_order_at (order : PaymentOrder) (now : time)
  : DB (PremiumEntitlement * bool) :=
  match po_status order, po_paid_at order with
  | PAID, Some starts_at =>
      raise_when (po_entitlement_duration_seconds order <=? 0) PremiumEntitlementInvariantError ;;;
      let* existing := get_by_source_payment_order_id (po_id order) in
      match existing with
      | Some existing => ret (existing, false)
      | None =>
          let expires_at := starts_at + seconds (po_entitlement_duration_seconds order) in
          raise_when (expires_at <=? starts_at) PremiumEntitlementInvariantError ;;;
          let* id := uuid4 in
          let* public_id := uuid4 in
          let row := {|
            pe_id := id;
            pe_public_id := public_id;
            pe_anonymous_client_id := po_anonymous_client_id order;
            pe_source_payment_order_id := po_id order;
            pe_product_code := po_product_code order;
            pe_starts_at := starts_at;
            pe_expires_at := expires_at;
            pe_created_at := now
          |} in
          try_catch
            (begin_nested (insert_row row) ;;; ret (row, true))
            (fun e =>
               match e with
               | IntegrityError => Some (
                   let* existing := get_by_source_payment_order_id (po_id order) in
                   match existing with
                   | None => raise PremiumEntitlementInvariantError
                   | Some existing => ret (existing, false)
                   end)
               | _ => None
               end)
      end
  | _, _ => raise PremiumEntitlementInvariantError
  end.

(** Source: backend/src/fetchnow/premium/service.py:27-32 [PremiumEntitlementService.ensure_for_paid_order] *)
Definition ensure_for_paid_order (order : PaymentOrder) : DB (PremiumEntitlement * bool) :=
  let* now := database_now in
  ensure_for_paid_order_at order now.

(** Source: backend/src/fetchnow/premium/service.py:18-21 [PremiumStatus] *)
Record PremiumStatus := {
  ps_capability : PremiumCapability;
  ps_entitlement : option PremiumEntitlement
}.

(** Source: backend/src/fetchnow/premium/service.py:34-45 [status_for_client] *)
Definition status_for_client (anonymous_client_id : uid) : DB PremiumStatus :=
  let* now := database_now in
  let* entitlement := get_active_for_client anonymous_client_id now in
  ret {| ps_capability := capability_from_entitlement entitlement;
         ps_entitlement := entitlement |}.

(** Source: backend/src/fetchnow/premium/reconcile.py:18-22 [PremiumReconcileResult] *)
Record PremiumReconcileResult := {
  pr_scanned : Z;
  pr_created : Z;
  pr_reused : Z
}.

(** Source: backend/src/fetchnow/premium/reconcile.py:37-45 [reconcile_paid_orders_without_entitlement]
    A paid order that no entitlement row references: the outer join's misses. *)
Definition paid_without_entitlement (w : World) (o : PaymentOrder) : bool :=
  bool_decide (po_status o = PAID) &&
  negb (exists_row (fun e => bool_decide (pe_source_payment_order_id e = po_id o)) w).

(** Source: backend/src/fetchnow/premium/reconcile.py:25-66 [reconcile_paid_orders_without_entitlement] *)
Definition reconcile_paid_orders_without_entitlement : DB PremiumReconcileResult :=
  let* now := database_now in
  let* found := gets (fun w => List.filter (paid_without_entitlement w) (rows w)) in
  let orders := order_by (fun o => default 0 (po_paid_at o)) found in
  let* counts := fold_m (fun '(created, reused) order =>
    let* res := ensure_for_paid_order_at order now in
    ret (if res.2 then (created + 1, reused) else (created, reused + 1))) (0, 0) orders in
  ret {| pr_scanned := Z.of_nat (length orders); pr_created := counts.1; pr_reused := counts.2 |}.

(** ** Lemmas *)

(** The head of the ordered active entitlements expires last. *)
Lemma head_order_by {R} `{Table R} key (l : list R) :
  match head (order_by key l) with
  | None => l = []
  | Some r => r ∈ l /\ forall r', r' ∈ l -> row_le key r r'
  end.
Proof.
  pose proof (order_by_sorted key l) as Hs. pose proof (order_by_perm key l) as Hp.
  destruct (order_by key l) as [|r l'] eqn:E; cbn.
  - by apply Permutation_nil_l in Hp.
  - apply StronglySorted_cons in Hs as [Hr _]. rewrite Forall_forall in Hr. split.
    + rewrite <- Hp. left.
    + intros r' Hr'. rewrite <- Hp in Hr'. apply elem_of_cons in Hr' as [->|Hr']; [|by apply Hr].
      unfold row_le. right. split; [done|lia].
Qed.

Lemma status_for_client_spec client w :
  let now := clock w (clock_reads w) in
  exists st w', status_for_client client w = (inr st, w') /\ same_tables w w' /\
    (is_premium (ps_capability st) = true <->
       exists id e, premium_entitlements w !! id = Some e /\ active_for client now e = true) /\
    (forall t, premium_expires_at (ps_capability st) = Some t ->
       (exists id e, premium_entitlements w !! id = Some e /\ active_for client now e = true /\
          pe_expires_at e = t) /\
       (forall id e, premium_entitlements w !! id = Some e -> active_for client now e = true ->
          pe_expires_at e <= t)).
Proof.
  intros now. set (w1 := w <| clock_reads := S (clock_reads w) |>).
  set (l := List.filter (active_for client now) (rows w1)).
  pose proof (head_order_by (fun r => - pe_expires_at r) l) as Hh.
  assert (Hl : forall e, e ∈ l <-> exists id, premium_entitlements w !! id = Some e /\
            active_for client now e = true).
  { intros e. unfold l. rewrite elem_of_filter_rows. cbn.
    split; [intros [[id ?] ?]; eauto | intros (id & ? & ?); eauto]. }
  exists {| ps_capability := capability_from_entitlement (head (order_by (fun r => - pe_expires_at r) l));
            ps_entitlement := head (order_by (fun r => - pe_expires_at r) l) |}, w1.
  split; [done|]. split; [done|]. cbn.
  destruct (head _) as [e|]; cbn.
  - destruct Hh as [He Hle]. apply Hl in He as (id & He & Ha). split; [split; by eauto|].
    intros t Et. injection Et as <-. split; [eauto|]. intros id' e' He' Ha'.
    assert (Hin : e' ∈ l) by (apply Hl; eauto). apply Hle in Hin. unfold row_le in Hin. lia.
  - split; [|done]. split; [done|]. intros (id & e & He & Ha).
    assert (Hin : e ∈ l) by (apply Hl; eauto). rewrite Hh in Hin. by apply not_elem_of_nil in Hin.
Qed.

(** A client is Premium exactly while one of its entitlement windows is
    open at the database clock, and the expiry reported is the latest one among
    its open windows. *)
Theorem premium_status_correct client w :
  let now := clock w (clock_reads w) in
  exists st w', status_for_client client w = (inr st, w') /\ same_tables w w' /\
    (is_premium (ps_capability st) = true <->
       exists id e, premium_entitlements w !! id = Some e /\ active_for client now e = true) /\
    (forall t, premium_expires_at (ps_capability st) = Some t ->
       (exists id e, premium_entitlements w !! id = Some e /\ active_for client now e = true /\
          pe_expires_at e = t) /\
       (forall id e, premium_entitlements w !! id = Some e -> active_for client now e = true ->
          pe_expires_at e <= t)).
Proof. exact (status_for_client_spec client w). Qed.

End PremiumEntitlementRepository.
