(* ===== verification/Quota.v ===== *)
(** Free-download quota: anonymous identities, the status projection,
    reservations and their life cycle ([quota/repository.py]) and admission
    ([quota/service.py]). *)

From S2P Require Export Premium.

Local Open Scope string_scope.
Local Open Scope Z_scope.

Module QuotaRepository.

(** Source: backend/src/fetchnow/quota/repository.py:30-34 [database_now] *)
Definition database_now : DB time := clock_timestamp.

(** Source: backend/src/fetchnow/quota/repository.py:36-45 [get_active_client_by_hash] *)
Definition get_active_client_by_hash (token_hash : bytes) (now : time)
  : DB (option AnonymousClient) :=
  select_first (fun r => bool_decide (ac_token_hash r = token_hash) && (now <? ac_expires_at r)).

(** Source: backend/src/fetchnow/quota/repository.py:47-60 [create_client] *)
Definition create_client (token_hash : bytes) (now : time) (ttl_seconds : Z) : DB AnonymousClient :=
  raise_when (negb (Nat.eqb (length token_hash) 32))
    (QuotaInvariantError "anonymous token hash length is invalid") ;;;
  let* id := uuid4 in
  let row := {|
    ac_id := id;
    ac_token_hash := token_hash;
    ac_created_at := now;
    ac_expires_at := now + seconds ttl_seconds
  |} in
  insert_row row ;;; ret row.

(** Source: backend/src/fetchnow/quota/repository.py:62-71 [lock_client] *)
Definition lock_client (client_id : uid) (require_active_at : option time)
  : DB (option AnonymousClient) :=
  select_by_id client_id (fun r =>
    match require_active_at with
    | Some t => t <? ac_expires_at r
    | None => true
    end).

(** Source: backend/src/fetchnow/quota/repository.py:85-90 [QuotaRepository.status_locked]
    A consumption of the client inside the window that ends at [now]. *)
Definition used_in_window (client_id : uid) (cutoff now : time) (r : FreeDownloadQuotaEntry) : bool :=
  bool_decide (qe_anonymous_client_id r = client_id) && bool_decide (qe_state r = CONSUMED) &&
  sql_gt (qe_consumed_at r) cutoff && sql_le (qe_consumed_at r) now.

(** Source: backend/src/fetchnow/quota/repository.py:96-100 [QuotaRepository.status_locked]
    A reservation of the client that is still open at [now]. *)
Definition reserved_at_time (client_id : uid) (now : time) (r : FreeDownloadQuotaEntry) : bool :=
  bool_decide (qe_anonymous_client_id r = client_id) && bool_decide (qe_state r = RESERVED) &&
  (now <? qe_reservation_expires_at r).

(** Source: backend/src/fetchnow/quota/repository.py:108-120 [QuotaRepository.status_locked]
    The consumption instant of a consumed row. *)
Definition consumed_instant (r : FreeDownloadQuotaEntry) : time := default 0 (qe_consumed_at r).

(** Source: backend/src/fetchnow/quota/repository.py:73-133 [status_locked] *)
Definition status_locked (client_id : uid) (now : time) (policy : EffectiveDownloadPolicy)
  : DB QuotaStatus :=
  match download_limit policy, quota_window_seconds policy with
  | Some limit, Some window =>
      let cutoff := now - seconds window in
      let* used := select_count (used_in_window client_id cutoff now) in
      let* reserved := select_count (reserved_at_time client_id now) in
      let* reset_at :=
        if limit <=? used then
          let* found := select (used_in_window client_id cutoff now) in
          let releasing_consumption :=
            head (drop (Z.to_nat (used - limit)) (order_by consumed_instant found)) in
          ret (match releasing_consumption with
               | Some r => Some (consumed_instant r + seconds window)
               | None => None
               end)
        else ret None in
      ret {|
        qs_tier := tier policy;
        qs_download_limit := Some limit;
        qs_downloads_used := Some used;
        qs_downloads_reserved := Some reserved;
        qs_downloads_remaining := Some (Z.max 0 (limit - used - reserved));
        qs_reset_at := reset_at;
        qs_window_seconds := Some window;
        qs_premium_expires_at := None
      |}
  | _, _ => raise (QuotaInvariantError "unlimited policy cannot enter Free accounting")
  end.

(** Source: backend/src/fetchnow/quota/repository.py:135-157 [reserve_locked] *)
Definition reserve_locked (client_id download_job_id : uid)
    (reserved_at reservation_expires_at : time) : DB FreeDownloadQuotaEntry :=
  raise_when (reservation_expires_at <=? reserved_at)
    (QuotaInvariantError "reservation expiry must be in the future") ;;;
  let* id := uuid4 in
  let row := {|
    qe_id := id;
    qe_anonymous_client_id := client_id;
    qe_download_job_id := download_job_id;
    qe_state := RESERVED;
    qe_reserved_at := reserved_at;
    qe_reservation_expires_at := reservation_expires_at;
    qe_consumed_at := None;
    qe_released_at := None
  |} in
  insert_row row ;;; ret row.

(** Source: backend/src/fetchnow/quota/repository.py:159-167 [identity_id_for_download] *)
Definition identity_id_for_download (download_job_id : uid) : DB (option uid) :=
  let* r := select_first (fun r => bool_decide (qe_download_job_id r = download_job_id)) in
  ret (qe_anonymous_client_id <$> r).

(** Source: backend/src/fetchnow/quota/repository.py:169-177 [lock_entry_for_download] *)
Definition lock_entry_for_download (download_job_id : uid) : DB (option FreeDownloadQuotaEntry) :=
  select_first (fun r => bool_decide (qe_download_job_id r = download_job_id)).

(** Source: backend/src/fetchnow/quota/repository.py:179-185 [consume_locked] *)
Definition consume_locked (entry : FreeDownloadQuotaEntry) (now : time)
  : DB FreeDownloadQuotaEntry :=
  raise_when (negb (bool_decide (qe_state entry = RESERVED)))
    (QuotaInvariantError "ready transition lacks a reserved quota entry") ;;;
  update_row (qe_id entry) (fun e =>
    e <| qe_state := CONSUMED |> <| qe_consumed_at := Some now |> <| qe_released_at := None |>).

(** Source: backend/src/fetchnow/quota/repository.py:187-200 [release_locked] *)
Definition release_locked (entry : FreeDownloadQuotaEntry) (now : time) (expired : bool)
  : DB FreeDownloadQuotaEntry :=
  match qe_state entry with
  | RESERVED =>
      update_row (qe_id entry) (fun e =>
        e <| qe_state := if expired then ENTRY_EXPIRED else RELEASED |>
          <| qe_consumed_at := None |> <| qe_released_at := Some now |>)
  | RELEASED | ENTRY_EXPIRED => ret entry
  | CONSUMED => raise (QuotaInvariantError "cannot release a consumed quota entry")
  end.

(** Source: backend/src/fetchnow/quota/repository.py:212-221 [QuotaRepository.cleanup_terminal]
    The WHERE clause of [delete_terminal_entries_before], and its re-check. *)
Definition terminal_before (cutoff : time) (r : FreeDownloadQuotaEntry) : bool :=
  (bool_decide (qe_state r = CONSUMED) && sql_le (qe_consumed_at r) cutoff) ||
  (bool_decide (qe_state r ∈ [RELEASED; ENTRY_EXPIRED]) && sql_le (qe_released_at r) cutoff).

(** Source: backend/src/fetchnow/quota/repository.py:202-251 [delete_terminal_entries_before] *)
Definition delete_terminal_entries_before (locked : uid -> bool) (cutoff : time) (limit : Z)
  : DB Z :=
  let* found := select (terminal_before cutoff) in
  let candidates := take (Z.to_nat limit) (order_by (fun _ => 0) found) in
  fold_m (fun deleted candidate =>
    let* client := lock_client (qe_anonymous_client_id candidate) None in
    match client with
    | None => raise (QuotaInvariantError "quota entry references a missing identity")
    | Some _ =>
        let* entry := select_by_id (qe_id candidate) (fun r => negb (locked (qe_id r))) in
        match entry with
        | None => ret deleted
        | Some entry =>
            if terminal_before cutoff entry
            then delete_row (R := FreeDownloadQuotaEntry) (qe_id entry) ;;; ret (deleted + 1)
            else ret deleted
        end
    end) 0 candidates.

(** Source: backend/src/fetchnow/quota/repository.py:253-278 [delete_expired_clients_without_entries] *)
Definition delete_expired_clients_without_entries (locked : uid -> bool) (now : time) (limit : Z)
  : DB Z :=
  let* found := gets (fun w => List.filter (fun c =>
      (ac_expires_at c <=? now) &&
      negb (exists_row (fun e => bool_decide (qe_anonymous_client_id e = ac_id c)) w) &&
      negb (locked (ac_id c))) (rows w)) in
  let ids := ac_id <$> take (Z.to_nat limit) (order_by ac_expires_at found) in
  match ids with
  | [] => ret 0
  | _ => let* n := delete_ids (R := AnonymousClient) ids in ret (Z.of_nat n)
  end.

End QuotaRepository.

Module QuotaService.
Import QuotaRepository.

(** Source: backend/src/fetchnow/quota/service.py:63-73 [resolve_policy] *)
Definition resolve_policy (settings : Settings) (identity_id : uid) : DB EffectiveDownloadPolicy :=
  let* status := PremiumEntitlementRepository.status_for_client identity_id in
  lift (effective_download_policy settings
          (Some (PremiumEntitlementRepository.ps_capability status))).

(** Source: backend/src/fetchnow/quota/service.py:176-187 [_premium_status] *)
Definition premium_status (policy : EffectiveDownloadPolicy) : QuotaStatus := {|
  qs_tier := "premium";
  qs_download_limit := None;
  qs_downloads_used := None;
  qs_downloads_reserved := None;
  qs_downloads_remaining := None;
  qs_reset_at := None;
  qs_window_seconds := None;
  qs_premium_expires_at := policy_premium_expires_at policy
|}.

(** Source: backend/src/fetchnow/quota/service.py:121-136 [status] *)
Definition status (settings : Settings) (identity_id : uid) : DB QuotaStatus :=
  let* now := database_now in
  let* client := lock_client identity_id (Some now) in
  match client with
  | None => raise AnonymousIdentityRequiredError
  | Some _ =>
      let* policy := resolve_policy settings identity_id in
      if bool_decide (tier policy = "premium") then ret (premium_status policy)
      else status_locked identity_id now policy
  end.

(** Source: backend/src/fetchnow/quota/service.py:42-45 [QuotaAdmission] *)
Record QuotaAdmission := {
  adm_policy : EffectiveDownloadPolicy;
  adm_status : QuotaStatus
}.

(** Source: backend/src/fetchnow/quota/service.py:138-174 [admit_locked] *)
Definition admit_locked (settings : Settings) (identity_id download_job_id : uid)
    (reservation_expires_at : time) : DB QuotaAdmission :=
  let* now := database_now in
  let* client := lock_client identity_id (Some now) in
  match client with
  | None => raise AnonymousIdentityRequiredError
  | Some _ =>
      let* policy := resolve_policy settings identity_id in
      if bool_decide (tier policy = "premium")
      then ret {| adm_policy := policy; adm_status := premium_status policy |}
      else
        let* before := status_locked identity_id now policy in
        match qs_downloads_remaining before with
        | None => raise (FreeQuotaExceededError before)
        | Some remaining =>
            raise_when (remaining <? 1) (FreeQuotaExceededError before) ;;;
            reserve_locked identity_id download_job_id now reservation_expires_at ;;;
            ret {|
              adm_policy := policy;
              adm_status := {|
                qs_tier := qs_tier before;
                qs_download_limit := qs_download_limit before;
                qs_downloads_used := qs_downloads_used before;
                qs_downloads_reserved := Some (default 0 (qs_downloads_reserved before) + 1);
                qs_downloads_remaining := Some (Z.max 0 (remaining - 1));
                qs_reset_at := qs_reset_at before;
                qs_window_seconds := qs_window_seconds before;
                qs_premium_expires_at := None
              |}
            |}
        end
  end.

End QuotaService.

(** ** Theorems *)
Module QuotaTheorems.
Import QuotaRepository QuotaService.

(** A free policy with its bounds. *)
Definition free_policy (policy : EffectiveDownloadPolicy) (limit window : Z) : Prop :=
  download_limit policy = Some limit /\ quota_window_seconds policy = Some window.

(** What of the limit the client has taken at [now]. *)
Definition usage (client : uid) (now window : Z) (w : World) : Z :=
  Z.of_nat (length (List.filter (used_in_window client (now - seconds window) now) (rows w))) +
  Z.of_nat (length (List.filter (reserved_at_time client now) (rows w))).

(** The consumptions counted at a later instant are those counted now that the
    window has not left behind. *)
Lemma later_window client window now u w :
  0 <= window -> now <= u ->
  (forall id r, free_download_quota_entries w !! id = Some r -> sql_le (qe_consumed_at r) now = true \/ qe_consumed_at r = None) ->
  List.filter (used_in_window client (u - seconds window) u) (rows w) =
  List.filter (fun r => u - seconds window <? consumed_instant r)
    (List.filter (used_in_window client (now - seconds window) now) (rows w)).
Proof.
  intros Hw Hu Hpast. rewrite lfilter_lfilter. apply filter_ext_in. intros r Hr.
  apply list_elem_of_In, elem_of_rows in Hr as [id Hr].
  specialize (Hpast _ _ Hr). unfold used_in_window, consumed_instant.
  destruct (bool_decide _); [|done]. destruct (bool_decide _); [|done]. cbn.
  destruct (qe_consumed_at r) as [t|]; cbn in *; [|done].
  destruct Hpast as [Hle|]; [|done]. propify. unfold seconds in *.
  repeat match goal with |- context [?a <? ?b] => destruct (Z.ltb_spec a b) end;
  repeat match goal with |- context [?a <=? ?b] => destruct (Z.leb_spec a b) end; cbn; lia.
Qed.

(** The reset instant is exact. When the quota endpoint reports [resetAt],
    then until that instant the client's consumptions alone keep the limit
    exhausted, and at that instant they no longer do. It is reported whenever
    the consumptions exhaust a positive limit. *)
Theorem reset_at_exact client now policy limit window w st w' :
  free_policy policy limit window -> 1 <= limit -> 0 <= window ->
  (forall id r, free_download_quota_entries w !! id = Some r ->
     sql_le (qe_consumed_at r) now = true \/ qe_consumed_at r = None) ->
  status_locked client now policy w = (inr st, w') ->
  let used_at u := Z.of_nat (length (List.filter (used_in_window client (u - seconds window) u) (rows w))) in
  (limit <= used_at now -> qs_reset_at st <> None) /\
  (forall t, qs_reset_at st = Some t ->
     (forall u, now <= u < t -> limit <= used_at u) /\ used_at t < limit).
Proof.
  intros [Hlim Hwin] H1 Hw0 Hpast E used_at. unfold status_locked in E. rewrite Hlim, Hwin in E.
  set (l := List.filter (used_in_window client (now - seconds window) now) (rows w)) in *.
  set (k := Z.to_nat (Z.of_nat (length l) - limit)).
  pose proof (order_by_perm consumed_instant l) as Hp.
  pose proof (order_by_sorted consumed_instant l) as Hs.
  set (s := order_by consumed_instant l) in *.
  assert (Hused : forall u, now <= u ->
    used_at u = Z.of_nat (length (List.filter (fun r => u - seconds window <? consumed_instant r) s))).
  { intros u Hu. unfold used_at. rewrite (later_window client window now u w) by done.
    fold l. by rewrite (Permutation_length (lfilter_perm _ _ _ Hp)). }
  change (used_at now) with (Z.of_nat (length l)). clearbody used_at.
  rewrite (bind_run (select_count _) _ w (Z.of_nat (length l)) w eq_refl) in E.
  rewrite (bind_run (select_count (reserved_at_time client now)) _ w _ w eq_refl) in E.
  destruct (Z.leb_spec limit (Z.of_nat (length l))) as [Hle|Hgt].
  2: { cbn in E. injection E as <- <-. cbn. split; [lia|done]. }
  erewrite bind_run in E; [|reflexivity].
  change (order_by consumed_instant _) with s in E. fold k in E.
  injection E as <- <-. cbn [qs_reset_at].
  assert (Hk : (k < length s)%nat).
  { rewrite (Permutation_length Hp). unfold k. lia. }
  destruct (lookup_lt_is_Some_2 s k Hk) as [r0 Er0].
  assert (Hd : drop k s = r0 :: drop (S k) s) by (by apply drop_S).
  rewrite Hd. cbn [head]. split; [done|]. intros t Et. injection Et as <-.
  assert (Hsplit : s = (take k s ++ drop k s)%list) by by rewrite take_drop.
  rewrite Hd in Hsplit.
  assert (Hbefore : forall r, r ∈ take k s -> consumed_instant r <= consumed_instant r0).
  { intros r Hr. rewrite Hsplit in Hs. apply StronglySorted_app in Hs as (Hs & _ & _).
    specialize (Hs r r0 Hr ltac:(left)). unfold row_le in Hs. lia. }
  assert (Hafter : forall r, r ∈ r0 :: drop (S k) s -> consumed_instant r0 <= consumed_instant r).
  { intros r Hr. rewrite Hsplit in Hs. apply StronglySorted_app in Hs as (_ & _ & Hs).
    apply StronglySorted_cons in Hs as [Hs _]. rewrite Forall_forall in Hs.
    apply elem_of_cons in Hr as [->|Hr]; [lia|]. specialize (Hs r Hr). unfold row_le in Hs. lia. }
  assert (Hlen : length s = length l) by by apply Permutation_length.
  assert (Hlt : length (take k s) = k) by (rewrite length_take; lia).
  assert (Hld : length (drop (S k) s) = (length s - S k)%nat) by apply length_drop.
  split.
  - intros u Hu. rewrite Hused by lia. rewrite Hsplit, List.filter_app, length_app.
    rewrite (lfilter_all _ (r0 :: drop (S k) s)).
    + cbn [length]. lia.
    + intros r Hr. apply Hafter in Hr. apply Z.ltb_lt. lia.
  - assert (Hr0 : r0 ∈ l) by (rewrite <- Hp; by eapply list_elem_of_lookup_2).
    assert (Hnow : now < consumed_instant r0 + seconds window).
    { unfold l in Hr0. apply elem_of_filter_rows in Hr0 as [_ Hu]. unfold used_in_window, consumed_instant in *.
      propify. destruct (qe_consumed_at r0); cbn in *; [|done]. propify. lia. }
    rewrite Hused by lia. rewrite Hsplit, List.filter_app, length_app. cbn [List.filter].
    rewrite (proj2 (Z.ltb_ge _ _)) by lia. rewrite lfilter_none.
    + pose proof (lfilter_length_le
        (fun r => consumed_instant r0 + seconds window - seconds window <? consumed_instant r)
        (drop (S k) s)). cbn [length]. unfold k in *. lia.
    + intros r Hr. apply Hbefore in Hr. apply Z.ltb_ge. lia.
Qed.

(** The counts a status reports, when the limit is not exhausted. *)
Lemma status_locked_run client now policy limit window w :
  free_policy policy limit window ->
  exists reset, status_locked client now policy w = (inr {|
    qs_tier := tier policy;
    qs_download_limit := Some limit;
    qs_downloads_used := Some (Z.of_nat (length
      (List.filter (used_in_window client (now - seconds window) now) (rows w))));
    qs_downloads_reserved := Some (Z.of_nat (length
      (List.filter (reserved_at_time client now) (rows w))));
    qs_downloads_remaining := Some (Z.max 0 (limit - usage client now window w));
    qs_reset_at := reset;
    qs_window_seconds := Some window;
    qs_premium_expires_at := None |}, w) /\
  (Z.of_nat (length (List.filter (used_in_window client (now - seconds window) now) (rows w))) < limit ->
   reset = None).
Proof.
  intros [Hlim Hwin]. unfold status_locked. rewrite Hlim, Hwin.
  erewrite bind_run; [|reflexivity]. erewrite bind_run; [|reflexivity].
  set (used := Z.of_nat (length (List.filter (used_in_window _ _ _) _))).
  set (res := Z.of_nat (length (List.filter (reserved_at_time _ _) _))).
  replace (usage client now window w) with (used + res) by done.
  rewrite Z.sub_add_distr.
  destruct (Z.leb_spec limit used).
  - erewrite bind_run; [|reflexivity]. eexists. split; [reflexivity|]. unfold used in *. lia.
  - erewrite bind_run; [|reflexivity]. eexists. split; [reflexivity|done].
Qed.

Lemma usage_tables client now window w w' :
  free_download_quota_entries w = free_download_quota_entries w' ->
  usage client now window w = usage client now window w'.
Proof. intros E. unfold usage, rows. cbn. by rewrite E. Qed.

(** What a successful reservation wrote. *)
Lemma reserve_locked_inr client job now expiry w a w' :
  reserve_locked client job now expiry w = (inr a, w') ->
  exists id t, free_download_quota_entries w !! id = None /\ now < expiry /\ w' = t /\
    free_download_quota_entries t = <[id := {|
      qe_id := id; qe_anonymous_client_id := client; qe_download_job_id := job;
      qe_state := RESERVED; qe_reserved_at := now; qe_reservation_expires_at := expiry;
      qe_consumed_at := None; qe_released_at := None |}]> (free_download_quota_entries w).
Proof.
  intros E. unfold reserve_locked in E. destruct (expiry <=? now) eqn:Ee; [done|].
  erewrite bind_run in E; [|reflexivity]. erewrite bind_run in E; [|reflexivity].
  apply bind_inr in E as ([] & w2 & Ei & E). injection E as <- <-.
  unfold insert_row in Ei. destruct (insert_ok _ _) eqn:Hok; [|done]. injection Ei as <-.
  unfold insert_ok in Hok. propify.
  eexists _, _. split_and!; [by apply is_none_true|lia|done|done].
Qed.

(** C6: Admission never oversubscribes. An admitted Free request adds exactly one
    open reservation for the job to the client's usage, which stays within the
    limit, and the status returned with it is the one the quota endpoint would
    report after it; an admitted Premium request changes no table. *)
Theorem admission_within_limit settings client job expiry w adm w' :
  let now := clock w (clock_reads w) in
  let limit := free_download_limit settings in
  let window := free_download_window_seconds settings in
  admit_locked settings client job expiry w = (inr adm, w') ->
  (tier (adm_policy adm) = "premium" /\ same_tables w w') \/
  (tier (adm_policy adm) = "free" /\
   usage client now window w' = usage client now window w + 1 /\
   usage client now window w' <= limit /\
   (status_locked client now (adm_policy adm) w').1 = inr (adm_status adm) /\
   exists id e, free_download_quota_entries w' !! id = Some e /\ qe_state e = RESERVED /\
     qe_download_job_id e = job /\ qe_anonymous_client_id e = client).
Proof.
  intros now limit window E. unfold admit_locked in E.
  erewrite bind_run in E; [|reflexivity]. fold now in E.
  set (w1 := w <| clock_reads := _ |>) in E.
  apply bind_inr in E as (c & w2 & Ec & E).
  unfold lock_client, select_by_id, gets in Ec. injection Ec as <- <-.
  destruct (_ ≫= _) as [cl|]; [|done].
  apply bind_inr in E as (policy & w3 & Ep & E).
  unfold resolve_policy in Ep. apply bind_inr in Ep as (st & w3' & Est & Ep).
  destruct (PremiumEntitlementRepository.status_for_client_spec client w1) as (st' & w4 & Est' & Hsame & _).
  rewrite Est in Est'. injection Est' as -> <-. unfold lift in Ep.
  injection Ep as Epol <-. destruct (bool_decide (tier policy = "premium")) eqn:Etier.
  { cbn in E. injection E as <- <-. left. propify. by split. }
  assert (Hfree : tier policy = "free" /\ free_policy policy limit window).
  { unfold effective_download_policy in Epol. destruct (is_premium _).
    - destruct (premium_expires_at _); [|done]. injection Epol as <-. by propify.
    - by injection Epol as <-. }
  destruct Hfree as [Ht Hfree]. right.
  change (same_tables w w3') in Hsame.
  destruct (status_locked_run client now policy limit window w3' Hfree) as (reset & Es & Hreset).
  rewrite (bind_run _ _ _ _ _ Es) in E. cbn [qs_downloads_remaining] in E.
  destruct (_ <? 1) eqn:Erem in E; [done|]. erewrite bind_run in E; [|reflexivity].
  assert (Hroom : usage client now window w3' < limit) by (propify; lia). clear Erem.
  rewrite (usage_tables _ _ _ w3' w) in * by (symmetry; apply Hsame).
  apply bind_inr in E as (entry & w5 & Er & E). injection E as <- <-.
  apply reserve_locked_inr in Er as (id & t & Hid & Hfut & -> & Hq).
  cbn [adm_policy adm_status].
  set (e := {| qe_id := id; qe_anonymous_client_id := client; qe_download_job_id := job;
               qe_state := RESERVED; qe_reserved_at := now; qe_reservation_expires_at := expiry;
               qe_consumed_at := None; qe_released_at := None |}) in *.
  assert (Hfree' : free_download_quota_entries w !! id = None).
  { destruct Hsame as (_ & _ & _ & -> & _). done. }
  assert (Hcount : forall p, length (List.filter p (rows (R := FreeDownloadQuotaEntry) t)) =
            ((if p e then 1 else 0) + length (List.filter p (rows w)))%nat).
  { intros p. rewrite <- (count_insert (H := FreeDownloadQuotaEntry_table) p id e w Hfree'). unfold rows. do 3 f_equal. cbn.
    rewrite Hq. by destruct Hsame as (_ & _ & _ & -> & _). }
  assert (He1 : used_in_window client (now - seconds window) now e = false).
  { unfold used_in_window. cbn. by rewrite !andb_false_r. }
  assert (He2 : reserved_at_time client now e = true).
  { unfold reserved_at_time. cbn. rewrite bool_decide_eq_true_2 by done. by apply Z.ltb_lt. }
  assert (Hu : usage client now window t = usage client now window w + 1).
  { unfold usage. rewrite !Hcount, He1, He2. lia. }
  split; [done|]. split; [done|]. split; [lia|]. split.
  - destruct (status_locked_run client now policy limit window t Hfree) as (reset' & Es' & Hreset').
    assert (Hroom' : Z.of_nat (length (List.filter
              (used_in_window client (now - seconds window) now) (rows w))) < limit).
    { unfold usage in Hroom. lia. }
    rewrite Es'. cbn. rewrite Hreset' by (rewrite Hcount, He1; exact Hroom').
    rewrite Hreset by (unfold rows in *; cbn in *; destruct Hsame as (_ & _ & _ & <- & _); exact Hroom').
    rewrite !Hcount, He1, He2, Hu. unfold rows. cbn. destruct Hsame as (_ & _ & _ & -> & _).
    do 2 f_equal; [f_equal; lia|f_equal].
    lia.
  - exists id, e. cbn. by rewrite Hq, lookup_insert_eq.
Qed.

(** Deleting a batch of clients fails as soon as one of them is referenced. *)
Lemma delete_ids_restricted c ids : forall n w,
  c ∈ ids -> row_restricted (R := AnonymousClient) c w = true ->
  is_some (anonymous_clients w !! c) = true ->
  (fold_m (fun n id =>
     let* present := gets (fun w => is_some (table (R := AnonymousClient) w !! id)) in
     if present then delete_row (R := AnonymousClient) id ;;; ret (S n) else ret n) n ids w).1
  = inl IntegrityError.
Proof.
  induction ids as [|x ids IH]; intros n w Hin Hres Hc; [by apply not_elem_of_nil in Hin|].
  cbn [fold_m]. unfold bind at 1. unfold bind at 1. unfold gets at 1.
  destruct (is_some (table w !! x)) eqn:Ep.
  - unfold bind at 1. unfold delete_row at 1.
    destruct (row_restricted x w) eqn:Er; [done|]. cbn [ret].
    apply elem_of_cons in Hin as [->|Hin]; [congruence|]. apply IH; [done|exact Hres|].
    cbn. rewrite lookup_delete_ne; [done|]. intros ->. congruence.
  - cbn [ret]. apply elem_of_cons in Hin as [->|Hin]; [by cbn in Ep; rewrite Hc in Ep|]. by apply IH.
Qed.

(** The client hygiene does not see payment references. An expired client
    without quota entries that ever placed a payment order makes the batch
    delete violate the RESTRICT foreign key of [payment_orders]: the whole
    statement raises [IntegrityError], on every pass. *)
Theorem paying_client_blocks_hygiene now limit c client order o w :
  keyed (R := AnonymousClient) w ->
  anonymous_clients w !! c = Some client -> ac_expires_at client <= now ->
  (forall id e, free_download_quota_entries w !! id = Some e -> qe_anonymous_client_id e <> c) ->
  payment_orders w !! order = Some o -> po_anonymous_client_id o = c ->
  Z.of_nat (size (anonymous_clients w)) <= limit ->
  (delete_expired_clients_without_entries (fun _ => false) now limit w).1 = inl IntegrityError.
Proof.
  intros Hk Hc Hexp Hno Ho Hoc Hlim. unfold delete_expired_clients_without_entries.
  erewrite bind_run; [|reflexivity].
  set (found := List.filter _ _).
  assert (Hin : client ∈ found).
  { unfold found. apply elem_of_filter_rows. split; [by exists c|]. cbn.
    rewrite (Hk _ _ Hc : ac_id client = c).
    rewrite (proj2 (exists_row_false (R := FreeDownloadQuotaEntry) _ w)).
    - cbn. rewrite !andb_true_r. by apply Z.leb_le.
    - intros id e He. apply bool_decide_eq_false. by apply (Hno id). }
  assert (Hlen : (length found <= size (anonymous_clients w))%nat).
  { unfold found. etransitivity; [apply lfilter_length_le|]. unfold rows. cbn.
    by rewrite length_fmap, length_map_to_list. }
  rewrite take_ge.
  2: { rewrite (Permutation_length (order_by_perm _ _)). lia. }
  assert (Hids : c ∈ ac_id <$> order_by ac_expires_at found).
  { apply list_elem_of_fmap. exists client. split; [by rewrite (Hk _ _ Hc : ac_id client = c)|].
    by apply elem_of_order_by. }
  destruct (ac_id <$> order_by ac_expires_at found) as [|i ids] eqn:Eids;
    [by apply not_elem_of_nil in Hids|]. rewrite <- Eids in *. clear Eids i ids.
  assert (Hres : row_restricted (R := AnonymousClient) c w = true).
  { apply orb_true_iff. left. apply orb_true_iff. right.
    apply existsb_exists. exists o. split; [|by apply bool_decide_eq_true].
    apply list_elem_of_In, list_elem_of_fmap. exists (order, o). split; [done|].
    by apply elem_of_map_to_list. }
  pose proof (delete_ids_restricted c _ 0 w Hids Hres ltac:(by rewrite Hc)) as Hd.
  unfold bind at 1, delete_ids. destruct (fold_m _ _ _ _) as [[e|n] w']; cbn in *; [|done].
  by injection Hd as ->.
Qed.

End QuotaTheorems.

(** ** Witnesses *)
Module QuotaExamples.
Import QuotaRepository QuotaService QuotaTheorems.

Definition demo_settings : Settings := {|
  free_download_limit := 2;
  free_download_window_seconds := 3600;
  free_delivery_rate_limit_enabled := false;
  free_delivery_rate_bytes_per_second := 1048576;
  anonymous_client_ttl_seconds := 2592000;
  free_download_quota_retention_seconds := 2592000;
  free_download_quota_ready_compatibility_mode := false;
  media_downloads_enabled := true;
  media_browser_delivery_enabled := true;
  media_browser_grant_ttl_seconds := 120;
  media_browser_grant_max_active := 3;
  robokassa_mode := "test";
  premium_test_checkout_visible := true;
  robokassa_test_amount_minor := 9900;
  robokassa_order_ttl_seconds := 3600;
  robokassa_merchant_login := "fetchnow";
  robokassa_test_password1 := "one";
  robokassa_test_password2 := "two";
  robokassa_receipt_tax := "none";
  robokassa_receipt_payment_method := "full_prepayment"; free_download_quota_enabled := true; media_delivery_enabled := true;
  media_download_artifact_ttl_seconds := 3600; media_download_max_attempts := 3; media_jobs_enabled := true;
  media_job_absolute_ttl_seconds := 86400; media_job_max_attempts := 3; media_job_result_max_bytes := 65536
|}.

Definition demo_policy : EffectiveDownloadPolicy :=
  match effective_download_policy demo_settings None with
  | inr p => p
  | inl _ => {| tier := ""; download_limit := None; quota_window_seconds := None;
                delivery_rate_bytes_per_second := None; policy_premium_expires_at := None;
                allow_combined := false; allow_audio_only := false; allow_video_only := false |}
  end.

Definition demo_client : AnonymousClient := {|
  ac_id := 1; ac_token_hash := replicate 32 Byte.x03; ac_created_at := 0;
  ac_expires_at := seconds 2592000 |}.

(** An entry consumed at second [t]. *)
Definition consumed_entry (id job : uid) (t : Z) : FreeDownloadQuotaEntry := {|
  qe_id := id; qe_anonymous_client_id := 1; qe_download_job_id := job; qe_state := CONSUMED;
  qe_reserved_at := 0; qe_reservation_expires_at := seconds 3600;
  qe_consumed_at := Some (seconds t); qe_released_at := None |}.

Definition demo_download_job (id : uid) : MediaDownloadJob := {|
  dj_id := id; dj_media_job_id := 7; dj_schema_version := 1;
  dj_public_state := DownloadStates.QUEUED; dj_format_option_id := "opt";
  dj_provider_id := "youtube"; dj_canonical_provider_url := "https://www.youtube.com/watch/abc";
  dj_media_id := "abc"; dj_hostname := "www.youtube.com"; dj_path := "/watch/abc";
  dj_scheme := "https"; dj_port := None; dj_selected_format_snapshot := JObj [];
  dj_attempt_count := 0; dj_max_attempts := 3; dj_available_at := 0;
  dj_lease_owner := None; dj_lease_expires_at := None; dj_fence_token := 0;
  dj_artifact_id := None; dj_artifact_bytes := None; dj_artifact_content_type := None;
  dj_artifact_container := None; dj_public_error_code := None;
  dj_progress_stage := Progress.QUEUED; dj_cancel_requested_at := None;
  dj_suggested_filename := None; dj_progress_percent := None; dj_created_at := 0;
  dj_updated_at := 0; dj_started_at := None; dj_completed_at := None;
  dj_expires_at := seconds 3600 |}.

Definition demo_world : World :=
  (empty_world (fun n => seconds (100 + Z.of_nat n)) (fun n => (50 + N.of_nat n)%N))
    <| anonymous_clients := {[1%N := demo_client]} |>
    <| media_download_jobs := {[20%N := demo_download_job 20]} |>
    <| free_download_quota_entries := {[10%N := consumed_entry 10 11 40]} |>.

Definition demo_exhausted : World :=
  demo_world <| free_download_quota_entries :=
    {[10%N := consumed_entry 10 11 40; 12%N := consumed_entry 12 13 70]} |>.

Lemma admission_within_limit_witness :
  exists adm, (admit_locked demo_settings 1 20 (seconds 3600) demo_world).1 = inr adm /\
    usage 1 (seconds 100) 3600 (admit_locked demo_settings 1 20 (seconds 3600) demo_world).2 <= 2.
Proof.
  destruct (admit_locked demo_settings 1 20 (seconds 3600) demo_world) as [[e|adm] w'] eqn:E.
  - exfalso. vm_compute in E. discriminate E.
  - exists adm. split; [reflexivity|].
    destruct (admission_within_limit demo_settings 1 20 (seconds 3600) demo_world adm w' E)
      as [[Ht _]|(_ & _ & Hle & _)].
    + exfalso. vm_compute in E. injection E as <- _. discriminate Ht.
    + exact Hle.
Defined.

Lemma reset_at_exact_witness :
  exists st, (status_locked 1 (seconds 100) demo_policy demo_exhausted).1 = inr st /\
    qs_reset_at st = Some (seconds 3640) /\
    Z.of_nat (length (List.filter
      (used_in_window 1 (seconds 3640 - seconds 3600) (seconds 3640)) (rows demo_exhausted))) < 2.
Proof.
  destruct (status_locked 1 (seconds 100) demo_policy demo_exhausted) as [[e|st] w'] eqn:E.
  - exfalso. vm_compute in E. discriminate E.
  - exists st. split; [reflexivity|].
    assert (Er : qs_reset_at st = Some (seconds 3640)).
    { vm_compute in E. injection E as <- _. reflexivity. }
    split; [exact Er|].
    destruct (reset_at_exact 1 (seconds 100) demo_policy 2 3600 demo_exhausted st w') as [_ Hr].
    + split; reflexivity.
    + lia.
    + lia.
    + intros id r Hr.
      change (({[10%N := consumed_entry 10 11 40; 12%N := consumed_entry 12 13 70]}
                : gmap uid FreeDownloadQuotaEntry) !! id = Some r) in Hr.
      apply lookup_insert_Some in Hr as [[_ <-]|[_ Hr]]; [left; reflexivity|].
      apply lookup_singleton_Some in Hr as [_ <-]. left. reflexivity.
    + exact E.
    + exact (proj2 (Hr _ Er)).
Defined.

(** A client that paid once and expired. *)
Definition demo_order : PaymentOrder := {|
  po_id := 30; po_public_id := 31; po_anonymous_client_id := 1; po_provider := "robokassa";
  po_provider_invoice_id := 1; po_product_code := "premium_24h"; po_amount_minor := 9900;
  po_currency := "RUB"; po_entitlement_duration_seconds := 86400;
  po_status := PaymentStates.EXPIRED; po_is_test := true; po_receipt_json := "{}";
  po_creation_idempotency_hash := replicate 32 Byte.x04; po_created_at := 0; po_updated_at := 0;
  po_pending_at := Some 0; po_paid_at := None; po_provider_callback_at := None;
  po_expires_at := seconds 3600; po_provider_operation_key := None |}.

Definition demo_paid_world : World :=
  (empty_world (fun n => seconds 3000000) (fun n => (50 + N.of_nat n)%N))
    <| anonymous_clients := {[1%N := demo_client]} |>
    <| payment_orders := {[30%N := demo_order]} |>.

Lemma paying_client_blocks_hygiene_witness :
  (delete_expired_clients_without_entries (fun _ => false) (seconds 3000000) 64 demo_paid_world).1
  = inl IntegrityError.
Proof.
  apply (paying_client_blocks_hygiene (seconds 3000000) 64 1 demo_client 30 demo_order).
  - intros id r Hr. change (({[1%N := demo_client]} : gmap uid AnonymousClient) !! id = Some r) in Hr.
    apply lookup_singleton_Some in Hr as [<- <-]. reflexivity.
  - reflexivity.
  - vm_compute. discriminate.
  - intros id e He. discriminate He.
  - reflexivity.
  - reflexivity.
  - vm_compute. discriminate.
Defined.

End QuotaExamples.
