(* ===== verification/Intervals.v ===== *)
(** Half-open byte intervals and their normal form: [normalize_intervals] of
    [quota/delivery.py], and what makes it a canonical form of the bytes
    covered. *)

From S2P Require Export Database.

Local Open Scope list_scope.
Local Open Scope Z_scope.

(** Python's order on pairs of integers. *)
Definition pair_le : relation (Z * Z) := fun a b =>
  a.1 < b.1 \/ (a.1 = b.1 /\ a.2 <= b.2).

#[export] Instance pair_le_dec : RelDecision pair_le.
Proof. intros a b. unfold pair_le. apply _. Defined.

(** Source: backend/src/fetchnow/quota/delivery.py:67-72 [normalize_intervals]
    One iteration of the merging loop; [merged] is kept in reverse, so that its
    head is [merged[-1]]. *)
Definition merge_interval (merged : list (Z * Z)) (iv : Z * Z) : list (Z * Z) :=
  match merged with
  | [] => [iv]
  | (previous_start, previous_end) :: rest =>
      if previous_end <? iv.1 then iv :: merged
      else (previous_start, Z.max previous_end iv.2) :: rest
  end.

(** Source: backend/src/fetchnow/quota/delivery.py:61-73 [normalize_intervals] *)
Definition normalize_intervals (intervals : list (Z * Z)) : list (Z * Z) :=
  let ordered := merge_sort pair_le (List.filter (fun iv => iv.1 <? iv.2) intervals) in
  reverse (fold_left merge_interval ordered []).

(** ** Coverage and canonical lists *)

Definition covers (l : list (Z * Z)) (x : Z) : Prop := exists iv, iv ∈ l /\ iv.1 <= x < iv.2.

(** Non-empty intervals in increasing order with a gap between neighbours. *)
Fixpoint canonical (l : list (Z * Z)) : Prop :=
  match l with
  | [] => True
  | iv :: l' =>
      iv.1 < iv.2 /\ match l' with [] => True | iv' :: _ => iv.2 < iv'.1 end /\ canonical l'
  end.

(** The same, read from the right: what the loop maintains. *)
Fixpoint canonical_rev (l : list (Z * Z)) : Prop :=
  match l with
  | [] => True
  | iv :: l' =>
      iv.1 < iv.2 /\ match l' with [] => True | iv' :: _ => iv'.2 < iv.1 end /\ canonical_rev l'
  end.

Lemma covers_nil x : ~ covers [] x.
Proof. intros (iv & Hiv & _). by apply not_elem_of_nil in Hiv. Qed.

Lemma covers_cons iv l x : covers (iv :: l) x <-> iv.1 <= x < iv.2 \/ covers l x.
Proof.
  split.
  - intros (j & Hj & Hx). apply elem_of_cons in Hj as [->|Hj]; [by left|right; by exists j].
  - intros [Hx|(j & Hj & Hx)]; [exists iv|exists j]; (split; [|done]); [left|by right].
Qed.

Lemma covers_app l m x : covers (l ++ m) x <-> covers l x \/ covers m x.
Proof.
  induction l as [|iv l IH]; cbn.
  - split; [by right|]. intros [H|H]; [by apply covers_nil in H|done].
  - rewrite !covers_cons, IH. tauto.
Qed.

Lemma covers_perm l m x : l ≡ₚ m -> covers l x -> covers m x.
Proof. intros Hp (iv & Hiv & Hx). exists iv. split; [by rewrite <- Hp|done]. Qed.

Lemma covers_reverse l x : covers (reverse l) x <-> covers l x.
Proof.
  split; apply covers_perm; [apply reverse_Permutation|symmetry; apply reverse_Permutation].
Qed.

Lemma canonical_app l iv :
  canonical l -> iv.1 < iv.2 ->
  match last l with None => True | Some iv' => iv'.2 < iv.1 end -> canonical (l ++ [iv]).
Proof.
  induction l as [|j l IH]; cbn; [done|]. intros (Hj & Hg & Hc) Hiv Hl.
  destruct l as [|k l]; cbn in *; [done|]. split_and!; tauto.
Qed.

Lemma canonical_reverse l : canonical_rev l -> canonical (reverse l).
Proof.
  induction l as [|iv l IH]; [done|]. intros (Hiv & Hg & Hc). rewrite reverse_cons.
  apply canonical_app; [auto|done|]. destruct l as [|j l]; [done|].
  by rewrite reverse_cons, last_snoc.
Qed.

Lemma merge_interval_spec merged iv :
  canonical_rev merged -> iv.1 < iv.2 ->
  match merged with [] => True | j :: _ => j.1 <= iv.1 end ->
  canonical_rev (merge_interval merged iv) /\
  (forall x, covers (merge_interval merged iv) x <-> covers merged x \/ iv.1 <= x < iv.2) /\
  match merge_interval merged iv with [] => True | j :: _ => j.1 <= iv.1 end.
Proof.
  intros Hc Hiv Hh. destruct merged as [|[s e] rest]; cbn.
  - split_and!; try done. intros x. rewrite covers_cons. pose proof (covers_nil x). tauto.
  - cbn in *. destruct Hc as (Hse & Hg & Hc). destruct (Z.ltb_spec e iv.1); cbn.
    + split_and!; try done. intros x. rewrite !covers_cons. cbn. tauto.
    + split_and!; try done; [lia|]. intros x. rewrite !covers_cons. cbn.
      split.
      * intros [?|?]; [|tauto]. destruct (decide (x < e)); [left; left; lia|right; lia].
      * intros [[?|?]|?]; [left; lia|by right|left; lia].
Qed.

Lemma fold_merge_spec l merged :
  canonical_rev merged -> (forall iv, iv ∈ l -> iv.1 < iv.2) -> StronglySorted pair_le l ->
  match merged with [] => True | j :: _ => forall iv, iv ∈ l -> j.1 <= iv.1 end ->
  canonical_rev (fold_left merge_interval l merged) /\
  (forall x, covers (fold_left merge_interval l merged) x <-> covers merged x \/ covers l x).
Proof.
  revert merged. induction l as [|iv l IH]; intros merged Hc Hl Hs Hh; cbn.
  - split; [done|]. intros x. pose proof (covers_nil x). tauto.
  - apply StronglySorted_cons in Hs as [Hiv Hs]. rewrite Forall_forall in Hiv.
    destruct (merge_interval_spec merged iv) as (Hc' & Hcov & Hh'); [done|apply Hl; left| |].
    { destruct merged; [done|]. apply Hh. left. }
    destruct (IH (merge_interval merged iv)) as [H1 H2]; [done| |done| |].
    + intros j Hj. apply Hl. by right.
    + destruct (merge_interval merged iv); [done|]. intros j Hj. specialize (Hiv j Hj).
      unfold pair_le in Hiv. lia.
    + split; [done|]. intros x. rewrite H2, Hcov, covers_cons. tauto.
Qed.

#[local] Instance pair_le_total : Total pair_le.
Proof. intros a b. unfold pair_le. lia. Qed.
#[local] Instance pair_le_trans : Transitive pair_le.
Proof. intros a b c. unfold pair_le. lia. Qed.

Lemma covers_nonempty l x : covers (List.filter (fun iv => iv.1 <? iv.2) l) x <-> covers l x.
Proof.
  split; intros (iv & Hiv & Hx); exists iv; (split; [|done]).
  - by apply list_elem_of_In, filter_In in Hiv as [?%list_elem_of_In _].
  - apply list_elem_of_In, filter_In. split; [by apply list_elem_of_In|]. apply Z.ltb_lt. lia.
Qed.

Lemma normalize_spec l :
  canonical (normalize_intervals l) /\ (forall x, covers (normalize_intervals l) x <-> covers l x).
Proof.
  unfold normalize_intervals. set (f := List.filter _ l).
  pose proof (merge_sort_Permutation pair_le f) as Hp.
  destruct (fold_merge_spec (merge_sort pair_le f) []) as [Hc Hcov]; [done| |by apply StronglySorted_merge_sort; apply _|done|].
  - intros iv Hiv. rewrite Hp in Hiv. apply list_elem_of_In, filter_In in Hiv as [_ Hiv].
    by apply Z.ltb_lt.
  - split; [by apply canonical_reverse|]. intros x.
    rewrite covers_reverse, Hcov, <- (covers_nonempty l). fold f.
    pose proof (covers_nil x). split.
    + intros [?|?]; [done|]. by eapply covers_perm.
    + intros ?. right. by eapply covers_perm.
Qed.

(** ** Canonical lists are determined by their coverage *)

Lemma canonical_above iv l x : canonical (iv :: l) -> covers l x -> iv.2 < x.
Proof.
  revert iv. induction l as [|j l IH]; intros iv (Hiv & Hg & Hc) Hx; [by apply covers_nil in Hx|].
  apply covers_cons in Hx as [Hx|Hx]; [lia|]. cbn in Hc. specialize (IH j Hc Hx). destruct Hc; lia.
Qed.

Lemma canonical_unique l m :
  canonical l -> canonical m -> (forall x, covers l x <-> covers m x) -> l = m.
Proof.
  revert m. induction l as [|[a b] l IH]; intros m Hl Hm Hx.
  - destruct m as [|iv m]; [done|]. exfalso. apply (covers_nil iv.1). rewrite Hx, covers_cons.
    left. destruct Hm. lia.
  - destruct m as [|[c d] m].
    { exfalso. apply (covers_nil a). rewrite <- Hx, covers_cons. left. destruct Hl. cbn in *. lia. }
    assert (Hab : a < b) by apply Hl. assert (Hcd : c < d) by apply Hm.
    assert (Hl' : forall x, covers l x -> b < x) by (intros x; apply (canonical_above (a, b)), Hl).
    assert (Hm' : forall x, covers m x -> d < x) by (intros x; apply (canonical_above (c, d)), Hm).
    setoid_rewrite covers_cons in Hx. cbn in Hx.
    assert (a = c) as ->.
    { destruct (proj1 (Hx a)) as [?|?%Hm']; [left; lia| |];
      destruct (proj2 (Hx c)) as [?|?%Hl']; try (left; lia); lia. }
    assert (b = d) as ->.
    { destruct (Z.lt_trichotomy b d) as [?|[?|?]]; [|done|]; exfalso.
      - destruct (proj2 (Hx b)) as [?|?%Hl']; [left; lia|lia|lia].
      - destruct (proj1 (Hx d)) as [?|?%Hm']; [left; lia|lia|lia]. }
    f_equal. apply IH; [apply Hl|apply Hm|]. intros x. split; intros Hc.
    + pose proof (Hl' x Hc). destruct (proj1 (Hx x)) as [?|?]; [by right|lia|done].
    + pose proof (Hm' x Hc). destruct (proj2 (Hx x)) as [?|?]; [by right|lia|done].
Qed.

(** ** Theorems *)

(** C35: [normalize_intervals] computes the canonical form of the bytes its
    argument covers: a list of non-empty, sorted intervals with a gap between
    neighbours that covers exactly the same bytes - and the only such list, so
    the result does not depend on the order, the overlaps or the multiplicity
    of the intervals given, and normalizing twice changes nothing. *)
Theorem normalize_intervals_canonical l :
  canonical (normalize_intervals l) /\
  (forall x, covers (normalize_intervals l) x <-> covers l x) /\
  (forall m, canonical m -> (forall x, covers m x <-> covers l x) -> m = normalize_intervals l) /\
  normalize_intervals (normalize_intervals l) = normalize_intervals l.
Proof.
  destruct (normalize_spec l) as [Hc Hx]. split_and!; [done|done| |].
  - intros m Hm Hmx. apply canonical_unique; [done|done|]. intros x. by rewrite Hmx, Hx.
  - destruct (normalize_spec (normalize_intervals l)) as [Hc' Hx'].
    by apply canonical_unique.
Qed.

Lemma normalize_full l size :
  0 < size -> (forall iv, iv ∈ l -> 0 <= iv.1 /\ iv.2 <= size) ->
  normalize_intervals l = [(0, size)] <-> (forall x, 0 <= x < size -> covers l x).
Proof.
  intros Hs Hb. destruct (normalize_spec l) as [Hc Hx]. split.
  - intros E x Hr. rewrite <- Hx, E, covers_cons. by left.
  - intros Hf. apply canonical_unique; [done|cbn; lia|]. intros x. rewrite Hx, covers_cons. cbn.
    split; [|intros [?|?]; [by apply Hf|by apply covers_nil in H]].
    intros (iv & Hiv & Hr). left. specialize (Hb iv Hiv). lia.
Qed.
