(* ===== verification/Delivery.v ===== *)
(** The delivery ledger of Free downloads: the bytes the server observed per
    response, their compaction, and the consumption of the reservation when the
    whole artifact was delivered ([quota/delivery.py]). *)

From S2P Require Export Quota Intervals.

Local Open Scope string_scope.
Local Open Scope list_scope.
Local Open Scope Z_scope.

(** Source: backend/src/fetchnow/quota/delivery.py:29-34 [DELIVERY_ATTEMPT_LEASE_SECONDS] *)
Definition DELIVERY_ATTEMPT_LEASE_SECONDS : Z := 600.
(** Source: backend/src/fetchnow/quota/delivery.py:33-33 [MAX_ACTIVE_ATTEMPTS] *)
Definition MAX_ACTIVE_ATTEMPTS : Z := 16.
(** Source: backend/src/fetchnow/quota/delivery.py:34-34 [MAX_CLOSED_FRAGMENTS] *)
Definition MAX_CLOSED_FRAGMENTS : Z := 64.

(** Source: backend/src/fetchnow/quota/delivery.py:37-42 [DeliveryAuthorizationLike]

    The job as the transport authorized it and the tier of its policy, if it
    has one. *)
Record DeliveryAuthorization := {
  auth_job : MediaDownloadJob;
  auth_tier : option string
}.

(** Source: backend/src/fetchnow/quota/delivery.py:48-52 [DeliveryAccountingAttempt] *)
Record DeliveryAccountingAttempt := {
  attempt_id : uid;
  attempt_start : Z;
  attempt_end : Z
}.

(** Source: backend/src/fetchnow/quota/delivery.py:55-58 [DeliveryAccountingResult] *)
Record DeliveryAccountingResult := {
  acct_consumed : bool;
  acct_duplicate : bool
}.

Definition acct_none : DeliveryAccountingResult := {| acct_consumed := false; acct_duplicate := false |}.
Definition acct_dup : DeliveryAccountingResult := {| acct_consumed := false; acct_duplicate := true |}.

Module DeliveryQuotaAccounting.
Import QuotaRepository.

(** Source: backend/src/fetchnow/quota/delivery.py:568-574 [_fail_closed] *)
Definition fail_closed (reason : string) : exn :=
  download_error DOWNLOAD_STORAGE_UNAVAILABLE reason.

(** Source: backend/src/fetchnow/quota/delivery.py:560-566 [_bound_rejected] *)
Definition bound_rejected (reason : string) : exn :=
  download_error DOWNLOAD_STORAGE_UNAVAILABLE reason.

(** Source: backend/src/fetchnow/quota/delivery.py:539-558 [_validate_job_binding] *)
Definition validate_job_binding (job : MediaDownloadJob) (artifact_id : option uid)
    (fence_token artifact_bytes : Z) (require_unexpired : bool) (now : option time) : exn + unit :=
  if negb (bool_decide (dj_public_state job = DownloadStates.READY)) ||
     is_none (dj_artifact_id job) ||
     negb (bool_decide (dj_artifact_id job = artifact_id)) ||
     negb (dj_fence_token job =? fence_token) ||
     negb (default 0 (dj_artifact_bytes job) =? artifact_bytes)
  then inl (fail_closed "ACCOUNTING_ARTIFACT_MISMATCH")
  else
    match now with
    | Some t =>
        if require_unexpired && (dj_expires_at job <=? t)
        then inl (fail_closed "ACCOUNTING_JOB_EXPIRED") else inr tt
    | None => inr tt
    end.

(** Source: backend/src/fetchnow/quota/delivery.py:529-533 [DeliveryQuotaAccounting._assert_generation]
    The evidence row was written for the job's current artifact. *)
Definition same_generation (job : MediaDownloadJob) (row : FreeDownloadDeliveryRange) : bool :=
  bool_decide (Some (dr_artifact_id row) = dj_artifact_id job) &&
  (dr_fence_token row =? dj_fence_token job) &&
  (dr_artifact_bytes row =? default 0 (dj_artifact_bytes job)).

(** Source: backend/src/fetchnow/quota/delivery.py:524-537 [_assert_generation] *)
Definition assert_generation (rows : list FreeDownloadDeliveryRange) (job : MediaDownloadJob)
  : exn + unit :=
  if forallb (same_generation job) rows then inr tt
  else inl (QuotaInvariantError "delivery evidence generation mismatch").

(** Source: backend/src/fetchnow/quota/delivery.py:393-408 [_lock_ranges] *)
Definition lock_ranges (entry_id : uid) : DB (list FreeDownloadDeliveryRange) :=
  let* found := select (fun r => bool_decide (dr_quota_entry_id r = entry_id)) in
  ret (order_by dr_request_start found).

(** Source: backend/src/fetchnow/quota/delivery.py:418-418 [DeliveryQuotaAccounting._closed_intervals]
    The prefix a row has evidence of, when it is not empty. *)
Definition served (row : FreeDownloadDeliveryRange) : bool :=
  dr_request_start row <? dr_served_end_exclusive row.
(** Source: backend/src/fetchnow/quota/delivery.py:416-416 [DeliveryQuotaAccounting._closed_intervals] *)
Definition served_interval (row : FreeDownloadDeliveryRange) : Z * Z :=
  (dr_request_start row, dr_served_end_exclusive row).

(** Source: backend/src/fetchnow/quota/delivery.py:410-420 [_closed_intervals] *)
Definition closed_intervals (rows : list FreeDownloadDeliveryRange) : list (Z * Z) :=
  normalize_intervals (served_interval <$> List.filter served rows).

(** Source: backend/src/fetchnow/quota/delivery.py:154-154 [DeliveryQuotaAccounting.create_attempt] *)
Definition is_active (row : FreeDownloadDeliveryRange) : bool := bool_decide (dr_state row = ACTIVE).
(** Source: backend/src/fetchnow/quota/delivery.py:452-452 [DeliveryQuotaAccounting._compact_closed] *)
Definition is_closed (row : FreeDownloadDeliveryRange) : bool := bool_decide (dr_state row = CLOSED).

(** Source: backend/src/fetchnow/quota/delivery.py:422-442 [_close_stale] *)
Definition close_stale (rows : list FreeDownloadDeliveryRange) (now : time) : DB unit :=
  for_each (fun row =>
    if negb (is_active row) || sql_gt (dr_lease_expires_at row) now then ret tt
    else if dr_served_end_exclusive row =? dr_request_start row
    then delete_row (R := FreeDownloadDeliveryRange) (dr_id row)
    else
      update_row (dr_id row) (fun row =>
        row <| dr_request_end_exclusive := dr_served_end_exclusive row |>
            <| dr_state := CLOSED |>
            <| dr_lease_expires_at := None |>
            <| dr_closed_at := Some now |>) ;;;
      ret tt) rows.

(** Source: backend/src/fetchnow/quota/delivery.py:463-465 [DeliveryQuotaAccounting._compact_closed]
    A closed row is stored as the union's interval, tightly. *)
Definition row_is (row : FreeDownloadDeliveryRange) (iv : Z * Z) : bool :=
  (dr_request_start row =? iv.1) && (dr_served_end_exclusive row =? iv.2) &&
  (dr_request_end_exclusive row =? iv.2).

(** Source: backend/src/fetchnow/quota/delivery.py:481-497 [FreeDownloadDeliveryRange(...)] *)
Definition compacted_row (id entry_id : uid) (template : FreeDownloadDeliveryRange) (now : time)
    (iv : Z * Z) : FreeDownloadDeliveryRange := {|
  dr_id := id;
  dr_quota_entry_id := entry_id;
  dr_artifact_id := dr_artifact_id template;
  dr_fence_token := dr_fence_token template;
  dr_artifact_bytes := dr_artifact_bytes template;
  dr_request_start := iv.1;
  dr_request_end_exclusive := iv.2;
  dr_served_end_exclusive := iv.2;
  dr_state := CLOSED;
  dr_started_at := dr_started_at template;
  dr_lease_expires_at := None;
  dr_closed_at := Some now
|}.

(** Source: backend/src/fetchnow/quota/delivery.py:444-498 [_compact_closed] *)
Definition compact_closed (entry_id : uid) (rows : list FreeDownloadDeliveryRange) (now : time)
  : DB unit :=
  let closed := List.filter is_closed rows in
  let union := normalize_intervals (served_interval <$> List.filter served closed) in
  raise_when (MAX_CLOSED_FRAGMENTS <? Z.of_nat (length union))
    (QuotaInvariantError "delivery coverage exceeds fragment bound") ;;;
  if Nat.eqb (length closed) (length union) &&
     forallb (fun p => row_is p.1 p.2) (zip closed union)
  then ret tt
  else
    match closed with
    | [] => ret tt
    | template :: _ =>
        let* gone := select (fun r => bool_decide (dr_quota_entry_id r = entry_id) && is_closed r) in
        delete_ids (R := FreeDownloadDeliveryRange) (dr_id <$> gone) ;;;
        for_each (fun iv =>
          let* id := uuid4 in
          insert_row (compacted_row id entry_id template now iv)) union
    end.

(** Source: backend/src/fetchnow/quota/delivery.py:500-522 [_consume_if_complete]

    The entry is returned as the method leaves it. *)
Definition consume_if_complete (job : MediaDownloadJob) (entry : FreeDownloadQuotaEntry) (now : time)
  : DB (DeliveryAccountingResult * FreeDownloadQuotaEntry) :=
  match qe_state entry with
  | CONSUMED => ret (acct_dup, entry)
  | RESERVED =>
      let* rows := lock_ranges (qe_id entry) in
      lift (assert_generation rows job) ;;;
      let coverage := closed_intervals rows in
      let size := default 0 (dj_artifact_bytes job) in
      if bool_decide (coverage = [(0, size)])
      then
        let* entry := consume_locked entry now in
        ret ({| acct_consumed := true; acct_duplicate := false |}, entry)
      else ret (acct_none, entry)
  | RELEASED | ENTRY_EXPIRED => raise (fail_closed "ACCOUNTING_QUOTA_NOT_RESERVED")
  end.

(** Source: backend/src/fetchnow/quota/delivery.py:279-293 [has_live_attempt_locked] *)
Definition has_live_attempt_locked (entry : FreeDownloadQuotaEntry) (now : time) : DB bool :=
  let* rows := lock_ranges (qe_id entry) in
  ret (existsb (fun row => is_active row && sql_gt (dr_lease_expires_at row) now) rows).

(** Source: backend/src/fetchnow/quota/delivery.py:295-321 [reconcile_locked] *)
Definition reconcile_locked (job : MediaDownloadJob) (entry : FreeDownloadQuotaEntry) (now : time)
  : DB (DeliveryAccountingResult * FreeDownloadQuotaEntry) :=
  let* rows := lock_ranges (qe_id entry) in
  lift (assert_generation rows job) ;;;
  let stale := List.filter (fun row => is_active row && sql_le (dr_lease_expires_at row) now) rows in
  close_stale stale now ;;;
  let* rows := lock_ranges (qe_id entry) in
  compact_closed (qe_id entry) rows now ;;;
  consume_if_complete job entry now.

(** Source: backend/src/fetchnow/quota/delivery.py:163-169 [DeliveryQuotaAccounting.create_attempt]
    The first possible byte of a response over [start, end). *)
Definition first_byte (start stop : Z) : Z * Z := (start, Z.min (start + 1) stop).

(** Source: backend/src/fetchnow/quota/delivery.py:177-190 [FreeDownloadDeliveryRange(...)] *)
Definition new_attempt (id : uid) (entry : FreeDownloadQuotaEntry) (job : MediaDownloadJob)
    (artifact_id : uid) (start stop : Z) (now lease_expires : time) : FreeDownloadDeliveryRange := {|
  dr_id := id;
  dr_quota_entry_id := qe_id entry;
  dr_artifact_id := artifact_id;
  dr_fence_token := dj_fence_token job;
  dr_artifact_bytes := default 0 (dj_artifact_bytes job);
  dr_request_start := start;
  dr_request_end_exclusive := stop;
  dr_served_end_exclusive := start;
  dr_state := ACTIVE;
  dr_started_at := now;
  dr_lease_expires_at := Some lease_expires;
  dr_closed_at := None
|}.

(** Source: backend/src/fetchnow/quota/delivery.py:88-198 [begin] *)
Definition begin (authorization : DeliveryAuthorization) (start stop : Z)
    (revalidate : DB DeliveryAuthorization) : DB (option DeliveryAccountingAttempt) :=
  let job_snapshot := auth_job authorization in
  if bool_decide (auth_tier authorization = Some "premium") then ret None
  else
    match dj_artifact_bytes job_snapshot with
    | None => raise (QuotaInvariantError "invalid delivery accounting interval")
    | Some snapshot_bytes =>
      raise_when ((start <? 0) || (stop <=? start))
        (QuotaInvariantError "invalid delivery accounting interval") ;;;
      let* client_id := identity_id_for_download (dj_id job_snapshot) in
      match client_id with
      | None => ret None
      | Some client_id =>
        let* client := lock_client client_id None in
        raise_when (is_none client)
          (QuotaInvariantError "delivery quota entry references missing identity") ;;;
        let* job := select_by_id (dj_id job_snapshot) (fun _ => true) in
        match job with
        | None => raise (fail_closed "ACCOUNTING_JOB_MISSING")
        | Some job =>
          let* entry := lock_entry_for_download (dj_id job_snapshot) in
          match entry with
          | None => raise (QuotaInvariantError "delivery quota entry disappeared")
          | Some entry =>
            let* current := revalidate in
            raise_when (negb (bool_decide (dj_id (auth_job current) = dj_id job)))
              (fail_closed "ACCOUNTING_REAUTH_MISMATCH") ;;;
            let* now := database_now in
            lift (validate_job_binding job (dj_artifact_id job_snapshot)
                    (dj_fence_token job_snapshot) snapshot_bytes true (Some now)) ;;;
            match qe_state entry, dj_artifact_id job with
            | CONSUMED, _ => ret None
            | RESERVED, Some artifact_id =>
              let* rows := lock_ranges (qe_id entry) in
              close_stale rows now ;;;
              let* rows := lock_ranges (qe_id entry) in
              lift (assert_generation rows job) ;;;
              compact_closed (qe_id entry) rows now ;;;
              let* rows := lock_ranges (qe_id entry) in
              let active := List.filter is_active rows in
              let closed := closed_intervals rows in
              raise_when (MAX_ACTIVE_ATTEMPTS <=? Z.of_nat (length active))
                (bound_rejected "ACCOUNTING_ACTIVE_LIMIT") ;;;
              let active_first_bytes :=
                (fun row => first_byte (dr_request_start row) (dr_request_end_exclusive row)) <$> active in
              raise_when
                (MAX_CLOSED_FRAGMENTS <?
                   Z.of_nat (length (normalize_intervals
                     (closed ++ active_first_bytes ++ [first_byte start stop]))))
                (bound_rejected "ACCOUNTING_FRAGMENT_LIMIT") ;;;
              let lease_expires := now + seconds DELIVERY_ATTEMPT_LEASE_SECONDS in
              let* id := uuid4 in
              insert_row (new_attempt id entry job artifact_id start stop now lease_expires) ;;;
              update_row (qe_id entry) (fun e : FreeDownloadQuotaEntry =>
                e <| qe_reservation_expires_at := Z.max (qe_reservation_expires_at e) lease_expires |>) ;;;
              ret (Some {| attempt_id := id; attempt_start := start; attempt_end := stop |})
            | _, _ => raise (fail_closed "ACCOUNTING_QUOTA_TERMINAL")
            end
          end
        end
      end
    end.

(** Source: backend/src/fetchnow/quota/delivery.py:330-337 [DeliveryQuotaAccounting._lock_attempt_context]
    What [_lock_attempt_context] returns. *)
Record AttemptContext := {
  ctx_job : MediaDownloadJob;
  ctx_entry : FreeDownloadQuotaEntry;
  ctx_attempt : FreeDownloadDeliveryRange;
  ctx_now : time
}.

(** Source: backend/src/fetchnow/quota/delivery.py:323-391 [_lock_attempt_context] *)
Definition lock_attempt_context (attempt : uid) (allow_closed : bool) : DB (option AttemptContext) :=
  let* row := select_by_id (R := FreeDownloadDeliveryRange) attempt (fun _ => true) in
  match row with
  | None => ret None
  | Some row =>
    let* entry := select_by_id (R := FreeDownloadQuotaEntry) (dr_quota_entry_id row) (fun _ => true) in
    match entry with
    | None => ret None
    | Some entry =>
      let* client := lock_client (qe_anonymous_client_id entry) None in
      raise_when (is_none client) (QuotaInvariantError "delivery attempt identity disappeared") ;;;
      let* job := select_by_id (R := MediaDownloadJob) (qe_download_job_id entry) (fun _ => true) in
      match job with
      | None => raise (QuotaInvariantError "delivery attempt job disappeared")
      | Some job =>
        raise_when (bool_decide (dr_state row = CLOSED) && negb allow_closed)
          (QuotaInvariantError "delivery checkpoint targets closed attempt") ;;;
        lift (validate_job_binding job (Some (dr_artifact_id row)) (dr_fence_token row)
                (dr_artifact_bytes row) false None) ;;;
        let* now := database_now in
        ret (Some {| ctx_job := job; ctx_entry := entry; ctx_attempt := row; ctx_now := now |})
      end
    end
  end.

(** Source: backend/src/fetchnow/quota/delivery.py:200-230 [checkpoint] *)
Definition checkpoint (attempt : uid) (observed_end : Z) : DB DeliveryAccountingResult :=
  let* locked := lock_attempt_context attempt false in
  match locked with
  | None => raise (QuotaInvariantError "active delivery attempt disappeared")
  | Some ctx =>
      let row := ctx_attempt ctx in
      let observed_end := Z.max observed_end (dr_served_end_exclusive row) in
      raise_when (dr_request_end_exclusive row <? observed_end)
        (QuotaInvariantError "delivery checkpoint exceeds requested range") ;;;
      let lease_expires := ctx_now ctx + seconds DELIVERY_ATTEMPT_LEASE_SECONDS in
      update_row (dr_id row) (fun r : FreeDownloadDeliveryRange =>
        r <| dr_served_end_exclusive := observed_end |>
          <| dr_lease_expires_at := Some lease_expires |>) ;;;
      let* entry :=
        match qe_state (ctx_entry ctx) with
        | RESERVED =>
            update_row (qe_id (ctx_entry ctx)) (fun e : FreeDownloadQuotaEntry =>
              e <| qe_reservation_expires_at := Z.max (qe_reservation_expires_at e) lease_expires |>)
        | _ => ret (ctx_entry ctx)
        end in
      let* res := consume_if_complete (ctx_job ctx) entry (ctx_now ctx) in
      ret res.1
  end.

(** Source: backend/src/fetchnow/quota/delivery.py:232-277 [finalize] *)
Definition finalize (attempt : uid) (observed_end : Z) : DB DeliveryAccountingResult :=
  let* locked := lock_attempt_context attempt true in
  match locked with
  | None => ret acct_dup
  | Some ctx =>
      let row := ctx_attempt ctx in
      if is_closed row then ret acct_dup
      else
        let observed_end := Z.max observed_end (dr_served_end_exclusive row) in
        raise_when (dr_request_end_exclusive row <? observed_end)
          (QuotaInvariantError "delivery finalization exceeds requested range") ;;;
        (if observed_end =? dr_request_start row
         then delete_row (R := FreeDownloadDeliveryRange) (dr_id row)
         else
           update_row (dr_id row) (fun r : FreeDownloadDeliveryRange =>
             r <| dr_served_end_exclusive := observed_end |>
               <| dr_request_end_exclusive := observed_end |>
               <| dr_state := CLOSED |>
               <| dr_lease_expires_at := None |>
               <| dr_closed_at := Some (ctx_now ctx) |>) ;;; ret tt) ;;;
        let entry := ctx_entry ctx in
        let* rows := lock_ranges (qe_id entry) in
        compact_closed (qe_id entry) rows (ctx_now ctx) ;;;
        let* res := consume_if_complete (ctx_job ctx) entry (ctx_now ctx) in
        match qe_state res.2 with
        | RESERVED =>
            let* rows := lock_ranges (qe_id entry) in
            let leases := omap (fun r => if is_active r then dr_lease_expires_at r else None) rows in
            let live_until :=
              match leases with
              | [] => dj_expires_at (ctx_job ctx)
              | t :: ts => fold_left Z.max ts t
              end in
            update_row (qe_id entry) (fun e : FreeDownloadQuotaEntry =>
              e <| qe_reservation_expires_at := Z.max (dj_expires_at (ctx_job ctx)) live_until |>) ;;;
            ret res.1
        | _ => ret res.1
        end
  end.

End DeliveryQuotaAccounting.

(** ** Theorems *)
Module DeliveryTheorems.
Import QuotaRepository DeliveryQuotaAccounting.

(** The byte is covered by the evidence of some row of the entry. *)
Definition observed (w : World) (entry_id : uid) (x : Z) : Prop :=
  exists id r, free_download_delivery_ranges w !! id = Some r /\ dr_quota_entry_id r = entry_id /\
    dr_request_start r <= x < dr_served_end_exclusive r.

Definition ranges_ok (w : World) : Prop :=
  keyed (R := FreeDownloadDeliveryRange) w /\
  forall id r, free_download_delivery_ranges w !! id = Some r ->
    FreeDownloadDeliveryRange_check r = true.

(** The rows [_lock_ranges] returns are the entry's rows. *)
Lemma lock_ranges_run entry_id w :
  exists rs, lock_ranges entry_id w = (inr rs, w) /\
    forall r, r ∈ rs <-> (exists id, free_download_delivery_ranges w !! id = Some r) /\
      dr_quota_entry_id r = entry_id.
Proof.
  eexists. split; [reflexivity|]. intros r.
  rewrite elem_of_order_by, elem_of_filter_rows, bool_decide_eq_true. done.
Qed.

Lemma covers_served rs x :
  covers (closed_intervals rs) x <->
  exists r, r ∈ rs /\ dr_request_start r <= x < dr_served_end_exclusive r.
Proof.
  unfold closed_intervals. rewrite (proj2 (normalize_spec _)). split.
  - intros (iv & Hiv & Hx). apply list_elem_of_fmap in Hiv as (r & -> & Hr).
    apply list_elem_of_In, filter_In in Hr as [Hr _]. exists r. split; [by apply list_elem_of_In|done].
  - intros (r & Hr & Hx). exists (served_interval r). split; [|done].
    apply list_elem_of_fmap. exists r. split; [done|].
    apply list_elem_of_In, filter_In. split; [by apply list_elem_of_In|].
    apply Z.ltb_lt. lia.
Qed.

Lemma range_bounds r :
  FreeDownloadDeliveryRange_check r = true ->
  0 <= dr_request_start r <= dr_served_end_exclusive r /\
  dr_served_end_exclusive r <= dr_request_end_exclusive r <= dr_artifact_bytes r /\
  dr_request_start r < dr_request_end_exclusive r.
Proof. unfold FreeDownloadDeliveryRange_check. intros Hc. propify. lia. Qed.

Lemma coverage_complete job entry_id size rs w :
  ranges_ok w -> dj_artifact_bytes job = Some size -> 0 < size ->
  forallb (same_generation job) rs = true ->
  (forall r, r ∈ rs <-> (exists id, free_download_delivery_ranges w !! id = Some r) /\
     dr_quota_entry_id r = entry_id) ->
  closed_intervals rs = [(0, size)] <-> (forall x, 0 <= x < size -> observed w entry_id x).
Proof.
  intros [_ Hok] Hsize Hpos Hgen Hrs.
  assert (Hobs : forall x, covers (served_interval <$> List.filter served rs) x <-> observed w entry_id x).
  { intros x. rewrite <- (proj2 (normalize_spec _) x). fold (closed_intervals rs).
    rewrite covers_served. unfold observed. setoid_rewrite Hrs. split.
    - intros (r & [[id Hid] He] & Hx). by exists id, r.
    - intros (id & r & Hid & He & Hx). exists r. by split; [split; [exists id|]|]. }
  unfold closed_intervals. rewrite normalize_full; [by setoid_rewrite Hobs|done|].
  intros iv Hiv. apply list_elem_of_fmap in Hiv as (r & -> & Hr).
  apply list_elem_of_In, filter_In in Hr as [Hr _].
  rewrite forallb_forall in Hgen. specialize (Hgen r Hr). unfold same_generation in Hgen.
  apply list_elem_of_In, Hrs in Hr as [[id Hid] _]. pose proof (range_bounds r (Hok _ _ Hid)).
  propify. rewrite Hsize in *. cbn in *. lia.
Qed.

(** C5: A reservation is consumed exactly when every byte of the artifact was
    observed leaving the server: in a ledger whose rows belong to the job's
    current artifact, [_consume_if_complete] on a reserved entry succeeds, and it
    consumes the entry, at the given instant, if and only if each byte of the
    artifact lies in the served prefix of some row of the entry. Otherwise it
    writes nothing. *)
Theorem consumed_iff_fully_observed job entry now size w :
  ranges_ok w -> dj_artifact_bytes job = Some size -> 0 < size ->
  qe_state entry = RESERVED -> qe_reserved_at entry <= now ->
  free_download_quota_entries w !! qe_id entry = Some entry ->
  FreeDownloadQuotaEntry_check entry = true ->
  (forall id r, free_download_delivery_ranges w !! id = Some r ->
     dr_quota_entry_id r = qe_id entry -> same_generation job r = true) ->
  exists res entry' w', consume_if_complete job entry now w = (inr (res, entry'), w') /\
    (acct_consumed res = true <-> forall x, 0 <= x < size -> observed w (qe_id entry) x) /\
    (if acct_consumed res
     then qe_state entry' = CONSUMED /\ qe_consumed_at entry' = Some now /\
          free_download_quota_entries w' = <[qe_id entry := entry']> (free_download_quota_entries w)
     else entry' = entry /\ w' = w).
Proof.
  intros Hok Hsize Hpos Hst Hnow Hentry Hchk Hgen.
  destruct (lock_ranges_run (qe_id entry) w) as (rs & Erun & Hrs).
  assert (Hall : forallb (same_generation job) rs = true).
  { apply forallb_forall. intros r Hr. apply list_elem_of_In, Hrs in Hr as [[id Hid] He].
    by eapply Hgen. }
  pose proof (coverage_complete job (qe_id entry) size rs w Hok Hsize Hpos Hall Hrs) as Hcov.
  unfold consume_if_complete. rewrite Hst, (bind_run _ _ _ _ _ Erun).
  unfold assert_generation. rewrite Hall. erewrite bind_run; [|reflexivity].
  rewrite Hsize. cbn [default]. case_bool_decide as Ec.
  - unfold consume_locked. rewrite Hst. erewrite bind_run.
    2: { erewrite bind_run; [|reflexivity]. apply (update_row_run (R := FreeDownloadQuotaEntry)); [exact Hentry|].
         cbn. unfold FreeDownloadQuotaEntry_check in *. cbn. propify. rewrite Hst in *.
         solve_bools. }
    eexists _, _, _. split; [reflexivity|]. cbn. tauto.
  - eexists _, _, _. split; [reflexivity|]. cbn. split; [|done]. split; [done|]. tauto.
Qed.

(** *** Compaction *)

Lemma run_delete_ranges ids w :
  exists n t, delete_ids (R := FreeDownloadDeliveryRange) ids w =
      (inr n, w <| free_download_delivery_ranges := t |>) /\
    forall id, t !! id = if decide (id ∈ ids) then None else free_download_delivery_ranges w !! id.
Proof.
  unfold delete_ids. generalize 0%nat as n0. revert w. induction ids as [|i ids IH]; intros w n0.
  - exists n0, (free_download_delivery_ranges w). split; [by destruct w|].
    intros id. rewrite decide_False; [done|]. apply not_elem_of_nil.
  - cbn [fold_m]. destruct (free_download_delivery_ranges w !! i) as [r|] eqn:Er.
    + set (w1 := w <| free_download_delivery_ranges := delete i (free_download_delivery_ranges w) |>).
      destruct (IH w1 (S n0)) as (n & t & E & Ht). exists n, t. split.
      * erewrite bind_run; [exact E|]. unfold bind, gets. cbn [table FreeDownloadDeliveryRange_table].
        by rewrite Er.
      * intros id. rewrite Ht. destruct (decide (id ∈ i :: ids)) as [Hin|Hin].
        -- apply elem_of_cons in Hin as [->|Hin]; [|by rewrite decide_True].
           destruct (decide _); [done|]. apply lookup_delete_eq.
        -- apply not_elem_of_cons in Hin as [Hne Hin]. rewrite decide_False by done.
           by apply lookup_delete_ne.
    + destruct (IH w n0) as (n & t & E & Ht). exists n, t. split.
      * erewrite bind_run; [exact E|]. unfold bind, gets. cbn [table FreeDownloadDeliveryRange_table].
        by rewrite Er.
      * intros id. rewrite Ht. destruct (decide (id ∈ i :: ids)) as [Hin|Hin].
        -- apply elem_of_cons in Hin as [->|Hin]; [|by rewrite decide_True]. by destruct (decide _).
        -- apply not_elem_of_cons in Hin as [Hne Hin]. by rewrite decide_False.
Qed.

(** What the insertion of the union's intervals writes, when it succeeds. *)
Lemma run_insert_union entry_id template now l : forall w w',
  for_each (fun iv => let* id := uuid4 in insert_row (compacted_row id entry_id template now iv)) l w
    = (inr tt, w') ->
  exists news, news = zip_with (fun id iv => compacted_row id entry_id template now iv) (dr_id <$> news) l /\
    length news = length l /\
    (forall r, r ∈ news -> FreeDownloadDeliveryRange_check r = true) /\
    (forall id r, free_download_delivery_ranges w' !! id = Some r <->
       free_download_delivery_ranges w !! id = Some r \/ (r ∈ news /\ dr_id r = id)) /\
    (forall p, length (List.filter p (rows w')) =
       (length (List.filter p news) + length (List.filter p (rows (R := FreeDownloadDeliveryRange) w)))%nat).
Proof.
  unfold for_each. induction l as [|iv l IH]; intros w w' E; cbn [fold_m] in E.
  - injection E as <-. exists []. split_and!; try done.
    + intros r Hr. by apply not_elem_of_nil in Hr.
    + intros id r. split; [by left|]. intros [?|[Hr _]]; [done|by apply not_elem_of_nil in Hr].
  - apply bind_inr in E as ([] & w1 & E1 & E).
    erewrite bind_run in E1; [|reflexivity].
    set (w0 := w <| uuid_draws := _ |>) in E1. set (row := compacted_row _ _ _ _ _) in E1.
    unfold insert_row in E1. destruct (insert_ok row w0) eqn:Hok; [|done]. injection E1 as <-.
    unfold insert_ok in Hok. propify.
    assert (Hnone : free_download_delivery_ranges w !! dr_id row = None) by by apply is_none_true.
    destruct (IH _ _ E) as (news & Hz & Hlen & Hchk & Hin & Hcnt).
    exists (row :: news). split_and!.
    + cbn. f_equal. exact Hz.
    + cbn. by rewrite Hlen.
    + intros r Hr. apply elem_of_cons in Hr as [->|Hr]; [done|by apply Hchk].
    + intros id r. rewrite Hin. cbn. rewrite lookup_insert_Some, elem_of_cons. split.
      * intros [[[<- <-]|[Hne ?]]|[? ?]]; [right; by split; [left|]|by left|right; by split; [right|]].
      * intros [Hr|[[->|Hr] <-]]; [|by left; left|by right].
        left. right. split; [|done]. intros <-. cbn in Hnone. congruence.
    + intros p. rewrite Hcnt.
      pose proof (count_insert (H := FreeDownloadDeliveryRange_table) p (dr_id row) row w0 Hnone) as Hc1.
      transitivity (length (List.filter p news) +
        ((if p row then 1 else 0) + length (List.filter p (rows (R := FreeDownloadDeliveryRange) w))))%nat.
      * f_equal. exact Hc1.
      * cbn. destruct (p row); cbn; lia.
Qed.

(** The byte is covered by a closed row of the entry. *)
Definition closed_observed (w : World) (entry_id : uid) (x : Z) : Prop :=
  exists id r, free_download_delivery_ranges w !! id = Some r /\ dr_quota_entry_id r = entry_id /\
    dr_state r = CLOSED /\ dr_request_start r <= x < dr_served_end_exclusive r.

(** Compaction loses and invents no evidence: when [_compact_closed] succeeds
    on the rows of an entry, the closed rows of the entry cover exactly the bytes
    they covered before and number at most [MAX_CLOSED_FRAGMENTS]; every active
    row and every row of another entry is untouched. *)
Theorem compaction_preserves_evidence entry_id rs now w w' :
  ranges_ok w -> lock_ranges entry_id w = (inr rs, w) ->
  compact_closed entry_id rs now w = (inr tt, w') ->
  (forall x, closed_observed w' entry_id x <-> closed_observed w entry_id x) /\
  Z.of_nat (length (List.filter (fun r => bool_decide (dr_quota_entry_id r = entry_id) && is_closed r)
    (rows w'))) <= MAX_CLOSED_FRAGMENTS /\
  (forall id r, dr_state r = ACTIVE \/ dr_quota_entry_id r <> entry_id ->
     free_download_delivery_ranges w' !! id = Some r <-> free_download_delivery_ranges w !! id = Some r).
Proof.
  intros [Hk Hok] Erun E. unfold lock_ranges in Erun. erewrite bind_run in Erun; [|reflexivity].
  injection Erun as <-. unfold compact_closed in E.
  set (mine r := bool_decide (dr_quota_entry_id r = entry_id)) in *.
  set (found := List.filter mine (rows w)) in *.
  set (closed := List.filter is_closed (order_by dr_request_start found)) in *.
  set (union := normalize_intervals (served_interval <$> List.filter served closed)) in *.
  destruct (MAX_CLOSED_FRAGMENTS <? Z.of_nat (length union)) eqn:Elen in E; [done|].
  erewrite bind_run in E; [|reflexivity]. propify.
  set (p r := mine r && is_closed r) in *.
  assert (Hp : closed ≡ₚ List.filter p (rows w)).
  { unfold closed. rewrite (lfilter_perm _ _ _ (order_by_perm dr_request_start found)).
    unfold found. by rewrite lfilter_lfilter. }
  assert (Hclosed : forall r, r ∈ closed <-> (exists id, free_download_delivery_ranges w !! id = Some r) /\
            dr_quota_entry_id r = entry_id /\ dr_state r = CLOSED).
  { intros r. rewrite Hp, elem_of_filter_rows. unfold p, mine, is_closed. cbn.
    rewrite andb_true_iff, !bool_decide_eq_true. done. }
  assert (Hcov : forall x, covers union x <-> closed_observed w entry_id x).
  { intros x. unfold union. fold (closed_intervals closed). rewrite covers_served. split.
    - intros (r & Hr & Hx). apply Hclosed in Hr as ([id Hid] & He & Hs). by exists id, r.
    - intros (id & r & Hid & He & Hs & Hx). exists r. split; [|done]. apply Hclosed. eauto. }
  destruct (_ && _) eqn:Esame in E.
  { injection E as <-. split; [done|]. split; [|done]. propify.
    change (Z.of_nat (length (List.filter p (rows w))) <= MAX_CLOSED_FRAGMENTS).
    rewrite <- (Permutation_length Hp). apply Nat.eqb_eq in H. lia. }
  destruct closed as [|template closed'] eqn:Ecl.
  { injection E as <-. split; [done|]. split; [|done].
    change (Z.of_nat (length (List.filter p (rows w))) <= MAX_CLOSED_FRAGMENTS).
    rewrite <- (Permutation_length Hp). cbn. unfold MAX_CLOSED_FRAGMENTS. lia. }
  clear Esame. erewrite bind_run in E; [|reflexivity].
  change (List.filter (fun r => bool_decide (dr_quota_entry_id r = entry_id) && is_closed r) (rows w))
    with (List.filter p (rows w)) in E.
  destruct (run_delete_ranges (dr_id <$> List.filter p (rows w)) w) as (n & t & Edel & Ht).
  rewrite (bind_run _ _ _ _ _ Edel) in E.
  apply run_insert_union in E as (news & Hz & Hlen & Hchk & Hin & Hcnt).
  set (w1 := w <| free_download_delivery_ranges := t |>) in *.
  assert (Hids : forall id r, free_download_delivery_ranges w !! id = Some r ->
            id ∈ dr_id <$> List.filter p (rows w) <-> p r = true).
  { intros id r Hid. rewrite list_elem_of_fmap. split.
    - intros (r' & -> & Hr'). apply elem_of_filter_rows in Hr' as [[id' Hid'] Hpr].
      assert (dr_id r' = id') as <- by by apply Hk. cbn in Hid'. congruence.
    - intros Hpr. exists r. split; [symmetry; by apply (Hk id)|].
      apply elem_of_filter_rows. split; [by exists id|done]. }
  assert (Ht' : forall id r, t !! id = Some r <->
            free_download_delivery_ranges w !! id = Some r /\ p r = false).
  { intros id r. rewrite Ht. destruct (free_download_delivery_ranges w !! id) as [r'|] eqn:Er.
    - specialize (Hids _ _ Er). destruct (decide _) as [Hd|Hd].
      + split; [done|]. intros [E Hpr]. injection E as ->. rewrite (proj1 Hids Hd) in Hpr. done.
      + split; [|by intros [? _]]. intros E. injection E as ->. split; [done|].
        apply not_true_iff_false. tauto.
    - split; [by destruct (decide _)|]. by intros [? _]. }
  assert (Hnews : forall r, r ∈ news -> exists iv, iv ∈ union /\ dr_quota_entry_id r = entry_id /\
            dr_state r = CLOSED /\ served_interval r = iv).
  { intros r Hr. rewrite Hz in Hr. apply elem_of_lookup_zip_with in Hr as (i & id & iv & -> & _ & Hiv).
    exists iv. split; [by eapply list_elem_of_lookup_2|]. by destruct iv. }
  assert (Hunion : forall iv, iv ∈ union -> exists r, r ∈ news /\ dr_quota_entry_id r = entry_id /\
            dr_state r = CLOSED /\ served_interval r = iv).
  { intros iv Hiv. apply list_elem_of_lookup in Hiv as [i Hi].
    destruct (lookup_lt_is_Some_2 news i) as [r Hr].
    { rewrite Hlen. by eapply lookup_lt_Some. }
    exists r. split; [by eapply list_elem_of_lookup_2|]. rewrite Hz in Hr.
    rewrite lookup_zip_with, Hi in Hr. destruct ((dr_id <$> news) !! i); [|done].
    cbn in Hr. injection Hr as <-. by destruct iv. }
  assert (Hpf : forall r, dr_quota_entry_id r = entry_id -> dr_state r = CLOSED -> p r = true).
  { intros r He Hs. unfold p, mine, is_closed. by rewrite He, Hs, !bool_decide_eq_true_2. }
  split_and!.
  - intros x. rewrite <- Hcov. split.
    + intros (id & r & Hr & He & Hs & Hx). apply Hin in Hr as [Hr|[Hr _]].
      * apply Ht' in Hr as [_ Hpr]. by rewrite Hpf in Hpr.
      * apply Hnews in Hr as (iv & Hiv & _ & _ & <-). by exists (served_interval r).
    + intros (iv & Hiv & Hx). apply Hunion in Hiv as (r & Hr & He & Hs & <-).
      exists (dr_id r), r. split; [apply Hin; by right|done].
  - change (Z.of_nat (length (List.filter p (rows w'))) <= MAX_CLOSED_FRAGMENTS).
    rewrite Hcnt. rewrite (lfilter_none p (rows w1)).
    + pose proof (lfilter_length_le p news). cbn. lia.
    + intros r Hr. apply elem_of_rows in Hr as [id Hr]. by apply Ht' in Hr as [_ ?].
  - intros id r Hr. rewrite Hin. split.
    + intros [Hid|[Hid _]]; [by apply Ht' in Hid as [? _]|].
      apply Hnews in Hid as (iv & _ & He & Hs & _). destruct Hr; congruence.
    + intros Hid. left. apply Ht'. split; [done|]. unfold p, mine, is_closed.
      destruct Hr as [Hr|Hr].
      * rewrite Hr. by rewrite andb_false_r.
      * by rewrite (bool_decide_eq_false_2 _ Hr).
Qed.

End DeliveryTheorems.

(** ** Witnesses, and a ledger that outgrows its bound *)
Module DeliveryExamples.
Import QuotaRepository DeliveryQuotaAccounting DeliveryTheorems QuotaExamples.

(** A ready job with an artifact of 2000 bytes. *)
Definition ready_job : MediaDownloadJob :=
  (demo_download_job 20)
    <| dj_public_state := DownloadStates.READY |> <| dj_progress_stage := Progress.READY |>
    <| dj_artifact_id := Some 77%N |> <| dj_artifact_bytes := Some 2000 |>
    <| dj_artifact_content_type := Some "video/mp4" |> <| dj_artifact_container := Some "mp4" |>
    <| dj_fence_token := 1 |> <| dj_completed_at := Some 0 |>.

Definition reserved_entry : FreeDownloadQuotaEntry := {|
  qe_id := 10; qe_anonymous_client_id := 1; qe_download_job_id := 20; qe_state := RESERVED;
  qe_reserved_at := 0; qe_reservation_expires_at := seconds 3600;
  qe_consumed_at := None; qe_released_at := None |}.

Definition closed_range (id : uid) (a b : Z) : FreeDownloadDeliveryRange := {|
  dr_id := id; dr_quota_entry_id := 10; dr_artifact_id := 77; dr_fence_token := 1;
  dr_artifact_bytes := 2000; dr_request_start := a; dr_request_end_exclusive := b;
  dr_served_end_exclusive := b; dr_state := CLOSED; dr_started_at := 0;
  dr_lease_expires_at := None; dr_closed_at := Some 0 |}.

Definition ledger_world (ranges : list FreeDownloadDeliveryRange) : World :=
  (empty_world (fun n => seconds (100 + Z.of_nat n)) (fun n => (5000 + N.of_nat n)%N))
    <| anonymous_clients := {[1%N := demo_client]} |>
    <| media_download_jobs := {[20%N := ready_job]} |>
    <| free_download_quota_entries := {[10%N := reserved_entry]} |>
    <| free_download_delivery_ranges := list_to_map ((fun r => (dr_id r, r)) <$> ranges) |>.

Definition auth : DeliveryAuthorization := {| auth_job := ready_job; auth_tier := Some "free" |}.
Definition serve (start stop : Z) : DB (option DeliveryAccountingAttempt) :=
  begin auth start stop (ret auth).

(** 64 one-byte fragments with one-byte gaps: the most the ledger may hold. *)
Definition full_ledger : World :=
  ledger_world ((fun i => closed_range (100 + N.of_nat i) (2 * Z.of_nat i) (2 * Z.of_nat i + 1))
                  <$> seq 0 64).

(** The bound that [begin] reserves does not cover finalization. On a ledger
    at its limit of 64 fragments, a response for the one-byte gap at offset 1 is
    admitted because its first byte would merge two fragments; with it still
    unserved, a response at offset 1000 is admitted as well; when the second one
    is finalized after sending its byte, the closed rows alone have 65 fragments
    and [finalize] raises the invariant error, so its evidence is lost. *)
Theorem admitted_responses_can_exceed_fragment_bound :
  exists a b w1 w2,
    serve 1 2 full_ledger = (inr (Some a), w1) /\
    serve 1000 1001 w1 = (inr (Some b), w2) /\
    (finalize (attempt_id b) 1001 w2).1 =
      inl (QuotaInvariantError "delivery coverage exceeds fragment bound").
Proof.
  exists {| attempt_id := 5000; attempt_start := 1; attempt_end := 2 |},
    {| attempt_id := 5001; attempt_start := 1000; attempt_end := 1001 |},
    (serve 1 2 full_ledger).2, (serve 1000 1001 (serve 1 2 full_ledger).2).2.
  split_and!.
  - apply pair_run. vm_compute. reflexivity.
  - apply pair_run. vm_compute. reflexivity.
  - vm_compute. reflexivity.
Qed.

Definition two_halves : World := ledger_world [closed_range 101 0 1000; closed_range 102 1000 2000].

Lemma consumed_iff_fully_observed_witness :
  exists res entry' w', consume_if_complete ready_job reserved_entry (seconds 5) two_halves
    = (inr (res, entry'), w') /\
    (acct_consumed res = true <-> forall x, 0 <= x < 2000 -> observed two_halves 10 x).
Proof.
  assert (Hrow : forall id r, free_download_delivery_ranges two_halves !! id = Some r ->
            r = closed_range 101 0 1000 \/ r = closed_range 102 1000 2000).
  { intros id r Hr.
    change (({[101%N := closed_range 101 0 1000; 102%N := closed_range 102 1000 2000]}
      : gmap uid FreeDownloadDeliveryRange) !! id = Some r) in Hr.
    apply lookup_insert_Some in Hr as [[_ <-]|[_ Hr]]; [by left|].
    apply lookup_singleton_Some in Hr as [_ <-]. by right. }
  destruct (consumed_iff_fully_observed ready_job reserved_entry (seconds 5) 2000 two_halves)
    as (res & entry' & w' & E & Hiff & _).
  - split.
    + intros id r Hr.
      change (({[101%N := closed_range 101 0 1000; 102%N := closed_range 102 1000 2000]}
        : gmap uid FreeDownloadDeliveryRange) !! id = Some r) in Hr.
      apply lookup_insert_Some in Hr as [[<- <-]|[_ Hr]]; [reflexivity|].
      apply lookup_singleton_Some in Hr as [<- <-]. reflexivity.
    + intros id r Hr. destruct (Hrow id r Hr) as [-> | ->]; reflexivity.
  - reflexivity.
  - lia.
  - reflexivity.
  - cbn. unfold seconds. lia.
  - reflexivity.
  - reflexivity.
  - intros id r Hr _. destruct (Hrow id r Hr) as [-> | ->]; reflexivity.
  - exists res, entry', w'. split; [exact E|exact Hiff].
Defined.

Lemma compaction_preserves_evidence_witness :
  exists w', compact_closed 10 [closed_range 101 0 1000; closed_range 102 1000 2000] 0 two_halves
    = (inr tt, w') /\
    forall x, closed_observed w' 10 x <-> closed_observed two_halves 10 x.
Proof.
  exists (compact_closed 10 [closed_range 101 0 1000; closed_range 102 1000 2000] 0 two_halves).2.
  assert (E : compact_closed 10 [closed_range 101 0 1000; closed_range 102 1000 2000] 0 two_halves
    = (inr tt, (compact_closed 10 [closed_range 101 0 1000; closed_range 102 1000 2000] 0 two_halves).2)).
  { apply pair_run. vm_compute. reflexivity. }
  split; [exact E|].
  eapply (compaction_preserves_evidence 10 [closed_range 101 0 1000; closed_range 102 1000 2000] 0
    two_halves).
  - split.
    + intros id r Hr.
      change (({[101%N := closed_range 101 0 1000; 102%N := closed_range 102 1000 2000]}
        : gmap uid FreeDownloadDeliveryRange) !! id = Some r) in Hr.
      apply lookup_insert_Some in Hr as [[<- <-]|[_ Hr]]; [reflexivity|].
      apply lookup_singleton_Some in Hr as [<- <-]. reflexivity.
    + intros id r Hr.
      change (({[101%N := closed_range 101 0 1000; 102%N := closed_range 102 1000 2000]}
        : gmap uid FreeDownloadDeliveryRange) !! id = Some r) in Hr.
      apply lookup_insert_Some in Hr as [[<- <-]|[_ Hr]]; [reflexivity|].
      apply lookup_singleton_Some in Hr as [<- <-]. reflexivity.
  - vm_compute. reflexivity.
  - exact E.
Defined.

End DeliveryExamples.
