(* ===== verification/Snapshot.v ===== *)
(** Durable policy snapshots: the decoder half of [downloads/snapshot_codec.py]
    that reads the effective policy and the bound identity of a job, and
    [downloads/premium_coherence.py]. *)

From S2P Require Export Datetime Schema.

Local Open Scope string_scope.
Local Open Scope Z_scope.

(** ** [uuid.UUID(str(value))] *)

(** [uuid.UUID(hex)] *)
Definition parse_uuid (hex : string) : option uid :=
  let hex := replace_all "uuid:" "" (replace_all "urn:" "" hex) in
  let l := strip (fun c => char_in c ["{"%char; "}"%char]) (chars hex) in
  let l := List.filter (fun c => negb (Ascii.eqb c "-"%char)) l in
  if Nat.eqb (length l) 32 then Z.to_N <$> int_base16 l else None.

(** [uuid.UUID(str(value))]. A float, a list or an object never prints as 32
    hexadecimal digits. *)
Definition uuid_of_json (v : Json) : option uid :=
  match v with
  | JStr s => parse_uuid s
  | JInt z => parse_uuid (py_str z)
  | JNull | JBool _ | JFloat _ | JArr _ | JObj _ => None
  end.

(** ** The policy part of a snapshot *)

(** Source: backend/src/fetchnow/downloads/snapshot_codec.py:49-68 [_POLICY_KEYS] *)
Definition POLICY_KEY : string := "effectiveDownloadPolicy".
(** Source: backend/src/fetchnow/downloads/snapshot_codec.py:63-68 [_LEGACY_POLICY_KEYS] *)
Definition LEGACY_POLICY_KEYS : list string :=
  ["tier"; "downloadLimit"; "quotaWindowSeconds"; "deliveryRateBytesPerSecond"; "premiumExpiresAt"].
(** Source: backend/src/fetchnow/downloads/snapshot_codec.py:50-62 [_POLICY_KEYS] *)
Definition POLICY_KEYS : list string :=
  app LEGACY_POLICY_KEYS ["allowCombined"; "allowAudioOnly"; "allowVideoOnly"; "authorizedIdentityId"].

(** Source: backend/src/fetchnow/downloads/snapshot_codec.py:104-110 [_MAX_STRING_LEN] *)
Definition MAX_STRING_LEN : Z := 64.
Definition MAX_DOWNLOAD_LIMIT : Z := 100.
Definition MAX_QUOTA_WINDOW_SECONDS : Z := 604800.
Definition MAX_DELIVERY_RATE : Z := 67108864.

(** [set(raw) == keys] *)
Definition same_keys (raw : list (string * Json)) (keys : list string) : bool :=
  forallb (fun k => bool_decide (k ∈ keys)) raw.*1 &&
  forallb (fun k => bool_decide (k ∈ raw.*1)) keys.

(** [mapping.get(key)]: a missing key reads as [None], like a JSON null. *)
Definition get (key : string) (raw : list (string * Json)) : Json := default JNull (json_get key raw).

Definition is_null (v : Json) : bool := match v with JNull => true | _ => false end.
(** [type(v) is int and lo <= v <= hi] *)
Definition int_between (lo hi : Z) (v : Json) : bool :=
  match v with JInt z => (lo <=? z) && (z <=? hi) | _ => false end.
Definition json_is_bool (v : Json) : bool := match v with JBool _ => true | _ => false end.
Definition json_is (b : bool) (v : Json) : bool := match v with JBool c => Bool.eqb b c | _ => false end.
Definition json_is_str (s : string) (v : Json) : bool :=
  match v with JStr x => bool_decide (x = s) | _ => false end.
Definition json_int (v : Json) : option Z := match v with JInt z => Some z | _ => None end.

Definition invalid : exn := download_error FORMAT_UNAVAILABLE "POLICY_SNAPSHOT_INVALID".

(** Source: backend/src/fetchnow/downloads/snapshot_codec.py:399-516 [decode_effective_policy_snapshot] *)
Definition decode_effective_policy_snapshot (payload : Json)
  : exn + option EffectiveDownloadPolicy :=
  match payload with
  | JObj members =>
      match get POLICY_KEY members with
      | JNull => inr None
      | JObj raw =>
          if negb (same_keys raw LEGACY_POLICY_KEYS || same_keys raw POLICY_KEYS)
          then inl (download_error FORMAT_UNAVAILABLE "POLICY_SNAPSHOT_KEY_SET")
          else
            let limit := get "downloadLimit" raw in
            let window := get "quotaWindowSeconds" raw in
            let rate := get "deliveryRateBytesPerSecond" raw in
            let expiry_raw := get "premiumExpiresAt" raw in
            let legacy := same_keys raw LEGACY_POLICY_KEYS in
            let allow_combined := if legacy then JBool true else get "allowCombined" raw in
            let allow_audio_only := if legacy then JBool false else get "allowAudioOnly" raw in
            let allow_video_only := if legacy then JBool false else get "allowVideoOnly" raw in
            let authorized_identity_raw :=
              if legacy then JNull else get "authorizedIdentityId" raw in
            if negb (json_is_bool allow_combined && json_is_bool allow_audio_only &&
                     json_is_bool allow_video_only)
            then inl invalid
            else
              let tier_raw := get "tier" raw in
              if json_is_str "free" tier_raw then
                if negb (int_between 1 MAX_DOWNLOAD_LIMIT limit) ||
                   negb (int_between 60 MAX_QUOTA_WINDOW_SECONDS window) ||
                   (negb (is_null rate) && negb (int_between 262144 MAX_DELIVERY_RATE rate)) ||
                   negb (is_null expiry_raw) || negb (is_null authorized_identity_raw) ||
                   negb (json_is true allow_combined) || negb (json_is false allow_audio_only) ||
                   negb (json_is false allow_video_only)
                then inl invalid
                else inr (Some {|
                  tier := "free";
                  download_limit := json_int limit;
                  quota_window_seconds := json_int window;
                  delivery_rate_bytes_per_second := json_int rate;
                  policy_premium_expires_at := None;
                  allow_combined := true;
                  allow_audio_only := false;
                  allow_video_only := false |})
              else if json_is_str "premium" tier_raw then
                if negb (is_null limit) || negb (is_null window) || negb (is_null rate) ||
                   negb (json_is true allow_combined)
                then inl invalid
                else
                  match expiry_raw with
                  | JStr expiry =>
                      if MAX_STRING_LEN <? strlen expiry then inl invalid
                      else
                        match fromisoformat (replace_all "Z" "+00:00" expiry) with
                        | Some (expires_at, true) =>
                            if negb legacy && is_none (uuid_of_json authorized_identity_raw)
                            then inl invalid
                            else inr (Some {|
                              tier := "premium";
                              download_limit := None;
                              quota_window_seconds := None;
                              delivery_rate_bytes_per_second := None;
                              policy_premium_expires_at := Some expires_at;
                              allow_combined := true;
                              allow_audio_only := json_is true allow_audio_only;
                              allow_video_only := json_is true allow_video_only |})
                        | _ => inl invalid
                        end
                  | _ => inl invalid
                  end
              else inl invalid
      | _ => inl (download_error FORMAT_UNAVAILABLE "POLICY_SNAPSHOT_KEY_SET")
      end
  | _ => inl (download_error FORMAT_UNAVAILABLE "SNAPSHOT_PAYLOAD_TYPE")
  end.

(** Source: backend/src/fetchnow/downloads/snapshot_codec.py:519-521 [strip_effective_policy_snapshot] *)
Definition strip_effective_policy_snapshot (members : list (string * Json))
  : list (string * Json) :=
  List.filter (fun kv => negb (bool_decide (kv.1 = POLICY_KEY))) members.

(** Source: backend/src/fetchnow/downloads/snapshot_codec.py:524-541 [decode_authorized_identity_id] *)
Definition decode_authorized_identity_id (payload : Json) : exn + option uid :=
  match decode_effective_policy_snapshot payload with
  | inl e => inl e
  | inr None => inr None
  | inr (Some policy) =>
      if negb (bool_decide (tier policy = "premium")) then inr None
      else
        match payload with
        | JObj members =>
            match get POLICY_KEY members with
            | JObj raw =>
                match get "authorizedIdentityId" raw with
                | JNull => inr None
                | v => match uuid_of_json v with
                       | Some id => inr (Some id)
                       | None => inl invalid
                       end
                end
            | _ => inr None
            end
        | _ => inr None
        end
  end.

(** Source: backend/src/fetchnow/downloads/premium_coherence.py:15-36 [is_coherent_promoted_premium_job] *)
Definition is_coherent_promoted_premium_job (job : MediaDownloadJob)
    (expected_identity_id : option uid) : bool :=
  match decode_effective_policy_snapshot (dj_selected_format_snapshot job),
        decode_authorized_identity_id (dj_selected_format_snapshot job) with
  | inr (Some policy), inr (Some identity) =>
      bool_decide (tier policy = "premium") &&
      match expected_identity_id with
      | None => true
      | Some expected => bool_decide (identity = expected)
      end
  | _, _ => false
  end.

(** A stored policy only decodes to one the server can have issued: a Free
    policy within the configured bounds, restricted to combined downloads, or a
    Premium policy without quota that carries a zoned expiry. *)
Theorem decoded_policy_is_bounded payload policy :
  decode_effective_policy_snapshot payload = inr (Some policy) ->
  (tier policy = "free" /\
   (exists l, download_limit policy = Some l /\ 1 <= l <= 100) /\
   (exists s, quota_window_seconds policy = Some s /\ 60 <= s <= 604800) /\
   (forall r, delivery_rate_bytes_per_second policy = Some r -> 262144 <= r <= 67108864) /\
   policy_premium_expires_at policy = None /\
   allow_audio_only policy = false /\ allow_video_only policy = false) \/
  (tier policy = "premium" /\ download_limit policy = None /\ quota_window_seconds policy = None /\
   delivery_rate_bytes_per_second policy = None /\
   exists t s, policy_premium_expires_at policy = Some t /\ fromisoformat s = Some (t, true)).
Proof.
  unfold decode_effective_policy_snapshot. cbv zeta. intros E.
  destruct payload as [| | | | | |members]; try discriminate E.
  destruct (get POLICY_KEY members) as [| | | | | |raw]; try discriminate E.
  destruct (negb (same_keys raw LEGACY_POLICY_KEYS || _)); [discriminate E|].
  destruct (negb (json_is_bool _ && _ && _)); [discriminate E|].
  destruct (json_is_str "free" _); [|destruct (json_is_str "premium" _); [|discriminate E]].
  - destruct (_ || _) eqn:Ec in E; [discriminate E|]. injection E as <-. left. cbn. propify.
    destruct (get "downloadLimit" raw) as [| |l| | | |]; try done.
    destruct (get "quotaWindowSeconds" raw) as [| |s| | | |]; try done.
    unfold int_between in *. propify. unfold MAX_DOWNLOAD_LIMIT, MAX_QUOTA_WINDOW_SECONDS in *.
    split_and!; try done; [exists l; split; [done|lia]|exists s; split; [done|lia]|].
    intros r Hr. destruct (get "deliveryRateBytesPerSecond" raw) as [| |z| | | |]; try done.
    cbn in Hr. injection Hr as ->. cbn in *. propify. unfold MAX_DELIVERY_RATE in *. lia.
  - destruct (_ || _) eqn:Ec in E; [discriminate E|].
    destruct (get "premiumExpiresAt" raw) as [| | | |e| |]; try discriminate E.
    destruct (_ <? _); [discriminate E|].
    destruct (fromisoformat _) as [[t [|]]|] eqn:Ef; try discriminate E.
    destruct (negb _ && _); [discriminate E|]. injection E as <-. right. cbn. eauto 10.
Qed.

Module SnapshotExamples.

(** The policy written for a Free client, and one for a Premium client. *)
Definition demo_payload : Json :=
  JObj [("formatOptionId", JStr "opt");
        (POLICY_KEY, JObj
           [("tier", JStr "free"); ("downloadLimit", JInt 3); ("quotaWindowSeconds", JInt 86400);
            ("deliveryRateBytesPerSecond", JInt 1048576); ("premiumExpiresAt", JNull);
            ("allowCombined", JBool true); ("allowAudioOnly", JBool false);
            ("allowVideoOnly", JBool false); ("authorizedIdentityId", JNull)])].

Definition demo_premium : Json :=
  JObj [(POLICY_KEY, JObj
           [("tier", JStr "premium"); ("downloadLimit", JNull); ("quotaWindowSeconds", JNull);
            ("deliveryRateBytesPerSecond", JNull);
            ("premiumExpiresAt", JStr "2026-01-01T00:00:00Z")])].

Definition decoded (payload : Json) : EffectiveDownloadPolicy :=
  match decode_effective_policy_snapshot payload with
  | inr (Some policy) => policy
  | _ => {| tier := "none"; download_limit := None; quota_window_seconds := None;
            delivery_rate_bytes_per_second := None; policy_premium_expires_at := None;
            allow_combined := false; allow_audio_only := false; allow_video_only := false |}
  end.

Lemma decoded_policy_is_bounded_witness :
  (tier (decoded demo_payload) = "free" /\
   exists l, download_limit (decoded demo_payload) = Some l /\ 1 <= l <= 100) /\
  (tier (decoded demo_premium) = "premium" /\
   policy_premium_expires_at (decoded demo_premium) = Some (seconds 1767225600)).
Proof.
  split.
  - destruct (decoded_policy_is_bounded demo_payload (decoded demo_payload)
                ltac:(vm_compute; reflexivity)) as [[E [Hl _]]|[E _]]; [exact (conj E Hl)|].
    vm_compute in E. discriminate E.
  - destruct (decoded_policy_is_bounded demo_premium (decoded demo_premium)
                ltac:(vm_compute; reflexivity)) as [[E _]|[E _]]; [vm_compute in E; discriminate E|].
    split; [exact E|vm_compute; reflexivity].
Defined.

End SnapshotExamples.
