(* ===== verification/FormatCodec.v ===== *)
(** The selected format and the policy recorded with a download job
    ([downloads/snapshot_codec.py]): writing, reading, and that reading gives
    back what was written. *)

From S2P Require Export Media Snapshot.

Local Open Scope string_scope.
Local Open Scope list_scope.
Local Open Scope Z_scope.

(** ** Keys *)

(** Source: backend/src/fetchnow/downloads/snapshot_codec.py:24-48 [_LEGACY_SNAPSHOT_KEYS] *)
Definition LEGACY_SNAPSHOT_KEYS : list string :=
  ["formatOptionId"; "container"; "width"; "height"; "fps"; "hasVideo"; "hasAudio"; "category";
   "videoCodec"; "audioCodec"; "approxBytes"; "qualityLabel"; "freeTierEligible"].
Definition SNAPSHOT_KEYS : list string := LEGACY_SNAPSHOT_KEYS ++ ["mediaKind"; "requiresPremium"; "bitrateKbps"].

(** Source: backend/src/fetchnow/downloads/snapshot_codec.py:70-101 [_FORBIDDEN_KEYS] *)
Definition FORBIDDEN_KEYS : list string :=
  ["url"; "urls"; "directUrl"; "directUrls"; "signedUrl"; "downloadUrl"; "streamUrl"; "manifestUrl";
   "cookie"; "cookies"; "authorization"; "token"; "providerFormatToken"; "provider_format_token";
   "accessToken"; "password"; "secret"; "stderr"; "stdout"; "raw"; "path"; "filepath"; "tempPath";
   "query"; "fragment"; "headers"; "argv"; "command"].

(** Source: backend/src/fetchnow/downloads/snapshot_codec.py:103-108 [_MAX_DIMENSION] *)
Definition DEFAULT_MAX_JSON_BYTES : Z := 4096.
Definition MAX_DIMENSION : Z := 16384.
Definition MAX_APPROX_BYTES : Z := 10 ^ 12.

(** [s.casefold()] *)
Definition casefold (s : string) : string :=
  of_chars (chars (lower s) ≫= (fun c => if Ascii.eqb c "223" then chars "ss" else [c])).

(** Source: backend/src/fetchnow/downloads/snapshot_codec.py:119-136 [_reject_keys] *)
Fixpoint _reject_keys (keys : list string) : exn + unit :=
  match keys with
  | [] => inr tt
  | key :: keys =>
      raise_if (bool_decide (key ∈ FORBIDDEN_KEYS) || bool_decide (casefold key ∈ (casefold <$> FORBIDDEN_KEYS)))
        (unavailable "SNAPSHOT_FORBIDDEN_KEY") ;;?
      raise_if (negb (bool_decide (key ∈ SNAPSHOT_KEYS)) && negb (bool_decide (key = POLICY_KEY)))
        (unavailable "SNAPSHOT_UNKNOWN_KEY") ;;?
      _reject_keys keys
  end.

(** ** Fields *)

(** Source: backend/src/fetchnow/downloads/snapshot_codec.py:139-146 [_require_bool] *)
Definition _require_bool (value : Json) : exn + bool :=
  match value with JBool b => inr b | _ => inl (unavailable "SNAPSHOT_BOOL") end.

(** Source: backend/src/fetchnow/downloads/snapshot_codec.py:149-163 [_require_optional_int] *)
Definition _require_optional_int (value : Json) (maximum : Z) : exn + option Z :=
  match value with
  | JNull => inr None
  | JInt n =>
      if (n <? 0) || (maximum <? n) then inl (unavailable "SNAPSHOT_INT_BOUNDS") else inr (Some n)
  | _ => inl (unavailable "SNAPSHOT_INT")
  end.

(** Source: backend/src/fetchnow/downloads/snapshot_codec.py:166-189 [_require_optional_float] *)
Definition _require_optional_float (value : Json) (maximum : float) : exn + option float :=
  let check (number : float) : exn + option float :=
    if negb (fl_finite number) || fl_ltb number (fl_int 0) || fl_ltb maximum number
    then inl (unavailable "SNAPSHOT_FLOAT_BOUNDS") else inr (Some number) in
  match value with
  | JNull => inr None
  | JInt n => let? number := float_of_int n in check number
  | JFloat x => check x
  | _ => inl (unavailable "SNAPSHOT_FLOAT")
  end.

(** Source: backend/src/fetchnow/downloads/snapshot_codec.py:192-204 [_require_string] *)
Definition _require_string (value : Json) : exn + string :=
  match value with
  | JStr s =>
      if bool_decide (s = "") || (MAX_STRING_LEN <? strlen s) then inl (unavailable "SNAPSHOT_STRING") else
      if existsb (fun c => in_range 0 31 c) (chars s) then inl (unavailable "SNAPSHOT_STRING") else inr s
  | _ => inl (unavailable "SNAPSHOT_STRING")
  end.

(** ** The format *)

Definition json_opt_int (n : option Z) : Json := match n with Some n => JInt n | None => JNull end.
Definition json_opt_float (x : option float) : Json := match x with Some x => JFloat x | None => JNull end.

(** Source: backend/src/fetchnow/downloads/snapshot_codec.py:218-235 [encode_selected_format_snapshot] *)
Definition format_members (fmt : MediaFormat) : list (string * Json) :=
  [("formatOptionId", JStr (format_option_id fmt)); ("container", JStr (mf_container fmt));
   ("width", json_opt_int (mf_width fmt)); ("height", json_opt_int (mf_height fmt));
   ("fps", json_opt_float (mf_fps fmt));
   ("hasVideo", JBool (mf_has_video fmt)); ("hasAudio", JBool (mf_has_audio fmt));
   ("category", JStr (category_value (mf_category fmt)));
   ("videoCodec", JStr (codec_value (mf_video_codec fmt))); ("audioCodec", JStr (codec_value (mf_audio_codec fmt)));
   ("approxBytes", json_opt_int (mf_approx_bytes fmt)); ("qualityLabel", JStr (quality_label fmt));
   ("freeTierEligible", JBool (free_tier_eligible fmt)); ("mediaKind", JStr (kind_value (mf_media_kind fmt)));
   ("requiresPremium", JBool (requires_premium fmt)); ("bitrateKbps", json_opt_int (mf_bitrate_kbps fmt))].

(** Source: backend/src/fetchnow/downloads/snapshot_codec.py:207-247 [encode_selected_format_snapshot] *)
Definition encode_selected_format_snapshot (fmt : MediaFormat) (max_bytes : Z) : exn + list (string * Json) :=
  let payload := format_members fmt in
  raise_if (negb (same_keys payload SNAPSHOT_KEYS)) (download_error DOWNLOAD_INTERNAL_ERROR "SNAPSHOT_ENCODE_KEYS") ;;?
  raise_if (max_bytes <? json_byte_size (JObj payload)) (download_error DOWNLOAD_INTERNAL_ERROR "SNAPSHOT_TOO_LARGE") ;;?
  inr payload.

(** The [except (KeyError, TypeError, ValueError)] of the decoder. *)
Definition invalid_on_value_error {A} (m : exn + A) : exn + A :=
  match m with inl (ValueError _) => inl (unavailable "SNAPSHOT_INVALID") | r => r end.

(** [FormatCategory(value)] and its like. *)
Definition enum_of {A} (parse : string -> option A) (value : string) : exn + A :=
  need (parse value) (ValueError "not a valid member").

(** [payload.get(key, default)] *)
Definition get_or (key : string) (dflt : Json) (payload : list (string * Json)) : Json :=
  default dflt (json_get key payload).

(** Source: backend/src/fetchnow/downloads/snapshot_codec.py:285-347 [decode_selected_format_snapshot] *)
Definition decode_members (payload : list (string * Json)) (expected_format_option_id : string) : exn + MediaFormat :=
  let? format_option_id := _require_string (get "formatOptionId" payload) in
  raise_if (negb (bool_decide (format_option_id = expected_format_option_id))) (unavailable "SNAPSHOT_OPTION_MISMATCH") ;;?
  let? category := (let? s := _require_string (get "category" payload) in enum_of category_of s) in
  let? media_kind := (let? s := _require_string (get_or "mediaKind" (JStr (kind_value NORMAL_VIDEO)) payload) in
                      enum_of kind_of s) in
  let? container := _require_string (get "container" payload) in
  let? width := _require_optional_int (get "width" payload) MAX_DIMENSION in
  let? height := _require_optional_int (get "height" payload) MAX_DIMENSION in
  let? fps := _require_optional_float (get "fps" payload) (fl_int 240) in
  let? has_video := _require_bool (get "hasVideo" payload) in
  let? has_audio := _require_bool (get "hasAudio" payload) in
  let? video_codec := (let? s := _require_string (get "videoCodec" payload) in enum_of codec_of s) in
  let? audio_codec := (let? s := _require_string (get "audioCodec" payload) in enum_of codec_of s) in
  let? approx_bytes := _require_optional_int (get "approxBytes" payload) MAX_APPROX_BYTES in
  let? label := _require_string (get "qualityLabel" payload) in
  let? free := _require_bool (get "freeTierEligible" payload) in
  let? premium := _require_bool
    (get_or "requiresPremium" (JBool (negb (bool_decide (media_kind = NORMAL_VIDEO)))) payload) in
  let? bitrate := _require_optional_int (get "bitrateKbps" payload) 100000 in
  new_media_format {|
    format_option_id := format_option_id; mf_container := container; mf_width := width; mf_height := height;
    mf_fps := fps; mf_has_video := has_video; mf_has_audio := has_audio; mf_category := category;
    mf_video_codec := video_codec; mf_audio_codec := audio_codec; mf_approx_bytes := approx_bytes;
    quality_label := label; free_tier_eligible := free; mf_media_kind := media_kind;
    requires_premium := premium; mf_bitrate_kbps := bitrate |}.

(** Source: backend/src/fetchnow/downloads/snapshot_codec.py:250-355 [decode_selected_format_snapshot] *)
Definition decode_selected_format_snapshot (payload : Json) (expected_format_option_id : string) (max_bytes : Z)
  : exn + MediaFormat :=
  match payload with
  | JObj members =>
      raise_if (max_bytes <? json_byte_size payload) (unavailable "SNAPSHOT_TOO_LARGE") ;;?
      let allowed := same_keys members LEGACY_SNAPSHOT_KEYS || same_keys members (POLICY_KEY :: LEGACY_SNAPSHOT_KEYS) ||
                     same_keys members SNAPSHOT_KEYS || same_keys members (POLICY_KEY :: SNAPSHOT_KEYS) in
      (if allowed then inr tt
       else _reject_keys members.*1 ;;? raise_if (negb allowed) (unavailable "SNAPSHOT_KEY_SET")) ;;?
      _reject_keys members.*1 ;;?
      invalid_on_value_error (decode_members members expected_format_option_id)
  | _ => inl (unavailable "SNAPSHOT_PAYLOAD_TYPE")
  end.

(** ** The policy *)

(** [d[key] = value] *)
Fixpoint dict_set (key : string) (value : Json) (members : list (string * Json)) : list (string * Json) :=
  match members with
  | [] => [(key, value)]
  | kv :: members =>
      if bool_decide (kv.1 = key) then (key, value) :: members else kv :: dict_set key value members
  end.

(** [str(payload.get("formatOptionId") or "")]; only a string can pass the decoder. *)
Definition option_id_text (payload : list (string * Json)) : string :=
  match get "formatOptionId" payload with JStr s => s | _ => "" end.

(** [expires_at.astimezone(UTC).isoformat().replace("+00:00", "Z")] *)
Definition expiry_text (expires_at : time) : exn + string :=
  if in_calendar expires_at
  then inr (replace_all "+00:00" "Z" (of_chars (isoformat_utc expires_at))) else inl UnexpectedError.

(** Source: backend/src/fetchnow/downloads/snapshot_codec.py:370-386 [attach_effective_policy_snapshot] *)
Definition policy_members (policy : EffectiveDownloadPolicy) (expiry : Json) (authorized_identity_id : option uid)
  : list (string * Json) :=
  [("tier", JStr (tier policy)); ("downloadLimit", json_opt_int (download_limit policy));
   ("quotaWindowSeconds", json_opt_int (quota_window_seconds policy));
   ("deliveryRateBytesPerSecond", json_opt_int (delivery_rate_bytes_per_second policy));
   ("premiumExpiresAt", expiry); ("allowCombined", JBool (allow_combined policy));
   ("allowAudioOnly", JBool (allow_audio_only policy)); ("allowVideoOnly", JBool (allow_video_only policy));
   ("authorizedIdentityId", match authorized_identity_id with Some id => JStr (uuid_text id) | None => JNull end)].

(** Source: backend/src/fetchnow/downloads/snapshot_codec.py:358-396 [attach_effective_policy_snapshot] *)
Definition attach_effective_policy_snapshot (payload : list (string * Json)) (policy : EffectiveDownloadPolicy)
    (authorized_identity_id : option uid) : exn + list (string * Json) :=
  decode_selected_format_snapshot (JObj payload) (option_id_text payload) DEFAULT_MAX_JSON_BYTES ;;?
  let? expiry := match policy_premium_expires_at policy with
                 | Some t => let? s := expiry_text t in inr (JStr s)
                 | None => inr JNull
                 end in
  let result := dict_set POLICY_KEY (JObj (policy_members policy expiry authorized_identity_id)) payload in
  decode_effective_policy_snapshot (JObj result) ;;?
  raise_if (DEFAULT_MAX_JSON_BYTES <? json_byte_size (JObj result))
    (download_error DOWNLOAD_INTERNAL_ERROR "SNAPSHOT_TOO_LARGE") ;;?
  inr result.

(** ** Texts read back *)

Lemma uuid_text_chars id : let h := hex_fixed 32 (Z.of_N id) in
  chars (uuid_text id) = take 8 h ++ "-"%char :: take 4 (drop 8 h) ++ "-"%char :: take 4 (drop 12 h) ++
            "-"%char :: take 4 (drop 16 h) ++ "-"%char :: drop 20 h.
Proof. apply chars_of_chars. Qed.

Lemma filter_keep {A} (p : A -> bool) l : forallb p l = true -> List.filter p l = l.
Proof. induction l as [|x l IH]; [done|]. cbn. intros [Hx Hl]%andb_prop. by rewrite Hx, IH. Qed.

Lemma forallb_take {A} (p : A -> bool) n l : forallb p l = true -> forallb p (take n l) = true.
Proof. rewrite !forallb_forall. intros Hp x Hx. apply Hp. apply list_elem_of_In, subseteq_take in Hx. by apply list_elem_of_In. Qed.
Lemma forallb_drop {A} (p : A -> bool) n l : forallb p l = true -> forallb p (drop n l) = true.
Proof. rewrite !forallb_forall. intros Hp x Hx. apply Hp. apply list_elem_of_In, subseteq_drop in Hx. by apply list_elem_of_In. Qed.

Lemma split_groups {A} (l : list A) :
  take 8 l ++ take 4 (drop 8 l) ++ take 4 (drop 12 l) ++ take 4 (drop 16 l) ++ drop 20 l = l.
Proof.
  assert (E : forall n m, take n (drop m l) ++ drop (m + n) l = drop m l) by (intros; rewrite <- drop_drop; apply take_drop).
  pose proof (E 4 16)%nat as E1. pose proof (E 4 12)%nat as E2. pose proof (E 4 8)%nat as E3. cbn [Nat.add] in *.
  by rewrite E1, E2, E3, take_drop.
Qed.

Lemma parse_uuid_text id : (id < 2 ^ 128)%N -> parse_uuid (uuid_text id) = Some id.
Proof.
  intros Hid. pose proof (uuid_text_chars id) as Hc. cbv zeta in Hc. set (h := hex_fixed 32 (Z.of_N id)) in *.
  pose proof (hex_fixed_text 32 (Z.of_N id) : forallb hex_text h = true) as Hh.
  assert (Hother : forall p, hex_text p = false -> Ascii.eqb "-" p = false ->
      forallb (fun c => negb (Ascii.eqb c p)) (chars (uuid_text id)) = true).
  { intros p Hp Hd. assert (Hf : forall l, forallb hex_text l = true -> forallb (fun c => negb (Ascii.eqb c p)) l = true) by (apply hex_text_not; done).
    rewrite Hc. do 4 (rewrite forallb_app; cbn [forallb]; rewrite Hd, Hf by auto using forallb_take, forallb_drop; cbn [negb andb]).
    by apply Hf, forallb_drop. }
  unfold parse_uuid. rewrite <- (of_chars_chars (uuid_text id)).
  rewrite (replace_all_none "u" "rn:") by by apply Hother. rewrite (replace_all_none "u" "uid:") by by apply Hother.
  rewrite chars_of_chars, strip_id.
  2: { rewrite forallb_forall. intros c Hin. pose proof (Hother "{"%char eq_refl eq_refl) as H1. pose proof (Hother "}"%char eq_refl eq_refl) as H2.
       rewrite forallb_forall in H1, H2. specialize (H1 c Hin). specialize (H2 c Hin). cbn.
       rewrite negb_true_iff in H1, H2. by rewrite H1, H2. }
  assert (Hdash : forall l, forallb hex_text l = true -> List.filter (fun c => negb (Ascii.eqb c "-"%char)) l = l).
  { intros l Hl. apply filter_keep. by apply hex_text_not. }
  rewrite Hc. do 4 (rewrite List.filter_app; cbn [List.filter]; rewrite Ascii.eqb_refl; cbn [negb];
    rewrite Hdash by auto using forallb_take, forallb_drop).
  rewrite Hdash by auto using forallb_drop. replace (_ ++ _) with h.
  2: { symmetry. exact (split_groups h). }
  assert (Hlen : length h = 32%nat) by apply hex_fixed_length. rewrite Hlen. cbn [Nat.eqb].
  assert (Hv : int_base16 h = Some (Z.of_N id)); [|rewrite Hv; cbn; by rewrite N2Z.id].
  assert (Hval : hex_digits 0 true h = Some (Z.of_N id)).
  { rewrite hex_digits_value; [|done|right; by intros E; rewrite E in Hlen]. f_equal. unfold h.
    rewrite hex_fixed_value; [lia|]. change (16 ^ Z.of_nat 32) with (Z.of_N (2 ^ 128)). lia. }
  unfold int_base16. rewrite strip_id.
  2: { eapply forallb_forall. intros c Hin. rewrite forallb_forall in Hh. specialize (Hh c Hin).
       destruct (is_space c) eqn:Es; [|done]. exfalso. clear -Es Hh. destruct c as [[] [] [] [] [] [] [] []]; vm_compute in Es, Hh; congruence. }
  destruct h as [|a [|b l]]; [done|done|]. cbn [forallb] in Hh. apply andb_prop in Hh as [Ha [Hb _]%andb_prop].
  destruct (Ascii.eqb_spec a "+"%char) as [->|]; [done|]. destruct (Ascii.eqb_spec b "x"%char) as [->|]; [done|].
  destruct (Ascii.eqb_spec b "X"%char) as [->|]; [done|]. rewrite andb_false_r. exact Hval.
Qed.

(** The body of an [isoformat] has neither a plus sign nor a [Z]. *)
Lemma iso_body t : exists body, isoformat_utc t = body ++ chars "+00:00" /\ (length body <= 26)%nat /\
  forallb (fun c => negb (Ascii.eqb c "+")) body = true /\ forallb (fun c => negb (Ascii.eqb c "Z")) body = true.
Proof.
  destruct (isoformat_split t) as (y & mo & d & h & m & s & us & E & _).
  exists (date_chars y mo d ++ "T"%char :: clock_chars h m s us). split_and!.
  - rewrite E, <- app_assoc. done.
  - rewrite length_app, date_chars_length. unfold clock_chars. cbn [length].
    rewrite length_app. cbn [length]. rewrite length_app. cbn [length]. rewrite length_app, !fixed_digits_length.
    destruct (us =? 0); cbn [length]; rewrite ?fixed_digits_length; lia.
  - rewrite forallb_app. cbn [forallb]. by rewrite clock_other, date_other by done.
  - rewrite forallb_app. cbn [forallb]. by rewrite clock_other, date_other by done.
Qed.

Lemma expiry_text_roundtrip t s : expiry_text t = inr s ->
  strlen s <= MAX_STRING_LEN /\ fromisoformat (replace_all "Z" "+00:00" s) = Some (t, true).
Proof.
  unfold expiry_text. destruct (in_calendar t) eqn:Hc; [|done]. intros [= <-].
  pose proof (isoformat_roundtrip t Hc) as Hr. destruct (iso_body t) as (body & E & Hl & Hp & Hz).
  rewrite E, of_chars_app. change (of_chars (chars "+00:00")) with "+00:00".
  rewrite replace_all_end by done. change (replace_all _ _ "+00:00") with "Z".
  split.
  - unfold strlen, MAX_STRING_LEN. rewrite <- length_list_ascii, list_ascii_app, length_app.
    change (String.list_ascii_of_string (of_chars body)) with (chars (of_chars body)).
    rewrite chars_of_chars. cbn [length String.list_ascii_of_string]. lia.
  - rewrite replace_all_end by done. change (replace_all _ _ "Z") with "+00:00".
    change "+00:00" with (of_chars (chars "+00:00")). rewrite <- of_chars_app, <- E.
    unfold fromisoformat. by rewrite chars_of_chars.
Qed.

(** ** Dictionaries *)

Lemma json_get_set key value k members :
  json_get k (dict_set key value members) = if bool_decide (k = key) then Some value else json_get k members.
Proof.
  unfold json_get. induction members as [|[k' v] members IH]; cbn.
  - rewrite (bool_decide_ext (key = k) (k = key)) by done. by case_bool_decide.
  - destruct (decide (k' = key)) as [->|Hne].
    + rewrite (bool_decide_eq_true_2 (key = key)) by done. cbn. rewrite (bool_decide_ext (key = k) (k = key)) by done.
      by case_bool_decide.
    + rewrite (bool_decide_eq_false_2 (k' = key)) by done. cbn. destruct (decide (k' = k)) as [->|].
      * rewrite (bool_decide_eq_true_2 (k = k)), (bool_decide_eq_false_2 (k = key)) by done. done.
      * rewrite (bool_decide_eq_false_2 (k' = k)) by done. exact IH.
Qed.

Lemma get_set_same key value members : get key (dict_set key value members) = value.
Proof. unfold get. by rewrite json_get_set, bool_decide_eq_true_2. Qed.

Lemma dict_set_keys key value members k :
  k ∈ (dict_set key value members).*1 <-> k = key \/ k ∈ members.*1.
Proof.
  induction members as [|[k' v] members IH]; cbn; [set_solver|].
  case_bool_decide as E; cbn; [subst; set_solver|]. rewrite !elem_of_cons, IH. tauto.
Qed.

Lemma strip_set value members :
  strip_effective_policy_snapshot (dict_set POLICY_KEY value members) = strip_effective_policy_snapshot members.
Proof.
  unfold strip_effective_policy_snapshot. induction members as [|[k v] members IH].
  - cbn. by rewrite bool_decide_eq_true_2.
  - cbn [dict_set fst]. case_bool_decide as E; cbn [List.filter fst].
    + rewrite bool_decide_eq_true_2 by done. subst k. by rewrite bool_decide_eq_true_2.
    + by rewrite IH.
Qed.

(** The fields are read by their keys only. *)
Lemma decode_members_ext m m' expected :
  (forall key, key ∈ SNAPSHOT_KEYS -> json_get key m = json_get key m') ->
  decode_members m expected = decode_members m' expected.
Proof.
  intros Hm. assert (Hg : forall key, key ∈ SNAPSHOT_KEYS -> get key m = get key m') by (intros key Hk; unfold get; by rewrite Hm).
  assert (Ho : forall key d, key ∈ SNAPSHOT_KEYS -> get_or key d m = get_or key d m') by (intros key d Hk; unfold get_or; by rewrite Hm).
  unfold decode_members. rewrite !(Hg "formatOptionId"), !(Hg "category"), !(Hg "container"), !(Hg "width"),
    !(Hg "height"), !(Hg "fps"), !(Hg "hasVideo"), !(Hg "hasAudio"), !(Hg "videoCodec"), !(Hg "audioCodec"),
    !(Hg "approxBytes"), !(Hg "qualityLabel"), !(Hg "freeTierEligible"), !(Hg "bitrateKbps"),
    !(Ho "mediaKind") by (apply (bool_decide_unpack _); vm_compute; exact I).
  assert (Hp : forall d, get_or "requiresPremium" d m = get_or "requiresPremium" d m') by (intros d; apply Ho, (bool_decide_unpack _); vm_compute; exact I).
  repeat (match goal with |- err_bind ?r _ = err_bind ?r _ => destruct r end; cbn [err_bind]; [done|]; rewrite ?Hp).
  done.
Qed.

(** ** Formats *)

Lemma safe_token_string s : require_safe_token s = inr tt -> _require_string (JStr s) = inr s.
Proof.
  unfold require_safe_token. rewrite raise_if_inr. intros Hs%negb_false_iff%is_some_true. destruct Hs as [c Hr%fullmatch_spec].
  cbn in Hr. destruct Hr as (s1 & s2 & c1 & E & (x & -> & Hx & ->) & Hs2 & [_ Hlen] & _). cbn [app] in E.
  assert (Hl : strlen s <= MAX_STRING_LEN).
  { unfold strlen. rewrite <- length_list_ascii. change (String.list_ascii_of_string s) with (chars s). rewrite E. cbn. unfold MAX_STRING_LEN. lia. }
  assert (Hn : s <> "") by (intros ->; by cbn in E).
  unfold _require_string. rewrite bool_decide_eq_false_2 by done. cbn [orb].
  replace (MAX_STRING_LEN <? strlen s) with false by (symmetry; apply Z.ltb_ge; lia).
  destruct (existsb _ (chars s)) eqn:Ex; [|done]. exfalso. apply existsb_exists in Ex as (y & Hy & Hc). rewrite E in Hy.
  destruct Hy as [<-|Hy].
  - unfold in_range in *. lia.
  - rewrite forallb_forall in Hs2. specialize (Hs2 y Hy). clear -Hs2 Hc.
    destruct y as [[] [] [] [] [] [] [] []]; vm_compute in Hs2, Hc; congruence.
Qed.

Definition opt_le (n : option Z) (maximum : Z) : bool := match n with Some n => n <=? maximum | None => true end.

(** The sizes the decoder accepts. *)
Definition storable (fmt : MediaFormat) : bool :=
  opt_le (mf_width fmt) MAX_DIMENSION && opt_le (mf_height fmt) MAX_DIMENSION && opt_le (mf_approx_bytes fmt) MAX_APPROX_BYTES &&
  opt_le (mf_bitrate_kbps fmt) 100000.

Lemma opt_int_roundtrip n maximum fmax : require_int n fmax = inr tt -> opt_le n maximum = true ->
  _require_optional_int (json_opt_int n) maximum = inr n.
Proof.
  destruct n as [n|]; [|done]. cbn. destruct (Z.ltb_spec n 0); [done|]. intros _ Hm%Z.leb_le. cbn.
  replace (maximum <? n) with false by (symmetry; apply Z.ltb_ge; lia). done.
Qed.

Lemma opt_float_roundtrip x : require_float x (Some (fl_int 240)) = inr tt ->
  _require_optional_float (json_opt_float x) (fl_int 240) = inr x.
Proof.
  destruct x as [x|]; [|done]. cbn [require_float json_opt_float _require_optional_float].
  destruct (negb (fl_finite x) || fl_ltb x (fl_int 0)); [done|]. cbn [orb]. rewrite raise_if_inr. by intros ->.
Qed.

Lemma kind_string k : _require_string (JStr (kind_value k)) = inr (kind_value k).
Proof. by destruct k. Qed.
Lemma category_string c : _require_string (JStr (category_value c)) = inr (category_value c).
Proof. by destruct c. Qed.
Lemma codec_string c : _require_string (JStr (codec_value c)) = inr (codec_value c).
Proof. by destruct c. Qed.

Lemma raise_unit {E} (r : E + unit) u : r = inr u -> r = inr tt.
Proof. by destruct u. Qed.

Lemma decode_format_members fmt : new_media_format fmt = inr fmt -> storable fmt = true ->
  decode_members (format_members fmt) (format_option_id fmt) = inr fmt.
Proof.
  intros Hnew Hst. unfold storable in Hst. rewrite !andb_true_iff in Hst. destruct Hst as [[[Hw Hh] Hb] Hbr].
  assert (H := Hnew). unfold new_media_format in H.
  do 8 ok_step H.
  apply raise_unit in H0, H1, H2, H3, H4, H5, H6, H7. clear H.
  unfold decode_members.
  change (get "formatOptionId" (format_members fmt)) with (JStr (format_option_id fmt)).
  change (get "category" (format_members fmt)) with (JStr (category_value (mf_category fmt))).
  change (get "container" (format_members fmt)) with (JStr (mf_container fmt)).
  change (get "width" (format_members fmt)) with (json_opt_int (mf_width fmt)).
  change (get "height" (format_members fmt)) with (json_opt_int (mf_height fmt)).
  change (get "fps" (format_members fmt)) with (json_opt_float (mf_fps fmt)).
  change (get "hasVideo" (format_members fmt)) with (JBool (mf_has_video fmt)).
  change (get "hasAudio" (format_members fmt)) with (JBool (mf_has_audio fmt)).
  change (get "videoCodec" (format_members fmt)) with (JStr (codec_value (mf_video_codec fmt))).
  change (get "audioCodec" (format_members fmt)) with (JStr (codec_value (mf_audio_codec fmt))).
  change (get "approxBytes" (format_members fmt)) with (json_opt_int (mf_approx_bytes fmt)).
  change (get "qualityLabel" (format_members fmt)) with (JStr (quality_label fmt)).
  change (get "freeTierEligible" (format_members fmt)) with (JBool (free_tier_eligible fmt)).
  change (get "bitrateKbps" (format_members fmt)) with (json_opt_int (mf_bitrate_kbps fmt)).
  change (get_or "mediaKind" _ (format_members fmt)) with (JStr (kind_value (mf_media_kind fmt))).
  rewrite (safe_token_string _ H0). cbn [err_bind]. rewrite bool_decide_eq_true_2 by done. cbn [negb raise_if err_bind].
  rewrite category_string, kind_string. cbn [err_bind]. unfold enum_of. rewrite category_of_value, kind_of_value. cbn [need err_bind].
  change (get_or "requiresPremium" _ (format_members fmt)) with (JBool (requires_premium fmt)).
  rewrite (safe_token_string _ H1), (opt_int_roundtrip _ _ _ H3 Hw), (opt_int_roundtrip _ _ _ H4 Hh), (opt_float_roundtrip _ H5).
  cbn [err_bind _require_bool]. rewrite !codec_string. cbn [err_bind]. rewrite !codec_of_value. cbn [need err_bind].
  rewrite (opt_int_roundtrip _ _ _ H6 Hb), (safe_token_string _ H2). cbn [err_bind].
  rewrite (opt_int_roundtrip _ _ _ H7 Hbr). cbn [err_bind]. destruct fmt. exact Hnew.
Qed.

Lemma reject_known_keys keys : (forall k, k ∈ keys -> k ∈ POLICY_KEY :: SNAPSHOT_KEYS) -> _reject_keys keys = inr tt.
Proof.
  assert (Hall : forallb (fun k => negb (bool_decide (k ∈ FORBIDDEN_KEYS) || bool_decide (casefold k ∈ (casefold <$> FORBIDDEN_KEYS))) &&
      (bool_decide (k ∈ SNAPSHOT_KEYS) || bool_decide (k = POLICY_KEY))) (POLICY_KEY :: SNAPSHOT_KEYS) = true) by (vm_compute; reflexivity).
  rewrite forallb_forall in Hall. induction keys as [|k keys IH]; [done|]. intros Hk. cbn [_reject_keys].
  specialize (Hall k (proj1 (list_elem_of_In _ _) (Hk k ltac:(by left)))). apply andb_prop in Hall as [Hf%negb_true_iff Ha].
  rewrite Hf. cbn [raise_if err_bind]. rewrite <- negb_orb, Ha. cbn [negb raise_if err_bind]. apply IH. intros x Hx. apply Hk. by right.
Qed.

Lemma same_keys_iff (members : list (string * Json)) keys :
  same_keys members keys = true <-> forall k, k ∈ members.*1 <-> k ∈ keys.
Proof.
  unfold same_keys. rewrite andb_true_iff, !forallb_forall. split.
  - intros [H1 H2] k. split; intros Hk; [specialize (H1 k)|specialize (H2 k)]; rewrite bool_decide_eq_true, <- list_elem_of_In in *; auto.
  - intros H. split; intros k Hk%list_elem_of_In; apply bool_decide_eq_true; by apply H.
Qed.

(** The key sets a snapshot may have. *)
Definition allowed_keys (members : list (string * Json)) : bool :=
  same_keys members LEGACY_SNAPSHOT_KEYS || same_keys members (POLICY_KEY :: LEGACY_SNAPSHOT_KEYS) ||
  same_keys members SNAPSHOT_KEYS || same_keys members (POLICY_KEY :: SNAPSHOT_KEYS).

Lemma allowed_keys_known members : allowed_keys members = true -> forall k, k ∈ members.*1 -> k ∈ POLICY_KEY :: SNAPSHOT_KEYS.
Proof.
  unfold allowed_keys. rewrite !orb_true_iff, !same_keys_iff. intros Ha k Hk. unfold SNAPSHOT_KEYS in *.
  rewrite elem_of_cons, elem_of_app. destruct Ha as [[[Ha|Ha]|Ha]|Ha]; apply Ha in Hk.
  - tauto.
  - rewrite elem_of_cons in Hk. tauto.
  - rewrite elem_of_app in Hk. tauto.
  - rewrite elem_of_cons, elem_of_app in Hk. tauto.
Qed.

Lemma decode_allowed members expected max_bytes : allowed_keys members = true ->
  json_byte_size (JObj members) <= max_bytes ->
  decode_selected_format_snapshot (JObj members) expected max_bytes = invalid_on_value_error (decode_members members expected).
Proof.
  intros Ha Hs. unfold decode_selected_format_snapshot.
  replace (max_bytes <? _) with false by (symmetry; apply Z.ltb_ge; lia). cbn [raise_if err_bind].
  pose proof (allowed_keys_known _ Ha) as Hk. unfold allowed_keys in Ha. rewrite Ha. cbn [err_bind].
  by rewrite reject_known_keys.
Qed.

Lemma decode_selected_inv members expected max_bytes fmt :
  decode_selected_format_snapshot (JObj members) expected max_bytes = inr fmt ->
  allowed_keys members = true /\ decode_members members expected = inr fmt.
Proof.
  unfold decode_selected_format_snapshot. intros Hd. ok_step Hd. ok_step Hd. ok_step Hd. split.
  - unfold allowed_keys. destruct (_ || _ || _ || _) eqn:E; [done|]. exfalso. ok_step Hd1. done.
  - unfold invalid_on_value_error in Hd. destruct (decode_members members expected) as [e|f]; [by destruct e|exact Hd].
Qed.

(** Adding the policy keeps the key set allowed and every other entry. *)
Lemma allowed_keys_set value members : allowed_keys members = true -> allowed_keys (dict_set POLICY_KEY value members) = true.
Proof.
  unfold allowed_keys. rewrite !orb_true_iff, !same_keys_iff. intros Ha.
  destruct Ha as [[[Ha|Ha]|Ha]|Ha].
  - left. left. right. intros k. rewrite dict_set_keys, elem_of_cons, Ha. done.
  - left. left. right. intros k. rewrite dict_set_keys, elem_of_cons, Ha, elem_of_cons. tauto.
  - right. intros k. rewrite dict_set_keys, elem_of_cons, Ha. done.
  - right. intros k. rewrite dict_set_keys, elem_of_cons, Ha, elem_of_cons. tauto.
Qed.

Lemma decode_members_set value members expected :
  decode_members (dict_set POLICY_KEY value members) expected = decode_members members expected.
Proof.
  apply decode_members_ext. intros key Hk. rewrite json_get_set, bool_decide_eq_false_2; [done|].
  intros ->. revert Hk. apply (bool_decide_unpack (_ ∉ _)). vm_compute. exact I.
Qed.

(** ** Policies *)

(** What the stored expiry is of a policy's. *)
Definition expiry_json (policy : EffectiveDownloadPolicy) (expiry : Json) : Prop :=
  match policy_premium_expires_at policy with
  | Some t => exists s, expiry = JStr s /\ expiry_text t = inr s
  | None => expiry = JNull
  end.

Section Attached.
Context (members : list (string * Json)) (policy : EffectiveDownloadPolicy) (expiry : Json) (identity : option uid).
Let raw : list (string * Json) := policy_members policy expiry identity.
Let result : list (string * Json) := dict_set POLICY_KEY (JObj raw) members.

(** The decoder on a policy of the current schema. *)
Lemma decode_attached :
  decode_effective_policy_snapshot (JObj result) =
  if json_is_str "free" (JStr (tier policy)) then
    if negb (int_between 1 MAX_DOWNLOAD_LIMIT (json_opt_int (download_limit policy))) ||
       negb (int_between 60 MAX_QUOTA_WINDOW_SECONDS (json_opt_int (quota_window_seconds policy))) ||
       (negb (is_null (json_opt_int (delivery_rate_bytes_per_second policy))) &&
        negb (int_between 262144 MAX_DELIVERY_RATE (json_opt_int (delivery_rate_bytes_per_second policy)))) ||
       negb (is_null expiry) || negb (is_null (get "authorizedIdentityId" raw)) ||
       negb (json_is true (JBool (allow_combined policy))) || negb (json_is false (JBool (allow_audio_only policy))) ||
       negb (json_is false (JBool (allow_video_only policy)))
    then inl invalid
    else inr (Some {|
      tier := "free"; download_limit := json_int (json_opt_int (download_limit policy));
      quota_window_seconds := json_int (json_opt_int (quota_window_seconds policy));
      delivery_rate_bytes_per_second := json_int (json_opt_int (delivery_rate_bytes_per_second policy));
      policy_premium_expires_at := None; allow_combined := true; allow_audio_only := false; allow_video_only := false |})
  else if json_is_str "premium" (JStr (tier policy)) then
    if negb (is_null (json_opt_int (download_limit policy))) || negb (is_null (json_opt_int (quota_window_seconds policy))) ||
       negb (is_null (json_opt_int (delivery_rate_bytes_per_second policy))) ||
       negb (json_is true (JBool (allow_combined policy)))
    then inl invalid
    else
      match expiry with
      | JStr expiry =>
          if MAX_STRING_LEN <? strlen expiry then inl invalid
          else match fromisoformat (replace_all "Z" "+00:00" expiry) with
               | Some (expires_at, true) =>
                   if is_none (uuid_of_json (get "authorizedIdentityId" raw)) then inl invalid
                   else inr (Some {|
                     tier := "premium"; download_limit := None; quota_window_seconds := None;
                     delivery_rate_bytes_per_second := None; policy_premium_expires_at := Some expires_at;
                     allow_combined := true; allow_audio_only := json_is true (JBool (allow_audio_only policy));
                     allow_video_only := json_is true (JBool (allow_video_only policy)) |})
               | _ => inl invalid
               end
      | _ => inl invalid
      end
  else inl invalid.
Proof.
  unfold decode_effective_policy_snapshot, result. rewrite get_set_same.
  change (same_keys raw LEGACY_POLICY_KEYS) with false. change (same_keys raw POLICY_KEYS) with true. reflexivity.
Qed.

Lemma decode_attached_identity p : decode_effective_policy_snapshot (JObj result) = inr (Some p) ->
  match identity with Some id => (id < 2 ^ 128)%N | None => True end ->
  decode_authorized_identity_id (JObj result) = inr identity.
Proof.
  intros Hd Hid. unfold decode_authorized_identity_id. rewrite Hd. rewrite decode_attached in Hd.
  change (get "authorizedIdentityId" raw) with (match identity with Some id => JStr (uuid_text id) | None => JNull end) in Hd.
  destruct (json_is_str "free" _).
  - destruct (_ || _) eqn:Ec in Hd; [done|]. injection Hd as <-. cbn [tier]. rewrite bool_decide_eq_false_2 by done.
    cbn [negb]. destruct identity; [|done]. propify. done.
  - destruct (json_is_str "premium" _); [|done]. destruct (_ || _) in Hd; [done|]. destruct expiry as [| | | |e| |]; try done.
    destruct (_ <? _); [done|]. destruct (fromisoformat _) as [[t []]|]; try done.
    destruct (is_none _) eqn:Eu; [done|]. injection Hd as <-. cbn [tier]. rewrite bool_decide_eq_true_2 by done. cbn [negb].
    unfold result. rewrite get_set_same.
    change (get "authorizedIdentityId" raw) with (match identity with Some id => JStr (uuid_text id) | None => JNull end).
    destruct identity as [id|]; [|done]. cbn [uuid_of_json]. by rewrite parse_uuid_text.
Qed.

Lemma decode_free p : tier policy = "free" -> decode_effective_policy_snapshot (JObj result) = inr (Some p) ->
  p = {| tier := "free"; download_limit := download_limit policy; quota_window_seconds := quota_window_seconds policy;
         delivery_rate_bytes_per_second := delivery_rate_bytes_per_second policy; policy_premium_expires_at := None;
         allow_combined := true; allow_audio_only := false; allow_video_only := false |}.
Proof.
  intros Ht. rewrite decode_attached, Ht. cbn [json_is_str]. rewrite bool_decide_eq_true_2 by done.
  destruct (_ || _); [done|]. intros [= <-].
  by destruct (download_limit policy), (quota_window_seconds policy), (delivery_rate_bytes_per_second policy).
Qed.

Lemma decode_premium p t s : tier policy = "premium" -> expiry = JStr s -> expiry_text t = inr s ->
  decode_effective_policy_snapshot (JObj result) = inr (Some p) ->
  p = {| tier := "premium"; download_limit := None; quota_window_seconds := None;
         delivery_rate_bytes_per_second := None; policy_premium_expires_at := Some t;
         allow_combined := true; allow_audio_only := allow_audio_only policy; allow_video_only := allow_video_only policy |}.
Proof.
  intros Ht Es [Hl Hr]%expiry_text_roundtrip. rewrite decode_attached, Ht, Es. cbn [json_is_str].
  rewrite bool_decide_eq_false_2, bool_decide_eq_true_2 by done. destruct (_ || _); [done|]. destruct (_ <? _); [done|].
  rewrite Hr. destruct (is_none _); [done|]. intros [= <-]. cbn.
  by destruct (allow_audio_only policy), (allow_video_only policy).
Qed.

Lemma decode_attached_policy settings capability p :
  effective_download_policy settings capability = inr policy -> expiry_json policy expiry ->
  decode_effective_policy_snapshot (JObj result) = inr (Some p) -> p = policy.
Proof.
  unfold effective_download_policy, expiry_json. intros Hp He Hd.
  destruct capability as [c|]; [|injection Hp as Hp; rewrite (decode_free p) by (done || by rewrite <- Hp); by rewrite <- Hp].
  destruct (is_premium c); [|injection Hp as Hp; rewrite (decode_free p) by (done || by rewrite <- Hp); by rewrite <- Hp].
  destruct (premium_expires_at c) as [t|]; [|done]. injection Hp as Hp. rewrite <- Hp in He. cbn in He.
  destruct He as (s & Es & Hs). rewrite (decode_premium p t s) by (done || by rewrite <- Hp). by rewrite <- Hp.
Qed.
End Attached.

(** What attaching a policy issued by the server leaves: one key of the payload
    is set, and the policy and the identity read back. *)
Lemma attach_inv settings capability policy identity payload result :
  effective_download_policy settings capability = inr policy ->
  match identity with Some id => (id < 2 ^ 128)%N | None => True end ->
  attach_effective_policy_snapshot payload policy identity = inr result ->
  (exists value, result = dict_set POLICY_KEY value payload) /\
  decode_effective_policy_snapshot (JObj result) = inr (Some policy) /\
  decode_authorized_identity_id (JObj result) = inr identity.
Proof.
  intros Hpol Hid Ha.
  unfold attach_effective_policy_snapshot in Ha. ok_step Ha. ok_step Ha. rename v0 into expiry. ok_step Ha. ok_step Ha.
  assert (Er : result = dict_set POLICY_KEY (JObj (policy_members policy expiry identity)) payload) by congruence.
  clear Ha. subst result.
  assert (Hex : expiry_json policy expiry).
  { unfold expiry_json. destruct (policy_premium_expires_at policy) as [t|]; [|by injection Ha1]. ok_step Ha1. injection Ha1 as <-. by eexists. }
  assert (Hv : exists p, v0 = Some p).
  { rewrite decode_attached in Ha2. destruct v0 as [p|]; [by exists p|]. exfalso. revert Ha2. clear.
    repeat case_match; done. }
  destruct Hv as [p ->]. split_and!.
  - by eexists.
  - rewrite Ha2. do 2 f_equal. by eapply decode_attached_policy.
  - by eapply decode_attached_identity.
Qed.

(** Whatever the decoder reads from an encoded format is that format. *)
Lemma require_string_inv s v : _require_string (JStr s) = inr v -> v = s.
Proof. unfold _require_string. do 2 (case_match; [done|]). congruence. Qed.

Lemma optional_int_inv n maximum v : _require_optional_int (json_opt_int n) maximum = inr v -> v = n.
Proof. destruct n as [n|]; cbn; [|congruence]. case_match; congruence. Qed.

Lemma optional_float_inv x maximum v : _require_optional_float (json_opt_float x) maximum = inr v -> v = x.
Proof. destruct x as [x|]; cbn; [|congruence]. case_match; congruence. Qed.

Lemma require_bool_inv b v : _require_bool (JBool b) = inr v -> v = b.
Proof. cbn. congruence. Qed.

Lemma enum_inv {A} (parse : string -> option A) (print : A -> string) a s v :
  (forall a, parse (print a) = Some a) -> _require_string (JStr (print a)) = inr s -> enum_of parse s = inr v -> v = a.
Proof. intros Hp ->%require_string_inv. unfold enum_of. rewrite Hp. cbn. congruence. Qed.

Lemma decode_encoded_inv fmt expected fmt' : decode_members (format_members fmt) expected = inr fmt' -> fmt' = fmt.
Proof.
  unfold decode_members. intros H.
  repeat match goal with Hb : err_bind _ _ = inr _ |- _ => ok_step Hb end.
  apply new_media_format_inv in H. subst fmt'.
  repeat match goal with
    | Hs : _require_string _ = inr _, He : enum_of category_of _ = inr _ |- _ =>
        apply (enum_inv _ category_value (mf_category fmt) _ _ category_of_value Hs) in He; clear Hs
    | Hs : _require_string _ = inr _, He : enum_of kind_of _ = inr _ |- _ =>
        apply (enum_inv _ kind_value (mf_media_kind fmt) _ _ kind_of_value Hs) in He; clear Hs
    | Hs : _require_string (get "videoCodec" _) = inr ?s, He : enum_of codec_of ?s = inr _ |- _ =>
        apply (enum_inv _ codec_value (mf_video_codec fmt) _ _ codec_of_value Hs) in He; clear Hs
    | Hs : _require_string (get "audioCodec" _) = inr ?s, He : enum_of codec_of ?s = inr _ |- _ =>
        apply (enum_inv _ codec_value (mf_audio_codec fmt) _ _ codec_of_value Hs) in He; clear Hs
    end.
  apply (require_string_inv (format_option_id fmt)) in H0. apply (require_string_inv (mf_container fmt)) in H4.
  apply (optional_int_inv (mf_width fmt)) in H5. apply (optional_int_inv (mf_height fmt)) in H6.
  apply (optional_float_inv (mf_fps fmt)) in H7. apply (require_bool_inv (mf_has_video fmt)) in H8.
  apply (require_bool_inv (mf_has_audio fmt)) in H9. apply (optional_int_inv (mf_approx_bytes fmt)) in H12.
  apply (require_string_inv (quality_label fmt)) in H13. apply (require_bool_inv (free_tier_eligible fmt)) in H14.
  apply (require_bool_inv (requires_premium fmt)) in H15. apply (optional_int_inv (mf_bitrate_kbps fmt)) in H16.
  subst. by destruct fmt.
Qed.

(** What is attached to the encoding of a format still reads as that format. *)
Lemma attached_reads_format fmt policy identity result :
  attach_effective_policy_snapshot (format_members fmt) policy identity = inr result ->
  decode_selected_format_snapshot (JObj result) (format_option_id fmt) DEFAULT_MAX_JSON_BYTES = inr fmt.
Proof.
  unfold attach_effective_policy_snapshot. intros Ha. ok_step Ha. ok_step Ha. ok_step Ha. ok_step Ha.
  change (option_id_text (format_members fmt)) with (format_option_id fmt) in Ha0.
  apply decode_selected_inv in Ha0 as [Hk Hd]. apply raise_if_inr, Z.ltb_ge in Ha3.
  assert (Hr : exists value, result = dict_set POLICY_KEY value (format_members fmt)) by (injection Ha as Ha; eexists; symmetry; exact Ha).
  assert (Hs : json_byte_size (JObj result) <= DEFAULT_MAX_JSON_BYTES) by (injection Ha as <-; exact Ha3).
  clear Ha Ha3. destruct Hr as [value ->].
  rewrite decode_allowed by (done || by apply allowed_keys_set). rewrite decode_members_set, Hd.
  by rewrite (decode_encoded_inv _ _ _ Hd).
Qed.

(** C27: A download job's snapshot reads back as what it was made from. If the
    format was encoded and the policy issued by the server attached, then reading
    gives the same format, the same policy with the same expiry, and the identity
    it is bound to, and stripping the policy gives back the encoded format. *)
Theorem snapshot_roundtrip settings capability policy fmt identity payload result :
  effective_download_policy settings capability = inr policy ->
  new_media_format fmt = inr fmt -> storable fmt = true ->
  match identity with Some id => (id < 2 ^ 128)%N | None => True end ->
  encode_selected_format_snapshot fmt DEFAULT_MAX_JSON_BYTES = inr payload ->
  attach_effective_policy_snapshot payload policy identity = inr result ->
  strip_effective_policy_snapshot result = payload /\
  decode_selected_format_snapshot (JObj result) (format_option_id fmt) DEFAULT_MAX_JSON_BYTES = inr fmt /\
  decode_effective_policy_snapshot (JObj result) = inr (Some policy) /\
  decode_authorized_identity_id (JObj result) = inr identity.
Proof.
  intros Hpol Hnew Hst Hid He Ha. unfold encode_selected_format_snapshot in He. ok_step He. ok_step He. injection He as <-.
  apply raise_if_inr, negb_false_iff in He0.
  destruct (attach_inv settings capability policy identity _ _ Hpol Hid Ha) as ([value ->] & Hd & Hi).
  assert (Hallowed : allowed_keys (format_members fmt) = true) by (unfold allowed_keys; by rewrite He0, orb_true_r).
  assert (Hb : json_byte_size (JObj (dict_set POLICY_KEY value (format_members fmt))) <= DEFAULT_MAX_JSON_BYTES).
  { unfold attach_effective_policy_snapshot in Ha. ok_step Ha. ok_step Ha. ok_step Ha. ok_step Ha. injection Ha as Ha.
    by apply raise_if_inr, Z.ltb_ge in Ha3; rewrite Ha in Ha3. }
  split_and!; [by rewrite strip_set| |done|done].
  rewrite decode_allowed by (done || by apply allowed_keys_set). rewrite decode_members_set.
  by rewrite decode_format_members.
Qed.

(** ** A Premium snapshot *)

Module FormatExamples.

Definition demo_settings : Settings := {|
  free_download_limit := 3; free_download_window_seconds := 86400;
  free_delivery_rate_limit_enabled := true; free_delivery_rate_bytes_per_second := 1048576;
  anonymous_client_ttl_seconds := 2592000; free_download_quota_retention_seconds := 604800;
  free_download_quota_ready_compatibility_mode := false;
  media_downloads_enabled := true; media_browser_delivery_enabled := true;
  media_browser_grant_ttl_seconds := 300; media_browser_grant_max_active := 3;
  robokassa_mode := "test"; premium_test_checkout_visible := true; robokassa_test_amount_minor := 9900;
  robokassa_order_ttl_seconds := 1800; robokassa_merchant_login := "shop";
  robokassa_test_password1 := "p1"; robokassa_test_password2 := "p2";
  robokassa_receipt_tax := "none"; robokassa_receipt_payment_method := "full_payment"; free_download_quota_enabled := true; media_delivery_enabled := true;
  media_download_artifact_ttl_seconds := 3600; media_download_max_attempts := 3; media_jobs_enabled := true;
  media_job_absolute_ttl_seconds := 86400; media_job_max_attempts := 3; media_job_result_max_bytes := 65536 |}.

(** 2026-01-01T00:00:00.5Z *)
Definition demo_expiry : time := 1767225600500000.

Definition demo_capability : PremiumCapability :=
  {| is_premium := true; premium_expires_at := Some demo_expiry; capability_product_code := Some "premium_24h" |}.

Definition demo_policy : EffectiveDownloadPolicy := {|
  tier := "premium"; download_limit := None; quota_window_seconds := None; delivery_rate_bytes_per_second := None;
  policy_premium_expires_at := Some demo_expiry; allow_combined := true; allow_audio_only := true; allow_video_only := true |}.

(** 29.97 frames per second. *)
Definition demo_format : MediaFormat := {|
  format_option_id := "fmt_0123456789abcdef"; mf_container := "mp4"; mf_width := Some 1920; mf_height := Some 1080;
  mf_fps := Some (fl_of_decimal 2997 2); mf_has_video := true; mf_has_audio := true; mf_category := PROGRESSIVE;
  mf_video_codec := AVC; mf_audio_codec := AAC; mf_approx_bytes := Some 50000000; quality_label := "p1080";
  free_tier_eligible := true; mf_media_kind := NORMAL_VIDEO; requires_premium := false; mf_bitrate_kbps := None |}.

Definition demo_payload : list (string * Json) := format_members demo_format.
Definition demo_result : list (string * Json) :=
  match attach_effective_policy_snapshot demo_payload demo_policy (Some 5%N) with inr r => r | inl _ => [] end.

Example demo_stored_expiry :
  match get POLICY_KEY demo_result with JObj raw => get "premiumExpiresAt" raw | _ => JNull end = JStr "2026-01-01T00:00:00.500000Z".
Proof. by vm_compute. Qed.

Lemma snapshot_roundtrip_witness :
  decode_selected_format_snapshot (JObj demo_result) "fmt_0123456789abcdef" 4096 = inr demo_format /\
  decode_effective_policy_snapshot (JObj demo_result) = inr (Some demo_policy) /\
  decode_authorized_identity_id (JObj demo_result) = inr (Some 5%N).
Proof.
  refine (proj2 (snapshot_roundtrip demo_settings (Some demo_capability) demo_policy demo_format (Some 5%N)
    demo_payload demo_result _ _ _ _ _ _)).
  - reflexivity.
  - vm_compute. reflexivity.
  - reflexivity.
  - reflexivity.
  - vm_compute. reflexivity.
  - vm_compute. reflexivity.
Defined.
End FormatExamples.
