(* ===== verification/MetadataCodec.v ===== *)
(** The metadata recorded with an inspection job ([jobs/metadata_codec.py]):
    writing it as a bounded JSON object, and reading a stored object back. *)

From S2P Require Export FormatCodec.

Local Open Scope string_scope.
Local Open Scope list_scope.
Local Open Scope Z_scope.

(** ** [str] and [bool] of decoded values *)

(** A character as [repr] of a string with the given quote shows it. *)
Definition repr_char (quote c : ascii) : list ascii :=
  if Ascii.eqb c quote || Ascii.eqb c "\" then ["\"%char; c]
  else if Ascii.eqb c "009" then chars "\t"
  else if Ascii.eqb c "010" then chars "\n"
  else if Ascii.eqb c "013" then chars "\r"
  else if in_range 0 31 c || in_range 127 160 c || in_range 173 173 c
       then chars "\x" ++ hex_fixed 2 (Z.of_N (N_of_ascii c))
  else [c].

(** [repr(s)] *)
Definition repr_str (s : string) : list ascii :=
  let quote := if str_mem "'" s && negb (str_mem "034" s) then "034"%char else "'"%char in
  quote :: (chars s ≫= repr_char quote) ++ [quote].

(** [", ".join(parts)] *)
Fixpoint comma_join (parts : list (list ascii)) : list ascii :=
  match parts with
  | [] => []
  | [p] => p
  | p :: parts => p ++ chars ", " ++ comma_join parts
  end.

(** [repr(v)] *)
Fixpoint json_repr (v : Json) : list ascii :=
  match v with
  | JNull => chars "None"
  | JBool b => chars (if b then "True" else "False")
  | JInt n => chars (py_str n)
  | JFloat x => repr_float x
  | JStr s => repr_str s
  | JArr l => "["%char :: comma_join (json_repr <$> l) ++ ["]"%char]
  | JObj l => "{"%char :: comma_join ((fun kv => repr_str kv.1 ++ chars ": " ++ json_repr kv.2) <$> l) ++ ["}"%char]
  end.

(** [str(v)] *)
Definition json_str (v : Json) : string :=
  match v with JStr s => s | v => of_chars (json_repr v) end.

(** [bool(v)] *)
Definition json_true (v : Json) : bool :=
  match v with
  | JNull => false
  | JBool b => b
  | JInt n => negb (n =? 0)
  | JFloat x => negb (fl_eqb x (fl_int 0))
  | JStr s => negb (bool_decide (s = ""))
  | JArr l => negb (is_nil l)
  | JObj l => negb (is_nil l)
  end.

(** [payload[key]] *)
Definition item (key : string) (payload : list (string * Json)) : exn + Json := need (json_get key payload) KeyError.

(** ** Keys *)

(** Source: backend/src/fetchnow/jobs/metadata_codec.py:18-30 [_TOP_LEVEL_KEYS] *)
Definition TOP_LEVEL_KEYS : list string :=
  ["providerId"; "canonicalProviderUrl"; "mediaId"; "title"; "durationSeconds"; "formats"; "extractionTool";
   "extractionToolVersion"; "muxingRequired"].

(** Source: backend/src/fetchnow/jobs/metadata_codec.py:32-51 [_FORMAT_KEYS] *)
Definition FORMAT_KEYS : list string :=
  ["formatOptionId"; "container"; "width"; "height"; "fps"; "hasVideo"; "hasAudio"; "category"; "videoCodec";
   "audioCodec"; "approxBytes"; "qualityLabel"; "freeTierEligible"; "mediaKind"; "requiresPremium"; "bitrateKbps"].

(** Source: backend/src/fetchnow/jobs/metadata_codec.py:53-82 [_FORBIDDEN_KEYS] *)
Definition METADATA_FORBIDDEN_KEYS : list string :=
  ["url"; "urls"; "directUrl"; "directUrls"; "signedUrl"; "downloadUrl"; "streamUrl"; "manifestUrl"; "cookie";
   "cookies"; "authorization"; "token"; "accessToken"; "password"; "secret"; "stderr"; "stdout"; "raw"; "path";
   "filepath"; "tempPath"; "query"; "fragment"; "headers"; "argv"; "command"].

Definition metadata_error (reason : string) : exn := job_error JOB_INTERNAL_ERROR reason.

(** Source: backend/src/fetchnow/jobs/metadata_codec.py:85-88 [_json_byte_size] *)
Definition _json_byte_size (payload : Json) : Z := json_byte_size payload.

(** Source: backend/src/fetchnow/jobs/metadata_codec.py:91-108 [_reject_forbidden]
    The keys of a decoded object are strings. *)
Fixpoint _reject_forbidden (keys : list string) (allow : list string) : exn + unit :=
  match keys with
  | [] => inr tt
  | key :: keys =>
      let lowered := lower (of_chars (strip is_space (chars key))) in
      raise_if (bool_decide (key ∈ METADATA_FORBIDDEN_KEYS) || bool_decide (lowered ∈ (lower <$> METADATA_FORBIDDEN_KEYS)))
        (metadata_error "METADATA_FORBIDDEN_KEY") ;;?
      raise_if (negb (bool_decide (key ∈ allow))) (metadata_error "METADATA_UNKNOWN_KEY") ;;?
      _reject_forbidden keys allow
  end.

(** ** Writing *)

Definition json_opt_str (s : option string) : Json := match s with Some s => JStr s | None => JNull end.

(** Source: backend/src/fetchnow/jobs/metadata_codec.py:122-143 [media_metadata_to_jsonable] *)
Definition stored_format_members (fmt : MediaFormat) : list (string * Json) :=
  [("formatOptionId", JStr (format_option_id fmt)); ("container", JStr (mf_container fmt));
   ("width", json_opt_int (mf_width fmt)); ("height", json_opt_int (mf_height fmt));
   ("fps", json_opt_float (mf_fps fmt));
   ("hasVideo", JBool (mf_has_video fmt)); ("hasAudio", JBool (mf_has_audio fmt));
   ("category", JStr (category_value (mf_category fmt)));
   ("videoCodec", JStr (codec_value (mf_video_codec fmt))); ("audioCodec", JStr (codec_value (mf_audio_codec fmt)));
   ("approxBytes", json_opt_int (mf_approx_bytes fmt)); ("qualityLabel", JStr (quality_label fmt));
   ("freeTierEligible", JBool (free_tier_eligible fmt)); ("mediaKind", JStr (kind_value (mf_media_kind fmt)));
   ("requiresPremium", JBool (requires_premium fmt)); ("bitrateKbps", json_opt_int (mf_bitrate_kbps fmt))].

(** Source: backend/src/fetchnow/jobs/metadata_codec.py:144-154 [media_metadata_to_jsonable] *)
Definition metadata_members (m : MediaMetadata) : list (string * Json) :=
  [("providerId", JStr (mm_provider_id m)); ("canonicalProviderUrl", JStr (mm_canonical_provider_url m));
   ("mediaId", JStr (mm_media_id m)); ("title", json_opt_str (mm_title m));
   ("durationSeconds", json_opt_int (mm_duration_seconds m));
   ("formats", JArr ((fun fmt => JObj (stored_format_members fmt)) <$> mm_formats m));
   ("extractionTool", JStr (extraction_tool m)); ("extractionToolVersion", json_opt_str (extraction_tool_version m));
   ("muxingRequired", JBool (muxing_required m))].

(** Source: backend/src/fetchnow/jobs/metadata_codec.py:111-161 [media_metadata_to_jsonable] *)
Definition media_metadata_to_jsonable (m : MediaMetadata) (max_bytes : Z) : exn + list (string * Json) :=
  let payload := metadata_members m in
  raise_if (max_bytes <? _json_byte_size (JObj payload)) (metadata_error "METADATA_TOO_LARGE") ;;?
  inr payload.

(** ** Reading *)

(** Source: backend/src/fetchnow/jobs/metadata_codec.py:164-182 [_muxing_required_from_payload] *)
Definition _muxing_required_from_payload (payload : list (string * Json)) (formats : list MediaFormat) : exn + bool :=
  match json_get "muxingRequired" payload with
  | None =>
      inr (negb (existsb (fun fmt =>
        bool_decide (mf_category fmt = PROGRESSIVE) && free_tier_eligible fmt && mf_has_video fmt && mf_has_audio fmt) formats))
  | Some (JBool raw) => inr raw
  | Some _ => inl (metadata_error "METADATA_INVALID")
  end.

(** Source: backend/src/fetchnow/media_inspection/models.py:54-74 [require_finite_non_negative]
    On a decoded value of any type. *)
Definition require_number (value : Json) (maximum : option float) : exn + unit :=
  match value with
  | JNull => inr tt
  | JInt n => require_int (Some n) maximum
  | JFloat x => require_float (Some x) maximum
  | _ => inl (ValueError "invalid value")
  end.

(** The dataclasses do not convert their arguments. A value of the declared type
    is read as it is; any other value that passes the checks of the constructor
    is kept as a placeholder, and [well_typed] is false. *)
Definition as_int (value : Json) : option Z :=
  match value with JNull => None | JInt n => Some n | _ => Some 0 end.
Definition as_float (value : Json) : option float :=
  match value with JNull => None | JFloat x => Some x | _ => Some (fl_int 0) end.
Definition as_str (value : Json) : option string :=
  match value with JNull => None | JStr s => Some s | _ => Some "" end.
Definition is_int_field (value : Json) : bool := match value with JNull | JInt _ => true | _ => false end.
Definition is_float_field (value : Json) : bool := match value with JNull | JFloat _ => true | _ => false end.
Definition is_str_field (value : Json) : bool := match value with JNull | JStr _ => true | _ => false end.

(** The [except (KeyError, TypeError, ValueError)] of the decoder. *)
Definition catch_invalid {A} (reason : string) (m : exn + A) : exn + A :=
  match m with
  | inl (ValueError _) | inl KeyError | inl TypeError => inl (metadata_error reason)
  | r => r
  end.

(** Source: backend/src/fetchnow/jobs/metadata_codec.py:217-250 [media_metadata_from_jsonable]
    One format, and whether its optional numbers have their declared types. *)
Definition read_format (fields : list (string * Json)) : exn + MediaFormat * bool :=
  let? category := (let? v := item "category" fields in enum_of category_of (json_str v)) in
  let? media_kind := enum_of kind_of (json_str (get_or "mediaKind" (JStr (kind_value NORMAL_VIDEO)) fields)) in
  let? option_id := item "formatOptionId" fields in
  let? container := item "container" fields in
  let width := get "width" fields in
  let height := get "height" fields in
  let fps := get "fps" fields in
  let? has_video := item "hasVideo" fields in
  let? has_audio := item "hasAudio" fields in
  let? video_codec := (let? v := item "videoCodec" fields in enum_of codec_of (json_str v)) in
  let? audio_codec := (let? v := item "audioCodec" fields in enum_of codec_of (json_str v)) in
  let approx_bytes := get "approxBytes" fields in
  let? label := item "qualityLabel" fields in
  let? free := item "freeTierEligible" fields in
  let premium := get_or "requiresPremium" (JBool (negb (bool_decide (media_kind = NORMAL_VIDEO)))) fields in
  let bitrate := get "bitrateKbps" fields in
  let built := {|
    format_option_id := json_str option_id; mf_container := json_str container; mf_width := as_int width;
    mf_height := as_int height; mf_fps := as_float fps; mf_has_video := json_true has_video;
    mf_has_audio := json_true has_audio; mf_category := category; mf_video_codec := video_codec;
    mf_audio_codec := audio_codec; mf_approx_bytes := as_int approx_bytes; quality_label := json_str label;
    free_tier_eligible := json_true free; mf_media_kind := media_kind; requires_premium := json_true premium;
    mf_bitrate_kbps := as_int bitrate |} in
  require_safe_token (format_option_id built) ;;?
  require_safe_token (mf_container built) ;;?
  require_safe_token (quality_label built) ;;?
  require_number width None ;;?
  require_number height None ;;?
  require_number fps (Some (fl_int 240)) ;;?
  require_number approx_bytes None ;;?
  require_number bitrate (Some (fl_int 100000)) ;;?
  let? fmt := new_media_format built in
  inr (fmt, is_int_field width && is_int_field height && is_float_field fps && is_int_field approx_bytes && is_int_field bitrate).

(** Source: backend/src/fetchnow/jobs/metadata_codec.py:209-254 [media_metadata_from_jsonable] *)
Definition read_formats (raw_formats : list Json) : exn + list (MediaFormat * bool) :=
  err_map (fun raw =>
    match raw with
    | JObj fields => _reject_forbidden fields.*1 FORMAT_KEYS ;;? catch_invalid "METADATA_FORMAT_INVALID" (read_format fields)
    | _ => inl (metadata_error "METADATA_FORMAT_TYPE")
    end) raw_formats.

(** Source: backend/src/fetchnow/jobs/metadata_codec.py:255-270 [media_metadata_from_jsonable] *)
Definition read_metadata (payload : list (string * Json)) (formats : list (MediaFormat * bool)) : exn + option MediaMetadata :=
  let? provider_id := item "providerId" payload in
  let? canonical_provider_url := item "canonicalProviderUrl" payload in
  let? media_id := item "mediaId" payload in
  let title := get "title" payload in
  let duration_seconds := get "durationSeconds" payload in
  let? tool := item "extractionTool" payload in
  let version := get "extractionToolVersion" payload in
  let? muxing := _muxing_required_from_payload payload formats.*1 in
  let built := {|
    mm_provider_id := json_str provider_id; mm_canonical_provider_url := json_str canonical_provider_url;
    mm_media_id := json_str media_id; mm_title := as_str title; mm_duration_seconds := as_int duration_seconds;
    mm_formats := formats.*1; extraction_tool := json_str tool; extraction_tool_version := as_str version;
    muxing_required := muxing |} in
  let? m := new_media_metadata built in
  require_number duration_seconds None ;;?
  inr (if forallb snd formats && is_str_field title && is_int_field duration_seconds then Some m else None).

(** Source: backend/src/fetchnow/jobs/metadata_codec.py:185-270 [media_metadata_from_jsonable]
    [inr None]: an object with a field outside its declared type. *)
Definition media_metadata_from_jsonable (payload : Json) (max_bytes : Z) : exn + option MediaMetadata :=
  match payload with
  | JObj members =>
      raise_if (max_bytes <? _json_byte_size payload) (metadata_error "METADATA_TOO_LARGE") ;;?
      _reject_forbidden members.*1 TOP_LEVEL_KEYS ;;?
      match get "formats" members with
      | JArr raw_formats =>
          let? formats := read_formats raw_formats in
          catch_invalid "METADATA_INVALID" (read_metadata members formats)
      | _ => inl (metadata_error "METADATA_FORMATS_TYPE")
      end
  | _ => inl (metadata_error "METADATA_PAYLOAD_TYPE")
  end.

(** ** What is written reads back *)

Lemma as_int_of n : as_int (json_opt_int n) = n /\ is_int_field (json_opt_int n) = true.
Proof. by destruct n. Qed.
Lemma as_float_of x : as_float (json_opt_float x) = x /\ is_float_field (json_opt_float x) = true.
Proof. by destruct x. Qed.
Lemma as_str_of s : as_str (json_opt_str s) = s /\ is_str_field (json_opt_str s) = true.
Proof. by destruct s. Qed.

Lemma require_number_int n maximum : require_number (json_opt_int n) maximum = require_int n maximum.
Proof. by destruct n. Qed.
Lemma require_number_float x maximum : require_number (json_opt_float x) maximum = require_float x maximum.
Proof. by destruct x. Qed.

Lemma read_stored_format fmt : new_media_format fmt = inr fmt -> read_format (stored_format_members fmt) = inr (fmt, true).
Proof.
  intros Hnew. unfold read_format, item.
  change (json_get "category" (stored_format_members fmt)) with (Some (JStr (category_value (mf_category fmt)))).
  change (get_or "mediaKind" _ (stored_format_members fmt)) with (JStr (kind_value (mf_media_kind fmt))).
  cbn [need err_bind json_str]. unfold enum_of. rewrite category_of_value, kind_of_value. cbn [need err_bind].
  change (json_get "formatOptionId" (stored_format_members fmt)) with (Some (JStr (format_option_id fmt))).
  change (json_get "container" (stored_format_members fmt)) with (Some (JStr (mf_container fmt))).
  change (get "width" (stored_format_members fmt)) with (json_opt_int (mf_width fmt)).
  change (get "height" (stored_format_members fmt)) with (json_opt_int (mf_height fmt)).
  change (get "fps" (stored_format_members fmt)) with (json_opt_float (mf_fps fmt)).
  change (json_get "hasVideo" (stored_format_members fmt)) with (Some (JBool (mf_has_video fmt))).
  change (json_get "hasAudio" (stored_format_members fmt)) with (Some (JBool (mf_has_audio fmt))).
  change (json_get "videoCodec" (stored_format_members fmt)) with (Some (JStr (codec_value (mf_video_codec fmt)))).
  change (json_get "audioCodec" (stored_format_members fmt)) with (Some (JStr (codec_value (mf_audio_codec fmt)))).
  cbn [need err_bind json_str]. rewrite !codec_of_value. cbn [need err_bind].
  change (get "approxBytes" (stored_format_members fmt)) with (json_opt_int (mf_approx_bytes fmt)).
  change (json_get "qualityLabel" (stored_format_members fmt)) with (Some (JStr (quality_label fmt))).
  change (json_get "freeTierEligible" (stored_format_members fmt)) with (Some (JBool (free_tier_eligible fmt))).
  change (get_or "requiresPremium" _ (stored_format_members fmt)) with (JBool (requires_premium fmt)).
  change (get "bitrateKbps" (stored_format_members fmt)) with (json_opt_int (mf_bitrate_kbps fmt)).
  cbn [need err_bind json_str json_true]. cbv zeta.
  rewrite !require_number_int, require_number_float, !(proj1 (as_int_of _)), !(proj1 (as_float_of _)), !(proj2 (as_int_of _)), (proj2 (as_float_of _)).
  assert (Hb : new_media_format fmt = inr fmt) by done. unfold new_media_format in Hb. do 8 ok_step Hb.
  apply raise_unit in Hb0, Hb1, Hb2, Hb3, Hb4, Hb5, Hb6, Hb7. cbn [quality_label format_option_id mf_container].
  rewrite Hb0, Hb1, Hb2, Hb3, Hb4, Hb5, Hb6, Hb7. cbn [err_bind].
  destruct fmt. cbn in Hnew |- *. by rewrite Hnew.
Qed.

Lemma reject_allowed keys allow :
  forallb (fun k => bool_decide (k ∈ allow) && negb (bool_decide (k ∈ METADATA_FORBIDDEN_KEYS)) &&
    negb (bool_decide (lower (of_chars (strip is_space (chars k))) ∈ (lower <$> METADATA_FORBIDDEN_KEYS)))) keys = true ->
  _reject_forbidden keys allow = inr tt.
Proof.
  induction keys as [|k keys IH]; [done|]. cbn [forallb _reject_forbidden]. intros [[[Ha Hf%negb_true_iff]%andb_prop Hl%negb_true_iff]%andb_prop Hk]%andb_prop.
  cbv zeta. rewrite Hf, Hl, Ha. cbn. by apply IH.
Qed.

Lemma read_stored_formats formats : Forall (fun fmt => new_media_format fmt = inr fmt) formats ->
  read_formats ((fun fmt => JObj (stored_format_members fmt)) <$> formats) = inr ((., true) <$> formats).
Proof.
  unfold read_formats. induction 1 as [|fmt formats Hf _ IH]; [done|]. cbn [fmap list_fmap err_map].
  rewrite reject_allowed by by vm_compute. cbn [err_bind]. rewrite read_stored_format by done. cbn [catch_invalid err_bind].
  by rewrite IH.
Qed.

Lemma stored_metadata_reads m max_bytes payload :
  new_media_metadata m = inr m -> Forall (fun fmt => new_media_format fmt = inr fmt) (mm_formats m) ->
  media_metadata_to_jsonable m max_bytes = inr payload ->
  media_metadata_from_jsonable (JObj payload) max_bytes = inr (Some m).
Proof.
  intros Hnew Hf Ht. unfold media_metadata_to_jsonable in Ht. ok_step Ht. injection Ht as <-.
  unfold media_metadata_from_jsonable. rewrite Ht0. cbn [err_bind].
  rewrite reject_allowed by by vm_compute. cbn [err_bind].
  change (get "formats" (metadata_members m)) with (JArr ((fun fmt => JObj (stored_format_members fmt)) <$> mm_formats m)).
  cbv iota. rewrite read_stored_formats by done. cbn [err_bind].
  assert (Efst : ((., true) <$> mm_formats m).*1 = mm_formats m) by (rewrite <- list_fmap_compose; apply list_fmap_id).
  unfold read_metadata, item.
  change (json_get "providerId" (metadata_members m)) with (Some (JStr (mm_provider_id m))).
  change (json_get "canonicalProviderUrl" (metadata_members m)) with (Some (JStr (mm_canonical_provider_url m))).
  change (json_get "mediaId" (metadata_members m)) with (Some (JStr (mm_media_id m))).
  change (get "title" (metadata_members m)) with (json_opt_str (mm_title m)).
  change (get "durationSeconds" (metadata_members m)) with (json_opt_int (mm_duration_seconds m)).
  change (json_get "extractionTool" (metadata_members m)) with (Some (JStr (extraction_tool m))).
  change (get "extractionToolVersion" (metadata_members m)) with (json_opt_str (extraction_tool_version m)).
  change (_muxing_required_from_payload (metadata_members m) ((., true) <$> mm_formats m).*1) with (@inr exn _ (muxing_required m)).
  cbn [need err_bind json_str]. rewrite Efst, !(proj1 (as_str_of _)), (proj1 (as_int_of _)), require_number_int, (proj2 (as_str_of _)), (proj2 (as_int_of _)).
  assert (Hb := Hnew). unfold new_media_metadata in Hb. do 6 ok_step Hb. apply raise_unit in Hb5.
  assert (Hall : forallb snd ((., true) <$> mm_formats m) = true) by (clear; induction (mm_formats m); done).
  destruct m. cbn in Hnew, Hb5, Hall |- *. rewrite Hnew. cbn [err_bind]. rewrite Hb5. cbn [err_bind]. by rewrite Hall.
Qed.

(** C30: Metadata reads back as it was written: a valid metadata object that was
    stored under the size bound is loaded again with every format, title and
    estimate unchanged. *)
Theorem metadata_roundtrip m max_bytes payload :
  new_media_metadata m = inr m -> Forall (fun fmt => new_media_format fmt = inr fmt) (mm_formats m) ->
  media_metadata_to_jsonable m max_bytes = inr payload ->
  media_metadata_from_jsonable (JObj payload) max_bytes = inr (Some m).
Proof. apply stored_metadata_reads. Qed.

(** ** What is read is valid *)

(** What the constructors and the accesses may raise. *)
Definition caught_or_overflow (e : exn) : Prop :=
  match e with ValueError _ | KeyError | TypeError | UnexpectedError => True | _ => False end.

Lemma require_int_outcome n maximum : outcome (require_int n maximum) (fun _ => require_int n maximum = inr tt) caught_or_overflow.
Proof.
  unfold require_int, float_of_int. destruct n as [n|]; [|done]. destruct (n <? 0); [done|].
  destruct maximum as [m|]; [|done]. destruct (fl_finite _); cbn; [|done]. by destruct (fl_ltb _ _).
Qed.

Lemma require_float_outcome x maximum : outcome (require_float x maximum) (fun _ => require_float x maximum = inr tt) caught_or_overflow.
Proof.
  unfold require_float. destruct x as [x|]; [|done]. destruct (_ || _); [done|].
  destruct maximum as [m|]; [|done]. by destruct (fl_ltb _ _).
Qed.

Lemma require_number_outcome v maximum : outcome (require_number v maximum) (fun _ => True) caught_or_overflow.
Proof.
  destruct v; try done; [eapply outcome_mono; [..|apply require_int_outcome]|eapply outcome_mono; [..|apply require_float_outcome]]; done.
Qed.

Lemma require_safe_token_outcome s : outcome (require_safe_token s) (fun _ => True) caught_or_overflow.
Proof. unfold require_safe_token. by outcome_step. Qed.

#[local] Hint Resolve require_number_outcome require_safe_token_outcome : fetchnow.

(** Discharges the checks that only raise. *)
Ltac checks :=
  repeat first
    [ eapply outcome_mono; [intros ? _|intros ? ?; eassumption|solve [eauto with fetchnow nocore]]
    | outcome_step; try exact I ].

Lemma new_media_format_outcome f :
  outcome (new_media_format f) (fun g => new_media_format g = inr g) caught_or_overflow.
Proof.
  destruct (new_media_format f) as [e|g] eqn:E.
  - cbn. revert E. change (new_media_format f = inl e -> caught_or_overflow e).
    enough (H : outcome (new_media_format f) (fun _ => True) caught_or_overflow) by (intros E; by rewrite E in H).
    unfold new_media_format.
    assert (Hi : forall n m, outcome (require_int n m) (fun _ => True) caught_or_overflow)
      by (intros; eapply outcome_mono; [..|apply require_int_outcome]; done).
    assert (Hx : forall x m, outcome (require_float x m) (fun _ => True) caught_or_overflow)
      by (intros; eapply outcome_mono; [..|apply require_float_outcome]; done).
    checks.
  - cbn. assert (H := E). unfold new_media_format in H. do 13 ok_step H. injection H as <-. exact E.
Qed.

Lemma new_media_metadata_outcome m :
  outcome (new_media_metadata m) (fun n => new_media_metadata m = inr n /\ n = m) caught_or_overflow.
Proof.
  assert (H : outcome (new_media_metadata m) (fun n => n = m) caught_or_overflow).
  { unfold new_media_metadata.
    assert (Hi : forall n mx, outcome (require_int n mx) (fun _ => True) caught_or_overflow)
      by (intros; eapply outcome_mono; [..|apply require_int_outcome]; done).
    checks; done. }
  by destruct (new_media_metadata m).
Qed.

Lemma item_outcome key fields : outcome (item key fields) (fun _ => True) caught_or_overflow.
Proof. unfold item. by outcome_step. Qed.

Lemma enum_outcome {A} (parse : string -> option A) s : outcome (enum_of parse s) (fun _ => True) caught_or_overflow.
Proof. unfold enum_of. by outcome_step. Qed.

#[local] Hint Resolve item_outcome enum_outcome : fetchnow.

Definition valid_format (fb : MediaFormat * bool) : Prop := new_media_format fb.1 = inr fb.1.

Lemma read_format_outcome fields : outcome (read_format fields) valid_format caught_or_overflow.
Proof.
  unfold read_format. checks.
  eapply outcome_mono; [..|apply new_media_format_outcome]; [|done]. cbn. intros g Hg. exact Hg.
Qed.

(** What the decoder may raise: its own errors, and an overflow of an integer
    that is compared as a float. *)
Definition codec_error (e : exn) : Prop := (exists reason, e = metadata_error reason) \/ e = UnexpectedError.

Lemma codec_error_intro reason : codec_error (metadata_error reason).
Proof. left. by exists reason. Qed.
#[local] Hint Resolve codec_error_intro : fetchnow.

Lemma catch_invalid_outcome {A} reason (r : exn + A) (Q : A -> Prop) :
  outcome r Q (fun e => caught_or_overflow e \/ codec_error e) -> outcome (catch_invalid reason r) Q codec_error.
Proof.
  destruct r as [e|a]; [|done]. destruct e; cbn; try (intros [?|?]; [by auto using codec_error_intro|done]);
    intros _; first [apply codec_error_intro|by right].
Qed.

Lemma reject_outcome keys allow : outcome (_reject_forbidden keys allow) (fun _ => True) codec_error.
Proof.
  induction keys as [|k keys IH]; [done|]. cbn [_reject_forbidden]. outcome_step. outcome_step; [apply codec_error_intro|].
  outcome_step. outcome_step; [apply codec_error_intro|exact IH].
Qed.

Lemma read_formats_outcome raw : outcome (read_formats raw) (Forall valid_format) codec_error.
Proof.
  apply outcome_err_map. intros v. destruct v; try apply codec_error_intro. outcome_step.
  eapply outcome_mono; [..|apply reject_outcome]; [intros _ _|done]. apply catch_invalid_outcome.
  eapply outcome_mono; [..|apply read_format_outcome]; auto.
Qed.

(** C31: The decoder accepts only valid metadata: whatever object is stored, it
    returns metadata that passes the checks of its constructor and whose formats
    all pass theirs, or raises its own internal error; the only other exception
    is the overflow of an integer compared as a float. *)
Theorem metadata_reads_valid payload max_bytes :
  outcome (media_metadata_from_jsonable payload max_bytes)
    (fun r => forall m, r = Some m ->
       new_media_metadata m = inr m /\ Forall (fun fmt => new_media_format fmt = inr fmt) (mm_formats m))
    (fun e => (exists reason, e = metadata_error reason) \/ e = UnexpectedError).
Proof.
  change (fun e => _ \/ _) with codec_error. unfold media_metadata_from_jsonable.
  destruct payload as [| | | | | |members]; try apply codec_error_intro.
  outcome_step. outcome_step; [apply codec_error_intro|]. outcome_step.
  eapply outcome_mono; [..|apply reject_outcome]; [intros _ _|done].
  destruct (get "formats" members); try apply codec_error_intro. outcome_step.
  eapply outcome_mono; [..|apply read_formats_outcome]; [|done]. intros formats Hf. apply catch_invalid_outcome.
  unfold read_metadata.
  assert (Hi : forall key, outcome (item key members) (fun _ => True) (fun e => caught_or_overflow e \/ codec_error e))
    by (intros; eapply outcome_mono; [..|apply item_outcome]; auto).
  do 4 (outcome_step; eapply outcome_mono; [intros ? _|intros ? HX; exact HX|apply Hi]). outcome_step.
  unfold _muxing_required_from_payload. eapply outcome_mono with (Q := fun _ => True) (X := codec_error);
    [intros ? _|auto|repeat case_match; try done; apply codec_error_intro].
  outcome_step. eapply outcome_mono; [..|apply new_media_metadata_outcome]; [|auto]. intros n [Hn En].
  outcome_step. eapply outcome_mono; [intros ? _|..|apply require_number_outcome]; [|auto].
  cbn [outcome]. intros m' Em. destruct (_ && _) in Em; [|done]. injection Em as <-. subst n. split; [exact Hn|].
  cbn [mm_formats]. apply Forall_fmap. exact Hf.
Qed.

Module MetadataExamples.

Definition demo_metadata : MediaMetadata := {|
  mm_provider_id := "vk"; mm_canonical_provider_url := "https://vk.com/video-1_2"; mm_media_id := "-1_2";
  mm_title := Some "A title"; mm_duration_seconds := Some 61; mm_formats := [FormatExamples.demo_format];
  extraction_tool := "yt_dlp"; extraction_tool_version := Some "2025.01.15"; muxing_required := false |}.

Definition demo_stored : list (string * Json) := metadata_members demo_metadata.

Lemma metadata_roundtrip_witness :
  media_metadata_from_jsonable (JObj demo_stored) 65536 = inr (Some demo_metadata).
Proof.
  apply (metadata_roundtrip demo_metadata 65536 demo_stored).
  - vm_compute. reflexivity.
  - apply Forall_singleton. vm_compute. reflexivity.
  - vm_compute. reflexivity.
Defined.

(** A snapshot from before the Premium kinds. *)
Definition legacy_format : Json := JObj
  [("formatOptionId", JStr "fmt_0123456789abcdef"); ("container", JStr "mp4"); ("width", JInt 640); ("height", JInt 360);
   ("fps", JNull); ("hasVideo", JBool true); ("hasAudio", JBool true); ("category", JStr "progressive");
   ("videoCodec", JStr "avc"); ("audioCodec", JStr "aac"); ("approxBytes", JNull); ("qualityLabel", JStr "p360");
   ("freeTierEligible", JBool true)].
Definition legacy_stored (extra : list (string * Json)) : Json := JObj
  (app [("providerId", JStr "vk"); ("canonicalProviderUrl", JStr "https://vk.com/video-1_2"); ("mediaId", JInt (-12));
   ("formats", JArr [legacy_format]); ("extractionTool", JStr "yt_dlp")] extra).

(** Missing fields are derived, and a number becomes its text. *)
Example legacy_reads :
  match media_metadata_from_jsonable (legacy_stored []) 65536 with
  | inr (Some m) => (mm_media_id m, muxing_required m, mf_media_kind <$> mm_formats m, requires_premium <$> mm_formats m) =
                    ("-12", false, [NORMAL_VIDEO], [false])
  | _ => False
  end.
Proof. by vm_compute. Qed.

Example forbidden_key_is_refused :
  media_metadata_from_jsonable (legacy_stored [(" Cookie ", JNull)]) 65536 = inl (metadata_error "METADATA_FORBIDDEN_KEY").
Proof. by vm_compute. Qed.

Example nested_text :
  json_str (JObj [("a", JArr [JInt 1; JNull; JBool true]); ("b'", JStr "x\y")]) =
  of_chars (chars "{'a': [1, None, True], " ++ "034"%char :: chars "b'" ++ "034"%char :: chars ": 'x\\y'}").
Proof. by vm_compute. Qed.
End MetadataExamples.
