(* ===== verification/Grants.v ===== *)
(** Browser delivery grants: [downloads/grant_repository.py]. *)

From S2P Require Export Database.

Local Open Scope string_scope.
Local Open Scope Z_scope.

Module BrowserGrantRepository.

(** Source: backend/src/fetchnow/downloads/grant_repository.py:24-31 [database_now] *)
Definition database_now : DB time := clock_timestamp.

(** Source: backend/src/fetchnow/downloads/grant_repository.py:33-43 [lock_download_job] *)
Definition lock_download_job (download_job_id : uid) : DB (option MediaDownloadJob) :=
  select_by_id download_job_id (fun _ => true).

(** Source: backend/src/fetchnow/downloads/grant_repository.py:53-57 [DeliveryGrantRepository.list_active_for_job]
    The grant is neither revoked nor expired at [now]. *)
Definition grant_active (download_job_id : uid) (now : time) (g : MediaDeliveryGrant) : bool :=
  bool_decide (dg_download_job_id g = download_job_id) && is_none (dg_revoked_at g) &&
  (now <? dg_expires_at g).

(** Source: backend/src/fetchnow/downloads/grant_repository.py:45-61 [list_active_for_job] *)
Definition list_active_for_job (download_job_id : uid) (now : time) : DB (list MediaDeliveryGrant) :=
  let* found := select (grant_active download_job_id now) in
  ret (order_by dg_created_at found).

(** Source: backend/src/fetchnow/downloads/grant_repository.py:69-69 [DeliveryGrantRepository.revoke_grants]
    [grant.revoked_at = now if now >= grant.created_at else grant.created_at] *)
Definition revoke_row (now : time) (g : MediaDeliveryGrant) : MediaDeliveryGrant :=
  g <| dg_revoked_at := Some (if dg_created_at g <=? now then now else dg_created_at g) |>.

(** Source: backend/src/fetchnow/downloads/grant_repository.py:63-71 [revoke_grants] *)
Definition revoke_grants (grants : list MediaDeliveryGrant) (now : time) : DB unit :=
  map_m (fun grant => update_row (dg_id grant) (revoke_row now)) grants ;;; ret tt.

(** Source: backend/src/fetchnow/downloads/grant_repository.py:73-106 [insert_grant] *)
Definition insert_grant (grant_id download_job_id : uid) (token_hash : bytes) (artifact_id : uid)
    (fence_token : Z) (created_at expires_at : time) : DB MediaDeliveryGrant :=
  raise_when (negb (Nat.eqb (length token_hash) 32))
    (download_error DOWNLOAD_INTERNAL_ERROR "GRANT_HASH_LENGTH") ;;;
  raise_when (expires_at <=? created_at)
    (download_error DOWNLOAD_INTERNAL_ERROR "GRANT_TTL_INVALID") ;;;
  let row := {|
    dg_id := grant_id;
    dg_download_job_id := download_job_id;
    dg_token_hash := token_hash;
    dg_artifact_id := artifact_id;
    dg_fence_token := fence_token;
    dg_created_at := created_at;
    dg_expires_at := expires_at;
    dg_revoked_at := None
  |} in
  insert_row row ;;; ret row.

(** Source: backend/src/fetchnow/downloads/grant_repository.py:108-112 [get_by_id] *)
Definition get_by_id (grant_id : uid) : DB (option MediaDeliveryGrant) :=
  select_by_id grant_id (fun _ => true).

(** Source: backend/src/fetchnow/downloads/grant_repository.py:114-143 [delete_expired_batch] *)
Definition delete_expired_batch (locked : uid -> bool) (now : time) (limit : Z) : DB Z :=
  raise_when ((limit <? 1) || (256 <? limit))
    (download_error DOWNLOAD_INTERNAL_ERROR "GRANT_CLEANUP_LIMIT") ;;;
  let* found := select (fun g =>
    ((dg_expires_at g <=? now) || is_some (dg_revoked_at g)) && negb (locked (dg_id g))) in
  let ids := dg_id <$> take (Z.to_nat limit) (order_by dg_expires_at found) in
  match ids with
  | [] => ret 0
  | _ => let* n := delete_ids (R := MediaDeliveryGrant) ids in ret (Z.of_nat n)
  end.

End BrowserGrantRepository.
