(* ===== verification/GrantService.v ===== *)
(** Issuing browser delivery grants ([downloads/grant_service.py]). *)

From S2P Require Export Jobs Delivery Grants Tokens.

Local Open Scope string_scope.
Local Open Scope list_scope.
Local Open Scope Z_scope.

Module BrowserGrantService.
Import BrowserGrantRepository.

(** Source: backend/src/fetchnow/downloads/grant_service.py:32-40 [IssuedBrowserGrant] *)
Record IssuedBrowserGrant := {
  grant_id : uid;
  download_path : string;
  expires_at : time;
  raw_token : string;
  cookie_max_age : Z
}.

(** Source: backend/src/fetchnow/downloads/browser_grant_tokens.py:89-91 [content_path_for_grant] *)
Definition content_path_for_grant (id : uid) : string :=
  ("/api/v1/media/browser-grants/" ++ uuid_text id ++ "/content")%string.

(** Source: backend/src/fetchnow/downloads/grant_service.py:57-66 [set_cookie_header] *)
Definition set_cookie_header (issued : IssuedBrowserGrant) : string :=
  (GRANT_COOKIE_NAME ++ "=" ++ raw_token issued ++ "; Path=" ++
   content_path_for_grant (grant_id issued) ++ "; Max-Age=" ++ str_of_Z (cookie_max_age issued) ++
   "; HttpOnly; Secure; SameSite=Strict")%string.

(** Source: backend/src/fetchnow/downloads/grant_service.py:187-200 [_assert_ready_pointer] *)
Definition assert_ready_pointer (job : MediaDownloadJob) : exn + unit :=
  if is_none (dj_artifact_id job) || is_none (dj_artifact_bytes job) ||
     is_none (dj_artifact_container job) || is_none (dj_artifact_content_type job) ||
     is_none (dj_completed_at job) || is_some (dj_public_error_code job)
  then inl (download_error DOWNLOAD_STORAGE_UNAVAILABLE "READY_POINTER_INCOMPLETE")
  else inr tt.

(** Source: backend/src/fetchnow/downloads/grant_service.py:75-86 [issue]
    The hash of the access token; another error than a malformed token is
    reported as internal. *)
Definition credential_of (access_token : string) : exn + bytes :=
  match hash_access_token access_token with
  | inr credential_hash => inr credential_hash
  | inl (JobError INVALID_ACCESS_TOKEN _ _) => inl (download_error DOWNLOAD_JOB_NOT_FOUND "TOKEN_SHAPE")
  | inl (JobError _ _ _) => inl (download_error DOWNLOAD_INTERNAL_ERROR "TOKEN_HASH_FAILED")
  | inl e => inl e
  end.

(** Source: backend/src/fetchnow/downloads/grant_service.py:147-156 [issue]
    [active[:overflow]]: the oldest grants that must go. *)
Definition evicted (max_active : Z) (active : list MediaDeliveryGrant) : list MediaDeliveryGrant :=
  take (Z.to_nat (Z.of_nat (length active) - (max_active - 1))) active.

(** Source: backend/src/fetchnow/downloads/grant_service.py:68-185 [issue]

    [random] are the bytes [generate_grant_token] draws. *)
Definition issue (settings : Settings) (download_job_id : uid) (access_token : string)
    (random : bytes) : DB IssuedBrowserGrant :=
  let* credential_hash := lift (credential_of access_token) in
  raise_when (negb (media_browser_delivery_enabled settings))
    (download_error DELIVERY_DISABLED "BROWSER_DELIVERY_DISABLED") ;;;
  raise_when (negb (media_downloads_enabled settings))
    (download_error DOWNLOADS_DISABLED "DOWNLOADS_DISABLED") ;;;
  let* found := lock_download_job download_job_id in
  match found with
  | None => raise (download_error DOWNLOAD_JOB_NOT_FOUND "MISSING")
  | Some job =>
      let* now := database_now in
      let* parent := MediaJobRepository.get_by_id (dj_media_job_id job) in
      match parent with
      | None => raise (download_error DOWNLOAD_JOB_NOT_FOUND "UNAUTHORIZED")
      | Some parent =>
          raise_when (negb (tokens_match (mj_credential_hash parent) credential_hash))
            (download_error DOWNLOAD_JOB_NOT_FOUND "UNAUTHORIZED") ;;;
          raise_when (bool_decide (mj_public_state parent = JobStates.EXPIRED) ||
                      (mj_expires_at parent <=? now) ||
                      bool_decide (dj_public_state job = DownloadStates.EXPIRED) ||
                      (dj_expires_at job <=? now))
            (download_error DOWNLOAD_EXPIRED "TTL_ELAPSED") ;;;
          raise_when (negb (bool_decide (dj_public_state job = DownloadStates.READY)))
            (download_error DOWNLOAD_NOT_READY "NOT_READY") ;;;
          lift (assert_ready_pointer job) ;;;
          let grant_expires :=
            Z.min (now + seconds (media_browser_grant_ttl_seconds settings)) (dj_expires_at job) in
          raise_when (grant_expires <=? now) (download_error DOWNLOAD_EXPIRED "GRANT_TTL_ELAPSED") ;;;
          let max_active := media_browser_grant_max_active settings in
          let* active := list_active_for_job (dj_id job) now in
          (if 0 <? Z.of_nat (length active) - (max_active - 1)
           then revoke_grants (evicted max_active active) now else ret tt) ;;;
          let token := generate_token random in
          let* token_hash := lift (hash_grant_token token) in
          let* id := uuid4 in
          match dj_artifact_id job with
          | None => raise AssertionError
          | Some artifact_id =>
              insert_grant id (dj_id job) token_hash artifact_id (dj_fence_token job) now grant_expires ;;;
              ret {|
                grant_id := id;
                download_path := content_path_for_grant id;
                expires_at := grant_expires;
                raw_token := token;
                cookie_max_age := Z.max 1 ((grant_expires - now) / 1000000)
              |}
          end
      end
  end.

End BrowserGrantService.

Module GrantTheorems.
Import BrowserGrantRepository BrowserGrantService.

(** What an issued grant is, and what issuing it did to the other grants of the
    job: [kept] are those that stay active. *)
Record issuance (settings : Settings) (download_job_id : uid) (access_token : string) (w w' : World)
    (issued : IssuedBrowserGrant) (job : MediaDownloadJob) (now : time)
    (g : MediaDeliveryGrant) (kept : list MediaDeliveryGrant) : Prop := {
  is_job : media_download_jobs w !! download_job_id = Some job;
  is_ready : dj_public_state job = DownloadStates.READY;
  is_parent : exists parent, media_jobs w !! dj_media_job_id job = Some parent /\
                hash_access_token access_token = inr (mj_credential_hash parent);
  is_new : media_delivery_grants w !! dg_id g = None;
  is_stored : media_delivery_grants w' !! dg_id g = Some g;
  is_id : grant_id issued = dg_id g;
  is_secret : hash_grant_token (raw_token issued) = inr (dg_token_hash g);
  is_artifact : Some (dg_artifact_id g) = dj_artifact_id job /\ dg_fence_token g = dj_fence_token job;
  is_active : grant_active (dj_id job) now g = true;
  is_expiry : dg_expires_at g = expires_at issued /\ expires_at issued <= dj_expires_at job;
  is_bounded : Z.of_nat (length kept) < media_browser_grant_max_active settings;
  is_all : forall r, media_delivery_grants w' !! dg_id r = Some r ->
    grant_active (dj_id job) now r = true -> r = g \/ r ∈ kept;
  is_other : forall r, media_delivery_grants w !! dg_id r = Some r ->
    grant_active (dj_id job) now r = false \/ r ∈ kept -> media_delivery_grants w' !! dg_id r = Some r;
  is_evicted : forall r, media_delivery_grants w !! dg_id r = Some r ->
    grant_active (dj_id job) now r = true -> r ∉ kept ->
    media_delivery_grants w' !! dg_id r = Some (revoke_row now r) /\
    Z.of_nat (length kept) = media_browser_grant_max_active settings - 1 /\
    forall k, k ∈ kept -> row_le dg_created_at r k;
  is_tables : same_tables (with_table (media_delivery_grants w) w') w
}.

Lemma revoked_inactive job now r : grant_active job now (revoke_row now r) = false.
Proof. unfold grant_active. cbn. by rewrite andb_false_r. Qed.

(** The grants that stay, of the active ones in order of age. *)
Definition kept_of (max_active : Z) (active : list MediaDeliveryGrant) : list MediaDeliveryGrant :=
  drop (Z.to_nat (Z.of_nat (length active) - (max_active - 1))) active.

(** What eviction leaves in the table. *)
Record eviction (max_active : Z) (job : uid) (now : time) (w : World)
    (kept : list MediaDeliveryGrant) (t : gmap uid MediaDeliveryGrant) : Prop := {
  ev_bounded : Z.of_nat (length kept) < max_active;
  ev_all : forall r, t !! dg_id r = Some r -> grant_active job now r = true -> r ∈ kept;
  ev_other : forall r, media_delivery_grants w !! dg_id r = Some r ->
    grant_active job now r = false \/ r ∈ kept -> t !! dg_id r = Some r;
  ev_evicted : forall r, media_delivery_grants w !! dg_id r = Some r ->
    grant_active job now r = true -> r ∉ kept ->
    t !! dg_id r = Some (revoke_row now r) /\ Z.of_nat (length kept) = max_active - 1 /\
    forall k, k ∈ kept -> row_le dg_created_at r k;
  ev_ids : forall id, t !! id = None -> media_delivery_grants w !! id = None
}.

Section Eviction.
Context (max_active : Z) (job : uid) (now : time) (w : World).
Hypothesis grants_keyed : keyed (R := MediaDeliveryGrant) w.
Hypothesis some_active : 1 <= max_active.

Let active := order_by dg_created_at (List.filter (grant_active job now) (rows w)).

Lemma active_spec r :
  r ∈ active <-> media_delivery_grants w !! dg_id r = Some r /\ grant_active job now r = true.
Proof.
  unfold active. rewrite elem_of_order_by, elem_of_filter_rows. split.
  - intros [[id Hr] Ha]. split; [|done]. pose proof (grants_keyed _ _ Hr) as E. cbn in E. by rewrite E.
  - intros [Hr Ha]. split; [by exists (dg_id r)|done].
Qed.

Lemma active_split :
  NoDup (dg_id <$> evicted max_active active ++ kept_of max_active active) /\
  forall r, r ∈ active <-> r ∈ evicted max_active active \/ r ∈ kept_of max_active active.
Proof.
  unfold evicted, kept_of. rewrite take_drop. split.
  - unfold active. rewrite order_by_perm. change (NoDup (row_id <$> List.filter (grant_active job now) (rows w))). apply NoDup_filter_ids.
    apply (NoDup_row_ids (R := MediaDeliveryGrant)). exact grants_keyed.
  - intros r. rewrite <- elem_of_app. by rewrite take_drop.
Qed.

(** Rewriting exactly the evicted rows is an eviction. *)
Lemma eviction_intro t :
  (forall r, r ∈ evicted max_active active -> t !! dg_id r = Some (revoke_row now r)) ->
  (forall id, id ∉ dg_id <$> evicted max_active active -> t !! id = media_delivery_grants w !! id) ->
  eviction max_active job now w (kept_of max_active active) t.
Proof.
  intros Hev Hrest. destruct active_split as [Hnd Hsplit].
  rewrite fmap_app, NoDup_app in Hnd. destruct Hnd as (_ & Hdis & _).
  assert (Hids : forall r, media_delivery_grants w !! dg_id r = Some r ->
      dg_id r ∈ dg_id <$> evicted max_active active -> r ∈ evicted max_active active).
  { intros r Hr (r' & E & Hr')%list_elem_of_fmap. assert (r' ∈ active) as [Hs _]%active_spec by (apply Hsplit; by left).
    rewrite <- E in Hs. congruence. }
  split.
  - unfold kept_of. rewrite length_drop. lia.
  - intros r Hr Ha. destruct (decide (dg_id r ∈ dg_id <$> evicted max_active active)) as [Hin|Hni].
    + apply list_elem_of_fmap in Hin as (r' & E & Hr'). rewrite E, (Hev r' Hr') in Hr.
      injection Hr as <-. by rewrite revoked_inactive in Ha.
    + rewrite Hrest in Hr by done. assert (Hact : r ∈ active) by by apply active_spec.
      apply Hsplit in Hact as [Hact|]; [|done]. destruct Hni. apply list_elem_of_fmap. eauto.
  - intros r Hr Hor. rewrite Hrest; [done|]. intros Hin. pose proof (Hids r Hr Hin) as He.
    destruct Hor as [Ha|Hk].
    + assert (r ∈ active) as [_ Ha']%active_spec by (apply Hsplit; by left). congruence.
    + apply (Hdis (dg_id r)); [done|]. apply list_elem_of_fmap. eauto.
  - intros r Hr Ha Hk. assert (Hact : r ∈ active) by by apply active_spec.
    apply Hsplit in Hact as [He|]; [|done]. split; [by apply Hev|]. split.
    + unfold kept_of. rewrite length_drop. unfold evicted in He.
      destruct (decide (Z.of_nat (length active) - (max_active - 1) <= 0)); [|lia].
      rewrite Z2Nat.nonpos in He by lia. by apply not_elem_of_nil in He.
    + intros k Hkk. pose proof (order_by_sorted dg_created_at (List.filter (grant_active job now) (rows w))) as Hs.
      fold active in Hs. rewrite <- (take_drop (Z.to_nat (Z.of_nat (length active) - (max_active - 1))) active) in Hs.
      apply StronglySorted_app in Hs as (Hs & _ & _). by apply Hs.
  - intros id Hid. destruct (decide (id ∈ dg_id <$> evicted max_active active)) as [Hin|Hni].
    + apply list_elem_of_fmap in Hin as (r & -> & Hr). rewrite (Hev r Hr) in Hid. done.
    + by rewrite <- Hrest.
Qed.

(** The oldest active grants are revoked, the youngest stay. *)
Lemma wp_evict :
  wp (if 0 <? Z.of_nat (length active) - (max_active - 1)
      then revoke_grants (evicted max_active active) now else ret tt)
    (fun _ w1 => exists t, w1 = with_table t w /\
      eviction max_active job now w (kept_of max_active active) t)
    (fun _ _ => True) w.
Proof.
  destruct active_split as [Hnd Hsplit]. rewrite fmap_app, NoDup_app in Hnd. destruct Hnd as [Hnd _].
  destruct (Z.ltb_spec 0 (Z.of_nat (length active) - (max_active - 1))).
  - unfold revoke_grants. wp_step. unfold wp at 1.
    destruct (map_m _ _ w) as [[e|x] w1] eqn:E; [done|]. apply wp_ret.
    destruct (map_update_inv (revoke_row now) (evicted max_active active) w x w1) as (t & -> & Ht & Ho);
      [exact Hnd| |exact E|].
    + intros r Hr. assert (r ∈ active) as [Hs _]%active_spec by (apply Hsplit; by left). done.
    + exists t. split; [done|]. by apply eviction_intro.
  - apply wp_ret. exists (media_delivery_grants w). split; [by destruct w|].
    assert (E : evicted max_active active = []) by (unfold evicted; by rewrite Z2Nat.nonpos by lia).
    apply eviction_intro; rewrite E; [|done]. intros r Hr. by apply not_elem_of_nil in Hr.
Qed.

End Eviction.

Lemma wp_clock_now {A} (k : time -> DB A) Q X w :
  wp (k (clock w (clock_reads w))) Q X (w <| clock_reads := S (clock_reads w) |>) ->
  wp (let* now := clock_timestamp in k now) Q X w.
Proof. intros Hk. apply wp_bind. by apply wp_clock_timestamp. Qed.

Lemma credential_of_ok access_token credential_hash :
  credential_of access_token = inr credential_hash -> hash_access_token access_token = inr credential_hash.
Proof.
  unfold credential_of. destruct (hash_access_token access_token) as [e|]; [|done].
  destruct e; try done. by match goal with c : JobErrorCode |- _ => destruct c end.
Qed.

Lemma wp_guard c (e : exn) (Q : unit -> World -> Prop) w : (c = false -> Q tt w) -> wp (raise_when c e) Q (fun _ _ => True) w.
Proof. intros HQ. by destruct c; [|apply HQ]. Qed.

Lemma wp_issue settings download_job_id access_token random w :
  keyed (R := MediaDeliveryGrant) w -> 1 <= media_browser_grant_max_active settings ->
  wp (issue settings download_job_id access_token random)
    (fun issued w' => exists job g kept,
      issuance settings download_job_id access_token w w' issued job (clock w (clock_reads w)) g kept)
    (fun _ _ => True) w.
Proof.
  intros Hk Hmax. unfold issue, lock_download_job, database_now, MediaJobRepository.get_by_id.
  wp_step. wp_step; [done|]. rename a into credential, H into Hcred. apply credential_of_ok in Hcred.
  do 2 (wp_step; apply wp_guard; intros _). wp_step.
  apply wp_select_by_id; [|by intros _]. intros job Hjob _. apply wp_clock_now.
  set (now := clock w (clock_reads w)). set (w0 := w <| clock_reads := _ |>).
  wp_step. apply wp_select_by_id; [|by intros _]. intros parent Hparent _.
  wp_step. apply wp_guard. intros Hmatch%negb_false_iff%tokens_match_true.
  wp_step. apply wp_guard. intros _. wp_step. apply wp_guard. intros Hready. wp_step. wp_step; [done|].
  wp_step. apply wp_guard. intros Hlive. propify. wp_step. unfold list_active_for_job. wp_step.
  apply wp_select. apply wp_ret. wp_step.
  eapply wp_mono; [apply (wp_evict _ (dj_id job) now w0 Hk Hmax)| |done].
  intros [] w1 (t & -> & He). wp_step. wp_step; [done|]. rename a0 into token_hash, H0 into Htok.
  wp_step. apply wp_uuid4. destruct (dj_artifact_id job) as [artifact|] eqn:Ea; [|done].
  set (expires := Z.min _ _) in *. set (id := uuids _ _).
  unfold insert_grant. wp_step. wp_step. apply wp_guard. intros _. wp_step. apply wp_guard. intros _.
  wp_step. set (g := Build_MediaDeliveryGrant _ _ _ _ _ _ _ _). set (w2 := _ <| uuid_draws := _ |>).
  unfold wp at 1, insert_row. destruct (insert_ok g w2) eqn:Ei; [|done]. apply wp_ret. apply wp_ret.
  unfold insert_ok in Ei. propify. change (table w2) with t in *. cbn [row_id MediaDeliveryGrant_table] in *.
  assert (Hnone : t !! dg_id g = None) by (by destruct (t !! dg_id g)).
  exists job, g, (kept_of (media_browser_grant_max_active settings)
    (order_by dg_created_at (List.filter (grant_active (dj_id job) now) (rows w0)))).
  pose proof (ev_ids _ _ _ _ _ _ He _ Hnone) as Hfresh.
  assert (Hne : forall r, media_delivery_grants w !! dg_id r = Some r -> dg_id g <> dg_id r).
  { intros r Hr E. rewrite E in Hfresh. change (media_delivery_grants w !! dg_id r = None) in Hfresh.
    congruence. }
  split; cbn [grant_id raw_token expires_at dg_expires_at dg_fence_token dg_artifact_id]; try done.
  - exists parent. by rewrite Hmatch.
  - apply lookup_insert_eq.
  - unfold grant_active. cbn. rewrite bool_decide_eq_true_2 by done. cbn. by apply Z.ltb_lt.
  - split; [done|]. unfold expires. lia.
  - apply He.
  - intros r Hr Ha. change (<[dg_id g := g]> t !! dg_id r = Some r) in Hr.
    apply lookup_insert_Some in Hr as [[_ ->]|[_ Hr]]; [by left|]. right. by apply (ev_all _ _ _ _ _ _ He).
  - intros r Hr Hor. change (<[dg_id g := g]> t !! dg_id r = Some r).
    rewrite lookup_insert_ne by auto. by apply (ev_other _ _ _ _ _ _ He).
  - intros r Hr Ha Hni. destruct (ev_evicted _ _ _ _ _ _ He r Hr Ha Hni) as [E Hold].
    split; [|exact Hold]. change (<[dg_id g := g]> t !! dg_id r = Some (revoke_row now r)).
    by rewrite lookup_insert_ne by auto.
Qed.

(** C37: Issuing a grant keeps the number of usable grants of a job bounded. An
    issued grant is for a ready job of the bearer of the parent's token, for the
    artifact and the fence the job has now, under the hash of the secret handed
    out, and ends no later than the job. Together with it at most [max_active]
    grants of the job are active; the ones revoked to that end are the oldest,
    only as many as needed, and nothing else changes in any table. *)
Theorem issue_bounds_active_grants settings download_job_id access_token random w issued w' :
  keyed (R := MediaDeliveryGrant) w -> 1 <= media_browser_grant_max_active settings ->
  issue settings download_job_id access_token random w = (inr issued, w') ->
  exists job g kept,
    issuance settings download_job_id access_token w w' issued job (clock w (clock_reads w)) g kept.
Proof.
  intros Hk Hmax E. pose proof (wp_issue settings download_job_id access_token random w Hk Hmax) as Hw.
  unfold wp in Hw. by rewrite E in Hw.
Qed.

End GrantTheorems.

(** ** A ready job with three active grants, and a fourth tab *)
Module GrantExamples.
Import BrowserGrantRepository BrowserGrantService GrantTheorems.

Definition demo_token : string := generate_token (repeat Byte.x05 32).
Definition demo_random : bytes := repeat Byte.x09 32.
Definition demo_settings : Settings := QuotaExamples.demo_settings.

Definition demo_parent : MediaJob :=
  (JobExamples.demo_row JobExamples.demo1)
    <| mj_credential_hash := sha256 (domain "fetchnow:v1:media-job:access" ++ repeat Byte.x05 32) |>.

Definition demo_grant (id : uid) (created : time) : MediaDeliveryGrant := {|
  dg_id := id; dg_download_job_id := 20; dg_token_hash := repeat Byte.x07 31 ++ [byte_of_Z (Z.of_N id)];
  dg_artifact_id := 77; dg_fence_token := 1; dg_created_at := created;
  dg_expires_at := seconds 900; dg_revoked_at := None |}.

Definition demo_world : World :=
  (empty_world (fun n => seconds (200 + Z.of_nat n)) (fun n => (50 + N.of_nat n)%N))
    <| media_jobs := {[7%N := demo_parent]} |>
    <| media_download_jobs := {[20%N := DeliveryExamples.ready_job]} |>
    <| media_delivery_grants :=
         {[30%N := demo_grant 30 (seconds 5); 31%N := demo_grant 31 (seconds 3);
           32%N := demo_grant 32 (seconds 4)]} |>.

Definition demo_issue : (exn + IssuedBrowserGrant) * World :=
  issue demo_settings 20 demo_token demo_random demo_world.
Definition demo_issued : IssuedBrowserGrant :=
  match demo_issue.1 with
  | inr issued => issued
  | inl _ => Build_IssuedBrowserGrant 0 "none" 0 "none" 0
  end.

Lemma issue_bounds_active_grants_witness :
  demo_issue.1 = inr demo_issued /\ grant_id demo_issued = 50%N /\
  media_delivery_grants demo_issue.2 !! 31%N =
    Some (revoke_row (seconds 200) (demo_grant 31 (seconds 3))) /\
  exists g, media_delivery_grants demo_issue.2 !! 50%N = Some g /\ dg_artifact_id g = 77%N.
Proof.
  assert (E : demo_issue.1 = inr demo_issued) by (vm_compute; reflexivity).
  assert (Eid : grant_id demo_issued = 50%N) by (vm_compute; reflexivity).
  assert (Hk : keyed (R := MediaDeliveryGrant) demo_world).
  { intros id r. cbn. rewrite !lookup_insert_Some, lookup_singleton_Some.
    intros [[<- <-]|[_ [[<- <-]|[_ [<- <-]]]]]; reflexivity. }
  destruct (issue_bounds_active_grants demo_settings 20 demo_token demo_random demo_world
              demo_issued demo_issue.2 Hk) as (job & g & kept & Hi).
  - vm_compute. congruence.
  - rewrite <- E. apply surjective_pairing.
  - split; [exact E|]. split; [exact Eid|]. split; [vm_compute; reflexivity|].
    exists g. destruct Hi as [Hj _ _ _ Hs Hg _ [Ha _]]. split.
    + rewrite <- Eid, Hg. exact Hs.
    + vm_compute in Hj. injection Hj as <-. cbn in Ha. congruence.
Defined.

End GrantExamples.
