(* ===== verification/Promote.v ===== *)
(** Promotion of a ready Free download to Premium ([downloads/promote.py]). *)

From S2P Require Export GrantService FormatCodec.

Local Open Scope string_scope.
Local Open Scope list_scope.
Local Open Scope Z_scope.

Module DownloadPremiumUpgradeService.
Import QuotaRepository BrowserGrantRepository.

Definition job_not_found (reason : string) : exn := download_error DOWNLOAD_JOB_NOT_FOUND reason.
Definition incoherent (reason : string) : exn := download_error QUOTA_STATE_INCOHERENT reason.

(** Source: backend/src/fetchnow/downloads/promote.py:37-45 [PromoteResult] *)
Record PromoteResult := {
  promoted : MediaDownloadJob;
  promoted_now : bool
}.

(** Source: backend/src/fetchnow/downloads/promote.py:92-111 [upgrade]
    The job is not expired, ready, and has an artifact. *)
Definition assert_ready (job : MediaDownloadJob) (now : time) : exn + unit :=
  raise_if (dj_expires_at job <=? now) (download_error DOWNLOAD_EXPIRED "JOB_EXPIRED") ;;?
  raise_if (negb (bool_decide (dj_public_state job = DownloadStates.READY)))
    (download_error DOWNLOAD_NOT_READY "NOT_READY") ;;?
  raise_if (is_none (dj_artifact_id job) || is_none (dj_artifact_bytes job) ||
            (default 0 (dj_artifact_bytes job) <=? 0) || (dj_fence_token job <? 1))
    (download_error DOWNLOAD_NOT_READY "ARTIFACT_INCOHERENT").

(** The dictionary of a stored snapshot. *)
Definition members_of (snapshot : Json) : list (string * Json) :=
  match snapshot with JObj members => members | _ => [] end.

(** Source: backend/src/fetchnow/downloads/promote.py:113-122 [upgrade] *)
Definition stored_format (job : MediaDownloadJob) : exn + MediaFormat :=
  match decode_selected_format_snapshot
          (JObj (strip_effective_policy_snapshot (members_of (dj_selected_format_snapshot job))))
          (dj_format_option_id job) DEFAULT_MAX_JSON_BYTES with
  | inr fmt => inr fmt
  | inl _ => inl (unavailable "FORMAT_SNAPSHOT_INVALID")
  end.

(** Source: backend/src/fetchnow/downloads/promote.py:129-142 [upgrade] *)
Definition stored_policy (job : MediaDownloadJob) : exn + EffectiveDownloadPolicy :=
  match decode_effective_policy_snapshot (dj_selected_format_snapshot job) with
  | inr (Some policy) => inr policy
  | inr None => inl (unavailable "POLICY_SNAPSHOT_MISSING")
  | inl _ => inl (unavailable "POLICY_SNAPSHOT_INVALID")
  end.

(** Source: backend/src/fetchnow/downloads/promote.py:269-285 [_lock_ranges] *)
Definition _lock_ranges (entry_id : uid) : DB (list FreeDownloadDeliveryRange) :=
  let* found := select (fun r => bool_decide (dr_quota_entry_id r = entry_id)) in
  ret (order_by dr_request_start found).

(** Source: backend/src/fetchnow/downloads/promote.py:287-309 [_close_stale_leases]
    The statements of the ledger's own [_close_stale]. *)
Definition _close_stale_leases (rows : list FreeDownloadDeliveryRange) (now : time) : DB unit :=
  DeliveryQuotaAccounting.close_stale rows now.

(** Source: backend/src/fetchnow/downloads/promote.py:311-324 [_assert_generation] *)
Definition _assert_generation (rows : list FreeDownloadDeliveryRange) (job : MediaDownloadJob) : exn + unit :=
  raise_if (negb (forallb (DeliveryQuotaAccounting.same_generation job) rows)) (incoherent "LEDGER_GENERATION_MISMATCH").

(** Source: backend/src/fetchnow/downloads/promote.py:241-267 [_apply_quota_rule] *)
Definition _apply_quota_rule (entry : FreeDownloadQuotaEntry) (complete_coverage : bool) (now : time) : DB unit :=
  match qe_state entry with
  | CONSUMED => ret tt
  | RELEASED | ENTRY_EXPIRED => raise (incoherent "FREE_TERMINAL_QUOTA")
  | RESERVED =>
      if complete_coverage then consume_locked entry now ;;; ret tt
      else release_locked entry now false ;;; ret tt
  end.

(** Source: backend/src/fetchnow/downloads/promote.py:176-213 [upgrade]
    What becomes of the reservation. *)
Definition settle_entry (settings : Settings) (job : MediaDownloadJob) (anonymous_client_id : uid) (now : time) : DB unit :=
  let* entry := lock_entry_for_download (dj_id job) in
  match entry with
  | None => raise_when (free_download_quota_enabled settings) (incoherent "QUOTA_ENTRY_MISSING")
  | Some entry =>
      raise_when (negb (bool_decide (qe_anonymous_client_id entry = anonymous_client_id)))
        (job_not_found "QUOTA_IDENTITY_MISMATCH") ;;;
      let* rows := _lock_ranges (qe_id entry) in
      _close_stale_leases rows now ;;;
      let* rows := _lock_ranges (qe_id entry) in
      raise_when (existsb (fun row => DeliveryQuotaAccounting.is_active row && sql_gt (dr_lease_expires_at row) now) rows)
        (download_error DELIVERY_IN_PROGRESS "ACTIVE_DELIVERY_LEASE") ;;;
      lift (_assert_generation rows job) ;;;
      let coverage := normalize_intervals
        (DeliveryQuotaAccounting.served_interval <$> List.filter DeliveryQuotaAccounting.served rows) in
      let size := default 0 (dj_artifact_bytes job) in
      _apply_quota_rule entry (bool_decide (coverage = [(0, size)])) now
  end.

(** Source: backend/src/fetchnow/downloads/promote.py:215-231 [upgrade]
    The snapshot of the job becomes a Premium one, and its active grants go. *)
Definition apply_premium (settings : Settings) (job : MediaDownloadJob) (capability : PremiumCapability)
    (anonymous_client_id : uid) (now : time) : DB MediaDownloadJob :=
  let* premium_policy := lift (effective_download_policy settings (Some capability)) in
  let format_only := strip_effective_policy_snapshot (members_of (dj_selected_format_snapshot job)) in
  let* snapshot := lift (attach_effective_policy_snapshot format_only premium_policy (Some anonymous_client_id)) in
  let* job := update_row (dj_id job) (fun j : MediaDownloadJob =>
    j <| dj_selected_format_snapshot := JObj snapshot |> <| dj_updated_at := now |>) in
  let* active_grants := list_active_for_job (dj_id job) now in
  revoke_grants active_grants now ;;;
  ret job.

(** Source: backend/src/fetchnow/downloads/promote.py:56-239 [upgrade] *)
Definition upgrade (settings : Settings) (download_job_id : uid) (access_token : string)
    (anonymous_client_id : uid) : DB PromoteResult :=
  let* credential_hash := lift (hash_access_token access_token) in
  let* now := QuotaRepository.database_now in
  let* client := lock_client anonymous_client_id (Some now) in
  match client with
  | None => raise (job_not_found "IDENTITY_INACTIVE")
  | Some _ =>
  let* job := lock_download_job download_job_id in
  match job with
  | None => raise (job_not_found "MISSING")
  | Some job =>
  let* parent := MediaJobRepository.get_by_id (dj_media_job_id job) in
  match parent with
  | None => raise (job_not_found "UNAUTHORIZED")
  | Some parent =>
  raise_when (negb (tokens_match (mj_credential_hash parent) credential_hash)) (job_not_found "UNAUTHORIZED") ;;;
  lift (assert_ready job now) ;;;
  let* format_snapshot := lift (stored_format job) in
  raise_when (negb (bool_decide (mf_media_kind format_snapshot = NORMAL_VIDEO)))
    (download_error MEDIA_CAPABILITY_UNAVAILABLE "MEDIA_KIND_INELIGIBLE") ;;;
  let* policy := lift (stored_policy job) in
  let* authorized_identity := lift (decode_authorized_identity_id (dj_selected_format_snapshot job)) in
  if bool_decide (tier policy = "premium") then
    raise_when (negb (bool_decide (authorized_identity = Some anonymous_client_id)))
      (job_not_found "PREMIUM_IDENTITY_MISMATCH") ;;;
    ret {| promoted := job; promoted_now := false |}
  else
    raise_when (negb (bool_decide (tier policy = "free"))) (unavailable "POLICY_TIER_UNKNOWN") ;;;
    let* premium := PremiumEntitlementRepository.status_for_client anonymous_client_id in
    let capability := PremiumEntitlementRepository.ps_capability premium in
    raise_when (negb (is_premium capability) ||
                match premium_expires_at capability with Some t => t <=? now | None => true end)
      (download_error MEDIA_CAPABILITY_REQUIRES_PREMIUM "PREMIUM_INACTIVE") ;;;
    settle_entry settings job anonymous_client_id now ;;;
    let* job := apply_premium settings job capability anonymous_client_id now in
    ret {| promoted := job; promoted_now := true |}
  end end end.
End DownloadPremiumUpgradeService.
