(* ===== verification/Authorize.v ===== *)
(** Who may read an artifact ([delivery/service.py]). *)

From S2P Require Export Promote.

Local Open Scope string_scope.
Local Open Scope list_scope.
Local Open Scope Z_scope.

Module DeliveryService.
Import BrowserGrantRepository DownloadPremiumUpgradeService.

(** Source: backend/src/fetchnow/delivery/service.py:44-50 [DeliveryAuthorization] *)
Record Authorization := {
  az_job : MediaDownloadJob;
  az_now : time;
  az_policy : option EffectiveDownloadPolicy
}.

(** What the accounting looks at. *)
Definition accounted (authz : Authorization) : DeliveryAuthorization :=
  {| auth_job := az_job authz; auth_tier := tier <$> az_policy authz |}.

(** Source: backend/src/fetchnow/delivery/service.py:100-106 [delivery_rate_bytes_per_second_for] *)
Definition delivery_rate_bytes_per_second_for (own : EffectiveDownloadPolicy) (authz : Authorization) : option Z :=
  match az_policy authz with
  | None => delivery_rate_bytes_per_second own
  | Some policy => delivery_rate_bytes_per_second policy
  end.

(** Source: backend/src/fetchnow/delivery/service.py:108-118 [_policy_for_job]
    [own] is the Free policy the service was built with. *)
Definition _policy_for_job (own : EffectiveDownloadPolicy) (job : MediaDownloadJob) : exn + EffectiveDownloadPolicy :=
  match decode_effective_policy_snapshot (dj_selected_format_snapshot job) with
  | inl (DownloadError _ _ _) => inl (download_error DOWNLOAD_STORAGE_UNAVAILABLE "POLICY_SNAPSHOT_INVALID")
  | inl e => inl e
  | inr policy => inr (default own policy)
  end.

(** Source: backend/src/fetchnow/delivery/service.py:310-328 [_assert_ready_pointer] *)
Definition _assert_ready_pointer (job : MediaDownloadJob) : exn + unit :=
  raise_if (is_none (dj_artifact_id job) || is_none (dj_artifact_bytes job) ||
            is_none (dj_artifact_container job) || is_none (dj_artifact_content_type job) ||
            is_none (dj_completed_at job) || is_some (dj_public_error_code job))
    (download_error DOWNLOAD_STORAGE_UNAVAILABLE "READY_POINTER_INCOMPLETE") ;;?
  raise_if (default 0 (dj_artifact_bytes job) <=? 0)
    (download_error DOWNLOAD_STORAGE_UNAVAILABLE "READY_POINTER_EMPTY").

(** Source: backend/src/fetchnow/delivery/service.py:169-186 [authorize]
    Job and parent are alive and the job is ready. *)
Definition assert_deliverable (parent : MediaJob) (job : MediaDownloadJob) (now : time) : exn + unit :=
  raise_if (bool_decide (mj_public_state parent = JobStates.EXPIRED) || (mj_expires_at parent <=? now) ||
            bool_decide (dj_public_state job = DownloadStates.EXPIRED) || (dj_expires_at job <=? now))
    (download_error DOWNLOAD_EXPIRED "TTL_ELAPSED") ;;?
  raise_if (negb (bool_decide (dj_public_state job = DownloadStates.READY)))
    (download_error DOWNLOAD_NOT_READY "NOT_READY") ;;?
  _assert_ready_pointer job.

Section Service.
(** [own] is the Free policy the service is built with, [effective_download_policy settings]. *)
Context (settings : Settings) (own : EffectiveDownloadPolicy).

(** Source: backend/src/fetchnow/delivery/service.py:120-187 [authorize]
    The hash of the token is taken as for the issue of a grant. *)
Definition authorize (download_job_id : uid) (access_token : string) : DB Authorization :=
  let* credential_hash := lift (BrowserGrantService.credential_of access_token) in
  raise_when (negb (media_delivery_enabled settings)) (download_error DELIVERY_DISABLED "DELIVERY_DISABLED") ;;;
  let* job := select_by_id (R := MediaDownloadJob) download_job_id (fun _ => true) in
  match job with
  | None => raise (job_not_found "MISSING")
  | Some job =>
      let* parent := MediaJobRepository.get_by_id (dj_media_job_id job) in
      match parent with
      | None => raise (job_not_found "UNAUTHORIZED")
      | Some parent =>
          raise_when (negb (tokens_match (mj_credential_hash parent) credential_hash)) (job_not_found "UNAUTHORIZED") ;;;
          let* now := clock_timestamp in
          lift (assert_deliverable parent job now) ;;;
          let* policy := lift (_policy_for_job own job) in
          ret {| az_job := job; az_now := now; az_policy := Some policy |}
      end
  end.

(** Source: backend/src/fetchnow/delivery/service.py:189-279 [authorize_browser_grant] *)
Definition authorize_browser_grant (grant_id : uid) (raw_token : string) : DB Authorization :=
  lift (parse_grant_token raw_token) ;;;
  let* token_hash := lift (hash_grant_token raw_token) in
  raise_when (negb (media_delivery_enabled settings)) (download_error DELIVERY_DISABLED "DELIVERY_DISABLED") ;;;
  raise_when (negb (media_browser_delivery_enabled settings))
    (download_error DELIVERY_DISABLED "BROWSER_DELIVERY_DISABLED") ;;;
  let* grant := BrowserGrantRepository.get_by_id grant_id in
  match grant with
  | None => raise (job_not_found "GRANT_UNAUTHORIZED")
  | Some grant =>
      raise_when (negb (grant_hashes_match (dg_token_hash grant) token_hash)) (job_not_found "GRANT_UNAUTHORIZED") ;;;
      let* now := BrowserGrantRepository.database_now in
      raise_when (is_some (dg_revoked_at grant) || (dg_expires_at grant <=? now))
        (download_error DOWNLOAD_EXPIRED "GRANT_EXPIRED") ;;;
      let* job := select_by_id (R := MediaDownloadJob) (dg_download_job_id grant) (fun _ => true) in
      match job with
      | None => raise (job_not_found "GRANT_JOB_MISSING")
      | Some job =>
          let* parent := MediaJobRepository.get_by_id (dj_media_job_id job) in
          match parent with
          | None => raise (job_not_found "GRANT_PARENT_MISSING")
          | Some parent =>
              lift (assert_deliverable parent job now) ;;;
              raise_when (negb (bool_decide (dj_artifact_id job = Some (dg_artifact_id grant))) ||
                          negb (dj_fence_token job =? dg_fence_token grant))
                (job_not_found "GRANT_ARTIFACT_MISMATCH") ;;;
              let* policy := lift (_policy_for_job own job) in
              ret {| az_job := job; az_now := now; az_policy := Some policy |}
          end
      end
  end.
End Service.

(** Source: backend/src/fetchnow/delivery/service.py:281-308 [open_artifact]
    What the reader is asked to open; opening the file is the reader's. *)
Record OpenRequest := {
  or_artifact_id : uid;
  or_download_job_id : uid;
  or_format_option_id : string;
  or_expected_bytes : Z;
  or_expected_container : string;
  or_expected_content_type : string;
  or_expected_expires_at : time;
  or_expected_fence : Z
}.

(** Source: backend/src/fetchnow/delivery/service.py:281-308 [open_artifact] *)
Definition open_request (authz : Authorization) : exn + OpenRequest :=
  let job := az_job authz in
  raise_if (dj_expires_at job <=? az_now authz) (download_error DOWNLOAD_EXPIRED "TTL_AT_OPEN") ;;?
  let? artifact_id := need (dj_artifact_id job) AssertionError in
  let? artifact_bytes := need (dj_artifact_bytes job) AssertionError in
  let? container := need (dj_artifact_container job) AssertionError in
  let? content_type := need (dj_artifact_content_type job) AssertionError in
  inr {| or_artifact_id := artifact_id; or_download_job_id := dj_id job;
         or_format_option_id := dj_format_option_id job; or_expected_bytes := artifact_bytes;
         or_expected_container := container; or_expected_content_type := content_type;
         or_expected_expires_at := dj_expires_at job; or_expected_fence := dj_fence_token job |}.
End DeliveryService.
