(* ===== verification/PromoteTheorems.v ===== *)
(** Promotion to Premium: what it settles, and that it happens once. *)

From S2P Require Export Authorize.

Local Open Scope string_scope.
Local Open Scope list_scope.
Local Open Scope Z_scope.

Module PromoteTheorems.
Import QuotaRepository BrowserGrantRepository DownloadPremiumUpgradeService DeliveryQuotaAccounting DeliveryTheorems GrantTheorems.

(** ** The ledger *)

(** What closing the stale attempts of an entry does to the ledger: the
    evidence of every entry, and the rows of the others, stay. *)
Record same_evidence (entry : uid) (w0 w : World) : Prop := {
  se_tables : exists t, w = w0 <| free_download_delivery_ranges := t |>;
  se_ok : ranges_ok w;
  se_observed : forall e x, observed w e x <-> observed w0 e x;
  se_other : forall id r, dr_quota_entry_id r <> entry ->
    free_download_delivery_ranges w !! id = Some r <-> free_download_delivery_ranges w0 !! id = Some r
}.

Lemma same_evidence_refl entry w : ranges_ok w -> same_evidence entry w w.
Proof. intros Hok. split; [|done|done|done]. exists (free_download_delivery_ranges w). by destruct w. Qed.

(** One row replaced by one of the same entry and interval, or removed when it
    has no evidence. *)
Lemma same_evidence_step entry w0 w id r new :
  same_evidence entry w0 w -> free_download_delivery_ranges w !! id = Some r -> dr_quota_entry_id r = entry ->
  match new with
  | Some r' => dr_id r' = id /\ dr_quota_entry_id r' = entry /\ FreeDownloadDeliveryRange_check r' = true /\
      dr_request_start r' = dr_request_start r /\ dr_served_end_exclusive r' = dr_served_end_exclusive r
  | None => dr_served_end_exclusive r = dr_request_start r
  end ->
  same_evidence entry w0 (w <| free_download_delivery_ranges := partial_alter (fun _ => new) id (free_download_delivery_ranges w) |>).
Proof.
  intros [[t ->] [Hk Hc] Hobs Ho] Hr He Hnew. cbn in Hr.
  assert (Hl : forall i, (w0 <| free_download_delivery_ranges := t |> <| free_download_delivery_ranges := partial_alter (fun _ => new) id t |>).(free_download_delivery_ranges) !! i =
    if decide (i = id) then new else t !! i).
  { intros i. cbn. destruct (decide (i = id)) as [->|]; [by rewrite lookup_partial_alter_eq|by rewrite lookup_partial_alter_ne]. }
  split.
  - by eexists.
  - split; intros i r'; cbn; [change (table _) with (partial_alter (fun _ => new) id t)|]; (destruct (decide (i = id)) as [->|Hne]; [rewrite lookup_partial_alter_eq|rewrite lookup_partial_alter_ne by done]).
    + intros ->. by destruct Hnew.
    + apply (Hk i r').
    + intros ->. by destruct Hnew as (_ & _ & Hck & _).
    + apply (Hc i r').
  - intros e x. rewrite <- Hobs. unfold observed. split.
    + intros (i & r' & Hi & He' & Hx). rewrite Hl in Hi. destruct (decide (i = id)) as [->|]; [|by exists i, r'].
      subst new. destruct Hnew as (_ & E1 & _ & E2 & E3). exists id, r. split; [exact Hr|]. rewrite <- E2, <- E3. split; [congruence|done].
    + intros (i & r' & Hi & He' & Hx). cbn in Hi. destruct (decide (i = id)) as [->|Hne].
      * assert (r' = r) as -> by congruence. destruct new as [r'|]; [|lia]. destruct Hnew as (_ & E1 & _ & E2 & E3).
        exists id, r'. rewrite Hl, decide_True by done. split; [done|]. rewrite E2, E3. split; [congruence|done].
      * exists i, r'. by rewrite Hl, decide_False.
  - intros i r' Hr'. rewrite <- Ho by done. rewrite Hl. cbn. destruct (decide (i = id)) as [->|]; [|done].
    split; [intros ->; by destruct Hnew as (_ & ? & _)|intros E; congruence].
Qed.

Lemma wp_close_stale entry rs now w :
  ranges_ok w -> NoDup (dr_id <$> rs) ->
  (forall r, r ∈ rs -> free_download_delivery_ranges w !! dr_id r = Some r /\ dr_quota_entry_id r = entry) ->
  wp (close_stale rs now) (fun _ => same_evidence entry w) (fun _ _ => True) w.
Proof.
  intros Hok Hnd Hrs.
  set (J := fun (l : list FreeDownloadDeliveryRange) w1 => same_evidence entry w w1 /\ NoDup (dr_id <$> l) /\
    forall r, r ∈ l -> free_download_delivery_ranges w1 !! dr_id r = Some r /\ dr_quota_entry_id r = entry).
  apply (wp_mono _ (fun _ => J []) _ (fun _ _ => True)); [|by intros _ w' [? _]|done].
  apply wp_for_each; [|split; [by apply same_evidence_refl|done]].
  clear Hok Hnd Hrs. intros r l w1 (He & Hnd & Hl). cbn in Hnd. apply NoDup_cons in Hnd as [Hni Hnd].
  destruct (Hl r) as [Hr Hre]; [by left|].
  assert (Hrest : forall t : gmap uid FreeDownloadDeliveryRange, (forall id, id <> dr_id r -> t !! id = free_download_delivery_ranges w1 !! id) ->
    forall r', r' ∈ l -> t !! dr_id r' = Some r' /\ dr_quota_entry_id r' = entry).
  { intros t Ht r' Hr'. destruct (Hl r') as [Hs Hs']; [by right|]. split; [|done]. rewrite Ht; [done|].
    intros E. apply Hni. rewrite <- E. by apply list_elem_of_fmap_2. }
  destruct (_ || _); [apply wp_ret; split_and!; [done|done|by apply Hrest]|].
  destruct (Z.eqb_spec (dr_served_end_exclusive r) (dr_request_start r)) as [Ez|Ez].
  - unfold wp, delete_row. cbn [row_restricted FreeDownloadDeliveryRange_table]. cbn.
    pose proof (same_evidence_step entry _ w1 (dr_id r) r None He Hr Hre Ez) as Hs.
    split_and!; [exact Hs|done|]. apply Hrest. intros id Hne. cbn. by rewrite lookup_delete_ne.
  - apply wp_bind. unfold wp at 1, update_row. cbn [table FreeDownloadDeliveryRange_table]. rewrite Hr.
    destruct (row_check _) eqn:Ec; [|done]. apply wp_ret.
    pose proof (fun r' => same_evidence_step entry _ w1 (dr_id r) r (Some r') He Hr Hre) as Hs.
    split_and!; [eapply Hs; by split_and!|done|]. apply Hrest. intros id Hne. cbn. by rewrite lookup_insert_ne.
Qed.

(** ** The reservation *)

(** Every byte of the artifact has been sent to the client. *)
Definition fully_observed (w : World) (entry : uid) (job : MediaDownloadJob) : Prop :=
  forall x, 0 <= x < default 0 (dj_artifact_bytes job) -> observed w entry x.

(** What settling makes of the entry: a delivered download stays consumed, one
    whose reservation was open is consumed exactly when all of it was sent. *)
Definition settled (w : World) (job : MediaDownloadJob) (now : time) (e e' : FreeDownloadQuotaEntry) : Prop :=
  (qe_state e = CONSUMED /\ e' = e) \/
  (qe_state e = RESERVED /\ fully_observed w (qe_id e) job /\
   e' = e <| qe_state := CONSUMED |> <| qe_consumed_at := Some now |> <| qe_released_at := None |>) \/
  (qe_state e = RESERVED /\ ~ fully_observed w (qe_id e) job /\
   e' = e <| qe_state := RELEASED |> <| qe_consumed_at := None |> <| qe_released_at := Some now |>).

(** No response of the entry is running at [now]. *)
Definition idle (w : World) (entry : uid) (now : time) : Prop :=
  forall id r, free_download_delivery_ranges w !! id = Some r -> dr_quota_entry_id r = entry ->
    DeliveryQuotaAccounting.is_active r && sql_gt (dr_lease_expires_at r) now = false.

Inductive settlement (settings : Settings) (job : MediaDownloadJob) (client : uid) (now : time) (w : World) : World -> Prop :=
| Unmetered :
    free_download_quota_enabled settings = false ->
    (forall id e, free_download_quota_entries w !! id = Some e -> qe_download_job_id e <> dj_id job) ->
    settlement settings job client now w w
| Settled e e' w1 :
    free_download_quota_entries w !! qe_id e = Some e ->
    qe_download_job_id e = dj_id job -> qe_anonymous_client_id e = client ->
    same_evidence (qe_id e) w w1 -> idle w1 (qe_id e) now -> settled w job now e e' ->
    settlement settings job client now w (w1 <| free_download_quota_entries := <[qe_id e := e']> (free_download_quota_entries w) |>).

Lemma lock_ranges_rows entry_id w :
  exists rs, _lock_ranges entry_id w = (inr rs, w) /\
    forall r, r ∈ rs <-> (exists id, free_download_delivery_ranges w !! id = Some r) /\ dr_quota_entry_id r = entry_id.
Proof. exact (lock_ranges_run entry_id w). Qed.

Lemma lock_ranges_nodup entry_id w rs :
  ranges_ok w -> _lock_ranges entry_id w = (inr rs, w) ->
  NoDup (dr_id <$> rs) /\ forall r, r ∈ rs -> free_download_delivery_ranges w !! dr_id r = Some r /\ dr_quota_entry_id r = entry_id.
Proof.
  intros [Hk _] E. split.
  - injection E as <-. rewrite order_by_perm.
    change (NoDup (row_id <$> List.filter (fun r => bool_decide (dr_quota_entry_id r = entry_id)) (rows w))).
    apply NoDup_filter_ids, (NoDup_row_ids (R := FreeDownloadDeliveryRange)), Hk.
  - destruct (lock_ranges_rows entry_id w) as (rs' & E' & Hrs). assert (rs' = rs) as -> by congruence.
    intros r Hr. apply Hrs in Hr as [[id Hr] He]. split; [|done]. pose proof (Hk _ _ Hr) as Hid. cbn in Hid. by rewrite Hid.
Qed.

(** The quota rule on an entry of the table. *)
Lemma wp_quota_rule e complete now w (Q : unit -> World -> Prop) :
  free_download_quota_entries w !! qe_id e = Some e ->
  (forall e', (qe_state e = CONSUMED /\ e' = e) \/
     (qe_state e = RESERVED /\ complete = true /\
      e' = e <| qe_state := CONSUMED |> <| qe_consumed_at := Some now |> <| qe_released_at := None |>) \/
     (qe_state e = RESERVED /\ complete = false /\
      e' = e <| qe_state := RELEASED |> <| qe_consumed_at := None |> <| qe_released_at := Some now |>) ->
     Q tt (w <| free_download_quota_entries := <[qe_id e := e']> (free_download_quota_entries w) |>)) ->
  wp (_apply_quota_rule e complete now) Q (fun _ _ => True) w.
Proof.
  intros He HQ. unfold _apply_quota_rule. destruct (qe_state e) eqn:Es; try done.
  - destruct complete; wp_step; unfold consume_locked, release_locked; rewrite Es; cbn [negb].
    + rewrite bool_decide_eq_true_2 by done. wp_step. apply wp_guard. intros _. unfold wp at 1, update_row. cbn [table FreeDownloadQuotaEntry_table].
      rewrite He. destruct (row_check _); [|done]. apply wp_ret. apply HQ. auto.
    + unfold wp at 1, update_row. cbn [table FreeDownloadQuotaEntry_table]. rewrite He. destruct (row_check _); [|done].
      apply wp_ret. apply HQ. auto.
  - apply wp_ret. specialize (HQ e (or_introl (conj eq_refl eq_refl))). rewrite insert_id in HQ by done. by destruct w.
Qed.

Lemma wp_settle settings job client now w :
  ranges_ok w -> keyed (R := FreeDownloadQuotaEntry) w -> 0 < default 0 (dj_artifact_bytes job) ->
  wp (settle_entry settings job client now) (fun _ w' => settlement settings job client now w w') (fun _ _ => True) w.
Proof.
  intros Hok Hkey Hsize. unfold settle_entry, lock_entry_for_download. wp_step. unfold wp at 1.
  destruct (select_first _ w) as [[e|found] w0] eqn:Ef; [done|].
  assert (w0 = w) as -> by (by injection Ef as _ <-). destruct found as [e|].
  2: { apply wp_guard. intros Hoff. apply Unmetered; [done|]. intros id e He Hj.
       pose proof (proj1 (select_first_none _ _) Ef id e He) as Hf. apply bool_decide_eq_false in Hf. done. }
  apply select_first_some in Ef as (_ & (id & He) & Hj%bool_decide_eq_true).
  pose proof (Hkey _ _ He) as Hid. cbn in He, Hid. subst id.
  wp_step. apply wp_guard. intros Hc%negb_false_iff%bool_decide_eq_true.
  destruct (lock_ranges_rows (qe_id e) w) as (rs & Er & Hrs). destruct (lock_ranges_nodup _ _ _ Hok Er) as [Hnd Hin].
  wp_step. unfold wp at 1. rewrite Er. wp_step.
  eapply wp_mono; [apply (wp_close_stale (qe_id e) rs now w Hok Hnd Hin)| |done]. intros [] w1 Hev.
  destruct (lock_ranges_rows (qe_id e) w1) as (rs1 & Er1 & Hrs1). wp_step. unfold wp at 1. rewrite Er1.
  wp_step. apply wp_guard. intros Hidle. wp_step. wp_step; [done|]. rename H into Hgen.
  apply raise_if_inr, negb_false_iff in Hgen.
  destruct (se_tables _ _ _ Hev) as [t Et].
  assert (He1 : free_download_quota_entries w1 !! qe_id e = Some e) by (by rewrite Et).
  apply wp_quota_rule; [done|]. intros e' He'.
  assert (Hobs : closed_intervals rs1 = [(0, default 0 (dj_artifact_bytes job))] <-> fully_observed w (qe_id e) job).
  { destruct (dj_artifact_bytes job) as [size|] eqn:Eb; [|by cbn in Hsize].
    cbn [default] in *. unfold fully_observed. rewrite Eb. cbn [default].
    pose proof (coverage_complete job (qe_id e) size rs1 w1 (se_ok _ _ _ Hev) Eb Hsize Hgen Hrs1) as ->.
    split; intros Hx x Hr; apply (se_observed _ _ _ Hev), Hx, Hr. }
  replace (free_download_quota_entries w1) with (free_download_quota_entries w) by (by rewrite Et).
  apply (Settled settings job client now w e e' w1); try done.
  - intros id r Hr Hre. assert (Hr1 : r ∈ rs1) by (apply Hrs1; eauto).
    destruct (DeliveryQuotaAccounting.is_active r && _) eqn:Ea; [|done]. rewrite <- Hidle. symmetry. apply existsb_exists. exists r.
    split; [by apply list_elem_of_In|done].
  - unfold settled. unfold closed_intervals in Hobs. destruct He' as [?|[(? & Hcov & ?)|(? & Hcov & ?)]]; [by left| |]; right.
    + left. apply bool_decide_eq_true in Hcov. by rewrite <- Hobs.
    + right. apply bool_decide_eq_false in Hcov. by rewrite <- Hobs.
Qed.

(** ** The grants *)

(** The grant as revocation leaves it. *)
Definition revoked_active (job : uid) (now : time) (g : MediaDeliveryGrant) : MediaDeliveryGrant :=
  if grant_active job now g then revoke_row now g else g.

Lemma revoked_active_inactive job now g : grant_active job now (revoked_active job now g) = false.
Proof. unfold revoked_active. destruct (grant_active job now g) eqn:E; [apply revoked_inactive|done]. Qed.

Lemma wp_revoke_active job now w :
  keyed (R := MediaDeliveryGrant) w ->
  wp (let* active_grants := list_active_for_job job now in revoke_grants active_grants now)
    (fun _ w' => w' = w <| media_delivery_grants := revoked_active job now <$> media_delivery_grants w |>)
    (fun _ _ => True) w.
Proof.
  intros Hk. pose proof (active_spec job now w Hk) as Hact.
  unfold list_active_for_job. wp_step. wp_step. apply wp_select. apply wp_ret.
  set (l := order_by _ _) in *. unfold revoke_grants. wp_step. unfold wp at 1.
  destruct (map_m _ _ w) as [[e|x] w1] eqn:E; [done|]. apply wp_ret.
  destruct (map_update_inv (revoke_row now) l w x w1) as (t & -> & Ht & Ho); [| |exact E|].
  - unfold l. rewrite order_by_perm. change (NoDup (row_id <$> List.filter (grant_active job now) (rows w))).
    apply NoDup_filter_ids, (NoDup_row_ids (R := MediaDeliveryGrant)), Hk.
  - intros r Hr. by apply Hact.
  - replace t with (revoked_active job now <$> media_delivery_grants w); [by destruct w|].
    apply map_eq. intros id. rewrite lookup_fmap. destruct (decide (id ∈ dg_id <$> l)) as [Hin|Hni].
    + apply list_elem_of_fmap in Hin as (r & -> & Hr). specialize (Ht r Hr). cbn in Ht. rewrite Ht. apply Hact in Hr as [Hr Ha].
      rewrite Hr. cbn. unfold revoked_active. by rewrite Ha.
    + specialize (Ho id Hni). cbn in Ho. rewrite Ho. destruct (media_delivery_grants w !! id) as [g|] eqn:Eg; [|done]. cbn.
      unfold revoked_active. destruct (grant_active job now g) eqn:Ea; [|done]. destruct Hni.
      apply list_elem_of_fmap. exists g. pose proof (Hk _ _ Eg) as Hid. cbn in Hid. split; [done|].
      apply Hact. by rewrite Hid.
Qed.

(** ** The upgrade *)

(** The database as its constraints leave it. *)
Record coherent (w : World) : Prop := {
  co_jobs : keyed (R := MediaDownloadJob) w;
  co_entries : keyed (R := FreeDownloadQuotaEntry) w;
  co_grants : keyed (R := MediaDeliveryGrant) w;
  co_ranges : ranges_ok w
}.

Lemma coherent_clock w n : coherent w -> coherent (w <| clock_reads := n |>).
Proof. by intros [? ? ? [? ?]]. Qed.

(** The job carries a Premium policy of the client. *)
Definition premium_for (client : uid) (job : MediaDownloadJob) (expiry : time) : Prop :=
  (exists policy, decode_effective_policy_snapshot (dj_selected_format_snapshot job) = inr (Some policy) /\
     tier policy = "premium" /\ policy_premium_expires_at policy = Some expiry) /\
  decode_authorized_identity_id (dj_selected_format_snapshot job) = inr (Some client).

(** A completed promotion of [job] to [job'] at [now]. *)
Record promotion (settings : Settings) (client : uid) (token : string) (w w' : World)
    (job job' : MediaDownloadJob) (now : time) : Prop := {
  pm_job : media_download_jobs w !! dj_id job = Some job;
  pm_ready : dj_public_state job = DownloadStates.READY /\ now < dj_expires_at job;
  pm_parent : exists parent, media_jobs w !! dj_media_job_id job = Some parent /\
    hash_access_token token = inr (mj_credential_hash parent);
  pm_client : exists c, anonymous_clients w !! client = Some c /\ now < ac_expires_at c;
  pm_free : exists policy, stored_policy job = inr policy /\ tier policy = "free";
  pm_entitled : exists id e, premium_entitlements w !! id = Some e /\ pe_anonymous_client_id e = client /\
    now < pe_expires_at e /\ premium_for client job' (pe_expires_at e);
  pm_format : stored_format job' = stored_format job;
  pm_fields : job' = job <| dj_selected_format_snapshot := dj_selected_format_snapshot job' |> <| dj_updated_at := now |>;
  pm_effect : exists w0 ws, same_tables w w0 /\ settlement settings job client now w0 ws /\
    w' = ws <| media_download_jobs := <[dj_id job := job']> (media_download_jobs w) |>
            <| media_delivery_grants := revoked_active (dj_id job) now <$> media_delivery_grants w |>
}.

Lemma settlement_tables settings job client now w w' :
  settlement settings job client now w w' ->
  media_download_jobs w' = media_download_jobs w /\ media_delivery_grants w' = media_delivery_grants w.
Proof. intros [|e e' w1 _ _ _ [[t ->] _ _ _] _ _]; done. Qed.

Lemma strip_idempotent members :
  strip_effective_policy_snapshot (strip_effective_policy_snapshot members) = strip_effective_policy_snapshot members.
Proof. unfold strip_effective_policy_snapshot. rewrite lfilter_lfilter. apply filter_ext. intros a. apply andb_diag. Qed.

(** The snapshot a promotion writes. *)
Lemma premium_snapshot settings capability policy client job now expiry snapshot :
  effective_download_policy settings (Some capability) = inr policy -> is_premium capability = true ->
  premium_expires_at capability = Some expiry -> (client < 2 ^ 128)%N ->
  attach_effective_policy_snapshot (strip_effective_policy_snapshot (members_of (dj_selected_format_snapshot job)))
    policy (Some client) = inr snapshot ->
  let job' := job <| dj_selected_format_snapshot := JObj snapshot |> <| dj_updated_at := now |> in
  premium_for client job' expiry /\ stored_format job' = stored_format job.
Proof.
  intros Hp Hprem Hexp Hid Ha job'.
  destruct (attach_inv settings (Some capability) policy (Some client) _ _ Hp Hid Ha) as ([value ->] & Hd & Hi).
  split.
  - split; [|exact Hi]. exists policy. split; [exact Hd|]. unfold effective_download_policy in Hp.
    rewrite Hprem, Hexp in Hp. by injection Hp as <-.
  - unfold stored_format. cbn [members_of]. replace (dj_selected_format_snapshot job') with
      (JObj (dict_set POLICY_KEY value (strip_effective_policy_snapshot (members_of (dj_selected_format_snapshot job))))) by done.
    cbn [members_of]. by rewrite strip_set, strip_idempotent.
Qed.

(** The job's snapshot becomes Premium and its active grants end. *)
Lemma wp_apply_premium settings job capability client now expiry w :
  keyed (R := MediaDeliveryGrant) w -> media_download_jobs w !! dj_id job = Some job ->
  is_premium capability = true -> premium_expires_at capability = Some expiry -> (client < 2 ^ 128)%N ->
  wp (apply_premium settings job capability client now)
    (fun job' w' =>
       w' = w <| media_download_jobs := <[dj_id job := job']> (media_download_jobs w) |>
              <| media_delivery_grants := revoked_active (dj_id job) now <$> media_delivery_grants w |> /\
       job' = job <| dj_selected_format_snapshot := dj_selected_format_snapshot job' |> <| dj_updated_at := now |> /\
       premium_for client job' expiry /\ stored_format job' = stored_format job)
    (fun _ _ => True) w.
Proof.
  intros Hk Hj Hprem Hexp Hid. unfold apply_premium.
  wp_step. wp_step; [done|]. rename a into policy, H into Hp. wp_step. wp_step; [done|]. rename a into snapshot, H into Ha.
  pose proof (premium_snapshot settings capability policy client job now expiry snapshot Hp Hprem Hexp Hid Ha) as [Hpr Hf].
  set (job' := job <| dj_selected_format_snapshot := _ |> <| dj_updated_at := _ |>) in *.
  wp_step. unfold wp at 1, update_row. cbn [table MediaDownloadJob_table]. rewrite Hj.
  destruct (row_check _) eqn:Ec; [|done]. change (job <| dj_selected_format_snapshot := JObj snapshot |> <| dj_updated_at := now |>) with job'. change (dj_id job') with (dj_id job).
  set (w1 := with_table _ w). unfold wp. rewrite <- bind_assoc.
  change (wp (let* _ := (let* active_grants := list_active_for_job (dj_id job) now in revoke_grants active_grants now) in ret job')
    (fun job' w' => w' = w <| media_download_jobs := <[dj_id job := job']> (media_download_jobs w) |>
              <| media_delivery_grants := revoked_active (dj_id job) now <$> media_delivery_grants w |> /\
       job' = job <| dj_selected_format_snapshot := dj_selected_format_snapshot job' |> <| dj_updated_at := now |> /\
       premium_for client job' expiry /\ stored_format job' = stored_format job) (fun _ _ => True) w1).
  wp_step. eapply wp_mono; [by apply wp_revoke_active|intros _ w' ->|done]. by apply wp_ret.
Qed.

(** The two ways an upgrade succeeds. *)
Definition upgraded (settings : Settings) (id client : uid) (token : string) (w w' : World) (res : PromoteResult) : Prop :=
  if promoted_now res
  then exists job, dj_id job = id /\ promotion settings client token w w' job (promoted res) (clock w (clock_reads w))
  else same_tables w w' /\ media_download_jobs w !! id = Some (promoted res) /\
       exists policy, stored_policy (promoted res) = inr policy /\ tier policy = "premium" /\
         decode_authorized_identity_id (dj_selected_format_snapshot (promoted res)) = inr (Some client).

(** The status of an entitled client names its open entitlement. *)
Lemma wp_status_premium client w (Q : _ -> World -> Prop) :
  (forall st, (is_premium (PremiumEntitlementRepository.ps_capability st) = true ->
     forall t, premium_expires_at (PremiumEntitlementRepository.ps_capability st) = Some t ->
     exists id e, premium_entitlements w !! id = Some e /\ pe_anonymous_client_id e = client /\ pe_expires_at e = t) ->
   Q st (w <| clock_reads := S (clock_reads w) |>)) ->
  wp (PremiumEntitlementRepository.status_for_client client) Q (fun _ _ => True) w.
Proof.
  intros HQ. unfold PremiumEntitlementRepository.status_for_client, PremiumEntitlementRepository.get_active_for_client.
  wp_step. apply wp_clock_timestamp. wp_step. wp_step. apply wp_select. apply wp_ret. apply wp_ret.
  set (now := clock w _). set (l := List.filter _ _). apply HQ. cbn.
  pose proof (PremiumEntitlementRepository.head_order_by (fun r => - pe_expires_at r) l) as Hh.
  destruct (head _) as [e|]; cbn; [|done]. intros _ t [= <-]. destruct Hh as [He _].
  apply elem_of_filter_rows in He as [[id He] Ha]. unfold PremiumEntitlementRepository.active_for in Ha. propify. eauto.
Qed.

Lemma wp_upgrade settings id token client w :
  coherent w -> (client < 2 ^ 128)%N ->
  wp (upgrade settings id token client) (fun res w' => upgraded settings id client token w w' res) (fun _ _ => True) w.
Proof.
  intros Hco Hid. unfold upgrade, QuotaRepository.database_now, lock_client, lock_download_job, MediaJobRepository.get_by_id.
  wp_step. wp_step; [done|]. rename a into credential, H into Hcred. apply wp_clock_now.
  set (now := clock w (clock_reads w)). set (w1 := w <| clock_reads := _ |>).
  wp_step. apply wp_select_by_id; [|by intros _]. intros c Hc Hact%Z.ltb_lt.
  wp_step. apply wp_select_by_id; [|by intros _]. intros job Hjob _.
  pose proof (co_jobs _ Hco _ _ Hjob) as Ejob. cbn in Ejob.
  wp_step. apply wp_select_by_id; [|by intros _]. intros parent Hparent _.
  wp_step. apply wp_guard. intros Hmatch%negb_false_iff%tokens_match_true.
  wp_step. wp_step; [done|]. rename H into Hready. wp_step. wp_step; [done|]. wp_step. apply wp_guard. intros _.
  wp_step. wp_step; [done|]. rename a1 into policy, H0 into Hpolicy. wp_step. wp_step; [done|]. rename a1 into identity, H0 into Hident.
  case_bool_decide as Htier.
  { wp_step. apply wp_guard. intros Hi%negb_false_iff%bool_decide_eq_true. apply wp_ret.
    split; [done|]. split; [done|]. exists policy. split; [done|]. split; [done|]. rewrite <- Hi. exact Hident. }
  wp_step. apply wp_guard. intros Hfree%negb_false_iff%bool_decide_eq_true.
  wp_step. apply wp_status_premium. intros st Hst. wp_step. apply wp_guard. intros Hlive%orb_false_iff.
  destruct Hlive as [Hprem%negb_false_iff Hexp]. destruct (premium_expires_at _) as [expiry|] eqn:Eexp; [|done].
  apply Z.leb_gt in Hexp. destruct (Hst Hprem expiry eq_refl) as (eid & e & He & Hec & Hee). clear Hst.
  unfold assert_ready in Hready. ok_step Hready. ok_step Hready. apply raise_if_inr in Hready0, Hready1, Hready. propify.
  set (w2 := w1 <| clock_reads := _ |>).
  assert (Hco2 : coherent w2) by (by apply coherent_clock, coherent_clock). wp_step.
  eapply wp_mono; [apply (wp_settle settings job client now w2); [apply Hco2|apply Hco2|lia]| |done].
  intros [] ws Hset. destruct (settlement_tables _ _ _ _ _ _ Hset) as [Ejobs Egrants].
  assert (Hks : keyed (R := MediaDeliveryGrant) ws).
  { intros i g Hg. cbn in Hg. rewrite Egrants in Hg. apply (co_grants _ Hco _ _ Hg). }
  wp_step. eapply wp_mono; [apply (wp_apply_premium settings job _ client now expiry ws Hks); try done| |done].
  { by rewrite Ejobs, Ejob. }
  intros job' w' (-> & Hf & Hpr & Hfmt). apply wp_ret. unfold upgraded. cbn [promoted_now promoted].
  exists job. split; [done|]. rewrite Ejobs, Egrants. split; try done.
  - by rewrite Ejob.
  - exists parent. by rewrite Hmatch.
  - exists c. done.
  - by exists policy.
  - exists eid, e. by rewrite Hee.
  - exists w2, ws. done.
Qed.

Lemma upgrade_upgraded settings id token client w res w' :
  coherent w -> (client < 2 ^ 128)%N -> upgrade settings id token client w = (inr res, w') ->
  upgraded settings id client token w w' res.
Proof.
  intros Hco Hid E. pose proof (wp_upgrade settings id token client w Hco Hid) as Hw. unfold wp in Hw. by rewrite E in Hw.
Qed.

(** C23: A promotion does exactly what it sells. An upgrade that reports a
    promotion was asked by the bearer of the token of a ready, unexpired Free
    download, for a live client with an open Premium entitlement; it leaves the
    job as it was but for a snapshot with the same format, a Premium policy until
    the entitlement's expiry and the client's identity; it settles the client's
    reservation, consumed exactly when every byte had been sent and released
    otherwise, keeping the delivery evidence; it revokes the job's active grants,
    and writes nothing else. Any other success changes nothing and answers for a
    job that is Premium for this client already. *)
Theorem upgrade_promotes settings id token client w res w' :
  coherent w -> (client < 2 ^ 128)%N ->
  upgrade settings id token client w = (inr res, w') ->
  upgraded settings id client token w w' res.
Proof. apply upgrade_upgraded. Qed.

(** A download is promoted once, for one client. After a promotion, as long as
    the job's row is the one it left, no upgrade by anybody promotes again, only
    the same client is answered, and nothing is written: a reservation is never
    settled twice and a Premium download never changes hands. *)
Theorem promotion_binds_once settings id token client w res w' settings2 token2 client2 w2 res2 w3 :
  coherent w -> coherent w2 -> (client < 2 ^ 128)%N -> (client2 < 2 ^ 128)%N ->
  upgrade settings id token client w = (inr res, w') -> promoted_now res = true ->
  media_download_jobs w2 !! id = media_download_jobs w' !! id ->
  upgrade settings2 id token2 client2 w2 = (inr res2, w3) ->
  client2 = client /\ promoted_now res2 = false /\ promoted res2 = promoted res /\ same_tables w2 w3.
Proof.
  intros Hco Hco2 Hid Hid2 E Hnow Hrow E2. apply upgrade_upgraded in E; [|done|done]. apply upgrade_upgraded in E2; [|done|done].
  unfold upgraded in E. rewrite Hnow in E. destruct E as (job & <- & Hpm).
  destruct (pm_entitled _ _ _ _ _ _ _ _ Hpm) as (_ & e & _ & _ & _ & (policy & Hdec & Htier & _) & Hident).
  destruct (pm_effect _ _ _ _ _ _ _ _ Hpm) as (w0 & ws & _ & _ & ->). cbn in Hrow. rewrite lookup_insert_eq in Hrow.
  unfold upgraded in E2. destruct (promoted_now res2) eqn:En2.
  - exfalso. destruct E2 as (job2 & Hj2 & Hpm2). pose proof (pm_job _ _ _ _ _ _ _ _ Hpm2) as Hr2. rewrite Hj2, Hrow in Hr2. injection Hr2 as <-.
    destruct (pm_free _ _ _ _ _ _ _ _ Hpm2) as (policy2 & Hs & Hf). unfold stored_policy in Hs. rewrite Hdec in Hs. injection Hs as <-.
    by rewrite Htier in Hf.
  - destruct E2 as (Hsame & Hr2 & _ & _ & _ & Hi2). rewrite Hrow in Hr2. injection Hr2 as Hr2. split_and!; try done.
    rewrite <- Hr2, Hident in Hi2. by injection Hi2.
Qed.

End PromoteTheorems.

(** ** A Free download whose owner buys Premium *)
Module PromoteExamples.
Import DownloadPremiumUpgradeService PromoteTheorems.

Definition settings : Settings := FormatExamples.demo_settings.

Definition free_policy : EffectiveDownloadPolicy :=
  match effective_download_policy settings None with inr p => p | inl _ => FormatExamples.demo_policy end.

Definition free_snapshot : list (string * Json) :=
  match attach_effective_policy_snapshot FormatExamples.demo_payload free_policy None with inr r => r | inl _ => [] end.

Definition free_job : MediaDownloadJob :=
  DeliveryExamples.ready_job <| dj_format_option_id := "fmt_0123456789abcdef" |>
    <| dj_selected_format_snapshot := JObj free_snapshot |>.

Definition entitlement : PremiumEntitlement := {|
  pe_id := 60; pe_public_id := 61; pe_anonymous_client_id := 1; pe_source_payment_order_id := 62;
  pe_product_code := "premium_24h"; pe_starts_at := 0; pe_expires_at := FormatExamples.demo_expiry; pe_created_at := 0 |}.

(** Half of the artifact has been sent, and one grant is out. *)
Definition world : World :=
  (empty_world (fun n => seconds (200 + Z.of_nat n)) (fun n => (70 + N.of_nat n)%N))
    <| anonymous_clients := {[1%N := QuotaExamples.demo_client]} |>
    <| media_jobs := {[7%N := GrantExamples.demo_parent]} |>
    <| media_download_jobs := {[20%N := free_job]} |>
    <| free_download_quota_entries := {[10%N := DeliveryExamples.reserved_entry]} |>
    <| free_download_delivery_ranges := {[101%N := DeliveryExamples.closed_range 101 0 1000]} |>
    <| media_delivery_grants := {[30%N := GrantExamples.demo_grant 30 (seconds 5)]} |>
    <| premium_entitlements := {[60%N := entitlement]} |>.

Definition run : (exn + PromoteResult) * World := upgrade settings 20 GrantExamples.demo_token 1 world.
Definition result : PromoteResult :=
  match run.1 with inr r => r | inl _ => {| promoted := free_job; promoted_now := false |} end.

Lemma coherent_check w :
  forallb (fun p => bool_decide (dj_id p.2 = p.1)) (map_to_list (media_download_jobs w)) &&
  forallb (fun p => bool_decide (qe_id p.2 = p.1)) (map_to_list (free_download_quota_entries w)) &&
  forallb (fun p => bool_decide (dg_id p.2 = p.1)) (map_to_list (media_delivery_grants w)) &&
  forallb (fun p => bool_decide (dr_id p.2 = p.1) && FreeDownloadDeliveryRange_check p.2) (map_to_list (free_download_delivery_ranges w)) = true ->
  coherent w.
Proof.
  intros H. propify. rewrite !forallb_forall in *.
  assert (Hin : forall R (m : gmap uid R) id r, m !! id = Some r -> In (id, r) (map_to_list m)).
  { intros R m id r Hr. by apply list_elem_of_In, elem_of_map_to_list. }
  split; [intros id r Hr; apply Hin in Hr..|].
  - specialize (H _ Hr). by propify.
  - specialize (H2 _ Hr). by propify.
  - specialize (H1 _ Hr). by propify.
  - split; intros id r Hr; apply Hin in Hr; specialize (H0 _ Hr); by propify.
Qed.

Lemma world_coherent : coherent world.
Proof. apply coherent_check. vm_compute. reflexivity. Qed.

Lemma run_result : run = (inr result, run.2).
Proof.
  assert (E : match run.1 with inr _ => true | inl _ => false end = true) by (vm_compute; reflexivity).
  unfold result. rewrite (surjective_pairing run) at 1. by destruct run.1.
Qed.

Lemma after_coherent : coherent run.2.
Proof. apply coherent_check. vm_compute. reflexivity. Qed.

Lemma upgrade_promotes_witness :
  promoted_now result = true /\ exists job, dj_id job = 20%N /\
    promotion settings 1 GrantExamples.demo_token world run.2 job (promoted result) (seconds 200).
Proof.
  assert (En : promoted_now result = true) by (vm_compute; reflexivity).
  pose proof (upgrade_promotes settings 20 GrantExamples.demo_token 1 world result run.2 world_coherent eq_refl run_result) as Hu.
  unfold upgraded in Hu. rewrite En in Hu. split; [exact En|exact Hu].
Defined.

(** The same client asks again. *)
Lemma promotion_binds_once_witness :
  exists res w, upgrade settings 20 GrantExamples.demo_token 1 run.2 = (inr res, w) /\
    promoted_now res = false /\ same_tables run.2 w.
Proof.
  assert (En : promoted_now result = true) by (vm_compute; reflexivity).
  assert (E2 : match (upgrade settings 20 GrantExamples.demo_token 1 run.2).1 with inr _ => true | inl _ => false end = true)
    by (vm_compute; reflexivity).
  destruct (upgrade settings 20 GrantExamples.demo_token 1 run.2) as [[e|res] w] eqn:E; [discriminate E2|].
  exists res, w. split; [reflexivity|].
  destruct (promotion_binds_once settings 20 GrantExamples.demo_token 1 world result run.2 settings GrantExamples.demo_token 1 run.2 res w
    world_coherent after_coherent eq_refl eq_refl run_result En eq_refl E) as (_ & Hn & _ & Hs). by split.
Defined.

Example reservation_released :
  qe_state <$> (free_download_quota_entries run.2 !! 10%N) = Some RELEASED.
Proof. vm_compute. reflexivity. Qed.

End PromoteExamples.
