(* ===== verification/AuthorizeTheorems.v ===== *)
(** Who can read an artifact: exactly the bearers of the job's token and of an
    unrevoked grant for the artifact the job has now. *)

From S2P Require Export PromoteTheorems.

Local Open Scope string_scope.
Local Open Scope list_scope.
Local Open Scope Z_scope.

Module AuthorizeTheorems.
Import BrowserGrantRepository BrowserGrantService DownloadPremiumUpgradeService DeliveryService GrantTheorems PromoteTheorems.

(** ** Delivery conditions *)

Definition deliverable (parent : MediaJob) (job : MediaDownloadJob) (now : time) : Prop :=
  mj_public_state parent <> JobStates.EXPIRED /\ now < mj_expires_at parent /\
  dj_public_state job = DownloadStates.READY /\ now < dj_expires_at job.

(** The constraints of the table make the artifact of a ready job complete. *)
Lemma ready_pointer_complete job :
  MediaDownloadJob_check job = true -> dj_public_state job = DownloadStates.READY -> _assert_ready_pointer job = inr tt.
Proof.
  unfold MediaDownloadJob_check, dj_result_state_check. intros Hc Es. rewrite Es in Hc. propify.
  unfold _assert_ready_pointer. destruct (dj_artifact_bytes job) as [b|]; [|done]. destruct_opts. propify.
  cbn. by replace (b <=? 0) with false by (symmetry; apply Z.leb_gt; lia).
Qed.

Lemma assert_deliverable_exact parent job now :
  MediaDownloadJob_check job = true -> assert_deliverable parent job now = inr tt <-> deliverable parent job now.
Proof.
  intros Hc. unfold assert_deliverable, deliverable. split.
  - intros Ha. ok_step Ha. ok_step Ha. apply raise_if_inr in Ha0, Ha1. propify. done.
  - intros (Hp & Hpe & Hr & He). rewrite Hr, !bool_decide_eq_false_2 by done.
    replace (mj_expires_at parent <=? now) with false by (symmetry; by apply Z.leb_gt).
    replace (dj_expires_at job <=? now) with false by (symmetry; by apply Z.leb_gt).
    rewrite bool_decide_eq_true_2 by done. cbn. by apply ready_pointer_complete.
Qed.

Lemma credential_of_hash token h : hash_access_token token = inr h -> credential_of token = inr h.
Proof. unfold credential_of. by intros ->. Qed.

(** A text that is no token is reported as a job that does not exist. *)
Lemma credential_of_error token e : credential_of token = inl e -> exists reason, e = job_not_found reason.
Proof.
  unfold credential_of, hash_access_token, parse_access_token. destruct (parse_token token) as [f|raw].
  - intros [= <-]. by eexists.
  - cbn. rewrite length_sha256. done.
Qed.

(** ** The bearer of the job's token *)

(** The request presents the token of the job's parent. *)
Definition bearer (w : World) (id : uid) (token : string) (job : MediaDownloadJob) (parent : MediaJob) : Prop :=
  media_download_jobs w !! id = Some job /\ media_jobs w !! dj_media_job_id job = Some parent /\
  hash_access_token token = inr (mj_credential_hash parent).

Lemma authorize_run settings own id token w job parent :
  media_delivery_enabled settings = true -> bearer w id token job parent ->
  let now := clock w (clock_reads w) in
  authorize settings own id token w =
    (match assert_deliverable parent job now with
     | inl e => inl e
     | inr _ => match _policy_for_job own job with
                | inl e => inl e
                | inr policy => inr {| az_job := job; az_now := now; az_policy := Some policy |}
                end
     end, w <| clock_reads := S (clock_reads w) |>).
Proof.
  intros Hon (Hj & Hp & Hh) now. unfold authorize. rewrite (credential_of_hash _ _ Hh), Hon. cbn [negb].
  unfold bind at 1, lift, raise_when, bind at 1, ret, bind at 1, select_by_id, gets. cbn [table MediaDownloadJob_table].
  rewrite Hj. cbn -[assert_deliverable _policy_for_job clock_timestamp].
  unfold MediaJobRepository.get_by_id, select_by_id, gets, bind at 1. cbn [table MediaJob_table]. rewrite Hp.
  cbn -[assert_deliverable _policy_for_job tokens_match].
  rewrite (proj2 (tokens_match_true _ _) eq_refl). unfold bind, ret, clock_timestamp. cbn -[assert_deliverable _policy_for_job].
  destruct (assert_deliverable _ _ _); [done|]. by destruct (_policy_for_job own job).
Qed.

(** Authorization reads only, and succeeds for the bearer of a deliverable job. *)
Lemma wp_authorize settings own id token w :
  wp (authorize settings own id token)
    (fun authz w' => same_tables w w' /\ media_delivery_enabled settings = true /\ exists job parent policy,
       bearer w id token job parent /\ assert_deliverable parent job (clock w (clock_reads w)) = inr tt /\
       _policy_for_job own job = inr policy /\
       authz = {| az_job := job; az_now := clock w (clock_reads w); az_policy := Some policy |})
    (fun _ w' => same_tables w w') w.
Proof.
  unfold authorize, MediaJobRepository.get_by_id. wp_step. wp_step; [done|]. rename a into credential, H into Hcred.
  apply credential_of_ok in Hcred. wp_step. wp_step; [done|].
  rename H into Hon. apply negb_false_iff in Hon. wp_step. apply wp_select_by_id; [|by intros _; apply wp_raise]. intros job Hjob _.
  wp_step. apply wp_select_by_id; [|by intros _; apply wp_raise]. intros parent Hparent _.
  wp_step. wp_step; [done|]. rename H into Hm. apply negb_false_iff, tokens_match_true in Hm. apply wp_bind, wp_clock_timestamp.
  wp_step. wp_step; [done|]. destruct a. wp_step. wp_step; [done|]. apply wp_ret.
  split; [done|]. split; [done|]. exists job, parent, a. split; [|done]. split_and!; [done|done|by rewrite Hm].
Qed.

Lemma authorize_cases settings own id token w :
  match authorize settings own id token w with
  | (inr authz, w') => same_tables w w' /\ media_delivery_enabled settings = true /\ exists job parent policy,
       bearer w id token job parent /\ assert_deliverable parent job (clock w (clock_reads w)) = inr tt /\
       _policy_for_job own job = inr policy /\
       authz = {| az_job := job; az_now := clock w (clock_reads w); az_policy := Some policy |}
  | (inl _, w') => same_tables w w'
  end.
Proof.
  pose proof (wp_authorize settings own id token w) as Hw. unfold wp in Hw.
  by destruct (authorize settings own id token w) as [[e|authz] w'].
Qed.

(** Nobody else gets past the credential check. *)
Lemma authorize_stranger settings own id token w :
  media_delivery_enabled settings = true -> (forall job parent, ~ bearer w id token job parent) ->
  exists reason w', authorize settings own id token w = (inl (job_not_found reason), w').
Proof.
  intros Hon Hno. unfold authorize. destruct (credential_of token) as [e|credential] eqn:Ec.
  { apply credential_of_error in Ec as [reason ->]. by exists reason, w. }
  apply credential_of_ok in Ec. rewrite Hon. cbn [negb].
  unfold bind at 1, lift, raise_when, bind at 1, ret, bind at 1, select_by_id, gets. cbn [table MediaDownloadJob_table].
  destruct (media_download_jobs w !! id) as [job|] eqn:Ej; cbn -[tokens_match assert_deliverable _policy_for_job clock_timestamp]; [|by eexists _, w].
  unfold MediaJobRepository.get_by_id, select_by_id, gets, bind at 1. cbn [table MediaJob_table].
  destruct (media_jobs w !! dj_media_job_id job) as [parent|] eqn:Ep; cbn -[tokens_match assert_deliverable _policy_for_job clock_timestamp]; [|by eexists _, w].
  destruct (tokens_match _ _) eqn:Em; [|by eexists _, w].
  apply tokens_match_true in Em. destruct (Hno job parent). split_and!; [done|done|by rewrite Em].
Qed.

Lemma open_of_ready job policy authz now :
  MediaDownloadJob_check job = true -> dj_public_state job = DownloadStates.READY ->
  now < dj_expires_at job -> authz = {| az_job := job; az_now := now; az_policy := Some policy |} ->
  exists request, open_request authz = inr request /\ Some (or_artifact_id request) = dj_artifact_id job /\
    Some (or_expected_bytes request) = dj_artifact_bytes job /\ or_expected_fence request = dj_fence_token job.
Proof.
  intros Hc Hr He ->. pose proof (ready_pointer_complete job Hc Hr) as Hp. unfold _assert_ready_pointer in Hp.
  ok_step Hp. apply raise_if_inr in Hp0. unfold is_none in Hp0. propify. unfold open_request. cbn [az_job az_now].
  replace (dj_expires_at job <=? now) with false by (symmetry; by apply Z.leb_gt). destruct_opts. cbn. by eexists.
Qed.

(** C24: Authorization is exact. A request is authorized exactly when delivery is
    enabled, the token presented is the one of the job's parent, parent and job
    are alive, the job is ready and its policy readable; the answer then names
    that job and the artifact the reader may open. Without the token the answer is
    the one for a job that does not exist. Nothing is written either way. *)
Theorem authorize_exact settings own id token w :
  (forall job, media_download_jobs w !! id = Some job -> MediaDownloadJob_check job = true) ->
  let now := clock w (clock_reads w) in
  (forall authz, (authorize settings own id token w).1 = inr authz <->
     media_delivery_enabled settings = true /\ exists job parent policy,
       bearer w id token job parent /\ deliverable parent job now /\ _policy_for_job own job = inr policy /\
       authz = {| az_job := job; az_now := now; az_policy := Some policy |}) /\
  (forall authz, (authorize settings own id token w).1 = inr authz ->
     exists request, open_request authz = inr request /\
       Some (or_artifact_id request) = dj_artifact_id (az_job authz) /\
       or_expected_fence request = dj_fence_token (az_job authz)) /\
  (media_delivery_enabled settings = true -> (forall job parent, ~ bearer w id token job parent) ->
     exists reason, (authorize settings own id token w).1 = inl (download_error DOWNLOAD_JOB_NOT_FOUND reason)) /\
  same_tables w (authorize settings own id token w).2.
Proof.
  intros Hc now. pose proof (authorize_cases settings own id token w) as Hcases. fold now in Hcases.
  assert (Hex : forall authz, (authorize settings own id token w).1 = inr authz ->
     media_delivery_enabled settings = true /\ exists job parent policy,
       bearer w id token job parent /\ deliverable parent job now /\ _policy_for_job own job = inr policy /\
       authz = {| az_job := job; az_now := now; az_policy := Some policy |}).
  { intros authz E. rewrite (surjective_pairing (authorize _ _ _ _ _)), E in Hcases.
    destruct Hcases as (_ & Hon & job & parent & policy & Hb & Hd & Hp & ->). split; [done|]. exists job, parent, policy.
    split; [done|]. split; [|done]. apply assert_deliverable_exact in Hd; [done|]. by apply Hc, Hb. }
  split_and!.
  - intros authz. split; [apply Hex|]. intros (Hon & job & parent & policy & Hb & Hd & Hp & ->).
    rewrite (authorize_run settings own id token w job parent Hon Hb).
    apply assert_deliverable_exact in Hd; [|by apply Hc, Hb]. fold now. by rewrite Hd, Hp.
  - intros authz E. apply Hex in E as (Hon & job & parent & policy & Hb & (_ & _ & Hr & He) & Hp & ->).
    destruct (open_of_ready job policy _ now (Hc _ (proj1 Hb)) Hr He eq_refl) as (request & E & Ha & _ & Hf). by exists request.
  - intros Hon Hno. destruct (authorize_stranger settings own id token w Hon Hno) as (reason & w' & ->). by exists reason.
  - clear Hex. destruct (authorize settings own id token w) as [[e|authz] w']; [done|]. by destruct Hcases.
Qed.

(** ** The bearer of a grant *)

Lemma select_by_id_run {R} `{Table R} id (p : R -> bool) w r :
  table w !! id = Some r -> p r = true -> select_by_id id p w = (inr (Some r), w).
Proof. intros Hr Hp. unfold select_by_id, gets. rewrite Hr. cbn. by rewrite Hp. Qed.

(** One step of a computation whose outcome is known. *)
Ltac run_step := (erewrite bind_run; [|reflexivity]); cbv beta iota.
Ltac run_by E := (erewrite bind_run; [|exact E]); cbv beta iota.

(** The grant is one the holder of the secret may use at [now] for the artifact
    the job has. *)
Record usable_grant (w : World) (id : uid) (secret : string) (now : time) (g : MediaDeliveryGrant)
    (job : MediaDownloadJob) (parent : MediaJob) : Prop := {
  ug_row : media_delivery_grants w !! id = Some g;
  ug_secret : hash_grant_token secret = inr (dg_token_hash g);
  ug_active : dg_revoked_at g = None /\ now < dg_expires_at g;
  ug_job : media_download_jobs w !! dg_download_job_id g = Some job;
  ug_parent : media_jobs w !! dj_media_job_id job = Some parent;
  ug_deliverable : assert_deliverable parent job now = inr tt;
  ug_artifact : dj_artifact_id job = Some (dg_artifact_id g) /\ dj_fence_token job = dg_fence_token g
}.

Lemma hash_grant_token_inv secret h :
  hash_grant_token secret = inr h -> length h = 32%nat /\ exists raw, parse_grant_token secret = inr raw.
Proof.
  unfold hash_grant_token. destruct (parse_grant_token secret) as [e|raw]; [done|].
  destruct (Nat.eqb_spec (length (sha256 (domain "fetchnow:v1:browser-delivery-grant" ++ raw))) 32) as [E|]; [|done].
  intros [= <-]. split; [exact E|by exists raw].
Qed.

Lemma grant_hashes_match_true a b : length b = 32%nat -> grant_hashes_match a b = true <-> a = b.
Proof.
  unfold grant_hashes_match. intros Hb. destruct (Nat.eqb_spec (length a) 32) as [Ha|Ha], (Nat.eqb_spec (length b) 32); cbn;
    rewrite ?bool_decide_eq_true; try done; split; intros E; subst; done.
Qed.

(** A grant that authorizes is usable. *)
Lemma wp_authorize_grant settings own id secret w :
  let now := clock w (clock_reads w) in
  wp (authorize_browser_grant settings own id secret)
    (fun authz w' => same_tables w w' /\ exists g job parent policy,
       usable_grant w id secret now g job parent /\ _policy_for_job own job = inr policy /\
       authz = {| az_job := job; az_now := now; az_policy := Some policy |})
    (fun _ _ => True) w.
Proof.
  intros now. unfold authorize_browser_grant, BrowserGrantRepository.get_by_id, BrowserGrantRepository.database_now, MediaJobRepository.get_by_id.
  wp_step. wp_step; [done|]. wp_step. wp_step; [done|]. rename a0 into h, H0 into Hh.
  do 2 (wp_step; apply wp_guard; intros _). wp_step. apply wp_select_by_id; [|by intros _]. intros g Hg _.
  destruct (hash_grant_token_inv _ _ Hh) as [Hlen _].
  wp_step. apply wp_guard. intros Hm%negb_false_iff%grant_hashes_match_true; [|done]. apply wp_clock_now.
  wp_step. apply wp_guard. intros Hlive%orb_false_iff. destruct Hlive as [Hrev Hexp%Z.leb_gt].
  wp_step. apply wp_select_by_id; [|by intros _]. intros job Hjob _.
  wp_step. apply wp_select_by_id; [|by intros _]. intros parent Hparent _.
  wp_step. wp_step; [done|]. destruct a0. wp_step. apply wp_guard. intros Hart%orb_false_iff.
  destruct Hart as [Hart%negb_false_iff%bool_decide_eq_true Hfence%negb_false_iff%Z.eqb_eq].
  wp_step. wp_step; [done|]. apply wp_ret. split; [done|]. exists g, job, parent, a0. split; [|done].
  split; try done; [by rewrite Hm|]. split; [by destruct (dg_revoked_at g)|exact Hexp].
Qed.

(** And a usable grant authorizes. *)
Lemma authorize_grant_run settings own id secret w g job parent policy :
  let now := clock w (clock_reads w) in
  media_delivery_enabled settings = true -> media_browser_delivery_enabled settings = true ->
  usable_grant w id secret now g job parent -> _policy_for_job own job = inr policy ->
  authorize_browser_grant settings own id secret w =
    (inr {| az_job := job; az_now := now; az_policy := Some policy |}, w <| clock_reads := S (clock_reads w) |>).
Proof.
  intros now Hon Hbr [Hg Hh [Hrev Hexp] Hjob Hparent Hd [Hart Hfence]] Hp.
  destruct (hash_grant_token_inv _ _ Hh) as [Hlen [raw Hraw]].
  unfold authorize_browser_grant, BrowserGrantRepository.get_by_id, BrowserGrantRepository.database_now, MediaJobRepository.get_by_id.
  rewrite Hraw, Hh, Hon, Hbr. run_step. run_step.
  do 2 run_step. run_by (select_by_id_run id (fun _ => true) w g Hg eq_refl).
  rewrite (proj2 (grant_hashes_match_true _ _ Hlen) eq_refl). run_step.
  set (w1 := w <| clock_reads := S (clock_reads w) |>). run_step.
  fold w1 now. rewrite Hrev, (proj2 (Z.leb_gt _ _) Hexp). run_step.
  run_by (select_by_id_run (R := MediaDownloadJob) _ (fun _ => true) w1 job Hjob eq_refl).
  run_by (select_by_id_run (R := MediaJob) _ (fun _ => true) w1 parent Hparent eq_refl).
  rewrite Hd. run_step.
  rewrite Hart, Hfence, bool_decide_eq_true_2, Z.eqb_refl by done. run_step.
  rewrite Hp. by run_step.
Qed.

(** C25: A handed-out grant works until it ends. If [issue] returned a grant, then
    as long as its row and the job are what [issue] left, the parent is alive and
    the grant has not expired, presenting its id and secret is authorized and
    asks the reader for exactly the artifact of the job, without writing. *)
Theorem issued_grant_opens settings own id token random w issued w' w2 :
  keyed (R := MediaDeliveryGrant) w -> keyed (R := MediaDownloadJob) w ->
  1 <= media_browser_grant_max_active settings -> media_delivery_enabled settings = true ->
  (forall job, media_download_jobs w !! id = Some job -> MediaDownloadJob_check job = true) ->
  issue settings id token random w = (inr issued, w') ->
  let t := clock w2 (clock_reads w2) in
  media_delivery_grants w2 !! grant_id issued = media_delivery_grants w' !! grant_id issued ->
  media_download_jobs w2 !! id = media_download_jobs w' !! id ->
  (forall job, media_download_jobs w2 !! id = Some job ->
     (exists parent, media_jobs w2 !! dj_media_job_id job = Some parent /\
        mj_public_state parent <> JobStates.EXPIRED /\ t < mj_expires_at parent) /\
     exists policy, _policy_for_job own job = inr policy) ->
  t < expires_at issued ->
  exists authz w3 request,
    authorize_browser_grant settings own (grant_id issued) (raw_token issued) w2 = (inr authz, w3) /\
    same_tables w2 w3 /\ media_download_jobs w !! id = Some (az_job authz) /\
    open_request authz = inr request /\ Some (or_artifact_id request) = dj_artifact_id (az_job authz) /\
    Some (or_expected_bytes request) = dj_artifact_bytes (az_job authz).
Proof.
  intros Hkg Hkj Hmax Hon Hc E t Hrow Hjob2 Hrest Ht.
  pose proof (wp_issue settings id token random w Hkg Hmax) as Hw. unfold wp in Hw. rewrite E in Hw.
  destruct Hw as (job & g & kept & [Hj Hr _ _ Hs Hid Hsec [Hart Hfence] Hact [Hexp Hle] _ _ _ _ Htab]).
  pose proof (Hkj _ _ Hj) as Ejob. cbn in Ejob.
  assert (Hj2 : media_download_jobs w2 !! id = Some job).
  { rewrite Hjob2. rewrite <- Hj. apply (f_equal (fun m : gmap uid MediaDownloadJob => m !! id)). apply Htab. }
  destruct (Hrest job Hj2) as [(parent & Hp & Hpe & Hpx) [policy Hpol]].
  assert (Hbr : media_browser_delivery_enabled settings = true).
  { unfold issue in E. step_in E. step_in E. by destruct (media_browser_delivery_enabled settings). }
  unfold grant_active in Hact. propify.
  assert (Hd : assert_deliverable parent job t = inr tt).
  { apply assert_deliverable_exact; [by apply Hc|]. split_and!; try done. lia. }
  assert (Hug : usable_grant w2 (grant_id issued) (raw_token issued) t g job parent).
  { split; try done; [by rewrite Hrow, Hid| |by rewrite H, Ejob].
    split; [by destruct (dg_revoked_at g)|lia]. }
  destruct (open_of_ready job policy {| az_job := job; az_now := t; az_policy := Some policy |} t (Hc _ Hj) Hr) as (request & Eo & Ha & Hb & _); [lia|done|].
  exists {| az_job := job; az_now := t; az_policy := Some policy |}, (w2 <| clock_reads := S (clock_reads w2) |>), request.
  split; [exact (authorize_grant_run settings own _ _ w2 g job parent policy Hon Hbr Hug Hpol)|]. by split_and!.
Qed.

(** C26: Promotion ends every grant handed out before it. Once an upgrade turned
    the job into a Premium one, no grant that existed for the job authorizes any
    more, whatever secret is presented and at whatever later time. *)
Theorem promotion_ends_grants settings id token client w res w' gid g settings2 own secret w2 :
  coherent w -> (client < 2 ^ 128)%N ->
  upgrade settings id token client w = (inr res, w') -> promoted_now res = true ->
  media_delivery_grants w !! gid = Some g -> dg_download_job_id g = id ->
  media_delivery_grants w2 !! gid = media_delivery_grants w' !! gid ->
  clock w (clock_reads w) <= clock w2 (clock_reads w2) ->
  exists e, (authorize_browser_grant settings2 own gid secret w2).1 = inl e.
Proof.
  intros Hco Hid E Hnow Hg Hgj Hrow Hclock.
  pose proof (wp_upgrade settings id token client w Hco Hid) as Hw. unfold wp in Hw. rewrite E in Hw.
  unfold upgraded in Hw. rewrite Hnow in Hw. destruct Hw as (job & Hjid & Hpm).
  destruct (pm_effect _ _ _ _ _ _ _ _ Hpm) as (w0 & ws & _ & _ & ->).
  pose proof (wp_authorize_grant settings2 own gid secret w2) as Ha. unfold wp in Ha.
  destruct (authorize_browser_grant settings2 own gid secret w2) as [[e|authz] w3]; [by exists e|]. exfalso.
  destruct Ha as (_ & g2 & job2 & parent2 & policy2 & [Hg2 _ [Hrev Hexp] _ _ _ _] & _).
  rewrite Hrow in Hg2. cbn in Hg2. rewrite lookup_fmap, Hg in Hg2. cbn in Hg2. injection Hg2 as <-.
  pose proof (revoked_active_inactive (dj_id job) (clock w (clock_reads w)) g) as Hin.
  unfold grant_active in Hin. rewrite Hrev in Hin.
  assert (Hjob : dg_download_job_id (revoked_active (dj_id job) (clock w (clock_reads w)) g) = dj_id job).
  { unfold revoked_active. rewrite Hjid. by destruct (grant_active _ _ _). }
  rewrite Hjob, bool_decide_eq_true_2 in Hin by done. cbn in Hin. propify. lia.
Qed.

End AuthorizeTheorems.

(** ** A grant used, and the same grant after a promotion *)
Module AuthorizeExamples.
Import BrowserGrantService DeliveryService AuthorizeTheorems DownloadPremiumUpgradeService PromoteTheorems PromoteExamples.

Definition job_checked (w : World) : bool := forallb (fun p => MediaDownloadJob_check p.2) (map_to_list (media_download_jobs w)).

Lemma world_checked : forall job, media_download_jobs world !! 20%N = Some job -> MediaDownloadJob_check job = true.
Proof.
  intros job Hj. assert (E : job_checked world = true) by (vm_compute; reflexivity).
  unfold job_checked in E. rewrite forallb_forall in E. apply (E (20%N, job)). by apply list_elem_of_In, elem_of_map_to_list.
Qed.

Definition authz : Authorization := {| az_job := free_job; az_now := seconds 200; az_policy := Some free_policy |}.

Lemma authorize_exact_witness :
  (authorize settings free_policy 20 GrantExamples.demo_token world).1 = inr authz /\
  exists reason, (authorize settings free_policy 21 GrantExamples.demo_token world).1 = inl (download_error DOWNLOAD_JOB_NOT_FOUND reason).
Proof.
  destruct (authorize_exact settings free_policy 20 GrantExamples.demo_token world world_checked) as (Hex & _ & _ & _).
  destruct (authorize_exact settings free_policy 21 GrantExamples.demo_token world) as (_ & _ & Hno & _); [done|].
  split.
  - apply Hex. split; [reflexivity|]. exists free_job, GrantExamples.demo_parent, free_policy. split_and!; [|by split_and!| |done].
    + split_and!; [reflexivity..|]. vm_compute. reflexivity.
    + vm_compute. reflexivity.
  - apply Hno; [reflexivity|]. intros job parent (Hj & _). discriminate Hj.
Defined.

Definition issuance : (exn + IssuedBrowserGrant) * World :=
  issue settings 20 GrantExamples.demo_token GrantExamples.demo_random world.
Definition issued : IssuedBrowserGrant :=
  match issuance.1 with inr i => i | inl _ => GrantExamples.demo_issued end.

Lemma issuance_result : issuance = (inr issued, issuance.2).
Proof.
  assert (E : match issuance.1 with inr _ => true | inl _ => false end = true) by (vm_compute; reflexivity).
  unfold issued. rewrite (surjective_pairing issuance) at 1. by destruct issuance.1.
Qed.

Lemma issued_grant_opens_witness :
  exists authz w3, authorize_browser_grant settings free_policy (grant_id issued) (raw_token issued) issuance.2 = (inr authz, w3) /\
    az_job authz = free_job.
Proof.
  destruct (issued_grant_opens settings free_policy 20 GrantExamples.demo_token GrantExamples.demo_random world issued issuance.2 issuance.2)
    as (authz & w3 & request & E & _ & Hj & _).
  - apply world_coherent.
  - apply world_coherent.
  - cbn. lia.
  - reflexivity.
  - exact world_checked.
  - exact issuance_result.
  - reflexivity.
  - reflexivity.
  - intros job Hj. assert (E : media_download_jobs issuance.2 !! 20%N = Some free_job) by (vm_compute; reflexivity).
    rewrite E in Hj. injection Hj as <-. split.
    + exists GrantExamples.demo_parent. split_and!; vm_compute; [reflexivity|discriminate|reflexivity].
    + exists free_policy. vm_compute. reflexivity.
  - vm_compute. reflexivity.
  - exists authz, w3. split; [exact E|]. injection Hj as <-. reflexivity.
Defined.

Lemma promotion_ends_grants_witness :
  exists e, (authorize_browser_grant settings free_policy 30 GrantExamples.demo_token run.2).1 = inl e.
Proof.
  apply (promotion_ends_grants settings 20 GrantExamples.demo_token 1 world result run.2 30 (GrantExamples.demo_grant 30 (seconds 5))
    settings free_policy GrantExamples.demo_token run.2 world_coherent eq_refl run_result).
  - vm_compute. reflexivity.
  - reflexivity.
  - reflexivity.
  - reflexivity.
  - apply Z.leb_le. vm_compute. reflexivity.
Defined.
End AuthorizeExamples.
