(* ===== verification/Capabilities.v ===== *)
(** What each provider may be used for ([capabilities/models.py],
    [capabilities/registry.py], [capabilities/public.py]). *)

From S2P Require Export UrlValidation Json.

Local Open Scope string_scope.
Local Open Scope list_scope.

(** Source: backend/src/fetchnow/capabilities/models.py:16-21 [CapabilityState] *)
Inductive CapabilityState := ENABLED | DISABLED | PLANNED.

(** Source: backend/src/fetchnow/capabilities/models.py:24-30 [MediaOperation] *)
Inductive MediaOperation := DOWNLOAD_VIDEO | EXTRACT_AUDIO | SELECT_QUALITY | SELECT_CONTAINER.

(** Source: backend/src/fetchnow/capabilities/models.py:33-39 [ContentKind] *)
Inductive ContentKind := KIND_VIDEO | KIND_CLIP | KIND_LIVE | KIND_PLAYLIST.

(** Source: backend/src/fetchnow/capabilities/models.py:42-47 [MetadataField] *)
Inductive MetadataField := FIELD_TITLE | FIELD_DURATION | FIELD_THUMBNAIL.

#[global] Instance CapabilityState_eq_dec : EqDecision CapabilityState.
Proof. solve_decision. Defined.
#[global] Instance MediaOperation_eq_dec : EqDecision MediaOperation.
Proof. solve_decision. Defined.
#[global] Instance ContentKind_eq_dec : EqDecision ContentKind.
Proof. solve_decision. Defined.
#[global] Instance MetadataField_eq_dec : EqDecision MetadataField.
Proof. solve_decision. Defined.
#[global] Instance ProviderID_eq_dec' : EqDecision ProviderID.
Proof. solve_decision. Defined.

Definition all_operations : list MediaOperation := [DOWNLOAD_VIDEO; EXTRACT_AUDIO; SELECT_QUALITY; SELECT_CONTAINER].
Definition all_content_kinds : list ContentKind := [KIND_VIDEO; KIND_CLIP; KIND_LIVE; KIND_PLAYLIST].
Definition all_fields : list MetadataField := [FIELD_TITLE; FIELD_DURATION; FIELD_THUMBNAIL].
Definition all_providers : list ProviderID := [VK; RUTUBE; OK; DZEN].

(** ** Tables as dictionaries *)

(** [mapping.get(key)] *)
Definition dict_get {K V} `{EqDecision K} (key : K) (d : list (K * V)) : option V :=
  snd <$> List.find (fun kv => bool_decide (kv.1 = key)) d.

(** [set(d) == set(members)] *)
Definition covers_all {K V} `{EqDecision K} (members : list K) (d : list (K * V)) : bool :=
  forallb (fun k => bool_decide (k ∈ d.*1)) members && forallb (fun k => bool_decide (k ∈ members)) d.*1.

(** Source: backend/src/fetchnow/capabilities/models.py:64-71 [ProviderCapabilities] *)
Record ProviderCapabilities := {
  provider_id : ProviderID;
  operations : list (MediaOperation * CapabilityState);
  content_kinds : list (ContentKind * CapabilityState);
  metadata : list (MetadataField * CapabilityState)
}.

(** Source: backend/src/fetchnow/capabilities/models.py:50-61 [_complete_mapping] *)
Definition _complete_mapping {K} `{EqDecision K} (values : list (K * CapabilityState)) (members : list K) (field_name : string)
  : exn + list (K * CapabilityState) :=
  raise_if (negb (covers_all members values)) (ValueError (field_name ++ " must cover every member")%string) ;;? inr values.

(** Source: backend/src/fetchnow/capabilities/models.py:73-102 [__post_init__] *)
Definition new_provider_capabilities (c : ProviderCapabilities) : exn + ProviderCapabilities :=
  _complete_mapping (operations c) all_operations "operations" ;;?
  _complete_mapping (content_kinds c) all_content_kinds "content_kinds" ;;?
  _complete_mapping (metadata c) all_fields "metadata" ;;?
  inr c.

(** Source: backend/src/fetchnow/capabilities/models.py:104-106 [allows]
    A constructed descriptor covers every operation. *)
Definition allows (c : ProviderCapabilities) (operation : MediaOperation) : bool :=
  bool_decide (dict_get operation (operations c) = Some ENABLED).

(** ** The registry *)

(** Source: backend/src/fetchnow/capabilities/registry.py:26-31 [_capabilities] *)
Definition default_operations : list (MediaOperation * CapabilityState) :=
  [(DOWNLOAD_VIDEO, ENABLED); (EXTRACT_AUDIO, ENABLED); (SELECT_QUALITY, ENABLED); (SELECT_CONTAINER, DISABLED)].

(** Source: backend/src/fetchnow/capabilities/registry.py:38-42 [_capabilities] *)
Definition default_metadata : list (MetadataField * CapabilityState) :=
  [(FIELD_TITLE, ENABLED); (FIELD_DURATION, ENABLED); (FIELD_THUMBNAIL, PLANNED)].

(** Source: backend/src/fetchnow/capabilities/registry.py:18-43 [_capabilities] *)
Definition _capabilities (provider_id : ProviderID) : ProviderCapabilities := {|
  provider_id := provider_id;
  operations := default_operations;
  content_kinds := [(KIND_VIDEO, ENABLED); (KIND_CLIP, ENABLED); (KIND_LIVE, DISABLED); (KIND_PLAYLIST, DISABLED)];
  metadata := default_metadata
|}.

(** Source: backend/src/fetchnow/capabilities/registry.py:46-69 [_ok_capabilities] *)
Definition _ok_capabilities : ProviderCapabilities := {|
  provider_id := OK;
  operations := [(DOWNLOAD_VIDEO, ENABLED); (EXTRACT_AUDIO, ENABLED); (SELECT_QUALITY, ENABLED); (SELECT_CONTAINER, DISABLED)];
  content_kinds := [(KIND_VIDEO, ENABLED); (KIND_CLIP, DISABLED); (KIND_LIVE, DISABLED); (KIND_PLAYLIST, DISABLED)];
  metadata := [(FIELD_TITLE, ENABLED); (FIELD_DURATION, ENABLED); (FIELD_THUMBNAIL, PLANNED)]
|}.

(** Source: backend/src/fetchnow/capabilities/registry.py:72-97 [_dzen_capabilities] *)
Definition _dzen_capabilities : ProviderCapabilities := {|
  provider_id := DZEN;
  operations := [(DOWNLOAD_VIDEO, ENABLED); (EXTRACT_AUDIO, ENABLED); (SELECT_QUALITY, ENABLED); (SELECT_CONTAINER, DISABLED)];
  content_kinds := [(KIND_VIDEO, ENABLED); (KIND_CLIP, ENABLED); (KIND_LIVE, DISABLED); (KIND_PLAYLIST, DISABLED)];
  metadata := [(FIELD_TITLE, ENABLED); (FIELD_DURATION, ENABLED); (FIELD_THUMBNAIL, PLANNED)]
|}.

(** Source: backend/src/fetchnow/capabilities/registry.py:100-109 [DEFAULT_PROVIDER_CAPABILITIES] *)
Definition DEFAULT_PROVIDER_CAPABILITIES : list (ProviderID * ProviderCapabilities) :=
  [(VK, _capabilities VK); (RUTUBE, _capabilities RUTUBE); (OK, _ok_capabilities); (DZEN, _dzen_capabilities)].

Module ProviderCapabilityRegistry.

(** Source: backend/src/fetchnow/capabilities/registry.py:112-122 [ProviderCapabilityRegistry]
    The sealed mapping. *)
Definition t : Type := list (ProviderID * ProviderCapabilities).

(** Source: backend/src/fetchnow/capabilities/registry.py:134-144 [from_mapping] *)
Definition from_mapping (capabilities : list (ProviderID * ProviderCapabilities)) : exn + t :=
  raise_if (negb (covers_all all_providers capabilities))
    (ValueError "capability registry must cover every ProviderID") ;;?
  raise_if (existsb (fun kv => negb (bool_decide (kv.1 = provider_id kv.2))) capabilities)
    (ValueError "capability registry key does not match provider_id") ;;?
  inr capabilities.

(** [ProviderID(value)] *)
Definition provider_of (value : string) : option ProviderID :=
  List.find (fun p => bool_decide (provider_value p = value)) all_providers.

(** Source: backend/src/fetchnow/capabilities/registry.py:146-152 [get] *)
Definition get (registry : t) (provider_id : string) : option ProviderCapabilities :=
  normalized ← provider_of (lower (of_chars (strip is_space (chars provider_id))));
  dict_get normalized registry.

(** Source: backend/src/fetchnow/capabilities/registry.py:154-167 [require] *)
Definition require (registry : t) (provider_id : string) : exn + ProviderCapabilities :=
  need (get registry provider_id) (download_error PROVIDER_CAPABILITY_DISABLED "CAPABILITY_PROVIDER_UNKNOWN").
End ProviderCapabilityRegistry.

(** Source: backend/src/fetchnow/capabilities/registry.py:170-172 [DEFAULT_CAPABILITY_REGISTRY] *)
Definition DEFAULT_CAPABILITY_REGISTRY : exn + ProviderCapabilityRegistry.t :=
  ProviderCapabilityRegistry.from_mapping DEFAULT_PROVIDER_CAPABILITIES.

(** Source: backend/src/fetchnow/capabilities/registry.py:175-189 [assert_operation_allowed] *)
Definition assert_operation_allowed (registry : ProviderCapabilityRegistry.t) (provider_id : string)
    (operation : MediaOperation) : exn + unit :=
  let? descriptor := ProviderCapabilityRegistry.require registry provider_id in
  raise_if (negb (allows descriptor operation))
    (download_error PROVIDER_CAPABILITY_DISABLED "CAPABILITY_OPERATION_DISABLED").

(** ** The public projection *)

(** Source: backend/src/fetchnow/capabilities/models.py:19-21 [CapabilityState] *)
Definition _state_wire (state : CapabilityState) : string :=
  match state with ENABLED => "enabled" | DISABLED => "disabled" | PLANNED => "planned" end.

(** Source: backend/src/fetchnow/capabilities/public.py:20-25 [_OPERATION_KEYS] *)
Definition _OPERATION_KEYS : list (MediaOperation * string) :=
  [(DOWNLOAD_VIDEO, "downloadVideo"); (EXTRACT_AUDIO, "extractAudio"); (SELECT_QUALITY, "selectQuality");
   (SELECT_CONTAINER, "selectContainer")].
(** Source: backend/src/fetchnow/capabilities/public.py:26-31 [_CONTENT_KIND_KEYS] *)
Definition _CONTENT_KIND_KEYS : list (ContentKind * string) :=
  [(KIND_VIDEO, "video"); (KIND_CLIP, "clip"); (KIND_LIVE, "live"); (KIND_PLAYLIST, "playlist")].
(** Source: backend/src/fetchnow/capabilities/public.py:32-36 [_METADATA_KEYS] *)
Definition _METADATA_KEYS : list (MetadataField * string) :=
  [(FIELD_TITLE, "title"); (FIELD_DURATION, "duration"); (FIELD_THUMBNAIL, "thumbnail")].

(** The comprehension over one table; a missing entry is a [KeyError]. *)
Definition project_table {K} `{EqDecision K} (values : list (K * CapabilityState)) (keys : list (K * string)) : exn + Json :=
  let? members := err_map (fun p => let? state := need (dict_get p.1 values) KeyError in inr (p.2, JStr (_state_wire state))) keys in
  inr (JObj members).

(** Source: backend/src/fetchnow/capabilities/public.py:43-58 [_project_descriptor] *)
Definition _project_descriptor (descriptor : ProviderCapabilities) : exn + Json :=
  let? ops := project_table (operations descriptor) _OPERATION_KEYS in
  let? kinds := project_table (content_kinds descriptor) _CONTENT_KIND_KEYS in
  let? fields := project_table (metadata descriptor) _METADATA_KEYS in
  inr (JObj [("providerId", JStr (provider_value (provider_id descriptor))); ("operations", ops);
             ("contentKinds", kinds); ("metadata", fields)]).

(** Source: backend/src/fetchnow/capabilities/public.py:61-72 [project_provider_capabilities] *)
Definition project_provider_capabilities (registry : ProviderCapabilityRegistry.t) (provider_id : string) : exn + Json :=
  match ProviderCapabilityRegistry.get registry provider_id with
  | None => inr JNull
  | Some descriptor => _project_descriptor descriptor
  end.
