(* ===== verification/Utf8.v ===== *)
(** UTF-8 over code points: [str.encode] and [bytes.decode], strict and with
    [errors="ignore"]. Texts that may hold any code point are lists of [N]. *)

From S2P Require Export Text.

Local Open Scope list_scope.
Local Open Scope Z_scope.

(** The code points of a Latin-1 literal, and back. *)
Definition codepoints (s : string) : list N := N_of_ascii <$> chars s.
Definition of_codepoints (l : list N) : string := of_chars (ascii_of_N <$> l).

(** A code point that UTF-8 can encode: a surrogate cannot. *)
Definition scalar (c : N) : bool := (c <? 55296)%N || ((57344 <=? c)%N && (c <? 1114112)%N).

(** [chr(c).encode("utf-8")]: its bytes. *)
Definition encode_char (c : N) : list Z :=
  let c := Z.of_N c in
  if c <? 128 then [c]
  else if c <? 2048 then [192 + c / 64; 128 + c mod 64]
  else if c <? 65536 then [224 + c / 4096; 128 + c / 64 mod 64; 128 + c mod 64]
  else [240 + c / 262144; 128 + c / 4096 mod 64; 128 + c / 64 mod 64; 128 + c mod 64].

(** [value.encode("utf-8")]; [None] is the [UnicodeEncodeError]. *)
Definition utf8_encode (l : list N) : option (list Z) :=
  if forallb scalar l then Some (l ≫= encode_char) else None.

Definition continuation (b : Z) : bool := (128 <=? b) && (b <? 192).

(** The first code point of well-formed UTF-8, and the bytes after it. *)
Definition decode_char (l : list Z) : option (N * list Z) :=
  match l with
  | [] => None
  | a :: l =>
      if a <? 128 then Some (Z.to_N a, l) else
      match l with
      | [] => None
      | b :: l =>
          if negb (continuation b) then None else
          if (194 <=? a) && (a <? 224) then Some (Z.to_N ((a - 192) * 64 + (b - 128)), l) else
          match l with
          | [] => None
          | c :: l =>
              if negb (continuation c) then None else
              if (224 <=? a) && (a <? 240) then
                let v := Z.to_N (((a - 224) * 64 + (b - 128)) * 64 + (c - 128)) in
                if (v <? 2048)%N || negb (scalar v) then None else Some (v, l)
              else
              match l with
              | [] => None
              | d :: l =>
                  if negb (continuation d) then None else
                  if (240 <=? a) && (a <? 245) then
                    let v := Z.to_N ((((a - 240) * 64 + (b - 128)) * 64 + (c - 128)) * 64 + (d - 128)) in
                    if (v <? 65536)%N || negb (scalar v) then None else Some (v, l)
                  else None
              end
          end
      end
  end.

(** [raw.decode("utf-8")], one byte of fuel per character at least. *)
Fixpoint utf8_decode_fuel (fuel : nat) (l : list Z) : option (list N) :=
  match l with
  | [] => Some []
  | _ :: _ =>
      match fuel with
      | O => None
      | S fuel =>
          match decode_char l with
          | Some (c, l) => (c ::.) <$> utf8_decode_fuel fuel l
          | None => None
          end
      end
  end.
Definition utf8_decode (l : list Z) : option (list N) := utf8_decode_fuel (length l) l.

(** [raw.decode("utf-8", errors="ignore")]: a byte that starts no character is
    dropped. *)
Fixpoint utf8_decode_ignore_fuel (fuel : nat) (l : list Z) : list N :=
  match fuel, l with
  | S fuel, _ :: rest =>
      match decode_char l with
      | Some (c, l) => c :: utf8_decode_ignore_fuel fuel l
      | None => utf8_decode_ignore_fuel fuel rest
      end
  | _, _ => []
  end.
Definition utf8_decode_ignore (l : list Z) : list N := utf8_decode_ignore_fuel (length l) l.

(** ** Laws *)

Lemma scalar_bound c : scalar c = true -> (c < 55296 \/ 57344 <= c < 1114112)%N.
Proof. unfold scalar. intros [H%N.ltb_lt|[H1%N.leb_le H2%N.ltb_lt]%andb_true_iff]%orb_true_iff; lia. Qed.

Lemma encode_char_bytes c : scalar c = true -> Forall (fun b => 0 <= b < 256) (encode_char c).
Proof.
  intros Hs%scalar_bound. unfold encode_char. set (z := Z.of_N c). assert (0 <= z < 1114112) by lia.
  destruct (Z.ltb_spec z 128); [|destruct (Z.ltb_spec z 2048); [|destruct (Z.ltb_spec z 65536)]];
    repeat constructor; Z.to_euclidean_division_equations; lia.
Qed.

Lemma encode_char_length c : (1 <= length (encode_char c) <= 4)%nat.
Proof. unfold encode_char. repeat destruct (_ <? _); cbn; lia. Qed.

Lemma continuation_true b : 128 <= b < 192 -> continuation b = true.
Proof. intros H. unfold continuation. apply andb_true_iff. split; [apply Z.leb_le|apply Z.ltb_lt]; lia. Qed.

Local Ltac ltb_false := match goal with |- context [?a <? ?b] => replace (a <? b) with false by (symmetry; apply Z.ltb_ge; lia) end.
Local Ltac ltb_true := match goal with |- context [?a <? ?b] => replace (a <? b) with true by (symmetry; apply Z.ltb_lt; lia) end.

(** Reading a character back. *)
Lemma decode_encode_char c rest : scalar c = true -> decode_char (encode_char c ++ rest) = Some (c, rest).
Proof.
  intros Hs. pose proof (scalar_bound c Hs) as Hb. unfold encode_char. set (z := Z.of_N c).
  assert (Hz : Z.to_N z = c) by lia. assert (0 <= z < 1114112) by lia.
  destruct (Z.ltb_spec z 128) as [H1|H1]; [|destruct (Z.ltb_spec z 2048) as [H2|H2]; [|destruct (Z.ltb_spec z 65536) as [H3|H3]]]; cbn [app]; unfold decode_char.
  - ltb_true. by rewrite Hz.
  - assert (2 <= z / 64 < 32 /\ 0 <= z mod 64 < 64) as [? ?] by (Z.to_euclidean_division_equations; lia).
    ltb_false. rewrite continuation_true by lia. cbn [negb].
    replace (194 <=? _) with true by (symmetry; apply Z.leb_le; lia). ltb_true. cbn [andb].
    do 2 f_equal. rewrite <- Hz. f_equal. Z.to_euclidean_division_equations; lia.
  - assert (0 <= z / 4096 < 16 /\ 0 <= z / 64 mod 64 < 64 /\ 0 <= z mod 64 < 64) as (? & ? & ?) by (Z.to_euclidean_division_equations; lia).
    ltb_false. rewrite !continuation_true by lia. cbn [negb].
    replace (194 <=? _) with true by (symmetry; apply Z.leb_le; lia). ltb_false. cbn [andb].
    replace (224 <=? _) with true by (symmetry; apply Z.leb_le; lia). ltb_true. cbn [andb].
    match goal with |- context [Z.to_N ?e] => replace e with z by (Z.to_euclidean_division_equations; lia) end.
    rewrite Hz, Hs. replace (c <? 2048)%N with false by (symmetry; apply N.ltb_ge; lia). done.
  - assert (0 <= z / 262144 < 5 /\ 0 <= z / 4096 mod 64 < 64 /\ 0 <= z / 64 mod 64 < 64 /\ 0 <= z mod 64 < 64) as (? & ? & ? & ?)
      by (Z.to_euclidean_division_equations; lia).
    ltb_false. rewrite !continuation_true by lia. cbn [negb].
    replace (194 <=? _) with true by (symmetry; apply Z.leb_le; lia). ltb_false. cbn [andb].
    replace (224 <=? _) with true by (symmetry; apply Z.leb_le; lia). ltb_false. cbn [andb].
    replace (240 <=? _) with true by (symmetry; apply Z.leb_le; lia). ltb_true. cbn [andb].
    match goal with |- context [Z.to_N ?e] => replace e with z by (Z.to_euclidean_division_equations; lia) end.
    rewrite Hz, Hs. replace (c <? 65536)%N with false by (symmetry; apply N.ltb_ge; lia). done.
Qed.

Lemma encode_char_cons c : exists b l, encode_char c = b :: l.
Proof. pose proof (encode_char_length c). destruct (encode_char c); cbn in *; [lia|eauto]. Qed.

Lemma utf8_decode_fuel_encode l fuel : forallb scalar l = true -> (length l <= fuel)%nat ->
  utf8_decode_fuel fuel (l ≫= encode_char) = Some l.
Proof.
  revert fuel. induction l as [|c l IH]; intros [|fuel] Hs Hf; try (cbn in Hf; lia); try done.
  cbn in Hs. apply andb_true_iff in Hs as [Hc Hs]. cbn [mbind list_bind utf8_decode_fuel].
  pose proof (decode_encode_char c (l ≫= encode_char) Hc) as Hd. destruct (encode_char_cons c) as (b & bs & E).
  rewrite E in *. cbn [app] in *. rewrite Hd, IH; [done|done|cbn in Hf; lia].
Qed.

Lemma length_encode l : (length l <= length (l ≫= encode_char))%nat.
Proof.
  induction l as [|c l IH]; [done|]. cbn [mbind list_bind length]. rewrite length_app.
  pose proof (encode_char_length c). lia.
Qed.

(** What was encoded is read back. *)
Lemma utf8_roundtrip l raw : utf8_encode l = Some raw -> utf8_decode raw = Some l.
Proof.
  unfold utf8_encode, utf8_decode. destruct (forallb scalar l) eqn:Hs; [|done]. intros [= <-].
  apply utf8_decode_fuel_encode; [done|apply length_encode].
Qed.

Lemma encode_app l l' : (l ++ l') ≫= encode_char = (l ≫= encode_char) ++ (l' ≫= encode_char).
Proof. apply bind_app. Qed.

(** ** Truncated encodings *)

Lemma decode_continuation a l : continuation a = true -> decode_char (a :: l) = None.
Proof.
  unfold continuation. intros [H1%Z.leb_le H2%Z.ltb_lt]%andb_true_iff. unfold decode_char. ltb_false.
  destruct l as [|b l]; [done|]. destruct (negb _); [done|].
  replace (194 <=? a) with false by (symmetry; apply Z.leb_gt; lia). cbn [andb].
  destruct l as [|c l]; [done|]. destruct (negb _); [done|].
  replace (224 <=? a) with false by (symmetry; apply Z.leb_gt; lia). cbn [andb].
  destruct l as [|d l]; [done|]. destruct (negb _); [done|].
  by replace (240 <=? a) with false by (symmetry; apply Z.leb_gt; lia).
Qed.

Lemma ignore_continuations l fuel : forallb continuation l = true -> utf8_decode_ignore_fuel fuel l = [].
Proof.
  revert fuel. induction l as [|a l IH]; intros [|fuel] Hl; try done. cbn in Hl. apply andb_true_iff in Hl as [Ha Hl].
  cbn [utf8_decode_ignore_fuel]. by rewrite (decode_continuation a l Ha), IH.
Qed.

(** A cut character is no character, and what is left of it is dropped. *)
Lemma ignore_cut c n fuel : scalar c = true -> (n < length (encode_char c))%nat ->
  utf8_decode_ignore_fuel fuel (take n (encode_char c)) = [].
Proof.
  intros Hs%scalar_bound Hn. destruct fuel as [|fuel]; [done|]. destruct n as [|n]; [done|].
  revert Hn. unfold encode_char. set (z := Z.of_N c). assert (0 <= z < 1114112) by lia.
  destruct (Z.ltb_spec z 128); [cbn; lia|].
  assert (Hc1 : continuation (128 + z mod 64) = true) by (apply continuation_true; Z.to_euclidean_division_equations; lia).
  assert (Hc2 : continuation (128 + z / 64 mod 64) = true) by (apply continuation_true; Z.to_euclidean_division_equations; lia).
  assert (Hc3 : continuation (128 + z / 4096 mod 64) = true) by (apply continuation_true; Z.to_euclidean_division_equations; lia).
  destruct (Z.ltb_spec z 2048); [|destruct (Z.ltb_spec z 65536)]; cbn [length]; intros Hn; cbn [take utf8_decode_ignore_fuel].
  - assert (n = 0%nat) as -> by lia. cbn [take decode_char]. assert (2 <= z / 64) by (Z.to_euclidean_division_equations; lia).
    ltb_false. by destruct fuel.
  - assert (0 <= z / 4096) by (Z.to_euclidean_division_equations; lia).
    destruct n as [|[|n]]; [| |lia]; cbn [take]; unfold decode_char; ltb_false.
    + by destruct fuel.
    + rewrite Hc2. cbn [negb]. replace (194 <=? _) with true by (symmetry; apply Z.leb_le; lia). ltb_false. cbn [andb].
      apply ignore_continuations. cbn. by rewrite Hc2.
  - assert (0 <= z / 262144) by (Z.to_euclidean_division_equations; lia).
    destruct n as [|[|[|n]]]; [| | |lia]; cbn [take]; unfold decode_char; ltb_false.
    + by destruct fuel.
    + rewrite Hc3. cbn [negb]. replace (194 <=? _) with true by (symmetry; apply Z.leb_le; lia). ltb_false. cbn [andb].
      apply ignore_continuations. cbn. by rewrite Hc3.
    + rewrite Hc3, Hc2. cbn [negb]. replace (194 <=? _) with true by (symmetry; apply Z.leb_le; lia). ltb_false. cbn [andb].
      replace (224 <=? _) with true by (symmetry; apply Z.leb_le; lia). ltb_false. cbn [andb].
      apply ignore_continuations. cbn. by rewrite Hc3, Hc2.
Qed.

(** Decoding the first [n] bytes gives the characters that fit. *)
Lemma ignore_truncated l n fuel : forallb scalar l = true -> (length (take n (l ≫= encode_char)) <= fuel)%nat ->
  exists k, utf8_decode_ignore_fuel fuel (take n (l ≫= encode_char)) = take k l /\ (length (take k l ≫= encode_char) <= n)%nat.
Proof.
  revert n fuel. induction l as [|c l IH]; intros n fuel Hs Hf.
  - exists 0%nat. cbn. destruct n; (split; [by destruct fuel|cbn; lia]).
  - cbn in Hs. apply andb_true_iff in Hs as [Hc Hs]. cbn [mbind list_bind] in *.
    destruct (decide (length (encode_char c) <= n)%nat) as [Hle|Hgt].
    + rewrite take_app_ge in * by lia. destruct (IH (n - length (encode_char c))%nat (fuel - 1)%nat Hs) as (k & E & Hk).
      { pose proof (encode_char_length c). rewrite length_app in Hf. lia. }
      exists (S k). cbn [take mbind list_bind]. rewrite length_app. split; [|cbn in Hk; lia].
      pose proof (decode_encode_char c (take (n - length (encode_char c)) (l ≫= encode_char)) Hc) as Hd.
      destruct (encode_char_cons c) as (b & bs & Eb). destruct fuel as [|fuel].
      { rewrite Eb in Hf. cbn in Hf. lia. }
      rewrite Eb in *. cbn [app utf8_decode_ignore_fuel] in *. rewrite Hd. f_equal.
      replace (S fuel - 1)%nat with fuel in E by lia. exact E.
    + exists 0%nat. split; [|cbn; lia]. rewrite take_app_le by lia. by apply ignore_cut; [|lia].
Qed.
