(* ===== verification/Filename.v ===== *)
(** Download file names ([downloads/filename.py]): the name suggested for a
    title, its check when it is read back, and the Content-Disposition header. *)

From S2P Require Export Errors Utf8 Media.

Local Open Scope string_scope.
Local Open Scope list_scope.
Local Open Scope Z_scope.

(** What the code asks of [unicodedata] and of [str]: normal form NFC, the
    general categories that start with C, white space, upper case and the values
    of decimal digits. *)
Class UnicodeData := {
  nfc : list N -> list N;
  category_other : N -> bool;
  isspace : N -> bool;
  upper : list N -> list N;
  decimal : N -> option Z
}.

(** ** Tables *)

(** Source: backend/src/fetchnow/downloads/filename.py:16-16 [_CONTROL] *)
Definition control (c : N) : bool := (c <? 32)%N || ((127 <=? c)%N && (c <=? 159)%N).

(** Source: backend/src/fetchnow/downloads/filename.py:17-32 [_BIDI] *)
Definition BIDI : list N := [1564; 8206; 8207; 8234; 8235; 8236; 8237; 8238; 8294; 8295; 8296; 8297]%N.

(** Source: backend/src/fetchnow/downloads/filename.py:33-33 [_FORBIDDEN]
    Backslash, slash, colon, star, question mark, quote, angle brackets, bar and NUL. *)
Definition FORBIDDEN : list N := [92; 47; 58; 42; 63; 34; 60; 62; 124; 0]%N.

(** Source: backend/src/fetchnow/downloads/filename.py:35-35 [_ATTR_CHAR] *)
Definition attr_char (c : N) : bool :=
  bool_decide (c ∈ codepoints "ABCDEFGHIJKLMNOPQRSTUVWXYZabcdefghijklmnopqrstuvwxyz0123456789!#$&+-.^_`|~").

(** Source: backend/src/fetchnow/downloads/filename.py:36-45 [_RESERVED] *)
Definition RESERVED : list (list N) :=
  codepoints <$>
    ["CON"; "PRN"; "AUX"; "NUL"; "COM1"; "COM2"; "COM3"; "COM4"; "COM5"; "COM6"; "COM7"; "COM8"; "COM9";
     "LPT1"; "LPT2"; "LPT3"; "LPT4"; "LPT5"; "LPT6"; "LPT7"; "LPT8"; "LPT9"].

(** Source: backend/src/fetchnow/downloads/filename.py:47-53 [ALLOWED_CONTAINERS] *)
Definition ALLOWED_CONTAINERS : list string := ["mp4"; "webm"; "mkv"; "m4a"; "mp3"; "ogg"; "opus"; "aac"].
Definition MAX_STEM_CHARS : nat := 80.
Definition MAX_STEM_UTF8_BYTES : nat := 180.
Definition MAX_FILENAME_CHARS : nat := 255.
Definition MAX_FILENAME_UTF8_BYTES : nat := 240.

(** ** Text helpers of [str] *)

Section Strip.
Context (set : N -> bool).
(** [s.lstrip(chars)], [s.rstrip(chars)], [s.strip(chars)] *)
Fixpoint strip_left (l : list N) : list N :=
  match l with c :: l' => if set c then strip_left l' else l | [] => [] end.
Definition strip_right (l : list N) : list N := reverse (strip_left (reverse l)).
Definition strip_both (l : list N) : list N := strip_right (strip_left l).
End Strip.

Definition space_or_dot (c : N) : bool := (c =? 32)%N || (c =? 46)%N.

(** [s.split(".", 1)[0]] *)
Fixpoint before_dot (l : list N) : list N :=
  match l with c :: l => if (c =? 46)%N then [] else c :: before_dot l | [] => [] end.

(** [s.endswith(suffix)] *)
Definition ends_with (suffix l : list N) : bool :=
  bool_decide (drop (length l - length suffix) l = suffix).

(** [s[: -n]], when [n] is positive *)
Definition drop_last (n : nat) (l : list N) : list N := take (length l - n) l.

(** A lower-case hexadecimal digit or its upper-case form, and a letter or digit
    of an extension, in a case-insensitive match. *)
Definition hex_ci (c : N) : bool :=
  ((48 <=? c) && (c <=? 57) || (97 <=? c) && (c <=? 102) || (65 <=? c) && (c <=? 70))%N.
Definition alnum_ci (c : N) : bool :=
  ((48 <=? c) && (c <=? 57) || (97 <=? c) && (c <=? 122) || (65 <=? c) && (c <=? 90))%N.
Definition lower_ascii (c : N) : N := if ((65 <=? c) && (c <=? 90))%N then (c + 32)%N else c.

Section Filename.
Context `{UnicodeData}.

(** Source: backend/src/fetchnow/downloads/filename.py:176-180 [_validated_container] *)
Definition _validated_container (container : string) : exn + string :=
  let ext := lower (of_chars (strip is_space (chars container))) in
  raise_if (negb (is_some (fullmatch (Many 2 (Some 8%nat) (fun c => in_range 97 122 c || in_range 48 57 c)) (chars ext))) ||
            negb (bool_decide (ext ∈ ALLOWED_CONTAINERS))) (ValueError "unsafe container") ;;?
  inr ext.

(** Source: backend/src/fetchnow/downloads/filename.py:56-58 [fallback_filename] *)
Definition fallback_filename (download_job_id : uid) (container : string) : exn + list N :=
  let? ext := _validated_container container in
  inr (codepoints ("fetchnow-" ++ uuid_text download_job_id ++ "." ++ ext)%string).

(** Source: backend/src/fetchnow/downloads/filename.py:189-193 [_filename_bounds_ok] *)
Definition _filename_bounds_ok (name : list N) : exn + bool :=
  if is_nil name || Nat.ltb MAX_FILENAME_CHARS (length name) then inr false else
  let? encoded := need (utf8_encode name) (ValueError "surrogates not allowed") in
  inr (Nat.leb 1 (length encoded) && Nat.leb (length encoded) MAX_FILENAME_UTF8_BYTES).

(** Source: backend/src/fetchnow/downloads/filename.py:200-211 [_sanitize_stem]
    The loop over the normalized characters. *)
Definition clean_char (c : N) : list N :=
  if bool_decide (c ∈ BIDI) || bool_decide (c ∈ FORBIDDEN) then []
  else if category_other c then []
  else if isspace c then [32%N]
  else [c].

(** [_WHITESPACE.sub(" ", s)]: a run of white space becomes one space. *)
Fixpoint collapse (in_run : bool) (l : list N) : list N :=
  match l with
  | [] => []
  | c :: l =>
      if isspace c then if in_run then collapse true l else 32%N :: collapse true l
      else c :: collapse false l
  end.

(** Source: backend/src/fetchnow/downloads/filename.py:214-214 [_sanitize_stem] *)
Definition no_stem (l : list N) : bool := bool_decide (l = []) || bool_decide (l = codepoints ".") || bool_decide (l = codepoints "..").

(** Source: backend/src/fetchnow/downloads/filename.py:219-220 [_sanitize_stem] *)
Definition bound_chars (l : list N) : list N :=
  if Nat.ltb MAX_STEM_CHARS (length l) then strip_right space_or_dot (take MAX_STEM_CHARS l) else l.

(** Source: backend/src/fetchnow/downloads/filename.py:221-224 [_sanitize_stem] *)
Definition bound_bytes (l : list N) : exn + list N :=
  let? encoded := need (utf8_encode l) (ValueError "surrogates not allowed") in
  inr (if Nat.ltb MAX_STEM_UTF8_BYTES (length encoded)
       then strip_right space_or_dot (utf8_decode_ignore (take MAX_STEM_UTF8_BYTES encoded)) else l).

(** Source: backend/src/fetchnow/downloads/filename.py:199-213 [_sanitize_stem] *)
Definition cleaned_stem (raw : list N) : list N :=
  List.filter (fun c => negb (control c)) (strip_both space_or_dot (collapse false (nfc raw ≫= clean_char))).

(** Source: backend/src/fetchnow/downloads/filename.py:196-229 [_sanitize_stem] *)
Definition _sanitize_stem (raw : option (list N)) : exn + option (list N) :=
  match raw with
  | None => inr None
  | Some raw =>
      let collapsed := cleaned_stem raw in
      if no_stem collapsed then inr None
      else if bool_decide (upper (before_dot collapsed) ∈ RESERVED) then inr None
      else
        let? collapsed := bound_bytes (bound_chars collapsed) in
        inr (if no_stem collapsed then None
             else if bool_decide (upper collapsed ∈ RESERVED) then None else Some collapsed)
  end.

(** Source: backend/src/fetchnow/downloads/filename.py:74-78 [suggested_filename_for] *)
Definition kind_suffix (media_kind : MediaKind) : list N :=
  match media_kind with NORMAL_VIDEO => [] | VIDEO_ONLY => codepoints "-video" | AUDIO_ONLY => codepoints "-audio" end.

(** Source: backend/src/fetchnow/downloads/filename.py:61-86 [suggested_filename_for] *)
Definition suggested_filename_for (title : option (list N)) (container : string) (download_job_id : uid)
    (media_kind : MediaKind) : exn + list N :=
  let? ext := _validated_container container in
  let? fallback := fallback_filename download_job_id ext in
  let? stem := _sanitize_stem title in
  match stem with
  | None => inr fallback
  | Some stem =>
      let suffix := kind_suffix media_kind in
      let? stem := (if is_nil suffix then inr (Some stem) else _sanitize_stem (Some (stem ++ suffix))) in
      match stem with
      | None => inr fallback
      | Some stem =>
          let name := stem ++ codepoints ("." ++ ext)%string in
          let? ok := _filename_bounds_ok name in
          inr (if ok then name else fallback)
      end
  end.

(** ** The stored name read back *)

(** Source: backend/src/fetchnow/downloads/filename.py:170-173 [_UUID_FALLBACK]
    [_UUID_FALLBACK.fullmatch(name)]; no letter of the pattern has a variant
    outside ASCII, and the extension of a checked name is an allowed one. *)
Definition uuid_fallback (name : list N) : bool :=
  let head := take 46 name in
  let ext := drop 46 name in
  bool_decide (lower_ascii <$> take 9 head = codepoints "fetchnow-") &&
  forallb (fun p => if bool_decide (p.1 ∈ [8; 13; 18; 23]%nat) then (p.2 =? 45)%N else hex_ci p.2)
    (zip (seq 0 36) (take 36 (drop 9 head))) &&
  bool_decide (drop 45 head = codepoints ".") && Nat.leb 2 (length ext) && Nat.leb (length ext) 8 && forallb alnum_ci ext.

(** Source: backend/src/fetchnow/downloads/filename.py:155-167 [is_safe_suggested_filename] *)
Definition is_safe_suggested_filename (name : list N) (container : string) : exn + bool :=
  let? ext := _validated_container container in
  if negb (ends_with (codepoints ("." ++ ext)%string) name) then inr false else
  let? bounds := _filename_bounds_ok name in
  if negb bounds then inr false else
  if existsb (fun c => bool_decide (c ∈ FORBIDDEN) || (c =? 13)%N || (c =? 10)%N) name then inr false else
  let stem := drop_last (String.length ext + 1) name in
  let? sanitized := _sanitize_stem (Some stem) in
  if bool_decide (sanitized = Some stem) then inr true else inr (uuid_fallback name).

(** ** The header *)

(** Source: backend/src/fetchnow/downloads/filename.py:183-186 [_is_ascii_token] *)
Definition _is_ascii_token (value : list N) : bool :=
  negb (is_nil value) && forallb (fun c => (c <? 128)%N) value &&
  forallb (fun c => (32 <=? c)%N && (c <=? 126)%N && negb (bool_decide (c ∈ [34; 92; 13; 10]%N))) value.

(** Source: backend/src/fetchnow/downloads/filename.py:89-95 [ascii_filename_parameter] *)
Definition ascii_filename_parameter (name fallback : list N) : exn + list N :=
  if _is_ascii_token name then inr name else
  raise_if (negb (_is_ascii_token fallback)) (ValueError "unsafe ascii fallback") ;;? inr fallback.

(** [f"{byte:02X}"] *)
Definition hex_upper (n : Z) : N := Z.to_N (if n <? 10 then 48 + n else 55 + n).

(** Source: backend/src/fetchnow/downloads/filename.py:115-120 [encode_rfc8187] *)
Definition encode_byte (b : Z) : list N :=
  if attr_char (Z.to_N b) then [Z.to_N b] else [37%N; hex_upper (b / 16); hex_upper (b mod 16)].

(** Source: backend/src/fetchnow/downloads/filename.py:112-121 [encode_rfc8187] *)
Definition encode_rfc8187 (value : list N) : exn + list N :=
  let? raw := need (utf8_encode value) (ValueError "surrogates not allowed") in
  inr (codepoints "UTF-8''" ++ (raw ≫= encode_byte)).

(** Source: backend/src/fetchnow/downloads/filename.py:98-109 [content_disposition_header] *)
Definition content_disposition_header (filename ascii_fallback : list N) : exn + list N :=
  let? ascii_name := ascii_filename_parameter filename ascii_fallback in
  raise_if (existsb (fun c => bool_decide (c ∈ [34; 92; 13; 10]%N)) ascii_name) (ValueError "unsafe ascii filename") ;;?
  raise_if (existsb (fun c => bool_decide (c ∈ [13; 10; 0]%N)) filename) (ValueError "unsafe unicode filename") ;;?
  let? encoded := encode_rfc8187 filename in
  let header := codepoints "attachment; filename=" ++ [34%N] ++ ascii_name ++ [34%N] ++
                codepoints "; filename*=" ++ encoded in
  raise_if (existsb (fun c => bool_decide (c ∈ [13; 10; 0]%N)) header) (ValueError "header injection") ;;?
  inr header.

(** What [int] makes of a character before it parses. *)
Definition to_ascii (c : N) : ascii :=
  if (c <? 128)%N then ascii_of_N c
  else if isspace c then " "%char
  else match decimal c with Some d => digit_char d | None => "?"%char end.

(** [int(hex_part, 16)] of two characters; [None] is the [ValueError]. *)
Definition int_of_pair (a b : N) : option Z :=
  if Ascii.eqb (to_ascii a) "-"%char then Z.opp <$> hex_digit (to_ascii b)
  else int_base16 [to_ascii a; to_ascii b].

(** Source: backend/src/fetchnow/downloads/filename.py:131-148 [decode_rfc8187]
    The bytes of the encoded part; [None] where the loop returns [None]. *)
Fixpoint decode_pieces (raw : list N) : option (list Z) :=
  match raw with
  | [] => Some []
  | ch :: rest =>
      if (ch =? 37)%N then
        match rest with
        | a :: b :: rest =>
            match int_of_pair a b with
            | Some n => (n ::.) <$> decode_pieces rest
            | None => None
            end
        | _ => None
        end
      else if attr_char ch then (Z.of_N ch ::.) <$> decode_pieces rest
      else None
  end.

(** Source: backend/src/fetchnow/downloads/filename.py:124-152 [decode_rfc8187]
    [bytes(pieces)] raises for a negative number. *)
Definition decode_rfc8187 (value : list N) : exn + option (list N) :=
  let prefix := codepoints "UTF-8''" in
  if negb (bool_decide (take 7 value = prefix)) then inr None else
  let raw := drop 7 value in
  if is_nil raw then inr None else
  match decode_pieces raw with
  | None => inr None
  | Some pieces =>
      if existsb (fun b => b <? 0) pieces then inl (ValueError "bytes must be in range(0, 256)")
      else inr (utf8_decode pieces)
  end.

End Filename.
