(* ===== verification/FilenameTheorems.v ===== *)
(** Suggested names are safe, are accepted when they are read back, and survive
    the Content-Disposition header. *)

From S2P Require Export Filename.

Local Open Scope list_scope.
Local Open Scope Z_scope.

(** What the proofs use of the Unicode database: the space is white space of
    category Zs, and controls and surrogates have a category that starts with C. *)
Class UnicodeLaws `{UnicodeData} := {
  space_isspace : isspace 32 = true;
  space_category : category_other 32 = false;
  control_category c : control c = true -> category_other c = true;
  surrogate_category c : scalar c = false -> category_other c = true
}.

(** ** Trimming *)

Section Trim.
Context (set : N -> bool).

Lemma strip_left_split l : exists p, l = p ++ strip_left set l.
Proof. induction l as [|c l [p IH]]; cbn; [by exists []|]. destruct (set c); [exists (c :: p); cbn; by f_equal|by exists []]. Qed.

Lemma strip_left_head l c r : strip_left set l = c :: r -> set c = false.
Proof. induction l as [|d l IH]; cbn; [done|]. destruct (set d) eqn:E; [done|]. by intros [= <- _]. Qed.

Lemma strip_left_fix l : (forall c r, l = c :: r -> set c = false) -> strip_left set l = l.
Proof. destruct l as [|c l]; [done|]. intros Hh. cbn. by rewrite (Hh c l eq_refl). Qed.

Lemma strip_right_prefix l : strip_right set l `prefix_of` l.
Proof.
  unfold strip_right. destruct (strip_left_split (reverse l)) as [p Hp]. exists (reverse p).
  by rewrite <- reverse_app, <- Hp, reverse_involutive.
Qed.

Lemma strip_right_last l c r : strip_right set l = r ++ [c] -> set c = false.
Proof.
  unfold strip_right. intros E. apply (f_equal reverse) in E. rewrite reverse_involutive, reverse_snoc in E.
  by apply strip_left_head in E.
Qed.

Lemma strip_right_fix l : (forall c r, l = r ++ [c] -> set c = false) -> strip_right set l = l.
Proof.
  intros Hh. unfold strip_right. rewrite strip_left_fix; [apply reverse_involutive|].
  intros c r E. apply (Hh c (reverse r)). by rewrite <- (reverse_involutive l), E, reverse_cons.
Qed.
End Trim.

Section Names.
Context `{UnicodeLaws}.

(** ** Clean stems *)

Definition clean (c : N) : Prop :=
  (c ∉ BIDI) /\ (c ∉ FORBIDDEN) /\ category_other c = false /\ (isspace c = true -> c = 32%N).

Lemma clean_space : clean 32.
Proof. split_and!; [by vm_compute; set_solver|vm_compute; set_solver|apply space_category|done]. Qed.

Lemma clean_char_clean c d : d ∈ clean_char c -> clean d.
Proof.
  unfold clean_char. destruct (_ || _) eqn:E; [by intros ?%not_elem_of_nil|]. apply orb_false_iff in E as [E1 E2].
  destruct (category_other c) eqn:Ec; [by intros ?%not_elem_of_nil|].
  destruct (isspace c) eqn:Es; intros ->%list_elem_of_singleton; [apply clean_space|].
  apply bool_decide_eq_false in E1, E2. split_and!; [done..|congruence].
Qed.

Lemma clean_char_id c : clean c -> clean_char c = [c].
Proof.
  intros (H1 & H2 & H3 & H4). unfold clean_char. rewrite !bool_decide_eq_false_2 by done. cbn. rewrite H3.
  destruct (isspace c) eqn:E; [by rewrite H4|done].
Qed.

Lemma clean_chars_id l : Forall clean l -> l ≫= clean_char = l.
Proof. induction 1 as [|c l Hc _ IH]; [done|]. cbn [mbind list_bind]. by rewrite clean_char_id, IH. Qed.

Lemma clean_scalar c : clean c -> scalar c = true.
Proof. intros (_ & _ & Hc & _). destruct (scalar c) eqn:E; [done|]. apply surrogate_category in E. congruence. Qed.

Lemma clean_control c : clean c -> control c = false.
Proof. intros (_ & _ & Hc & _). destruct (control c) eqn:E; [|done]. apply control_category in E. congruence. Qed.

Lemma clean_scalars l : Forall clean l -> forallb scalar l = true.
Proof. induction 1 as [|c l Hc _ IH]; [done|]. cbn. by rewrite clean_scalar, IH. Qed.

(** ** Single spaces *)

Fixpoint single_spaces (l : list N) : Prop :=
  match l with
  | c :: l' => match l' with d :: _ => isspace c && isspace d = false | [] => True end /\ single_spaces l'
  | [] => True
  end.

Lemma single_tail c l : single_spaces (c :: l) -> single_spaces l.
Proof. by intros [_ Hl]. Qed.

Lemma single_prefix l l' : single_spaces (l ++ l') -> single_spaces l.
Proof.
  induction l as [|c l IH]; [done|]. cbn. intros [Hc Hl]. split; [|by apply IH]. by destruct l.
Qed.

Lemma single_suffix l l' : single_spaces (l ++ l') -> single_spaces l'.
Proof. induction l as [|c l IH]; [done|]. intros Hl%single_tail. by apply IH. Qed.

Lemma collapse_single l : forall b, single_spaces (collapse b l) /\
  (b = true -> match collapse b l with c :: _ => isspace c = false | [] => True end).
Proof.
  induction l as [|c l IH]; intros b; [by split|]. cbn [collapse]. destruct (isspace c) eqn:E.
  - destruct b; [by apply IH|]. split; [|done]. destruct (IH true) as [Hs Hh]. specialize (Hh eq_refl). split; [|done].
    destruct (collapse true l); [done|]. by rewrite Hh, andb_false_r.
  - destruct (IH false) as [Hs _]. split; [|by intros _]. split; [|done]. by destruct (collapse false l); [|rewrite E].
Qed.

Lemma collapse_id l : Forall clean l -> single_spaces l -> collapse false l = l.
Proof.
  assert (Hgen : forall b, Forall clean l -> single_spaces l ->
    (b = true -> match l with c :: _ => isspace c = false | [] => True end) -> collapse b l = l).
  { induction l as [|c l IH]; intros b Hc Hs Hb; [done|]. apply Forall_cons in Hc as [Hc Hl]. cbn [collapse].
    destruct Hs as [Hh Hs]. destruct (isspace c) eqn:E.
    - destruct b; [specialize (Hb eq_refl); cbn in Hb; congruence|]. destruct Hc as (_ & _ & _ & Hc). rewrite (Hc E). f_equal. apply IH; [done|done|].
      intros _. destruct l; [done|]. exact Hh.
    - f_equal. by apply IH. }
  intros Hc Hs. by apply Hgen.
Qed.

Lemma collapsed_char b l c : c ∈ collapse b l -> c ∈ l \/ c = 32%N.
Proof.
  revert b. induction l as [|d l IH]; intros b; [by intros ?%not_elem_of_nil|]. cbn [collapse].
  assert (Hcons : forall b', c ∈ collapse b' l -> c ∈ d :: l \/ c = 32%N).
  { intros b' Hin. destruct (IH b' Hin); [left; by right|by right]. }
  destruct (isspace d); [destruct b|]; [apply Hcons| |]; intros [->|Hin]%elem_of_cons; eauto. left. by left.
Qed.

(** ** Sanitized stems *)

Record sanitized (s : list N) : Prop := {
  sn_clean : Forall clean s;
  sn_single : single_spaces s;
  sn_head : forall c r, s = c :: r -> space_or_dot c = false;
  sn_last : forall c r, s = r ++ [c] -> space_or_dot c = false;
  sn_chars : (length s <= MAX_STEM_CHARS)%nat;
  sn_bytes : (length (s ≫= encode_char) <= MAX_STEM_UTF8_BYTES)%nat;
  sn_stem : no_stem s = false;
  sn_head_free : upper (before_dot s) ∉ RESERVED;
  sn_free : upper s ∉ RESERVED
}.

Lemma utf8_encode_clean l : Forall clean l -> utf8_encode l = Some (l ≫= encode_char).
Proof. intros Hl. unfold utf8_encode. by rewrite clean_scalars. Qed.

(** The trimmed text. *)
Lemma cleaned_stem_spec raw (s := cleaned_stem raw) :
  Forall clean s /\ single_spaces s /\ (forall c r, s = c :: r -> space_or_dot c = false) /\
  s = strip_both space_or_dot (collapse false (nfc raw ≫= clean_char)).
Proof.
  set (body := collapse false (nfc raw ≫= clean_char)).
  assert (Hbody : Forall clean body).
  { apply Forall_forall. intros c [Hin| ->]%collapsed_char; [|apply clean_space].
    apply list_elem_of_bind in Hin as (d & Hc & _). by apply clean_char_clean in Hc. }
  assert (Hparts : exists p q, body = p ++ strip_both space_or_dot body ++ q).
  { destruct (strip_left_split space_or_dot body) as [p Hp]. destruct (strip_right_prefix space_or_dot (strip_left space_or_dot body)) as [q Hq].
    exists p, q. unfold strip_both. by rewrite <- Hq. }
  destruct Hparts as (p & q & E).
  assert (Hc : Forall clean (strip_both space_or_dot body)).
  { rewrite E in Hbody. apply Forall_app in Hbody as [_ Hbody]. by apply Forall_app in Hbody as [? _]. }
  assert (Es : s = strip_both space_or_dot body).
  { unfold s, cleaned_stem. fold body. apply lfilter_all. intros c Hin. rewrite Forall_forall in Hc. by rewrite clean_control by auto. }
  rewrite Es. split_and!; [done| | |done].
  - destruct (collapse_single (nfc raw ≫= clean_char) false) as [Hs _]. fold body in Hs. rewrite E in Hs.
    by apply single_suffix, single_prefix in Hs.
  - intros c r Ec. unfold strip_both in Ec.
    destruct (strip_right_prefix space_or_dot (strip_left space_or_dot body)) as [q' Hq]. rewrite Ec in Hq. cbn in Hq.
    by apply strip_left_head in Hq.
Qed.

Lemma before_dot_prefix s t : (46%N ∈ s \/ t = []) -> before_dot (s ++ t) = before_dot s.
Proof.
  induction s as [|c s IH]; cbn; [intros [?%not_elem_of_nil| ->]; done|]. intros Hs. destruct (N.eqb_spec c 46); [done|].
  f_equal. apply IH. destruct Hs as [Hs|]; [|by right]. left. apply elem_of_cons in Hs as [|]; congruence.
Qed.

Lemma before_dot_none s : 46%N ∉ s -> before_dot s = s.
Proof.
  induction s as [|c s IH]; [done|]. intros [Hc Hs]%not_elem_of_cons. cbn. destruct (N.eqb_spec c 46); [congruence|]. by rewrite IH.
Qed.

Lemma sanitize_spec raw s : _sanitize_stem (Some raw) = inr (Some s) -> sanitized s.
Proof.
  unfold _sanitize_stem. destruct (cleaned_stem_spec raw) as (Hc & Hsg & Hh & Es). set (t := cleaned_stem raw) in *.
  destruct (no_stem t) eqn:Et; [done|]. case_bool_decide as Hres; [done|]. intros E. ok_step E. rename v into b.
  destruct (no_stem b) eqn:Eb; [done|]. case_bool_decide as Hfree; [done|]. injection E as <-.
  assert (Hlast : forall c r, t = r ++ [c] -> space_or_dot c = false).
  { intros c r Et'. rewrite Es in Et'. by apply strip_right_last in Et'. }
  set (u := bound_chars t) in *.
  assert (Hu : u `prefix_of` t /\ (length u <= MAX_STEM_CHARS)%nat /\ forall c r, u = r ++ [c] -> space_or_dot c = false).
  { unfold u, bound_chars. destruct (Nat.ltb_spec MAX_STEM_CHARS (length t)) as [Hl|Hl]; [|done].
    pose proof (strip_right_prefix space_or_dot (take MAX_STEM_CHARS t)) as Hp. split_and!.
    - etransitivity; [exact Hp|]. apply prefix_take.
    - apply prefix_length in Hp. rewrite length_take in Hp. lia.
    - intros c r. apply strip_right_last. }
  destruct Hu as ([tu Hu] & Hul & Hulast).
  assert (Hcu : Forall clean u) by (rewrite Hu in Hc; by apply Forall_app in Hc as [? _]).
  assert (Hb : b `prefix_of` u /\ (length (b ≫= encode_char) <= MAX_STEM_UTF8_BYTES)%nat /\ forall c r, b = r ++ [c] -> space_or_dot c = false).
  { unfold bound_bytes in E0. rewrite utf8_encode_clean in E0 by done. cbn [need err_bind] in E0. injection E0 as <-.
    destruct (Nat.ltb_spec MAX_STEM_UTF8_BYTES (length (u ≫= encode_char))) as [Hl|Hl]; [|done].
    destruct (ignore_truncated u MAX_STEM_UTF8_BYTES (length (take MAX_STEM_UTF8_BYTES (u ≫= encode_char)))) as (k & Ek & Hk);
      [by apply clean_scalars|done|]. unfold utf8_decode_ignore. rewrite Ek.
    pose proof (strip_right_prefix space_or_dot (take k u)) as [q Hq]. split_and!.
    - etransitivity; [by exists q|]. apply prefix_take.
    - rewrite Hq, encode_app, length_app in Hk. lia.
    - intros c r. apply strip_right_last. }
  destruct Hb as ([tb Hb] & Hbb & Hblast).
  assert (Htb : t = b ++ tb ++ tu) by (by rewrite app_assoc, <- Hb).
  split; try done.
  - rewrite Htb in Hc. by apply Forall_app in Hc as [? _].
  - rewrite Htb in Hsg. by apply single_prefix in Hsg.
  - intros c r ->. by apply (Hh c (r ++ tb ++ tu)).
  - rewrite Hb, length_app in Hul. lia.
  - destruct (decide (46%N ∈ b)) as [Hin|Hni].
    + rewrite <- (before_dot_prefix b (tb ++ tu)) by (by left). by rewrite <- Htb.
    + by rewrite before_dot_none.
Qed.

(** A sanitized stem in normal form is its own sanitized stem. *)
Lemma sanitize_fix s : sanitized s -> nfc s = s -> _sanitize_stem (Some s) = inr (Some s).
Proof.
  intros [Hc Hsg Hh Hl Hlen Hby Hst Hhf Hf] Hn. unfold _sanitize_stem.
  assert (Es : cleaned_stem s = s).
  { unfold cleaned_stem. rewrite Hn, clean_chars_id, collapse_id by done. unfold strip_both.
    rewrite strip_left_fix, strip_right_fix by done. apply lfilter_all. intros c Hin. rewrite Forall_forall in Hc.
    by rewrite clean_control by auto. }
  rewrite Es, Hst, bool_decide_eq_false_2 by done. unfold bound_chars.
  destruct (Nat.ltb_spec MAX_STEM_CHARS (length s)); [lia|]. unfold bound_bytes. rewrite utf8_encode_clean by done. cbn [need err_bind].
  destruct (Nat.ltb_spec MAX_STEM_UTF8_BYTES (length (s ≫= encode_char))); [lia|].
  by rewrite Hst, bool_decide_eq_false_2.
Qed.

Lemma sanitize_total raw : exists o, _sanitize_stem raw = inr o.
Proof.
  destruct raw as [raw|]; [|by eexists]. unfold _sanitize_stem. destruct (cleaned_stem_spec raw) as (Hc & _).
  destruct (no_stem _); [by eexists|]. case_bool_decide; [by eexists|]. unfold bound_bytes.
  set (u := bound_chars _). assert (Hu : Forall clean u).
  { unfold u, bound_chars. destruct (Nat.ltb _ _); [|done].
    destruct (strip_right_prefix space_or_dot (take MAX_STEM_CHARS (cleaned_stem raw))) as [q Hq].
    apply (Forall_take _ MAX_STEM_CHARS) in Hc. rewrite Hq in Hc. by apply Forall_app in Hc as [? _]. }
  rewrite utf8_encode_clean by done. by eexists.
Qed.

(** ** Names *)

Lemma validated_allowed container ext : _validated_container container = inr ext -> ext ∈ ALLOWED_CONTAINERS.
Proof. unfold _validated_container. intros E. ok_step E. injection E as <-. apply raise_if_inr in E0. by propify. Qed.

Lemma allowed_validated ext : ext ∈ ALLOWED_CONTAINERS -> _validated_container ext = inr ext.
Proof.
  intros Hin. assert (Hall : forallb (fun e => match _validated_container e with inr e' => bool_decide (e' = e) | inl _ => false end) ALLOWED_CONTAINERS = true)
    by (vm_compute; reflexivity).
  rewrite forallb_forall in Hall. specialize (Hall ext (proj1 (list_elem_of_In _ _) Hin)).
  destruct (_validated_container ext) as [e|e]; [done|]. by apply bool_decide_eq_true in Hall as ->.
Qed.

(** A character of a name that no header and no file system objects to. *)
Definition safe_char (c : N) : Prop :=
  (c ∉ FORBIDDEN) /\ (c ∉ BIDI) /\ control c = false /\ scalar c = true.

Lemma clean_safe c : clean c -> safe_char c.
Proof. intros Hc. split_and!; [apply Hc|apply Hc|by apply clean_control|by apply clean_scalar]. Qed.

(** The plain characters of identifiers and extensions. *)
Definition plain (c : ascii) : bool := is_alnum c || is_one_of "-." c.

Lemma plain_code c : plain c = true -> safe_char (N_of_ascii c) /\ (N_of_ascii c < 128)%N.
Proof.
  intros Hp. assert (Hb : (bool_decide (N_of_ascii c ∉ FORBIDDEN) && bool_decide (N_of_ascii c ∉ BIDI) &&
    negb (control (N_of_ascii c)) && scalar (N_of_ascii c) && (N_of_ascii c <? 128)%N) = true).
  { destruct c as [[] [] [] [] [] [] [] []]; vm_compute in Hp |- *; done. }
  rewrite !andb_true_iff, !bool_decide_eq_true, negb_true_iff, N.ltb_lt in Hb. destruct Hb as [[[[? ?] ?] ?] ?]. by split.
Qed.

Lemma extension_plain ext : ext ∈ ALLOWED_CONTAINERS -> forallb plain (chars ext) = true /\ (2 <= String.length ext <= 4)%nat.
Proof.
  intros Hin. assert (Hall : forallb (fun e => forallb plain (chars e) && Nat.leb 2 (String.length e) && Nat.leb (String.length e) 4) ALLOWED_CONTAINERS = true)
    by (vm_compute; reflexivity).
  rewrite forallb_forall in Hall. specialize (Hall ext (proj1 (list_elem_of_In _ _) Hin)). rewrite !andb_true_iff, !Nat.leb_le in Hall. tauto.
Qed.

Lemma hex_plain c : hex_text c = true -> plain c = true /\ hex_ci (N_of_ascii c) = true.
Proof. intros Hh. destruct c as [[] [] [] [] [] [] [] []]; vm_compute in Hh |- *; done. Qed.

Lemma codepoints_app a b : codepoints (a ++ b)%string = codepoints a ++ codepoints b.
Proof. unfold codepoints, chars. by rewrite list_ascii_app, fmap_app. Qed.

Lemma length_codepoints s : length (codepoints s) = String.length s.
Proof. unfold codepoints, chars. by rewrite length_fmap, length_list_ascii. Qed.

Lemma plain_safe s : forallb plain (chars s) = true -> Forall (fun c => safe_char c /\ (c < 128)%N) (codepoints s).
Proof.
  unfold codepoints. induction (chars s) as [|c l IH]; [constructor|]. cbn. intros [Hc Hl]%andb_true_iff.
  constructor; [by apply plain_code|by apply IH].
Qed.

Lemma encode_ascii l : Forall (fun c => (c < 128)%N) l -> l ≫= encode_char = Z.of_N <$> l.
Proof.
  induction 1 as [|c l Hc _ IH]; [done|]. cbn [mbind list_bind]. rewrite IH. unfold encode_char.
  by replace (Z.of_N c <? 128) with true by (symmetry; apply Z.ltb_lt; lia).
Qed.

Lemma encode_safe l : Forall safe_char l -> utf8_encode l = Some (l ≫= encode_char).
Proof.
  intros Hl. unfold utf8_encode. replace (forallb scalar l) with true; [done|]. symmetry.
  induction Hl as [|c l (_ & _ & _ & Hc) _ IH]; [done|]. cbn. by rewrite Hc, IH.
Qed.

(** The text of an identifier: 32 hexadecimal digits in five groups. *)
Lemma uuid_text_shape id : exists h, length h = 32%nat /\ forallb hex_text h = true /\
  chars (uuid_text id) = take 8 h ++ "-"%char :: take 4 (drop 8 h) ++ "-"%char :: take 4 (drop 12 h) ++
    "-"%char :: take 4 (drop 16 h) ++ "-"%char :: drop 20 h.
Proof.
  exists (hex_fixed 32 (Z.of_N id)). split_and!; [apply hex_fixed_length|apply hex_fixed_text|]. unfold uuid_text. apply chars_of_chars.
Qed.

Record file_name (ext : string) (name : list N) : Prop := {
  fn_suffix : exists stem, name = stem ++ codepoints ("." ++ ext)%string;
  fn_chars : Forall safe_char name;
  fn_bounds : (length name <= MAX_FILENAME_CHARS)%nat /\ (length (name ≫= encode_char) <= MAX_FILENAME_UTF8_BYTES)%nat
}.

Definition fallback_text (id : uid) (ext : string) : list N :=
  codepoints ("fetchnow-" ++ uuid_text id)%string ++ codepoints ("." ++ ext)%string.

Lemma fallback_run id ext : ext ∈ ALLOWED_CONTAINERS -> fallback_filename id ext = inr (fallback_text id ext).
Proof.
  intros Hin. unfold fallback_filename, fallback_text. rewrite (allowed_validated ext Hin). cbn [err_bind].
  by rewrite !codepoints_app, <- !app_assoc.
Qed.

Lemma uuid_text_plain id : forallb plain (chars (uuid_text id)) = true /\ String.length (uuid_text id) = 36%nat.
Proof.
  destruct (uuid_text_shape id) as (h & Hlen & Hh & E). rewrite <- (length_list_ascii (uuid_text id)).
  change (String.list_ascii_of_string (uuid_text id)) with (chars (uuid_text id)). rewrite E.
  do 32 (destruct h as [|? h]; [discriminate Hlen|]). destruct h; [|discriminate Hlen]. split; [|reflexivity].
  cbn in Hh. rewrite !andb_true_iff in Hh. cbn [take drop app forallb].
  repeat match goal with H : _ /\ _ |- _ => destruct H end.
  repeat match goal with H : hex_text ?c = true |- _ => apply hex_plain in H as [? _] end.
  repeat match goal with H : plain ?c = true |- _ => rewrite H; clear H end. reflexivity.
Qed.

Lemma fallback_safe id ext : ext ∈ ALLOWED_CONTAINERS ->
  Forall (fun c => safe_char c /\ (c < 128)%N) (fallback_text id ext) /\
  length (fallback_text id ext) = (46 + String.length ext)%nat.
Proof.
  intros Hin. destruct (uuid_text_plain id) as [Hu Hl]. destruct (extension_plain ext Hin) as [He _].
  unfold fallback_text. rewrite !codepoints_app, !length_app, !length_codepoints, Hl. split; [|done].
  repeat apply Forall_app_2; apply plain_safe; done.
Qed.

Lemma fallback_file_name id ext : ext ∈ ALLOWED_CONTAINERS -> file_name ext (fallback_text id ext).
Proof.
  intros Hin. destruct (fallback_safe id ext Hin) as [Hc Hl]. destruct (extension_plain ext Hin) as [_ He].
  split; [by eexists|eapply Forall_impl; [exact Hc|by intros c [? _]]|].
  rewrite encode_ascii by (eapply Forall_impl; [exact Hc|by intros c [_ ?]]). rewrite length_fmap, Hl.
  unfold MAX_FILENAME_CHARS, MAX_FILENAME_UTF8_BYTES. lia.
Qed.

(** The pattern of the fallback accepts it. *)
Lemma fallback_matches id ext : ext ∈ ALLOWED_CONTAINERS -> uuid_fallback (fallback_text id ext) = true.
Proof.
  intros Hin. destruct (uuid_text_shape id) as (h & Hlen & Hh & E). destruct (extension_plain ext Hin) as [He Hel].
  assert (Hext : Nat.leb 2 (length (codepoints ext)) && Nat.leb (length (codepoints ext)) 8 && forallb alnum_ci (codepoints ext) = true).
  { assert (Hall : forallb (fun e => Nat.leb 2 (length (codepoints e)) && Nat.leb (length (codepoints e)) 8 && forallb alnum_ci (codepoints e))
        ALLOWED_CONTAINERS = true) by (vm_compute; reflexivity).
    rewrite forallb_forall in Hall. apply (Hall ext (proj1 (list_elem_of_In _ _) Hin)). }
  unfold fallback_text. rewrite !codepoints_app. unfold codepoints at 2. rewrite E. clear E Hel He Hin.
  do 32 (destruct h as [|? h]; [discriminate Hlen|]). destruct h; [|discriminate Hlen].
  cbn in Hh. rewrite !andb_true_iff in Hh. repeat match goal with H : _ /\ _ |- _ => destruct H end.
  repeat match goal with H : hex_text ?c = true |- _ => apply hex_plain in H as [_ ?] end.
  unfold uuid_fallback. cbn [codepoints chars String.list_ascii_of_string fmap list_fmap take drop app seq zip zip_with forallb fst snd].
  rewrite !bool_decide_eq_true_2 by reflexivity. cbn [andb].
  repeat rewrite bool_decide_eq_false_2 by (vm_compute; intros Hx; repeat apply elem_of_cons in Hx as [Hx|Hx]; try discriminate Hx; by apply not_elem_of_nil in Hx).
  repeat match goal with H : hex_ci ?c = true |- _ => rewrite H; clear H end. exact Hext.
Qed.

Lemma bounds_ok name : Forall safe_char name -> _filename_bounds_ok name =
  inr (negb (is_nil name || Nat.ltb MAX_FILENAME_CHARS (length name)) &&
       Nat.leb (length (name ≫= encode_char)) MAX_FILENAME_UTF8_BYTES).
Proof.
  intros Hs. unfold _filename_bounds_ok. destruct name as [|c name]; [done|].
  destruct (_ || _); [done|]. rewrite encode_safe by done. cbn [need err_bind negb andb]. f_equal.
  destruct (encode_char_cons c) as (b & bs & E). cbn [mbind list_bind]. by rewrite E.
Qed.

(** The two forms of a suggested name. *)
Lemma suggested_cases title container id kind name :
  suggested_filename_for title container id kind = inr name ->
  exists ext, _validated_container container = inr ext /\ ext ∈ ALLOWED_CONTAINERS /\ file_name ext name /\
    (name = fallback_text id ext \/ exists stem, sanitized stem /\ name = stem ++ codepoints ("." ++ ext)%string).
Proof.
  unfold suggested_filename_for. intros E. ok_step E. rename v into ext, E0 into Hext.
  pose proof (validated_allowed container ext Hext) as Hin. rewrite (fallback_run id ext Hin) in E. cbn [err_bind] in E.
  assert (Hfall : file_name ext (fallback_text id ext)) by (by apply fallback_file_name).
  exists ext. split; [done|]. split; [done|]. ok_step E. destruct v as [stem|]; [|injection E as <-; by split; [|left]].
  assert (Hst : sanitized stem) by (destruct title; [by apply sanitize_spec in E0|done]). ok_step E. rename v into o.
  assert (Ho : forall stem', o = Some stem' -> sanitized stem').
  { intros stem' ->. destruct (is_nil (kind_suffix kind)); [injection E1 as <-; done|]. by apply sanitize_spec in E1. }
  destruct o as [stem'|]; [|injection E as <-; by split; [|left]]. specialize (Ho stem' eq_refl).
  ok_step E. injection E as <-. rename v into ok. set (full := stem' ++ codepoints ("." ++ ext)%string) in *.
  assert (Hsafe : Forall safe_char full).
  { apply Forall_app_2; [eapply Forall_impl; [apply Ho|apply clean_safe]|].
    destruct (extension_plain ext Hin) as [He _]. eapply Forall_impl; [apply plain_safe|by intros c [? _]]. by cbn. }
  destruct ok; [|by split; [|left]]. split; [|right; by exists stem'].
  rewrite bounds_ok in E2 by done. injection E2 as E2. apply andb_true_iff in E2 as [E2 E3].
  apply negb_true_iff, orb_false_iff in E2 as [_ E2]. apply Nat.ltb_ge in E2. apply Nat.leb_le in E3.
  split; [by exists stem'|done|done].
Qed.

Lemma ends_with_app l suffix : ends_with suffix (l ++ suffix) = true.
Proof.
  unfold ends_with. rewrite length_app. replace (length l + length suffix - length suffix)%nat with (length l) by lia.
  rewrite drop_app_length. by apply bool_decide_eq_true_2.
Qed.

Lemma safe_not_forbidden l : Forall safe_char l ->
  existsb (fun c => bool_decide (c ∈ FORBIDDEN) || (c =? 13)%N || (c =? 10)%N) l = false.
Proof.
  induction 1 as [|c l (Hf & _ & Hc & _) _ IH]; [done|]. cbn [existsb]. rewrite bool_decide_eq_false_2, IH by done.
  unfold control in Hc. apply orb_false_iff in Hc as [Hc _]. apply N.ltb_ge in Hc.
  destruct (N.eqb_spec c 13), (N.eqb_spec c 10); (lia || done).
Qed.

(** What reading back a well-formed name comes to. *)
Lemma is_safe_run ext container stem (name := stem ++ codepoints ("." ++ ext)%string) :
  _validated_container container = inr ext -> file_name ext name ->
  exists o, _sanitize_stem (Some stem) = inr o /\
    is_safe_suggested_filename name container = inr (bool_decide (o = Some stem) || uuid_fallback name).
Proof.
  intros Hext [_ Hsafe [Hl Hb]]. destruct (sanitize_total (Some stem)) as [o Ho]. exists o. split; [done|].
  unfold is_safe_suggested_filename. rewrite Hext. cbn [err_bind]. unfold name. rewrite ends_with_app. cbn [negb]. fold name.
  rewrite bounds_ok by done. apply Nat.leb_le in Hb. rewrite Hb. replace (Nat.ltb MAX_FILENAME_CHARS (length name)) with false by (symmetry; by apply Nat.ltb_ge).
  replace (is_nil name) with false by (unfold name; by destruct stem). cbn [orb negb andb err_bind].
  rewrite safe_not_forbidden by done.
  replace (drop_last (String.length ext + 1) name) with stem.
  - rewrite Ho. cbn [err_bind]. by case_bool_decide.
  - unfold drop_last, name. rewrite length_app, length_codepoints. change (String.length ("." ++ ext)) with (S (String.length ext)).
    replace (length stem + S (String.length ext) - (String.length ext + 1))%nat with (length stem) by lia. by rewrite take_app_length.
Qed.

(** C32: A suggested name is safe and is accepted when it is read back. Whatever
    the title, the name ends in the container's extension, fits in 255 characters
    and 240 bytes, and has no path separator, no character that file systems
    refuse, no control and no bidirectional override. If its stem is in normal form NFC,
    the check of the stored name accepts it. *)
Theorem suggested_names_are_safe title container id kind name :
  suggested_filename_for title container id kind = inr name ->
  exists ext, _validated_container container = inr ext /\ ext ∈ ALLOWED_CONTAINERS /\ file_name ext name /\
    ((forall stem, name = stem ++ codepoints ("." ++ ext)%string -> nfc stem = stem) ->
     is_safe_suggested_filename name container = inr true).
Proof.
  intros E. destruct (suggested_cases _ _ _ _ _ E) as (ext & Hext & Hin & Hfn & Hor). exists ext. split_and!; try done.
  intros Hnfc. destruct Hor as [-> |(stem & Hst & ->)].
  - pose proof (fallback_matches id ext Hin) as Hm. unfold fallback_text in *.
    destruct (is_safe_run ext container _ Hext Hfn) as (o & _ & ->). by rewrite Hm, orb_true_r.
  - destruct (is_safe_run ext container stem Hext Hfn) as (o & Ho & ->).
    rewrite (sanitize_fix stem Hst (Hnfc stem eq_refl)) in Ho. injection Ho as <-. by rewrite bool_decide_eq_true_2.
Qed.

(** ** The header *)

(** One byte, encoded and decoded: all 256 of them. *)
Definition byte_decodes (b : Z) : bool :=
  match encode_byte b with
  | [c] => negb (c =? 37)%N && attr_char c && (Z.of_N c =? b)
  | [p; x; y] => (p =? 37)%N && (x <? 128)%N && (y <? 128)%N && negb (Ascii.eqb (ascii_of_N x) "-"%char) &&
                 bool_decide (int_base16 [ascii_of_N x; ascii_of_N y] = Some b)
  | _ => false
  end && forallb (fun c => (33 <=? c)%N && (c <=? 126)%N && negb (c =? 34)%N) (encode_byte b).

Lemma every_byte_decodes b : 0 <= b < 256 -> byte_decodes b = true.
Proof.
  intros Hb. assert (Hall : forallb byte_decodes (Z.of_nat <$> seq 0 256) = true) by (vm_compute; reflexivity).
  rewrite forallb_forall in Hall. apply Hall. apply list_elem_of_In, list_elem_of_fmap. exists (Z.to_nat b).
  split; [lia|]. apply elem_of_seq. lia.
Qed.

Lemma decode_encode_byte b rest : 0 <= b < 256 -> decode_pieces (encode_byte b ++ rest) = (b ::.) <$> decode_pieces rest.
Proof.
  intros Hb. pose proof (every_byte_decodes b Hb) as Hd. unfold byte_decodes in Hd. apply andb_true_iff in Hd as [Hd _].
  destruct (encode_byte b) as [|c [|x [|y [|]]]]; try done.
  - propify. cbn [app decode_pieces]. by rewrite H1, H2, H3.
  - propify. match goal with H : (c =? 37)%N = true |- _ => apply N.eqb_eq in H; subst c end.
    cbn [app decode_pieces]. change (37 =? 37)%N with true. cbv iota. unfold int_of_pair, to_ascii.
    repeat match goal with H : (_ <? 128)%N = true |- _ => rewrite H; clear H end.
    repeat match goal with H : _ = _ |- _ => rewrite H end. done.
Qed.

Lemma decode_encode_bytes raw : Forall (fun b => 0 <= b < 256) raw -> decode_pieces (raw ≫= encode_byte) = Some raw.
Proof.
  induction 1 as [|b raw Hb _ IH]; [done|]. cbn [mbind list_bind]. by rewrite decode_encode_byte, IH.
Qed.

Lemma encode_bytes_range l : Forall safe_char l -> Forall (fun b => 0 <= b < 256) (l ≫= encode_char).
Proof.
  induction 1 as [|c l (_ & _ & _ & Hc) _ IH]; [constructor|]. cbn [mbind list_bind]. apply Forall_app_2; [by apply encode_char_bytes|done].
Qed.

(** Printable ASCII without a quote. *)
Definition token_char (c : N) : Prop := (32 <= c <= 126)%N /\ c <> 34%N.

Lemma encoded_tokens raw : Forall (fun b => 0 <= b < 256) raw -> Forall token_char (raw ≫= encode_byte).
Proof.
  induction 1 as [|b raw Hb _ IH]; [constructor|]. cbn [mbind list_bind]. apply Forall_app_2; [|done].
  pose proof (every_byte_decodes b Hb) as Hd. unfold byte_decodes in Hd. apply andb_true_iff in Hd as [_ Hd].
  rewrite forallb_forall in Hd. apply Forall_forall. intros c Hc. specialize (Hd c (proj1 (list_elem_of_In _ _) Hc)).
  rewrite !andb_true_iff, !N.leb_le, negb_true_iff, N.eqb_neq in Hd. unfold token_char. lia.
Qed.

(** RFC 8187 encoding of a name reads back. *)
Lemma rfc8187_roundtrip l : Forall safe_char l -> l <> [] ->
  encode_rfc8187 l = inr (codepoints "UTF-8''" ++ ((l ≫= encode_char) ≫= encode_byte)) /\
  decode_rfc8187 (codepoints "UTF-8''" ++ ((l ≫= encode_char) ≫= encode_byte)) = inr (Some l).
Proof.
  intros Hl Hne. unfold encode_rfc8187. rewrite encode_safe by done. split; [done|].
  pose proof (encode_bytes_range l Hl) as Hr. unfold decode_rfc8187.
  change (take 7 (codepoints "UTF-8''" ++ ?x)) with (codepoints "UTF-8''").
  match goal with |- context [drop 7 ?x] => change (drop 7 x) with ((l ≫= encode_char) ≫= encode_byte) end.
  match goal with |- context [bool_decide (?a = ?b)] => change (bool_decide (a = b)) with true end. cbn [negb].
  rewrite decode_encode_bytes by done.
  assert (Hn : is_nil ((l ≫= encode_char) ≫= encode_byte) = false).
  { destruct l as [|c l]; [done|]. destruct (encode_char_cons c) as (b & bs & E). cbn [mbind list_bind]. rewrite E. cbn [app mbind list_bind].
    unfold encode_byte at 1. by destruct (attr_char _). }
  rewrite Hn. replace (existsb (fun b => b <? 0) _) with false.
  - f_equal. apply utf8_roundtrip. by apply encode_safe.
  - symmetry. clear -Hr. induction Hr as [|b bs Hb _ IH]; [done|]. cbn. rewrite IH. by replace (b <? 0) with false by (symmetry; apply Z.ltb_ge; lia).
Qed.

Lemma ascii_token_chars l : _is_ascii_token l = true -> Forall token_char l.
Proof.
  unfold _is_ascii_token. rewrite !andb_true_iff. intros [_ Hl]. rewrite forallb_forall in Hl. apply Forall_forall. intros c Hc.
  specialize (Hl c (proj1 (list_elem_of_In _ _) Hc)). rewrite !andb_true_iff, !N.leb_le, negb_true_iff, bool_decide_eq_false in Hl.
  destruct Hl as [[? ?] Hn]. split; [lia|]. intros ->. apply Hn. by left.
Qed.

Lemma no_breaks (bad l : list N) : Forall token_char l -> Forall (fun c => (c < 32)%N \/ c = 34%N) bad ->
  existsb (fun c => bool_decide (c ∈ bad)) l = false.
Proof.
  intros Hl Hbad. induction Hl as [|c l [Hc Hq] _ IH]; [done|]. cbn. rewrite IH, bool_decide_eq_false_2; [done|].
  intros Hin. rewrite Forall_forall in Hbad. destruct (Hbad c Hin); [lia|done].
Qed.

Lemma existsb_token l : _is_ascii_token l = true -> existsb (fun c => bool_decide (c ∈ [34; 92; 13; 10]%N)) l = false.
Proof.
  unfold _is_ascii_token. rewrite !andb_true_iff. intros [_ Hl]. induction l as [|c l IH]; [done|]. cbn in Hl |- *.
  rewrite !andb_true_iff, negb_true_iff in Hl. destruct Hl as [[_ Hc] Hl]. by rewrite Hc, IH.
Qed.

Lemma existsb_safe l : Forall safe_char l -> existsb (fun c => bool_decide (c ∈ [13; 10; 0]%N)) l = false.
Proof.
  induction 1 as [|c l (Hf & _ & Hc & _) _ IH]; [done|]. cbn. rewrite IH, bool_decide_eq_false_2; [done|].
  unfold control in Hc. apply orb_false_iff in Hc as [Hc _]. apply N.ltb_ge in Hc.
  intros Hin. repeat (apply elem_of_cons in Hin as [->|Hin]); try lia. by apply not_elem_of_nil in Hin.
Qed.

Lemma fallback_token id ext : ext ∈ ALLOWED_CONTAINERS -> _is_ascii_token (fallback_text id ext) = true.
Proof.
  intros Hin. destruct (fallback_safe id ext Hin) as [Hc Hl]. unfold _is_ascii_token.
  rewrite !andb_true_iff. split; [split|].
  - by destruct (fallback_text id ext).
  - apply forallb_forall. intros c Hi. rewrite Forall_forall in Hc. apply N.ltb_lt. by apply Hc, list_elem_of_In.
  - apply forallb_forall. intros c Hi. rewrite Forall_forall in Hc. destruct (Hc c) as [(Hf & _ & Hct & _) Hlt]; [by apply list_elem_of_In|].
    unfold control in Hct. apply orb_false_iff in Hct as [H1 H2]. apply N.ltb_ge in H1. apply andb_false_iff in H2.
    rewrite N.leb_gt, N.leb_gt in H2. rewrite !andb_true_iff, !N.leb_le, negb_true_iff, bool_decide_eq_false. split; [lia|].
    intros Hb. repeat (apply elem_of_cons in Hb as [->|Hb]); try lia; try (by apply not_elem_of_nil in Hb);
      apply Hf, (bool_decide_eq_true _); reflexivity.
Qed.

(** The Content-Disposition header of a suggested name cannot be broken out
    of, and tells the name. It is built without an error; every character is
    printable ASCII, and the only quotes are the two around the plain name; its
    RFC 8187 part decodes to exactly the suggested name, whatever its characters. *)
Theorem header_tells_the_name title container id kind name fallback :
  suggested_filename_for title container id kind = inr name -> fallback_filename id container = inr fallback ->
  exists ascii encoded,
    content_disposition_header name fallback =
      inr (codepoints "attachment; filename=" ++ [34%N] ++ ascii ++ [34%N] ++ codepoints "; filename*=" ++ encoded) /\
    Forall token_char ascii /\ Forall token_char encoded /\ (ascii = name \/ ascii = fallback) /\
    decode_rfc8187 encoded = inr (Some name).
Proof.
  intros E Ef. destruct (suggested_cases _ _ _ _ _ E) as (ext & Hext & Hin & [[stem Hs] Hsafe _] & _).
  assert (fallback = fallback_text id ext) as ->.
  { unfold fallback_filename in Ef. rewrite Hext in Ef. cbn [err_bind] in Ef. injection Ef as <-. unfold fallback_text.
    by rewrite !codepoints_app, <- !app_assoc. }
  assert (Hne : name <> []) by (rewrite Hs; by destruct stem).
  assert (Ha : exists ascii, ascii_filename_parameter name (fallback_text id ext) = inr ascii /\ _is_ascii_token ascii = true /\
    (ascii = name \/ ascii = fallback_text id ext)).
  { unfold ascii_filename_parameter. destruct (_is_ascii_token name) eqn:Et.
    - exists name. split; [done|]. split; [done|by left].
    - exists (fallback_text id ext). rewrite fallback_token by done. split; [done|]. split; [done|by right]. }
  destruct Ha as (ascii & Ea & Htok & Hor). pose proof (ascii_token_chars ascii Htok) as Hat. destruct (rfc8187_roundtrip name Hsafe Hne) as [Ee Ed].
  set (encoded := codepoints "UTF-8''" ++ _) in *. exists ascii, encoded.
  assert (Hen : Forall token_char encoded).
  { apply Forall_app_2; [|by apply encoded_tokens, encode_bytes_range].
    apply Forall_forall. intros c Hc. assert (Hb : forallb (fun c => (32 <=? c)%N && (c <=? 126)%N && negb (c =? 34)%N) (codepoints "UTF-8''") = true) by reflexivity.
    rewrite forallb_forall in Hb. specialize (Hb c (proj1 (list_elem_of_In _ _) Hc)).
    rewrite !andb_true_iff, !N.leb_le, negb_true_iff, N.eqb_neq in Hb. unfold token_char. lia. }
  split; [|done]. unfold content_disposition_header. rewrite Ea. cbn [err_bind].
  rewrite existsb_token by done. unfold raise_if at 1. cbn [err_bind].
  rewrite existsb_safe by done. unfold raise_if at 1. cbn [err_bind]. rewrite Ee. cbn [err_bind].
  set (header := _ ++ _). replace (existsb _ header) with false; [done|]. symmetry. unfold header.
  assert (Hbad : Forall (fun c => (c < 32)%N \/ c = 34%N) [13; 10; 0]%N) by (repeat constructor; lia).
  rewrite !existsb_app, (no_breaks _ ascii Hat Hbad), (no_breaks _ encoded Hen Hbad). reflexivity.
Qed.
End Names.

(** ** Latin-1, and a database with one composition *)

(** The Unicode database restricted to Latin-1, where every text is in NFC. *)
Module Latin1.
Definition other (c : N) : bool := control c || (c =? 173)%N || negb (scalar c).
Definition space (c : N) : bool :=
  ((9 <=? c) && (c <=? 13) || (28 <=? c) && (c <=? 32) || (c =? 133) || (c =? 160))%N.
Definition upper_char (c : N) : list N :=
  if ((97 <=? c) && (c <=? 122) || (224 <=? c) && (c <=? 254) && negb (c =? 247))%N then [c - 32]%N
  else if (c =? 223)%N then [83; 83]%N else if (c =? 255)%N then [376%N] else if (c =? 181)%N then [924%N] else [c].
#[export] Instance latin1 : UnicodeData := {|
  nfc := fun l => l; category_other := other; isspace := space; upper := fun l => l ≫= upper_char; decimal := fun _ => None |}.
#[export] Instance latin1_laws : UnicodeLaws.
Proof.
  split; try reflexivity.
  - intros c Hc. cbn. unfold other. by rewrite Hc.
  - intros c Hc. cbn. unfold other. rewrite Hc. by rewrite orb_true_r.
Qed.
End Latin1.

(** The same with the zero-width joiner U+200D, which has category Cf, and the
    composition of e and the combining acute accent U+0301. *)
Module Composing.
Fixpoint compose (l : list N) : list N :=
  match l with
  | a :: t => match t with
              | b :: l' => if ((a =? 101) && (b =? 769))%N then 233%N :: compose l' else a :: compose t
              | [] => [a]
              end
  | [] => []
  end.
Definition data : UnicodeData := {|
  nfc := compose; category_other := fun c => Latin1.other c || (c =? 8205)%N; isspace := Latin1.space;
  upper := fun l => l ≫= Latin1.upper_char; decimal := fun _ => None |}.
End Composing.

Module FilenameExamples.

Definition demo_title : list N := codepoints " Caf" ++ [233%N] ++ codepoints "/ the: " ++ [34%N] ++ codepoints "best" ++ [34%N] ++ codepoints " . ".

Section InLatin1.
Import Latin1.

Example demo_name : suggested_filename_for (Some demo_title) "mp4" 7 VIDEO_ONLY = inr (codepoints "Caf" ++ [233%N] ++ codepoints " the best-video.mp4").
Proof. vm_compute. reflexivity. Qed.

Lemma suggested_names_are_safe_witness :
  exists name, suggested_filename_for (Some demo_title) "mp4" 7 VIDEO_ONLY = inr name /\
    is_safe_suggested_filename name "mp4" = inr true.
Proof.
  eexists. split; [exact demo_name|].
  destruct (suggested_names_are_safe (Some demo_title) "mp4" 7 VIDEO_ONLY _ demo_name) as (ext & _ & _ & _ & Hok).
  apply Hok. intros stem _. reflexivity.
Defined.

Lemma header_tells_the_name_witness :
  exists header, content_disposition_header (codepoints "Caf" ++ [233%N] ++ codepoints " the best-video.mp4")
    (fallback_text 7 "mp4") = inr header.
Proof.
  destruct (header_tells_the_name (Some demo_title) "mp4" 7 VIDEO_ONLY _ (fallback_text 7 "mp4") demo_name) as (a & e & E & _).
  - vm_compute. reflexivity.
  - eexists. exact E.
Defined.
End InLatin1.

(** A removed joiner leaves a stem that is not in NFC, and the name that was
    suggested is refused when it is read back. *)
Example joined_title_is_refused :
  let name := codepoints "cafe" ++ [769%N] ++ codepoints ".mp4" in
  suggested_filename_for (H := Composing.data) (Some (codepoints "cafe" ++ [8205; 769]%N)) "mp4" 7 NORMAL_VIDEO = inr name /\
  is_safe_suggested_filename (H := Composing.data) name "mp4" = inr false.
Proof. split; vm_compute; reflexivity. Qed.

(** An encoded byte with a sign ends as a ValueError. *)
Example signed_byte_raises :
  exists e, decode_rfc8187 (H := Composing.data) (codepoints "UTF-8''%-1") = inl e.
Proof. eexists. vm_compute. reflexivity. Qed.
End FilenameExamples.
