(* ===== verification/Downloads.v ===== *)
(** Media-download jobs: [downloads/repository.py] over [media_download_jobs],
    with the quota entry, the delivery ledger and the grants a transition
    touches. *)

From S2P Require Export Delivery Snapshot Grants.

Local Open Scope string_scope.
Local Open Scope list_scope.
Local Open Scope Z_scope.

Module MediaDownloadJobRepository.
Import DownloadStates QuotaRepository.

(** Source: backend/src/fetchnow/downloads/repository.py:92-100 [database_now] *)
Definition database_now : DB time := clock_timestamp.

(** Source: backend/src/fetchnow/downloads/repository.py:42-58 [_lock_quota_identity_for_job]

    [true] when the job is governed by a quota entry. *)
Definition lock_quota_identity_for_job (job_id : uid) : DB bool :=
  let* client_id := identity_id_for_download job_id in
  match client_id with
  | None => ret false
  | Some client_id =>
      let* client := lock_client client_id None in
      raise_when (is_none client)
        (QuotaInvariantError "quota entry references a missing identity") ;;;
      ret true
  end.

(** Source: backend/src/fetchnow/downloads/repository.py:60-69 [_consume_quota_after_job_lock] *)
Definition consume_quota_after_job_lock (quota : bool) (job_id : uid) : DB unit :=
  if negb quota then ret tt
  else
    let* entry := lock_entry_for_download job_id in
    match entry with
    | None => raise (QuotaInvariantError "quota entry disappeared during ready transition")
    | Some entry =>
        let* now := QuotaRepository.database_now in
        consume_locked entry now ;;; ret tt
    end.

(** Source: backend/src/fetchnow/downloads/repository.py:71-90 [_release_quota_after_job_lock] *)
Definition release_quota_after_job_lock (quota : bool) (job_id : uid) (expired : bool) : DB unit :=
  if negb quota then ret tt
  else
    let* entry := lock_entry_for_download job_id in
    match entry with
    | None => raise (QuotaInvariantError "quota entry disappeared during terminal transition")
    | Some entry =>
        let* now := QuotaRepository.database_now in
        release_locked entry now expired ;;; ret tt
    end.

(** The keyword arguments of [enqueue_or_get]. *)
Record EnqueueArgs := {
  eq_media_job_id : uid;
  eq_format_option_id : string;
  eq_provider_id : string;
  eq_canonical_provider_url : string;
  eq_media_id : string;
  eq_hostname : string;
  eq_path : string;
  eq_scheme : string;
  eq_port : option Z;
  eq_selected_format_snapshot : list (string * Json);
  eq_now : time;
  eq_ttl_seconds : Z;
  eq_max_attempts : Z;
  eq_parent_expires_at : time;
  eq_suggested_filename : option (list N);
  eq_job_id : option uid
}.

(** Source: backend/src/fetchnow/downloads/repository.py:139-176 [MediaDownloadJob(...)] *)
Definition queued_job (id : uid) (q : EnqueueArgs) : MediaDownloadJob := {|
  dj_id := id;
  dj_media_job_id := eq_media_job_id q;
  dj_schema_version := 1;
  dj_public_state := QUEUED;
  dj_format_option_id := eq_format_option_id q;
  dj_provider_id := eq_provider_id q;
  dj_canonical_provider_url := eq_canonical_provider_url q;
  dj_media_id := eq_media_id q;
  dj_hostname := eq_hostname q;
  dj_path := eq_path q;
  dj_scheme := eq_scheme q;
  dj_port := eq_port q;
  dj_selected_format_snapshot := JObj (eq_selected_format_snapshot q);
  dj_attempt_count := 0;
  dj_max_attempts := eq_max_attempts q;
  dj_available_at := eq_now q;
  dj_lease_owner := None;
  dj_lease_expires_at := None;
  dj_fence_token := 0;
  dj_artifact_id := None;
  dj_artifact_bytes := None;
  dj_artifact_content_type := None;
  dj_artifact_container := None;
  dj_public_error_code := None;
  dj_progress_stage := Progress.QUEUED;
  dj_cancel_requested_at := None;
  dj_suggested_filename := eq_suggested_filename q;
  dj_progress_percent := None;
  dj_created_at := eq_now q;
  dj_updated_at := eq_now q;
  dj_started_at := None;
  dj_completed_at := None;
  dj_expires_at := Z.min (eq_now q + seconds (eq_ttl_seconds q)) (eq_parent_expires_at q)
|}.

(** Source: backend/src/fetchnow/downloads/repository.py:214-248 [_immutable_fields_match] *)
Definition immutable_fields_match (existing : MediaDownloadJob) (q : EnqueueArgs) : bool :=
  match dj_selected_format_snapshot existing with
  | JObj stored_snapshot =>
      bool_decide (dj_media_job_id existing = eq_media_job_id q) &&
      bool_decide (dj_format_option_id existing = eq_format_option_id q) &&
      bool_decide (dj_provider_id existing = eq_provider_id q) &&
      bool_decide (dj_canonical_provider_url existing = eq_canonical_provider_url q) &&
      bool_decide (dj_media_id existing = eq_media_id q) &&
      bool_decide (dj_hostname existing = eq_hostname q) &&
      bool_decide (dj_path existing = eq_path q) &&
      bool_decide (dj_scheme existing = eq_scheme q) &&
      bool_decide (dj_port existing = eq_port q) &&
      (dj_schema_version existing =? 1) &&
      (dj_max_attempts existing =? eq_max_attempts q) &&
      json_eqb (JObj (strip_effective_policy_snapshot stored_snapshot))
               (JObj (strip_effective_policy_snapshot (eq_selected_format_snapshot q)))
  | _ => false
  end.

(** Source: backend/src/fetchnow/downloads/repository.py:102-212 [enqueue_or_get] *)
Definition enqueue_or_get (q : EnqueueArgs) : DB (MediaDownloadJob * bool) :=
  raise_when (str_mem "?" (eq_canonical_provider_url q) ||
              str_mem "#" (eq_canonical_provider_url q))
    (download_error DOWNLOAD_INTERNAL_ERROR "CANONICAL_QUERY_OR_FRAGMENT") ;;;
  raise_when ((strlen (eq_format_option_id q) =? 0) || (64 <? strlen (eq_format_option_id q)))
    (download_error DOWNLOAD_INTERNAL_ERROR "FORMAT_OPTION_ID_INVALID") ;;;
  let* id := match eq_job_id q with Some id => ret id | None => uuid4 end in
  let job := queued_job id q in
  try_catch
    (begin_nested (insert_row job) ;;; ret (job, true))
    (fun e =>
       match e with
       | IntegrityError => Some (
           let* existing := select_first (fun r : MediaDownloadJob =>
             bool_decide (dj_media_job_id r = eq_media_job_id q) &&
             bool_decide (dj_format_option_id r = eq_format_option_id q)) in
           match existing with
           | None => raise (download_error DOWNLOAD_INTERNAL_ERROR "IDEMPOTENCY_LOOKUP_MISS")
           | Some existing =>
               raise_when (negb (immutable_fields_match existing q))
                 (download_error DOWNLOAD_INTERNAL_ERROR "IDEMPOTENT_ROW_MISMATCH") ;;;
               ret (existing, false)
           end)
       | _ => None
       end).

(** Source: backend/src/fetchnow/downloads/repository.py:250-255 [get_by_id] *)
Definition get_by_id (job_id : uid) : DB (option MediaDownloadJob) :=
  select_by_id job_id (fun _ => true).

(** The WHERE clause of [_claim_select]. *)
Definition claimable (clk : time) (r : MediaDownloadJob) : bool :=
  bool_decide (dj_public_state r = QUEUED) && (dj_available_at r <=? clk) &&
  (clk <? dj_expires_at r) && (dj_attempt_count r <? dj_max_attempts r) &&
  is_none (dj_cancel_requested_at r).

(** Source: backend/src/fetchnow/downloads/repository.py:257-272 [_claim_select] *)
Definition claim_select (locked : uid -> bool) (limit : Z) : DB (list MediaDownloadJob) :=
  let* clk := clock_timestamp in
  let* found := select (fun r => claimable clk r && negb (locked (dj_id r))) in
  ret (take (Z.to_nat limit) (order_by dj_created_at found)).

(** Source: backend/src/fetchnow/downloads/repository.py:295-305 [claim_next.assignments] *)
Definition claim_row (worker_id : string) (lease_expires now : time) (job : MediaDownloadJob)
  : MediaDownloadJob :=
  job <| dj_public_state := DOWNLOADING |>
      <| dj_progress_stage := Progress.INSPECTING |>
      <| dj_progress_percent := None |>
      <| dj_lease_owner := Some worker_id |>
      <| dj_lease_expires_at := Some lease_expires |>
      <| dj_fence_token := dj_fence_token job + 1 |>
      <| dj_attempt_count := dj_attempt_count job + 1 |>
      <| dj_updated_at := now |>
      <| dj_started_at := if is_none (dj_started_at job) then Some now else dj_started_at job |>.

(** Source: backend/src/fetchnow/downloads/repository.py:274-309 [claim_next] *)
Definition claim_next (locked : uid -> bool) (worker_id : string) (lease now : time) (limit : Z)
  : DB (list MediaDownloadJob) :=
  if limit <? 1 then ret []
  else
    raise_when ((strlen worker_id =? 0) || (128 <? strlen worker_id))
      (download_error DOWNLOAD_INTERNAL_ERROR "INVALID_WORKER_ID") ;;;
    let* found := claim_select locked limit in
    map_m (fun job =>
      lift (assert_transition (value (dj_public_state job)) (value DOWNLOADING)) ;;;
      update_row (dj_id job) (claim_row worker_id (now + lease) now)) found.

(** Source: backend/src/fetchnow/downloads/repository.py:326-329 [MediaDownloadJobRepository.renew_lease]
    The lease is held by [owner] under [fence]: the clauses every fenced
    statement shares. *)
Definition fenced (owner : string) (fence : Z) (r : MediaDownloadJob) : bool :=
  bool_decide (dj_public_state r = DOWNLOADING) && sql_eq (dj_lease_owner r) owner &&
  (dj_fence_token r =? fence).

(** Source: backend/src/fetchnow/downloads/repository.py:330-331 [MediaDownloadJobRepository.renew_lease]
    ... and has not run out. *)
Definition lease_live (clk : time) (r : MediaDownloadJob) : bool :=
  sql_gt (dj_lease_expires_at r) clk && (clk <? dj_expires_at r).

(** Source: backend/src/fetchnow/downloads/repository.py:379-379 [MediaDownloadJobRepository.complete_ready] *)
Definition not_cancelled (r : MediaDownloadJob) : bool := is_none (dj_cancel_requested_at r).

(** Source: backend/src/fetchnow/downloads/repository.py:333-337 [renew_lease.values] *)
Definition renew_row (lease clk : time) (r : MediaDownloadJob) : MediaDownloadJob :=
  r <| dj_lease_expires_at := Some (clk + lease) |> <| dj_updated_at := clk |>.

(** Source: backend/src/fetchnow/downloads/repository.py:311-339 [renew_lease] *)
Definition renew_lease (job_id : uid) (owner : string) (fence : Z) (lease : time) : DB bool :=
  let* clk := clock_timestamp in
  update_by_id job_id (fun r => fenced owner fence r && lease_live clk r) (renew_row lease clk).

(** Source: backend/src/fetchnow/downloads/repository.py:381-394 [complete_ready.values] *)
Definition ready_row (artifact_id : uid) (artifact_bytes : Z)
    (artifact_content_type artifact_container : string) (clk : time) (r : MediaDownloadJob)
  : MediaDownloadJob :=
  r <| dj_public_state := READY |>
    <| dj_progress_stage := Progress.READY |>
    <| dj_progress_percent := None |>
    <| dj_artifact_id := Some artifact_id |>
    <| dj_artifact_bytes := Some artifact_bytes |>
    <| dj_artifact_content_type := Some artifact_content_type |>
    <| dj_artifact_container := Some artifact_container |>
    <| dj_public_error_code := None |>
    <| dj_lease_owner := None |>
    <| dj_lease_expires_at := None |>
    <| dj_completed_at := Some clk |>
    <| dj_updated_at := clk |>.

(** Source: backend/src/fetchnow/downloads/repository.py:341-399 [complete_ready] *)
Definition complete_ready (job_id : uid) (owner : string) (fence : Z) (artifact_id : uid)
    (artifact_bytes : Z) (artifact_content_type artifact_container : string)
    (consume_quota_on_ready : bool) : DB bool :=
  raise_when (artifact_bytes <=? 0)
    (download_error DOWNLOAD_INTERNAL_ERROR "ARTIFACT_BYTES_INVALID") ;;;
  lift (assert_transition (value DOWNLOADING) (value READY)) ;;;
  let* quota := if consume_quota_on_ready then lock_quota_identity_for_job job_id else ret false in
  let* clk := clock_timestamp in
  let* applied :=
    update_by_id job_id (fun r => fenced owner fence r && lease_live clk r && not_cancelled r)
      (ready_row artifact_id artifact_bytes artifact_content_type artifact_container clk) in
  (if applied && consume_quota_on_ready
   then consume_quota_after_job_lock quota job_id else ret tt) ;;;
  ret applied.

(** The artifact columns and the lease cleared, the percentage reset. *)
Definition cleared (r : MediaDownloadJob) : MediaDownloadJob :=
  r <| dj_progress_percent := None |>
    <| dj_artifact_id := None |>
    <| dj_artifact_bytes := None |>
    <| dj_artifact_content_type := None |>
    <| dj_artifact_container := None |>
    <| dj_lease_owner := None |>
    <| dj_lease_expires_at := None |>.

(** Source: backend/src/fetchnow/downloads/repository.py:428-441 [fail_permanent.values] *)
Definition failed_row (public_error_code : string) (clk : time) (r : MediaDownloadJob)
  : MediaDownloadJob :=
  (cleared r)
    <| dj_public_state := FAILED |>
    <| dj_progress_stage := Progress.FAILED |>
    <| dj_public_error_code := Some public_error_code |>
    <| dj_completed_at := Some clk |>
    <| dj_updated_at := clk |>.

(** Source: backend/src/fetchnow/downloads/repository.py:401-446 [fail_permanent] *)
Definition fail_permanent (job_id : uid) (owner : string) (fence : Z) (public_error_code : string)
  : DB bool :=
  lift (assert_transition (value DOWNLOADING) (value FAILED)) ;;;
  let* quota := lock_quota_identity_for_job job_id in
  let* clk := clock_timestamp in
  let* applied :=
    update_by_id job_id (fun r => fenced owner fence r && lease_live clk r && not_cancelled r)
      (failed_row public_error_code clk) in
  (if applied then release_quota_after_job_lock quota job_id false else ret tt) ;;;
  ret applied.

(** Source: backend/src/fetchnow/downloads/repository.py:976-989 [complete_cancelled.values] *)
Definition cancelled_row (clk : time) (r : MediaDownloadJob) : MediaDownloadJob :=
  (cleared r)
    <| dj_public_state := EXPIRED |>
    <| dj_progress_stage := Progress.CANCELLED |>
    <| dj_public_error_code := None |>
    <| dj_completed_at := Some clk |>
    <| dj_updated_at := clk |>.

(** Source: backend/src/fetchnow/downloads/repository.py:952-994 [complete_cancelled] *)
Definition complete_cancelled (job_id : uid) (owner : string) (fence : Z) : DB bool :=
  lift (assert_transition (value DOWNLOADING) (value EXPIRED)) ;;;
  let* quota := lock_quota_identity_for_job job_id in
  let* clk := clock_timestamp in
  let* applied :=
    update_by_id job_id (fun r => fenced owner fence r && is_some (dj_cancel_requested_at r))
      (cancelled_row clk) in
  (if applied then release_quota_after_job_lock quota job_id false else ret tt) ;;;
  ret applied.

(** Source: backend/src/fetchnow/downloads/repository.py:502-511 [fail_retry.values] *)
Definition retry_row (available_at clk : time) (r : MediaDownloadJob) : MediaDownloadJob :=
  r <| dj_public_state := QUEUED |>
    <| dj_progress_stage := Progress.RETRYING |>
    <| dj_progress_percent := None |>
    <| dj_public_error_code := None |>
    <| dj_available_at := available_at |>
    <| dj_lease_owner := None |>
    <| dj_lease_expires_at := None |>
    <| dj_updated_at := clk |>.

(** Source: backend/src/fetchnow/downloads/repository.py:448-513 [fail_retry] *)
Definition fail_retry (job_id : uid) (owner : string) (fence : Z) (now backoff : time)
    (public_error_code : string) : DB bool :=
  let* job := get_by_id job_id in
  match job with
  | None => ret false
  | Some job =>
      if negb (bool_decide (dj_public_state job = DOWNLOADING)) ||
         negb (bool_decide (dj_lease_owner job = Some owner)) ||
         negb (dj_fence_token job =? fence)
      then ret false
      else if is_some (dj_cancel_requested_at job)
      then complete_cancelled job_id owner fence
      else if dj_max_attempts job <=? dj_attempt_count job
      then fail_permanent job_id owner fence public_error_code
      else
        lift (assert_transition (value DOWNLOADING) (value QUEUED)) ;;;
        let available_at := now + Z.max 0 backoff in
        let* clk := clock_timestamp in
        update_by_id job_id (fun r => fenced owner fence r && lease_live clk r && not_cancelled r)
          (retry_row available_at clk)
  end.

(** Source: backend/src/fetchnow/downloads/repository.py:539-548 [release_to_queued.values] *)
Definition release_row (now clk : time) (r : MediaDownloadJob) : MediaDownloadJob :=
  r <| dj_public_state := QUEUED |>
    <| dj_progress_stage := Progress.QUEUED |>
    <| dj_progress_percent := None |>
    <| dj_attempt_count := Z.max (dj_attempt_count r - 1) 0 |>
    <| dj_available_at := now |>
    <| dj_lease_owner := None |>
    <| dj_lease_expires_at := None |>
    <| dj_updated_at := clk |>.

(** Source: backend/src/fetchnow/downloads/repository.py:515-550 [release_to_queued] *)
Definition release_to_queued (job_id : uid) (owner : string) (fence : Z) (now : time) : DB bool :=
  lift (assert_transition (value DOWNLOADING) (value QUEUED)) ;;;
  let* clk := clock_timestamp in
  update_by_id job_id (fun r => fenced owner fence r && lease_live clk r && not_cancelled r)
    (release_row now clk).

(** Source: backend/src/fetchnow/downloads/repository.py:552-564 [list_active_fences] *)
Definition list_active_fences : DB (list (uid * Z)) :=
  let* found := select (fun r => bool_decide (dj_public_state r = DOWNLOADING)) in
  ret ((fun r => (dj_id r, dj_fence_token r)) <$> found).

(** Source: backend/src/fetchnow/downloads/repository.py:566-577 [list_referenced_artifact_ids] *)
Definition list_referenced_artifact_ids : DB (list uid) :=
  let* found := select (fun r => is_some (dj_artifact_id r)) in
  ret (omap dj_artifact_id found).

(** Source: backend/src/fetchnow/downloads/repository.py:1126-1141 [_apply_stored_cancel]

    The artifact columns and the lease cleared, with the markers of a user
    cancel: [job.completed_at] is set once. *)
Definition apply_stored_cancel (now : time) (job : MediaDownloadJob) : MediaDownloadJob :=
  (cleared job)
    <| dj_public_state := EXPIRED |>
    <| dj_progress_stage := Progress.CANCELLED |>
    <| dj_updated_at := now |>
    <| dj_completed_at := if is_none (dj_completed_at job) then Some now else dj_completed_at job |>
    <| dj_public_error_code := None |>.

(** Source: backend/src/fetchnow/downloads/repository.py:584-589 [reclaim_expired_leases.where] *)
Definition lease_expired (clk : time) (r : MediaDownloadJob) : bool :=
  bool_decide (dj_public_state r = DOWNLOADING) && sql_le (dj_lease_expires_at r) clk &&
  (clk <? dj_expires_at r).

(** Source: backend/src/fetchnow/downloads/repository.py:621-621 [MediaDownloadJobRepository.reclaim_expired_leases] *)
Definition exhausted (job : MediaDownloadJob) : bool := dj_max_attempts job <=? dj_attempt_count job.

(** Source: backend/src/fetchnow/downloads/repository.py:622-645 [reclaim_expired_leases]

    The attributes of a lease taken back without a cancel request. *)
Definition reclaim_row (now : time) (job : MediaDownloadJob) : MediaDownloadJob :=
  let job' :=
    job <| dj_public_state := if exhausted job then FAILED else QUEUED |>
        <| dj_progress_stage := if exhausted job then Progress.FAILED else Progress.RETRYING |>
        <| dj_progress_percent := None |>
        <| dj_lease_owner := None |>
        <| dj_lease_expires_at := None |>
        <| dj_fence_token := dj_fence_token job + 1 |>
        <| dj_available_at := now |>
        <| dj_updated_at := now |> in
  if exhausted job
  then job' <| dj_public_error_code := Some (download_code_value DOWNLOAD_TOOL_FAILED) |>
            <| dj_completed_at := Some now |>
            <| dj_artifact_id := None |>
            <| dj_artifact_bytes := None |>
            <| dj_artifact_content_type := None |>
            <| dj_artifact_container := None |>
  else job'.

(** Source: backend/src/fetchnow/downloads/repository.py:606-617 [reclaim_expired_leases]

    The attributes of a lease taken back with a cancel request pending. *)
Definition reclaim_cancel_row (now : time) (job : MediaDownloadJob) : MediaDownloadJob :=
  (apply_stored_cancel now job) <| dj_fence_token := dj_fence_token job + 1 |>.

(** Source: backend/src/fetchnow/downloads/repository.py:593-650 [reclaim_expired_leases]

    The body of the loop; [true] when the row changed. *)
Definition reclaim_one (locked : uid -> bool) (now : time) (job_id : uid) : DB bool :=
  let* quota := lock_quota_identity_for_job job_id in
  let* clk := clock_timestamp in
  let* job := select_by_id job_id (fun r => lease_expired clk r && negb (locked job_id)) in
  match job with
  | None => ret false
  | Some job =>
      if is_some (dj_cancel_requested_at job)
      then
        lift (assert_transition (value DOWNLOADING) (value EXPIRED)) ;;;
        update_row job_id (reclaim_cancel_row now) ;;;
        release_quota_after_job_lock quota job_id false ;;;
        ret true
      else
        lift (assert_transition (value DOWNLOADING)
                (value (if exhausted job then FAILED else QUEUED))) ;;;
        update_row job_id (reclaim_row now) ;;;
        (if exhausted job then release_quota_after_job_lock quota job_id false else ret tt) ;;;
        ret true
  end.

(** Source: backend/src/fetchnow/downloads/repository.py:579-653 [reclaim_expired_leases] *)
Definition reclaim_expired_leases (locked : uid -> bool) (now : time) : DB Z :=
  let* clk := clock_timestamp in
  let* found := select (lease_expired clk) in
  fold_m (fun changed job_id =>
    let* done := reclaim_one locked now job_id in
    ret (if done then changed + 1 else changed)) 0 (dj_id <$> found).

(** Source: backend/src/fetchnow/downloads/repository.py:655-663 [_revoke_active_grants_locked] *)
Definition revoke_active_grants_locked (job_id : uid) (now : time) : DB unit :=
  let* active := BrowserGrantRepository.list_active_for_job job_id now in
  BrowserGrantRepository.revoke_grants active now.

(** Source: backend/src/fetchnow/downloads/repository.py:665-678 [_has_live_delivery_lease_locked] *)
Definition has_live_delivery_lease_locked (entry : FreeDownloadQuotaEntry) (now : time) : DB bool :=
  DeliveryQuotaAccounting.has_live_attempt_locked entry now.

(** Source: backend/src/fetchnow/downloads/repository.py:697-712 [_apply_expired_job_fields] *)
Definition expired_row (now : time) (job : MediaDownloadJob) : MediaDownloadJob :=
  (cleared job)
    <| dj_public_state := EXPIRED |>
    <| dj_progress_stage := Progress.EXPIRED |>
    <| dj_cancel_requested_at := None |>
    <| dj_public_error_code := None |>
    <| dj_updated_at := now |>
    <| dj_fence_token := dj_fence_token job + 1 |>
    <| dj_completed_at := if is_none (dj_completed_at job) then Some now else dj_completed_at job |>.

(** Source: backend/src/fetchnow/downloads/repository.py:680-712 [_apply_expired_job_fields]

    The artifact appended to [artifact_ids], if the job had one, is returned. *)
Definition apply_expired_job_fields (job : MediaDownloadJob) (now : time) : DB (option uid) :=
  lift (if is_stored_cancelled (dj_public_state job) (dj_progress_stage job) (dj_cancel_requested_at job)
        then assert_transition (value CANCELLED) (value EXPIRED)
        else assert_transition (value (dj_public_state job)) (value EXPIRED)) ;;;
  update_row (dj_id job) (expired_row now) ;;;
  ret (dj_artifact_id job).

(** Source: backend/src/fetchnow/downloads/repository.py:714-742 [quarantine_ready_terminal_quota_locked]

    [None] when a live delivery lease defers the cleanup, else the artifact
    appended to [artifact_ids]. *)
Definition quarantine_ready_terminal_quota_locked (job : MediaDownloadJob)
    (entry : FreeDownloadQuotaEntry) (now : time) : DB (option (option uid)) :=
  let* live := has_live_delivery_lease_locked entry now in
  if live then ret None
  else
    revoke_active_grants_locked (dj_id job) now ;;;
    let* artifact := apply_expired_job_fields job now in
    ret (Some artifact).

(** Source: backend/src/fetchnow/downloads/repository.py:756-777 [expire_due_jobs.where] *)
Definition due (clk : time) (r : MediaDownloadJob) : bool :=
  (dj_expires_at r <=? clk) &&
  (bool_decide (dj_public_state r ∈ [QUEUED; DOWNLOADING; READY; FAILED]) ||
   is_stored_cancelled (dj_public_state r) (dj_progress_stage r) (dj_cancel_requested_at r)).

(** Source: backend/src/fetchnow/downloads/repository.py:872-896 [expire_due_jobs]

    The end of the loop's body: the grants of a ready job are revoked, the row
    expires, an open reservation is released. *)
Definition expire_row_and_release (quota : bool) (job : MediaDownloadJob)
    (entry : option FreeDownloadQuotaEntry) (now : time) : DB (option (option uid)) :=
  (if bool_decide (dj_public_state job = READY)
   then revoke_active_grants_locked (dj_id job) now else ret tt) ;;;
  let* artifact := apply_expired_job_fields job now in
  match entry with
  | Some entry =>
      (if quota && bool_decide (qe_state entry = RESERVED)
       then
         let* clk := QuotaRepository.database_now in
         release_locked entry clk true ;;; ret tt
       else ret tt)
  | None => ret tt
  end ;;;
  ret (Some artifact).

(** Source: backend/src/fetchnow/downloads/repository.py:819-871 [MediaDownloadJobRepository.expire_due_jobs]
    What [expire_due_jobs] does with a ready job and its quota entry before the
    row expires: go on with the entry as it is then, or be done with the job. *)
Inductive ExpiryDecision :=
| Proceed (entry : FreeDownloadQuotaEntry)
| Done (outcome : option (option uid)).

(** Source: backend/src/fetchnow/downloads/repository.py:819-871 [expire_due_jobs] *)
Definition expiry_decision (job : MediaDownloadJob) (entry : FreeDownloadQuotaEntry)
    (now : time) : DB ExpiryDecision :=
  if bool_decide (dj_public_state job = READY) && bool_decide (qe_state entry = RELEASED) &&
     is_coherent_promoted_premium_job job (Some (qe_anonymous_client_id entry))
  then
    let* live := has_live_delivery_lease_locked entry now in
    ret (if live then Done None else Proceed entry)
  else if bool_decide (dj_public_state job = READY) &&
          bool_decide (qe_state entry ∈ [RELEASED; ENTRY_EXPIRED])
  then
    let* outcome := quarantine_ready_terminal_quota_locked job entry now in
    ret (Done outcome)
  else if bool_decide (qe_state entry = RESERVED) && bool_decide (dj_public_state job = READY)
  then
    let* res := DeliveryQuotaAccounting.reconcile_locked job entry now in
    let entry := res.2 in
    if bool_decide (qe_state entry = RESERVED)
    then
      let* live := DeliveryQuotaAccounting.has_live_attempt_locked entry now in
      ret (if live then Done None else Proceed entry)
    else ret (Proceed entry)
  else ret (Proceed entry).

(** Source: backend/src/fetchnow/downloads/repository.py:783-897 [expire_due_jobs]

    The body of one savepoint: [None] when the job is left as it is, else the
    artifact appended. Nothing after the append raises [QuotaInvariantError]. *)
Definition expire_one (locked : uid -> bool) (now : time) (job_id : uid)
  : DB (option (option uid)) :=
  let* quota := lock_quota_identity_for_job job_id in
  let* clk := clock_timestamp in
  let* job := select_by_id job_id (fun r => due clk r && negb (locked job_id)) in
  match job with
  | None => ret None
  | Some job =>
      if quota
      then
        let* entry := lock_entry_for_download (dj_id job) in
        match entry with
        | None => ret None
        | Some entry =>
            let* decision := expiry_decision job entry now in
            match decision with
            | Done outcome => ret outcome
            | Proceed entry => expire_row_and_release quota job (Some entry) now
            end
        end
      else expire_row_and_release quota job None now
  end.

(** Source: backend/src/fetchnow/downloads/repository.py:744-906 [expire_due_jobs]

    Each job in a savepoint of its own; a [QuotaInvariantError] is isolated. *)
Definition expire_due_jobs (locked : uid -> bool) (now : time) : DB (list uid) :=
  let* clk := clock_timestamp in
  let* found := select (due clk) in
  fold_m (fun artifact_ids job_id =>
    try_catch
      (let* outcome := begin_nested (expire_one locked now job_id) in
       ret (artifact_ids ++ match outcome with Some (Some a) => [a] | _ => [] end))
      (fun e => match e with
                | QuotaInvariantError _ => Some (ret artifact_ids)
                | _ => None
                end)) [] (dj_id <$> order_by dj_expires_at found).

(** Source: backend/src/fetchnow/downloads/repository.py:908-950 [request_cancel] *)
Definition request_cancel (job_id : uid) (now : time) : DB (option MediaDownloadJob) :=
  let* quota := lock_quota_identity_for_job job_id in
  let* job := select_by_id job_id (fun _ => true) in
  match job with
  | None => ret None
  | Some job =>
      if is_stored_cancelled (dj_public_state job) (dj_progress_stage job) (dj_cancel_requested_at job)
      then ret (Some job)
      else
        match dj_public_state job with
        | READY | FAILED | EXPIRED => ret (Some job)
        | QUEUED =>
            lift (assert_transition (value QUEUED) (value EXPIRED)) ;;;
            let* job' := update_row job_id (fun job : MediaDownloadJob =>
              (apply_stored_cancel now job) <| dj_cancel_requested_at := Some now |>) in
            release_quota_after_job_lock quota job_id false ;;;
            ret (Some job')
        | DOWNLOADING =>
            if is_none (dj_cancel_requested_at job)
            then
              let* job' := update_row job_id (fun job : MediaDownloadJob =>
                job <| dj_cancel_requested_at := Some now |> <| dj_updated_at := now |>) in
              ret (Some job')
            else ret (Some job)
        | CANCELLED => raise (download_error DOWNLOAD_INTERNAL_ERROR "UNKNOWN_DOWNLOAD_STATE")
        end
  end.

(** Source: backend/src/fetchnow/downloads/repository.py:996-1039 [set_progress_stage] *)
Definition set_progress_stage (job_id : uid) (owner : string) (fence : Z)
    (target : Progress.DownloadProgressStage) (now : time) : DB bool :=
  if bool_decide (target ∈ [Progress.READY; Progress.FAILED; Progress.CANCELLED; Progress.EXPIRED])
  then ret false
  else
    let* job := select_by_id job_id (fun r => fenced owner fence r && not_cancelled r) in
    match job with
    | None => ret false
    | Some job =>
        lift (Progress.assert_progress_transition
                (Progress.value (dj_progress_stage job)) (Progress.value target)) ;;;
        update_row job_id (fun job : MediaDownloadJob =>
          job <| dj_progress_percent :=
                   if bool_decide (dj_progress_stage job = target)
                   then dj_progress_percent job else None |>
              <| dj_progress_stage := target |>
              <| dj_updated_at := now |>) ;;;
        ret true
    end.

(** Source: backend/src/fetchnow/downloads/repository.py:1056-1075 [set_progress_percent.where] *)
Definition transferring (owner : string) (fence : Z) (clk : time) (r : MediaDownloadJob) : bool :=
  fenced owner fence r && not_cancelled r && lease_live clk r &&
  bool_decide (dj_progress_stage r ∈ [Progress.DOWNLOADING_VIDEO; Progress.DOWNLOADING_AUDIO]).

(** Source: backend/src/fetchnow/downloads/repository.py:1041-1086 [set_progress_percent] *)
Definition set_progress_percent (job_id : uid) (owner : string) (fence : Z) (percent : Z)
    (now : time) : DB bool :=
  if (percent <? 0) || (99 <? percent) then ret false
  else
    let* clk := clock_timestamp in
    let* job := select_by_id job_id (transferring owner fence clk) in
    match job with
    | None => ret false
    | Some job =>
        let write :=
          update_row job_id (fun job : MediaDownloadJob =>
            job <| dj_progress_percent := Some percent |> <| dj_updated_at := now |>) ;;;
          ret true in
        match dj_progress_percent job with
        | Some stored =>
            if percent <? stored then ret false
            else if percent =? stored then ret true
            else write
        | None => write
        end
    end.

(** Source: backend/src/fetchnow/downloads/repository.py:1097-1097 [MediaDownloadJobRepository.lease_status]
    What [lease_status] returns. *)
Inductive LeaseStatus := owned | lost | cancelled.

(** Source: backend/src/fetchnow/downloads/repository.py:1088-1124 [lease_status] *)
Definition lease_status (job_id : uid) (owner : string) (fence : Z) (lease : time) : DB LeaseStatus :=
  let* clk := clock_timestamp in
  let* job := select_by_id job_id (fun r => fenced owner fence r && lease_live clk r) in
  match job with
  | None => ret lost
  | Some job =>
      if is_some (dj_cancel_requested_at job) then ret cancelled
      else
        let* renewed := renew_lease job_id owner fence lease in
        ret (if renewed then owned else lost)
  end.

End MediaDownloadJobRepository.
