(* ===== verification/DownloadService.v ===== *)
(** The service behind the download endpoints ([downloads/service.py]): creating
    or recovering a download, reading and cancelling it, promoting it, and the
    public view of a job. *)

From S2P Require Export Promote Downloads MetadataCodec Capabilities Filename.

Local Open Scope string_scope.
Local Open Scope list_scope.
Local Open Scope Z_scope.

Module DownloadJobService.
Import DownloadStates MediaDownloadJobRepository DownloadPremiumUpgradeService.

(** ** Formats *)

(** Source: backend/src/fetchnow/downloads/service.py:93-102 [_find_format] *)
Definition _find_format (metadata_formats : list MediaFormat) (option_id : string) : exn + MediaFormat :=
  need (List.find (fun fmt => bool_decide (format_option_id fmt = option_id)) metadata_formats)
    (download_error FORMAT_NOT_FOUND "FORMAT_MISSING").

(** Source: backend/src/fetchnow/downloads/service.py:105-125 [_assert_format_available] *)
Definition _assert_format_available (fmt : MediaFormat) (muxing_required : bool) : exn + unit :=
  raise_if (bool_decide (mf_media_kind fmt = NORMAL_VIDEO) && muxing_required)
    (download_error MUXING_UNAVAILABLE "MUXING_REQUIRED") ;;?
  raise_if (bool_decide (mf_media_kind fmt = NORMAL_VIDEO) && negb (free_tier_eligible fmt))
    (download_error FORMAT_NOT_ELIGIBLE "NOT_FREE_TIER") ;;?
  let expected_tracks := match mf_media_kind fmt with
                         | NORMAL_VIDEO => (true, true)
                         | VIDEO_ONLY => (true, false)
                         | AUDIO_ONLY => (false, true)
                         end in
  raise_if (negb (bool_decide ((mf_has_video fmt, mf_has_audio fmt) = expected_tracks)))
    (download_error MEDIA_CAPABILITY_UNAVAILABLE "MEDIA_KIND_TRACK_MISMATCH").

(** Source: backend/src/fetchnow/downloads/service.py:128-141 [_assert_media_kind_authorized] *)
Definition _assert_media_kind_authorized (fmt : MediaFormat) (policy : EffectiveDownloadPolicy) : exn + unit :=
  let allowed := match mf_media_kind fmt with
                 | NORMAL_VIDEO => allow_combined policy
                 | VIDEO_ONLY => allow_video_only policy
                 | AUDIO_ONLY => allow_audio_only policy
                 end in
  raise_if (negb allowed) (download_error MEDIA_CAPABILITY_REQUIRES_PREMIUM "MEDIA_KIND_NOT_AUTHORIZED").

(** Source: backend/src/fetchnow/downloads/selection.py:110-112 [format_snapshot_from_media_format] *)
Definition format_snapshot_from_media_format (fmt : MediaFormat) : exn + list (string * Json) :=
  encode_selected_format_snapshot fmt DEFAULT_MAX_JSON_BYTES.

(** ** The public view *)

(** Source: backend/src/fetchnow/downloads/service.py:56-81 [DownloadJobView] *)
Record DownloadJobView := {
  vw_id : uid;
  vw_media_job_id : uid;
  vw_public_state : string;
  vw_provider_id : string;
  vw_format_option_id : string;
  vw_selected_format : list (string * Json);
  vw_created_at : time;
  vw_updated_at : time;
  vw_expires_at : time;
  vw_completed_at : option time;
  vw_artifact_ready : bool;
  vw_error_code : option string;
  vw_progress_stage : string;
  vw_attempt_count : Z;
  vw_max_attempts : Z;
  vw_next_attempt_at : option time;
  vw_cancellable : bool;
  vw_progress_percent : option Z;
  vw_artifact_bytes : option Z;
  vw_suggested_filename : list N;
  vw_created : bool;
  vw_effective_policy : option EffectiveDownloadPolicy
}.

Definition internal (reason : string) : exn := download_error DOWNLOAD_INTERNAL_ERROR reason.

(** Source: backend/src/fetchnow/downloads/service.py:393-411 [_public_snapshot] *)
Definition _public_snapshot (job : MediaDownloadJob) : exn + list (string * Json) :=
  match (let? fmt := decode_selected_format_snapshot (dj_selected_format_snapshot job) (dj_format_option_id job)
                       DEFAULT_MAX_JSON_BYTES in
         encode_selected_format_snapshot fmt DEFAULT_MAX_JSON_BYTES) with
  | inl (DownloadError _ _ _) => inl (internal "PERSISTED_SNAPSHOT_INVALID")
  | r => r
  end.

(** Source: backend/src/fetchnow/downloads/service.py:413-424 [_effective_policy_snapshot] *)
Definition _effective_policy_snapshot (settings : Settings) (job : MediaDownloadJob) : exn + EffectiveDownloadPolicy :=
  match decode_effective_policy_snapshot (dj_selected_format_snapshot job) with
  | inl (DownloadError _ _ _) => inl (internal "PERSISTED_POLICY_SNAPSHOT_INVALID")
  | inl e => inl e
  | inr (Some policy) => inr policy
  | inr None => effective_download_policy settings None
  end.

Definition all_download_codes : list DownloadErrorCode :=
  [DOWNLOADS_DISABLED; DOWNLOAD_JOB_NOT_FOUND; PARENT_JOB_NOT_READY; FORMAT_NOT_FOUND; FORMAT_NOT_ELIGIBLE;
   FORMAT_UNAVAILABLE; MEDIA_CAPABILITY_REQUIRES_PREMIUM; MEDIA_CAPABILITY_UNAVAILABLE; PROVIDER_CAPABILITY_DISABLED;
   DOWNLOAD_TIMEOUT; DOWNLOAD_TOO_LARGE; DOWNLOAD_TOOL_FAILED; DOWNLOAD_INVALID_OUTPUT; DOWNLOAD_STORAGE_UNAVAILABLE;
   DOWNLOAD_EXPIRED; DELIVERY_DISABLED; DOWNLOAD_NOT_READY; MUXING_UNAVAILABLE; MUXING_FAILED; MUXING_TIMEOUT;
   MUXED_OUTPUT_INVALID; DELIVERY_IN_PROGRESS; QUOTA_STATE_INCOHERENT; DOWNLOAD_INTERNAL_ERROR].

(** Source: backend/src/fetchnow/downloads/service.py:447-455 [_to_view]
    [DownloadErrorCode(str(code)).value], and the internal error of an unknown one. *)
Definition public_error_text (code : option string) : string :=
  let raw := default "None" code in
  if existsb (fun c => bool_decide (download_code_value c = raw)) all_download_codes then raw
  else download_code_value DOWNLOAD_INTERNAL_ERROR.

(** Source: backend/src/fetchnow/downloads/byte_progress.py:16-16 [DOWNLOAD_PERCENT_STAGES] *)
Definition DOWNLOAD_PERCENT_STAGES : list Progress.DownloadProgressStage :=
  [Progress.DOWNLOADING_VIDEO; Progress.DOWNLOADING_AUDIO].

(** Source: backend/src/fetchnow/downloads/service.py:505-529 [_public_progress_percent] *)
Definition _public_progress_percent (job : MediaDownloadJob) (state : MediaDownloadJobState)
    (stage : Progress.DownloadProgressStage) : exn + option Z :=
  let raw := dj_progress_percent job in
  if negb (bool_decide (state = DOWNLOADING)) || negb (bool_decide (stage ∈ DOWNLOAD_PERCENT_STAGES)) then
    raise_if (is_some raw) (internal "PROGRESS_PERCENT_INVALID") ;;? inr None
  else
    match raw with
    | None => inr None
    | Some raw => raise_if ((raw <? 0) || (99 <? raw)) (internal "PROGRESS_PERCENT_INVALID") ;;? inr (Some raw)
    end.

(** Source: backend/src/fetchnow/downloads/service.py:531-548 [_public_artifact_bytes] *)
Definition _public_artifact_bytes (job : MediaDownloadJob) (state : MediaDownloadJobState) : exn + option Z :=
  let raw := dj_artifact_bytes job in
  if negb (bool_decide (state = READY)) then
    raise_if (is_some raw) (internal "ARTIFACT_BYTES_INVALID") ;;? inr None
  else
    match raw with
    | None => inl (internal "ARTIFACT_BYTES_INVALID")
    | Some raw => raise_if (raw <=? 0) (internal "ARTIFACT_BYTES_INVALID") ;;? inr (Some raw)
    end.

(** [str(selected.get("container") or job.artifact_container or "mp4")] *)
Definition container_text (selected : list (string * Json)) (artifact_container : option string) : string :=
  let container := get "container" selected in
  if json_true container then json_str container else
  match artifact_container with
  | Some c => if bool_decide (c = "") then "mp4" else c
  | None => "mp4"
  end.

Definition filename_invalid : exn := internal "SUGGESTED_FILENAME_INVALID".

Section Views.
Context `{UnicodeData} (settings : Settings).

(** Source: backend/src/fetchnow/downloads/service.py:550-569 [_public_suggested_filename] *)
Definition _public_suggested_filename (job : MediaDownloadJob) (selected : list (string * Json)) : exn + list N :=
  let container := container_text selected (dj_artifact_container job) in
  let read :=
    match dj_suggested_filename job with
    | None | Some [] => fallback_filename (dj_id job) container
    | Some stored =>
        let? safe := is_safe_suggested_filename stored container in
        raise_if (negb safe) filename_invalid ;;? inr stored
    end in
  match read with inl (ValueError _) => inl filename_invalid | r => r end.

(** Source: backend/src/fetchnow/downloads/service.py:426-503 [_to_view]
    [force] are [force_state] and [force_error_code]; the stored state and stage
    are members of their enumerations. *)
Definition _to_view (job : MediaDownloadJob) (created : bool)
    (force : option (MediaDownloadJobState * DownloadErrorCode)) : exn + DownloadJobView :=
  let state := match force with
               | Some (forced, _) => forced
               | None => project_public_state (dj_public_state job) (dj_progress_stage job) (dj_cancel_requested_at job)
               end in
  let error_code := match force with
                    | Some (_, code) => Some (download_code_value code)
                    | None =>
                        match state with
                        | FAILED => Some (public_error_text (dj_public_error_code job))
                        | EXPIRED => Some (download_code_value DOWNLOAD_EXPIRED)
                        | _ => None
                        end
                    end in
  let? selected := _public_snapshot job in
  let stage := match force with
               | Some (forced, _) => Progress.progress_for_public_state (value forced)
               | None => dj_progress_stage job
               end in
  let cancellable := bool_decide (state ∈ [QUEUED; DOWNLOADING]) && is_none force in
  let next_attempt :=
    if bool_decide (state = QUEUED) && bool_decide (stage = Progress.RETRYING) && is_none force
    then Some (dj_available_at job) else None in
  let? progress_percent := _public_progress_percent job state stage in
  let? artifact_bytes := _public_artifact_bytes job state in
  let? suggested_filename := _public_suggested_filename job selected in
  let? effective_policy := _effective_policy_snapshot settings job in
  inr {|
    vw_id := dj_id job;
    vw_media_job_id := dj_media_job_id job;
    vw_public_state := value state;
    vw_provider_id := dj_provider_id job;
    vw_format_option_id := dj_format_option_id job;
    vw_selected_format := selected;
    vw_created_at := dj_created_at job;
    vw_updated_at := dj_updated_at job;
    vw_expires_at := dj_expires_at job;
    vw_completed_at := dj_completed_at job;
    vw_artifact_ready := bool_decide (state = READY);
    vw_error_code := error_code;
    vw_progress_stage := Progress.value stage;
    vw_attempt_count := dj_attempt_count job;
    vw_max_attempts := dj_max_attempts job;
    vw_next_attempt_at := next_attempt;
    vw_cancellable := cancellable;
    vw_progress_percent := progress_percent;
    vw_artifact_bytes := artifact_bytes;
    vw_suggested_filename := suggested_filename;
    vw_created := created;
    vw_effective_policy := Some effective_policy
  |}.

(** ** Operations *)

Context (capabilities : ProviderCapabilityRegistry.t).

(** Source: backend/src/fetchnow/downloads/service.py:171-179 [create]
    The parent of a request, for the bearer of its token only. *)
Definition authorized_parent (media_job_id : uid) (credential_hash : bytes) (reason_missing reason_token : string) : DB MediaJob :=
  let* parent := MediaJobRepository.get_by_id media_job_id in
  match parent with
  | None => raise (job_not_found reason_missing)
  | Some parent =>
      raise_when (negb (tokens_match (mj_credential_hash parent) credential_hash)) (job_not_found reason_token) ;;;
      ret parent
  end.

(** Source: backend/src/fetchnow/downloads/service.py:181-200 [create]
    What the parent must be. *)
Definition assert_inspected (parent : MediaJob) (now : time) : exn + Json :=
  raise_if (bool_decide (mj_public_state parent = JobStates.EXPIRED) || (mj_expires_at parent <=? now))
    (download_error DOWNLOAD_EXPIRED "PARENT_EXPIRED") ;;?
  raise_if (negb (bool_decide (mj_public_state parent = JobStates.INSPECTED)))
    (download_error PARENT_JOB_NOT_READY "PARENT_NOT_INSPECTED") ;;?
  match mj_result_metadata parent with
  | Some (JObj members) => inr (JObj members)
  | _ => inl (download_error PARENT_JOB_NOT_READY "PARENT_METADATA_MISSING")
  end.

(** Source: backend/src/fetchnow/downloads/service.py:202-217 [create]
    The format and the title of the stored metadata. An object with a field
    outside its declared type, which no writer stores, is not followed further. *)
Definition chosen_format (parent : MediaJob) (stored : Json) (option_id : string) : exn + MediaFormat * option string :=
  let? loaded := media_metadata_from_jsonable stored (media_job_result_max_bytes settings) in
  let? metadata := need loaded UnexpectedError in
  let? fmt := _find_format (mm_formats metadata) option_id in
  _assert_format_available fmt (muxing_required metadata) ;;?
  assert_operation_allowed capabilities (mj_provider_id parent)
    (if bool_decide (mf_media_kind fmt = AUDIO_ONLY) then EXTRACT_AUDIO else DOWNLOAD_VIDEO) ;;?
  inr (fmt, mm_title metadata).

(** Source: backend/src/fetchnow/downloads/service.py:227-245 [create]
    The keyword arguments of [enqueue_or_get]. *)
Definition enqueue_args (parent : MediaJob) (fmt : MediaFormat) (snapshot : list (string * Json)) (now : time)
    (filename : list N) (job_id : uid) : EnqueueArgs := {|
  eq_media_job_id := mj_id parent;
  eq_format_option_id := format_option_id fmt;
  eq_provider_id := mj_provider_id parent;
  eq_canonical_provider_url := mj_canonical_provider_url parent;
  eq_media_id := mj_media_id parent;
  eq_hostname := mj_hostname parent;
  eq_path := mj_path parent;
  eq_scheme := mj_scheme parent;
  eq_port := mj_port parent;
  eq_selected_format_snapshot := snapshot;
  eq_now := now;
  eq_ttl_seconds := media_download_artifact_ttl_seconds settings;
  eq_max_attempts := media_download_max_attempts settings;
  eq_parent_expires_at := mj_expires_at parent;
  eq_suggested_filename := Some filename;
  eq_job_id := Some job_id
|}.

(** Source: backend/src/fetchnow/downloads/service.py:247-263 [create]
    The policy a new job is admitted under. *)
Definition admission_policy (job : MediaDownloadJob) (anonymous_client_id : option uid) : DB EffectiveDownloadPolicy :=
  let* policy := lift (effective_download_policy settings None) in
  if free_download_quota_enabled settings then
    match anonymous_client_id with
    | None => raise AnonymousIdentityRequiredError
    | Some identity =>
        let* admission := QuotaService.admit_locked settings identity (dj_id job) (dj_expires_at job) in
        ret (QuotaService.adm_policy admission)
    end
  else
    match anonymous_client_id with
    | Some identity => QuotaService.resolve_policy settings identity
    | None => ret policy
    end.

(** Source: backend/src/fetchnow/downloads/service.py:272-289 [create]
    An existing job is shown under its recorded policy, and a Premium kind to its
    own client only. *)
Definition recovery_check (job : MediaDownloadJob) (fmt : MediaFormat) (anonymous_client_id : option uid) : exn + unit :=
  let? stored_policy := decode_effective_policy_snapshot (dj_selected_format_snapshot job) in
  let? policy := match stored_policy with
                 | Some policy => inr policy
                 | None => effective_download_policy settings None
                 end in
  _assert_media_kind_authorized fmt policy ;;?
  if negb (bool_decide (mf_media_kind fmt = NORMAL_VIDEO)) then
    let? authorized := decode_authorized_identity_id (dj_selected_format_snapshot job) in
    raise_if (is_none anonymous_client_id || negb (bool_decide (authorized = anonymous_client_id)))
      (download_error MEDIA_CAPABILITY_REQUIRES_PREMIUM "PREMIUM_IDENTITY_MISMATCH")
  else inr tt.

(** Source: backend/src/fetchnow/downloads/service.py:158-291 [create] *)
Definition create (media_job_id : uid) (option_id access_token : string) (anonymous_client_id : option uid)
  : DB DownloadJobView :=
  raise_when (negb (media_downloads_enabled settings)) (download_error DOWNLOADS_DISABLED "DOWNLOADS_DISABLED") ;;;
  let* credential_hash := lift (hash_access_token access_token) in
  let* parent := authorized_parent media_job_id credential_hash
    "PARENT_MISSING_OR_UNAUTHORIZED" "PARENT_MISSING_OR_UNAUTHORIZED" in
  let* now := MediaJobRepository.database_now in
  let* stored := lift (assert_inspected parent now) in
  let* (fmt, title) := lift (chosen_format parent stored option_id) in
  let* snapshot := lift (format_snapshot_from_media_format fmt) in
  let* job_id := uuid4 in
  let* filename := lift (suggested_filename_for (codepoints <$> title) (mf_container fmt) job_id (mf_media_kind fmt)) in
  let* (job, created) := MediaDownloadJobRepository.enqueue_or_get (enqueue_args parent fmt snapshot now filename job_id) in
  let* job :=
    (if (created : bool) then
       let* policy := admission_policy job anonymous_client_id in
       lift (_assert_media_kind_authorized fmt policy) ;;;
       let* attached := lift (attach_effective_policy_snapshot snapshot policy
         (if bool_decide (tier policy = "premium") then anonymous_client_id else None)) in
       update_row (dj_id job) (fun j : MediaDownloadJob => j <| dj_selected_format_snapshot := JObj attached |>)
     else
       lift (recovery_check job fmt anonymous_client_id) ;;; ret job) in
  lift (_to_view job created None).

(** Source: backend/src/fetchnow/downloads/service.py:301-317 [get] *)
Definition authorized_job (download_job_id : uid) (credential_hash : bytes) : DB MediaDownloadJob :=
  let* job := MediaDownloadJobRepository.get_by_id download_job_id in
  match job with
  | None => raise (job_not_found "MISSING")
  | Some job =>
      authorized_parent (dj_media_job_id job) credential_hash "UNAUTHORIZED" "UNAUTHORIZED" ;;; ret job
  end.

(** Source: backend/src/fetchnow/downloads/service.py:293-331 [get] *)
Definition get_job (download_job_id : uid) (access_token : string) : DB DownloadJobView :=
  let* credential_hash := lift (hash_access_token access_token) in
  let* job := authorized_job download_job_id credential_hash in
  let* now := MediaDownloadJobRepository.database_now in
  lift (_to_view job false
    (if negb (bool_decide (dj_public_state job = EXPIRED)) && (dj_expires_at job <=? now)
     then Some (EXPIRED, DOWNLOAD_EXPIRED) else None)).

(** Source: backend/src/fetchnow/downloads/service.py:333-369 [cancel] *)
Definition cancel (download_job_id : uid) (access_token : string) : DB DownloadJobView :=
  raise_when (negb (media_downloads_enabled settings)) (download_error DOWNLOADS_DISABLED "DOWNLOADS_DISABLED") ;;;
  let* credential_hash := lift (hash_access_token access_token) in
  let* job := authorized_job download_job_id credential_hash in
  let* now := MediaDownloadJobRepository.database_now in
  let* updated := MediaDownloadJobRepository.request_cancel (dj_id job) now in
  match updated with
  | None => raise (job_not_found "MISSING")
  | Some updated => lift (_to_view updated false None)
  end.

(** Source: backend/src/fetchnow/downloads/service.py:371-391 [upgrade_to_premium] *)
Definition upgrade_to_premium (download_job_id : uid) (access_token : string) (anonymous_client_id : uid) : DB DownloadJobView :=
  raise_when (negb (media_downloads_enabled settings)) (download_error DOWNLOADS_DISABLED "DOWNLOADS_DISABLED") ;;;
  let* result := upgrade settings download_job_id access_token anonymous_client_id in
  lift (_to_view (promoted result) (promoted_now result) None).

(** [value.isoformat()] *)
Definition json_time (t : time) : Json := JStr (of_chars (isoformat_utc t)).
Definition json_opt_time (t : option time) : Json := match t with Some t => json_time t | None => JNull end.

(** Source: backend/src/fetchnow/downloads/service.py:571-606 [to_public_dict]
    The members but [suggestedFilename], and its text. *)
Definition to_public_dict (view : DownloadJobView) : exn + list (string * Json) * list N :=
  let? policy := match vw_effective_policy view with
                 | Some policy => inr policy
                 | None => effective_download_policy settings None
                 end in
  let? provider_capabilities := project_provider_capabilities capabilities (vw_provider_id view) in
  inr ([("id", JStr (uuid_text (vw_id view))); ("mediaJobId", JStr (uuid_text (vw_media_job_id view)));
        ("state", JStr (vw_public_state view)); ("formatOptionId", JStr (vw_format_option_id view));
        ("selectedFormat", JObj (vw_selected_format view));
        ("createdAt", json_time (vw_created_at view)); ("updatedAt", json_time (vw_updated_at view));
        ("expiresAt", json_time (vw_expires_at view)); ("completedAt", json_opt_time (vw_completed_at view));
        ("artifactReady", JBool (vw_artifact_ready view)); ("errorCode", json_opt_str (vw_error_code view));
        ("progressStage", JStr (vw_progress_stage view)); ("attempt", JInt (vw_attempt_count view));
        ("maxAttempts", JInt (vw_max_attempts view)); ("nextAttemptAt", json_opt_time (vw_next_attempt_at view));
        ("cancellable", JBool (vw_cancellable view)); ("progressPercent", json_opt_int (vw_progress_percent view));
        ("artifactBytes", json_opt_int (vw_artifact_bytes view));
        ("deliveryRateBytesPerSecond", json_opt_int (delivery_rate_bytes_per_second policy));
        ("providerCapabilities", provider_capabilities)],
       vw_suggested_filename view).
End Views.
End DownloadJobService.
