(* ===== verification/Reconcile.v ===== *)
(** The quota reconciler ([quota/reconcile.py]): quarantine of ready jobs whose
    Free reservation is over, repair of open reservations from the state of
    their jobs, retention. *)

From S2P Require Export Downloads.

Local Open Scope string_scope.
Local Open Scope list_scope.
Local Open Scope Z_scope.

Module QuotaReconciler.
Import QuotaRepository MediaDownloadJobRepository.

(** Source: backend/src/fetchnow/quota/reconcile.py:26-32 [ReconcileResult] *)
Record ReconcileResult := {
  rr_consumed : Z;
  rr_released : Z;
  rr_expired : Z;
  rr_entries_deleted : Z;
  rr_clients_deleted : Z
}.

#[export] Instance ReconcileResult_eta : Eta ReconcileResult := fun r =>
  {| rr_consumed := rr_consumed r; rr_released := rr_released r; rr_expired := rr_expired r;
     rr_entries_deleted := rr_entries_deleted r; rr_clients_deleted := rr_clients_deleted r |}.

(** Source: backend/src/fetchnow/quota/reconcile.py:63-63 [QuotaReconciler]
    A released or expired entry of a ready job. *)
Definition ended (entry : FreeDownloadQuotaEntry) : bool :=
  bool_decide (qe_state entry ∈ [RELEASED; ENTRY_EXPIRED]).
(** Source: backend/src/fetchnow/quota/reconcile.py:64-64 [QuotaReconciler] *)
Definition ready (job : MediaDownloadJob) : bool :=
  bool_decide (dj_public_state job = DownloadStates.READY).

(** Source: backend/src/fetchnow/quota/reconcile.py:52-73 [QuotaReconciler.run]

    The join of entries and jobs, ordered by the expiry and the id of the job. *)
Definition select_invalid (limit : Z) : DB (list (uid * uid)) := fun w =>
  let joined :=
    omap (fun entry : FreeDownloadQuotaEntry =>
      match media_download_jobs w !! qe_download_job_id entry with
      | Some job => if ended entry && ready job then Some (job, entry) else None
      | None => None
      end) (rows w) in
  let ordered :=
    merge_sort (fun a b : MediaDownloadJob * FreeDownloadQuotaEntry =>
      row_le dj_expires_at a.1 b.1) joined in
  (inr ((fun p => (qe_anonymous_client_id p.2, qe_download_job_id p.2)) <$>
          take (Z.to_nat limit) ordered), w).

(** Source: backend/src/fetchnow/quota/reconcile.py:76-112 [QuotaReconciler.run]

    The body of one savepoint of the first loop. *)
Definition quarantine_one (now : time) (client_id job_id : uid) : DB unit :=
  let* client := lock_client client_id None in
  let* job := select_by_id (R := MediaDownloadJob) job_id (fun _ => true) in
  let* entry := lock_entry_for_download job_id in
  match client, job, entry with
  | Some _, Some job, Some entry =>
      if negb (ready job) || negb (ended entry) then ret tt
      else if bool_decide (qe_state entry = RELEASED) &&
              is_coherent_promoted_premium_job job (Some (qe_anonymous_client_id entry))
      then ret tt
      else quarantine_ready_terminal_quota_locked job entry now ;;; ret tt
  | _, _, _ => ret tt
  end.

(** Source: backend/src/fetchnow/quota/reconcile.py:52-117 [QuotaReconciler.run]

    The first loop: a [QuotaInvariantError] is isolated to its job. *)
Definition quarantine_invalid (now : time) (limit : Z) : DB unit :=
  let* invalid := select_invalid limit in
  for_each (fun p : uid * uid =>
    try_catch (begin_nested (quarantine_one now p.1 p.2))
      (fun e => match e with QuotaInvariantError _ => Some (ret tt) | _ => None end)) invalid.

(** Source: backend/src/fetchnow/quota/reconcile.py:118-129 [QuotaReconciler.run] *)
Definition select_reserved (limit : Z) : DB (list (uid * uid)) :=
  let* found := select (fun e : FreeDownloadQuotaEntry => bool_decide (qe_state e = RESERVED)) in
  ret ((fun e => (qe_anonymous_client_id e, qe_download_job_id e)) <$>
         take (Z.to_nat limit) (order_by qe_reserved_at found)).

(** Source: backend/src/fetchnow/quota/reconcile.py:132-190 [QuotaReconciler.run]

    The body of the second loop: an open reservation is settled by the state of
    its job. It is not in a savepoint: an error ends the run. *)
Definition repair_one (settings : Settings) (now : time) (acc : ReconcileResult)
    (client_id job_id : uid) : DB ReconcileResult :=
  let* client := lock_client client_id None in
  raise_when (is_none client) (QuotaInvariantError "reserved entry references missing identity") ;;;
  let* job := select_by_id (R := MediaDownloadJob) job_id (fun _ => true) in
  let* entry := lock_entry_for_download job_id in
  match entry with
  | None => ret acc
  | Some entry =>
    if negb (bool_decide (qe_state entry = RESERVED)) then ret acc
    else
      match job with
      | None => raise (QuotaInvariantError "reserved entry references missing job")
      | Some job =>
        match dj_public_state job with
        | DownloadStates.READY =>
            match dj_completed_at job with
            | None => raise (QuotaInvariantError "ready job lacks completion timestamp")
            | Some completed_at =>
                if free_download_quota_ready_compatibility_mode settings
                then
                  consume_locked entry completed_at ;;;
                  ret (acc <| rr_consumed := rr_consumed acc + 1 |>)
                else
                  let* result := DeliveryQuotaAccounting.reconcile_locked job entry now in
                  ret (acc <| rr_consumed :=
                                rr_consumed acc + (if acct_consumed result.1 then 1 else 0) |>)
            end
        | DownloadStates.FAILED =>
            release_locked entry now false ;;;
            ret (acc <| rr_released := rr_released acc + 1 |>)
        | DownloadStates.EXPIRED =>
            release_locked entry now true ;;;
            ret (acc <| rr_expired := rr_expired acc + 1 |>)
        | DownloadStates.QUEUED | DownloadStates.DOWNLOADING =>
            if (qe_reservation_expires_at entry <=? now) && (dj_expires_at job <=? now)
            then
              update_row (dj_id job) (expired_row now) ;;;
              release_locked entry now true ;;;
              ret (acc <| rr_expired := rr_expired acc + 1 |>)
            else ret acc
        | DownloadStates.CANCELLED => ret acc
        end
      end
  end.

(** Source: backend/src/fetchnow/quota/reconcile.py:43-208 [QuotaReconciler.run] *)
Definition run (settings : Settings) (locked_entries locked_clients : uid -> bool)
    (limit : Z) : DB ReconcileResult :=
  let* now := QuotaRepository.database_now in
  quarantine_invalid now limit ;;;
  let* candidates := select_reserved limit in
  let* acc :=
    fold_m (fun acc p => repair_one settings now acc p.1 p.2)
      {| rr_consumed := 0; rr_released := 0; rr_expired := 0; rr_entries_deleted := 0;
         rr_clients_deleted := 0 |} candidates in
  let cutoff := now - seconds (free_download_quota_retention_seconds settings) in
  let* entries_deleted := delete_terminal_entries_before locked_entries cutoff limit in
  let* clients_deleted := delete_expired_clients_without_entries locked_clients now limit in
  ret (acc <| rr_entries_deleted := entries_deleted |> <| rr_clients_deleted := clients_deleted |>).

End QuotaReconciler.
