(* ===== verification/DownloadLifecycle.v ===== *)
(** The life cycle of a download job that the operations of
    [downloads/repository.py] refine, and that no operation breaks the
    constraints of [media_download_jobs]. *)

From S2P Require Export Lifecycle Downloads Reconcile.

Local Open Scope string_scope.
Local Open Scope list_scope.
Local Open Scope Z_scope.

Module DownloadLifecycle.
Import DownloadStates QuotaRepository MediaDownloadJobRepository.

(** What a client or a competing worker can tell of a download job. *)
Record Abs := {
  a_state : MediaDownloadJobState;
  a_fence : Z;
  a_attempts : Z;
  a_max : Z;
  a_holder : option string;
  a_cancel : bool;
  a_artifact : option uid
}.

Definition abs (r : MediaDownloadJob) : Abs := {|
  a_state := dj_public_state r;
  a_fence := dj_fence_token r;
  a_attempts := dj_attempt_count r;
  a_max := dj_max_attempts r;
  a_holder := dj_lease_owner r;
  a_cancel := is_some (dj_cancel_requested_at r);
  a_artifact := dj_artifact_id r
|}.

(** The specification. A lease is taken with a new fence. A leased job is
    published, failed or given back by its holder only while no cancel is
    requested; a cancel request is answered by the cancelled state and by
    nothing else; a lease taken back by the system, and an expiry, move the
    fence on. Only a published job has an artifact. *)
Inductive abs_step : Abs -> Abs -> Prop :=
| step_claim f n m o : n < m ->
    abs_step (Build_Abs QUEUED f n m None false None)
             (Build_Abs DOWNLOADING (f + 1) (n + 1) m (Some o) false None)
| step_publish f n m o a :
    abs_step (Build_Abs DOWNLOADING f n m (Some o) false None)
             (Build_Abs READY f n m None false (Some a))
| step_fail f n m o :
    abs_step (Build_Abs DOWNLOADING f n m (Some o) false None)
             (Build_Abs FAILED f n m None false None)
| step_give_back f n n' m o : n' <= n -> n' < m -> n - 1 <= n' ->
    abs_step (Build_Abs DOWNLOADING f n m (Some o) false None)
             (Build_Abs QUEUED f n' m None false None)
| step_revoke f n m o : n < m ->
    abs_step (Build_Abs DOWNLOADING f n m (Some o) false None)
             (Build_Abs QUEUED (f + 1) n m None false None)
| step_revoke_exhausted f n m o : m <= n ->
    abs_step (Build_Abs DOWNLOADING f n m (Some o) false None)
             (Build_Abs FAILED (f + 1) n m None false None)
| step_request_cancel f n m o :
    abs_step (Build_Abs DOWNLOADING f n m (Some o) false None)
             (Build_Abs DOWNLOADING f n m (Some o) true None)
| step_cancel_queued f n m :
    abs_step (Build_Abs QUEUED f n m None false None)
             (Build_Abs EXPIRED f n m None true None)
| step_cancelled f n m o :
    abs_step (Build_Abs DOWNLOADING f n m (Some o) true None)
             (Build_Abs EXPIRED f n m None true None)
| step_revoke_cancelled f n m o :
    abs_step (Build_Abs DOWNLOADING f n m (Some o) true None)
             (Build_Abs EXPIRED (f + 1) n m None true None)
| step_expire s f n m h c a : s <> EXPIRED \/ c = true ->
    abs_step (Build_Abs s f n m h c a) (Build_Abs EXPIRED (f + 1) n m None false None).

Definition abs_initial (a : Abs) : Prop :=
  a_state a = QUEUED /\ a_fence a = 0 /\ a_attempts a = 0 /\ a_holder a = None /\
  a_cancel a = false /\ a_artifact a = None.

(** The columns no operation ever changes: what was asked for and by whom. *)
Definition download_identity (r : MediaDownloadJob) :=
  (dj_id r, dj_media_job_id r, dj_format_option_id r, dj_canonical_provider_url r,
   (dj_provider_id r, dj_media_id r, dj_suggested_filename r, dj_max_attempts r,
    dj_created_at r, dj_expires_at r),
   (dj_hostname r, dj_path r, dj_scheme r, dj_port r)).

(** The row invariant: the CHECK constraints and what the operations add to
    them. A queued job always has an attempt left, so it stays claimable. *)
Record download_inv (r : MediaDownloadJob) : Prop := {
  di_check : MediaDownloadJob_check r = true;
  di_attempts : 0 <= dj_attempt_count r <= dj_max_attempts r;
  di_fence : dj_attempt_count r <= dj_fence_token r;
  di_queued : dj_public_state r = QUEUED -> dj_attempt_count r < dj_max_attempts r;
  di_claimed : dj_public_state r = DOWNLOADING -> 1 <= dj_attempt_count r /\ dj_started_at r <> None;
  di_terminal : is_terminal (value (dj_public_state r)) = true -> dj_completed_at r <> None
}.

#[export] Instance MediaDownloadJob_lifecycle : Lifecycle MediaDownloadJob := {
  observed := abs;
  lc_step := abs_step;
  lc_initial := abs_initial;
  row_inv := download_inv;
  identity := download_identity
}.

#[export] Instance MediaDownloadJob_lifecycle_laws : LifecycleLaws MediaDownloadJob.
Proof.
  split; cbn.
  - intros r Hr. apply Hr.
  - unfold download_identity. intros r r' E. congruence.
  - intros r r'. f_equal; apply bool_decide_ext; split; congruence.
  - unfold download_identity. intros r r' x E. f_equal; apply bool_decide_ext; split; congruence.
Qed.

(** *** Every row function of the repository is a step of the life cycle. *)

Ltac row_cases r :=
  destruct r;
  unfold MediaDownloadJob_check, dj_lease_state_check, dj_result_state_check,
    dj_progress_state_check, dj_cancel_requested_check, dj_progress_percent_check, dj_no_artifact,
    claimable, fenced, lease_live, not_cancelled, lease_expired, exhausted,
    claim_row, renew_row, ready_row, failed_row, cancelled_row, retry_row, release_row, cleared,
    apply_stored_cancel, reclaim_row, reclaim_cancel_row, expired_row, is_stored_cancelled in *;
  cbn in *; subst; cbn in *; propify; subst; cbn in *; propify;
  destruct_opts; propify; subst.

Ltac split_stage :=
  match goal with
  | H : match ?s with Progress.QUEUED => _ | _ => _ end = true |- _ =>
      is_var s; destruct s; try discriminate H
  end.

Ltac finish_row :=
  first
    [ discriminate
    | lia
    | intros; discriminate
    | intros; lia
    | match goal with |- context [is_none ?x] => by destruct x end
    | solve [unfold MediaDownloadJob_check, dj_lease_state_check, dj_result_state_check,
               dj_progress_state_check, dj_cancel_requested_check, dj_progress_percent_check,
               dj_no_artifact; cbn; repeat (case_match; try discriminate); cbn in *; propify; solve_bools]
    | match goal with Hcl : ?x = ?x -> _ /\ _ |- _ => by apply Hcl end
    | left; reflexivity
    | right; unfold abs; cbn; solve [econstructor; (lia || auto)] ].

Ltac good_row r :=
  intros [Hc Ha Hf Hq Hcl Ht]; intros; row_cases r;
  repeat split; cbn; try finish_row.

Lemma claim_good worker exp now r :
  download_inv r -> dj_public_state r = QUEUED -> dj_attempt_count r < dj_max_attempts r ->
  dj_cancel_requested_at r = None ->
  good_update r (claim_row worker exp now r).
Proof. good_row r. Qed.
Lemma renew_good owner fence clk lease r :
  download_inv r -> fenced owner fence r && lease_live clk r = true ->
  good_update r (renew_row lease clk r).
Proof. good_row r. Qed.

Lemma ready_good owner fence clk artifact size ctype container r :
  0 < size ->
  download_inv r -> fenced owner fence r && lease_live clk r && not_cancelled r = true ->
  good_update r (ready_row artifact size ctype container clk r).
Proof. intros Hsize. good_row r. Qed.

Lemma failed_good owner fence clk code r :
  1 <= strlen code <= 64 ->
  download_inv r -> fenced owner fence r && lease_live clk r && not_cancelled r = true ->
  good_update r (failed_row code clk r).
Proof. intros Hcode. good_row r. Qed.

Lemma cancelled_good owner fence clk r :
  download_inv r -> fenced owner fence r && is_some (dj_cancel_requested_at r) = true ->
  good_update r (cancelled_row clk r).
Proof. good_row r. Qed.

Lemma retry_good owner fence clk at_ r :
  download_inv r -> fenced owner fence r && lease_live clk r && not_cancelled r = true ->
  dj_attempt_count r < dj_max_attempts r ->
  good_update r (retry_row at_ clk r).
Proof. good_row r. Qed.

Lemma release_good owner fence clk now r :
  download_inv r -> fenced owner fence r && lease_live clk r && not_cancelled r = true ->
  good_update r (release_row now clk r).
Proof. good_row r. Qed.

Lemma reclaim_good clk now r :
  download_inv r -> lease_expired clk r = true -> dj_cancel_requested_at r = None ->
  good_update r (reclaim_row now r).
Proof.
  intros Hi Hl Hn. unfold reclaim_row, exhausted.
  destruct (dj_max_attempts r <=? dj_attempt_count r) eqn:E; revert Hi Hl Hn; good_row r.
Qed.

Lemma reclaim_cancel_good clk now r :
  download_inv r -> lease_expired clk r = true -> is_some (dj_cancel_requested_at r) = true ->
  good_update r (reclaim_cancel_row now r).
Proof. good_row r. Qed.

(** What the CHECK constraints say of a cancel request and of an artifact. *)
Lemma cancel_requested_where r :
  MediaDownloadJob_check r = true -> is_some (dj_cancel_requested_at r) = true ->
  dj_public_state r = DOWNLOADING \/
  is_stored_cancelled (dj_public_state r) (dj_progress_stage r) (dj_cancel_requested_at r) = true.
Proof.
  unfold MediaDownloadJob_check, dj_cancel_requested_check, is_stored_cancelled. intros Hc Hs.
  propify. destruct (dj_cancel_requested_at r); [|done].
  destruct (dj_public_state r), (dj_progress_stage r); try discriminate; auto.
Qed.

Lemma queued_not_cancelled r :
  MediaDownloadJob_check r = true -> dj_public_state r = QUEUED -> dj_cancel_requested_at r = None.
Proof.
  intros Hc Hs. destruct (dj_cancel_requested_at r) as [t|] eqn:E; [|done].
  destruct (cancel_requested_where r Hc) as [H|H]; [by rewrite E|congruence|].
  unfold is_stored_cancelled in H. by rewrite Hs in H.
Qed.

Lemma cancel_queued_good now r :
  download_inv r -> dj_public_state r = QUEUED ->
  good_update r ((apply_stored_cancel now r) <| dj_cancel_requested_at := Some now |>).
Proof.
  intros Hi Hs. pose proof (queued_not_cancelled r (di_check _ Hi) Hs) as Hn.
  revert Hi Hs Hn. good_row r.
Qed.

Lemma request_cancel_good now r :
  download_inv r -> dj_public_state r = DOWNLOADING -> dj_cancel_requested_at r = None ->
  good_update r (r <| dj_cancel_requested_at := Some now |> <| dj_updated_at := now |>).
Proof. good_row r. Qed.

Lemma due_open clk r :
  due clk r = true -> dj_public_state r <> EXPIRED \/ is_some (dj_cancel_requested_at r) = true.
Proof.
  unfold due, is_stored_cancelled. intros Hd. propify.
  match goal with H : _ || _ = true |- _ => apply orb_true_iff in H as [H|H] end; propify; [|auto].
  left. intros E. rewrite E in *. repeat (rewrite elem_of_cons in *). rewrite elem_of_nil in *.
  intuition discriminate.
Qed.

Lemma expired_good now r :
  download_inv r -> dj_public_state r <> EXPIRED \/ is_some (dj_cancel_requested_at r) = true ->
  good_update r (expired_row now r).
Proof. good_row r. Qed.

Lemma queued_inv id q :
  MediaDownloadJob_check (queued_job id q) = true -> download_inv (queued_job id q).
Proof.
  intros Hc. split; [done|..]; unfold MediaDownloadJob_check in Hc; cbn in *; propify; try lia; done.
Qed.

(** The stages of a leased job. *)
Definition working (s : Progress.DownloadProgressStage) : bool :=
  match s with
  | Progress.INSPECTING | Progress.DOWNLOADING_VIDEO | Progress.DOWNLOADING_AUDIO
  | Progress.MUXING | Progress.VERIFYING | Progress.PUBLISHING => true
  | _ => false
  end.

Lemma downloading_stage r :
  MediaDownloadJob_check r = true -> dj_public_state r = DOWNLOADING ->
  working (dj_progress_stage r) = true.
Proof.
  unfold MediaDownloadJob_check, dj_progress_state_check. intros Hc Hs. rewrite Hs in Hc. propify.
  by destruct (dj_progress_stage r).
Qed.

(** A step between working stages leads to a working stage, to [RETRYING] or to
    a terminal one. *)
Lemma stage_step a b :
  working a = true -> Progress.assert_progress_transition (Progress.value a) (Progress.value b) = inr tt ->
  b ∉ Progress.TERMINAL_PROGRESS -> b <> Progress.RETRYING -> working b = true.
Proof.
  rewrite Progress.assert_progress_transition_spec. unfold Progress.TERMINAL_PROGRESS.
  intros Ha [->|Hb]; [done|]. rewrite !not_elem_of_cons.
  destruct a; try discriminate Ha; cbn in Hb;
    rewrite !elem_of_cons, elem_of_nil in Hb; destruct b; intuition congruence.
Qed.

Definition stage_row (target : Progress.DownloadProgressStage) (now : time) (job : MediaDownloadJob)
  : MediaDownloadJob :=
  job <| dj_progress_percent :=
           if bool_decide (dj_progress_stage job = target) then dj_progress_percent job else None |>
      <| dj_progress_stage := target |> <| dj_updated_at := now |>.

Lemma stage_good owner fence target now r :
  download_inv r -> fenced owner fence r && not_cancelled r = true -> working target = true ->
  good_update r (stage_row target now r).
Proof.
  intros Hi Hf Ht. unfold stage_row. case_bool_decide as E; [subst target|clear E].
  - revert Hi Hf Ht. good_row r.
  - revert Hi Hf. destruct target; try discriminate Ht; clear Ht; good_row r.
Qed.

Lemma percent_good owner fence clk percent now r :
  download_inv r -> transferring owner fence clk r = true -> 0 <= percent <= 99 ->
  good_update r (r <| dj_progress_percent := Some percent |> <| dj_updated_at := now |>).
Proof.
  unfold transferring. intros Hi Ht Hp. apply andb_true_iff in Ht as [Hf Hs].
  apply bool_decide_eq_true in Hs. rewrite !elem_of_cons, elem_of_nil in Hs.
  destruct Hs as [Hs|[Hs|[]]]; revert Hi Hf Hp Hs; good_row r.
Qed.

End DownloadLifecycle.
