(* ===== verification/DownloadTheorems.v ===== *)
(** The operations of [downloads/repository.py] refine the life cycle of a
    download job, under any interleaving; the theorems about leases, cancel
    requests, progress, artifacts and the quota entry. *)

From S2P Require Export Jobs DownloadLifecycle.

Local Open Scope string_scope.
Local Open Scope list_scope.
Local Open Scope Z_scope.

Module DownloadOperations.
Import DownloadStates QuotaRepository MediaDownloadJobRepository DownloadLifecycle.

(** *** The other tables' statements leave the job table alone. *)

Abbreviation aside := (untouched MediaDownloadJob).

Lemma lock_quota_aside id : aside (lock_quota_identity_for_job id).
Proof. unfold lock_quota_identity_for_job, identity_id_for_download, lock_client. solve_untouched. Qed.

Lemma consume_quota_aside quota id : aside (consume_quota_after_job_lock quota id).
Proof.
  unfold consume_quota_after_job_lock, lock_entry_for_download, consume_locked,
    QuotaRepository.database_now. solve_untouched.
Qed.

Lemma release_quota_aside quota id expired : aside (release_quota_after_job_lock quota id expired).
Proof.
  unfold release_quota_after_job_lock, lock_entry_for_download, release_locked,
    QuotaRepository.database_now. solve_untouched.
Qed.

Lemma release_locked_aside entry now expired : aside (release_locked entry now expired).
Proof. unfold release_locked. solve_untouched. Qed.

Lemma revoke_grants_aside id now : aside (revoke_active_grants_locked id now).
Proof.
  unfold revoke_active_grants_locked, BrowserGrantRepository.list_active_for_job,
    BrowserGrantRepository.revoke_grants. solve_untouched.
Qed.

Lemma live_lease_aside entry now : aside (has_live_delivery_lease_locked entry now).
Proof.
  unfold has_live_delivery_lease_locked, DeliveryQuotaAccounting.has_live_attempt_locked,
    DeliveryQuotaAccounting.lock_ranges. solve_untouched.
Qed.

Lemma reconcile_aside job entry now : aside (DeliveryQuotaAccounting.reconcile_locked job entry now).
Proof.
  unfold DeliveryQuotaAccounting.reconcile_locked, DeliveryQuotaAccounting.lock_ranges,
    DeliveryQuotaAccounting.close_stale, DeliveryQuotaAccounting.compact_closed,
    DeliveryQuotaAccounting.consume_if_complete, DeliveryQuotaAccounting.lock_ranges, consume_locked.
  solve_untouched.
Qed.

#[export] Hint Resolve lock_quota_aside consume_quota_aside release_quota_aside release_locked_aside
  revoke_grants_aside live_lease_aside reconcile_aside : fetchnow.

Lemma inv_download t0 w id r :
  inv t0 w -> media_download_jobs w !! id = Some r -> download_inv r.
Proof. intros Hi. exact (inv_rows _ _ Hi id r). Qed.

Lemma delete_terminal_aside locked cutoff limit : aside (delete_terminal_entries_before locked cutoff limit).
Proof. unfold delete_terminal_entries_before, lock_client. solve_untouched. Qed.

Lemma delete_clients_aside locked now limit :
  aside (delete_expired_clients_without_entries locked now limit).
Proof. unfold delete_expired_clients_without_entries. solve_untouched. Qed.

(** *** Every operation keeps the invariant, whether it returns or raises. *)
Section Operations.
Context (t0 : gmap uid MediaDownloadJob).

Abbreviation keeps m w := (wp m (fun _ => inv t0) (fun _ => inv t0) w).

Lemma keeps_preserves {A} (m : DB A) : (forall w, inv t0 w -> keeps m w) -> preserves (inv t0) m.
Proof. apply preserves_wp. Qed.

(** A computation on the other tables, at the end or before more. *)
Lemma keeps_aside {A} (m : DB A) w : aside m -> inv t0 w -> keeps m w.
Proof. intros Hm Hi. by apply (wp_untouched t0). Qed.

Lemma wp_aside_bind {A B} (m : DB A) (k : A -> DB B) w :
  aside m -> inv t0 w ->
  (forall a w', inv t0 w' -> media_download_jobs w' = media_download_jobs w -> keeps (k a) w') ->
  keeps (bind m k) w.
Proof. intros Hm Hi Hk. apply wp_bind. by apply (wp_untouched t0). Qed.

Lemma keeps_bind {A B} (m : DB A) (k : A -> DB B) w :
  keeps m w -> (forall a w', inv t0 w' -> keeps (k a) w') -> keeps (bind m k) w.
Proof. intros Hm Hk. apply wp_bind. eapply wp_mono; [exact Hm|auto|done]. Qed.

Lemma keeps_clock {A} (k : time -> DB A) w :
  inv t0 w ->
  (forall clk w', inv t0 w' -> media_download_jobs w' = media_download_jobs w -> keeps (k clk) w') ->
  keeps (bind clock_timestamp k) w.
Proof. intros Hi Hk. apply wp_bind, wp_clock_timestamp, Hk; [by apply inv_clock|done]. Qed.

Lemma keeps_good id p f w :
  inv t0 w ->
  (forall r, media_download_jobs w !! id = Some r -> download_inv r -> p r = true -> good_update r (f r)) ->
  keeps (update_by_id id p f) w.
Proof. intros Hi Hg. by apply (wp_good_update t0). Qed.

(** A guarded update whose success is followed by a settlement of the quota. *)
Lemma keeps_settled id p f (m : bool -> DB unit) w :
  inv t0 w -> (forall b, aside (m b)) ->
  (forall r, media_download_jobs w !! id = Some r -> download_inv r -> p r = true ->
     MediaDownloadJob_check (f r) = true -> good_update r (f r)) ->
  keeps (let* applied := update_by_id id p f in m applied ;;; ret applied) w.
Proof.
  intros Hi Hm Hg. apply keeps_bind; [by apply (wp_checked_update t0)|].
  intros b w' Hi'. apply keeps_bind; [by apply keeps_aside|]. by intros; apply wp_ret.
Qed.

Lemma keeps_renew id owner fence lease w : inv t0 w -> keeps (renew_lease id owner fence lease) w.
Proof.
  intros Hi. apply keeps_clock; [done|]. intros clk w' Hi' _.
  apply keeps_good; [done|]. intros; by eapply renew_good.
Qed.

Lemma keeps_complete_ready id owner fence artifact size ctype container consume w :
  inv t0 w -> keeps (complete_ready id owner fence artifact size ctype container consume) w.
Proof.
  intros Hi. unfold complete_ready. wp_step. wp_step; [done|]. propify. wp_step. wp_step; [done|].
  apply wp_aside_bind; [destruct consume; auto with fetchnow; solve_untouched|done|].
  intros quota w1 Hi1 E1. apply keeps_clock; [done|]. intros clk w2 Hi2 E2.
  apply (keeps_settled _ _ _ (fun applied => if applied && consume
    then consume_quota_after_job_lock quota id else ret tt)); [done| |].
  - intros b. destruct (b && consume); [auto with fetchnow|solve_untouched].
  - intros. by eapply ready_good.
Qed.

Lemma failed_check code clk r :
  MediaDownloadJob_check (failed_row code clk r) = true -> 1 <= strlen code <= 64.
Proof. unfold MediaDownloadJob_check, dj_result_state_check. cbn. intros Hc. propify. lia. Qed.

Lemma keeps_fail_permanent id owner fence code w :
  inv t0 w -> keeps (fail_permanent id owner fence code) w.
Proof.
  intros Hi. unfold fail_permanent. wp_step. wp_step; [done|].
  apply wp_aside_bind; [auto with fetchnow|done|].
  intros quota w1 Hi1 E1. apply keeps_clock; [done|]. intros clk w2 Hi2 E2.
  apply (keeps_settled _ _ _ (fun applied => if applied
    then release_quota_after_job_lock quota id false else ret tt)); [done| |].
  - intros []; [auto with fetchnow|solve_untouched].
  - intros r _ Hr Hp Hc. eapply failed_good; [by eapply failed_check|done|done].
Qed.

Lemma keeps_complete_cancelled id owner fence w :
  inv t0 w -> keeps (complete_cancelled id owner fence) w.
Proof.
  intros Hi. unfold complete_cancelled. wp_step. wp_step; [done|].
  apply wp_aside_bind; [auto with fetchnow|done|].
  intros quota w1 Hi1 E1. apply keeps_clock; [done|]. intros clk w2 Hi2 E2.
  apply (keeps_settled _ _ _ (fun applied => if applied
    then release_quota_after_job_lock quota id false else ret tt)); [done| |].
  - intros []; [auto with fetchnow|solve_untouched].
  - intros. by eapply cancelled_good.
Qed.

Lemma keeps_fail_retry id owner fence now backoff code w :
  inv t0 w -> keeps (fail_retry id owner fence now backoff code) w.
Proof.
  intros Hi. unfold fail_retry. wp_step. apply wp_select_by_id; [|by intros _].
  intros r Hr _. wp_step; [done|]. wp_step; [by apply keeps_complete_cancelled|].
  wp_step; [by apply keeps_fail_permanent|]. propify. wp_step. wp_step; [done|].
  apply keeps_clock; [done|]. intros clk w' Hi' E. apply keeps_good; [done|].
  intros r' Hr' Hri Hl. cbn in Hr. rewrite E in Hr'.
  assert (r' = r) as -> by congruence. by eapply retry_good.
Qed.

Lemma keeps_release id owner fence now w :
  inv t0 w -> keeps (release_to_queued id owner fence now) w.
Proof.
  intros Hi. unfold release_to_queued. wp_step. wp_step; [done|].
  apply keeps_clock; [done|]. intros clk w' Hi' _. apply keeps_good; [done|].
  intros; by eapply release_good.
Qed.

Lemma keeps_lease_status id owner fence lease w :
  inv t0 w -> keeps (lease_status id owner fence lease) w.
Proof.
  intros Hi. apply keeps_clock; [done|]. intros clk w' Hi' _. wp_step.
  apply wp_select_by_id; [|by intros _]. intros r Hr _. wp_step; [by apply wp_ret|].
  apply keeps_bind; [by apply keeps_renew|]. by intros; apply wp_ret.
Qed.

Lemma keeps_enqueue q w : inv t0 w -> keeps (enqueue_or_get q) w.
Proof.
  intros Hi. unfold enqueue_or_get. wp_step. wp_step; [done|]. wp_step. wp_step; [done|].
  apply keeps_bind.
  { destruct (eq_job_id q); [done|]. apply wp_uuid4. by apply (inv_tables_only t0 w). }
  intros id w1 Hi1. wp_step. wp_step. apply wp_begin_nested.
  apply (wp_good_insert t0); [done|by apply queued_inv|done| |].
  - intros Hi2 _. by apply wp_ret.
  - intros _. assert (Hi2 : inv t0 (rollback w1 w1)) by by apply (inv_tables_only t0 w1).
    unfold select_first. wp_step. wp_step. wp_step; [|done]. wp_step. wp_step; [done|]. by apply wp_ret.
Qed.

Lemma claimable_not_cancelled clk r :
  claimable clk r = true ->
  dj_public_state r = QUEUED /\ dj_attempt_count r < dj_max_attempts r /\
  dj_cancel_requested_at r = None.
Proof.
  unfold claimable. intros Hc. propify. by destruct (dj_cancel_requested_at r).
Qed.

Lemma keeps_claim locked worker lease now limit w :
  inv t0 w -> keeps (claim_next locked worker lease now limit) w.
Proof.
  intros Hi. unfold claim_next, claim_select. wp_step; [by apply wp_ret|].
  wp_step. wp_step; [done|]. do 2 wp_step. apply wp_clock_timestamp.
  apply inv_clock with (n := S (clock_reads w)) in Hi.
  set (w1 := w <| clock_reads := _ |>) in *. set (clk := clock w (clock_reads w)).
  wp_step. apply wp_select. wp_step.
  destruct (selected_rows (R := MediaDownloadJob) w1
    (fun r => claimable clk r && negb (locked (dj_id r))) _ (inv_keyed _ _ Hi) eq_refl) as [Hnd Hl].
  refine (wp_good_rows t0 (fun r => claimable clk r = true)
    (fun r => assert_transition (value (dj_public_state r)) (value DOWNLOADING))
    (claim_row worker (now + lease) now) _
    (take (Z.to_nat limit) (order_by dj_created_at (List.filter _ (rows w1)))) w1 Hi _ _ _ _).
  - intros r Hr. by destruct (claimable_not_cancelled _ _ Hr) as (-> & _).
  - intros r Hri Hr. destruct (claimable_not_cancelled _ _ Hr) as (? & ? & ?). by apply claim_good.
  - exact (NoDup_ids_limit dj_created_at (Z.to_nat limit) _ Hnd).
  - intros r Hr. apply (elem_of_limit (R := MediaDownloadJob)), Hl in Hr as [? Hp]. propify. by split.
Qed.

(** A loop over ids, each step of which keeps the invariant. *)
Lemma keeps_fold {A B} (f : B -> A -> DB B) l acc w :
  (forall b a w, inv t0 w -> keeps (f b a) w) -> inv t0 w -> keeps (fold_m f acc l) w.
Proof. intros Hf. apply (wp_fold_m (fun _ => inv t0)). auto. Qed.

Lemma keeps_reclaim_one locked now id w : inv t0 w -> keeps (reclaim_one locked now id) w.
Proof.
  intros Hi. apply wp_aside_bind; [auto with fetchnow|done|]. intros quota w1 Hi1 _.
  apply keeps_clock; [done|]. intros clk w2 Hi2 _. wp_step. apply wp_select_by_id; [|by intros _].
  intros r Hr Hp. propify. wp_step.
  - wp_step. wp_step; [done|]. apply keeps_bind.
    + eapply (wp_good_update_row t0); [done|exact Hr| |done].
      eapply reclaim_cancel_good; [by eapply inv_download|done|done].
    + intros _ w3 Hi3. apply keeps_bind; [apply keeps_aside; auto with fetchnow|done].
  - wp_step. wp_step; [by destruct (exhausted r)|]. apply keeps_bind.
    + eapply (wp_good_update_row t0); [done|exact Hr| |done].
      eapply reclaim_good; [by eapply inv_download|done|by destruct (dj_cancel_requested_at r)].
    + intros _ w3 Hi3. apply keeps_bind; [|done].
      apply keeps_aside; [destruct (exhausted r); [auto with fetchnow|solve_untouched]|done].
Qed.

Lemma keeps_reclaim locked now w : inv t0 w -> keeps (reclaim_expired_leases locked now) w.
Proof.
  intros Hi. apply keeps_clock; [done|]. intros clk w1 Hi1 _. wp_step. apply wp_select.
  apply keeps_fold; [|done]. intros changed id w2 Hi2.
  apply keeps_bind; [by apply keeps_reclaim_one|by intros; apply wp_ret].
Qed.

Lemma keeps_apply_expired r now w :
  inv t0 w -> media_download_jobs w !! dj_id r = Some r ->
  dj_public_state r <> EXPIRED \/ is_some (dj_cancel_requested_at r) = true ->
  keeps (apply_expired_job_fields r now) w.
Proof.
  intros Hi Hr Ho. unfold apply_expired_job_fields. wp_step. wp_step; [done|].
  apply keeps_bind; [|done]. eapply (wp_good_update_row t0); [done|exact Hr| |done].
  apply expired_good; [by eapply inv_download|done].
Qed.

Lemma keeps_quarantine r entry now w :
  inv t0 w -> media_download_jobs w !! dj_id r = Some r ->
  dj_public_state r <> EXPIRED \/ is_some (dj_cancel_requested_at r) = true ->
  keeps (quarantine_ready_terminal_quota_locked r entry now) w.
Proof.
  intros Hi Hr Ho. apply wp_aside_bind; [auto with fetchnow|done|]. intros live w1 Hi1 E1.
  wp_step; [by apply wp_ret|]. apply wp_aside_bind; [auto with fetchnow|done|].
  intros _ w2 Hi2 E2. apply keeps_bind; [apply keeps_apply_expired; [done|congruence|done]|done].
Qed.

Lemma keeps_expire_and_release quota r entry now w :
  inv t0 w -> media_download_jobs w !! dj_id r = Some r ->
  dj_public_state r <> EXPIRED \/ is_some (dj_cancel_requested_at r) = true ->
  keeps (expire_row_and_release quota r entry now) w.
Proof.
  intros Hi Hr Ho. apply wp_aside_bind; [case_bool_decide; [auto with fetchnow|solve_untouched]|done|].
  intros _ w1 Hi1 E1. apply keeps_bind; [apply keeps_apply_expired; [done|congruence|done]|].
  intros a w2 Hi2. apply keeps_bind; [|done]. apply keeps_aside; [|done].
  unfold QuotaRepository.database_now, release_locked. solve_untouched.
Qed.

Lemma wp_expiry_decision r entry now w :
  inv t0 w -> media_download_jobs w !! dj_id r = Some r ->
  dj_public_state r <> EXPIRED \/ is_some (dj_cancel_requested_at r) = true ->
  wp (expiry_decision r entry now)
    (fun d w' => inv t0 w' /\
       match d with Proceed _ => media_download_jobs w' = media_download_jobs w | Done _ => True end)
    (fun _ => inv t0) w.
Proof.
  intros Hi Hr Ho. unfold expiry_decision. wp_step.
  - wp_step. apply (wp_untouched t0); auto with fetchnow. intros live w1 Hi1 E1.
    apply wp_ret. by destruct live.
  - wp_step.
    + wp_step. eapply wp_mono; [by apply keeps_quarantine| |done]. intros o w1 Hi1. by apply wp_ret.
    + wp_step; [|by apply wp_ret]. wp_step.
      apply (wp_untouched t0); auto with fetchnow. intros [res e] w1 Hi1 E1. cbn.
      wp_step; [|by apply wp_ret]. wp_step.
      apply (wp_untouched t0); [exact (live_lease_aside e now)|done| |done].
      intros live w2 Hi2 E2. apply wp_ret. destruct live; [done|]. split; [done|]. cbn in *. congruence.
Qed.

Lemma keeps_expire_one locked now id w : inv t0 w -> keeps (expire_one locked now id) w.
Proof.
  intros Hi. apply wp_aside_bind; [auto with fetchnow|done|]. intros quota w1 Hi1 _.
  apply keeps_clock; [done|]. intros clk w2 Hi2 _. wp_step. apply wp_select_by_id; [|by intros _].
  intros r Hr Hp. apply andb_true_iff in Hp as [Hp _]. apply due_open in Hp.
  assert (Hr' : media_download_jobs w2 !! dj_id r = Some r).
  { cbn in Hr. by rewrite (inv_keyed _ _ Hi2 _ _ Hr : dj_id r = id). }
  wp_step; [|by apply keeps_expire_and_release].
  apply wp_aside_bind; [unfold lock_entry_for_download; solve_untouched|done|].
  intros [entry|] w3 Hi3 E3; [|by apply wp_ret].
  apply wp_bind. eapply wp_mono; [apply wp_expiry_decision; [done|congruence|done]| |done].
  intros [e|o] w4 [Hi4 E4]; [|by apply wp_ret].
  apply keeps_expire_and_release; [done|congruence|done].
Qed.

Lemma keeps_expire locked now w : inv t0 w -> keeps (expire_due_jobs locked now) w.
Proof.
  intros Hi. apply keeps_clock; [done|]. intros clk w1 Hi1 _. wp_step. apply wp_select.
  apply keeps_fold; [|done]. intros ids id w2 Hi2. wp_step. apply wp_bind, wp_begin_nested.
  eapply wp_mono; [by apply keeps_expire_one|by intros; apply wp_ret|].
  intros e w3 Hi3. assert (inv t0 (rollback w2 w3)) by by apply (inv_tables_only t0 w2).
  by destruct e.
Qed.

Lemma keeps_request_cancel id now w : inv t0 w -> keeps (request_cancel id now) w.
Proof.
  intros Hi. apply wp_aside_bind; [auto with fetchnow|done|]. intros quota w1 Hi1 _.
  wp_step. apply wp_select_by_id; [|by intros _]. intros r Hr _.
  pose proof (inv_download _ _ _ _ Hi1 Hr) as Hri.
  wp_step; [by apply wp_ret|]. wp_step; try done.
  - wp_step. wp_step; [done|]. apply keeps_bind.
    + eapply (wp_good_update_row t0); [done|exact Hr|by apply cancel_queued_good|done].
    + intros r' w2 Hi2. apply keeps_bind; [apply keeps_aside; auto with fetchnow|done].
  - wp_step; [|by apply wp_ret]. apply keeps_bind; [|done].
    eapply (wp_good_update_row t0); [done|exact Hr| |done].
    apply request_cancel_good; [done|done|by destruct (dj_cancel_requested_at r)].
Qed.

Lemma keeps_stage id owner fence target now w :
  inv t0 w -> keeps (set_progress_stage id owner fence target now) w.
Proof.
  intros Hi. unfold set_progress_stage. wp_step; [by apply wp_ret|]. wp_step.
  apply wp_select_by_id; [|by intros _]. intros r Hr Hp. wp_step. wp_step; [done|].
  apply keeps_bind; [|done]. destruct a.
  apply (wp_checked_update_row t0); try done.
  intros r' Hr' Hri Hc. assert (r' = r) as -> by congruence.
  change (good_update r (stage_row target now r)). eapply stage_good; [done|done|].
  eapply stage_step; [|eassumption|by apply bool_decide_eq_false in Heqb|].
  - apply downloading_stage; [apply Hri|]. unfold fenced in Hp. by propify.
  - intros ->. apply downloading_stage in Hc; [done|]. unfold fenced in Hp. by propify.
Qed.

Lemma keeps_percent id owner fence percent now w :
  inv t0 w -> keeps (set_progress_percent id owner fence percent now) w.
Proof.
  intros Hi. unfold set_progress_percent. wp_step; [by apply wp_ret|]. propify.
  apply keeps_clock; [done|]. intros clk w1 Hi1 _. wp_step. apply wp_select_by_id; [|by intros _].
  intros r Hr Hp. cbv zeta.
  assert (Hw : keeps (update_row id (fun job : MediaDownloadJob =>
    job <| dj_progress_percent := Some percent |> <| dj_updated_at := now |>) ;;; ret true) w1).
  { apply keeps_bind; [|done]. eapply (wp_good_update_row t0); [done|exact Hr| |done].
    eapply percent_good; [by eapply inv_download|done|lia]. }
  destruct (dj_progress_percent r); [|done]. wp_step; [by apply wp_ret|]. by wp_step; [apply wp_ret|].
Qed.

Lemma keeps_quarantine_one now client id w :
  inv t0 w -> keeps (QuotaReconciler.quarantine_one now client id) w.
Proof.
  intros Hi. unfold QuotaReconciler.quarantine_one.
  apply wp_aside_bind; [unfold lock_client; solve_untouched|done|]. intros c w1 Hi1 _.
  wp_step. apply wp_select_by_id; [|intros _].
  2: { apply wp_aside_bind; [unfold lock_entry_for_download; solve_untouched|done|].
       intros e w2 Hi2 _. by destruct c. }
  intros r Hr _. apply wp_aside_bind; [unfold lock_entry_for_download; solve_untouched|done|].
  intros e w2 Hi2 E2. destruct c; [|by apply wp_ret]. destruct e as [entry|]; [|by apply wp_ret].
  wp_step; [by apply wp_ret|]. wp_step; [by apply wp_ret|]. apply keeps_bind; [|done].
  assert (Hid : dj_id r = id) by exact (inv_keyed _ _ Hi1 _ _ Hr).
  apply keeps_quarantine; [done|cbn in Hr; congruence|].
  left. intros E. unfold QuotaReconciler.ready in *. propify. congruence.
Qed.

Lemma keeps_repair_one settings now acc client id w :
  inv t0 w -> keeps (QuotaReconciler.repair_one settings now acc client id) w.
Proof.
  intros Hi. unfold QuotaReconciler.repair_one.
  apply wp_aside_bind; [unfold lock_client; solve_untouched|done|]. intros c w1 Hi1 _.
  wp_step. wp_step; [done|]. wp_step. apply wp_select_by_id; [|intros _].
  2: { apply keeps_aside; [|done]. unfold lock_entry_for_download. solve_untouched. }
  intros r Hr _. apply wp_aside_bind; [unfold lock_entry_for_download; solve_untouched|done|].
  intros [entry|] w2 Hi2 E2; [|by apply wp_ret]. wp_step; [by apply wp_ret|].
  assert (Hlapse : dj_public_state r <> EXPIRED -> keeps (update_row (dj_id r) (expired_row now)) w2).
  { intros Hs. assert (Hid : dj_id r = id) by exact (inv_keyed _ _ Hi1 _ _ Hr).
    assert (Hr2 : media_download_jobs w2 !! dj_id r = Some r) by (cbn in Hr; congruence).
    eapply (wp_good_update_row t0); [done|exact Hr2| |done].
    apply expired_good; [by eapply inv_download|by left]. }
  assert (Hrel : forall expired w', inv t0 w' -> keeps (release_locked entry now expired) w')
    by (intros; apply keeps_aside; auto with fetchnow).
  destruct (dj_public_state r) eqn:Es; try done.
  - destruct (_ && _); [|by apply wp_ret].
    apply keeps_bind; [by apply Hlapse|]. intros _ w3 Hi3. apply keeps_bind; [by apply Hrel|done].
  - destruct (_ && _); [|by apply wp_ret].
    apply keeps_bind; [by apply Hlapse|]. intros _ w3 Hi3. apply keeps_bind; [by apply Hrel|done].
  - wp_step; [|done]. wp_step.
    + apply keeps_bind; [|done]. apply keeps_aside; [|done]. unfold consume_locked. solve_untouched.
    + apply keeps_bind; [|done]. apply keeps_aside; auto with fetchnow.
  - apply keeps_bind; [by apply Hrel|done].
  - apply keeps_bind; [by apply Hrel|done].
Qed.

Lemma keeps_reconcile settings le lc limit w :
  inv t0 w -> keeps (QuotaReconciler.run settings le lc limit) w.
Proof.
  intros Hi. apply keeps_clock; [done|]. intros now w1 Hi1 _. apply keeps_bind.
  { unfold QuotaReconciler.quarantine_invalid. wp_step. unfold wp at 1. cbn.
    apply keeps_fold; [|done]. intros [] [c id] w2 Hi2. wp_step. apply wp_begin_nested.
    eapply wp_mono; [by apply keeps_quarantine_one|done|].
    intros e w3 Hi3. assert (inv t0 (rollback w2 w3)) by by apply (inv_tables_only t0 w2).
    by destruct e. }
  intros [] w2 Hi2. apply keeps_bind; [apply keeps_aside; [|done]|].
  { unfold QuotaReconciler.select_reserved. solve_untouched. }
  intros l w3 Hi3. apply keeps_bind.
  { apply keeps_fold; [|done]. intros. by apply keeps_repair_one. }
  intros acc w4 Hi4. cbv zeta.
  apply keeps_bind; [apply keeps_aside; [apply delete_terminal_aside|done]|].
  intros n w5 Hi5. apply keeps_bind; [apply keeps_aside; [apply delete_clients_aside|done]|done].
Qed.

(** Promotion to Premium and creation rewrite the snapshot column only. *)
Definition rewrite_snapshot (id : uid) (snapshot : Json) (now : time) : DB unit :=
  update_row id (fun r : MediaDownloadJob =>
    r <| dj_selected_format_snapshot := snapshot |> <| dj_updated_at := now |>) ;;; ret tt.

Lemma keeps_rewrite id snapshot now w : inv t0 w -> keeps (rewrite_snapshot id snapshot now) w.
Proof.
  intros Hi. apply keeps_bind; [|done]. apply (wp_checked_update_row t0); try done.
  intros r _ [] _. destruct r. split_and!; [by split|by left|done].
Qed.
End Operations.

(** *** The operations as one type, and the executions of the system *)
Inductive DownloadOp :=
| OpEnqueue (q : EnqueueArgs)
| OpClaim (locked : uid -> bool) (worker : string) (lease now : time) (limit : Z)
| OpRenew (id : uid) (owner : string) (fence : Z) (lease : time)
| OpLeaseStatus (id : uid) (owner : string) (fence : Z) (lease : time)
| OpReady (id : uid) (owner : string) (fence : Z) (artifact : uid) (size : Z)
    (content_type container : string) (consume : bool)
| OpFail (id : uid) (owner : string) (fence : Z) (code : string)
| OpRetry (id : uid) (owner : string) (fence : Z) (now backoff : time) (code : string)
| OpRelease (id : uid) (owner : string) (fence : Z) (now : time)
| OpCancelled (id : uid) (owner : string) (fence : Z)
| OpStage (id : uid) (owner : string) (fence : Z) (stage : Progress.DownloadProgressStage) (now : time)
| OpPercent (id : uid) (owner : string) (fence : Z) (percent : Z) (now : time)
| OpRequestCancel (id : uid) (now : time)
| OpReclaim (locked : uid -> bool) (now : time)
| OpExpire (locked : uid -> bool) (now : time)
| OpReconcile (settings : Settings) (locked_entries locked_clients : uid -> bool) (limit : Z)
| OpRewriteSnapshot (id : uid) (snapshot : Json) (now : time).

Definition exec (op : DownloadOp) : DB unit :=
  match op with
  | OpEnqueue q => enqueue_or_get q ;;; ret tt
  | OpClaim locked worker lease now limit => claim_next locked worker lease now limit ;;; ret tt
  | OpRenew id owner fence lease => renew_lease id owner fence lease ;;; ret tt
  | OpLeaseStatus id owner fence lease => lease_status id owner fence lease ;;; ret tt
  | OpReady id owner fence artifact size ct c consume =>
      complete_ready id owner fence artifact size ct c consume ;;; ret tt
  | OpFail id owner fence code => fail_permanent id owner fence code ;;; ret tt
  | OpRetry id owner fence now backoff code => fail_retry id owner fence now backoff code ;;; ret tt
  | OpRelease id owner fence now => release_to_queued id owner fence now ;;; ret tt
  | OpCancelled id owner fence => complete_cancelled id owner fence ;;; ret tt
  | OpStage id owner fence stage now => set_progress_stage id owner fence stage now ;;; ret tt
  | OpPercent id owner fence percent now => set_progress_percent id owner fence percent now ;;; ret tt
  | OpRequestCancel id now => request_cancel id now ;;; ret tt
  | OpReclaim locked now => reclaim_expired_leases locked now ;;; ret tt
  | OpExpire locked now => expire_due_jobs locked now ;;; ret tt
  | OpReconcile settings le lc limit => QuotaReconciler.run settings le lc limit ;;; ret tt
  | OpRewriteSnapshot id snapshot now => rewrite_snapshot id snapshot now
  end.

#[export] Instance MediaDownloadJob_operations : Operations MediaDownloadJob DownloadOp.
Proof.
  refine {| Lifecycle.exec := exec |}. intros t0 op w Hi.
  destruct op; cbn [exec]; [..|by apply keeps_rewrite];
    (apply keeps_bind; [|by intros; apply wp_ret]).
  - by apply keeps_enqueue.
  - by apply keeps_claim.
  - by apply keeps_renew.
  - by apply keeps_lease_status.
  - by apply keeps_complete_ready.
  - by apply keeps_fail_permanent.
  - by apply keeps_fail_retry.
  - by apply keeps_release.
  - by apply keeps_complete_cancelled.
  - by apply keeps_stage.
  - by apply keeps_percent.
  - by apply keeps_request_cancel.
  - by apply keeps_reclaim.
  - by apply keeps_expire.
  - by apply keeps_reconcile.
Defined.

(** The executions of the system: these operations, by any process with any
    arguments, and anything that leaves the [media_download_jobs] table alone. *)
Abbreviation step := (Lifecycle.step MediaDownloadJob DownloadOp).
Abbreviation reachable := (Lifecycle.reachable MediaDownloadJob DownloadOp).

(** *** Fences *)

(** The lease [fence] of the job is over: the fence has moved on, or the job is
    no longer leased under it. *)
Definition spent (a : Abs) (fence : Z) : Prop :=
  fence < a_fence a \/ (fence = a_fence a /\ a_state a <> DOWNLOADING).

Lemma spent_step a a' fence : abs_step a a' -> spent a fence -> spent a' fence.
Proof. unfold spent. destruct 1; cbn; intuition (lia || congruence). Qed.

(** The statements of a lease owner. *)
Inductive lease_op (id : uid) (fence : Z) : DB bool -> Prop :=
| lo_ready owner artifact size ct c consume :
    lease_op id fence (complete_ready id owner fence artifact size ct c consume)
| lo_fail owner code : lease_op id fence (fail_permanent id owner fence code)
| lo_retry owner now backoff code : lease_op id fence (fail_retry id owner fence now backoff code)
| lo_release owner now : lease_op id fence (release_to_queued id owner fence now)
| lo_cancelled owner : lease_op id fence (complete_cancelled id owner fence)
| lo_renew owner lease : lease_op id fence (renew_lease id owner fence lease)
| lo_stage owner stage now : lease_op id fence (set_progress_stage id owner fence stage now)
| lo_percent owner percent now : lease_op id fence (set_progress_percent id owner fence percent now).

(** Those that end the lease. *)
Inductive lease_end (id : uid) (fence : Z) : DB bool -> Prop :=
| le_ready owner artifact size ct c consume :
    lease_end id fence (complete_ready id owner fence artifact size ct c consume)
| le_fail owner code : lease_end id fence (fail_permanent id owner fence code)
| le_retry owner now backoff code : lease_end id fence (fail_retry id owner fence now backoff code)
| le_release owner now : lease_end id fence (release_to_queued id owner fence now)
| le_cancelled owner : lease_end id fence (complete_cancelled id owner fence).

(** The statement did not succeed and wrote nothing. *)
Definition refused (m : DB bool) (w : World) : Prop :=
  (m w).1 <> inr true /\ same_tables w (m w).2.

Lemma fenced_not_spent owner fence r : fenced owner fence r = true -> ~ spent (abs r) fence.
Proof. unfold fenced, spent. intros H. propify. cbn. intros [?|[? ?]]; [lia|done]. Qed.

(** A computation that writes no table. *)
Definition readonly {A} (m : DB A) : Prop := forall w, same_tables w (m w).2.

Lemma readonly_lift {A} (r : exn + A) : readonly (lift r).
Proof. done. Qed.
Lemma readonly_raise_when c e : readonly (raise_when c e).
Proof. by destruct c. Qed.
Lemma readonly_clock : readonly clock_timestamp.
Proof. done. Qed.
Lemma readonly_lock_quota id : readonly (lock_quota_identity_for_job id).
Proof.
  intros w. unfold lock_quota_identity_for_job, identity_id_for_download,
    lock_client, select_first, select_by_id, gets, bind, ret. cbn.
  destruct (head _) as [e|]; cbn; [|done]. by destruct (_ ≫= _).
Qed.
Lemma readonly_if {A} (c : bool) (m m' : DB A) : readonly m -> readonly m' -> readonly (if c then m else m').
Proof. by destruct c. Qed.
Lemma readonly_ret {A} (a : A) : readonly (ret a).
Proof. done. Qed.

#[local] Hint Resolve readonly_lift readonly_raise_when readonly_clock readonly_lock_quota readonly_if
  readonly_ret : core.

Section Spent.
Context (id : uid) (fence : Z) (w : World)
  (Hs : forall r, media_download_jobs w !! id = Some r -> spent (abs r) fence).

(** [m] is refused in every database with this job table. *)
Definition refuses (m : DB bool) : Prop :=
  forall w', media_download_jobs w' = media_download_jobs w -> refused m w'.

Lemma refuses_false : refuses (ret false).
Proof. done. Qed.

Lemma refuses_if (c : bool) m m' : (c = true -> refuses m) -> (c = false -> refuses m') ->
  refuses (if c then m else m').
Proof. destruct c; auto. Qed.

Lemma refuses_readonly {A} (m : DB A) (k : A -> DB bool) :
  readonly m -> (forall a, refuses (k a)) -> refuses (bind m k).
Proof.
  intros Hm Hk w' E. specialize (Hm w'). unfold refused, bind.
  destruct (m w') as [[e|a] w''] eqn:Em; cbn in *; [done|].
  destruct (Hk a w'') as [? ?]; [|split; [done|by etrans]].
  destruct Hm as (_ & Hm & _). congruence.
Qed.

Lemma refuses_update p owner f (k : bool -> DB bool) :
  (forall r, p r = true -> fenced owner fence r = true) ->
  refuses (k false) -> refuses (bind (update_by_id id p f) k).
Proof.
  intros Hp Hk w' E. specialize (Hk w' E). unfold refused, bind, update_by_id in *. cbn. rewrite E.
  destruct (media_download_jobs w !! id) as [r|] eqn:Er; [|exact Hk].
  destruct (p r) eqn:Ep; [|exact Hk]. destruct (fenced_not_spent owner fence r); [by apply Hp|by apply Hs].
Qed.

Lemma refuses_last_update p owner f :
  (forall r, p r = true -> fenced owner fence r = true) -> refuses (update_by_id id p f).
Proof.
  intros Hp w' E. destruct (refuses_update p owner f ret Hp refuses_false w' E) as [H1 H2].
  unfold refused, bind, ret in *. by destruct (update_by_id id p f w') as [[e|b] w''].
Qed.

Lemma refuses_select p owner (k : option MediaDownloadJob -> DB bool) :
  (forall r, p r = true -> fenced owner fence r = true) ->
  refuses (k None) -> refuses (bind (select_by_id id p) k).
Proof.
  intros Hp Hk w' E. specialize (Hk w' E). unfold refused, bind, select_by_id, gets in *. cbn. rewrite E.
  destruct (media_download_jobs w !! id) as [r|] eqn:Er; cbn; [|exact Hk].
  destruct (p r) eqn:Ep; [|exact Hk]. destruct (fenced_not_spent owner fence r); [by apply Hp|by apply Hs].
Qed.

Ltac fence_clause :=
  intros ? Hclause; unfold transferring in Hclause;
  repeat match type of Hclause with
         | (_ && _)%bool = true => apply andb_true_iff, proj1 in Hclause
         end; exact Hclause.
Ltac refuse_step :=
  lazymatch goal with
  | |- refuses (ret false) => apply refuses_false
  | |- refuses (bind (update_by_id _ _ _) _) => eapply refuses_update; [fence_clause|]
  | |- refuses (bind (select_by_id _ (fun _ => true)) _) => apply refuses_readonly; [by intros ?|intros ?]
  | |- refuses (bind (select_by_id _ _) _) => eapply refuses_select; [fence_clause|]
  | |- refuses (bind _ _) => apply refuses_readonly; [by auto|intros ?]
  | |- refuses (update_by_id _ _ _) => eapply refuses_last_update; fence_clause
  | |- refuses (if _ then _ else _) => apply refuses_if; intros ?
  | |- refuses (match ?x with Some _ => _ | None => _ end) => destruct x
  end.
Ltac refuse := cbv zeta; repeat refuse_step.

Lemma refuses_fail_permanent owner code : refuses (fail_permanent id owner fence code).
Proof. unfold fail_permanent. refuse. Qed.

Lemma refuses_complete_cancelled owner : refuses (complete_cancelled id owner fence).
Proof. unfold complete_cancelled. refuse. Qed.

Lemma refuses_lease_op m : lease_op id fence m -> refuses m.
Proof.
  destruct 1; unfold complete_ready, fail_retry, get_by_id, release_to_queued, renew_lease,
    set_progress_stage, set_progress_percent; refuse;
    auto using refuses_fail_permanent, refuses_complete_cancelled.
Qed.
End Spent.

(** What a guarded update followed by a settlement wrote to the job table. *)
Lemma settled_true id p f (m : bool -> DB unit) w w' :
  (forall b, aside (m b)) ->
  (let* applied := update_by_id id p f in m applied ;;; ret applied) w = (inr true, w') ->
  exists r, media_download_jobs w !! id = Some r /\ p r = true /\
    media_download_jobs w' = <[id := f r]> (media_download_jobs w).
Proof.
  intros Hm E. apply bind_inr in E as (b & w1 & Eu & E).
  apply bind_inr in E as ([] & w2 & Em & E). injection E as -> <-.
  apply update_by_id_true in Eu as (r & Er & Hp & ->). exists r. split_and!; [done|done|].
  match type of Em with _ ?w1 = _ => pose proof (Hm true _ w1 eq_refl) as Ht end.
  rewrite Em in Ht. exact Ht.
Qed.

Lemma updated_true id p f w w' :
  update_by_id id p f w = (inr true, w') ->
  exists r, media_download_jobs w !! id = Some r /\ p r = true /\
    media_download_jobs w' = <[id := f r]> (media_download_jobs w).
Proof. intros (r & Er & Hp & ->)%update_by_id_true. by exists r. Qed.

(** A prefix that leaves the job table alone. *)
Lemma skip_aside {A B} (m : DB A) (k : A -> DB B) w b w' :
  aside m -> bind m k w = (inr b, w') ->
  exists a w1, media_download_jobs w1 = media_download_jobs w /\ k a w1 = (inr b, w').
Proof.
  intros Hm E. apply bind_inr in E as (a & w1 & Ea & E). exists a, w1. split; [|done].
  pose proof (Hm _ w eq_refl) as Ht. by rewrite Ea in Ht.
Qed.

(** *** The row each statement that ends a lease wrote *)

(** The update of [id] by [f] under the guard [p] is all [m] did to the jobs. *)
Definition wrote (id : uid) (w w' : World) (p : time -> MediaDownloadJob -> bool)
    (f : time -> MediaDownloadJob -> MediaDownloadJob) : Prop :=
  exists clk r, media_download_jobs w !! id = Some r /\ p clk r = true /\
    media_download_jobs w' = <[id := f clk r]> (media_download_jobs w).

(** The clauses of a live lease without a cancel request. *)
Definition held (owner : string) (fence : Z) (clk : time) (r : MediaDownloadJob) : bool :=
  fenced owner fence r && lease_live clk r && not_cancelled r.

Lemma wrote_settled id p f (m : bool -> DB unit) clk w w0 w' :
  (forall b, aside (m b)) -> media_download_jobs w0 = media_download_jobs w ->
  (let* applied := update_by_id id (p clk) (f clk) in m applied ;;; ret applied) w0 = (inr true, w') ->
  wrote id w w' p f.
Proof.
  intros Hm E0 E. apply settled_true in E as (r & Er & Hp & Ew); [|done].
  exists clk, r. by rewrite <- E0.
Qed.

Lemma clock_aside : aside clock_timestamp.
Proof. solve_untouched. Qed.
Lemma raise_when_aside c e : aside (raise_when c e).
Proof. solve_untouched. Qed.
Lemma lift_aside {A} (r : exn + A) : aside (lift r).
Proof. solve_untouched. Qed.

Ltac skip E := apply skip_aside in E as (? & ? & ? & E);
  [|first [apply raise_when_aside | apply lift_aside | apply clock_aside | auto with fetchnow]].

Lemma complete_ready_true id owner fence artifact size ct c consume w w' :
  complete_ready id owner fence artifact size ct c consume w = (inr true, w') ->
  wrote id w w' (held owner fence) (ready_row artifact size ct c).
Proof.
  unfold complete_ready. intros E. skip E. skip E.
  apply skip_aside in E as (quota & w1 & E1 & E).
  2: { destruct consume; [auto with fetchnow|solve_untouched]. }
  skip E. eapply (wrote_settled _ (held owner fence) (ready_row artifact size ct c)
    (fun applied => if applied && consume then consume_quota_after_job_lock quota id else ret tt));
    [| |exact E]; [|congruence].
  intros b. destruct (b && consume); [auto with fetchnow|solve_untouched].
Qed.

Lemma fail_permanent_true id owner fence code w w' :
  fail_permanent id owner fence code w = (inr true, w') ->
  wrote id w w' (held owner fence) (failed_row code).
Proof.
  unfold fail_permanent. intros E. skip E.
  apply skip_aside in E as (quota & w1 & E1 & E); [|auto with fetchnow]. skip E.
  eapply (wrote_settled _ (held owner fence) (failed_row code)
    (fun applied => if applied then release_quota_after_job_lock quota id false else ret tt));
    [| |exact E]; [|congruence].
  intros []; [auto with fetchnow|solve_untouched].
Qed.

Lemma complete_cancelled_true id owner fence w w' :
  complete_cancelled id owner fence w = (inr true, w') ->
  wrote id w w' (fun _ r => fenced owner fence r && is_some (dj_cancel_requested_at r)) cancelled_row.
Proof.
  unfold complete_cancelled. intros E. skip E.
  apply skip_aside in E as (quota & w1 & E1 & E); [|auto with fetchnow]. skip E.
  eapply (wrote_settled _ (fun _ r => fenced owner fence r && is_some (dj_cancel_requested_at r))
    cancelled_row (fun applied => if applied then release_quota_after_job_lock quota id false else ret tt));
    [| |exact E]; [|congruence].
  intros []; [auto with fetchnow|solve_untouched].
Qed.

Lemma wrote_update id p f clk w w0 w' :
  media_download_jobs w0 = media_download_jobs w ->
  update_by_id id (p clk) (f clk) w0 = (inr true, w') -> wrote id w w' p f.
Proof.
  intros E0 E. apply update_by_id_true in E as (r & Er & Hp & ->). exists clk, r. cbn in *.
  by rewrite <- E0.
Qed.

Lemma release_true id owner fence now w w' :
  release_to_queued id owner fence now w = (inr true, w') ->
  wrote id w w' (held owner fence) (release_row now).
Proof.
  unfold release_to_queued. intros E. skip E. skip E.
  eapply (wrote_update id (held owner fence) (release_row now)); [|exact E]. congruence.
Qed.

Lemma fail_retry_true id owner fence now backoff code w w' :
  fail_retry id owner fence now backoff code w = (inr true, w') ->
  wrote id w w' (fun _ r => fenced owner fence r && is_some (dj_cancel_requested_at r)) cancelled_row \/
  wrote id w w' (held owner fence) (failed_row code) \/
  wrote id w w' (held owner fence) (retry_row (now + Z.max 0 backoff)).
Proof.
  unfold fail_retry. intros E. apply bind_inr in E as ([r|] & w0 & E0 & E); [|done].
  injection E0 as _ <-. destruct (_ || _); [done|].
  destruct (is_some _); [left; by eapply complete_cancelled_true|].
  destruct (_ <=? _); [right; left; by eapply fail_permanent_true|]. right; right.
  skip E. cbv zeta in E. skip E.
  eapply (wrote_update id (held owner fence) (retry_row (now + Z.max 0 backoff))); [|exact E]. congruence.
Qed.

(** The row a successful end of a lease leaves: under the same fence, not leased. *)
Definition ended_row (r r' : MediaDownloadJob) : Prop :=
  dj_public_state r' <> DOWNLOADING /\ dj_fence_token r' = dj_fence_token r.

Lemma ended_spent id owner fence p f w w' :
  (forall clk r, p clk r = true -> fenced owner fence r = true) ->
  (forall clk r, ended_row r (f clk r)) -> wrote id w w' p f ->
  exists r, media_download_jobs w' !! id = Some r /\ spent (abs r) fence.
Proof.
  intros Hp Hf (clk & r & _ & Hpr & ->). exists (f clk r). rewrite lookup_insert_eq. split; [done|].
  destruct (Hf clk r) as [Hs E]. apply Hp in Hpr. unfold fenced in Hpr. propify.
  right. cbn. split; [lia|done].
Qed.

Lemma held_fenced owner fence clk r : held owner fence clk r = true -> fenced owner fence r = true.
Proof. unfold held. intros H. apply andb_true_iff in H as [H _]. by apply andb_true_iff in H as [H _]. Qed.

Ltac ends := intros ? ?; split; [discriminate|reflexivity].

(** A successful end of a lease leaves the lease spent. *)
Lemma lease_end_spent id fence m w w' :
  lease_end id fence m -> m w = (inr true, w') ->
  exists r, media_download_jobs w' !! id = Some r /\ spent (abs r) fence.
Proof.
  assert (Hc : forall owner, wrote id w w'
    (fun _ r => fenced owner fence r && is_some (dj_cancel_requested_at r)) cancelled_row ->
    exists r, media_download_jobs w' !! id = Some r /\ spent (abs r) fence).
  { intros owner. apply (ended_spent id owner).
    - by intros ? ? [? _]%andb_true_iff.
    - intros clk r. by split; [discriminate|]. }
  assert (Hh : forall owner f, (forall clk r, ended_row r (f clk r)) -> wrote id w w' (held owner fence) f ->
    exists r, media_download_jobs w' !! id = Some r /\ spent (abs r) fence).
  { intros owner f Hf. apply (ended_spent id owner); [apply held_fenced|done]. }
  destruct 1; intros E.
  - apply complete_ready_true in E. by eapply Hh; [|exact E]; ends.
  - apply fail_permanent_true in E. by eapply Hh; [|exact E]; ends.
  - apply fail_retry_true in E as [E|[E|E]]; [by eapply Hc|eapply Hh; [|exact E]; ends| eapply Hh; [|exact E]; ends].
  - apply release_true in E. by eapply Hh; [|exact E]; ends.
  - apply complete_cancelled_true in E. by eapply Hc.
Qed.

Section Lives.

Lemma lease_end_step id fence m w b w' : lease_end id fence m -> m w = (inr b, w') -> step w w'.
Proof.
  assert (Hx : forall op (m : DB bool), exec op = (m ;;; ret tt) -> m w = (inr b, w') -> step w w').
  { intros op m' Eop E. apply (step_exec op w tt). change (exec op w = (inr tt, w')). rewrite Eop.
    by erewrite bind_run. }
  destruct 1.
  - by apply (Hx (OpReady id owner fence artifact size ct c consume)).
  - by apply (Hx (OpFail id owner fence code)).
  - by apply (Hx (OpRetry id owner fence now backoff code)).
  - by apply (Hx (OpRelease id owner fence now)).
  - by apply (Hx (OpCancelled id owner fence)).
Qed.

(** A fact of the life cycle that its steps keep stays true of the row. *)
Lemma abs_forever (K : Abs -> Prop) w w' id r r' :
  (forall a a', abs_step a a' -> K a -> K a') ->
  reachable w -> rtc step w w' -> media_download_jobs w !! id = Some r -> K (abs r) ->
  media_download_jobs w' !! id = Some r' -> K (abs r').
Proof. exact (observed_forever (HL := MediaDownloadJob_lifecycle) K w w' id r r'). Qed.
End Lives.

End DownloadOperations.

(** ** Theorems *)
Module DownloadTheorems.
Import DownloadStates QuotaRepository MediaDownloadJobRepository DownloadLifecycle DownloadOperations.

Section Theorems.

(** C38: In every reachable database, under any interleaving of clients, workers,
    maintenance sweeps, the quota reconciler and promotions, each
    [media_download_jobs] row satisfies the table's CHECK constraints, is stored
    under its id, has used at most [max_attempts] attempts, has an attempt left
    while it is queued, has an artifact exactly while it is ready, and carries a
    cancel request only while it is leased or once it is cancelled; there is one
    job per inspected media and format. *)
Theorem download_jobs_invariant w :
  reachable w ->
  (forall id r, media_download_jobs w !! id = Some r ->
    dj_id r = id /\ MediaDownloadJob_check r = true /\
    0 <= dj_attempt_count r <= dj_max_attempts r /\
    (dj_public_state r = QUEUED -> dj_attempt_count r < dj_max_attempts r) /\
    (dj_public_state r = READY <-> is_some (dj_artifact_id r) = true) /\
    (is_some (dj_cancel_requested_at r) = true ->
       dj_public_state r = DOWNLOADING \/
       project_public_state (dj_public_state r) (dj_progress_stage r) (dj_cancel_requested_at r)
         = CANCELLED)) /\
  (forall id id' r r', media_download_jobs w !! id = Some r -> media_download_jobs w !! id' = Some r' ->
    dj_media_job_id r = dj_media_job_id r' -> dj_format_option_id r = dj_format_option_id r' -> id = id').
Proof.
  intros Hr. apply inv_reachable in Hr as [Hk Hi Hu _ _]. split.
  2: { intros * H1 H2 E1 E2. apply (Hu _ _ _ _ H1 H2). cbn. by rewrite !bool_decide_eq_true_2. }
  intros id r Hid. destruct (Hi _ _ Hid) as [Hc ? ? ? _ _].
  split_and!; try done; [by apply Hk in Hid|lia|lia|..].
  - unfold MediaDownloadJob_check, dj_result_state_check, dj_no_artifact in Hc. propify.
    destruct (dj_public_state r), (dj_artifact_id r); cbn in *; try done.
  - intros Hs. destruct (cancel_requested_where r Hc Hs) as [?|E]; [by left|right].
    unfold project_public_state. by rewrite E.
Qed.

(** C1: Refinement: whatever happens to the database, a download job that exists
    keeps existing, the columns that say what was asked for never change, and
    what is observable of it - state, fence, attempts, lease holder, cancel
    request, artifact - follows the life-cycle specification [abs_step]; a job
    that appears starts queued, with fence 0 and no attempts. *)
Theorem downloads_refine_lifecycle w w' :
  reachable w -> rtc step w w' ->
  (forall id r, media_download_jobs w !! id = Some r ->
    exists r', media_download_jobs w' !! id = Some r' /\ rtc abs_step (abs r) (abs r') /\
      download_identity r = download_identity r') /\
  (forall id r', media_download_jobs w' !! id = Some r' -> media_download_jobs w !! id = None ->
    exists a, abs_initial a /\ rtc abs_step a (abs r')).
Proof. intros Hr Hs. apply (inv_from w w' Hr) in Hs as [_ _ _ He Hn]. auto. Qed.

(** C2: A download lease ends at most once. When publishing, failing, retrying,
    releasing or cancelling succeeded for a job and a fence, then after any
    further operations by anyone no statement of that lease - ending it, renewing
    it or reporting progress - succeeds, and none writes to any table. *)
Theorem download_lease_ends_once id fence m w w1 w2 m' :
  reachable w -> lease_end id fence m -> m w = (inr true, w1) -> rtc step w1 w2 ->
  lease_op id fence m' -> refused m' w2.
Proof.
  intros Hr Hm E Hs Hm'. destruct (lease_end_spent _ _ _ _ _ Hm E) as (r1 & Er1 & Hsp).
  apply (refuses_lease_op id fence w2); [|done|done]. intros r Er.
  refine (abs_forever (fun a => spent a fence) w1 w2 id r1 r _ _ Hs Er1 Hsp Er).
  - intros a a' Ha. by apply spent_step.
  - eapply reachable_step; [done|]. by eapply lease_end_step.
Qed.

(** A download worker whose lease was taken back is locked out for good: once
    the job's fence has moved past the worker's (reclaimed, expired or claimed
    again), no statement of that worker succeeds or writes, whatever happens in
    between. *)
Theorem stale_downloader_locked_out id fence r w w' m :
  reachable w -> media_download_jobs w !! id = Some r -> fence < dj_fence_token r ->
  rtc step w w' -> lease_op id fence m -> refused m w'.
Proof.
  intros Hr Er Hf Hs Hm. apply (refuses_lease_op id fence w'); [|done|done]. intros r' Er'.
  refine (abs_forever (fun a => spent a fence) w w' id r r' _ Hr Hs Er (or_introl Hf) Er').
  intros a a' Ha. by apply spent_step.
Qed.

(** What is left of a job once a cancel was requested. *)
Definition cancelling (a : Abs) : Prop :=
  a_artifact a = None /\ ((a_state a = DOWNLOADING /\ a_cancel a = true) \/ a_state a = EXPIRED).

Lemma cancelling_step a a' : abs_step a a' -> cancelling a -> cancelling a'.
Proof. unfold cancelling. destruct 1; cbn; intuition congruence. Qed.

Lemma requested_cancelling r :
  MediaDownloadJob_check r = true -> is_some (dj_cancel_requested_at r) = true -> cancelling (abs r).
Proof.
  intros Hc Hs. pose proof (cancel_requested_where r Hc Hs) as Hw. unfold cancelling. cbn.
  unfold MediaDownloadJob_check, dj_result_state_check, dj_no_artifact, is_stored_cancelled in *.
  propify. destruct (dj_artifact_id r), (dj_public_state r); cbn in *; intuition (done || congruence).
Qed.

(** C4: A recorded cancel request is final. From then on, whatever workers,
    sweeps and clients do, the job is downloading or expired (shown as cancelled
    or expired) and has no artifact: it is never published, failed or queued
    again, and no attempt to publish it succeeds, under any fence. *)
Theorem cancel_request_is_final id r w w' :
  reachable w -> media_download_jobs w !! id = Some r ->
  is_some (dj_cancel_requested_at r) = true -> rtc step w w' ->
  exists r', media_download_jobs w' !! id = Some r' /\ dj_artifact_id r' = None /\
    project_public_state (dj_public_state r') (dj_progress_stage r') (dj_cancel_requested_at r')
      ∈ [DOWNLOADING; CANCELLED; EXPIRED] /\
    forall owner fence artifact size ct c consume,
      (complete_ready id owner fence artifact size ct c consume w').1 <> inr true.
Proof.
  intros Hr Er Hc Hs. pose proof (inv_reachable _ Hr) as Hi.
  pose proof (requested_cancelling r (di_check _ (inv_download _ _ _ _ Hi Er)) Hc) as Hk.
  destruct (inv_evolves _ _ (inv_from w w' Hr Hs) id r Er) as (r' & Er' & _).
  apply (abs_forever cancelling w w' id r r' cancelling_step Hr Hs Er) in Hk; [|done].
  exists r'. destruct Hk as [Ha Hst]. cbn in Ha, Hst. split_and!; [done|done| |].
  - unfold project_public_state, is_stored_cancelled.
    destruct Hst as [[-> _]| ->]; cbn; [left|]. destruct (_ && _); [right; left|do 2 right; left].
  - intros owner fence artifact size ct c consume E.
    destruct (complete_ready _ _ _ _ _ _ _ _ w') as [res w''] eqn:Ec. cbn in E. subst res.
    apply complete_ready_true in Ec as (clk & x & Ex & Hh & _).
    assert (x = r') as -> by (cbn in Er'; congruence). unfold held, fenced, not_cancelled in Hh. propify.
    destruct Hst as [[_ Hcr]|Hx]; [|congruence]. by destruct (dj_cancel_requested_at r').
Qed.

(** *** Expiry and the artifacts *)

(** The outcome of one turn of the expiry loop, as the job table shows it. *)
Definition expiry_effect (now : time) (w w' : World) (outcome : option (option uid)) : Prop :=
  match outcome with
  | None => media_download_jobs w' = media_download_jobs w
  | Some artifact => exists id r, media_download_jobs w !! id = Some r /\ artifact = dj_artifact_id r /\
      media_download_jobs w' = <[id := expired_row now r]> (media_download_jobs w)
  end.

Abbreviation may_raise := (fun (_ : exn) (_ : World) => True).

Lemma wp_aside {A} (m : DB A) (Q : A -> World -> Prop) w :
  aside m -> (forall a w', media_download_jobs w' = media_download_jobs w -> Q a w') ->
  wp m Q may_raise w.
Proof.
  intros Hm HQ. pose proof (Hm _ w eq_refl) as Ht. unfold wp.
  destruct (m w) as [[e|a] w']; cbn in Ht; [done|]. by apply HQ.
Qed.

Lemma effect_apply_expired r now w0 w :
  media_download_jobs w = media_download_jobs w0 -> media_download_jobs w0 !! dj_id r = Some r ->
  wp (apply_expired_job_fields r now) (fun a w' => expiry_effect now w0 w' (Some a)) may_raise w.
Proof.
  intros E Er. unfold apply_expired_job_fields. wp_step. wp_step; [done|]. wp_step.
  unfold wp, update_row. cbn. rewrite E, Er. destruct (MediaDownloadJob_check _); cbn; [|done].
  by exists (dj_id r), r.
Qed.

Lemma effect_quarantine r entry now w0 w :
  media_download_jobs w = media_download_jobs w0 -> media_download_jobs w0 !! dj_id r = Some r ->
  wp (quarantine_ready_terminal_quota_locked r entry now) (fun o w' => expiry_effect now w0 w' o)
    may_raise w.
Proof.
  intros E Er. apply wp_bind, wp_aside; [auto with fetchnow|]. intros live w1 E1.
  wp_step; [apply wp_ret; cbn; congruence|].
  apply wp_bind, wp_aside; [auto with fetchnow|]. intros _ w2 E2.
  wp_step. eapply wp_mono; [apply (effect_apply_expired r now w0); [congruence|done]|done|done].
Qed.

Lemma effect_expire_and_release quota r entry now w0 w :
  media_download_jobs w = media_download_jobs w0 -> media_download_jobs w0 !! dj_id r = Some r ->
  wp (expire_row_and_release quota r entry now) (fun o w' => expiry_effect now w0 w' o) may_raise w.
Proof.
  intros E Er. apply wp_bind, wp_aside; [case_bool_decide; [auto with fetchnow|solve_untouched]|].
  intros _ w1 E1. wp_step.
  eapply wp_mono; [apply (effect_apply_expired r now w0); [congruence|done]| |done].
  intros a w2 Ha. apply wp_bind, wp_aside.
  - unfold QuotaRepository.database_now, release_locked. solve_untouched.
  - intros _ w3 E3. apply wp_ret. destruct Ha as (id & x & ? & ? & Ex). exists id, x.
    split_and!; [done|done|congruence].
Qed.

Lemma effect_decision r entry now w0 w :
  media_download_jobs w = media_download_jobs w0 -> media_download_jobs w0 !! dj_id r = Some r ->
  wp (expiry_decision r entry now)
    (fun d w' => match d with
                 | Proceed _ => media_download_jobs w' = media_download_jobs w0
                 | Done o => expiry_effect now w0 w' o
                 end) may_raise w.
Proof.
  intros E Er. unfold expiry_decision. wp_step.
  - apply wp_bind, wp_aside; [auto with fetchnow|]. intros live w1 E1. apply wp_ret.
    destruct live; cbn; congruence.
  - wp_step.
    + wp_step. eapply wp_mono; [by apply (effect_quarantine r entry now w0)|done|done].
    + wp_step; [|by apply wp_ret].
      apply wp_bind, wp_aside; [auto with fetchnow|]. intros [res e] w1 E1. cbn.
      wp_step; [|apply wp_ret; congruence].
      apply wp_bind, wp_aside; [exact (live_lease_aside e now)|]. intros live w2 E2. apply wp_ret.
      destruct live; cbn in *; congruence.
Qed.

Lemma effect_expire_one locked now id w :
  keyed (R := MediaDownloadJob) w ->
  wp (expire_one locked now id) (fun o w' => expiry_effect now w w' o) may_raise w.
Proof.
  intros Hk. apply wp_bind, wp_aside; [auto with fetchnow|]. intros quota w1 E1.
  apply wp_bind, wp_aside; [apply clock_aside|]. intros clk w2 E2.
  assert (E : media_download_jobs w2 = media_download_jobs w) by congruence.
  wp_step. apply wp_select_by_id; [|by intros _; apply wp_ret].
  intros r Hr _. cbn in Hr. rewrite E in Hr. rewrite <- (Hk _ _ Hr : dj_id r = id) in Hr.
  wp_step; [|by apply effect_expire_and_release].
  apply wp_bind, wp_aside; [unfold lock_entry_for_download; solve_untouched|].
  intros [entry|] w3 E3; [|apply wp_ret; cbn; congruence].
  wp_step. eapply wp_mono; [apply (effect_decision r entry now w); [congruence|done]| |done].
  intros [e|o] w4 E4; [by apply effect_expire_and_release|by apply wp_ret].
Qed.

(** What the sweep did to the artifacts between two databases: every artifact is
    still its job's or was returned, and only artifacts of expired jobs are
    returned. *)
Definition artifacts_accounted (t t' : gmap uid MediaDownloadJob) (returned : list uid) : Prop :=
  (forall id, t !! id = None -> t' !! id = None) /\
  (forall id r, t !! id = Some r -> exists r', t' !! id = Some r' /\
     (r' = r \/ (dj_public_state r' = EXPIRED /\ dj_artifact_id r' = None /\
                forall a, dj_artifact_id r = Some a -> a ∈ returned))) /\
  (forall a, a ∈ returned -> exists id r r', t !! id = Some r /\ dj_artifact_id r = Some a /\
     t' !! id = Some r' /\ dj_public_state r' = EXPIRED /\ dj_artifact_id r' = None).

Lemma accounted_refl t : artifacts_accounted t t [].
Proof. split_and!; [done|eauto|]. intros a Ha. by apply not_elem_of_nil in Ha. Qed.

Lemma accounted_trans t t' t'' l l' :
  artifacts_accounted t t' l -> artifacts_accounted t' t'' l' -> artifacts_accounted t t'' (l ++ l').
Proof.
  intros (N1 & H1 & B1) (N2 & H2 & B2). split_and!; [auto|..].
  - intros id r Er. destruct (H1 id r Er) as (r1 & Er1 & C1). destruct (H2 id r1 Er1) as (r2 & Er2 & C2).
    exists r2. split; [done|]. setoid_rewrite elem_of_app.
    destruct C1 as [->|(S1 & A1 & L1)], C2 as [->|(S2 & A2 & L2)];
      [by left|right; split_and!; auto..].
  - intros a [Ha|Ha]%elem_of_app.
    + destruct (B1 a Ha) as (id & r & r1 & Er & Ea & Er1 & S1 & A1).
      destruct (H2 id r1 Er1) as (r2 & Er2 & [->|(S2 & A2 & _)]); eauto 10.
    + destruct (B2 a Ha) as (id & r1 & r2 & Er1 & Ea & Er2 & S2 & A2).
      destruct (t !! id) as [r|] eqn:Er; [|rewrite N1 in Er1; done].
      destruct (H1 id r Er) as (x & Ex & [->|(_ & A1 & _)]); [|congruence].
      rewrite Er1 in Ex. injection Ex as <-. eauto 10.
Qed.

Lemma accounted_effect now w w' o :
  expiry_effect now w w' o ->
  artifacts_accounted (media_download_jobs w) (media_download_jobs w')
    match o with Some (Some a) => [a] | _ => [] end.
Proof.
  destruct o as [a|]; cbn; [|intros ->; apply accounted_refl].
  intros (id & r & Er & -> & ->). split_and!.
  - intros i Ei. rewrite lookup_insert_ne; [done|congruence].
  - intros i x Ex. destruct (decide (i = id)) as [->|Hne].
    + rewrite lookup_insert_eq. eexists. split; [done|]. right. cbn. split_and!; [done|done|].
      intros a Ha. assert (x = r) as -> by congruence. rewrite Ha. left.
    + rewrite lookup_insert_ne by done. eauto.
  - intros a Ha. destruct (dj_artifact_id r) as [b|] eqn:Eb; [|by apply not_elem_of_nil in Ha].
    apply list_elem_of_singleton in Ha as ->. exists id, r, (expired_row now r).
    by rewrite lookup_insert_eq.
Qed.

(** C40: No artifact is lost by expiry. When [expire_due_jobs] returns, every job
    row is as it was, or is expired without an artifact and its former artifact is
    among the ids returned for deletion; and every id returned was the artifact of
    a job that is now expired and no longer refers to it. In particular the
    storage of a job that is kept is never handed out for deletion while a
    savepoint that was rolled back returns nothing. *)
Theorem expiry_accounts_for_artifacts locked now w ids w' :
  reachable w -> expire_due_jobs locked now w = (inr ids, w') ->
  artifacts_accounted (media_download_jobs w) (media_download_jobs w') ids.
Proof.
  intros Hr E. apply inv_reachable in Hr. set (t := media_download_jobs w).
  assert (Hw : wp (expire_due_jobs locked now)
    (fun ids w' => inv t w' /\ artifacts_accounted t (media_download_jobs w') ids) may_raise w).
  2: { unfold wp in Hw. rewrite E in Hw. apply Hw. }
  unfold expire_due_jobs. wp_step. apply wp_clock_timestamp. wp_step. apply wp_select.
  apply (wp_fold_m (fun ids w' => inv t w' /\ artifacts_accounted t (media_download_jobs w') ids)).
  2: { split; [|apply accounted_refl]. apply inv_clock. exact (inv_rebase _ _ Hr). }
  clear E. intros l id w1 [Hi Ha]. wp_step. wp_step. apply wp_begin_nested.
  pose proof (keeps_expire_one t locked now id w1 Hi) as Hk.
  pose proof (effect_expire_one locked now id w1 (inv_keyed _ _ Hi)) as He.
  unfold wp in Hk, He |- *. destruct (expire_one locked now id w1) as [[e|o] w2].
  - destruct e; cbn; try done. split; [by apply (inv_tables_only t w1)|exact Ha].
  - cbn. split; [done|]. eapply accounted_trans; [exact Ha|]. by eapply accounted_effect.
Qed.

(** *** The quota entry of a job that ends *)

(** Each entry is stored under its id, and a job has at most one: the primary key
    and the UNIQUE constraint of [free_download_quota_entries]. *)
Definition entries_ok (w : World) : Prop :=
  keyed (R := FreeDownloadQuotaEntry) w /\
  forall i i' e e', free_download_quota_entries w !! i = Some e ->
    free_download_quota_entries w !! i' = Some e' ->
    qe_download_job_id e = qe_download_job_id e' -> i = i'.

Definition consumed_entry (t : time) (e : FreeDownloadQuotaEntry) : FreeDownloadQuotaEntry :=
  e <| qe_state := CONSUMED |> <| qe_consumed_at := Some t |> <| qe_released_at := None |>.
Definition released_entry (t : time) (e : FreeDownloadQuotaEntry) : FreeDownloadQuotaEntry :=
  e <| qe_state := RELEASED |> <| qe_consumed_at := None |> <| qe_released_at := Some t |>.

(** The entry of a job that governs it. *)
Definition entry_of (id : uid) (w : World) (e : FreeDownloadQuotaEntry) : Prop :=
  free_download_quota_entries w !! qe_id e = Some e /\ qe_download_job_id e = id.

Lemma lock_entry_run id w o w' :
  entries_ok w -> lock_entry_for_download id w = (inr o, w') ->
  w' = w /\ match o with Some e => entry_of id w e | None => forall e, ~ entry_of id w e end.
Proof.
  intros [Hk _] E. unfold lock_entry_for_download in E. destruct o as [e|].
  - apply select_first_some in E as (-> & [i Hi] & Hp). split; [done|]. propify.
    split; [|done]. by rewrite (Hk _ _ Hi : qe_id e = i).
  - assert (w' = w) as -> by (unfold select_first, gets in E; congruence). split; [done|].
    intros e [He Hj]. apply (proj1 (select_first_none _ _)) with (id := qe_id e) (r := e) in E; [|done].
    by rewrite bool_decide_eq_true_2 in E.
Qed.

Lemma lock_quota_run id w q w' :
  lock_quota_identity_for_job id w = (inr q, w') ->
  w' = w /\ (q = false -> forall e, ~ entry_of id w e).
Proof.
  unfold lock_quota_identity_for_job, identity_id_for_download. intros E.
  apply bind_inr in E as (c & w1 & E1 & E). apply bind_inr in E1 as (o & w0 & E0 & E1).
  injection E1 as <- <-. destruct o as [e|]; cbn in E.
  - apply select_first_some in E0 as (-> & _ & _).
    apply bind_inr in E as ([] & w2 & E2 & E). injection E as <- <-.
    destruct (is_none _); [done|]. by injection E2 as <-.
  - injection E as <- <-. assert (w0 = w) as -> by (unfold select_first, gets in E0; congruence).
    split; [done|]. intros _ e [He Hj].
    apply (proj1 (select_first_none _ _)) with (id := qe_id e) (r := e) in E0; [|done].
    by rewrite bool_decide_eq_true_2 in E0.
Qed.

Lemma entry_of_unique id w e e' : entries_ok w -> entry_of id w e -> entry_of id w e' -> e = e'.
Proof.
  intros [_ Hu] [He Hj] [He' Hj']. assert (qe_id e = qe_id e') as E by (eapply Hu; eauto; congruence).
  congruence.
Qed.

(** The same entries: what the statements on the job table keep. *)
Definition same_entries (w w' : World) : Prop :=
  free_download_quota_entries w' = free_download_quota_entries w.

(** A settlement wrote the entry it found, and no entry when there was none. *)
Definition settled (id : uid) (w w' : World) (f : time -> FreeDownloadQuotaEntry -> FreeDownloadQuotaEntry)
    (ok : EntryState -> Prop) : Prop :=
  (forall e, entry_of id w e -> ok (qe_state e) /\
    exists t, free_download_quota_entries w' = <[qe_id e := f t e]> (free_download_quota_entries w)) /\
  ((forall e, ~ entry_of id w e) -> same_entries w w').

(** Without an entry there is nothing to settle. *)
Lemma settles_nothing (q : bool) id message (k : FreeDownloadQuotaEntry -> DB unit) w w' :
  entries_ok w -> (forall e, ~ entry_of id w e) ->
  (if negb q then ret tt
   else let* entry := lock_entry_for_download id in
        match entry with None => raise (QuotaInvariantError message) | Some entry => k entry end) w = (inr tt, w') ->
  same_entries w w'.
Proof.
  intros Hok Hno E. destruct q; [|by injection E as <-]. cbn [negb] in E.
  apply bind_inr in E as (o & w1 & E1 & E). apply lock_entry_run in E1 as [-> Ho]; [|done].
  destruct o as [x|]; [|done]. by destruct (Hno x).
Qed.

Lemma update_entry_run e f w e' w' :
  free_download_quota_entries w !! qe_id e = Some e -> update_row (qe_id e) f w = (inr e', w') ->
  free_download_quota_entries w' = <[qe_id e := f e]> (free_download_quota_entries w).
Proof.
  intros He E. unfold update_row in E. cbn in E. rewrite He in E.
  destruct (FreeDownloadQuotaEntry_check _); [|done]. by injection E as _ <-.
Qed.

Lemma consume_run q id w w' :
  entries_ok w -> (q = false -> forall e, ~ entry_of id w e) ->
  consume_quota_after_job_lock q id w = (inr tt, w') ->
  settled id w w' consumed_entry (fun s => s = RESERVED).
Proof.
  intros Hok Hq E. split; [|intros Hno; by refine (settles_nothing q id _ _ w w' Hok Hno E)].
  intros e He. destruct q; [|by destruct (Hq eq_refl e)].
  cbv beta iota delta [consume_quota_after_job_lock negb] in E.
  apply bind_inr in E as (o & w1 & E1 & E). apply lock_entry_run in E1 as [-> Ho]; [|done].
  destruct o as [x|]; [|done]. assert (x = e) as -> by by eapply entry_of_unique.
  apply bind_inr in E as (t & w2 & E2 & E). injection E2 as <- <-.
  apply bind_inr in E as (y & w3 & E3 & E). unfold consume_locked in E3.
  apply bind_inr in E3 as ([] & w4 & E4 & E3). destruct (bool_decide _) eqn:Es in E4; [|done].
  injection E4 as <-. injection E as <-. propify. split; [done|].
  exists (clock w (clock_reads w)). apply update_entry_run in E3; [done|apply He].
Qed.

Lemma release_run q id w w' :
  entries_ok w -> (q = false -> forall e, ~ entry_of id w e) ->
  release_quota_after_job_lock q id false w = (inr tt, w') ->
  settled id w w' (fun t e => if bool_decide (qe_state e = RESERVED) then released_entry t e else e)
    (fun s => s <> CONSUMED).
Proof.
  intros Hok Hq E. split; [|intros Hno; by refine (settles_nothing q id _ _ w w' Hok Hno E)].
  intros e He. destruct q; [|by destruct (Hq eq_refl e)].
  cbv beta iota delta [release_quota_after_job_lock negb] in E.
  apply bind_inr in E as (o & w1 & E1 & E). apply lock_entry_run in E1 as [-> Ho]; [|done].
  destruct o as [x|]; [|done]. assert (x = e) as -> by by eapply entry_of_unique.
  apply bind_inr in E as (t & w2 & E2 & E). injection E2 as <- <-.
  apply bind_inr in E as (y & w3 & E3 & E). injection E as <-. unfold release_locked in E3.
  destruct (qe_state e) eqn:Es; try done; (split; [done|]); exists (clock w (clock_reads w)); cbn.
  - apply update_entry_run in E3; [done|apply He].
  - injection E3 as _ <-. cbn. by rewrite insert_id by apply He.
  - injection E3 as _ <-. cbn. by rewrite insert_id by apply He.
Qed.

Lemma entries_ok_same w w' : same_entries w w' -> entries_ok w -> entries_ok w'.
Proof. unfold same_entries, entries_ok, keyed. cbn. by intros ->. Qed.

Lemma settled_same id w0 w w' f ok : same_entries w0 w -> settled id w w' f ok -> settled id w0 w' f ok.
Proof. unfold settled, entry_of, same_entries. by intros ->. Qed.

Lemma update_job_entries id p (f : MediaDownloadJob -> MediaDownloadJob) w b w' :
  update_by_id id p f w = (inr b, w') -> same_entries w w'.
Proof.
  unfold update_by_id, same_entries. destruct (table w !! id) as [r|]; [|by intros [= _ <-]].
  destruct (p r); [|by intros [= _ <-]]. destruct (row_check (f r)); [|done]. by intros [= _ <-].
Qed.

Lemma lift_run {A} (r : exn + A) (w : World) a w' : lift r w = (inr a, w') -> r = inr a /\ w' = w.
Proof. unfold lift. by intros [= -> <-]. Qed.

(** A statement that ends a lease and settles the quota entry, from its parts. *)
Lemma settled_end id p f q settle w w' fe ok :
  entries_ok w -> (q = false -> forall e, ~ entry_of id w e) ->
  (forall w1 w2, entries_ok w1 -> (q = false -> forall e, ~ entry_of id w1 e) ->
     settle true w1 = (inr tt, w2) -> settled id w1 w2 fe ok) ->
  (let* clk := clock_timestamp in
   let* applied := update_by_id (R := MediaDownloadJob) id (p clk) (f clk) in
   settle applied ;;; ret applied) w = (inr true, w') ->
  settled id w w' fe ok.
Proof.
  intros Hok Hq Hsettle E. apply bind_inr in E as (clk & w1 & E1 & E). injection E1 as <- <-.
  apply bind_inr in E as (b & w2 & E2 & E). apply bind_inr in E as ([] & w3 & E3 & E).
  injection E as -> <-. apply update_job_entries in E2.
  assert (Hs : same_entries w w2) by exact E2.
  apply (settled_same id w w2); [done|]. apply Hsettle; [by eapply entries_ok_same| |done].
  intros Hf e He. apply (Hq Hf e). unfold entry_of in *. by rewrite <- Hs.
Qed.

(** C33: Publishing settles the reservation as the mode says, in the same transaction.
    When [complete_ready] publishes an artifact, the job's row held a live,
    uncancelled lease under the caller's fence and becomes ready with exactly the
    given artifact, and no other job changes. In the compatibility mode
    ([consume_quota_on_ready]) the job's quota entry, if it has one, was reserved -
    a job whose reservation is over is never published this way - and is consumed,
    and no other entry changes; a job without an entry changes none. Outside that
    mode no quota entry changes: the reservation waits for the delivery. *)
Theorem publishing_settles_reservation id owner fence artifact size ct c consume w w' :
  entries_ok w ->
  complete_ready id owner fence artifact size ct c consume w = (inr true, w') ->
  (exists clk r, media_download_jobs w !! id = Some r /\ held owner fence clk r = true /\
     media_download_jobs w' = <[id := ready_row artifact size ct c clk r]> (media_download_jobs w)) /\
  if consume then settled id w w' consumed_entry (fun s => s = RESERVED) else same_entries w w'.
Proof.
  intros Hok E. split; [by apply complete_ready_true in E|]. unfold complete_ready in E.
  apply bind_inr in E as ([] & w1 & E1 & E). destruct (_ <=? _); [done|]. injection E1 as <-.
  apply bind_inr in E as ([] & w1 & E1 & E). apply lift_run in E1 as [_ ->].
  apply bind_inr in E as (q & w1 & E1 & E). destruct consume.
  - apply lock_quota_run in E1 as [-> Hq].
    eapply (settled_end id (held owner fence) (ready_row artifact size ct c) q
      (fun b => if b && true then consume_quota_after_job_lock q id else ret tt)); [done|done| |exact E].
    intros w1 w2 Hok1 Hq1 E1. by apply consume_run in E1.
  - injection E1 as <- <-. apply bind_inr in E as (clk & w1 & E1 & E). injection E1 as <- <-.
    apply bind_inr in E as (b & w2 & E2 & E). apply bind_inr in E as ([] & w3 & E3 & E). injection E as -> <-.
    injection E3 as <-. by apply update_job_entries in E2.
Qed.

(** The two statements by which a worker ends a job without a result. *)
Inductive gives_up (id : uid) : DB bool -> Prop :=
| gu_fail owner fence code : gives_up id (fail_permanent id owner fence code)
| gu_cancelled owner fence : gives_up id (complete_cancelled id owner fence).

(** Failure and cancellation give the reservation back, in the same
    transaction: when a worker ends a job by a permanent failure or by a cancel,
    the job's quota entry, if it has one, was not consumed; a reserved one is
    released, one that is already over stays as it is, and no other entry
    changes. *)
Theorem giving_up_releases_reservation id m w w' :
  entries_ok w -> gives_up id m -> m w = (inr true, w') ->
  settled id w w' (fun t e => if bool_decide (qe_state e = RESERVED) then released_entry t e else e)
    (fun s => s <> CONSUMED).
Proof.
  intros Hok Hm E. destruct Hm; unfold fail_permanent, complete_cancelled in E;
    apply bind_inr in E as ([] & w1 & E1 & E); apply lift_run in E1 as [_ ->];
    apply bind_inr in E as (q & w1 & E1 & E); apply lock_quota_run in E1 as [-> Hq].
  1: eapply (settled_end id (held owner fence) (failed_row code) q
      (fun b => if b then release_quota_after_job_lock q id false else ret tt)); [done|done| |exact E].
  2: eapply (settled_end id (fun _ r => fenced owner fence r && is_some (dj_cancel_requested_at r))
      cancelled_row q
      (fun b => if b then release_quota_after_job_lock q id false else ret tt)); [done|done| |exact E].
  all: intros w1 w2 Hok1 Hq1 E1; by apply release_run in E1.
Qed.

(** The reported percentage only grows within a stage. [set_progress_percent]
    answers [True] exactly when the row is then a live, uncancelled download of
    the caller's lease with that percentage, which is between the stored one and
    99; when it answers [False] it wrote nothing. It never raises in a reachable
    database. *)
Theorem progress_percent_monotone id owner fence percent now w :
  reachable w ->
  exists b w', set_progress_percent id owner fence percent now w = (inr b, w') /\
    if b then
      exists r r', media_download_jobs w !! id = Some r /\ media_download_jobs w' !! id = Some r' /\
        transferring owner fence (clock w (clock_reads w)) r = true /\
        default 0 (dj_progress_percent r) <= percent <= 99 /\
        dj_progress_percent r' = Some percent /\ dj_progress_stage r' = dj_progress_stage r
    else same_tables w w'.
Proof.
  intros Hr. apply inv_reachable in Hr. unfold set_progress_percent.
  destruct (_ || _) eqn:Eb; [by exists false, w|]. propify.
  erewrite bind_run; [|reflexivity]. set (w1 := w <| clock_reads := _ |>).
  unfold bind at 1, select_by_id, gets. cbn.
  destruct (media_download_jobs w !! id) as [r|] eqn:Er; cbn; [|by exists false, w1].
  destruct (transferring _ _ _ r) eqn:Ep; [|by exists false, w1].
  assert (Hp : 0 <= percent <= 99) by lia.
  pose proof (percent_good owner fence _ percent now r (inv_download _ _ _ _ Hr Er) Ep Hp) as Hg.
  set (f := fun job : MediaDownloadJob =>
    job <| dj_progress_percent := Some percent |> <| dj_updated_at := now |>).
  change (good_update r (f r)) in Hg.
  assert (Er1 : table w1 !! id = Some r) by exact Er.
  assert (Hwrite : forall b w', (update_row id f ;;; ret true) w1 = (inr b, w') ->
    b = true /\ media_download_jobs w' !! id = Some (f r)).
  { intros b w' E. unfold bind in E. rewrite (update_row_run id f w1 r Er1) in E.
    - injection E as <- <-. split; [done|]. cbn. by rewrite lookup_insert_eq.
    - by eapply good_update_check. }
  assert (Hrun : exists w', (update_row id f ;;; ret true) w1 = (inr true, w')).
  { unfold bind. rewrite (update_row_run id f w1 r Er1); [by eexists|by eapply good_update_check]. }
  destruct Hrun as [w2 E2]. pose proof (proj2 (Hwrite _ _ E2)) as Er2.
  destruct (dj_progress_percent r) as [stored|] eqn:Es.
  - destruct (Z.ltb_spec percent stored); [by exists false, w1|].
    destruct (Z.eqb_spec percent stored) as [->|].
    + exists true, w1. split; [done|]. exists r, r. split_and!; try done; rewrite ?Es; cbn; lia.
    + exists true, w2. split; [exact E2|]. exists r, (f r). split_and!; try done; rewrite ?Es; cbn; lia.
  - exists true, w2. split; [exact E2|]. exists r, (f r). split_and!; try done; rewrite ?Es; cbn; lia.
Qed.

(** The stage an executor must not report. [set_progress_stage] lets a leased
    job move to [RETRYING], which the progress machine allows from every working
    stage, but the CHECK constraint of the table excludes that stage while the job
    is downloading: the call always ends in an [IntegrityError] instead of an
    answer, and writes nothing. *)
Theorem retrying_stage_violates_check id r owner fence now w :
  reachable w -> media_download_jobs w !! id = Some r ->
  fenced owner fence r && not_cancelled r = true ->
  set_progress_stage id owner fence Progress.RETRYING now w = (inl IntegrityError, w).
Proof.
  intros Hr Er Hp. apply inv_reachable in Hr. pose proof (inv_download _ _ _ _ Hr Er) as Hri.
  assert (Hd : dj_public_state r = DOWNLOADING) by (unfold fenced in Hp; by propify).
  pose proof (downloading_stage r (di_check _ Hri) Hd) as Hw.
  assert (Hsel : select_by_id id (fun r => fenced owner fence r && not_cancelled r) w = (inr (Some r), w)).
  { unfold select_by_id, gets. cbn. rewrite Er. cbn. by rewrite Hp. }
  assert (Ht : Progress.assert_progress_transition (Progress.value (dj_progress_stage r))
                 (Progress.value Progress.RETRYING) = inr tt).
  { destruct (dj_progress_stage r); try discriminate Hw; reflexivity. }
  unfold set_progress_stage. rewrite bool_decide_eq_false_2.
  2: { rewrite !not_elem_of_cons. repeat split; try discriminate. apply not_elem_of_nil. }
  rewrite (bind_run _ _ _ _ _ Hsel), Ht. rewrite (bind_run _ _ w tt w) by done.
  unfold bind, update_row. change (table w) with (media_download_jobs w). rewrite Er.
  destruct (row_check _) eqn:Hc; [|done]. apply downloading_stage in Hc; [done|exact Hd].
Qed.

(** What a user's cancel makes of a job row. *)
Definition cancel_request_row (now : time) (r : MediaDownloadJob) : MediaDownloadJob :=
  match dj_public_state r, dj_cancel_requested_at r with
  | QUEUED, _ => (apply_stored_cancel now r) <| dj_cancel_requested_at := Some now |>
  | DOWNLOADING, None => r <| dj_cancel_requested_at := Some now |> <| dj_updated_at := now |>
  | _, _ => r
  end.

Lemma request_cancel_run id now w r :
  inv ∅ w -> media_download_jobs w !! id = Some r ->
  wp (request_cancel id now) (fun res w' => res = Some (cancel_request_row now r) /\
    media_download_jobs w' = <[id := cancel_request_row now r]> (media_download_jobs w)) may_raise w.
Proof.
  intros Hi Er. pose proof (inv_download _ _ _ _ Hi Er) as Hri.
  assert (Hid : forall w', media_download_jobs w' = media_download_jobs w ->
    media_download_jobs w' = <[id := r]> (media_download_jobs w)).
  { intros w' ->. by rewrite insert_id. }
  apply wp_bind, wp_aside; [auto with fetchnow|]. intros quota w1 E1. wp_step.
  apply wp_select_by_id.
  2: { cbn. rewrite E1. intros Hn. by specialize (Hn r Er). }
  cbn. rewrite E1. intros x Ex _. assert (x = r) as -> by congruence.
  assert (Hup : forall f w0, media_download_jobs w0 = media_download_jobs w -> MediaDownloadJob_check (f r) = true ->
    update_row id f w0 = (inr (f r), with_table (<[id := f r]> (media_download_jobs w)) w0)).
  { intros f w0 E Hc. unfold update_row. change (table w0) with (media_download_jobs w0).
    rewrite E, Er. change (row_check (f r)) with (MediaDownloadJob_check (f r)). by rewrite Hc. }
  unfold cancel_request_row. wp_step.
  { apply wp_ret. unfold is_stored_cancelled in *. propify.
    match goal with E : dj_public_state r = EXPIRED |- _ => rewrite E end. by split; [|apply Hid]. }
  destruct (dj_public_state r) eqn:Es; try (apply wp_ret; by split; [|apply Hid]).
  - wp_step. wp_step; [done|]. wp_step. unfold wp at 1. rewrite Hup; [|done|].
    2: { apply (cancel_queued_good now r Hri Es). }
    apply wp_bind, wp_aside; [auto with fetchnow|]. intros [] w2 E2. apply wp_ret. by split.
  - destruct (dj_cancel_requested_at r) eqn:Ec; (wp_step; [|try discriminate]); try discriminate.
    + apply wp_ret. by split; [|apply Hid].
    + wp_step. unfold wp at 1. rewrite Hup; [by apply wp_ret|done|].
      apply (request_cancel_good now r Hri Es Ec).
  - done.
Qed.

(** A user's cancel answers for every state and is idempotent. It ends a
    queued job at once as cancelled, marks a downloading one, and leaves a
    finished, failed, expired or already cancelled job as it is; it changes no
    other job; and a second request changes no job any more. *)
Theorem request_cancel_outcome id now w res w' :
  reachable w -> request_cancel id now w = (inr res, w') ->
  match media_download_jobs w !! id with
  | None => res = None /\ media_download_jobs w' = media_download_jobs w
  | Some r =>
      res = Some (cancel_request_row now r) /\
      media_download_jobs w' = <[id := cancel_request_row now r]> (media_download_jobs w) /\
      project_public_state (dj_public_state (cancel_request_row now r))
        (dj_progress_stage (cancel_request_row now r)) (dj_cancel_requested_at (cancel_request_row now r))
        = match dj_public_state r with
          | QUEUED => CANCELLED
          | _ => project_public_state (dj_public_state r) (dj_progress_stage r) (dj_cancel_requested_at r)
          end /\
      forall now' res' w'', request_cancel id now' w' = (inr res', w'') ->
        res' = res /\ media_download_jobs w'' = media_download_jobs w'
  end.
Proof.
  intros Hr E. apply inv_reachable in Hr.
  destruct (media_download_jobs w !! id) as [r|] eqn:Er.
  2: { unfold request_cancel in E. apply skip_aside in E as (q & w1 & E1 & E); [|auto with fetchnow].
       unfold bind, select_by_id, gets in E. cbn in E. rewrite E1, Er in E. cbn in E.
       by injection E as <- <-. }
  pose proof (request_cancel_run id now w r Hr Er) as Hw. unfold wp in Hw. rewrite E in Hw.
  destruct Hw as [-> Ew]. split_and!; [done|done|..].
  - unfold cancel_request_row, project_public_state, is_stored_cancelled.
    destruct (dj_public_state r) eqn:Es; cbn; rewrite ?Es; try done.
    destruct (dj_cancel_requested_at r) eqn:Ec; cbn; by rewrite ?Es, ?Ec.
  - intros now' res' w'' E'. set (r' := cancel_request_row now r) in *.
    assert (Hi' : inv ∅ w').
    { pose proof (keeps_request_cancel ∅ id now w Hr) as Hk. unfold wp in Hk. by rewrite E in Hk. }
    assert (Er' : media_download_jobs w' !! id = Some r') by (by rewrite Ew, lookup_insert_eq).
    pose proof (request_cancel_run id now' w' r' Hi' Er') as Hw. unfold wp in Hw. rewrite E' in Hw.
    assert (Hfix : cancel_request_row now' r' = r').
    { unfold r', cancel_request_row. destruct (dj_public_state r) eqn:Es; cbn; rewrite ?Es; try done.
      destruct (dj_cancel_requested_at r) eqn:Ec; cbn; by rewrite ?Es, ?Ec. }
    rewrite Hfix in Hw. destruct Hw as [-> ->]. split; [done|]. by rewrite insert_id.
Qed.

End Theorems.
End DownloadTheorems.

(** ** Witnesses: a job queued, leased, published or cancelled, and expired *)
Module DownloadExamples.
Import DownloadStates QuotaRepository MediaDownloadJobRepository DownloadLifecycle DownloadOperations
  DownloadTheorems.


Definition demo_clock (n : nat) : time := seconds (Z.of_nat n).
Definition demo_uuids (n : nat) : uid := (900 + N.of_nat n)%N.
Definition no_locks (_ : uid) : bool := false.

Definition demo_request : EnqueueArgs := {|
  eq_media_job_id := 7;
  eq_format_option_id := "fmt-1080";
  eq_provider_id := "youtube";
  eq_canonical_provider_url := "https://www.youtube.com/watch/abc";
  eq_media_id := "abc";
  eq_hostname := "www.youtube.com";
  eq_path := "/watch/abc";
  eq_scheme := "https";
  eq_port := None;
  eq_selected_format_snapshot := [];
  eq_now := 0;
  eq_ttl_seconds := 100;
  eq_max_attempts := 2;
  eq_parent_expires_at := seconds 3600;
  eq_suggested_filename := None;
  eq_job_id := Some 50%N
|}.

Definition demo_entry : FreeDownloadQuotaEntry := {|
  qe_id := 60; qe_anonymous_client_id := 1; qe_download_job_id := 50; qe_state := RESERVED;
  qe_reserved_at := 0; qe_reservation_expires_at := seconds 100;
  qe_consumed_at := None; qe_released_at := None
|}.
Definition demo_identity : AnonymousClient := {|
  ac_id := 1; ac_token_hash := replicate 32 Byte.x01; ac_created_at := 0; ac_expires_at := seconds 9000
|}.

Definition run (op : DownloadOp) (w : World) : World := (begin_nested (exec op) w).2.

(** The inspected media, the identity and, once the job exists, its reservation. *)
Definition demo_parent : World :=
  (empty_world demo_clock demo_uuids)
    <| media_jobs := {[ 7%N := JobExamples.demo_row JobExamples.demo3 ]} |>
    <| anonymous_clients := {[ 1%N := demo_identity ]} |>.
Definition demo_queued0 : World := run (OpEnqueue demo_request) demo_parent.
Definition demo_queued : World :=
  demo_queued0 <| free_download_quota_entries := {[ 60%N := demo_entry ]} |>.
Definition demo_leased : World := run (OpClaim no_locks "w1" (seconds 60) 0 1) demo_queued.
Definition demo_video : World := run (OpStage 50 "w1" 1 Progress.DOWNLOADING_VIDEO 0) demo_leased.
Definition demo_published : World := run (OpReady 50 "w1" 1 77 1000 "video/mp4" "mp4" true) demo_leased.
Definition demo_requested : World := run (OpRequestCancel 50 (seconds 1)) demo_leased.
Definition demo_cancelled : World := run (OpCancelled 50 "w1" 1) demo_requested.
(** After the time to live. *)
Definition demo_late : World := demo_published <| clock_reads := 500%nat |>.

Definition demo_row (w : World) : MediaDownloadJob :=
  default (queued_job 0 demo_request) (media_download_jobs w !! 50%N).

Lemma download_step op w : step w (run op w).
Proof. exact (step_op (R := MediaDownloadJob) (Op := DownloadOp) op w). Defined.
Lemma reachable_op op w : reachable w -> reachable (run op w).
Proof. intros Hr. eapply reachable_step; [exact Hr|apply download_step]. Defined.
Lemma reachable_env w w' :
  reachable w -> media_download_jobs w' = media_download_jobs w -> reachable w'.
Proof. intros Hr E. eapply reachable_step; [exact Hr|by apply (step_env (R := MediaDownloadJob) (Op := DownloadOp))]. Defined.

Lemma demo_parent_reachable : reachable demo_parent.
Proof.
  apply (reachable_env (empty_world demo_clock demo_uuids)); [|reflexivity].
  exists demo_clock, demo_uuids. apply rtc_refl.
Defined.
(** Writes to other columns of the world leave the jobs. *)
Lemma clock_jobs n w : media_download_jobs (w <| clock_reads := n |>) = media_download_jobs w.
Proof. reflexivity. Defined.
Lemma entries_jobs t w :
  media_download_jobs (w <| free_download_quota_entries := t |>) = media_download_jobs w.
Proof. reflexivity. Defined.

Lemma demo_leased_reachable : reachable demo_leased.
Proof.
  apply reachable_op. apply (reachable_env demo_queued0); [|exact (entries_jobs _ demo_queued0)].
  apply reachable_op, demo_parent_reachable.
Defined.
Lemma demo_late_reachable : reachable demo_late.
Proof.
  apply (reachable_env demo_published); [|exact (clock_jobs 500 demo_published)]. apply reachable_op, demo_leased_reachable.
Defined.

Lemma demo_leased_row : media_download_jobs demo_leased !! 50%N = Some (demo_row demo_leased).
Proof. vm_compute. reflexivity. Qed.

Lemma demo_requested_row : media_download_jobs demo_requested !! 50%N = Some (demo_row demo_requested).
Proof. vm_compute. reflexivity. Qed.

Lemma download_jobs_invariant_witness :
  dj_public_state (demo_row demo_leased) = DOWNLOADING /\
  0 <= dj_attempt_count (demo_row demo_leased) <= dj_max_attempts (demo_row demo_leased).
Proof.
  split; [vm_compute; reflexivity|].
  apply (proj1 (download_jobs_invariant demo_leased demo_leased_reachable) 50%N _ demo_leased_row).
Defined.

Lemma downloads_refine_lifecycle_witness :
  exists r', media_download_jobs demo_published !! 50%N = Some r' /\
    rtc abs_step (abs (demo_row demo_leased)) (abs r').
Proof.
  destruct (proj1 (downloads_refine_lifecycle demo_leased demo_published demo_leased_reachable
    (rtc_once _ _ (download_step _ _))) 50%N _ demo_leased_row) as (r' & E & Ha & _).
  exists r'. split; [exact E|exact Ha].
Defined.

Lemma download_lease_ends_once_witness :
  refused (complete_ready 50 "w1" 1 78 2000 "video/mp4" "mp4" true) demo_published.
Proof.
  apply (download_lease_ends_once 50 1 (complete_ready 50 "w1" 1 77 1000 "video/mp4" "mp4" true)
    demo_leased (complete_ready 50 "w1" 1 77 1000 "video/mp4" "mp4" true demo_leased).2 demo_published).
  - exact demo_leased_reachable.
  - apply le_ready.
  - vm_compute. reflexivity.
  - apply rtc_once, (step_env (R := MediaDownloadJob) (Op := DownloadOp)). vm_compute. reflexivity.
  - apply lo_ready.
Defined.

Lemma stale_downloader_locked_out_witness :
  refused (complete_ready 50 "w0" 0 78 2000 "video/mp4" "mp4" true) demo_leased.
Proof.
  apply (stale_downloader_locked_out 50 0 (demo_row demo_leased) demo_leased demo_leased).
  - exact demo_leased_reachable.
  - exact demo_leased_row.
  - vm_compute. reflexivity.
  - apply rtc_refl.
  - apply lo_ready.
Defined.

Lemma cancel_request_is_final_witness :
  exists r', media_download_jobs demo_cancelled !! 50%N = Some r' /\ dj_artifact_id r' = None.
Proof.
  destruct (cancel_request_is_final 50 (demo_row demo_requested) demo_requested demo_cancelled)
    as (r' & E & Ha & _).
  - apply reachable_op, demo_leased_reachable.
  - exact demo_requested_row.
  - vm_compute. reflexivity.
  - apply rtc_once, download_step.
  - exists r'. split; [exact E|exact Ha].
Defined.

Lemma expiry_accounts_for_artifacts_witness :
  artifacts_accounted (media_download_jobs demo_late)
    (media_download_jobs (expire_due_jobs no_locks (seconds 500) demo_late).2) [77%N].
Proof.
  apply (expiry_accounts_for_artifacts no_locks (seconds 500) demo_late).
  - exact demo_late_reachable.
  - vm_compute. reflexivity.
Defined.

Lemma demo_entries_ok w :
  free_download_quota_entries w = {[ 60%N := demo_entry ]} -> entries_ok w.
Proof.
  intros E. unfold entries_ok, keyed. cbn. rewrite E. split.
  - intros i e. rewrite lookup_singleton_Some. by intros [<- <-].
  - intros i i' e e'. rewrite !lookup_singleton_Some. by intros [<- <-] [<- <-].
Defined.

Definition demo_delivered_later : World := (complete_ready 50 "w1" 1 77 1000 "video/mp4" "mp4" false demo_leased).2.

Lemma publishing_settles_reservation_witness :
  settled 50 demo_leased demo_published consumed_entry (fun s => s = RESERVED) /\
  same_entries demo_leased demo_delivered_later /\ entry_of 50 demo_leased demo_entry.
Proof.
  split; [|split; [|split; vm_compute; reflexivity]].
  - apply (publishing_settles_reservation 50 "w1" 1 77 1000 "video/mp4" "mp4" true demo_leased demo_published).
    + apply demo_entries_ok. vm_compute. reflexivity.
    + vm_compute. reflexivity.
  - apply (publishing_settles_reservation 50 "w1" 1 77 1000 "video/mp4" "mp4" false demo_leased demo_delivered_later).
    + apply demo_entries_ok. vm_compute. reflexivity.
    + vm_compute. reflexivity.
Defined.

Lemma giving_up_releases_reservation_witness :
  settled 50 demo_requested demo_cancelled
    (fun t e => if bool_decide (qe_state e = RESERVED) then released_entry t e else e)
    (fun s => s <> CONSUMED).
Proof.
  apply (giving_up_releases_reservation 50 (complete_cancelled 50 "w1" 1) demo_requested demo_cancelled).
  - apply demo_entries_ok. vm_compute. reflexivity.
  - apply gu_cancelled.
  - vm_compute. reflexivity.
Defined.

Lemma progress_percent_monotone_witness :
  exists b w', set_progress_percent 50 "w1" 1 40 0 demo_video = (inr b, w') /\ b = true.
Proof.
  destruct (progress_percent_monotone 50 "w1" 1 40 0 demo_video) as (b & w' & E & _).
  - apply reachable_op, demo_leased_reachable.
  - exists b, w'. split; [exact E|]. apply (f_equal fst) in E. vm_compute in E. by injection E as <-.
Defined.

Lemma retrying_stage_violates_check_witness :
  set_progress_stage 50 "w1" 1 Progress.RETRYING 0 demo_leased = (inl IntegrityError, demo_leased).
Proof.
  apply (retrying_stage_violates_check 50 (demo_row demo_leased) "w1" 1 0 demo_leased).
  - exact demo_leased_reachable.
  - exact demo_leased_row.
  - vm_compute. reflexivity.
Defined.

Lemma request_cancel_outcome_witness :
  project_public_state (dj_public_state (cancel_request_row 0 (demo_row demo_queued)))
    (dj_progress_stage (cancel_request_row 0 (demo_row demo_queued)))
    (dj_cancel_requested_at (cancel_request_row 0 (demo_row demo_queued))) = CANCELLED.
Proof.
  assert (Hr : reachable demo_queued).
  { apply (reachable_env demo_queued0); [|exact (entries_jobs _ demo_queued0)]. apply reachable_op, demo_parent_reachable. }
  pose proof (request_cancel_outcome 50 0 demo_queued
    (Some (cancel_request_row 0 (demo_row demo_queued))) (request_cancel 50 0 demo_queued).2 Hr) as Ho.
  assert (E : media_download_jobs demo_queued !! 50%N = Some (demo_row demo_queued))
    by (vm_compute; reflexivity).
  rewrite E in Ho. destruct Ho as (_ & _ & Hp & _); [vm_compute; reflexivity|].
  rewrite Hp. vm_compute. reflexivity.
Defined.

End DownloadExamples.
