(* ===== verification/DownloadServiceTheorems.v ===== *)
(** What the download endpoints promise: the view of a job shows what its row
    holds, reads are for the bearer of the token, and a created download is the
    format asked for, under a policy that allows it. *)

From S2P Require Export DownloadService FilenameTheorems AuthorizeTheorems DownloadTheorems.

Local Open Scope string_scope.
Local Open Scope list_scope.
Local Open Scope Z_scope.

Module DownloadServiceTheorems.
Import DownloadStates MediaDownloadJobRepository DownloadJobService DownloadPremiumUpgradeService GrantTheorems AuthorizeTheorems.

Section Views.
Context `{UnicodeData} (settings : Settings).

(** ** The view of a job *)

(** The texts recorded with the job can be read: its format, its policy and its
    file name. *)
Record readable (job : MediaDownloadJob) (fmt : MediaFormat) (policy : EffectiveDownloadPolicy) (name : list N) : Prop := {
  rd_format : _public_snapshot job = inr (format_members fmt);
  rd_policy : _effective_policy_snapshot settings job = inr policy;
  rd_name : _public_suggested_filename job (format_members fmt) = inr name
}.

Lemma percent_view job : MediaDownloadJob_check job = true ->
  _public_progress_percent job (project_public_state (dj_public_state job) (dj_progress_stage job) (dj_cancel_requested_at job))
    (dj_progress_stage job) = inr (dj_progress_percent job).
Proof.
  unfold MediaDownloadJob_check, dj_progress_percent_check, _public_progress_percent. intros Hc. propify.
  destruct (dj_progress_percent job) as [p|] eqn:Ep; [|by destruct (_ || _)].
  destruct (dj_public_state job) eqn:Es; try by rewrite ?andb_false_r in *.
  assert (Hs : dj_progress_stage job ∈ DOWNLOAD_PERCENT_STAGES).
  { unfold DOWNLOAD_PERCENT_STAGES. destruct (dj_progress_stage job); rewrite ?andb_false_r in *; try done; set_solver. }
  unfold project_public_state, is_stored_cancelled. cbn [bool_decide andb]. rewrite !bool_decide_eq_true_2 by done.
  cbn [negb orb]. propify. replace (p <? 0) with false by (symmetry; apply Z.ltb_ge; lia).
  by replace (99 <? p) with false by (symmetry; apply Z.ltb_ge; lia).
Qed.

Lemma no_artifact_bytes job : dj_no_artifact job = true -> dj_artifact_bytes job = None.
Proof. unfold dj_no_artifact. intros Hn. propify. by destruct (dj_artifact_bytes job). Qed.

Lemma bytes_view job : MediaDownloadJob_check job = true ->
  _public_artifact_bytes job (project_public_state (dj_public_state job) (dj_progress_stage job) (dj_cancel_requested_at job))
  = inr (dj_artifact_bytes job).
Proof.
  unfold MediaDownloadJob_check, dj_result_state_check, _public_artifact_bytes. intros Hc. propify.
  assert (Hn : dj_public_state job <> READY -> dj_artifact_bytes job = None).
  { intros Hs. destruct (dj_public_state job); propify; by apply no_artifact_bytes. }
  unfold project_public_state. destruct (decide (dj_public_state job = READY)) as [Es|Es].
  - rewrite Es in *. unfold is_stored_cancelled. cbn [bool_decide andb]. propify.
    destruct (dj_artifact_bytes job) as [b|]; [|done]. propify. cbn. by replace (b <=? 0) with false by (symmetry; apply Z.leb_gt; lia).
  - rewrite Hn by done. by destruct (is_stored_cancelled _ _ _); rewrite bool_decide_eq_false_2 by done.
Qed.

(** How the stored state is shown: a cancelled download is stored as expired. *)
Definition shown_state (job : MediaDownloadJob) : MediaDownloadJobState :=
  project_public_state (dj_public_state job) (dj_progress_stage job) (dj_cancel_requested_at job).

(** The view of a row that the table's constraints admit. *)
Definition view_of (job : MediaDownloadJob) (fmt : MediaFormat) (policy : EffectiveDownloadPolicy) (name : list N)
    (created : bool) : DownloadJobView := {|
  vw_id := dj_id job; vw_media_job_id := dj_media_job_id job; vw_public_state := value (shown_state job);
  vw_provider_id := dj_provider_id job; vw_format_option_id := dj_format_option_id job;
  vw_selected_format := format_members fmt; vw_created_at := dj_created_at job; vw_updated_at := dj_updated_at job;
  vw_expires_at := dj_expires_at job; vw_completed_at := dj_completed_at job;
  vw_artifact_ready := bool_decide (dj_public_state job = READY);
  vw_error_code := match shown_state job with
                   | FAILED => Some (public_error_text (dj_public_error_code job))
                   | EXPIRED => Some "DOWNLOAD_EXPIRED"
                   | _ => None
                   end;
  vw_progress_stage := Progress.value (dj_progress_stage job);
  vw_attempt_count := dj_attempt_count job; vw_max_attempts := dj_max_attempts job;
  vw_next_attempt_at := if bool_decide (dj_progress_stage job = Progress.RETRYING) then Some (dj_available_at job) else None;
  vw_cancellable := bool_decide (dj_public_state job = QUEUED) || bool_decide (dj_public_state job = DOWNLOADING);
  vw_progress_percent := dj_progress_percent job; vw_artifact_bytes := dj_artifact_bytes job;
  vw_suggested_filename := name; vw_created := created; vw_effective_policy := Some policy |}.

Lemma shown_open job s : s <> EXPIRED -> s <> CANCELLED -> MediaDownloadJob_check job = true ->
  bool_decide (shown_state job = s) = bool_decide (dj_public_state job = s).
Proof.
  intros He Hc Hk. unfold shown_state, project_public_state, is_stored_cancelled. apply bool_decide_ext.
  destruct (decide (dj_public_state job = EXPIRED)) as [->|]; [by destruct (_ && _ && _)|].
  by rewrite bool_decide_eq_false_2.
Qed.

Lemma retrying_queued job : MediaDownloadJob_check job = true -> dj_progress_stage job = Progress.RETRYING -> dj_public_state job = QUEUED.
Proof. unfold MediaDownloadJob_check, dj_progress_state_check. intros Hc Hs. rewrite Hs in Hc. propify. by destruct (dj_public_state job). Qed.

Lemma to_view_run job fmt policy name created : MediaDownloadJob_check job = true -> readable job fmt policy name ->
  _to_view settings job created None = inr (view_of job fmt policy name created).
Proof.
  intros Hc [Hf Hp Hn]. unfold _to_view. rewrite Hf. cbn [err_bind].
  rewrite percent_view, bytes_view by done. cbn [err_bind]. rewrite Hn. cbn [err_bind]. rewrite Hp. cbn [err_bind].
  fold (shown_state job). unfold view_of. f_equal. f_equal.
  - by apply shown_open.
  - cbn [is_none is_some negb]. rewrite andb_true_r. destruct (decide (dj_progress_stage job = Progress.RETRYING)) as [Hs|Hs].
    + rewrite (shown_open job QUEUED) by done. rewrite !bool_decide_eq_true_2 by eauto using retrying_queued. done.
    + rewrite !(bool_decide_eq_false_2 (dj_progress_stage job = _)) by done. by rewrite andb_false_r.
  - cbn [is_none is_some negb]. rewrite andb_true_r, <- (shown_open job QUEUED), <- (shown_open job DOWNLOADING) by done.
    by destruct (shown_state job).
Qed.

(** The forced view of an overdue job. *)
Lemma to_view_overdue job fmt policy name : MediaDownloadJob_check job = true -> readable job fmt policy name ->
  match _to_view settings job false (Some (EXPIRED, DOWNLOAD_EXPIRED)) with
  | inl e => (dj_progress_percent job <> None /\ e = internal "PROGRESS_PERCENT_INVALID") \/
             (dj_public_state job = READY /\ e = internal "ARTIFACT_BYTES_INVALID")
  | inr view => dj_progress_percent job = None /\ dj_public_state job <> READY /\
      vw_id view = dj_id job /\ vw_public_state view = "expired" /\ vw_error_code view = Some "DOWNLOAD_EXPIRED" /\
      vw_artifact_ready view = false /\ vw_cancellable view = false
  end.
Proof.
  intros Hc [Hf Hp Hn]. pose proof (bytes_view job Hc) as Hb. fold (shown_state job) in Hb.
  unfold _to_view. rewrite Hf. cbn [err_bind].
  unfold _public_progress_percent at 1. rewrite (bool_decide_eq_false_2 (EXPIRED = DOWNLOADING)) by done. cbn [negb orb].
  destruct (dj_progress_percent job) as [p|]; cbn [is_some raise_if err_bind]; [by left|].
  unfold _public_artifact_bytes at 1. rewrite (bool_decide_eq_false_2 (EXPIRED = READY)) by done. cbn [negb].
  unfold _public_artifact_bytes in Hb. rewrite (shown_open job READY) in Hb by done.
  destruct (dj_artifact_bytes job) as [b|]; cbn [is_some raise_if err_bind].
  - right. split; [|done]. by destruct (decide (dj_public_state job = READY)); [|rewrite bool_decide_eq_false_2 in Hb by done].
  - rewrite Hn. cbn [err_bind]. rewrite Hp. cbn [err_bind]. cbn. split_and!; try done. intros Hs. by rewrite bool_decide_eq_true_2 in Hb.
Qed.

(** ** Reading a job *)

(** The view of a job shows its row. For every row the constraints of the table
    admit and whose recorded texts are readable, the view exists and shows the
    stored format without the policy or any other stored key, the artifact and its
    size exactly when the job is ready, the percentage as stored, an error code
    exactly for failed and expired jobs, the next attempt exactly for jobs waiting
    to be retried, and a cancelled job as cancelled. *)
Theorem views_are_total job fmt policy name created :
  MediaDownloadJob_check job = true -> readable job fmt policy name ->
  exists view, _to_view settings job created None = inr view /\
    vw_selected_format view = format_members fmt /\ vw_suggested_filename view = name /\
    (vw_public_state view = "cancelled" <->
       dj_public_state job = EXPIRED /\ dj_progress_stage job = Progress.CANCELLED) /\
    (vw_artifact_ready view = true <-> dj_public_state job = READY) /\
    (vw_artifact_bytes view <> None <-> dj_public_state job = READY) /\
    vw_progress_percent view = dj_progress_percent job /\
    (vw_error_code view <> None <->
       dj_public_state job = FAILED \/ (dj_public_state job = EXPIRED /\ dj_progress_stage job = Progress.EXPIRED)) /\
    (vw_next_attempt_at view <> None <-> dj_progress_stage job = Progress.RETRYING) /\
    (vw_cancellable view = true <-> dj_public_state job = QUEUED \/ dj_public_state job = DOWNLOADING).
Proof.
  intros Hc Hr. exists (view_of job fmt policy name created). split; [by apply to_view_run|].
  pose proof (bytes_view job Hc) as Hb. unfold _public_artifact_bytes in Hb. fold (shown_state job) in Hb.
  rewrite (shown_open job READY) in Hb by done. unfold MediaDownloadJob_check, dj_progress_state_check, dj_cancel_requested_check in Hc. propify.
  unfold view_of, shown_state, project_public_state, is_stored_cancelled. cbn.
  split_and!; try done.
  - destruct (dj_public_state job) eqn:Es; try by split; [|intros []].
    destruct (dj_progress_stage job), (dj_cancel_requested_at job); try done; cbn; by split; [|intros []].
  - by rewrite bool_decide_eq_true.
  - split; intros Hx.
    + destruct (decide (dj_public_state job = READY)); [done|]. rewrite bool_decide_eq_false_2 in Hb by done. by destruct (dj_artifact_bytes job).
    + rewrite bool_decide_eq_true_2 in Hb by done. by destruct (dj_artifact_bytes job).
  - assert (Hno : (@None string <> None) <-> False) by (split; [by intros []|done]).
    destruct (dj_public_state job) eqn:Es; try (rewrite bool_decide_eq_false_2 by done; cbn; rewrite ?Hno;
      first [by split; [done|intros [?|[]]]|by split; [left|]]).
    destruct (dj_progress_stage job), (dj_cancel_requested_at job); try done; cbn; rewrite ?Hno;
      first [by split; [by right|done]|by split; [done|intros [?|[]]]].
  - destruct (decide (dj_progress_stage job = Progress.RETRYING)); [rewrite bool_decide_eq_true_2 by done; by split|].
    rewrite bool_decide_eq_false_2 by done. by split; [intros []|].
  - by rewrite orb_true_iff, !bool_decide_eq_true.
Qed.

Lemma authorized_job_run id credential w job parent :
  media_download_jobs w !! id = Some job -> media_jobs w !! dj_media_job_id job = Some parent ->
  mj_credential_hash parent = credential -> authorized_job id credential w = (inr job, w).
Proof.
  intros Hj Hp Hm. unfold authorized_job, authorized_parent, MediaDownloadJobRepository.get_by_id, MediaJobRepository.get_by_id.
  run_by (select_by_id_run id (fun _ => true) w job Hj eq_refl).
  erewrite bind_run; [done|]. run_by (select_by_id_run (R := MediaJob) _ (fun _ => true) w parent Hp eq_refl).
  rewrite (proj2 (tokens_match_true _ _) Hm). by run_step.
Qed.

Lemma authorized_job_cases id credential w :
  (exists job parent, media_download_jobs w !! id = Some job /\ media_jobs w !! dj_media_job_id job = Some parent /\
     mj_credential_hash parent = credential /\ authorized_job id credential w = (inr job, w)) \/
  (exists reason, authorized_job id credential w = (inl (job_not_found reason), w) /\
     forall job parent, media_download_jobs w !! id = Some job -> media_jobs w !! dj_media_job_id job = Some parent ->
       mj_credential_hash parent <> credential).
Proof.
  unfold authorized_job at 2, authorized_parent, MediaDownloadJobRepository.get_by_id, MediaJobRepository.get_by_id.
  unfold bind at 1, select_by_id at 1, gets. cbn [table MediaDownloadJob_table].
  destruct (media_download_jobs w !! id) as [job|] eqn:Ej; cbn -[tokens_match]; [|right; by eexists].
  unfold bind, select_by_id, gets. cbn [table MediaJob_table].
  destruct (media_jobs w !! dj_media_job_id job) as [parent|] eqn:Ep; cbn -[tokens_match].
  2: { right. eexists. split; [done|]. intros j p Hj Hp. congruence. }
  destruct (tokens_match _ _) eqn:Em.
  - apply tokens_match_true in Em. left. exists job, parent. split_and!; try done. by eapply authorized_job_run.
  - right. eexists. split; [done|]. intros j p Hj Hp E. assert (j = job) as -> by congruence. assert (p = parent) as -> by congruence.
    by rewrite (proj2 (tokens_match_true _ _) E) in Em.
Qed.

(** The job is past its expiry and the sweep has not marked it. *)
Definition overdue (job : MediaDownloadJob) (now : time) : Prop :=
  dj_public_state job <> EXPIRED /\ dj_expires_at job <= now.

(** C29: Reading a job is for the bearer of its token, and shows the row but for an
    overdue one. A request with another token gets the answer of a missing job. The
    bearer gets the view of the row; once the job is past its expiry and not swept,
    the expired view the code means to prefer exists exactly when the job is not
    ready and reports no percentage: otherwise the read fails with an internal
    error until the sweep. Nothing is written. *)
Theorem reads_are_exact id token credential w :
  hash_access_token token = inr credential ->
  (forall job, media_download_jobs w !! id = Some job ->
     MediaDownloadJob_check job = true /\ exists fmt policy name, readable job fmt policy name) ->
  let now := clock w (clock_reads w) in
  let answer := (get_job settings id token w).1 in
  (forall job parent, bearer w id token job parent -> ~ overdue job now ->
     exists fmt policy name, readable job fmt policy name /\ answer = inr (view_of job fmt policy name false)) /\
  (forall job parent, bearer w id token job parent -> overdue job now ->
     ((exists view, answer = inr view) <-> dj_public_state job <> READY /\ dj_progress_percent job = None) /\
     (forall view, answer = inr view -> vw_public_state view = "expired" /\ vw_artifact_ready view = false) /\
     (forall e, answer = inl e -> exists reason, e = download_error DOWNLOAD_INTERNAL_ERROR reason)) /\
  ((forall job parent, ~ bearer w id token job parent) ->
     exists reason, answer = inl (download_error DOWNLOAD_JOB_NOT_FOUND reason)) /\
  same_tables w (get_job settings id token w).2.
Proof.
  intros Hh Hall now answer.
  destruct (authorized_job_cases id credential w) as [(job & parent & Hj & Hp & Hm & E)|(reason & E & Hno)].
  - destruct (Hall job Hj) as (Hc & fmt & policy & name & Hr).
    assert (Hrun : get_job settings id token w = (_to_view settings job false
      (if negb (bool_decide (dj_public_state job = EXPIRED)) && (dj_expires_at job <=? now)
       then Some (EXPIRED, DOWNLOAD_EXPIRED) else None), w <| clock_reads := S (clock_reads w) |>)).
    { unfold get_job. rewrite Hh. run_step. run_by E. unfold MediaDownloadJobRepository.database_now. by run_step. }
    assert (Hov : overdue job now <-> negb (bool_decide (dj_public_state job = EXPIRED)) && (dj_expires_at job <=? now) = true).
    { unfold overdue. by rewrite andb_true_iff, negb_true_iff, bool_decide_eq_false, Z.leb_le. }
    unfold answer. rewrite Hrun. cbn [fst snd].
    assert (Hsame : forall j p, bearer w id token j p -> j = job) by (intros j p (Hj' & _); congruence).
    split_and!; [..|done].
    + intros j p ->%Hsame Hn. rewrite Hov in Hn. apply not_true_is_false in Hn. rewrite Hn.
      exists fmt, policy, name. split; [done|]. by apply to_view_run.
    + intros j p ->%Hsame Ho. rewrite Hov in Ho. rewrite Ho. cbv iota.
      pose proof (to_view_overdue job fmt policy name Hc Hr) as Hv. destruct (_to_view settings job false (Some (EXPIRED, DOWNLOAD_EXPIRED))) as [e|view].
      * split; [split; [by intros [view ?]|intros [Hs Hpc]; by destruct Hv as [[]|[]]]|]. split; [done|].
        intros e' [= <-]. destruct Hv as [[_ ->]|[_ ->]]; by eexists.
      * destruct Hv as (Hpc & Hs & _ & Hst & _ & Hready & _). split; [split; [done|by eexists]|]. split; [|done]. by intros v [= <-].
    + intros Hnb. destruct (Hnb job parent). split_and!; [done|done|by rewrite Hm].
  - assert (Hrun : get_job settings id token w = (inl (job_not_found reason), w)).
    { unfold get_job. rewrite Hh. run_step. unfold bind. by rewrite E. }
    unfold answer. rewrite Hrun. cbn [fst snd].
    assert (Hnb : forall j p, ~ bearer w id token j p).
    { intros j p (Hj & Hp & Hb). apply (Hno j p Hj Hp). congruence. }
    split; [intros j p Hb; destruct (Hnb j p Hb)|]. split; [intros j p Hb; destruct (Hnb j p Hb)|]. split; [|done]. intros _. by eexists.
Qed.

(** ** Creating a job *)

(** The policy allows downloads of the kind. *)
Definition kind_allowed (policy : EffectiveDownloadPolicy) (kind : MediaKind) : Prop :=
  match kind with
  | NORMAL_VIDEO => allow_combined policy = true
  | VIDEO_ONLY => allow_video_only policy = true
  | AUDIO_ONLY => allow_audio_only policy = true
  end.

(** The client has an entitlement window open at a reading of the clock since [w]. *)
Definition entitled (client : uid) (w : World) : Prop :=
  exists n id e, (clock_reads w <= n)%nat /\ premium_entitlements w !! id = Some e /\
    PremiumEntitlementRepository.active_for client (clock w n) e = true.

(** A Free reservation of the client is open for the job. *)
Definition reserved_for (client job : uid) (w : World) : Prop :=
  exists id e, free_download_quota_entries w !! id = Some e /\ qe_state e = RESERVED /\
    qe_download_job_id e = job /\ qe_anonymous_client_id e = client.

Lemma wp_resolve_policy client w (Q : EffectiveDownloadPolicy -> World -> Prop) :
  (forall policy capability, effective_download_policy settings (Some capability) = inr policy ->
     (tier policy = "premium" -> entitled client w) -> Q policy (w <| clock_reads := S (clock_reads w) |>)) ->
  wp (QuotaService.resolve_policy settings client) Q (fun _ _ => True) w.
Proof.
  intros HQ. unfold QuotaService.resolve_policy, PremiumEntitlementRepository.status_for_client, PremiumEntitlementRepository.get_active_for_client.
  wp_step. wp_step. apply wp_clock_timestamp. wp_step. wp_step. apply wp_select. apply wp_ret. apply wp_ret.
  set (l := List.filter _ _). wp_step; [done|]. rename H0 into Hpol. eapply HQ; [exact Hpol|]. intros Ht.
  pose proof (PremiumEntitlementRepository.head_order_by (fun r => - pe_expires_at r) l) as Hh. unfold effective_download_policy in Hpol.
  destruct (head _) as [e|]; cbn in Hpol; [|by injection Hpol as <-].
  destruct Hh as [He _]. apply elem_of_filter_rows in He as [[id He] Ha]. exists (clock_reads w), id, e. by split_and!.
Qed.

Lemma effective_kinds capability policy : effective_download_policy settings capability = inr policy ->
  (tier policy = "premium" \/ tier policy = "free" /\ QuotaTheorems.free_policy policy (free_download_limit settings) (free_download_window_seconds settings)) /\
  forall kind, kind <> NORMAL_VIDEO -> kind_allowed policy kind -> tier policy = "premium".
Proof.
  unfold effective_download_policy. intros Hp. destruct capability as [c|]; [destruct (is_premium c); [destruct (premium_expires_at c); [|done]|]|];
    injection Hp as <-;
    (split; [first [by left|right; split; [done|by split]]|]); intros kind Hk Ha; destruct kind; cbn in *; done.
Qed.

(** What admission promises for the job. *)
Record admitted (job : MediaDownloadJob) (client : option uid) (w w' : World) (policy : EffectiveDownloadPolicy) : Prop := {
  ad_jobs : media_download_jobs w' = media_download_jobs w;
  ad_policy : exists capability, effective_download_policy settings capability = inr policy;
  ad_premium : tier policy = "premium" -> exists id, client = Some id /\ entitled id w;
  ad_quota : free_download_quota_enabled settings = true ->
    exists id, client = Some id /\ (tier policy = "premium" \/ reserved_for id (dj_id job) w')
}.

Lemma entitled_clock client w : entitled client (w <| clock_reads := S (clock_reads w) |>) -> entitled client w.
Proof. intros (n & id & e & Hn & He & Ha). exists n, id, e. cbn in Hn. split_and!; [lia|done|done]. Qed.

Lemma wp_admission job client w :
  wp (admission_policy settings job client) (fun policy w' => admitted job client w w' policy) (fun _ _ => True) w.
Proof.
  unfold admission_policy. wp_step. wp_step; [done|]. rename a into free, H0 into Hfree.
  assert (Ht : tier free = "free") by by injection Hfree as <-.
  destruct (free_download_quota_enabled settings) eqn:Eq.
  - destruct client as [id|]; [|done]. unfold QuotaService.admit_locked, QuotaRepository.database_now, QuotaRepository.lock_client.
    wp_step. apply wp_clock_now. wp_step. apply wp_select_by_id; [|by intros _]. intros c Hc _.
    wp_step. apply wp_resolve_policy. intros policy capability Hpol Hent.
    case_bool_decide as Htier.
    { apply wp_ret. apply wp_ret. split; cbn; [done|by eexists| |]; intros _; exists id; (split; [done|]); [|by left].
      apply entitled_clock, Hent, Htier. }
    destruct (effective_kinds _ _ Hpol) as [[?|[Hf Hfp]] _]; [done|].
    set (w1 := _ <| clock_reads := _ |>).
    destruct (QuotaTheorems.status_locked_run id (clock w (clock_reads w)) policy _ _ w1 Hfp) as (reset & Es & _).
    wp_step. unfold wp at 1. rewrite Es. cbn [qs_downloads_remaining]. wp_step. apply wp_guard. intros _. unfold QuotaRepository.reserve_locked.
    wp_step. wp_step. apply wp_guard. intros _. wp_step. apply wp_uuid4. wp_step. unfold wp at 1, insert_row.
    destruct (insert_ok _ _); [|done]. apply wp_ret. apply wp_ret. apply wp_ret. split; cbn; [done|by eexists|congruence|].
    intros _. exists id. split; [done|]. right. eexists _, _. cbn. rewrite lookup_insert_eq. by split_and!.
  - destruct client as [id|].
    + apply wp_resolve_policy. intros policy capability Hpol Hent. split; [done|by eexists| |congruence].
      intros Hp. exists id. split; [done|]. by apply Hent.
    + apply wp_ret. split; [done|by eexists|congruence|congruence].
Qed.

Lemma to_view_inv job created force view : _to_view settings job created force = inr view ->
  vw_id view = dj_id job /\ vw_created view = created /\ _public_snapshot job = inr (vw_selected_format view).
Proof.
  unfold _to_view. intros Hv. ok_step Hv. ok_step Hv. ok_step Hv. ok_step Hv. ok_step Hv. injection Hv as <-. by cbn.
Qed.

(** The bearer's parent is inspected and offers the format. *)
Record offered (w : World) (mid : uid) (option_id token : string) (parent : MediaJob) (fmt : MediaFormat) : Prop := {
  of_parent : media_jobs w !! mid = Some parent;
  of_token : hash_access_token token = inr (mj_credential_hash parent);
  of_live : mj_public_state parent = JobStates.INSPECTED /\ clock w (clock_reads w) < mj_expires_at parent;
  of_format : exists stored m, mj_result_metadata parent = Some stored /\
    media_metadata_from_jsonable stored (media_job_result_max_bytes settings) = inr (Some m) /\
    fmt ∈ mm_formats m /\ format_option_id fmt = option_id
}.

(** The job serves the client the kind of the format. *)
Record serves (client : option uid) (job : MediaDownloadJob) (kind : MediaKind) : Prop := {
  sv_policy : exists policy, _effective_policy_snapshot settings job = inr policy /\ kind_allowed policy kind;
  sv_premium : kind <> NORMAL_VIDEO ->
    exists id, client = Some id /\ decode_authorized_identity_id (dj_selected_format_snapshot job) = inr (Some id)
}.

Lemma kind_authorized fmt policy u : _assert_media_kind_authorized fmt policy = inr u -> kind_allowed policy (mf_media_kind fmt).
Proof. unfold _assert_media_kind_authorized, kind_allowed. rewrite raise_if_inr, negb_false_iff. by destruct (mf_media_kind fmt). Qed.

Lemma assert_inspected_inv parent now stored : assert_inspected parent now = inr stored ->
  mj_public_state parent = JobStates.INSPECTED /\ now < mj_expires_at parent /\ mj_result_metadata parent = Some stored.
Proof.
  unfold assert_inspected. intros Ha. ok_step Ha. ok_step Ha. apply raise_if_inr in Ha0, Ha1. propify.
  destruct (mj_result_metadata parent) as [[]|]; try done. by injection Ha as <-.
Qed.

Context (capabilities : ProviderCapabilityRegistry.t).

Lemma chosen_format_inv parent stored option_id fmt title : chosen_format settings capabilities parent stored option_id = inr (fmt, title) ->
  exists m, media_metadata_from_jsonable stored (media_job_result_max_bytes settings) = inr (Some m) /\
    fmt ∈ mm_formats m /\ format_option_id fmt = option_id /\ mm_title m = title /\
    assert_operation_allowed capabilities (mj_provider_id parent)
      (if bool_decide (mf_media_kind fmt = AUDIO_ONLY) then EXTRACT_AUDIO else DOWNLOAD_VIDEO) = inr tt.
Proof.
  unfold chosen_format. intros Hc. ok_step Hc. ok_step Hc. apply need_inr in Hc1. subst v. ok_step Hc. ok_step Hc. ok_step Hc.
  injection Hc as <- <-. exists v0. apply need_inr, find_some in Hc1 as [Hin Hid%bool_decide_eq_true].
  split_and!; [done|by apply list_elem_of_In|done|done|by eapply raise_unit].
Qed.

Lemma recovery_serves job fmt client u : recovery_check settings job fmt client = inr u -> serves client job (mf_media_kind fmt).
Proof.
  unfold recovery_check. intros Hr. ok_step Hr. ok_step Hr. ok_step Hr. apply kind_authorized in Hr2. split.
  - exists v0. split; [|done]. unfold _effective_policy_snapshot. rewrite Hr0. by destruct v.
  - intros Hk. rewrite bool_decide_eq_false_2 in Hr by done. cbn [negb] in Hr. ok_step Hr. apply raise_if_inr, orb_false_iff in Hr as [Hs He%negb_false_iff%bool_decide_eq_true].
    destruct client as [id|]; [|done]. exists id. by rewrite Hr3, He.
Qed.

Lemma wp_enqueue_or_get q id w : eq_job_id q = Some id ->
  wp (enqueue_or_get q)
    (fun r w' =>
       if r.2 then r.1 = queued_job id q /\ media_download_jobs w !! id = None /\
                   w' = w <| media_download_jobs := <[id := r.1]> (media_download_jobs w) |>
       else same_tables w w' /\ (exists i, media_download_jobs w !! i = Some r.1) /\
            dj_media_job_id r.1 = eq_media_job_id q /\ dj_format_option_id r.1 = eq_format_option_id q)
    (fun _ _ => True) w.
Proof.
  intros Hid. unfold enqueue_or_get. rewrite Hid. do 2 (wp_step; apply wp_guard; intros _). wp_step. wp_step. wp_step.
  wp_step. apply wp_begin_nested. unfold wp at 1, insert_row. destruct (insert_ok _ _) eqn:Eok.
  - apply wp_ret. cbn. unfold insert_ok in Eok. propify. split_and!; [done|by apply is_none_true|done].
  - wp_step. unfold wp at 1. destruct (select_first _ _) as [[e|[job|]] w1] eqn:Es; [done| |done].
    apply select_first_some in Es as (-> & [i Hi] & Hp). wp_step. apply wp_guard. intros _. apply wp_ret. cbn. propify.
    split_and!; [apply same_tables_rollback|by exists i|done|done].
Qed.

(** The job records the policy it was admitted under: one the server issues, and a
    Premium one only for an entitled client, who is recorded with it. *)
Definition records_admission (client : option uid) (w : World) (job : MediaDownloadJob) : Prop :=
  exists policy capability,
    effective_download_policy settings capability = inr policy /\
    decode_effective_policy_snapshot (dj_selected_format_snapshot job) = inr (Some policy) /\
    decode_authorized_identity_id (dj_selected_format_snapshot job) =
      inr (if bool_decide (tier policy = "premium") then client else None) /\
    (tier policy = "premium" -> exists id, client = Some id /\ entitled id w).

(** The snapshot of a new job carries the policy it was admitted under. *)
Lemma attached_serves job client w w' policy payload snapshot fmt u :
  match client with Some id => (id < 2 ^ 128)%N | None => True end ->
  admitted job client w w' policy -> _assert_media_kind_authorized fmt policy = inr u ->
  attach_effective_policy_snapshot payload policy (if bool_decide (tier policy = "premium") then client else None) = inr snapshot ->
  let job' := job <| dj_selected_format_snapshot := JObj snapshot |> in
  serves client job' (mf_media_kind fmt) /\ records_admission client w job' /\
  (mf_media_kind fmt <> NORMAL_VIDEO -> exists id, client = Some id /\ entitled id w).
Proof.
  intros Hid [_ [capability Hpol] Hprem _] Hk%kind_authorized Ha. destruct (effective_kinds _ _ Hpol) as [_ Hkinds].
  assert (Hid' : match (if bool_decide (tier policy = "premium") then client else None) with Some id => (id < 2 ^ 128)%N | None => True end)
    by by destruct (bool_decide _).
  destruct (attach_inv settings capability policy _ _ _ Hpol Hid' Ha) as (_ & Hd & Hi). split; [split|split].
  - exists policy. split; [|done]. unfold _effective_policy_snapshot. change (dj_selected_format_snapshot _) with (JObj snapshot). by rewrite Hd.
  - intros Hn. specialize (Hkinds _ Hn Hk). destruct (Hprem Hkinds) as (id & -> & _). exists id. split; [done|].
    rewrite bool_decide_eq_true_2 in Hi by done. exact Hi.
  - by exists policy, capability.
  - intros Hn. by apply Hprem, (Hkinds _ Hn Hk).
Qed.

(** The new row asks for the media of the parent and for the format, and nothing
    else: the columns are copied, the snapshot reads as the format, the file name is
    made of the parent's title, and no attempt has begun. *)
Record asks_for (parent : MediaJob) (fmt : MediaFormat) (now : time) (job : MediaDownloadJob) : Prop := {
  af_provider : dj_provider_id job = mj_provider_id parent;
  af_url : dj_canonical_provider_url job = mj_canonical_provider_url parent;
  af_media : dj_media_id job = mj_media_id parent;
  af_address : (dj_scheme job, dj_hostname job, dj_port job, dj_path job) =
    (mj_scheme parent, mj_hostname parent, mj_port parent, mj_path parent);
  af_format : decode_selected_format_snapshot (dj_selected_format_snapshot job) (format_option_id fmt)
    DEFAULT_MAX_JSON_BYTES = inr fmt;
  af_name : exists stored m name, mj_result_metadata parent = Some stored /\
    media_metadata_from_jsonable stored (media_job_result_max_bytes settings) = inr (Some m) /\
    suggested_filename_for (codepoints <$> mm_title m) (mf_container fmt) (dj_id job) (mf_media_kind fmt) = inr name /\
    dj_suggested_filename job = Some name;
  af_queued : dj_public_state job = QUEUED /\ dj_progress_stage job = Progress.QUEUED /\ dj_fence_token job = 0 /\
    dj_attempt_count job = 0 /\ dj_max_attempts job = media_download_max_attempts settings /\
    dj_lease_owner job = None /\ dj_artifact_id job = None /\ dj_cancel_requested_at job = None;
  af_times : dj_created_at job = now /\ dj_available_at job = now /\
    dj_expires_at job = Z.min (now + seconds (media_download_artifact_ttl_seconds settings)) (mj_expires_at parent)
}.

(** What a successful creation leaves. *)
Definition creation (mid : uid) (option_id token : string) (client : option uid) (w w' : World) (view : DownloadJobView) : Prop :=
  exists parent fmt job,
    offered w mid option_id token parent fmt /\
    vw_id view = dj_id job /\ dj_media_job_id job = mj_id parent /\ dj_format_option_id job = option_id /\
    serves client job (mf_media_kind fmt) /\
    if vw_created view then
      media_download_jobs w !! dj_id job = None /\ asks_for parent fmt (clock w (clock_reads w)) job /\
      records_admission client w job /\
      media_download_jobs w' = <[dj_id job := job]> (media_download_jobs w) /\
      (mf_media_kind fmt <> NORMAL_VIDEO -> exists id, client = Some id /\ entitled id w) /\
      (free_download_quota_enabled settings = true ->
         exists id, client = Some id /\ (entitled id w \/ reserved_for id (dj_id job) w'))
    else same_tables w w' /\ exists i, media_download_jobs w !! i = Some job.

Lemma entitled_later client w w' : clock w' = clock w -> (clock_reads w <= clock_reads w')%nat ->
  premium_entitlements w' = premium_entitlements w -> entitled client w' -> entitled client w.
Proof. intros Ec Hn Ee (n & id & e & Hr & He & Ha). exists n, id, e. rewrite <- Ec, <- Ee. split_and!; [lia|done|done]. Qed.

Lemma created_asks_for parent fmt payload policy identity snapshot now name id stored m :
  mj_result_metadata parent = Some stored ->
  media_metadata_from_jsonable stored (media_job_result_max_bytes settings) = inr (Some m) ->
  format_snapshot_from_media_format fmt = inr payload ->
  suggested_filename_for (codepoints <$> mm_title m) (mf_container fmt) id (mf_media_kind fmt) = inr name ->
  attach_effective_policy_snapshot payload policy identity = inr snapshot ->
  asks_for parent fmt now ((queued_job id (enqueue_args settings parent fmt payload now name id))
    <| dj_selected_format_snapshot := JObj snapshot |>).
Proof.
  intros Hm Hd Hp Hn Ha. unfold format_snapshot_from_media_format, encode_selected_format_snapshot in Hp.
  do 2 ok_step Hp. injection Hp as <-. split; try done.
  - by eapply attached_reads_format.
  - by exists stored, m, name.
Qed.

Lemma wp_create mid option_id token client w :
  match client with Some id => (id < 2 ^ 128)%N | None => True end ->
  wp (create settings capabilities mid option_id token client) (fun view w' => creation mid option_id token client w w' view) (fun _ _ => True) w.
Proof.
  intros Hid. unfold create, authorized_parent, MediaJobRepository.get_by_id, MediaJobRepository.database_now.
  wp_step. apply wp_guard. intros _. wp_step. wp_step; [done|]. rename a into credential, H0 into Hcred.
  wp_step. wp_step. apply wp_select_by_id; [|by intros _]. intros parent Hparent _.
  wp_step. apply wp_guard. intros Hm%negb_false_iff%tokens_match_true. apply wp_ret. apply wp_clock_now.
  set (now := clock w (clock_reads w)). wp_step. wp_step; [done|]. rename a into stored, H0 into Hins.
  apply assert_inspected_inv in Hins as (Hst & Hexp & Hmeta).
  wp_step. wp_step; [done|]. rename H0 into Hch. destruct a as [fmt title]. apply chosen_format_inv in Hch as (m & Hdec & Hin & Hopt & Htitle & _).
  assert (Hof : offered w mid option_id token parent fmt).
  { split; [done|by rewrite Hm|done|]. by exists stored, m. }
  wp_step. wp_step; [done|]. rename a into payload, H0 into Hpay. wp_step. apply wp_uuid4. set (id := uuids _ _).
  wp_step. wp_step; [done|]. rename a into name, H0 into Hname. set (w1 := _ <| uuid_draws := _ |>). set (q := enqueue_args _ _ _ _ _ _ _).
  wp_step. eapply wp_mono; [apply (wp_enqueue_or_get q id w1 eq_refl)| |done]. intros [job created] w2. cbn [fst snd]. destruct created.
  - intros (-> & Hnone & ->). set (job := queued_job id q). wp_step. wp_step. set (w2 := w1 <| media_download_jobs := _ |>).
    eapply wp_mono; [apply (wp_admission job client w2)| |done]. intros policy w3 Had.
    wp_step. wp_step; [done|]. rename H0 into Hk. wp_step. wp_step; [done|]. rename a0 into snapshot, H0 into Hatt.
    destruct (attached_serves job client w2 w3 policy payload snapshot fmt a Hid Had Hk Hatt) as (Hserves & Hrec & Hent).
    pose proof (ad_jobs _ _ _ _ _ Had) as Hjobs.
    assert (Hrow : media_download_jobs w3 !! dj_id job = Some job) by (rewrite Hjobs; cbn; by rewrite lookup_insert_eq).
    unfold wp at 1, update_row. cbn [table MediaDownloadJob_table]. rewrite Hrow. destruct (row_check _); [|done].
    wp_step; [done|]. rename H0 into Hview. apply to_view_inv in Hview as (Hvid & Hvc & _).
    assert (Hback : forall c, entitled c w2 -> entitled c w) by (intros c; by apply entitled_later; cbn; try lia).
    exists parent, fmt, (job <| dj_selected_format_snapshot := JObj snapshot |>). rewrite Hvc. split_and!; try done.
    + rewrite <- Htitle in Hname. exact (created_asks_for parent fmt payload policy _ snapshot now name id stored m Hmeta Hdec Hpay Hname Hatt).
    + destruct Hrec as (p & capability & Hp & Hd & Hi & He). exists p, capability. split_and!; [done..|].
      intros Ht. destruct (He Ht) as (c & -> & Hc). exists c. split; [done|by apply Hback].
    + cbn. rewrite Hjobs. cbn. by rewrite insert_insert_eq.
    + intros Hn. destruct (Hent Hn) as (c & -> & He). exists c. by auto.
    + intros Hq. destruct (ad_quota _ _ _ _ _ Had Hq) as (c & -> & [Hp|Hres]); exists c; (split; [done|]).
      * left. destruct (ad_premium _ _ _ _ _ Had Hp) as (c' & [= <-] & He). by apply Hback.
      * right. destruct Hres as (qid & e & He). by exists qid, e.
  - intros (Hsame & [i Hi] & Hmid & Hfo). wp_step. wp_step. wp_step; [done|]. apply wp_ret. rename H0 into Hrec.
    wp_step; [done|]. rename H0 into Hview. apply to_view_inv in Hview as (Hvid & Hvc & _).
    exists parent, fmt, job. rewrite Hvc. split_and!; try done; [by rewrite Hfo|by eapply recovery_serves|by exists i].
Qed.

(** C28: A created download is what was asked for and allowed. If a request to
    create a download succeeds, then its token is the one of an inspected,
    unexpired parent whose metadata offers the format; the job belongs to that
    parent and option and carries a policy that allows the kind of the format,
    bound to the client for a Premium kind. A new job is one more queued row: its
    provider, media and address columns are the parent's, its stored snapshot reads
    back as exactly that format, its file name is made of the parent's title, it
    expires with the parent at the latest, and it records a policy that the server
    issues, a Premium one only for a client with an open entitlement. A Premium kind
    always needs such an entitlement; when the Free quota is enabled, every new job
    needs a client with an entitlement or with a reservation for the job. If the job
    existed already, it is shown and nothing is written. *)
Theorem create_serves_what_is_allowed mid option_id token client w view w' :
  match client with Some id => (id < 2 ^ 128)%N | None => True end ->
  create settings capabilities mid option_id token client w = (inr view, w') ->
  creation mid option_id token client w w' view.
Proof.
  intros Hid E. pose proof (wp_create mid option_id token client w Hid) as Hw. unfold wp in Hw. by rewrite E in Hw.
Qed.
End Views.
End DownloadServiceTheorems.

(** ** A download created, and a ready one past its expiry *)
Module DownloadServiceExamples.
Import DownloadStates DownloadJobService DownloadServiceTheorems AuthorizeTheorems Latin1.

Definition settings : Settings := FormatExamples.demo_settings.
Definition registry : ProviderCapabilityRegistry.t := DEFAULT_PROVIDER_CAPABILITIES.

Definition parent : MediaJob :=
  GrantExamples.demo_parent <| mj_public_state := JobStates.INSPECTED |> <| mj_provider_id := "vk" |>
    <| mj_result_metadata := Some (JObj MetadataExamples.demo_stored) |>.

Definition world : World := PromoteExamples.world <| media_jobs := {[7%N := parent]} |>
  <| premium_entitlements := ∅ |> <| media_download_jobs := ∅ |> <| free_download_quota_entries := ∅ |>.

Definition created_run : (exn + DownloadJobView) * World :=
  create settings registry 7 "fmt_0123456789abcdef" GrantExamples.demo_token (Some 1%N) world.

Definition no_view : DownloadJobView := view_of PromoteExamples.free_job FormatExamples.demo_format PromoteExamples.free_policy [] false.
Definition created_view : DownloadJobView := match created_run.1 with inr view => view | inl _ => no_view end.

Example created_shown :
  (vw_created created_view, vw_public_state created_view, of_codepoints (vw_suggested_filename created_view)) =
  (true, "queued", "A title.mp4").
Proof. vm_compute. reflexivity. Qed.

Lemma create_serves_what_is_allowed_witness :
  creation settings 7 "fmt_0123456789abcdef" GrantExamples.demo_token (Some 1%N) world created_run.2 created_view.
Proof.
  apply (create_serves_what_is_allowed settings registry 7 "fmt_0123456789abcdef" GrantExamples.demo_token (Some 1%N) world).
  - reflexivity.
  - apply pair_run. vm_compute. reflexivity.
Defined.

(** The job a moment before the artifact ends, and an hour later. *)
Definition ready_world (now : time) : World :=
  world <| media_download_jobs := {[20%N := PromoteExamples.free_job]} |> <| clock := fun _ => now |>.

Definition free_policy : EffectiveDownloadPolicy := PromoteExamples.free_policy.
Definition file_name : list N := codepoints "fetchnow-00000000-0000-0000-0000-000000000014.mp4".

Lemma free_readable : readable settings PromoteExamples.free_job FormatExamples.demo_format free_policy file_name.
Proof. split; vm_compute; reflexivity. Defined.

Lemma views_are_total_witness :
  exists view, _to_view settings PromoteExamples.free_job false None = inr view /\ vw_artifact_bytes view <> None.
Proof.
  destruct (views_are_total settings PromoteExamples.free_job FormatExamples.demo_format free_policy file_name false) as
    (view & E & _ & _ & _ & _ & Hb & _).
  - vm_compute. reflexivity.
  - exact free_readable.
  - exists view. split; [exact E|]. apply Hb. reflexivity.
Defined.

Lemma reads_are_exact_witness :
  let t := dj_expires_at PromoteExamples.free_job in
  exists reason, (get_job settings 20 GrantExamples.demo_token (ready_world t)).1 = inl (download_error DOWNLOAD_INTERNAL_ERROR reason).
Proof.
  intros t.
  assert (Hall : forall job, media_download_jobs (ready_world t) !! 20%N = Some job ->
    MediaDownloadJob_check job = true /\ exists fmt policy name, readable settings job fmt policy name).
  { intros job Hj. assert (PromoteExamples.free_job = job) as <- by (vm_compute in Hj |- *; congruence). split; [vm_compute; reflexivity|].
    exists FormatExamples.demo_format, free_policy, file_name. exact free_readable. }
  destruct (reads_are_exact settings 20 GrantExamples.demo_token (mj_credential_hash parent) (ready_world t)) as (_ & Hover & _).
  - vm_compute. reflexivity.
  - exact Hall.
  - destruct (Hover PromoteExamples.free_job parent) as (Hiff & _ & He).
    + split_and!; vm_compute; reflexivity.
    + split; [done|]. apply Z.le_refl.
    + destruct (get_job settings 20 GrantExamples.demo_token (ready_world t)).1 as [e|view] eqn:E.
      * destruct (He e eq_refl) as [reason ->]. by exists reason.
      * exfalso. destruct (proj1 Hiff (ex_intro _ view eq_refl)) as [Hr _]. apply Hr. reflexivity.
Defined.
End DownloadServiceExamples.
