(* ===== verification/RangeParse.v ===== *)
(** The Range header of artifact delivery ([delivery/range_parse.py]).

    Header values are Latin-1. [str.isdigit] also accepts the superscripts 1, 2
    and 3, which [int] refuses with a [ValueError]. *)

From S2P Require Export Text Errors.

Local Open Scope string_scope.
Local Open Scope list_scope.
Local Open Scope Z_scope.

(** Source: backend/src/fetchnow/delivery/range_parse.py:10-10 [_MAX_RANGE_HEADER_CHARS] *)
Definition MAX_RANGE_HEADER_CHARS : Z := 128.

(** Source: backend/src/fetchnow/delivery/range_parse.py:13-19 [ByteRange]
    [end_] is exclusive. *)
Record ByteRange := {
  start : Z;
  end_ : Z;
  total : Z
}.

(** Source: backend/src/fetchnow/delivery/range_parse.py:21-23 [ByteRange.length] *)
Definition range_length (r : ByteRange) : Z := end_ r - start r.

(** Source: backend/src/fetchnow/delivery/range_parse.py:25-27 [ByteRange.content_range_header] *)
Definition content_range_header (r : ByteRange) : string :=
  ("bytes " ++ str_of_Z (start r) ++ "-" ++ str_of_Z (end_ r - 1) ++ "/" ++ str_of_Z (total r))%string.

(** Source: backend/src/fetchnow/delivery/range_parse.py:36-43 [RangeUnsatisfiable] *)
Record RangeUnsatisfiable := {
  unsatisfiable_total : Z
}.

(** Source: backend/src/fetchnow/delivery/range_parse.py:42-43 [RangeUnsatisfiable.content_range_header] *)
Definition unsatisfiable_content_range_header (r : RangeUnsatisfiable) : string :=
  ("bytes */" ++ str_of_Z (unsatisfiable_total r))%string.

(** [s.isdigit()] on Latin-1. *)
Definition superscript (c : ascii) : bool := char_in c ["178"%char; "179"%char; "185"%char].
Definition isdigit (l : list ascii) : bool :=
  negb (bool_decide (l = [])) && forallb (fun c => is_digit c || superscript c) l.

(** [int(s)] of a text whose characters are digits. *)
Definition int_of_digits (l : list ascii) : exn + Z :=
  if forallb is_digit l then inr (read_digits (digit_value <$> l))
  else inl (ValueError "invalid literal for int() with base 10").

Definition bad_range (reason : string) : exn := download_error_http DOWNLOAD_INTERNAL_ERROR reason 400.

(** What a request without a failure gets: the whole artifact ([None]), a byte
    range, or a 416. *)
Abbreviation Selection := (option (ByteRange + RangeUnsatisfiable)) (only parsing).

(** Source: backend/src/fetchnow/delivery/range_parse.py:97-116 [parse_single_byte_range]
    [bytes=-N]: the last [N] bytes. *)
Definition parse_suffix (suffix_s : list ascii) (size : Z) : exn + Selection :=
  if negb (isdigit suffix_s) then inl (bad_range "RANGE_SUFFIX_MALFORMED")
  else if (1 <? Z.of_nat (length suffix_s)) && is_some (strip_prefix ["0"%char] suffix_s)
  then inl (bad_range "RANGE_SUFFIX_LEADING_ZERO")
  else
    match int_of_digits suffix_s with
    | inl e => inl e
    | inr suffix =>
        if suffix =? 0 then inr (Some (inr {| unsatisfiable_total := size |}))
        else
          let first := if size <? suffix then 0 else size - suffix in
          inr (Some (inl {| start := first; end_ := size; total := size |}))
    end.

(** Source: backend/src/fetchnow/delivery/range_parse.py:118-153 [parse_single_byte_range]
    [bytes=F-] and [bytes=F-L]. *)
Definition parse_interval (spec : list ascii) (size : Z) : exn + Selection :=
  match split_once "-"%char spec with
  | (_, None) => inl (bad_range "RANGE_MALFORMED")
  | (start_s, Some end_s) =>
      if negb (isdigit start_s) then inl (bad_range "RANGE_START_MALFORMED")
      else
        match int_of_digits start_s with
        | inl e => inl e
        | inr first =>
            if size <=? first then inr (Some (inr {| unsatisfiable_total := size |}))
            else if bool_decide (end_s = [])
            then inr (Some (inl {| start := first; end_ := size; total := size |}))
            else if negb (isdigit end_s) then inl (bad_range "RANGE_END_MALFORMED")
            else
              match int_of_digits end_s with
              | inl e => inl e
              | inr end_inclusive =>
                  if end_inclusive <? first then inl (bad_range "RANGE_EMPTY")
                  else inr (Some (inl {| start := first; end_ := Z.min (end_inclusive + 1) size;
                                         total := size |}))
              end
        end
  end.

(** Source: backend/src/fetchnow/delivery/range_parse.py:46-153 [parse_single_byte_range] *)
Definition parse_single_byte_range (header : option string) (size : Z) : exn + Selection :=
  match header with
  | None => inr None
  | Some header =>
      let raw := strip is_space (chars header) in
      if bool_decide (raw = []) then inr None
      else if MAX_RANGE_HEADER_CHARS <? Z.of_nat (length raw)
      then inl (bad_range "RANGE_HEADER_TOO_LONG")
      else if char_in ","%char raw then inl (bad_range "RANGE_MULTIPLE")
      else if negb (is_some (strip_prefix (chars "bytes=") (lower_char <$> raw)))
      then inl (bad_range "RANGE_UNIT")
      else
        let spec := drop 6 raw in
        if bool_decide (spec = []) || char_in "="%char spec || char_in " "%char spec
        then inl (bad_range "RANGE_MALFORMED")
        else if size <=? 0
        then inl (download_error DOWNLOAD_STORAGE_UNAVAILABLE "RANGE_EMPTY_TARGET")
        else
          match strip_prefix ["-"%char] spec with
          | Some suffix_s => parse_suffix suffix_s size
          | None => parse_interval spec size
          end
  end.

(** ** What a Range header asks for *)

(** The requests of RFC 9110 with one range: [bytes=F-L], [bytes=F-], [bytes=-N]. *)
Inductive RangeRequest :=
| FromTo (first last : Z)
| From (first : Z)
| Suffix (n : Z).

(** The byte [b] of an artifact of [size] bytes is requested. *)
Definition requested (q : RangeRequest) (size b : Z) : Prop :=
  0 <= b < size /\
  match q with
  | FromTo first last => first <= b <= last
  | From first => first <= b
  | Suffix n => size - n <= b
  end.

Definition proper (q : RangeRequest) : Prop :=
  match q with
  | FromTo first last => 0 <= first <= last
  | From first => 0 <= first
  | Suffix n => 0 <= n
  end.

(** The text of the request after [bytes=]. *)
Definition render (q : RangeRequest) : list ascii :=
  match q with
  | FromTo first last => numeral first ++ "-"%char :: numeral last
  | From first => numeral first ++ ["-"%char]
  | Suffix n => "-"%char :: numeral n
  end.

Definition header_of (q : RangeRequest) : string := of_chars (chars "bytes=" ++ render q).

(** Characters of a rendered request. *)
Definition spec_char (c : ascii) : bool := is_digit c || Ascii.eqb c "-"%char.

Lemma digit_spec_chars l : forallb is_digit l = true -> forallb spec_char l = true.
Proof.
  rewrite !forallb_forall. intros Hl c Hc. unfold spec_char. by rewrite Hl.
Qed.

Lemma render_chars q : proper q -> forallb spec_char (render q) = true.
Proof.
  assert (Hn : forall n, 0 <= n -> forallb spec_char (numeral n) = true).
  { intros n Hn. by apply digit_spec_chars, numeral_digits. }
  destruct q as [f l|f|n]; cbn [render proper]; intros Hq; rewrite ?forallb_app; cbn [forallb];
    rewrite ?Hn by lia; done.
Qed.

Lemma render_cons q : proper q -> exists c l, render q = c :: l.
Proof.
  destruct q as [f l|f|n]; cbn [render proper]; intros Hq; [| |by eexists _, _];
    (destruct (numeral_cons f) as (c & m & E); [lia|]); rewrite E; by eexists _, _.
Qed.

(** A character class without digits and dashes does not occur in a request. *)
Lemma spec_char_in l d :
  forallb spec_char l = true -> spec_char d = false -> char_in d l = false.
Proof.
  intros Hl Hd. apply not_true_is_false. intros (c & Hc & E)%existsb_exists.
  apply Ascii.eqb_eq in E as ->. rewrite forallb_forall in Hl. specialize (Hl _ Hc). congruence.
Qed.

Lemma spec_not_space c : spec_char c = true -> is_space c = false.
Proof. destruct c as [[] [] [] [] [] [] [] []]; vm_compute; congruence. Qed.

Lemma parse_header q size :
  proper q -> (length (render q) <= 122)%nat -> 0 < size ->
  parse_single_byte_range (Some (header_of q)) size =
  match strip_prefix ["-"%char] (render q) with
  | Some suffix_s => parse_suffix suffix_s size
  | None => parse_interval (render q) size
  end.
Proof.
  intros Hq Hl Hs. pose proof (render_chars q Hq) as Hc.
  destruct (render_cons q Hq) as (c & l & Er).
  assert (Eraw : strip is_space (chars (header_of q)) = chars "bytes=" ++ render q).
  { unfold header_of, chars at 1, of_chars. rewrite String.list_ascii_of_string_of_list_ascii.
    apply strip_id. rewrite forallb_app. apply andb_true_intro. split; [done|].
    rewrite forallb_forall in *. intros d Hd. by rewrite (spec_not_space d (Hc d Hd)). }
  unfold parse_single_byte_range. rewrite Eraw. clear Eraw. cbv zeta.
  rewrite bool_decide_eq_false_2 by done.
  rewrite (proj2 (Z.ltb_ge _ _)) by (rewrite length_app; unfold MAX_RANGE_HEADER_CHARS; cbn [chars String.list_ascii_of_string length]; lia).
  assert (Hcomma : char_in ","%char (chars "bytes=" ++ render q) = false).
  { unfold char_in. rewrite existsb_app. apply orb_false_intro; [done|]. by apply spec_char_in. }
  rewrite Hcomma, fmap_app.
  change (lower_char <$> chars "bytes=") with (chars "bytes="). rewrite strip_prefix_app.
  change (drop 6 (chars "bytes=" ++ render q)) with (drop 0 (render q)). rewrite drop_0. cbn [is_some negb].
  rewrite bool_decide_eq_false_2 by (by rewrite Er). cbn [orb].
  rewrite !spec_char_in by done. cbn [orb]. by rewrite (proj2 (Z.leb_gt size 0)).
Qed.

Lemma isdigit_numeral n : 0 <= n -> isdigit (numeral n) = true.
Proof.
  intros Hn. unfold isdigit. destruct (numeral_cons n Hn) as (c & l & E).
  rewrite bool_decide_eq_false_2 by (by rewrite E). cbn [negb andb].
  apply forallb_forall. intros d Hd. pose proof (numeral_digits n Hn) as HF.
  rewrite forallb_forall in HF. by rewrite HF.
Qed.

Lemma int_of_numeral n : 0 <= n -> int_of_digits (numeral n) = inr n.
Proof. intros Hn. unfold int_of_digits. by rewrite numeral_digits, numeral_value. Qed.

Lemma split_numeral n rest :
  0 <= n -> split_once "-"%char (numeral n ++ "-"%char :: rest) = (numeral n, Some rest).
Proof.
  intros Hn. apply split_once_app. intros c Hc. apply digit_other; [|done].
  pose proof (numeral_digits n Hn) as HF. rewrite forallb_forall in HF. apply HF.
  by apply list_elem_of_In.
Qed.

Lemma numeral_no_dash n rest : 0 <= n -> strip_prefix ["-"%char] (numeral n ++ rest) = None.
Proof.
  intros Hn. destruct (numeral_cons n Hn) as (c & l & E). pose proof (numeral_digits n Hn) as HF.
  rewrite E in *. cbn [forallb] in HF. apply andb_prop in HF as [Hc _].
  unfold strip_prefix; cbn [app]. rewrite Ascii.eqb_sym. by rewrite (digit_other c).
Qed.

(** C36: A Range header gets the bytes it asks for. For each of the three forms
    of a request, written in decimal within the length limit, the parser selects
    a non-empty range of the artifact that holds exactly the requested bytes,
    or, when no byte of the artifact is requested, answers that the range cannot
    be satisfied. *)
Theorem range_selects_requested_bytes q size :
  proper q -> (length (render q) <= 122)%nat -> 0 < size ->
  match parse_single_byte_range (Some (header_of q)) size with
  | inr (Some (inl r)) =>
      total r = size /\ start r < end_ r /\
      forall b, start r <= b < end_ r <-> requested q size b
  | inr (Some (inr u)) => unsatisfiable_total u = size /\ forall b, ~ requested q size b
  | _ => False
  end.
Proof.
  intros Hq Hl Hs. rewrite parse_header by done. clear Hl. unfold requested.
  destruct q as [f l|f|n]; cbn [render proper] in *.
  - rewrite numeral_no_dash by lia. unfold parse_interval. rewrite split_numeral by lia.
    rewrite isdigit_numeral, int_of_numeral by lia. cbn [negb].
    destruct (Z.leb_spec size f); [split; [done|]; intros b; cbn; lia|].
    destruct (numeral_cons l) as (c & m & E); [lia|].
    rewrite bool_decide_eq_false_2 by (by rewrite E). rewrite isdigit_numeral, int_of_numeral by lia.
    cbn [negb]. rewrite (proj2 (Z.ltb_ge _ _)) by lia. cbn. split_and!; [done|lia|intros b; lia].
  - rewrite numeral_no_dash by lia. unfold parse_interval. rewrite split_numeral by lia.
    rewrite isdigit_numeral, int_of_numeral by lia. cbn [negb].
    destruct (Z.leb_spec size f); [split; [done|]; intros b; cbn; lia|].
    rewrite bool_decide_eq_true_2 by done. cbn. split_and!; [done|lia|intros b; lia].
  - cbn [strip_prefix]. rewrite Ascii.eqb_refl. unfold parse_suffix. rewrite isdigit_numeral by lia.
    rewrite int_of_numeral by lia. cbn [negb].
    destruct (Z.ltb_spec 1 (Z.of_nat (length (numeral n)))); cbn [andb].
    2: { destruct (Z.eqb_spec n 0); [split; [done|]; intros b; cbn; lia|]. cbn.
         destruct (Z.ltb_spec size n); (split_and!; [done|lia|intros b; lia]). }
    rewrite numeral_no_zero by lia. cbn [is_some].
    destruct (Z.eqb_spec n 0); [split; [done|]; intros b; cbn; lia|]. cbn.
    destruct (Z.ltb_spec size n); (split_and!; [done|lia|intros b; lia]).
Qed.

(** *** Headers that are no proper request *)

(** What a parse may answer; [src] are the characters it reads. *)
Definition outcome (src : list ascii) (size : Z) (res : exn + Selection) : Prop :=
  match res with
  | inr (Some (inl r)) => 0 <= start r < end_ r /\ end_ r <= size /\ total r = size
  | inr (Some (inr u)) => unsatisfiable_total u = size
  | inr None => False
  | inl (DownloadError _ _ http_status) => http_status = 400
  | inl (ValueError _) => exists c, c ∈ src /\ superscript c = true
  | inl _ => False
  end.

Lemma outcome_weaken src src' size res :
  (forall c, c ∈ src -> c ∈ src') -> outcome src size res -> outcome src' size res.
Proof. intros Hs. destruct res as [[]|[[]|]]; cbn; try done. intros (c & Hc & E). eauto. Qed.

Lemma int_of_isdigit l :
  isdigit l = true ->
  match int_of_digits l with
  | inr n => 0 <= n
  | inl (ValueError _) => exists c, c ∈ l /\ superscript c = true
  | inl _ => False
  end.
Proof.
  unfold isdigit, int_of_digits. intros [_ Hl]%andb_prop. destruct (forallb is_digit l) eqn:Ed.
  - apply read_digits_nonneg. rewrite Forall_fmap, Forall_forall. intros c Hc.
    rewrite forallb_forall in Ed. cbn. unfold digit_value. specialize (Ed c).
    rewrite list_elem_of_In in Hc. specialize (Ed Hc). unfold is_digit in Ed. propify. lia.
  - destruct (forallb_false_exists _ _ Ed) as (c & Hc & Ec). exists c. split; [done|].
    rewrite forallb_forall in Hl. rewrite list_elem_of_In in Hc. specialize (Hl c Hc).
    by rewrite Ec in Hl.
Qed.

Lemma parse_suffix_outcome l size : 0 < size -> outcome l size (parse_suffix l size).
Proof.
  intros Hs. unfold parse_suffix. destruct (isdigit l) eqn:Ed; cbn [negb]; [|done].
  destruct (_ && _); [done|]. pose proof (int_of_isdigit l Ed) as Hi.
  destruct (int_of_digits l) as [[]|n]; try done. destruct (Z.eqb_spec n 0); [done|]. cbn.
  destruct (Z.ltb_spec size n); lia.
Qed.

Lemma parse_interval_outcome l size : 0 < size -> outcome l size (parse_interval l size).
Proof.
  intros Hs. unfold parse_interval. destruct (split_once _ l) as [a [b|]] eqn:E; [|done].
  apply split_once_inv in E as ->. destruct (isdigit a) eqn:Ea; cbn [negb]; [|done].
  pose proof (int_of_isdigit a Ea) as Ha. destruct (int_of_digits a) as [[]|f]; try done.
  { cbn in *. destruct Ha as (c & Hc & Es). exists c. split; [set_solver|done]. }
  destruct (Z.leb_spec size f); [done|]. case_bool_decide; [cbn; lia|].
  destruct (isdigit b) eqn:Eb; cbn [negb]; [|done].
  pose proof (int_of_isdigit b Eb) as Hb. destruct (int_of_digits b) as [[]|n]; try done.
  { cbn in *. destruct Hb as (c & Hc & Es). exists c. split; [set_solver|done]. }
  destruct (Z.ltb_spec n f); [done|]. cbn. lia.
Qed.

(** No header selects bytes outside the artifact. Whatever the client sends,
    a selected range is a non-empty part of the artifact, a 416 states the
    artifact's size, and a malformed header is refused with status 400 - with
    one exception: [int] raises a [ValueError] on a text [isdigit] accepted,
    which takes a superscript digit in the header. *)
Theorem range_outcomes header size :
  0 < size ->
  match parse_single_byte_range header size with
  | inr (Some (inl r)) => 0 <= start r < end_ r /\ end_ r <= size /\ total r = size
  | inr (Some (inr u)) => unsatisfiable_total u = size
  | inr None => default [] (strip is_space ∘ chars <$> header) = []
  | inl (DownloadError _ _ http_status) => http_status = 400
  | inl (ValueError _) => exists h c, header = Some h /\ c ∈ chars h /\ superscript c = true
  | inl _ => False
  end.
Proof.
  intros Hs. destruct header as [h|]; [|done]. unfold parse_single_byte_range. cbv zeta.
  destruct (bool_decide (strip is_space (chars h) = [])) eqn:Er; [by apply bool_decide_eq_true in Er|].
  repeat match goal with |- context [if ?b then inl (bad_range _) else _] => destruct b; [done|] end.
  rewrite (proj2 (Z.leb_gt size 0)) by lia.
  set (spec := drop 6 _).
  assert (Hin : forall c, c ∈ spec -> c ∈ chars h).
  { intros c Hc. apply (strip_subset is_space). rewrite <- (take_drop 6 (strip _ _)). apply elem_of_app. by right. }
  assert (Ho : outcome (chars h) size match strip_prefix ["-"%char] spec with
      | Some suffix_s => parse_suffix suffix_s size | None => parse_interval spec size end).
  { destruct (strip_prefix ["-"%char] spec) as [rest|] eqn:Ep.
    - apply strip_prefix_inv in Ep. eapply outcome_weaken; [|by apply parse_suffix_outcome].
      intros c Hc. apply Hin. rewrite Ep. set_solver.
    - eapply outcome_weaken; [exact Hin|by apply parse_interval_outcome]. }
  destruct (match strip_prefix _ _ with Some _ => _ | None => _ end) as [[]|[[]|]]; try done.
  destruct Ho as (c & Hc & E). eauto.
Qed.

(** [int] meets a superscript: the exception is no [DownloadError], so the
    request ends as an internal error instead of a 400. *)
Example superscript_range_crashes :
  parse_single_byte_range
    (Some (of_chars (chars "bytes=" ++ ["178"%char; "-"%char]))) 10 =
  inl (ValueError "invalid literal for int() with base 10").
Proof. reflexivity. Qed.

Lemma range_selects_requested_bytes_witness :
  match parse_single_byte_range (Some "bytes=3-40") 10 with
  | inr (Some (inl r)) => start r = 3 /\ end_ r = 10
  | _ => False
  end.
Proof.
  pose proof (range_selects_requested_bytes (FromTo 3 40) 10 ltac:(cbn; lia)
                ltac:(vm_compute; lia) ltac:(lia)) as Hr.
  change (header_of (FromTo 3 40)) with "bytes=3-40" in Hr. vm_compute in Hr |- *. tauto.
Defined.

Lemma range_outcomes_witness :
  match parse_single_byte_range (Some " BYTES=0-9,12-20") 30 with
  | inl (DownloadError _ _ http_status) => http_status = 400
  | _ => False
  end.
Proof.
  pose proof (range_outcomes (Some " BYTES=0-9,12-20") 30 ltac:(lia)) as Hr.
  vm_compute in Hr |- *. exact Hr.
Defined.
