(* ===== verification/Money.v ===== *)
(** Money on the wire: the decimal sums of [payments/robokassa.py], with the
    arithmetic of Python's [decimal] that reads them.

    Strings are as the code handles them after encoding: one character per
    byte. *)

From S2P Require Export Text Errors.

Local Open Scope string_scope.
Local Open Scope list_scope.
Local Open Scope Z_scope.

(** ** [decimal.Decimal], for the values the regular expression lets through *)

(** A non-negative decimal: [coefficient * 10 ^ exponent]. *)
Record Decimal := {
  coefficient : Z;
  exponent : Z
}.

(** The significant digits the default context keeps. *)
Definition DECIMAL_PRECISION : Z := 28.

Definition num_digits (n : Z) : Z := Z.of_nat (length (digits n)).

(** [n / d] rounded half to even. *)
Definition div_half_even (n d : Z) : Z :=
  let q := n / d in
  let r := n mod d in
  if (2 * r <? d) || ((2 * r =? d) && Z.even q) then q else q + 1.

(** The result of an operation rounded to the precision of the context. *)
Definition fix_precision (x : Decimal) : Decimal :=
  let excess := num_digits (coefficient x) - DECIMAL_PRECISION in
  if excess <=? 0 then x
  else {| coefficient := div_half_even (coefficient x) (10 ^ excess);
          exponent := exponent x + excess |}.

(** Source: backend/src/fetchnow/payments/robokassa.py:41-41 [parse_callback_out_sum]
    [value * 100] *)
Definition times100 (x : Decimal) : Decimal :=
  fix_precision {| coefficient := coefficient x * 100; exponent := exponent x |}.

(** Source: backend/src/fetchnow/payments/robokassa.py:42-42 [parse_callback_out_sum]
    [x == x.to_integral_value()] and [int(x)] of an integral [x]. *)
Definition is_integral (x : Decimal) : bool :=
  (0 <=? exponent x) || (coefficient x mod 10 ^ (- exponent x) =? 0).
(** Source: backend/src/fetchnow/payments/robokassa.py:44-44 [parse_callback_out_sum] *)
Definition integral_part (x : Decimal) : Z :=
  if 0 <=? exponent x then coefficient x * 10 ^ exponent x
  else coefficient x / 10 ^ (- exponent x).

Module Robokassa.

(** Source: backend/src/fetchnow/payments/robokassa.py:27-31 [format_out_sum] *)
Definition format_out_sum (amount_minor : Z) : exn + string :=
  if amount_minor <=? 0 then inl (ValueError "amount_minor must be a positive integer")
  else
    let whole := amount_minor / 100 in
    let fractional := amount_minor mod 100 in
    let pad := if fractional <? 10 then "0" else "" in
    inr (str_of_Z whole ++ "." ++ pad ++ str_of_Z fractional)%string.

(** Source: backend/src/fetchnow/payments/robokassa.py:17-17 [_OUT_SUM]
    [0|[1-9][0-9]*] *)
Definition whole_ok (whole : list Ascii.ascii) : bool :=
  match whole with
  | [] => false
  | [c] => is_digit c
  | c :: _ => negb (Ascii.eqb c "0") && forallb is_digit whole
  end.

(** Source: backend/src/fetchnow/payments/robokassa.py:17-17 [_OUT_SUM]

    The groups of a full match: the digits before the point and those after it,
    if there is one. *)
Definition match_out_sum (raw : string) : option (list Z * list Z) :=
  let '(whole, frac) := split_once "."%char (String.list_ascii_of_string raw) in
  match frac with
  | None => if whole_ok whole then Some (digit_value <$> whole, []) else None
  | Some frac =>
      if whole_ok whole && negb (Nat.eqb (length frac) 0) && forallb is_digit frac
      then Some (digit_value <$> whole, digit_value <$> frac) else None
  end.

(** Source: backend/src/fetchnow/payments/robokassa.py:38-39 [Decimal(raw)] *)
Definition decimal_of_match (m : list Z * list Z) : Decimal :=
  {| coefficient := read_digits (m.1 ++ m.2); exponent := - Z.of_nat (length m.2) |}.

(** Source: backend/src/fetchnow/payments/robokassa.py:34-47 [parse_callback_out_sum] *)
Definition parse_callback_out_sum (raw : string) : exn + Z :=
  if 64 <? strlen raw then inl (PaymentError InvalidCallbackError)
  else
    match match_out_sum raw with
    | None => inl (PaymentError InvalidCallbackError)
    | Some m =>
        let scaled := times100 (decimal_of_match m) in
        if negb (is_integral scaled) || (coefficient scaled <=? 0)
        then inl (PaymentError InvalidCallbackError)
        else
          let amount := integral_part scaled in
          if 9223372036854775807 <? amount then inl (PaymentError InvalidCallbackError)
          else inr amount
    end.

(** The sum [raw] states, times [10 ^ k] for its [k] fractional digits. *)
Definition stated_sum (m : list Z * list Z) (amount_minor : Z) : Prop :=
  read_digits (m.1 ++ m.2) * 100 = amount_minor * 10 ^ Z.of_nat (length m.2).

(** *** Reading back what was written *)

Lemma digit_char_not_point d : digit d -> Ascii.eqb (digit_char d) "." = false.
Proof.
  intros Hd. apply Ascii.eqb_neq. intros E. destruct (digit_char_ok d Hd) as [Ho _].
  rewrite E in Ho. discriminate Ho.
Qed.

Lemma split_point_digits ds rest :
  Forall digit ds ->
  split_once "."%char ((digit_char <$> ds) ++ "."%char :: rest) = (digit_char <$> ds, Some rest).
Proof.
  intros Hds. apply split_once_app. intros c (d & -> & Hd)%list_elem_of_fmap.
  rewrite Forall_forall in Hds. apply digit_char_not_point. by apply Hds.
Qed.

Lemma whole_ok_digits n : 0 <= n -> whole_ok (digit_char <$> digits n) = true.
Proof.
  intros Hn. destruct (digits_spec n Hn) as [_ HF].
  destruct (decide (n = 0)) as [->|]; [done|].
  destruct (digits_head n) as (d & l & E & Hd); [lia|]. rewrite E in *.
  pose proof (digits_are_digits _ HF) as Hall.
  assert (Hd0 : Ascii.eqb (digit_char d) "0" = false).
  { apply Ascii.eqb_neq. intros Ec. destruct (digit_char_ok d) as [_ Hv]; [lia|].
    rewrite Ec in Hv. cbn in Hv. unfold digit_value in Hv. cbn in Hv. lia. }
  cbn. destruct (digit_char <$> l) eqn:El.
  - cbn in Hall. by rewrite El, andb_true_r in Hall.
  - rewrite Hd0. cbn in Hall. rewrite El in Hall. exact Hall.
Qed.

(** The two digits after the point. *)
Definition cents (n : Z) : list Z := (if n mod 100 <? 10 then [0] else []) ++ digits (n mod 100).

Lemma format_chars amount text :
  format_out_sum amount = inr text ->
  String.list_ascii_of_string text =
    (digit_char <$> digits (amount / 100)) ++ "."%char :: (digit_char <$> cents amount).
Proof.
  unfold format_out_sum. destruct (amount <=? 0); [done|]. intros E. apply (inj inr) in E as <-.
  unfold str_of_Z, cents.
  rewrite !list_ascii_app, !String.list_ascii_of_string_of_list_ascii, fmap_app.
  by destruct (amount mod 100 <? 10).
Qed.

Definition cents_ok (n : Z) : bool :=
  forallb (fun d => (0 <=? d) && (d <? 10)) (cents n) && Nat.eqb (length (cents n)) 2 &&
  (read_digits (cents n) =? n).

Lemma cents_all : forallb cents_ok (Z.of_nat <$> seq 0 100) = true.
Proof. vm_compute. reflexivity. Qed.

Lemma cents_spec amount :
  Forall digit (cents amount) /\ length (cents amount) = 2%nat /\
  read_digits (cents amount) = amount mod 100.
Proof.
  pose proof (Z.mod_pos_bound amount 100 ltac:(lia)) as Hb.
  assert (E : cents amount = cents (amount mod 100)) by (unfold cents; by rewrite Z.mod_mod).
  rewrite E. set (c := amount mod 100) in *. clearbody c. clear E.
  pose proof cents_all as Ha. rewrite forallb_forall in Ha. specialize (Ha c).
  unfold cents_ok in Ha. rewrite <- list_elem_of_In in Ha. specialize (Ha ltac:(
    apply list_elem_of_fmap; exists (Z.to_nat c); rewrite elem_of_seq; lia)).
  propify. split_and!; [|by apply Nat.eqb_eq|done].
  apply Forall_forall. intros d Hd. match goal with H : forallb _ _ = true |- _ =>
    rewrite forallb_forall in H; apply list_elem_of_In, H in Hd end. propify. by split.
Qed.

Lemma digits_nonneg l : Forall digit l -> 0 <= read_digits l.
Proof. intros Hl. apply read_digits_nonneg. eapply Forall_impl; [exact Hl|]. intros d [Hd _]. exact Hd. Qed.

(** A sum of few enough digits is scaled without rounding. *)
Lemma times100_exact m :
  num_digits (read_digits (m.1 ++ m.2) * 100) <= DECIMAL_PRECISION ->
  times100 (decimal_of_match m) =
    {| coefficient := read_digits (m.1 ++ m.2) * 100; exponent := - Z.of_nat (length m.2) |}.
Proof.
  intros Hn. unfold times100, fix_precision, decimal_of_match. cbn.
  by rewrite (proj2 (Z.leb_le _ 0)) by lia.
Qed.

Lemma integral_exact c k :
  is_integral {| coefficient := c; exponent := - Z.of_nat k |} = true ->
  integral_part {| coefficient := c; exponent := - Z.of_nat k |} * 10 ^ Z.of_nat k = c.
Proof.
  unfold is_integral, integral_part. cbn. destruct (Z.leb_spec 0 (- Z.of_nat k)); cbn; intros Hi.
  - assert (k = 0%nat) as -> by lia. cbn. lia.
  - rewrite Z.opp_involutive in *. propify. pose proof (Z.div_mod c (10 ^ Z.of_nat k)) as Hd.
    rewrite Hi in Hd. specialize (Hd ltac:(apply Z.pow_nonzero; lia)). rewrite Z.mul_comm. lia.
Qed.

(** A callback sum is money, to the kopeck. When [parse_callback_out_sum]
    accepts a sum of at most 26 significant digits (28 after the scaling), the
    amount it returns is the exact number of kopecks the text states - nothing is
    rounded - and is a positive 63-bit integer. *)
Theorem callback_sum_exact raw amount m :
  parse_callback_out_sum raw = inr amount -> match_out_sum raw = Some m ->
  num_digits (read_digits (m.1 ++ m.2) * 100) <= DECIMAL_PRECISION ->
  stated_sum m amount /\ 0 < amount <= 9223372036854775807.
Proof.
  intros E Em Hn. unfold parse_callback_out_sum in E. destruct (_ <? _); [done|]. rewrite Em in E.
  rewrite times100_exact in E by done. destruct (_ || _) eqn:Ec in E; [done|].
  destruct (Z.ltb_spec 9223372036854775807 (integral_part
    {| coefficient := read_digits (m.1 ++ m.2) * 100; exponent := - Z.of_nat (length m.2) |}));
    [done|]. injection E as <-. propify. pose proof (integral_exact _ _ H0) as Hx. cbn in H1.
  split; [by unfold stated_sum|]. split; [|done].
  set (a := integral_part _) in *. assert (0 < 10 ^ Z.of_nat (length m.2)) by (apply Z.pow_pos_nonneg; lia).
  nia.
Qed.

(** A sum is read back as it was sent: for every amount the payment form can
    carry, the text [format_out_sum] writes into [OutSum] is accepted by the
    callback parser and yields the same amount of kopecks. *)
Theorem out_sum_roundtrip amount :
  0 < amount <= 9223372036854775807 ->
  exists text, format_out_sum amount = inr text /\ parse_callback_out_sum text = inr amount.
Proof.
  intros Ha. unfold format_out_sum at 1. rewrite (proj2 (Z.leb_gt _ _)) by lia. eexists. split; [done|].
  set (text := (_ ++ _)%string).
  assert (Et : format_out_sum amount = inr text) by (unfold format_out_sum; by rewrite (proj2 (Z.leb_gt _ _)) by lia).
  apply format_chars in Et. destruct (cents_spec amount) as (HFc & Hlc & Hrc).
  assert (Hw : 0 <= amount / 100 < 10 ^ Z.of_nat 17).
  { split; [apply Z.div_pos; lia|]. apply Z.div_lt_upper_bound; [lia|]. cbn. lia. }
  destruct (digits_spec (amount / 100)) as [Hrw HFw]; [lia|].
  pose proof (digits_length (amount / 100) 16 Hw) as Hlw.
  assert (Em : match_out_sum text = Some (digits (amount / 100), cents amount)).
  { unfold match_out_sum. rewrite Et, split_point_digits by done.
    rewrite whole_ok_digits, digits_are_digits, length_fmap, Hlc, !digit_values by done || lia. done. }
  assert (Hlen : strlen text <= 64).
  { unfold strlen. rewrite <- length_list_ascii, Et, length_app. cbn [length]. rewrite !length_fmap. lia. }
  assert (Hr : read_digits (digits (amount / 100) ++ cents amount) = amount).
  { rewrite read_digits_app, Hrw, Hrc, Hlc. change (10 ^ Z.of_nat 2) with 100.
    rewrite Z.mul_comm. symmetry. apply Z.div_mod. lia. }
  unfold parse_callback_out_sum. rewrite (proj2 (Z.ltb_ge _ _)) by lia. rewrite Em.
  rewrite times100_exact; cbn [fst snd]; rewrite Hr, ?Hlc.
  2: { unfold num_digits, DECIMAL_PRECISION.
       assert (length (digits (amount * 100)) <= 28)%nat; [|lia].
       apply (digits_length _ 27). cbn. lia. }
  assert (Hi : is_integral {| coefficient := amount * 100; exponent := - Z.of_nat 2 |} = true).
  { unfold is_integral. cbn. apply Z.eqb_eq. change (Z.pow_pos 10 2) with 100. by apply Z_mod_mult. }
  pose proof (integral_exact _ _ Hi) as Hx. rewrite Hi. cbn [negb orb coefficient].
  change (10 ^ Z.of_nat 2) with 100 in Hx. apply Z.mul_reg_r in Hx; [|lia]. rewrite Hx.
  rewrite (proj2 (Z.leb_gt _ _)) by lia. by rewrite (proj2 (Z.ltb_ge _ _)) by lia.
Qed.

(** The parser rounds what it should refuse. The module states exact money
    and refuses a fraction of a kopeck, but [value * 100] is computed in the
    28-digit default context: 100.000000000000000000000000000001 roubles, which is
    not a whole number of kopecks, is accepted as exactly 10000 kopecks. *)
Theorem callback_sum_rounds_long_fractions :
  exists raw m, parse_callback_out_sum raw = inr 10000 /\ match_out_sum raw = Some m /\
    ~ stated_sum m 10000 /\ (forall amount, ~ stated_sum m amount).
Proof.
  set (raw := "100.000000000000000000000000000001").
  exists raw, (default ([], []) (match_out_sum raw)).
  split; [vm_compute; reflexivity|]. split; [vm_compute; reflexivity|].
  assert (H : forall amount, ~ stated_sum (default ([], []) (match_out_sum raw)) amount).
  { intros amount. unfold stated_sum. 
    replace (read_digits _) with 100000000000000000000000000000001 by (vm_compute; reflexivity).
    replace (length _) with 30%nat by (vm_compute; reflexivity).
    change (10 ^ Z.of_nat 30) with 1000000000000000000000000000000. lia. }
  split; apply H.
Qed.

Lemma callback_sum_exact_witness : stated_sum ([1; 9; 9], [5; 0]) 19950.
Proof.
  apply (callback_sum_exact "199.50" 19950 ([1; 9; 9], [5; 0])).
  - vm_compute. reflexivity.
  - vm_compute. reflexivity.
  - vm_compute. discriminate.
Defined.

Lemma out_sum_roundtrip_witness :
  exists text, format_out_sum 19905 = inr text /\ parse_callback_out_sum text = inr 19905.
Proof. apply (out_sum_roundtrip 19905). lia. Defined.

End Robokassa.
