(* ===== verification/Payments.v ===== *)
(** Payment orders: [payments/catalog.py], [payments/idempotency.py], the receipt
    and signatures of [payments/robokassa.py], [payments/repository.py] and
    [payments/service.py]. *)

From S2P Require Export Sha256 Lifecycle Money Policy Premium.

Local Open Scope string_scope.
Local Open Scope list_scope.
Local Open Scope Z_scope.

(** ** Text primitives *)

Definition hex_upper (n : N) : Ascii.ascii :=
  Ascii.ascii_of_N (if (n <? 10)%N then 48 + n else 55 + n)%N.
Definition hex_lower (n : N) : Ascii.ascii :=
  Ascii.ascii_of_N (if (n <? 10)%N then 48 + n else 87 + n)%N.

(** [urllib.parse.quote(s, safe="")]: bytes outside the unreserved set as [%XX]. *)
Definition quote_char (c : Ascii.ascii) : list Ascii.ascii :=
  if is_alnum c || is_one_of "_.-~" c then [c]
  else let n := Ascii.N_of_ascii c in ["%"%char; hex_upper (n / 16)%N; hex_upper (n mod 16)%N].
Definition quote (s : string) : string :=
  String.string_of_list_ascii (String.list_ascii_of_string s ≫= quote_char).

(** [json.dumps(s, ensure_ascii=False)] of a string. *)
Definition json_char (c : Ascii.ascii) : list Ascii.ascii :=
  let n := Ascii.N_of_ascii c in
  if (n =? 34)%N then ["092"%char; "034"%char]
  else if (n =? 92)%N then ["092"%char; "092"%char]
  else if (n =? 10)%N then ["092"%char; "n"%char]
  else if (n =? 13)%N then ["092"%char; "r"%char]
  else if (n =? 9)%N then ["092"%char; "t"%char]
  else if (n =? 12)%N then ["092"%char; "f"%char]
  else if (n =? 8)%N then ["092"%char; "b"%char]
  else if (n <? 32)%N then
    ["092"%char; "u"%char; "0"%char; "0"%char; hex_lower (n / 16)%N; hex_lower (n mod 16)%N]
  else [c].
Definition json_string (s : string) : string :=
  String.string_of_list_ascii
    ("034"%char :: (String.list_ascii_of_string s ≫= json_char) ++ ["034"%char]).

Section Payments.
(** Source: backend/src/fetchnow/payments/idempotency.py:11-11 [_KEY] *)
Definition key_ok (value : string) : bool :=
  (22 <=? strlen value) && (strlen value <=? 128) &&
  all_chars (fun c => is_alnum c || is_one_of "._~-" c) value.

(** Source: backend/src/fetchnow/payments/idempotency.py:14-17 [hash_idempotency_key] *)
Definition hash_idempotency_key (value : string) : exn + bytes :=
  if key_ok value
  then inr (sha256_digest ("fetchnow:v1:payment-order-idempotency" ++
              String.String "000"%char value)%string)
  else inl (PaymentError InvalidIdempotencyKeyError).

(** ** The catalog *)

(** Source: backend/src/fetchnow/payments/catalog.py:10-10 [PRODUCT_CODE] *)
Definition PRODUCT_CODE : string := "premium_24h".
(** Source: backend/src/fetchnow/payments/catalog.py:11-11 [PRODUCT_DESCRIPTION] *)
Definition PRODUCT_DESCRIPTION : string := "Доступ к функциям FetchNow на 24 часа".

(** Source: backend/src/fetchnow/payments/catalog.py:14-23 [PaymentProduct] *)
Record PaymentProduct := {
  code : string;
  amount_minor : Z;
  currency : string;
  entitlement_duration_seconds : Z;
  receipt_name : string;
  receipt_tax : string;
  receipt_payment_method : string;
  receipt_payment_object : string
}.

(** Source: backend/src/fetchnow/payments/catalog.py:26-39 [get_product] *)
Definition get_product (settings : Settings) (product_code : string) : exn + PaymentProduct :=
  if negb (bool_decide (product_code = PRODUCT_CODE)) then inl (PaymentError UnknownProductError)
  else if negb (bool_decide (robokassa_mode settings = "test")) ||
          (robokassa_test_amount_minor settings <=? 0)
  then inl (PaymentError UnknownProductError)
  else inr {|
    code := PRODUCT_CODE;
    amount_minor := robokassa_test_amount_minor settings;
    currency := "RUB";
    entitlement_duration_seconds := 86400;
    receipt_name := PRODUCT_DESCRIPTION;
    receipt_tax := robokassa_receipt_tax settings;
    receipt_payment_method := robokassa_receipt_payment_method settings;
    receipt_payment_object := "service"
  |}.

(** ** Receipt and signatures *)

(** A JSON member name with its quotes and its colon. *)
Definition member (name : string) : string := (json_string name ++ ":")%string.

(** Source: backend/src/fetchnow/payments/robokassa.py:50-69 [serialize_receipt]

    [json_text]; [url_encoded] is its [encode_receipt_json]. *)
Definition serialize_receipt (product : PaymentProduct) : exn + string :=
  if (amount_minor product <=? 0) || negb (bool_decide (receipt_payment_object product = "service"))
  then inl (PaymentError PaymentInvariantError)
  else
    match Robokassa.format_out_sum (amount_minor product) with
    | inl e => inl e
    | inr out_sum =>
        inr ("{" ++ member "items" ++ "[{" ++ member "name" ++ json_string (receipt_name product) ++
             "," ++ member "quantity" ++ "1," ++ member "sum" ++ out_sum ++ "," ++
             member "payment_method" ++ json_string (receipt_payment_method product) ++ "," ++
             member "payment_object" ++ json_string (receipt_payment_object product) ++ "," ++
             member "tax" ++ json_string (receipt_tax product) ++ "}]}")%string
    end.

(** Source: backend/src/fetchnow/payments/robokassa.py:72-73 [encode_receipt_json] *)
Definition encode_receipt_json (receipt_json : string) : string := quote receipt_json.

(** Source: backend/src/fetchnow/payments/robokassa.py:80-88 [initiation_signature_base] *)
Definition initiation_signature_base (merchant_login out_sum : string) (inv_id : Z)
    (encoded_receipt password1 : string) : string :=
  (merchant_login ++ ":" ++ out_sum ++ ":" ++ str_of_Z inv_id ++ ":" ++ encoded_receipt ++ ":" ++
   password1)%string.

(** Source: backend/src/fetchnow/payments/robokassa.py:91-107 [sign_initiation] *)
Definition sign_initiation (merchant_login out_sum : string) (inv_id : Z)
    (encoded_receipt password1 : string) : string :=
  sha256_hex (initiation_signature_base merchant_login out_sum inv_id encoded_receipt password1).

(** Source: backend/src/fetchnow/payments/robokassa.py:110-111 [callback_signature_base] *)
Definition callback_signature_base (raw_out_sum : string) (inv_id : Z) (password2 : string) : string :=
  (raw_out_sum ++ ":" ++ str_of_Z inv_id ++ ":" ++ password2)%string.

(** Source: backend/src/fetchnow/payments/robokassa.py:114-119 [sign_callback] *)
Definition sign_callback (raw_out_sum : string) (inv_id : Z) (password2 : string) : string :=
  sha256_hex (callback_signature_base raw_out_sum inv_id password2).

(** Source: backend/src/fetchnow/payments/robokassa.py:122-125 [signature_matches] *)
Definition signature_matches (supplied expected : string) : bool :=
  if negb ((strlen supplied =? 64) && all_chars is_hex supplied) then false
  else bool_decide (lower supplied = lower expected).

End Payments.

Module PaymentOrderRepository.
Import PaymentStates.

(** Source: backend/src/fetchnow/payments/repository.py:27-31 [database_now] *)
Definition database_now : DB time := clock_timestamp.

(** Source: backend/src/fetchnow/payments/repository.py:46-67 [PaymentOrder(...)] *)
Definition created_order (id public_id : uid) (inv_id : Z) (anonymous_client_id : uid)
    (idempotency_hash : bytes) (product : PaymentProduct) (receipt_json : string) (now : time)
    (ttl_seconds : Z) : PaymentOrder := {|
  po_id := id;
  po_public_id := public_id;
  po_anonymous_client_id := anonymous_client_id;
  po_provider := "robokassa";
  po_provider_invoice_id := inv_id;
  po_product_code := code product;
  po_amount_minor := amount_minor product;
  po_currency := currency product;
  po_entitlement_duration_seconds := entitlement_duration_seconds product;
  po_status := CREATED;
  po_is_test := true;
  po_receipt_json := receipt_json;
  po_creation_idempotency_hash := idempotency_hash;
  po_created_at := now;
  po_updated_at := now;
  po_pending_at := None;
  po_paid_at := None;
  po_provider_callback_at := None;
  po_expires_at := now + seconds ttl_seconds;
  po_provider_operation_key := None
|}.

(** Source: backend/src/fetchnow/payments/repository.py:86-98 [_immutable_matches] *)
Definition immutable_matches (row : PaymentOrder) (product : PaymentProduct) (receipt_json : string)
  : bool :=
  bool_decide (po_provider row = "robokassa") &&
  bool_decide (po_product_code row = code product) &&
  (po_amount_minor row =? amount_minor product) &&
  bool_decide (po_currency row = currency product) &&
  (po_entitlement_duration_seconds row =? entitlement_duration_seconds product) &&
  po_is_test row &&
  bool_decide (po_receipt_json row = receipt_json).

(** Source: backend/src/fetchnow/payments/repository.py:33-84 [create_or_get] *)
Definition create_or_get (anonymous_client_id : uid) (idempotency_hash : bytes)
    (product : PaymentProduct) (receipt_json : string) (now : time) (ttl_seconds : Z)
  : DB (PaymentOrder * bool) :=
  raise_when (negb (Nat.eqb (length idempotency_hash) 32)) (PaymentError PaymentInvariantError) ;;;
  let* id := uuid4 in
  let* public_id := uuid4 in
  try_catch
    (begin_nested (
       let* inv_id := next_invoice_id in
       let row := created_order id public_id inv_id anonymous_client_id idempotency_hash product
                    receipt_json now ttl_seconds in
       insert_row row ;;; ret (row, true)))
    (fun e =>
       match e with
       | IntegrityError => Some (
           let* existing := select_first (fun r : PaymentOrder =>
             bool_decide (po_anonymous_client_id r = anonymous_client_id) &&
             bool_decide (po_creation_idempotency_hash r = idempotency_hash)) in
           match existing with
           | None => raise (PaymentError PaymentInvariantError)
           | Some existing =>
               raise_when (negb (immutable_matches existing product receipt_json))
                 (PaymentError IdempotencyConflictError) ;;;
               ret (existing, false)
           end)
       | _ => None
       end).

(** Source: backend/src/fetchnow/payments/repository.py:104-106 [mark_pending] *)
Definition pending_row (now : time) (row : PaymentOrder) : PaymentOrder :=
  row <| po_status := PENDING |> <| po_pending_at := Some now |> <| po_updated_at := now |>.

(** Source: backend/src/fetchnow/payments/repository.py:100-107 [mark_pending]

    The row is returned as the method leaves it. *)
Definition mark_pending (row : PaymentOrder) (now : time) : DB PaymentOrder :=
  if bool_decide (po_status row = PENDING) then ret row
  else
    lift (assert_payment_transition (value (po_status row)) PENDING) ;;;
    update_row (po_id row) (pending_row now).

(** Source: backend/src/fetchnow/payments/repository.py:109-118 [get_by_public_id_for_client] *)
Definition get_by_public_id_for_client (public_id anonymous_client_id : uid)
  : DB (option PaymentOrder) :=
  select_first (fun r => bool_decide (po_public_id r = public_id) &&
                         bool_decide (po_anonymous_client_id r = anonymous_client_id)).

(** Source: backend/src/fetchnow/payments/repository.py:120-124 [get_by_invoice_id] *)
Definition get_by_invoice_id (inv_id : Z) : DB (option PaymentOrder) :=
  select_first (fun r => po_provider_invoice_id r =? inv_id).

(** Source: backend/src/fetchnow/payments/repository.py:126-133 [lock_by_invoice_id] *)
Definition lock_by_invoice_id (inv_id : Z) : DB (option PaymentOrder) :=
  select_first (fun r => po_provider_invoice_id r =? inv_id).

(** Source: backend/src/fetchnow/payments/repository.py:139-142 [mark_paid] *)
Definition paid_row (now : time) (row : PaymentOrder) : PaymentOrder :=
  row <| po_status := PAID |> <| po_paid_at := Some now |>
      <| po_provider_callback_at := Some now |> <| po_updated_at := now |>.

(** Source: backend/src/fetchnow/payments/repository.py:135-144 [mark_paid]

    With the row as the method leaves it. *)
Definition mark_paid (row : PaymentOrder) (now : time) : DB (bool * PaymentOrder) :=
  if bool_decide (po_status row = PAID) then ret (false, row)
  else
    lift (assert_payment_transition (value (po_status row)) PAID) ;;;
    let* row := update_row (po_id row) (paid_row now) in
    ret (true, row).

(** Source: backend/src/fetchnow/payments/repository.py:149-157 [expire_unpaid.where] *)
Definition unpaid_due (now : time) (r : PaymentOrder) : bool :=
  bool_decide (po_status r ∈ [CREATED; PENDING]) && (po_expires_at r <=? now).

(** Source: backend/src/fetchnow/payments/repository.py:158-158 [expire_unpaid.values] *)
Definition expired_order (now : time) (r : PaymentOrder) : PaymentOrder :=
  r <| po_status := EXPIRED |> <| po_updated_at := now |>.

(** Source: backend/src/fetchnow/payments/repository.py:146-160 [expire_unpaid] *)
Definition expire_unpaid (now : time) : DB Z :=
  let* n := update_where (unpaid_due now) (expired_order now) in
  ret (Z.of_nat n).

End PaymentOrderRepository.

Module PaymentService.
Import PaymentStates PaymentOrderRepository.

Section Service.
Context (settings : Settings).

(** Source: backend/src/fetchnow/payments/service.py:57-59 [_require_test_mode] *)
Definition require_test_mode : DB unit :=
  raise_when (negb (bool_decide (robokassa_mode settings = "test"))) (PaymentError PaymentsDisabledError).

(** Source: backend/src/fetchnow/payments/service.py:64-69 [test_checkout_available] *)
Definition test_checkout_available : bool :=
  bool_decide (robokassa_mode settings = "test") && premium_test_checkout_visible settings.

(** Source: backend/src/fetchnow/payments/service.py:71-84 [public_product_summary] *)
Definition public_product_summary : option (string * Z * string * Z) :=
  if negb test_checkout_available then None
  else
    match get_product settings PRODUCT_CODE with
    | inl _ => None
    | inr product =>
        Some (code product, amount_minor product, currency product, entitlement_duration_seconds product)
    end.

(** Source: backend/src/fetchnow/payments/service.py:86-88 [ensure_checkout_available] *)
Definition ensure_checkout_available : DB unit :=
  raise_when (negb test_checkout_available) (PaymentError PaymentsDisabledError).

(** Source: backend/src/fetchnow/payments/service.py:117-145 [_form_fields] *)
Definition form_fields (row : PaymentOrder) : DB (list (string * string)) :=
  require_test_mode ;;;
  raise_when
    (negb (bool_decide (po_provider row = "robokassa")) ||
     negb (bool_decide (po_product_code row = PRODUCT_CODE)) ||
     negb (bool_decide (po_currency row = "RUB")) || negb (po_is_test row) ||
     (po_provider_invoice_id row <=? 0)) (PaymentError PaymentInvariantError) ;;;
  let* out_sum := lift (Robokassa.format_out_sum (po_amount_minor row)) in
  let encoded_receipt := encode_receipt_json (po_receipt_json row) in
  let signature :=
    sign_initiation (robokassa_merchant_login settings) out_sum (po_provider_invoice_id row)
      encoded_receipt (robokassa_test_password1 settings) in
  ret [("MerchantLogin", robokassa_merchant_login settings);
       ("OutSum", out_sum);
       ("InvId", str_of_Z (po_provider_invoice_id row));
       ("Description", "Доступ FetchNow на 24 часа");
       ("SignatureValue", signature);
       ("IsTest", "1");
       ("Receipt", encoded_receipt);
       ("Culture", "ru")].

(** Source: backend/src/fetchnow/payments/service.py:38-42 [CreatedPayment] *)
Record CreatedPayment := {
  cp_order : PaymentOrder;
  cp_fields : list (string * string);
  cp_created : bool
}.

(** Source: backend/src/fetchnow/payments/service.py:90-115 [create_order] *)
Definition create_order (anonymous_client_id : uid) (product_code idempotency_key : string)
  : DB CreatedPayment :=
  ensure_checkout_available ;;;
  let* product := lift (get_product settings product_code) in
  let* receipt := lift (serialize_receipt product) in
  let* now := database_now in
  let* idempotency_hash := lift (hash_idempotency_key idempotency_key) in
  let* res := create_or_get anonymous_client_id idempotency_hash product receipt now
                (robokassa_order_ttl_seconds settings) in
  let '(row, created) := res in
  let* row :=
    match po_status row with
    | CREATED => mark_pending row now
    | PENDING => ret row
    | _ => raise (PaymentError PaymentInvariantError)
    end in
  let* fields := form_fields row in
  ret {| cp_order := row; cp_fields := fields; cp_created := created |}.

(** Source: backend/src/fetchnow/payments/service.py:147-160 [get_order] *)
Definition get_order (public_id anonymous_client_id : uid) : DB PaymentOrder :=
  require_test_mode ;;;
  let* row := get_by_public_id_for_client public_id anonymous_client_id in
  match row with
  | None => raise (PaymentError PaymentOrderNotFoundError)
  | Some row => ret row
  end.

(** Source: backend/src/fetchnow/payments/service.py:200-211 [_validate_callback_snapshot] *)
Definition validate_callback_snapshot (row : PaymentOrder) : DB unit :=
  raise_when
    (negb (bool_decide (po_provider row = "robokassa")) ||
     negb (bool_decide (po_product_code row = PRODUCT_CODE)) ||
     negb (bool_decide (po_currency row = "RUB")) || negb (po_is_test row) ||
     negb (po_entitlement_duration_seconds row =? 86400) ||
     negb (bool_decide (po_status row ∈ [PENDING; PAID]))) (PaymentError InvalidCallbackError).

(** Source: backend/src/fetchnow/payments/service.py:45-48 [CallbackResult] *)
Record CallbackResult := {
  cb_inv_id : Z;
  cb_transitioned : bool
}.

(** Source: backend/src/fetchnow/payments/service.py:162-198 [accept_callback] *)
Definition accept_callback (raw_out_sum : string) (inv_id : Z) (supplied_signature : string)
  : DB CallbackResult :=
  require_test_mode ;;;
  let* snapshot := get_by_invoice_id inv_id in
  match snapshot with
  | None => raise (PaymentError InvalidCallbackError)
  | Some snapshot =>
    let expected := sign_callback raw_out_sum inv_id (robokassa_test_password2 settings) in
    raise_when (negb (signature_matches supplied_signature expected)) (PaymentError InvalidCallbackError) ;;;
    let* amount := lift (Robokassa.parse_callback_out_sum raw_out_sum) in
    raise_when (negb (amount =? po_amount_minor snapshot)) (PaymentError InvalidCallbackError) ;;;
    validate_callback_snapshot snapshot ;;;
    let* row := lock_by_invoice_id inv_id in
    match row with
    | None => raise (PaymentError InvalidCallbackError)
    | Some row =>
      let* amount := lift (Robokassa.parse_callback_out_sum raw_out_sum) in
      raise_when (negb (amount =? po_amount_minor row)) (PaymentError InvalidCallbackError) ;;;
      validate_callback_snapshot row ;;;
      let* now := database_now in
      let* paid := mark_paid row now in
      let '(transitioned, row) := paid in
      (if bool_decide (po_status row = PAID)
       then PremiumEntitlementRepository.ensure_for_paid_order row ;;; ret tt
       else ret tt) ;;;
      ret {| cb_inv_id := inv_id; cb_transitioned := transitioned |}
    end
  end.

End Service.
End PaymentService.

Lemma wp_next_invoice_id Q X w :
  Q (invoice_seq w) (w <| invoice_seq := invoice_seq w + 1 |>) -> wp next_invoice_id Q X w.
Proof. done. Qed.

(** ** The life cycle of an order *)
Module PaymentLifecycle.
Import PaymentStates PaymentOrderRepository PaymentService.

(** The state of an order and the instant it was paid. *)
Abbreviation Obs := (PaymentOrderState * option time)%type.

Definition order_obs (r : PaymentOrder) : Obs := (po_status r, po_paid_at r).

(** An order is opened, then paid once or expired; both are final. *)
Inductive order_step : Obs -> Obs -> Prop :=
| os_open : order_step (CREATED, None) (PENDING, None)
| os_pay t : order_step (PENDING, None) (PAID, Some t)
| os_expire s : s = CREATED \/ s = PENDING -> order_step (s, None) (EXPIRED, None).

(** What was sold, to whom, for how much: the columns no operation changes. *)
Definition order_identity (r : PaymentOrder) :=
  (po_id r, po_public_id r, po_anonymous_client_id r, po_provider r, po_provider_invoice_id r,
   (po_product_code r, po_amount_minor r, po_currency r, po_entitlement_duration_seconds r,
    po_receipt_json r, po_creation_idempotency_hash r, po_created_at r, po_expires_at r)).

#[export] Instance PaymentOrder_lifecycle : Lifecycle PaymentOrder := {
  observed := order_obs;
  lc_step := order_step;
  lc_initial a := a = (CREATED, None);
  row_inv r := PaymentOrder_check r = true;
  identity := order_identity
}.

#[export] Instance PaymentOrder_lifecycle_laws : LifecycleLaws PaymentOrder.
Proof.
  assert (Hs : forall {A} `{EqDecision A} (x y : A), bool_decide (x = y) = bool_decide (y = x)).
  { intros. apply bool_decide_ext. split; congruence. }
  split; cbn.
  - done.
  - unfold order_identity. intros r r' E. congruence.
  - intros r r'. by rewrite (Hs _ _ (po_public_id r)), (Hs _ _ (po_provider_invoice_id r)),
      (Hs _ _ (po_anonymous_client_id r)), (Hs _ _ (po_creation_idempotency_hash r)).
  - unfold order_identity. intros r r' x E.
    repeat (f_equal; try (apply bool_decide_ext; split; congruence)).
Qed.

(** A write that keeps the CHECK constraints is a step when the states are. *)
Lemma order_good r r' :
  PaymentOrder_check r' = true -> order_step (order_obs r) (order_obs r') ->
  order_identity r = order_identity r' -> good_update r r'.
Proof. intros. split_and!; [done|by right|done]. Qed.

Lemma unpaid_obs r : PaymentOrder_check r = true -> po_status r <> PAID -> po_paid_at r = None.
Proof.
  unfold PaymentOrder_check. intros Hc Hn. propify.
  destruct (po_status r), (po_paid_at r), (po_pending_at r); cbn in *; done.
Qed.

Section Operations.
Context (t0 : gmap uid PaymentOrder).

Abbreviation keeps m w := (wp m (fun _ => inv t0) (fun _ => inv t0) w).

Lemma inv_order w id r : inv t0 w -> payment_orders w !! id = Some r ->
  PaymentOrder_check r = true /\ po_id r = id.
Proof. intros Hi Hr. split; [exact (inv_rows _ _ Hi id r Hr)|exact (inv_keyed _ _ Hi id r Hr)]. Qed.

Lemma mark_good r f target :
  PaymentOrder_check r = true ->
  assert_payment_transition (value (po_status r)) target = inr tt ->
  order_identity (f r) = order_identity r -> po_status (f r) = target ->
  (target <> PAID -> po_paid_at (f r) = po_paid_at r) ->
  PaymentOrder_check (f r) = true -> good_update r (f r).
Proof.
  unfold assert_payment_transition. rewrite payment_parse_value. intros Hc Ht Hid Hs Hp Hc'.
  destruct (bool_decide _) eqn:Ea; [|done]. apply bool_decide_eq_true in Ea.
  apply order_good; [done| |done]. unfold order_obs. rewrite Hs.
  destruct (po_status r) eqn:Er; cbn in Ea; rewrite ?elem_of_cons, elem_of_nil in Ea;
    rewrite (unpaid_obs r Hc) by (by rewrite Er); try tauto.
  - destruct Ea as [->|[->|[]]]; rewrite Hp, (unpaid_obs r Hc) by (done || by rewrite Er);
      constructor; auto.
  - destruct Ea as [->|[->|[]]].
    + unfold PaymentOrder_check in Hc'. rewrite Hs in Hc'. propify.
      destruct (po_pending_at (f r)), (po_paid_at (f r)); try done. constructor.
    + rewrite Hp, (unpaid_obs r Hc) by (done || by rewrite Er). constructor. auto.
Qed.

(** A marked order: loaded in the same session, so the stored row is the one given. *)
Lemma keeps_mark r f target w :
  inv t0 w -> payment_orders w !! po_id r = Some r ->
  order_identity (f r) = order_identity r -> po_status (f r) = target ->
  (target <> PAID -> po_paid_at (f r) = po_paid_at r) ->
  assert_payment_transition (value (po_status r)) target = inr tt ->
  keeps (update_row (po_id r) f) w.
Proof.
  intros Hi Hr Hid Hs Hp Ht. apply (wp_checked_update_row t0); try done.
  intros x Hx Hxi Hc. assert (x = r) as -> by (cbn in Hx; congruence). by eapply mark_good.
Qed.

Lemma order_keeps_bind {A B} (m : DB A) (k : A -> DB B) w :
  keeps m w -> (forall a w', inv t0 w' -> keeps (k a) w') -> keeps (bind m k) w.
Proof. intros Hm Hk. apply wp_bind. eapply wp_mono; [exact Hm|auto|done]. Qed.

Lemma keeps_tables {A} (m : DB A) (Q : A -> World -> Prop) w :
  untouched PaymentOrder m -> inv t0 w ->
  (forall a w', inv t0 w' -> payment_orders w' = payment_orders w -> Q a w') ->
  wp m Q (fun _ => inv t0) w.
Proof. intros Hm Hi HQ. by apply (wp_untouched t0). Qed.

Lemma keeps_expire_unpaid now w : inv t0 w -> keeps (expire_unpaid now) w.
Proof.
  intros Hi. apply order_keeps_bind; [|by intros; apply wp_ret].
  apply (wp_good_update_where t0); [done| |done]. intros id r Er Hc Hp.
  unfold unpaid_due in Hp. propify. cbn in Hc.
  assert (Hs : po_status r = CREATED \/ po_status r = PENDING).
  { match goal with Hin : _ ∈ _ |- _ => rewrite !elem_of_cons, elem_of_nil in Hin end. tauto. }
  pose proof (unpaid_obs r Hc) as Hpd. apply order_good; [|..|done].
  - unfold PaymentOrder_check in *. destruct r. cbn in *.
    destruct Hs as [-> | ->]; propify; solve_bools.
  - unfold order_obs. cbn. rewrite Hpd by (destruct Hs as [-> | ->]; done). by constructor.
Qed.

Lemma keeps_mark_pending r now w :
  inv t0 w -> payment_orders w !! po_id r = Some r -> keeps (mark_pending r now) w.
Proof.
  intros Hi Hr. unfold mark_pending. wp_step; [by apply wp_ret|]. wp_step. wp_step; [done|]. destruct a.
  by eapply keeps_mark.
Qed.

Lemma keeps_mark_paid r now w :
  inv t0 w -> payment_orders w !! po_id r = Some r -> keeps (mark_paid r now) w.
Proof.
  intros Hi Hr. unfold mark_paid. wp_step; [by apply wp_ret|]. wp_step. wp_step; [done|]. destruct a.
  apply order_keeps_bind; [|by intros; apply wp_ret]. by eapply keeps_mark.
Qed.

(** The row a first-match selection returns is the stored one. *)
Lemma wp_select_first_order (p : PaymentOrder -> bool) Q X w :
  inv t0 w ->
  (forall r, payment_orders w !! po_id r = Some r -> p r = true -> Q (Some r) w) ->
  ((forall id r, payment_orders w !! id = Some r -> p r = false) -> Q None w) ->
  wp (select_first p) Q X w.
Proof.
  intros Hi H1 H2. unfold wp. destruct (select_first p w) as [[e|[r|]] w'] eqn:E; [done|..].
  - apply select_first_some in E as (-> & [id Er] & Hp). apply H1; [|done].
    destruct (inv_order _ _ _ Hi Er) as [_ ->]. exact Er.
  - assert (w' = w) as -> by (unfold select_first, gets in E; congruence).
    apply H2. exact (proj1 (select_first_none p w) E).
Qed.

Lemma keeps_create_or_get client hash product receipt now ttl w :
  inv t0 w ->
  wp (create_or_get client hash product receipt now ttl)
    (fun res w' => inv t0 w' /\ payment_orders w' !! po_id res.1 = Some res.1) (fun _ => inv t0) w.
Proof.
  intros Hi. unfold create_or_get. wp_step. wp_step; [done|].
  wp_step. apply wp_uuid4. wp_step. apply wp_uuid4.
  match goal with |- wp _ _ _ ?x => set (w1 := x) end.
  assert (Hi1 : inv t0 w1) by by apply (inv_tables_only t0 w).
  wp_step. apply wp_begin_nested. wp_step. apply wp_next_invoice_id.
  set (w2 := w1 <| invoice_seq := _ |>).
  assert (Hi2 : inv t0 w2) by by apply (inv_tables_only t0 w1).
  wp_step. apply (wp_good_insert t0); [done|done|done| |].
  - intros Hi3 Hok. apply wp_ret. split; [exact Hi3|]. cbn. by rewrite lookup_insert_eq.
  - intros _. assert (Hi3 : inv t0 (rollback w1 w2)) by by apply (inv_tables_only t0 w1).
    wp_step. apply wp_select_first_order; [done| |by intros _].
    intros r Hr _. wp_step. wp_step; [done|]. by apply wp_ret.
Qed.

Lemma form_fields_aside settings r : untouched PaymentOrder (form_fields settings r).
Proof. unfold form_fields, require_test_mode. solve_untouched. Qed.

Lemma keeps_create settings client product key w :
  inv t0 w -> keeps (create_order settings client product key) w.
Proof.
  intros Hi. unfold create_order, ensure_checkout_available. wp_step. wp_step; [done|].
  wp_step. wp_step; [done|]. wp_step. wp_step; [done|]. wp_step. apply wp_clock_timestamp.
  apply inv_clock with (n := S (clock_reads w)) in Hi. set (w1 := w <| clock_reads := _ |>) in *.
  wp_step. wp_step; [done|]. wp_step.
  eapply wp_mono; [by apply keeps_create_or_get| |done]. intros [r created] w2 [Hi2 Hr]. cbn in Hr.
  apply order_keeps_bind.
  - destruct (po_status r); try done. by apply keeps_mark_pending.
  - intros r' w3 Hi3. wp_step. apply keeps_tables; [apply form_fields_aside|done|].
    intros fields w4 Hi4 _. by apply wp_ret.
Qed.

Lemma ensure_aside r : untouched PaymentOrder (PremiumEntitlementRepository.ensure_for_paid_order r).
Proof.
  unfold PremiumEntitlementRepository.ensure_for_paid_order,
    PremiumEntitlementRepository.ensure_for_paid_order_at, PremiumEntitlementRepository.database_now,
    PremiumEntitlementRepository.get_by_source_payment_order_id.
  solve_untouched; apply preserves_try_catch; [solve_frame|].
  intros e k Hk. destruct e; try discriminate Hk. injection Hk as <-. solve_preserves.
Qed.

(** *** Callbacks *)

(** What an accepted callback established about the order it names. *)
Record authentic (settings : Settings) (raw : string) (inv_id : Z) (sig : string) (r : PaymentOrder)
  : Prop := {
  au_mode : robokassa_mode settings = "test";
  au_invoice : po_provider_invoice_id r = inv_id;
  au_signature :
    signature_matches sig (sign_callback raw inv_id (robokassa_test_password2 settings)) = true;
  au_amount : Robokassa.parse_callback_out_sum raw = inr (po_amount_minor r);
  au_duration : po_entitlement_duration_seconds r = 86400;
  au_status : po_status r = PENDING \/ po_status r = PAID
}.

Lemma raise_when_wp c e Q (X : exn -> World -> Prop) w :
  X e w -> (c = false -> Q tt w) -> wp (raise_when c e) Q X w.
Proof. intros HX HQ. by destruct c; [|apply HQ]. Qed.

(** The order as the callback leaves it. *)
Definition settle (now : time) (r : PaymentOrder) : PaymentOrder :=
  if bool_decide (po_status r = PAID) then r else paid_row now r.

(** Between the two writes of a callback: the order is paid, and nothing else. *)
Record paid_world (now : time) (r : PaymentOrder) (w w1 : World) : Prop := {
  pw_orders : payment_orders w1 = <[po_id r := settle now r]> (payment_orders w);
  pw_entitlements : premium_entitlements w1 = premium_entitlements w;
  pw_inv : inv t0 w1;
  pw_status : po_status (settle now r) = PAID
}.

Definition accepted (settings : Settings) (raw : string) (inv_id : Z) (sig : string)
    (w : World) (res : CallbackResult) (w' : World) : Prop :=
  exists r now w1 e created,
    payment_orders w !! po_id r = Some r /\ authentic settings raw inv_id sig r /\
    res = {| cb_inv_id := inv_id; cb_transitioned := bool_decide (po_status r = PENDING) |} /\
    paid_world now r w w1 /\
    PremiumEntitlementRepository.ensure_for_paid_order (settle now r) w1 = (inr (e, created), w').

Lemma wp_mark_paid r now w :
  inv t0 w -> payment_orders w !! po_id r = Some r -> po_status r = PENDING \/ po_status r = PAID ->
  wp (mark_paid r now)
    (fun res w1 => res = (bool_decide (po_status r = PENDING), settle now r) /\ paid_world now r w w1)
    (fun _ => inv t0) w.
Proof.
  intros Hi Hr Hst. unfold mark_paid. destruct Hst as [Hst|Hst]; rewrite Hst.
  - assert (Hset : settle now r = paid_row now r) by (unfold settle; by rewrite Hst).
    rewrite bool_decide_eq_false_2 by done. wp_step. wp_step; [done|]. wp_step.
    eapply (wp_mono _ (fun r' w1 => r' = paid_row now r /\
      w1 = with_table (<[po_id r := paid_row now r]> (payment_orders w)) w /\ inv t0 w1) _ (fun _ => inv t0));
      [| |done].
    + pose proof (keeps_mark r (paid_row now) PAID w Hi Hr eq_refl eq_refl) as Hk.
      rewrite Hst in Hk. specialize (Hk ltac:(done) eq_refl). unfold wp, update_row in *.
      change (table w) with (payment_orders w) in *. rewrite Hr in *. by destruct (row_check _).
    + intros r' w1 (-> & -> & Hi1). apply wp_ret. split; [by rewrite Hset|].
      split; [by rewrite Hset|done|done|by rewrite Hset].
  - apply wp_ret. assert (Hset : settle now r = r) by (unfold settle; by rewrite Hst).
    split; [by rewrite Hset|]. split; rewrite ?Hset; [by rewrite insert_id|done..].
Qed.

Lemma wp_ensure settings raw inv_id sig r now w w1 :
  payment_orders w !! po_id r = Some r -> authentic settings raw inv_id sig r -> paid_world now r w w1 ->
  wp ((if bool_decide (po_status (settle now r) = PAID)
       then PremiumEntitlementRepository.ensure_for_paid_order (settle now r) ;;; ret tt else ret tt) ;;;
      ret {| cb_inv_id := inv_id; cb_transitioned := bool_decide (po_status r = PENDING) |})
    (accepted settings raw inv_id sig w) (fun _ => inv t0) w1.
Proof.
  intros Hr Hau Hp. rewrite bool_decide_eq_true_2 by apply Hp. wp_step. wp_step.
  pose proof (ensure_aside (settle now r) _ w1 eq_refl) as Ht. unfold wp.
  destruct (PremiumEntitlementRepository.ensure_for_paid_order _ w1) as [[e|[e created]] w3] eqn:En.
  - apply (inv_table t0 w1); [done|apply Hp].
  - cbn. exists r, now, w1, e, created. by split_and!.
Qed.

(** The callback: only an authentic one gets to the order, which is then paid. *)
Lemma wp_accept settings raw inv_id sig w :
  inv t0 w ->
  wp (accept_callback settings raw inv_id sig) (accepted settings raw inv_id sig w) (fun _ => inv t0) w.
Proof.
  intros Hi. unfold accept_callback, require_test_mode, lock_by_invoice_id, get_by_invoice_id. wp_step.
  apply raise_when_wp; [done|]. intros Hmode. wp_step.
  apply wp_select_first_order; [done| |by intros _]. intros r Hr Hinv.
  wp_step. apply raise_when_wp; [done|]. intros Hsig. wp_step. wp_step; [done|]. rename a into amount.
  wp_step. apply raise_when_wp; [done|]. intros Ham. wp_step. apply raise_when_wp; [done|]. intros Hv.
  wp_step. apply wp_select_first_order; [done| |by intros _]. intros x Hx Hxinv. propify.
  assert (x = r) as ->.
  { assert (po_id x = po_id r) as E; [|congruence].
    apply (inv_unique _ _ Hi _ _ _ _ Hx Hr). cbn. rewrite (bool_decide_eq_true_2 (_ = po_provider_invoice_id _))
      by congruence. by rewrite orb_true_r. }
  wp_step. wp_step; [done|]. wp_step. apply raise_when_wp; [done|]. intros _.
  wp_step. apply raise_when_wp; [done|]. intros _. wp_step. apply wp_clock_timestamp.
  assert (Hst : po_status r = PENDING \/ po_status r = PAID).
  { match goal with Hin : _ ∈ _ |- _ => rewrite !elem_of_cons, elem_of_nil in Hin end. tauto. }
  wp_step. eapply wp_mono; [apply wp_mark_paid; [by apply (inv_tables_only t0 w)|done|done]| |done].
  intros [b r'] w1 [[= -> ->] Hp]. apply wp_ensure; [done| |].
  - split; try tauto; congruence.
  - destruct Hp as [? ? ? ?]. by split.
Qed.

End Operations.

(** *** The operations as one type, and the executions of the system *)
Inductive PaymentOp :=
| OpCreate (settings : Settings) (client : uid) (product key : string)
| OpCallback (settings : Settings) (raw_out_sum : string) (inv_id : Z) (signature : string)
| OpExpireUnpaid (now : time).

Definition exec (op : PaymentOp) : DB unit :=
  match op with
  | OpCreate settings client product key => create_order settings client product key ;;; ret tt
  | OpCallback settings raw inv_id sig => accept_callback settings raw inv_id sig ;;; ret tt
  | OpExpireUnpaid now => expire_unpaid now ;;; ret tt
  end.

Lemma accepted_inv t0 settings raw inv_id sig w res w' :
  accepted t0 settings raw inv_id sig w res w' -> inv t0 w'.
Proof.
  intros (r & now & w1 & e & created & _ & _ & _ & Hp & En).
  pose proof (ensure_aside (settle now r) _ w1 eq_refl) as Ht. rewrite En in Ht.
  by apply (inv_table t0 w1); [|apply Hp].
Qed.

#[export] Instance PaymentOrder_operations : Operations PaymentOrder PaymentOp.
Proof.
  refine {| Lifecycle.exec := exec |}. intros t0 op w Hi.
  destruct op; cbn [exec]; (apply order_keeps_bind; [|by intros; apply wp_ret]).
  - by apply keeps_create.
  - eapply wp_mono; [by apply wp_accept| |done]. intros res w'. apply accepted_inv.
  - by apply keeps_expire_unpaid.
Defined.

(** The executions of the system: these operations, by any process with any
    arguments, and anything that leaves the [payment_orders] table alone. *)
Abbreviation step := (Lifecycle.step PaymentOrder PaymentOp).
Abbreviation reachable := (Lifecycle.reachable PaymentOrder PaymentOp).

(** *** The entitlement of a paid order *)

Import PremiumEntitlementRepository.

(** What [ensure_for_paid_order] returned and wrote. *)
Definition ensured (r : PaymentOrder) (e : PremiumEntitlement) (created : bool) (w w' : World) : Prop :=
  pe_source_payment_order_id e = po_id r /\
  if created
  then (forall id x, premium_entitlements w !! id = Some x -> pe_source_payment_order_id x <> po_id r) /\
       premium_entitlements w !! pe_id e = None /\
       premium_entitlements w' = <[pe_id e := e]> (premium_entitlements w) /\
       po_paid_at r = Some (pe_starts_at e) /\
       pe_expires_at e = pe_starts_at e + seconds (po_entitlement_duration_seconds r) /\
       pe_anonymous_client_id e = po_anonymous_client_id r
  else (exists id, premium_entitlements w !! id = Some e) /\
       premium_entitlements w' = premium_entitlements w.

Lemma get_by_source_run id w o w' :
  get_by_source_payment_order_id id w = (inr o, w') ->
  w' = w /\
  match o with
  | Some e => (exists i, premium_entitlements w !! i = Some e) /\ pe_source_payment_order_id e = id
  | None => forall i e, premium_entitlements w !! i = Some e -> pe_source_payment_order_id e <> id
  end.
Proof.
  unfold get_by_source_payment_order_id. intros E. destruct o as [e|].
  - apply select_first_some in E as (-> & He & Hp). by propify.
  - assert (w' = w) as -> by (unfold select_first, gets in E; congruence). split; [done|].
    intros i e Hi. pose proof (proj1 (select_first_none _ w) E i e Hi) as Hp. cbn in Hp. by apply bool_decide_eq_false in Hp.
Qed.

Lemma ensure_run r w e created w' :
  ensure_for_paid_order r w = (inr (e, created), w') -> ensured r e created w w'.
Proof.
  unfold ensure_for_paid_order, ensure_for_paid_order_at. intros E.
  apply bind_inr in E as (now & w1 & E1 & E). injection E1 as <- <-.
  destruct (po_status r); try done. destruct (po_paid_at r) as [t|] eqn:Et; [|done].
  apply bind_inr in E as ([] & w1 & E1 & E). destruct (_ <=? 0); [done|]. injection E1 as <-.
  apply bind_inr in E as (o & w1 & E1 & E). apply get_by_source_run in E1 as [-> Ho].
  destruct o as [x|].
  { injection E as <- <- <-. destruct Ho as [Ho Hs]. split; [exact Hs|]. by split. }
  apply bind_inr in E as ([] & w1 & E1 & E). destruct (_ <=? t); [done|]. injection E1 as <-.
  apply bind_inr in E as (i & w1 & E1 & E). injection E1 as <- <-.
  apply bind_inr in E as (pi & w1 & E1 & E). injection E1 as <- <-.
  unfold try_catch in E. destruct (bind _ _ _) as [[ex|a] w2] eqn:Eb in E.
  - apply bind_inl in Eb as [Eb|(? & ? & _ & Eb)]; [|done]. destruct ex; try done.
    unfold begin_nested, insert_row in Eb. destruct (insert_ok _ _); [done|]. injection Eb as <-.
    apply bind_inr in E as (o & w1 & E1 & E). apply get_by_source_run in E1 as [-> Ho'].
    destruct o as [x|]; [|done]. injection E as <- <- <-. destruct Ho' as [[j Hj] Hs].
    by destruct (Ho j x Hj).
  - injection E as -> ->. apply bind_inr in Eb as ([] & w1 & Ei & Eb). injection Eb as <- <- <-.
    unfold begin_nested, insert_row in Ei. destruct (insert_ok _ _) eqn:Hok; [|done]. injection Ei as <-.
    unfold insert_ok in Hok. propify. split; [done|]. cbn. split_and!; try done.
    by apply is_none_true.
Qed.

(** Every entitlement is the 24-hour window of a paid order, one per order. *)
Definition entitlements_ok (w : World) : Prop :=
  (forall id e, premium_entitlements w !! id = Some e -> exists o,
     payment_orders w !! pe_source_payment_order_id e = Some o /\ po_status o = PAID /\
     po_paid_at o = Some (pe_starts_at e) /\ pe_expires_at e = pe_starts_at e + seconds 86400 /\
     pe_anonymous_client_id e = po_anonymous_client_id o) /\
  (forall id id' e e', premium_entitlements w !! id = Some e -> premium_entitlements w !! id' = Some e' ->
     pe_source_payment_order_id e = pe_source_payment_order_id e' -> id = id').

Lemma settle_fields now r :
  po_id (settle now r) = po_id r /\
  po_entitlement_duration_seconds (settle now r) = po_entitlement_duration_seconds r /\
  po_anonymous_client_id (settle now r) = po_anonymous_client_id r /\
  po_provider_invoice_id (settle now r) = po_provider_invoice_id r.
Proof. unfold settle. by case_bool_decide. Qed.

Lemma settle_paid now r : po_status r = PAID -> settle now r = r.
Proof. intros Hs. unfold settle. by rewrite Hs. Qed.

End PaymentLifecycle.

(** ** Theorems *)
Module PaymentTheorems.
Import PaymentStates PaymentOrderRepository PaymentService PaymentLifecycle.

Section Theorems.

(** Refinement: under any interleaving of orders, callbacks and expiry, a
    payment order satisfies its CHECK constraints, what it sells - client,
    product, amount, currency, duration, receipt, invoice number - never changes,
    and its state follows [order_step]: created, pending, then paid or expired for
    good, with the instant of payment fixed. A new order starts as created. *)
Theorem payment_orders_refine_lifecycle w w' :
  reachable w -> rtc step w w' ->
  (forall id r, payment_orders w !! id = Some r ->
    exists r', payment_orders w' !! id = Some r' /\ PaymentOrder_check r' = true /\
      rtc order_step (order_obs r) (order_obs r') /\ order_identity r = order_identity r') /\
  (forall id r', payment_orders w' !! id = Some r' -> payment_orders w !! id = None ->
    rtc order_step (CREATED, None) (order_obs r')).
Proof.
  intros Hr Hs. apply (inv_from w w' Hr) in Hs as [Hk Hi _ He Hn]. split.
  - intros id r Er. destruct (He id r Er) as (r' & Er' & Hst & Hid). exists r'.
    split_and!; [done|exact (Hi _ _ Er')|done|done].
  - intros id r' Er' En. by destruct (Hn id r' Er' En) as (a & -> & Hst).
Qed.

(** What an accepted callback leaves: the order paid, its entitlement, nothing else. *)
Lemma accepted_callback_settles settings raw inv_id sig w res w' :
  reachable w -> entitlements_ok w ->
  accept_callback settings raw inv_id sig w = (inr res, w') ->
  exists r r' t id e,
    payment_orders w !! po_id r = Some r /\ authentic settings raw inv_id sig r /\
    cb_transitioned res = bool_decide (po_status r = PENDING) /\
    payment_orders w' = <[po_id r := r']> (payment_orders w) /\
    po_status r' = PAID /\ po_paid_at r' = Some t /\ (po_status r = PAID -> r' = r) /\
    premium_entitlements w' !! id = Some e /\ pe_source_payment_order_id e = po_id r /\
    pe_starts_at e = t /\ pe_expires_at e = t + seconds 86400 /\
    pe_anonymous_client_id e = po_anonymous_client_id r /\
    (forall id', id' <> id -> premium_entitlements w' !! id' = premium_entitlements w !! id').
Proof.
  intros Hr [Hok _] E. apply inv_reachable in Hr.
  pose proof (wp_accept ∅ settings raw inv_id sig w Hr) as Hw. unfold wp in Hw. rewrite E in Hw.
  destruct Hw as (r & now & w1 & e & created & Er & Hau & -> & [Ho Hp Hi1 Hst] & En).
  pose proof (ensure_aside (settle now r) _ w1 eq_refl) as Ht. rewrite En in Ht. cbn in Ht.
  apply ensure_run in En as [Hsrc Hen].
  destruct (settle_fields now r) as (Hid & Hdur & Hcl & _). rewrite (au_duration _ _ _ _ _ Hau) in Hdur.
  pose proof (settle_paid now r) as Hkeep.
  destruct created.
  - destruct Hen as (Hnone & Hfree & Hw' & Hpaid & Hexp & Hcli).
    exists r, (settle now r), (pe_starts_at e), (pe_id e), e.
    rewrite Hw', Hp. split_and!; try done; try congruence.
    + by rewrite lookup_insert_eq.
    + intros id' Hne. by rewrite lookup_insert_ne.
  - destruct Hen as ([i Hi] & Hw'). rewrite Hp in Hi.
    destruct (Hok i e Hi) as (o & Eo & Hos & Hot & Hoe & Hoc).
    assert (o = r) as -> by congruence.
    exists r, (settle now r), (pe_starts_at e), i, e. rewrite Hw', Hp.
    split_and!; try done; try congruence. by rewrite Hkeep.
Qed.

(** C3: An accepted callback pays its order and entitles its client, exactly once.
    When [accept_callback] answers, the order with that invoice number was pending
    or paid, the supplied signature is the digest of the sum, the invoice number
    and the secret, and the sum is the order's amount; afterwards that order is
    paid (unchanged if it already was) and no other order changed; there is one
    entitlement for it, of its client, from the instant of payment for 24 hours;
    any other entitlement is untouched; and the answer says whether the order was
    pending. *)
Theorem callback_pays_and_entitles settings raw inv_id sig w res w' :
  reachable w -> entitlements_ok w ->
  accept_callback settings raw inv_id sig w = (inr res, w') ->
  exists r r' t id e,
    payment_orders w !! po_id r = Some r /\ authentic settings raw inv_id sig r /\
    cb_transitioned res = bool_decide (po_status r = PENDING) /\
    payment_orders w' = <[po_id r := r']> (payment_orders w) /\
    po_status r' = PAID /\ po_paid_at r' = Some t /\ (po_status r = PAID -> r' = r) /\
    premium_entitlements w' !! id = Some e /\ pe_source_payment_order_id e = po_id r /\
    pe_starts_at e = t /\ pe_expires_at e = t + seconds 86400 /\
    pe_anonymous_client_id e = po_anonymous_client_id r /\
    (forall id', id' <> id -> premium_entitlements w' !! id' = premium_entitlements w !! id').
Proof. exact (accepted_callback_settles settings raw inv_id sig w res w'). Qed.

(** Entitlements only come from paid orders. An accepted callback keeps the
    ledger of entitlements coherent: every entitlement, the new one included, is
    the 24-hour window that starts when its order was paid and belongs to the
    order's client, and no order has two. *)
Theorem callback_keeps_entitlements_coherent settings raw inv_id sig w res w' :
  reachable w -> entitlements_ok w ->
  accept_callback settings raw inv_id sig w = (inr res, w') -> entitlements_ok w'.
Proof.
  intros Hr [Hok Hun] E. apply inv_reachable in Hr.
  pose proof (wp_accept ∅ settings raw inv_id sig w Hr) as Hw. unfold wp in Hw. rewrite E in Hw.
  destruct Hw as (r & now & w1 & e & created & Er & Hau & -> & [Ho Hp Hi1 Hst] & En).
  pose proof (ensure_aside (settle now r) _ w1 eq_refl) as Ht. rewrite En in Ht. cbn in Ht.
  apply ensure_run in En as [Hsrc Hen].
  destruct (settle_fields now r) as (Hid & Hdur & Hcl & _). rewrite (au_duration _ _ _ _ _ Hau) in Hdur.
  assert (Hord : payment_orders w' = <[po_id r := settle now r]> (payment_orders w)) by congruence.
  assert (Hold : forall id x, premium_entitlements w !! id = Some x -> exists o,
    payment_orders w' !! pe_source_payment_order_id x = Some o /\ po_status o = PAID /\
    po_paid_at o = Some (pe_starts_at x) /\ pe_expires_at x = pe_starts_at x + seconds 86400 /\
    pe_anonymous_client_id x = po_anonymous_client_id o).
  { intros id x Hx. destruct (Hok id x Hx) as (o & Eo & Hs & ?). exists o. rewrite Hord.
    split; [|by split]. destruct (decide (pe_source_payment_order_id x = po_id r)) as [Ex|Hne].
    - rewrite Ex in *. assert (o = r) as -> by congruence. rewrite lookup_insert_eq.
      by rewrite settle_paid.
    - by rewrite lookup_insert_ne. }
  destruct created.
  - destruct Hen as (Hnone & Hfree & Hw' & Hpaid & Hexp & Hcli). rewrite Hp in *. split.
    + intros id x. rewrite Hw', lookup_insert_Some. intros [[<- <-]|[_ Hx]]; [|by eauto].
      exists (settle now r). rewrite Hsrc, Hid, Hord, lookup_insert_eq. split_and!; try done.
      by rewrite Hexp, Hdur.
    + intros id id' x x'. rewrite Hw', !lookup_insert_Some.
      intros [[<- <-]|[_ Hx]] [[<- <-]|[_ Hx']] Exx; [done| | |by eauto].
      * destruct (Hnone _ _ Hx'). congruence.
      * destruct (Hnone _ _ Hx). congruence.
  - destruct Hen as (_ & Hw'). unfold entitlements_ok. rewrite Hw', Hp. by split.
Qed.

Lemma order_of_invoice t0 w r x :
  inv t0 w -> payment_orders w !! po_id r = Some r -> payment_orders w !! po_id x = Some x ->
  po_provider_invoice_id r = po_provider_invoice_id x -> r = x.
Proof.
  intros Hi Hr Hx E. assert (po_id r = po_id x) as Eid; [|congruence].
  apply (inv_unique _ _ Hi _ _ _ _ Hr Hx). cbn.
  rewrite (bool_decide_eq_true_2 (po_provider_invoice_id r = _)) by done. by rewrite orb_true_r.
Qed.

(** After an accepted callback the order of the invoice stays paid. *)
Lemma accepted_stays_paid settings raw inv_id sig w res w1 w2 :
  reachable w -> accept_callback settings raw inv_id sig w = (inr res, w1) -> rtc step w1 w2 ->
  reachable w2 /\ exists r, payment_orders w2 !! po_id r = Some r /\ po_status r = PAID /\
    po_provider_invoice_id r = inv_id.
Proof.
  intros Hr E Hs. pose proof (wp_accept ∅ settings raw inv_id sig w (inv_reachable _ Hr)) as Hw.
  unfold wp in Hw. rewrite E in Hw.
  destruct Hw as (r & now & w0 & e & created & Er & Hau & -> & [Ho Hp Hi1 Hst] & En).
  pose proof (ensure_aside (settle now r) _ w0 eq_refl) as Ht. rewrite En in Ht. cbn in Ht.
  assert (Hr1 : reachable w1).
  { eapply reachable_step; [exact Hr|]. apply (step_exec (OpCallback settings raw inv_id sig) w tt).
    change (exec (OpCallback settings raw inv_id sig) w = (inr tt, w1)). cbn. by erewrite bind_run. }
  assert (Hr2 : reachable w2).
  { destruct Hr1 as (ck & us & H1). exists ck, us. by etrans. }
  split; [exact Hr2|].
  assert (Er1 : payment_orders w1 !! po_id r = Some (settle now r)) by (by rewrite Ht, Ho, lookup_insert_eq).
  destruct (inv_evolves _ _ (inv_from w1 w2 Hr1 Hs) _ _ Er1) as (r2 & Er2 & Hsteps & Hid).
  cbn in Hid. unfold order_identity in Hid.
  exists r2. assert (Hid2 : po_id r2 = po_id r) by (destruct (settle_fields now r) as (? & _); congruence).
  rewrite Hid2. split_and!; [exact Er2| |].
  - refine (observed_forever (HL := PaymentOrder_lifecycle) (fun a : Obs => a.1 = PAID) w1 w2 _ _ r2
              _ Hr1 Hs Er1 Hst Er2).
    intros a a' [| |s [-> | ->]]; done.
  - destruct (settle_fields now r) as (_ & _ & _ & Hpi).
    pose proof (au_invoice _ _ _ _ _ Hau). congruence.
Qed.

(** A callback is idempotent. Once an order was paid through a callback, any
    later callback for the same invoice - replayed or newly signed, after any
    other operations - that is answered at all reports no transition and changes
    no order; and it changes no entitlement while the order's is there. *)
Theorem callback_replay_changes_nothing settings raw inv_id sig w res w1 w2 raw' sig' res' w3 :
  reachable w -> accept_callback settings raw inv_id sig w = (inr res, w1) -> rtc step w1 w2 ->
  accept_callback settings raw' inv_id sig' w2 = (inr res', w3) ->
  cb_transitioned res' = false /\ payment_orders w3 = payment_orders w2 /\
  ((exists id e o, premium_entitlements w2 !! id = Some e /\ payment_orders w2 !! po_id o = Some o /\
      po_provider_invoice_id o = inv_id /\ pe_source_payment_order_id e = po_id o) ->
   premium_entitlements w3 = premium_entitlements w2).
Proof.
  intros Hr E Hs E'. destruct (accepted_stays_paid _ _ _ _ _ _ _ _ Hr E Hs) as (Hr2 & x & Ex & Hx & Hinv).
  pose proof (inv_reachable _ Hr2) as Hi.
  pose proof (wp_accept ∅ settings raw' inv_id sig' w2 Hi) as Hw. unfold wp in Hw. rewrite E' in Hw.
  destruct Hw as (r & now & w0 & e & created & Er & Hau & -> & [Ho Hp Hi1 Hst] & En).
  assert (r = x) as ->.
  { apply (order_of_invoice ∅ w2); [done..|]. by rewrite (au_invoice _ _ _ _ _ Hau). }
  rewrite (settle_paid now x Hx) in *. pose proof (ensure_aside x _ w0 eq_refl) as Ht.
  rewrite En in Ht. cbn in Ht. cbn [cb_transitioned]. split_and!.
  - by rewrite Hx.
  - rewrite Ht, Ho. by rewrite insert_id.
  - intros (i & y & o & Hy & Eo & Hoi & Hsrc).
    assert (o = x) as -> by (apply (order_of_invoice ∅ w2); [done..|congruence]).
    apply ensure_run in En as [_ Hen]. destruct created; [|by destruct Hen as [_ ->]].
    destruct Hen as (Hnone & _). destruct (Hnone i y); [by rewrite Hp|done].
Qed.

End Theorems.
End PaymentTheorems.

(** ** Witnesses: an order created, paid by a callback, and the callback replayed *)
Module PaymentExamples.
Import PaymentStates PaymentOrderRepository PaymentService PaymentLifecycle PaymentTheorems.

(** The gateway's signature of [199.00:1:p2], in capitals. *)
Definition demo_signature : string :=
  "7C44EBE2D04F2432891B408B92CA3738220F80FC9A93EB83A830900D108D4DE4".

Definition demo_settings : Settings := {|
  free_download_limit := 2; free_download_window_seconds := 3600;
  free_delivery_rate_limit_enabled := false; free_delivery_rate_bytes_per_second := 0;
  anonymous_client_ttl_seconds := 86400; free_download_quota_retention_seconds := 86400;
  free_download_quota_ready_compatibility_mode := false; media_downloads_enabled := true;
  media_browser_delivery_enabled := true; media_browser_grant_ttl_seconds := 600;
  media_browser_grant_max_active := 3; robokassa_mode := "test"; premium_test_checkout_visible := true;
  robokassa_test_amount_minor := 19900; robokassa_order_ttl_seconds := 3600;
  robokassa_merchant_login := "fetchnow"; robokassa_test_password1 := "p1";
  robokassa_test_password2 := "p2"; robokassa_receipt_tax := "none";
  robokassa_receipt_payment_method := "full_payment"; free_download_quota_enabled := true; media_delivery_enabled := true;
  media_download_artifact_ttl_seconds := 3600; media_download_max_attempts := 3; media_jobs_enabled := true;
  media_job_absolute_ttl_seconds := 86400; media_job_max_attempts := 3; media_job_result_max_bytes := 65536
|}.

Definition demo_empty : World :=
  empty_world (fun n => seconds (Z.of_nat n)) (fun n => (40 + N.of_nat n)%N).
Definition demo_client : AnonymousClient := {|
  ac_id := 1; ac_token_hash := replicate 32 Byte.x01; ac_created_at := 0; ac_expires_at := seconds 9000
|}.
Definition demo_start : World := demo_empty <| anonymous_clients := {[ 1%N := demo_client ]} |>.
Definition run (op : PaymentOp) (w : World) : World := (begin_nested (exec op) w).2.
Definition demo_ordered : World :=
  run (OpCreate demo_settings 1 PRODUCT_CODE "0123456789abcdefghijkl") demo_start.
Definition demo_callback : DB CallbackResult := accept_callback demo_settings "199.00" 1 demo_signature.
Definition demo_paid : World := (demo_callback demo_ordered).2.

Lemma clients_orders t w : payment_orders (w <| anonymous_clients := t |>) = payment_orders w.
Proof. reflexivity. Defined.

Lemma demo_start_reachable : reachable demo_start.
Proof.
  eapply reachable_step; [|apply (step_env (R := PaymentOrder) (Op := PaymentOp) demo_empty)].
  - exists (fun n => seconds (Z.of_nat n)), (fun n => (40 + N.of_nat n)%N). apply rtc_refl.
  - exact (clients_orders _ demo_empty).
Defined.

Lemma payment_step op w : step w (run op w).
Proof. exact (step_op (R := PaymentOrder) (Op := PaymentOp) op w). Defined.

Lemma demo_ordered_reachable : reachable demo_ordered.
Proof. eapply reachable_step; [exact demo_start_reachable|apply payment_step]. Defined.

Lemma demo_ordered_ok : entitlements_ok demo_ordered.
Proof.
  assert (E : premium_entitlements demo_ordered = ∅) by (vm_compute; reflexivity).
  unfold entitlements_ok. rewrite E. split; intros *; rewrite lookup_empty; discriminate.
Defined.

Definition demo_order : PaymentOrder :=
  default (created_order 0 0 0 0 [] (Build_PaymentProduct "" 0 "" 0 "" "" "" "") "" 0 0)
    (payment_orders demo_ordered !! 40%N).

Lemma demo_callback_runs :
  demo_callback demo_ordered = (inr {| cb_inv_id := 1; cb_transitioned := true |}, demo_paid).
Proof. vm_compute. reflexivity. Qed.

Lemma payment_orders_refine_lifecycle_witness :
  exists r', payment_orders demo_ordered !! 40%N = Some r' /\
    rtc order_step (order_obs demo_order) (order_obs r').
Proof.
  destruct (proj1 (payment_orders_refine_lifecycle demo_ordered demo_ordered demo_ordered_reachable
    (rtc_refl _ _)) 40%N demo_order) as (r' & E & _ & Hs & _).
  - vm_compute. reflexivity.
  - exists r'. split; [exact E|exact Hs].
Defined.

Lemma callback_pays_and_entitles_witness :
  exists id e, premium_entitlements demo_paid !! id = Some e /\
    pe_expires_at e = pe_starts_at e + seconds 86400.
Proof.
  destruct (callback_pays_and_entitles demo_settings "199.00" 1 demo_signature demo_ordered _ demo_paid
    demo_ordered_reachable demo_ordered_ok demo_callback_runs)
    as (r & r' & t & id & e & _ & _ & _ & _ & _ & _ & _ & He & _ & <- & Hx & _).
  exists id, e. split; [exact He|exact Hx].
Defined.

Lemma callback_keeps_entitlements_coherent_witness : entitlements_ok demo_paid.
Proof.
  exact (callback_keeps_entitlements_coherent demo_settings "199.00" 1 demo_signature demo_ordered _ demo_paid
    demo_ordered_reachable demo_ordered_ok demo_callback_runs).
Defined.

Lemma callback_replay_changes_nothing_witness :
  payment_orders (demo_callback demo_paid).2 = payment_orders demo_paid.
Proof.
  destruct (callback_replay_changes_nothing demo_settings "199.00" 1 demo_signature demo_ordered
    {| cb_inv_id := 1; cb_transitioned := true |} demo_paid demo_paid "199.00" demo_signature
    {| cb_inv_id := 1; cb_transitioned := false |} (demo_callback demo_paid).2) as (_ & E & _).
  - exact demo_ordered_reachable.
  - exact demo_callback_runs.
  - apply rtc_refl.
  - vm_compute. reflexivity.
  - exact E.
Defined.

End PaymentExamples.
