(* ===== verification/Http.v ===== *)
(** What an endpoint answers: the response, the error envelope of
    [core/errors.py], the handler of the exceptions no endpoint catches, and the
    two ways an endpoint ends its database session. *)

From S2P Require Export FormatCodec Database.

Local Open Scope string_scope.
Local Open Scope list_scope.
Local Open Scope Z_scope.

(** The body of a [JSONResponse] or of a [PlainTextResponse]. *)
Inductive Content :=
| JsonContent (body : Json)
| PlainText (body : string).

Record HttpResponse := {
  status_code : Z;
  headers : list (string * string);
  content : Content
}.

(** Source: backend/src/fetchnow/core/errors.py:34-34 [_NO_STORE] *)
Definition NO_STORE : list (string * string) := [("Cache-Control", "no-store")].

(** Source: backend/src/fetchnow/core/errors.py:13-31 [error_envelope]
    Without [details]. *)
Definition error_envelope (code message : string) (request_id : option string) : Json :=
  JObj [("error", JObj ([("code", JStr code); ("message", JStr message)] ++
    match request_id with Some request_id => [("request_id", JStr request_id)] | None => [] end))].

Definition error_response (request_id : option string) (status_code : Z) (code message : string) : HttpResponse :=
  {| status_code := status_code; headers := NO_STORE; content := JsonContent (error_envelope code message request_id) |}.

(** Source: backend/src/fetchnow/core/errors.py:76-90 [unhandled_exception_handler] *)
Definition unhandled_exception_handler (request_id : option string) : HttpResponse :=
  error_response request_id 500 "internal_error" "An unexpected error occurred".

(** [async with session_factory() as session: a = await m; await session.commit()] *)
Definition committed {A} (m : DB A) : DB A := begin_nested m.

(** The same without a commit: whatever was written is rolled back. *)
Definition uncommitted {A} (m : DB A) : DB A := fun w =>
  let '(r, w') := m w in (r, rollback w w').

(** [value.isoformat().replace("+00:00", "Z")] of an instant in UTC. *)
Definition zulu (t : time) : string := replace_all "+00:00" "Z" (of_chars (isoformat_utc t)).

Definition json_time (t : option time) : Json := match t with Some t => JStr (zulu t) | None => JNull end.

(** ** Facts *)

(** A session that failed changed no table. *)
Lemma committed_inl {A} (m : DB A) w e w' : committed m w = (inl e, w') -> same_tables w w'.
Proof.
  unfold committed, begin_nested. destruct (m w) as [[e'|a] w1]; [|done]. intros [= <- <-].
  apply same_tables_rollback.
Qed.

Lemma committed_inr {A} (m : DB A) w a w' : committed m w = (inr a, w') <-> m w = (inr a, w').
Proof. unfold committed, begin_nested. by destruct (m w) as [[e'|a'] w1]. Qed.

Lemma uncommitted_tables {A} (m : DB A) w : same_tables w (uncommitted m w).2.
Proof. unfold uncommitted. destruct (m w) as [r w1]. apply same_tables_rollback. Qed.
