(* ===== verification/Identity.v ===== *)
(** Anonymous identities: from the Cookie header to a client and back
    ([quota/service.py]), with the endpoints that only need an identity - the quota
    of a client ([api/v1/quota.py]) and its Premium status ([api/v1/premium.py]).

    [random] stands for [secrets.token_bytes(32)]. *)

From S2P Require Export Http Tokens Quota.

Local Open Scope string_scope.
Local Open Scope list_scope.
Local Open Scope Z_scope.

(** ** The date of a cookie *)

Definition DAY_NAMES : list string := ["Mon"; "Tue"; "Wed"; "Thu"; "Fri"; "Sat"; "Sun"].
Definition MONTH_NAMES : list string :=
  ["Jan"; "Feb"; "Mar"; "Apr"; "May"; "Jun"; "Jul"; "Aug"; "Sep"; "Oct"; "Nov"; "Dec"].

(** [email.utils.format_datetime(t, usegmt=True)] of an instant in UTC. *)
Definition format_datetime (t : time) : string :=
  let ordinal := EPOCH_ORDINAL + t / DAY in
  let '(year, month, day) := ord2ymd ordinal in
  let s := t mod DAY / 1000000 in
  (nth (Z.to_nat ((ordinal + 6) mod 7)) DAY_NAMES "" ++ ", " ++
   of_chars (fixed_digits 2 day) ++ " " ++ nth (Z.to_nat (month - 1)) MONTH_NAMES "" ++ " " ++
   of_chars (fixed_digits 4 year) ++ " " ++ of_chars (fixed_digits 2 (s / 3600)) ++ ":" ++
   of_chars (fixed_digits 2 (s / 60 mod 60)) ++ ":" ++ of_chars (fixed_digits 2 (s mod 60)) ++ " GMT")%string.

(** ** The service *)
Module IdentityService.
Import QuotaRepository.

(** Source: backend/src/fetchnow/quota/service.py:31-39 [AnonymousIdentity] *)
Record AnonymousIdentity := {
  ai_id : uid;
  ai_expires_at : time;
  ai_raw_token : option string;
  ai_cookie_max_age : option Z
}.

Definition known (client : AnonymousClient) : AnonymousIdentity :=
  {| ai_id := ac_id client; ai_expires_at := ac_expires_at client; ai_raw_token := None; ai_cookie_max_age := None |}.

(** Source: backend/src/fetchnow/quota/service.py:75-90 [bootstrap_identity]
    The client the cookie names, if there is one. *)
Definition cookie_client (cookie_header : option string) (now : time) : DB (option AnonymousClient) :=
  match extract_anonymous_cookie cookie_header with
  | None => ret None
  | Some token =>
      match hash_anonymous_token token with
      | None => ret None
      | Some token_hash => get_active_client_by_hash token_hash now
      end
  end.

(** Source: backend/src/fetchnow/quota/service.py:75-105 [bootstrap_identity] *)
Definition bootstrap_identity (settings : Settings) (random : bytes) (cookie_header : option string)
    : DB AnonymousIdentity :=
  let* now := database_now in
  let* existing := cookie_client cookie_header now in
  match existing with
  | Some client => ret (known client)
  | None =>
      let raw_token := generate_token random in
      match hash_anonymous_token raw_token with
      | None => raise UnexpectedError
      | Some token_hash =>
          let* created := create_client token_hash now (anonymous_client_ttl_seconds settings) in
          ret {| ai_id := ac_id created; ai_expires_at := ac_expires_at created; ai_raw_token := Some raw_token;
                 ai_cookie_max_age := Some (anonymous_client_ttl_seconds settings) |}
      end
  end.

(** Source: backend/src/fetchnow/quota/service.py:107-119 [require_identity] *)
Definition require_identity (cookie_header : option string) : DB AnonymousIdentity :=
  let token_hash := extract_anonymous_cookie cookie_header ≫= hash_anonymous_token in
  match token_hash with
  | None => raise AnonymousIdentityRequiredError
  | Some token_hash =>
      let* now := database_now in
      let* existing := get_active_client_by_hash token_hash now in
      match existing with
      | None => raise AnonymousIdentityRequiredError
      | Some client => ret (known client)
      end
  end.

(** Source: backend/src/fetchnow/quota/service.py:189-200 [set_cookie_header] *)
Definition set_cookie_header (identity : AnonymousIdentity) : option string :=
  match ai_raw_token identity, ai_cookie_max_age identity with
  | Some raw_token, Some cookie_max_age =>
      Some (ANONYMOUS_COOKIE_NAME ++ "=" ++ raw_token ++ "; Path=/; " ++ "Max-Age=" ++ py_str cookie_max_age ++ "; " ++
            "Expires=" ++ format_datetime (ai_expires_at identity) ++ "; " ++ "HttpOnly; Secure; SameSite=Lax")%string
  | _, _ => None
  end.

(** Source: backend/src/fetchnow/quota/service.py:202-221 [to_public_dict] *)
Definition to_public_dict (status : QuotaStatus) : list (string * Json) :=
  [("tier", JStr (qs_tier status)); ("downloadLimit", json_opt_int (qs_download_limit status));
   ("downloadsUsed", json_opt_int (qs_downloads_used status));
   ("downloadsReserved", json_opt_int (qs_downloads_reserved status));
   ("downloadsRemaining", json_opt_int (qs_downloads_remaining status));
   ("windowSeconds", json_opt_int (qs_window_seconds status));
   ("premiumExpiresAt", json_time (qs_premium_expires_at status)); ("resetAt", json_time (qs_reset_at status))].

(** Source: backend/src/fetchnow/quota/service.py:223-233 [error_details] *)
Definition error_details (status : QuotaStatus) : list (string * Json) :=
  [("limit", json_opt_int (qs_download_limit status)); ("remaining", json_opt_int (qs_downloads_remaining status));
   ("resetAt", json_time (qs_reset_at status))].

End IdentityService.

(** ** The endpoints *)
Module IdentityApi.
Import IdentityService.

Section Api.
Context (settings : Settings) (request_id : option string).

(** Source: backend/src/fetchnow/api/v1/quota.py:52-57 [get_free_quota]
    What runs in the session. *)
Definition quota_session (random : bytes) (cookie : option string) : DB (AnonymousIdentity * QuotaStatus) :=
  let* identity := bootstrap_identity settings random cookie in
  let* status := QuotaService.status settings (ai_id identity) in
  ret (identity, status).

(** Source: backend/src/fetchnow/api/v1/quota.py:35-88 [get_free_quota] *)
Definition get_free_quota (random : bytes) (cookie : option string) (w : World) : HttpResponse * World :=
  if negb (free_download_quota_enabled settings)
  then (error_response request_id 503 "FREE_QUOTA_DISABLED" "Free download quota is not active.", w) else
  let '(r, w') := committed (quota_session random cookie) w in
  (match r with
   | inl AnonymousIdentityRequiredError =>
       error_response request_id 428 "FREE_QUOTA_IDENTITY_REQUIRED" "A valid anonymous client identity is required."
   | inl _ => error_response request_id 500 "INTERNAL_ERROR" "An unexpected error occurred."
   | inr (client, status) =>
       {| status_code := 200;
          headers := NO_STORE ++ match set_cookie_header client with Some cookie => [("Set-Cookie", cookie)] | None => [] end;
          content := JsonContent (JObj (to_public_dict status)) |}
   end, w').

(** Source: backend/src/fetchnow/premium/service.py:47-61 [public_dict]
    [int((expires_at - now).total_seconds())] is the quotient rounded to zero: the
    double of a span of less than 2 ** 32 seconds keeps its microseconds apart. *)
Definition premium_public_dict (status : PremiumEntitlementRepository.PremiumStatus) (now : time)
    : list (string * Json) :=
  let capability := PremiumEntitlementRepository.ps_capability status in
  match is_premium capability, premium_expires_at capability with
  | true, Some expires_at =>
      [("active", JBool true); ("expiresAt", JStr (zulu expires_at));
       ("productCode", match capability_product_code capability with Some code => JStr code | None => JNull end);
       ("remainingSeconds", JInt (Z.max 0 (Z.quot (expires_at - now) 1000000)))]
  | _, _ => [("active", JBool false)]
  end.

(** Source: backend/src/fetchnow/api/v1/premium.py:49-61 [get_premium_status]
    What runs in the session. *)
Definition premium_session (cookie : option string) : DB (list (string * Json)) :=
  let* identity := require_identity cookie in
  let* status := PremiumEntitlementRepository.status_for_client (ai_id identity) in
  let* now := PremiumEntitlementRepository.database_now in
  ret (premium_public_dict status now).

(** Source: backend/src/fetchnow/api/v1/premium.py:44-83 [get_premium_status] *)
Definition get_premium_status (cookie : option string) (w : World) : HttpResponse * World :=
  let '(r, w') := committed (premium_session cookie) w in
  (match r with
   | inl AnonymousIdentityRequiredError =>
       error_response request_id 428 "PREMIUM_IDENTITY_REQUIRED" "A valid anonymous client identity is required."
   | inl _ => error_response request_id 500 "INTERNAL_ERROR" "An unexpected error occurred."
   | inr body => {| status_code := 200; headers := NO_STORE; content := JsonContent (JObj body) |}
   end, w').

End Api.
End IdentityApi.
