(* ===== verification/ClientTheorems.v ===== *)
(** What a cookie is worth: the identity minted for a browser is the one its
    cookie finds again, and no other client is found in its place
    ([client_cookie_roundtrip]). *)

From S2P Require Export Identity.

Local Open Scope string_scope.
Local Open Scope list_scope.
Local Open Scope Z_scope.

(** ** Tokens inside a Cookie header *)

(** What no token contains. *)
Definition plain (c : ascii) : bool :=
  negb (is_space c) && negb (Ascii.eqb c ";"%char) && negb (Ascii.eqb c "="%char) &&
  negb (char_in c ["013"%char; "010"%char; "000"%char]).

Lemma token_char_plain c : token_char c = true -> plain c = true.
Proof. destruct c as [[] [] [] [] [] [] [] []]; vm_compute; congruence. Qed.

Lemma generated_plain raw : length raw = 32%nat ->
  forallb plain (chars (generate_token raw)) = true /\ strlen (generate_token raw) = 43.
Proof.
  intros [Hs _]%generate_token_spec. unfold token_shape in Hs. apply andb_prop in Hs as [Hl Hc].
  split; [|by apply Z.eqb_eq]. unfold all_chars in Hc. fold (chars (generate_token raw)) in Hc.
  rewrite !forallb_forall in *. intros c Hin. by apply token_char_plain, Hc.
Qed.

Lemma split_on_none sep l : forallb (fun c => negb (Ascii.eqb c sep)) l = true -> split_on sep l = [l].
Proof.
  induction l as [|c l IH]; [done|]. cbn [forallb]. intros [Hc Hl]%andb_prop. cbn [split_on].
  apply negb_true_iff in Hc. by rewrite Hc, IH.
Qed.

Lemma plain_part (p : ascii -> bool) l :
  (forall c, plain c = true -> p c = true) -> forallb plain l = true -> forallb p l = true.
Proof. intros Hp. rewrite !forallb_forall. auto. Qed.

(** A header that carries the token, whatever other cookies it carries. *)
Definition carries (header token : string) : Prop :=
  header_ok header = true /\ cookie_values ANONYMOUS_COOKIE_NAME header = [token].

(** The pair a browser sends back. *)
Definition cookie_text (token : string) : string := (ANONYMOUS_COOKIE_NAME ++ "=" ++ token)%string.

Lemma cookie_text_chars token :
  chars (cookie_text token) = chars ANONYMOUS_COOKIE_NAME ++ "="%char :: chars token.
Proof. reflexivity. Qed.

Lemma plain_name : forallb plain (chars ANONYMOUS_COOKIE_NAME) = true.
Proof. reflexivity. Qed.

Ltac plain_chars :=
  eapply plain_part; [|eassumption]; intros c;
  unfold plain; rewrite !andb_true_iff; tauto.

Lemma pair_of_token token :
  forallb plain (chars token) = true ->
  cookie_pair (chars (cookie_text token)) = Some (ANONYMOUS_COOKIE_NAME, token).
Proof.
  intros Ht. pose proof plain_name as Hn. unfold cookie_pair. rewrite cookie_text_chars.
  rewrite strip_id.
  2: { rewrite forallb_app. cbn [forallb]. apply andb_true_iff. split; [plain_chars|].
       apply andb_true_iff. split; [done|plain_chars]. }
  rewrite split_once_app.
  2: { intros c Hc. assert (He : forallb (fun c => negb (Ascii.eqb c "="%char)) (chars ANONYMOUS_COOKIE_NAME) = true) by done.
       rewrite forallb_forall in He. apply negb_true_iff, He. by apply list_elem_of_In. }
  rewrite !strip_id by plain_chars. by rewrite !of_chars_chars.
Qed.

(** The cookie a browser sends back carries its token. *)
Lemma cookie_text_carries raw : length raw = 32%nat ->
  carries (cookie_text (generate_token raw)) (generate_token raw).
Proof.
  intros [Ht Hl]%generated_plain. pose proof plain_name as Hn. split.
  - unfold header_ok. apply andb_true_iff. split.
    + apply Z.leb_le. unfold strlen in *. unfold cookie_text.
      rewrite <- length_list_ascii in *. rewrite !list_ascii_app, !length_app. unfold MAX_COOKIE_HEADER_BYTES.
      change (length (String.list_ascii_of_string ANONYMOUS_COOKIE_NAME)) with 22%nat.
      change (length (String.list_ascii_of_string "=")) with 1%nat. lia.
    + apply negb_true_iff. unfold has_control, char_in.
      assert (Hf : forall x, x ∈ ["013"%char; "010"%char; "000"%char] ->
        existsb (Ascii.eqb x) (chars (cookie_text (generate_token raw))) = false).
      { intros x Hx. apply not_true_is_false. intros (c & Hc & ->%Ascii.eqb_eq)%existsb_exists.
        rewrite cookie_text_chars in Hc. apply in_app_iff in Hc as [Hc|[Hc|Hc]].
        - rewrite forallb_forall in Hn. apply Hn in Hc. by set_unfold in Hx; destruct Hx as [->|[->|[->|[]]]].
        - subst c. by set_unfold in Hx; naive_solver.
        - rewrite forallb_forall in Ht. apply Ht in Hc. by set_unfold in Hx; destruct Hx as [->|[->|[->|[]]]]. }
      rewrite !Hf by (set_unfold; tauto). done.
  - unfold cookie_values. rewrite split_on_none.
    2: { rewrite cookie_text_chars, forallb_app. cbn [forallb]. apply andb_true_iff. split; [plain_chars|].
         apply andb_true_iff. split; [done|plain_chars]. }
    cbn [omap list_omap]. rewrite pair_of_token by done. cbn [mbind option_bind]. by rewrite bool_decide_eq_true_2.
Qed.

(** ** Clients *)
Module ClientTheorems.
Import QuotaRepository IdentityService.

(** The hash a client is known by. *)
Definition client_hash (raw : bytes) : bytes := sha256 (domain "fetchnow:v1:anonymous-client" ++ raw).

Lemma hash_generated raw : length raw = 32%nat -> hash_anonymous_token (generate_token raw) = Some (client_hash raw).
Proof.
  intros Hl. unfold hash_anonymous_token. by rewrite (proj2 (proj2 (proj2 (tokens_are_canonical _ raw))) (conj Hl eq_refl)).
Qed.

(** The hash of the one client token a header gives. *)
Definition header_hash (cookie : option string) : option bytes :=
  extract_anonymous_cookie cookie ≫= hash_anonymous_token.

Lemma header_hash_spec cookie h :
  header_hash cookie = Some h <->
  exists header raw, cookie = Some header /\ length raw = 32%nat /\ carries header (generate_token raw) /\ h = client_hash raw.
Proof.
  unfold header_hash. split.
  - destruct (extract_anonymous_cookie cookie) as [token|] eqn:E; [|done]. cbn. destruct cookie as [header|]; [|done].
    apply (proj2 (cookies_are_unambiguous header token)) in E as (Hh & Hv & raw & Hl & ->).
    rewrite hash_generated by done. intros [= <-]. exists header, raw. by split_and!.
  - intros (header & raw & -> & Hl & [Hh Hv] & ->).
    rewrite (proj2 (proj2 (cookies_are_unambiguous header (generate_token raw)))) by eauto. by apply hash_generated.
Qed.

(** The client is in the table, and alone with its hash. *)
Definition sole_client (c : AnonymousClient) (w : World) : Prop :=
  anonymous_clients w !! ac_id c = Some c /\
  forall id x, anonymous_clients w !! id = Some x -> ac_token_hash x = ac_token_hash c -> x = c.

(** A client that the header names and that has not expired. *)
Definition named (cookie : option string) (now : time) (w : World) (c : AnonymousClient) : Prop :=
  header_hash cookie = Some (ac_token_hash c) /\ now < ac_expires_at c /\
  exists id, anonymous_clients w !! id = Some c.

Lemma find_sole c now w :
  sole_client c w ->
  get_active_client_by_hash (ac_token_hash c) now w = (inr (if now <? ac_expires_at c then Some c else None), w).
Proof.
  intros [Hc Hu]. unfold get_active_client_by_hash. destruct (now <? ac_expires_at c) eqn:En.
  - apply (select_first_unique _ w (ac_id c)); [done| |].
    + by rewrite bool_decide_eq_true_2, En.
    + intros id x Hx Hp. propify. by eapply Hu.
  - apply select_first_none. intros id x Hx. apply not_true_is_false. intros Hp. propify.
    assert (x = c) as -> by eauto. lia.
Qed.

Lemma cookie_client_run cookie now w :
  exists o, cookie_client cookie now w = (inr o, w) /\
    match o with Some c => named cookie now w c | None => forall c, ~ named cookie now w c end.
Proof.
  unfold cookie_client, named. unfold header_hash.
  destruct (extract_anonymous_cookie cookie) as [token|]; cbn [mbind option_bind]; [|exists None; naive_solver].
  destruct (hash_anonymous_token token) as [h|]; [|exists None; naive_solver].
  unfold get_active_client_by_hash. destruct (select_first _ w) as [[e|[c|]] w'] eqn:E; [done| |].
  - apply select_first_some in E as (-> & Hc & Hp). propify. exists (Some c). subst h. by split_and!.
  - assert (w' = w) as -> by (unfold select_first, gets in E; congruence).
    exists None. split; [done|]. intros c ([= ->] & Hn & id & Hc).
    pose proof (proj1 (select_first_none _ w) E id c Hc) as Hp. cbn in Hp.
    rewrite bool_decide_eq_true_2 in Hp by done. by apply Z.ltb_nlt in Hp.
Qed.

(** The row that [create_client] adds is alone with its hash. *)
Lemma create_client_run h now ttl w c w' :
  create_client h now ttl w = (inr c, w') ->
  ac_token_hash c = h /\ ac_expires_at c = now + seconds ttl /\ anonymous_clients w !! ac_id c = None /\
  same_tables (with_table (<[ac_id c := c]> (anonymous_clients w)) w) w' /\ sole_client c w'.
Proof.
  unfold create_client. intros E. apply bind_inr in E as ([] & w1 & E1 & E). destruct (negb _); [done|]. injection E1 as <-.
  apply bind_inr in E as (id & w1 & E1 & E). injection E1 as <- <-.
  apply bind_inr in E as ([] & w1 & E1 & E). injection E as <- <-. unfold insert_row in E1.
  destruct (insert_ok _ _) eqn:Hok; [|done]. injection E1 as <-. unfold insert_ok in Hok. propify.
  assert (Hfree : anonymous_clients w !! uuids w (uuid_draws w) = None) by by apply is_none_true.
  split; [done|]. split; [done|]. split; [done|]. split; [done|].
  split; cbn; [by rewrite lookup_insert_eq|]. intros id x. rewrite lookup_insert_Some. intros [[<- <-]|[_ Hx]]; [done|].
  intros Eh. match goal with He : exists_row _ _ = false |- _ => rewrite exists_row_false in He; specialize (He id x Hx) end.
  cbn in *. rewrite bool_decide_eq_true_2 in * by done. done.
Qed.

(** A client that is there is found by every header that carries its token,
    until it expires. *)
Lemma sole_client_found c raw header w :
  length raw = 32%nat -> ac_token_hash c = client_hash raw -> carries header (generate_token raw) -> sole_client c w ->
  let now := clock w (clock_reads w) in
  let w' := (clock_timestamp w).2 in
  require_identity (Some header) w = (if now <? ac_expires_at c then inr (known c) else inl AnonymousIdentityRequiredError, w') /\
  (now < ac_expires_at c -> forall settings random, bootstrap_identity settings random (Some header) w = (inr (known c), w')).
Proof.
  intros Hl Hh Hc Hs now w'. assert (Hs' : sole_client c w') by exact Hs.
  assert (Ehash : header_hash (Some header) = Some (ac_token_hash c)) by (apply header_hash_spec; eauto 10).
  pose proof (find_sole c now w' Hs') as Hf. split.
  - unfold require_identity. fold (header_hash (Some header)). rewrite Ehash.
    rewrite (bind_run database_now _ w now w' eq_refl). rewrite (bind_run _ _ _ _ _ Hf). by destruct (_ <? _).
  - intros Hlt settings random. unfold bootstrap_identity. rewrite (bind_run database_now _ w now w' eq_refl).
    apply Z.ltb_lt in Hlt. rewrite Hlt in Hf. unfold cookie_client. unfold header_hash in Ehash.
    destruct (extract_anonymous_cookie _) as [token|]; [|done]. cbn [mbind option_bind] in Ehash. rewrite Ehash.
    by rewrite (bind_run _ _ _ _ _ Hf).
Qed.

(** What bootstrapping gives a browser whose cookie names no living client. *)
Record minted (settings : Settings) (random : bytes) (w : World) (identity : AnonymousIdentity) (c : AnonymousClient)
    (w' : World) : Prop := {
  mi_identity : identity = {| ai_id := ac_id c; ai_expires_at := ac_expires_at c;
    ai_raw_token := Some (generate_token random); ai_cookie_max_age := Some (anonymous_client_ttl_seconds settings) |};
  mi_hash : ac_token_hash c = client_hash random;
  mi_expires : ac_expires_at c = clock w (clock_reads w) + seconds (anonymous_client_ttl_seconds settings);
  mi_new : anonymous_clients w !! ac_id c = None;
  mi_world : same_tables (with_table (<[ac_id c := c]> (anonymous_clients w)) w) w';
  mi_sole : sole_client c w'
}.

Lemma bootstrap_run settings random cookie w a w' :
  length random = 32%nat ->
  bootstrap_identity settings random cookie w = (inr a, w') ->
  let now := clock w (clock_reads w) in
  (exists c, named cookie now w c /\ a = known c /\ same_tables w w') \/
  ((forall c, ~ named cookie now w c) /\ exists c, minted settings random w a c w').
Proof.
  intros Hl E now. unfold bootstrap_identity in E. set (w1 := (clock_timestamp w).2).
  rewrite (bind_run database_now _ w now w1 eq_refl) in E.
  destruct (cookie_client_run cookie now w1) as (o & Eo & Ho). rewrite (bind_run _ _ _ _ _ Eo) in E.
  destruct o as [c|]; [left|right].
  - injection E as <- <-. by exists c.
  - split; [exact Ho|]. rewrite hash_generated in E by done.
    apply bind_inr in E as (c & w2 & Ec & E). injection E as <- <-.
    apply create_client_run in Ec as (Hh & He & Hn & Hw & Hs). by exists c.
Qed.

(** The cookie of a browser is its identity. When [bootstrap_identity] answers,
    either the header names a living client by its one canonical token, and that
    client is the answer and nothing is written and no cookie is set; or it names
    none, and one new client is added - for the token generated here, never for one
    the browser sent - that lives for the configured time, and the Set-Cookie
    header starts with its name and token. From then on any Cookie header that
    carries the token - the pair alone does - is the client's, with
    [require_identity] and with [bootstrap_identity], in every later database that
    still has the client, until it expires; afterwards [require_identity] refuses
    it. *)
Theorem client_cookie_roundtrip settings random cookie w a w' :
  length random = 32%nat ->
  bootstrap_identity settings random cookie w = (inr a, w') ->
  let now := clock w (clock_reads w) in
  let token := generate_token random in
  (exists c, named cookie now w c /\ a = known c /\ same_tables w w' /\ set_cookie_header a = None) \/
  ((forall c, ~ named cookie now w c) /\
   exists c, minted settings random w a c w' /\
     (exists attributes, set_cookie_header a = Some (cookie_text token ++ "; Path=/; " ++ attributes)%string) /\
     carries (cookie_text token) token /\
     forall header w2, carries header token -> sole_client c w2 ->
       let alive := clock w2 (clock_reads w2) <? ac_expires_at c in
       let w3 := (clock_timestamp w2).2 in
       require_identity (Some header) w2 = (if alive then inr (known c) else inl AnonymousIdentityRequiredError, w3) /\
       same_tables w2 w3 /\
       (alive = true -> forall random2, bootstrap_identity settings random2 (Some header) w2 = (inr (known c), w3))).
Proof.
  intros Hl E now token. destruct (bootstrap_run _ _ _ _ _ _ Hl E) as [(c & Hn & -> & Hw)|(Hno & c & Hm)]; [left; by exists c|].
  right. split; [exact Hno|]. exists c. split; [exact Hm|]. destruct Hm as [-> Hh _ _ _ _]. split; [|split].
  - by eexists.
  - by apply cookie_text_carries.
  - intros header w2 Hc Hs. destruct (sole_client_found c random header w2 Hl Hh Hc Hs) as [Hr Hb].
    split_and!; [exact Hr|done|]. intros Ha random2. apply Hb. by apply Z.ltb_lt.
Qed.

End ClientTheorems.

(** ** Witness *)
Module ClientExamples.
Import QuotaRepository IdentityService ClientTheorems.

Definition settings : Settings := QuotaExamples.demo_settings.
Definition random : bytes := replicate 32 Byte.x07.
Definition token : string := generate_token random.

(** A database with another client, and a browser that sends a token nobody knows. *)
Definition before : World := QuotaExamples.demo_world.
Definition foreign : string := ("theme=dark; " ++ cookie_text (generate_token (replicate 32 Byte.x08)))%string.
Definition after : World := (bootstrap_identity settings random (Some foreign) before).2.

Lemma client_cookie_roundtrip_witness :
  exists c, sole_client c after /\
    (require_identity (Some ("theme=dark; " ++ cookie_text token)%string) after).1 = inr (known c).
Proof.
  destruct (bootstrap_identity settings random (Some foreign) before) as [[e|a] w'] eqn:E.
  { exfalso. vm_compute in E. discriminate E. }
  assert (Ew : after = w') by (unfold after; rewrite E; reflexivity).
  destruct (client_cookie_roundtrip settings random (Some foreign) before a w' eq_refl E)
    as [(c & _ & Ha & _)|(_ & c & Hm & _ & _ & Hlater)].
  { exfalso. apply (f_equal ai_raw_token) in Ha. vm_compute in E. injection E as <- _. discriminate Ha. }
  exists c. rewrite Ew. pose proof (mi_sole _ _ _ _ _ _ Hm) as Hs. split; [exact Hs|].
  destruct (Hlater ("theme=dark; " ++ cookie_text token)%string w') as [Hr _].
  - split; vm_compute; reflexivity.
  - exact Hs.
  - rewrite Hr. assert (Hx : (clock w' (clock_reads w') <? ac_expires_at c) = true); [|rewrite Hx; reflexivity].
    rewrite (mi_expires _ _ _ _ _ _ Hm), <- Ew. vm_compute. reflexivity.
Defined.

(** The Set-Cookie header of that answer. *)
Example cookie_of_a_browser :
  match (bootstrap_identity settings random (Some foreign) before).1 with
  | inr a => set_cookie_header a
  | inl _ => None
  end = Some ("__Host-fetchnow_client=BwcHBwcHBwcHBwcHBwcHBwcHBwcHBwcHBwcHBwcHBwc; Path=/; Max-Age=2592000; " ++
              "Expires=Sat, 31 Jan 1970 00:01:40 GMT; HttpOnly; Secure; SameSite=Lax")%string.
Proof. vm_compute. reflexivity. Qed.

End ClientExamples.
