(* ===== verification/Qsl.v ===== *)
(** [urllib.parse.parse_qsl], as the payment callback uses it: strict parsing,
    blank values kept, strict UTF-8, a bound on the number of fields. Texts are
    lists of code points. *)

From S2P Require Export Utf8.

Local Open Scope string_scope.
Local Open Scope list_scope.
Local Open Scope Z_scope.

Definition AMP : N := 38%N.
Definition EQUALS : N := 61%N.
Definition PERCENT : N := 37%N.
Definition PLUS : N := 43%N.

(** [s.split(c)] *)
Fixpoint split_fields (sep : N) (l : list N) : list (list N) :=
  match l with
  | [] => [[]]
  | c :: l =>
      if (c =? sep)%N then [] :: split_fields sep l
      else match split_fields sep l with
           | part :: parts => (c :: part) :: parts
           | [] => [[c]]
           end
  end.

(** [s.split(c, 1)] *)
Fixpoint split_field (sep : N) (l : list N) : list N * option (list N) :=
  match l with
  | [] => ([], None)
  | c :: l =>
      if (c =? sep)%N then ([], Some l)
      else let '(before, after) := split_field sep l in (c :: before, after)
  end.

(** The value of a hexadecimal digit. *)
Definition hex_of (c : N) : option Z :=
  let c := Z.of_N c in
  if (48 <=? c) && (c <=? 57) then Some (c - 48)
  else if (65 <=? c) && (c <=? 70) then Some (c - 55)
  else if (97 <=? c) && (c <=? 102) then Some (c - 87)
  else None.

(** [unquote_to_bytes] of an ASCII text: an escape that is not one stays as it is. *)
Fixpoint unquote_to_bytes (l : list N) : list Z :=
  match l with
  | [] => []
  | c :: rest =>
      match rest with
      | a :: b :: rest' =>
          match (c =? PERCENT)%N, hex_of a, hex_of b with
          | true, Some x, Some y => (16 * x + y) :: unquote_to_bytes rest'
          | _, _, _ => Z.of_N c :: unquote_to_bytes rest
          end
      | _ => Z.of_N c :: unquote_to_bytes rest
      end
  end.

(** [unquote(s, encoding="utf-8", errors="strict")]: every run of ASCII, here
    [run] in reverse, is unquoted and decoded by itself. [None] is the
    [UnicodeDecodeError]. *)
Fixpoint unquote_from (run l : list N) : option (list N) :=
  match l with
  | [] => utf8_decode (unquote_to_bytes (reverse run))
  | c :: l =>
      if (c <? 128)%N then unquote_from (c :: run) l
      else
        start ← utf8_decode (unquote_to_bytes (reverse run));
        rest ← unquote_from [] l;
        Some (start ++ c :: rest)
  end.

Definition unquote (l : list N) : option (list N) := unquote_from [] l.

Definition plus_to_space (l : list N) : list N := (fun c => if (c =? PLUS)%N then 32%N else c) <$> l.

Definition parse_field (field : list N) : option (list N * list N) :=
  match split_field EQUALS field with
  | (_, None) => None
  | (name, Some value) =>
      name ← unquote (plus_to_space name);
      value ← unquote (plus_to_space value);
      Some (name, value)
  end.

(** [None] is a [ValueError]: too many fields, a field without an equals sign, or
    an escape that is no UTF-8. *)
Definition parse_qsl (max_num_fields : nat) (qs : list N) : option (list (list N * list N)) :=
  match qs with
  | [] => Some []
  | _ :: _ =>
      let fields := split_fields AMP qs in
      if (max_num_fields <? length fields)%nat then None else mapM parse_field fields
  end.

(** ** Writing a form *)

Definition hex_code (n : Z) : N := Z.to_N (if n <? 10 then 48 + n else 55 + n).

(** A byte as [urllib.parse.quote] writes it, when it is outside the letters and
    digits. *)
Definition escape (b : Z) : list N := [PERCENT; hex_code (b / 16); hex_code (b mod 16)].

Definition unreserved (b : Z) : bool :=
  ((48 <=? b) && (b <=? 57)) || ((65 <=? b) && (b <=? 90)) || ((97 <=? b) && (b <=? 122)).

Definition quote_byte (b : Z) : list N := if unreserved b then [Z.to_N b] else escape b.

(** A text in UTF-8, escaped. *)
Definition quoted_text (l : list N) : list N := (l ≫= encode_char) ≫= quote_byte.

Definition write_field (field : list N * list N) : list N := quoted_text field.1 ++ EQUALS :: quoted_text field.2.

Fixpoint write_form (fields : list (list N * list N)) : list N :=
  match fields with
  | [] => []
  | [field] => write_field field
  | field :: fields => write_field field ++ AMP :: write_form fields
  end.

(** *** A form reads as it was written *)

Lemma hex_of_code n : 0 <= n < 16 -> hex_of (hex_code n) = Some n.
Proof.
  intros Hn. assert (H : forallb (fun k => bool_decide (hex_of (hex_code (Z.of_nat k)) = Some (Z.of_nat k))) (seq 0 16) = true)
    by (vm_compute; reflexivity).
  rewrite forallb_forall in H. specialize (H (Z.to_nat n)). rewrite List.in_seq in H. specialize (H ltac:(lia)).
  apply bool_decide_eq_true in H. by rewrite Z2Nat.id in H by lia.
Qed.

Lemma unquote_quoted raw rest :
  Forall (fun b => 0 <= b < 256) raw -> unquote_to_bytes ((raw ≫= quote_byte) ++ rest) = raw ++ unquote_to_bytes rest.
Proof.
  induction 1 as [|b raw Hb _ IH]; [done|]. cbn [mbind list_bind app]. unfold quote_byte at 1.
  rewrite <- app_assoc. destruct (unreserved b) eqn:Eu.
  - cbn [app]. rewrite <- IH.
    assert (Hc : (Z.to_N b =? PERCENT)%N = false).
    { apply N.eqb_neq. intros E. unfold PERCENT in E. assert (b = 37) as -> by lia. by vm_compute in Eu. }
    assert (Hz : Z.of_N (Z.to_N b) = b) by lia.
    destruct ((raw ≫= quote_byte) ++ rest) as [|x [|y l]]; cbn [unquote_to_bytes]; rewrite ?Hc, Hz; done.
  - unfold escape. cbn [app unquote_to_bytes]. rewrite N.eqb_refl.
    rewrite !hex_of_code by (Z.to_euclidean_division_equations; lia). rewrite IH. f_equal.
    Z.to_euclidean_division_equations; lia.
Qed.

(** The characters of an escaped text: ASCII, none of them a separator. *)
Definition quoted_char (c : N) : bool :=
  (c <? 128)%N && negb (c =? AMP)%N && negb (c =? EQUALS)%N && negb (c =? PLUS)%N.

Lemma quote_byte_chars b : 0 <= b < 256 -> forallb quoted_char (quote_byte b) = true.
Proof.
  intros Hb. assert (H : forallb (fun k => forallb quoted_char (quote_byte (Z.of_nat k))) (seq 0 256) = true)
    by (vm_compute; reflexivity).
  rewrite forallb_forall in H. specialize (H (Z.to_nat b)). rewrite List.in_seq in H.
  specialize (H ltac:(lia)). by rewrite Z2Nat.id in H by lia.
Qed.

Lemma encoded_bytes l : forallb scalar l = true -> Forall (fun b => 0 <= b < 256) (l ≫= encode_char).
Proof.
  induction l as [|c l IH]; [done|]. cbn [forallb mbind list_bind]. intros [Hc Hl]%andb_prop.
  apply Forall_app. split; [by apply encode_char_bytes|by apply IH].
Qed.

Lemma quoted_text_chars l : forallb scalar l = true -> forallb quoted_char (quoted_text l) = true.
Proof.
  intros Hl%encoded_bytes. unfold quoted_text. induction Hl as [|b raw Hb _ IH]; [done|].
  cbn [mbind list_bind]. by rewrite forallb_app, quote_byte_chars, IH.
Qed.

Lemma unquote_ascii l run : forallb (fun c => (c <? 128)%N) l = true ->
  unquote_from run l = utf8_decode (unquote_to_bytes (reverse run ++ l)).
Proof.
  revert run. induction l as [|c l IH]; intros run; [by rewrite app_nil_r|].
  cbn [forallb unquote_from]. intros [-> Hl]%andb_prop. rewrite IH by done. by rewrite reverse_cons, <- app_assoc.
Qed.

Lemma quoted_weaken (p : N -> bool) l :
  (forall c, quoted_char c = true -> p c = true) -> forallb quoted_char l = true -> forallb p l = true.
Proof. intros Hp. rewrite !forallb_forall. auto. Qed.

Ltac quoted_chars :=
  eapply quoted_weaken; [|eassumption]; intros c; unfold quoted_char; rewrite !andb_true_iff; tauto.

Lemma unquote_quoted_text l : forallb scalar l = true -> unquote (plus_to_space (quoted_text l)) = Some l.
Proof.
  intros Hl. pose proof (quoted_text_chars l Hl) as Hc.
  assert (Hp : plus_to_space (quoted_text l) = quoted_text l).
  { unfold plus_to_space. rewrite <- (list_fmap_id (quoted_text l)) at 2. apply list_fmap_ext. intros i c Hi.
    apply list_elem_of_lookup_2, list_elem_of_In in Hi. rewrite forallb_forall in Hc. apply Hc in Hi. unfold quoted_char in Hi.
    rewrite !andb_true_iff, !negb_true_iff in Hi. destruct Hi as [_ Hi]. by rewrite Hi. }
  rewrite Hp. unfold unquote. rewrite unquote_ascii by quoted_chars. cbn [reverse rev_append app].
  rewrite <- (app_nil_r (quoted_text l)). unfold quoted_text. rewrite unquote_quoted by by apply encoded_bytes.
  cbn [unquote_to_bytes]. rewrite app_nil_r. apply utf8_roundtrip. unfold utf8_encode. by rewrite Hl.
Qed.

Lemma split_field_app sep l rest : forallb (fun c => negb (c =? sep)%N) l = true ->
  split_field sep (l ++ sep :: rest) = (l, Some rest).
Proof.
  induction l as [|c l IH]; cbn [forallb app split_field]; [by rewrite N.eqb_refl|].
  intros [Hc Hl]%andb_prop. apply negb_true_iff in Hc. by rewrite Hc, IH.
Qed.

Lemma split_fields_none sep l : forallb (fun c => negb (c =? sep)%N) l = true -> split_fields sep l = [l].
Proof.
  induction l as [|c l IH]; cbn [forallb split_fields]; [done|].
  intros [Hc Hl]%andb_prop. apply negb_true_iff in Hc. by rewrite Hc, IH.
Qed.

Lemma split_fields_app sep l rest : forallb (fun c => negb (c =? sep)%N) l = true ->
  split_fields sep (l ++ sep :: rest) = l :: split_fields sep rest.
Proof.
  induction l as [|c l IH]; cbn [forallb app split_fields]; [by rewrite N.eqb_refl|].
  intros [Hc Hl]%andb_prop. apply negb_true_iff in Hc. by rewrite Hc, IH.
Qed.

Definition field_ok (field : list N * list N) : bool := forallb scalar field.1 && forallb scalar field.2.

Lemma parse_written field : field_ok field = true -> parse_field (write_field field) = Some field.
Proof.
  destruct field as [name value]. unfold field_ok. cbn [fst snd]. intros [Hn Hv]%andb_prop.
  pose proof (quoted_text_chars name Hn) as Hcn. unfold parse_field, write_field. cbn [fst snd].
  rewrite split_field_app by quoted_chars. by rewrite !unquote_quoted_text.
Qed.

Lemma write_field_amp field : field_ok field = true -> forallb (fun c => negb (c =? AMP)%N) (write_field field) = true.
Proof.
  destruct field as [name value]. unfold field_ok. cbn [fst snd]. intros [Hn%quoted_text_chars Hv%quoted_text_chars]%andb_prop.
  unfold write_field. cbn [fst snd]. rewrite forallb_app. cbn [forallb].
  apply andb_true_iff. split; [quoted_chars|]. apply andb_true_iff. split; [done|quoted_chars].
Qed.

Lemma split_written fields : fields <> [] -> forallb field_ok fields = true ->
  split_fields AMP (write_form fields) = write_field <$> fields.
Proof.
  induction fields as [|field fields IH]; [done|]. intros _. cbn [forallb]. intros [Hf Hl]%andb_prop.
  destruct fields as [|field' fields].
  - cbn [write_form]. by rewrite split_fields_none by by apply write_field_amp.
  - change (write_form (field :: field' :: fields)) with (write_field field ++ AMP :: write_form (field' :: fields)).
    rewrite split_fields_app by by apply write_field_amp. by rewrite IH.
Qed.

Lemma parse_qsl_written n fields :
  (length fields <= n)%nat -> forallb field_ok fields = true -> parse_qsl n (write_form fields) = Some fields.
Proof.
  intros Hn Hf. destruct fields as [|field fields]; [done|].
  pose proof (split_written (field :: fields) ltac:(done) Hf) as Hs. unfold parse_qsl.
  destruct (write_form (field :: fields)) as [|c l] eqn:E.
  { exfalso. cbn in E. destruct fields; unfold write_field in E; by destruct (quoted_text field.1). }
  rewrite Hs, length_fmap. destruct (Nat.ltb_spec n (length (field :: fields))); [lia|].
  clear -Hf. induction (field :: fields) as [|f l IH]; [done|]. cbn [forallb] in Hf. apply andb_prop in Hf as [Hf Hl].
  cbn [fmap list_fmap mapM]. rewrite parse_written by done. cbn [mbind option_bind]. by rewrite IH.
Qed.
