(* ===== verification/PaymentApi.v ===== *)
(** The payment endpoints ([api/v1/payments.py]): orders of a client, and the signed
    callback of the provider from the bytes of its form to the order it pays.

    A text of the form is handed to the payment service as the string of its UTF-8
    bytes. *)

From S2P Require Export Payments Qsl ClientTheorems.

Local Open Scope string_scope.
Local Open Scope list_scope.
Local Open Scope Z_scope.

Module PaymentApi.
Import PaymentService IdentityService.

(** ** The form of a callback *)

(** Source: backend/src/fetchnow/api/v1/payments.py:30-30 [_CALLBACK_BODY_LIMIT] *)
Definition CALLBACK_BODY_LIMIT : nat := N.to_nat 16384.
(** Source: backend/src/fetchnow/api/v1/payments.py:32-32 [_REQUIRED_CALLBACK_FIELDS] *)
Definition REQUIRED_CALLBACK_FIELDS : list string := ["OutSum"; "InvId"; "SignatureValue"].

Definition invalid_callback {A} : exn + A := inl (PaymentError InvalidCallbackError).

(** Source: backend/src/fetchnow/api/v1/payments.py:60-64 [_callback_form]
    The chunks of the request's stream. *)
Fixpoint read_body (body : bytes) (chunks : list bytes) : exn + bytes :=
  match chunks with
  | [] => inr body
  | chunk :: chunks =>
      let body := body ++ chunk in
      if (CALLBACK_BODY_LIMIT <? length body)%nat then invalid_callback else read_body body chunks
  end.

(** Source: backend/src/fetchnow/api/v1/payments.py:77-87 [_callback_form]
    The pairs, with the required ones found so far. *)
Fixpoint collect (values : list (string * list N)) (pairs : list (list N * list N)) : exn + list (string * list N) :=
  match pairs with
  | [] => inr values
  | (key, value) :: pairs =>
      match List.find (fun k => bool_decide (codepoints k = key)) REQUIRED_CALLBACK_FIELDS with
      | None => collect values pairs
      | Some key =>
          if bool_decide (key ∈ values.*1) then invalid_callback
          else if existsb (fun c => bool_decide (c ∈ [13; 10; 0]%N)) value then invalid_callback
          else collect (values ++ [(key, value)]) pairs
      end
  end.

(** The text as the string of its UTF-8 bytes. *)
Definition encoded_value (l : list N) : string := of_chars ((fun b => ascii_of_N (Z.to_N b)) <$> (l ≫= encode_char)).

Record CallbackForm := {
  OutSum : string;
  InvId : string;
  SignatureValue : string
}.

(** Source: backend/src/fetchnow/api/v1/payments.py:88-90 [_callback_form] *)
Definition required_values (values : list (string * list N)) : exn + CallbackForm :=
  let get key := snd <$> List.find (fun kv => bool_decide (kv.1 = key)) values in
  match get "OutSum", get "InvId", get "SignatureValue" with
  | Some out_sum, Some inv_id, Some signature =>
      inr {| OutSum := encoded_value out_sum; InvId := encoded_value inv_id; SignatureValue := encoded_value signature |}
  | _, _, _ => invalid_callback
  end.

(** Source: backend/src/fetchnow/api/v1/payments.py:56-90 [_callback_form]
    [content_type]: the header, empty when there is none. *)
Definition callback_form (content_type : string) (chunks : list bytes) : exn + CallbackForm :=
  if negb (bool_decide (strip is_space (split_once ";"%char (chars content_type)).1 =
                        chars "application/x-www-form-urlencoded"))
  then invalid_callback else
  let? body := read_body [] chunks in
  match utf8_decode (Z_of_byte <$> body) with
  | None => invalid_callback
  | Some text =>
      match parse_qsl 16 text with
      | None => invalid_callback
      | Some pairs =>
          let? values := collect [] pairs in
          required_values values
      end
  end.

(** Source: backend/src/fetchnow/api/v1/payments.py:93-99 [_parse_inv_id] *)
Definition parse_inv_id (raw : string) : exn + Z :=
  let l := chars raw in
  if negb (forallb is_digit l && (1 <=? strlen raw) && (strlen raw <=? 19) &&
           negb (bool_decide (head l = Some "0"%char))) then invalid_callback else
  let value := read_digits (digit_value <$> l) in
  if 9223372036854775807 <? value then invalid_callback else inr value.

(** ** The endpoints *)
Section Api.
Context (settings : Settings) (request_id : option string).

(** [row.status.upper()] *)
Definition status_text (row : PaymentOrder) : string :=
  of_chars ((fun c => if in_range 97 122 c then ascii_of_N (N_of_ascii c - 32) else c) <$>
    chars (PaymentStates.value (po_status row))).

(** Source: backend/src/fetchnow/payments/service.py:213-227 [public_dict] *)
Definition public_dict (row : PaymentOrder) : list (string * Json) :=
  [("status", JStr (status_text row));
   ("productCode", JStr (po_product_code row)); ("amountMinor", JInt (po_amount_minor row));
   ("currency", JStr (po_currency row)); ("createdAt", JStr (zulu (po_created_at row)));
   ("paidAt", json_time (po_paid_at row))].

(** Source: backend/src/fetchnow/payments/robokassa.py:16-16 [PAYMENT_ACTION] *)
Definition PAYMENT_ACTION : string := "https://auth.robokassa.ru/Merchant/Index.aspx".

(** Source: backend/src/fetchnow/payments/service.py:229-239 [creation_dict] *)
Definition creation_dict (created : CreatedPayment) : list (string * Json) :=
  [("orderId", JStr (uuid_text (po_public_id (cp_order created))));
   ("status", JStr (status_text (cp_order created)));
   ("paymentForm", JObj [("action", JStr PAYMENT_ACTION); ("method", JStr "POST");
     ("fields", JObj ((fun field => (field.1, JStr field.2)) <$> cp_fields created))])].

Definition ok_response (status_code : Z) (body : list (string * Json)) : HttpResponse :=
  {| status_code := status_code; headers := NO_STORE; content := JsonContent (JObj body) |}.

Definition identity_required : HttpResponse :=
  error_response request_id 428 "PAYMENT_IDENTITY_REQUIRED" "A valid anonymous client identity is required.".
Definition payments_disabled : HttpResponse :=
  error_response request_id 503 "PAYMENTS_DISABLED" "Payments are not active.".

(** Source: backend/src/fetchnow/api/v1/payments.py:112-122 [create_payment_order]
    What runs in the session. *)
Definition order_session (cookie : option string) (product_code idempotency_key : string) : DB CreatedPayment :=
  let* client := require_identity cookie in
  create_order settings (ai_id client) product_code idempotency_key.

(** Source: backend/src/fetchnow/api/v1/payments.py:102-186 [create_payment_order]
    The other exceptions reach the application's handler. *)
Definition create_payment_order (cookie : option string) (product_code idempotency_key : string) (w : World)
    : HttpResponse * World :=
  if negb (test_checkout_available settings) then (payments_disabled, w) else
  let '(r, w') := committed (order_session cookie product_code idempotency_key) w in
  (match r with
   | inl (PaymentError PaymentsDisabledError) => payments_disabled
   | inl AnonymousIdentityRequiredError => identity_required
   | inl (PaymentError UnknownProductError) =>
       error_response request_id 422 "PAYMENT_PRODUCT_UNKNOWN" "The requested payment product is unavailable."
   | inl (PaymentError InvalidIdempotencyKeyError) =>
       error_response request_id 400 "PAYMENT_IDEMPOTENCY_KEY_INVALID" "The idempotency key is invalid."
   | inl (PaymentError IdempotencyConflictError) =>
       error_response request_id 409 "PAYMENT_IDEMPOTENCY_CONFLICT" "The idempotency key conflicts with an existing request."
   | inl _ => unhandled_exception_handler request_id
   | inr created => ok_response (if cp_created created then 201 else 200) (creation_dict created)
   end, w').

(** Source: backend/src/fetchnow/api/v1/payments.py:189-200 [get_payment_config] *)
Definition get_payment_config : HttpResponse :=
  ok_response 200
    [("testCheckoutAvailable", JBool (test_checkout_available settings));
     ("product", match public_product_summary settings with
                 | None => JNull
                 | Some (code, amount, currency, duration) =>
                     JObj [("productCode", JStr code); ("amountMinor", JInt amount); ("currency", JStr currency);
                           ("entitlementDurationSeconds", JInt duration)]
                 end)].

(** Source: backend/src/fetchnow/api/v1/payments.py:207-219 [get_payment_order]
    The id in the path has to be spelled as it is written. *)
Definition order_id (public_id : string) : option uid :=
  id ← parse_uuid public_id;
  if bool_decide (uuid_text id = public_id) then Some id else None.

(** Source: backend/src/fetchnow/api/v1/payments.py:203-254 [get_payment_order] *)
Definition get_payment_order (cookie : option string) (public_id : string) (w : World) : HttpResponse * World :=
  let not_found := error_response request_id 404 "PAYMENT_ORDER_NOT_FOUND" "The payment order was not found." in
  if negb (bool_decide (robokassa_mode settings = "test")) then (payments_disabled, w) else
  match order_id public_id with
  | None => (not_found, w)
  | Some id =>
      let '(r, w') := uncommitted
        (let* client := require_identity cookie in get_order settings id (ai_id client)) w in
      (match r with
       | inl (PaymentError PaymentsDisabledError) => payments_disabled
       | inl AnonymousIdentityRequiredError => identity_required
       | inl (PaymentError PaymentOrderNotFoundError) | inl (ValueError _) => not_found
       | inl _ => unhandled_exception_handler request_id
       | inr row => ok_response 200 (public_dict row)
       end, w')
  end.

Definition plain_response (status_code : Z) (text : string) : HttpResponse :=
  {| status_code := status_code; headers := NO_STORE; content := PlainText text |}.

(** Source: backend/src/fetchnow/api/v1/payments.py:257-289 [robokassa_result] *)
Definition robokassa_result (content_type : string) (chunks : list bytes) (w : World) : HttpResponse * World :=
  match (let? values := callback_form content_type chunks in
         let? inv_id := parse_inv_id (InvId values) in inr (values, inv_id)) with
  | inl _ => (plain_response 400 "ERROR", w)
  | inr (values, inv_id) =>
      let '(r, w') := committed (accept_callback settings (OutSum values) inv_id (SignatureValue values)) w in
      (match r with
       | inl (PaymentError InvalidCallbackError) | inl (PaymentError PaymentsDisabledError) => plain_response 400 "ERROR"
       | inl _ => plain_response 500 "ERROR"
       | inr result => plain_response 200 ("OK" ++ str_of_Z (cb_inv_id result))
       end, w')
  end.

End Api.
End PaymentApi.
