(* ===== verification/PaymentApiTheorems.v ===== *)
(** The payment endpoints from end to end: a form reads as it was written
    ([signed_form_is_read]), and an answered callback has paid exactly its order,
    whose client is Premium from then on for everyone who shows its cookie
    ([callback_answer_entitles]). *)

From S2P Require Export PaymentApi.

Local Open Scope string_scope.
Local Open Scope list_scope.
Local Open Scope Z_scope.

Module PaymentApiTheorems.
Import PaymentStates PaymentOrderRepository PaymentService PaymentLifecycle PaymentTheorems IdentityService ClientTheorems
  IdentityApi PaymentApi.

(** ** The form *)

Lemma read_body_all chunks body :
  (length (body ++ concat chunks) <= CALLBACK_BODY_LIMIT)%nat -> read_body body chunks = inr (body ++ concat chunks).
Proof.
  revert body. induction chunks as [|chunk chunks IH]; intros body Hl; cbn [read_body concat] in *; [by rewrite app_nil_r|].
  rewrite app_assoc in *. assert (Hc : (length (body ++ chunk) <= CALLBACK_BODY_LIMIT)%nat) by (rewrite length_app in Hl; lia).
  apply Nat.ltb_ge in Hc. rewrite Hc. by apply IH.
Qed.

Lemma byte_Z_id z : 0 <= z < 256 -> Z_of_byte (byte_of_Z z) = z.
Proof.
  intros Hz. assert (H : forallb (fun k => bool_decide (Z_of_byte (byte_of_Z (Z.of_nat k)) = Z.of_nat k)) (seq 0 256) = true)
    by (vm_compute; reflexivity).
  rewrite forallb_forall in H. specialize (H (Z.to_nat z)). rewrite List.in_seq in H. specialize (H ltac:(lia)).
  apply bool_decide_eq_true in H. by rewrite Z2Nat.id in H by lia.
Qed.

(** A text of ASCII as the bytes of a request. *)
Definition ascii_bytes (l : list N) : bytes := byte_of_Z <$> (Z.of_N <$> l).

Definition is_ascii (c : N) : bool := (c <? 128)%N.

Lemma decode_ascii l : forallb is_ascii l = true -> utf8_decode (Z_of_byte <$> ascii_bytes l) = Some l.
Proof.
  intros Hl. apply utf8_roundtrip. unfold utf8_encode.
  assert (Hs : forallb scalar l = true).
  { rewrite forallb_forall in *. intros c Hc. apply Hl, N.ltb_lt in Hc. unfold scalar. apply orb_true_iff. left. apply N.ltb_lt. lia. }
  rewrite Hs. f_equal. clear Hs. unfold ascii_bytes. induction l as [|c l IH]; [done|]. cbn [forallb] in Hl.
  apply andb_prop in Hl as [Hc Hl]. apply N.ltb_lt in Hc. cbn [fmap list_fmap mbind list_bind]. rewrite <- IH by done.
  rewrite byte_Z_id by lia. unfold encode_char. by destruct (Z.ltb_spec (Z.of_N c) 128); [|lia].
Qed.

Lemma write_form_ascii fields : forallb field_ok fields = true -> forallb is_ascii (write_form fields) = true.
Proof.
  assert (Hw : forall f, field_ok f = true -> forallb is_ascii (write_field f) = true).
  { intros [name value] [Hn%quoted_text_chars Hv%quoted_text_chars]%andb_prop. cbn [fst snd] in *. unfold write_field.
    cbn [fst snd]. rewrite forallb_app. cbn [forallb]. apply andb_true_iff. split; [quoted_chars|].
    apply andb_true_iff. split; [done|quoted_chars]. }
  induction fields as [|f fields IH]; [done|]. cbn [forallb]. intros [Hf Hl]%andb_prop. specialize (IH Hl).
  destruct fields as [|g fields]; [by apply Hw|].
  change (write_form (f :: g :: fields)) with (write_field f ++ AMP :: write_form (g :: fields)).
  rewrite forallb_app. cbn [forallb]. by rewrite Hw.
Qed.

(** A value the endpoint lets through. *)
Definition clean (l : list N) : bool :=
  forallb scalar l && negb (existsb (fun c => bool_decide (c ∈ [13; 10; 0]%N)) l).

Definition callback_fields (out_sum inv_id signature : list N) : list (list N * list N) :=
  [(codepoints "OutSum", out_sum); (codepoints "InvId", inv_id); (codepoints "SignatureValue", signature)].

Lemma collect_field key value values pairs :
  key ∈ REQUIRED_CALLBACK_FIELDS -> key ∉ values.*1 -> clean value = true ->
  collect values ((codepoints key, value) :: pairs) = collect (values ++ [(key, value)]) pairs.
Proof.
  intros Hk Hn [_ Hv%negb_true_iff]%andb_prop. cbn [collect].
  assert (Ef : List.find (fun k => bool_decide (codepoints k = codepoints key)) REQUIRED_CALLBACK_FIELDS = Some key).
  { unfold REQUIRED_CALLBACK_FIELDS in Hk. rewrite !elem_of_cons, elem_of_nil in Hk.
    by destruct Hk as [->|[->|[->|[]]]]; vm_compute. }
  by rewrite Ef, bool_decide_eq_false_2, Hv.
Qed.

(** The form of the provider arrives. A body of at most 16384 bytes that carries
    the sum, the invoice number and the signature, each any text without line ends
    and NUL, as escaped UTF-8 fields with the form's content type - with any
    parameters, and cut into chunks anywhere - is read as exactly these three
    texts. *)
Theorem signed_form_is_read content_type chunks out_sum inv_id signature :
  strip is_space (split_once ";"%char (chars content_type)).1 = chars "application/x-www-form-urlencoded" ->
  clean out_sum = true -> clean inv_id = true -> clean signature = true ->
  concat chunks = ascii_bytes (write_form (callback_fields out_sum inv_id signature)) ->
  (length (concat chunks) <= CALLBACK_BODY_LIMIT)%nat ->
  callback_form content_type chunks =
    inr {| OutSum := encoded_value out_sum; InvId := encoded_value inv_id; SignatureValue := encoded_value signature |}.
Proof.
  intros Ht Ho Hi Hs Hc Hl. unfold callback_form.
  rewrite bool_decide_eq_true_2 by done. cbn [negb]. rewrite read_body_all by done. cbn [err_bind app]. rewrite Hc.
  assert (Hf : forallb field_ok (callback_fields out_sum inv_id signature) = true).
  { pose proof Ho as [Eo _]%andb_prop. pose proof Hi as [Ei _]%andb_prop. pose proof Hs as [Es _]%andb_prop.
    cbn [callback_fields forallb]. unfold field_ok. cbn [fst snd]. by rewrite Eo, Ei, Es. }
  rewrite decode_ascii by by apply write_form_ascii. rewrite parse_qsl_written; [|cbn; lia|done].
  unfold callback_fields. rewrite !collect_field by (done || (cbn; set_solver)). done.
Qed.

(** ** The Premium status of a client *)

(** An entitlement window of the client that is open. *)
Definition premium_answer (expires_at : time) (product : string) (remaining : Z) : HttpResponse := {|
  status_code := 200; headers := NO_STORE;
  content := JsonContent (JObj
    [("active", JBool true); ("expiresAt", JStr (zulu expires_at)); ("productCode", JStr product);
     ("remainingSeconds", JInt remaining)]) |}.

Lemma premium_endpoint_active request_id c raw header w id e :
  length raw = 32%nat -> ac_token_hash c = client_hash raw -> carries header (generate_token raw) -> sole_client c w ->
  clock w (clock_reads w) < ac_expires_at c ->
  premium_entitlements w !! id = Some e -> pe_anonymous_client_id e = ac_id c ->
  pe_starts_at e <= clock w (S (clock_reads w)) < pe_expires_at e ->
  exists expires_at product remaining, pe_expires_at e <= expires_at /\ 0 <= remaining /\
    (get_premium_status request_id (Some header) w).1 = premium_answer expires_at product remaining.
Proof.
  intros Hl Hh Hc Hs Hlive He Hcl Hopen. set (w1 := (clock_timestamp w).2).
  destruct (sole_client_found c raw header w Hl Hh Hc Hs) as [Hr _]. apply Z.ltb_lt in Hlive. rewrite Hlive in Hr. fold w1 in Hr.
  assert (Hact : PremiumEntitlementRepository.active_for (ac_id c) (clock w1 (clock_reads w1)) e = true).
  { unfold PremiumEntitlementRepository.active_for. change (clock w1 (clock_reads w1)) with (clock w (S (clock_reads w))).
    destruct Hopen. rewrite Hcl, bool_decide_eq_true_2 by done. by rewrite (proj2 (Z.leb_le _ _)), (proj2 (Z.ltb_lt _ _)). }
  destruct (PremiumEntitlementRepository.status_for_client_spec (ac_id c) w1) as (st & w2 & Est & Ht & Hp & Hx).
  pose proof (proj2 Hp (ex_intro _ id (ex_intro _ e (conj He Hact)))) as Hprem.
  assert (Hcap : exists t p, premium_expires_at (PremiumEntitlementRepository.ps_capability st) = Some t /\
    capability_product_code (PremiumEntitlementRepository.ps_capability st) = Some p).
  { unfold PremiumEntitlementRepository.status_for_client in Est.
    apply bind_inr in Est as (now & w1' & _ & Est). apply bind_inr in Est as (o & w2' & _ & Est).
    injection Est as <- _. cbn in *. destruct o as [x|]; [|done]. by exists (pe_expires_at x), (pe_product_code x). }
  destruct Hcap as (t & p & Et & Ep). destruct (Hx t Et) as [_ Hmax].
  exists t, p, (Z.max 0 (Z.quot (t - clock w2 (clock_reads w2)) 1000000)).
  split; [by eapply Hmax|]. split; [lia|]. unfold get_premium_status.
  assert (Erun : premium_session (Some header) w =
    (inr (premium_public_dict st (clock w2 (clock_reads w2))), w2 <| clock_reads := S (clock_reads w2) |>)).
  { unfold premium_session. rewrite (bind_run _ _ _ _ _ Hr). cbn [known ai_id]. rewrite (bind_run _ _ _ _ _ Est). done. }
  rewrite (proj2 (committed_inr _ _ _ _) Erun). cbn [fst]. unfold premium_public_dict. by rewrite Hprem, Et, Ep.
Qed.

(** ** The callback *)

(** Everyone who shows the cookie of the client sees it as Premium, in every later
    database that still has the client and these entitlements, while the clock
    reads between the two instants. *)
Definition shown_as_premium (client : uid) (from till : time) (w : World) : Prop :=
  forall request_id c raw header w2,
    ac_id c = client -> length raw = 32%nat -> ac_token_hash c = client_hash raw -> carries header (generate_token raw) ->
    sole_client c w2 -> premium_entitlements w2 = premium_entitlements w ->
    clock w2 (clock_reads w2) < ac_expires_at c -> from <= clock w2 (S (clock_reads w2)) < till ->
    exists expires_at product remaining, till <= expires_at /\ 0 <= remaining /\
      (get_premium_status request_id (Some header) w2).1 = premium_answer expires_at product remaining.

(** What an accepted callback did: the order of the invoice, which the signature and
    the sum authenticate, is paid, at [t], and its client has the entitlement of the
    next 24 hours. *)
Record paid_by (settings : Settings) (form : CallbackForm) (inv_id : Z) (r r' : PaymentOrder) (t : time) (w w' : World)
    : Prop := {
  pb_order : payment_orders w !! po_id r = Some r;
  pb_authentic : authentic settings (OutSum form) inv_id (SignatureValue form) r;
  pb_orders : payment_orders w' = <[po_id r := r']> (payment_orders w);
  pb_status : po_status r' = PAID;
  pb_paid_at : po_paid_at r' = Some t;
  pb_unchanged : po_status r = PAID -> r' = r;
  pb_entitlement : exists id e, premium_entitlements w' !! id = Some e /\ pe_source_payment_order_id e = po_id r /\
    pe_starts_at e = t /\ pe_expires_at e = t + seconds 86400 /\
    pe_anonymous_client_id e = po_anonymous_client_id r /\
    (forall id', id' <> id -> premium_entitlements w' !! id' = premium_entitlements w !! id')
}.

Lemma paid_shows settings form inv_id r r' t w w' :
  paid_by settings form inv_id r r' t w w' -> shown_as_premium (po_anonymous_client_id r) t (t + seconds 86400) w'.
Proof.
  intros [_ _ _ _ _ _ (id & e & He & _ & Hs & Hx & Hcl & _)]. intros request_id c raw header w2 Ec Hl Hh Hc Hsole Ew Hlive Hopen.
  rewrite <- Hx. apply (premium_endpoint_active request_id c raw header w2 id e); congruence.
Qed.

(** An answered callback has paid its order, and only a signed one is answered.
    [robokassa_result] answers 200 with OK and the invoice number only for a form
    whose signature is the digest of its sum, its invoice number and the secret,
    and whose sum is that of the order with this invoice: afterwards that order is
    paid (as it was, if it already was), no other order changed, its client has
    exactly one entitlement for it, of 24 hours from the payment, and whoever shows
    the cookie of that client is told for that time that Premium is active. Every
    other request - another content type, a body that is too long, is not UTF-8 or
    repeats a field, a wrong signature or sum, an error on the way - is answered
    ERROR with 400 or 500 and changes no table. *)
Theorem callback_answer_entitles settings content_type chunks w resp w' :
  reachable w -> entitlements_ok w ->
  robokassa_result settings content_type chunks w = (resp, w') ->
  (exists form inv_id r r' t,
    callback_form content_type chunks = inr form /\ parse_inv_id (InvId form) = inr inv_id /\
    resp = plain_response 200 ("OK" ++ str_of_Z inv_id) /\
    paid_by settings form inv_id r r' t w w' /\
    shown_as_premium (po_anonymous_client_id r) t (t + seconds 86400) w') \/
  ((resp = plain_response 400 "ERROR" \/ resp = plain_response 500 "ERROR") /\ same_tables w w').
Proof.
  intros Hr Hok. unfold robokassa_result.
  destruct (callback_form content_type chunks) as [e|form] eqn:Ef; cbn [err_bind]; [intros [= <- <-]; right; by split; [left|]|].
  destruct (parse_inv_id (InvId form)) as [e|inv_id] eqn:Ei; cbn [err_bind]; [intros [= <- <-]; right; by split; [left|]|].
  destruct (committed _ w) as [[e|res] w1] eqn:Ec; intros [= <- <-].
  { right. apply committed_inl in Ec. split; [|done]. destruct e as [| | | | |[]| | | | | | | | | | | | |]; tauto. }
  left. apply (proj1 (committed_inr _ _ _ _)) in Ec.
  destruct (accepted_callback_settles settings _ inv_id _ w res w1 Hr Hok Ec)
    as (r & r' & t & id & e & Er & Ha & _ & Ho & Hst & Hp & Hsame & He & Hsrc & Hs & Hx & Hcl & Hothers).
  assert (Hpaid : paid_by settings form inv_id r r' t w w1) by (split; try done; exists id, e; by split_and!).
  exists form, inv_id, r, r', t. split_and!; [done..| |done|by eapply paid_shows].
  assert (cb_inv_id res = inv_id) as ->; [|done].
  pose proof (wp_accept ∅ settings (OutSum form) inv_id (SignatureValue form) w (inv_reachable _ Hr)) as Hw.
  unfold wp in Hw. rewrite Ec in Hw. by destruct Hw as (? & ? & ? & ? & ? & _ & _ & -> & _).
Qed.

End PaymentApiTheorems.

(** ** Witnesses *)
Module PaymentApiExamples.
Import PaymentOrderRepository PaymentService PaymentLifecycle IdentityService ClientTheorems IdentityApi PaymentApi
  PaymentApiTheorems PaymentExamples.

Definition FORM_TYPE : string := "application/x-www-form-urlencoded; charset=utf-8".

(** The form of the demonstration, in two chunks. *)
Definition demo_body : bytes :=
  ascii_bytes (write_form (callback_fields (codepoints "199.00") (codepoints "1") (codepoints demo_signature))).
Definition demo_chunks : list bytes := [take 7 demo_body; drop 7 demo_body].
Definition demo_form : CallbackForm := {| OutSum := "199.00"; InvId := "1"; SignatureValue := demo_signature |}.

Lemma signed_form_is_read_witness : callback_form FORM_TYPE demo_chunks = inr demo_form.
Proof.
  exact (signed_form_is_read FORM_TYPE demo_chunks (codepoints "199.00") (codepoints "1") (codepoints demo_signature)
    ltac:(vm_compute; reflexivity) ltac:(vm_compute; reflexivity) ltac:(vm_compute; reflexivity)
    ltac:(vm_compute; reflexivity) ltac:(vm_compute; reflexivity) ltac:(apply Nat.leb_le; vm_compute; reflexivity)).
Defined.

Lemma callback_answer_entitles_witness :
  exists r t, payment_orders demo_ordered !! po_id r = Some r /\
    shown_as_premium (po_anonymous_client_id r) t (t + seconds 86400)
      (robokassa_result demo_settings FORM_TYPE demo_chunks demo_ordered).2.
Proof.
  destruct (callback_answer_entitles demo_settings FORM_TYPE demo_chunks demo_ordered _ _
    demo_ordered_reachable demo_ordered_ok (surjective_pairing _))
    as [(form & inv_id & r & r' & t & _ & _ & _ & Hp & Hs)|[[E|E] _]].
  - exists r, t. split; [exact (pb_order _ _ _ _ _ _ _ _ Hp)|exact Hs].
  - exfalso. vm_compute in E. discriminate E.
  - exfalso. vm_compute in E. discriminate E.
Defined.

(** From a browser without a cookie to Premium, through the four endpoints. *)
Definition random : bytes := replicate 32 Byte.x05.
Definition cookie : string := cookie_text (generate_token random).
Definition after_quota : World := (get_free_quota demo_settings None random None demo_empty).2.
Definition after_order : World :=
  (create_payment_order demo_settings None (Some cookie) PRODUCT_CODE "0123456789abcdefghijkl" after_quota).2.
Definition after_callback : World := (robokassa_result demo_settings FORM_TYPE demo_chunks after_order).2.

Example a_new_browser_becomes_premium :
  status_code (get_free_quota demo_settings None random None demo_empty).1 = 200 /\
  status_code (create_payment_order demo_settings None (Some cookie) PRODUCT_CODE "0123456789abcdefghijkl" after_quota).1 = 201 /\
  (robokassa_result demo_settings FORM_TYPE demo_chunks after_order).1 = plain_response 200 "OK1" /\
  (get_premium_status None (Some cookie) after_callback).1 = premium_answer (seconds 86405) PRODUCT_CODE 86396.
Proof. vm_compute. split_and!; reflexivity. Qed.

(** The same key after the payment: the order is found, but [create_order] refuses
    its state with an exception that the endpoint does not catch. *)
Example paid_order_is_an_internal_error :
  create_payment_order demo_settings None (Some cookie) PRODUCT_CODE "0123456789abcdefghijkl" after_callback =
    (unhandled_exception_handler None, (create_payment_order demo_settings None (Some cookie) PRODUCT_CODE
      "0123456789abcdefghijkl" after_callback).2).
Proof. vm_compute. reflexivity. Qed.

End PaymentApiExamples.
