(* ===== verification/Resolution.v ===== *)
(** Wrapper resolution (resolution/): a link on a wrapper site is followed,
    through a registered resolver per hop, to a URL of a media provider.

    The resolvers are injected: a record of what the protocol asks of one. The
    HTTP client behind the document port is outside the model; the port is the
    set of hosts it is locked to. *)

From S2P Require Export ProviderIdentity UrlTheorems Json Sha256 Utf8 Floats.

Local Open Scope string_scope.
Local Open Scope list_scope.
Local Open Scope Z_scope.

(** ** errors.py *)

Definition upper_alnum (c : ascii) : bool := in_range 65 90 c || in_range 48 57 c || is_one_of "_" c.

(** Source: backend/src/fetchnow/resolution/errors.py:11-11 [_SAFE_INTERNAL_REASON] *)
Definition _SAFE_INTERNAL_REASON : regex := Cat (Char (in_range 65 90)) (Many 0 (Some 63%nat) upper_alnum).

(** Source: backend/src/fetchnow/resolution/errors.py:48-54 [sanitize_internal_reason]
    No reason is the empty text. *)
Definition sanitize_internal_reason (raw : string) : string :=
  if String.eqb raw "" then ""
  else if is_some (fullmatch _SAFE_INTERNAL_REASON (chars raw)) then raw
  else "REDACTED_INTERNAL_REASON".

(** Source: backend/src/fetchnow/resolution/errors.py:57-80 [ResolutionError]
    The public message is a function of the kind, [resolution_message]. *)
Definition resolution_error (kind : ResolutionErrorKind) (internal_reason : string) : exn :=
  ResolutionError kind (sanitize_internal_reason internal_reason).

(** Source: backend/src/fetchnow/resolution/errors.py:31-45 [_PUBLIC_MESSAGES] *)
Definition resolution_message (kind : ResolutionErrorKind) : string :=
  match kind with
  | WRAPPER_UNSUPPORTED => "This URL wrapper is not supported."
  | WRAPPER_UNRESOLVED => "The wrapper could not be resolved."
  | RESOLVED_PROVIDER_UNSUPPORTED => "The resolved media destination is not supported."
  | RESOLUTION_LOOP => "Wrapper resolution detected a loop."
  | RESOLUTION_LIMIT_EXCEEDED => "Wrapper resolution exceeded the allowed depth."
  | UNSAFE_RESOLUTION_TARGET => "The resolution target is not allowed."
  | RESOLUTION_INTERNAL_ERROR => "An unexpected resolution error occurred."
  end.

(** Source: backend/src/fetchnow/resolution/api_map.py:8-16 [RESOLUTION_PUBLIC_CODES] *)
Definition resolution_public_code (kind : ResolutionErrorKind) : string :=
  match kind with
  | WRAPPER_UNSUPPORTED => "WRAPPER_UNSUPPORTED"
  | WRAPPER_UNRESOLVED => "WRAPPER_UNRESOLVED"
  | RESOLVED_PROVIDER_UNSUPPORTED => "RESOLVED_PROVIDER_UNSUPPORTED"
  | RESOLUTION_LOOP => "RESOLUTION_LOOP"
  | RESOLUTION_LIMIT_EXCEEDED => "RESOLUTION_LIMIT_EXCEEDED"
  | UNSAFE_RESOLUTION_TARGET => "UNSAFE_RESOLUTION_TARGET"
  | RESOLUTION_INTERNAL_ERROR => "INTERNAL_ERROR"
  end.

(** Source: backend/src/fetchnow/resolution/api_map.py:18-26 [RESOLUTION_HTTP_STATUS] *)
Definition resolution_http_status (kind : ResolutionErrorKind) : Z :=
  match kind with RESOLUTION_INTERNAL_ERROR => 500 | _ => 422 end.

(** Source: backend/src/fetchnow/resolution/api_map.py:41-48 [map_resolution_error]
    The catalog of messages of the API (28-38) repeats the domain's. *)
Definition map_resolution_error (kind : ResolutionErrorKind) : string * Z * string :=
  (resolution_public_code kind, resolution_http_status kind, resolution_message kind).

(** ** network/models.py *)

(** Source: backend/src/fetchnow/network/models.py:11-26 [SafeDocumentTarget] *)
Record SafeDocumentTarget := {
  dt_scheme : text;
  dt_hostname : text;
  dt_port : option Z;
  dt_path : text;
  dt_query : text;
  dt_canonical_without_query : text;
  dt_request_url : text
}.

(** ** models.py *)

Definition token_char (c : ascii) : bool := in_range 97 122 c || in_range 48 57 c || is_one_of "_" c.

(** Source: backend/src/fetchnow/resolution/models.py:19-19 [_SAFE_AUDIT_TOKEN] *)
Definition _SAFE_AUDIT_TOKEN : regex := Cat (Char (in_range 97 122)) (Many 0 (Some 63%nat) token_char).

Definition audit_token (value : string) : bool := is_some (fullmatch _SAFE_AUDIT_TOKEN (chars value)).

(** Source: backend/src/fetchnow/resolution/models.py:24-48 [_FORBIDDEN_METADATA_KEYS] *)
Definition _FORBIDDEN_METADATA_KEYS : list string :=
  ["password"; "passwd"; "secret"; "token"; "authorization"; "cookie"; "set-cookie"; "query";
   "location"; "url"; "body"; "header"; "headers"; "cookie_jar"; "auth"; "api_key"; "apikey";
   "access_token"; "refresh_token"; "signature"; "signed"].
Definition _MAX_METADATA_KEYS : nat := 8.
Definition _MAX_METADATA_KEY_LEN : Z := 32.
Definition _MAX_METADATA_SERIALIZED : Z := 256.

(** Source: backend/src/fetchnow/resolution/models.py:51-55 [ResolutionProvenance] *)
Inductive ResolutionProvenance := DIRECT_PROVIDER | WRAPPER_RESOLVED.

(** Source: backend/src/fetchnow/resolution/models.py:58-62 [require_audit_token] *)
Definition require_audit_token (value field_name : string) : exn + string :=
  if audit_token value then inr value
  else inl (ValueError ("unsafe " ++ field_name ++ " for resolution audit")%string).

(** A value of frozen metadata, [int | bool]. *)
Inductive MetaValue := MetaInt (n : Z) | MetaBool (b : bool).

Definition meta_error {A} (message : string) : exn + A :=
  inl (ValueError ("resolution metadata " ++ message)%string).

(** Source: backend/src/fetchnow/resolution/models.py:90-97 [freeze_resolution_metadata]
    The value coerced, and what it adds to the size. *)
Definition freeze_value (key : string) (value : Json) : exn + (MetaValue * Z) :=
  match value with
  | JBool b => inr (MetaBool b, strlen key + 5)
  | JInt n => inr (MetaInt n, strlen key + strlen (py_str n))
  | _ => meta_error "values must be int|bool"
  end.

(** Source: backend/src/fetchnow/resolution/models.py:80-103 [freeze_resolution_metadata]
    The loop over the members of the mapping. *)
Fixpoint freeze_loop (raw : list (string * Json)) (items : list (string * MetaValue)) (serialized : Z)
    : exn + list (string * MetaValue) :=
  match raw with
  | [] => inr items
  | (key, value) :: raw =>
      let normalized_key := lower (of_chars (strip is_space (chars key))) in
      raise_if (String.eqb normalized_key "" || (_MAX_METADATA_KEY_LEN <? strlen normalized_key))
        (ValueError "resolution metadata key length invalid") ;;?
      raise_if (negb (audit_token normalized_key))
        (ValueError "resolution metadata key is not a safe token") ;;?
      raise_if (bool_decide (normalized_key ∈ _FORBIDDEN_METADATA_KEYS))
        (ValueError "resolution metadata key is forbidden") ;;?
      let? (coerced, size) := freeze_value normalized_key value in
      let serialized := serialized + size in
      raise_if (_MAX_METADATA_SERIALIZED <? serialized)
        (ValueError "resolution metadata exceeds size limit") ;;?
      raise_if (bool_decide (normalized_key ∈ items.*1))
        (ValueError "resolution metadata key collision after normalize") ;;?
      freeze_loop raw (items ++ [(normalized_key, coerced)]) serialized
  end.

(** Source: backend/src/fetchnow/resolution/models.py:65-104 [freeze_resolution_metadata] *)
Definition freeze_resolution_metadata (raw : option (list (string * Json)))
    : exn + list (string * MetaValue) :=
  match raw with
  | None => inr []
  | Some raw =>
      raise_if (Nat.ltb _MAX_METADATA_KEYS (length raw)) (ValueError "resolution metadata exceeds key limit") ;;?
      let? items := freeze_loop raw [] 0 in
      inr (sort_by (fun pair => [KStr pair.1]) items)
  end.

(** Source: backend/src/fetchnow/resolution/models.py:107-119 [ResolutionHop] *)
Record ResolutionHop := {
  rh_resolver_id : string;
  rh_wrapper_type : string;
  rh_source_canonical : text;
  rh_target_canonical : text;
  rh_strategy : string;
  rh_metadata : list (string * MetaValue)
}.

(** Source: backend/src/fetchnow/resolution/models.py:120-123 [__post_init__] *)
Definition make_hop (hop : ResolutionHop) : exn + ResolutionHop :=
  let? _ := require_audit_token (rh_resolver_id hop) "resolver_id" in
  let? _ := require_audit_token (rh_wrapper_type hop) "wrapper_type" in
  let? _ := require_audit_token (rh_strategy hop) "strategy" in
  inr hop.

(** Source: backend/src/fetchnow/resolution/models.py:137-150 [ResolutionResult] *)
Record ResolutionResult := {
  rr_submitted_url : text;
  rr_validated : URLValidationResult;
  rr_provider_id : string;
  rr_provider_display_name : string;
  rr_canonical_provider_url : text;
  rr_wrapper_type : option string;
  rr_provenance : ResolutionProvenance;
  rr_resolution_chain : list ResolutionHop
}.

(** Source: backend/src/fetchnow/resolution/models.py:168-174 [WrapperResolveOutcome]
    [candidate_url] may be [None] at run time; the service treats it as empty. *)
Record WrapperResolveOutcome := {
  wo_candidate_url : text;
  wo_strategy : string;
  wo_metadata : option (list (string * Json))
}.

(** ** protocols.py *)

(** Source: backend/src/fetchnow/resolution/protocols.py:29-58 [WrapperResolver]
    [wr_resolve] is given the hosts its document port is locked to. *)
Record WrapperResolver := {
  wr_resolver_id : string;
  wr_wrapper_type : string;
  wr_exact_hostnames : list text;
  wr_matches : SafeDocumentTarget -> exn + bool;
  wr_resolve : SafeDocumentTarget -> list text -> exn + WrapperResolveOutcome
}.

(** ** registry.py *)

(** Source: backend/src/fetchnow/resolution/registry.py:20-30 [_normalize_host] *)
Definition _normalize_host (hostname : text) : exn + text :=
  let host := rstrip_dots (lower_text (strip is_space hostname)) in
  raise_if (is_nil host) WrapperRegistryError ;;?
  raise_if (has "/"%char host || has "\"%char host || contains (chars "..") host || has ":"%char host)
    WrapperRegistryError ;;?
  raise_if (has "%"%char host) WrapperRegistryError ;;?
  inr host.

(** Source: backend/src/fetchnow/resolution/registry.py:33-44 [WrapperResolverRegistration] *)
Record WrapperResolverRegistration := {
  rg_resolver : WrapperResolver;
  rg_resolver_id : string;
  rg_wrapper_type : string;
  rg_exact_hostnames : list text
}.

(** Source: backend/src/fetchnow/resolution/registry.py:47-59 [WrapperResolverRegistry] *)
Record WrapperResolverRegistry := {
  wreg_registrations : list WrapperResolverRegistration;
  wreg_by_host : gmap text WrapperResolverRegistration
}.

(** Source: backend/src/fetchnow/resolution/registry.py:134-146 [from_resolvers]
    The hosts of one resolver. *)
Fixpoint normalize_hosts (hosts : list text) (by_host : gmap text WrapperResolverRegistration)
    (normalized_hosts : list text) : exn + list text :=
  match hosts with
  | [] => inr normalized_hosts
  | raw_host :: hosts =>
      let? host := _normalize_host raw_host in
      raise_if (is_some (by_host !! host)) WrapperRegistryError ;;?
      raise_if (bool_decide (host ∈ normalized_hosts)) WrapperRegistryError ;;?
      normalize_hosts hosts by_host (normalized_hosts ++ [host])
  end.

(** Source: backend/src/fetchnow/resolution/registry.py:118-157 [from_resolvers]
    One resolver added; the identifiers seen are those of the registrations. *)
Definition register (registry : WrapperResolverRegistry) (resolver : WrapperResolver)
    : exn + WrapperResolverRegistry :=
  let resolver_id := wr_resolver_id resolver in
  let wrapper_type := wr_wrapper_type resolver in
  raise_if (String.eqb resolver_id "") WrapperRegistryError ;;?
  raise_if (String.eqb wrapper_type "") WrapperRegistryError ;;?
  raise_if (bool_decide (resolver_id ∈ rg_resolver_id <$> wreg_registrations registry)) WrapperRegistryError ;;?
  raise_if (bool_decide (wrapper_type ∈ rg_wrapper_type <$> wreg_registrations registry)) WrapperRegistryError ;;?
  raise_if (is_nil (wr_exact_hostnames resolver)) WrapperRegistryError ;;?
  let? normalized_hosts := normalize_hosts (wr_exact_hostnames resolver) (wreg_by_host registry) [] in
  let registration := {| rg_resolver := resolver; rg_resolver_id := resolver_id;
                         rg_wrapper_type := wrapper_type; rg_exact_hostnames := normalized_hosts |} in
  inr {| wreg_registrations := wreg_registrations registry ++ [registration];
         wreg_by_host := foldr (fun host => insert host registration) (wreg_by_host registry) normalized_hosts |}.

(** Source: backend/src/fetchnow/resolution/registry.py:160-162 [empty] *)
Definition empty_registry : WrapperResolverRegistry := {| wreg_registrations := []; wreg_by_host := ∅ |}.

Fixpoint register_all (registry : WrapperResolverRegistry) (resolvers : list WrapperResolver)
    : exn + WrapperResolverRegistry :=
  match resolvers with
  | [] => inr registry
  | resolver :: resolvers => let? registry := register registry resolver in register_all registry resolvers
  end.

(** Source: backend/src/fetchnow/resolution/registry.py:102-158 [from_resolvers] *)
Definition from_resolvers (resolvers : list WrapperResolver) : exn + WrapperResolverRegistry :=
  register_all empty_registry resolvers.

(** Source: backend/src/fetchnow/resolution/registry.py:164-167 [find] *)
Definition find_wrapper (registry : WrapperResolverRegistry) (hostname : text)
    : option WrapperResolverRegistration :=
  wreg_by_host registry !! rstrip_dots (lower_text hostname).

(** Source: backend/src/fetchnow/resolution/registry.py:178-185 [match]
    The other registrations: identifiers are unique, so [is] compares them. *)
Fixpoint no_other_match (registration : WrapperResolverRegistration) (validated : SafeDocumentTarget)
    (others : list WrapperResolverRegistration) : exn + unit :=
  match others with
  | [] => inr tt
  | other :: others =>
      if String.eqb (rg_resolver_id other) (rg_resolver_id registration)
      then no_other_match registration validated others
      else
        let? also := wr_matches (rg_resolver other) validated in
        raise_if also WrapperRegistryError ;;?
        no_other_match registration validated others
  end.

(** Source: backend/src/fetchnow/resolution/registry.py:169-186 [match] *)
Definition match_wrapper (registry : WrapperResolverRegistry) (validated : SafeDocumentTarget)
    : exn + option WrapperResolverRegistration :=
  match find_wrapper registry (dt_hostname validated) with
  | None => inr None
  | Some registration =>
      let? owns := wr_matches (rg_resolver registration) validated in
      if negb owns then inr None else
      no_other_match registration validated (wreg_registrations registry) ;;?
      inr (Some registration)
  end.

(** ** wrapper_safety.py *)

(** Source: backend/src/fetchnow/resolution/wrapper_safety.py:21-22 [_WRAPPER_SCHEMES] *)
Definition _WRAPPER_SCHEMES : list text := [chars "https"].
Definition _WRAPPER_PORTS : list Z := [443].

(** [value.encode("utf-8")] of Latin-1 text. *)
Definition encode_text (l : text) : bytes := byte_of_Z <$> (N_of_ascii <$> l) ≫= encode_char.

(** Source: backend/src/fetchnow/resolution/wrapper_safety.py:25-39 [internal_url_fingerprint] *)
Definition internal_url_fingerprint (scheme hostname : text) (port : option Z) (path query : text) : string :=
  let effective_port := match port with Some port => port | None => default_port scheme end in
  let bar := ["|"%char] in
  to_hex (sha256 (encode_text
    (lower_text scheme ++ bar ++ rstrip_dots (lower_text hostname) ++ bar ++ chars (py_str effective_port) ++ bar ++
     (if is_nil path then ["/"%char] else path) ++ bar ++ query))).

Definition unsafe_target {A} (internal_reason : string) : exn + A :=
  inl (resolution_error UNSAFE_RESOLUTION_TARGET internal_reason).

(** Source: backend/src/fetchnow/resolution/wrapper_safety.py:132-142 [_map_parse_error] *)
Definition _map_parse_error {A} (code : URLErrorCode) : exn + A := unsafe_target (url_code_value code).

(** Source: backend/src/fetchnow/resolution/wrapper_safety.py:94-109 [validate]
    The same checks as in the service (service.py:135-149). *)
Definition named_destination (hostname : text) : exn + unit :=
  raise_if (is_reserved_hostname hostname) (resolution_error UNSAFE_RESOLUTION_TARGET "RESERVED_HOSTNAME") ;;?
  raise_if (looks_like_nonstandard_ipv4 hostname) (resolution_error UNSAFE_RESOLUTION_TARGET "NONSTANDARD_IPV4") ;;?
  raise_if (is_some (parse_ip_literal hostname)) (resolution_error UNSAFE_RESOLUTION_TARGET "IP_LITERAL").

(** ** service.py *)

(** [type(exc).__name__]; [unknown] is the name for code outside the model. *)
Definition exn_class_name (unknown : exn -> string) (e : exn) : string :=
  match e with
  | JobError _ _ _ => "JobError"
  | DownloadError _ _ _ => "DownloadError"
  | QuotaInvariantError _ => "QuotaInvariantError"
  | AnonymousIdentityRequiredError => "AnonymousIdentityRequiredError"
  | FreeQuotaExceededError _ => "FreeQuotaExceededError"
  | PremiumEntitlementInvariantError => "PremiumEntitlementInvariantError"
  | URLValidationError _ _ => "URLValidationError"
  | ProviderIdentityError _ => "ProviderIdentityError"
  | InspectionError _ _ => "InspectionError"
  | ResolutionError _ _ => "ResolutionError"
  | IntegrityError => "IntegrityError"
  | StaleDataError => "StaleDataError"
  | AssertionError => "AssertionError"
  | KeyError => "KeyError"
  | TypeError => "TypeError"
  | WrapperRegistryError => "WrapperRegistryError"
  | ValueError _ => "ValueError"
  | PaymentError _ | UnexpectedError => unknown e
  end.

(** [name.upper()[:64]] of a class name, which is an ASCII identifier. *)
Definition upper_char (c : ascii) : ascii :=
  if in_range 97 122 c then ascii_of_N (N_of_ascii c - 32) else c.
Definition class_reason (name : string) : string := of_chars (take 64 (upper_char <$> chars name)).

(** [s.endswith(suffix)] *)
Definition text_ends_with (suffix l : text) : bool := starts_with (reverse suffix) (reverse l).

(** Source: backend/src/fetchnow/resolution/service.py:389-414 [_map_url_error] *)
Definition _map_url_error (code : URLErrorCode) : exn :=
  match code with
  | UNSUPPORTED_PROVIDER => resolution_error RESOLVED_PROVIDER_UNSUPPORTED (url_code_value code)
  | _ => resolution_error UNSAFE_RESOLUTION_TARGET (url_code_value code)
  end.

(** [try: ... except URLValidationError as exc: self._map_url_error(exc)] *)
Definition mapping_url_errors {A} (r : exn + A) : exn + A :=
  match r with
  | inl (URLValidationError code _) => inl (_map_url_error code)
  | _ => r
  end.

(** Source: backend/src/fetchnow/resolution/service.py:58-66 [ScopedDocumentFetchPort]
    The hosts a document port is locked to. *)
Definition scoped_documents (allowed_hostnames : list text) : exn + list text :=
  let normalized := (fun h => rstrip_dots (lower_text (strip is_space h))) <$>
    List.filter (fun h => negb (is_nil h) && negb (is_nil (strip is_space h))) allowed_hostnames in
  if is_nil normalized then inl (resolution_error RESOLUTION_INTERNAL_ERROR "EMPTY_DOCUMENT_ALLOWLIST")
  else inr normalized.

(** Source: backend/src/fetchnow/resolution/service.py:221-234 [_resolve_wrapper_chain]
    What becomes of an exception of a resolver. *)
Definition resolver_failure (e : exn) : exn :=
  match e with
  | ResolutionError kind internal_reason => resolution_error kind internal_reason
  | URLValidationError code _ => _map_url_error code
  | _ => resolution_error WRAPPER_UNRESOLVED "RESOLVER_EXCEPTION"
  end.

(** The variables of the loop that follows a chain. *)
Record ChainState := {
  cs_current_raw : text;
  cs_chain : list ResolutionHop;
  cs_seen : list string
}.

(** How one turn of the loop ends. *)
Inductive Turn := Again (s : ChainState) | Found (result : ResolutionResult).

Section ResolutionService.
Context `{Idna} (settings : UrlSettings) (max_depth : Z).
Context (registry : ProviderRegistry) (wrappers : WrapperResolverRegistry).

(** The resolvers of host names of the validator and of the wrapper validator. *)
Context (resolver dns_resolver : text -> exn + list address).

(** The names of exception classes outside the model. *)
Context (unknown : exn -> string).

(** Source: backend/src/fetchnow/resolution/wrapper_safety.py:56-67 [parse_for_classification] *)
Definition parse_for_classification (raw_url : text) : exn + ParsedURL :=
  match parse_and_normalize raw_url (url_allowed_schemes settings) (url_allowed_ports settings)
          (url_max_length settings) with
  | inl (URLValidationError code _) => _map_parse_error code
  | r => r
  end.

(** Source: backend/src/fetchnow/resolution/wrapper_safety.py:111-118 [validate] *)
Definition resolve_public (hostname : text) : exn + unit :=
  match (let? addresses := dns_resolver hostname in assert_addresses_allowed addresses) with
  | inl (URLValidationError code _) => unsafe_target (url_code_value code)
  | r => r
  end.

(** Source: backend/src/fetchnow/resolution/wrapper_safety.py:69-130 [validate] *)
Definition validate_wrapper (raw_url : text) : exn + SafeDocumentTarget :=
  let? parsed :=
    match parse_and_normalize raw_url _WRAPPER_SCHEMES _WRAPPER_PORTS (url_max_length settings) with
    | inl (URLValidationError code _) => _map_parse_error code
    | r => r
    end in
  raise_if (negb (bool_decide (pu_scheme parsed = chars "https")))
    (resolution_error UNSAFE_RESOLUTION_TARGET "WRAPPER_NON_HTTPS") ;;?
  raise_if (is_some (pu_port parsed)) (resolution_error UNSAFE_RESOLUTION_TARGET "WRAPPER_NON_DEFAULT_PORT") ;;?
  named_destination (pu_hostname parsed) ;;?
  resolve_public (pu_hostname parsed) ;;?
  inr {| dt_scheme := pu_scheme parsed;
         dt_hostname := pu_hostname parsed;
         dt_port := pu_port parsed;
         dt_path := pu_path parsed;
         dt_query := pu_query parsed;
         dt_canonical_without_query := pu_canonical_without_query parsed;
         dt_request_url := pu_scheme parsed ++ chars "://" ++ pu_hostname parsed ++ pu_path parsed ++
           (if is_nil (pu_query parsed) then [] else "?"%char :: pu_query parsed) |}.

(** Source: backend/src/fetchnow/resolution/service.py:359-387 [_with_stable_provider_identity]
    The snapshot rewritten to a stable identity. *)
Definition rewrite_identity (validated : URLValidationResult) (stable : StableProviderIdentity)
    : exn + URLValidationResult :=
  let url := vr_url validated in
  let? canonical := build_public_canonical_url (nu_scheme url) (pi_hostname stable) (nu_port url)
                      (pi_canonical_path stable) in
  if bool_decide (nu_path url = pi_canonical_path stable) && bool_decide (nu_hostname url = pi_hostname stable)
     && bool_decide (nu_canonical url = canonical)
  then inr validated else
  inr {| vr_provider_id := vr_provider_id validated;
         vr_provider_display_name := vr_provider_display_name validated;
         vr_url := {| nu_original_scheme := nu_original_scheme url;
                      nu_scheme := nu_scheme url;
                      nu_hostname := pi_hostname stable;
                      nu_port := nu_port url;
                      nu_path := pi_canonical_path stable;
                      nu_query := nu_query url;
                      nu_provider_id := nu_provider_id url;
                      nu_canonical := canonical |};
         vr_head_fallback_statuses := vr_head_fallback_statuses validated |}.

(** Source: backend/src/fetchnow/resolution/service.py:328-387 [_with_stable_provider_identity] *)
Definition with_stable_provider_identity (validated : URLValidationResult) : exn + URLValidationResult :=
  if negb (bool_decide (vr_provider_id validated ∈ provider_value <$> [VK; RUTUBE; OK; DZEN])) then inr validated else
  match find_provider registry (nu_hostname (vr_url validated)) with
  | None => inr validated
  | Some provider =>
      match parse_stable_provider_identity (vr_provider_id validated) (nu_hostname (vr_url validated))
              (nu_path (vr_url validated)) (pd_exact_hostnames provider) with
      | inl (ProviderIdentityError _) => inr validated
      | inl e => inl e
      | inr stable => rewrite_identity validated stable
      end
  end.

(** Source: backend/src/fetchnow/resolution/service.py:153-157 [_resolve_inner]
    Also 285-289: a provider's URL is validated and given its stable form. *)
Definition validate_provider (raw_url : text) : exn + URLValidationResult :=
  let? validated := mapping_url_errors (validate settings registry resolver raw_url) in
  with_stable_provider_identity validated.

Definition result_with (raw_url : text) (validated : URLValidationResult) (wrapper_type : option string)
    (provenance : ResolutionProvenance) (chain : list ResolutionHop) : ResolutionResult :=
  {| rr_submitted_url := raw_url;
     rr_validated := validated;
     rr_provider_id := vr_provider_id validated;
     rr_provider_display_name := vr_provider_display_name validated;
     rr_canonical_provider_url := nu_canonical (vr_url validated);
     rr_wrapper_type := wrapper_type;
     rr_provenance := provenance;
     rr_resolution_chain := chain |}.

(** Source: backend/src/fetchnow/resolution/service.py:203-216 [_resolve_wrapper_chain]
    The registration that owns a wrapper's URL. *)
Definition owning_registration (wrapper : SafeDocumentTarget) : exn + WrapperResolverRegistration :=
  let? registration := match_wrapper wrappers wrapper in
  match registration with
  | Some registration => inr registration
  | None =>
      raise_if (is_some (find_wrapper wrappers (dt_hostname wrapper)))
        (resolution_error WRAPPER_UNSUPPORTED "WRAPPER_SHAPE_MISMATCH") ;;?
      inl (resolution_error RESOLVED_PROVIDER_UNSUPPORTED "")
  end.

(** Source: backend/src/fetchnow/resolution/service.py:220-238 [_resolve_wrapper_chain]
    The resolver's answer: the candidate, trimmed, and the outcome. *)
Definition ask_resolver (registration : WrapperResolverRegistration) (wrapper : SafeDocumentTarget)
    : exn + (text * WrapperResolveOutcome) :=
  let? documents := scoped_documents (rg_exact_hostnames registration) in
  match wr_resolve (rg_resolver registration) wrapper documents with
  | inl e => inl (resolver_failure e)
  | inr outcome =>
      let candidate := strip is_space (wo_candidate_url outcome) in
      raise_if (is_nil candidate) (resolution_error WRAPPER_UNRESOLVED "") ;;?
      inr (candidate, outcome)
  end.

(** Source: backend/src/fetchnow/resolution/service.py:240-256 [_resolve_wrapper_chain]
    A candidate that may be followed. *)
Definition parse_candidate (candidate : text) : exn + ParsedURL :=
  let? parsed := parse_for_classification candidate in
  raise_if (negb (bool_decide (pu_scheme parsed = chars "https")))
    (resolution_error UNSAFE_RESOLUTION_TARGET "WRAPPER_HTTP_CANDIDATE") ;;?
  raise_if (existsb (fun suffix => text_ends_with suffix (lower_text (pu_path parsed)))
              [chars ".m3u8"; chars ".mpd"])
    (resolution_error RESOLVED_PROVIDER_UNSUPPORTED "MEDIA_MANIFEST_URL") ;;?
  inr parsed.

(** Source: backend/src/fetchnow/resolution/service.py:260-282 [_resolve_wrapper_chain]
    The audit record of the hop. *)
Definition audit_hop (registration : WrapperResolverRegistration) (wrapper : SafeDocumentTarget)
    (outcome : WrapperResolveOutcome) (candidate : ParsedURL) : exn + ResolutionHop :=
  match
    (let? metadata := freeze_resolution_metadata (wo_metadata outcome) in
     let? resolver_id := require_audit_token (rg_resolver_id registration) "resolver_id" in
     let? wrapper_type := require_audit_token (rg_wrapper_type registration) "wrapper_type" in
     let? strategy := require_audit_token (wo_strategy outcome) "strategy" in
     inr (metadata, resolver_id, wrapper_type, strategy))
  with
  | inl (ValueError _) => inl (resolution_error RESOLUTION_INTERNAL_ERROR "UNSAFE_AUDIT_TOKEN")
  | inl e => inl e
  | inr (metadata, resolver_id, wrapper_type, strategy) =>
      make_hop {| rh_resolver_id := resolver_id; rh_wrapper_type := wrapper_type;
                  rh_source_canonical := dt_canonical_without_query wrapper;
                  rh_target_canonical := pu_canonical_without_query candidate;
                  rh_strategy := strategy; rh_metadata := metadata |}
  end.

(** The hop with another target, as lines 293-300 rebuild it. *)
Definition retarget (hop : ResolutionHop) (target_canonical : text) : ResolutionHop :=
  {| rh_resolver_id := rh_resolver_id hop; rh_wrapper_type := rh_wrapper_type hop;
     rh_source_canonical := rh_source_canonical hop; rh_target_canonical := target_canonical;
     rh_strategy := rh_strategy hop; rh_metadata := rh_metadata hop |}.

(** Source: backend/src/fetchnow/resolution/service.py:182-326 [_resolve_wrapper_chain]
    One turn of the loop. *)
Definition chain_turn (raw_url : text) (s : ChainState) : exn + Turn :=
  raise_if (max_depth <=? Z.of_nat (length (cs_chain s))) (resolution_error RESOLUTION_LIMIT_EXCEEDED "") ;;?
  let? wrapper := mapping_url_errors (validate_wrapper (cs_current_raw s)) in
  let fingerprint := internal_url_fingerprint (dt_scheme wrapper) (dt_hostname wrapper) (dt_port wrapper)
                       (dt_path wrapper) (dt_query wrapper) in
  raise_if (bool_decide (fingerprint ∈ cs_seen s)) (resolution_error RESOLUTION_LOOP "") ;;?
  let seen := cs_seen s ++ [fingerprint] in
  let? registration := owning_registration wrapper in
  let? (candidate, outcome) := ask_resolver registration wrapper in
  let? parsed := parse_candidate candidate in
  let next_provider := find_provider registry (pu_hostname parsed) in
  let? hop := audit_hop registration wrapper outcome parsed in
  match next_provider with
  | Some _ =>
      let? validated := validate_provider candidate in
      let? hop := make_hop (retarget hop (nu_canonical (vr_url validated))) in
      inr (Found (result_with raw_url validated (Some (rg_wrapper_type registration)) WRAPPER_RESOLVED
                    (cs_chain s ++ [hop])))
  | None =>
      match find_wrapper wrappers (pu_hostname parsed) with
      | None => inl (resolution_error RESOLVED_PROVIDER_UNSUPPORTED "")
      | Some _ =>
          let cand_fp := internal_url_fingerprint (pu_scheme parsed) (pu_hostname parsed) (pu_port parsed)
                           (pu_path parsed) (pu_query parsed) in
          raise_if (bool_decide (cand_fp ∈ seen)) (resolution_error RESOLUTION_LOOP "") ;;?
          inr (Again {| cs_current_raw := candidate; cs_chain := cs_chain s ++ [hop]; cs_seen := seen |})
      end
  end.

(** The loop; [None] is that the fuel ran out. *)
Fixpoint chain_loop (fuel : nat) (raw_url : text) (s : ChainState) : option (exn + ResolutionResult) :=
  match fuel with
  | O => None
  | S fuel =>
      match chain_turn raw_url s with
      | inl e => Some (inl e)
      | inr (Found result) => Some (inr result)
      | inr (Again s) => chain_loop fuel raw_url s
      end
  end.

(** Source: backend/src/fetchnow/resolution/service.py:176-180 [_resolve_wrapper_chain] *)
Definition chain_start (raw_url : text) : ChainState :=
  {| cs_current_raw := raw_url; cs_chain := []; cs_seen := [] |}.

(** Source: backend/src/fetchnow/resolution/service.py:175-326 [_resolve_wrapper_chain] *)
Definition _resolve_wrapper_chain (fuel : nat) (raw_url : text) : option (exn + ResolutionResult) :=
  chain_loop fuel raw_url (chain_start raw_url).

(** Source: backend/src/fetchnow/resolution/service.py:130-173 [_resolve_inner] *)
Definition _resolve_inner (fuel : nat) (raw_url : text) : option (exn + ResolutionResult) :=
  match (let? parsed := parse_for_classification raw_url in
         named_destination (pu_hostname parsed) ;;?
         inr parsed) with
  | inl e => Some (inl e)
  | inr parsed =>
      match find_provider registry (pu_hostname parsed) with
      | Some _ =>
          Some (let? validated := validate_provider raw_url in
                inr (result_with raw_url validated None DIRECT_PROVIDER []))
      | None =>
          if is_none (find_wrapper wrappers (pu_hostname parsed))
          then Some (inl (resolution_error WRAPPER_UNSUPPORTED ""))
          else _resolve_wrapper_chain fuel raw_url
      end
  end.

(** Source: backend/src/fetchnow/resolution/service.py:113-128 [resolve]
    What becomes of an exception. *)
Definition resolution_failure (e : exn) : exn :=
  match e with
  | ResolutionError _ _ => e
  | WrapperRegistryError => resolution_error RESOLUTION_INTERNAL_ERROR "WRAPPER_REGISTRY"
  | _ => resolution_error RESOLUTION_INTERNAL_ERROR (class_reason (exn_class_name unknown e))
  end.

(** Source: backend/src/fetchnow/resolution/service.py:113-128 [resolve] *)
Definition resolve (fuel : nat) (raw_url : text) : option (exn + ResolutionResult) :=
  match _resolve_inner fuel raw_url with
  | Some (inl e) => Some (inl (resolution_failure e))
  | r => r
  end.
End ResolutionService.
