(* ===== verification/ResolutionTheorems.v ===== *)
(** What wrapper resolution guarantees, whatever the registered resolvers
    answer: it ends ([resolution_terminates]), its result is a URL of an enabled
    provider that the validator accepted ([resolved_urls_are_safe]), the audit
    chain leads from the submitted wrapper to that URL ([chain_leads_to_result]),
    and its errors are typed and carry no text of a resolver
    ([resolution_errors_are_typed]). The registry gives a host to one resolver
    ([registry_owns_hosts_once]). *)

From S2P Require Export Resolution IdentityTheorems.

Local Open Scope string_scope.
Local Open Scope list_scope.
Local Open Scope Z_scope.

(** The conditions that did not raise, as equations and negated propositions. *)
Ltac passed :=
  repeat match goal with
  | H : raise_if _ _ = inr _ |- _ => apply raise_if_inr in H
  | H : bool_decide _ = false |- _ => apply bool_decide_eq_false in H
  | H : negb _ = false |- _ => apply negb_false_iff in H
  | H : bool_decide _ = true |- _ => apply bool_decide_eq_true in H
  | H : String.eqb _ _ = false |- _ => apply String.eqb_neq in H
  end.

(** ** The registry *)

(** The index of hosts agrees with the registrations. *)
Record registry_ok (registry : WrapperResolverRegistry) : Prop := {
  ro_ids : NoDup (rg_resolver_id <$> wreg_registrations registry);
  ro_types : NoDup (rg_wrapper_type <$> wreg_registrations registry);
  ro_index : forall host registration,
    wreg_by_host registry !! host = Some registration <->
    registration ∈ wreg_registrations registry /\ host ∈ rg_exact_hostnames registration;
  ro_snapshot : forall registration, registration ∈ wreg_registrations registry ->
    rg_resolver_id registration <> "" /\ rg_wrapper_type registration <> "" /\
    rg_resolver_id registration = wr_resolver_id (rg_resolver registration) /\
    rg_wrapper_type registration = wr_wrapper_type (rg_resolver registration) /\
    rg_exact_hostnames registration <> [] /\ NoDup (rg_exact_hostnames registration)
}.

Lemma normalize_hosts_inv hosts by_host acc hosts' :
  normalize_hosts hosts by_host acc = inr hosts' ->
  NoDup acc -> (forall h, h ∈ acc -> by_host !! h = None) ->
  NoDup hosts' /\ (forall h, h ∈ hosts' -> by_host !! h = None) /\
  (length hosts' = length acc + length hosts)%nat.
Proof.
  revert acc. induction hosts as [|raw hosts IH]; intros acc E Hd Hf; cbn in E.
  { injection E as <-. cbn. split_and!; [done|done|lia]. }
  do 3 ok_step E. passed. apply IH in E.
  - destruct E as (? & ? & ->). rewrite length_app. cbn. split_and!; [done|done|lia].
  - apply NoDup_app. split_and!; [done|set_solver|apply NoDup_singleton].
  - intros h [Hh| ->%list_elem_of_singleton]%elem_of_app; [by apply Hf|]. by destruct (by_host !! v).
Qed.

Lemma lookup_insert_all {A} (hosts : list text) (r : A) (m : gmap text A) host :
  foldr (fun h => insert h r) m hosts !! host = if bool_decide (host ∈ hosts) then Some r else m !! host.
Proof.
  induction hosts as [|h hosts IH]; cbn; [done|]. destruct (decide (host = h)) as [->|Hne].
  - rewrite lookup_insert_eq, bool_decide_eq_true_2 by set_solver. done.
  - rewrite lookup_insert_ne, IH by done. repeat case_bool_decide; set_solver.
Qed.

Lemma register_ok registry resolver registry' :
  registry_ok registry -> register registry resolver = inr registry' -> registry_ok registry'.
Proof.
  intros [Hids Htypes Hindex Hsnap] E. unfold register in E. do 6 ok_step E.
  passed. injection E as <-. apply normalize_hosts_inv in E5 as (Hnd & Hfree & Hlen); [|constructor|set_solver].
  set (fresh := {| rg_resolver := resolver; rg_exact_hostnames := v4 |}).
  split; cbn [wreg_registrations wreg_by_host].
  - rewrite fmap_app. apply NoDup_app. split_and!; [done|set_solver|apply NoDup_singleton].
  - rewrite fmap_app. apply NoDup_app. split_and!; [done|set_solver|apply NoDup_singleton].
  - intros host r. rewrite lookup_insert_all, elem_of_app, list_elem_of_singleton. case_bool_decide as Hin.
    + split; [intros [= <-]; split; [by right|done]|]. intros [[Hr | ->] Hh]; [|done].
      specialize (Hfree _ Hin). by rewrite (proj2 (Hindex host r)) in Hfree.
    + rewrite Hindex. split; [tauto|]. intros [[Hr | ->] Hh]; [done|]. by destruct Hin.
  - intros r [Hr| ->%list_elem_of_singleton]%elem_of_app; [by apply Hsnap|]. cbn.
    split_and!; try done. destruct v4; [|done]. by destruct (wr_exact_hostnames resolver).
Qed.

Lemma register_resolver registry resolver registry' :
  register registry resolver = inr registry' ->
  rg_resolver <$> wreg_registrations registry' = (rg_resolver <$> wreg_registrations registry) ++ [resolver].
Proof. intros E. unfold register in E. do 6 ok_step E. injection E as <-. cbn. by rewrite fmap_app. Qed.

Lemma register_all_ok resolvers registry registry' :
  registry_ok registry -> register_all registry resolvers = inr registry' ->
  registry_ok registry' /\
  rg_resolver <$> wreg_registrations registry' = (rg_resolver <$> wreg_registrations registry) ++ resolvers.
Proof.
  revert registry. induction resolvers as [|resolver resolvers IH]; intros registry Hok E; cbn in E.
  { injection E as <-. by rewrite app_nil_r. }
  ok_step E. apply IH in E as [? ->]; [|by eapply register_ok]. split; [done|].
  by rewrite (register_resolver _ _ _ E0), <- app_assoc.
Qed.

Lemma from_resolvers_ok resolvers registry :
  from_resolvers resolvers = inr registry ->
  registry_ok registry /\ rg_resolver <$> wreg_registrations registry = resolvers.
Proof.
  intros E. apply register_all_ok in E; [done|]. split; cbn; [constructor|constructor| |set_solver].
  intros host r. rewrite lookup_empty. set_solver.
Qed.

(** A registry that was built has a registration for every resolver, in
    order, with identifiers and wrapper types that do not repeat, and a host
    belongs to at most one of them: [find] gives a registration exactly when it
    lists the host, so no host can be claimed twice and none is lost. *)
Theorem registry_owns_hosts_once resolvers registry :
  from_resolvers resolvers = inr registry ->
  rg_resolver <$> wreg_registrations registry = resolvers /\
  NoDup (rg_resolver_id <$> wreg_registrations registry) /\
  NoDup (rg_wrapper_type <$> wreg_registrations registry) /\
  (forall host registration,
    find_wrapper registry host = Some registration <->
    registration ∈ wreg_registrations registry /\
    rstrip_dots (lower_text host) ∈ rg_exact_hostnames registration) /\
  (forall host r1 r2,
    r1 ∈ wreg_registrations registry -> r2 ∈ wreg_registrations registry ->
    host ∈ rg_exact_hostnames r1 -> host ∈ rg_exact_hostnames r2 -> r1 = r2).
Proof.
  intros [[Hids Htypes Hindex Hsnap] Hall]%from_resolvers_ok. split_and!; try done.
  - intros host registration. apply Hindex.
  - intros host r1 r2 H1 H2 Hh1 Hh2.
    assert (E1 : wreg_by_host registry !! host = Some r1) by by apply Hindex.
    assert (E2 : wreg_by_host registry !! host = Some r2) by by apply Hindex. by simplify_eq.
Qed.

(** ** Metadata *)

(** What freezing promises of the metadata of a hop. *)
Definition meta_size (item : string * MetaValue) : Z :=
  strlen item.1 + match item.2 with MetaInt n => strlen (py_str n) | MetaBool _ => 5 end.

Record metadata_safe (items : list (string * MetaValue)) : Prop := {
  ms_keys : NoDup items.*1;
  ms_tokens : Forall (fun item => audit_token item.1 = true /\ item.1 ∉ _FORBIDDEN_METADATA_KEYS) items;
  ms_count : (length items <= _MAX_METADATA_KEYS)%nat;
  ms_size : foldr (fun item n => meta_size item + n) 0 items <= _MAX_METADATA_SERIALIZED
}.

Lemma total_app (items items' : list (string * MetaValue)) :
  foldr (fun item n => meta_size item + n) 0 (items ++ items') =
  foldr (fun item n => meta_size item + n) 0 items + foldr (fun item n => meta_size item + n) 0 items'.
Proof. induction items; cbn; lia. Qed.

Lemma total_perm (items items' : list (string * MetaValue)) :
  items ≡ₚ items' ->
  foldr (fun item n => meta_size item + n) 0 items = foldr (fun item n => meta_size item + n) 0 items'.
Proof. induction 1; cbn; lia. Qed.

Lemma freeze_value_size key value v size : freeze_value key value = inr (v, size) -> size = meta_size (key, v).
Proof. by destruct value; intros [= <- <-]. Qed.

Lemma freeze_loop_inv raw items serialized items' :
  freeze_loop raw items serialized = inr items' ->
  NoDup items.*1 ->
  Forall (fun item => audit_token item.1 = true /\ item.1 ∉ _FORBIDDEN_METADATA_KEYS) items ->
  serialized = foldr (fun item n => meta_size item + n) 0 items -> serialized <= _MAX_METADATA_SERIALIZED ->
  NoDup items'.*1 /\
  Forall (fun item => audit_token item.1 = true /\ item.1 ∉ _FORBIDDEN_METADATA_KEYS) items' /\
  (length items' = length items + length raw)%nat /\
  foldr (fun item n => meta_size item + n) 0 items' <= _MAX_METADATA_SERIALIZED.
Proof.
  revert items serialized. induction raw as [|[key value] raw IH]; intros items serialized E Hn Hf Hs Hle; cbn in E.
  { injection E as <-. cbn. split_and!; [done|done|lia|lia]. }
  do 4 ok_step E. destruct v2 as [coerced size]. do 2 ok_step E. passed. apply freeze_value_size in E3. subst size.
  apply Z.ltb_ge in E4. apply IH in E; [| | |by rewrite total_app, <- Hs; cbn; lia|done].
  - destruct E as (? & ? & -> & ?). rewrite length_app. cbn. split_and!; [done|done|lia|done].
  - rewrite fmap_app. apply NoDup_app. split_and!; [done|set_solver|apply NoDup_singleton].
  - apply Forall_app. split; [done|]. by apply Forall_singleton.
Qed.

Lemma freeze_safe raw items : freeze_resolution_metadata raw = inr items -> metadata_safe items.
Proof.
  destruct raw as [raw|]; unfold freeze_resolution_metadata.
  - intros E. do 2 ok_step E. passed. injection E as <-. apply Nat.ltb_ge in E0.
    apply freeze_loop_inv in E1 as (Hn & Hf & Hl & Hs); [|constructor|constructor|done|done].
    pose proof (sort_by_perm (fun pair : string * MetaValue => [KStr pair.1]) v0) as Hp. split.
    + by rewrite Hp.
    + by rewrite Hp.
    + rewrite Hp, Hl. done.
    + by rewrite (total_perm _ _ Hp).
  - intros [= <-]. split; [constructor|constructor|cbn; lia|done].
Qed.

(** ** Hops *)

(** An audit record that may be logged. *)
Record hop_safe (hop : ResolutionHop) : Prop := {
  hs_resolver : audit_token (rh_resolver_id hop) = true;
  hs_type : audit_token (rh_wrapper_type hop) = true;
  hs_strategy : audit_token (rh_strategy hop) = true;
  hs_metadata : metadata_safe (rh_metadata hop)
}.

Lemma require_audit_token_inr value field value' :
  require_audit_token value field = inr value' <-> value' = value /\ audit_token value = true.
Proof.
  unfold require_audit_token. destruct (audit_token value); split; [by intros [= <-]|by intros [-> _]|done|by intros []].
Qed.

Lemma make_hop_inr hop hop' : make_hop hop = inr hop' -> hop' = hop.
Proof. unfold make_hop. intros E. do 3 ok_step E. by simplify_eq. Qed.

Lemma audit_hop_safe registration wrapper outcome candidate hop :
  audit_hop registration wrapper outcome candidate = inr hop ->
  hop_safe hop /\ rh_resolver_id hop = rg_resolver_id registration /\
  rh_wrapper_type hop = rg_wrapper_type registration /\
  rh_source_canonical hop = dt_canonical_without_query wrapper /\
  rh_target_canonical hop = pu_canonical_without_query candidate.
Proof.
  unfold audit_hop. destruct (let? metadata := _ in _) as [e|[[[metadata rid] wt] strategy]] eqn:E; [by destruct e|].
  intros ->%make_hop_inr. do 4 ok_step E. apply freeze_safe in E0.
  apply require_audit_token_inr in E1 as [-> ?], E2 as [-> ?], E3 as [-> ?]. injection E as <- <- <- <-.
  by split_and!.
Qed.

Lemma retarget_safe hop target : hop_safe hop -> hop_safe (retarget hop target).
Proof. intros [? ? ? ?]. by split. Qed.

(** ** The loop ends *)

Section Loop.
Context `{Idna} (settings : UrlSettings) (max_depth : Z).
Context (registry : ProviderRegistry) (wrappers : WrapperResolverRegistry).
Context (resolver dns_resolver : text -> exn + list address) (unknown : exn -> string).
Abbreviation turn := (chain_turn settings max_depth registry wrappers resolver dns_resolver).
Abbreviation loop := (chain_loop settings max_depth registry wrappers resolver dns_resolver).

(** What a turn did that goes on. *)
Lemma turn_again raw_url s s' :
  turn raw_url s = inr (Again s') ->
  exists wrapper registration candidate hop,
    Z.of_nat (length (cs_chain s)) < max_depth /\
    validate_wrapper settings dns_resolver (cs_current_raw s) = inr wrapper /\
    owning_registration wrappers wrapper = inr registration /\
    parse_candidate settings (cs_current_raw s') = inr candidate /\
    hop_safe hop /\ rh_resolver_id hop = rg_resolver_id registration /\
    rh_wrapper_type hop = rg_wrapper_type registration /\
    rh_source_canonical hop = dt_canonical_without_query wrapper /\
    rh_target_canonical hop = pu_canonical_without_query candidate /\
    cs_chain s' = cs_chain s ++ [hop].
Proof.
  unfold chain_turn. intros E. do 4 ok_step E. ok_step E. destruct v3 as [candidate outcome]. do 2 ok_step E.
  passed. apply Z.leb_gt in E0. rename v0 into wrapper, v2 into registration, v3 into parsed, v4 into hop.
  destruct (find_provider _ _); [by do 2 ok_step E|]. destruct (find_wrapper _ _); [|done]. ok_step E.
  injection E as <-. apply audit_hop_safe in E6 as (? & ? & ? & ? & ?).
  exists wrapper, registration, parsed, hop. cbn. split_and!; try done.
  destruct (validate_wrapper _ _ _) as [e|] eqn:Ev; [by destruct e|by simplify_eq/=].
Qed.

(** What a turn did that found the provider. *)
Lemma turn_found raw_url s result :
  turn raw_url s = inr (Found result) ->
  exists wrapper registration candidate hop validated,
    Z.of_nat (length (cs_chain s)) < max_depth /\
    validate_wrapper settings dns_resolver (cs_current_raw s) = inr wrapper /\
    owning_registration wrappers wrapper = inr registration /\
    validate_provider settings registry resolver candidate = inr validated /\
    hop_safe hop /\ rh_resolver_id hop = rg_resolver_id registration /\
    rh_wrapper_type hop = rg_wrapper_type registration /\
    rh_source_canonical hop = dt_canonical_without_query wrapper /\
    rh_target_canonical hop = nu_canonical (vr_url validated) /\
    result = result_with raw_url validated (Some (rg_wrapper_type registration)) WRAPPER_RESOLVED
               (cs_chain s ++ [hop]).
Proof.
  unfold chain_turn. intros E. do 4 ok_step E. ok_step E. destruct v3 as [candidate outcome]. do 2 ok_step E.
  passed. apply Z.leb_gt in E0. rename v0 into wrapper, v2 into registration, v3 into parsed, v4 into hop.
  destruct (find_provider _ _); [|by destruct (find_wrapper _ _); [ok_step E|]].
  do 2 ok_step E. rename v0 into validated. apply make_hop_inr in E8 as ->. injection E as <-.
  apply audit_hop_safe in E6 as (Hs & ? & ? & ? & ?).
  exists wrapper, registration, candidate, (retarget hop (nu_canonical (vr_url validated))), validated.
  split_and!; try done; [|by apply retarget_safe].
  destruct (validate_wrapper _ _ _) as [e|] eqn:Ev; [by destruct e|by simplify_eq/=].
Qed.

(** A turn that goes on leaves less of the depth. *)
Lemma turn_progress raw_url s s' :
  turn raw_url s = inr (Again s') ->
  length (cs_chain s') = S (length (cs_chain s)) /\ (length (cs_chain s') <= Z.to_nat max_depth)%nat.
Proof.
  intros E. apply turn_again in E as (? & ? & ? & ? & Hd & _ & _ & _ & _ & _ & _ & _ & _ & ->).
  rewrite length_app. cbn. lia.
Qed.

Lemma loop_total fuel raw_url s :
  (Z.to_nat max_depth - length (cs_chain s) < fuel)%nat -> exists r, loop fuel raw_url s = Some r.
Proof.
  revert s. induction fuel as [|fuel IH]; intros s Hf; [lia|]. cbn.
  destruct (turn raw_url s) as [e|[s'|result]] eqn:E; [by eexists| |by eexists].
  apply IH. apply turn_progress in E. lia.
Qed.

Lemma loop_more fuel fuel' raw_url s r : (fuel <= fuel')%nat -> loop fuel raw_url s = Some r -> loop fuel' raw_url s = Some r.
Proof.
  revert fuel' s. induction fuel as [|fuel IH]; intros fuel' s Hle; [done|].
  destruct fuel' as [|fuel']; [lia|]. cbn. destruct (turn raw_url s) as [e|[s'|result]]; [done| |done].
  apply IH. lia.
Qed.
End Loop.

(** C18: Resolution ends. However the resolvers answer, and also when they send
    the service round in circles, [S max_depth] turns of the loop are enough:
    with that much fuel or more the service gives a result or an error, and
    always the same one. *)
Theorem resolution_terminates `{Idna} settings max_depth registry wrappers resolver dns_resolver unknown raw_url :
  exists r, forall fuel, (Z.to_nat max_depth < fuel)%nat ->
    resolve settings max_depth registry wrappers resolver dns_resolver unknown fuel raw_url = Some r.
Proof.
  assert (Hinner : exists r, forall fuel, (Z.to_nat max_depth < fuel)%nat ->
    _resolve_inner settings max_depth registry wrappers resolver dns_resolver fuel raw_url = Some r).
  { unfold _resolve_inner. destruct (let? parsed := _ in _) as [e|parsed]; [by eexists|].
    destruct (find_provider _ _); [by eexists|]. destruct (is_none _); [by eexists|].
    destruct (loop_total settings max_depth registry wrappers resolver dns_resolver
                (S (Z.to_nat max_depth)) raw_url (chain_start raw_url)) as [r Hr]; [cbn; lia|].
    exists r. intros fuel Hf. by eapply loop_more, Hr. }
  destruct Hinner as [r Hr]. exists (match r with inl e => inl (resolution_failure unknown e) | r => r end).
  intros fuel Hf. unfold resolve. rewrite Hr by done. by destruct r.
Qed.

(** ** The chain *)

(** What a URL parses into does not depend on the policy that admits it. *)
Lemma parse_policy_irrelevant `{Idna} raw schemes ports limit u schemes' ports' limit' u' :
  parse_and_normalize raw schemes ports limit = inr u ->
  parse_and_normalize raw schemes' ports' limit' = inr u' -> u = u'.
Proof.
  assert (Hport : forall scheme port ports ports' p p',
    _normalize_port scheme port ports = inr p -> _normalize_port scheme port ports' = inr p' -> p = p').
  { clear. intros scheme [port|] ports ports' p p'; cbn.
    - destruct (negb _); [done|]. destruct (negb (bool_decide (port ∈ ports'))); [done|].
      by destruct (port =? _); intros [= <-] [= <-].
    - destruct (bool_decide _); [|done]. destruct (bool_decide (_ ∈ ports')); [|done]. by intros [= <-] [= <-]. }
  unfold parse_and_normalize. destruct (is_nil (strip is_space raw)); [done|].
  destruct (limit <? _), (limit' <? _); try done. destruct (starts_with _ _); [done|].
  intros E E'. ok_step E. rewrite E0 in E'. cbn [err_bind] in E'. rename v into parsed.
  destruct (is_nil (pr_scheme parsed) || is_nil (pr_netloc parsed)); [by destruct (_ && _) in E|].
  destruct (negb (bool_decide (_ ∈ schemes))), (negb (bool_decide (_ ∈ schemes'))); try done.
  destruct (has_userinfo parsed); [done|]. ok_step E. rewrite E1 in E'. cbn [err_bind] in E'.
  destruct (_ && _); [done|]. ok_step E. rewrite E2 in E'. cbn [err_bind] in E'.
  ok_step E. rewrite E3 in E'. cbn [err_bind] in E'. ok_step E. ok_step E'.
  destruct (existsb is_control _ || _); [done|]. rewrite (Hport _ _ _ _ _ _ E4 E'0) in E. congruence.
Qed.

(** Each hop starts where the one before it ended. *)
Fixpoint leads (from : text) (chain : list ResolutionHop) (to : text) : Prop :=
  match chain with
  | [] => from = to
  | hop :: chain => rh_source_canonical hop = from /\ leads (rh_target_canonical hop) chain to
  end.

Lemma leads_snoc from chain hop to :
  leads from (chain ++ [hop]) to <-> leads from chain (rh_source_canonical hop) /\ rh_target_canonical hop = to.
Proof. revert from. induction chain as [|h chain IH]; intros from; cbn; [|rewrite IH]; split; intuition congruence. Qed.

Section Chain.
Context `{Idna} (settings : UrlSettings) (max_depth : Z).
Context (registry : ProviderRegistry) (wrappers : WrapperResolverRegistry).
Context (resolver dns_resolver : text -> exn + list address).
Context (Hwrappers : registry_ok wrappers).

(** The hop names a registered resolver. *)
Definition hop_known (hop : ResolutionHop) : Prop :=
  exists registration, registration ∈ wreg_registrations wrappers /\
    rh_resolver_id hop = rg_resolver_id registration /\ rh_wrapper_type hop = rg_wrapper_type registration.

(** What is known of the chain at the top of the loop. *)
Record chain_inv (raw_url : text) (s : ChainState) : Prop := {
  ci_safe : Forall hop_safe (cs_chain s);
  ci_known : Forall hop_known (cs_chain s);
  ci_leads : (cs_chain s = [] /\ cs_current_raw s = raw_url) \/
    exists wrapper candidate,
      validate_wrapper settings dns_resolver raw_url = inr wrapper /\
      parse_candidate settings (cs_current_raw s) = inr candidate /\
      leads (dt_canonical_without_query wrapper) (cs_chain s) (pu_canonical_without_query candidate)
}.

Lemma owning_known wrapper registration :
  owning_registration wrappers wrapper = inr registration -> registration ∈ wreg_registrations wrappers.
Proof.
  unfold owning_registration. intros E. ok_step E. destruct v as [r|]; [|by ok_step E]. injection E as ->.
  unfold match_wrapper in E0. destruct (find_wrapper _ _) as [r|] eqn:Ef; [|done].
  ok_step E0. destruct (negb v); [done|]. ok_step E0. injection E0 as ->. by apply (ro_index _ Hwrappers) in Ef as [? _].
Qed.

Lemma candidate_canonical raw wrapper candidate :
  validate_wrapper settings dns_resolver raw = inr wrapper -> parse_candidate settings raw = inr candidate ->
  dt_canonical_without_query wrapper = pu_canonical_without_query candidate.
Proof.
  unfold validate_wrapper, parse_candidate, parse_for_classification. intros Ew Ec. ok_step Ew. ok_step Ec.
  destruct (parse_and_normalize raw _WRAPPER_SCHEMES _ _) as [e|u] eqn:E1; [by destruct e|].
  destruct (parse_and_normalize raw _ (url_allowed_ports settings) _) as [e|u'] eqn:E2; [by destruct e|].
  do 4 ok_step Ew. do 2 ok_step Ec. simplify_eq. cbn. by rewrite (parse_policy_irrelevant _ _ _ _ _ _ _ _ _ E1 E2).
Qed.

(** Where the next hop starts from. *)
Lemma chain_front raw_url s wrapper :
  chain_inv raw_url s -> validate_wrapper settings dns_resolver (cs_current_raw s) = inr wrapper ->
  exists wrapper0, validate_wrapper settings dns_resolver raw_url = inr wrapper0 /\
    leads (dt_canonical_without_query wrapper0) (cs_chain s) (dt_canonical_without_query wrapper).
Proof.
  intros [_ _ [[Hc Hr]|(w0 & c & Hw & Hc & Hl)]] Ew.
  - rewrite Hc. exists wrapper. by rewrite <- Hr.
  - exists w0. by rewrite (candidate_canonical _ _ _ Ew Hc).
Qed.

Lemma turn_again_inv raw_url s s' :
  chain_inv raw_url s ->
  chain_turn settings max_depth registry wrappers resolver dns_resolver raw_url s = inr (Again s') ->
  chain_inv raw_url s'.
Proof.
  intros Hinv (w & r & c & hop & _ & Ew & Eo & Ec & Hs & Hid & Ht & Hsrc & Htgt & Hchain)%turn_again.
  destruct (chain_front _ _ _ Hinv Ew) as (w0 & Hw0 & Hl). split; rewrite Hchain.
  - apply Forall_app. split; [apply Hinv|by apply Forall_singleton].
  - apply Forall_app. split; [apply Hinv|]. apply Forall_singleton. exists r. by split; [eapply owning_known|].
  - right. exists w0, c. split_and!; [done|done|]. apply leads_snoc. by rewrite Hsrc, Htgt.
Qed.

(** What is known of the result of a chain. *)
Record chain_result (raw_url : text) (result : ResolutionResult) : Prop := {
  cr_safe : Forall hop_safe (rr_resolution_chain result);
  cr_known : Forall hop_known (rr_resolution_chain result);
  cr_depth : Z.of_nat (length (rr_resolution_chain result)) <= max_depth;
  cr_leads : exists wrapper,
    validate_wrapper settings dns_resolver raw_url = inr wrapper /\
    leads (dt_canonical_without_query wrapper) (rr_resolution_chain result) (rr_canonical_provider_url result);
  cr_type : rh_wrapper_type <$> last (rr_resolution_chain result) = rr_wrapper_type result;
  cr_provenance : rr_provenance result = WRAPPER_RESOLVED /\ rr_resolution_chain result <> []
}.

Lemma turn_found_result raw_url s result :
  chain_inv raw_url s ->
  chain_turn settings max_depth registry wrappers resolver dns_resolver raw_url s = inr (Found result) ->
  chain_result raw_url result.
Proof.
  intros Hinv (w & r & c & hop & v & Hd & Ew & Eo & _ & Hs & Hid & Ht & Hsrc & Htgt & ->)%turn_found.
  destruct (chain_front _ _ _ Hinv Ew) as (w0 & Hw0 & Hl). split; cbn.
  - apply Forall_app. split; [apply Hinv|by apply Forall_singleton].
  - apply Forall_app. split; [apply Hinv|]. apply Forall_singleton. exists r. by split; [eapply owning_known|].
  - rewrite length_app. cbn. lia.
  - exists w0. split; [done|]. apply leads_snoc. by rewrite Hsrc, Htgt.
  - rewrite last_snoc. cbn. by rewrite Ht.
  - split; [done|]. by destruct (cs_chain s).
Qed.

Lemma loop_result fuel raw_url s result :
  chain_inv raw_url s ->
  chain_loop settings max_depth registry wrappers resolver dns_resolver fuel raw_url s = Some (inr result) ->
  chain_result raw_url result.
Proof.
  revert s. induction fuel as [|fuel IH]; intros s Hinv E; [done|]. cbn in E.
  destruct (chain_turn _ _ _ _ _ _ raw_url s) as [e|[s'|r]] eqn:Et; [done| |].
  - by eapply IH, E; eapply turn_again_inv.
  - injection E as <-. by eapply turn_found_result.
Qed.
End Chain.

(** What a resolved URL is, however it was reached. *)
Section Trusted.
Context `{Idna} (settings : UrlSettings) (registry : ProviderRegistry).
Context (resolver : text -> exn + list address).
Context (Hpolicy : url_policy_ok settings = true) (Hplain : registry_plain registry).
Context (Hresolver : forall hostname addresses, resolver hostname = inr addresses -> Forall valid_address addresses).

(** The host the validator looked up is a provider's and public; the URL keeps
    that host, or the form of it without [www.] that Dzen has. *)
Record trusted (res : URLValidationResult) : Prop := {
  tr_host : exists provider host addresses,
    provider ∈ providers registry /\ pd_enabled provider = true /\ host ∈ pd_exact_hostnames provider /\
    vr_provider_id res = pd_id provider /\ nu_provider_id (vr_url res) = pd_id provider /\
    resolver host = inr addresses /\ addresses <> [] /\ (forall a, a ∈ addresses -> contactable a) /\
    (nu_hostname (vr_url res) = host \/ nu_hostname (vr_url res) = _DZEN_HOST_CANONICAL host);
  tr_scheme : nu_scheme (vr_url res) ∈ url_allowed_schemes settings;
  tr_port : normal_port (url_allowed_ports settings) (nu_scheme (vr_url res)) (nu_port (vr_url res));
  tr_canonical : nu_canonical (vr_url res) =
    url_of (nu_scheme (vr_url res)) (nu_hostname (vr_url res)) (nu_port (vr_url res)) (nu_path (vr_url res));
  tr_rooted : exists rest, nu_path (vr_url res) = "/"%char :: rest
}.

Lemma validate_trusted raw res : validate settings registry resolver raw = inr res -> trusted res.
Proof.
  intros Hv. destruct (validate_accepted settings registry resolver Hpolicy Hplain raw res Hv)
    as (u & provider & addresses & _ & Ha & ->).
  destruct (acc_parsed _ _ _ _ _ _ Ha) as [Hs _ _ Hp Hpath _ _].
  destruct (find_provider_spec _ _ _ (acc_found _ _ _ _ _ _ Ha)) as (Hin & Hen & _).
  destruct (allowed_contactable addresses) as [? ?]; [apply Ha|eapply Hresolver, Ha|]. split; cbn; try done.
  - exists provider, (pu_hostname u), addresses. split_and!; try done; [apply Ha..|by left].
  - by eapply accepted_canonical.
  - apply Hpath.
Qed.

Lemma match_path_rooted provider_id host path media canon host' :
  match_path provider_id host path = inr (media, canon, host') ->
  (exists rest, canon = "/"%char :: rest) /\ (host' = host \/ host' = _DZEN_HOST_CANONICAL host).
Proof.
  unfold match_path. intros E.
  repeat match type of E with (if ?c then _ else _) = _ => destruct c end; try done; ok_step E.
  4: destruct (is_nil (lower_text _)); [done|].
  all: injection E as <- <- <-; split; [by eexists|tauto].
Qed.

Lemma stable_identity_shape provider_id hostname path allowed stable :
  parse_stable_provider_identity provider_id hostname path allowed = inr stable ->
  (exists rest, pi_canonical_path stable = "/"%char :: rest) /\ safe_host (pi_hostname stable) /\
  exists host, normalize_hostname hostname = inr host /\
    (pi_hostname stable = host \/ pi_hostname stable = _DZEN_HOST_CANONICAL host).
Proof.
  unfold parse_stable_provider_identity. intros E. ok_step E. destruct (negb _); [done|].
  destruct (forbidden_path _); [done|]. ok_step E. destruct v0 as [[media canon] host]. injection E as <-.
  apply match_path_rooted in E1 as [Hr Hh]. cbn. apply normalize_hostname_safe in E0 as Hs.
  split_and!; [done| |by exists v]. destruct Hh as [-> | ->]; [done|by apply dzen_host_safe].
Qed.

Lemma public_url_of scheme host port path url :
  web_scheme scheme -> safe_host host -> (exists rest, path = "/"%char :: rest) ->
  build_public_canonical_url scheme host port path = inr url -> url = url_of scheme host port path.
Proof.
  intros Hw Hh [rest Hr]. unfold build_public_canonical_url. rewrite (safe_normal _ Hh). cbn [err_bind].
  assert (Hs : starts_with ["/"%char] path = true) by (apply starts_with_spec; by exists rest). rewrite Hs.
  assert (Hn : lower_text (strip is_space scheme) = scheme) by by destruct Hw as [-> | ->].
  rewrite Hn. destruct (negb _); [done|]. intros [= <-]. rewrite <- built_canonical; [|done|by apply Hh|by exists rest].
  unfold _build_canonical. by rewrite Hr.
Qed.

Lemma normalized_plain host host' : plain_host host -> normalize_hostname host = inr host' -> host' = host.
Proof.
  intros Hp. assert (Hs : strip is_space host = host)
    by (apply strip_id; eapply (free_class host_char is_space); [|apply Hp]; all_chars).
  unfold normalize_hostname. rewrite Hs, (plain_lower _ Hp), (plain_undotted _ Hp).
  destruct (_ || _); [done|]. destruct (_ || _); [done|]. by intros [= <-].
Qed.

(** Rewriting to a stable identity keeps a result trusted. *)
Lemma rewrite_trusted u provider addresses stable res :
  accepted settings registry resolver u provider addresses ->
  parse_stable_provider_identity (pd_id provider) (pu_hostname u) (pu_path u) (pd_exact_hostnames provider) = inr stable ->
  rewrite_identity (result_of u provider) stable = inr res -> trusted (result_of u provider) -> trusted res.
Proof.
  intros Ha Ei E Ht. unfold rewrite_identity in E. ok_step E. rename v into canonical.
  destruct (_ && _); [by injection E as <-|]. injection E as <-.
  apply stable_identity_shape in Ei as (Hr & Hsafe & host & Hn & Hh).
  apply normalized_plain in Hn as ->; [|apply Ha]. apply public_url_of in E0 as ->; [|apply Ha|done|done].
  destruct Ht as [(p & h & addrs & H1 & H2 & H3 & H4 & H5 & H6 & H7 & H8 & _) Hs Hp Hc _].
  destruct (acc_parsed _ _ _ _ _ _ Ha) as [_ _ _ _ _ _ _].
  destruct (find_provider_spec _ _ _ (acc_found _ _ _ _ _ _ Ha)) as (Hin & Hen & _).
  split; cbn in *; try done. exists provider, (pu_hostname u), addresses.
  destruct (allowed_contactable addresses) as [? ?]; [apply Ha|eapply Hresolver, Ha|].
  by split_and!; try done; apply Ha.
Qed.

Lemma provider_trusted raw res :
  validate_provider settings registry resolver raw = inr res -> trusted res.
Proof.
  unfold validate_provider. intros E. ok_step E. rename v into v'.
  destruct (validate settings registry resolver raw) as [e|v] eqn:Ev; [by destruct e|]. injection E0 as ->.
  pose proof (validate_trusted _ _ Ev) as Ht.
  destruct (validate_accepted settings registry resolver Hpolicy Hplain raw v' Ev)
    as (u & provider & addresses & _ & Ha & ->).
  unfold with_stable_provider_identity in E. destruct (negb _); [by injection E as <-|]. cbn in E.
  rewrite (acc_found _ _ _ _ _ _ Ha) in E.
  destruct (parse_stable_provider_identity _ _ _ _) as [e|stable] eqn:Ei.
  - destruct e; try done. by injection E as <-.
  - by eapply rewrite_trusted.
Qed.
End Trusted.

(** The three ways in which [resolve] succeeds, as one. *)
Lemma resolve_inr `{Idna} settings max_depth registry wrappers resolver dns_resolver unknown fuel raw_url result :
  registry_ok wrappers ->
  resolve settings max_depth registry wrappers resolver dns_resolver unknown fuel raw_url = Some (inr result) ->
  (exists candidate, validate_provider settings registry resolver candidate = inr (rr_validated result)) /\
  result = result_with raw_url (rr_validated result) (rr_wrapper_type result) (rr_provenance result)
             (rr_resolution_chain result) /\
  ((rr_provenance result = DIRECT_PROVIDER /\ rr_wrapper_type result = None /\ rr_resolution_chain result = []) \/
   chain_result settings max_depth wrappers dns_resolver raw_url result).
Proof.
  intros Hw E. unfold resolve in E. destruct (_resolve_inner _ _ _ _ _ _ _ _) as [[e|r]|] eqn:Ei; [done| |done].
  injection E as ->. unfold _resolve_inner in Ei. destruct (let? parsed := _ in _) as [e|parsed]; [done|].
  destruct (find_provider _ _).
  - injection Ei as Ei. ok_step Ei. injection Ei as <-. cbn. split; [by eexists|]. split; [done|]. by left.
  - destruct (is_none _); [done|]. unfold _resolve_wrapper_chain in Ei.
    assert (Hr : chain_result settings max_depth wrappers dns_resolver raw_url result).
    { eapply loop_result; [done| |exact Ei]. split; [constructor|constructor|by left]. }
    enough (Hv : (exists candidate, validate_provider settings registry resolver candidate = inr (rr_validated result)) /\
      result = result_with raw_url (rr_validated result) (rr_wrapper_type result) (rr_provenance result)
             (rr_resolution_chain result)) by tauto.
    clear Hr. revert Ei. generalize (chain_start raw_url). induction fuel as [|fuel IH]; intros s Ei; [done|].
    cbn in Ei. destruct (chain_turn _ _ _ _ _ _ raw_url s) as [e|[s'|r]] eqn:Et; [done|by eapply IH|].
    injection Ei as ->. apply turn_found in Et as (? & ? & candidate & ? & ? & _ & _ & _ & Hv & _ & _ & _ & _ & _ & ->).
    split; [by exists candidate|done].
Qed.

(** C19: Resolution can not be steered off the providers. Whatever link is
    submitted and whatever the wrapper resolvers answer, a result is a URL of an
    enabled provider: the host that was looked up is one the provider lists,
    every address it resolved to is one the destination policy lets through (public
    or, for IPv6, site-local), scheme and port are allowed, and the canonical URL is made of scheme, host, port and a rooted
    path, without credentials, query or fragment; the host kept is the host
    looked up, or its form without [www.] for Dzen. *)
Theorem resolved_urls_are_safe `{Idna} settings max_depth registry resolvers wrappers resolver dns_resolver unknown
    fuel raw_url result :
  url_policy_ok settings = true -> registry_plain registry ->
  (forall hostname addresses, resolver hostname = inr addresses -> Forall valid_address addresses) ->
  from_resolvers resolvers = inr wrappers ->
  resolve settings max_depth registry wrappers resolver dns_resolver unknown fuel raw_url = Some (inr result) ->
  trusted settings registry resolver (rr_validated result) /\
  rr_submitted_url result = raw_url /\
  rr_provider_id result = vr_provider_id (rr_validated result) /\
  rr_canonical_provider_url result = nu_canonical (vr_url (rr_validated result)).
Proof.
  intros Hpolicy Hplain Hres Hw E. apply from_resolvers_ok in Hw as [Hw _].
  apply resolve_inr in E as ([candidate Hv] & -> & _); [|done]. cbn. split; [|done].
  by eapply provider_trusted.
Qed.

(** The audit chain is true. A direct result has no chain. A result reached
    through wrappers has a chain of one to [max_depth] hops that starts at the
    canonical form of the submitted wrapper, in which every hop starts where the
    one before it ended, and that ends at the result; every hop names a
    registered resolver in tokens that may be logged, with metadata of at most
    eight permitted keys and 256 characters, and the wrapper type of the result
    is that of its last hop. *)
Theorem chain_leads_to_result `{Idna} settings max_depth registry resolvers wrappers resolver dns_resolver unknown
    fuel raw_url result :
  from_resolvers resolvers = inr wrappers ->
  resolve settings max_depth registry wrappers resolver dns_resolver unknown fuel raw_url = Some (inr result) ->
  let chain := rr_resolution_chain result in
  match rr_provenance result with
  | DIRECT_PROVIDER => chain = [] /\ rr_wrapper_type result = None
  | WRAPPER_RESOLVED =>
      chain <> [] /\ Z.of_nat (length chain) <= max_depth /\
      (exists wrapper, validate_wrapper settings dns_resolver raw_url = inr wrapper /\
        leads (dt_canonical_without_query wrapper) chain (rr_canonical_provider_url result)) /\
      Forall hop_safe chain /\ Forall (hop_known wrappers) chain /\
      rr_wrapper_type result = rh_wrapper_type <$> last chain
  end.
Proof.
  intros [Hw _]%from_resolvers_ok E. apply resolve_inr in E as (_ & _ & [(-> & ? & ?)|Hr]); [done| |done].
  destruct Hr as [Hs Hk Hd Hl Ht [-> Hne]]. cbv zeta. by rewrite Ht.
Qed.

(** ** Errors *)

(** A reason that may stay on an exception: none, or a short code. *)
Definition safe_reason (reason : string) : Prop :=
  reason = "" \/ is_some (fullmatch _SAFE_INTERNAL_REASON (chars reason)) = true.

(** Every [ResolutionError] is made by the constructor of its class. *)
Definition well_made (e : exn) : Prop :=
  match e with ResolutionError _ reason => safe_reason reason | _ => True end.

Lemma sanitize_safe raw : safe_reason (sanitize_internal_reason raw).
Proof.
  unfold sanitize_internal_reason, safe_reason. destruct (String.eqb_spec raw ""); [by left|right].
  destruct (is_some (fullmatch _ (chars raw))) eqn:E; [done|by vm_compute].
Qed.

Lemma resolution_error_made kind reason : well_made (resolution_error kind reason).
Proof. apply sanitize_safe. Qed.
#[local] Hint Resolve resolution_error_made : fetchnow.

Lemma resolver_failure_made e : well_made (resolver_failure e).
Proof. destruct e; try apply resolution_error_made. destruct code; apply resolution_error_made. Qed.

Lemma url_errors_made code : well_made (_map_url_error code).
Proof. destruct code; apply resolution_error_made. Qed.
#[local] Hint Resolve resolver_failure_made url_errors_made : fetchnow.

(** A computation whose errors are well made. *)
Abbreviation sound_errors r := (outcome r (fun _ => True) well_made).

Ltac errors_step :=
  first
    [ exact I
    | progress eauto with fetchnow nocore
    | outcome_step
    | progress cbn [outcome well_made] ].
Ltac errors := repeat first [errors_step | progress intros].

(** A lemma about a part of a computation, in front of the rest. *)
Lemma errors_then {A B} (r : exn + A) (k : A -> exn + B) :
  sound_errors r -> (forall a, sound_errors (k a)) -> sound_errors (err_bind r k).
Proof.
  intros Hr Hk. apply outcome_bind. eapply outcome_mono; [|intros e He; exact He|exact Hr].
  intros a _. apply Hk.
Qed.

Lemma parse_errors `{Idna} raw schemes ports limit : sound_errors (parse_and_normalize raw schemes ports limit).
Proof. unfold parse_and_normalize, urlparse, _normalize_port, _idna_hostname. errors. Qed.

Lemma destination_errors hostname : sound_errors (named_destination hostname).
Proof. unfold named_destination. errors. Qed.

Lemma identity_errors provider_id hostname path allowed :
  sound_errors (parse_stable_provider_identity provider_id hostname path allowed).
Proof. unfold parse_stable_provider_identity, normalize_hostname, match_path. errors. Qed.

Lemma public_url_errors scheme hostname port path : sound_errors (build_public_canonical_url scheme hostname port path).
Proof. unfold build_public_canonical_url, normalize_hostname. errors. Qed.

Lemma freeze_errors raw : sound_errors (freeze_resolution_metadata raw).
Proof.
  assert (Hl : forall raw items n, sound_errors (freeze_loop raw items n)).
  { clear raw. induction raw as [|[key value] raw IH]; intros items n; cbn; [done|].
    unfold freeze_value, meta_error. errors; apply IH. }
  unfold freeze_resolution_metadata. destruct raw as [raw|]; [|done]. outcome_step. outcome_step; [done|].
  apply errors_then; [apply Hl|done].
Qed.

Lemma token_errors value field : sound_errors (require_audit_token value field).
Proof. unfold require_audit_token. errors. Qed.

Lemma make_hop_errors hop : sound_errors (make_hop hop).
Proof. unfold make_hop, require_audit_token. errors. Qed.

Lemma audit_hop_errors registration wrapper outcome candidate :
  sound_errors (audit_hop registration wrapper outcome candidate).
Proof.
  unfold audit_hop.
  assert (Hi : sound_errors
    (let? metadata := freeze_resolution_metadata (wo_metadata outcome) in
     let? resolver_id := require_audit_token (rg_resolver_id registration) "resolver_id" in
     let? wrapper_type := require_audit_token (rg_wrapper_type registration) "wrapper_type" in
     let? strategy := require_audit_token (wo_strategy outcome) "strategy" in
     inr (metadata, resolver_id, wrapper_type, strategy))).
  { apply errors_then; [apply freeze_errors|intros ?]. do 3 (apply errors_then; [apply token_errors|intros ?]). done. }
  destruct (let? metadata := _ in _) as [e|[[[metadata rid] wt] strategy]]; [|apply make_hop_errors].
  destruct e; try done. apply resolution_error_made.
Qed.

Section Errors.
Context `{Idna} (settings : UrlSettings) (max_depth : Z).
Context (registry : ProviderRegistry) (wrappers : WrapperResolverRegistry).
Context (resolver dns_resolver : text -> exn + list address) (unknown : exn -> string).
Context (Hdns : forall hostname, sound_errors (dns_resolver hostname)).
Context (Hok : registry_ok wrappers).
Context (Hmatches : forall registration wrapper,
  registration ∈ wreg_registrations wrappers -> sound_errors (wr_matches (rg_resolver registration) wrapper)).

Lemma classification_errors raw : sound_errors (parse_for_classification settings raw).
Proof.
  unfold parse_for_classification.
  pose proof (parse_errors raw (url_allowed_schemes settings) (url_allowed_ports settings) (url_max_length settings)) as Hp.
  destruct (parse_and_normalize _ _ _ _) as [e|u]; [|done].
  destruct e; try done. apply resolution_error_made.
Qed.

Lemma validate_wrapper_errors raw : sound_errors (validate_wrapper settings dns_resolver raw).
Proof.
  unfold validate_wrapper. apply errors_then.
  { pose proof (parse_errors raw _WRAPPER_SCHEMES _WRAPPER_PORTS (url_max_length settings)) as Hp.
    destruct (parse_and_normalize _ _ _ _) as [e|u]; [|done].
    destruct e; try done. apply resolution_error_made. }
  intros u. do 2 (apply errors_then; [errors|intros _]). apply errors_then; [apply destination_errors|intros _].
  apply errors_then; [|done]. unfold resolve_public. pose proof (Hdns (pu_hostname u)) as Hd.
  destruct (dns_resolver _) as [e|addresses]; cbn.
  - destruct e; try done. apply resolution_error_made.
  - unfold assert_addresses_allowed. destruct (is_nil addresses || _); [apply resolution_error_made|done].
Qed.

Lemma mapping_errors {A} (r : exn + A) : sound_errors r -> sound_errors (mapping_url_errors r).
Proof. destruct r as [e|a]; [|done]. destruct e; try done. intros _. cbn. eauto with fetchnow. Qed.

Lemma validate_errors raw : sound_errors (validate settings registry resolver raw).
Proof. unfold validate. destruct (_validate_inner _ _ _ _) as [e|]; [by destruct e|done]. Qed.

Lemma validate_provider_errors raw : sound_errors (validate_provider settings registry resolver raw).
Proof.
  unfold validate_provider. apply errors_then; [by apply mapping_errors, validate_errors|]. intros v.
  unfold with_stable_provider_identity. outcome_step; [done|]. destruct (find_provider _ _) as [provider|]; [|done].
  pose proof (identity_errors (vr_provider_id v) (nu_hostname (vr_url v)) (nu_path (vr_url v))
                (pd_exact_hostnames provider)) as Hi.
  destruct (parse_stable_provider_identity _ _ _ _) as [e|stable]; [by destruct e|].
  unfold rewrite_identity. apply errors_then; [apply public_url_errors|]. errors.
Qed.

Lemma owning_errors wrapper : sound_errors (owning_registration wrappers wrapper).
Proof.
  unfold owning_registration. apply errors_then; [|intros [r|]; errors].
  unfold match_wrapper. destruct (find_wrapper _ _) as [r|] eqn:Ef; [|done].
  apply (ro_index _ Hok) in Ef as [Hin _].
  apply errors_then; [by apply Hmatches|]. intros []; [|done]. cbn. apply errors_then; [|done].
  assert (Hall : Forall (fun r => r ∈ wreg_registrations wrappers) (wreg_registrations wrappers)) by by apply Forall_forall.
  induction Hall as [|other others Hother _ IH]; cbn; [done|].
  destruct (String.eqb _ _); [done|]. apply errors_then; [by apply Hmatches|]. intros also.
  apply errors_then; [errors|done].
Qed.

Lemma turn_errors raw_url s :
  sound_errors (chain_turn settings max_depth registry wrappers resolver dns_resolver raw_url s).
Proof.
  unfold chain_turn. apply errors_then; [errors|intros _].
  apply errors_then; [apply mapping_errors, validate_wrapper_errors|intros wrapper].
  apply errors_then; [errors|intros _]. apply errors_then; [apply owning_errors|intros registration].
  apply errors_then.
  { unfold ask_resolver, scoped_documents. errors. }
  intros [candidate outcome]. apply errors_then.
  { unfold parse_candidate. apply errors_then; [apply classification_errors|]. errors. }
  intros parsed. apply errors_then; [apply audit_hop_errors|intros hop].
  destruct (find_provider _ _).
  - apply errors_then; [apply validate_provider_errors|intros v]. apply errors_then; [apply make_hop_errors|done].
  - errors.
Qed.

Lemma loop_errors fuel raw_url s r :
  chain_loop settings max_depth registry wrappers resolver dns_resolver fuel raw_url s = Some r -> sound_errors r.
Proof.
  revert s. induction fuel as [|fuel IH]; intros s E; [done|]. cbn in E.
  pose proof (turn_errors raw_url s) as Ht. destruct (chain_turn _ _ _ _ _ _ raw_url s) as [e|[s'|result]].
  - by injection E as <-.
  - by apply IH in E.
  - by injection E as <-.
Qed.

Lemma inner_errors fuel raw_url r :
  _resolve_inner settings max_depth registry wrappers resolver dns_resolver fuel raw_url = Some r -> sound_errors r.
Proof.
  unfold _resolve_inner.
  assert (Hc : sound_errors (let? parsed := parse_for_classification settings raw_url in
    named_destination (pu_hostname parsed) ;;? inr parsed)).
  { apply errors_then; [apply classification_errors|intros u]. apply errors_then; [apply destination_errors|done]. }
  destruct (let? parsed := _ in _) as [e|parsed]; [by intros [= <-]|].
  destruct (find_provider _ _); [|destruct (is_none _)].
  - intros [= <-]. apply errors_then; [apply validate_provider_errors|done].
  - intros [= <-]. apply resolution_error_made.
  - apply loop_errors.
Qed.
End Errors.

(** C20: Resolution fails in one way only. Whatever goes wrong, a resolver that
    raises anything at all included, the error is a [ResolutionError] with one of
    the seven kinds and a reason that is absent or a short upper-case code, so
    no URL, token or text of a resolver reaches a log or a client; the client
    sees status 422, or 500 for an internal error. The DNS resolver and the
    [matches] of resolvers are assumed to make a [ResolutionError] by its
    constructor. *)
Theorem resolution_errors_are_typed `{Idna} settings max_depth registry resolvers wrappers resolver dns_resolver unknown
    fuel raw_url e :
  (forall hostname, outcome (dns_resolver hostname) (fun _ => True) well_made) ->
  from_resolvers resolvers = inr wrappers ->
  Forall (fun r => forall wrapper, outcome (wr_matches r wrapper) (fun _ => True) well_made) resolvers ->
  resolve settings max_depth registry wrappers resolver dns_resolver unknown fuel raw_url = Some (inl e) ->
  exists kind reason,
    e = ResolutionError kind reason /\ safe_reason reason /\
    (map_resolution_error kind).1.2 = (if bool_decide ((map_resolution_error kind).1.1 = "INTERNAL_ERROR") then 500 else 422).
Proof.
  intros Hdns [Hok Hr]%from_resolvers_ok Hmatches E. unfold resolve in E.
  destruct (_resolve_inner _ _ _ _ _ _ _ _) as [[e'|r]|] eqn:Ei; [|done|done]. injection E as <-.
  apply inner_errors in Ei; [|done|done|].
  2: { intros registration wrapper Hin. rewrite Forall_forall in Hmatches. apply Hmatches. rewrite <- Hr.
       by apply list_elem_of_fmap_2. }
  clear Hr.
  assert (Hmade : exists kind reason, resolution_failure unknown e' = ResolutionError kind reason /\ safe_reason reason).
  { destruct e'; cbn in *; unfold resolution_error; eauto using sanitize_safe. }
  destruct Hmade as (kind & reason & -> & Hr). exists kind, reason. split_and!; [done|done|by destruct kind].
Qed.

(** ** Witnesses *)

Module ResolutionExamples.
Import UrlExamples.
#[local] Existing Instance no_idna.

Definition answer (candidate : string) : exn + WrapperResolveOutcome :=
  inr {| wo_candidate_url := chars candidate; wo_strategy := "preview";
         wo_metadata := Some [("Attempt ", JInt 1); ("cached", JBool false)] |}.

(** A resolver of a preview site, whose links go to a second wrapper, and that
    wrapper, whose links go back to the site, to itself or to VK. *)
Definition preview : WrapperResolver :=
  {| wr_resolver_id := "preview_v1"; wr_wrapper_type := "preview";
     wr_exact_hostnames := [chars " Preview.example. "];
     wr_matches := fun target => inr (starts_with (chars "/video") (dt_path target));
     wr_resolve := fun _ _ => answer " https://short.example/x?id=7 " |}.
Definition short : WrapperResolver :=
  {| wr_resolver_id := "short_v1"; wr_wrapper_type := "short";
     wr_exact_hostnames := [chars "short.example"; chars "s.example"];
     wr_matches := fun target => inr (starts_with (chars "short") (dt_hostname target));
     wr_resolve := fun target _ =>
       if bool_decide (dt_path target = chars "/raise") then inl (ResolutionError WRAPPER_UNRESOLVED "token=abc")
       else if bool_decide (dt_path target = chars "/self") then answer "https://short.example:443/self#again"
       else if is_nil (dt_query target) then answer "https://preview.example/video/1"
       else answer "https://m.vk.com/clip-1_2?from=wrapper" |}.

Definition wrappers : WrapperResolverRegistry :=
  match from_resolvers [preview; short] with inr registry => registry | inl _ => empty_registry end.

Lemma wrappers_built : from_resolvers [preview; short] = inr wrappers.
Proof. by vm_compute. Qed.

Definition follow (depth : Z) (url : string) : option (exn + ResolutionResult) :=
  resolve settings depth (from_settings settings) wrappers resolver resolver (fun _ => "") 9 (chars url).

Definition error_of (r : option (exn + ResolutionResult)) : option (ResolutionErrorKind * string) :=
  match r with Some (inl (ResolutionError kind reason)) => Some (kind, reason) | _ => None end.

(** The branches of the service. *)
Example errors_of_resolution :
  error_of <$> [follow 3 "https://unknown.example/video"; follow 3 "https://preview.example/other";
                follow 3 "https://s.example/x"; follow 3 "http://short.example/x"; follow 3 "https://127.1/x";
                follow 3 "https://short.example/self"; follow 2 "https://short.example/x";
                follow 3 "https://short.example/raise"; follow 3 "https://[x/"] =
  Some <$> [(WRAPPER_UNSUPPORTED, ""); (WRAPPER_UNSUPPORTED, "WRAPPER_SHAPE_MISMATCH");
            (WRAPPER_UNSUPPORTED, "WRAPPER_SHAPE_MISMATCH"); (UNSAFE_RESOLUTION_TARGET, "UNSUPPORTED_SCHEME");
            (UNSAFE_RESOLUTION_TARGET, "NONSTANDARD_IPV4"); (RESOLUTION_LOOP, "");
            (RESOLUTION_LIMIT_EXCEEDED, ""); (WRAPPER_UNRESOLVED, "REDACTED_INTERNAL_REASON");
            (RESOLUTION_INTERNAL_ERROR, "VALUEERROR")].
Proof. by vm_compute. Qed.

Lemma registry_owns_hosts_once_witness :
  rg_resolver_id <$> find_wrapper wrappers (chars "PREVIEW.example.") = Some "preview_v1" /\
  rg_resolver <$> wreg_registrations wrappers = [preview; short].
Proof.
  split; [by vm_compute|]. apply (registry_owns_hosts_once [preview; short] wrappers wrappers_built).
Defined.

Definition reached : ResolutionResult :=
  match follow 3 "https://short.example/x" with
  | Some (inr result) => result
  | _ => result_with [] submitted_result None DIRECT_PROVIDER []
  end.

Lemma reached_ok :
  resolve settings 3 (from_settings settings) wrappers resolver resolver (fun _ => "") 9
    (chars "https://short.example/x") = Some (inr reached).
Proof. by vm_compute. Qed.

Lemma resolved_urls_are_safe_witness :
  rr_canonical_provider_url reached = chars "https://m.vk.com/video-1_2" /\
  trusted settings (from_settings settings) resolver (rr_validated reached).
Proof.
  split; [by vm_compute|].
  apply (resolved_urls_are_safe settings 3 (from_settings settings) [preview; short] wrappers resolver resolver
    (fun _ => "") 9 (chars "https://short.example/x") reached
    ltac:(by vm_compute) (default_registry_plain settings) resolver_valid wrappers_built reached_ok).
Defined.

Lemma chain_leads_to_result_witness :
  rh_resolver_id <$> rr_resolution_chain reached = ["short_v1"; "preview_v1"; "short_v1"] /\
  Forall hop_safe (rr_resolution_chain reached).
Proof.
  split; [by vm_compute|].
  pose proof (@chain_leads_to_result no_idna settings 3 (from_settings settings) [preview; short] wrappers resolver resolver
    (fun _ => "") 9 (chars "https://short.example/x") reached wrappers_built reached_ok) as Hc. cbv zeta in Hc.
  assert (Hp : rr_provenance reached = WRAPPER_RESOLVED) by by vm_compute.
  rewrite Hp in Hc. apply Hc.
Defined.

Lemma resolution_errors_are_typed_witness :
  exists kind reason,
    ResolutionError WRAPPER_UNRESOLVED "REDACTED_INTERNAL_REASON" = ResolutionError kind reason /\
    safe_reason reason /\
    (map_resolution_error kind).1.2 = (if bool_decide ((map_resolution_error kind).1.1 = "INTERNAL_ERROR") then 500 else 422).
Proof.
  apply (resolution_errors_are_typed settings 3 (from_settings settings) [preview; short] wrappers resolver resolver
    (fun _ => "") 9 (chars "https://short.example/raise")); [|exact wrappers_built| |by vm_compute].
  - intros hostname. by vm_compute.
  - by repeat constructor.
Defined.

Lemma resolution_terminates_witness :
  exists r, resolve settings 3 (from_settings settings) wrappers resolver resolver (fun _ => "") 4
    (chars "https://short.example/self") = Some r /\ error_of (Some r) = Some (RESOLUTION_LOOP, "").
Proof.
  destruct (@resolution_terminates no_idna settings 3 (from_settings settings) wrappers resolver resolver (fun _ => "")
    (chars "https://short.example/self")) as [r Hr].
  exists r. split; [apply Hr; cbn; lia|]. rewrite <- (Hr 4%nat) by (cbn; lia). by vm_compute.
Defined.
End ResolutionExamples.
