(* ===== verification/Inspection.v ===== *)
(** Media inspection around the extractor (media_inspection/identity.py,
    registry.py, protocols.py, service.py) and the target rebuilt from a stored
    job (jobs/target_rebuild.py).

    The extractors are injected: a record of functions. *)

From S2P Require Export Resolution Normalize.

Local Open Scope string_scope.
Local Open Scope list_scope.
Local Open Scope Z_scope.

(** Source: backend/src/fetchnow/media_inspection/errors.py:72-90 [InspectionError]
    The reason is sanitised like that of a [ResolutionError]. *)
Definition inspection_error (kind : InspectionErrorKind) (internal_reason : string) : exn :=
  InspectionError kind (sanitize_internal_reason internal_reason).

(** ** identity.py *)

Module MediaIdentity.

(** Source: backend/src/fetchnow/media_inspection/identity.py:35-42 [ProviderMediaIdentity] *)
Record ProviderMediaIdentity := {
  md_provider_id : string;
  md_media_id : text;
  md_hostname : text;
  md_canonical_path : text
}.

(** Source: backend/src/fetchnow/media_inspection/identity.py:53-82 [_map_identity_error] *)
Definition _map_identity_error (reason : string) : exn :=
  if bool_decide (reason ∈ ["HOST_NOT_OWNED"; "IDENTITY_URL_CREDENTIALS"; "IDENTITY_URL_SCHEME";
                            "IDENTITY_URL_PORT_UNTRUSTED"])
  then inspection_error INSPECTION_PROVIDER_MISMATCH reason
  else if String.eqb reason "IDENTITY_PROVIDER_UNSUPPORTED"
  then inspection_error INSPECTION_UNSUPPORTED_PROVIDER reason
  else if bool_decide (reason ∈ ["IDENTITY_URL_PARSE"; "IDENTITY_URL_HOST"; "IDENTITY_URL_PORT_INVALID"])
  then inspection_error INSPECTION_INVALID_OUTPUT reason
  else inspection_error INSPECTION_POLICY_REJECTED reason.

(** [try: ... except ProviderIdentityError as exc: _map_identity_error(exc)] *)
Definition mapping_identity_errors {A} (r : exn + A) : exn + A :=
  match r with
  | inl (ProviderIdentityError reason) => inl (_map_identity_error reason)
  | _ => r
  end.

(** Source: backend/src/fetchnow/media_inspection/identity.py:85-91 [_to_media_identity] *)
Definition _to_media_identity (identity : StableProviderIdentity) : ProviderMediaIdentity :=
  {| md_provider_id := pi_provider_id identity; md_media_id := pi_media_id identity;
     md_hostname := pi_hostname identity; md_canonical_path := pi_canonical_path identity |}.

(** Source: backend/src/fetchnow/media_inspection/identity.py:94-99 [normalize_hostname] *)
Definition normalize_hostname (hostname : text) : exn + text :=
  mapping_identity_errors (ProviderIdentity.normalize_hostname hostname).

(** Source: backend/src/fetchnow/media_inspection/identity.py:102-121 [parse_provider_media_identity] *)
Definition parse_provider_media_identity (provider_id : string) (hostname path : text)
    (allowed_hostnames : list text) : exn + ProviderMediaIdentity :=
  mapping_identity_errors
    (let? stable := parse_stable_provider_identity provider_id hostname path allowed_hostnames in
     inr (_to_media_identity stable)).

(** Source: backend/src/fetchnow/media_inspection/identity.py:124-133 [build_canonical_provider_url] *)
Definition build_canonical_provider_url (hostname canonical_path : text) : exn + text :=
  mapping_identity_errors (ProviderIdentity.build_canonical_provider_url hostname canonical_path).

(** Source: backend/src/fetchnow/media_inspection/identity.py:136-153 [parse_identity_from_url] *)
Definition parse_identity_from_url (raw_url : text) (provider_id : string) (allowed_hostnames : list text)
    : exn + ProviderMediaIdentity :=
  mapping_identity_errors
    (let? stable := parse_stable_identity_from_url raw_url provider_id allowed_hostnames in
     inr (_to_media_identity stable)).
End MediaIdentity.

(** ** protocols.py *)

(** Source: backend/src/fetchnow/media_inspection/protocols.py:11-25 [InspectionTarget] *)
Record InspectionTarget := {
  it_provider_id : string;
  it_hostname : text;
  it_media_id : text;
  it_canonical_provider_url : text;
  it_tool_url : text;
  it_allowed_hostnames : list text
}.

(** Source: backend/src/fetchnow/media_inspection/protocols.py:37-45 [MediaExtractor] *)
Record MediaExtractor := {
  ex_extractor_id : string;
  ex_extract : InspectionTarget -> exn + ExtractedMediaDraft
}.

(** [s.strip().lower()] *)
Definition strip_lower (s : string) : string := lower (of_chars (strip is_space (chars s))).

(** ** registry.py *)

Module InspectionExtractorRegistry.
Import MediaIdentity.

(** Source: backend/src/fetchnow/media_inspection/registry.py:20-22 [_SAFE_PROVIDER_ID] *)
Definition _SAFE_PROVIDER_ID : regex := Cat (Char (in_range 97 122)) (Many 0 (Some 31%nat) token_char).
Definition key_char (c : ascii) : bool := in_range 97 122 c || in_range 48 57 c || is_one_of "._-" c.
Definition _SAFE_EXTRACTOR_KEY : regex := Cat (Char (in_range 97 122)) (Many 0 (Some 63%nat) key_char).
Definition _FORBIDDEN_EXTRACTOR_KEYS : list string := ["generic"; "default"; "all"; "end"].

Definition registry_error {A} (internal_reason : string) : exn + A :=
  inl (inspection_error INTERNAL_INSPECTION_ERROR internal_reason).

(** Source: backend/src/fetchnow/media_inspection/registry.py:25-31 [_normalize_provider_id] *)
Definition _normalize_provider_id (provider_id : string) : exn + string :=
  if is_some (fullmatch _SAFE_PROVIDER_ID (chars provider_id)) then inr provider_id
  else registry_error "UNSAFE_PROVIDER_ID".

(** Source: backend/src/fetchnow/media_inspection/registry.py:34-51 [_normalize_extractor_key] *)
Definition _normalize_extractor_key (raw : string) : exn + string :=
  let key := strip_lower raw in
  if negb (is_some (fullmatch _SAFE_EXTRACTOR_KEY (chars key))) then registry_error "UNSAFE_EXTRACTOR_KEY" else
  if bool_decide (key ∈ _FORBIDDEN_EXTRACTOR_KEYS) || starts_with (chars "generic") (chars key)
  then registry_error "FORBIDDEN_EXTRACTOR_KEY" else inr key.

(** Source: backend/src/fetchnow/media_inspection/registry.py:54-66 [ExtractorBinding] *)
Record ExtractorBinding := {
  eb_provider_id : string;
  eb_exact_hostnames : list text;
  eb_allowed_extractor_keys : list string;
  eb_extractor_id : string;
  eb_extractor : MediaExtractor
}.

(** Source: backend/src/fetchnow/media_inspection/registry.py:69-77 [InspectionExtractorRegistry] *)
Record t := {
  bindings : list ExtractorBinding;
  by_provider : gmap string ExtractorBinding;
  by_host : gmap text ExtractorBinding
}.

(** Source: backend/src/fetchnow/media_inspection/registry.py:176-182 [from_bindings] *)
Fixpoint own_hosts (hosts : list text) (snap : ExtractorBinding) (by_host : gmap text ExtractorBinding)
    : exn + gmap text ExtractorBinding :=
  match hosts with
  | [] => inr by_host
  | host :: hosts =>
      if is_some (by_host !! host) then registry_error "HOST_OWNERSHIP_COLLISION"
      else own_hosts hosts snap (<[host := snap]> by_host)
  end.

(** Source: backend/src/fetchnow/media_inspection/registry.py:132-175 [from_bindings]
    The frozen form of one binding. A set is the list of its members. *)
Definition snapshot (registry : t) (binding : ExtractorBinding) : exn + ExtractorBinding :=
  let? provider_id := _normalize_provider_id (eb_provider_id binding) in
  if is_some (by_provider registry !! provider_id) then registry_error "DUPLICATE_PROVIDER_BINDING" else
  if is_nil (eb_exact_hostnames binding)
  then inl (inspection_error INSPECTION_UNSUPPORTED_PROVIDER "EMPTY_HOST_ALLOWLIST") else
  let? hosts := err_map normalize_hostname (eb_exact_hostnames binding) in
  if is_nil (eb_allowed_extractor_keys binding)
  then inl (inspection_error INSPECTION_UNSUPPORTED_PROVIDER "EMPTY_EXTRACTOR_ALLOWLIST") else
  let? keys := err_map _normalize_extractor_key (eb_allowed_extractor_keys binding) in
  if String.eqb (ex_extractor_id (eb_extractor binding)) "" then registry_error "MISSING_EXTRACTOR_ID" else
  let? extractor_id := _normalize_provider_id
    (replace_all "-" "_" (strip_lower (ex_extractor_id (eb_extractor binding)))) in
  inr {| eb_provider_id := provider_id; eb_exact_hostnames := remove_dups hosts;
         eb_allowed_extractor_keys := remove_dups keys; eb_extractor_id := extractor_id;
         eb_extractor := eb_extractor binding |}.

(** Source: backend/src/fetchnow/media_inspection/registry.py:132-184 [from_bindings]
    One turn of the loop. *)
Definition add_binding (registry : t) (binding : ExtractorBinding) : exn + t :=
  let? snap := snapshot registry binding in
  let? hosts := own_hosts (eb_exact_hostnames snap) snap (by_host registry) in
  inr {| bindings := bindings registry ++ [snap];
         by_provider := <[eb_provider_id snap := snap]> (by_provider registry);
         by_host := hosts |}.

Fixpoint add_bindings (registry : t) (l : list ExtractorBinding) : exn + t :=
  match l with
  | [] => inr registry
  | binding :: l => let? registry := add_binding registry binding in add_bindings registry l
  end.

(** Source: backend/src/fetchnow/media_inspection/registry.py:119-190 [from_bindings] *)
Definition from_bindings (l : list ExtractorBinding) : exn + t :=
  if is_nil l then inl (inspection_error INSPECTION_UNSUPPORTED_PROVIDER "EMPTY_REGISTRY")
  else add_bindings {| bindings := []; by_provider := ∅; by_host := ∅ |} l.

(** Source: backend/src/fetchnow/media_inspection/registry.py:202-225 [from_provider_registry]
    The binding of a descriptor, when there is one. *)
Definition descriptor_binding (extractors_by_provider : string -> option MediaExtractor)
    (allowed_extractor_keys : string -> option (list string)) (descriptor : ProviderDescriptor)
    : option ExtractorBinding :=
  if negb (pd_enabled descriptor) then None else
  match extractors_by_provider (pd_id descriptor), allowed_extractor_keys (pd_id descriptor) with
  | Some extractor, Some keys =>
      Some {| eb_provider_id := pd_id descriptor; eb_exact_hostnames := pd_exact_hostnames descriptor;
              eb_allowed_extractor_keys := keys; eb_extractor_id := ex_extractor_id extractor;
              eb_extractor := extractor |}
  | _, _ => None
  end.

(** Source: backend/src/fetchnow/media_inspection/registry.py:192-226 [from_provider_registry] *)
Definition from_provider_registry (providers_ : ProviderRegistry)
    (extractors_by_provider : string -> option MediaExtractor)
    (allowed_extractor_keys : string -> option (list string)) : exn + t :=
  from_bindings (omap (descriptor_binding extractors_by_provider allowed_extractor_keys) (providers providers_)).

(** Source: backend/src/fetchnow/media_inspection/registry.py:228-244 [resolve] *)
Definition resolve (registry : t) (provider_id : string) (hostname : text) : exn + ExtractorBinding :=
  let? host := normalize_hostname hostname in
  let pid := strip_lower provider_id in
  let? binding := need (by_provider registry !! pid)
    (inspection_error INSPECTION_UNSUPPORTED_PROVIDER "PROVIDER_NOT_REGISTERED") in
  match by_host registry !! host with
  | Some host_binding =>
      if String.eqb (eb_provider_id host_binding) (eb_provider_id binding) then inr binding
      else inl (inspection_error INSPECTION_PROVIDER_MISMATCH "HOST_NOT_OWNED")
  | None => inl (inspection_error INSPECTION_PROVIDER_MISMATCH "HOST_NOT_OWNED")
  end.

(** Source: backend/src/fetchnow/media_inspection/registry.py:251-261 [DEFAULT_YTDLP_EXTRACTOR_KEYS] *)
Definition DEFAULT_YTDLP_EXTRACTOR_KEYS (provider_id : string) : option (list string) :=
  if String.eqb provider_id (provider_value VK) then Some ["vk"]
  else if String.eqb provider_id (provider_value RUTUBE) then Some ["rutube"]
  else if String.eqb provider_id (provider_value OK) then Some ["odnoklassniki"]
  else if String.eqb provider_id (provider_value DZEN) then Some ["dzen.ru"]
  else None.

(** Source: backend/src/fetchnow/media_inspection/defaults.py:17-52 [build_default_inspection_registry]
    One extractor per provider, built from the same allowlist. *)
Definition build_default_inspection_registry (providers_ : ProviderRegistry)
    (ytdlp_extractor : list string -> MediaExtractor) : exn + t :=
  from_provider_registry providers_ (fun id => ytdlp_extractor <$> DEFAULT_YTDLP_EXTRACTOR_KEYS id)
    DEFAULT_YTDLP_EXTRACTOR_KEYS.
End InspectionExtractorRegistry.

(** ** service.py *)

Module MediaInspectionService.
Import MediaIdentity InspectionExtractorRegistry.

Definition mismatch (reason : string) : exn := inspection_error INSPECTION_PROVIDER_MISMATCH reason.
Definition rejected (reason : string) : exn := inspection_error INSPECTION_POLICY_REJECTED reason.

Section Service.
Context `{Idna} (settings : UrlSettings) (media : MediaSettings) (registry : InspectionExtractorRegistry.t).

Definition allowed_schemes : list text := lower_text <$> url_allowed_schemes settings.

(** Source: backend/src/fetchnow/media_inspection/service.py:106-135 [_bind_target]
    The provider named three times, and the canonical URL twice. *)
Definition coherent_fields (resolution : ResolutionResult) : exn + string :=
  let url := vr_url (rr_validated resolution) in
  let provider_id := strip_lower (rr_provider_id resolution) in
  raise_if (negb (String.eqb provider_id (strip_lower (vr_provider_id (rr_validated resolution)))) ||
            negb (String.eqb provider_id (strip_lower (nu_provider_id url)))) (mismatch "PROVIDER_FIELD_MISMATCH") ;;?
  let public_canonical := rr_canonical_provider_url resolution in
  let structured_canonical := nu_canonical url in
  raise_if (has "?"%char public_canonical || has "#"%char public_canonical ||
            has "?"%char structured_canonical || has "#"%char structured_canonical)
    (rejected "CANONICAL_QUERY_OR_FRAGMENT") ;;?
  raise_if (negb (bool_decide (public_canonical = structured_canonical))) (mismatch "CANONICAL_FIELD_MISMATCH") ;;?
  inr provider_id.

(** Source: backend/src/fetchnow/media_inspection/service.py:140-177 [_bind_target]
    The canonical URL parsed again agrees with the snapshot. *)
Definition reparse (url : NormalizedMediaURL) : exn + ParsedURL :=
  let? reparsed :=
    match parse_and_normalize (nu_canonical url) allowed_schemes (url_allowed_ports settings)
            (url_max_length settings) with
    | inl (URLValidationError _ _) => inl (rejected "CANONICAL_REPARSE_FAILED")
    | r => r
    end in
  raise_if (negb (bool_decide (pu_scheme reparsed = nu_scheme url))) (mismatch "SCHEME_FIELD_MISMATCH") ;;?
  raise_if (negb (bool_decide (pu_hostname reparsed = nu_hostname url))) (mismatch "HOSTNAME_FIELD_MISMATCH") ;;?
  raise_if (negb (bool_decide (pu_port reparsed = nu_port url))) (mismatch "PORT_FIELD_MISMATCH") ;;?
  raise_if (negb (bool_decide (pu_path reparsed = nu_path url))) (mismatch "PATH_FIELD_MISMATCH") ;;?
  raise_if (negb (bool_decide (pu_canonical_without_query reparsed = nu_canonical url)))
    (mismatch "CANONICAL_REPARSE_MISMATCH") ;;?
  inr reparsed.

(** Source: backend/src/fetchnow/media_inspection/service.py:179-207 [_bind_target]
    Schemes and port keep to the policy. *)
Definition coherent_scheme (url : NormalizedMediaURL) (reparsed : ParsedURL) : exn + unit :=
  let original_scheme := lower_text (strip is_space (nu_original_scheme url)) in
  raise_if (negb (bool_decide (original_scheme ∈ allowed_schemes))) (rejected "ORIGINAL_SCHEME_INVALID") ;;?
  raise_if (negb (bool_decide (original_scheme = nu_scheme url)) ||
            negb (bool_decide (original_scheme = pu_original_scheme reparsed))) (mismatch "ORIGINAL_SCHEME_MISMATCH") ;;?
  raise_if (bool_decide (nu_scheme url = chars "http") && negb (bool_decide (chars "http" ∈ allowed_schemes)))
    (rejected "SCHEME_NOT_ALLOWED") ;;?
  raise_if (negb (bool_decide (nu_scheme url ∈ allowed_schemes))) (rejected "SCHEME_NOT_ALLOWED") ;;?
  raise_if (match nu_port url with
            | Some port => negb (bool_decide (port ∈ url_allowed_ports settings))
            | None => false
            end) (rejected "NONDEFAULT_PORT").

(** Source: backend/src/fetchnow/media_inspection/service.py:209-230 [_bind_target] *)
Definition target_of (provider_id : string) (url : NormalizedMediaURL) : exn + InspectionTarget :=
  let? binding := resolve registry provider_id (nu_hostname url) in
  let? identity := parse_provider_media_identity provider_id (nu_hostname url)
    (if is_nil (nu_path url) then ["/"%char] else nu_path url) (eb_exact_hostnames binding) in
  let? tool_canonical := build_canonical_provider_url (md_hostname identity) (md_canonical_path identity) in
  inr {| it_provider_id := provider_id; it_hostname := md_hostname identity; it_media_id := md_media_id identity;
         it_canonical_provider_url := tool_canonical; it_tool_url := tool_canonical;
         it_allowed_hostnames := eb_exact_hostnames binding |}.

(** Source: backend/src/fetchnow/media_inspection/service.py:99-230 [_bind_target] *)
Definition _bind_target (resolution : ResolutionResult) : exn + InspectionTarget :=
  let url := vr_url (rr_validated resolution) in
  let? provider_id := coherent_fields resolution in
  let? reparsed := reparse url in
  coherent_scheme url reparsed ;;?
  target_of provider_id url.

(** Source: backend/src/fetchnow/media_inspection/service.py:61-70 [inspect_draft]
    What becomes of an exception of [_bind_target]. *)
Definition snapshot_failure (e : exn) : exn :=
  match e with
  | InspectionError _ _ => e
  | _ => rejected "RESOLUTION_SNAPSHOT_INVALID"
  end.

(** Source: backend/src/fetchnow/media_inspection/service.py:77-96 [inspect_draft]
    The draft is of the target. *)
Definition draft_matches (target : InspectionTarget) (binding : ExtractorBinding) (draft : ExtractedMediaDraft)
    : exn + unit :=
  raise_if (negb (String.eqb (ed_provider_id draft) (it_provider_id target))) (mismatch "DRAFT_PROVIDER_MISMATCH") ;;?
  raise_if (negb (bool_decide (chars (ed_media_id draft) = it_media_id target))) (mismatch "DRAFT_MEDIA_MISMATCH") ;;?
  raise_if (negb (bool_decide (chars (ed_canonical_provider_url draft) = it_canonical_provider_url target)))
    (mismatch "DRAFT_CANONICAL_MISMATCH") ;;?
  raise_if (negb (bool_decide (lower (extractor_key draft) ∈ eb_allowed_extractor_keys binding)))
    (mismatch "DRAFT_EXTRACTOR_MISMATCH").

(** Source: backend/src/fetchnow/media_inspection/service.py:48-97 [inspect_draft] *)
Definition inspect_draft (resolution : ResolutionResult) : exn + ExtractedMediaDraft :=
  let? target := match _bind_target resolution with inl e => inl (snapshot_failure e) | r => r end in
  let? binding := resolve registry (it_provider_id target) (it_hostname target) in
  let? draft := ex_extract (eb_extractor binding) target in
  draft_matches target binding draft ;;?
  inr draft.

(** Source: backend/src/fetchnow/media_inspection/service.py:36-46 [inspect] *)
Definition inspect (resolution : ResolutionResult) : exn + MediaMetadata :=
  let? draft := inspect_draft resolution in
  project_metadata media draft (ed_canonical_provider_url draft) (ed_media_id draft) (ed_provider_id draft).
End Service.
End MediaInspectionService.

(** ** jobs/target_rebuild.py *)

Module TargetRebuild.
Import MediaIdentity InspectionExtractorRegistry.

(** Source: backend/src/fetchnow/jobs/target_rebuild.py:29-35 [rebuild_resolution_result]
    The target columns of a stored job. *)
Record StoredTarget := {
  st_provider_id : string;
  st_canonical_provider_url : text;
  st_media_id : text;
  st_hostname : text;
  st_path : text;
  st_scheme : text;
  st_port : option Z
}.

Definition persisted {A} (reason : string) : exn + A := inl (job_error JOB_INTERNAL_ERROR reason).

Section Rebuild.
Context `{Idna} (settings : UrlSettings).
Context (inspection_registry : option InspectionExtractorRegistry.t) (provider_registry : option ProviderRegistry).
Context (validator : option (text -> exn + URLValidationResult)).

(** Source: backend/src/fetchnow/jobs/target_rebuild.py:45-102 [rebuild_resolution_result]
    The stored URL parsed again agrees with the stored columns. *)
Definition reparse_stored (t : StoredTarget) : exn + ParsedURL :=
  let url := st_canonical_provider_url t in
  if has "?"%char url || has "#"%char url then persisted "PERSISTED_QUERY_OR_FRAGMENT" else
  if has "?"%char (st_path t) || has "#"%char (st_path t) then persisted "PERSISTED_PATH_QUERY_OR_FRAGMENT" else
  let? parsed :=
    match parse_and_normalize url (lower_text <$> url_allowed_schemes settings) (url_allowed_ports settings)
            (url_max_length settings) with
    | inl (URLValidationError _ _) => persisted "PERSISTED_CANONICAL_REPARSE"
    | r => r
    end in
  if negb (is_nil (pu_query parsed)) then persisted "PERSISTED_QUERY_PRESENT" else
  if negb (bool_decide (pu_scheme parsed = lower_text (strip is_space (st_scheme t))))
  then persisted "PERSISTED_SCHEME_MISMATCH" else
  if negb (bool_decide (pu_hostname parsed = rstrip_dots (lower_text (strip is_space (st_hostname t)))))
  then persisted "PERSISTED_HOST_MISMATCH" else
  if negb (bool_decide (pu_port parsed = st_port t)) then persisted "PERSISTED_PORT_MISMATCH" else
  if negb (bool_decide (pu_path parsed = st_path t)) then persisted "PERSISTED_PATH_MISMATCH" else
  if negb (bool_decide (pu_canonical_without_query parsed = url)) then persisted "PERSISTED_CANONICAL_MISMATCH" else
  inr parsed.

(** The display name of the host's provider, if there is a registry and one. *)
Definition display_name (host : text) (default_name : string) : string :=
  match provider_registry with
  | Some registry =>
      match find_provider registry host with Some descriptor => pd_display_name descriptor | None => default_name end
  | None => default_name
  end.

(** Source: backend/src/fetchnow/jobs/target_rebuild.py:108-134 [rebuild_resolution_result]
    The hosts of the provider that owns the target: those of the inspection
    registry, else those of the provider registry. The assertion of line 134
    can not fail. *)
Definition owning_hosts (pid : string) (host : text) : exn + list text :=
  let bound :=
    match inspection_registry with
    | Some registry =>
        match resolve registry pid host with
        | inr binding => Some (eb_exact_hostnames binding)
        | inl _ => None
        end
    | None => None
    end in
  match bound with
  | Some hosts => inr hosts
  | None =>
      let unsupported := inl (resolution_error RESOLVED_PROVIDER_UNSUPPORTED "PERSISTED_PROVIDER_NOT_OWNED") in
      match provider_registry with
      | Some registry =>
          match find_provider registry host with
          | Some descriptor =>
              if pd_enabled descriptor && String.eqb (pd_id descriptor) pid &&
                 is_some (DEFAULT_YTDLP_EXTRACTOR_KEYS pid)
              then inr (pd_exact_hostnames descriptor) else unsupported
          | None => unsupported
          end
      | None => unsupported
      end
  end.

(** Source: backend/src/fetchnow/jobs/target_rebuild.py:153-187 [rebuild_resolution_result]
    The URL validated again, or rebuilt from its parts. *)
Definition revalidate (t : StoredTarget) (pid : string) (parsed : ParsedURL) (name : string)
    : exn + URLValidationResult :=
  match validator with
  | Some validate =>
      let? validated :=
        match validate (st_canonical_provider_url t) with
        | inl (URLValidationError _ _) => persisted "PERSISTED_DNS_VALIDATION"
        | r => r
        end in
      if negb (String.eqb (vr_provider_id validated) pid) then persisted "PERSISTED_VALIDATED_PROVIDER" else
      if negb (bool_decide (nu_canonical (vr_url validated) = st_canonical_provider_url t))
      then persisted "PERSISTED_VALIDATED_CANONICAL" else
      inr validated
  | None =>
      inr {| vr_provider_id := pid;
             vr_provider_display_name := name;
             vr_url := {| nu_original_scheme := pu_original_scheme parsed; nu_scheme := pu_scheme parsed;
                          nu_hostname := pu_hostname parsed; nu_port := pu_port parsed; nu_path := pu_path parsed;
                          nu_query := []; nu_provider_id := pid; nu_canonical := st_canonical_provider_url t |};
             vr_head_fallback_statuses := [] |}
  end.

(** Source: backend/src/fetchnow/jobs/target_rebuild.py:27-199 [rebuild_resolution_result] *)
Definition rebuild_resolution_result (t : StoredTarget) : exn + ResolutionResult :=
  let? parsed := reparse_stored t in
  let pid := strip_lower (st_provider_id t) in
  let? host := normalize_hostname (st_hostname t) in
  let? allowed_hosts := owning_hosts pid host in
  let? identity := parse_provider_media_identity pid host
    (if is_nil (pu_path parsed) then ["/"%char] else pu_path parsed) allowed_hosts in
  if negb (bool_decide (md_media_id identity = st_media_id t)) then persisted "PERSISTED_MEDIA_ID_MISMATCH" else
  let? validated := revalidate t pid parsed (display_name host pid) in
  inr {| rr_submitted_url := st_canonical_provider_url t;
         rr_validated := validated;
         rr_provider_id := pid;
         rr_provider_display_name := vr_provider_display_name validated;
         rr_canonical_provider_url := st_canonical_provider_url t;
         rr_wrapper_type := None;
         rr_provenance := DIRECT_PROVIDER;
         rr_resolution_chain := [] |}.
End Rebuild.
End TargetRebuild.
