(* ===== verification/JobService.v ===== *)
(** The service behind the inspection endpoints (jobs/service.py): creating or
    recovering a job, reading it, and its public view. *)

From S2P Require Export Inspection DownloadService.

Local Open Scope string_scope.
Local Open Scope list_scope.
Local Open Scope Z_scope.

(** The text as the string of its UTF-8 bytes. *)
Definition encoded (l : text) : string := String.string_of_list_byte (encode_text l).

(** Source: backend/src/fetchnow/jobs/service.py:45-58 [JobView] *)
Record JobView := {
  jv_id : uid;
  jv_public_state : string;
  jv_provider_id : string;
  jv_created_at : time;
  jv_updated_at : time;
  jv_expires_at : time;
  jv_completed_at : option time;
  jv_result : option MediaMetadata;
  jv_error_code : option string;
  jv_created : bool
}.

(** Source: backend/src/fetchnow/jobs/service.py:75-103 [_provider_inspectable]
    The hosts of a provider that can be inspected. *)
Definition _provider_inspectable (provider_id : string) (hostname : text)
    (inspection_registry : option InspectionExtractorRegistry.t) (provider_registry : option ProviderRegistry)
    : exn + list text :=
  let pid := strip_lower provider_id in
  let unsupported reason := inl (resolution_error RESOLVED_PROVIDER_UNSUPPORTED reason) in
  match inspection_registry with
  | Some registry =>
      let? binding := InspectionExtractorRegistry.resolve registry pid hostname in
      inr (InspectionExtractorRegistry.eb_exact_hostnames binding)
  | None =>
      if is_none (InspectionExtractorRegistry.DEFAULT_YTDLP_EXTRACTOR_KEYS pid)
      then unsupported "NO_INSPECTION_BINDING" else
      match provider_registry with
      | None => unsupported "NO_PROVIDER_REGISTRY"
      | Some registry =>
          match find_provider registry hostname with
          | Some descriptor =>
              if negb (String.eqb (pd_id descriptor) pid) || negb (pd_enabled descriptor)
              then unsupported "PROVIDER_HOST_MISMATCH" else inr (pd_exact_hostnames descriptor)
          | None => unsupported "PROVIDER_HOST_MISMATCH"
          end
      end
  end.

Module MediaJobService.
Import JobStates MediaJobRepository MediaIdentity.

Definition all_job_codes : list JobErrorCode :=
  [JOB_NOT_FOUND; JOB_EXPIRED; CAPACITY_UNAVAILABLE; IDEMPOTENCY_CONFLICT; INVALID_ACCESS_TOKEN;
   MEDIA_INSPECTION_FAILED; DURATION_TOO_LONG; FILE_TOO_LARGE; JOB_INTERNAL_ERROR].

(** Source: backend/src/fetchnow/jobs/service.py:279-284 [_to_view]
    [JobErrorCode(str(code)).value], and the internal error of an unknown one. *)
Definition job_error_text (code : option string) : string :=
  let raw := default "None" code in
  if existsb (fun c => String.eqb (job_code_value c) raw) all_job_codes then raw
  else job_code_value JOB_INTERNAL_ERROR.

Section Service.
Context `{Idna} (settings : Settings) (urls : UrlSettings).
Context (capabilities : ProviderCapabilityRegistry.t).

(** Source: backend/src/fetchnow/jobs/service.py:255-296 [_to_view]
    The stored state is a member of its enumeration. A stored object with a
    field outside its declared type is not followed. *)
Definition _to_view (job : MediaJob) (created include_result : bool) : exn + JobView :=
  let state := mj_public_state job in
  let? result :=
    match mj_result_metadata job with
    | Some (JObj members) =>
        if include_result && bool_decide (state = INSPECTED) then
          let? read := media_metadata_from_jsonable (JObj members) (media_job_result_max_bytes settings) in
          match read with Some metadata => inr (Some metadata) | None => inl UnexpectedError end
        else inr None
    | _ => inr None
    end in
  let error_code := if bool_decide (state = FAILED) then Some (job_error_text (mj_public_error_code job)) else None in
  inr {| jv_id := mj_id job; jv_public_state := value state; jv_provider_id := mj_provider_id job;
         jv_created_at := mj_created_at job; jv_updated_at := mj_updated_at job;
         jv_expires_at := mj_expires_at job; jv_completed_at := mj_completed_at job;
         jv_result := result; jv_error_code := error_code; jv_created := created |}.

(** Source: backend/src/fetchnow/jobs/service.py:138-152 [create_job]
    The request as the fingerprint covers it. *)
Definition normalized_request (raw_url : text) : exn + text :=
  match parse_and_normalize raw_url (url_allowed_schemes urls) (url_allowed_ports urls) (url_max_length urls) with
  | inr parsed =>
      inr (pu_canonical_without_query parsed ++
           (if is_nil (pu_query parsed) then [] else "?"%char :: pu_query parsed))
  | inl (URLValidationError _ _) => inr (strip is_space raw_url)
  | inl e => inl e
  end.

(** The target columns of a new job, as the arguments of [enqueue_or_get]. *)
Record JobTarget := {
  jt_provider_id : string;
  jt_canonical : text;
  jt_media_id : text;
  jt_hostname : text;
  jt_path : text
}.

(** Source: backend/src/fetchnow/jobs/service.py:167-204 [create_job]
    The target of a resolved URL: the tool-facing https URL of its identity. *)
Definition job_target (resolution : ResolutionResult)
    (inspection_registry : option InspectionExtractorRegistry.t) (provider_registry : option ProviderRegistry)
    : exn + JobTarget :=
  let url := vr_url (rr_validated resolution) in
  let provider_id := strip_lower (rr_provider_id resolution) in
  let inspection_failed {A} (reason : string) (r : exn + A) : exn + A :=
    match r with
    | inl (InspectionError _ _) => inl (resolution_error RESOLVED_PROVIDER_UNSUPPORTED reason)
    | _ => r
    end in
  let? allowed_hosts := inspection_failed "INSPECTION_UNSUPPORTED"
    (_provider_inspectable provider_id (nu_hostname url) inspection_registry provider_registry) in
  let? identity := inspection_failed "IDENTITY_PARSE_FAILED"
    (parse_provider_media_identity provider_id (nu_hostname url)
       (if is_nil (nu_path url) then ["/"%char] else nu_path url) allowed_hosts) in
  let? canonical := build_canonical_provider_url (md_hostname identity) (md_canonical_path identity) in
  raise_if (has "?"%char canonical || has "#"%char canonical)
    (job_error JOB_INTERNAL_ERROR "CANONICAL_QUERY_OR_FRAGMENT") ;;?
  inr {| jt_provider_id := provider_id; jt_canonical := canonical; jt_media_id := md_media_id identity;
         jt_hostname := md_hostname identity; jt_path := md_canonical_path identity |}.

(** Source: backend/src/fetchnow/jobs/service.py:206-221 [create_job] *)
Definition enqueue_args (target : JobTarget) (credential_hash fingerprint : bytes) (now : time) : EnqueueArgs :=
  {| eq_credential_hash := credential_hash;
     eq_request_fingerprint := fingerprint;
     eq_provider_id := jt_provider_id target;
     eq_canonical_provider_url := of_chars (jt_canonical target);
     eq_media_id := of_chars (jt_media_id target);
     eq_hostname := of_chars (jt_hostname target);
     eq_path := of_chars (jt_path target);
     eq_scheme := "https";
     eq_port := None;
     eq_now := now;
     eq_ttl_seconds := media_job_absolute_ttl_seconds settings;
     eq_max_attempts := media_job_max_attempts settings |}.

(** Source: backend/src/fetchnow/jobs/service.py:120-225 [create_job] *)
Definition create_job (raw_url : text) (access_token : string)
    (resolve : text -> exn + ResolutionResult)
    (inspection_registry : option InspectionExtractorRegistry.t) (provider_registry : option ProviderRegistry)
    : DB JobView :=
  raise_when (negb (media_jobs_enabled settings)) (job_error CAPACITY_UNAVAILABLE "MEDIA_JOBS_DISABLED") ;;;
  let* credential_hash := lift (hash_access_token access_token) in
  let* request := lift (normalized_request raw_url) in
  let* fingerprint := lift (hash_request_fingerprint access_token (encoded request)) in
  let* existing := get_by_credential_hash credential_hash in
  match existing with
  | Some existing =>
      raise_when (negb (tokens_match (mj_request_fingerprint existing) fingerprint))
        (job_error IDEMPOTENCY_CONFLICT "FINGERPRINT_MISMATCH") ;;;
      lift (_to_view existing false true)
  | None =>
      let* resolution := lift (resolve raw_url) in
      let* target := lift (job_target resolution inspection_registry provider_registry) in
      let* now := database_now in
      let* (job, created) := enqueue_or_get (enqueue_args target credential_hash fingerprint now) in
      lift (_to_view job created true)
  end.

(** Source: backend/src/fetchnow/jobs/service.py:227-253 [get_job] *)
Definition get_job (job_id : uid) (access_token : string) : DB JobView :=
  let* credential_hash := lift (hash_access_token access_token) in
  let* job := get_by_id job_id in
  match job with
  | None => raise (job_error JOB_NOT_FOUND "MISSING_OR_UNAUTHORIZED")
  | Some job =>
      raise_when (negb (tokens_match (mj_credential_hash job) credential_hash))
        (job_error JOB_NOT_FOUND "MISSING_OR_UNAUTHORIZED") ;;;
      let* now := database_now in
      raise_when (bool_decide (mj_public_state job = EXPIRED) || (mj_expires_at job <=? now))
        (job_error JOB_EXPIRED "JOB_TTL") ;;;
      lift (_to_view job false true)
  end.

(** Source: backend/src/fetchnow/jobs/service.py:298-324 [job_to_public_dict] *)
Definition job_to_public_dict (view : JobView) : exn + list (string * Json) :=
  let? provider_capabilities := project_provider_capabilities capabilities (jv_provider_id view) in
  let? result :=
    match jv_result view with
    | Some metadata =>
        let? members := media_metadata_to_jsonable metadata (media_job_result_max_bytes settings) in
        inr (JObj members)
    | None => inr JNull
    end in
  inr [("id", JStr (uuid_text (jv_id view))); ("state", JStr (jv_public_state view));
       ("createdAt", DownloadJobService.json_time (jv_created_at view));
       ("updatedAt", DownloadJobService.json_time (jv_updated_at view));
       ("expiresAt", DownloadJobService.json_time (jv_expires_at view));
       ("completedAt", DownloadJobService.json_opt_time (jv_completed_at view));
       ("errorCode", json_opt_str (jv_error_code view));
       ("providerCapabilities", provider_capabilities); ("result", result)].
End Service.

(** The target of a stored job, as the worker reads it back. *)
Definition stored_target (job : MediaJob) : TargetRebuild.StoredTarget :=
  {| TargetRebuild.st_provider_id := mj_provider_id job;
     TargetRebuild.st_canonical_provider_url := chars (mj_canonical_provider_url job);
     TargetRebuild.st_media_id := chars (mj_media_id job);
     TargetRebuild.st_hostname := chars (mj_hostname job);
     TargetRebuild.st_path := chars (mj_path job);
     TargetRebuild.st_scheme := chars (mj_scheme job);
     TargetRebuild.st_port := mj_port job |}.
End MediaJobService.
