(* ===== verification/Worker.v ===== *)
(** The inspection side of the worker (jobs/worker_loop.py): claiming within the
    free slots, one claimed job from the rebuilt target to the stored result,
    the lease heartbeat, and the hygiene steps of a poll.

    Each block with its own session is one transaction. The interleaving inside
    [_run_claimed] is the outcome of its wait: the work came first, the lease was
    lost, or the task was cancelled. Statements of other tasks run between the
    transactions. *)

From S2P Require Export JobService Reconcile Grants.

Local Open Scope string_scope.
Local Open Scope list_scope.
Local Open Scope Z_scope.

(** [timedelta(seconds=x)] of a finite float, in microseconds: the whole seconds
    exactly, the rest rounded to even. *)
Definition timedelta_seconds (x : float) : time :=
  let whole := fl_trunc x in
  seconds whole + fl_round (fl_mul (SFsub prec emax x (fl_int whole)) (fl_int 1000000)).

(** Source: backend/src/fetchnow/core/config.py:247-276 [Settings]
    The settings of the worker that no other component reads. *)
Record WorkerSettings := {
  worker_concurrency : Z;
  media_inspection_enabled : bool;
  media_job_lease_seconds : float;
  media_job_retry_base_seconds : float;
  media_job_retry_max_seconds : float;
  media_download_concurrency : Z;
  media_download_lease_seconds : float
}.

#[export] Instance InspectionErrorKind_eq_dec : EqDecision InspectionErrorKind.
Proof. solve_decision. Defined.

(** Source: backend/src/fetchnow/jobs/worker_loop.py:39-46 [_RETRYABLE_KINDS] *)
Definition _RETRYABLE_KINDS : list InspectionErrorKind :=
  [INSPECTION_TIMEOUT; INSPECTION_TOOL_UNAVAILABLE; INSPECTION_MEDIA_UNAVAILABLE; INTERNAL_INSPECTION_ERROR].

(** Source: backend/src/fetchnow/jobs/worker_loop.py:49-60 [_public_inspection_error_code]
    No reason is the empty one. *)
Definition _public_inspection_error_code (kind : InspectionErrorKind) (internal_reason : string) : JobErrorCode :=
  if bool_decide (kind = INSPECTION_POLICY_REJECTED) then
    if String.eqb internal_reason "DURATION_TOO_LONG" then DURATION_TOO_LONG
    else if bool_decide (internal_reason ∈ ["SOURCE_TOO_LARGE"; "FILE_TOO_LARGE"; "BYTES_TOO_LARGE"]) then FILE_TOO_LARGE
    else MEDIA_INSPECTION_FAILED
  else MEDIA_INSPECTION_FAILED.

(** Source: backend/src/fetchnow/jobs/worker_loop.py:63-69 [_retry_backoff_seconds] *)
Definition _retry_backoff_seconds (ws : WorkerSettings) (attempt_count : Z) : exn + float :=
  let base := media_job_retry_base_seconds ws in
  let maximum := media_job_retry_max_seconds ws in
  let exp := Z.max 0 (attempt_count - 1) in
  let? factor := float_of_int (2 ^ exp) in
  let delay := fl_mul base factor in
  inr (fl_min maximum (fl_max base delay)).

(** Source: backend/src/fetchnow/jobs/worker_loop.py:76-87 [_ClaimedSnapshot] *)
Record _ClaimedSnapshot := {
  sn_job_id : uid;
  sn_fence : Z;
  sn_target : TargetRebuild.StoredTarget;
  sn_attempt_count : Z
}.

(** Source: backend/src/fetchnow/jobs/worker_loop.py:391-405 [_claim_inspection_jobs] *)
Definition snapshot_of (job : MediaJob) : _ClaimedSnapshot :=
  {| sn_job_id := mj_id job; sn_fence := mj_fence_token job; sn_target := MediaJobService.stored_target job;
     sn_attempt_count := mj_attempt_count job |}.

(** How the wait of [_run_claimed] ends: the work ended first, with its result
    or exception; the heartbeat ended first (or both) without the lease; the
    task was cancelled, perhaps just after its result was committed. *)
Inductive WorkOutcome :=
| Finished (r : exn + list (string * Json))
| LeaseLost
| Interrupted (stored : option (list (string * Json))).

(** How the task ends. *)
Inductive TaskEnd := Returned | Cancelled.

(** ** The slots for one kind of work *)

(** Source: backend/src/fetchnow/jobs/worker_loop.py:147-152 [MediaJobWorkerRunner.__init__]
    The active tasks with the job and fence they work on, and the value of the
    semaphore. *)
Record Slots := {
  active : gmap nat (uid * Z);
  semaphore : Z;
  next_task : nat
}.

Definition new_slots (concurrency : Z) : Slots := {| active := ∅; semaphore := concurrency; next_task := 0 |}.

(** Source: backend/src/fetchnow/jobs/worker_loop.py:377-377 [_claim_inspection_jobs] *)
Definition free_slots (concurrency : Z) (slots : Slots) : Z := concurrency - Z.of_nat (size (active slots)).

(** Source: backend/src/fetchnow/jobs/worker_loop.py:407-424 [_claim_inspection_jobs]
    The tasks of the claimed jobs; [None] when the semaphore would block. *)
Fixpoint start_tasks (slots : Slots) (work : list (uid * Z)) : option Slots :=
  match work with
  | [] => Some slots
  | w :: work =>
      if semaphore slots <? 1 then None
      else start_tasks {| active := <[next_task slots := w]> (active slots); semaphore := semaphore slots - 1;
                          next_task := S (next_task slots) |} work
  end.

(** Source: backend/src/fetchnow/jobs/worker_loop.py:476-480 [_on_inspection_done] *)
Definition task_done (slots : Slots) (task : nat) : Slots :=
  match active slots !! task with
  | None => slots
  | Some _ => {| active := delete task (active slots); semaphore := semaphore slots + 1; next_task := next_task slots |}
  end.

Module MediaJobWorkerRunner.
Import MediaJobRepository.

Section Worker.
Context `{Idna} (settings : Settings) (urls : UrlSettings) (media : MediaSettings) (ws : WorkerSettings).
Context (_worker_id : string).
Context (_inspection_registry : InspectionExtractorRegistry.t) (_providers : ProviderRegistry).
Context (_validator : text -> exn + URLValidationResult).

(** Source: backend/src/fetchnow/jobs/worker_loop.py:654-674 [_execute_inspection] *)
Definition _execute_inspection (snap : _ClaimedSnapshot) : exn + list (string * Json) :=
  let? resolution := TargetRebuild.rebuild_resolution_result urls (Some _inspection_registry) (Some _providers)
    (Some _validator) (sn_target snap) in
  let? metadata := MediaInspectionService.inspect urls media _inspection_registry resolution in
  media_metadata_to_jsonable metadata (media_job_result_max_bytes settings).

(** Source: backend/src/fetchnow/jobs/worker_loop.py:676-698 [_lease_heartbeat]
    One turn of the loop; [false] ends it. *)
Definition heartbeat (snap : _ClaimedSnapshot) : DB bool :=
  try_catch
    (begin_nested (
       let* _ := database_now in
       renew_lease (sn_job_id snap) _worker_id (sn_fence snap) (timedelta_seconds (media_job_lease_seconds ws))))
    (fun _ => Some (ret false)).

(** Source: backend/src/fetchnow/jobs/worker_loop.py:726-760 [_handle_inspection_failure] *)
Definition _handle_inspection_failure (job_id : uid) (fence : Z) (kind : InspectionErrorKind)
    (attempt_count : Z) (internal_reason : string) : DB unit :=
  let public_code := job_code_value (_public_inspection_error_code kind internal_reason) in
  begin_nested (
    let* now := database_now in
    if bool_decide (kind ∈ _RETRYABLE_KINDS) then
      let* backoff := lift (_retry_backoff_seconds ws attempt_count) in
      let* _ := fail_retry job_id _worker_id fence now (timedelta_seconds backoff) public_code in
      ret tt
    else
      let* _ := fail_permanent job_id _worker_id fence public_code in
      ret tt).

(** Source: backend/src/fetchnow/jobs/worker_loop.py:762-773 [_fail_permanent] *)
Definition _fail_permanent (job_id : uid) (fence : Z) : DB unit :=
  begin_nested (
    let* _ := database_now in
    let* _ := fail_permanent job_id _worker_id fence (job_code_value MEDIA_INSPECTION_FAILED) in
    ret tt).

(** Source: backend/src/fetchnow/jobs/worker_loop.py:775-791 [_release_cancel] *)
Definition _release_cancel (job_id : uid) (fence : Z) : DB unit :=
  try_catch
    (begin_nested (
       let* now := database_now in
       let* _ := release_to_queued job_id _worker_id fence now in
       ret tt))
    (fun _ => Some (ret tt)).

(** Source: backend/src/fetchnow/jobs/worker_loop.py:533-543 [_run_claimed] *)
Definition store_result (snap : _ClaimedSnapshot) (payload : list (string * Json)) : DB unit :=
  begin_nested (
    let* _ := database_now in
    let* _ := complete (sn_job_id snap) _worker_id (sn_fence snap) (JObj payload) in
    ret tt).

(** Source: backend/src/fetchnow/jobs/worker_loop.py:563-587 [_run_claimed]
    The handlers of the exceptions of the work and of its storing. *)
Definition on_exception (snap : _ClaimedSnapshot) (e : exn) : DB unit :=
  match e with
  | InspectionError kind internal_reason =>
      if bool_decide (kind = INSPECTION_CANCELLED) then _release_cancel (sn_job_id snap) (sn_fence snap)
      else _handle_inspection_failure (sn_job_id snap) (sn_fence snap) kind (sn_attempt_count snap) internal_reason
  | JobError _ _ _ => _fail_permanent (sn_job_id snap) (sn_fence snap)
  | _ => _handle_inspection_failure (sn_job_id snap) (sn_fence snap) INTERNAL_INSPECTION_ERROR (sn_attempt_count snap) ""
  end.

(** Source: backend/src/fetchnow/jobs/worker_loop.py:506-596 [_run_claimed] *)
Definition _run_claimed (stopping : bool) (snap : _ClaimedSnapshot) (outcome : WorkOutcome) : DB TaskEnd :=
  if stopping then _release_cancel (sn_job_id snap) (sn_fence snap) ;;; ret Returned
  else
    match outcome with
    | LeaseLost => ret Returned
    | Interrupted stored =>
        match stored with
        | Some payload => try_catch (store_result snap payload) (fun _ => Some (ret tt))
        | None => ret tt
        end ;;;
        _release_cancel (sn_job_id snap) (sn_fence snap) ;;; ret Cancelled
    | Finished r =>
        try_catch (let* payload := lift r in store_result snap payload)
          (fun e => Some (on_exception snap e)) ;;;
        ret Returned
    end.

(** ** The tasks of the worker *)

(** Source: backend/src/fetchnow/jobs/worker_loop.py:378-405 [_claim_inspection_jobs] *)
Definition claim_snapshots (locked : uid -> bool) (free_slots : Z) : DB (list _ClaimedSnapshot) :=
  if free_slots <? 1 then ret []
  else
    begin_nested (
      let* now := database_now in
      let* claimed := claim_next locked _worker_id (timedelta_seconds (media_job_lease_seconds ws)) now free_slots in
      ret (snapshot_of <$> claimed)).

(** Source: backend/src/fetchnow/jobs/worker_loop.py:376-424 [_claim_inspection_jobs]
    The claimed jobs, and the slots with their tasks. *)
Definition _claim_inspection_jobs (locked : uid -> bool) (slots : Slots) : DB (list _ClaimedSnapshot * option Slots) :=
  let* snaps := claim_snapshots locked (free_slots (worker_concurrency ws) slots) in
  ret (snaps, start_tasks slots ((fun snap => (sn_job_id snap, sn_fence snap)) <$> snaps)).

(** Source: backend/src/fetchnow/jobs/worker_loop.py:426-474 [_claim_download_jobs]
    [free_space]: the answer of the artifact store. *)
Definition _claim_download_jobs (locked : uid -> bool) (free_space : bool) (slots : Slots)
    : DB (list MediaDownloadJob * option Slots) :=
  let free := free_slots (media_download_concurrency ws) slots in
  if (free <? 1) || negb free_space then ret ([], Some slots)
  else
    let* claimed :=
      begin_nested (
        let* now := MediaDownloadJobRepository.database_now in
        MediaDownloadJobRepository.claim_next locked _worker_id
          (timedelta_seconds (media_download_lease_seconds ws)) now free) in
    ret (claimed, start_tasks slots ((fun job => (dj_id job, dj_fence_token job)) <$> claimed)).

(** Source: backend/src/fetchnow/jobs/worker_loop.py:700-724 [_download_lease_heartbeat]
    One turn of the loop; [false] ends it. *)
Definition download_heartbeat (job_id : uid) (fence : Z) : DB bool :=
  try_catch
    (begin_nested (
       let* _ := MediaDownloadJobRepository.database_now in
       MediaDownloadJobRepository.renew_lease job_id _worker_id fence
         (timedelta_seconds (media_download_lease_seconds ws))))
    (fun _ => Some (ret false)).

(** Source: backend/src/fetchnow/jobs/worker_loop.py:793-811 [_release_download_cancel] *)
Definition _release_download_cancel (job_id : uid) (fence : Z) : DB unit :=
  try_catch
    (begin_nested (
       let* now := MediaDownloadJobRepository.database_now in
       let* _ := MediaDownloadJobRepository.release_to_queued job_id _worker_id fence now in
       ret tt))
    (fun _ => Some (ret tt)).

(** ** Hygiene *)

(** Source: backend/src/fetchnow/jobs/worker_loop.py:228-234 [_poll_once] *)
Definition job_hygiene (locked : uid -> bool) : DB unit :=
  begin_nested (
    let* now := database_now in
    let* _ := reclaim_expired_leases locked now in
    let* _ := expire_due_jobs locked now in
    ret tt).

(** What the artifact store is asked to do. *)
Inductive StoreCall :=
| delete_artifact (artifact_id : uid)
| reconcile (referenced_artifact_ids : list uid) (active_attempts : list (uid * Z)) (limit : Z).

(** Source: backend/src/fetchnow/jobs/worker_loop.py:280-335 [_hygiene_download_jobs]
    The calls to the store; what they answer is only logged. *)
Definition _hygiene_download_jobs (locked : uid -> bool) (active_download : list (uid * Z)) : DB (list StoreCall) :=
  let* (artifacts, fences, referenced) :=
    begin_nested (
      let* now := MediaDownloadJobRepository.database_now in
      let* _ := MediaDownloadJobRepository.reclaim_expired_leases locked now in
      let* expired_artifacts := MediaDownloadJobRepository.expire_due_jobs locked now in
      let* active_fences := MediaDownloadJobRepository.list_active_fences in
      let* referenced_artifacts := MediaDownloadJobRepository.list_referenced_artifact_ids in
      ret (expired_artifacts, active_fences, referenced_artifacts)) in
  ret ((delete_artifact <$> artifacts) ++ [reconcile referenced (fences ++ active_download) 64]).

(** Source: backend/src/fetchnow/jobs/worker_loop.py:337-349 [_hygiene_browser_grants] *)
Definition _hygiene_browser_grants (locked : uid -> bool) : DB unit :=
  if negb (media_browser_delivery_enabled settings) then ret tt
  else
    begin_nested (
      let* now := BrowserGrantRepository.database_now in
      let* _ := BrowserGrantRepository.delete_expired_batch locked now 64 in
      ret tt).

(** Source: backend/src/fetchnow/jobs/worker_loop.py:351-357 [_hygiene_free_quota] *)
Definition _hygiene_free_quota (locked_entries locked_clients : uid -> bool) : DB unit :=
  begin_nested (let* _ := QuotaReconciler.run settings locked_entries locked_clients 64 in ret tt).

(** Source: backend/src/fetchnow/jobs/worker_loop.py:264-278 [_run_hygiene_step]
    A fault of a step is logged; [d] stands for what it did not do. *)
Definition _run_hygiene_step {A} (d : A) (step : DB A) : DB A := try_catch step (fun _ => Some (ret d)).

(** Source: backend/src/fetchnow/jobs/worker_loop.py:98-153 [MediaJobWorkerRunner] *)
Record Runner := {
  _active_inspection : Slots;
  _active_download : Slots
}.

(** What a poll does: the calls to the artifact store, the claimed jobs and the
    slots they take. *)
Record Poll := {
  pl_store : list StoreCall;
  pl_inspections : list _ClaimedSnapshot * option Slots;
  pl_downloads : list MediaDownloadJob * option Slots
}.

(** Source: backend/src/fetchnow/jobs/worker_loop.py:227-262 [_poll_once]
    Other processes hold rows locked, other ones at each step. *)
Definition _poll_once (locks : nat -> uid -> bool) (free_space : bool) (runner : Runner) : DB Poll :=
  (if media_jobs_enabled settings then job_hygiene (locks 0%nat) else ret tt) ;;;
  let* calls :=
    if media_downloads_enabled settings then
      let* calls := _run_hygiene_step []
        (_hygiene_download_jobs (locks 1%nat) (map_to_list (active (_active_download runner))).*2) in
      _run_hygiene_step tt (_hygiene_free_quota (locks 2%nat) (locks 3%nat)) ;;;
      _run_hygiene_step tt (_hygiene_browser_grants (locks 4%nat)) ;;;
      ret calls
    else ret [] in
  let* inspections :=
    if media_jobs_enabled settings && media_inspection_enabled ws
    then _claim_inspection_jobs (locks 5%nat) (_active_inspection runner)
    else ret ([], Some (_active_inspection runner)) in
  let* downloads :=
    if media_downloads_enabled settings && media_inspection_enabled ws
    then _claim_download_jobs (locks 6%nat) free_space (_active_download runner)
    else ret ([], Some (_active_download runner)) in
  ret {| pl_store := calls; pl_inspections := inspections; pl_downloads := downloads |}.
End Worker.
End MediaJobWorkerRunner.
