(* ===== verification/Tools.v ===== *)
(** The external tools: their trusted executables, the argument lists, the
    environment they get, and the checks on the files they leave
    (downloads/tool_executable.py, ytdlp_download_argv.py, ffmpeg_argv.py,
    ffprobe_argv.py, media_inspection/ytdlp_argv.py, ytdlp_adapter.py, process.py,
    the directory checks of downloads/artifacts.py).

    What the operating system answers - the attributes of a path, the entries of a
    directory - is an argument. *)

From S2P Require Export Inspection Selection.

Local Open Scope string_scope.
Local Open Scope list_scope.
Local Open Scope Z_scope.

(** ** Paths *)

(** [os.path.isabs(path)] *)
Definition isabs (path : string) : bool := starts_with ["/"%char] (chars path).

(** [s.startswith("-")] *)
Definition dashed (s : string) : bool := starts_with ["-"%char] (chars s).

(** The NUL byte is in [s]. *)
Definition has_nul (s : string) : bool := has "000"%char (chars s).

(** The components of a path as [pathlib] keeps them. *)
Definition path_parts (path : string) : list (list ascii) :=
  List.filter (fun part => negb (is_nil part) && negb (bool_decide (part = ["."%char]))) (split_on "/" (chars path)).

(** [Path(path).name] *)
Definition path_name (path : string) : string := of_chars (default [] (last (path_parts path))).

(** [str(Path(path))] of an absolute path: exactly two leading slashes stay. *)
Definition path_str (path : string) : string :=
  let root := match chars path with
              | "/"%char :: "/"%char :: "/"%char :: _ => "/"
              | "/"%char :: "/"%char :: _ => "//"
              | _ => "/"
              end in
  root ++ String.concat "/" (of_chars <$> path_parts path).

(** [directory / name] *)
Definition join_path (directory name : string) : string := directory ++ "/" ++ name.

(** ** Trusted executables *)

Inductive FileKind := Regular | Directory | SymbolicLink | OtherFile.

(** The attributes of a path that the code looks at. *)
Record FileStat := {
  fs_kind : FileKind;
  fs_group_or_other_writable : bool;
  fs_trusted_owner : bool;   (** [st_uid in {0, os.getuid()}] *)
  fs_own : bool;             (** [st_uid == os.getuid()] *)
  fs_executable : bool;      (** [os.access(path, os.X_OK)] *)
  fs_nlink : Z;
  fs_size : Z
}.

(** [lstat] of a path. *)
Inductive PathStat := Missing | Unreadable | Found (st : FileStat).

#[export] Instance FileKind_eq_dec : EqDecision FileKind.
Proof. solve_decision. Defined.

Definition muxing_unavailable (reason : string) : exn := download_error MUXING_UNAVAILABLE reason.

(** Source: backend/src/fetchnow/downloads/tool_executable.py:15-77 [validate_trusted_executable]
    Missing and unreadable paths are [OSError]s of [os.lstat]. *)
Definition validate_trusted_executable (lstat : PathStat) (path kind : string) : exn + string :=
  if negb (bool_decide (kind ∈ ["ffmpeg"; "ffprobe"])) then inl (download_error DOWNLOAD_INTERNAL_ERROR "EXECUTABLE_KIND") else
  if String.eqb path "" then inl (muxing_unavailable "EXECUTABLE_UNSET") else
  if negb (isabs path) then inl (muxing_unavailable "EXECUTABLE_NOT_ABSOLUTE") else
  match lstat with
  | Missing | Unreadable => inl (muxing_unavailable "EXECUTABLE_STAT_FAILED")
  | Found st =>
      if bool_decide (fs_kind st = SymbolicLink) then inl (muxing_unavailable "EXECUTABLE_IS_SYMLINK") else
      if negb (bool_decide (fs_kind st = Regular)) then inl (muxing_unavailable "EXECUTABLE_NOT_REGULAR") else
      if fs_group_or_other_writable st then inl (muxing_unavailable "EXECUTABLE_WRITABLE") else
      if negb (fs_trusted_owner st) then inl (muxing_unavailable "EXECUTABLE_OWNER") else
      if negb (fs_executable st) then inl (muxing_unavailable "EXECUTABLE_NOT_EXECUTABLE") else
      let name := lower (path_name path) in
      if String.eqb kind "ffmpeg" && negb (String.eqb name "ffmpeg") then inl (muxing_unavailable "EXECUTABLE_NAME") else
      if String.eqb kind "ffprobe" && negb (String.eqb name "ffprobe") then inl (muxing_unavailable "EXECUTABLE_NAME") else
      inr (path_str path)
  end.

Definition tool_unavailable (reason : string) : exn := inspection_error INSPECTION_TOOL_UNAVAILABLE reason.

(** Source: backend/src/fetchnow/media_inspection/ytdlp_adapter.py:35-88 [validate_ytdlp_executable]
    A link is refused before its target is looked at. *)
Definition validate_ytdlp_executable (lstat : PathStat) (path : string) : exn + string :=
  if String.eqb path "" then inl (tool_unavailable "EXECUTABLE_UNSET") else
  if negb (isabs path) then inl (tool_unavailable "EXECUTABLE_NOT_ABSOLUTE") else
  match lstat with
  | Missing => inl (tool_unavailable "EXECUTABLE_MISSING")
  | Unreadable => inl (tool_unavailable "EXECUTABLE_STAT_FAILED")
  | Found st =>
      if bool_decide (fs_kind st = SymbolicLink) then inl (tool_unavailable "EXECUTABLE_IS_SYMLINK") else
      if negb (bool_decide (fs_kind st = Regular)) then inl (tool_unavailable "EXECUTABLE_NOT_REGULAR") else
      if fs_group_or_other_writable st then inl (tool_unavailable "EXECUTABLE_WRITABLE") else
      if negb (fs_trusted_owner st) then inl (tool_unavailable "EXECUTABLE_OWNER") else
      if negb (fs_executable st) then inl (tool_unavailable "EXECUTABLE_NOT_EXECUTABLE") else
      inr (path_str path)
  end.

(** ** Argument lists *)

(** [",".join(sorted(k.lower() for k in allowed_extractors))] *)
Definition extractor_list (allowed_extractors : list string) : string :=
  String.concat "," (sort_by (fun k => [KStr k]) (lower <$> allowed_extractors)).

Definition generic_allowed (allowed_extractors : list string) : bool :=
  existsb (fun k => String.eqb (lower k) "generic") allowed_extractors.

(** Source: backend/src/fetchnow/media_inspection/ytdlp_argv.py:6-68 [build_ytdlp_metadata_argv] *)
Definition build_ytdlp_metadata_argv (executable url : string) (allowed_extractors : list string)
    (socket_timeout_seconds : Z) (cache_dir : string) : exn + list string :=
  if String.eqb executable "" || dashed executable then inl (ValueError "executable path invalid") else
  if String.eqb url "" then inl (ValueError "url invalid") else
  if is_nil allowed_extractors then inl (ValueError "allowed extractors empty") else
  if generic_allowed allowed_extractors then inl (ValueError "generic extractor forbidden") else
  let ies := extractor_list allowed_extractors in
  let timeout := Z.max 1 socket_timeout_seconds in
  inr [executable; "--ignore-config"; "--no-config-locations"; "--no-plugin-dirs"; "--no-js-runtimes"; "--no-update";
       "--no-playlist"; "--skip-download"; "--dump-single-json"; "--no-write-info-json"; "--no-write-description";
       "--no-write-thumbnail"; "--no-write-comments"; "--no-write-playlist-metafiles"; "--no-write-subs";
       "--no-write-auto-subs"; "--no-progress"; "--quiet"; "--no-warnings"; "--cache-dir"; cache_dir; "--no-mtime";
       "--retries"; "0"; "--fragment-retries"; "0"; "--socket-timeout"; py_str timeout; "--default-search"; "error";
       "--use-extractors"; ies; "--no-cookies"; "--"; url].

(** Source: backend/src/fetchnow/downloads/ytdlp_download_argv.py:8-102 [build_ytdlp_download_argv] *)
Definition build_ytdlp_download_argv (executable url provider_format_token : string) (allowed_extractors : list string)
    (socket_timeout : Z) (cache_dir output_template : string) (max_filesize_bytes : Z) : exn + list string :=
  if String.eqb executable "" || dashed executable then inl (ValueError "executable path invalid") else
  if String.eqb url "" then inl (ValueError "url invalid") else
  let? token := match validate_provider_format_token provider_format_token with
                | inl (ValueError _) => inl (ValueError "provider format token invalid")
                | r => r
                end in
  if is_nil allowed_extractors then inl (ValueError "allowed extractors empty") else
  if generic_allowed allowed_extractors then inl (ValueError "generic extractor forbidden") else
  if String.eqb cache_dir "" then inl (ValueError "cache_dir invalid") else
  if String.eqb output_template "" || dashed output_template || has_nul output_template
  then inl (ValueError "output_template invalid") else
  if max_filesize_bytes <? 1 then inl (ValueError "max_filesize_bytes invalid") else
  let ies := extractor_list allowed_extractors in
  let timeout := Z.max 1 socket_timeout in
  inr [executable; "--ignore-config"; "--no-config-locations"; "--no-plugin-dirs"; "--no-js-runtimes"; "--no-update";
       "--no-playlist"; "--no-write-info-json"; "--no-write-description"; "--no-write-thumbnail"; "--no-write-comments";
       "--no-write-playlist-metafiles"; "--no-write-subs"; "--no-write-auto-subs"; "--no-part"; "--no-progress";
       "--quiet"; "--no-warnings"; "--cache-dir"; cache_dir; "--no-mtime"; "--retries"; "0"; "--fragment-retries"; "0";
       "--socket-timeout"; py_str timeout; "--max-filesize"; py_str max_filesize_bytes; "--default-search"; "error";
       "--use-extractors"; ies; "--no-cookies"; "-f"; token; "-o"; output_template; "--"; url].

(** Source: backend/src/fetchnow/downloads/ffmpeg_argv.py:27-37 [build_ffmpeg_mux_argv] *)
Definition local_file (path : string) : bool :=
  negb (String.eqb path "") && negb (dashed path) && negb (has_nul path) && isabs path.

(** Source: backend/src/fetchnow/downloads/ffmpeg_argv.py:10-69 [build_ffmpeg_mux_argv] *)
Definition build_ffmpeg_mux_argv (executable video_path audio_path output_path output_container : string)
    : exn + list string :=
  if String.eqb executable "" || dashed executable || negb (isabs executable)
  then inl (ValueError "executable path invalid") else
  if negb (bool_decide (output_container ∈ ["mp4"; "webm"])) then inl (ValueError "output container invalid") else
  if negb (local_file video_path) then inl (ValueError "video_path invalid") else
  if negb (local_file audio_path) then inl (ValueError "audio_path invalid") else
  if negb (local_file output_path) then inl (ValueError "output_path invalid") else
  inr [executable; "-hide_banner"; "-nostdin"; "-nostats"; "-loglevel"; "error"; "-n"; "-protocol_whitelist"; "file";
       "-i"; video_path; "-i"; audio_path; "-map"; "0:v:0"; "-map"; "1:a:0"; "-c"; "copy"; "-sn"; "-dn";
       "-map_metadata"; "-1"; "-map_metadata:s"; "-1"; "-map_chapters"; "-1"; "-f"; output_container; output_path].

(** Source: backend/src/fetchnow/downloads/ffprobe_argv.py:8-34 [build_ffprobe_argv] *)
Definition build_ffprobe_argv (executable input_path : string) : exn + list string :=
  if String.eqb executable "" || dashed executable || negb (isabs executable)
  then inl (ValueError "executable path invalid") else
  if String.eqb input_path "" || dashed input_path || negb (isabs input_path) then inl (ValueError "input path invalid") else
  if has_nul input_path then inl (ValueError "input path invalid") else
  inr [executable; "-hide_banner"; "-loglevel"; "error"; "-protocol_whitelist"; "file"; "-print_format"; "json";
       "-show_entries"; "stream=codec_type,codec_name:format=format_name,duration,size"; "-i"; input_path].

(** Source: backend/src/fetchnow/media_inspection/process.py:221-232 [build_sanitized_env] *)
Definition build_sanitized_env (home_dir tmp_dir : string) : list (string * string) :=
  [("HOME", home_dir); ("TMPDIR", tmp_dir); ("TEMP", tmp_dir); ("TMP", tmp_dir); ("LANG", "C.UTF-8");
   ("LC_ALL", "C.UTF-8"); ("PATH", "/usr/bin:/bin"); ("NETRC", join_path home_dir "nonexistent_netrc")].

(** Source: backend/src/fetchnow/media_inspection/process.py:235-255 [assert_env_has_no_secrets] *)
Definition assert_env_has_no_secrets (env : list (string * string)) : exn + unit :=
  raise_if (existsb (fun kv => bool_decide (kv.1 ∈ ["DATABASE_URL"; "POSTGRES_PASSWORD"; "PASSWORD"; "SECRET"; "API_KEY";
              "AWS_SECRET_ACCESS_KEY"; "HTTP_PROXY"; "HTTPS_PROXY"; "ALL_PROXY"; "http_proxy"; "https_proxy"; "all_proxy"])) env)
    (inspection_error INTERNAL_INSPECTION_ERROR "ENV_CONTAINS_SECRETS").

(** ** The results of a tool *)

(** Source: backend/src/fetchnow/media_inspection/protocols.py:48-60 [ProcessResult]
    What the callers look at. *)
Record ProcessResult := {
  exit_code : option Z;
  stdout : bytes;
  timed_out : bool;
  signal : option Z
}.

(** ** The files of a workspace (artifacts.py) *)

(** Source: backend/src/fetchnow/downloads/artifacts.py:89-102 [AttemptWorkspace] *)
Record AttemptWorkspace := {
  ws_job_id : uid;
  ws_attempt : Z;
  ws_fence : Z;
  ws_path : string;
  ws_home : string;
  ws_cache : string;
  ws_video : string;
  ws_audio : string;
  ws_mux : string;
  ws_output : string
}.

(** Source: backend/src/fetchnow/downloads/artifacts.py:358-396 [create_attempt_workspace] *)
Definition workspace_at (root : string) (job_id : uid) (attempt fence : Z) : AttemptWorkspace :=
  let path := join_path (join_path root (uuid_text job_id)) (py_str attempt ++ "_" ++ py_str fence)%string in
  {| ws_job_id := job_id; ws_attempt := attempt; ws_fence := fence; ws_path := path;
     ws_home := join_path path "home"; ws_cache := join_path path "cache"; ws_video := join_path path "video";
     ws_audio := join_path path "audio"; ws_mux := join_path path "mux"; ws_output := join_path path "output" |}.

(** Source: backend/src/fetchnow/downloads/artifacts.py:78-86 [PublishedArtifact] *)
Record PublishedArtifact := {
  pa_artifact_id : uid;
  pa_size_bytes : Z;
  pa_sha256_hex : string;
  pa_container : string;
  pa_content_type : string
}.

(** An entry of a directory: its name and its attributes, unless [lstat] fails. *)
Record DirEntry := {
  de_name : string;
  de_stat : option FileStat
}.

(** [entry.suffix.lstrip(".").lower()]: what follows the last dot, when the dot
    is neither the first nor the last character. *)
Definition file_suffix (name : string) : string :=
  match split_once "." (reverse (chars name)) with
  | (after, Some before) => if is_nil after || is_nil before then "" else lower (of_chars (reverse after))
  | (_, None) => ""
  end.

(** Source: backend/src/fetchnow/downloads/artifacts.py:551-600 [find_single_regular_file_in]
    The checks of one entry. *)
Definition check_entry (max_bytes : Z) (allowed_suffixes : list string) (error_code : DownloadErrorCode)
    (entry : DirEntry) : exn + unit :=
  match de_stat entry with
  | None => inl (download_error error_code "OUTPUT_STAT_FAILED")
  | Some st =>
      if bool_decide (fs_kind st = SymbolicLink) then inl (download_error error_code "SYMLINK_OUTPUT") else
      if bool_decide (fs_kind st = Directory) then inl (download_error error_code "NESTED_TREE") else
      if negb (bool_decide (fs_kind st = Regular)) then inl (download_error error_code "NON_REGULAR_OUTPUT") else
      if negb (fs_nlink st =? 1) then inl (download_error error_code "HARDLINK_OUTPUT") else
      if fs_size st <=? 0 then inl (download_error error_code "EMPTY_ARTIFACT") else
      if max_bytes <? fs_size st then inl (download_error DOWNLOAD_TOO_LARGE "ARTIFACT_TOO_LARGE") else
      if negb (fs_own st) then inl (download_error error_code "OUTPUT_OWNER") else
      if negb (bool_decide (file_suffix (de_name entry) ∈ allowed_suffixes))
      then inl (download_error error_code "EXTENSION_MISMATCH") else
      inr tt
  end.

Fixpoint check_entries (max_bytes : Z) (allowed_suffixes : list string) (error_code : DownloadErrorCode)
    (entries : list DirEntry) : exn + unit :=
  match entries with
  | [] => inr tt
  | entry :: entries =>
      check_entry max_bytes allowed_suffixes error_code entry ;;?
      check_entries max_bytes allowed_suffixes error_code entries
  end.

(** Source: backend/src/fetchnow/downloads/artifacts.py:540-618 [find_single_regular_file_in]
    [entries]: the listing of the directory, [None] an [OSError]. *)
Definition find_single_regular_file_in (max_bytes : Z) (directory : string) (entries : option (list DirEntry))
    (allowed_suffixes : list string) (error_code : DownloadErrorCode) : exn + string :=
  match entries with
  | None => inl (download_error error_code "OUTPUT_LIST_FAILED")
  | Some entries =>
      check_entries max_bytes allowed_suffixes error_code entries ;;?
      match entries with
      | [] => inl (download_error error_code "EMPTY_OUTPUT")
      | [entry] => inr (join_path directory (de_name entry))
      | _ => inl (download_error error_code "MULTIPLE_OUTPUTS")
      end
  end.

(** Source: backend/src/fetchnow/downloads/artifacts.py:47-56 [_CONTENT_TYPES] *)
Definition _CONTENT_TYPES (container : string) : option string :=
  if String.eqb container "mp4" then Some "video/mp4" else if String.eqb container "webm" then Some "video/webm" else
  if String.eqb container "mkv" then Some "video/x-matroska" else if String.eqb container "m4a" then Some "audio/mp4" else
  if String.eqb container "mp3" then Some "audio/mpeg" else if String.eqb container "ogg" then Some "audio/ogg" else
  if String.eqb container "opus" then Some "audio/ogg" else if String.eqb container "aac" then Some "audio/aac" else None.

(** Source: backend/src/fetchnow/downloads/artifacts.py:105-122 [content_type_for_container] *)
Definition content_type_for_container (container : string) (media_kind : MediaKind) : exn + string :=
  let key := strip_lower container in
  match _CONTENT_TYPES key with
  | None => inl (download_error DOWNLOAD_INVALID_OUTPUT "UNKNOWN_CONTAINER")
  | Some content_type =>
      inr (if bool_decide (media_kind = AUDIO_ONLY) then
             if String.eqb key "mp4" then "audio/mp4" else if String.eqb key "webm" then "audio/webm" else
             if String.eqb key "mkv" then "audio/x-matroska" else content_type
           else content_type)
  end.
