(* ===== verification/YtdlpParse.v ===== *)
(** What [yt-dlp] says of a media, read without trust
    (media_inspection/ytdlp_parse.py), and the extractor around the tool
    (media_inspection/ytdlp_adapter.py).

    [json.loads] of the decoded bytes is a parameter that tells its failures apart;
    the file system and the tool are answers of the surroundings. *)

From S2P Require Export Tools Probe.

Local Open Scope string_scope.
Local Open Scope list_scope.
Local Open Scope Z_scope.

Definition invalid_stdout {A} (internal_reason : string) : exn + A :=
  inl (inspection_error INSPECTION_INVALID_OUTPUT internal_reason).
Definition provider_mismatch {A} (internal_reason : string) : exn + A :=
  inl (inspection_error INSPECTION_PROVIDER_MISMATCH internal_reason).

(** Why the bytes cannot be decoded: an integer of more than 4300 digits is a
    [ValueError] that is no [JSONDecodeError]. *)
Inductive LoadError := NotUtf8 | NotJson | TooDeep | HugeNumber.

Definition load_failure (e : LoadError) : exn :=
  match e with
  | NotUtf8 => inspection_error INSPECTION_INVALID_OUTPUT "STDOUT_NOT_UTF8"
  | NotJson => inspection_error INSPECTION_INVALID_OUTPUT "STDOUT_NOT_JSON"
  | TooDeep => inspection_error INSPECTION_INVALID_OUTPUT "JSON_RECURSION"
  | HugeNumber => ValueError "Exceeds the limit for integer string conversion"
  end.

(** ** The structure of the document *)

(** Source: backend/src/fetchnow/media_inspection/ytdlp_parse.py:28-34 [_DEFAULT_MAX_JSON_DEPTH]
    The limits of a document; depth, nodes and format entries come from the
    settings. *)
Record JsonLimits := {
  max_json_depth : Z;
  max_json_nodes : Z;
  max_mapping_keys : nat;
  max_list_len : nat;
  max_string_len : nat;
  max_format_entries : nat
}.

Definition default_limits (depth nodes : Z) (format_entries : nat) : JsonLimits := {|
  max_json_depth := depth; max_json_nodes := nodes; max_mapping_keys := 256; max_list_len := 512;
  max_string_len := Z.to_nat 8192; max_format_entries := format_entries |}.

(** Source: backend/src/fetchnow/media_inspection/ytdlp_parse.py:50-122 [_assert_json_structure]
    [nodes]: the values seen so far. *)
Fixpoint walk_structure (limits : JsonLimits) (value : Json) (depth nodes : Z) : exn + Z :=
  let nodes := nodes + 1 in
  if max_json_nodes limits <? nodes then invalid_stdout "JSON_NODE_LIMIT"
  else if max_json_depth limits <? depth then invalid_stdout "JSON_DEPTH_LIMIT"
  else
    match value with
    | JStr s => if (max_string_len limits <? String.length s)%nat then invalid_stdout "JSON_STRING_LIMIT" else inr nodes
    | JObj members =>
        if (max_mapping_keys limits <? length members)%nat then invalid_stdout "JSON_KEYS_LIMIT"
        else each (fun kv nodes =>
               if (max_string_len limits <? String.length kv.1)%nat then invalid_stdout "JSON_KEY_LIMIT"
               else walk_structure limits kv.2 (depth + 1) nodes) members nodes
    | JArr l =>
        if (max_list_len limits <? length l)%nat then invalid_stdout "JSON_LIST_LIMIT"
        else each (fun child => walk_structure limits child (depth + 1)) l nodes
    | JFloat x => if fl_finite x then inr nodes else invalid_stdout "JSON_NONFINITE"
    | JBool _ | JInt _ | JNull => inr nodes
    end.

(** Source: backend/src/fetchnow/media_inspection/ytdlp_parse.py:37-47 [_reject_playlist] *)
Definition _reject_playlist (payload : list (string * Json)) : exn + unit :=
  let rejected internal_reason := inl (inspection_error INSPECTION_POLICY_REJECTED internal_reason) in
  if match json_get "_type" payload with Some (JStr s) => String.eqb s "playlist" | _ => false end
  then rejected "PLAYLIST_REJECTED"
  else match json_get "entries" payload with Some (JArr _) => rejected "PLAYLIST_ENTRIES" | _ => inr tt end.

(** ** Who answered, and about what *)

(** The label of a field, if it is there. *)
Definition extractor_label (raw : option Json) : exn + list string :=
  match raw with
  | None | Some JNull => inr []
  | Some (JStr s) => if String.eqb (strip_lower s) "" then invalid_stdout "EXTRACTOR_FIELD_INVALID" else inr [strip_lower s]
  | Some _ => invalid_stdout "EXTRACTOR_FIELD_INVALID"
  end.

Definition is_generic (value : string) : bool :=
  bool_decide (value ∈ ["generic"; "default"]) || starts_with (chars "generic") (chars value).

(** Source: backend/src/fetchnow/media_inspection/ytdlp_parse.py:125-174 [_extractor_key]
    The labels are at most two. *)
Definition _extractor_key (payload : list (string * Json)) (allowed : list string) : exn + string :=
  let? key := extractor_label (json_get "extractor_key" payload) in
  let? name := extractor_label (json_get "extractor" payload) in
  let values := key ++ name in
  if is_nil values then invalid_stdout "MISSING_EXTRACTOR_KEY" else
  if existsb is_generic values then provider_mismatch "GENERIC_EXTRACTOR" else
  match remove_dups values with
  | [key] => inr key
  | unique =>
      match List.filter (fun value => bool_decide (value ∈ allowed)) unique with
      | [key] => inr key
      | _ => provider_mismatch "EXTRACTOR_FIELD_CONFLICT"
      end
  end.

(** Source: backend/src/fetchnow/media_inspection/ytdlp_parse.py:24-26 [_SAFE_ID] *)
Definition _SAFE_ID : regex := Many 1 (Some 128%nat) (fun c => is_alnum c || is_one_of "._:-" c).
Definition _CONTAINER_RE : regex := Many 1 (Some 16%nat) (fun c => in_range 97 122 c || is_digit c).
Definition _PROTOCOL_RE : regex := Many 1 (Some 32%nat) (fun c => in_range 97 122 c || is_digit c || is_one_of "_" c).

Definition matches (r : regex) (s : string) : bool := is_some (fullmatch r (chars s)).

Definition id_of (raw : option Json) : option string :=
  match raw with
  | Some (JStr s) => if matches _SAFE_ID s then Some s else None
  | Some (JInt n) => if matches _SAFE_ID (py_str n) then Some (py_str n) else None
  | _ => None
  end.

(** Source: backend/src/fetchnow/media_inspection/ytdlp_parse.py:177-189 [_payload_media_id] *)
Definition _payload_media_id (payload : list (string * Json)) : exn + string :=
  match id_of (json_get "id" payload) with
  | Some id => inr id
  | None =>
      match id_of (json_get "display_id" payload) with
      | Some id => inr id
      | None => invalid_stdout "MISSING_MEDIA_ID"
      end
  end.

(** Source: backend/src/fetchnow/media_inspection/ytdlp_parse.py:192-201 [_finite_number]
    [float()] of a huge integer raises. *)
Definition _finite_number (value : option Json) : exn + option float :=
  match value with
  | Some (JInt n) => if 0 <=? n then let? x := float_of_int n in inr (Some x) else inr None
  | Some (JFloat x) => inr (if negb (fl_finite x) || fl_ltb x (fl_int 0) then None else Some x)
  | _ => inr None
  end.

(** Source: backend/src/fetchnow/media_inspection/ytdlp_parse.py:204-211 [_int_dim] *)
Definition _int_dim (value : option Json) (maximum : Z) : exn + option Z :=
  let? number := _finite_number value in
  inr match number with
      | None => None
      | Some x => if maximum <? fl_trunc x then None else Some (fl_trunc x)
      end.

(** [x > n], which is exact, for a float that is not negative. *)
Definition above (x : float) (n : Z) : bool := (n <? fl_trunc x) || ((fl_trunc x =? n) && negb (fl_is_int x n)).

(** The identity a URL field names, if it is there. *)
Definition url_identity (expected_provider_id : string) (allowed_hostnames : list text) (value : option Json)
    : exn + list MediaIdentity.ProviderMediaIdentity :=
  match value with
  | None | Some JNull => inr []
  | Some (JStr url) =>
      let? identity := MediaIdentity.parse_identity_from_url (chars url) expected_provider_id allowed_hostnames in
      inr [identity]
  | Some _ => invalid_stdout "IDENTITY_URL_TYPE"
  end.

(** Source: backend/src/fetchnow/media_inspection/ytdlp_parse.py:214-264 [_bind_result_identity] *)
Definition _bind_result_identity (payload : list (string * Json)) (expected_provider_id : string)
    (expected_media_id : text) (allowed_hostnames : list text) : exn + unit :=
  let? webpage := url_identity expected_provider_id allowed_hostnames (json_get "webpage_url" payload) in
  let? original := url_identity expected_provider_id allowed_hostnames (json_get "original_url" payload) in
  match webpage ++ original with
  | [] => provider_mismatch "MISSING_AUTHORITATIVE_IDENTITY"
  | identity :: identities =>
      if negb (forallb (fun i => bool_decide (MediaIdentity.md_media_id i = MediaIdentity.md_media_id identity)) identities)
      then provider_mismatch "CONFLICTING_IDENTITY_FIELDS" else
      if negb (bool_decide (MediaIdentity.md_media_id identity = expected_media_id)) then provider_mismatch "MEDIA_IDENTITY_MISMATCH" else
      let? payload_id := _payload_media_id payload in
      raise_if (negb (bool_decide (chars payload_id = expected_media_id)))
        (inspection_error INSPECTION_PROVIDER_MISMATCH "PAYLOAD_ID_MISMATCH")
  end.

(** ** The streams *)

(** A value as the size estimates look at it. *)
Definition number_of (value : option Json) : number :=
  match value with
  | Some (JInt n) => PyInt n
  | Some (JFloat x) => PyFloat x
  | _ => NotANumber
  end.

(** [value if isinstance(value, str) else None] *)
Definition text_of (value : option Json) : option string :=
  match value with Some (JStr s) => Some s | _ => None end.

(** Source: backend/src/fetchnow/media_inspection/ytdlp_parse.py:326-334 [_parse_formats]
    The bit rate of a stream that is video alone or audio alone. *)
Definition bitrate_of (item : list (string * Json)) (has_video has_audio : bool) : exn + option Z :=
  let source := if has_audio && negb has_video then json_get "abr" item
                else if has_video && negb has_audio then json_get "tbr" item else None in
  let? number := _finite_number source in
  inr match number with
      | Some x => if fl_ltb (fl_int 100000) x then None else Some (fl_round x)
      | None => None
      end.

Definition token_of (value : option Json) : option string :=
  match value with
  | Some (JStr token) => if (0 <? String.length token)%nat && (String.length token <=? 64)%nat then Some token else None
  | _ => None
  end.

Definition protocol_of (value : option Json) : option string :=
  match value with
  | Some (JStr raw) => if matches _PROTOCOL_RE (strip_lower raw) then Some (strip_lower raw) else None
  | _ => None
  end.

Section Formats.
Context (max_height max_width max_bytes : Z) (duration_seconds : option Z).

(** Source: backend/src/fetchnow/media_inspection/ytdlp_parse.py:302-376 [_parse_formats]
    A stream whose container is known, [None] when it is passed over. *)
Definition parse_stream (item : list (string * Json)) (container : string) : exn + option InternalFormatCandidate :=
  let video_codec := normalize_codec (text_of (json_get "vcodec" item)) _VIDEO_CODEC_MAP in
  let audio_codec := normalize_codec (text_of (json_get "acodec" item)) _AUDIO_CODEC_MAP in
  let has_audio := negb (bool_decide (audio_codec = NONE)) in
  let? width := _int_dim (json_get "width" item) max_width in
  let? height := _int_dim (json_get "height" item) max_height in
  let sized := is_some width || is_some height in
  let '(has_video, video_codec) :=
    if sized && bool_decide (video_codec = NONE) then (true, UNKNOWN)
    else (negb (bool_decide (video_codec = NONE)), video_codec) in
  if has_video && negb sized then inr None else
  if negb has_video && negb has_audio then inr None else
  let? fps := _finite_number (json_get "fps" item) in
  if match fps with Some x => fl_ltb (fl_int 240) x | None => false end then inr None else
  let? bitrate_kbps := bitrate_of item has_video has_audio in
  let? approx_bytes := estimate_format_bytes (number_of (json_get "filesize" item))
    (number_of (json_get "filesize_approx" item)) (number_of (json_get "tbr" item)) (number_of (json_get "vbr" item))
    (number_of (json_get "abr" item)) has_video has_audio duration_seconds in
  if match approx_bytes with Some n => max_bytes <? n | None => false end then inr None else
  inr (Some {| fc_container := container; fc_width := width; fc_height := height; fc_fps := fps;
               fc_has_video := has_video; fc_has_audio := has_audio; fc_video_codec := video_codec;
               fc_audio_codec := audio_codec; fc_approx_bytes := approx_bytes;
               provider_format_token := token_of (json_get "format_id" item);
               fc_protocol := protocol_of (json_get "protocol" item);
               has_drm := match json_get "has_drm" item with Some (JBool true) => true | _ => false end;
               fc_bitrate_kbps := bitrate_kbps |}).

(** Source: backend/src/fetchnow/media_inspection/ytdlp_parse.py:292-300 [_parse_formats]
    One entry of the list. *)
Definition parse_format (entry : Json) : exn + option InternalFormatCandidate :=
  match entry with
  | JObj item =>
      match json_get "ext" item with
      | Some (JStr ext) =>
          if matches _CONTAINER_RE (strip_lower ext) then parse_stream item (strip_lower ext) else inr None
      | _ => inr None
      end
  | _ => inr None
  end.

Fixpoint parse_entries (entries : list Json) : exn + list InternalFormatCandidate :=
  match entries with
  | [] => inr []
  | entry :: entries =>
      let? parsed := parse_format entry in
      let? rest := parse_entries entries in
      inr (match parsed with Some c => c :: rest | None => rest end)
  end.

(** Source: backend/src/fetchnow/media_inspection/ytdlp_parse.py:267-377 [_parse_formats] *)
Definition _parse_formats (payload : list (string * Json)) (max_format_entries : nat)
    : exn + list InternalFormatCandidate :=
  match json_get "formats" payload with
  | None | Some JNull => if (max_format_entries <? 1)%nat then invalid_stdout "FORMAT_ENTRY_LIMIT" else parse_entries [JObj payload]
  | Some (JArr entries) =>
      if (max_format_entries <? length entries)%nat then invalid_stdout "FORMAT_ENTRY_LIMIT" else parse_entries entries
  | Some _ => invalid_stdout "FORMATS_NOT_LIST"
  end.
End Formats.

(** ** The document *)
Section Document.
Context (json_loads : list Byte.byte -> LoadError + Json).

(** Source: backend/src/fetchnow/media_inspection/ytdlp_parse.py:431-490 [parse_ytdlp_json]
    What follows the decoding. *)
Definition parse_payload (payload : list (string * Json)) (target : InspectionTarget) (allowed_extractor_keys : list string)
    (media : MediaSettings) (limits : JsonLimits) (tool_version : option string) : exn + ExtractedMediaDraft :=
  let? _ := walk_structure limits (JObj payload) 1 0 in
  _reject_playlist payload ;;?
  let allowed := lower <$> allowed_extractor_keys in
  let? extractor := _extractor_key payload allowed in
  if negb (bool_decide (extractor ∈ allowed)) then provider_mismatch "EXTRACTOR_NOT_ALLOWED" else
  _bind_result_identity payload (it_provider_id target) (it_media_id target) (it_allowed_hostnames target) ;;?
  let? duration_raw := _finite_number (json_get "duration" payload) in
  if match duration_raw with Some x => above x (max_source_duration_seconds media) | None => false end
  then inl (inspection_error INSPECTION_POLICY_REJECTED "DURATION_TOO_LONG") else
  let duration := fl_trunc <$> duration_raw in
  let? parsed := _parse_formats (media_inspection_max_height media) (media_inspection_max_width media)
    (max_source_file_bytes media) duration payload (max_format_entries limits) in
  if is_nil parsed then inl (inspection_error INSPECTION_MEDIA_UNAVAILABLE "NO_FORMAT_CANDIDATES") else
  inr {| ed_provider_id := it_provider_id target;
         ed_canonical_provider_url := of_chars (it_canonical_provider_url target);
         ed_media_id := of_chars (it_media_id target);
         ed_title := text_of (json_get "title" payload);
         ed_duration_seconds := duration;
         candidates := parsed;
         extractor_key := extractor;
         tool_version := tool_version |}.

(** Source: backend/src/fetchnow/media_inspection/ytdlp_parse.py:380-490 [parse_ytdlp_json] *)
Definition parse_ytdlp_json (raw : bytes) (target : InspectionTarget) (allowed_extractor_keys : list string)
    (media : MediaSettings) (limits : JsonLimits) (tool_version : option string) : exn + ExtractedMediaDraft :=
  if is_nil raw then invalid_stdout "EMPTY_STDOUT" else
  match json_loads raw with
  | inl e => inl (load_failure e)
  | inr (JObj payload) => parse_payload payload target allowed_extractor_keys media limits tool_version
  | inr _ => invalid_stdout "STDOUT_NOT_OBJECT"
  end.
End Document.

(** ** The extractor *)

(** Source: backend/src/fetchnow/core/config.py:152-190 [Settings]
    The settings that only the extractor reads (with those at lines 212-229). *)
Record InspectionSettings := {
  inspection_enabled : bool;
  inspection_ytdlp_path : string;
  media_inspection_timeout_seconds : float;
  media_inspection_socket_timeout_seconds : float;
  media_inspection_stdout_max_bytes : Z;
  media_inspection_stderr_max_bytes : Z;
  media_inspection_json_max_depth : Z;
  media_inspection_json_max_nodes : Z;
  media_inspection_max_format_entries : nat
}.

(** What a run is asked for. *)
Record MetadataRequest := {
  mr_argv : list string;
  mr_env : list (string * string);
  mr_cwd : string;
  mr_timeout_seconds : float;
  mr_stdout_limit_bytes : Z;
  mr_stderr_limit_bytes : Z
}.

(** The answers of the file system and of the tool. *)
Record ExtractAnswers := {
  xa_executable : string -> PathStat;
  xa_temp_root : exn + string;                       (** the configured directory, or why it is refused *)
  xa_make : string -> exn + string;                  (** a new directory with its home and its cache; a failure removes it *)
  xa_run : MetadataRequest -> exn + ProcessResult;
  xa_remove : string -> bool -> exn + unit           (** [require_gone] *)
}.

Section Extractor.
Context (json_loads : list Byte.byte -> LoadError + Json).
Context (settings : InspectionSettings) (media : MediaSettings) (tool_version : option string) (xa : ExtractAnswers).

(** Source: backend/src/fetchnow/media_inspection/ytdlp_adapter.py:246-260 [YtDlpMetadataExtractor.extract] *)
Definition check_result (result : ProcessResult) : exn + unit :=
  if timed_out result then inl (inspection_error INSPECTION_TIMEOUT "PROCESS_TIMEOUT") else
  if is_some (signal result) then inl (inspection_error INSPECTION_MEDIA_UNAVAILABLE "PROCESS_SIGNAL") else
  if negb (bool_decide (exit_code result = Some 0)) then inl (inspection_error INSPECTION_MEDIA_UNAVAILABLE "PROCESS_NONZERO") else
  inr tt.

(** Source: backend/src/fetchnow/media_inspection/ytdlp_adapter.py:212-277 [YtDlpMetadataExtractor.extract]
    The body of the [try], once the directories are made. *)
Definition extract_in (allowed_extractor_keys : list string) (executable tmp_dir : string) (target : InspectionTarget)
    : exn + ExtractedMediaDraft :=
  let home_dir := join_path tmp_dir "home" in
  let cache_dir := join_path tmp_dir "cache" in
  let? argv := build_ytdlp_metadata_argv executable (of_chars (it_tool_url target)) allowed_extractor_keys
    (fl_trunc (media_inspection_socket_timeout_seconds settings)) cache_dir in
  let env := build_sanitized_env home_dir tmp_dir in
  assert_env_has_no_secrets env ;;?
  let? result := xa_run xa {| mr_argv := argv; mr_env := env; mr_cwd := tmp_dir;
    mr_timeout_seconds := media_inspection_timeout_seconds settings;
    mr_stdout_limit_bytes := media_inspection_stdout_max_bytes settings;
    mr_stderr_limit_bytes := media_inspection_stderr_max_bytes settings |} in
  check_result result ;;?
  parse_ytdlp_json json_loads (stdout result) target allowed_extractor_keys media
    (default_limits (media_inspection_json_max_depth settings) (media_inspection_json_max_nodes settings)
       (media_inspection_max_format_entries settings)) tool_version.

(** Source: backend/src/fetchnow/media_inspection/ytdlp_adapter.py:189-303 [YtDlpMetadataExtractor.extract]
    The [finally] clause: a leftover directory fails a successful extraction only;
    another exception of the cleanup replaces what was raised. *)
Definition extract (allowed_extractor_keys : list string) (target : InspectionTarget) : exn + ExtractedMediaDraft :=
  if negb (inspection_enabled settings) then inl (tool_unavailable "INSPECTION_DISABLED") else
  let? executable := validate_ytdlp_executable (xa_executable xa (inspection_ytdlp_path settings)) (inspection_ytdlp_path settings) in
  let? work_root := xa_temp_root xa in
  let? tmp_dir := xa_make xa work_root in
  match extract_in (lower <$> allowed_extractor_keys) executable tmp_dir target with
  | inr draft => xa_remove xa tmp_dir true ;;? inr draft
  | inl e =>
      match xa_remove xa tmp_dir false with
      | inl (InspectionError _ _) | inr _ => inl e
      | inl e' => inl e'
      end
  end.

(** Source: backend/src/fetchnow/media_inspection/ytdlp_adapter.py:168-183 [YtDlpMetadataExtractor.__init__] *)
Definition YtDlpMetadataExtractor (allowed_extractor_keys : list string) : MediaExtractor :=
  {| ex_extractor_id := "ytdlp_metadata"; ex_extract := extract allowed_extractor_keys |}.
End Extractor.
