(* ===== verification/Executor.v ===== *)
(** One download attempt of a worker (downloads/executor.py): under the lease of a
    claimed job, from the inspection of the media to the published artifact.

    The attempt is a computation over the database and the effects of the
    surroundings: the [n]-th effect of an attempt gets the [n]-th answer. Between
    the transactions of the attempt other tasks and processes run theirs; a
    transaction may fail or be cancelled before or after its commit. While a tool
    runs, its progress samples and the turns of the lease watchdog are a list of
    events. What only goes to the log is left out. *)

From S2P Require Export Worker Capabilities FormatCodec ByteProgress Tools Probe.

Local Open Scope string_scope.
Local Open Scope list_scope.
Local Open Scope Z_scope.

(** Source: backend/src/fetchnow/core/config.py:299-384 [Settings]
    The settings that only the executor reads (with those at lines 522-553). *)
Record DownloadSettings := {
  media_download_max_bytes : Z;
  media_download_timeout_seconds : float;
  media_download_min_free_bytes : Z;
  media_download_stdout_max_bytes : Z;
  media_download_stderr_max_bytes : Z;
  media_download_retry_base_seconds : float;
  media_download_retry_max_seconds : float;
  media_download_socket_timeout_seconds : float;
  media_inspection_ytdlp_path : string;
  media_muxing_ffmpeg_path : string;
  media_muxing_ffprobe_path : string;
  media_muxing_timeout_seconds : float;
  media_muxing_max_stdout_bytes : Z;
  media_muxing_max_stderr_bytes : Z;
  media_muxing_duration_tolerance_seconds : float
}.

(** Source: backend/src/fetchnow/downloads/executor.py:71-79 [lease_watch_interval_seconds] *)
Definition lease_watch_interval_seconds (lease_seconds : float) : float :=
  if negb (fl_finite lease_seconds) || fl_leb lease_seconds (fl_int 0) then fl_of_decimal 5 2
  else
    let interval := fl_min (fl_max (fl_div lease_seconds (fl_int 4)) (fl_of_decimal 5 2)) (fl_int 15) in
    if fl_leb lease_seconds interval then fl_div lease_seconds (fl_int 2) else interval.

(** Source: backend/src/fetchnow/downloads/executor.py:90-107 [DownloadClaimSnapshot] *)
Record DownloadClaimSnapshot := {
  cs_job_id : uid;
  cs_media_job_id : uid;
  cs_fence : Z;
  cs_attempt_count : Z;
  cs_format_option_id : string;
  cs_provider_id : string;
  cs_canonical_provider_url : string;
  cs_media_id : string;
  cs_target : TargetRebuild.StoredTarget;
  cs_selected_format_snapshot : Json;
  cs_expires_at : time
}.

(** Source: backend/src/fetchnow/downloads/executor.py:110-127 [snapshot_from_job] *)
Definition snapshot_from_job (job : MediaDownloadJob) : DownloadClaimSnapshot := {|
  cs_job_id := dj_id job;
  cs_media_job_id := dj_media_job_id job;
  cs_fence := dj_fence_token job;
  cs_attempt_count := dj_attempt_count job;
  cs_format_option_id := dj_format_option_id job;
  cs_provider_id := dj_provider_id job;
  cs_canonical_provider_url := dj_canonical_provider_url job;
  cs_media_id := dj_media_id job;
  cs_target := {| TargetRebuild.st_provider_id := dj_provider_id job;
                  TargetRebuild.st_canonical_provider_url := chars (dj_canonical_provider_url job);
                  TargetRebuild.st_media_id := chars (dj_media_id job);
                  TargetRebuild.st_hostname := chars (dj_hostname job);
                  TargetRebuild.st_path := chars (dj_path job);
                  TargetRebuild.st_scheme := chars (dj_scheme job);
                  TargetRebuild.st_port := dj_port job |};
  cs_selected_format_snapshot := match dj_selected_format_snapshot job with JNull => JObj [] | snapshot => snapshot end;
  cs_expires_at := dj_expires_at job
|}.

(** ** Reservations and retries *)

(** Source: backend/src/fetchnow/downloads/executor.py:1167-1171 [_stage_cap] *)
Definition _stage_cap (approx : option Z) (max_bytes : Z) : Z :=
  match approx with
  | None => max_bytes
  | Some approx => if approx <? 1 then max_bytes else Z.min max_bytes approx
  end.

(** Source: backend/src/fetchnow/downloads/executor.py:1174-1181 [_mux_stage_byte_caps] *)
Definition _mux_stage_byte_caps (selection : MuxedDownloadSelection) (max_bytes : Z) : Z * Z * Z :=
  let video_cap := _stage_cap (ms_video_approx_bytes selection) max_bytes in
  let audio_cap := _stage_cap (ms_audio_approx_bytes selection) max_bytes in
  (video_cap, audio_cap, Z.min max_bytes (video_cap + audio_cap)).

(** Source: backend/src/fetchnow/downloads/executor.py:1184-1190 [_peak_reservation_bytes] *)
Definition _peak_reservation_bytes (selection : DownloadSelection) (max_bytes : Z) : Z :=
  match selection with
  | Muxed s => let '(video_cap, audio_cap, output_cap) := _mux_stage_byte_caps s max_bytes in
               video_cap + audio_cap + output_cap
  | Direct s => match ds_approx_bytes s with
                | Some approx => if approx =? 0 then max_bytes else approx
                | None => max_bytes
                end
  end.

(** Source: backend/src/fetchnow/downloads/executor.py:1193-1198 [_retry_backoff_seconds] *)
Definition download_backoff_seconds (ds : DownloadSettings) (attempt_count : Z) : exn + float :=
  let base := media_download_retry_base_seconds ds in
  let maximum := media_download_retry_max_seconds ds in
  let exp := Z.max 0 (attempt_count - 1) in
  let? factor := float_of_int (2 ^ exp) in
  let delay := fl_mul base factor in
  inr (fl_min maximum (fl_max base delay)).

(** Source: backend/src/fetchnow/downloads/executor.py:914-921 [_fail] *)
Definition retryable (code : DownloadErrorCode) : bool :=
  match code with
  | DOWNLOAD_TIMEOUT | DOWNLOAD_TOOL_FAILED | DOWNLOAD_STORAGE_UNAVAILABLE | DOWNLOAD_INTERNAL_ERROR
  | MUXING_TIMEOUT | MUXING_FAILED => true
  | _ => false
  end.

(** Source: backend/src/fetchnow/downloads/executor.py:1060-1137 [_finish_tool_stage] *)
Definition _finish_tool_stage (result : ProcessResult) (timeout_code nonzero_code : DownloadErrorCode) : exn + unit :=
  if timed_out result then inl (download_error timeout_code "PROCESS_TIMEOUT") else
  if is_some (signal result) then inl (download_error nonzero_code "PROCESS_SIGNAL") else
  if negb (bool_decide (exit_code result = Some 0)) then inl (download_error nonzero_code "PROCESS_NONZERO") else
  inr tt.

(** Source: backend/src/fetchnow/downloads/executor.py:1140-1159 [_ytdlp_stage]
    The progress stage; the others are event names. *)
Definition _ytdlp_stage (output_template : string) (media_kind : MediaKind) : Progress.DownloadProgressStage :=
  if bool_decide (media_kind = AUDIO_ONLY) || starts_with (chars "audio/") (chars output_template)
  then Progress.DOWNLOADING_AUDIO else Progress.DOWNLOADING_VIDEO.

(** ** The surroundings of an attempt *)

(** Source: backend/src/fetchnow/downloads/executor.py:82-87 [_LeaseLostError]
    What can be raised: an exception, [asyncio.CancelledError], and the two
    signals of the executor. *)
Inductive Failure :=
| Error (e : exn)
| CancelledError
| JobCancelledError
| LeaseLostError.

(** What [except Exception] catches. *)
Definition is_exception (f : Failure) : bool := match f with CancelledError => false | _ => true end.

(** What an [await] may raise by itself: an error, or the cancellation of the task. *)
Inductive Fault := Faulty (e : exn) | Cancels.

Definition failure_of (f : Fault) : Failure := match f with Faulty e => Error e | Cancels => CancelledError end.

(** How a transaction ends: its statements decide, or it fails or is cancelled,
    before its commit or when the commit is already done. *)
Inductive Fate := Goes | Breaks (f : Fault) | Unheard (f : Fault).

(** The attributes of a [DownloadProcessRunner.run] call. *)
Record RunRequest := {
  rq_argv : list string;
  rq_env : list (string * string);
  rq_cwd : string;
  rq_timeout_seconds : float;
  rq_stdout_limit_bytes : Z;
  rq_stderr_limit_bytes : Z;
  rq_size_dirs : list string;       (** [output_dir] and [extra_size_dirs] *)
  rq_max_output_bytes : option Z;
  rq_min_free_bytes : option Z;
  rq_capture_stdout : bool
}.

(** What a run that the watchdog cancels ends with: the cancellation, an error of
    its own, or a cancellation of the whole task at the same time. *)
Inductive Reaction := Stops | FailsWith (e : exn) | TaskCancelled.

(** While a tool runs: an observed size, and a turn of the lease watchdog. *)
Inductive RunEvent := Observed (observed_bytes : Z) | Watched (reaction : Reaction).

Record ToolRun := {
  tr_events : list RunEvent;
  tr_end : Fault + ProcessResult
}.

(** The answers, by the number of the effect. *)
Record Surroundings := {
  others : nat -> World -> World;                             (** what others did to the database before *)
  fate : nat -> Fate;
  interrupted : nat -> option Fault;                          (** an [await] outside a transaction *)
  free_bytes : nat -> exn + Z;
  make_workspace : nat -> exn + unit;
  lstat : nat -> string -> PathStat;
  listing : nat -> string -> exn + option (list DirEntry);
  file_size : nat -> string -> exn + Z;
  tree_size : nat -> string -> Z;
  tool_run : nat -> RunRequest -> ToolRun;
  stage_output : nat -> exn + unit;
  publish_files : nat -> exn + (uid * Z * string);            (** artifact id, size and digest *)
  remove_tree : nat -> bool -> exn + unit;
  monotonic : nat -> nat -> float                             (** the clock of a gate *)
}.

(** What an attempt did, besides its statements. *)
Inductive Event :=
| Created (ws : AttemptWorkspace)
| Ran (request : RunRequest)
| Published (artifact : PublishedArtifact)
| Removal (ws : AttemptWorkspace) (require_gone succeeds : bool)
| Readied (artifact_id : uid).

(** Source: backend/src/fetchnow/downloads/executor.py:231-237 [execute]
    The state of an attempt: the database, the number of the next effect, the
    flags of the executor, the [workspace] variable, and what was done. *)
Record Attempt := {
  at_world : World;
  at_next : nat;
  at_lease_lost : bool;
  at_user_cancel : bool;
  at_workspace : option AttemptWorkspace;
  at_events : list Event
}.

#[export] Instance Attempt_eta : Eta Attempt := fun s =>
  {| at_world := at_world s; at_next := at_next s; at_lease_lost := at_lease_lost s;
     at_user_cancel := at_user_cancel s; at_workspace := at_workspace s; at_events := at_events s |}.

Abbreviation Run := (M Attempt Failure).

(** An exception of the pure code. *)
Definition raising {A} (r : exn + A) : Run A := lift (match r with inl e => inl (Error e) | inr a => inr a end).

(** [try: m ...] with the outcome as a value. *)
Definition attempt {A} (m : Run A) : Run (Failure + A) := fun s => let '(r, s) := m s in (inr r, s).

Definition note (e : Event) : Run unit := modify (fun s => s <| at_events := at_events s ++ [e] |>).
Definition set_lease_lost (b : bool) : Run unit := modify (fun s => s <| at_lease_lost := b |>).
Definition set_user_cancel (b : bool) : Run unit := modify (fun s => s <| at_user_cancel := b |>).
Definition set_workspace (ws : option AttemptWorkspace) : Run unit := modify (fun s => s <| at_workspace := ws |>).

(** The number of the next effect. *)
Definition next : Run nat := fun s => (inr (at_next s), s <| at_next := S (at_next s) |>).

Module DownloadExecutor.
Import MediaDownloadJobRepository.

Section Executor.
Context `{Idna} (settings : Settings) (urls : UrlSettings) (media : MediaSettings) (ws : WorkerSettings)
  (ds : DownloadSettings).
Context (_worker_id root : string).
Context (_inspection_registry : InspectionExtractorRegistry.t) (_capabilities : ProviderCapabilityRegistry.t)
  (_providers : option ProviderRegistry) (_validator : option (text -> exn + URLValidationResult)).
(** [json.loads] of the decoded bytes; [None] when one of the two raises. *)
Context (json_loads : list Byte.byte -> option Json).
Context (sr : Surroundings).

(** ** Effects *)

(** Source: backend/src/fetchnow/downloads/executor.py:214-224 [lease_still_owned]
    One block with its own session, there and in the other methods: [database_now], the statement, the commit.
    [done]: what the answer of a committed statement says was done. *)
Definition transaction {A} (done : A -> list Event) (m : time -> DB A) : Run A := fun s =>
  let n := at_next s in
  let s := s <| at_next := S n |> <| at_world := others sr n (at_world s) |> in
  let commit := begin_nested (let* now := database_now in m now) (at_world s) in
  let committed :=
    s <| at_world := commit.2 |>
      <| at_events := at_events s ++ match commit.1 with inr a => done a | inl _ => [] end |> in
  match fate sr n with
  | Breaks f => (inl (failure_of f), s)
  | Unheard f => (inl (failure_of f), committed)
  | Goes => (match commit.1 with inr a => inr a | inl e => inl (Error e) end, committed)
  end.

Definition nothing_done {A} (a : A) : list Event := [].

(** An [await] that a cancellation may reach. *)
Definition await_ : Run unit :=
  let* n := next in
  match interrupted sr n with Some f => raise (failure_of f) | None => ret tt end.

(** ** The artifact store *)

(** Source: backend/src/fetchnow/downloads/artifacts.py:253-259 [ensure_min_free] *)
Definition ensure_min_free (min_free_bytes : Z) : Run unit :=
  let* n := next in
  let* free := raising (free_bytes sr n) in
  raise_when (free <? min_free_bytes) (Error (download_error DOWNLOAD_STORAGE_UNAVAILABLE "DISK_HEADROOM")).

(** Source: backend/src/fetchnow/downloads/artifacts.py:344-396 [create_attempt_workspace]
    The directories are made by the surroundings. *)
Definition create_attempt_workspace (job_id : uid) (attempt fence : Z) : Run AttemptWorkspace :=
  raise_when ((attempt <? 1) || (fence <? 0)) (Error (download_error DOWNLOAD_INTERNAL_ERROR "ATTEMPT_IDENTITY_INVALID")) ;;;
  let* n := next in
  raising (make_workspace sr n) ;;;
  let workspace := workspace_at root job_id attempt fence in
  note (Created workspace) ;;;
  ret workspace.

(** Source: backend/src/fetchnow/downloads/artifacts.py:398-454 [cleanup_attempt_workspace]
    The removal is made by the surroundings. *)
Definition cleanup_attempt_workspace (workspace : AttemptWorkspace) (require_gone : bool) : Run unit :=
  let* n := next in
  match remove_tree sr n require_gone with
  | inr _ => note (Removal workspace require_gone true)
  | inl e => note (Removal workspace require_gone false) ;;; raise (Error e)
  end.

Definition find_file (directory : string) (allowed_suffixes : list string) (error_code : DownloadErrorCode) : Run string :=
  let* n := next in
  let* entries := raising (listing sr n directory) in
  raising (find_single_regular_file_in (media_download_max_bytes ds) directory entries allowed_suffixes error_code).

(** [path.stat().st_size] *)
Definition stat_size (path : string) : Run Z := let* n := next in raising (file_size sr n path).

(** Source: backend/src/fetchnow/downloads/artifacts.py:620-651 [stage_muxed_output]
    What is checked before the files are touched; the surroundings move the file. *)
Definition stage_muxed_output (workspace : AttemptWorkspace) (mux_path container : string) : Run unit :=
  raise_when (negb (bool_decide (strip_lower container ∈ ["mp4"; "webm"])))
    (Error (download_error MUXED_OUTPUT_INVALID "CONTAINER_NOT_ALLOWED")) ;;;
  let* n := next in
  raising (stage_output sr n).

(** Source: backend/src/fetchnow/downloads/artifacts.py:44-46 [_ALLOWED_CONTAINERS] *)
Definition _ALLOWED_CONTAINERS : list string := ["mp4"; "webm"; "mkv"; "m4a"; "mp3"; "ogg"; "opus"; "aac"].

(** Source: backend/src/fetchnow/downloads/artifacts.py:933-1033 [publish]
    The files are checked, digested and moved by the surroundings. *)
Definition publish (expected_container : string) (media_kind : MediaKind) : Run PublishedArtifact :=
  let container := strip_lower expected_container in
  raise_when (negb (bool_decide (container ∈ _ALLOWED_CONTAINERS)))
    (Error (download_error DOWNLOAD_INVALID_OUTPUT "CONTAINER_NOT_ALLOWED")) ;;;
  let* n := next in
  let* (artifact_id, size_bytes, sha256_hex) := raising (publish_files sr n) in
  let* content_type := raising (content_type_for_container container media_kind) in
  let published := {| pa_artifact_id := artifact_id; pa_size_bytes := size_bytes; pa_sha256_hex := sha256_hex;
                      pa_container := container; pa_content_type := content_type |} in
  note (Published published) ;;;
  ret published.

(** ** The lease *)

(** Source: backend/src/fetchnow/downloads/executor.py:212-228 [lease_still_owned] *)
Definition lease_still_owned (job_id : uid) (fence : Z) : Run bool :=
  let* status := transaction nothing_done (fun _ =>
    lease_status job_id _worker_id fence (timedelta_seconds (media_download_lease_seconds ws))) in
  match status with
  | cancelled => set_user_cancel true ;;; ret false
  | owned => ret true
  | lost => ret false
  end.

(** Source: backend/src/fetchnow/downloads/executor.py:993-1020 [_complete_user_cancel]
    What it returns only selects an event of the log. *)
Definition _complete_user_cancel (snap : DownloadClaimSnapshot) : Run unit :=
  let* r := attempt (transaction nothing_done (fun _ => complete_cancelled (cs_job_id snap) _worker_id (cs_fence snap))) in
  match r with
  | inr _ => ret tt
  | inl f => if is_exception f then ret tt else raise f
  end.

(** Source: backend/src/fetchnow/downloads/executor.py:986-991 [_abort_if_unowned] *)
Definition _abort_if_unowned (snap : DownloadClaimSnapshot) : Run bool :=
  let* still := lease_still_owned (cs_job_id snap) (cs_fence snap) in
  if still then ret false
  else
    let* user_cancel := gets at_user_cancel in
    (if user_cancel then _complete_user_cancel snap else ret tt) ;;;
    ret true.

(** Source: backend/src/fetchnow/downloads/executor.py:514-517 [_run_muxed_download]
    Between the stages: stop unless the lease is still owned. *)
Definition require_lease (snap : DownloadClaimSnapshot) : Run unit :=
  let* still := lease_still_owned (cs_job_id snap) (cs_fence snap) in
  if still then ret tt
  else
    let* user_cancel := gets at_user_cancel in
    raise (if user_cancel then JobCancelledError else LeaseLostError).

(** Source: backend/src/fetchnow/downloads/executor.py:963-984 [_release_to_queued] *)
Definition _release_to_queued (job_id : uid) (fence : Z) : Run unit :=
  let* r := attempt (transaction nothing_done (fun now => release_to_queued job_id _worker_id fence now)) in
  match r with
  | inr _ => ret tt
  | inl f => if is_exception f then ret tt else raise f
  end.

(** Source: backend/src/fetchnow/downloads/executor.py:910-961 [_fail]
    The back-off, which depends on the claim alone, is computed before the session
    is opened. *)
Definition _fail (snap : DownloadClaimSnapshot) (code : DownloadErrorCode) : Run unit :=
  let* user_cancel := gets at_user_cancel in
  if user_cancel then _complete_user_cancel snap
  else if retryable code then
    let* backoff := raising (download_backoff_seconds ds (cs_attempt_count snap)) in
    transaction nothing_done (fun now =>
      fail_retry (cs_job_id snap) _worker_id (cs_fence snap) now (timedelta_seconds backoff) (download_code_value code)) ;;;
    ret tt
  else
    transaction nothing_done (fun _ =>
      fail_permanent (cs_job_id snap) _worker_id (cs_fence snap) (download_code_value code)) ;;;
    ret tt.

(** Source: backend/src/fetchnow/downloads/executor.py:1022-1040 [_advance_progress] *)
Definition _advance_progress (snap : DownloadClaimSnapshot) (stage : Progress.DownloadProgressStage) : Run unit :=
  let* r := attempt (transaction nothing_done (fun now =>
    set_progress_stage (cs_job_id snap) _worker_id (cs_fence snap) stage now)) in
  match r with
  | inr _ => ret tt
  | inl (Error (DownloadError code reason status)) => raise (Error (DownloadError code reason status))
  | inl f => if is_exception f then ret tt else raise f
  end.

(** Source: backend/src/fetchnow/downloads/executor.py:1042-1058 [_persist_progress_percent] *)
Definition _persist_progress_percent (snap : DownloadClaimSnapshot) (percent : Z) : Run bool :=
  transaction nothing_done (fun now =>
    set_progress_percent (cs_job_id snap) _worker_id (cs_fence snap) percent now).

(** ** A tool under the lease watchdog *)

(** The run after [run_task.cancel()], for the reason [f]. *)
Definition stopped {A} (reaction : Reaction) (f : Failure) : Run A :=
  raise (match reaction with Stops => f | FailsWith e => Error e | TaskCancelled => CancelledError end).

(** Source: backend/src/fetchnow/downloads/executor.py:830-873 [_watch_lease_during_run]
    The events of a run; [watching] ends when the watchdog itself is cancelled.
    [sample] is the callback for the observed sizes. *)
Fixpoint run_events (snap : DownloadClaimSnapshot) (sample : Z -> ProgressPersistGate.t -> Run ProgressPersistGate.t)
    (events : list RunEvent) (watching : bool) (gate : ProgressPersistGate.t) : Run ProgressPersistGate.t :=
  match events with
  | [] => ret gate
  | Observed observed_bytes :: events =>
      let* gate := sample observed_bytes gate in
      run_events snap sample events watching gate
  | Watched reaction :: events =>
      if negb watching then run_events snap sample events watching gate
      else
        let* still := attempt (lease_still_owned (cs_job_id snap) (cs_fence snap)) in
        match still with
        | inr true => run_events snap sample events watching gate
        | inr false =>
            let* user_cancel := gets at_user_cancel in
            if user_cancel then stopped reaction JobCancelledError
            else set_lease_lost true ;;; stopped reaction LeaseLostError
        | inl f =>
            if is_exception f then set_lease_lost true ;;; stopped reaction LeaseLostError
            else run_events snap sample events false gate
        end
  end.

(** Source: backend/src/fetchnow/downloads/executor.py:875-908 [_run_supervised] *)
Definition _run_supervised (snap : DownloadClaimSnapshot) (request : RunRequest)
    (sample : Z -> ProgressPersistGate.t -> Run ProgressPersistGate.t) (gate : ProgressPersistGate.t)
    : Run (ProgressPersistGate.t * ProcessResult) :=
  note (Ran request) ;;;
  let* n := next in
  let run := tool_run sr n request in
  let* gate := run_events snap sample (tr_events run) true gate in
  let* result := lift (match tr_end run with inl f => inl (failure_of f) | inr r => inr r end) in
  ret (gate, result).

Definition no_sample (observed_bytes : Z) (gate : ProgressPersistGate.t) : Run ProgressPersistGate.t := ret gate.

(** Source: backend/src/fetchnow/downloads/executor.py:756-768 [_run_exact_ytdlp._on_observed]
    A cancellation of the callback ends the writer's task, not the run. *)
Definition _on_observed (snap : DownloadClaimSnapshot) (expected_bytes : option Z) (observed : Z)
    (gate : ProgressPersistGate.t) : Run ProgressPersistGate.t :=
  let* (gate, _) := ProgressPersistGate.ingest is_exception (_persist_progress_percent snap) observed expected_bytes false gate in
  ret gate.

(** Source: backend/src/fetchnow/downloads/executor.py:696-823 [_run_exact_ytdlp] *)
Definition _run_exact_ytdlp (snap : DownloadClaimSnapshot) (token : string) (workspace : AttemptWorkspace)
    (output_template output_dir : string) (max_bytes : option Z) (min_free_headroom : Z) (expected_bytes : option Z)
    (media_kind : MediaKind) : Run unit :=
  let cap := default (media_download_max_bytes ds) max_bytes in
  raise_when (cap <? 1) (Error (download_error DOWNLOAD_TOO_LARGE "STAGE_CAP_INVALID")) ;;;
  let* n := next in
  let* executable :=
    match validate_ytdlp_executable (lstat sr n (media_inspection_ytdlp_path ds)) (media_inspection_ytdlp_path ds) with
    | inl (InspectionError _ _) => raise (Error (download_error DOWNLOAD_TOOL_FAILED "EXECUTABLE_INVALID"))
    | r => raising r
    end in
  let* binding := raising (InspectionExtractorRegistry.resolve _inspection_registry (cs_provider_id snap)
    (TargetRebuild.st_hostname (cs_target snap))) in
  let* argv := raising (build_ytdlp_download_argv executable (cs_canonical_provider_url snap) token
    (InspectionExtractorRegistry.eb_allowed_extractor_keys binding)
    (fl_trunc (media_download_socket_timeout_seconds ds)) (ws_cache workspace) output_template cap) in
  let env := build_sanitized_env (ws_home workspace) (ws_path workspace) in
  raising (assert_env_has_no_secrets env) ;;;
  _advance_progress snap (_ytdlp_stage output_template media_kind) ;;;
  let* g := next in
  let* (gate, result) := _run_supervised snap
    {| rq_argv := argv; rq_env := env; rq_cwd := ws_path workspace;
       rq_timeout_seconds := media_download_timeout_seconds ds;
       rq_stdout_limit_bytes := media_download_stdout_max_bytes ds;
       rq_stderr_limit_bytes := media_download_stderr_max_bytes ds;
       rq_size_dirs := [output_dir]; rq_max_output_bytes := Some cap;
       rq_min_free_bytes := Some (media_download_min_free_bytes ds + Z.max 0 min_free_headroom);
       rq_capture_stdout := false |}
    (_on_observed snap expected_bytes) (ProgressPersistGate.new (monotonic sr g)) in
  let* m := next in
  let* (_, flushed) := ProgressPersistGate.ingest is_exception (_persist_progress_percent snap)
    (tree_size sr m output_dir) expected_bytes true gate in
  match flushed with
  | inl f => if is_exception f then ret tt else raise f
  | inr _ => ret tt
  end ;;;
  raising (_finish_tool_stage result DOWNLOAD_TIMEOUT DOWNLOAD_TOOL_FAILED).

(** ** Downloads *)

(** Source: backend/src/fetchnow/downloads/executor.py:690-694 [_ensure_remaining_disk] *)
Definition _ensure_remaining_disk (peak_bytes consumed_bytes : Z) : Run unit :=
  let remaining := Z.max 0 (peak_bytes - Z.max 0 consumed_bytes) in
  ensure_min_free (media_download_min_free_bytes ds + remaining).

(** Source: backend/src/fetchnow/downloads/executor.py:474-488 [_run_direct_download] *)
Definition _run_direct_download (snap : DownloadClaimSnapshot) (selection : DirectDownloadSelection)
    (workspace : AttemptWorkspace) : Run unit :=
  _run_exact_ytdlp snap (ds_provider_format_token selection) workspace "output/artifact.%(ext)s" (ws_output workspace)
    None 0 (ds_approx_bytes selection) (ds_media_kind selection).

Definition executable (path kind : string) : Run string :=
  let* n := next in raising (validate_trusted_executable (lstat sr n path) path kind).

(** [except ValueError] around an argument list. *)
Definition argv_or (code : DownloadErrorCode) (reason : string) (argv : exn + list string) : Run (list string) :=
  raising (match argv with inl (ValueError _) => inl (download_error code reason) | r => r end).

(** Source: backend/src/fetchnow/downloads/executor.py:513-557 [_run_muxed_download]
    The two streams: their files, and the bytes they take. *)
Definition download_streams (snap : DownloadClaimSnapshot) (selection : MuxedDownloadSelection)
    (workspace : AttemptWorkspace) (peak_bytes : Z) : Run (string * string * Z) :=
  let stage_write_cap := media_download_max_bytes ds in
  require_lease snap ;;;
  _run_exact_ytdlp snap (ms_video_format_token selection) workspace "video/stream.%(ext)s" (ws_video workspace)
    (Some stage_write_cap) (Z.max 0 (peak_bytes - stage_write_cap)) (ms_video_approx_bytes selection) NORMAL_VIDEO ;;;
  let* video_path := find_file (ws_video workspace) ["mp4"; "webm"] DOWNLOAD_INVALID_OUTPUT in
  let* consumed := stat_size video_path in
  _ensure_remaining_disk peak_bytes consumed ;;;
  require_lease snap ;;;
  _run_exact_ytdlp snap (ms_audio_format_token selection) workspace "audio/stream.%(ext)s" (ws_audio workspace)
    (Some stage_write_cap) (Z.max 0 (peak_bytes - consumed - stage_write_cap)) (ms_audio_approx_bytes selection)
    NORMAL_VIDEO ;;;
  let* audio_path := find_file (ws_audio workspace) ["m4a"; "mp4"; "webm"; "ogg"; "opus"] DOWNLOAD_INVALID_OUTPUT in
  let* audio_bytes := stat_size audio_path in
  let consumed := consumed + audio_bytes in
  _ensure_remaining_disk peak_bytes consumed ;;;
  require_lease snap ;;;
  ret (video_path, audio_path, consumed).

(** Source: backend/src/fetchnow/downloads/executor.py:558-624 [_run_muxed_download]
    The streams copied into one file. *)
Definition mux_streams (snap : DownloadClaimSnapshot) (selection : MuxedDownloadSelection) (workspace : AttemptWorkspace)
    (ffmpeg video_path audio_path : string) (consumed : Z) : Run string :=
  let stage_write_cap := media_download_max_bytes ds in
  let mux_path := join_path (ws_mux workspace) ("artifact." ++ ms_container selection)%string in
  let* argv := argv_or MUXING_FAILED "ARGV_INVALID"
    (build_ffmpeg_mux_argv ffmpeg video_path audio_path mux_path (ms_container selection)) in
  let env := build_sanitized_env (ws_home workspace) (ws_path workspace) in
  raising (assert_env_has_no_secrets env) ;;;
  _advance_progress snap Progress.MUXING ;;;
  let* (_, mux_result) := _run_supervised snap
    {| rq_argv := argv; rq_env := env; rq_cwd := ws_path workspace;
       rq_timeout_seconds := media_muxing_timeout_seconds ds;
       rq_stdout_limit_bytes := media_muxing_max_stdout_bytes ds;
       rq_stderr_limit_bytes := media_muxing_max_stderr_bytes ds;
       rq_size_dirs := [ws_mux workspace; ws_video workspace; ws_audio workspace];
       rq_max_output_bytes := Some stage_write_cap;
       rq_min_free_bytes := Some (media_download_min_free_bytes ds + Z.max 0 (stage_write_cap - consumed));
       rq_capture_stdout := false |}
    no_sample (ProgressPersistGate.new (monotonic sr 0)) in
  raising (_finish_tool_stage mux_result MUXING_TIMEOUT MUXING_FAILED) ;;;
  find_file (ws_mux workspace) [ms_container selection] MUXED_OUTPUT_INVALID.

(** Source: backend/src/fetchnow/downloads/executor.py:625-688 [_run_muxed_download]
    The file verified and staged. *)
Definition verify_muxed (snap : DownloadClaimSnapshot) (selection : MuxedDownloadSelection) (workspace : AttemptWorkspace)
    (ffprobe mux_file : string) : Run unit :=
  require_lease snap ;;;
  let* probe_argv := argv_or MUXED_OUTPUT_INVALID "PROBE_ARGV_INVALID" (build_ffprobe_argv ffprobe mux_file) in
  _advance_progress snap Progress.VERIFYING ;;;
  let* (_, probe) := _run_supervised snap
    {| rq_argv := probe_argv; rq_env := build_sanitized_env (ws_home workspace) (ws_path workspace);
       rq_cwd := ws_path workspace; rq_timeout_seconds := media_muxing_timeout_seconds ds;
       rq_stdout_limit_bytes := media_muxing_max_stdout_bytes ds;
       rq_stderr_limit_bytes := media_muxing_max_stderr_bytes ds;
       rq_size_dirs := []; rq_max_output_bytes := None; rq_min_free_bytes := None; rq_capture_stdout := true |}
    no_sample (ProgressPersistGate.new (monotonic sr 0)) in
  raising (_finish_tool_stage probe MUXING_TIMEOUT MUXED_OUTPUT_INVALID) ;;;
  let* mux_bytes := stat_size mux_file in
  let* _ := raising (parse_ffprobe_json json_loads (stdout probe) (ms_container selection) mux_bytes
    (ms_expected_duration_seconds selection) (media_muxing_duration_tolerance_seconds ds)
    (media_download_max_bytes ds) (media_muxing_max_stdout_bytes ds)) in
  require_lease snap ;;;
  stage_muxed_output workspace mux_file (ms_container selection).

(** Source: backend/src/fetchnow/downloads/executor.py:490-688 [_run_muxed_download] *)
Definition _run_muxed_download (snap : DownloadClaimSnapshot) (selection : MuxedDownloadSelection)
    (workspace : AttemptWorkspace) (peak_bytes : Z) : Run unit :=
  raise_when (negb (media_muxing_enabled media)) (Error (download_error MUXING_UNAVAILABLE "MUXING_DISABLED")) ;;;
  let* ffmpeg := executable (media_muxing_ffmpeg_path ds) "ffmpeg" in
  let* ffprobe := executable (media_muxing_ffprobe_path ds) "ffprobe" in
  let* (video_path, audio_path, consumed) := download_streams snap selection workspace peak_bytes in
  let* mux_file := mux_streams snap selection workspace ffmpeg video_path audio_path consumed in
  verify_muxed snap selection workspace ffprobe mux_file.

(** Source: backend/src/fetchnow/downloads/executor.py:459-472 [_run_download] *)
Definition _run_download (snap : DownloadClaimSnapshot) (selection : DownloadSelection) (workspace : AttemptWorkspace)
    (peak_bytes : Z) : Run unit :=
  match selection with
  | Muxed s => _run_muxed_download snap s workspace peak_bytes
  | Direct s => _run_direct_download snap s workspace
  end.

(** Source: backend/src/fetchnow/downloads/executor.py:413-457 [_resolve_selection]
    Without what the awaits may raise. *)
Definition resolve_target (snap : DownloadClaimSnapshot) : exn + DownloadSelection :=
  let? resolution := TargetRebuild.rebuild_resolution_result urls (Some _inspection_registry) _providers _validator
    (cs_target snap) in
  let? persisted := decode_selected_format_snapshot (cs_selected_format_snapshot snap) (cs_format_option_id snap)
    DEFAULT_MAX_JSON_BYTES in
  assert_operation_allowed _capabilities (rr_provider_id resolution)
    (if bool_decide (mf_media_kind persisted = AUDIO_ONLY) then EXTRACT_AUDIO else DOWNLOAD_VIDEO) ;;?
  let? draft := MediaInspectionService.inspect_draft urls _inspection_registry resolution in
  raise_if (negb (String.eqb (ed_provider_id draft) (cs_provider_id snap)) ||
            negb (String.eqb (ed_media_id draft) (cs_media_id snap)) ||
            negb (String.eqb (ed_canonical_provider_url draft) (cs_canonical_provider_url snap)))
    (unavailable "IDENTITY_DRIFT") ;;?
  resolve_selection_from_draft media draft (cs_format_option_id snap) persisted.

(** Source: backend/src/fetchnow/downloads/executor.py:413-457 [_resolve_selection] *)
Definition _resolve_selection (snap : DownloadClaimSnapshot) : Run DownloadSelection :=
  await_ ;;;
  raising (resolve_target snap).

Definition selection_container (selection : DownloadSelection) : string :=
  match selection with Direct s => ds_container s | Muxed s => ms_container s end.

(** Source: backend/src/fetchnow/downloads/selection.py:91-93 [MuxedDownloadSelection.media_kind] *)
Definition selection_kind (selection : DownloadSelection) : MediaKind :=
  match selection with Direct s => ds_media_kind s | Muxed _ => NORMAL_VIDEO end.

(** Source: backend/src/fetchnow/downloads/executor.py:308-324 [execute] *)
Definition complete (snap : DownloadClaimSnapshot) (published : PublishedArtifact) : Run bool :=
  transaction (fun applied : bool => if applied then [Readied (pa_artifact_id published)] else [])
    (fun _ => complete_ready (cs_job_id snap) _worker_id (cs_fence snap) (pa_artifact_id published)
       (pa_size_bytes published) (pa_content_type published) (pa_container published)
       (free_download_quota_ready_compatibility_mode settings)).

(** Source: backend/src/fetchnow/downloads/executor.py:278-361 [execute]
    What follows the download: publication, cleanup, the ready commit. *)
Definition finish (snap : DownloadClaimSnapshot) (selection : DownloadSelection) (workspace : AttemptWorkspace) : Run unit :=
  _advance_progress snap Progress.PUBLISHING ;;;
  let* published := publish (selection_container selection) (selection_kind selection) in
  cleanup_attempt_workspace workspace true ;;;
  set_workspace None ;;;
  let* aborted := _abort_if_unowned snap in
  if aborted then ret tt
  else
    let* applied := complete snap published in
    if applied then ret tt else _complete_user_cancel snap.

(** Source: backend/src/fetchnow/downloads/executor.py:238-361 [execute]
    The body of the [try]. *)
Definition body (snap : DownloadClaimSnapshot) : Run unit :=
  ensure_min_free (media_download_min_free_bytes ds) ;;;
  let* aborted := _abort_if_unowned snap in
  if aborted then ret tt
  else
    _advance_progress snap Progress.INSPECTING ;;;
    let* selection := _resolve_selection snap in
    let peak := _peak_reservation_bytes selection (media_download_max_bytes ds) in
    ensure_min_free (media_download_min_free_bytes ds + peak) ;;;
    let* aborted := _abort_if_unowned snap in
    if aborted then ret tt
    else
      let* workspace := create_attempt_workspace (cs_job_id snap) (cs_attempt_count snap) (cs_fence snap) in
      set_workspace (Some workspace) ;;;
      _run_download snap selection workspace peak ;;;
      let* aborted := _abort_if_unowned snap in
      if aborted then ret tt else finish snap selection workspace.

(** Source: backend/src/fetchnow/downloads/executor.py:362-400 [execute]
    The [except] clauses. *)
Definition handler (snap : DownloadClaimSnapshot) (f : Failure) : Run unit :=
  match f with
  | CancelledError =>
      let* user_cancel := gets at_user_cancel in
      if user_cancel then _complete_user_cancel snap
      else _release_to_queued (cs_job_id snap) (cs_fence snap) ;;; raise CancelledError
  | JobCancelledError => _complete_user_cancel snap
  | LeaseLostError => ret tt
  | Error (DownloadError code _ _) => _fail snap code
  | Error (InspectionError _ _) => _fail snap FORMAT_UNAVAILABLE
  | Error _ => _fail snap DOWNLOAD_INTERNAL_ERROR
  end.

(** Source: backend/src/fetchnow/downloads/executor.py:401-410 [execute]
    The [finally] clause: an error of the cleanup is swallowed. *)
Definition finally_cleanup : Run unit :=
  let* workspace := gets at_workspace in
  match workspace with
  | None => ret tt
  | Some workspace => let* _ := attempt (cleanup_attempt_workspace workspace false) in ret tt
  end.

(** Source: backend/src/fetchnow/downloads/executor.py:230-410 [execute] *)
Definition execute (snap : DownloadClaimSnapshot) : Run unit :=
  set_lease_lost false ;;;
  set_user_cancel false ;;;
  set_workspace None ;;;
  let* r := attempt (try_catch (body snap) (fun f => Some (handler snap f))) in
  finally_cleanup ;;;
  lift r.
End Executor.
End DownloadExecutor.
