(* ===== verification/YtdlpTheorems.v ===== *)
(** What an accepted document of [yt-dlp] is worth: the draft is of the target that
    was asked for, and each of its streams is well formed and within the limits
    ([extracted_draft_is_bound]). *)

From S2P Require Export YtdlpParse SelectionTheorems.

Local Open Scope string_scope.
Local Open Scope list_scope.
Local Open Scope Z_scope.

(** ** Numbers that are not negative *)

Definition fl_nonneg (x : float) : bool :=
  match x with S754_finite s _ _ | S754_infinity s => negb s | S754_zero _ | S754_nan => true end.

Lemma nonneg_shifted m e : 0 <= (if 0 <=? e then Zpos m * 2 ^ e else Zpos m / 2 ^ (- e)).
Proof. destruct (Z.leb_spec 0 e); [lia|]. apply Z.div_pos; [lia|]. apply Z.pow_pos_nonneg; lia. Qed.

Lemma nonneg_trunc x : fl_nonneg x = true -> 0 <= fl_trunc x.
Proof. destruct x as [s|s| |[] m e]; try done. intros _. apply nonneg_shifted. Qed.

Lemma nonneg_round x : fl_nonneg x = true -> 0 <= fl_round x.
Proof.
  destruct x as [s|s| |[] m e]; try done. intros _. cbn [fl_round signed]. pose proof (nonneg_shifted m e) as Hs.
  destruct (0 <=? e); [done|]. destruct (2 * _ ?= _); [|lia..]. destruct (Z.even _); lia.
Qed.

Lemma nonneg_of_Z n : 0 <= n -> fl_nonneg (fl_of_Z n) = true.
Proof.
  intros Hn. unfold fl_of_Z, binary_normalize. destruct n as [|m|m]; [done| |lia].
  unfold binary_round. destruct (SpecFloat.shl_align _ _ _) as [m' e']. unfold binary_round_aux.
  destruct (SpecFloat.shr_fexp _ _ _ _ _) as [r e1]. destruct (SpecFloat.shr_fexp _ _ _ _ _) as [r' e2].
  destruct (SpecFloat.shr_m r') as [|m2|m2]; [done| |done]. by destruct (Z.leb _ _).
Qed.
Lemma finite_nonneg x : fl_finite x = true -> fl_ltb x (fl_int 0) = false -> fl_nonneg x = true.
Proof. by destruct x as [s|s| |[] m e]. Qed.

Lemma finite_number value r : _finite_number value = inr (Some r) -> fl_finite r = true /\ fl_nonneg r = true.
Proof.
  destruct value as [[| |n|x| | |]|]; try done; cbn [_finite_number].
  - destruct (Z.leb_spec 0 n) as [Hn|]; [|done]. unfold float_of_int. destruct (fl_finite (fl_of_Z n)) eqn:Hf; [|done].
    intros [= <-]. split; [done|by apply nonneg_of_Z].
  - destruct (fl_finite x) eqn:Hf; [|done]. cbn [negb orb]. destruct (fl_ltb x (fl_int 0)) eqn:Hl; [done|].
    intros [= <-]. split; [done|by apply finite_nonneg].
Qed.

Lemma int_dim_bounds value maximum n : _int_dim value maximum = inr (Some n) -> 0 <= n <= maximum.
Proof.
  unfold _int_dim. intros H. ok_step H. destruct v as [x|]; [|done]. apply finite_number in H0 as [_ Hx].
  apply nonneg_trunc in Hx. destruct (Z.ltb_spec maximum (fl_trunc x)); simplify_eq; lia.
Qed.

(** A size is reported or estimated, and positive either way. *)
Lemma reported_size_bounds value n : bytes_from_reported_size value = inr (Some n) -> 1 <= n <= MAX_INT64.
Proof.
  unfold bytes_from_reported_size. intros H. ok_step H. destruct v as [x|]; [|done].
  destruct ((fl_trunc x <? 1) || _) eqn:Hb; [done|]. apply orb_false_iff in Hb as [H1 H2]. simplify_eq. propify. lia.
Qed.

Lemma bitrate_bytes_bounds duration rate n : bytes_from_bitrate duration rate = inr (Some n) -> 1 <= n <= MAX_INT64.
Proof.
  unfold bytes_from_bitrate. destruct duration as [d|]; [|done]. destruct (d <=? 0); [done|]. destruct (_ || _); [done|].
  destruct (fl_ltb _ rate); [done|]. intros H. ok_step H. destruct (fl_ltb _ rate); [done|]. destruct (_ || _); [done|].
  destruct ((_ <? 1) || _) eqn:Hb; [done|]. apply orb_false_iff in Hb as [H1 H2]. simplify_eq. propify. lia.
Qed.

Lemma estimate_bounds a b c d e v au duration n :
  estimate_format_bytes a b c d e v au duration = inr (Some n) -> 1 <= n <= MAX_INT64.
Proof.
  unfold estimate_format_bytes, or_else. intros H. ok_step H. destruct v0 as [m|].
  { simplify_eq. by eapply reported_size_bounds. }
  ok_step H. destruct v0 as [m|]; [simplify_eq; by eapply reported_size_bounds|].
  ok_step H. destruct v0 as [rate|]; [|done]. by eapply bitrate_bytes_bounds.
Qed.

(** ** Streams *)

(** What is true of an accepted stream. *)
Record stream_ok (media : MediaSettings) (c : InternalFormatCandidate) : Prop := {
  so_container : matches _CONTAINER_RE (fc_container c) = true;
  so_some : fc_has_video c || fc_has_audio c = true;
  so_video : fc_has_video c = negb (bool_decide (fc_video_codec c = NONE));
  so_audio : fc_has_audio c = negb (bool_decide (fc_audio_codec c = NONE));
  so_sized : fc_has_video c = is_some (fc_width c) || is_some (fc_height c);
  so_width : forall n, fc_width c = Some n -> 0 <= n <= media_inspection_max_width media;
  so_height : forall n, fc_height c = Some n -> 0 <= n <= media_inspection_max_height media;
  so_fps : forall x, fc_fps c = Some x -> fl_finite x = true /\ fl_nonneg x = true /\ fl_ltb (fl_int 240) x = false;
  so_bytes : forall n, fc_approx_bytes c = Some n -> 1 <= n <= max_source_file_bytes media;
  so_bitrate : forall n, fc_bitrate_kbps c = Some n -> 0 <= n /\ fc_has_video c = negb (fc_has_audio c);
  so_token : forall t, provider_format_token c = Some t -> (1 <= String.length t <= 64)%nat
}.

Lemma token_bounds value t : token_of value = Some t -> (1 <= String.length t <= 64)%nat.
Proof.
  destruct value as [[| | | |s| |]|]; try done. cbn [token_of].
  destruct (Nat.ltb_spec 0 (String.length s)); cbn [andb]; [|done].
  destruct (Nat.leb_spec (String.length s) 64); [|done]. intros [= <-]. lia.
Qed.

Lemma bitrate_bounds item v a n : bitrate_of item v a = inr (Some n) -> 0 <= n /\ v = negb a.
Proof.
  unfold bitrate_of. intros H. ok_step H. destruct v0 as [x|]; [|done]. destruct (fl_ltb _ x); [done|]. simplify_eq.
  split; [by eapply nonneg_round, finite_number|]. by destruct a, v.
Qed.

Lemma parse_stream_ok media duration item container c :
  matches _CONTAINER_RE container = true ->
  parse_stream (media_inspection_max_height media) (media_inspection_max_width media) (max_source_file_bytes media)
    duration item container = inr (Some c) -> stream_ok media c.
Proof.
  intros Hc. unfold parse_stream. cbv zeta. set (vc := normalize_codec _ _VIDEO_CODEC_MAP). set (ac := normalize_codec _ _AUDIO_CODEC_MAP).
  intros H. ok_step H. rename v into width, H0 into Hw. ok_step H. rename v into height, H0 into Hh.
  destruct (if _ && _ then (true, UNKNOWN) else _) as [has_video video_codec] eqn:Ev.
  destruct (has_video && _) eqn:Hsized; [done|]. destruct (negb has_video && _) eqn:Hsome; [done|].
  ok_step H. rename v into fps, H0 into Hf. destruct (match fps with Some x => _ | None => _ end) eqn:Hfps; [done|].
  ok_step H. rename v into rate, H0 into Hr. ok_step H. rename v into bytes, H0 into Hb.
  destruct (match bytes with Some n => _ | None => _ end) eqn:Hbytes; [done|]. injection H as <-.
  split; cbn; try done.
  - destruct has_video; [done|]. cbn in *. by destruct (bool_decide (ac = NONE)).
  - destruct (_ && bool_decide (vc = NONE)); by injection Ev as <- <-.
  - destruct (is_some width || is_some height); cbn in *; [|by destruct has_video].
    destruct (bool_decide (vc = NONE)) eqn:Hn; by injection Ev as <- <-.
  - intros n ->. by eapply int_dim_bounds.
  - intros n ->. by eapply int_dim_bounds.
  - intros x ->. apply finite_number in Hf as [? ?]. done.
  - intros n ->. apply estimate_bounds in Hb. propify. lia.
  - intros n ->. by eapply bitrate_bounds.
  - intros t. apply token_bounds.
Qed.

Lemma parse_entries_ok media duration entries l :
  parse_entries (media_inspection_max_height media) (media_inspection_max_width media) (max_source_file_bytes media)
    duration entries = inr l ->
  Forall (stream_ok media) l /\ (length l <= length entries)%nat.
Proof.
  revert l. induction entries as [|entry entries IH]; intros l; cbn [parse_entries].
  { intros [= <-]. split; [constructor|done]. }
  intros H. ok_step H. ok_step H. injection H as <-. apply IH in H1 as [Hl Hn].
  assert (Hc : forall c, v = Some c -> stream_ok media c).
  { intros c ->. destruct entry as [| | | | | |item]; try done. cbn in H0.
    destruct (json_get "ext" item) as [[| | | |ext| |]|]; try done. destruct (matches _CONTAINER_RE _) eqn:Hm; [|done].
    by eapply parse_stream_ok. }
  destruct v as [c|]; cbn; [|split; [done|lia]]. split; [|lia]. constructor; [by apply Hc|done].
Qed.

Lemma parse_formats_ok media duration payload limit l :
  _parse_formats (media_inspection_max_height media) (media_inspection_max_width media) (max_source_file_bytes media)
    duration payload limit = inr l ->
  Forall (stream_ok media) l /\ (length l <= limit)%nat.
Proof.
  unfold _parse_formats. destruct (json_get "formats" payload) as [[| | | | |entries|]|]; try done;
    match goal with |- context [(limit <? ?n)%nat] => destruct (Nat.ltb_spec limit n) as [?|Hn]; [done|] end;
    intros H; apply parse_entries_ok in H as [Hf Hl]; (split; [done|]); cbn in *; lia.
Qed.

(** ** Identity *)
(** The URL fields of a document. *)
Definition urls_of (payload : list (string * Json)) : list string :=
  omap text_of [json_get "webpage_url" payload; json_get "original_url" payload].

(** A document says it is about one media. *)
Definition names_media (payload : list (string * Json)) (provider_id : string) (hostnames : list text) (media_id : text) : Prop :=
  urls_of payload <> [] /\
  (forall url, url ∈ urls_of payload -> exists identity,
     MediaIdentity.parse_identity_from_url (chars url) provider_id hostnames = inr identity /\
     MediaIdentity.md_media_id identity = media_id) /\
  _payload_media_id payload = inr (of_chars media_id).

Lemma url_identity_inv provider hosts value l : url_identity provider hosts value = inr l ->
  (l = [] /\ text_of value = None) \/
  exists url identity, text_of value = Some url /\ l = [identity] /\
    MediaIdentity.parse_identity_from_url (chars url) provider hosts = inr identity.
Proof.
  destruct value as [[| | | |url| |]|]; try done; cbn [url_identity text_of]; [by intros [= <-]; left| |by intros [= <-]; left].
  intros (identity & Hu & [= <-])%err_bind_inr. right. by exists url, identity.
Qed.

Lemma bind_identity payload provider media_id hosts u :
  _bind_result_identity payload provider media_id hosts = inr u -> names_media payload provider hosts media_id.
Proof.
  unfold _bind_result_identity. intros (l1 & H1 & (l2 & H2 & Hb)%err_bind_inr)%err_bind_inr.
  apply url_identity_inv in H1. apply url_identity_inv in H2.
  destruct (l1 ++ l2) as [|identity identities] eqn:El; [done|].
  destruct (forallb _ identities) eqn:Hall; [|done]. cbn [negb] in Hb. rewrite forallb_forall in Hall.
  destruct (bool_decide (_ = media_id)) eqn:Hid; [|done]. apply bool_decide_eq_true in Hid. cbn [negb] in Hb.
  apply err_bind_inr in Hb as (payload_id & Hp & Hb). apply raise_if_inr, negb_false_iff, bool_decide_eq_true in Hb.
  assert (Hm : forall i, i ∈ l1 ++ l2 -> MediaIdentity.md_media_id i = media_id).
  { intros i Hi. rewrite El in Hi. apply elem_of_cons in Hi as [->|Hi]; [done|]. apply list_elem_of_In, Hall in Hi.
    apply bool_decide_eq_true in Hi. congruence. }
  unfold names_media, urls_of. split_and!.
  - cbn. destruct H1 as [[-> E1]|(u1 & i1 & -> & -> & _)]; [|done]. destruct H2 as [[-> E2]|(u2 & i2 & -> & _ & _)]; [done|].
    by rewrite E1.
  - intros url Hu. cbn in Hu. destruct H1 as [[-> E1]|(u1 & i1 & E1 & -> & P1)], H2 as [[-> E2]|(u2 & i2 & E2 & -> & P2)];
      rewrite E1, E2 in Hu; cbn in Hu; [by apply elem_of_nil in Hu|..].
    + apply list_elem_of_singleton in Hu as ->. exists i2. split; [done|]. apply Hm. set_solver.
    + apply list_elem_of_singleton in Hu as ->. exists i1. split; [done|]. apply Hm. set_solver.
    + apply elem_of_cons in Hu as [->|Hu]; [exists i1; split; [done|]; apply Hm; set_solver|].
      apply list_elem_of_singleton in Hu as ->. exists i2. split; [done|]. apply Hm. set_solver.
  - rewrite Hp, <- Hb. by rewrite of_chars_chars.
Qed.

Lemma extractor_key_allowed payload allowed key :
  _extractor_key payload allowed = inr key -> is_generic key = false.
Proof.
  unfold _extractor_key. intros H. ok_step H. ok_step H. destruct (is_nil _); [done|].
  destruct (existsb is_generic (v ++ v0)) eqn:Hg; [done|].
  assert (Hk : forall k, k ∈ remove_dups (v ++ v0) -> is_generic k = false).
  { intros k Hk. rewrite elem_of_remove_dups in Hk. destruct (is_generic k) eqn:E; [|done].
    assert (existsb is_generic (v ++ v0) = true); [|congruence]. apply existsb_exists. exists k. split; [|exact E]. by apply list_elem_of_In. }
  destruct (remove_dups (v ++ v0)) as [|k [|k' l]]; [|injection H as <-; apply Hk; by left|].
  - done.
  - destruct (List.filter _ _) as [|k1 [|]] eqn:Ef; try done. injection H as <-. apply Hk.
    assert (Hin : In k1 [k1]) by by left. rewrite <- Ef in Hin. apply filter_In in Hin as [Hin _]. by apply list_elem_of_In.
Qed.

(** ** The extractor *)
Section Extraction.
Context (json_loads : list Byte.byte -> LoadError + Json).
Context (settings : InspectionSettings) (media : MediaSettings) (version : option string) (xa : ExtractAnswers).

Abbreviation extract := (YtdlpParse.extract json_loads settings media version xa).

(** A draft that was read from a document. *)
Record read_from (payload : list (string * Json)) (target : InspectionTarget) (keys : list string)
    (draft : ExtractedMediaDraft) : Prop := {
  rf_provider : ed_provider_id draft = it_provider_id target;
  rf_url : ed_canonical_provider_url draft = of_chars (it_canonical_provider_url target);
  rf_media : ed_media_id draft = of_chars (it_media_id target);
  rf_names : names_media payload (it_provider_id target) (it_allowed_hostnames target) (it_media_id target);
  rf_extractor : extractor_key draft ∈ lower <$> keys /\ is_generic (extractor_key draft) = false;
  rf_title : ed_title draft = text_of (json_get "title" payload);
  rf_duration : forall d, ed_duration_seconds draft = Some d -> 0 <= d <= max_source_duration_seconds media;
  rf_streams : candidates draft <> [] /\ Forall (stream_ok media) (candidates draft) /\
    (length (candidates draft) <= media_inspection_max_format_entries settings)%nat
}.

Lemma parse_payload_ok payload target keys limits draft :
  max_format_entries limits = media_inspection_max_format_entries settings ->
  parse_payload payload target keys media limits version = inr draft -> read_from payload target keys draft.
Proof.
  intros Hl. unfold parse_payload. intros (n & _ & Hp)%err_bind_inr. apply err_bind_inr in Hp as ([] & _ & Hp). cbv zeta in Hp.
  apply err_bind_inr in Hp as (key & Hk & Hp). destruct (bool_decide (key ∈ _)) eqn:Hkey; [|done]. cbn [negb] in Hp.
  apply bool_decide_eq_true in Hkey. apply err_bind_inr in Hp as ([] & Hb & Hp). apply err_bind_inr in Hp as (duration & Hd & Hp).
  destruct (match duration with Some x => _ | None => _ end) eqn:Hlong; [done|].
  apply err_bind_inr in Hp as (l & Hf & Hp). destruct (is_nil l) eqn:Hn; [done|]. injection Hp as <-.
  apply parse_formats_ok in Hf as [Hs Hlen]. split; try done; cbn.
  - by eapply bind_identity.
  - split; [done|by eapply extractor_key_allowed].
  - intros d Ed. destruct duration as [x|]; [|done]. injection Ed as <-. apply finite_number in Hd as [_ Hx].
    apply nonneg_trunc in Hx. unfold above in Hlong. apply orb_false_iff in Hlong as [Hlong _]. propify. lia.
  - split; [by destruct l|]. split; [done|]. by rewrite <- Hl.
Qed.

(** What can be muxed keeps the bounds that a selection applies. *)
Lemma stream_in_bounds c : stream_ok media c -> _usable_video c || _usable_audio c = true -> in_bounds media c = true.
Proof.
  intros Hs Hu.
  assert (Hc : fc_container c ∈ ["mp4"; "m4a"; "webm"; "ogg"; "opus"]).
  { apply orb_prop in Hu as [Hu|Hu]; unfold _usable_video, _usable_audio, one_of in Hu;
      repeat match type of Hu with (if ?b then _ else _) = true => destruct b eqn:?; try done end; propify; set_solver. }
  unfold in_bounds. rewrite !andb_true_iff, !negb_true_iff. split_and!.
  - apply andb_false_iff. rewrite !negb_false_iff. by apply orb_prop, (so_some media).
  - repeat (apply elem_of_cons in Hc as [->|Hc]; [by vm_compute|]). by apply elem_of_nil in Hc.
  - unfold exceeds. destruct (fc_height c) as [n|] eqn:E; [|done]. apply (so_height media) in E; [|done]. apply Z.ltb_ge. lia.
  - unfold exceeds. destruct (fc_width c) as [n|] eqn:E; [|done]. apply (so_width media) in E; [|done]. apply Z.ltb_ge. lia.
  - unfold exceeds. destruct (fc_approx_bytes c) as [n|] eqn:E; [|done]. apply (so_bytes media) in E; [|done]. apply Z.ltb_ge. lia.
Qed.

(** A draft of the extractor is bound to its target. When extraction succeeds,
    [yt-dlp] - an absolute, trusted executable - was run once, in a new directory
    that is gone afterwards, with a clean environment and the target's tool URL as
    its only free argument, and ended with status 0 in time. Its output names the
    media of the target: every page URL in it parses to the target's media id under
    the target's provider and host names, there is one, and the id is that id. The
    draft carries the provider, URL and id of the target, an extractor of the
    provider that is not the generic one, a duration within the limit, and at least
    one stream; each stream has a container, audio or video, sizes within the
    limits and flags that agree with its codecs, and what can be muxed is never
    dropped by the bounds of a later selection. *)
Theorem extracted_draft_is_bound keys target draft :
  extract keys target = inr draft ->
  exists executable tmp_dir request result payload options,
    validate_ytdlp_executable (xa_executable xa (inspection_ytdlp_path settings)) (inspection_ytdlp_path settings) = inr executable /\
    mr_argv request = executable :: options ++ ["--"; of_chars (it_tool_url target)] /\
    mr_env request = build_sanitized_env (join_path tmp_dir "home") tmp_dir /\ mr_cwd request = tmp_dir /\
    xa_run xa request = inr result /\ timed_out result = false /\ signal result = None /\ exit_code result = Some 0 /\
    xa_remove xa tmp_dir true = inr tt /\
    json_loads (stdout result) = inr (JObj payload) /\ read_from payload target (lower <$> keys) draft /\
    forall c, c ∈ candidates draft -> _usable_video c || _usable_audio c = true -> in_bounds media c = true.
Proof.
  unfold YtdlpParse.extract. destruct (inspection_enabled settings); [|done]. cbn [negb].
  intros (executable & Hexe & (root & _ & (tmp_dir & _ & He)%err_bind_inr)%err_bind_inr)%err_bind_inr.
  destruct (extract_in _ _ _ _ _ _ _ _ _) as [e|draft'] eqn:Hin; [by destruct (xa_remove xa tmp_dir false) as [[]|]|].
  apply err_bind_inr in He as ([] & Hgone & [= ->]). unfold extract_in in Hin. cbv zeta in Hin.
  apply err_bind_inr in Hin as (argv & Hargv & Hin). apply err_bind_inr in Hin as ([] & _ & Hin).
  apply err_bind_inr in Hin as (result & Hrun & Hin). apply err_bind_inr in Hin as ([] & Hres & Hin).
  unfold check_result in Hres. destruct (timed_out result) eqn:Ht; [done|]. destruct (signal result) eqn:Hsig; [done|].
  cbn [is_some] in Hres. destruct (bool_decide (exit_code result = Some 0)) eqn:Hexit; [|done]. apply bool_decide_eq_true in Hexit.
  unfold parse_ytdlp_json in Hin. destruct (is_nil (stdout result)); [done|].
  destruct (json_loads (stdout result)) as [e|payload] eqn:Hj; [done|]. destruct payload as [| | | | | |payload]; try done.
  apply parse_payload_ok in Hin; [|done].
  unfold build_ytdlp_metadata_argv in Hargv. repeat (case_match; [done|]). injection Hargv as <-.
  match type of Hrun with
  | xa_run _ ?r = _ => exists executable, tmp_dir, r, result, payload, (removelast (removelast (tail (mr_argv r))))
  end.
  split_and!; try done. intros c Hc. apply stream_in_bounds. pose proof (rf_streams _ _ _ _ Hin) as (_ & Hs & _).
  rewrite Forall_forall in Hs. by apply Hs.
Qed.
End Extraction.

(** ** A document and its draft *)
Module YtdlpExamples.
Import UrlExamples.
#[local] Existing Instance no_idna.

Definition inspection_settings : InspectionSettings := {|
  inspection_enabled := true; inspection_ytdlp_path := "/opt/bin/yt-dlp";
  media_inspection_timeout_seconds := fl_int 30; media_inspection_socket_timeout_seconds := fl_int 10;
  media_inspection_stdout_max_bytes := 1048576; media_inspection_stderr_max_bytes := 262144;
  media_inspection_json_max_depth := 12; media_inspection_json_max_nodes := 8192;
  media_inspection_max_format_entries := 256 |}.

Definition target : InspectionTarget := {|
  it_provider_id := "vk"; it_hostname := chars "vk.com"; it_media_id := chars "-1_2";
  it_canonical_provider_url := chars "https://vk.com/video-1_2"; it_tool_url := chars "https://vk.com/video-1_2";
  it_allowed_hostnames := chars <$> ["vk.com"; "m.vk.com"] |}.

(** A film of 90.5 seconds: a stream with sound, one without a container, a
    storyboard, and sound alone. *)
Definition document (id : string) : Json := JObj [
  ("id", JStr id); ("title", JStr "Film"); ("extractor_key", JStr "VK"); ("extractor", JStr "vk");
  ("webpage_url", JStr "https://m.vk.com/video-1_2"); ("duration", JFloat (fl_of_decimal 905 1));
  ("formats", JArr [
    JObj [("format_id", JStr "url360"); ("ext", JStr "mp4"); ("vcodec", JStr "avc1.64001e"); ("acodec", JStr "mp4a.40.2");
          ("width", JInt 640); ("height", JInt 360); ("tbr", JInt 800); ("protocol", JStr "https")];
    JObj [("format_id", JStr "odd"); ("height", JInt 720)];
    JObj [("format_id", JStr "sb"); ("ext", JStr "mhtml"); ("vcodec", JStr "none"); ("acodec", JStr "none")];
    JObj [("format_id", JStr "a1"); ("ext", JStr "m4a"); ("vcodec", JStr "none"); ("acodec", JStr "mp4a");
          ("abr", JFloat (fl_of_decimal 1285 1)); ("filesize", JInt 1450000)]])].

Definition answers (id : string) : ExtractAnswers * (list Byte.byte -> LoadError + Json) := (
  {| xa_executable := fun _ => Tools.Found {| fs_kind := Regular; fs_group_or_other_writable := false;
       fs_trusted_owner := true; fs_own := false; fs_executable := true; fs_nlink := 1; fs_size := 1000 |};
     xa_temp_root := inr "/srv/tmp"; xa_make := fun root => inr (join_path root "inspect_1");
     xa_run := fun _ => inr {| exit_code := Some 0; stdout := [Byte.x7b]; timed_out := false; signal := None |};
     xa_remove := fun _ _ => inr tt |},
  fun _ => inr (document id)).

Definition extracted (id : string) : exn + ExtractedMediaDraft :=
  extract (answers id).2 inspection_settings SelectionExamples.demo_settings (Some "2025.1.1") (answers id).1 ["VK"] target.

Definition draft : ExtractedMediaDraft := match extracted "-1_2" with inr d => d | inl _ => SelectionExamples.demo_draft end.

Example film_is_extracted :
  ed_duration_seconds draft = Some 90 /\ extractor_key draft = "vk" /\
  (fun c => (fc_container c, fc_height c, fc_approx_bytes c, provider_format_token c, fc_bitrate_kbps c)) <$> candidates draft =
    [("mp4", Some 360, Some 9000000, Some "url360", None); ("m4a", None, Some 1450000, Some "a1", Some 128)].
Proof. by vm_compute. Qed.

Example another_film_is_refused :
  extracted "-1_3" = inl (inspection_error INSPECTION_PROVIDER_MISMATCH "PAYLOAD_ID_MISMATCH").
Proof. by vm_compute. Qed.

Lemma extracted_draft_is_bound_witness :
  exists payload, (answers "-1_2").2 [] = inr (JObj payload) /\
    read_from inspection_settings SelectionExamples.demo_settings payload target (lower <$> ["VK"]) draft.
Proof.
  destruct (extracted_draft_is_bound (answers "-1_2").2 inspection_settings SelectionExamples.demo_settings
    (Some "2025.1.1") (answers "-1_2").1 ["VK"] target draft ltac:(by vm_compute))
    as (exe & dir & request & result & payload & options & _ & _ & _ & _ & _ & _ & _ & _ & _ & Hj & Hr & _).
  exists payload. split; [exact Hj|exact Hr].
Defined.
End YtdlpExamples.
