(* ===== verification/InspectionTheorems.v ===== *)
(** What media inspection guarantees: the registry gives every enabled provider
    its hosts ([resolve_registered]); the tool is asked for the canonical URL of
    a stable identity and nothing else ([tool_sees_canonical_url]); the target
    of a stored job is rebuilt as it was stored ([created_target_inspects]). *)

From S2P Require Export JobService ResolutionTheorems SelectionTheorems.

Local Open Scope string_scope.
Local Open Scope list_scope.
Local Open Scope Z_scope.

(** ** Trimmed, lower-case names *)

Lemma lstrip_lower set l : (forall c, set (lower_char c) = set c) ->
  lstrip set (lower_text l) = lower_text (lstrip set l).
Proof. intros Hs. induction l as [|c l IH]; [done|]. cbn. rewrite Hs. by destruct (set c). Qed.

Lemma lower_reverse l : lower_text (reverse l) = reverse (lower_text l).
Proof. unfold lower_text. by rewrite fmap_reverse. Qed.

Lemma strip_lower_text l : strip is_space (lower_text l) = lower_text (strip is_space l).
Proof.
  assert (Hs : forall c, is_space (lower_char c) = is_space c) by all_chars.
  unfold strip. by rewrite lstrip_lower, <- lower_reverse, lstrip_lower, lower_reverse.
Qed.

Lemma lstrip_head set l : lstrip set l = l <-> match l with c :: _ => set c = false | [] => True end.
Proof.
  destruct l as [|c l]; [done|]. cbn. destruct (set c); [|done]. split; [|done].
  intros E. apply (f_equal length) in E. destruct (lstrip_split set l) as (s & Hs & _).
  apply (f_equal length) in Hs. rewrite length_app in Hs. cbn in E. lia.
Qed.

Lemma strip_idem set l : strip set (strip set l) = strip set l.
Proof.
  unfold strip. set (m := lstrip set l).
  assert (Hm : lstrip set m = m) by apply lstrip_idem.
  destruct (lstrip_split set (reverse m)) as (s & Hs & _).
  assert (Hp : m = reverse (lstrip set (reverse m)) ++ reverse s).
  { by rewrite <- reverse_app, <- Hs, reverse_involutive. }
  assert (Hf : lstrip set (reverse (lstrip set (reverse m))) = reverse (lstrip set (reverse m))).
  { apply lstrip_head. apply lstrip_head in Hm. rewrite Hp in Hm.
    destruct (reverse (lstrip set (reverse m))); [done|exact Hm]. }
  by rewrite Hf, reverse_involutive, lstrip_idem.
Qed.

Lemma chars_strip_lower s : chars (strip_lower s) = lower_text (strip is_space (chars s)).
Proof. unfold strip_lower, lower. fold (chars (of_chars (strip is_space (chars s)))). by rewrite !chars_of_chars. Qed.

Lemma chars_inj s t : chars s = chars t -> s = t.
Proof. intros E. by rewrite <- (of_chars_chars s), <- (of_chars_chars t), E. Qed.

Lemma strip_lower_idem s : strip_lower (strip_lower s) = strip_lower s.
Proof. apply chars_inj. by rewrite !chars_strip_lower, strip_lower_text, strip_idem, lower_text_idem. Qed.

(** A name that passes the check of provider ids is its own trimmed form. *)
Lemma safe_provider_id s : InspectionExtractorRegistry._normalize_provider_id s = inr s -> strip_lower s = s.
Proof.
  unfold InspectionExtractorRegistry._normalize_provider_id. destruct (is_some _) eqn:E; [|done]. intros _.
  apply is_some_true in E as [m E]. apply fullmatch_spec in E. cbn in E.
  destruct E as (a & b & c1 & Es & (x & -> & Hx & ->) & Hb & _ & _).
  apply chars_inj. rewrite chars_strip_lower.
  assert (Hc : forallb token_char (chars s) = true).
  { rewrite Es. cbn. rewrite Hb. unfold token_char. by rewrite Hx. }
  rewrite strip_id; [|eapply (free_class token_char is_space); [|exact Hc]; all_chars].
  apply lower_text_id. eapply free_class; [|exact Hc]. all_chars.
Qed.

(** ** The registry of extractors *)

Module RegistryTheorems.
Import MediaIdentity InspectionExtractorRegistry.

(** A snapshot of a binding, as [snapshot] makes it. *)
Record frozen (binding snap : ExtractorBinding) : Prop := {
  fz_id : eb_provider_id snap = eb_provider_id binding;
  fz_safe : _normalize_provider_id (eb_provider_id snap) = inr (eb_provider_id snap);
  fz_hosts : exists hosts, err_map normalize_hostname (eb_exact_hostnames binding) = inr hosts /\
    eb_exact_hostnames snap = remove_dups hosts;
  fz_extractor : eb_extractor snap = eb_extractor binding
}.

(** The indexes agree with the bindings. *)
Record registry_inv (l : list ExtractorBinding) (registry : t) : Prop := {
  ri_all : Forall2 frozen l (bindings registry);
  ri_provider : forall id snap,
    by_provider registry !! id = Some snap <-> snap ∈ bindings registry /\ eb_provider_id snap = id;
  ri_host : forall host snap,
    by_host registry !! host = Some snap <-> snap ∈ bindings registry /\ host ∈ eb_exact_hostnames snap
}.

Lemma normalize_provider_id_inr id id' : _normalize_provider_id id = inr id' -> id' = id.
Proof. unfold _normalize_provider_id. destruct (is_some _); [by intros [= <-]|done]. Qed.

Lemma snapshot_frozen registry binding snap :
  snapshot registry binding = inr snap ->
  frozen binding snap /\ by_provider registry !! eb_provider_id snap = None.
Proof.
  unfold snapshot. intros E. ok_step E. pose proof (normalize_provider_id_inr _ _ E0) as ->.
  destruct (is_some (_ !! _)) eqn:Ed; [done|]. destruct (is_nil (eb_exact_hostnames binding)); [done|].
  ok_step E. destruct (is_nil (eb_allowed_extractor_keys binding)); [done|]. ok_step E.
  destruct (String.eqb _ _); [done|]. ok_step E. injection E as <-. cbn. split; [|by destruct (_ !! _)].
  split; cbn; [done|done|by exists v|done].
Qed.

Lemma own_hosts_spec hosts snap m m' :
  own_hosts hosts snap m = inr m' -> NoDup hosts ->
  (forall h, h ∈ hosts -> m !! h = None) /\
  forall h, m' !! h = if bool_decide (h ∈ hosts) then Some snap else m !! h.
Proof.
  revert m. induction hosts as [|host hosts IH]; intros m E Hd; cbn in E.
  { injection E as <-. split; [set_solver|done]. }
  apply NoDup_cons in Hd as [Hn Hd].
  destruct (is_some (m !! host)) eqn:Em; [done|]. apply IH in E as [Hf Hl]; [|done].
  assert (Hm : m !! host = None) by by destruct (m !! host). split.
  - intros h [->|Hh]%elem_of_cons; [done|]. specialize (Hf h Hh). rewrite lookup_insert_ne in Hf; [done|]. by intros ->.
  - intros h. rewrite Hl. destruct (decide (h = host)) as [->|Hne].
    + rewrite bool_decide_eq_false_2, lookup_insert_eq, bool_decide_eq_true_2 by set_solver. done.
    + rewrite lookup_insert_ne by done. repeat case_bool_decide; set_solver.
Qed.

Lemma add_binding_inv l registry binding registry' :
  registry_inv l registry -> add_binding registry binding = inr registry' -> registry_inv (l ++ [binding]) registry'.
Proof.
  intros [Hall Hp Hh] E. unfold add_binding in E. do 2 ok_step E. injection E as <-.
  apply snapshot_frozen in E0 as [Hf Hfree]. destruct (fz_hosts _ _ Hf) as (hosts & _ & Hhosts).
  apply own_hosts_spec in E1 as [Hnew Hl]; [|rewrite Hhosts; apply NoDup_remove_dups]. split; cbn.
  - apply Forall2_app; [done|]. by constructor.
  - intros id snap. rewrite elem_of_app, list_elem_of_singleton.
    destruct (decide (id = eb_provider_id v)) as [->|Hne].
    + rewrite lookup_insert_eq. split; [intros [= <-]; tauto|]. intros [[Hs| ->] Hid]; [|done].
      exfalso. rewrite (proj2 (Hp _ snap)) in Hfree; done.
    + rewrite lookup_insert_ne, Hp by done. split; [tauto|]. intros [[Hs| ->] Hid]; [done|]. by destruct Hne.
  - intros host snap. rewrite Hl, elem_of_app, list_elem_of_singleton. case_bool_decide as Hin.
    + split; [intros [= <-]; tauto|]. intros [[Hs| ->] Hhost]; [|done].
      exfalso. specialize (Hnew _ Hin). rewrite (proj2 (Hh _ snap)) in Hnew; done.
    + rewrite Hh. split; [tauto|]. intros [[Hs| ->] Hhost]; [done|]. by destruct Hin.
Qed.

Lemma add_bindings_inv l' l registry registry' :
  registry_inv l registry -> add_bindings registry l' = inr registry' -> registry_inv (l ++ l') registry'.
Proof.
  revert l registry. induction l' as [|binding l' IH]; intros l registry Hinv E; cbn in E.
  { injection E as <-. by rewrite app_nil_r. }
  ok_step E. apply (IH (l ++ [binding])) in E; [|by eapply add_binding_inv]. by rewrite <- app_assoc in E.
Qed.

Lemma from_bindings_inv l registry : from_bindings l = inr registry -> registry_inv l registry.
Proof.
  unfold from_bindings. destruct (is_nil l); [done|]. intros E.
  apply (add_bindings_inv _ []) in E; [done|]. split; cbn; [constructor|..]; intros; rewrite lookup_empty; set_solver.
Qed.
End RegistryTheorems.

(** ** The URL of an identity *)

(** A safe host is one the registry may list, if its labels are short enough. *)
Lemma safe_plain host : safe_host host -> ascii_labels_ok host = true -> plain_host host.
Proof.
  intros Hs Hl. pose proof (safe_normal _ Hs) as Hn. unfold ProviderIdentity.normalize_hostname in Hn.
  set (h := rstrip_dots (lower_text (strip is_space host))) in *.
  destruct (is_nil h || _) eqn:E1; [done|]. destruct (has "/"%char h || _ || _ || _ || _) eqn:E2; [done|].
  injection Hn as Hh. rewrite Hh in E1, E2. repeat (apply orb_false_elim in E2 as [E2 ?]).
  apply orb_false_elim in E1 as [_ E1]. destruct (fullmatch _SAFE_HOST host) as [m|] eqn:Em; [|done].
  split; [apply Hs|apply Hs| |apply Hs|done|].
  - rewrite <- Hh at 1. unfold h. by rewrite rstrip_dots_idem.
  - apply orb_false_intro; [done|]. apply fullmatch_spec in Em.
    destruct Em as (s & t & c1 & -> & (c & -> & Hc & _) & _). revert Hc. cbn. destruct c as [[] [] [] [] [] [] [] []]; done.
Qed.

(** A rooted path of slugs does not end in white space and has no control characters. *)
Lemma canon_path_ends path : forallb canon_char path = true -> ends_well path /\ existsb is_control path = false.
Proof.
  intros Hc. split.
  - intros c Hl. apply last_Some in Hl as [l' ->]. rewrite forallb_app in Hc. apply andb_prop in Hc as [_ Hc].
    cbn in Hc. rewrite andb_true_r in Hc. revert c Hc. all_chars.
  - assert (Hf : free is_control path = true) by (eapply free_class; [|exact Hc]; all_chars).
    clear Hc. induction path as [|c l IH]; [done|]. cbn in *. apply andb_prop in Hf as [Hn Hf].
    apply negb_true_iff in Hn. rewrite Hn. by apply IH.
Qed.

(** A canonical URL that is accepted has a host with short labels. *)
Lemma parsed_labels `{Idna} host path schemes ports limit u :
  safe_host host -> path_shape path -> ends_well path ->
  parse_and_normalize (url_of (chars "https") host None path) schemes ports limit = inr u ->
  ascii_labels_ok host = true.
Proof.
  intros Hs Hpath Hend. unfold parse_and_normalize. assert (Hw : web_scheme (chars "https")) by by right.
  rewrite strip_built by done. destruct (is_nil _); [done|]. destruct (limit <? _); [done|].
  destruct (starts_with _ _); [done|]. rewrite urlparse_built by (done || apply Hs). cbn [err_bind].
  destruct (is_nil (pr_scheme _) || _); [by destruct (_ && _)|]. destruct (negb _); [done|].
  destruct (has_userinfo _); [done|]. intros E. ok_step E. ok_step E0.
  assert (Hh : pr_hostname (built (chars "https") host None path) = Some host).
  { unfold pr_hostname. rewrite hostinfo_built by (done || apply Hs). cbn [fst].
    pose proof (safe_nonempty _ Hs). destruct host as [|c l]; [done|].
    rewrite split_free by (eapply free_class; [|apply Hs]; all_chars). by rewrite (safe_lower _ Hs). }
  change (pr_hostname (built (chars "https") host None path) = Some v) in E0. rewrite Hh in E0. injection E0 as <-.
  assert (Hcolon : has ":"%char host = false)
    by (rewrite has_free, (free_class host_char) by (apply Hs || all_chars); done).
  unfold _is_probably_ipv6 in E. rewrite Hcolon in E. cbn [andb negb] in E. ok_step E.
  unfold _idna_hostname in E0. destruct (is_nil _); [done|]. destruct (has "%"%char _); [done|]. ok_step E0. ok_step E1.
  pose proof (safe_normal _ Hs) as Hn.
  assert (Hdot : rstrip_dots host = host).
  { unfold ProviderIdentity.normalize_hostname in Hn. destruct (_ || _) in Hn; [done|]. destruct (_ || _) in Hn; [done|].
    injection Hn as Hn. rewrite <- Hn at 1. by rewrite rstrip_dots_idem. }
  rewrite Hdot in E1. unfold idna_encode in E1.
  rewrite (forallb_mono host_char is_ascii) in E1 by (apply Hs || all_chars). cbn [negb] in E1.
  by destruct (ascii_labels_ok host).
Qed.

(** ** Targets *)

Section Targets.
Import MediaIdentity InspectionExtractorRegistry RegistryTheorems.

Lemma err_map_elem {A B} (f : A -> exn + B) l l' :
  err_map f l = inr l' -> forall x, x ∈ l -> exists y, f x = inr y /\ y ∈ l'.
Proof.
  revert l'. induction l as [|a l IH]; intros l' E x Hx; [by apply elem_of_nil in Hx|]. cbn in E.
  do 2 ok_step E. injection E as <-. apply elem_of_cons in Hx as [->|Hx]; [exists v; set_solver|].
  destruct (IH _ E1 x Hx) as (y & ? & ?). exists y. set_solver.
Qed.

Lemma media_normalize host host' :
  MediaIdentity.normalize_hostname host = inr host' <-> ProviderIdentity.normalize_hostname host = inr host'.
Proof.
  unfold MediaIdentity.normalize_hostname, mapping_identity_errors.
  destruct (ProviderIdentity.normalize_hostname host) as [e|h]; [by destruct e|done].
Qed.

Lemma media_parse pid host path allowed identity :
  parse_provider_media_identity pid host path allowed = inr identity <->
  exists stable, parse_stable_provider_identity pid host path allowed = inr stable /\ identity = _to_media_identity stable.
Proof.
  unfold parse_provider_media_identity, mapping_identity_errors.
  destruct (parse_stable_provider_identity pid host path allowed) as [e|s]; cbn.
  - destruct e; split; try done; by intros (? & ? & ?).
  - split; [intros [= <-]; by exists s|by intros (? & [= ->] & ->)].
Qed.

(** What [resolve] finds. *)
Lemma resolve_spec l registry pid host binding :
  registry_inv l registry -> InspectionExtractorRegistry.resolve registry pid host = inr binding ->
  binding ∈ bindings registry /\ eb_provider_id binding = strip_lower pid /\
  exists h, ProviderIdentity.normalize_hostname host = inr h /\ h ∈ eb_exact_hostnames binding.
Proof.
  intros [_ Hp Hh] E. unfold resolve in E. ok_step E. apply media_normalize in E0. ok_step E. ok_step E1.
  apply Hp in E1 as [Hin Hid]. destruct (by_host registry !! v) as [hb|] eqn:Eh; [|done].
  destruct (String.eqb_spec (eb_provider_id hb) (eb_provider_id v0)) as [Heq|]; [|done]. injection E as <-.
  apply Hh in Eh as [Hin' Hhost]. split_and!; [done|done|]. exists v. split; [done|].
  assert (E1 : by_provider registry !! eb_provider_id v0 = Some hb) by by apply Hp.
  assert (E2 : by_provider registry !! eb_provider_id v0 = Some v0) by by apply Hp. by simplify_eq.
Qed.

Lemma resolve_registered l registry pid host h binding :
  registry_inv l registry -> binding ∈ bindings registry -> eb_provider_id binding = strip_lower pid ->
  ProviderIdentity.normalize_hostname host = inr h -> h ∈ eb_exact_hostnames binding ->
  InspectionExtractorRegistry.resolve registry pid host = inr binding.
Proof.
  intros [_ Hp Hh] Hin Hid Hn Hhost. unfold resolve. apply media_normalize in Hn. rewrite Hn. cbn [err_bind].
  rewrite (proj2 (Hp _ binding)) by done. cbn [need err_bind]. rewrite (proj2 (Hh h binding)) by done.
  by rewrite String.eqb_refl.
Qed.

(** A binding of a registry made of the providers has the hosts of every enabled
    provider of its name. *)
Lemma provider_hosts providers_ extractors keys registry binding provider host :
  from_provider_registry providers_ extractors keys = inr registry ->
  binding ∈ bindings registry -> provider ∈ providers providers_ -> pd_enabled provider = true ->
  pd_id provider = eb_provider_id binding -> host ∈ pd_exact_hostnames provider ->
  ProviderIdentity.normalize_hostname host = inr host -> host ∈ eb_exact_hostnames binding.
Proof.
  unfold from_provider_registry. set (l := omap _ _). intros E Hb Hp Hen Hid Hh Hn.
  apply from_bindings_inv in E. destruct E as [Hall Hidx _].
  assert (Hsrc : exists source, source ∈ l /\ frozen source binding).
  { apply list_elem_of_lookup in Hb as [i Hi]. eapply Forall2_lookup_r in Hi as (source & Hl & Hf); [|exact Hall].
    exists source. split; [|done]. by eapply list_elem_of_lookup_2. }
  destruct Hsrc as (source & Hsource & Hf). apply list_elem_of_omap in Hsource as (p0 & _ & Hd0).
  unfold descriptor_binding in Hd0. destruct (negb (pd_enabled p0)); [done|].
  destruct (extractors (pd_id p0)) as [ex|] eqn:Ex; [|done]. destruct (keys (pd_id p0)) as [ks|] eqn:Ek; [|done].
  injection Hd0 as <-. assert (Hid0 : pd_id p0 = pd_id provider) by (rewrite Hid; symmetry; apply (fz_id _ _ Hf)).
  rewrite Hid0 in Ex, Ek.
  set (source' := {| eb_provider_id := pd_id provider; eb_exact_hostnames := pd_exact_hostnames provider;
    eb_allowed_extractor_keys := ks; eb_extractor_id := ex_extractor_id ex; eb_extractor := ex |}).
  assert (Hl : source' ∈ l).
  { apply list_elem_of_omap. exists provider. split; [done|]. unfold descriptor_binding. by rewrite Hen, Ex, Ek. }
  apply list_elem_of_lookup in Hl as [i Hi]. eapply Forall2_lookup_l in Hi as (snap & Hs & Hf'); [|exact Hall].
  apply list_elem_of_lookup_2 in Hs.
  assert (Heq : snap = binding).
  { assert (E1 : by_provider registry !! pd_id provider = Some snap) by (apply Hidx; split; [done|apply (fz_id _ _ Hf')]).
    assert (E2 : by_provider registry !! pd_id provider = Some binding) by (apply Hidx; by rewrite <- Hid).
    by simplify_eq. }
  subst snap. destruct (fz_hosts _ _ Hf') as (hosts & Hm & ->). apply elem_of_remove_dups.
  destruct (err_map_elem _ _ _ Hm host Hh) as (y & Hy & Hin). apply media_normalize in Hy.
  rewrite Hn in Hy. by injection Hy as ->.
Qed.
End Targets.

Lemma identity_canonical pid hostname path allowed stable :
  parse_stable_provider_identity pid hostname path allowed = inr stable ->
  (pid = provider_value DZEN -> starts_with (chars "embed") (pi_media_id stable) = false) ->
  canonical pid (pi_media_id stable) (pi_canonical_path stable) (pi_hostname stable) /\
  safe_host (pi_hostname stable) /\ pi_provider_id stable = pid.
Proof.
  unfold parse_stable_provider_identity. intros E Hembed. ok_step E. destruct (negb _); [done|].
  destruct (forbidden_path _) eqn:Ef; [done|]. ok_step E. destruct v0 as [[media canon] host]. injection E as <-.
  cbn in Hembed |- *. apply normalize_hostname_safe in E0. apply match_path_canonical in E1 as [Hc Hh]; [|done|done].
  split_and!; [done| |done]. destruct Hh as [-> | ->]; [done|by apply dzen_host_safe].
Qed.

(** The canonical path of an identity parses as that identity, on its host. *)
Lemma canonical_identity_parses pid media canon host allowed :
  canonical pid media canon host -> safe_host host -> host ∈ allowed ->
  parse_stable_provider_identity pid host canon allowed =
    inr {| pi_provider_id := pid; pi_media_id := media; pi_hostname := host; pi_canonical_path := canon |}.
Proof.
  intros Hc Hh Hin. unfold parse_stable_provider_identity. rewrite (safe_normal _ Hh). cbn [err_bind].
  rewrite bool_decide_eq_true_2 by done. cbn [negb]. destruct (can_rooted _ _ _ _ Hc) as [rest Hr].
  assert (Hne : is_nil canon = false) by by rewrite Hr.
  by rewrite Hne, (can_clear _ _ _ _ Hc), (can_match _ _ _ _ Hc).
Qed.

Lemma policy_schemes_lower urls :
  url_policy_ok urls = true -> lower_text <$> url_allowed_schemes urls = url_allowed_schemes urls.
Proof.
  intros Hp. assert (Hall : Forall (fun s => lower_text s = s) (url_allowed_schemes urls)).
  { apply Forall_forall. intros s Hs. by destruct (policy_web urls Hp s Hs) as [-> | ->]. }
  induction Hall as [|s l Hs _ IH]; [done|]. cbn. by rewrite Hs, IH.
Qed.

Section Created.
Import MediaIdentity InspectionExtractorRegistry RegistryTheorems MediaJobService.
Context `{Idna} (settings : Settings) (urls : UrlSettings) (providers_ : ProviderRegistry).
Context (resolver : text -> exn + list address).
Context (extractors : string -> option MediaExtractor) (keys : string -> option (list string)).
Context (registry : InspectionExtractorRegistry.t).
Context (Hpolicy : url_policy_ok urls = true) (Hplain : registry_plain providers_).
Context (Hhttps : chars "https" ∈ url_allowed_schemes urls) (Hport : 443 ∈ url_allowed_ports urls).
Context (Hregistry : from_provider_registry providers_ extractors keys = inr registry).

(** What is known of a target that [job_target] made. *)
Record target_ok (target : JobTarget) : Prop := {
  tg_canonical : canonical (jt_provider_id target) (jt_media_id target) (jt_path target) (jt_hostname target);
  tg_safe : safe_host (jt_hostname target);
  tg_url : jt_canonical target = url_of (chars "https") (jt_hostname target) None (jt_path target);
  tg_trimmed : strip_lower (jt_provider_id target) = jt_provider_id target;
  tg_bound : exists binding, binding ∈ bindings registry /\ eb_provider_id binding = jt_provider_id target
}.

Lemma job_target_ok resolution provider_registry target :
  job_target resolution (Some registry) provider_registry = inr target ->
  (jt_provider_id target = provider_value DZEN -> starts_with (chars "embed") (jt_media_id target) = false) ->
  target_ok target.
Proof.
  unfold job_target, _provider_inspectable. intros E Hembed. ok_step E. ok_step E. ok_step E. do 1 ok_step E.
  injection E as <-. cbn in Hembed.
  destruct (InspectionExtractorRegistry.resolve _ _ _) as [e|binding] eqn:Er; [by destruct e|]. cbn in E0. injection E0 as <-.
  destruct (parse_provider_media_identity _ _ _ _) as [e|identity] eqn:Ei; [by destruct e|]. cbn in E1. injection E1 as ->.
  apply media_parse in Ei as (stable & Ei & ->).
  destruct (identity_canonical _ _ _ _ _ Ei Hembed) as (Hc & Hs & _).
  assert (Hinv : exists l, registry_inv l registry) by (eexists; by eapply from_bindings_inv). destruct Hinv as [l Hinv].
  destruct (resolve_spec _ _ _ _ _ Hinv Er) as (Hin & Hid & _). rewrite !strip_lower_idem in Hid.
  unfold MediaIdentity.build_canonical_provider_url in E2. cbn [md_hostname md_canonical_path _to_media_identity] in E2.
  rewrite (canonical_url _ _ _ _ Hc Hs) in E2. cbn in E2. injection E2 as <-.
  split; cbn; [done|done|done|apply strip_lower_idem|by exists binding].
Qed.

(** What the validator said of the target's URL. *)
Lemma target_validated target validated :
  target_ok target -> validate urls providers_ resolver (jt_canonical target) = inr validated ->
  vr_provider_id validated = jt_provider_id target ->
  exists provider,
    find_provider providers_ (jt_hostname target) = Some provider /\ pd_id provider = jt_provider_id target /\
    parse_and_normalize (jt_canonical target) (url_allowed_schemes urls) (url_allowed_ports urls) (url_max_length urls) =
      inr {| pu_original_scheme := chars "https"; pu_scheme := chars "https"; pu_hostname := jt_hostname target;
             pu_port := None; pu_path := jt_path target; pu_query := [];
             pu_canonical_without_query := jt_canonical target |} /\
    validated = result_of {| pu_original_scheme := chars "https"; pu_scheme := chars "https";
      pu_hostname := jt_hostname target; pu_port := None; pu_path := jt_path target; pu_query := [];
      pu_canonical_without_query := jt_canonical target |} provider /\
    exists binding, resolve registry (jt_provider_id target) (jt_hostname target) = inr binding /\
      jt_hostname target ∈ eb_exact_hostnames binding.
Proof.
  intros [Hc Hs Hu Ht (binding & Hb & Hid)] Hv Hvp.
  destruct (validate_accepted urls providers_ resolver Hpolicy Hplain _ _ Hv) as (u & provider & addresses & Hp & Ha & ->).
  pose proof (can_chars _ _ _ _ Hc) as Hcc. pose proof (canon_path_shape _ (can_rooted _ _ _ _ Hc) Hcc) as Hshape.
  destruct (canon_path_ends _ Hcc) as [Hend Hctl].
  assert (Hlab : ascii_labels_ok (jt_hostname target) = true).
  { rewrite Hu in Hp. by eapply parsed_labels. }
  assert (Hlen : Z.of_nat (length (url_of (chars "https") (jt_hostname target) None (jt_path target))) <= url_max_length urls).
  { rewrite <- Hu. unfold parse_and_normalize in Hp. rewrite Hu, strip_built in Hp by (done || by right).
    destruct (is_nil _); [done|]. destruct (Z.ltb_spec (url_max_length urls) (Z.of_nat (length (url_of (chars "https") (jt_hostname target) None (jt_path target))))); [done|].
    by rewrite Hu. }
  pose proof (parse_built (chars "https") (jt_hostname target) None (jt_path target) (url_allowed_schemes urls)
    (url_allowed_ports urls) (url_max_length urls) ltac:(by right) Hhttps (safe_plain _ Hs Hlab) Hport Hshape Hend Hctl Hlen) as Hparse.
  rewrite <- Hu in Hparse. rewrite Hp in Hparse. injection Hparse as ->. exists provider.
  pose proof (acc_found _ _ _ _ _ _ Ha) as Hf. cbn in Hf, Hvp.
  split_and!; [done|done|exact Hp|done|]. exists binding.
  assert (Hown : jt_hostname target ∈ eb_exact_hostnames binding).
  { destruct (find_provider_spec _ _ _ Hf) as (Hin & Hen & _).
    eapply provider_hosts; [exact Hregistry|done|exact Hin|done|congruence|apply Ha|apply Hs]. }
  split; [|done]. eapply resolve_registered; [by eapply from_bindings_inv|done| |apply Hs|done].
  by rewrite Hid, Ht.
Qed.

(** The marks of a query or a fragment are not in the URL of a canonical path. *)
Lemma canonical_url_clean pid media canon host :
  canonical pid media canon host -> safe_host host ->
  forall c, is_one_of "?#" c = true -> has c (url_of (chars "https") host None canon) = false /\ has c canon = false.
Proof.
  intros Hc Hs c Hm. pose proof (canon_path_shape _ (can_rooted _ _ _ _ Hc) (can_chars _ _ _ _ Hc)) as Hshape.
  assert (Hp : free (Ascii.eqb c) canon = true) by (eapply free_one; [exact Hm|apply Hshape]).
  split; [|by rewrite has_free, Hp]. rewrite has_free, negb_false_iff. unfold url_of. cbn [netloc_text].
  rewrite !free_app, Hp. rewrite andb_true_r.
  assert (Hh : free (Ascii.eqb c) host = true).
  { eapply free_class; [|apply Hs]. intros d Hd. destruct (Ascii.eqb_spec c d) as [->|]; [|done].
    revert Hd Hm. clear. revert d. all_chars. }
  rewrite Hh, andb_true_r. revert Hm. clear. revert c. all_chars.
Qed.

(** What the worker makes of the stored columns. *)
Definition rebuilt (target : JobTarget) (provider : ProviderDescriptor) : ResolutionResult :=
  {| rr_submitted_url := jt_canonical target;
     rr_validated := result_of {| pu_original_scheme := chars "https"; pu_scheme := chars "https";
       pu_hostname := jt_hostname target; pu_port := None; pu_path := jt_path target; pu_query := [];
       pu_canonical_without_query := jt_canonical target |} provider;
     rr_provider_id := jt_provider_id target;
     rr_provider_display_name := pd_display_name provider;
     rr_canonical_provider_url := jt_canonical target;
     rr_wrapper_type := None; rr_provenance := DIRECT_PROVIDER; rr_resolution_chain := [] |}.

Lemma target_identity target binding :
  target_ok target -> jt_hostname target ∈ eb_exact_hostnames binding ->
  parse_provider_media_identity (jt_provider_id target) (jt_hostname target)
    (if is_nil (jt_path target) then ["/"%char] else jt_path target) (eb_exact_hostnames binding) =
  inr {| md_provider_id := jt_provider_id target; md_media_id := jt_media_id target;
         md_hostname := jt_hostname target; md_canonical_path := jt_path target |}.
Proof.
  intros [Hc Hs _ _ _] Hin. destruct (can_rooted _ _ _ _ Hc) as [rest Hr].
  assert (Hne : is_nil (jt_path target) = false) by by rewrite Hr.
  rewrite Hne. apply media_parse. eexists. split; [by apply canonical_identity_parses|done].
Qed.

Lemma target_rebuilds target validated t :
  target_ok target -> validate urls providers_ resolver (jt_canonical target) = inr validated ->
  vr_provider_id validated = jt_provider_id target ->
  t = {| TargetRebuild.st_provider_id := jt_provider_id target;
         TargetRebuild.st_canonical_provider_url := jt_canonical target;
         TargetRebuild.st_media_id := jt_media_id target; TargetRebuild.st_hostname := jt_hostname target;
         TargetRebuild.st_path := jt_path target; TargetRebuild.st_scheme := chars "https";
         TargetRebuild.st_port := None |} ->
  exists provider, find_provider providers_ (jt_hostname target) = Some provider /\
    TargetRebuild.rebuild_resolution_result urls (Some registry) (Some providers_)
      (Some (validate urls providers_ resolver)) t = inr (rebuilt target provider).
Proof.
  intros Hok Hv Hvp ->. destruct (target_validated _ _ Hok Hv Hvp) as (provider & Hf & Hpid & Hparse & -> & binding & Hr & Hin).
  exists provider. split; [done|]. pose proof Hok as [Hc Hs Hu Ht _].
  destruct (canonical_url_clean _ _ _ _ Hc Hs "?"%char eq_refl) as [Hq1 Hq2].
  destruct (canonical_url_clean _ _ _ _ Hc Hs "#"%char eq_refl) as [Hh1 Hh2]. rewrite <- Hu in Hq1, Hh1.
  unfold TargetRebuild.rebuild_resolution_result, TargetRebuild.reparse_stored.
  cbn [TargetRebuild.st_provider_id TargetRebuild.st_canonical_provider_url TargetRebuild.st_media_id
       TargetRebuild.st_hostname TargetRebuild.st_path TargetRebuild.st_scheme TargetRebuild.st_port].
  rewrite Hq1, Hq2, Hh1, Hh2. cbn [orb]. rewrite policy_schemes_lower by done. rewrite Hparse. cbn [err_bind].
  cbn [pu_query pu_scheme pu_hostname pu_port pu_path pu_canonical_without_query is_nil negb].
  assert (Hn : rstrip_dots (lower_text (strip is_space (jt_hostname target))) = jt_hostname target).
  { pose proof (safe_normal _ Hs) as Hn. unfold ProviderIdentity.normalize_hostname in Hn.
    destruct (_ || _) in Hn; [done|]. destruct (_ || _) in Hn; [done|]. by injection Hn. }
  rewrite Hn. change (lower_text (strip is_space (chars "https"))) with (chars "https").
  rewrite !bool_decide_eq_true_2 by done. cbn [negb err_bind]. rewrite Ht.
  assert (Hm : MediaIdentity.normalize_hostname (jt_hostname target) = inr (jt_hostname target)) by apply media_normalize, Hs.
  rewrite Hm. cbn [err_bind]. unfold TargetRebuild.owning_hosts. rewrite Hr. cbn [err_bind pu_path].
  rewrite target_identity by done. cbn [err_bind md_media_id]. rewrite bool_decide_eq_true_2 by done. cbn [negb].
  unfold TargetRebuild.revalidate. cbn [TargetRebuild.st_canonical_provider_url]. rewrite Hv. cbn [err_bind].
  cbn [vr_provider_id vr_url nu_canonical result_of pu_canonical_without_query].
  rewrite Hpid, String.eqb_refl, bool_decide_eq_true_2 by done. cbn [negb err_bind]. done.
Qed.

Lemma rebuilt_binds target provider binding :
  target_ok target -> pd_id provider = jt_provider_id target ->
  parse_and_normalize (jt_canonical target) (url_allowed_schemes urls) (url_allowed_ports urls) (url_max_length urls) =
    inr {| pu_original_scheme := chars "https"; pu_scheme := chars "https"; pu_hostname := jt_hostname target;
           pu_port := None; pu_path := jt_path target; pu_query := [];
           pu_canonical_without_query := jt_canonical target |} ->
  resolve registry (jt_provider_id target) (jt_hostname target) = inr binding ->
  jt_hostname target ∈ eb_exact_hostnames binding ->
  MediaInspectionService._bind_target urls registry (rebuilt target provider) =
  inr {| it_provider_id := jt_provider_id target; it_hostname := jt_hostname target;
         it_media_id := jt_media_id target; it_canonical_provider_url := jt_canonical target;
         it_tool_url := jt_canonical target; it_allowed_hostnames := eb_exact_hostnames binding |}.
Proof.
  intros Hok Hpid Hparse Hr Hin. pose proof Hok as [Hc Hs Hu Ht _].
  destruct (canonical_url_clean _ _ _ _ Hc Hs "?"%char eq_refl) as [Hq1 _].
  destruct (canonical_url_clean _ _ _ _ Hc Hs "#"%char eq_refl) as [Hh1 _]. rewrite <- Hu in Hq1, Hh1.
  unfold MediaInspectionService._bind_target, MediaInspectionService.coherent_fields, rebuilt.
  cbn [rr_validated rr_provider_id rr_canonical_provider_url result_of vr_url vr_provider_id nu_provider_id nu_canonical
       pu_canonical_without_query].
  rewrite Hpid, Ht, String.eqb_refl, Hq1, Hh1, bool_decide_eq_true_2 by done. cbn [negb orb raise_if err_bind].
  unfold MediaInspectionService.reparse, MediaInspectionService.allowed_schemes.
  cbn [nu_canonical nu_scheme nu_hostname nu_port nu_path]. rewrite policy_schemes_lower by done. rewrite Hparse.
  cbn [err_bind pu_scheme pu_hostname pu_port pu_path pu_canonical_without_query].
  rewrite !bool_decide_eq_true_2 by done. cbn [negb raise_if err_bind].
  unfold MediaInspectionService.coherent_scheme, MediaInspectionService.allowed_schemes.
  cbn [nu_original_scheme nu_scheme nu_port pu_original_scheme]. rewrite policy_schemes_lower by done.
  change (lower_text (strip is_space (chars "https"))) with (chars "https").
  rewrite !(bool_decide_eq_true_2 (chars "https" ∈ _)) by done.
  rewrite !(bool_decide_eq_true_2 (chars "https" = chars "https")) by done.
  rewrite (bool_decide_eq_false_2 (chars "https" = chars "http")) by done. cbn [negb orb andb raise_if err_bind].
  unfold MediaInspectionService.target_of. cbn [nu_hostname nu_path]. rewrite Hr. cbn [err_bind].
  rewrite target_identity by done. cbn [err_bind md_hostname md_canonical_path md_media_id].
  unfold MediaIdentity.build_canonical_provider_url. rewrite (canonical_url _ _ _ _ Hc Hs). cbn [mapping_identity_errors err_bind]. by rewrite <- Hu.
Qed.
End Created.

Section Theorems.
Import MediaIdentity InspectionExtractorRegistry RegistryTheorems MediaJobService.

(** A job that was enqueued is inspected as what it was enqueued for. Take
    any resolved URL whose target the service stores, and the row the repository
    makes of it. As long as the validator accepts the stored canonical URL for
    the stored provider (its host still resolves to public addresses), the
    worker rebuilds the target from the columns and the inspection service binds
    exactly it: same provider, media id, host and URL, and the hosts are those
    of the provider's extractor. The one exception is a Dzen id that begins with
    [embed]. *)
Theorem created_target_inspects `{Idna} settings urls providers_ resolver extractors keys registry
    provider_registry resolution target validated id credential_hash fingerprint now :
  url_policy_ok urls = true -> registry_plain providers_ ->
  chars "https" ∈ url_allowed_schemes urls -> 443 ∈ url_allowed_ports urls ->
  from_provider_registry providers_ extractors keys = inr registry ->
  job_target resolution (Some registry) provider_registry = inr target ->
  (jt_provider_id target = provider_value DZEN -> starts_with (chars "embed") (jt_media_id target) = false) ->
  validate urls providers_ resolver (jt_canonical target) = inr validated ->
  vr_provider_id validated = jt_provider_id target ->
  let job := MediaJobRepository.queued_job id (enqueue_args settings target credential_hash fingerprint now) in
  exists rebuilt binding,
    TargetRebuild.rebuild_resolution_result urls (Some registry) (Some providers_)
      (Some (validate urls providers_ resolver)) (stored_target job) = inr rebuilt /\
    resolve registry (jt_provider_id target) (jt_hostname target) = inr binding /\
    MediaInspectionService._bind_target urls registry rebuilt =
      inr {| it_provider_id := jt_provider_id target; it_hostname := jt_hostname target;
             it_media_id := jt_media_id target; it_canonical_provider_url := jt_canonical target;
             it_tool_url := jt_canonical target; it_allowed_hostnames := eb_exact_hostnames binding |}.
Proof.
  intros Hpolicy Hplain Hhttps Hport Hreg Ht Hembed Hv Hvp. cbv zeta.
  pose proof (job_target_ok providers_ extractors keys registry Hreg _ _ _ Ht Hembed) as Hok.
  destruct (target_validated urls providers_ resolver extractors keys registry Hpolicy Hplain Hhttps Hport Hreg
    _ _ Hok Hv Hvp) as (provider & Hf & Hpid & Hparse & _ & binding & Hr & Hin).
  assert (Hstored : stored_target (MediaJobRepository.queued_job id (enqueue_args settings target credential_hash fingerprint now)) =
    {| TargetRebuild.st_provider_id := jt_provider_id target;
       TargetRebuild.st_canonical_provider_url := jt_canonical target;
       TargetRebuild.st_media_id := jt_media_id target; TargetRebuild.st_hostname := jt_hostname target;
       TargetRebuild.st_path := jt_path target; TargetRebuild.st_scheme := chars "https";
       TargetRebuild.st_port := None |}) by (unfold stored_target; cbn; by rewrite !chars_of_chars).
  destruct (target_rebuilds urls providers_ resolver extractors keys registry Hpolicy Hplain Hhttps Hport Hreg
    _ _ _ Hok Hv Hvp Hstored) as (provider' & Hf' & Hrebuild).
  rewrite Hf in Hf'. injection Hf' as <-. exists (rebuilt target provider), binding.
  split_and!; [done|done|]. by apply rebuilt_binds.
Qed.

Lemma bind_target_spec `{Idna} urls l registry resolution target :
  registry_inv l registry ->
  MediaInspectionService._bind_target urls registry resolution = inr target ->
  exists binding stable,
    resolve registry (it_provider_id target) (nu_hostname (vr_url (rr_validated resolution))) = inr binding /\
    binding ∈ bindings registry /\ eb_provider_id binding = it_provider_id target /\
    it_provider_id target = strip_lower (rr_provider_id resolution) /\
    rr_canonical_provider_url resolution = nu_canonical (vr_url (rr_validated resolution)) /\
    it_allowed_hostnames target = eb_exact_hostnames binding /\
    parse_stable_provider_identity (it_provider_id target) (nu_hostname (vr_url (rr_validated resolution)))
      (if is_nil (nu_path (vr_url (rr_validated resolution))) then ["/"%char]
       else nu_path (vr_url (rr_validated resolution))) (eb_exact_hostnames binding) = inr stable /\
    it_media_id target = pi_media_id stable /\ it_hostname target = pi_hostname stable /\
    it_tool_url target = url_of (chars "https") (pi_hostname stable) None (pi_canonical_path stable) /\
    it_canonical_provider_url target = it_tool_url target.
Proof.
  intros Hinv E. unfold MediaInspectionService._bind_target in E. do 3 ok_step E. clear E1 E2.
  unfold MediaInspectionService.coherent_fields in E0. do 3 ok_step E0. passed. injection E0 as <-.
  unfold MediaInspectionService.target_of in E. do 3 ok_step E. injection E as <-.
  destruct (resolve_spec _ _ _ _ _ Hinv E0) as (Hin & Hid & _). rewrite strip_lower_idem in Hid.
  apply media_parse in E4 as (stable & Ei & ->).
  destruct (stable_identity_shape _ _ _ _ _ Ei) as (Hr & Hs & _).
  unfold MediaIdentity.build_canonical_provider_url, mapping_identity_errors in E5.
  cbn [md_hostname md_canonical_path _to_media_identity] in E5.
  destruct (ProviderIdentity.build_canonical_provider_url _ _) as [e|url] eqn:Eb; [by destruct e|]. injection E5 as ->.
  apply public_url_of in Eb as ->; [|by right|done|done]. match goal with H : resolve registry _ _ = inr ?b |- _ => exists b, stable end. cbn. by split_and!.
Qed.

(** What an inspection reports is of the media it was asked for, whatever
    the extractor returns. A draft that is returned came from the extractor
    bound to the provider, asked for the https URL of a stable identity (host
    and path only, no query, no port, no credentials) parsed from the resolved
    URL on a host the provider owns; it names that provider, media id and URL,
    and an extractor of the provider's list. *)
Theorem inspected_draft_is_of_target `{Idna} urls l registry resolution draft :
  from_bindings l = inr registry ->
  MediaInspectionService.inspect_draft urls registry resolution = inr draft ->
  exists target binding stable,
    ex_extract (eb_extractor binding) target = inr draft /\
    binding ∈ bindings registry /\ eb_provider_id binding = strip_lower (rr_provider_id resolution) /\
    parse_stable_provider_identity (eb_provider_id binding) (nu_hostname (vr_url (rr_validated resolution)))
      (if is_nil (nu_path (vr_url (rr_validated resolution))) then ["/"%char]
       else nu_path (vr_url (rr_validated resolution))) (eb_exact_hostnames binding) = inr stable /\
    it_tool_url target = url_of (chars "https") (pi_hostname stable) None (pi_canonical_path stable) /\
    it_hostname target = pi_hostname stable /\ it_allowed_hostnames target = eb_exact_hostnames binding /\
    ed_provider_id draft = eb_provider_id binding /\
    chars (ed_media_id draft) = pi_media_id stable /\
    chars (ed_canonical_provider_url draft) = it_tool_url target /\
    lower (extractor_key draft) ∈ eb_allowed_extractor_keys binding.
Proof.
  intros Hreg E. apply from_bindings_inv in Hreg as Hinv. unfold MediaInspectionService.inspect_draft in E.
  ok_step E. rename v into target. do 3 ok_step E. injection E as <-. rename v into binding, v0 into draft.
  destruct (MediaInspectionService._bind_target _ _ _) as [e|t] eqn:Eb; [done|]. injection E0 as ->.
  destruct (bind_target_spec _ _ _ _ _ Hinv Eb)
    as (binding0 & stable & Hr & Hin & Hid & Hp & _ & Hhosts & Hparse & Hmedia & Hhost & Hurl & Hcanon).
  destruct (resolve_spec _ _ _ _ _ Hinv E1) as (Hin' & Hid' & _).
  assert (Heq : binding0 = binding).
  { rewrite Hp, strip_lower_idem, <- Hp, <- Hid in Hid'.
    assert (Ea : by_provider registry !! eb_provider_id binding0 = Some binding0) by by apply (ri_provider _ _ Hinv).
    assert (Ec : by_provider registry !! eb_provider_id binding0 = Some binding) by by apply (ri_provider _ _ Hinv).
    rewrite Ea in Ec. by injection Ec. }
  subst binding0. unfold MediaInspectionService.draft_matches in E3. do 3 ok_step E3. passed.
  apply String.eqb_eq in E0. exists target, binding, stable. rewrite Hid, <- Hp. split_and!; try done; congruence.
Qed.
End Theorems.

(** ** A concrete service *)

Module InspectionExamples.
Import UrlExamples MediaIdentity InspectionExtractorRegistry RegistryTheorems MediaJobService.
#[local] Existing Instance no_idna.

Definition job_settings : Settings := FormatExamples.demo_settings.

(** A tool that finds the demo streams under the media id it is asked for. *)
Definition tool (keys : list string) : MediaExtractor := {|
  ex_extractor_id := "yt-dlp";
  ex_extract := fun target =>
    if bool_decide (it_media_id target = chars "gone") then inl (inspection_error INSPECTION_MEDIA_UNAVAILABLE "GONE")
    else inr {| ed_provider_id := it_provider_id target;
                ed_canonical_provider_url := of_chars (it_canonical_provider_url target);
                ed_media_id := of_chars (it_media_id target);
                ed_title := Some "Film"; ed_duration_seconds := Some 60;
                candidates := candidates SelectionExamples.demo_draft;
                extractor_key := default "" (head keys); tool_version := Some "2025.1.1" |} |}.

Definition hosts : ProviderRegistry := from_settings settings.

Definition extractors (id : string) : option MediaExtractor := tool <$> DEFAULT_YTDLP_EXTRACTOR_KEYS id.

Definition registry : InspectionExtractorRegistry.t :=
  match from_provider_registry hosts extractors DEFAULT_YTDLP_EXTRACTOR_KEYS with
  | inr registry => registry
  | inl _ => {| bindings := []; by_provider := ∅; by_host := ∅ |}
  end.

Lemma registry_built : from_provider_registry hosts extractors DEFAULT_YTDLP_EXTRACTOR_KEYS = inr registry.
Proof. by vm_compute. Qed.

(** A direct link as the resolution service answers it. *)
Definition resolved (url : string) : exn + ResolutionResult :=
  match Resolution.resolve settings 3 hosts empty_registry resolver resolver (fun _ => "") 9 (chars url) with
  | Some r => r
  | None => inl UnexpectedError
  end.

Definition resolution : ResolutionResult :=
  match resolved "https://m.vk.com/clip-1_2?from=feed" with
  | inr r => r
  | inl _ => result_with [] submitted_result None DIRECT_PROVIDER []
  end.

Definition target : JobTarget :=
  match job_target resolution (Some registry) None with
  | inr t => t
  | inl _ => {| jt_provider_id := ""; jt_canonical := []; jt_media_id := []; jt_hostname := []; jt_path := [] |}
  end.

Lemma target_made : job_target resolution (Some registry) None = inr target.
Proof. by vm_compute. Qed.

Definition target_validation : URLValidationResult :=
  match validate settings hosts resolver (jt_canonical target) with
  | inr res => res
  | inl _ => submitted_result
  end.

Lemma target_validates : validate settings hosts resolver (jt_canonical target) = inr target_validation.
Proof. by vm_compute. Qed.

Lemma created_target_inspects_witness :
  jt_canonical target = chars "https://m.vk.com/video-1_2" /\
  exists rebuilt binding,
    TargetRebuild.rebuild_resolution_result settings (Some registry) (Some hosts)
      (Some (validate settings hosts resolver))
      (stored_target (MediaJobRepository.queued_job 1%N (enqueue_args job_settings target [] [] 0))) = inr rebuilt /\
    InspectionExtractorRegistry.resolve registry (jt_provider_id target) (jt_hostname target) = inr binding /\
    MediaInspectionService._bind_target settings registry rebuilt =
      inr {| it_provider_id := jt_provider_id target; it_hostname := jt_hostname target;
             it_media_id := jt_media_id target; it_canonical_provider_url := jt_canonical target;
             it_tool_url := jt_canonical target; it_allowed_hostnames := eb_exact_hostnames binding |}.
Proof.
  split; [by vm_compute|].
  apply (@created_target_inspects no_idna job_settings settings hosts resolver extractors DEFAULT_YTDLP_EXTRACTOR_KEYS
    registry None resolution target target_validation 1%N [] [] 0 ltac:(by vm_compute) (default_registry_plain settings)
    ltac:(cbn; set_solver) ltac:(cbn; set_solver) registry_built target_made); [|exact target_validates|by vm_compute].
  intros Hd. by vm_compute in Hd.
Defined.

(** The bindings the registry was made of. *)
Definition bindings_given : list ExtractorBinding :=
  omap (descriptor_binding extractors DEFAULT_YTDLP_EXTRACTOR_KEYS) (providers hosts).

Definition inspected : ExtractedMediaDraft :=
  match MediaInspectionService.inspect_draft settings registry resolution with
  | inr draft => draft
  | inl _ => SelectionExamples.demo_draft
  end.

Lemma inspected_draft_is_of_target_witness :
  ed_canonical_provider_url inspected = "https://m.vk.com/video-1_2" /\
  exists target binding, ex_extract (eb_extractor binding) target = inr inspected /\ binding ∈ bindings registry.
Proof.
  split; [by vm_compute|].
  destruct (@inspected_draft_is_of_target no_idna settings bindings_given registry resolution inspected
    registry_built ltac:(by vm_compute)) as (t & binding & stable & Hx & Hin & _).
  by exists t, binding.
Defined.

(** What an extractor says of something else is refused. *)
Definition lying (change : ExtractedMediaDraft -> ExtractedMediaDraft) : exn + ExtractedMediaDraft :=
  match from_provider_registry hosts
    (fun id => (fun keys => {| ex_extractor_id := "yt-dlp";
                               ex_extract := fun t => let? draft := ex_extract (tool keys) t in inr (change draft) |}) <$> DEFAULT_YTDLP_EXTRACTOR_KEYS id)
    DEFAULT_YTDLP_EXTRACTOR_KEYS with
  | inr registry => MediaInspectionService.inspect_draft settings registry resolution
  | inl e => inl e
  end.

Example lies_are_refused :
  lying (fun d => {| ed_provider_id := "ok"; ed_canonical_provider_url := ed_canonical_provider_url d;
    ed_media_id := ed_media_id d; ed_title := None; ed_duration_seconds := None; candidates := [];
    extractor_key := extractor_key d; tool_version := None |}) =
    inl (MediaInspectionService.mismatch "DRAFT_PROVIDER_MISMATCH") /\
  lying (fun d => {| ed_provider_id := ed_provider_id d; ed_canonical_provider_url := ed_canonical_provider_url d;
    ed_media_id := "-1_3"; ed_title := None; ed_duration_seconds := None; candidates := [];
    extractor_key := extractor_key d; tool_version := None |}) =
    inl (MediaInspectionService.mismatch "DRAFT_MEDIA_MISMATCH") /\
  lying (fun d => {| ed_provider_id := ed_provider_id d; ed_canonical_provider_url := ed_canonical_provider_url d;
    ed_media_id := ed_media_id d; ed_title := None; ed_duration_seconds := None; candidates := [];
    extractor_key := "generic"; tool_version := None |}) =
    inl (MediaInspectionService.mismatch "DRAFT_EXTRACTOR_MISMATCH").
Proof. by vm_compute. Qed.
End InspectionExamples.
