(* ===== verification/JobServiceTheorems.v ===== *)
(** What the inspection endpoints promise: a request creates one job and every
    retry of it finds that job ([retries_find_the_job]); a job is read by the
    bearer of its token and by nobody else ([job_reads_exact]). *)

From S2P Require Export InspectionTheorems AuthorizeTheorems.

Local Open Scope string_scope.
Local Open Scope list_scope.
Local Open Scope Z_scope.

Lemma str_mem_chars c s : str_mem c s = has c (chars s).
Proof. induction s as [|d s IH]; [done|]. cbn. by rewrite IH, Ascii.eqb_sym. Qed.

Module JobServiceTheorems.
Import JobStates MediaJobRepository JobLifecycle JobTheorems MediaJobService AuthorizeTheorems.

Section Service.
Context `{Idna} (settings : Settings) (urls : UrlSettings).
Context (inspection_registry : option InspectionExtractorRegistry.t) (provider_registry : option ProviderRegistry).
Context (resolve : text -> exn + ResolutionResult).

Abbreviation create raw_url token :=
  (create_job settings urls raw_url token resolve inspection_registry provider_registry).

(** The request as the job row identifies it: the hash of the token and the
    fingerprint of the URL under it. *)
Definition identified (raw_url : text) (token : string) (credential fingerprint : bytes) : Prop :=
  hash_access_token token = inr credential /\
  exists request, normalized_request urls raw_url = inr request /\
    hash_request_fingerprint token (encoded request) = inr fingerprint.

Lemma identified_lengths raw_url token credential fingerprint :
  identified raw_url token credential fingerprint -> length credential = 32%nat /\ length fingerprint = 32%nat.
Proof.
  intros [Hc (request & _ & Hf)]. unfold hash_access_token in Hc. unfold hash_request_fingerprint in Hf. split.
  - destruct (parse_access_token token) as [e|raw]; [done|].
    destruct (Nat.eqb_spec (length (sha256 (domain "fetchnow:v1:media-job:access" ++ raw))) 32) as [E|]; cbn [negb] in Hc; congruence.
  - destruct (bool_decide _); [done|]. destruct (parse_access_token token) as [e|raw]; [done|].
    set (digest := hmac_sha256 _ _) in Hf. destruct (Nat.eqb_spec (length digest) 32) as [E|]; cbn [negb] in Hf; congruence.
Qed.

Lemma credential_unique w id id' job job' :
  inv ∅ w -> media_jobs w !! id = Some job -> media_jobs w !! id' = Some job' ->
  mj_credential_hash job = mj_credential_hash job' -> id = id'.
Proof. intros Hi E E' Hc. apply (inv_unique _ _ Hi id id' job job' E E'), bool_decide_eq_true, Hc. Qed.

(** ** A request whose job exists *)
Lemma create_recovers raw_url token credential fingerprint w id job :
  inv ∅ w -> media_jobs_enabled settings = true -> identified raw_url token credential fingerprint ->
  media_jobs w !! id = Some job -> mj_credential_hash job = credential ->
  create raw_url token w =
    (if decide (mj_request_fingerprint job = fingerprint) then _to_view settings job false true
     else inl (job_error IDEMPOTENCY_CONFLICT "FINGERPRINT_MISMATCH"), w).
Proof.
  intros Hi Hon [Hc (request & Hr & Hf)] Ej Hcj. unfold create_job. rewrite Hon, Hc, Hr. cbn [negb].
  do 3 run_step. rewrite Hf. run_step.
  assert (Hs : get_by_credential_hash credential w = (inr (Some job), w)).
  { unfold get_by_credential_hash. eapply select_first_unique; [exact Ej|by apply bool_decide_eq_true|].
    intros id' job' E' Hj'. apply bool_decide_eq_true in Hj'.
    assert (id' = id) as -> by (eapply credential_unique; [exact Hi|exact E'|exact Ej|congruence]). cbn in E'. congruence. }
  run_by Hs. destruct (tokens_match _ _) eqn:Et.
  - apply tokens_match_true in Et. by rewrite decide_True.
  - rewrite decide_False; [done|]. intros E. apply tokens_match_true in E. congruence.
Qed.

(** ** A new request *)

(** The view of a job that was just queued. *)
Definition queued_view (job : MediaJob) : JobView := {|
  jv_id := mj_id job; jv_public_state := value QUEUED; jv_provider_id := mj_provider_id job;
  jv_created_at := mj_created_at job; jv_updated_at := mj_created_at job; jv_expires_at := mj_expires_at job;
  jv_completed_at := None; jv_result := None; jv_error_code := None; jv_created := true |}.

Lemma job_target_clean resolution target :
  job_target resolution inspection_registry provider_registry = inr target ->
  has "?"%char (jt_canonical target) = false /\ has "#"%char (jt_canonical target) = false.
Proof.
  unfold job_target. intros E. do 4 ok_step E. passed. injection E as <-. cbn. by apply orb_false_iff.
Qed.

(** The row of a new target is stored. *)
Lemma enqueue_new resolution target credential fingerprint now w :
  1 <= media_job_max_attempts settings -> length credential = 32%nat -> length fingerprint = 32%nat ->
  job_target resolution inspection_registry provider_registry = inr target ->
  (forall id job, media_jobs w !! id = Some job -> mj_credential_hash job <> credential) ->
  media_jobs w !! uuids w (uuid_draws w) = None ->
  let q := enqueue_args settings target credential fingerprint now in
  let job := queued_job (uuids w (uuid_draws w)) q in
  enqueue_or_get q w =
    (inr (job, true), with_table (<[mj_id job := job]> (media_jobs w)) (w <| uuid_draws := S (uuid_draws w) |>)).
Proof.
  intros Hmax Hlc Hlf Ht Hnew Hfree q job. destruct (job_target_clean _ _ Ht) as [Hq Hh].
  assert (Hquery : str_mem "?" (eq_canonical_provider_url q) = false) by (cbn; by rewrite str_mem_chars, chars_of_chars).
  assert (Hfragment : str_mem "#" (eq_canonical_provider_url q) = false) by (cbn; by rewrite str_mem_chars, chars_of_chars).
  assert (Hok : insert_ok job (w <| uuid_draws := S (uuid_draws w) |>) = true).
  { unfold insert_ok. cbn. rewrite Hfree. cbn. rewrite (proj2 (exists_row_false _ _)).
    2: { intros id r Er. apply bool_decide_eq_false. intros E. by apply (Hnew id r Er). }
    unfold MediaJob_check, no_char, mj_lease_state_check, mj_result_state_check.
    cbn in Hquery, Hfragment |- *. rewrite Hquery, Hfragment, Hlc, Hlf. cbn. solve_bools. }
  rewrite enqueue_prefix by by repeat split. cbv zeta. fold job. by rewrite Hok.
Qed.

(** The database after a request for a new target. *)
Definition after_creation (w : World) (job : MediaJob) : World :=
  with_table (<[mj_id job := job]> (media_jobs w))
    (w <| clock_reads := S (clock_reads w) |> <| uuid_draws := S (uuid_draws w) |>).

Lemma create_new raw_url token credential fingerprint w :
  media_jobs_enabled settings = true -> 1 <= media_job_max_attempts settings ->
  identified raw_url token credential fingerprint ->
  (forall id job, media_jobs w !! id = Some job -> mj_credential_hash job <> credential) ->
  media_jobs w !! uuids w (uuid_draws w) = None ->
  create raw_url token w =
    match resolve raw_url with
    | inl e => (inl e, w)
    | inr resolution =>
        match job_target resolution inspection_registry provider_registry with
        | inl e => (inl e, w)
        | inr target =>
            let job := queued_job (uuids w (uuid_draws w))
              (enqueue_args settings target credential fingerprint (clock w (clock_reads w))) in
            (inr (queued_view job), after_creation w job)
        end
    end.
Proof.
  intros Hon Hmax Hident Hnew Hfree. pose proof (identified_lengths _ _ _ _ Hident) as [Hlc Hlf].
  destruct Hident as [Hc (request & Hr & Hf)]. unfold create_job. rewrite Hon, Hc, Hr. cbn [negb].
  do 3 run_step. rewrite Hf. run_step.
  assert (Hs : get_by_credential_hash credential w = (inr None, w)).
  { unfold get_by_credential_hash. apply select_first_none. intros id job Ej. apply bool_decide_eq_false. by apply (Hnew id). }
  run_by Hs. destruct (resolve raw_url) as [e|resolution]; [done|]. run_step.
  destruct (job_target _ _ _) as [e|target] eqn:Et; [done|]. run_step. run_step.
  set (w1 := w <| clock_reads := _ |>).
  pose proof (enqueue_new resolution target credential fingerprint (clock w (clock_reads w)) w1 Hmax Hlc Hlf Et Hnew Hfree) as E.
  by run_by E.
Qed.

Lemma creation_steps resolution target credential fingerprint w :
  1 <= media_job_max_attempts settings -> length credential = 32%nat -> length fingerprint = 32%nat ->
  job_target resolution inspection_registry provider_registry = inr target ->
  (forall id job, media_jobs w !! id = Some job -> mj_credential_hash job <> credential) ->
  media_jobs w !! uuids w (uuid_draws w) = None ->
  rtc step w (after_creation w (queued_job (uuids w (uuid_draws w))
    (enqueue_args settings target credential fingerprint (clock w (clock_reads w))))).
Proof.
  intros Hmax Hlc Hlf Ht Hnew Hfree. set (w1 := w <| clock_reads := S (clock_reads w) |>).
  apply (rtc_l _ _ w1); [by apply step_env|]. apply rtc_once.
  pose proof (enqueue_new resolution target credential fingerprint (clock w (clock_reads w)) w1 Hmax Hlc Hlf Ht Hnew Hfree) as E.
  eapply (step_exec (OpEnqueue _)). cbn [Lifecycle.exec exec MediaJob_operations]. run_by E. reflexivity.
Qed.

Lemma to_view_id job created include view : _to_view settings job created include = inr view ->
  jv_id view = mj_id job /\ jv_created view = created.
Proof. unfold _to_view. intros E. ok_step E. by injection E as <-. Qed.

Lemma identity_kept w w' id job : reachable w -> rtc step w w' -> media_jobs w !! id = Some job ->
  exists job', media_jobs w' !! id = Some job' /\ job_identity job = job_identity job'.
Proof.
  intros Hr Hs Ej. apply (inv_from w w' Hr) in Hs as [_ _ _ He _].
  destruct (He id job Ej) as (job' & ? & _ & ?). by exists job'.
Qed.

(** A later request finds the job of the first one. *)
Lemma create_again raw_url token credential fingerprint w w' id job :
  reachable w -> rtc step w w' -> media_jobs_enabled settings = true ->
  identified raw_url token credential fingerprint ->
  media_jobs w !! id = Some job -> mj_credential_hash job = credential -> mj_request_fingerprint job = fingerprint ->
  exists job', media_jobs w' !! id = Some job' /\ job_identity job = job_identity job' /\
    (forall id2 job2, media_jobs w' !! id2 = Some job2 -> mj_credential_hash job2 = credential -> id2 = id) /\
    create raw_url token w' = (_to_view settings job' false true, w').
Proof.
  intros Hr Hs Hon Hident Ej Hc Hf. destruct (identity_kept _ _ _ _ Hr Hs Ej) as (job' & Ej' & Hid).
  assert (Hi : inv ∅ w'). { apply inv_reachable. destruct Hr as (ck & us & Hr). exists ck, us. by etransitivity. }
  pose proof Hid as Hid'. unfold job_identity in Hid'. exists job'. split_and!; [done|done| |].
  - intros id2 job2 E2 Hc2. eapply credential_unique; [exact Hi|exact E2|exact Ej'|congruence].
  - rewrite (create_recovers _ _ credential fingerprint _ id job') by (done || congruence). by rewrite decide_True by congruence.
Qed.
End Service.

(** C10: A request makes one job, and every retry finds it. Once [create_job]
    answered a request, then whatever is done to the database afterwards there is
    exactly one job with its credential, the one of the answer, under its
    fingerprint; sending the request again, to a service that resolves URLs in
    any way, shows that job as it is then and writes nothing. The first answer
    either showed an existing job without writing or stored the job of the
    resolved target, queued. An answer that is an error leaves the database as
    it was. *)
Theorem retries_find_the_job `{Idna} settings urls extractors providers_ resolve raw_url token credential fingerprint w :
  reachable w -> media_jobs_enabled settings = true -> 1 <= media_job_max_attempts settings ->
  identified urls raw_url token credential fingerprint ->
  media_jobs w !! uuids w (uuid_draws w) = None ->
  let created := create_job settings urls raw_url token resolve extractors providers_ w in
  (forall e, created.1 = inl e -> created.2 = w) /\
  forall view, created.1 = inr view ->
    (if jv_created view
     then exists resolution target,
       resolve raw_url = inr resolution /\ job_target resolution extractors providers_ = inr target /\
       media_jobs w !! jv_id view = None /\ jv_public_state view = "queued" /\
       media_jobs created.2 = <[jv_id view := queued_job (jv_id view)
         (enqueue_args settings target credential fingerprint (clock w (clock_reads w)))]> (media_jobs w)
     else created.2 = w) /\
    forall w', rtc step created.2 w' ->
      exists job, media_jobs w' !! jv_id view = Some job /\
        mj_credential_hash job = credential /\ mj_request_fingerprint job = fingerprint /\
        (forall id2 job2, media_jobs w' !! id2 = Some job2 -> mj_credential_hash job2 = credential -> id2 = jv_id view) /\
        forall resolve' extractors' providers', create_job settings urls raw_url token resolve' extractors' providers' w' =
          (_to_view settings job false true, w').
Proof.
  intros Hr Hon Hmax Hident Hfree created. pose proof (inv_reachable _ Hr) as Hi.
  assert (Hlater : forall w0 id job, reachable w0 -> media_jobs w0 !! id = Some job ->
    mj_credential_hash job = credential -> mj_request_fingerprint job = fingerprint ->
    forall w', rtc step w0 w' ->
      exists job, media_jobs w' !! id = Some job /\
        mj_credential_hash job = credential /\ mj_request_fingerprint job = fingerprint /\
        (forall id2 job2, media_jobs w' !! id2 = Some job2 -> mj_credential_hash job2 = credential -> id2 = id) /\
        forall resolve' extractors' providers', create_job settings urls raw_url token resolve' extractors' providers' w' =
          (_to_view settings job false true, w')).
  { intros w0 id job Hr0 Ej Hc Hf w' Hs.
    destruct (create_again settings urls extractors providers_ resolve raw_url token credential fingerprint w0 w' id job
      Hr0 Hs Hon Hident Ej Hc Hf) as (job' & Ej' & Hid & Hu & _).
    pose proof Hid as Hid'. unfold job_identity in Hid'. exists job'. split_and!; [done|congruence|congruence|done|].
    intros resolve' extractors' providers'.
    destruct (create_again settings urls extractors' providers' resolve' raw_url token credential fingerprint w0 w' id job
      Hr0 Hs Hon Hident Ej Hc Hf) as (job2 & Ej2 & _ & _ & E). congruence. }
  destruct (exists_row (fun r => bool_decide (mj_credential_hash r = credential)) w) eqn:Ex.
  - apply exists_row_true in Ex as (id & job & Ej & Hc). apply bool_decide_eq_true in Hc. unfold created.
    rewrite (create_recovers settings urls extractors providers_ resolve raw_url token credential fingerprint w id job) by done.
    destruct (decide _) as [Hf|]; [|by split]. cbn [fst snd]. split; [done|]. intros view Ev.
    destruct (to_view_id _ _ _ _ _ Ev) as [Hid ->]. assert (mj_id job = id) as <- by by apply (inv_keyed _ _ Hi).
    split; [done|]. rewrite Hid. by apply (Hlater w (mj_id job) job).
  - assert (Hnew : forall id job, media_jobs w !! id = Some job -> mj_credential_hash job <> credential).
    { intros id job Ej. eapply bool_decide_eq_false. exact (proj1 (exists_row_false _ _) Ex id job Ej). }
    unfold created.
    rewrite (create_new settings urls extractors providers_ resolve raw_url token credential fingerprint w Hon Hmax Hident Hnew Hfree).
    destruct (resolve raw_url) as [e|resolution]; [by split|].
    destruct (job_target _ _ _) as [e|target] eqn:Et; [by split|]. cbv zeta. cbn [fst snd]. split; [done|].
    intros view [= <-]. cbn [queued_view jv_created jv_id jv_public_state queued_job mj_id]. split.
    { exists resolution, target. split_and!; [done|exact Et|exact Hfree|reflexivity|reflexivity]. }
    destruct (identified_lengths _ _ _ _ _ Hident) as [Hlc Hlf].
    eapply Hlater; [|apply lookup_insert_eq|done|done].
    destruct Hr as (ck & us & Hr). exists ck, us. etransitivity; [exact Hr|]. by eapply creation_steps.
Qed.

(** The row of a job that a request created, and how it got there. *)
Lemma created_row `{Idna} settings urls extractors providers_ resolve raw_url token credential fingerprint w view w1 :
  reachable w -> media_jobs_enabled settings = true -> 1 <= media_job_max_attempts settings ->
  identified urls raw_url token credential fingerprint ->
  media_jobs w !! uuids w (uuid_draws w) = None ->
  create_job settings urls raw_url token resolve extractors providers_ w = (inr view, w1) -> jv_created view = true ->
  exists resolution target, resolve raw_url = inr resolution /\ job_target resolution extractors providers_ = inr target /\
    rtc step w w1 /\
    media_jobs w1 !! jv_id view =
      Some (queued_job (jv_id view) (enqueue_args settings target credential fingerprint (clock w (clock_reads w)))).
Proof.
  intros Hr Hon Hmax Hident Hfree E Hcr. pose proof (inv_reachable _ Hr) as Hi.
  destruct (exists_row (fun r => bool_decide (mj_credential_hash r = credential)) w) eqn:Ex.
  - apply exists_row_true in Ex as (id & job & Ej & Hc). apply bool_decide_eq_true in Hc.
    rewrite (create_recovers settings urls extractors providers_ resolve raw_url token credential fingerprint w id job) in E by done.
    destruct (decide _); [|done]. injection E as E _. destruct (to_view_id _ _ _ _ _ E) as [_ Hf]. congruence.
  - assert (Hnew : forall id job, media_jobs w !! id = Some job -> mj_credential_hash job <> credential).
    { intros id job Ej. eapply bool_decide_eq_false. exact (proj1 (exists_row_false _ _) Ex id job Ej). }
    rewrite (create_new settings urls extractors providers_ resolve raw_url token credential fingerprint w Hon Hmax Hident Hnew Hfree) in E.
    destruct (resolve raw_url) as [e|resolution]; [done|].
    destruct (job_target _ _ _) as [e|target] eqn:Et; [done|]. injection E as <- <-.
    destruct (identified_lengths _ _ _ _ _ Hident) as [Hlc Hlf].
    exists resolution, target. split_and!; [done|done|by eapply creation_steps|apply lookup_insert_eq].
Qed.

(** ** Reading *)

(** The bearer of the job's token. *)
Definition job_owned (w : World) (id : uid) (token : string) (job : MediaJob) : Prop :=
  media_jobs w !! id = Some job /\ hash_access_token token = inr (mj_credential_hash job).

Definition alive (job : MediaJob) (now : time) : Prop := mj_public_state job <> EXPIRED /\ now < mj_expires_at job.

Lemma get_job_owned settings id token w job :
  job_owned w id token job ->
  let now := clock w (clock_reads w) in
  get_job settings id token w =
    (if bool_decide (mj_public_state job = EXPIRED) || (mj_expires_at job <=? now)
     then inl (job_error JOB_EXPIRED "JOB_TTL") else _to_view settings job false true,
     w <| clock_reads := S (clock_reads w) |>).
Proof.
  intros [Ej Hh] now. unfold get_job. rewrite Hh. run_step.
  run_by (select_by_id_run (R := MediaJob) id (fun _ => true) w job Ej eq_refl).
  rewrite (proj2 (tokens_match_true _ _) eq_refl). run_step. run_step. unfold now.
  by destruct (_ || _).
Qed.

Lemma get_job_stranger settings id token w credential :
  hash_access_token token = inr credential -> (forall job, ~ job_owned w id token job) ->
  get_job settings id token w = (inl (job_error JOB_NOT_FOUND "MISSING_OR_UNAUTHORIZED"), w).
Proof.
  intros Hh Hno. unfold get_job. rewrite Hh. run_step. destruct (media_jobs w !! id) as [job|] eqn:Ej.
  - run_by (select_by_id_run (R := MediaJob) id (fun _ => true) w job Ej eq_refl).
    destruct (tokens_match _ _) eqn:Et; [|done]. apply tokens_match_true in Et. destruct (Hno job). split; [done|congruence].
  - erewrite bind_run; [|unfold get_by_id, select_by_id, gets; cbn; rewrite Ej; reflexivity]. done.
Qed.

(** What a view shows of the row. *)
Record shows (settings : Settings) (job : MediaJob) (view : JobView) : Prop := {
  sh_row : jv_id view = mj_id job /\ jv_provider_id view = mj_provider_id job /\
    jv_public_state view = value (mj_public_state job) /\ jv_created_at view = mj_created_at job /\
    jv_updated_at view = mj_updated_at job /\ jv_expires_at view = mj_expires_at job /\
    jv_completed_at view = mj_completed_at job;
  sh_result : forall metadata, jv_result view = Some metadata <->
    mj_public_state job = INSPECTED /\ exists members, mj_result_metadata job = Some (JObj members) /\
      media_metadata_from_jsonable (JObj members) (media_job_result_max_bytes settings) = inr (Some metadata);
  sh_error : jv_error_code view =
    (if decide (mj_public_state job = FAILED) then Some (job_error_text (mj_public_error_code job)) else None)
}.

Lemma to_view_shows settings job created view : _to_view settings job created true = inr view -> shows settings job view.
Proof.
  unfold _to_view. intros E. ok_step E. injection E as <-. split; cbn [jv_id jv_provider_id jv_public_state jv_created_at jv_updated_at jv_expires_at jv_completed_at jv_result jv_error_code].
  - done.
  - intros metadata. destruct (mj_result_metadata job) as [[]|]; try (injection E0 as <-; split; [done|by intros (_ & ? & [=] & _)]).
    destruct (bool_decide _) eqn:Es; cbn [andb] in E0.
    + apply bool_decide_eq_true in Es. ok_step E0. destruct v0 as [m|]; [|done]. injection E0 as <-. split.
      * intros [= <-]. split; [done|]. by eexists.
      * intros (_ & members2 & [= <-] & Hr). congruence.
    + apply bool_decide_eq_false in Es. injection E0 as <-. split; [done|]. by intros [? _].
  - destruct (decide _) as [Hs|Hs]; [by rewrite bool_decide_eq_true_2|by rewrite bool_decide_eq_false_2].
Qed.

(** C11: Reads are exact. A job is shown exactly to the bearer of its token while
    it is alive; the view has its row's id, state, provider and times, the stored
    metadata exactly when it is inspected, and an error code exactly when it has
    failed. Past its time to live the bearer is told so. Anybody else gets the
    answer for a job that does not exist, and nothing is written. *)
Theorem job_reads_exact settings id token w :
  let now := clock w (clock_reads w) in
  let read := get_job settings id token w in
  same_tables w read.2 /\
  (forall view, read.1 = inr view <->
     exists job, job_owned w id token job /\ alive job now /\ _to_view settings job false true = inr view) /\
  (forall view, read.1 = inr view -> exists job, media_jobs w !! id = Some job /\ shows settings job view) /\
  (forall job, job_owned w id token job -> ~ alive job now -> read.1 = inl (JobError JOB_EXPIRED "JOB_TTL" 410)) /\
  (forall credential, hash_access_token token = inr credential -> (forall job, ~ job_owned w id token job) ->
     read.1 = inl (JobError JOB_NOT_FOUND "MISSING_OR_UNAUTHORIZED" 404)).
Proof.
  intros now read.
  assert (Hlive : forall job, (bool_decide (mj_public_state job = EXPIRED) || (mj_expires_at job <=? now)) = false <-> alive job now).
  { intros job. unfold alive. rewrite orb_false_iff, bool_decide_eq_false, Z.leb_gt. done. }
  assert (Hdec : (exists job, job_owned w id token job) \/ (forall job, ~ job_owned w id token job)).
  { unfold job_owned. destruct (media_jobs w !! id) as [job|]; [|by right; intros job [? _]].
    destruct (hash_access_token token) as [e|credential]; [by right; intros job' [_ ?]|].
    destruct (decide (credential = mj_credential_hash job)) as [->|Hne]; [by left; exists job|].
    right. intros job' [[= <-] [= Hc]]. by destruct Hne. }
  assert (Hex : forall view, read.1 = inr view ->
     exists job, job_owned w id token job /\ alive job now /\ _to_view settings job false true = inr view).
  { intros view E. destruct Hdec as [[job Ho]|Hno].
    - exists job. split; [done|]. unfold read in E. rewrite (get_job_owned settings id token w job Ho) in E. fold now in E.
      cbn [fst] in E. destruct (_ || _) eqn:El; [done|]. by apply Hlive in El.
    - unfold read in E. destruct (hash_access_token token) as [e|credential] eqn:Eh.
      + unfold get_job in E. by rewrite Eh in E.
      + by rewrite (get_job_stranger settings id token w credential Eh Hno) in E. }
  split_and!.
  - unfold read. destruct Hdec as [[job Ho]|Hno].
    + by rewrite (get_job_owned settings id token w job Ho).
    + destruct (hash_access_token token) as [e|credential] eqn:Eh.
      * unfold get_job. by rewrite Eh.
      * by rewrite (get_job_stranger settings id token w credential Eh Hno).
  - intros view. split; [apply Hex|]. intros (job & Ho & Hl & Hv). unfold read.
    rewrite (get_job_owned settings id token w job Ho). fold now. apply Hlive in Hl. by rewrite Hl.
  - intros view E. destruct (Hex view E) as (job & [Ej _] & _ & Hv). exists job. split; [done|]. by eapply to_view_shows.
  - intros job Ho Hd. unfold read. rewrite (get_job_owned settings id token w job Ho). fold now.
    destruct (_ || _) eqn:El; [done|]. by apply Hlive in El.
  - intros credential Hh Hno. unfold read. by rewrite (get_job_stranger settings id token w credential Hh Hno).
Qed.
End JobServiceTheorems.

(** ** A request, its retry, and its reads *)
Module JobServiceExamples.
Import UrlExamples InspectionExamples MediaJobService JobStates JobLifecycle JobServiceTheorems.
#[local] Existing Instance no_idna.

Definition token : string := GrantExamples.demo_token.
Definition url : text := chars "https://m.vk.com/clip-1_2?from=feed".

Definition asked (raw_url : text) (w : World) : (exn + JobView) * World :=
  create_job job_settings settings raw_url token (fun u => resolved (of_chars u)) (Some registry) None w.

Definition credential : bytes := match hash_access_token token with inr h => h | inl _ => [] end.
Definition fingerprint : bytes :=
  match normalized_request settings url with
  | inr request => match hash_request_fingerprint token (encoded request) with inr h => h | inl _ => [] end
  | inl _ => []
  end.

Lemma request_identified : identified settings url token credential fingerprint.
Proof.
  split; [by vm_compute|]. destruct (normalized_request settings url) as [e|request] eqn:E; [by vm_compute in E|].
  exists request. split; [done|]. assert (Hr : normalized_request settings url = inr request) by exact E.
  unfold fingerprint. rewrite Hr. destruct (hash_request_fingerprint token (encoded request)) as [e|h] eqn:Eh; [|done].
  assert (Ev : inl e = match normalized_request settings url with
    | inr request => hash_request_fingerprint token (encoded request) | inl e => inl e end) by by rewrite Hr.
  by vm_compute in Ev.
Qed.

Definition created_world : World := (asked url JobExamples.demo0).2.

Lemma retries_find_the_job_witness :
  match (asked url JobExamples.demo0).1 with
  | inr view => jv_created view = true /\ jv_public_state view = "queued" /\
      exists job, media_jobs created_world !! jv_id view = Some job /\
        (asked url created_world) = (_to_view job_settings job false true, created_world)
  | inl _ => False
  end.
Proof.
  destruct (@retries_find_the_job no_idna job_settings settings (Some registry) None (fun u => resolved (of_chars u)) url token
    credential fingerprint JobExamples.demo0 JobExamples.reachable_demo0 eq_refl ltac:(by vm_compute)
    request_identified eq_refl) as [_ Hfound].
  destruct ((asked url JobExamples.demo0).1) as [e|view] eqn:E; [by vm_compute in E|].
  destruct (Hfound view E) as [_ Hagain].
  assert (Hv : jv_created view = true /\ jv_public_state view = "queued").
  { revert E. vm_compute. by intros [= <-]. }
  split; [apply Hv|]. split; [apply Hv|].
  destruct (Hagain created_world (rtc_refl _ _)) as (job & Ej & _ & _ & _ & Hrun).
  exists job. split; [exact Ej|]. exact (Hrun (fun u => resolved (of_chars u)) (Some registry) None).
Defined.

Lemma job_reads_exact_witness :
  (get_job job_settings 7 token created_world).1 = (asked url created_world).1 /\
  match (get_job job_settings 7 token created_world).1 with
  | inr view => exists job, media_jobs created_world !! 7%N = Some job /\ shows job_settings job view
  | inl _ => False
  end /\
  (get_job job_settings 8 token created_world).1 = inl (JobError JOB_NOT_FOUND "MISSING_OR_UNAUTHORIZED" 404).
Proof.
  split; [by vm_compute|]. split.
  - destruct (job_reads_exact job_settings 7 token created_world) as (_ & _ & Hshows & _).
    destruct ((get_job job_settings 7 token created_world).1) as [e|view] eqn:E; [by vm_compute in E|].
    exact (Hshows view eq_refl).
  - destruct (job_reads_exact job_settings 8 token created_world) as (_ & _ & _ & _ & Hno).
    apply (Hno credential); [by vm_compute|]. intros job [Ej _]. by vm_compute in Ej.
Defined.

(** A blank URL is not a validation error but an internal one: its fingerprint
    is refused before the resolution service sees it. *)
Example blank_url_is_an_internal_error :
  (asked (chars " ") JobExamples.demo0).1 = inl (JobError JOB_INTERNAL_ERROR "FINGERPRINT_TYPE" 500) /\
  resolved " " = inl (resolution_error UNSAFE_RESOLUTION_TARGET "INVALID_URL").
Proof. by vm_compute. Qed.
End JobServiceExamples.
