(* ===== verification/WorkerTheorems.v ===== *)
(** What the inspection worker promises: it never runs more than its share
    ([worker_keeps_its_share]); a claimed job ends in exactly the way its work
    ended, and nothing is written without the lease ([claimed_run_settles]); what
    a client reads of an inspected job is what the extractor said of the media the
    job was created for ([job_shows_its_media]). *)

From S2P Require Export Worker JobServiceTheorems.

Local Open Scope string_scope.
Local Open Scope list_scope.
Local Open Scope Z_scope.

Lemma begin_nested_run {A} (m : DB A) w a w' : m w = (inr a, w') -> begin_nested m w = (inr a, w').
Proof. intros E. unfold begin_nested. by rewrite E. Qed.

Lemma try_catch_run {A} (m : DB A) h w a w' : m w = (inr a, w') -> try_catch m h w = (inr a, w').
Proof. intros E. unfold try_catch. by rewrite E. Qed.

(** ** The back-off of a retry *)

Lemma fl_ltb_leb a b : fl_ltb a b = true -> fl_leb a b = true.
Proof. unfold fl_ltb, fl_leb, SFltb, SFleb. by destruct (SFcompare a b) as [[]|]. Qed.

Lemma fl_leb_refl a : fl_finite a = true -> fl_leb a a = true.
Proof. intros Hf. pose proof (fl_eqb_refl a Hf) as He. unfold fl_eqb, SFeqb in He. unfold fl_leb, SFleb. by destruct (SFcompare a a) as [[]|]. Qed.

(** The settings as they are validated (core/config.py). *)
Record backoff_settings (ws : WorkerSettings) : Prop := {
  bo_base : fl_finite (media_job_retry_base_seconds ws) = true;
  bo_max : fl_finite (media_job_retry_max_seconds ws) = true;
  bo_order : fl_leb (media_job_retry_base_seconds ws) (media_job_retry_max_seconds ws) = true
}.

Definition backoff_ok (ws : WorkerSettings) (backoff : float) : Prop :=
  fl_leb (media_job_retry_base_seconds ws) backoff = true /\ fl_leb backoff (media_job_retry_max_seconds ws) = true.

(** Each of the at most ten attempts is followed by a delay within the bounds. *)
Lemma backoff_bounded ws attempts : backoff_settings ws -> 1 <= attempts <= 10 ->
  exists backoff, _retry_backoff_seconds ws attempts = inr backoff /\ backoff_ok ws backoff.
Proof.
  intros [Hb Hm Ho] Ha. unfold _retry_backoff_seconds.
  assert (Hf : exists factor, float_of_int (2 ^ Z.max 0 (attempts - 1)) = inr factor).
  { assert (attempts = 1 \/ attempts = 2 \/ attempts = 3 \/ attempts = 4 \/ attempts = 5 \/ attempts = 6 \/ attempts = 7 \/
      attempts = 8 \/ attempts = 9 \/ attempts = 10) as Hc by lia.
    destruct Hc as [->|[->|[->|[->|[->|[->|[->|[->|[->| ->]]]]]]]]]; by eexists. }
  destruct Hf as [factor ->]. cbn [err_bind]. eexists. split; [done|]. unfold backoff_ok, fl_min, fl_max.
  destruct (fl_ltb (media_job_retry_base_seconds ws) _) eqn:E1; destruct (fl_ltb _ (media_job_retry_max_seconds ws)) eqn:E2;
    auto using fl_ltb_leb, fl_leb_refl.
Qed.

(** ** Statements under a lease *)

Module WorkerTheorems.
Import JobStates MediaJobRepository JobLifecycle JobTheorems MediaJobWorkerRunner AuthorizeTheorems.

Section Runs.
Context (ws : WorkerSettings) (worker : string).

(** The database with one row rewritten, after [k] readings of the clock. *)
Definition wrote (k : nat) (id : uid) (row : MediaJob) (w : World) : World :=
  with_table (<[id := row]> (media_jobs w)) (w <| clock_reads := (k + clock_reads w)%nat |>).

Definition read (k : nat) (w : World) : World := w <| clock_reads := (k + clock_reads w)%nat |>.

Lemma held_update id fence clk f w r :
  media_jobs w !! id = Some r -> lease_held worker fence clk r = true -> good_update r (f r) ->
  update_by_id id (lease_held worker fence clk) f w = (inr true, with_table (<[id := f r]> (media_jobs w)) w).
Proof.
  intros Er Hl Hg. unfold update_by_id. cbn [table MediaJob_table]. rewrite Er, Hl.
  by rewrite (good_update_check r (f r) Hg).
Qed.

Lemma unheld_update id fence clk f w :
  (forall r, media_jobs w !! id = Some r -> lease_held worker fence clk r = false) ->
  update_by_id id (lease_held worker fence clk) f w = (inr false, w).
Proof.
  intros Hn. unfold update_by_id. cbn [table MediaJob_table]. destruct (media_jobs w !! id) as [r|] eqn:Er; [|done].
  by rewrite (Hn r eq_refl).
Qed.

Section Held.
Context (w : World) (id : uid) (fence : Z) (row : MediaJob) (Hi : inv ∅ w) (Er : media_jobs w !! id = Some row).
Let now := clock w (clock_reads w).
Let clk := clock w (S (clock_reads w)).
Context (Hl : lease_held worker fence clk row = true).

Lemma row_ok : job_inv row.
Proof. by apply (inv_rows _ _ Hi id). Qed.

Lemma complete_held meta : complete id worker fence meta (read 1 w) = (inr true, wrote 2 id (complete_row meta clk row) w).
Proof.
  unfold complete. run_step. run_step. refine (held_update id fence clk _ (read 2 w) row Er Hl _).
  eapply complete_good; [apply row_ok|exact Hl].
Qed.

Lemma fail_held code : fail_permanent id worker fence code (read 1 w) = (inr true, wrote 2 id (fail_row code clk row) w).
Proof.
  unfold fail_permanent. run_step. run_step. refine (held_update id fence clk _ (read 2 w) row Er Hl _).
  eapply fail_good; [apply row_ok|exact Hl].
Qed.

Lemma release_held : release_to_queued id worker fence now (read 1 w) = (inr true, wrote 2 id (release_row now clk row) w).
Proof.
  unfold release_to_queued. run_step. run_step. refine (held_update id fence clk _ (read 2 w) row Er Hl _).
  eapply job_release_good; [apply row_ok|exact Hl].
Qed.

Lemma retry_held backoff code : fail_retry id worker fence now backoff code (read 1 w) =
  (inr true, wrote 2 id (if mj_max_attempts row <=? mj_attempt_count row then fail_row code clk row
                         else retry_row (now + Z.max 0 backoff) clk row) w).
Proof.
  unfold fail_retry. run_by (select_by_id_run (R := MediaJob) id (fun _ => true) (read 1 w) row Er eq_refl).
  pose proof Hl as Hl'. unfold lease_held, sql_eq in Hl'. propify.
  match goal with H : mj_public_state row = _ |- _ => rewrite (bool_decide_eq_true_2 _ H) end.
  match goal with H : mj_fence_token row = _ |- _ => rewrite H, Z.eqb_refl end.
  assert (Ho : mj_lease_owner row = Some worker).
  { destruct (mj_lease_owner row) as [o|]; [|done]. f_equal. by eapply bool_decide_eq_true. }
  rewrite (bool_decide_eq_true_2 _ Ho). cbn [negb orb].
  destruct (mj_max_attempts row <=? mj_attempt_count row) eqn:Ea; [apply fail_held|].
  run_step. run_step. refine (held_update id fence clk _ (read 2 w) row Er Hl _).
  eapply job_retry_good; [apply row_ok|exact Hl|by apply Z.leb_gt].
Qed.

Lemma release_cancel_held : _release_cancel worker id fence w = (inr tt, wrote 2 id (release_row now clk row) w).
Proof.
  unfold _release_cancel. apply try_catch_run, begin_nested_run. run_step. run_by release_held. reflexivity.
Qed.

Lemma store_held payload snap : sn_job_id snap = id -> sn_fence snap = fence ->
  store_result worker snap payload w = (inr tt, wrote 2 id (complete_row (JObj payload) clk row) w).
Proof.
  intros Hid Hf. unfold store_result. rewrite Hid, Hf. apply begin_nested_run. run_step. run_by (complete_held (JObj payload)). reflexivity.
Qed.

Lemma fail_run : _fail_permanent worker id fence w =
  (inr tt, wrote 2 id (fail_row (job_code_value MEDIA_INSPECTION_FAILED) clk row) w).
Proof. unfold _fail_permanent. apply begin_nested_run. run_step. run_by (fail_held (job_code_value MEDIA_INSPECTION_FAILED)). reflexivity. Qed.

(** What becomes of the row when the inspection failed. *)
Definition failed (kind : InspectionErrorKind) (reason : string) (backoff : float) : MediaJob :=
  if bool_decide (kind ∈ _RETRYABLE_KINDS) && negb (mj_max_attempts row <=? mj_attempt_count row)
  then retry_row (now + Z.max 0 (timedelta_seconds backoff)) clk row
  else fail_row (job_code_value (_public_inspection_error_code kind reason)) clk row.

Lemma failure_run kind attempts reason backoff : _retry_backoff_seconds ws attempts = inr backoff ->
  _handle_inspection_failure ws worker id fence kind attempts reason w =
  (inr tt, wrote 2 id (failed kind reason backoff) w).
Proof.
  intros Hb. unfold _handle_inspection_failure, failed. apply begin_nested_run. run_step.
  case_bool_decide as Hk; cbn [andb].
  - rewrite Hb. run_step. run_by (retry_held (timedelta_seconds backoff) (job_code_value (_public_inspection_error_code kind reason))).
    by destruct (_ <=? _).
  - run_by (fail_held (job_code_value (_public_inspection_error_code kind reason))). reflexivity.
Qed.
End Held.

(** Without the lease. *)
Definition unheld (id : uid) (fence : Z) (w : World) : Prop :=
  forall n r, media_jobs w !! id = Some r -> lease_held worker fence (clock w n) r = false.

(** Only the clock is read. *)
Definition quiet (w w' : World) : Prop := same_tables w w' /\ clock w' = clock w.

#[export] Instance quiet_preorder : PreOrder quiet.
Proof. split; [by intros w|]. intros w1 w2 w3 [? E1] [? E2]. split; [by etransitivity|by rewrite E2]. Qed.

Lemma quiet_read k w : quiet w (read k w).
Proof. done. Qed.

Lemma unheld_quiet id fence w w' : quiet w w' -> unheld id fence w -> unheld id fence w'.
Proof. intros [Hs Hc] Hu n r Er. rewrite Hc. apply Hu. by rewrite (proj1 Hs). Qed.

(** A computation that writes nothing and does not fail. *)
Definition does_nothing {A} (m : DB A) (w : World) : Prop := exists a w', m w = (inr a, w') /\ quiet w w'.

Lemma nothing_bind {A B} (m : DB A) (k : A -> DB B) w :
  does_nothing m w -> (forall a w', quiet w w' -> does_nothing (k a) w') -> does_nothing (bind m k) w.
Proof.
  intros (a & w1 & E & Hq) Hk. destruct (Hk a w1 Hq) as (b & w2 & E2 & Hq2).
  exists b, w2. split; [by rewrite (bind_run _ _ _ _ _ E)|by etransitivity].
Qed.

Lemma nothing_ret {A} (a : A) w : does_nothing (ret a) w.
Proof. by exists a, w. Qed.

Lemma nothing_now w : does_nothing database_now w.
Proof. by eexists _, _. Qed.

Lemma nothing_nested {A} (m : DB A) w : does_nothing m w -> does_nothing (begin_nested m) w.
Proof. intros (a & w' & E & Hq). exists a, w'. split; [by apply begin_nested_run|done]. Qed.

Lemma nothing_catch {A} (m : DB A) h w : does_nothing m w -> does_nothing (try_catch m h) w.
Proof. intros (a & w' & E & Hq). exists a, w'. split; [by apply try_catch_run|done]. Qed.

Lemma nothing_update id fence f w : unheld id fence w ->
  does_nothing (let* clk := clock_timestamp in update_by_id id (lease_held worker fence clk) f) w.
Proof.
  intros Hu. exists false, (read 1 w). split; [|done]. run_step. apply unheld_update. intros r Er. by apply Hu.
Qed.

Lemma nothing_guarded {A} id fence (g : exn + A) (f : time -> MediaJob -> MediaJob) a w :
  g = inr a -> unheld id fence w ->
  does_nothing (lift g ;;; let* clk := clock_timestamp in update_by_id id (lease_held worker fence clk) (f clk)) w.
Proof.
  intros -> Hu. exists false, (read 1 w). split; [|done]. run_step. run_step. apply unheld_update. intros r Er. by apply Hu.
Qed.

Lemma nothing_complete id fence meta w : unheld id fence w -> does_nothing (complete id worker fence meta) w.
Proof. by apply nothing_guarded with (a := tt) (g := assert_transition (value INSPECTING) (value INSPECTED)). Qed.

Lemma nothing_fail id fence code w : unheld id fence w -> does_nothing (fail_permanent id worker fence code) w.
Proof. by apply nothing_guarded with (a := tt) (g := assert_transition (value INSPECTING) (value FAILED)). Qed.

Lemma nothing_release id fence now w : unheld id fence w -> does_nothing (release_to_queued id worker fence now) w.
Proof. by apply nothing_guarded with (a := tt) (g := assert_transition (value INSPECTING) (value QUEUED)). Qed.

Lemma nothing_retry id fence now backoff code w : unheld id fence w ->
  does_nothing (fail_retry id worker fence now backoff code) w.
Proof.
  intros Hu. unfold fail_retry. apply nothing_bind; [by eexists _, w|]. intros [job|] w' Hq; [|apply nothing_ret].
  apply (unheld_quiet _ _ _ _ Hq) in Hu. destruct (_ || _); [apply nothing_ret|]. destruct (_ <=? _); [by apply nothing_fail|].
  by apply nothing_guarded with (a := tt) (g := assert_transition (value INSPECTING) (value QUEUED)).
Qed.

Lemma nothing_release_cancel id fence w : unheld id fence w -> does_nothing (_release_cancel worker id fence) w.
Proof.
  intros Hu. apply nothing_catch, nothing_nested, nothing_bind; [apply nothing_now|]. intros now w1 Hq1.
  apply nothing_bind; [|intros; apply nothing_ret]. by eapply nothing_release, unheld_quiet.
Qed.

Lemma nothing_fail_permanent id fence w : unheld id fence w -> does_nothing (_fail_permanent worker id fence) w.
Proof.
  intros Hu. apply nothing_nested, nothing_bind; [apply nothing_now|]. intros now w1 Hq1.
  apply nothing_bind; [|intros; apply nothing_ret]. by eapply nothing_fail, unheld_quiet.
Qed.

Lemma nothing_failure id fence kind attempts reason w : backoff_settings ws -> 1 <= attempts <= 10 ->
  unheld id fence w -> does_nothing (_handle_inspection_failure ws worker id fence kind attempts reason) w.
Proof.
  intros Hb Ha Hu. destruct (backoff_bounded ws attempts Hb Ha) as (backoff & Hbo & _).
  apply nothing_nested, nothing_bind; [apply nothing_now|]. intros now w1 Hq1.
  pose proof (unheld_quiet _ _ _ _ Hq1 Hu) as Hu1. case_bool_decide.
  - rewrite Hbo. apply nothing_bind; [apply nothing_ret|]. intros b w2 Hq2.
    apply nothing_bind; [|intros; apply nothing_ret]. by eapply nothing_retry, unheld_quiet.
  - apply nothing_bind; [by apply nothing_fail|intros; apply nothing_ret].
Qed.

Lemma nothing_store snap payload w : unheld (sn_job_id snap) (sn_fence snap) w ->
  does_nothing (store_result worker snap payload) w.
Proof.
  intros Hu. apply nothing_nested, nothing_bind; [apply nothing_now|]. intros now w1 Hq1.
  apply nothing_bind; [|intros; apply nothing_ret]. by eapply nothing_complete, unheld_quiet.
Qed.

Lemma nothing_exception snap e w : backoff_settings ws -> 1 <= sn_attempt_count snap <= 10 ->
  unheld (sn_job_id snap) (sn_fence snap) w -> does_nothing (on_exception ws worker snap e) w.
Proof.
  intros Hb Ha Hu. unfold on_exception. destruct e; try by apply nothing_failure.
  - by apply nothing_fail_permanent.
  - case_bool_decide; [by apply nothing_release_cancel|by apply nothing_failure].
Qed.

Lemma nothing_run stopping snap outcome w : backoff_settings ws -> 1 <= sn_attempt_count snap <= 10 ->
  unheld (sn_job_id snap) (sn_fence snap) w -> does_nothing (_run_claimed ws worker stopping snap outcome) w.
Proof.
  intros Hb Ha Hu. unfold _run_claimed.
  assert (Hrel : forall (end_ : TaskEnd) w', quiet w w' ->
    does_nothing (_release_cancel worker (sn_job_id snap) (sn_fence snap) ;;; ret end_) w').
  { intros end_ w' Hq. apply nothing_bind; [|intros; apply nothing_ret]. by eapply nothing_release_cancel, unheld_quiet. }
  destruct stopping; [by apply Hrel|]. destruct outcome as [r| |stored].
  - apply nothing_bind; [|intros; apply nothing_ret]. destruct r as [e|payload].
    + destruct (nothing_exception snap e w Hb Ha Hu) as (a & w' & E & Hq). exists a, w'. split; [exact E|exact Hq].
    + apply nothing_catch, nothing_bind; [apply nothing_ret|]. intros p w' Hq. by eapply nothing_store, unheld_quiet.
  - apply nothing_ret.
  - apply nothing_bind; [|intros; by apply Hrel]. destruct stored as [payload|]; [|apply nothing_ret].
    by apply nothing_catch, nothing_store.
Qed.

(** ** How a claimed job ends *)

Inductive Verdict :=
| Stored (payload : list (string * Json))
| FailedWith (code : JobErrorCode)
| Retried
| GivenBack
| Untouched.

Definition verdict_of_error (row : MediaJob) (e : exn) : Verdict :=
  match e with
  | JobError _ _ _ => FailedWith MEDIA_INSPECTION_FAILED
  | InspectionError kind reason =>
      if bool_decide (kind = INSPECTION_CANCELLED) then GivenBack
      else if bool_decide (kind ∈ _RETRYABLE_KINDS) && (mj_attempt_count row <? mj_max_attempts row) then Retried
      else FailedWith (_public_inspection_error_code kind reason)
  | _ => if mj_attempt_count row <? mj_max_attempts row then Retried else FailedWith MEDIA_INSPECTION_FAILED
  end.

Definition verdict_of (row : MediaJob) (stopping : bool) (outcome : WorkOutcome) : Verdict :=
  if stopping then GivenBack
  else match outcome with
       | Finished (inr payload) | Interrupted (Some payload) => Stored payload
       | Finished (inl e) => verdict_of_error row e
       | Interrupted None => GivenBack
       | LeaseLost => Untouched
       end.

(** The row after the verdict, at [now] and [clk]. *)
Definition judged (now clk : time) (backoff : float) (row : MediaJob) (v : Verdict) : MediaJob :=
  match v with
  | Stored payload => complete_row (JObj payload) clk row
  | FailedWith code => fail_row (job_code_value code) clk row
  | Retried => retry_row (now + Z.max 0 (timedelta_seconds backoff)) clk row
  | GivenBack => release_row now clk row
  | Untouched => row
  end.

Definition task_end (stopping : bool) (outcome : WorkOutcome) : TaskEnd :=
  match outcome with Interrupted _ => if stopping then Returned else Cancelled | _ => Returned end.

Lemma failed_judged w row kind reason backoff :
  failed w row kind reason backoff =
  judged (clock w (clock_reads w)) (clock w (S (clock_reads w))) backoff row
    (if bool_decide (kind ∈ _RETRYABLE_KINDS) && (mj_attempt_count row <? mj_max_attempts row) then Retried
     else FailedWith (_public_inspection_error_code kind reason)).
Proof.
  unfold failed. rewrite Z.leb_antisym, negb_involutive.
  by destruct (bool_decide (kind ∈ _RETRYABLE_KINDS)), (mj_attempt_count row <? mj_max_attempts row).
Qed.

Section Settle.
Context (w : World) (snap : _ClaimedSnapshot) (row : MediaJob) (backoff : float).
Context (Hi : inv ∅ w) (Er : media_jobs w !! sn_job_id snap = Some row).
Context (Hb : _retry_backoff_seconds ws (sn_attempt_count snap) = inr backoff).
Let now := clock w (clock_reads w).
Let clk := clock w (S (clock_reads w)).
Context (Hl : lease_held worker (sn_fence snap) clk row = true).

Lemma exception_settles e : on_exception ws worker snap e w =
  (inr tt, wrote 2 (sn_job_id snap) (judged now clk backoff row (verdict_of_error row e)) w).
Proof.
  assert (Hother : _handle_inspection_failure ws worker (sn_job_id snap) (sn_fence snap) INTERNAL_INSPECTION_ERROR
      (sn_attempt_count snap) "" w =
    (inr tt, wrote 2 (sn_job_id snap) (judged now clk backoff row
      (if mj_attempt_count row <? mj_max_attempts row then Retried else FailedWith MEDIA_INSPECTION_FAILED)) w)).
  { rewrite (failure_run w _ _ row Hi Er Hl _ _ _ backoff Hb), failed_judged. done. }
  unfold on_exception, verdict_of_error. destruct e; try exact Hother.
  - exact (fail_run w _ _ row Hi Er Hl).
  - case_bool_decide; [exact (release_cancel_held w _ _ row Hi Er Hl)|].
    by rewrite (failure_run w _ _ row Hi Er Hl _ _ _ backoff Hb), failed_judged.
Qed.

(** After its result is stored there is nothing to give back. *)
Lemma stored_release payload : does_nothing
  (_release_cancel worker (sn_job_id snap) (sn_fence snap)) (wrote 2 (sn_job_id snap) (complete_row (JObj payload) clk row) w).
Proof.
  apply nothing_release_cancel. intros n r Ew. cbn in Ew. rewrite lookup_insert_eq in Ew. by injection Ew as <-.
Qed.

Lemma finished_stores payload : _run_claimed ws worker false snap (Finished (inr payload)) w =
  (inr Returned, wrote 2 (sn_job_id snap) (complete_row (JObj payload) clk row) w).
Proof.
  pose proof (store_held w _ _ row Hi Er Hl payload snap eq_refl eq_refl) as Hs.
  assert (Hc : try_catch (let* payload := lift (inr payload) in store_result worker snap payload)
    (fun e => Some (on_exception ws worker snap e)) w =
    (inr tt, wrote 2 (sn_job_id snap) (complete_row (JObj payload) clk row) w)).
  { apply try_catch_run. by run_step. }
  unfold _run_claimed. by run_by Hc.
Qed.

Lemma run_settles stopping outcome :
  exists w', _run_claimed ws worker stopping snap outcome w = (inr (task_end stopping outcome), w') /\
    quiet (wrote 2 (sn_job_id snap) (judged now clk backoff row (verdict_of row stopping outcome)) w) w'.
Proof.
  pose proof (release_cancel_held w _ _ row Hi Er Hl) as Hrel. unfold _run_claimed, verdict_of.
  destruct stopping.
  { run_by Hrel. eexists. split; [by destruct outcome|done]. }
  destruct outcome as [[e|payload]| |[payload|]].
  - pose proof (exception_settles e) as He.
    assert (Hc : try_catch (let* payload := lift (inl e) in store_result worker snap payload)
      (fun e => Some (on_exception ws worker snap e)) w = on_exception ws worker snap e w) by done.
    rewrite He in Hc. run_by Hc. eexists. split; [done|done].
  - eexists. split; [exact (finished_stores payload)|done].
  - eexists. split; [done|]. split; [|done]. unfold wrote, judged. rewrite insert_id by done. by repeat split.
  - pose proof (store_held w _ _ row Hi Er Hl payload snap eq_refl eq_refl) as Hs.
    run_by (try_catch_run _ (fun _ => Some (ret tt)) _ _ _ Hs).
    destruct (stored_release payload) as ([] & w' & E & Hq). run_by E. exists w'. by split.
  - run_step. run_by Hrel. eexists. split; [done|done].
Qed.
End Settle.
End Runs.

(** C9: A claimed job ends as its work ended, and only under the lease. Whatever
    the inspection returned or raised, and even when the task was cancelled, the
    task ends without an exception of its own. While the worker still holds the
    job under the fence it claimed, its row is rewritten exactly once: the result
    is stored; the failure is recorded with its public code; a failure that may
    pass puts the job back in the queue after a delay within the configured
    bounds while an attempt is left; a cancelled or stopping worker gives the job
    back with its attempt. A worker that noticed that its lease is lost leaves the
    row. No other row and no other table is touched. A worker without the lease
    writes nothing at all. *)
Theorem claimed_run_settles ws worker stopping snap outcome w row :
  reachable w -> backoff_settings ws -> 1 <= sn_attempt_count snap <= 10 ->
  media_jobs w !! sn_job_id snap = Some row ->
  let now := clock w (clock_reads w) in
  let clk := clock w (S (clock_reads w)) in
  let ran w' := _run_claimed ws worker stopping snap outcome w = (inr (task_end stopping outcome), w') in
  (lease_held worker (sn_fence snap) clk row = true ->
     exists w' backoff, ran w' /\ backoff_ok ws backoff /\
       same_tables (with_table (<[sn_job_id snap := judged now clk backoff row (verdict_of row stopping outcome)]> (media_jobs w)) w) w') /\
  ((forall n, lease_held worker (sn_fence snap) (clock w n) row = false) -> exists w', ran w' /\ same_tables w w').
Proof.
  intros Hr Hb Ha Er now clk ran. apply inv_reachable in Hr as Hi.
  destruct (backoff_bounded ws _ Hb Ha) as (backoff & Hbo & Hok). split.
  - intros Hl. destruct (run_settles ws worker w snap row backoff Hi Er Hbo Hl stopping outcome) as (w' & E & [Hs _]).
    exists w', backoff. split; [exact E|]. split; [done|]. etransitivity; [|exact Hs]. by repeat split.
  - intros Hn. assert (Hu : unheld worker (sn_job_id snap) (sn_fence snap) w).
    { intros n r Er'. assert (r = row) as -> by congruence. apply Hn. }
    destruct (nothing_run ws worker stopping snap outcome w Hb Ha Hu) as (a & w' & E & [Hs _]).
    exists w'. split; [|done]. unfold ran. rewrite E. do 2 f_equal.
    revert E. unfold _run_claimed, task_end. clear. intros E.
    destruct stopping; [apply bind_inr in E as (? & ? & _ & [= -> _]); by destruct outcome|].
    destruct outcome as [r| |stored]; [apply bind_inr in E as (? & ? & _ & [= -> _]); done|by injection E|].
    apply bind_inr in E as (? & ? & _ & E). by apply bind_inr in E as (? & ? & _ & [= -> _]).
Qed.

(** ** The slots *)

(** The semaphore counts the slots no task holds. *)
Record slots_ok (concurrency : Z) (slots : Slots) : Prop := {
  so_count : semaphore slots + Z.of_nat (size (active slots)) = concurrency;
  so_free : 0 <= semaphore slots;
  so_fresh : forall task, (next_task slots <= task)%nat -> active slots !! task = None
}.

Lemma new_slots_ok concurrency : 0 <= concurrency -> slots_ok concurrency (new_slots concurrency).
Proof. intros Hc. split; cbn; [rewrite map_size_empty; lia|lia|done]. Qed.

Lemma task_done_ok concurrency slots task : slots_ok concurrency slots -> slots_ok concurrency (task_done slots task).
Proof.
  intros [Hc Hf Hn]. unfold task_done. destruct (active slots !! task) as [w|] eqn:Et; [|done]. split; cbn.
  - rewrite map_size_delete_Some by by eexists.
    assert (size (active slots) <> 0%nat) by (intros E; apply map_size_empty_inv in E; by rewrite E, lookup_empty in Et). lia.
  - lia.
  - intros t Ht. apply lookup_delete_None. right. by apply Hn.
Qed.

(** As many tasks as there are free slots start without waiting. *)
Lemma start_tasks_ok concurrency work slots :
  slots_ok concurrency slots -> Z.of_nat (length work) <= semaphore slots ->
  exists slots', start_tasks slots work = Some slots' /\ slots_ok concurrency slots' /\
    semaphore slots' = semaphore slots - Z.of_nat (length work) /\
    (forall task w, active slots !! task = Some w -> active slots' !! task = Some w) /\
    (forall w, w ∈ work -> exists task, active slots' !! task = Some w).
Proof.
  revert slots. induction work as [|w work IH]; intros slots Hok Hl; cbn in Hl |- *.
  { exists slots. split_and!; [done|done|lia|done|set_solver]. }
  rewrite (proj2 (Z.ltb_ge _ _)) by lia. destruct Hok as [Hc Hf Hn].
  assert (Hnone : active slots !! next_task slots = None) by by apply Hn.
  destruct (IH {| active := <[next_task slots := w]> (active slots); semaphore := semaphore slots - 1;
                  next_task := S (next_task slots) |}) as (slots' & E & Hok' & Hs & Hold & Hnew); [|cbn; lia|].
  { split; cbn; [rewrite map_size_insert_None by done; lia|lia|]. intros t Ht. rewrite lookup_insert_ne by lia. apply Hn. lia. }
  exists slots'. split_and!; [exact E|done|cbn in Hs; lia| |].
  - intros t x Hx. apply Hold. cbn. rewrite lookup_insert_ne; [done|]. intros Ht. rewrite Ht in Hnone. congruence.
  - intros x [->|Hx]%elem_of_cons; [|by apply Hnew]. exists (next_task slots). apply Hold. cbn. apply lookup_insert_eq.
Qed.

Lemma map_m_length {A B} (f : A -> DB B) l w l' w' : map_m f l w = (inr l', w') -> length l' = length l.
Proof.
  revert w l'. induction l as [|a l IH]; intros w l' E; cbn in E; [by injection E as <- <-|].
  apply bind_inr in E as (b & w1 & _ & E). apply bind_inr in E as (bs & w2 & E2 & E). injection E as <- <-.
  cbn. f_equal. by eapply IH.
Qed.

Lemma claims_limited locked worker lease now limit w jobs w' : 0 <= limit ->
  claim_next locked worker lease now limit w = (inr jobs, w') -> Z.of_nat (length jobs) <= limit.
Proof.
  intros Hl. unfold claim_next. destruct (limit <? 1); [by intros [= <- <-]|]. intros E.
  apply bind_inr in E as (? & w1 & _ & E). apply bind_inr in E as (found & w2 & Ef & E). apply map_m_length in E. rewrite E.
  unfold claim_select in Ef. apply bind_inr in Ef as (? & w3 & _ & Ef). apply bind_inr in Ef as (all & w4 & _ & [= <- _]).
  rewrite length_take. lia.
Qed.

Lemma nested_inr {A} (m : DB A) w a w' : begin_nested m w = (inr a, w') -> m w = (inr a, w').
Proof. unfold begin_nested. by destruct (m w) as [[]]. Qed.

Lemma snapshots_limited ws worker locked free w snaps w' : 0 <= free ->
  claim_snapshots ws worker locked free w = (inr snaps, w') -> Z.of_nat (length snaps) <= free.
Proof.
  intros Hf. unfold claim_snapshots. destruct (free <? 1); [by intros [= <- <-]|]. intros E%nested_inr.
  apply bind_inr in E as (now & w1 & _ & E). apply bind_inr in E as (jobs & w2 & Ec & [= <- _]).
  rewrite length_fmap. by eapply claims_limited.
Qed.

(** The slots of a worker through its polls, each against the database as it is
    then, and the ends of its tasks. *)
Inductive slots_reach (ws : WorkerSettings) (worker : string) : Slots -> Prop :=
| sr_new : slots_reach ws worker (new_slots (worker_concurrency ws))
| sr_poll slots locked w snaps slots' w' : slots_reach ws worker slots ->
    _claim_inspection_jobs ws worker locked slots w = (inr (snaps, Some slots'), w') -> slots_reach ws worker slots'
| sr_done slots task : slots_reach ws worker slots -> slots_reach ws worker (task_done slots task).

Lemma claim_ok ws worker locked slots w snaps r w' :
  slots_ok (worker_concurrency ws) slots -> _claim_inspection_jobs ws worker locked slots w = (inr (snaps, r), w') ->
  exists slots', r = Some slots' /\ slots_ok (worker_concurrency ws) slots' /\
    (forall task x, active slots !! task = Some x -> active slots' !! task = Some x) /\
    forall snap, snap ∈ snaps -> exists task, active slots' !! task = Some (sn_job_id snap, sn_fence snap).
Proof.
  intros Hok E. unfold _claim_inspection_jobs in E. apply bind_inr in E as (l & w1 & Ec & [= <- <- _]).
  pose proof Hok as [Hc Hf _]. apply snapshots_limited in Ec; [|unfold free_slots; lia].
  destruct (start_tasks_ok (worker_concurrency ws) ((fun snap => (sn_job_id snap, sn_fence snap)) <$> l) slots Hok)
    as (slots' & -> & Hok' & _ & Hold & Hnew); [rewrite length_fmap; unfold free_slots in Ec; lia|].
  exists slots'. split_and!; [done|done|done|]. intros snap Hs. apply Hnew. apply list_elem_of_fmap. by exists snap.
Qed.

(** A worker keeps to its share. However its polls and the ends of its tasks
    follow each other, whatever the database holds and whichever rows are locked,
    the running tasks never outnumber the configured concurrency and the
    semaphore counts exactly the free slots; so the tasks of a claim start
    without waiting, every claimed job gets a task, and none is dropped. *)
Theorem worker_keeps_its_share ws worker slots :
  0 <= worker_concurrency ws -> slots_reach ws worker slots ->
  Z.of_nat (size (active slots)) <= worker_concurrency ws /\
  semaphore slots = worker_concurrency ws - Z.of_nat (size (active slots)) /\
  forall locked w snaps r w', _claim_inspection_jobs ws worker locked slots w = (inr (snaps, r), w') ->
    exists slots', r = Some slots' /\
      (forall task x, active slots !! task = Some x -> active slots' !! task = Some x) /\
      forall snap, snap ∈ snaps -> exists task, active slots' !! task = Some (sn_job_id snap, sn_fence snap).
Proof.
  intros Hc Hr. assert (Hok : slots_ok (worker_concurrency ws) slots).
  { induction Hr as [|slots locked w snaps slots' w' _ IH E|slots task _ IH].
    - by apply new_slots_ok.
    - destruct (claim_ok _ _ _ _ _ _ _ _ IH E) as (? & [= <-] & ? & _). done.
    - by apply task_done_ok. }
  destruct Hok as [Hcount Hfree Hfresh]. split_and!; [lia|lia|]. intros locked w snaps r w' E.
  destruct (claim_ok ws worker locked slots w snaps r w' (Build_slots_ok _ _ Hcount Hfree Hfresh) E) as (slots' & -> & _ & ? & ?).
  by exists slots'.
Qed.

(** ** From the request to the result *)

Section Pipeline.
Import MediaIdentity InspectionExtractorRegistry MediaJobService JobServiceTheorems.
Context `{Idna} (settings : Settings) (urls : UrlSettings) (media : MediaSettings) (providers_ : ProviderRegistry).
Context (resolver : text -> exn + list address).
Context (extractors : string -> option MediaExtractor) (keys : string -> option (list string)).
Context (registry : InspectionExtractorRegistry.t).
Context (Hpolicy : url_policy_ok urls = true) (Hplain : registry_plain providers_).
Context (Hhttps : chars "https" ∈ url_allowed_schemes urls) (Hport : 443 ∈ url_allowed_ports urls).
Context (Hregistry : from_provider_registry providers_ extractors keys = inr registry).

Lemma rebuild_validated validator t r :
  TargetRebuild.rebuild_resolution_result urls (Some registry) (Some providers_) (Some validator) t = inr r ->
  exists validated, validator (TargetRebuild.st_canonical_provider_url t) = inr validated /\
    vr_provider_id validated = strip_lower (TargetRebuild.st_provider_id t).
Proof.
  unfold TargetRebuild.rebuild_resolution_result. intros E. do 4 ok_step E. destruct (negb _); [done|]. ok_step E.
  match goal with H : TargetRebuild.revalidate _ _ _ _ _ = inr _ |- _ => rename H into Hv end.
  unfold TargetRebuild.revalidate in Hv. ok_step Hv.
  destruct (validator _) as [e|validated] eqn:Ev; [by destruct e|].
  match goal with H : inr validated = inr _ |- _ => injection H as <- end.
  destruct (String.eqb_spec (vr_provider_id validated) (strip_lower (TargetRebuild.st_provider_id t))); [|done].
  by exists validated.
Qed.

(** The target the tool is asked for. *)
Definition tool_target (target : JobTarget) (binding : ExtractorBinding) : InspectionTarget :=
  {| it_provider_id := jt_provider_id target; it_hostname := jt_hostname target;
     it_media_id := jt_media_id target; it_canonical_provider_url := jt_canonical target;
     it_tool_url := jt_canonical target; it_allowed_hostnames := eb_exact_hostnames binding |}.

(** What the payload of a rebuilt target is made of. *)
Lemma work_of_target target snap payload :
  target_ok registry target ->
  sn_target snap =
    {| TargetRebuild.st_provider_id := jt_provider_id target;
       TargetRebuild.st_canonical_provider_url := jt_canonical target;
       TargetRebuild.st_media_id := jt_media_id target; TargetRebuild.st_hostname := jt_hostname target;
       TargetRebuild.st_path := jt_path target; TargetRebuild.st_scheme := chars "https";
       TargetRebuild.st_port := None |} ->
  _execute_inspection settings urls media registry providers_ (validate urls providers_ resolver) snap = inr payload ->
  exists binding draft metadata,
    resolve registry (jt_provider_id target) (jt_hostname target) = inr binding /\
    ex_extract (eb_extractor binding) (tool_target target binding) = inr draft /\
    project_metadata media draft (of_chars (jt_canonical target)) (of_chars (jt_media_id target)) (jt_provider_id target) =
      inr metadata /\
    media_metadata_to_jsonable metadata (media_job_result_max_bytes settings) = inr payload.
Proof.
  intros Hok Hst E. unfold _execute_inspection in E. rewrite Hst in E. ok_step E. rename v into rebuilt_target, E0 into Hrb.
  destruct (rebuild_validated _ _ _ Hrb) as (validated & Hv & Hvp). cbn [TargetRebuild.st_canonical_provider_url TargetRebuild.st_provider_id] in Hv, Hvp.
  pose proof Hok as [_ _ _ Htrim _]. rewrite Htrim in Hvp.
  destruct (target_rebuilds urls providers_ resolver extractors keys registry Hpolicy Hplain Hhttps Hport Hregistry
    _ _ _ Hok Hv Hvp eq_refl) as (provider & Hf & Hr). rewrite Hrb in Hr. injection Hr as ->.
  destruct (target_validated urls providers_ resolver extractors keys registry Hpolicy Hplain Hhttps Hport Hregistry
    _ _ Hok Hv Hvp) as (provider' & Hf' & Hpid & Hparse & _ & binding & Hres & Hin).
  rewrite Hf in Hf'. injection Hf' as <-.
  pose proof (rebuilt_binds urls registry Hpolicy Hhttps target provider binding Hok Hpid Hparse Hres Hin) as Hbind.
  ok_step E. unfold MediaInspectionService.inspect, MediaInspectionService.inspect_draft in E0. rewrite Hbind in E0.
  cbn [err_bind it_provider_id it_hostname] in E0. rewrite Hres in E0. cbn [err_bind] in E0. ok_step E0.
  fold (tool_target target binding) in E1. ok_step E1. ok_step E1. injection E1 as ->. rename v0 into draft.
  match goal with H : MediaInspectionService.draft_matches _ _ _ = _ |- _ => rename H into Hm end.
  unfold MediaInspectionService.draft_matches in Hm. do 3 ok_step Hm. passed.
  cbn [tool_target it_provider_id it_media_id it_canonical_provider_url] in *.
  exists binding, draft, v. split_and!; [done|done| |done].
  assert (Hcan : ed_canonical_provider_url draft = of_chars (jt_canonical target))
    by (apply chars_inj; by rewrite chars_of_chars).
  assert (Hmed : ed_media_id draft = of_chars (jt_media_id target)) by (apply chars_inj; by rewrite chars_of_chars).
  assert (Hpro : ed_provider_id draft = jt_provider_id target) by by apply String.eqb_eq.
  by rewrite <- Hcan, <- Hmed, <- Hpro.
Qed.

(** A metadata object the constructors accept. *)
Definition project_valid (m : MediaMetadata) : Prop :=
  new_media_metadata m = inr m /\ Forall (fun fmt => new_media_format fmt = inr fmt) (mm_formats m).

(** The view of a stored result. *)
Lemma stored_view job payload metadata : project_valid metadata ->
  media_metadata_to_jsonable metadata (media_job_result_max_bytes settings) = inr payload ->
  mj_public_state job = INSPECTED -> mj_result_metadata job = Some (JObj payload) ->
  exists view, _to_view settings job false true = inr view /\
    jv_public_state view = "inspected" /\ jv_result view = Some metadata.
Proof.
  intros [Hm Hf] Hp Hs Hj. pose proof (stored_metadata_reads _ _ _ Hm Hf Hp) as Hr.
  unfold _to_view. rewrite Hs, Hj, bool_decide_eq_true_2 by done. cbn [andb]. rewrite Hr. cbn [err_bind]. by eexists.
Qed.

Lemma identity_target row id target credential fingerprint now :
  job_identity (queued_job id (enqueue_args settings target credential fingerprint now)) = job_identity row ->
  stored_target row =
    {| TargetRebuild.st_provider_id := jt_provider_id target;
       TargetRebuild.st_canonical_provider_url := jt_canonical target;
       TargetRebuild.st_media_id := jt_media_id target; TargetRebuild.st_hostname := jt_hostname target;
       TargetRebuild.st_path := jt_path target; TargetRebuild.st_scheme := chars "https";
       TargetRebuild.st_port := None |} /\
  mj_id row = id /\ mj_credential_hash row = credential.
Proof.
  unfold job_identity, stored_target. cbn. intros E. injection E as E1 E2 E3 E4 E5 E6 E7 E8 E9 E10 E11 E12 E13.
  rewrite <- E4, <- E5, <- E6, <- E7, <- E8, <- E9, <- E10, !chars_of_chars. by split_and!.
Qed.
End Pipeline.

(** C8: What a client reads is what the tool said of what the client asked for.
    A request created a job for a resolved target. However long it takes and
    whatever else happens, once a worker that holds the job's lease gets a payload
    from the extractor, then: the extractor that answered is the one bound to the
    target's provider, asked for exactly the target's provider, media id and
    canonical https URL; the result is stored; and from then on, until the job
    expires or its row changes, the bearer of the token reads an inspected job
    whose metadata are the projection of the extractor's answer, under the ids and
    the URL of the target. (A Dzen id that begins with [embed] is left out.) *)
Theorem job_shows_its_media `{Idna} settings urls media ws providers_ resolver extractors keys registry resolve
    raw_url token credential fingerprint worker w view w1 w2 row payload :
  url_policy_ok urls = true -> registry_plain providers_ ->
  chars "https" ∈ url_allowed_schemes urls -> 443 ∈ url_allowed_ports urls ->
  InspectionExtractorRegistry.from_provider_registry providers_ extractors keys = inr registry ->
  reachable w -> media_jobs_enabled settings = true -> 1 <= media_job_max_attempts settings ->
  JobServiceTheorems.identified urls raw_url token credential fingerprint ->
  media_jobs w !! uuids w (uuid_draws w) = None ->
  MediaJobService.create_job settings urls raw_url token resolve (Some registry) (Some providers_) w = (inr view, w1) ->
  jv_created view = true ->
  rtc step w1 w2 -> media_jobs w2 !! jv_id view = Some row ->
  (mj_provider_id row = provider_value DZEN -> starts_with (chars "embed") (chars (mj_media_id row)) = false) ->
  lease_held worker (mj_fence_token row) (clock w2 (S (clock_reads w2))) row = true ->
  let work := _execute_inspection settings urls media registry providers_ (validate urls providers_ resolver) (snapshot_of row) in
  work = inr payload ->
  exists w3 resolution target binding draft metadata,
    _run_claimed ws worker false (snapshot_of row) (Finished work) w2 = (inr Returned, w3) /\
    resolve raw_url = inr resolution /\
    MediaJobService.job_target resolution (Some registry) (Some providers_) = inr target /\
    InspectionExtractorRegistry.resolve registry (MediaJobService.jt_provider_id target) (MediaJobService.jt_hostname target) = inr binding /\
    ex_extract (InspectionExtractorRegistry.eb_extractor binding) (tool_target target binding) = inr draft /\
    project_metadata media draft (of_chars (MediaJobService.jt_canonical target)) (of_chars (MediaJobService.jt_media_id target))
      (MediaJobService.jt_provider_id target) = inr metadata /\
    mm_media_id metadata = of_chars (MediaJobService.jt_media_id target) /\
    mm_canonical_provider_url metadata = of_chars (MediaJobService.jt_canonical target) /\
    forall w4, media_jobs w4 !! jv_id view = media_jobs w3 !! jv_id view -> clock w4 (clock_reads w4) < mj_expires_at row ->
      exists view', (MediaJobService.get_job settings (jv_id view) token w4).1 = inr view' /\
        jv_public_state view' = "inspected" /\ jv_result view' = Some metadata.
Proof.
  intros Hpolicy Hplain Hhttps Hport Hregistry Hr Hon Hmax Hident Hfree Hcreate Hnew Hsteps Erow Hembed Hl work Hwork.
  destruct (JobServiceTheorems.created_row settings urls _ _ resolve raw_url token credential fingerprint w view w1 Hr Hon Hmax Hident
    Hfree Hcreate Hnew) as (resolution & target & Hres & Ht & Hs1 & Erow1).
  assert (Hr1 : reachable w1) by (destruct Hr as (ck & us & Hr); exists ck, us; by etransitivity).
  destruct (JobServiceTheorems.identity_kept w1 w2 _ _ Hr1 Hsteps Erow1) as (row' & Erow' & Hid).
  assert (row' = row) as -> by congruence.
  destruct (identity_target settings _ _ _ _ _ _ Hid) as (Hst & Hrid & Hcred).
  assert (Hcols : mj_provider_id row = MediaJobService.jt_provider_id target /\
    chars (mj_media_id row) = MediaJobService.jt_media_id target).
  { unfold MediaJobService.stored_target in Hst. by injection Hst. }
  destruct Hcols as [Hcp Hcm]. rewrite Hcp, Hcm in Hembed.
  pose proof (job_target_ok providers_ extractors keys registry Hregistry _ _ _ Ht Hembed) as Hok.
  destruct (work_of_target settings urls media providers_ resolver extractors keys registry Hpolicy Hplain Hhttps Hport Hregistry
    target (snapshot_of row) payload Hok Hst Hwork) as (binding & draft & metadata & Hb & Hx & Hp & Hj).
  destruct (project_metadata_valid _ _ _ _ _ _ Hp) as (Hv1 & Hv2 & _ & Hcan & Hmid & _).
  assert (Hi2 : inv ∅ w2).
  { apply inv_reachable. destruct Hr1 as (ck & us & Hr1). exists ck, us. by etransitivity. }
  set (clk := clock w2 (S (clock_reads w2))) in *.
  assert (Erow2 : media_jobs w2 !! sn_job_id (snapshot_of row) = Some row) by (cbn; by rewrite Hrid).
  pose proof (finished_stores ws worker w2 (snapshot_of row) row Hi2 Erow2 Hl payload) as Hrun.
  rewrite <- Hwork in Hrun at 1. fold clk in Hrun.
  exists (wrote 2 (sn_job_id (snapshot_of row)) (complete_row (JObj payload) clk row) w2), resolution, target, binding, draft, metadata.
  split_and!; try done. intros w4 Erow4 Hlive.
  assert (E4 : media_jobs w4 !! jv_id view = Some (complete_row (JObj payload) clk row)).
  { rewrite Erow4. cbn. rewrite Hrid. apply lookup_insert_eq. }
  destruct (stored_view settings (complete_row (JObj payload) clk row) payload metadata (conj Hv1 Hv2) Hj eq_refl eq_refl)
    as (view' & Hview & Hs & Hres').
  exists view'. split; [|done]. destruct Hident as [Hh _].
  assert (Hown : JobServiceTheorems.job_owned w4 (jv_id view) token (complete_row (JObj payload) clk row)).
  { split; [exact E4|]. rewrite Hh. f_equal. symmetry. exact Hcred. }
  rewrite (JobServiceTheorems.get_job_owned settings (jv_id view) token w4 _ Hown). cbn [fst].
  change (mj_public_state (complete_row (JObj payload) clk row)) with INSPECTED.
  change (bool_decide (INSPECTED = EXPIRED)) with false. cbn [orb].
  change (mj_expires_at (complete_row (JObj payload) clk row)) with (mj_expires_at row).
  by rewrite (proj2 (Z.leb_gt _ _) Hlive).
Qed.
End WorkerTheorems.

(** ** A job from its request to its result *)
Module WorkerExamples.
Import JobStates MediaJobRepository JobLifecycle JobTheorems MediaJobWorkerRunner WorkerTheorems.
Import UrlExamples InspectionExamples MediaJobService JobServiceExamples JobExamples.
#[local] Existing Instance no_idna.

Definition ws : WorkerSettings := {|
  worker_concurrency := 2; media_inspection_enabled := true; media_job_lease_seconds := fl_int 60;
  media_job_retry_base_seconds := fl_int 2; media_job_retry_max_seconds := fl_int 60;
  media_download_concurrency := 1; media_download_lease_seconds := fl_int 120 |}.

Definition media : MediaSettings := SelectionExamples.demo_settings.

(** Two seconds, then four, eight, sixteen, thirty-two, and a minute at most. *)
Example backoffs : (fun n => timedelta_seconds <$> match _retry_backoff_seconds ws n with inr b => Some b | inl _ => None end) <$> [0; 1; 2; 3; 4; 5; 6; 10]
  = (fun s => Some (seconds s)) <$> [2; 2; 4; 8; 16; 32; 60; 60].
Proof. by vm_compute. Qed.

Example rounded_delays : timedelta_seconds <$> [fl_of_decimal 25 1; fl_of_decimal 1 7; fl_of_decimal 5 7; fl_of_decimal 15 7]
  = [2500000; 0; 0; 2].
Proof. by vm_compute. Qed.

Lemma ws_backoff : backoff_settings ws.
Proof. by split; vm_compute. Qed.

Definition creation : (exn + JobView) * World :=
  create_job job_settings settings url token (fun u => resolved (of_chars u)) (Some registry) (Some hosts) demo0.

Definition view : JobView :=
  match creation.1 with inr view => view | inl _ => JobServiceTheorems.queued_view (queued_job 0 demo_request) end.

Definition claimed : World := run (OpClaim no_locks "worker-a" (seconds 60) 0 1) creation.2.

Definition row : MediaJob := default (queued_job 0 demo_request) (media_jobs claimed !! 7%N).

Definition work : exn + list (string * Json) :=
  _execute_inspection job_settings settings media registry hosts (validate settings hosts resolver) (snapshot_of row).

Definition payload : list (string * Json) := match work with inr payload => payload | inl _ => [] end.

Lemma created : create_job job_settings settings url token (fun u => resolved (of_chars u)) (Some registry) (Some hosts) demo0 =
  (inr view, creation.2).
Proof.
  assert (E : creation.1 = inr view) by by vm_compute. unfold creation in *. by rewrite <- E, <- surjective_pairing.
Qed.

Lemma reachable_creation : reachable creation.2.
Proof.
  destruct (@JobServiceTheorems.created_row no_idna job_settings settings (Some registry) (Some hosts) (fun u => resolved (of_chars u))
    url token credential fingerprint demo0 view creation.2 reachable_demo0 eq_refl ltac:(by vm_compute) request_identified eq_refl
    created ltac:(by vm_compute)) as (_ & _ & _ & _ & Hs & _).
  destruct reachable_demo0 as (ck & us & Hr). exists ck, us. by etransitivity.
Qed.

Lemma job_shows_its_media_witness :
  exists w3 metadata,
    _run_claimed ws "worker-a" false (snapshot_of row) (Finished work) claimed = (inr Returned, w3) /\
    exists view', (get_job job_settings (jv_id view) token w3).1 = inr view' /\
      jv_public_state view' = "inspected" /\ jv_result view' = Some metadata.
Proof.
  destruct (@job_shows_its_media no_idna job_settings settings media ws hosts resolver extractors
    InspectionExtractorRegistry.DEFAULT_YTDLP_EXTRACTOR_KEYS registry (fun u => resolved (of_chars u)) url token credential fingerprint
    "worker-a" demo0 view creation.2 claimed row payload
    ltac:(by vm_compute) (default_registry_plain settings) ltac:(cbn; set_solver) ltac:(cbn; set_solver) registry_built
    reachable_demo0 eq_refl ltac:(by vm_compute) request_identified eq_refl created ltac:(by vm_compute)
    (rtc_once _ _ (job_step _ _)) ltac:(by vm_compute) ltac:(intros Hd; by vm_compute in Hd) ltac:(by vm_compute)
    ltac:(by vm_compute))
    as (w3 & res & t & binding & draft & metadata & Hrun & Hres & Ht & _ & _ & _ & _ & _ & Hread).
  exists w3, metadata. split; [exact Hrun|]. apply Hread; [reflexivity|].
  assert (Hw : (clock w3 (clock_reads w3) <? mj_expires_at row) = true).
  { apply (f_equal snd) in Hrun. cbn [snd] in Hrun. rewrite <- Hrun. by vm_compute. }
  by apply Z.ltb_lt.
Defined.

Lemma claimed_run_settles_witness :
  exists w3 backoff, backoff_ok ws backoff /\
    media_jobs w3 !! 7%N = Some (judged (clock claimed (clock_reads claimed)) (clock claimed (S (clock_reads claimed))) backoff row Retried).
Proof.
  destruct (claimed_run_settles ws "worker-a" false (snapshot_of row) (Finished (inl (inspection_error INSPECTION_TIMEOUT "TIMEOUT")))
    claimed row) as [Hheld _].
  - apply reachable_run, reachable_creation.
  - exact ws_backoff.
  - by vm_compute.
  - by vm_compute.
  - destruct Hheld as (w3 & backoff & _ & Hb & Hs & _); [by vm_compute|].
    exists w3, backoff. split; [exact Hb|]. rewrite <- Hs.
    assert (Hid : sn_job_id (snapshot_of row) = 7%N) by by vm_compute.
    assert (Hv : verdict_of row false (Finished (inl (inspection_error INSPECTION_TIMEOUT "TIMEOUT"))) = Retried) by by vm_compute.
    rewrite Hid, Hv. apply lookup_insert_eq.
Defined.

Definition poll : (exn + (list _ClaimedSnapshot * option Slots)) * World :=
  _claim_inspection_jobs ws "worker-a" no_locks (new_slots 2) creation.2.

Definition polled : Slots := match poll.1 with inr (_, Some slots) => slots | _ => new_slots 0 end.
Definition snapshots : list _ClaimedSnapshot := match poll.1 with inr (snaps, _) => snaps | inl _ => [] end.

Lemma poll_run : _claim_inspection_jobs ws "worker-a" no_locks (new_slots 2) creation.2 = (inr (snapshots, Some polled), poll.2).
Proof.
  assert (E : poll.1 = inr (snapshots, Some polled)) by by vm_compute.
  change (_claim_inspection_jobs ws "worker-a" no_locks (new_slots 2) creation.2) with poll.
  by rewrite <- E, <- surjective_pairing.
Qed.

Lemma worker_keeps_its_share_witness :
  active polled !! 0%nat = Some (7%N, 1) /\ Z.of_nat (size (active polled)) <= 2.
Proof.
  split; [by vm_compute|].
  refine (proj1 (worker_keeps_its_share ws "worker-a" polled _ _)); [done|].
  exact (sr_poll ws "worker-a" (new_slots 2) no_locks creation.2 snapshots polled poll.2 (sr_new ws "worker-a") poll_run).
Defined.
End WorkerExamples.
