(* ===== verification/ExecutorTheorems.v ===== *)
(** What a download attempt promises, whatever its surroundings do: it changes the
    database only through the statements of the repository
    ([attempt_is_made_of_steps]); its other effects follow one protocol - tools in
    its own workspace, one publication, the cleanup, the ready commit last
    ([attempt_follows_protocol]); and once its lease is over it writes nothing
    ([lapsed_attempt_is_harmless]). *)

From S2P Require Export Executor DownloadTheorems WorkerTheorems.

Local Open Scope string_scope.
Local Open Scope list_scope.
Local Open Scope Z_scope.

Module ExecutorTheorems.
Import DownloadStates MediaDownloadJobRepository DownloadLifecycle DownloadOperations DownloadExecutor.

(** ** Computations that stay within a relation *)

(** [m] moves along [R], and what it returns satisfies [Q]. *)
Definition moves (R : relation Attempt) {A} (m : Run A) (Q : A -> Prop) : Prop :=
  forall s, R s (m s).2 /\ forall a, (m s).1 = inr a -> Q a.

Definition always {A} (a : A) : Prop := True.

Section Does.
Context (R : relation Attempt) `{!PreOrder R}.

Lemma does_mono {A} (m : Run A) (Q Q' : A -> Prop) : moves R m Q -> (forall a, Q a -> Q' a) -> moves R m Q'.
Proof. intros Hm HQ s. destruct (Hm s) as [HR Hr]. eauto. Qed.

Lemma does_any {A} (m : Run A) (Q : A -> Prop) : moves R m Q -> moves R m always.
Proof. intros Hm. by eapply does_mono. Qed.

Lemma does_ret {A} (a : A) (Q : A -> Prop) : Q a -> moves R (ret a) Q.
Proof. intros Ha s. split; [reflexivity|]. by intros ? [= <-]. Qed.

Lemma does_raise {A} f (Q : A -> Prop) : moves R (raise f) Q.
Proof. intros s. by split; [reflexivity|]. Qed.

Lemma does_raise_when c f : moves R (raise_when c f) (fun _ => c = false).
Proof. destruct c; [apply does_raise|by apply does_ret]. Qed.

Lemma does_gets {A} (f : Attempt -> A) : moves R (gets f) always.
Proof. intros s. by split; [reflexivity|]. Qed.

Lemma does_raising {A} (r : exn + A) : moves R (raising r) (fun a => r = inr a).
Proof. intros s. split; [reflexivity|]. destruct r as [e|a]; [done|]. by intros ? [= <-]. Qed.

Lemma does_bind {A B} (m : Run A) (k : A -> Run B) (Q : A -> Prop) (Q' : B -> Prop) :
  moves R m Q -> (forall a, Q a -> moves R (k a) Q') -> moves R (bind m k) Q'.
Proof.
  intros Hm Hk s. destruct (Hm s) as [H1 H2]. unfold bind. destruct (m s) as [[f|a] s1]; cbn in *; [done|].
  destruct (Hk a (H2 a eq_refl) s1) as [H3 H4]. split; [by etransitivity|done].
Qed.

Lemma does_attempt {A} (m : Run A) (Q : A -> Prop) : moves R m Q ->
  moves R (attempt m) (fun r => match r with inr a => Q a | inl _ => True end).
Proof.
  intros Hm s. destruct (Hm s) as [H1 H2]. unfold attempt. destruct (m s) as [[f|a] s1]; cbn in *; (split; [done|]);
    intros ? [= <-]; auto.
Qed.

Lemma does_try_catch {A} (m : Run A) h (Q : A -> Prop) : moves R m Q ->
  (forall f k, h f = Some k -> moves R k Q) -> moves R (try_catch m h) Q.
Proof.
  intros Hm Hh s. destruct (Hm s) as [H1 H2]. unfold try_catch. destruct (m s) as [[f|a] s1]; cbn in *; [|done].
  destruct (h f) as [k|] eqn:E; [|done]. destruct (Hh f k E s1) as [H3 H4]. split; [by etransitivity|done].
Qed.
End Does.

(** ** The processes of an attempt *)

(** The format tokens of a selection. *)
Definition tokens (selection : DownloadSelection) : list string :=
  match selection with
  | Direct s => [ds_provider_format_token s]
  | Muxed s => [ms_video_format_token s; ms_audio_format_token s]
  end.

(** A run of one of the three tools, in the workspace and with the environment
    of the attempt: [yt-dlp] on the job's URL with a token of the selection,
    [ffmpeg] on one file of each stream directory, [ffprobe] on a file of the mux
    directory. *)
Definition tool_call (ds : DownloadSettings) (snap : DownloadClaimSnapshot) (selection : DownloadSelection)
    (workspace : AttemptWorkspace) (request : RunRequest) : Prop :=
  rq_env request = build_sanitized_env (ws_home workspace) (ws_path workspace) /\
  rq_cwd request = ws_path workspace /\
  ((exists exe token extractors template cap, token ∈ tokens selection /\
      build_ytdlp_download_argv exe (cs_canonical_provider_url snap) token extractors
        (fl_trunc (media_download_socket_timeout_seconds ds)) (ws_cache workspace) template cap = inr (rq_argv request)) \/
   (exists s exe video audio, selection = Muxed s /\
      build_ffmpeg_mux_argv exe (join_path (ws_video workspace) video) (join_path (ws_audio workspace) audio)
        (join_path (ws_mux workspace) ("artifact." ++ ms_container s)) (ms_container s) = inr (rq_argv request)) \/
   (exists s exe file, selection = Muxed s /\
      build_ffprobe_argv exe (join_path (ws_mux workspace) file) = inr (rq_argv request))).

(** The lease of the claim is over. *)
Definition lapsed (snap : DownloadClaimSnapshot) (w : World) : Prop :=
  forall r, media_download_jobs w !! cs_job_id snap = Some r -> spent (abs r) (cs_fence snap).

(** The transactions of an attempt: [m] is a statement of the repository, which
    writes nothing once the lease of the claim is over. *)
Definition statement (snap : DownloadClaimSnapshot) {A} (m : time -> DB A) : Prop := forall now,
  (exists op, exec op = (m now ;;; ret tt)) /\
  (forall w, lapsed snap w -> same_tables w (m now w).2).

Lemma lease_statement snap (m : time -> DB bool) :
  (forall now, exists op, exec op = (m now ;;; ret tt)) ->
  (forall now, lease_op (cs_job_id snap) (cs_fence snap) (m now)) -> statement snap m.
Proof. intros Hop Hl now. split; [done|]. intros w Hw. by apply (refuses_lease_op _ _ w Hw _ (Hl now)). Qed.

Lemma status_statement snap owner lease :
  statement snap (fun _ => lease_status (cs_job_id snap) owner (cs_fence snap) lease).
Proof.
  intros now. split; [by eexists (OpLeaseStatus _ _ _ _)|]. intros w Hw. unfold lease_status.
  erewrite bind_run by reflexivity. unfold select_by_id. erewrite bind_run by reflexivity.
  change (table (w <| clock_reads := S (clock_reads w) |>)) with (media_download_jobs w).
  destruct (media_download_jobs w !! cs_job_id snap) as [r|] eqn:Er; [|done]. cbn.
  destruct (fenced owner (cs_fence snap) r) eqn:Ef; [|done]. by destruct (fenced_not_spent _ _ _ Ef (Hw r Er)).
Qed.

(** The relations that the bookkeeping and the transactions of an attempt stay in. *)
Class Traversable (sr : Surroundings) (snap : DownloadClaimSnapshot) (R : relation Attempt) := {
  tr_preorder :: PreOrder R;
  R_next n s : R s (s <| at_next := n |>);
  R_lost b s : R s (s <| at_lease_lost := b |>);
  R_cancel b s : R s (s <| at_user_cancel := b |>);
  R_transaction A (m : time -> DB A) : statement snap m -> moves R (transaction sr nothing_done m) always
}.

Section Traverse.
Context `{Idna} (settings : Settings) (urls : UrlSettings) (media : MediaSettings) (ws : WorkerSettings)
  (ds : DownloadSettings).
Context (_worker_id root : string).
Context (_inspection_registry : InspectionExtractorRegistry.t) (_capabilities : ProviderCapabilityRegistry.t)
  (_providers : option ProviderRegistry) (_validator : option (text -> exn + URLValidationResult)).
Context (json_loads : list Byte.byte -> option Json).
Context (sr : Surroundings) (snap : DownloadClaimSnapshot).
Context (R : relation Attempt) `{!Traversable sr snap R}.

Abbreviation does := (moves R).

Lemma does_next : does next always.
Proof. intros s. split; [apply R_next|done]. Qed.

Lemma does_set_lost b : does (set_lease_lost b) always.
Proof. intros s. split; [apply R_lost|done]. Qed.

Lemma does_set_cancel b : does (set_user_cancel b) always.
Proof. intros s. split; [apply R_cancel|done]. Qed.

(** A step of a traversal: what is returned is forgotten unless it is asked for. *)
Ltac walk_step :=
  lazymatch goal with
  | |- moves _ (bind next _) _ => eapply (does_bind R); [apply does_next|intros ? _]
  | |- moves _ (bind (gets _) _) _ => eapply (does_bind R); [apply (does_gets R)|intros ? _]
  | |- moves _ (bind (raising _) _) _ => eapply (does_bind R); [apply (does_raising R)|intros ? ?]
  | |- moves _ (bind (raise_when _ _) _) _ => eapply (does_bind R); [apply (does_raise_when R)|intros ? ?]
  | |- moves _ (bind (attempt _) _) _ => eapply (does_bind R); [apply (does_attempt R _ always)|intros [?|?] ?]
  | |- moves _ (bind _ _) always => eapply (does_bind R _ _ always); [ |intros ? ?]
  | |- moves _ (ret _) _ => apply (does_ret R)
  | |- moves _ (raise _) _ => apply (does_raise R)
  | |- moves _ (raising _) always => eapply does_any, (does_raising R)
  | |- moves _ (set_lease_lost _) always => apply does_set_lost
  | |- moves _ (set_user_cancel _) always => apply does_set_cancel
  | |- moves _ (transaction _ nothing_done _) always => apply R_transaction
  | |- moves _ (if ?c then _ else _) _ => destruct c eqn:?
  | |- moves _ (match ?x with _ => _ end) _ => destruct x eqn:?
  | |- always _ => exact I
  end.
Ltac walk := repeat walk_step.

Lemma does_await : does (await_ sr) always.
Proof. unfold await_. walk. Qed.

Lemma does_min_free n : does (ensure_min_free sr n) always.
Proof. unfold ensure_min_free. walk. eapply does_any, (does_raise_when R). Qed.

(** The statements of the attempt. *)
Ltac by_op := lazymatch goal with
  | |- statement _ (fun _ => lease_status _ _ _ _) => apply status_statement
  | |- _ => apply lease_statement; intros ?; [|constructor]; lazymatch goal with
      | |- context [complete_cancelled ?id ?owner ?fence] => by exists (OpCancelled id owner fence)
      | |- context [release_to_queued ?id ?owner ?fence ?now] => by exists (OpRelease id owner fence now)
      | |- context [set_progress_stage ?id ?owner ?fence ?stage ?now] => by exists (OpStage id owner fence stage now)
      | |- context [set_progress_percent ?id ?owner ?fence ?percent ?now] => by exists (OpPercent id owner fence percent now)
      | |- context [fail_retry ?id ?owner ?fence ?now ?backoff ?code] => by exists (OpRetry id owner fence now backoff code)
      | |- context [fail_permanent ?id ?owner ?fence ?code] => by exists (OpFail id owner fence code)
      end
  end.

Lemma does_lease : does (lease_still_owned ws _worker_id sr (cs_job_id snap) (cs_fence snap)) always.
Proof. unfold lease_still_owned. walk. by_op. Qed.

Lemma does_user_cancel : does (_complete_user_cancel _worker_id sr snap) always.
Proof. unfold _complete_user_cancel. walk. by_op. Qed.

Lemma does_abort : does (_abort_if_unowned ws _worker_id sr snap) always.
Proof. unfold _abort_if_unowned. walk; [apply does_lease|apply does_user_cancel]. Qed.

Lemma does_require_lease : does (require_lease ws _worker_id sr snap) always.
Proof. unfold require_lease. walk. apply does_lease. Qed.

Lemma does_release : does (_release_to_queued _worker_id sr (cs_job_id snap) (cs_fence snap)) always.
Proof. unfold _release_to_queued. walk. by_op. Qed.

Lemma does_fail code : does (_fail ds _worker_id sr snap code) always.
Proof. unfold _fail. walk; [apply does_user_cancel|by_op|by_op]. Qed.

Lemma does_advance stage : does (_advance_progress _worker_id sr snap stage) always.
Proof. unfold _advance_progress. walk. by_op. Qed.

Lemma does_persist percent : does (_persist_progress_percent _worker_id sr snap percent) always.
Proof. unfold _persist_progress_percent. walk. by_op. Qed.

Lemma does_ingest observed expected force gate :
  does (ProgressPersistGate.ingest is_exception (_persist_progress_percent _worker_id sr snap) observed expected force gate) always.
Proof.
  intros s. split; [|done]. unfold ProgressPersistGate.ingest.
  destruct (ProgressPersistGate.to_write _ _ _ _) as [[v|] g]; [|reflexivity].
  pose proof (does_persist v s) as [HR _]. by destruct (_persist_progress_percent _ _ _ _ s) as [[f|[]] s'].
Qed.

Lemma does_observed expected observed gate : does (_on_observed _worker_id sr snap expected observed gate) always.
Proof. unfold _on_observed. walk. apply does_ingest. Qed.

Lemma does_run_events sample events watching gate :
  (forall observed gate, does (sample observed gate) always) ->
  does (run_events ws _worker_id sr snap sample events watching gate) always.
Proof.
  intros Hs. revert watching gate. induction events as [|[observed|reaction] events IH]; intros watching gate; cbn [run_events].
  - walk.
  - walk; [apply Hs|apply IH].
  - unfold stopped. destruct watching; cbn [negb]; [|apply IH]. walk; try apply IH. apply does_lease.
Qed.

Lemma does_find directory suffixes code : does (find_file ds sr directory suffixes code) (fun path => exists name, path = join_path directory name).
Proof.
  unfold find_file. walk_step. eapply (does_bind R); [apply (does_raising R)|]. intros listed _.
  eapply does_mono; [apply (does_raising R)|]. cbn. intros path Hp.
  unfold find_single_regular_file_in in Hp. destruct listed as [entries|]; [|done]. ok_step Hp.
  destruct entries as [|e [|e' l]]; try done. injection Hp as <-. by eexists.
Qed.

Lemma does_stat path : does (stat_size sr path) always.
Proof. unfold stat_size. walk. Qed.

Lemma does_remaining peak consumed : does (_ensure_remaining_disk ds sr peak consumed) always.
Proof. apply does_min_free. Qed.

Lemma does_executable path kind : does (executable sr path kind) always.
Proof. unfold executable. walk. Qed.

Section Downloads.
Context (selection : DownloadSelection) (workspace : AttemptWorkspace).
Context (R_ran : forall request s, tool_call ds snap selection workspace request ->
  R s (s <| at_events := at_events s ++ [Ran request] |>)).

Lemma does_supervised request sample gate : tool_call ds snap selection workspace request ->
  (forall observed gate, does (sample observed gate) always) ->
  does (_run_supervised ws _worker_id sr snap request sample gate) always.
Proof.
  intros Hr Hs. unfold _run_supervised. walk.
  - intros s. split; [by apply R_ran|done].
  - by apply does_run_events.
  - intros s. by split; [reflexivity|].
Qed.

Lemma does_ytdlp token template dir max_bytes headroom expected kind : token ∈ tokens selection ->
  does (_run_exact_ytdlp ws ds _worker_id _inspection_registry sr snap token workspace template dir max_bytes headroom expected kind) always.
Proof.
  intros Ht. unfold _run_exact_ytdlp. walk; try apply does_advance; try apply does_ingest.
  apply does_supervised; [|apply does_observed]. split; [done|]. split; [done|]. left. cbn in *.
  eexists _, token, _, template, _. split; [done|eassumption].
Qed.

Lemma does_direct s : selection = Direct s ->
  does (_run_direct_download ws ds _worker_id _inspection_registry sr snap s workspace) always.
Proof. intros E. apply does_ytdlp. rewrite E. by left. Qed.

Lemma does_streams s peak : selection = Muxed s ->
  does (download_streams ws ds _worker_id _inspection_registry sr snap s workspace peak)
    (fun r => exists video audio, r.1.1 = join_path (ws_video workspace) video /\ r.1.2 = join_path (ws_audio workspace) audio).
Proof.
  intros E. unfold download_streams.
  assert (Hv : ms_video_format_token s ∈ tokens selection) by (rewrite E; by left).
  assert (Ha : ms_audio_format_token s ∈ tokens selection) by (rewrite E; by right; left).
  eapply (does_bind R _ _ always); [apply does_require_lease|intros _ _].
  eapply (does_bind R _ _ always); [by apply does_ytdlp|intros _ _].
  eapply (does_bind R); [apply does_find|intros video (v & ->)].
  eapply (does_bind R _ _ always); [apply does_stat|intros n _].
  eapply (does_bind R _ _ always); [apply does_remaining|intros _ _].
  eapply (does_bind R _ _ always); [apply does_require_lease|intros _ _].
  eapply (does_bind R _ _ always); [by apply does_ytdlp|intros _ _].
  eapply (does_bind R); [apply does_find|intros audio (a & ->)].
  eapply (does_bind R _ _ always); [apply does_stat|intros m _].
  eapply (does_bind R _ _ always); [apply does_remaining|intros _ _].
  eapply (does_bind R _ _ always); [apply does_require_lease|intros _ _].
  apply (does_ret R). by exists v, a.
Qed.

Lemma does_mux s ffmpeg video audio consumed : selection = Muxed s ->
  does (mux_streams ws ds _worker_id sr snap s workspace ffmpeg (join_path (ws_video workspace) video)
          (join_path (ws_audio workspace) audio) consumed)
    (fun file => exists name, file = join_path (ws_mux workspace) name).
Proof.
  intros E. unfold mux_streams, argv_or. eapply (does_bind R); [apply (does_raising R)|intros argv Hargv].
  assert (Hb : build_ffmpeg_mux_argv ffmpeg (join_path (ws_video workspace) video) (join_path (ws_audio workspace) audio)
    (join_path (ws_mux workspace) ("artifact." ++ ms_container s)) (ms_container s) = inr argv) by by destruct (build_ffmpeg_mux_argv _ _ _ _ _) as [[]|].
  eapply (does_bind R); [apply (does_raising R)|intros _ _].
  eapply (does_bind R _ _ always); [apply does_advance|intros _ _].
  eapply (does_bind R _ _ always); [|intros [g r] _].
  { apply does_supervised; [|intros; by apply (does_ret R)]. split; [done|]. split; [done|]. right. left. cbn.
    by exists s, ffmpeg, video, audio. }
  eapply (does_bind R); [apply (does_raising R)|intros _ _]. apply does_find.
Qed.

Lemma does_verify s ffprobe file : selection = Muxed s ->
  does (verify_muxed ws ds _worker_id json_loads sr snap s workspace ffprobe (join_path (ws_mux workspace) file)) always.
Proof.
  intros E. unfold verify_muxed, argv_or.
  eapply (does_bind R _ _ always); [apply does_require_lease|intros _ _].
  eapply (does_bind R); [apply (does_raising R)|intros argv Hargv].
  assert (Hb : build_ffprobe_argv ffprobe (join_path (ws_mux workspace) file) = inr argv) by by destruct (build_ffprobe_argv _ _) as [[]|].
  eapply (does_bind R _ _ always); [apply does_advance|intros _ _].
  eapply (does_bind R _ _ always); [|intros [g r] _].
  { apply does_supervised; [|intros; by apply (does_ret R)]. split; [done|]. split; [done|]. right. right. cbn.
    by exists s, ffprobe, file. }
  unfold stage_muxed_output. walk; [apply does_stat|apply does_require_lease].
Qed.

Lemma does_download peak :
  does (_run_download media ws ds _worker_id _inspection_registry json_loads sr snap selection workspace peak) always.
Proof.
  unfold _run_download.
  assert (Hs : (exists s, selection = Direct s) \/ exists s, selection = Muxed s) by (destruct selection; eauto).
  destruct Hs as [[s E]|[s E]]; rewrite E; [by apply does_direct|]. unfold _run_muxed_download.
  eapply (does_bind R); [apply (does_raise_when R)|intros _ _].
  eapply (does_bind R _ _ always); [apply does_executable|intros ffmpeg _].
  eapply (does_bind R _ _ always); [apply does_executable|intros ffprobe _].
  eapply (does_bind R); [by apply does_streams|intros [[video audio] consumed] (v & a & Ev & Ea)]. cbn in Ev, Ea. subst video audio.
  eapply (does_bind R); [by apply does_mux|intros file (name & ->)]. by apply does_verify.
Qed.
End Downloads.

Lemma does_handler f : does (handler ds _worker_id sr snap f) always.
Proof.
  unfold handler. destruct f as [e| | |].
  - destruct e; apply does_fail.
  - walk; [apply does_user_cancel|apply does_release].
  - walk. apply does_user_cancel.
  - walk.
Qed.

Lemma does_resolve : does (_resolve_selection urls media _inspection_registry _capabilities _providers _validator sr snap)
  (fun selection => resolve_target urls media _inspection_registry _capabilities _providers _validator snap = inr selection).
Proof.
  unfold _resolve_selection. eapply (does_bind R _ _ always); [apply does_await|intros _ _]. apply (does_raising R).
Qed.
End Traverse.

(** ** An attempt as a whole *)

Section Attempts.
Context `{Idna} (settings : Settings) (urls : UrlSettings) (media : MediaSettings) (ws : WorkerSettings)
  (ds : DownloadSettings).
Context (_worker_id root : string).
Context (_inspection_registry : InspectionExtractorRegistry.t) (_capabilities : ProviderCapabilityRegistry.t)
  (_providers : option ProviderRegistry) (_validator : option (text -> exn + URLValidationResult)).
Context (json_loads : list Byte.byte -> option Json).
Context (sr : Surroundings).

Abbreviation execute := (DownloadExecutor.execute settings urls media ws ds _worker_id root _inspection_registry
  _capabilities _providers _validator json_loads sr).
Abbreviation body := (DownloadExecutor.body settings urls media ws ds _worker_id root _inspection_registry
  _capabilities _providers _validator json_loads sr).
Abbreviation target := (resolve_target urls media _inspection_registry _capabilities _providers _validator).

Section Whole.
Context (snap : DownloadClaimSnapshot) (R : relation Attempt) `{!Traversable sr snap R}.
Context (R_note : forall e s, (forall a, e <> Readied a) -> R s (s <| at_events := at_events s ++ [e] |>)).
Context (R_workspace : forall o s, R s (s <| at_workspace := o |>)).
Context (R_complete : forall published, moves R (complete settings _worker_id sr snap published) always).

Lemma does_note e : (forall a, e <> Readied a) -> moves R (note e) always.
Proof. intros He s. split; [by apply R_note|done]. Qed.

Lemma does_workspace o : moves R (set_workspace o) always.
Proof. intros s. split; [apply R_workspace|done]. Qed.

Lemma does_cleanup workspace gone : moves R (cleanup_attempt_workspace sr workspace gone) always.
Proof.
  unfold cleanup_attempt_workspace. eapply (does_bind R _ _ always); [apply (does_next sr snap R)|intros n _].
  destruct (remove_tree sr n gone); [|by apply does_note].
  eapply (does_bind R _ _ always); [by apply does_note|intros _ _]. apply (does_raise R).
Qed.

Lemma does_publish container kind : moves R (publish sr container kind) always.
Proof.
  unfold publish. eapply (does_bind R _ _ _ always); [apply (does_raise_when R)|intros _ _].
  eapply (does_bind R _ _ always); [apply (does_next sr snap R)|intros n _].
  eapply (does_bind R); [apply (does_raising R)|intros [[id size] digest] ?].
  eapply (does_bind R); [apply (does_raising R)|intros content_type _].
  eapply (does_bind R _ _ always); [by apply does_note|intros _ _]. by apply (does_ret R).
Qed.

Lemma does_create job_id attempt fence :
  moves R (create_attempt_workspace root sr job_id attempt fence) always.
Proof.
  unfold create_attempt_workspace. eapply (does_bind R _ _ _ always); [apply (does_raise_when R)|intros _ _].
  eapply (does_bind R _ _ always); [apply (does_next sr snap R)|intros n _].
  eapply (does_bind R); [apply (does_raising R)|intros _ _].
  eapply (does_bind R _ _ always); [by apply does_note|intros _ _]. by apply (does_ret R).
Qed.

Lemma does_finish selection workspace : moves R (finish settings ws _worker_id sr snap selection workspace) always.
Proof.
  unfold finish.
  eapply (does_bind R _ _ always); [apply does_advance, _|intros _ _].
  eapply (does_bind R _ _ always); [apply does_publish|intros published _].
  eapply (does_bind R _ _ always); [apply does_cleanup|intros _ _].
  eapply (does_bind R _ _ always); [apply does_workspace|intros _ _].
  eapply (does_bind R _ _ always); [apply does_abort, _|intros [|] ?]; [by apply (does_ret R)|].
  eapply (does_bind R _ _ always); [apply R_complete|intros [|] ?]; [by apply (does_ret R)|].
  apply does_user_cancel, _.
Qed.

Lemma does_body : moves R (body snap) always.
Proof.
  unfold DownloadExecutor.body.
  eapply (does_bind R _ _ always); [apply (does_min_free sr snap R)|intros _ _].
  eapply (does_bind R _ _ always); [apply does_abort, _|intros [|] ?]; [by apply (does_ret R)|].
  eapply (does_bind R _ _ always); [apply does_advance, _|intros _ _].
  eapply (does_bind R); [apply does_resolve, _|intros selection _].
  eapply (does_bind R _ _ always); [apply (does_min_free sr snap R)|intros _ _].
  eapply (does_bind R _ _ always); [apply does_abort, _|intros [|] ?]; [by apply (does_ret R)|].
  eapply (does_bind R _ _ always); [apply does_create|intros workspace _].
  eapply (does_bind R _ _ always); [apply does_workspace|intros _ _].
  eapply (does_bind R _ _ always); [apply does_download; [exact _|intros; by apply R_note]|intros _ _].
  eapply (does_bind R _ _ always); [apply does_abort, _|intros [|] ?]; [by apply (does_ret R)|].
  apply does_finish.
Qed.

Lemma does_execute : moves R (execute snap) always.
Proof.
  unfold DownloadExecutor.execute, finally_cleanup.
  eapply (does_bind R _ _ always); [apply (does_set_lost sr snap R)|intros _ _].
  eapply (does_bind R _ _ always); [apply (does_set_cancel sr snap R)|intros _ _].
  eapply (does_bind R _ _ always); [apply does_workspace|intros _ _].
  eapply (does_bind R _ _ always).
  { eapply does_any, does_attempt, does_try_catch; [exact _|apply does_body|]. intros f k [= <-]. apply does_handler, _. }
  intros r _. eapply (does_bind R _ _ always); [|intros _ _; intros s; by split; [reflexivity|]].
  eapply (does_bind R); [apply (does_gets R)|intros [workspace|] ?]; [|by apply (does_ret R)].
  eapply (does_bind R); [apply does_attempt, does_cleanup|intros c _]. by apply (does_ret R).
Qed.
End Whole.

(** *** The database *)

Definition steps (s s' : Attempt) : Prop := rtc step (at_world s) (at_world s').

#[local] Instance steps_preorder : PreOrder steps.
Proof. split; unfold steps; [by intros s; apply rtc_refl|]. intros s1 s2 s3 H12 H23. by transitivity (at_world s2). Qed.

(** A transaction: the clock is read, and the statement decides. *)
Definition clock_read (w : World) : World := w <| clock_reads := S (clock_reads w) |>.

Lemma transaction_run {A} (m : time -> DB A) w :
  begin_nested (let* now := database_now in m now) w =
    match m (clock w (clock_reads w)) (clock_read w) with
    | (inr a, w') => (inr a, w')
    | (inl e, w') => (inl e, rollback w w')
    end.
Proof. reflexivity. Qed.

Lemma transaction_step snap {A} (m : time -> DB A) w : statement snap m ->
  rtc step w (begin_nested (let* now := database_now in m now) w).2.
Proof.
  intros Hm. rewrite transaction_run. set (now := clock w (clock_reads w)). destruct (Hm now) as [[op Eop] _].
  assert (Hs : step (clock_read w) (begin_nested (exec op) (clock_read w)).2) by exact (step_op op (clock_read w)).
  rewrite Eop in Hs. unfold begin_nested, bind, ret in Hs. destruct (m now (clock_read w)) as [[e|a] w'] eqn:Em.
  - apply rtc_once, step_env. apply (table_same (R := MediaDownloadJob)). symmetry. apply same_tables_rollback.
  - eapply rtc_l; [by apply (step_env w (clock_read w))|]. by apply rtc_once.
Qed.

Lemma transaction_lapsed snap {A} (m : time -> DB A) w : statement snap m -> lapsed snap w ->
  same_tables w (begin_nested (let* now := database_now in m now) w).2.
Proof.
  intros Hm Hw. rewrite transaction_run. destruct (Hm (clock w (clock_reads w))) as [_ Hn].
  specialize (Hn (clock_read w) Hw). destruct (m _ (clock_read w)) as [[e|a] w']; [apply same_tables_rollback|exact Hn].
Qed.

Section Steps.
Context (snap : DownloadClaimSnapshot) (Hothers : forall n w, rtc step w (others sr n w)).

Lemma steps_transaction {A} (done : A -> list Event) (m : time -> DB A) : statement snap m ->
  moves steps (transaction sr done m) always.
Proof.
  intros Hm s. split; [|done]. unfold transaction, steps. pose proof (Hothers (at_next s) (at_world s)) as Ho.
  pose proof (transaction_step snap m (others sr (at_next s) (at_world s)) Hm) as Ht.
  destruct (fate sr (at_next s)); cbn; [|done|]; by etransitivity.
Qed.

#[local] Instance steps_traversable : Traversable sr snap steps.
Proof. split; try (intros; apply rtc_refl); [exact _|]. intros A m. apply steps_transaction. Qed.

Lemma complete_statement published : statement snap (fun _ => complete_ready (cs_job_id snap) _worker_id (cs_fence snap)
  (pa_artifact_id published) (pa_size_bytes published) (pa_content_type published) (pa_container published)
  (free_download_quota_ready_compatibility_mode settings)).
Proof. apply lease_statement; intros _; [by eexists (OpReady _ _ _ _ _ _ _ _)|constructor]. Qed.

Lemma steps_execute : moves steps (execute snap) always.
Proof.
  apply (does_execute snap steps); try (intros; apply rtc_refl). intros published. apply steps_transaction, complete_statement.
Qed.

(** *** An attempt that lost its lease *)

(** What the others did, and nothing else, as far as the tables show. *)
Definition passes : relation World := rtc (fun w w' => same_tables w w' \/ exists n, w' = others sr n w).

Definition lease_is_over (w : World) : Prop :=
  reachable w /\ exists r, media_download_jobs w !! cs_job_id snap = Some r /\ spent (abs r) (cs_fence snap).

Definition harmless (s s' : Attempt) : Prop := lease_is_over (at_world s) ->
  lease_is_over (at_world s') /\ passes (at_world s) (at_world s') /\
  exists evs, at_events s' = at_events s ++ evs /\ forall a, Readied a ∉ evs.

Lemma over_lapsed w : lease_is_over w -> lapsed snap w.
Proof. intros [_ (r & Er & Hr)] r' Er'. by simplify_eq. Qed.

Lemma over_steps w w' : rtc step w w' -> lease_is_over w -> lease_is_over w'.
Proof.
  intros Hs [Hr (r & Er & Hsp)]. split; [clear -Hr Hs; induction Hs; eauto using reachable_step|].
  destruct (inv_from w w' Hr Hs) as [_ _ _ He _]. destruct (He _ _ Er) as (r' & Er' & _). exists r'. split; [done|].
  refine (abs_forever (fun a => spent a (cs_fence snap)) w w' _ r r' _ Hr Hs Er Hsp Er'). intros a a' Ha. by apply spent_step.
Qed.

#[local] Instance harmless_preorder : PreOrder harmless.
Proof.
  split.
  - intros s Hs. split; [done|]. split; [apply rtc_refl|]. exists []. split; [by rewrite app_nil_r|]. by intros a ?%elem_of_nil.
  - intros s1 s2 s3 H12 H23 H1. destruct (H12 H1) as (H2 & P2 & l2 & E2 & R2).
    destruct (H23 H2) as (H3 & P3 & l3 & E3 & R3). split; [done|]. split; [by transitivity (at_world s2)|].
    exists (l2 ++ l3). split; [by rewrite E3, E2, app_assoc|]. intros a [?|?]%elem_of_app; [by eapply R2|by eapply R3].
Qed.

Lemma harmless_same s s' evs : at_world s' = at_world s -> at_events s' = at_events s ++ evs ->
  (forall a, Readied a ∉ evs) -> harmless s s'.
Proof. intros E1 E2 Hn Hs. rewrite E1. split; [done|]. split; [apply rtc_refl|]. by exists evs. Qed.

Lemma harmless_quiet s s' : at_world s' = at_world s -> at_events s' = at_events s -> harmless s s'.
Proof. intros E1 E2. apply (harmless_same s s' []); [done|by rewrite app_nil_r|]. by intros a ?%elem_of_nil. Qed.

Lemma harmless_transaction {A} (done : A -> list Event) (m : time -> DB A) : statement snap m ->
  (forall now w a, lapsed snap w -> (m now w).1 = inr a -> done a = []) ->
  moves harmless (transaction sr done m) always.
Proof.
  intros Hm Hd s. split; [|done]. intros Hs. unfold transaction. set (w := others sr (at_next s) (at_world s)).
  assert (Hw : lease_is_over w) by by eapply over_steps; [apply Hothers|].
  assert (Pw : passes (at_world s) w) by (apply rtc_once; right; by eexists).
  set (c := begin_nested (let* now := database_now in m now) w).
  assert (Hc : lease_is_over c.2) by (eapply over_steps; [by apply (transaction_step snap)|done]).
  assert (Pc : passes (at_world s) c.2).
  { eapply rtc_r; [exact Pw|]. left. apply (transaction_lapsed snap); [done|by apply over_lapsed]. }
  assert (Ed : match c.1 with inr a => done a | inl _ => [] end = []).
  { destruct c.1 as [e|a] eqn:Ec; [done|]. unfold c in Ec. rewrite transaction_run in Ec.
    destruct (m _ (clock_read w)) as [[e'|a'] w'] eqn:Em; [done|]. injection Ec as ->.
    refine (Hd _ (clock_read w) a (over_lapsed w Hw) _). by rewrite Em. }
  destruct (fate sr (at_next s)); cbn; fold w c; rewrite ?Ed; (split; [done|]; split; [done|]; exists []);
    rewrite ?app_nil_r; (split; [done|]); by intros a ?%elem_of_nil.
Qed.

#[local] Instance harmless_traversable : Traversable sr snap harmless.
Proof.
  split; try (intros; by apply harmless_quiet); [exact _|]. intros A m Hm. by apply harmless_transaction.
Qed.

Lemma harmless_execute : moves harmless (execute snap) always.
Proof.
  apply (does_execute snap harmless).
  - intros e s He. apply (harmless_same _ _ [e]); [done..|]. intros a Ha%list_elem_of_singleton. by apply (He a).
  - intros o s. by apply harmless_quiet.
  - intros published. apply harmless_transaction; [apply complete_statement|]. intros now w [|] Hw E; [|done].
    destruct (refuses_lease_op _ _ w Hw _ (lo_ready _ _ _worker_id (pa_artifact_id published) (pa_size_bytes published)
      (pa_content_type published) (pa_container published) (free_download_quota_ready_compatibility_mode settings))
      w eq_refl) as [Hf _]. by destruct Hf.
Qed.
End Steps.

(** *** The other effects *)

(** Only events of [P] are added, and the workspace stays what it is. *)
Definition adds (P : Event -> Prop) (s s' : Attempt) : Prop :=
  at_workspace s' = at_workspace s /\ exists evs, at_events s' = at_events s ++ evs /\ Forall P evs.

#[local] Instance adds_preorder P : PreOrder (adds P).
Proof.
  split.
  - intros s. split; [done|]. exists []. by rewrite app_nil_r.
  - intros s1 s2 s3 [E1 (l1 & A1 & P1)] [E2 (l2 & A2 & P2)]. split; [congruence|].
    exists (l1 ++ l2). split; [by rewrite A2, A1, app_assoc|by apply Forall_app_2].
Qed.

Lemma adds_nothing P s s' : at_workspace s' = at_workspace s -> at_events s' = at_events s -> adds P s s'.
Proof. intros E1 E2. split; [done|]. exists []. by rewrite app_nil_r. Qed.

#[local] Instance adds_traversable snap P : Traversable sr snap (adds P).
Proof.
  split; [exact _|by intros; apply adds_nothing..|]. intros A m _ s. split; [|done]. unfold transaction, nothing_done.
  destruct (begin_nested _ _) as [[e|a] w]; destruct (fate sr (at_next s)); apply adds_nothing; cbn; by rewrite ?app_nil_r.
Qed.

(** What an attempt has done so far: its events and its workspace. *)
Definition logged (evs0 evs : list Event) (o : option AttemptWorkspace) (s : Attempt) : Prop :=
  at_events s = evs0 ++ evs /\ at_workspace s = o.

Lemma adds_logged {A} (m : Run A) Q evs0 evs o s : moves (adds (fun _ => False)) m Q -> logged evs0 evs o s ->
  wp m (fun a s' => Q a /\ logged evs0 evs o s') (fun _ s' => logged evs0 evs o s') s.
Proof.
  intros Hm [E1 E2]. destruct (Hm s) as [[Ew (l & El & Hl)] HQ]. unfold wp, logged. 
  assert (l = []) as -> by (destruct l as [|e l]; [done|by inversion Hl]). rewrite app_nil_r in El.
  destruct (m s) as [[f|a] s']; cbn in *; [|split; [by apply HQ|]]; split; congruence.
Qed.

Section Protocol.
Context (snap : DownloadClaimSnapshot).

Definition own_workspace : AttemptWorkspace := workspace_at root (cs_job_id snap) (cs_attempt_count snap) (cs_fence snap).

Definition is_run (selection : DownloadSelection) (e : Event) : Prop :=
  exists request, e = Ran request /\ tool_call ds snap selection own_workspace request.

(** How an attempt with a workspace ends. *)
Inductive ending (selection : DownloadSelection) : list Event -> Prop :=
| ends_dropped ok : ending selection [Removal own_workspace false ok]
| ends_stuck p ok : pa_container p = strip_lower (selection_container selection) ->
    ending selection [Published p; Removal own_workspace true false; Removal own_workspace false ok]
| ends_orphan p : pa_container p = strip_lower (selection_container selection) ->
    ending selection [Published p; Removal own_workspace true true]
| ends_ready p : pa_container p = strip_lower (selection_container selection) ->
    ending selection [Published p; Removal own_workspace true true; Readied (pa_artifact_id p)].

(** The events of an attempt. *)
Inductive protocol : list Event -> Prop :=
| did_nothing : protocol []
| did_work selection runs tail : target snap = inr selection -> Forall (is_run selection) runs ->
    ending selection tail -> protocol (Created own_workspace :: runs ++ tail).

(** ... and those of its body, with the workspace it leaves. *)
Inductive unfinished : list Event -> option AttemptWorkspace -> Prop :=
| un_nothing : unfinished [] None
| un_running selection runs : target snap = inr selection -> Forall (is_run selection) runs ->
    unfinished (Created own_workspace :: runs) (Some own_workspace)
| un_stuck selection runs p : target snap = inr selection -> Forall (is_run selection) runs ->
    pa_container p = strip_lower (selection_container selection) ->
    unfinished (Created own_workspace :: runs ++ [Published p; Removal own_workspace true false]) (Some own_workspace)
| un_orphan selection runs p : target snap = inr selection -> Forall (is_run selection) runs ->
    pa_container p = strip_lower (selection_container selection) ->
    unfinished (Created own_workspace :: runs ++ [Published p; Removal own_workspace true true]) None
| un_ready selection runs p : target snap = inr selection -> Forall (is_run selection) runs ->
    pa_container p = strip_lower (selection_container selection) ->
    unfinished (Created own_workspace :: runs ++ [Published p; Removal own_workspace true true; Readied (pa_artifact_id p)]) None.

(** The log of an attempt that started with the log [evs0]. *)
Definition so_far (evs0 : list Event) (s : Attempt) : Prop :=
  exists evs, unfinished evs (at_workspace s) /\ at_events s = evs0 ++ evs.

Lemma logged_so_far evs0 evs o s : logged evs0 evs o s -> unfinished evs o -> so_far evs0 s.
Proof. intros [E1 <-] Hu. by exists evs. Qed.

(** A prefix that adds nothing. *)
Lemma log_bind {A B} (m : Run A) (k : A -> Run B) Q evs0 evs o s :
  moves (adds (fun _ => False)) m Q -> logged evs0 evs o s -> unfinished evs o ->
  (forall a z, Q a -> logged evs0 evs o z -> wp (k a) (fun _ => so_far evs0) (fun _ => so_far evs0) z) ->
  wp (bind m k) (fun _ => so_far evs0) (fun _ => so_far evs0) s.
Proof.
  intros Hm Hl Hu Hk. apply wp_bind. eapply wp_mono; [by apply (adds_logged m Q evs0 evs o)| |].
  - intros a s' [Ha Hs]. by apply Hk.
  - intros f s' Hs. exact (logged_so_far evs0 evs o s' Hs Hu).
Qed.

Lemma log_ret {A} (a : A) evs0 evs o s : logged evs0 evs o s -> unfinished evs o ->
  wp (ret a : Run A) (fun _ => so_far evs0) (fun _ => so_far evs0) s.
Proof. intros. eapply logged_so_far; eassumption. Qed.

Abbreviation quiet := (adds (fun _ : Event => False)).

Lemma log_last {A} (m : Run A) evs0 evs o s : moves quiet m always -> logged evs0 evs o s -> unfinished evs o ->
  wp m (fun _ => so_far evs0) (fun _ => so_far evs0) s.
Proof.
  intros Hm Hl Hu. eapply wp_mono; [by apply (adds_logged m always evs0 evs o)| |]; cbv beta.
  - intros a s' [_ Hs]. by eapply logged_so_far.
  - intros f s' Hs. by eapply logged_so_far.
Qed.

Ltac log_step Hl Hu := eapply (log_bind _ _ always); [|exact Hl|exact Hu|let Hl' := fresh "Hl" in intros ? ? _ Hl'; clear Hl; rename Hl' into Hl].

Lemma log_publish container kind evs0 evs o s : logged evs0 evs o s ->
  wp (publish sr container kind)
    (fun p s' => pa_container p = strip_lower container /\ logged evs0 (evs ++ [Published p]) o s')
    (fun _ s' => logged evs0 evs o s') s.
Proof.
  intros [E1 E2]. unfold publish. wp_step. wp_step; [done|]. wp_step.
  change (wp next ?Q ?X s) with (Q (at_next s) (s <| at_next := S (at_next s) |>)). cbv beta.
  wp_step. unfold raising at 1. destruct (publish_files sr (at_next s)) as [e|[[id size] digest]]; [done|]. wp_step; [done|].
  simplify_eq. wp_step. unfold raising. destruct (content_type_for_container _ _) as [e|content_type]; wp_step; try done.
  simplify_eq. split; [done|]. split; [|done]. cbn. by rewrite E1, app_assoc.
Qed.

Lemma log_cleanup gone evs0 evs o s : logged evs0 evs o s ->
  wp (cleanup_attempt_workspace sr own_workspace gone)
    (fun _ s' => logged evs0 (evs ++ [Removal own_workspace gone true]) o s')
    (fun _ s' => logged evs0 (evs ++ [Removal own_workspace gone false]) o s') s.
Proof.
  intros [E1 E2]. unfold cleanup_attempt_workspace. wp_step.
  change (wp next ?Q ?X s) with (Q (at_next s) (s <| at_next := S (at_next s) |>)). cbv beta.
  destruct (remove_tree sr (at_next s) gone) as [e|_]; (split; [|done]); cbn; by rewrite E1, app_assoc.
Qed.

Lemma log_complete p evs0 evs o s : logged evs0 evs o s ->
  wp (complete settings _worker_id sr snap p)
    (fun _ s' => logged evs0 evs o s' \/ logged evs0 (evs ++ [Readied (pa_artifact_id p)]) o s')
    (fun _ s' => logged evs0 evs o s' \/ logged evs0 (evs ++ [Readied (pa_artifact_id p)]) o s') s.
Proof.
  intros [E1 E2]. unfold complete, transaction, wp, logged. rewrite app_assoc, <- E1, <- E2.
  destruct (begin_nested _ _) as [[e|[]] w]; destruct (fate sr (at_next s)); cbn; rewrite ?app_nil_r; auto.
Qed.

Lemma log_finish evs0 selection runs s : target snap = inr selection -> Forall (is_run selection) runs ->
  logged evs0 (Created own_workspace :: runs) (Some own_workspace) s ->
  wp (finish settings ws _worker_id sr snap selection own_workspace) (fun _ => so_far evs0) (fun _ => so_far evs0) s.
Proof.
  intros Ht Hr Hl. pose proof (un_running selection runs Ht Hr) as Hu. unfold finish.
  log_step Hl Hu; [apply does_advance, _|].
  wp_step. eapply wp_mono; [by apply log_publish| |intros f s3 Hs; cbv beta in Hs; eapply logged_so_far; eassumption].
  intros p s1 [Hp Hl1]. wp_step. eapply wp_mono; [by apply log_cleanup| |intros f s' Hs; cbv beta in Hs; eapply logged_so_far; [exact Hs|]].
  2: { cbn. rewrite <- app_assoc. by eapply un_stuck. }
  intros [] s2 [E1 E2]. clear Hl Hl1 Hu. wp_step.
  assert (Hl : logged evs0 (Created own_workspace :: runs ++ [Published p; Removal own_workspace true true]) None
    (s2 <| at_workspace := None |>)).
  { split; [|done]. cbn. rewrite E1. cbn. by rewrite <- app_assoc. }
  pose proof (un_orphan selection runs p Ht Hr Hp) as Hu.
  change (wp (set_workspace None) ?Q ?X s2) with (Q tt (s2 <| at_workspace := None |>)). cbv beta.
  log_step Hl Hu; [apply does_abort, _|]. wp_step; [by eapply log_ret|].
  wp_step. eapply wp_mono; [by apply log_complete| |]; cbv beta.
  2: { intros f s' [Hs|Hs]; cbv beta in Hs; eapply logged_so_far; [exact Hs|done|exact Hs|]. cbn. rewrite <- app_assoc. by eapply un_ready. }
  intros applied s' Hs. assert (Hs' : exists evs, logged evs0 evs None s' /\ unfinished evs None).
  { destruct Hs as [Hs|Hs]; eexists; (split; [exact Hs|]); [done|]. cbn. rewrite <- app_assoc. by eapply un_ready. }
  clear Hl Hu Hs. destruct Hs' as (evs & Hl & Hu). wp_step; [by eapply log_ret|].
  eapply log_last; [apply does_user_cancel, _|exact Hl|exact Hu].
Qed.

Lemma log_create evs0 s : logged evs0 [] None s ->
  wp (create_attempt_workspace root sr (cs_job_id snap) (cs_attempt_count snap) (cs_fence snap))
    (fun workspace s' => workspace = own_workspace /\ logged evs0 [Created own_workspace] None s')
    (fun _ s' => logged evs0 [] None s') s.
Proof.
  intros [E1 E2]. unfold create_attempt_workspace. wp_step. wp_step; [done|]. wp_step.
  change (wp next ?Q ?X s) with (Q (at_next s) (s <| at_next := S (at_next s) |>)). cbv beta.
  wp_step. unfold raising. wp_step; [done|].
  split; [done|]. split; [|done]. cbn. by rewrite E1, app_nil_r.
Qed.

(** The runs of a download are added to the log. *)
Lemma log_download evs0 selection peak s : target snap = inr selection ->
  logged evs0 [Created own_workspace] (Some own_workspace) s ->
  wp (_run_download media ws ds _worker_id _inspection_registry json_loads sr snap selection own_workspace peak)
    (fun _ s' => exists runs, Forall (is_run selection) runs /\ logged evs0 (Created own_workspace :: runs) (Some own_workspace) s')
    (fun _ s' => exists runs, Forall (is_run selection) runs /\ logged evs0 (Created own_workspace :: runs) (Some own_workspace) s') s.
Proof.
  intros Ht [E1 E2].
  assert (Hd : moves (adds (is_run selection))
    (_run_download media ws ds _worker_id _inspection_registry json_loads sr snap selection own_workspace peak) always).
  { apply does_download; [exact _|]. intros request s1 Hr. split; [done|]. exists [Ran request]. split; [done|].
    constructor; [|done]. by exists request. }
  destruct (Hd s) as [[Ew (runs & El & Hr)] _]. unfold wp.
  destruct (_run_download _ _ _ _ _ _ _ _ _ _ _ s) as [[f|[]] s']; cbn in *; exists runs; (split; [done|]);
    (split; [|congruence]); by rewrite El, E1, <- app_assoc.
Qed.

Lemma log_body evs0 s : logged evs0 [] None s ->
  wp (body snap) (fun _ => so_far evs0) (fun _ => so_far evs0) s.
Proof.
  intros Hl. pose proof un_nothing as Hu. unfold DownloadExecutor.body.
  log_step Hl Hu; [apply (does_min_free sr snap _)|].
  log_step Hl Hu; [apply does_abort, _|]. wp_step; [eapply log_ret; eassumption|].
  log_step Hl Hu; [apply does_advance, _|].
  eapply (log_bind _ _ _ evs0 [] None); [apply does_resolve, _|exact Hl|exact Hu|]. clear Hl. intros selection s1 Ht Hl.
  log_step Hl Hu; [apply (does_min_free sr snap _)|].
  log_step Hl Hu; [apply does_abort, _|]. wp_step; [eapply log_ret; eassumption|].
  wp_step. eapply wp_mono; [by apply log_create| |intros f s2 Hs; cbv beta in Hs; eapply logged_so_far; eassumption].
  intros workspace s2 [-> [E1 E2]]. clear Hl Hu. wp_step.
  change (wp (set_workspace ?o) ?Q ?X s2) with (Q tt (s2 <| at_workspace := o |>)). cbv beta.
  wp_step. eapply wp_mono; [apply log_download; [exact Ht|by split]| |]; cbv beta.
  2: { intros f s3 (runs & Hr & Hl). eapply logged_so_far; [exact Hl|]. exact (un_running _ _ Ht Hr). }
  intros _ s3 (runs & Hr & Hl). pose proof (un_running selection runs Ht Hr) as Hu.
  log_step Hl Hu; [apply does_abort, _|]. wp_step; [eapply log_ret; eassumption|]. exact (log_finish _ _ runs _ Ht Hr Hl).
Qed.

(** The clean-up of the [finally] clause completes the protocol. *)
Lemma log_finally evs0 s : so_far evs0 s ->
  exists s', finally_cleanup sr s = (inr tt, s') /\ exists evs, protocol evs /\ at_events s' = evs0 ++ evs.
Proof.
  intros (evs & Hu & E). unfold finally_cleanup. erewrite bind_run by reflexivity.
  inversion Hu as [E1 E2|selection runs Ht Hr E1 E2|selection runs p Ht Hr Hp E1 E2|selection runs p Ht Hr Hp E1 E2
                  |selection runs p Ht Hr Hp E1 E2]; subst evs.
  - exists s. split; [done|]. exists []. split; [constructor|done].
  - pose proof (log_cleanup false evs0 _ _ s (conj E (eq_sym E2))) as Hc. unfold wp in Hc. unfold bind, attempt.
    destruct (cleanup_attempt_workspace sr own_workspace false s) as [[f|[]] s']; destruct Hc as [Ec _]; exists s';
      (split; [done|]); eexists; (split; [|exact Ec]); cbn; by eapply did_work; [| |constructor].
  - pose proof (log_cleanup false evs0 _ _ s (conj E (eq_sym E2))) as Hc. unfold wp in Hc. unfold bind, attempt.
    destruct (cleanup_attempt_workspace sr own_workspace false s) as [[f|[]] s']; destruct Hc as [Ec _]; exists s';
      (split; [done|]); eexists; (split; [|exact Ec]); cbn; rewrite <- app_assoc; by eapply did_work; [| |constructor].
  - exists s. split; [done|]. eexists. split; [|exact E]. by eapply did_work; [| |constructor].
  - exists s. split; [done|]. eexists. split; [|exact E]. by eapply did_work; [| |constructor].
Qed.

Lemma log_execute s : exists evs, protocol evs /\ at_events (execute snap s).2 = at_events s ++ evs.
Proof.
  unfold DownloadExecutor.execute. do 3 (erewrite bind_run by reflexivity).
  set (s0 := s <| at_lease_lost := false |> <| at_user_cancel := false |> <| at_workspace := None |>).
  assert (Hl : logged (at_events s) [] None s0) by (split; [by rewrite app_nil_r|done]).
  pose proof (log_body _ _ Hl) as Hb.
  assert (Hh : wp (try_catch (body snap) (fun f => Some (handler ds _worker_id sr snap f)))
    (fun _ => so_far (at_events s)) (fun _ => so_far (at_events s)) s0).
  { apply wp_try_catch. eapply wp_mono; [exact Hb|done|]. cbv beta. intros f s1 (evs & Hu & E).
    eapply log_last; [apply does_handler, _|by split|exact Hu]. }
  unfold wp in Hh. unfold bind at 1, attempt at 1.
  destruct (try_catch _ _ s0) as [r s1]. cbn.
  assert (Hs : so_far (at_events s) s1) by (destruct r; exact Hh).
  destruct (log_finally _ _ Hs) as (s2 & E2 & evs & Hp & Ee). exists evs. split; [done|].
  by rewrite (bind_run _ _ _ _ _ E2).
Qed.
End Protocol.

(** C13: A download attempt touches the database only through the statements of the
    repository. Whatever the tools, the file system, the extractor and the clock
    do, and wherever an error or a cancellation strikes - also when a commit is
    done but not heard of - if what the other tasks and processes do in between is
    made of steps of the system, so is the attempt as a whole; so everything proved
    of reachable databases and of the life cycle of a job holds during and after
    it. *)
Theorem attempt_is_made_of_steps snap s :
  (forall n w, rtc step w (others sr n w)) -> reachable (at_world s) ->
  rtc step (at_world s) (at_world (execute snap s).2) /\ reachable (at_world (execute snap s).2).
Proof.
  intros Ho (ck & us & Hr). pose proof (proj1 (steps_execute snap Ho s)) as Hs. split; [exact Hs|].
  exists ck, us. by transitivity (at_world s).
Qed.

(** C12: What an attempt does besides its statements follows one protocol, whatever
    happens. It either does nothing, or creates the workspace of this job, attempt
    and fence, then only runs [yt-dlp], [ffmpeg] and [ffprobe] there, with the
    clean environment and the argument lists of the selection that the job's
    stored target and format resolve to; it publishes at most once, in the
    container of the selection; and it always tries to remove the workspace. The
    ready commit comes last: it names the published artifact, and follows the
    removal, which succeeded. *)
Theorem attempt_follows_protocol snap s :
  exists evs, protocol snap evs /\ at_events (execute snap s).2 = at_events s ++ evs.
Proof. exact (log_execute snap s). Qed.

(** C14: An attempt whose lease is over is harmless. When the job's fence has moved
    on, or the job is not leased under the snapshot's fence any more, then, even
    while the others go on, no transaction of the attempt writes to any table -
    what the tables show is what the others did - and no artifact is recorded as
    ready. *)
Theorem lapsed_attempt_is_harmless snap s row :
  (forall n w, rtc step w (others sr n w)) -> reachable (at_world s) ->
  media_download_jobs (at_world s) !! cs_job_id snap = Some row -> spent (abs row) (cs_fence snap) ->
  passes (at_world s) (at_world (execute snap s).2) /\
  exists evs, at_events (execute snap s).2 = at_events s ++ evs /\ forall a, Readied a ∉ evs.
Proof.
  intros Ho Hr Er Hs. destruct (harmless_execute snap Ho s) as [Hh _].
  destruct Hh as (_ & Hp & He); [|by split]. split; [done|]. by exists row.
Qed.
End Attempts.
End ExecutorTheorems.

(** ** Two attempts *)
Module ExecutorExamples.
Import DownloadStates MediaDownloadJobRepository DownloadLifecycle DownloadOperations DownloadExecutor ExecutorTheorems.
Import UrlExamples InspectionExamples MediaJobService.
#[local] Existing Instance no_idna.

Definition download_settings : DownloadSettings := {|
  media_download_max_bytes := 10 ^ 9; media_download_timeout_seconds := fl_int 600;
  media_download_min_free_bytes := 10 ^ 8; media_download_stdout_max_bytes := 65536;
  media_download_stderr_max_bytes := 65536; media_download_retry_base_seconds := fl_int 2;
  media_download_retry_max_seconds := fl_int 60; media_download_socket_timeout_seconds := fl_of_decimal 155 1;
  media_inspection_ytdlp_path := "/opt/bin/yt-dlp"; media_muxing_ffmpeg_path := "/usr/bin/ffmpeg";
  media_muxing_ffprobe_path := "/usr/bin/ffprobe"; media_muxing_timeout_seconds := fl_int 300;
  media_muxing_max_stdout_bytes := 65536; media_muxing_max_stderr_bytes := 65536;
  media_muxing_duration_tolerance_seconds := fl_int 2 |}.

Definition trusted (size : Z) : FileStat := {|
  fs_kind := Regular; fs_group_or_other_writable := false; fs_trusted_owner := true; fs_own := true;
  fs_executable := true; fs_nlink := 1; fs_size := size |}.

Definition finished : ProcessResult := {| exit_code := Some 0; stdout := [Byte.x7b]; timed_out := false; signal := None |}.

(** Everything works; half of the file is seen once, and the watchdog looks once. *)
Definition calm : Surroundings := {|
  others := fun _ w => w;
  fate := fun _ => Goes;
  interrupted := fun _ => None;
  free_bytes := fun _ => inr (10 ^ 12);
  make_workspace := fun _ => inr tt;
  lstat := fun _ _ => Tools.Found (trusted 1000);
  listing := fun _ directory => inr (Some [{| de_name := "stream.mp4"; de_stat := Some (trusted 4500000) |}]);
  file_size := fun _ _ => inr 51000000;
  tree_size := fun _ _ => 9000000;
  tool_run := fun _ _ => {| tr_events := [Observed 4500000; Watched Stops]; tr_end := inr finished |};
  stage_output := fun _ => inr tt;
  publish_files := fun _ => inr (77%N, 51000000, "00");
  remove_tree := fun _ _ => inr tt;
  monotonic := fun n m => fl_int (Z.of_nat m) |}.

(** What [ffprobe] says of the muxed film. *)
Definition probed (raw : list Byte.byte) : option Json := Some (JObj
  [("streams", JArr [JObj [("codec_type", JStr "video"); ("codec_name", JStr "h264")];
                     JObj [("codec_type", JStr "audio"); ("codec_name", JStr "aac")]]);
   ("format", JObj [("format_name", JStr "mov,mp4,m4a,3gp,3g2,mj2"); ("duration", JStr "60.5"); ("size", JStr "51000000")])]).

Definition offer (n : nat) : MediaFormat := default FormatExamples.demo_format (mm_formats SelectionExamples.demo_metadata !! n).

(** A job for the [n]-th format of the demo film, claimed by a worker. *)
Definition request (n : nat) : EnqueueArgs := {|
  eq_media_job_id := 7; eq_format_option_id := format_option_id (offer n);
  eq_provider_id := jt_provider_id target; eq_canonical_provider_url := of_chars (jt_canonical target);
  eq_media_id := of_chars (jt_media_id target); eq_hostname := of_chars (jt_hostname target);
  eq_path := of_chars (jt_path target); eq_scheme := "https"; eq_port := None;
  eq_selected_format_snapshot := format_members (offer n);
  eq_now := 0; eq_ttl_seconds := 1000; eq_max_attempts := 2; eq_parent_expires_at := seconds 3600;
  eq_suggested_filename := None; eq_job_id := Some 50%N |}.

Definition claimed (n : nat) : World :=
  DownloadExamples.run (OpClaim DownloadExamples.no_locks "w1" (seconds 600) 0 1)
    (DownloadExamples.run (OpEnqueue (request n)) DownloadExamples.demo_parent).

Definition job (n : nat) : MediaDownloadJob := DownloadExamples.demo_row (claimed n).

Definition started (w : World) : Attempt := {|
  at_world := w; at_next := 0; at_lease_lost := false; at_user_cancel := false; at_workspace := None; at_events := [] |}.

Definition worker (sr : Surroundings) (snap : DownloadClaimSnapshot) : Attempt -> (Failure + unit) * Attempt :=
  execute job_settings settings SelectionExamples.demo_settings WorkerExamples.ws download_settings "w1" "/srv/artifacts"
    registry DEFAULT_PROVIDER_CAPABILITIES (Some hosts) (Some (validate settings hosts resolver)) probed sr snap.

Definition outcome (sr : Surroundings) (n : nat) : (Failure + unit) * Attempt :=
  worker sr (snapshot_from_job (job n)) (started (claimed n)).

(** The program of a run, and what the other events are. *)
Definition shown (e : Event) : string :=
  match e with
  | Created _ => "workspace"
  | Ran request => path_name (default "" (head (rq_argv request)))
  | Published p => "published " ++ pa_content_type p
  | Removal _ _ ok => if ok then "removed" else "not removed"
  | Readied _ => "ready"
  end%string.
Definition seen (r : (Failure + unit) * Attempt) :=
  (r.1, shown <$> at_events r.2,
   (fun j => (dj_public_state j, dj_progress_percent j, dj_artifact_id j)) <$> media_download_jobs (at_world r.2) !! 50%N).

(** A muxed film and a direct one, from the claim to the artifact. *)
Example films_are_published :
  seen (outcome calm 0) = (inr tt, ["workspace"; "yt-dlp"; "yt-dlp"; "ffmpeg"; "ffprobe"; "published video/mp4"; "removed"; "ready"],
                           Some (READY, None, Some 77%N)) /\
  seen (outcome calm 1) = (inr tt, ["workspace"; "yt-dlp"; "published video/mp4"; "removed"; "ready"],
                           Some (READY, None, Some 77%N)).
Proof. split; by vm_compute. Qed.

(** The client cancels while the first tool runs. *)
Definition cancelled_meanwhile : Surroundings := {|
  others := fun n w => if (10 <=? n)%nat then DownloadExamples.run (OpRequestCancel 50 (seconds 5)) w else w;
  fate := fate calm; interrupted := interrupted calm; free_bytes := free_bytes calm; make_workspace := make_workspace calm;
  lstat := lstat calm; listing := listing calm; file_size := file_size calm; tree_size := tree_size calm;
  tool_run := fun _ _ => {| tr_events := [Observed 4500000; Watched Stops; Watched Stops]; tr_end := inr finished |};
  stage_output := stage_output calm; publish_files := publish_files calm; remove_tree := remove_tree calm;
  monotonic := monotonic calm |}.

(** The tool fails and the workspace cannot be removed. *)
Definition broken : Surroundings := {|
  others := others calm; fate := fate calm; interrupted := interrupted calm; free_bytes := free_bytes calm;
  make_workspace := make_workspace calm; lstat := lstat calm; listing := listing calm; file_size := file_size calm;
  tree_size := tree_size calm;
  tool_run := fun _ _ => {| tr_events := []; tr_end := inr {| exit_code := Some 1; stdout := []; timed_out := false; signal := None |} |};
  stage_output := stage_output calm; publish_files := publish_files calm;
  remove_tree := fun _ _ => inl (download_error DOWNLOAD_STORAGE_UNAVAILABLE "CLEANUP_FAILED");
  monotonic := monotonic calm |}.

Example films_are_given_up :
  seen (outcome cancelled_meanwhile 1) = (inr tt, ["workspace"; "yt-dlp"; "removed"], Some (EXPIRED, None, None)) /\
  seen (outcome broken 1) = (inr tt, ["workspace"; "yt-dlp"; "not removed"], Some (QUEUED, None, None)).
Proof. split; by vm_compute. Qed.

Lemma reachable_claimed n : reachable (claimed n).
Proof. unfold claimed. do 2 apply DownloadExamples.reachable_op. exact DownloadExamples.demo_parent_reachable. Defined.

Lemma reachable_started n : reachable (at_world (started (claimed n))).
Proof. cbn [started at_world]. apply reachable_claimed. Defined.

Lemma calm_steps n w : rtc step w (others calm n w).
Proof. apply rtc_refl. Defined.

Lemma attempt_is_made_of_steps_witness :
  rtc step (at_world (started (claimed 0))) (at_world (outcome calm 0).2) /\
  dj_public_state (DownloadExamples.demo_row (at_world (outcome calm 0).2)) = READY.
Proof.
  split; [|by vm_compute]. unfold outcome, worker.
  refine (proj1 (attempt_is_made_of_steps job_settings settings SelectionExamples.demo_settings WorkerExamples.ws
    download_settings "w1" "/srv/artifacts" registry DEFAULT_PROVIDER_CAPABILITIES (Some hosts)
    (Some (validate settings hosts resolver)) probed calm (snapshot_from_job (job 0)) (started (claimed 0))
    calm_steps (reachable_started 0))).
Defined.

(** The worker was stopped and gave the job back; its attempt goes on. *)
Definition given_back : World := DownloadExamples.run (OpRelease 50 "w1" 1 (seconds 3)) (claimed 1).

Lemma given_back_over : reachable (at_world (started given_back)) /\
  media_download_jobs (at_world (started given_back)) !! cs_job_id (snapshot_from_job (job 1)) =
    Some (DownloadExamples.demo_row given_back) /\
  spent (abs (DownloadExamples.demo_row given_back)) (cs_fence (snapshot_from_job (job 1))).
Proof.
  split; [cbn [started at_world]; unfold given_back; apply DownloadExamples.reachable_op; exact (reachable_claimed 1)|].
  split; [by vm_compute|]. right. split; by vm_compute.
Defined.

Lemma lapsed_attempt_is_harmless_witness :
  shown <$> at_events (worker calm (snapshot_from_job (job 1)) (started given_back)).2 = [] /\
  dj_public_state (DownloadExamples.demo_row given_back) = QUEUED /\
  passes calm (at_world (started given_back)) (at_world (worker calm (snapshot_from_job (job 1)) (started given_back)).2).
Proof.
  split; [by vm_compute|]. split; [by vm_compute|]. destruct given_back_over as (Hr & Er & Hs). unfold worker.
  refine (proj1 (lapsed_attempt_is_harmless job_settings settings SelectionExamples.demo_settings WorkerExamples.ws
    download_settings "w1" "/srv/artifacts" registry DEFAULT_PROVIDER_CAPABILITIES (Some hosts)
    (Some (validate settings hosts resolver)) probed calm (snapshot_from_job (job 1)) (started given_back)
    _ calm_steps Hr Er Hs)).
Defined.
End ExecutorExamples.
